(* ===== verification/_CoqProject ===== *)
-Q . S2P
Prelude.v
PyData.v
PyFloat.v
FloatTheory.v
FloatRound.v
PyText.v
PyDigits.v
FloatDecimal.v
PyParse.v
PyJson.v
Sha256.v
PyTime.v
PyDate.v
PyCsv.v
Sql.v
Db.v
Contracts.v
Adapters.v
Etl.v
Candles.v
Timeframes.v
NseSession.v
Realtime.v
History.v
Registry.v
Risk.v
Execution.v
Outcomes.v
Decisions.v
DecisionStore.v
StrategyRuntime.v
Pipeline.v
PipelineTheory.v
PaperBatch.v
Lifecycle.v
PaperStore.v
Controller.v
Supervisor.v
Commands.v
OpsStore.v
Security.v
PyDecimal.v
FinOps.v
Qwen.v
Technical.v
Screening.v
Evaluation.v
NseValidation.v
RegistryStore.v
Strategies.v
NseStore.v
Sectors.v
Regime.v
Correlation.v
PaperPolicy.v
PaperDecision.v
PaperSession.v
Providers.v
Dhan.v
DhanAuth.v
Universe.v
ReadModels.v
Api.v
StateStores.v
LakeStore.v
