(* ===== verification/Prelude.v ===== *)
(** * NanoDelta: a verification of the paper-trading runtime

    NanoDelta (src/src/nanodelta) turns provider market data into advisory
    decisions and paper orders for three markets (NSE, forex, crypto).  Data
    flows through a three-layer store (Bronze raw records, Silver canonical
    candles, Gold features); strategies, admitted by a registry that demands
    validation and approval, propose signals on the features; a staged
    pipeline filters, ranks, reviews, allocates and revalidates them; a risk
    engine decides each intent; a paper engine fills the approved ones and a
    lifecycle manages the open positions; a controller and a budget guard
    stand beside it.  This library models those parts as executable Rocq
    functions over the same data and proves what makes them correct.

    ** The files, bottom up

    - [Prelude]: exceptions, the error monad [result], the state-and-error
      monad [M] (state changes made before a raise stay, as in Python),
      inversion and preservation tactics ([inv_ok], [preserve], [raising])
      with their hint databases.
    - [PyData], [PyFloat], [PyText], [PyDigits], [PyParse], [PyJson],
      [PyTime], [PyDate], [PyDecimal], [Sha256]: the parts of Python and its
      standard library the code uses: [==], insertion-ordered dicts, stable
      sorting, binary64 floats (the kernel's, so every rounding is the real
      one), [sum], [repr] and [float()] of floats, JSON text, datetimes with
      [isoformat], [fromisoformat] and [fromtimestamp], decimals, SHA-256;
      [PyCsv]: the readers of the csv module.
    - [Sql], [Db]: rows with upserts and updates, and the connection: a
      database is its tables, the state the process keeps beside them and the
      faults its statements will meet; [committed], [reading] and
      [transaction] are the shapes of the code's methods.
    - [FloatTheory], [FloatRound], [FloatDecimal]: binary64 operations as
      correctly rounded integer fractions, the monotonicity and error lemmas
      the bounds rest on, and that 17 digits identify a float.
    - Data: [Contracts] (contracts.py, features.py), [Adapters] (contracts.py
      RawRecord, markets/adapters.py), [Etl] (storage.py, pipeline.py),
      [Candles] (runtime/realtime.py: quotes, CandleBuilder, payloads),
      [Timeframes] (history/timeframes.py), [NseSession]
      (markets/nse_session.py), [Realtime] (runtime/realtime.py: the market
      cycle; runtime/feed_state.py; providers/registry.py), [History]
      (history/engine.py), [Sectors] (universe/sectors.py,
      runtime/index_feed.py), [Universe] (universe/nse.py,
      runtime/universe.py).
    - Providers: [Providers] (base.py, transports.py, okx.py, poloniex.py,
      oanda.py, truedata.py), [Dhan] (dhan.py), [DhanAuth] (dhan_auth.py).
    - Strategies: [Registry] (strategies/registry.py, validation.py),
      [StrategyRuntime] (strategies/runtime.py), [Technical]
      (technical_features.py), [Screening] (tradeability.py), [Evaluation]
      (evaluation.py), [NseValidation] (validation/nse.py), [Strategies]
      (technical.py, builtin.py), [Regime] (symbol_regime.py,
      runtime/regime.py), [Correlation] (runtime/correlation.py).
    - Decisions: [Risk] (risk/engine.py), [Execution] (paper/execution.py),
      [Outcomes] (outcomes/learning.py), [Decisions] (decisions.py),
      [Pipeline] and [PipelineTheory] (orchestration/decision_pipeline.py),
      [PaperBatch] (orchestration/paper_batch.py), [Lifecycle]
      (paper/lifecycle.py), [PaperPolicy] (runtime/paper_policy.py),
      [PaperDecision] (runtime/paper_decision.py, portfolio_snapshot.py,
      technical_context.py and the queries of regime.py and correlation.py),
      [PaperSession] (runtime/paper_session.py).
    - Operations: [Controller] (operations/controller.py), [Supervisor]
      (runtime/supervisor.py), [Commands] (runtime/control.py), [FinOps]
      (finops/core.py), [Qwen] (finops/qwen.py, runtime/llm_review.py),
      [Security] (security.py), [ReadModels] (api/read_models.py), [Api]
      (api/app.py, api/runtime.py).
    - Durable stores: [DecisionStore] (decisions_postgres.py), [PaperStore]
      (paper/postgres.py, lifecycle_postgres.py), [RegistryStore]
      (strategies/postgres.py), [NseStore] (validation/postgres.py,
      service.py), [OpsStore] (operations/postgres.py, runtime/postgres.py),
      [StateStores] (history/postgres.py, runtime/feed_state.py), [LakeStore]
      (persistence/postgres.py).

    An object with state is a record and its methods are computations in [M]
    over it; a frozen dataclass is a record with a function for the checks of
    its constructor; an enumeration is an inductive type.  A store in a
    database is the record of the tables it reads and writes, a table the list
    of its rows, and a method one transaction over them: it commits or leaves
    the tables alone, and whether the database fails is given from outside.
    Tasks that run side by side ([Supervisor], [Commands], the leases of
    [PaperSession], the calls of [Security], the processes that share a
    token in [DhanAuth]) are sequences of steps in any order.  Components meet
    at interfaces: [DecisionLedger] (class with laws, instances in [Decisions]
    and [DecisionStore]), [RecordStore]/[WriteOnce] in [Etl] (the file lake is
    an instance of both, the tables of [LakeStore] are a record store),
    [PaperSessionStore] in [PaperSession] (instances: memory and tables), the
    feed state store of [Realtime] (implemented in [StateStores]), strategy
    plugins as records of functions in [StrategyRuntime] (instances in
    [Strategies]).

    ** What the theorems show

    - Data: ingestion is idempotent whatever the order of the payload's
      members, always keeps Bronze, writes Silver for settled valid candles
      only, never changes a stored record, and turns the adapters' exceptions
      into rejections except for two classes that escape; canonical JSON
      round-trips; the candle builder equals a reference that sees all quotes
      at once; Gold features come from consecutive settled candles.  The
      realtime cycle ends, reports each outcome and does not go back to a
      failed provider early; the backfill covers the window page by page,
      advances only over stored candles, repairs its gaps and reports its
      status exactly.  The paginated clients end within as many
      requests as rows were asked for, requests are retried and streams
      reconnected a bounded number of times, subscriptions cover their
      symbols and packets round-trip; a stored access token serves every
      process until it is about to expire; the universe resolves a symbol to
      the one security id its rows give, and a publication replaces the
      earlier one.
    - Strategies: no indicator and no simulated trade looks ahead; the screen,
      the regime score, the breadth rule and the correlations compute what
      they say in binary64; every built-in plugin answers within the signal's
      contract; approvals are admitted on validated evidence and revocation is
      permanent; research needs ready data.
    - Decisions: an entry passed every gate; allocations respect positions,
      sectors, capital and correlations; conflicts are resolved by rank; the
      ledger is complete and append-only; exits-only cycles open nothing.  The
      decision service runs these under its own portfolio and policy, and the
      continuous session processes each input once under an exclusive lease,
      records its failures and protects recovered positions.
    - Execution: the paper engine refines an append-only journal, is
      idempotent per key and atomic per batch; risk approvals are within the
      limits as computed in binary64; protective exits only reduce; triggered
      plans close once.
    - Operations: the controller's audit trail determines every state;
      commands are idempotent; workers move through their life cycle and
      drain in bounded time; queued commands are all consumed; the budget
      guard keeps each day within its limits and the gateway accounts for
      every reservation it took; ended sessions stay ended and guesses of a
      password are bounded; no route of the API changes anything without the
      authority it asks for, and the pages are read by fixed statements with
      their inputs as parameters.
    - Durable stores: whichever statements fail, the tables hold what the
      in-memory counterpart holds after the calls that returned (decisions,
      paper ledger, registry, history, feeds), an accepted command is queued
      exactly once, and a record of the lake is written once.  Where two
      processes or a process and its cache can disagree with the in-memory
      component, an Example runs the case.

    ** Bounds, fuel and limits of the model

    Recursion is structural except for the JSON decoder, the decimal digits
    of floats and the loop over the messages of a stream: the decoder's fuel
    is the length of the text plus one and is proved enough, 17 rounds of the
    digit search are proved enough, and the realtime cycle is proved to end
    within its event budget plus the messages without a quote, when the
    streams carry finitely many of those.  A paginated fetch is given as many
    rounds as bars were asked for, since a page that continues holds at least one row;
    all rows of a resource as many as there are pages of 500; both are proved
    enough.  Padding and blocks of SHA-1 and the groups of base 32 are
    counted by the length of the text.  Datetimes carry a fixed offset; the
    range of years is checked where a datetime is parsed or built from a
    timestamp and not elsewhere.  Strings are ASCII.  Dict and tuple equality
    ignores the identity shortcut Python takes for NaN members.  Integers are
    unbounded and not limited to 4300 digits in text.  Decimals are finite
    without signed zero.  The JSON decoder accepts the text the encoder
    writes.  External code is a parameter: strategy plugins, the reviewer and
    the position manager of a cycle, workers, the ledger, provider clients,
    clocks, random identifiers and secrets, scrypt, the time-zone database and
    the power function of the correlation.  Every locked operation and every
    transaction is one step.

    ** Not modelled

    The command lines (history/cli.py, runtime/cli.py, persistence/cli.py,
    strategies/cli.py, security_cli.py, validation/runner.py) and the
    validation router wrap calls that are modelled in arguments, prompts and
    printing.  The schema migrations run files of SQL; the constraints the
    code relies on are in the tables of the stores.  The metrics
    (observability.py and the middleware) observe only.  The adapter to the
    agent framework (agents/tradingagents.py) and the polling of the live
    object of the TrueData package call packages outside the repository.  The
    assembly of services from the environment (build_app, build_finops,
    runtime/realtime_config.py, history/config.py) and the parallel
    synchronisation of the universe decide nothing the assembled parts do
    not.  HTTP and WebSocket transport, the decoding of their bytes to JSON
    and the rendering of answers are operations of the world. *)

From stdpp Require Import prelude strings list.

(** ** Exceptions and the error monad

    A Python function that may raise is a function into [result]; the
    exception classes the modelled code raises or catches are the
    constructors of [exn], each with its message. *)

Inductive exn : Type :=
| ValueError (msg : string)
| PermissionError (msg : string)
| LookupError (msg : string)
| KeyError (msg : string)
| TypeError (msg : string)
| RuntimeError (msg : string)
| ZeroDivisionError
| OverflowError (msg : string)
| AssertionError (msg : string)
| OtherException (cls msg : string).

#[export] Instance exn_eq_dec : EqDecision exn.
Proof. solve_decision. Defined.

Inductive result (A : Type) : Type :=
| Ok (a : A)
| Err (e : exn).
Arguments Ok {A} a.
Arguments Err {A} e.

#[export] Instance result_ret : MRet result := fun A a => Ok a.
#[export] Instance result_bind : MBind result := fun A B f m =>
  match m with Ok a => f a | Err e => Err e end.

(** [if cond: raise e] *)
Definition raise_if (cond : bool) (e : exn) : result unit :=
  if cond then Err e else Ok tt.

Definition is_ok {A} (r : result A) : bool :=
  match r with Ok _ => true | Err _ => false end.

(** Left-to-right evaluation of a comprehension whose body may raise. *)
Fixpoint map_result {A B} (f : A -> result B) (l : list A) : result (list B) :=
  match l with
  | [] => Ok []
  | x :: l' => y ← f x; ys ← map_result f l'; mret (y :: ys)
  end.

(** ** State and exceptions

    A method that mutates an object and may raise is a function of the
    object's state that returns the state reached as well as the outcome:
    mutations made before a [raise] stay, as they do in Python. *)

Definition M (S A : Type) : Type := S -> result A * S.

#[export] Instance M_ret {S} : MRet (M S) := fun A a s => (Ok a, s).
#[export] Instance M_bind {S} : MBind (M S) := fun A B f m s =>
  match m s with
  | (Ok a, s') => f a s'
  | (Err e, s') => (Err e, s')
  end.

Definition lift {S A} (r : result A) : M S A := fun s => (r, s).
Definition raise {S A} (e : exn) : M S A := fun s => (Err e, s).
Definition get_state {S} : M S S := fun s => (Ok s, s).
Definition modify {S} (f : S -> S) : M S unit := fun s => (Ok tt, f s).
Definition when {S} (b : bool) (m : M S unit) : M S unit :=
  if b then m else mret tt.

(** [try: m  except Exception: restore the saved state; raise] *)
Definition restoring {S A} (saved : S) (m : M S A) : M S A := fun s =>
  match m s with
  | (Ok a, s') => (Ok a, s')
  | (Err e, _) => (Err e, saved)
  end.

(** A method of a component [T] held in a field of the state [S]. *)
Definition zoom {S T A} (get : S -> T) (set : T -> S -> S) (m : M T A) : M S A :=
  fun s => let '(r, t) := m (get s) in (r, set t s).

(** [for x in l: body] where the body returns nothing. *)
Fixpoint for_each {S A} (l : list A) (body : A -> M S unit) : M S unit :=
  match l with
  | [] => mret tt
  | x :: l' => _ ← body x; for_each l' body
  end.

(** [for x in l: body] with an accumulator: the variables the loop rebinds. *)
Fixpoint fold_each {S A B} (l : list A) (acc : B) (body : B -> A -> M S B) : M S B :=
  match l with
  | [] => mret acc
  | x :: l' => acc' ← body acc x; fold_each l' acc' body
  end.

(** [tuple(body(x) for x in l)] *)
Fixpoint map_each {S A B} (l : list A) (body : A -> M S B) : M S (list B) :=
  match l with
  | [] => mret []
  | x :: l' => y ← body x; ys ← map_each l' body; mret (y :: ys)
  end.

(** ** Inversion of monadic computations *)

Lemma result_bind_ok {A B} (f : A -> result B) m b :
  m ≫= f = Ok b <-> exists a, m = Ok a /\ f a = Ok b.
Proof. destruct m; simpl; split; intros H; [eauto|..]; try done; by destruct H as (? & [= <-] & ?). Qed.

Lemma result_bind_err {A B} (f : A -> result B) m e :
  m ≫= f = Err e <-> m = Err e \/ exists a, m = Ok a /\ f a = Err e.
Proof.
  destruct m as [a|e']; simpl; split.
  - intros H. right. exists a. done.
  - by intros [[=]|(? & [= <-] & ?)].
  - intros [= ->]. by left.
  - by intros [[= ->]|(? & [=] & ?)].
Qed.

Lemma raise_if_ok c e u : raise_if c e = Ok u <-> c = false.
Proof. by destruct c, u. Qed.

Lemma raise_if_err c e e' : raise_if c e = Err e' <-> c = true /\ e = e'.
Proof. destruct c; simpl; split; [intros [= <-] | intros [_ <-] | | intros []]; done. Qed.

Lemma map_result_ok {A B} (f : A -> result B) l l' :
  map_result f l = Ok l' <-> Forall2 (fun a b => f a = Ok b) l l'.
Proof.
  revert l'; induction l as [|x l IH]; intros l'; simpl.
  - split; [intros [= <-]; constructor | by inversion 1].
  - rewrite result_bind_ok; split.
    + intros (y & Hy & (ys & Hys & [= <-])%result_bind_ok).
      constructor; [done | by apply IH].
    + inversion 1 as [|? y ? ys Hy Hys]; subst. exists y. split; [done|].
      apply result_bind_ok. exists ys. by rewrite IH.
Qed.

Lemma map_result_total {A B} (f : A -> result B) l :
  (forall x, x ∈ l -> exists y, f x = Ok y) -> exists ys, map_result f l = Ok ys.
Proof.
  induction l as [|x l IH]; intros H; simpl; [eauto|].
  destruct (H x) as [y ->]; [by left|]. simpl.
  destruct IH as [ys ->]; [intros z Hz; apply H; by right|]. simpl. eauto.
Qed.

Lemma map_result_elem {A B} (f : A -> result B) l ys y :
  map_result f l = Ok ys -> y ∈ ys -> exists x, x ∈ l /\ f x = Ok y.
Proof.
  rewrite map_result_ok. induction 1 as [|x z l zs Hf _ IH]; [by intros ?%elem_of_nil|].
  intros [->|Hy]%elem_of_cons; [exists x; split; [by left|done]|].
  destruct (IH Hy) as (x' & ? & ?). exists x'. split; [by right|done].
Qed.

Lemma M_bind_ok {S A B} (f : A -> M S B) (m : M S A) s b s' :
  (m ≫= f) s = (Ok b, s') <->
  exists a s1, m s = (Ok a, s1) /\ f a s1 = (Ok b, s').
Proof.
  unfold mbind, M_bind. destruct (m s) as [[a|e] s1] eqn:E; split.
  - eauto.
  - by intros (? & ? & [= <- <-] & ?).
  - done.
  - by intros (? & ? & [=] & ?).
Qed.

Lemma M_bind_run {S A B} (f : A -> M S B) (m : M S A) s a s1 : m s = (Ok a, s1) -> (m ≫= f) s = f a s1.
Proof. intros H. unfold mbind, M_bind. by rewrite H. Qed.

Lemma M_bind_err {S A B} (f : A -> M S B) (m : M S A) s e s' :
  (m ≫= f) s = (Err e, s') <->
  m s = (Err e, s') \/ exists a s1, m s = (Ok a, s1) /\ f a s1 = (Err e, s').
Proof.
  unfold mbind, M_bind. destruct (m s) as [[a|e'] s1] eqn:E; split.
  - intros H; right; eauto.
  - by intros [[=]|(? & ? & [= <- <-] & ?)].
  - intros [= -> ->]. by left.
  - by intros [[= -> ->]|(? & ? & [=] & ?)].
Qed.

Lemma lift_ok {S A} (r : result A) (s s' : S) a :
  lift r s = (Ok a, s') <-> r = Ok a /\ s' = s.
Proof. unfold lift. split; [by intros [= -> ->] | by intros [-> ->]]. Qed.

Lemma lift_err {S A} (r : result A) (s s' : S) e :
  lift r s = (Err e, s') <-> r = Err e /\ s' = s.
Proof. unfold lift. split; [by intros [= -> ->] | by intros [-> ->]]. Qed.

Lemma Ok_inj {A} (a b : A) : Ok a = Ok b -> a = b.
Proof. by intros [= ->]. Qed.

Lemma Ok_pair_inj {S A} (a b : A) (s s' : S) : (Ok a, s) = (Ok b, s') -> a = b /\ s = s'.
Proof. by intros [= -> ->]. Qed.

(** [inv_ok H] takes a successful monadic computation apart, one bind at a
    time, naming nothing: the facts are left in the context. *)
Ltac inv_ok H :=
  lazymatch type of H with
  | (mbind _ _) = Ok _ =>
      let a := fresh "a" in let H1 := fresh "Hok" in let H2 := fresh "Hok" in
      apply result_bind_ok in H; destruct H as (a & H1 & H2);
      inv_ok H1; inv_ok H2
  | (mbind _ _) _ = (Ok _, _) =>
      let a := fresh "a" in let s := fresh "st" in
      let H1 := fresh "Hok" in let H2 := fresh "Hok" in
      apply M_bind_ok in H; destruct H as (a & s & H1 & H2);
      inv_ok H1; inv_ok H2
  | lift _ _ = (Ok _, _) =>
      let H1 := fresh "Hok" in
      apply lift_ok in H; destruct H as [H1 ->]; inv_ok H1
  | raise_if _ _ = Ok _ => apply raise_if_ok in H
  | mret _ = Ok _ => apply Ok_inj in H
  | Ok _ = Ok _ => apply Ok_inj in H
  | mret _ _ = (Ok _, _) => let H' := fresh "Hst" in apply Ok_pair_inj in H; destruct H as [H H']
  | (Ok _, _) = (Ok _, _) => let H' := fresh "Hst" in apply Ok_pair_inj in H; destruct H as [H H']
  | Err _ = Ok _ => discriminate H
  | _ => idtac
  end.

(** ** The exceptions a computation can raise *)

Definition raises_only {A} (P : exn -> Prop) (r : result A) : Prop :=
  match r with Ok _ => True | Err e => P e end.

Lemma raises_bind {A B} P (m : result A) (f : A -> result B) :
  raises_only P m -> (forall a, raises_only P (f a)) -> raises_only P (m ≫= f).
Proof. intros Hm Hf. destruct m; [apply Hf|done]. Qed.
Lemma raises_ret {A} P (a : A) : raises_only P (mret a).
Proof. done. Qed.
Lemma raises_if P c e : P e -> raises_only P (raise_if c e).
Proof. by destruct c. Qed.

(** The components' own lemmas go here; [raising] tries them last. *)
Create HintDb raises discriminated.
Ltac raising :=
  repeat match goal with
  | |- raises_only _ (mbind _ _) => apply raises_bind; [|intros ?]
  | |- raises_only _ (mret _) => apply raises_ret
  | |- raises_only _ (Ok _) => exact I
  | |- raises_only _ (raise_if _ _) => apply raises_if
  | |- raises_only _ (if ?b then _ else _) => destruct b
  | |- raises_only _ (match ?x with _ => _ end) => destruct x
  | |- raises_only _ _ => solve [eauto with raises]
  end.

(** A relation between the states before and after that every step of a
    computation has, whatever its outcome. *)
Definition preserves {S A} (R : S -> S -> Prop) (m : M S A) : Prop :=
  forall s, R s (m s).2.

Lemma preserves_run {S A} (R : S -> S -> Prop) (m : M S A) s r s' :
  preserves R m -> m s = (r, s') -> R s s'.
Proof. intros Hm H. specialize (Hm s). by rewrite H in Hm. Qed.

Section Preserves.
Context {S : Type} (R : S -> S -> Prop).
Context `{!PreOrder R}.

Lemma preserves_ret {A} (a : A) : preserves R (mret a).
Proof. intros s. reflexivity. Qed.

Lemma preserves_lift {A} (r : result A) : preserves R (lift r).
Proof. intros s. reflexivity. Qed.

Lemma preserves_raise {A} e : preserves R (raise (A := A) e).
Proof. intros s. reflexivity. Qed.

Lemma preserves_get : preserves R get_state.
Proof. intros s. reflexivity. Qed.

Lemma preserves_bind {A B} (m : M S A) (f : A -> M S B) :
  preserves R m -> (forall a, preserves R (f a)) -> preserves R (m ≫= f).
Proof.
  intros Hm Hf s. specialize (Hm s). unfold mbind, M_bind.
  destruct (m s) as [[a|e] s1]; simpl in *; [|done].
  etransitivity; [exact Hm | apply Hf].
Qed.

Lemma preserves_for_each {A} (l : list A) body :
  (forall x, x ∈ l -> preserves R (body x)) -> preserves R (for_each l body).
Proof.
  induction l as [|x l IH]; intros Hb; simpl; [apply preserves_ret|].
  apply preserves_bind; [apply Hb; left | intros _; apply IH; intros y Hy].
  apply Hb. by right.
Qed.

Lemma preserves_fold_each {A B} (l : list A) (acc : B) body :
  (forall b x, x ∈ l -> preserves R (body b x)) -> preserves R (fold_each l acc body).
Proof.
  revert acc; induction l as [|x l IH]; intros acc Hb; simpl; [apply preserves_ret|].
  apply preserves_bind; [apply Hb; left | intros b; apply IH; intros c y Hy].
  apply Hb. by right.
Qed.

Lemma preserves_map_each {A B} (l : list A) (body : A -> M S B) :
  (forall x, x ∈ l -> preserves R (body x)) -> preserves R (map_each l body).
Proof.
  induction l as [|x l IH]; intros Hb; simpl; [apply preserves_ret|].
  apply preserves_bind; [apply Hb; left|]. intros y.
  apply preserves_bind; [apply IH; intros z Hz; apply Hb; by right|].
  intros ys. apply preserves_ret.
Qed.

Lemma preserves_if {A} (b : bool) (m1 m2 : M S A) :
  preserves R m1 -> preserves R m2 -> preserves R (if b then m1 else m2).
Proof. by destruct b. Qed.
End Preserves.

(** The components' own lemmas go here; [preserve] tries them last. *)
Create HintDb preserves discriminated.

(** [preserve] walks through a computation, splitting binds, tests and loops;
    the steps it does not know are left. *)
Ltac preserve :=
  repeat match goal with
  | |- preserves _ (mbind _ _) => apply preserves_bind; [typeclasses eauto| |intros ?]
  | |- preserves _ (mret _) => apply preserves_ret; typeclasses eauto
  | |- preserves _ (lift _) => apply preserves_lift; typeclasses eauto
  | |- preserves _ (raise _) => apply preserves_raise; typeclasses eauto
  | |- preserves _ get_state => apply preserves_get; typeclasses eauto
  | |- preserves _ (for_each _ _) => apply preserves_for_each; [typeclasses eauto|intros ? ?]
  | |- preserves _ (fold_each _ _ _) => apply preserves_fold_each; [typeclasses eauto|intros ? ? ?]
  | |- preserves _ (map_each _ _) => apply preserves_map_each; [typeclasses eauto|intros ? ?]
  | |- preserves _ (if ?b then _ else _) => destruct b
  | |- preserves _ (match ?x with _ => _ end) => destruct x
  | |- preserves _ _ => solve [eauto with preserves]
  end.

(** Loop invariant rule for [fold_each] on the successful outcome. *)
Lemma fold_each_inv {S A B} (I : list A -> B -> S -> Prop) (l : list A) acc body (s : S) b s' :
  I [] acc s ->
  (forall done acc s x acc' s', x ∈ l -> I done acc s ->
     body acc x s = (Ok acc', s') -> I (done ++ [x]) acc' s') ->
  fold_each l acc body s = (Ok b, s') -> I l b s'.
Proof.
  intros Hinit Hstep. cut (forall pre, I pre acc s ->
    fold_each l acc body s = (Ok b, s') -> I (pre ++ l) b s'); [by intros H; apply (H [])|].
  clear Hinit. revert acc s.
  induction l as [|x l IH]; intros acc s pre Hpre; simpl.
  - intros [= <- <-]. by rewrite app_nil_r.
  - intros (acc' & s1 & Hb & Hrest)%M_bind_ok.
    rewrite (assoc_L _ pre [x] l : pre ++ x :: l = (pre ++ [x]) ++ l).
    eapply IH; [| |exact Hrest].
    + intros done' a1 s2 y a2 s3 Hy. apply Hstep. by right.
    + eapply Hstep; [by left | exact Hpre | exact Hb].
Qed.

(** ** Boolean quantifiers *)

Lemma existsb_false_Forall {A} (f : A -> bool) (l : list A) :
  existsb f l = false <-> Forall (fun x => f x = false) l.
Proof.
  induction l as [|x l IH]; simpl; [by split|].
  by rewrite orb_false_iff, IH, Forall_cons.
Qed.

Lemma existsb_true_elem {A} (f : A -> bool) (l : list A) :
  existsb f l = true <-> exists x, x ∈ l /\ f x = true.
Proof.
  rewrite existsb_exists. split; intros (x & Hx & Hf); exists x; by rewrite list_elem_of_In in *.
Qed.

Lemma filter_none {A} (f : A -> bool) l : (forall x, x ∈ l -> f x = false) -> List.filter f l = [].
Proof. induction l as [|x l IH]; intros H; [done|]. cbn. rewrite (H x) by (by left). apply IH. intros y Hy. apply H. by right. Qed.

Lemma forallb_Forall {A} (f : A -> bool) (l : list A) :
  forallb f l = true <-> Forall (fun x => f x = true) l.
Proof.
  induction l as [|x l IH]; simpl; [by split|].
  by rewrite andb_true_iff, IH, Forall_cons.
Qed.

Lemma filter_elem {A} (f : A -> bool) (l : list A) x :
  x ∈ List.filter f l <-> x ∈ l /\ f x = true.
Proof. rewrite !list_elem_of_In. apply filter_In. Qed.
