(* ===== verification/PyData.v ===== *)
(** * Python's containers

    [dict] (insertion ordered), [sorted] (stable), [dict.fromkeys] used as an
    order-preserving deduplication, [max(.., key=..)], and [==] as the type
    class [PyEq], which dataclass equality is derived from. *)

From stdpp Require Import prelude strings list sorting.
From S2P Require Import Prelude.

(** ** Equality as Python's [==] computes it *)

Class PyEq (A : Type) := py_eq : A -> A -> bool.
#[export] Hint Mode PyEq ! : typeclass_instances.

Definition py_ne `{PyEq A} (x y : A) : bool := negb (py_eq x y).

Notation "x ==p y" := (py_eq x y) (at level 65, no associativity) : stdpp_scope.
Notation "x !=p y" := (py_ne x y) (at level 65, no associativity) : stdpp_scope.

(** A type on which Python's [==] is identity of values. *)
Class PyEqLeibniz (A : Type) `{PyEq A} :=
  py_eq_true : forall x y : A, x ==p y = true <-> x = y.

(** A value that equals itself; a float NaN does not. *)
Definition py_refl `{PyEq A} (x : A) : Prop := x ==p x = true.

#[export] Instance py_eq_string : PyEq string := String.eqb.
#[export] Instance py_eq_Z : PyEq Z := Z.eqb.
#[export] Instance py_eq_bool : PyEq bool := Bool.eqb.
#[export] Instance py_eq_option `{PyEq A} : PyEq (option A) := fun x y =>
  match x, y with
  | Some a, Some b => a ==p b
  | None, None => true
  | _, _ => false
  end.
#[export] Instance py_eq_prod `{PyEq A, PyEq B} : PyEq (A * B) := fun x y =>
  (x.1 ==p y.1) && (x.2 ==p y.2).
#[export] Instance py_eq_list `{PyEq A} : PyEq (list A) :=
  fix go x y :=
  match x, y with
  | [], [] => true
  | a :: x', b :: y' => (a ==p b) && go x' y'
  | _, _ => false
  end.

#[export] Instance py_eq_string_leibniz : PyEqLeibniz string.
Proof. intros x y. apply String.eqb_eq. Qed.
#[export] Instance py_eq_Z_leibniz : PyEqLeibniz Z.
Proof. intros x y. apply Z.eqb_eq. Qed.
#[export] Instance py_eq_bool_leibniz : PyEqLeibniz bool.
Proof. intros x y. apply Bool.eqb_true_iff. Qed.
#[export] Instance py_eq_option_leibniz `{PyEqLeibniz A} : PyEqLeibniz (option A).
Proof.
  intros [x|] [y|]; unfold py_eq, py_eq_option; [|done..].
  rewrite py_eq_true. split; [by intros -> | by intros [= ->]].
Qed.
#[export] Instance py_eq_prod_leibniz `{PyEqLeibniz A, PyEqLeibniz B} : PyEqLeibniz (A * B).
Proof.
  intros [x1 x2] [y1 y2]. unfold py_eq, py_eq_prod. simpl.
  rewrite andb_true_iff, !py_eq_true. split; [by intros [-> ->] | by intros [= -> ->]].
Qed.
#[export] Instance py_eq_list_leibniz `{PyEqLeibniz A} : PyEqLeibniz (list A).
Proof.
  intros x; induction x as [|a x IH]; intros [|b y]; unfold py_eq; simpl; [done..|].
  change (py_eq_list x y) with (x ==p y).
  rewrite andb_true_iff, py_eq_true, IH. split; [by intros [-> ->] | by intros [= -> ->]].
Qed.

Lemma py_ne_true `{PyEqLeibniz A} (x y : A) : x !=p y = true <-> x <> y.
Proof. unfold py_ne. rewrite negb_true_iff, <-not_true_iff_false. by rewrite py_eq_true. Qed.
Lemma py_ne_false `{PyEqLeibniz A} (x y : A) : x !=p y = false <-> x = y.
Proof. unfold py_ne. rewrite negb_false_iff. apply py_eq_true. Qed.
Lemma py_eq_false `{PyEqLeibniz A} (x y : A) : x ==p y = false <-> x <> y.
Proof. rewrite <-not_true_iff_false. by rewrite py_eq_true. Qed.
Lemma py_refl_leibniz `{PyEqLeibniz A} (x : A) : py_refl x.
Proof. by apply py_eq_true. Qed.
Lemma py_refl_list `{PyEq A} (l : list A) : Forall py_refl l -> py_refl l.
Proof.
  induction 1 as [|x l Hx Hl IH]; [done|].
  change ((x ==p x) && (l ==p l) = true). unfold py_refl in *. by rewrite Hx, IH.
Qed.
Lemma py_refl_option `{PyEq A} (o : option A) :
  (forall x, o = Some x -> py_refl x) -> py_refl o.
Proof. destruct o as [x|]; [|done]. intros H0. by apply (H0 x). Qed.

(** [==] is transitive on the values of the type, NaN included. *)
Class PyEqTrans (A : Type) `{PyEq A} :=
  py_eq_trans : forall x y z : A, x ==p y = true -> y ==p z = true -> x ==p z = true.

#[export] Instance py_eq_trans_leibniz `{PyEqLeibniz A} : PyEqTrans A.
Proof. intros x y z. rewrite !py_eq_true. by intros -> ->. Qed.
#[export] Instance py_eq_trans_prod `{PyEqTrans A, PyEqTrans B} : PyEqTrans (A * B).
Proof.
  intros x y z. unfold py_eq, py_eq_prod. rewrite !andb_true_iff.
  intros [Ha Hb] [Ha' Hb']. split; by eapply py_eq_trans.
Qed.
#[export] Instance py_eq_trans_list `{PyEqTrans A} : PyEqTrans (list A).
Proof.
  intros x. induction x as [|a x IH]; intros [|b y] [|c z]; unfold py_eq; simpl; try done.
  rewrite !andb_true_iff. intros [Ha Hb] [Ha' Hb']. split; [by eapply py_eq_trans | by eapply (IH y z)].
Qed.

(** ** dict *)

Record dict (K V : Type) := Dict { entries : list (K * V) }.
Arguments Dict {K V} entries.
Arguments entries {K V} d.

Section Dict.
Context {K V : Type} `{EqDecision K}.

Fixpoint assoc_get (k : K) (l : list (K * V)) : option V :=
  match l with
  | [] => None
  | (k', v) :: l' => if decide (k = k') then Some v else assoc_get k l'
  end.

(** Assigning to a present key keeps its place; a new key goes last. *)
Fixpoint assoc_set (k : K) (v : V) (l : list (K * V)) : list (K * V) :=
  match l with
  | [] => [(k, v)]
  | (k', v') :: l' => if decide (k = k') then (k', v) :: l' else (k', v') :: assoc_set k v l'
  end.

Fixpoint assoc_del (k : K) (l : list (K * V)) : list (K * V) :=
  match l with
  | [] => []
  | (k', v') :: l' => if decide (k = k') then l' else (k', v') :: assoc_del k l'
  end.

#[export] Instance dict_lookup : Lookup K V (dict K V) := fun k d => assoc_get k (entries d).
#[export] Instance dict_insert : Insert K V (dict K V) := fun k v d => Dict (assoc_set k v (entries d)).
#[export] Instance dict_delete : Delete K (dict K V) := fun k d => Dict (assoc_del k (entries d)).
#[export] Instance dict_empty : Empty (dict K V) := Dict [].

Definition dict_keys (d : dict K V) : list K := (entries d).*1.
Definition dict_values (d : dict K V) : list V := (entries d).*2.
Definition dict_mem (k : K) (d : dict K V) : bool :=
  match d !! k with Some _ => true | None => false end.

Definition dict_setdefault (k : K) (v : V) (d : dict K V) : dict K V :=
  match d !! k with Some _ => d | None => <[k:=v]> d end.

(** Every dict a program builds has distinct keys. *)
Definition dict_wf (d : dict K V) : Prop := NoDup (dict_keys d).

Lemma dict_lookup_empty k : (∅ : dict K V) !! k = None.
Proof. done. Qed.

Lemma dict_lookup_insert_eq (d : dict K V) k v : <[k:=v]> d !! k = Some v.
Proof.
  destruct d as [l]. unfold lookup, dict_lookup, insert, dict_insert. simpl.
  induction l as [|[k' v'] l IH]; simpl; [by rewrite decide_True|].
  destruct (decide (k = k')) as [->|?]; simpl; [by rewrite decide_True|].
  by rewrite decide_False.
Qed.

Lemma dict_lookup_insert_ne (d : dict K V) k k' v :
  k <> k' -> <[k:=v]> d !! k' = d !! k'.
Proof.
  intros Hne. destruct d as [l]. unfold lookup, dict_lookup, insert, dict_insert. simpl.
  induction l as [|[k1 v1] l IH]; simpl; [by rewrite decide_False by done|].
  destruct (decide (k = k1)) as [->|?]; simpl.
  - by rewrite !decide_False by done.
  - by rewrite IH.
Qed.

Lemma dict_lookup_insert (d : dict K V) k k' v :
  <[k:=v]> d !! k' = if decide (k = k') then Some v else d !! k'.
Proof.
  destruct (decide (k = k')) as [->|]; [apply dict_lookup_insert_eq|].
  by apply dict_lookup_insert_ne.
Qed.

Lemma dict_insert_id (d : dict K V) k v : d !! k = Some v -> <[k:=v]> d = d.
Proof.
  destruct d as [l]. unfold lookup, dict_lookup, insert, dict_insert. simpl. intros H. f_equal.
  induction l as [|[k' v'] l IH]; simpl in *; [done|].
  destruct (decide (k = k')) as [->|?]; [by injection H as -> | by rewrite IH].
Qed.

Lemma dict_insert_insert (d : dict K V) k v v' : <[k:=v]> (<[k:=v']> d) = <[k:=v]> d.
Proof.
  destruct d as [l]. unfold insert, dict_insert. simpl. f_equal.
  induction l as [|[k1 v1] l IH]; simpl; [by rewrite decide_True|].
  destruct (decide (k = k1)) as [->|?]; simpl; [by rewrite decide_True|].
  by rewrite decide_False, IH.
Qed.

Lemma dict_keys_insert_Some (d : dict K V) k v :
  is_Some (d !! k) -> dict_keys (<[k:=v]> d) = dict_keys d.
Proof.
  destruct d as [l]. unfold lookup, dict_lookup, insert, dict_insert, dict_keys. simpl.
  intros H. induction l as [|[k' v'] l IH]; simpl in *; [by destruct H|].
  destruct (decide (k = k')) as [->|?]; simpl; [done|]. f_equal. by apply IH.
Qed.

Lemma dict_entries_insert_None (d : dict K V) k v :
  d !! k = None -> entries (<[k:=v]> d) = entries d ++ [(k, v)].
Proof.
  destruct d as [l]. unfold lookup, dict_lookup, insert, dict_insert. simpl.
  intros H. induction l as [|[k' v'] l IH]; simpl in *; [done|].
  destruct (decide (k = k')); [done|]. by rewrite IH.
Qed.

Lemma dict_values_insert_None (d : dict K V) k v :
  d !! k = None -> dict_values (<[k:=v]> d) = dict_values d ++ [v].
Proof. intros H. unfold dict_values. rewrite (dict_entries_insert_None d k v H). by rewrite fmap_app. Qed.

(** An assignment keeps every entry but the one it replaces. *)
Lemma dict_insert_entries (d : dict K V) k v k' v' :
  (k', v') ∈ entries d ->
  (k', v') ∈ entries (<[k:=v]> d) \/ (k' = k /\ d !! k = Some v').
Proof.
  destruct d as [l]. unfold lookup, dict_lookup, insert, dict_insert. simpl.
  induction l as [|[k1 v1] l IH]; simpl; [by intros ?%elem_of_nil|].
  rewrite elem_of_cons. destruct (decide (k = k1)) as [->|?].
  - intros [[= -> ->]|Hin]; [by right | left; by right].
  - intros [[= -> ->]|Hin]; [left; by left|].
    destruct (IH Hin) as [?|?]; [left; by right | by right].
Qed.

Lemma dict_insert_entries_inv (d : dict K V) k v k' v' :
  (k', v') ∈ entries (<[k:=v]> d) -> (k', v') ∈ entries d \/ (k' = k /\ v' = v).
Proof.
  destruct d as [l]. unfold insert, dict_insert. simpl.
  induction l as [|[k1 v1] l IH]; simpl.
  - rewrite list_elem_of_singleton. intros [= -> ->]. by right.
  - destruct (decide (k = k1)) as [->|?]; rewrite !elem_of_cons.
    + intros [[= -> ->]|Hin]; [by right | left; by right].
    + intros [[= -> ->]|Hin]; [left; by left|]. destruct (IH Hin) as [?|?]; [left; by right | by right].
Qed.

Lemma dict_lookup_elem (d : dict K V) k v : d !! k = Some v -> (k, v) ∈ entries d.
Proof.
  destruct d as [l]. unfold lookup, dict_lookup. simpl.
  induction l as [|[k' v'] l IH]; simpl; [done|].
  destruct (decide (k = k')) as [->|?]; [intros [= ->]; by left|]. intros H. right. by apply IH.
Qed.

Lemma dict_elem_insert (d : dict K V) k v : (k, v) ∈ entries (<[k:=v]> d).
Proof. apply dict_lookup_elem, dict_lookup_insert_eq. Qed.

Lemma dict_elem_lookup (d : dict K V) k v :
  dict_wf d -> (k, v) ∈ entries d -> d !! k = Some v.
Proof.
  destruct d as [l]. unfold dict_wf, dict_keys, lookup, dict_lookup. simpl.
  induction l as [|[k' v'] l IH]; simpl; [by intros ? ?%elem_of_nil|].
  intros [Hn Hnd]%NoDup_cons. rewrite elem_of_cons. intros [[= -> ->]|Hin].
  - by rewrite decide_True.
  - rewrite decide_False; [by apply IH|]. intros ->. apply Hn.
    apply list_elem_of_fmap. by exists (k', v).
Qed.

Lemma dict_lookup_None_keys (d : dict K V) k : d !! k = None <-> k ∉ dict_keys d.
Proof.
  destruct d as [l]. unfold lookup, dict_lookup, dict_keys. simpl.
  induction l as [|[k' v'] l IH]; simpl; [set_solver|].
  rewrite not_elem_of_cons. destruct (decide (k = k')) as [->|?].
  - split; [done | by intros [? _]].
  - rewrite IH. tauto.
Qed.

Lemma dict_wf_empty : dict_wf ∅.
Proof. constructor. Qed.

Lemma dict_wf_insert (d : dict K V) k v : dict_wf d -> dict_wf (<[k:=v]> d).
Proof.
  intros Hwf. destruct (d !! k) as [w|] eqn:E; unfold dict_wf.
  - rewrite dict_keys_insert_Some; [done | eauto].
  - unfold dict_keys. rewrite dict_entries_insert_None by done. rewrite fmap_app.
    apply NoDup_app. split; [done|]. split; [|apply NoDup_singleton].
    intros x Hx. simpl. rewrite list_elem_of_singleton. intros ->.
    by apply dict_lookup_None_keys in E.
Qed.

Lemma dict_values_elem (d : dict K V) v :
  dict_wf d -> v ∈ dict_values d <-> exists k, d !! k = Some v.
Proof.
  intros Hwf. unfold dict_values. rewrite list_elem_of_fmap. split.
  - intros ([k v'] & -> & Hin). exists k. by apply dict_elem_lookup.
  - intros (k & Hk). exists (k, v). split; [done|]. by apply dict_lookup_elem.
Qed.

(** The dict [d'] has every binding of [d]: nothing was changed or removed. *)
Definition dict_extends (d d' : dict K V) : Prop :=
  forall k v, d !! k = Some v -> d' !! k = Some v.

#[export] Instance dict_extends_preorder : PreOrder dict_extends.
Proof. split; [by intros d k v | intros d1 d2 d3 H1 H2 k v Hk; auto]. Qed.

Lemma dict_extends_insert (d : dict K V) k v :
  (forall w, d !! k = Some w -> w = v) -> dict_extends d (<[k:=v]> d).
Proof.
  intros H k' w Hw. rewrite dict_lookup_insert. case_decide as E; [|done].
  subst k'. by rewrite (H w Hw).
Qed.
End Dict.
#[global] Arguments dict_insert : simpl never.
#[global] Arguments dict_lookup : simpl never.
#[global] Arguments dict_delete : simpl never.

(** ** dict.fromkeys: the first occurrence of every element, in order *)

Section Fromkeys.
Context {A : Type} `{EqDecision A}.

Definition add_key (acc : list A) (x : A) : list A :=
  if decide (x ∈ acc) then acc else acc ++ [x].
Definition fromkeys (l : list A) : list A := foldl add_key [] l.

Lemma foldl_add_key_elem l acc x : x ∈ foldl add_key acc l <-> x ∈ acc \/ x ∈ l.
Proof.
  revert acc; induction l as [|y l IH]; intros acc; simpl; [set_solver|].
  rewrite IH. unfold add_key. case_decide; set_solver.
Qed.

Lemma fromkeys_elem l x : x ∈ fromkeys l <-> x ∈ l.
Proof. unfold fromkeys. rewrite foldl_add_key_elem. set_solver. Qed.

Lemma fromkeys_NoDup l : NoDup (fromkeys l).
Proof.
  unfold fromkeys. assert (NoDup (@nil A)) as H by constructor. revert H.
  generalize (@nil A). induction l as [|y l IH]; intros acc Hacc; simpl; [done|].
  apply IH. unfold add_key. case_decide; [done|].
  apply NoDup_app. split; [done|]. split; [set_solver | apply NoDup_singleton].
Qed.

Lemma fromkeys_length_NoDup l : length l = length (fromkeys l) -> NoDup l.
Proof.
  intros H. assert (Hp : fromkeys l ≡ₚ l).
  { apply submseteq_length_Permutation; [|lia].
    apply NoDup_submseteq; [apply fromkeys_NoDup|]. intros x. by rewrite fromkeys_elem. }
  rewrite <-Hp. apply fromkeys_NoDup.
Qed.

(** [len(set(l)) > 1] fails exactly when the members agree. *)
Lemma fromkeys_agree l :
  (1 <? length (fromkeys l))%nat = false <-> forall x y, x ∈ l -> y ∈ l -> x = y.
Proof.
  rewrite Nat.ltb_ge. split.
  - intros Hl x y. rewrite <-(fromkeys_elem l x), <-(fromkeys_elem l y).
    destruct (fromkeys l) as [|a [|b k]]; simpl in Hl; [by intros ?%elem_of_nil | | lia].
    by intros ->%list_elem_of_singleton ->%list_elem_of_singleton.
  - intros Hag. pose proof (fromkeys_NoDup l) as Hnd. pose proof (fromkeys_elem l) as He.
    destruct (fromkeys l) as [|a [|b k]]; simpl; [lia | lia|].
    exfalso. apply NoDup_cons in Hnd as [Hn _]. apply Hn.
    rewrite (Hag a b); [by left | apply He; by left | apply He; right; by left].
Qed.

Lemma foldl_add_key_NoDup l acc :
  NoDup (acc ++ l) -> foldl add_key acc l = acc ++ l.
Proof.
  revert acc; induction l as [|y l IH]; intros acc Hnd; simpl; [by rewrite app_nil_r|].
  unfold add_key at 2. rewrite decide_False.
  - rewrite IH; by rewrite <-(assoc_L app acc [y] l).
  - apply NoDup_app in Hnd as (_ & Hd & _). intros Hin. apply (Hd y Hin). by left.
Qed.

Lemma fromkeys_id l : NoDup l -> fromkeys l = l.
Proof. intros H. by apply (foldl_add_key_NoDup l []). Qed.
End Fromkeys.

(** ** sorted

    CPython's sort is stable and only asks [<]. [lt y x] says [y < x]. *)

Section Sorted.
Context {A : Type} (lt : A -> A -> bool).

Fixpoint insert_sorted (x : A) (l : list A) : list A :=
  match l with
  | [] => [x]
  | y :: l' => if lt y x then y :: insert_sorted x l' else x :: l
  end.
Definition py_sorted (l : list A) : list A := foldr insert_sorted [] l.

Lemma insert_sorted_perm x l : insert_sorted x l ≡ₚ x :: l.
Proof.
  induction l as [|y l IH]; simpl; [done|]. destruct (lt y x); [|done].
  by rewrite IH, Permutation_swap.
Qed.
Lemma py_sorted_perm l : py_sorted l ≡ₚ l.
Proof. induction l as [|x l IH]; simpl; [done|]. by rewrite insert_sorted_perm, IH. Qed.
Lemma py_sorted_elem l x : x ∈ py_sorted l <-> x ∈ l.
Proof. by rewrite py_sorted_perm. Qed.
Lemma py_sorted_length l : length (py_sorted l) = length l.
Proof. by rewrite py_sorted_perm. Qed.

(** [x] may stand before [y]. *)
Definition not_after (x y : A) : Prop := lt y x = false.

Context (P : A -> Prop).
Context (lt_asym : forall x y, P x -> P y -> lt x y = true -> lt y x = false).
Context (not_after_trans : forall x y z, P x -> P y -> P z ->
  not_after x y -> not_after y z -> not_after x z).

Lemma insert_sorted_sorted x l :
  P x -> Forall P l -> StronglySorted not_after l -> StronglySorted not_after (insert_sorted x l).
Proof.
  intros Hx. induction l as [|y l IH]; simpl; [repeat constructor|].
  intros [Hy Hl]%Forall_cons [Hs Hall]%StronglySorted_inv.
  destruct (lt y x) eqn:E.
  - constructor; [by apply IH|]. rewrite insert_sorted_perm. constructor; [|done].
    unfold not_after. by apply lt_asym.
  - constructor; [by constructor|]. constructor; [done|].
    rewrite Forall_forall in Hall, Hl |- *. intros z Hz.
    apply (not_after_trans x y z); auto.
Qed.

Lemma py_sorted_sorted l : Forall P l -> StronglySorted not_after (py_sorted l).
Proof.
  induction 1 as [|x l Hx Hl IH]; simpl; [constructor|].
  apply insert_sorted_sorted; [done| |done]. by rewrite py_sorted_perm.
Qed.
End Sorted.

Lemma py_sorted_id {A} (lt : A -> A -> bool) l :
  StronglySorted (not_after lt) l -> py_sorted lt l = l.
Proof.
  induction 1 as [|x l Hs IH Hall]; simpl; [done|]. rewrite IH.
  destruct l as [|y l]; simpl; [done|].
  apply Forall_cons in Hall as [Hy _]. unfold not_after in Hy. by rewrite Hy.
Qed.

(** [zip(l, l[1:])] *)
Definition consecutive {A} (l : list A) : list (A * A) := zip l (tail l).

Lemma consecutive_elem {A} (R : A -> A -> Prop) (l : list A) a b :
  StronglySorted R l -> (a, b) ∈ consecutive l -> a ∈ l /\ b ∈ l /\ R a b.
Proof.
  intros Hs. induction Hs as [|x l Hs IH Hall]; [by intros ?%elem_of_nil|].
  destruct l as [|y l]; [by intros ?%elem_of_nil|].
  unfold consecutive. simpl. intros [[= -> ->]|Hin]%elem_of_cons.
  - apply Forall_cons in Hall as [? _]. split; [by left|]. split; [by right; left|done].
  - destruct (IH Hin) as (? & ? & ?). split; [by right|]. split; [by right|done].
Qed.

(** ** max(l, key=..): the first of the greatest, [None] on an empty list *)

Fixpoint max_from {A} (lt : A -> A -> bool) (best : A) (l : list A) : A :=
  match l with
  | [] => best
  | x :: l' => max_from lt (if lt best x then x else best) l'
  end.
Definition py_max_by {A} (lt : A -> A -> bool) (l : list A) : option A :=
  match l with [] => None | x :: l' => Some (max_from lt x l') end.

Lemma max_from_elem {A} lt (best : A) l : max_from lt best l ∈ best :: l.
Proof.
  revert best; induction l as [|x l IH]; intros best; simpl; [by left|].
  specialize (IH (if lt best x then x else best)). destruct (lt best x); set_solver.
Qed.
Lemma py_max_by_elem {A} lt (l : list A) m : py_max_by lt l = Some m -> m ∈ l.
Proof. destruct l; simpl; [done|]. intros [= <-]. apply max_from_elem. Qed.

(** With a key into [Z] nothing in the list exceeds the chosen element. *)
Lemma py_max_by_Z {A} (key : A -> Z) l m :
  py_max_by (fun a b => (key a <? key b)%Z) l = Some m -> Forall (fun x => (key x <= key m)%Z) l.
Proof.
  destruct l as [|x l]; simpl; [done|]. intros [= <-]. revert x.
  induction l as [|y l IH]; intros x; simpl; [by repeat constructor|].
  destruct (Z.ltb_spec (key x) (key y)).
  - specialize (IH y). apply Forall_cons in IH as [Hy Hl]. repeat constructor; [lia|lia|done].
  - specialize (IH x). apply Forall_cons in IH as [Hx Hl]. repeat constructor; [lia|lia|done].
Qed.

(** The present members of a list of optional values. *)
Definition somes {A} (l : list (option A)) : list A :=
  mjoin ((fun o => match o with Some x => [x] | None => [] end) <$> l).

Lemma somes_app {A} (l l' : list (option A)) : somes (l ++ l') = somes l ++ somes l'.
Proof. unfold somes. by rewrite fmap_app, join_app. Qed.

Lemma somes_elem {A} (l : list (option A)) x : x ∈ somes l <-> Some x ∈ l.
Proof.
  unfold somes. rewrite list_elem_of_join. split.
  - intros (m & Hx & (o & -> & Ho)%list_elem_of_fmap). destruct o as [y|]; [|by apply elem_of_nil in Hx].
    apply list_elem_of_singleton in Hx as ->. done.
  - intros H. exists [x]. split; [by left|]. apply list_elem_of_fmap. by exists (Some x).
Qed.

(** ** sum of ints *)

Definition sumZ (l : list Z) : Z := foldr Z.add 0%Z l.

Lemma sumZ_app l1 l2 : sumZ (l1 ++ l2) = (sumZ l1 + sumZ l2)%Z.
Proof. induction l1; simpl; lia. Qed.
