(* ===== verification/PyFloat.v ===== *)
(** * Python floats

    A Python [float] is an IEEE 754 binary64 number; the model uses the
    kernel's binary64 type, with [+], [-], [*], comparisons and literals of
    the same meaning.  Two things differ from the hardware operations and are
    written out: division by zero raises, and [sum] is the compensated sum of
    CPython 3.12 (the interpreter the repository's image runs). *)

From Stdlib Require Import ZArith Floats.
From stdpp Require Import prelude strings list numbers.
From S2P Require Import Prelude PyData.
From Stdlib Require Export PrimFloat.

#[export] Instance py_eq_float : PyEq float := PrimFloat.eqb.

(** ** Operations *)

(** [a > b] and [a >= b] are [b < a] and [b <= a]. *)
Definition fgt (a b : float) : bool := (b <? a)%float.
Definition fge (a b : float) : bool := (b <=? a)%float.

(** [a / b] *)
Definition fdiv (a b : float) : result float :=
  if (b =? 0)%float then Err ZeroDivisionError else Ok (a / b)%float.

(** [min(a, b)] and [max(a, b)]: the first argument unless the second is
    strictly better. *)
Definition fmin (a b : float) : float := if (b <? a)%float then b else a.
Definition fmax (a b : float) : float := if (a <? b)%float then b else a.

(** [math.isfinite] *)
Definition isfinite (x : float) : bool := is_finite x.

(** The float nearest to an int; an infinity past the largest float. *)
Definition float_of_Z (n : Z) : float :=
  if (Z.abs n <? 2 ^ 62)%Z then
    let f := of_uint63 (Uint63.of_Z (Z.abs n)) in if (n <? 0)%Z then (- f)%float else f
  else SF2Prim (binary_normalize prec emax n 0 false).

(** [float(n)], which raises past the largest float. *)
Definition float_of_int (n : Z) : result float :=
  if (Z.abs n <? 2 ^ 1024 - 2 ^ 970)%Z then Ok (float_of_Z n)
  else Err (OverflowError "int too large to convert to float"%string).

(** [sum(xs)] over floats in CPython 3.12: the first item is added to the
    int 0, the rest with Neumaier's compensation [c], which is added at the
    end when it is neither zero nor infinite nor NaN.  [None] stands for the
    int 0 an empty sum returns. *)
Fixpoint sum_loop (total c : float) (xs : list float) : float :=
  match xs with
  | [] => if negb (c =? 0)%float && isfinite c then (total + c)%float else total
  | x :: xs' =>
      let t := (total + x)%float in
      let c' := if fge (abs total) (abs x)
                then (c + ((total - t) + x))%float
                else (c + ((x - t) + total))%float in
      sum_loop t c' xs'
  end.
Definition py_sum (xs : list float) : float :=
  match xs with
  | [] => 0%float
  | x :: xs' => sum_loop (0 + x)%float 0%float xs'
  end.

