(* ===== verification/FloatTheory.v ===== *)
(** * Theory of binary64

    Every float that is not a NaN is an integer multiple of the least
    positive subnormal (the infinities one step past the greatest finite
    number); comparisons are comparisons of these integers, and addition and
    subtraction round the exact integer sum by a monotone function [rndZ].
    The lemmas are about the kernel's floats, through their specification in
    the standard library. *)

From Stdlib Require Import ZArith Floats.
From stdpp Require Import prelude list numbers.
From S2P Require Import Prelude PyData PyFloat.

(** ** Values of floats as integers *)

Local Open Scope Z_scope.

(** The exponent of the least subnormal, and the scaled value 2^1024. *)
Definition e_min : Z := -1074.
Definition over : Z := 2 ^ 2098.

Definition mag (m : positive) (e : Z) : Z := Z.pos m * 2 ^ (e - e_min).
Definition signed (s : bool) (v : Z) : Z := if s then - v else v.

Definition sf_val (x : spec_float) : Z :=
  match x with
  | S754_zero _ => 0
  | S754_infinity s => signed s over
  | S754_nan => 0
  | S754_finite s m e => signed s (mag m e)
  end.
Definition fval (x : float) : Z := sf_val (Prim2SF x).
Definition fnan (x : float) : bool := is_nan x.

(** The quotient [p / D] rounded to the nearest integer, ties to even. *)
Definition rneQ (p D : Z) : Z :=
  let q := p / D in
  let r := p mod D in
  if 2 * r <? D then q
  else if 2 * r =? D then (if Z.even q then q else q + 1)
  else q + 1.

(** Round to nearest even on a grid of step [2 ^ n], then on the grid a
    53-bit significand imposes; [rndQ p d] rounds the fraction [p / d]. *)
Definition rne (v n : Z) : Z := rneQ v (2 ^ n).
Definition grid (v : Z) : Z := Z.max 0 (Z.log2 v - 52).
Definition rnd (v : Z) : Z := rne v (grid v) * 2 ^ grid v.
Definition rndQ (p d : Z) : Z := rneQ p (d * 2 ^ grid (p / d)) * 2 ^ grid (p / d).
Definition rndZ (v : Z) : Z := Z.sgn v * Z.min over (rnd (Z.abs v)).

(** *** Rounding is monotone *)

Lemma pow2_pos n : 0 <= n -> 0 < 2 ^ n.
Proof. intros. by apply Z.pow_pos_nonneg. Qed.

Lemma rneQ_bounds p D : p / D <= rneQ p D <= p / D + 1.
Proof. unfold rneQ. repeat case_match; lia. Qed.

Lemma rneQ_mono p p' D : 0 < D -> p <= p' -> rneQ p D <= rneQ p' D.
Proof.
  intros HD Hp. assert (Hq : p / D <= p' / D) by (by apply Z.div_le_mono).
  destruct (Z.eq_dec (p / D) (p' / D)) as [E|E].
  - assert (p mod D <= p' mod D) by (rewrite !Z.mod_eq by lia; rewrite E; lia).
    unfold rneQ. rewrite E.
    destruct (Z.ltb_spec (2 * (p mod D)) D), (Z.ltb_spec (2 * (p' mod D)) D);
      destruct (Z.eqb_spec (2 * (p mod D)) D), (Z.eqb_spec (2 * (p' mod D)) D);
      destruct (Z.even (p' / D)); lia.
  - pose proof (rneQ_bounds p D). pose proof (rneQ_bounds p' D). lia.
Qed.

Lemma rneQ_exact q D : 0 < D -> rneQ (q * D) D = q.
Proof.
  intros HD. unfold rneQ. rewrite Z.div_mul, Z.mod_mul by lia. destruct (Z.ltb_spec (2 * 0) D); [done|lia].
Qed.

Lemma rneQ_scale p D k : 0 < D -> 0 < k -> rneQ (p * k) (D * k) = rneQ p D.
Proof.
  intros HD Hk. unfold rneQ. rewrite Z.div_mul_cancel_r, Z.mul_mod_distr_r by lia. set (r := p mod D).
  replace (2 * (r * k) <? D * k) with (2 * r <? D)
    by (destruct (Z.ltb_spec (2 * r) D), (Z.ltb_spec (2 * (r * k)) (D * k)); nia).
  replace (2 * (r * k) =? D * k) with (2 * r =? D)
    by (destruct (Z.eqb_spec (2 * r) D), (Z.eqb_spec (2 * (r * k)) (D * k)); nia).
  done.
Qed.

Lemma rne_bounds v n : v / 2 ^ n <= rne v n <= v / 2 ^ n + 1.
Proof. apply rneQ_bounds. Qed.

Lemma rne_exact q n : 0 <= n -> rne (q * 2 ^ n) n = q.
Proof. intros Hn. by apply rneQ_exact, pow2_pos. Qed.

Lemma grid_nonneg v : 0 <= grid v.
Proof. unfold grid. lia. Qed.

Lemma grid_mono v w : v <= w -> grid v <= grid w.
Proof. intros H. pose proof (Z.log2_le_mono v w H). unfold grid. lia. Qed.

Lemma grid_0_small v : grid v = 0 -> v < 2 ^ 53.
Proof.
  unfold grid. intros H. destruct (Z.lt_ge_cases 0 v) as [Hv|Hv].
  - apply Z.log2_lt_pow2; lia.
  - pose proof (pow2_pos 53). lia.
Qed.

(** The quotient on the grid has 53 significant bits when the grid is coarse. *)
Lemma grid_quot v : 0 < grid v -> 2 ^ 52 <= v / 2 ^ grid v < 2 ^ 53.
Proof.
  intros Hg. pose proof (grid_nonneg v) as Hn. pose proof (pow2_pos _ Hn) as Hp.
  assert (Hv : 0 < v).
  { destruct (Z.lt_ge_cases 0 v); [done|]. unfold grid in Hg. rewrite Z.log2_nonpos in Hg by lia. lia. }
  destruct (Z.log2_spec v Hv) as [Hlo Hhi].
  assert (Hgv : grid v = Z.log2 v - 52) by (unfold grid in *; lia).
  split.
  - apply Z.div_le_lower_bound; [done|]. rewrite <-Z.pow_add_r by lia.
    by replace (grid v + 52) with (Z.log2 v) by lia.
  - apply Z.div_lt_upper_bound; [done|]. rewrite <-Z.pow_add_r by lia.
    by replace (grid v + 53) with (Z.succ (Z.log2 v)) by lia.
Qed.

Lemma rnd_small v : grid v = 0 -> rnd v = v.
Proof.
  intros H. unfold rnd. rewrite H. change (2 ^ 0) with 1. rewrite Z.mul_1_r.
  pose proof (rne_exact v 0 ltac:(lia)) as E. change (2 ^ 0) with 1 in E. by rewrite Z.mul_1_r in E.
Qed.

Lemma rnd_nonneg v : 0 <= v -> 0 <= rnd v.
Proof.
  intros Hv. unfold rnd. pose proof (grid_nonneg v). pose proof (rne_bounds v (grid v)).
  pose proof (pow2_pos _ H). assert (0 <= v / 2 ^ grid v) by (by apply Z.div_pos). nia.
Qed.

Lemma rnd_pos v : 0 < v -> 0 < rnd v.
Proof.
  intros Hv. destruct (Z.eq_dec (grid v) 0) as [E|E]; [by rewrite rnd_small|].
  pose proof (grid_nonneg v) as Hg. pose proof (grid_quot v ltac:(lia)) as [Hq _].
  pose proof (rne_bounds v (grid v)). pose proof (pow2_pos _ Hg).
  unfold rnd. pose proof (pow2_pos 52). nia.
Qed.

(** *** Rounding a fraction *)

Section RndQ.
Context (p d : Z) (Hd : 0 < d).

Lemma rndQ_quot : p / (d * 2 ^ grid (p / d)) = p / d / 2 ^ grid (p / d).
Proof. pose proof (pow2_pos _ (grid_nonneg (p / d))). by rewrite Z.div_div by lia. Qed.

Lemma rndQ_upper : 0 < grid (p / d) -> rndQ p d <= 2 ^ (53 + grid (p / d)).
Proof.
  intros Hg. pose proof (grid_quot _ Hg) as [_ Hq]. pose proof (grid_nonneg (p / d)) as Hn.
  pose proof (rneQ_bounds p (d * 2 ^ grid (p / d))) as Hb. rewrite rndQ_quot in Hb.
  pose proof (pow2_pos _ Hn). unfold rndQ. rewrite Z.pow_add_r by lia. nia.
Qed.

Lemma rndQ_lower : 0 < grid (p / d) -> 2 ^ (52 + grid (p / d)) <= rndQ p d.
Proof.
  intros Hg. pose proof (grid_quot _ Hg) as [Hq _]. pose proof (grid_nonneg (p / d)) as Hn.
  pose proof (rneQ_bounds p (d * 2 ^ grid (p / d))) as Hb. rewrite rndQ_quot in Hb.
  pose proof (pow2_pos _ Hn). unfold rndQ. rewrite Z.pow_add_r by lia. nia.
Qed.

Lemma rndQ_small : grid (p / d) = 0 -> rndQ p d = rneQ p d /\ rndQ p d <= 2 ^ 53.
Proof.
  intros Hg. pose proof (grid_0_small _ Hg). pose proof (rneQ_bounds p d).
  unfold rndQ. rewrite Hg, !Z.pow_0_r, !Z.mul_1_r. split; [done|lia].
Qed.

Lemma rndQ_nonneg : 0 <= p -> 0 <= rndQ p d.
Proof.
  intros Hp. pose proof (pow2_pos _ (grid_nonneg (p / d))).
  pose proof (rneQ_bounds p (d * 2 ^ grid (p / d))).
  assert (0 <= p / (d * 2 ^ grid (p / d))) by (apply Z.div_pos; nia). unfold rndQ. nia.
Qed.

End RndQ.

Lemma rndQ_mono p p' d : 0 < d -> p <= p' -> rndQ p d <= rndQ p' d.
Proof.
  intros Hd Hp. assert (Hq : p / d <= p' / d) by (by apply Z.div_le_mono).
  pose proof (grid_mono _ _ Hq) as Hg. pose proof (grid_nonneg (p / d)). pose proof (grid_nonneg (p' / d)) as Hg'.
  destruct (Z.eq_dec (grid (p / d)) (grid (p' / d))) as [E|E].
  - unfold rndQ. rewrite E. pose proof (pow2_pos _ Hg').
    pose proof (rneQ_mono p p' (d * 2 ^ grid (p' / d)) ltac:(nia) Hp). nia.
  - assert (Hw : 2 ^ (52 + grid (p' / d)) <= rndQ p' d) by (apply rndQ_lower; lia).
    assert (Hpw : 2 ^ (53 + grid (p / d)) <= 2 ^ (52 + grid (p' / d))) by (apply Z.pow_le_mono_r; lia).
    destruct (Z.eq_dec (grid (p / d)) 0) as [E0|E0].
    + pose proof (rndQ_small p d E0) as [_ Hs]. rewrite E0 in Hpw. change (53 + 0) with 53 in Hpw. lia.
    + pose proof (rndQ_upper p d Hd ltac:(lia)). lia.
Qed.

Lemma rndQ_scale p d k : 0 < d -> 0 < k -> rndQ (p * k) (d * k) = rndQ p d.
Proof.
  intros Hd Hk. unfold rndQ. rewrite Z.div_mul_cancel_r by lia.
  pose proof (pow2_pos _ (grid_nonneg (p / d))).
  replace (d * k * 2 ^ grid (p / d)) with (d * 2 ^ grid (p / d) * k) by ring.
  by rewrite rneQ_scale by nia.
Qed.

(** A fraction that is an integer rounds as the integer. *)
Lemma rndQ_int v d : 0 < d -> rndQ (v * d) d = rnd v.
Proof.
  intros Hd. unfold rndQ, rnd, rne. rewrite Z.div_mul by lia. rewrite (Z.mul_comm d).
  pose proof (pow2_pos _ (grid_nonneg v)). by rewrite rneQ_scale by lia.
Qed.

Lemma rnd_mono v w : v <= w -> rnd v <= rnd w.
Proof.
  intros Hvw. pose proof (rndQ_int v 1 ltac:(lia)) as <-. pose proof (rndQ_int w 1 ltac:(lia)) as <-.
  apply rndQ_mono; lia.
Qed.

Lemma over_pos : 0 < over.
Proof. by apply pow2_pos. Qed.
#[global] Opaque over.

Lemma rndZ_mono v w : v <= w -> rndZ v <= rndZ w.
Proof.
  intros H. unfold rndZ. pose proof over_pos.
  destruct (Z.sgn_spec v) as [[Hv ->]|[[Hv ->]|[Hv ->]]],
    (Z.sgn_spec w) as [[Hw ->]|[[Hw ->]|[Hw ->]]]; try lia.
  - pose proof (rnd_mono (Z.abs v) (Z.abs w)). lia.
  - pose proof (rnd_nonneg (Z.abs w)). lia.
  - pose proof (rnd_nonneg (Z.abs v)). pose proof (rnd_nonneg (Z.abs w)). lia.
  - pose proof (rnd_nonneg (Z.abs v)). lia.
  - pose proof (rnd_mono (Z.abs w) (Z.abs v)). lia.
Qed.

Lemma rndZ_opp v : rndZ (- v) = - rndZ v.
Proof. unfold rndZ. rewrite Z.sgn_opp, Z.abs_opp. lia. Qed.

Lemma rndZ_0 : rndZ 0 = 0.
Proof. done. Qed.

Lemma rndZ_pos v : 0 < rndZ v <-> 0 < v.
Proof.
  unfold rndZ. pose proof over_pos.
  destruct (Z.sgn_spec v) as [[Hv ->]|[[Hv ->]|[Hv ->]]]; [|lia|].
  - pose proof (rnd_pos (Z.abs v)). lia.
  - pose proof (rnd_nonneg (Z.abs v)). lia.
Qed.

Lemma rndZ_neg v : rndZ v < 0 <-> v < 0.
Proof. pose proof (rndZ_pos (- v)) as H. rewrite rndZ_opp in H. lia. Qed.

Lemma rndZ_eq_0 v : rndZ v = 0 <-> v = 0.
Proof. pose proof (rndZ_pos v). pose proof (rndZ_neg v). lia. Qed.

(** *** The specification's rounding is [rnd] *)

Lemma digits2_log2 m : Z.pos (digits2_pos m) = Z.log2 (Z.pos m) + 1.
Proof.
  induction m as [m IH|m IH|]; [| |done]; cbn [digits2_pos];
    rewrite Pos2Z.inj_succ, IH.
  - rewrite (Pos2Z.inj_xI m), Z.log2_succ_double by done. lia.
  - rewrite (Pos2Z.inj_xO m), Z.log2_double by done. lia.
Qed.

Lemma log2_mul_pow2' v n : 0 < v -> 0 <= n -> Z.log2 (v * 2 ^ n) = Z.log2 v + n.
Proof. intros. rewrite Z.log2_mul_pow2 by lia. lia. Qed.

(** What the pair (round bit, sticky bit) says of a remainder modulo [D]. *)
Definition loc_ok (D : Z) (r s : bool) (rem : Z) : Prop :=
  match r, s with
  | false, false => rem = 0
  | false, true => 0 < 2 * rem < D
  | true, false => 2 * rem = D
  | true, true => D < 2 * rem
  end.

(** The record holds the quotient of [p] by [D] and what it discards. *)
Definition located (p D : Z) (mrs : shr_record) : Prop :=
  0 < D /\ 0 <= shr_m mrs /\
  exists rem, p = shr_m mrs * D + rem /\ 0 <= rem < D /\ loc_ok D (shr_r mrs) (shr_s mrs) rem.

Lemma located_shr_1 p D mrs : located p D mrs -> located p (2 * D) (shr_1 mrs).
Proof.
  intros (HD & Hm & rem & Hv & Hrem & Hloc). destruct mrs as [m r s]; simpl in *.
  assert (Hs : (r || s)%bool = true /\ 0 < rem \/ (r || s)%bool = false /\ rem = 0).
  { destruct r, s; simpl in *; lia. }
  split; [lia|].
  destruct m as [|[q|q|]|]; simpl; [| | | |lia]; (split; [lia|]);
    [exists rem | exists (D + rem) | exists rem | exists (D + rem)]; (split; [lia|split; [lia|]]);
    destruct Hs as [[-> Hs]|[-> Hs]]; simpl; lia.
Qed.

Lemma iter_pos_nat {A} (f : A -> A) p x : SpecFloat.iter_pos f p x = Nat.iter (Pos.to_nat p) f x.
Proof.
  revert x; induction p as [p IH|p IH|]; intros x; [| |done]; cbn [SpecFloat.iter_pos].
  - replace (Pos.to_nat p~1) with (Pos.to_nat p + (Pos.to_nat p + 1))%nat by lia.
    by rewrite !Nat.iter_add, !IH.
  - replace (Pos.to_nat p~0) with (Pos.to_nat p + Pos.to_nat p)%nat by lia.
    by rewrite !Nat.iter_add, !IH.
Qed.

Lemma located_shr p D mrs e n : 0 <= n -> located p D mrs ->
  located p (D * 2 ^ n) (fst (shr mrs e n)) /\ snd (shr mrs e n) = e + n.
Proof.
  intros Hn H. destruct n as [|n|]; [| |lia]; cbn [shr fst snd].
  - rewrite Z.pow_0_r, Z.mul_1_r, Z.add_0_r. done.
  - split; [|done]. rewrite iter_pos_nat, <-(positive_nat_Z n). clear Hn.
    induction (Pos.to_nat n) as [|k IH]; [by rewrite Z.mul_1_r|].
    rewrite Nat.iter_succ, Nat2Z.inj_succ, Z.pow_succ_r by lia.
    replace (D * (2 * 2 ^ Z.of_nat k)) with (2 * (D * 2 ^ Z.of_nat k)) by ring. by apply located_shr_1.
Qed.

(** Rounding the record to nearest even, in terms of quotient and remainder. *)
Lemma located_round p D mrs : located p D mrs ->
  round_nearest_even (shr_m mrs) (loc_of_shr_record mrs) = rneQ p D.
Proof.
  intros (HD & Hm & rem & Hv & Hrem & Hloc).
  assert (Hq : p / D = shr_m mrs) by (symmetry; apply (Z.div_unique _ _ _ rem); lia).
  assert (Hr : p mod D = rem) by (symmetry; apply (Z.mod_unique _ _ (shr_m mrs)); lia).
  unfold rneQ. rewrite Hq, Hr. destruct mrs as [q r s]; simpl in *.
  destruct (Z.ltb_spec (2 * rem) D), (Z.eqb_spec (2 * rem) D); destruct r, s; simpl in *; try done; lia.
Qed.

(** Shifting a positive significand right by [n] and rounding is [rne]. *)
Lemma shr_round m n e :
  0 <= n ->
  let '(mrs, e') := shr (Build_shr_record (Z.pos m) false false) e n in
  round_nearest_even (shr_m mrs) (loc_of_shr_record mrs) = rne (Z.pos m) n /\ e' = e + n.
Proof.
  intros Hn. destruct (located_shr (Z.pos m) 1 (Build_shr_record (Z.pos m) false false) e n Hn) as [Hl He].
  { split; [done|]. split; [done|]. exists 0. simpl. lia. }
  destruct (shr _ e n) as [mrs e']. simpl in *. split; [|done]. rewrite Z.mul_1_l in Hl.
  by rewrite (located_round _ _ _ Hl).
Qed.

Lemma rne_scale v n k : 0 <= n -> 0 <= k -> rne (v * 2 ^ k) (n + k) = rne v n.
Proof. intros Hn Hk. unfold rne. rewrite Z.pow_add_r by lia. by apply rneQ_scale; apply pow2_pos. Qed.

Lemma mag_pos m e : e_min <= e -> 0 < mag m e.
Proof. intros H. unfold mag. pose proof (pow2_pos (e - e_min)). lia. Qed.

Lemma fexp_grid m e :
  e_min <= e -> fexp prec emax (Z.pos (digits2_pos m) + e) = e_min + grid (mag m e).
Proof.
  intros H. unfold fexp, grid, mag, SpecFloat.emin, prec, emax.
  rewrite log2_mul_pow2' by (unfold e_min in *; lia). rewrite digits2_log2. unfold e_min. lia.
Qed.

Lemma over_split a b : 0 <= a -> 0 <= b -> a + b = 2098 -> over = 2 ^ a * 2 ^ b.
Proof. intros Ha Hb E. rewrite <-Z.pow_add_r by lia. by rewrite E. Qed.

(** The rounded significand, on the grid. *)
Lemma rne_grid_bounds v :
  0 < v -> 0 < rne v (grid v) <= 2 ^ 53 /\ (0 < grid v -> 2 ^ 52 <= rne v (grid v)) /\
  (grid v = 0 -> rne v (grid v) < 2 ^ 53).
Proof.
  intros Hv. pose proof (grid_nonneg v) as Hg. pose proof (rne_bounds v (grid v)).
  destruct (Z.eq_dec (grid v) 0) as [E|E].
  - pose proof (rnd_small v E) as Hs. pose proof (grid_0_small v E).
    unfold rnd in Hs. rewrite E in Hs |- *. change (2 ^ 0) with 1 in Hs. lia.
  - pose proof (grid_quot v ltac:(lia)). pose proof (pow2_pos 52). lia.
Qed.

Definition sf_nan (x : spec_float) : bool := match x with S754_nan => true | _ => false end.

(** The last step of rounding: a significand of at most 53 bits (or exactly
    [2 ^ 53]) on a grid, or an infinity. *)
Definition finish (s : bool) (q e : Z) : spec_float :=
  let '(mrs, e') := shr_fexp prec emax q e loc_Exact in
  match shr_m mrs with
  | Z0 => S754_zero s
  | Zpos m => if Z.leb e' (Z.sub emax prec) then S754_finite s m e' else S754_infinity s
  | _ => S754_nan
  end.

Lemma round_finish s q g :
  0 <= g -> 0 < q <= 2 ^ 53 -> (0 < g -> 2 ^ 52 <= q) -> (g = 0 -> q < 2 ^ 53) ->
  sf_val (finish s q (e_min + g)) = signed s (Z.min over (q * 2 ^ g)) /\
  sf_nan (finish s q (e_min + g)) = false.
Proof.
  intros Hg Hq Hlo Hhi. unfold finish, shr_fexp.
  assert (Hov : over = 2 ^ 53 * 2 ^ 2045) by (by apply over_split).
  assert (Hov' : over = 2 ^ 52 * 2 ^ 2046) by (by apply over_split).
  pose proof (pow2_pos g Hg) as Hpg. unfold emax, e_min in *.
  destruct (Z.eq_dec q (2 ^ 53)) as [->|Hne].
  - change (Zdigits2 (2 ^ 53)) with 54. change (shr_record_of_loc (2 ^ 53) loc_Exact) with
      (Build_shr_record (2 ^ 53) false false).
    replace (fexp prec 1024 (54 + (-1074 + g)) - (-1074 + g)) with 1
      by (unfold fexp, SpecFloat.emin, prec; lia).
    change (shr {| shr_m := 2 ^ 53; shr_r := false; shr_s := false |} (-1074 + g) 1) with
      (Build_shr_record (2 ^ 52) false false, -1074 + g + 1). cbn [shr_m].
    change (2 ^ 52) with (Z.pos 4503599627370496) at 1. cbv iota beta.
    assert (Hm : 2 ^ 53 * 2 ^ g = 2 ^ 52 * 2 ^ (g + 1)) by (rewrite (Z.pow_add_r 2 g 1) by lia; lia).
    destruct (Z.leb_spec (-1074 + g + 1) (1024 - prec)) as [Hle|Hgt];
      unfold prec in *; (split; [|done]); simpl; f_equal.
    + unfold mag, e_min. replace (-1074 + g + 1 - -1074) with (g + 1) by lia.
      change (Z.pos 4503599627370496) with (2 ^ 52). rewrite <-Hm.
      assert (2 ^ g <= 2 ^ 2045) by (apply Z.pow_le_mono_r; lia). lia.
    + assert (2 ^ 2045 <= 2 ^ g) by (apply Z.pow_le_mono_r; lia). lia.
  - destruct q as [|q|]; [lia| |lia]. cbn [Zdigits2].
    assert (Hl : Z.log2 (Z.pos q) < 53) by (apply Z.log2_lt_pow2; lia).
    assert (Hn : fexp prec 1024 (Z.pos (digits2_pos q) + (-1074 + g)) - (-1074 + g) <= 0).
    { rewrite digits2_log2. unfold fexp, SpecFloat.emin, prec. lia. }
    assert (Hshr : forall r n, n <= 0 -> shr r (-1074 + g) n = (r, -1074 + g)) by (by intros r [| |] ?).
    rewrite Hshr by done. cbn [shr_m shr_record_of_loc].
    destruct (Z.leb_spec (-1074 + g) (1024 - prec)) as [Hle|Hgt];
      unfold prec in *; (split; [|done]); simpl; f_equal.
    + unfold mag, e_min. replace (-1074 + g - -1074) with g by lia.
      assert (2 ^ g <= 2 ^ 2045) by (apply Z.pow_le_mono_r; lia).
      assert (Z.pos q * 2 ^ g < 2 ^ 53 * 2 ^ 2045) by nia. lia.
    + assert (2 ^ 2046 <= 2 ^ g) by (apply Z.pow_le_mono_r; lia).
      assert (2 ^ 52 * 2 ^ 2046 <= Z.pos q * 2 ^ g) by (apply Z.mul_le_mono_nonneg; lia). lia.
Qed.

Lemma binary_round_aux_finish s m e :
  e_min <= e -> e <= e_min + grid (mag m e) ->
  binary_round_aux prec emax s (Z.pos m) e loc_Exact =
    finish s (rne (mag m e) (grid (mag m e))) (e_min + grid (mag m e)).
Proof.
  intros He Hgrid. unfold binary_round_aux.
  unfold shr_fexp at 1. cbn [Zdigits2 shr_record_of_loc]. rewrite fexp_grid by done.
  pose proof (shr_round m (e_min + grid (mag m e) - e) e ltac:(lia)) as Hr.
  destruct (shr _ e _) as [mrs e']. destruct Hr as [-> ->].
  replace (e + (e_min + grid (mag m e) - e)) with (e_min + grid (mag m e)) by lia.
  rewrite <-(rne_scale (Z.pos m) _ (e - e_min)) by lia.
  change (Z.pos m * 2 ^ (e - e_min)) with (mag m e).
  by replace (e_min + grid (mag m e) - e + (e - e_min)) with (grid (mag m e)) by lia.
Qed.

Lemma iter_xO m d : Z.pos (Pos.iter xO m d) = Z.pos m * 2 ^ Z.pos d.
Proof.
  induction d as [|d IH] using Pos.peano_ind; [simpl; lia|].
  rewrite Pos.iter_succ, Pos2Z.inj_xO, IH, Pos2Z.inj_succ, Z.pow_succ_r by lia. lia.
Qed.

Lemma shl_align_spec m e e' :
  (e' < e -> shl_align m e e' = (Z.to_pos (Z.pos m * 2 ^ (e - e')), e')) /\
  (e <= e' -> shl_align m e e' = (m, e)).
Proof.
  unfold shl_align. destruct (e' - e) as [|p|p] eqn:E; (split; [intros H|intros H]); try lia; try done.
  replace (e - e') with (Z.pos p) by lia. by rewrite <-iter_xO.
Qed.

Lemma shl_align_fst m e e' : e' <= e -> Z.pos (fst (shl_align m e e')) = Z.pos m * 2 ^ (e - e').
Proof.
  intros H. destruct (shl_align_spec m e e') as [H1 H2].
  destruct (Z.eq_dec e' e) as [->|Hne].
  - rewrite H2 by lia. rewrite Z.sub_diag. simpl. lia.
  - rewrite H1 by lia. simpl. pose proof (pow2_pos (e - e')). rewrite Z2Pos.id; lia.
Qed.

Lemma mag_shift m e k :
  e_min <= e - k -> 0 <= k -> mag (Z.to_pos (Z.pos m * 2 ^ k)) (e - k) = mag m e.
Proof.
  intros H1 H2. unfold mag. pose proof (pow2_pos k H2). rewrite Z2Pos.id by lia.
  rewrite <-Z.mul_assoc, <-Z.pow_add_r by lia. do 2 f_equal. lia.
Qed.

Lemma binary_round_finish s m e :
  e_min <= e ->
  binary_round prec emax s m e = finish s (rne (mag m e) (grid (mag m e))) (e_min + grid (mag m e)).
Proof.
  intros He. unfold binary_round. rewrite fexp_grid by done.
  destruct (shl_align_spec m e (e_min + grid (mag m e))) as [H1 H2].
  pose proof (grid_nonneg (mag m e)).
  destruct (Z.lt_ge_cases (e_min + grid (mag m e)) e) as [Hlt|Hge].
  - rewrite H1 by done. set (k := e - (e_min + grid (mag m e))).
    replace (e_min + grid (mag m e)) with (e - k) by lia.
    rewrite <-(mag_shift m e k) by lia. rewrite binary_round_aux_finish; [|lia|rewrite mag_shift; lia].
    rewrite mag_shift by lia. f_equal. lia.
  - rewrite H2 by lia. by apply binary_round_aux_finish.
Qed.

Lemma binary_round_spec s m e :
  e_min <= e ->
  let r := binary_round prec emax s m e in
  sf_val r = signed s (Z.min over (rnd (mag m e))) /\ sf_nan r = false.
Proof.
  intros He. cbv zeta. rewrite binary_round_finish by done.
  destruct (rne_grid_bounds (mag m e) (mag_pos m e He)) as (H1 & H2 & H3).
  unfold rnd. apply round_finish; [apply grid_nonneg | done..].
Qed.

Lemma binary_normalize_spec v e z :
  e_min <= e ->
  sf_val (binary_normalize prec emax v e z) = rndZ (v * 2 ^ (e - e_min)) /\
  sf_nan (binary_normalize prec emax v e z) = false.
Proof.
  intros He. pose proof (pow2_pos (e - e_min)). unfold binary_normalize, rndZ.
  destruct v as [|m|m]; [by rewrite Z.mul_0_l| |];
    destruct (binary_round_spec false m e He), (binary_round_spec true m e He).
  - rewrite Z.sgn_pos, Z.abs_eq by lia. unfold signed in *. rewrite Z.mul_1_l. done.
  - rewrite Z.sgn_neg, Z.abs_neq by lia.
    replace (- (Z.neg m * 2 ^ (e - e_min))) with (mag m e) by (unfold mag; lia).
    unfold signed in *. split; [lia|done].
Qed.

(** *** Values of valid floats *)

Lemma valid_finite s m e :
  valid_binary (S754_finite s m e) = true ->
  e_min <= e <= 971 /\ Z.pos m < 2 ^ 53 /\ (e_min < e -> 2 ^ 52 <= Z.pos m).
Proof.
  simpl. unfold bounded, canonical_mantissa. rewrite andb_true_iff, Z.eqb_eq, Z.leb_le.
  rewrite digits2_log2. unfold fexp, SpecFloat.emin, prec, emax, e_min. intros [H1 H2].
  assert (Z.log2 (Z.pos m) < 53) by lia.
  split; [lia|]. split; [by apply Z.log2_lt_pow2|].
  intros He. apply Z.log2_le_pow2; lia.
Qed.

Lemma mag_lt_over s m e : valid_binary (S754_finite s m e) = true -> 0 < mag m e < over.
Proof.
  intros (He & Hm & _)%valid_finite. split; [apply mag_pos; lia|].
  rewrite (over_split 53 2045) by lia. unfold mag.
  assert (2 ^ (e - e_min) <= 2 ^ 2045) by (apply Z.pow_le_mono_r; unfold e_min; lia).
  pose proof (pow2_pos (e - e_min)). unfold e_min in *. nia.
Qed.

Lemma rnd_mag s m e : valid_binary (S754_finite s m e) = true -> rnd (mag m e) = mag m e.
Proof.
  intros (He & Hm & Hn)%valid_finite.
  destruct (Z.eq_dec e e_min) as [->|Hne].
  - apply rnd_small. unfold mag, grid. rewrite Z.sub_diag, Z.mul_1_r.
    assert (Z.log2 (Z.pos m) < 53) by (apply Z.log2_lt_pow2; lia). lia.
  - assert (Hl : Z.log2 (Z.pos m) = 52).
    { apply Z.log2_unique; [lia|]. split; [apply Hn; lia | exact Hm]. }
    assert (Hg : grid (mag m e) = e - e_min).
    { unfold grid, mag. rewrite log2_mul_pow2' by lia. lia. }
    unfold rnd. rewrite Hg. unfold mag. by rewrite rne_exact by lia.
Qed.

Lemma rndZ_val x :
  valid_binary x = true -> rndZ (sf_val x) = sf_val x.
Proof.
  pose proof over_pos. destruct x as [s|s| |s m e]; simpl; intros Hv; [done| |done|].
  - assert (Hr : over <= rnd over).
    { assert (rnd over = over) as ->; [|lia].
      assert (Hl : Z.log2 over = 2098) by (rewrite (over_split 2098 0) by lia;
        rewrite Z.mul_1_r; by apply Z.log2_pow2).
      assert (Hg : grid over = 2046) by (unfold grid; rewrite Hl; lia).
      unfold rnd. rewrite Hg. rewrite (over_split 52 2046) by lia. by rewrite rne_exact by lia. }
    destruct s; unfold rndZ, signed; [rewrite Z.sgn_neg by lia|rewrite Z.sgn_pos by lia];
      rewrite ?Z.abs_opp, (Z.abs_eq over) by lia; lia.
  - pose proof (mag_lt_over s m e Hv). pose proof (rnd_mag s m e Hv) as Hr.
    destruct s; unfold rndZ, signed; [rewrite Z.sgn_neg by lia|rewrite Z.sgn_pos by lia];
      rewrite ?Z.abs_opp, (Z.abs_eq (mag m e)) by lia; rewrite Hr; lia.
Qed.

(** The specification compares exponents first; for canonical significands
    that is the order of the values. *)
Lemma mag_compare s1 m1 e1 s2 m2 e2 :
  valid_binary (S754_finite s1 m1 e1) = true -> valid_binary (S754_finite s2 m2 e2) = true ->
  match Z.compare e1 e2 with Lt => Lt | Gt => Gt | Eq => Pos.compare_cont Eq m1 m2 end
  = (mag m1 e1 ?= mag m2 e2).
Proof.
  assert (Hlt : forall m1 e1 m2 e2, e_min <= e1 -> Z.pos m1 < 2 ^ 53 -> 2 ^ 52 <= Z.pos m2 ->
            e1 < e2 -> mag m1 e1 < mag m2 e2).
  { clear. intros m1 e1 m2 e2 H1 H2 H3 H4. unfold mag.
    assert (2 * 2 ^ (e1 - e_min) <= 2 ^ (e2 - e_min)).
    { rewrite <-Z.pow_succ_r by lia. apply Z.pow_le_mono_r; lia. }
    pose proof (pow2_pos (e1 - e_min)). nia. }
  intros (H1 & H2 & H3)%valid_finite (H4 & H5 & H6)%valid_finite.
  symmetry. destruct (Z.compare_spec e1 e2) as [->|H|H].
  - change (Pos.compare_cont Eq m1 m2) with (Pos.compare m1 m2). unfold mag.
    pose proof (pow2_pos (e2 - e_min) ltac:(lia)). 
    change ((Z.pos m1 * 2 ^ (e2 - e_min) ?= Z.pos m2 * 2 ^ (e2 - e_min)) = (Z.pos m1 ?= Z.pos m2)).
    destruct (Z.compare_spec (Z.pos m1) (Z.pos m2)) as [->|Hm|Hm];
      [apply Z.compare_refl | apply Z.compare_lt_iff; nia | apply Z.compare_gt_iff; nia].
  - apply Z.compare_lt_iff. apply Hlt; auto; lia.
  - apply Z.compare_gt_iff. apply Hlt; auto; lia.
Qed.

Lemma sf_compare x y :
  valid_binary x = true -> valid_binary y = true -> sf_nan x = false -> sf_nan y = false ->
  SFcompare x y = Some (sf_val x ?= sf_val y).
Proof.
  intros Hx Hy. pose proof over_pos as Ho.
  assert (Hb : forall s m e, valid_binary (S754_finite s m e) = true -> 0 < mag m e < over)
    by (intros; by eapply mag_lt_over).
  destruct x as [s1|s1| |s1 m1 e1], y as [s2|s2| |s2 m2 e2];
    cbn [SFcompare sf_val sf_nan]; try done; intros _ _; f_equal;
    try (specialize (Hb _ _ _ Hx) as Hx'); try (specialize (Hb _ _ _ Hy) as Hy');
    try (destruct s1); try (destruct s2); unfold signed; symmetry;
    try (apply Z.compare_eq_iff; lia); try (apply Z.compare_lt_iff; lia); try (apply Z.compare_gt_iff; lia).
  - rewrite Z.compare_opp, Z.compare_antisym, <-(mag_compare _ _ _ _ _ _ Hx Hy).
    destruct (Z.compare e1 e2); done.
  - by rewrite <-(mag_compare _ _ _ _ _ _ Hx Hy).
Qed.

(** *** The kernel's floats *)

Lemma fnan_spec x : fnan x = sf_nan (Prim2SF x).
Proof.
  unfold fnan, is_nan. rewrite FloatAxioms.eqb_spec. unfold SFeqb.
  pose proof (Prim2SF_valid x) as Hv. destruct (sf_nan (Prim2SF x)) eqn:E.
  - by destruct (Prim2SF x).
  - by rewrite sf_compare, Z.compare_refl.
Qed.

Section Compare.
Context (x y : float).

Lemma fcompare : fnan x = false -> fnan y = false ->
  SFcompare (Prim2SF x) (Prim2SF y) = Some (fval x ?= fval y).
Proof. rewrite !fnan_spec. intros. apply sf_compare; [apply Prim2SF_valid..| |]; done. Qed.

Lemma fcompare_nan : fnan x = true \/ fnan y = true ->
  SFcompare (Prim2SF x) (Prim2SF y) = None.
Proof. rewrite !fnan_spec. by destruct (Prim2SF x), (Prim2SF y); simpl; intros [?|?]. Qed.

Lemma nan_cases : (fnan x = false /\ fnan y = false) \/ (fnan x = true \/ fnan y = true).
Proof. destruct (fnan x), (fnan y); auto. Qed.

Lemma fltb_iff : (x <? y)%float = true <-> fnan x = false /\ fnan y = false /\ fval x < fval y.
Proof.
  rewrite FloatAxioms.ltb_spec. unfold SFltb. destruct nan_cases as [[Hx Hy]|H].
  - rewrite fcompare by done. rewrite Hx, Hy.
    destruct (Z.compare_spec (fval x) (fval y)); (split; [done || lia|]); try lia; done.
  - rewrite fcompare_nan by done. split; [done|]. intros (? & ? & _). by destruct H; congruence.
Qed.

Lemma fleb_iff : (x <=? y)%float = true <-> fnan x = false /\ fnan y = false /\ fval x <= fval y.
Proof.
  rewrite FloatAxioms.leb_spec. unfold SFleb. destruct nan_cases as [[Hx Hy]|H].
  - rewrite fcompare by done. rewrite Hx, Hy.
    destruct (Z.compare_spec (fval x) (fval y)); (split; [done || lia|]); try lia; done.
  - rewrite fcompare_nan by done. split; [done|]. intros (? & ? & _). by destruct H; congruence.
Qed.

Lemma feqb_iff : (x =? y)%float = true <-> fnan x = false /\ fnan y = false /\ fval x = fval y.
Proof.
  rewrite FloatAxioms.eqb_spec. unfold SFeqb. destruct nan_cases as [[Hx Hy]|H].
  - rewrite fcompare by done. rewrite Hx, Hy.
    destruct (Z.compare_spec (fval x) (fval y)); (split; [done || lia|]); try lia; done.
  - rewrite fcompare_nan by done. split; [done|]. intros (? & ? & _). by destruct H; congruence.
Qed.

Lemma fltb_false : fnan x = false -> fnan y = false -> (x <? y)%float = false <-> fval y <= fval x.
Proof.
  intros Hx Hy. rewrite <-not_true_iff_false, fltb_iff.
  split; [intros H; assert (~ (fval x < fval y)) by tauto; lia | intros H (_ & _ & ?); lia].
Qed.
Lemma fleb_false : fnan x = false -> fnan y = false -> (x <=? y)%float = false <-> fval y < fval x.
Proof.
  intros Hx Hy. rewrite <-not_true_iff_false, fleb_iff.
  split; [intros H; assert (~ (fval x <= fval y)) by tauto; lia | intros H (_ & _ & ?); lia].
Qed.
Lemma feqb_false : fnan x = false -> fnan y = false -> (x =? y)%float = false <-> fval x <> fval y.
Proof.
  intros Hx Hy. rewrite <-not_true_iff_false, feqb_iff.
  split; [intros H; assert (~ (fval x = fval y)) by tauto; lia | intros H (_ & _ & ?); lia].
Qed.
End Compare.

(** Finite: neither a NaN nor an infinity. *)
Definition sf_finite (x : spec_float) : bool :=
  match x with S754_zero _ | S754_finite _ _ _ => true | _ => false end.

Lemma isfinite_spec x : isfinite x = sf_finite (Prim2SF x).
Proof.
  unfold isfinite, is_finite, is_infinity. fold (fnan x). rewrite fnan_spec.
  rewrite FloatAxioms.eqb_spec, FloatAxioms.abs_spec.
  change (Prim2SF infinity) with (S754_infinity false).
  pose proof (Prim2SF_valid x) as Hv. destruct (Prim2SF x) as [s|s| |s m e]; done.
Qed.

Lemma isfinite_nan x : isfinite x = true -> fnan x = false.
Proof. rewrite isfinite_spec, fnan_spec. by destruct (Prim2SF x). Qed.

Lemma isfinite_val x : isfinite x = true <-> fnan x = false /\ Z.abs (fval x) < over.
Proof.
  rewrite isfinite_spec, fnan_spec. unfold fval. pose proof (Prim2SF_valid x) as Hv.
  pose proof over_pos. destruct (Prim2SF x) as [s|s| |s m e]; simpl.
  - split; [intros _; split; [done|lia] | done].
  - split; [done|]. intros [_ Hlt]. destruct s; unfold signed in Hlt; lia.
  - split; [done | by intros [? _]].
  - pose proof (mag_lt_over s m e Hv). split; [intros _|done].
    split; [done|]. destruct s; unfold signed; lia.
Qed.

Lemma fval_bound x : - over <= fval x <= over.
Proof.
  unfold fval. pose proof (Prim2SF_valid x) as Hv. pose proof over_pos.
  destruct (Prim2SF x) as [s|s| |s m e]; simpl; try lia.
  - destruct s; unfold signed; lia.
  - pose proof (mag_lt_over s m e Hv). destruct s; unfold signed; lia.
Qed.

Lemma rndZ_fval x : rndZ (fval x) = fval x.
Proof. apply rndZ_val, Prim2SF_valid. Qed.

Lemma fval_0 : fval 0 = 0.
Proof. done. Qed.
Lemma fnan_0 : fnan 0 = false.
Proof. done. Qed.

Lemma fval_opp x : fval (- x)%float = - fval x.
Proof.
  unfold fval. rewrite FloatAxioms.opp_spec. destruct (Prim2SF x) as [s|s| |s m e]; simpl; [done| |done|];
    destruct s; simpl; lia.
Qed.
Lemma fnan_opp x : fnan (- x)%float = fnan x.
Proof. rewrite !fnan_spec, FloatAxioms.opp_spec. by destruct (Prim2SF x). Qed.
Lemma isfinite_opp x : isfinite (- x)%float = isfinite x.
Proof. rewrite !isfinite_spec, FloatAxioms.opp_spec. by destruct (Prim2SF x). Qed.

Lemma fval_abs x : fval (abs x) = Z.abs (fval x).
Proof.
  unfold fval. rewrite FloatAxioms.abs_spec. pose proof (Prim2SF_valid x) as Hv. pose proof over_pos.
  destruct (Prim2SF x) as [s|s| |s m e]; simpl; [done| |done|].
  - destruct s; simpl; lia.
  - pose proof (mag_lt_over s m e Hv). destruct s; simpl; lia.
Qed.
Lemma fnan_abs x : fnan (abs x) = fnan x.
Proof. rewrite !fnan_spec, FloatAxioms.abs_spec. by destruct (Prim2SF x). Qed.

(** *** Addition and subtraction round the exact sum *)

Lemma sf_add x y :
  valid_binary x = true -> valid_binary y = true -> sf_finite x = true -> sf_finite y = true ->
  sf_val (SF64add x y) = rndZ (sf_val x + sf_val y) /\ sf_nan (SF64add x y) = false.
Proof.
  intros Hx Hy. pose proof (rndZ_val x Hx) as Ex. pose proof (rndZ_val y Hy) as Ey.
  destruct x as [s1|s1| |s1 m1 e1], y as [s2|s2| |s2 m2 e2]; try done; intros _ _.
  - by destruct s1, s2.
  - change (sf_val (S754_zero s2)) with 0. rewrite Z.add_0_r, Ex. done.
  - destruct (valid_finite _ _ _ Hx) as (He1 & _ & _), (valid_finite _ _ _ Hy) as (He2 & _ & _).
    unfold SF64add. cbn [SFadd].
    set (ez := Z.min e1 e2). assert (Hez : e_min <= ez) by lia.
    destruct (binary_normalize_spec
      (cond_Zopp s1 (Z.pos (fst (shl_align m1 e1 ez))) + cond_Zopp s2 (Z.pos (fst (shl_align m2 e2 ez))))
      ez false Hez) as [Hv Hn].
    split; [|exact Hn]. rewrite Hv. f_equal. rewrite !shl_align_fst by lia.
    assert (E : forall m e, ez <= e -> mag m e = Z.pos m * 2 ^ (e - ez) * 2 ^ (ez - e_min)).
    { intros m e H. unfold mag. rewrite <-Z.mul_assoc, <-Z.pow_add_r by lia. do 2 f_equal. lia. }
    cbn [sf_val]. rewrite (E m1 e1), (E m2 e2) by lia.
    unfold cond_Zopp, signed. destruct s1, s2; ring.
Qed.

Lemma sf_sub_add x y : SF64sub x y = SF64add x (SFopp y).
Proof.
  unfold SF64sub, SF64add. destruct x as [s1|s1| |s1 m1 e1], y as [s2|s2| |s2 m2 e2]; try done;
    try (by destruct s1, s2).
Qed.

Section Add.
Context (x y : float) (Hx : isfinite x = true) (Hy : isfinite y = true).

Lemma fval_add : fval (x + y)%float = rndZ (fval x + fval y).
Proof.
  rewrite isfinite_spec in Hx, Hy. unfold fval. rewrite FloatAxioms.add_spec.
  by apply sf_add; [apply Prim2SF_valid..| |].
Qed.
Lemma fnan_add : fnan (x + y)%float = false.
Proof.
  rewrite isfinite_spec in Hx, Hy. rewrite fnan_spec, FloatAxioms.add_spec.
  by apply sf_add; [apply Prim2SF_valid..| |].
Qed.
End Add.

Lemma fsub_add x y : (x - y)%float = (x + - y)%float.
Proof. apply Prim2SF_inj. rewrite FloatAxioms.sub_spec, FloatAxioms.add_spec, FloatAxioms.opp_spec. apply sf_sub_add. Qed.

Lemma fval_sub x y : isfinite x = true -> isfinite y = true ->
  fval (x - y)%float = rndZ (fval x - fval y).
Proof. intros. rewrite fsub_add, fval_add, fval_opp by (by rewrite ?isfinite_opp). done. Qed.
Lemma fnan_sub x y : isfinite x = true -> isfinite y = true -> fnan (x - y)%float = false.
Proof. intros. rewrite fsub_add. apply fnan_add; by rewrite ?isfinite_opp. Qed.

(** *** Consequences used by the components *)

(** [x < y] leaves a positive difference: binary64 has subnormals. *)
Lemma fsub_pos x y : isfinite x = true -> isfinite y = true -> (x <? y)%float = true ->
  (0 <? y - x)%float = true.
Proof.
  intros Hx Hy (_ & _ & H)%fltb_iff. apply fltb_iff. rewrite fnan_sub, fval_sub, fval_0 by done.
  split; [done|]. split; [done|]. apply rndZ_pos. lia.
Qed.

Lemma fabs_sub_pos x y : isfinite x = true -> isfinite y = true -> (x =? y)%float = false ->
  (0 <? abs (x - y))%float = true.
Proof.
  intros Hx Hy H%feqb_false; [|by apply isfinite_nan..].
  apply fltb_iff. rewrite fnan_abs, fnan_sub, fval_abs, fval_sub, fval_0 by done.
  split; [done|]. split; [done|]. pose proof (rndZ_eq_0 (fval x - fval y)). lia.
Qed.

Lemma fadd_zero_iff x y : isfinite x = true -> isfinite y = true ->
  (x + y =? 0)%float = true <-> fval x = - fval y.
Proof.
  intros Hx Hy. rewrite feqb_iff, fnan_add, fval_add, fval_0, rndZ_eq_0 by done.
  split; [intros (_ & _ & ?); lia | intros ?; repeat split; lia].
Qed.

(** Moving toward zero by at most the whole: the sum lies between. *)
Lemma fadd_shrink x d :
  isfinite x = true -> isfinite d = true ->
  (0 <= fval x /\ fval d <= 0 /\ - fval d <= fval x -> 0 <= fval (x + d)%float <= fval x) /\
  (fval x <= 0 /\ 0 <= fval d /\ fval d <= - fval x -> fval x <= fval (x + d)%float <= 0).
Proof.
  intros Hx Hd. rewrite fval_add by done. split; intros (H1 & H2 & H3).
  - pose proof (rndZ_mono 0 (fval x + fval d) ltac:(lia)).
    pose proof (rndZ_mono (fval x + fval d) (fval x) ltac:(lia)).
    rewrite rndZ_0, rndZ_fval in *. lia.
  - pose proof (rndZ_mono (fval x + fval d) 0 ltac:(lia)).
    pose proof (rndZ_mono (fval x) (fval x + fval d) ltac:(lia)).
    rewrite rndZ_0, rndZ_fval in *. lia.
Qed.

Lemma fadd_mono x y d : isfinite x = true -> isfinite y = true -> isfinite d = true ->
  (x <=? y)%float = true -> (x + d <=? y + d)%float = true.
Proof.
  intros Hx Hy Hd (_ & _ & H)%fleb_iff. apply fleb_iff.
  rewrite !fnan_add, !fval_add by done. split; [done|]. split; [done|].
  apply rndZ_mono. lia.
Qed.

(** *** Signs of products and quotients *)

Definition sf_sign_ok (s : bool) (x : spec_float) : Prop :=
  sf_nan x = false /\ (if s then sf_val x <= 0 else 0 <= sf_val x).

Lemma shr_nonneg mrs e n : 0 <= shr_m mrs -> 0 <= shr_m (fst (shr mrs e n)).
Proof.
  intros H. destruct n as [|p|p]; cbn [shr fst]; [done| |done].
  rewrite iter_pos_nat. induction (Pos.to_nat p) as [|k IH]; [done|].
  rewrite Nat.iter_succ. set (r := Nat.iter _ _ _) in *. destruct r as [[|[q|q|]|] ? ?]; simpl in *; lia.
Qed.

Lemma round_nearest_even_nonneg m l : 0 <= m -> 0 <= round_nearest_even m l.
Proof. intros H. destruct l as [|[]]; simpl; try lia. case_match; lia. Qed.

Lemma shr_record_of_loc_m m l : shr_m (shr_record_of_loc m l) = m.
Proof. by destruct l as [|[]]. Qed.

Lemma mag_nonneg m e : 0 <= mag m e.
Proof. unfold mag. pose proof (Z.pow_nonneg 2 (e - e_min)). lia. Qed.

Lemma binary_round_aux_sign s m e l :
  0 <= m -> sf_sign_ok s (binary_round_aux prec emax s m e l).
Proof.
  intros Hm. unfold binary_round_aux, shr_fexp.
  pose proof (shr_nonneg (shr_record_of_loc m l) e (fexp prec emax (Zdigits2 m + e) - e)) as H1.
  rewrite shr_record_of_loc_m in H1. specialize (H1 Hm).
  destruct (shr _ e _) as [mrs e']. cbn [fst] in H1.
  pose proof (round_nearest_even_nonneg _ (loc_of_shr_record mrs) H1) as H2.
  set (q := round_nearest_even _ _) in *.
  pose proof (shr_nonneg (shr_record_of_loc q loc_Exact) e' (fexp prec emax (Zdigits2 q + e') - e') H2) as H3.
  destruct (shr _ e' _) as [mrs' e'']. cbn [fst] in H3. pose proof over_pos.
  destruct (shr_m mrs') as [|p|p]; [|destruct (Z.leb _ _)|lia];
    (split; [done|]); destruct s; simpl; try lia; pose proof (mag_nonneg p e''); lia.
Qed.

Section MulDiv.
Context (x y : float) (Hx : isfinite x = true) (Hy : isfinite y = true).

Lemma fmul_sign :
  fnan (x * y)%float = false /\
  (0 <= fval x * fval y -> 0 <= fval (x * y)%float) /\
  (fval x * fval y <= 0 -> fval (x * y)%float <= 0).
Proof.
  rewrite isfinite_spec in Hx, Hy. rewrite fnan_spec. unfold fval. rewrite FloatAxioms.mul_spec.
  pose proof (Prim2SF_valid x) as Vx. pose proof (Prim2SF_valid y) as Vy. unfold SF64mul.
  destruct (Prim2SF x) as [s1|s1| |s1 m1 e1], (Prim2SF y) as [s2|s2| |s2 m2 e2]; try done.
  cbn [SFmul]. pose proof (mag_lt_over _ _ _ Vx). pose proof (mag_lt_over _ _ _ Vy).
  destruct (binary_round_aux_sign (xorb s1 s2) (Z.pos (m1 * m2)) (e1 + e2) loc_Exact ltac:(lia)) as [Hn Hs].
  split; [exact Hn|]. destruct s1, s2; cbn [xorb signed sf_val] in *; split; intros; nia.
Qed.

Lemma fdiv_sign :
  fval y <> 0 ->
  fnan (x / y)%float = false /\
  (0 <= fval x * fval y -> 0 <= fval (x / y)%float) /\
  (fval x * fval y <= 0 -> fval (x / y)%float <= 0).
Proof.
  rewrite isfinite_spec in Hx, Hy. rewrite fnan_spec. unfold fval. rewrite FloatAxioms.div_spec.
  pose proof (Prim2SF_valid x) as Vx. pose proof (Prim2SF_valid y) as Vy. unfold SF64div.
  destruct (Prim2SF x) as [s1|s1| |s1 m1 e1], (Prim2SF y) as [s2|s2| |s2 m2 e2]; try done; intros _.
  cbn [SFdiv]. pose proof (mag_lt_over _ _ _ Vx). pose proof (mag_lt_over _ _ _ Vy).
  unfold SFdiv_core_binary. set (mm := match _ with Z0 => _ | Zpos _ => _ | Zneg _ => _ end).
  assert (Hmm : 0 <= mm).
  { subst mm. case_match; [lia| |lia]. rewrite Z.shiftl_mul_pow2 by lia. pose proof (pow2_pos (Z.pos p)). lia. }
  pose proof (Z_div_mod mm (Z.pos m2) ltac:(lia)) as Hdm.
  destruct (Z.div_eucl mm (Z.pos m2)) as [q r]. destruct Hdm as [Hdm1 Hdm2].
  destruct (binary_round_aux_sign (xorb s1 s2) q
    (Z.min (fexp prec emax (Zdigits2 (Z.pos m1) + e1 - (Zdigits2 (Z.pos m2) + e2))) (e1 - e2))
    (new_location (Z.pos m2) r) ltac:(nia)) as [Hn Hs].
  split; [exact Hn|]. destruct s1, s2; cbn [xorb signed sf_val] in *; split; intros; nia.
Qed.
End MulDiv.

(** A product with a finite nonzero factor is a NaN only if the other is. *)
Lemma fmul_nan x y : fnan x = false -> isfinite y = true -> fval y <> 0 -> fnan (x * y)%float = false.
Proof.
  rewrite isfinite_spec, !fnan_spec, FloatAxioms.mul_spec. unfold fval, SF64mul.
  pose proof (Prim2SF_valid x) as Vx. intros Hx Hy Hv.
  destruct (Prim2SF x) as [s1|s1| |s1 m1 e1], (Prim2SF y) as [s2|s2| |s2 m2 e2]; try done.
  cbn [SFmul]. by apply binary_round_aux_sign.
Qed.

Lemma fgt_false_le x y : fnan x = false -> fnan y = false -> fgt x y = false -> (x <=? y)%float = true.
Proof. intros Hx Hy H%fltb_false; [|done..]. by apply fleb_iff. Qed.

Lemma positive_spec x : isfinite x = true -> (x <=? 0)%float = false -> 0 < fval x.
Proof. intros Hx H. apply fleb_false in H; [by rewrite fval_0 in H | by apply isfinite_nan | done]. Qed.

(** Adding a finite number never makes a NaN or, from an infinity, a zero. *)
Lemma fnan_add_finite x d : fnan x = false -> isfinite d = true -> fnan (x + d)%float = false.
Proof.
  rewrite isfinite_spec, !fnan_spec, FloatAxioms.add_spec. unfold SF64add.
  pose proof (Prim2SF_valid x) as Vx. pose proof (Prim2SF_valid d) as Vd. intros Hx Hd.
  destruct (Prim2SF x) as [s1|s1| |s1 m1 e1] eqn:Ex; [..|].
  - by apply sf_add.
  - by destruct (Prim2SF d), s1.
  - done.
  - by apply sf_add.
Qed.

Lemma fadd_infinite x d : fnan x = false -> isfinite x = false -> isfinite d = true ->
  (x + d =? 0)%float = false.
Proof.
  intros Hx Hi Hd. apply feqb_false; [by apply fnan_add_finite | done|].
  revert Hx Hi Hd. rewrite !isfinite_spec, fnan_spec. unfold fval. rewrite FloatAxioms.add_spec.
  pose proof over_pos. destruct (Prim2SF x) as [s1|s1| |s1 m1 e1]; try done. intros _ _ Hd.
  destruct (Prim2SF d) as [s2|s2| |s2 m2 e2], s1; try done; cbn; rewrite fval_0 || idtac; simpl; lia.
Qed.

(** Same-side addition does not cancel. *)
Lemma fadd_same_side x d : fnan x = false -> isfinite d = true -> fgt (x * d) 0 = true ->
  (x + d =? 0)%float = false.
Proof.
  intros Hx Hd Hm. destruct (isfinite x) eqn:Hf; [|by apply fadd_infinite].
  apply feqb_false; [by apply fnan_add | done|]. rewrite fval_add, fval_0 by done.
  apply fltb_iff in Hm as (_ & _ & Hm). rewrite fval_0 in Hm.
  destruct (fmul_sign x d Hf Hd) as (_ & _ & Hs). rewrite rndZ_eq_0. nia.
Qed.

#[export] Instance py_eq_trans_float : PyEqTrans float.
Proof.
  intros x y z. unfold py_eq, py_eq_float. rewrite !feqb_iff.
  intros (? & ? & ?) (? & ? & ?). repeat split; [done | done | lia].
Qed.

(** *** Non-negative quantities, infinities included *)

Lemma not_finite_infinite x : fnan x = false -> isfinite x = false ->
  exists s, Prim2SF x = S754_infinity s.
Proof. rewrite isfinite_spec, fnan_spec. destruct (Prim2SF x); try done. eauto. Qed.

Lemma fmul_nonneg x y : fnan x = false -> 0 <= fval x -> isfinite y = true -> 0 < fval y ->
  fnan (x * y)%float = false /\ 0 <= fval (x * y)%float.
Proof.
  intros Hx Hp Hy Hv. split; [apply fmul_nan; [done..|lia]|].
  destruct (isfinite x) eqn:Hf; [apply fmul_sign; [done..|]; nia|].
  destruct (not_finite_infinite x Hx Hf) as [s Es]. pose proof over_pos.
  revert Hp Hv Hy. rewrite isfinite_spec. unfold fval. rewrite FloatAxioms.mul_spec, Es.
  destruct (Prim2SF y) as [t|t| |t m e]; try done; destruct s, t; cbn; try done; try lia.
  pose proof (mag_nonneg m e). lia.
Qed.

Lemma fdiv_nonneg x y : isfinite x = true -> 0 <= fval x -> isfinite y = true -> 0 < fval y ->
  fnan (x / y)%float = false /\ 0 <= fval (x / y)%float.
Proof. intros Hx Hp Hy Hv. destruct (fdiv_sign x y Hx Hy) as (? & ? & _); [lia|]. split; [done|]. nia. Qed.

Lemma fmin_nonneg x y : fnan x = false -> 0 <= fval x -> fnan y = false -> 0 <= fval y ->
  fnan (fmin x y) = false /\ 0 <= fval (fmin x y).
Proof. intros. unfold fmin. by destruct (y <? x)%float. Qed.

(** A finite sum of a finite number and a non-negative one has a finite summand. *)
Lemma fadd_finite_inv x n : isfinite x = true -> fnan n = false -> isfinite (x + n)%float = true ->
  isfinite n = true.
Proof.
  intros Hx Hn Hs. destruct (isfinite n) eqn:E; [done|].
  destruct (not_finite_infinite n Hn E) as [s Es]. revert Hs Hx. rewrite !isfinite_spec.
  rewrite FloatAxioms.add_spec, Es. by destruct (Prim2SF x), s.
Qed.

Lemma fnan_add_nonneg x n : isfinite x = true -> fnan n = false -> fnan (x + n)%float = false.
Proof.
  intros Hx Hn. destruct (isfinite n) eqn:E; [by apply fnan_add|].
  destruct (not_finite_infinite n Hn E) as [s Es]. revert Hx. rewrite isfinite_spec, fnan_spec.
  rewrite FloatAxioms.add_spec, Es. by destruct (Prim2SF x), s.
Qed.

Lemma fadd_nonneg x n : isfinite x = true -> fnan n = false -> 0 <= fval x -> 0 <= fval n ->
  0 <= fval (x + n)%float.
Proof.
  intros Hx Hn Hp Hq. destruct (isfinite n) eqn:E.
  - rewrite fval_add by done. rewrite <-rndZ_0. apply rndZ_mono. lia.
  - destruct (not_finite_infinite n Hn E) as [s Es]. pose proof over_pos. revert Hx Hq. rewrite isfinite_spec.
    unfold fval. rewrite FloatAxioms.add_spec, Es.
    destruct (Prim2SF x) as [t|t| |t m e]; try done; destruct s; simpl; lia.
Qed.

Lemma fadd_infinite_nonneg x n : fnan x = false -> isfinite x = false -> 0 <= fval x ->
  fnan n = false -> 0 <= fval n -> fval (x + n)%float = over.
Proof.
  intros Hx Hf Hp Hn Hq. destruct (not_finite_infinite x Hx Hf) as [s Es]. pose proof over_pos.
  destruct s; [unfold fval in Hp; rewrite Es in Hp; cbn in Hp; lia|].
  rewrite fnan_spec in Hn. revert Hn Hq. unfold fval. rewrite FloatAxioms.add_spec, Es.
  destruct (Prim2SF n) as [s|s| |s m e]; cbn; try done. destruct s; cbn; [lia|done].
Qed.

Lemma nonneg_le_finite x m : fnan x = false -> 0 <= fval x -> isfinite m = true -> fgt x m = false ->
  isfinite x = true.
Proof.
  intros Hx Hp [Hm Hb]%isfinite_val Hg. apply fltb_false in Hg; [|done..].
  apply isfinite_val. split; [done|]. lia.
Qed.

(** *** Conversion of integers *)

Lemma finish_valid s q g :
  0 <= g -> 0 < q <= 2 ^ 53 -> (0 < g -> 2 ^ 52 <= q) -> (g = 0 -> q < 2 ^ 53) ->
  valid_binary (finish s q (e_min + g)) = true.
Proof.
  intros Hg Hq Hlo Hhi. unfold finish, shr_fexp, emax, e_min.
  destruct (Z.eq_dec q (2 ^ 53)) as [->|Hne].
  - change (Zdigits2 (2 ^ 53)) with 54. change (shr_record_of_loc (2 ^ 53) loc_Exact) with
      (Build_shr_record (2 ^ 53) false false).
    replace (fexp prec 1024 (54 + (-1074 + g)) - (-1074 + g)) with 1
      by (unfold fexp, SpecFloat.emin, prec; lia).
    change (shr {| shr_m := 2 ^ 53; shr_r := false; shr_s := false |} (-1074 + g) 1) with
      (Build_shr_record (2 ^ 52) false false, -1074 + g + 1). cbn [shr_m].
    change (2 ^ 52) with (Z.pos 4503599627370496) at 1. cbv iota beta.
    destruct (Z.leb_spec (-1074 + g + 1) (1024 - prec)) as [Hle|]; [|done].
    unfold valid_binary, bounded, canonical_mantissa, emax. change (digits2_pos 4503599627370496) with 53%positive.
    rewrite andb_true_iff, Z.eqb_eq, Z.leb_le. unfold fexp, SpecFloat.emin, prec in *. lia.
  - destruct q as [|q|]; [lia| |lia]. cbn [Zdigits2].
    assert (Hl : Z.log2 (Z.pos q) < 53) by (apply Z.log2_lt_pow2; lia).
    assert (Hn : fexp prec 1024 (Z.pos (digits2_pos q) + (-1074 + g)) - (-1074 + g) <= 0).
    { rewrite digits2_log2. unfold fexp, SpecFloat.emin, prec. lia. }
    assert (Hshr : forall r n, n <= 0 -> shr r (-1074 + g) n = (r, -1074 + g)) by (by intros r [| |] ?).
    rewrite Hshr by done. cbn [shr_m shr_record_of_loc].
    destruct (Z.leb_spec (-1074 + g) (1024 - prec)) as [Hle|]; [|done].
    unfold valid_binary, bounded, canonical_mantissa, emax.
    rewrite andb_true_iff, Z.eqb_eq, Z.leb_le, digits2_log2.
    destruct (Z.eq_dec g 0) as [->|]; [unfold fexp, SpecFloat.emin, prec in *; lia|].
    assert (52 <= Z.log2 (Z.pos q)) by (apply Z.log2_le_pow2; lia).
    unfold fexp, SpecFloat.emin, prec in *. lia.
Qed.

Lemma binary_normalize_valid v e z : e_min <= e -> valid_binary (binary_normalize prec emax v e z) = true.
Proof.
  intros He. unfold binary_normalize. destruct v as [|m|m]; [done|..];
    rewrite binary_round_finish by done;
    destruct (rne_grid_bounds (mag m e) (mag_pos m e He)) as (H1 & H2 & H3);
    (apply finish_valid; [apply grid_nonneg | done..]).
Qed.

(** [float(n)] is the rounding of [n]. *)
Lemma float_of_Z_spec n : fnan (float_of_Z n) = false /\ fval (float_of_Z n) = rndZ (n * 2 ^ 1074).
Proof.
  assert (Hu : forall k, 0 <= k < 2 ^ 62 -> fnan (of_uint63 (Uint63.of_Z k)) = false /\
    fval (of_uint63 (Uint63.of_Z k)) = rndZ (k * 2 ^ 1074)).
  { intros k Hk. rewrite fnan_spec. unfold fval. rewrite FloatAxioms.of_uint63_spec, Uint63.of_Z_spec.
    rewrite Z.mod_small by (change Uint63.wB with (2 ^ 63); lia).
    destruct (binary_normalize_spec k 0 false) as [-> ->]; [unfold e_min; lia|]. done. }
  unfold float_of_Z. destruct (Z.ltb_spec (Z.abs n) (2 ^ 62)) as [Hs|Hs].
  - destruct (Hu (Z.abs n)) as [Hn Hv]; [lia|]. cbv zeta. destruct (Z.ltb_spec n 0).
    + rewrite fnan_opp, fval_opp, Hv, <-rndZ_opp. split; [done|]. f_equal. lia.
    + rewrite Hv. split; [done|]. f_equal. lia.
  - rewrite fnan_spec. unfold fval.
    rewrite FloatAxioms.Prim2SF_SF2Prim by (apply binary_normalize_valid; unfold e_min; lia).
    destruct (binary_normalize_spec n 0 false) as [-> ->]; [unfold e_min; lia|]. done.
Qed.

Lemma float_of_Z_pos n : 1 <= n -> fnan (float_of_Z n) = false /\ 0 < fval (float_of_Z n).
Proof.
  intros Hn. destruct (float_of_Z_spec n) as [-> ->]. split; [done|].
  apply rndZ_pos. pose proof (pow2_pos 1074). nia.
Qed.

Lemma fgt_0_nonzero x : fgt x 0 = true -> (x =? 0)%float = false.
Proof.
  intros (Hn0 & Hn & Hlt)%fltb_iff. rewrite fval_0 in Hlt. apply feqb_false; [done..|].
  rewrite fval_0. lia.
Qed.

Lemma fdiv_ok a b : (b =? 0)%float = false -> fdiv a b = Ok (a / b)%float.
Proof. intros H. unfold fdiv. by rewrite H. Qed.
