(* ===== verification/FloatRound.v ===== *)
(** * Rounding of products and quotients in binary64

    The product and the quotient of two finite floats are the exact fraction
    rounded by [rndQ]: monotone in the fraction and the identity on floats.
    The consequences at the end are the ones the components use: a product
    or quotient stays on its side of any float, and adding or subtracting a
    visible fraction of a number changes it. *)

From Stdlib Require Import ZArith Floats.
From stdpp Require Import prelude list numbers.
From S2P Require Import Prelude PyData PyFloat FloatTheory.

Local Open Scope Z_scope.

(** ** The rounding step of the specification *)

Lemma located_loc p D m l :
  0 < D -> 0 <= m -> (exists rem, p = m * D + rem /\ 0 <= rem < D /\
    match l with
    | loc_Exact => rem = 0
    | loc_Inexact c => 0 < rem /\ (2 * rem ?= D) = c
    end) ->
  located p D (shr_record_of_loc m l).
Proof.
  intros HD Hm (rem & Hp & Hr & Hl). split; [done|]. rewrite shr_record_of_loc_m. split; [done|].
  exists rem. split; [done|]. split; [done|].
  destruct l as [|c]; simpl; [done|]. destruct Hl as [Hpos Hc].
  destruct (Z.compare_spec (2 * rem) D); subst c; simpl; lia.
Qed.

(** The grid of a fraction, from its quotient at any exponent. *)
Lemma fexp_gridQ p d D m e :
  0 < d -> 0 < D -> m = p / D -> 0 <= m ->
  (e_min <= e /\ D = d * 2 ^ (e - e_min) \/ e <= e_min /\ d = D * 2 ^ (e_min - e)) ->
  0 < m \/ e <= e_min + 53 ->
  fexp prec emax (Zdigits2 m + e) = e_min + grid (p / d).
Proof.
  intros Hd HD Hm Hm0 HE Hnz.
  assert (Hdig : Zdigits2 m = if m =? 0 then 0 else Z.log2 m + 1).
  { destruct m as [|m|]; [done| |lia]. simpl. apply digits2_log2. }
  unfold fexp, grid, SpecFloat.emin, prec, emax. rewrite Hdig. unfold e_min in *.
  destruct HE as [[He ED]|[He Ed]].
  - pose proof (pow2_pos (e - -1074) ltac:(lia)) as Hp2.
    assert (Hq : m = p / d / 2 ^ (e - -1074)) by (rewrite Z.div_div by lia; by rewrite <-ED).
    destruct (Z.eqb_spec m 0) as [E0|E0].
    + assert (p / d < 2 ^ (e - -1074)).
      { symmetry in Hq. rewrite E0 in Hq. apply Z.div_small_iff in Hq; [|lia]. lia. }
      assert (Z.log2 (p / d) < 53).
      { destruct (Z.lt_ge_cases 0 (p / d)); [|rewrite Z.log2_nonpos by lia; lia].
        apply Z.log2_lt_pow2; [done|]. assert (2 ^ (e - -1074) <= 2 ^ 53) by (apply Z.pow_le_mono_r; lia). lia. }
      lia.
    + assert (Hv : 0 < p / d).
      { destruct (Z.lt_ge_cases 0 (p / d)); [done|]. assert (p / d / 2 ^ (e - -1074) <= 0 / 2 ^ (e - -1074))
          by (apply Z.div_le_mono; lia). rewrite Z.div_0_l in * by lia. lia. }
      assert (Hl : Z.log2 m = Z.max 0 (Z.log2 (p / d) - (e - -1074))).
      { rewrite Hq, <-Z.shiftr_div_pow2 by lia. rewrite Z.log2_shiftr by lia. lia. }
      assert (e - -1074 <= Z.log2 (p / d)).
      { apply Z.log2_le_pow2; [done|]. pose proof (Z.mul_div_le (p / d) (2 ^ (e - -1074)) Hp2). nia. }
      lia.
  - pose proof (pow2_pos (-1074 - e) ltac:(lia)) as Hp2.
    assert (Hq : p / d = m / 2 ^ (-1074 - e)) by (rewrite Hm, Z.div_div by lia; by rewrite Ed).
    rewrite Hq. destruct (Z.eqb_spec m 0) as [->|E0].
    + rewrite Z.div_0_l by lia. change (Z.log2 0) with 0. lia.
    + rewrite <-Z.shiftr_div_pow2, Z.log2_shiftr by lia. lia.
Qed.

(** A fraction rounded on its grid, as a float. *)
Definition finishQ (s : bool) (p d : Z) : spec_float :=
  finish s (rneQ p (d * 2 ^ grid (p / d))) (e_min + grid (p / d)).

(** Rounding a significand with its location rounds the fraction it stands
    for, when the shift is to the right. *)
Lemma binary_round_aux_finishQ s p d D m e l :
  0 < d -> 0 <= p -> m = p / D -> located p D (shr_record_of_loc m l) ->
  (e_min <= e /\ D = d * 2 ^ (e - e_min) \/ e <= e_min /\ d = D * 2 ^ (e_min - e)) ->
  0 < m \/ e <= e_min + 53 -> e <= e_min + grid (p / d) ->
  binary_round_aux prec emax s m e l = finishQ s p d.
Proof.
  intros Hd Hp Hm Hloc HE Hnz Hn. pose proof (proj1 Hloc) as HD.
  assert (Hm0 : 0 <= m) by (rewrite Hm; by apply Z.div_pos).
  pose proof (grid_nonneg (p / d)) as Hg. unfold binary_round_aux, shr_fexp at 1.
  rewrite (fexp_gridQ p d D) by done.
  destruct (located_shr p D _ e (e_min + grid (p / d) - e) ltac:(lia) Hloc) as [Hl He].
  destruct (shr _ e _) as [mrs e']. simpl in Hl, He. subst e'.
  rewrite (located_round _ _ _ Hl).
  replace (D * 2 ^ (e_min + grid (p / d) - e)) with (d * 2 ^ grid (p / d)).
  2:{ destruct HE as [[He ->]|[He ->]]; rewrite <-Z.mul_assoc, <-Z.pow_add_r by lia; do 2 f_equal; lia. }
  by replace (e + (e_min + grid (p / d) - e)) with (e_min + grid (p / d)) by lia.
Qed.

(** The rounded significand is in range: zero, or ready for [round_finish]. *)
Lemma finishQ_cases s p d : 0 < d -> 0 <= p ->
  (rndQ p d = 0 /\ finishQ s p d = S754_zero s) \/
  exists q g, finishQ s p d = finish s q (e_min + g) /\ rndQ p d = q * 2 ^ g /\
    0 <= g /\ 0 < q <= 2 ^ 53 /\ (0 < g -> 2 ^ 52 <= q) /\ (g = 0 -> q < 2 ^ 53).
Proof.
  intros Hd Hp. unfold finishQ, rndQ. pose proof (grid_nonneg (p / d)) as Hg.
  pose proof (rneQ_bounds p (d * 2 ^ grid (p / d))) as Hb. rewrite rndQ_quot in Hb by done.
  set (q := rneQ _ _) in *. assert (0 <= p / d) by (by apply Z.div_pos).
  pose proof (pow2_pos _ Hg) as Hp2. pose proof (Z.div_pos (p / d) _ ltac:(done) Hp2).
  destruct (Z.eq_dec q 0) as [->|Hq0].
  - left. assert (grid (p / d) = 0) as ->; [|by destruct s].
    destruct (Z.eq_dec (grid (p / d)) 0); [done|]. pose proof (grid_quot (p / d) ltac:(lia)). lia.
  - right. destruct (Z.eq_dec (grid (p / d)) 0) as [E|E].
    + pose proof (grid_0_small _ E). rewrite E, Z.pow_0_r, Z.div_1_r in Hb. rewrite E.
      destruct (Z.eq_dec q (2 ^ 53)) as [->|E53]; [|exists q, 0; split; [done|]; lia].
      exists (2 ^ 52), 1. split; [done|]. lia.
    + pose proof (grid_quot (p / d) ltac:(lia)). exists q, (grid (p / d)). split; [done|]. lia.
Qed.

Lemma finishQ_val s p d : 0 < d -> 0 <= p -> sf_val (finishQ s p d) = signed s (Z.min over (rndQ p d)).
Proof.
  intros Hd Hp. destruct (finishQ_cases s p d Hd Hp) as [[-> ->]|(q & g & -> & -> & Hg & Hq & H1 & H2)].
  - pose proof over_pos. rewrite Z.min_r by lia. by destruct s.
  - by apply round_finish.
Qed.

Lemma finishQ_valid s p d : 0 < d -> 0 <= p -> valid_binary (finishQ s p d) = true.
Proof.
  intros Hd Hp. destruct (finishQ_cases s p d Hd Hp) as [[_ ->]|(q & g & -> & _ & Hg & Hq & H1 & H2)]; [done|].
  by apply finish_valid.
Qed.

(** ** Products *)

Lemma rnd_exact m k : 0 <= m < 2 ^ 53 -> 0 <= k -> rnd (m * 2 ^ k) = m * 2 ^ k.
Proof.
  intros Hm Hk. destruct (Z.eq_dec m 0) as [->|Hm0]; [done|].
  assert (Hl : Z.log2 m <= 52) by (apply Z.lt_succ_r, Z.log2_lt_pow2; lia).
  pose proof (Z.log2_nonneg m). unfold rnd. set (g := grid (m * 2 ^ k)).
  assert (Hg : 0 <= g <= k) by (unfold g, grid; rewrite log2_mul_pow2' by lia; lia).
  replace (m * 2 ^ k) with (m * 2 ^ (k - g) * 2 ^ g)
    by (rewrite <-Z.mul_assoc, <-Z.pow_add_r by lia; do 2 f_equal; lia).
  by rewrite rne_exact by lia.
Qed.

Lemma sf_mul_val s1 m1 e1 s2 m2 e2 :
  valid_binary (S754_finite s1 m1 e1) = true -> valid_binary (S754_finite s2 m2 e2) = true ->
  sf_val (SF64mul (S754_finite s1 m1 e1) (S754_finite s2 m2 e2)) =
    signed (xorb s1 s2) (Z.min over (rndQ (mag m1 e1 * mag m2 e2) (2 ^ 1074))).
Proof.
  intros (He1 & Hm1 & Hn1)%valid_finite (He2 & Hm2 & Hn2)%valid_finite.
  unfold SF64mul. cbn [SFmul]. set (m := Z.pos (m1 * m2)). set (e := e1 + e2).
  set (D := 2 ^ (e - 2 * e_min)). assert (HD : 0 < D) by (apply pow2_pos; unfold e_min in *; lia).
  assert (Hp : mag m1 e1 * mag m2 e2 = m * D).
  { unfold mag, m, D, e. rewrite Pos2Z.inj_mul.
    replace (e1 + e2 - 2 * e_min) with (e1 - e_min + (e2 - e_min)) by lia. rewrite Z.pow_add_r by lia. ring. }
  assert (HE : e_min <= e /\ D = 2 ^ 1074 * 2 ^ (e - e_min) \/ e <= e_min /\ 2 ^ 1074 = D * 2 ^ (e_min - e)).
  { unfold D. destruct (Z.le_ge_cases e_min e); [left|right]; (split; [done|]);
      rewrite <-Z.pow_add_r by (unfold e_min in *; lia); f_equal; unfold e_min in *; lia. }
  pose proof (pow2_pos 1074 ltac:(lia)) as Hd.
  assert (Hq : m = m * D / D) by (by rewrite Z.div_mul by lia).
  pose proof (fexp_gridQ (m * D) (2 ^ 1074) D m e Hd HD Hq ltac:(lia) HE (or_introl eq_refl)) as Hf.
  rewrite Hp. destruct (Z.le_gt_cases e (e_min + grid (m * D / 2 ^ 1074))) as [Hle|Hgt].
  - rewrite <-finishQ_val by lia. f_equal. apply (binary_round_aux_finishQ _ _ _ D); try done; [lia| |by left].
    apply located_loc; [done|lia|]. exists 0. lia.
  - rewrite <-Hf in Hgt. unfold binary_round_aux, shr_fexp.
    assert (Hsm : Z.log2 m < 52 /\ e_min < e).
    { revert Hgt. cbn [m Zdigits2]. rewrite digits2_log2. fold m.
      unfold fexp, SpecFloat.emin, prec, emax, e_min. lia. }
    assert (Hshr : forall r n, n <= 0 -> shr r e n = (r, e)) by (by intros r [| |] ?).
    rewrite !Hshr by lia. cbn [shr_record_of_loc shr_m loc_of_shr_record round_nearest_even].
    change (Zdigits2 m) with (Zdigits2 m) in *. rewrite Hshr by lia. cbn [shr_m].
    assert (Hm53 : 0 < m < 2 ^ 53) by (split; [lia|]; apply Z.log2_lt_pow2; lia).
    assert (He : e <= 971).
    { destruct (Z.eq_dec e1 e_min) as [->|Ne1]; [unfold e_min in *; lia|].
      destruct (Z.eq_dec e2 e_min) as [->|Ne2]; [unfold e_min in *; lia|]. exfalso.
      specialize (Hn1 ltac:(lia)). specialize (Hn2 ltac:(lia)). unfold m in Hm53. rewrite Pos2Z.inj_mul in Hm53. nia. }
    unfold m at 1. fold m. rewrite (proj2 (Z.leb_le _ _)) by (unfold emax, prec; lia). cbn [sf_val]. f_equal.
    destruct HE as [[_ ->]|]; [|lia].
    replace (m * (2 ^ 1074 * 2 ^ (e - e_min))) with (m * 2 ^ (e - e_min) * 2 ^ 1074) by ring.
    rewrite rndQ_int, rnd_exact by lia. unfold mag. fold m.
    rewrite (over_split 53 2045) by lia.
    assert (2 ^ (e - e_min) <= 2 ^ 2045) by (apply Z.pow_le_mono_r; unfold e_min; lia).
    pose proof (pow2_pos (e - e_min)). nia.
Qed.

(** ** Quotients *)

Lemma new_location_spec k r : 0 < k -> 0 <= r < k ->
  match new_location k r with
  | loc_Exact => r = 0
  | loc_Inexact c => 0 < r /\ (2 * r ?= k) = c
  end.
Proof.
  intros Hk Hr. unfold new_location, new_location_even, new_location_odd.
  destruct (Z.even k) eqn:Ev, (Z.eqb_spec r 0); try done; [split; [lia|done]|]. split; [lia|].
  assert (Hodd : 2 * r <> k) by (intros <-; by rewrite Z.even_mul in Ev).
  destruct (Z.compare_spec (2 * r + 1) k), (Z.compare_spec (2 * r) k); try done; lia.
Qed.

Lemma located_mul p D mrs k : 0 < k -> located p D mrs -> located (p * k) (D * k) mrs.
Proof.
  intros Hk (HD & Hm & rem & Hp & Hrem & Hloc). split; [nia|]. split; [done|].
  exists (rem * k). split; [rewrite Hp; ring|]. split; [nia|].
  unfold loc_ok in *. destruct (shr_r mrs), (shr_s mrs); nia.
Qed.

Lemma digits_quot m1 m2 : 0 < m1 -> 0 < m2 -> 0 < m1 / m2 -> Z.log2 m1 - Z.log2 m2 <= Z.log2 (m1 / m2) + 1.
Proof.
  intros H1 H2 Hq. destruct (Z.log2_spec (m1 / m2) Hq) as [_ Hhi]. destruct (Z.log2_spec m2 H2) as [_ Hhi2].
  assert (Hm : m1 < 2 ^ (Z.log2 (m1 / m2) + Z.log2 m2 + 2)).
  { replace (Z.log2 (m1 / m2) + Z.log2 m2 + 2) with (Z.succ (Z.log2 (m1 / m2)) + Z.succ (Z.log2 m2)) by lia.
    pose proof (Z.log2_nonneg (m1 / m2)). pose proof (Z.log2_nonneg m2). rewrite Z.pow_add_r by lia.
    pose proof (Z.mul_succ_div_gt m1 m2 H2). nia. }
  apply Z.log2_lt_pow2 in Hm; lia.
Qed.

(** The division core followed by rounding, on any positive significands. *)
Lemma div_core_finishQ s m1 e1 m2 e2 : e_min <= e1 -> e_min <= e2 ->
  (let '(q, e, l) := SFdiv_core_binary prec emax (Z.pos m1) e1 (Z.pos m2) e2 in binary_round_aux prec emax s q e l) =
  finishQ s (mag m1 e1 * 2 ^ 1074) (mag m2 e2).
Proof.
  intros He1 He2. unfold SFdiv_core_binary. cbn [Zdigits2]. rewrite !digits2_log2.
  set (f := fexp prec emax (Z.log2 (Z.pos m1) + 1 + e1 - (Z.log2 (Z.pos m2) + 1 + e2))).
  assert (Hf : f = Z.max (Z.log2 (Z.pos m1) + e1 - Z.log2 (Z.pos m2) - e2 - 53) e_min)
    by (unfold f, fexp, SpecFloat.emin, prec, emax, e_min; lia).
  set (e := Z.min f (e1 - e2)). set (k := e1 - e2 - e). assert (Hk : 0 <= k) by lia.
  set (mm := match k with Z0 => _ | Zpos _ => _ | Zneg _ => _ end).
  assert (Hmm : mm = Z.pos m1 * 2 ^ k).
  { subst mm. destruct k; [by rewrite Z.mul_1_r| |lia]. by rewrite Z.shiftl_mul_pow2 by lia. }
  clearbody mm. pose proof (pow2_pos k Hk) as Hps.
  pose proof (Z_div_mod mm (Z.pos m2) ltac:(lia)) as Hdm.
  assert (Hquot : mm / Z.pos m2 = fst (Z.div_eucl mm (Z.pos m2))) by (unfold Z.div; by destruct (Z.div_eucl _ _)).
  destruct (Z.div_eucl mm (Z.pos m2)) as [q r]. destruct Hdm as [Hdm1 Hdm2]. simpl in Hquot.
  set (t := e2 + e - 2 * e_min). assert (Ht : 0 <= t) by (unfold t, e, e_min in *; lia).
  pose proof (pow2_pos t Ht) as Hpt. set (D := Z.pos m2 * 2 ^ t).
  assert (Hp : mag m1 e1 * 2 ^ 1074 = mm * 2 ^ t).
  { rewrite Hmm. unfold mag, t, k. rewrite <-!Z.mul_assoc, <-!Z.pow_add_r by (unfold e_min, e, k in *; lia).
    do 2 f_equal. unfold e_min. lia. }
  assert (Hq : q = mag m1 e1 * 2 ^ 1074 / D) by (unfold D; rewrite Hp, Z.div_mul_cancel_r by lia; done).
  assert (Hq0 : 0 <= q) by nia.
  assert (HE : e_min <= e /\ D = mag m2 e2 * 2 ^ (e - e_min) \/ e <= e_min /\ mag m2 e2 = D * 2 ^ (e_min - e)).
  { unfold D, mag, t. destruct (Z.le_ge_cases e_min e); [left|right]; (split; [done|]);
      rewrite <-Z.mul_assoc, <-Z.pow_add_r by lia; do 2 f_equal; lia. }
  assert (Hlog : 0 < q -> Z.log2 (Z.pos m1) + k - Z.log2 (Z.pos m2) <= Z.log2 q + 1).
  { intros Hqp. pose proof (digits_quot mm (Z.pos m2)) as Hd. rewrite Hquot, Hmm, log2_mul_pow2' in Hd by lia. lia. }
  assert (Hsmall : q = 0 -> Z.log2 (Z.pos m1) + k <= Z.log2 (Z.pos m2)).
  { intros ->. rewrite <-log2_mul_pow2', <-Hmm by lia. apply Z.log2_le_mono. lia. }
  assert (Hnz : 0 < q \/ e <= e_min + 53) by (destruct (Z.eq_dec q 0); [right|left]; lia).
  pose proof (mag_pos m1 e1 He1). pose proof (mag_pos m2 e2 He2) as Hd2.
  apply (binary_round_aux_finishQ _ _ _ D); try done; [lia| |].
  - rewrite Hp. unfold D. apply located_mul; [done|]. apply located_loc; [lia..|].
    exists r. split; [lia|]. split; [lia|]. apply new_location_spec; lia.
  - rewrite <-(fexp_gridQ _ _ D q e Hd2 ltac:(nia) Hq Hq0 HE Hnz).
    assert (Hdig : Zdigits2 q = if q =? 0 then 0 else Z.log2 q + 1).
    { destruct q as [|x|]; [done| |lia]. simpl. apply digits2_log2. }
    rewrite Hdig. unfold fexp, SpecFloat.emin, prec, emax. unfold e_min in *.
    destruct (Z.eqb_spec q 0); lia.
Qed.

Lemma sf_div_val s1 m1 e1 s2 m2 e2 :
  valid_binary (S754_finite s1 m1 e1) = true -> valid_binary (S754_finite s2 m2 e2) = true ->
  sf_val (SF64div (S754_finite s1 m1 e1) (S754_finite s2 m2 e2)) =
    signed (xorb s1 s2) (Z.min over (rndQ (mag m1 e1 * 2 ^ 1074) (mag m2 e2))).
Proof.
  intros (He1 & _)%valid_finite (He2 & _)%valid_finite. unfold SF64div. cbn [SFdiv].
  rewrite div_core_finishQ by lia. pose proof (mag_pos m1 e1). pose proof (mag_pos m2 e2). pose proof (pow2_pos 1074).
  apply finishQ_val; nia.
Qed.

(** ** The operations on floats *)

(** The signed fraction [p / d], rounded. *)
Definition rndF (p d : Z) : Z := Z.sgn p * Z.min over (rndQ (Z.abs p) d).

Lemma rndF_opp p d : rndF (- p) d = - rndF p d.
Proof. unfold rndF. rewrite Z.sgn_opp, Z.abs_opp. lia. Qed.

Lemma rndF_0 d : rndF 0 d = 0.
Proof. done. Qed.

Lemma rndF_mono p p' d : 0 < d -> p <= p' -> rndF p d <= rndF p' d.
Proof.
  intros Hd H. unfold rndF. pose proof over_pos.
  pose proof (rndQ_nonneg (Z.abs p) d Hd ltac:(lia)). pose proof (rndQ_nonneg (Z.abs p') d Hd ltac:(lia)).
  destruct (Z.sgn_spec p) as [[Hv ->]|[[Hv ->]|[Hv ->]]],
    (Z.sgn_spec p') as [[Hw ->]|[[Hw ->]|[Hw ->]]]; try lia.
  - pose proof (rndQ_mono (Z.abs p) (Z.abs p') d Hd). lia.
  - pose proof (rndQ_mono (Z.abs p') (Z.abs p) d Hd). lia.
Qed.

Lemma rndF_int v d : 0 < d -> rndF (v * d) d = rndZ v.
Proof. intros Hd. unfold rndF, rndZ. by rewrite Z.sgn_mul, Z.abs_mul, (Z.abs_eq d), (Z.sgn_pos d), rndQ_int, Z.mul_1_r by lia. Qed.

(** A rounded fraction stays on its side of every float. *)
Lemma rndF_le p d x : 0 < d -> p <= fval x * d -> rndF p d <= fval x.
Proof. intros Hd H. rewrite <-(rndZ_fval x), <-(rndF_int _ d Hd). by apply rndF_mono. Qed.
Lemma rndF_ge p d x : 0 < d -> fval x * d <= p -> fval x <= rndF p d.
Proof. intros Hd H. rewrite <-(rndZ_fval x), <-(rndF_int _ d Hd). by apply rndF_mono. Qed.

Lemma rndF_signed s v d : 0 < v -> signed s (Z.min over (rndQ v d)) = rndF (signed s v) d.
Proof.
  intros Hv. unfold rndF. destruct s; cbn [signed];
    rewrite ?Z.abs_opp, Z.abs_eq, ?Z.sgn_neg, ?Z.sgn_pos by lia; lia.
Qed.

Section Operations.
Context (x y : float) (Hx : isfinite x = true) (Hy : isfinite y = true).

Lemma fval_mul : fval (x * y)%float = rndF (fval x * fval y) (2 ^ 1074).
Proof.
  rewrite isfinite_spec in Hx, Hy. unfold fval. rewrite FloatAxioms.mul_spec.
  pose proof (Prim2SF_valid x) as Vx. pose proof (Prim2SF_valid y) as Vy.
  destruct (Prim2SF x) as [s1|s1| |s1 m1 e1], (Prim2SF y) as [s2|s2| |s2 m2 e2]; try done.
  - cbn [sf_val]. by rewrite Z.mul_0_r.
  - rewrite sf_mul_val by done. pose proof (mag_lt_over _ _ _ Vx). pose proof (mag_lt_over _ _ _ Vy).
    rewrite rndF_signed by nia. f_equal. cbn [sf_val]. destruct s1, s2; cbn [xorb signed]; ring.
Qed.

Lemma fval_div : 0 < fval y -> fval (x / y)%float = rndF (fval x * 2 ^ 1074) (fval y).
Proof.
  rewrite isfinite_spec in Hx, Hy. unfold fval. rewrite FloatAxioms.div_spec.
  pose proof (Prim2SF_valid x) as Vx. pose proof (Prim2SF_valid y) as Vy.
  destruct (Prim2SF y) as [s2|s2| |s2 m2 e2]; try done. intros Hv.
  pose proof (mag_lt_over _ _ _ Vy). destruct s2; [cbn in Hv; lia|].
  destruct (Prim2SF x) as [s1|s1| |s1 m1 e1]; try done.
  rewrite sf_div_val by done. pose proof (mag_lt_over _ _ _ Vx). pose proof (pow2_pos 1074).
  rewrite rndF_signed by nia. cbn [sf_val]. f_equal. destruct s1; cbn [xorb signed]; ring.
Qed.
End Operations.

Lemma fmul_comm x y : (x * y)%float = (y * x)%float.
Proof.
  apply Prim2SF_inj. rewrite !FloatAxioms.mul_spec. unfold SF64mul.
  destruct (Prim2SF x) as [[]|[]| |[] m1 e1], (Prim2SF y) as [[]|[]| |[] m2 e2]; try done; cbn [SFmul xorb];
    by rewrite Pos.mul_comm, Z.add_comm.
Qed.

(** Products: monotone, and on the right side of a factor. *)
Section Products.
Context (x y : float) (Hx : isfinite x = true) (Hy : isfinite y = true).

Lemma fmul_mono z : isfinite z = true -> 0 <= fval z -> fval x <= fval y ->
  fval (x * z)%float <= fval (y * z)%float.
Proof. intros Hz Hz0 H. rewrite !fval_mul by done. apply rndF_mono; [by apply pow2_pos|nia]. Qed.

Lemma fmul_le (z : float) : fval x * fval y <= fval z * 2 ^ 1074 -> fval (x * y)%float <= fval z.
Proof. intros H. rewrite fval_mul by done. apply rndF_le; [by apply pow2_pos|lia]. Qed.

Lemma fmul_ge (z : float) : fval z * 2 ^ 1074 <= fval x * fval y -> fval z <= fval (x * y)%float.
Proof. intros H. rewrite fval_mul by done. apply rndF_ge; [by apply pow2_pos|lia]. Qed.
End Products.

Lemma fval_1 : fval 1 = 2 ^ 1074.
Proof. done. Qed.

(** A factor in [0, 1] shrinks, a factor of at least one grows. *)
Lemma fmul_shrink x y : isfinite x = true -> isfinite y = true -> 0 <= fval x -> 0 <= fval y <= fval 1 ->
  0 <= fval (x * y)%float <= fval x.
Proof.
  intros Hx Hy H0 H1. rewrite fval_1 in H1. split.
  - change 0 with (fval 0). apply fmul_ge; [done..|]. rewrite fval_0. nia.
  - apply fmul_le; [done..|]. nia.
Qed.

Lemma fmul_grow x y : isfinite x = true -> isfinite y = true -> 0 <= fval x -> fval 1 <= fval y ->
  fval x <= fval (x * y)%float.
Proof. intros Hx Hy H0 H1. rewrite fval_1 in H1. apply fmul_ge; [done..|]. nia. Qed.

(** Quotients by a positive number. *)
Section Quotients.
Context (y : float) (Hy : isfinite y = true) (Hp : 0 < fval y).

Lemma fdiv_mono x x' : isfinite x = true -> isfinite x' = true -> fval x <= fval x' ->
  fval (x / y)%float <= fval (x' / y)%float.
Proof.
  intros Hx Hx' H. rewrite !fval_div by done. apply rndF_mono; [done|]. pose proof (pow2_pos 1074). nia.
Qed.

(** A part of a positive whole is a fraction of one. *)
Lemma fdiv_unit x : isfinite x = true -> 0 <= fval x <= fval y ->
  fnan (x / y)%float = false /\ 0 <= fval (x / y)%float <= fval 1.
Proof.
  intros Hx H. destruct (fdiv_nonneg x y Hx ltac:(lia) Hy Hp) as [Hn H0]. split; [done|]. split; [done|].
  rewrite fval_div by done. apply rndF_le; [done|]. rewrite fval_1. pose proof (pow2_pos 1074). nia.
Qed.
End Quotients.

(** ** Visible steps *)

(** The floats next to a finite one: a step of one unit in its last place. *)
Lemma neighbour_rep v q k : 0 <= k -> 0 < q <= 2 ^ 53 -> v = q * 2 ^ k -> v <= over -> rndZ v = v.
Proof.
  intros Hk Hq -> Ho. pose proof (pow2_pos k Hk). unfold rndZ. rewrite Z.sgn_pos, Z.abs_eq by nia.
  destruct (Z.eq_dec q (2 ^ 53)) as [->|Hne].
  - replace (2 ^ 53 * 2 ^ k) with (2 ^ 52 * 2 ^ (k + 1)) in * by (rewrite Z.pow_add_r by lia; ring).
    rewrite rnd_exact by lia. lia.
  - rewrite rnd_exact by lia. lia.
Qed.

Lemma grid_rep x : 0 < fval x < over -> exists q, fval x = q * 2 ^ grid (fval x) /\ 0 < q < 2 ^ 53.
Proof.
  intros [H0 Ho]. pose proof (rndZ_fval x) as Hr. unfold rndZ in Hr. rewrite Z.sgn_pos, Z.abs_eq in Hr by lia.
  rewrite Z.mul_1_l in Hr. pose proof (rne_grid_bounds _ H0) as (Hb & _). pose proof (grid_nonneg (fval x)) as Hg.
  pose proof (pow2_pos _ Hg) as Hp.
  assert (Hq : fval x = rne (fval x) (grid (fval x)) * 2 ^ grid (fval x)) by (unfold rnd in Hr; lia).
  exists (rne (fval x) (grid (fval x))). split; [done|]. split; [lia|].
  destruct (Z.eq_dec (rne (fval x) (grid (fval x))) (2 ^ 53)) as [E|]; [|lia]. exfalso. rewrite E in Hq.
  apply (f_equal Z.log2) in Hq. rewrite log2_mul_pow2' in Hq by lia. change (Z.log2 (2 ^ 53)) with 53 in Hq.
  unfold grid in Hq. lia.
Qed.

(** Subtracting at least [2 ^ -52] of a positive float lowers it, adding as
    much raises it. *)
Lemma visible_step x v : 0 < fval x < over -> 1 <= v -> fval x <= v * 2 ^ 52 ->
  rndZ (fval x - v) < fval x < rndZ (fval x + v).
Proof.
  intros H0 Hv Hx. destruct (grid_rep x H0) as (q & Hq & Hb). pose proof (grid_nonneg (fval x)) as Hg.
  set (g := grid (fval x)) in *. pose proof (pow2_pos g Hg) as Hp.
  assert (Hstep : 2 ^ g <= v).
  { destruct (Z.eq_dec g 0) as [->|Hne]; [lia|].
    destruct (Z.log2_spec (fval x) ltac:(lia)) as [Hlo _].
    assert (Hgl : Z.log2 (fval x) = 52 + g) by (unfold g, grid in *; lia).
    rewrite Hgl, Z.pow_add_r in Hlo by lia. nia. }
  split.
  - destruct (Z.eq_dec q 1) as [->|].
    + pose proof (rndZ_mono (fval x - v) 0 ltac:(lia)) as Hm. rewrite rndZ_0 in Hm. lia.
    + pose proof (rndZ_mono (fval x - v) ((q - 1) * 2 ^ g) ltac:(lia)) as Hm.
      rewrite (neighbour_rep _ (q - 1) g Hg ltac:(lia) eq_refl ltac:(lia)) in Hm. lia.
  - destruct (Z.le_gt_cases ((q + 1) * 2 ^ g) over) as [Hle|Hgt].
    + pose proof (rndZ_mono ((q + 1) * 2 ^ g) (fval x + v) ltac:(lia)) as Hm.
      rewrite (neighbour_rep _ (q + 1) g Hg ltac:(lia) eq_refl ltac:(lia)) in Hm. lia.
    + assert (Hov : over <= fval x + v) by nia. pose proof (rndZ_mono over (fval x + v) Hov) as Hm.
      assert (rndZ over = over) as Ho by (exact (rndZ_fval infinity)). lia.
Qed.

(** ** Bounds used for prices *)

(** Rounding loses at most half of a fraction of at least one unit. *)
Lemma rndQ_half p d : 0 < d -> d <= p -> p <= 2 * d * rndQ p d.
Proof.
  intros Hd Hp. pose proof (grid_nonneg (p / d)) as Hg. set (g := grid (p / d)) in *. pose proof (pow2_pos g Hg) as Hp2.
  assert (Hq : 1 <= p / (d * 2 ^ g)).
  { rewrite <-Z.div_div by lia. apply Z.div_le_lower_bound; [lia|]. rewrite Z.mul_1_r.
    assert (1 <= p / d) by (apply Z.div_le_lower_bound; lia).
    destruct (Z.eq_dec g 0) as [->|Hne]; [simpl; lia|].
    pose proof (grid_quot (p / d) ltac:(fold g; lia)) as [Hlo _]. fold g in Hlo.
    pose proof (Z.mul_div_le (p / d) (2 ^ g) Hp2). pose proof (pow2_pos 52). nia. }
  pose proof (Z.mul_succ_div_gt p (d * 2 ^ g) ltac:(nia)).
  pose proof (rneQ_bounds p (d * 2 ^ g)). unfold rndQ. fold g.
  assert (p <= 2 * (d * 2 ^ g) * (p / (d * 2 ^ g))) by nia. nia.
Qed.

Lemma rndZ_bounded v (b : float) : Z.abs v <= fval b -> Z.abs (rndZ v) <= fval b.
Proof.
  intros H. pose proof (rndZ_mono v (fval b) ltac:(lia)) as H1.
  pose proof (rndZ_mono (- fval b) v ltac:(lia)) as H2. rewrite rndZ_opp, rndZ_fval in *. lia.
Qed.

Lemma rndF_bounded p d (b : float) : 0 < d -> Z.abs p <= fval b * d -> Z.abs (rndF p d) <= fval b.
Proof.
  intros Hd H. pose proof (rndF_le p d b Hd ltac:(lia)) as H1.
  pose proof (rndF_le (- p) d b Hd ltac:(lia)) as H2. rewrite rndF_opp in H2. lia.
Qed.

Section Bounded.
Context (x y b : float) (Hx : isfinite x = true) (Hy : isfinite y = true) (Hb : isfinite b = true).

Lemma finite_of x' : fnan x' = false -> Z.abs (fval x') <= fval b -> isfinite x' = true.
Proof. apply isfinite_val in Hb as [_ Hb']. intros. apply isfinite_val. split; [done|lia]. Qed.

Lemma fadd_bounded : Z.abs (fval x + fval y) <= fval b ->
  isfinite (x + y)%float = true /\ Z.abs (fval (x + y)%float) <= fval b.
Proof.
  intros H. assert (Z.abs (fval (x + y)%float) <= fval b) by (rewrite fval_add by done; by apply rndZ_bounded).
  split; [|done]. apply finite_of; [by apply fnan_add|done].
Qed.

Lemma fsub_bounded : Z.abs (fval x - fval y) <= fval b ->
  isfinite (x - y)%float = true /\ Z.abs (fval (x - y)%float) <= fval b.
Proof.
  intros H. assert (Z.abs (fval (x - y)%float) <= fval b) by (rewrite fval_sub by done; by apply rndZ_bounded).
  split; [|done]. apply finite_of; [by apply fnan_sub|done].
Qed.

Lemma fmul_bounded : Z.abs (fval x * fval y) <= fval b * 2 ^ 1074 ->
  isfinite (x * y)%float = true /\ Z.abs (fval (x * y)%float) <= fval b.
Proof.
  intros H. assert (Z.abs (fval (x * y)%float) <= fval b)
    by (rewrite fval_mul by done; apply rndF_bounded; [by apply pow2_pos|done]).
  split; [|done]. apply finite_of; [by apply fmul_sign|done].
Qed.
End Bounded.

(** [max(0.0, min(c, top))] is in [[0, top]] whatever [c] is, a NaN included. *)
Lemma clamp_range c top : isfinite top = true -> 0 <= fval top ->
  (0 <=? fmax 0 (fmin c top))%float = true /\ (fmax 0 (fmin c top) <=? top)%float = true.
Proof.
  intros Ht H0. pose proof (isfinite_nan _ Ht) as Hn. unfold fmax, fmin.
  destruct (top <? c)%float eqn:E1; destruct (0 <? _)%float eqn:E2;
    try (apply fltb_iff in E2 as (_ & Nc & E2)); rewrite ?fval_0 in *;
    split; apply fleb_iff; rewrite ?fval_0, ?fnan_0; try (split; [done|split; [done|lia]]).
  split; [done|split; [done|]]. by apply fltb_false in E1.
Qed.

(** Integers of at most 53 bits are floats. *)
Lemma float_of_Z_exact n : 0 <= n < 2 ^ 53 -> isfinite (float_of_Z n) = true /\ fval (float_of_Z n) = n * 2 ^ 1074.
Proof.
  intros Hn. destruct (float_of_Z_spec n) as [Hnan Hv].
  assert (E : rndZ (n * 2 ^ 1074) = n * 2 ^ 1074).
  { unfold rndZ. pose proof (pow2_pos 1074 ltac:(lia)). destruct (Z.eq_dec n 0) as [->|]; [done|].
    rewrite Z.sgn_pos, Z.abs_eq, rnd_exact by nia. rewrite (over_split 53 2045) by lia.
    replace (2 ^ 2045) with (2 ^ 971 * 2 ^ 1074) by (by rewrite <-Z.pow_add_r).
    assert (0 < 2 ^ 971) by (by apply pow2_pos). nia. }
  rewrite E in Hv. split; [|done].
  apply (finite_of 0x1p60 eq_refl); [done|].
  assert (E60 : fval 0x1p60 = 2 ^ 60 * 2 ^ 1074) by (vm_compute; reflexivity).
  rewrite Hv, E60, Z.abs_eq by (pose proof (pow2_pos 1074); nia). apply Z.mul_le_mono_nonneg_r; [|lia].
  pose proof (pow2_pos 1074). lia.
Qed.
