(* ===== verification/PyText.v ===== *)
(** * Python text: str, repr, SHA-256 and [stable_id]

    Strings are byte strings; the code's strings are ASCII (identifiers,
    symbols, hexadecimal digests), for which bytes and characters agree.
    [stable_id] of contracts.py hashes the ["|"]-joined [str] of its parts;
    the hash is computed, so every identifier of the model is the identifier
    the program computes. *)

From Stdlib Require Import ZArith Floats Ascii String.
From stdpp Require Import prelude strings list pretty numbers sorting.
From S2P Require Import Prelude PyData PyFloat.

Local Open Scope Z_scope.

(** ** Tests on strings *)

(** [not s] *)
Definition str_empty (s : string) : bool := String.eqb s "".

(** [str.isspace] of one ASCII character *)
Definition is_space (c : ascii) : bool :=
  let n := N_of_ascii c in
  ((9 <=? n) && (n <=? 13) || (28 <=? n) && (n <=? 32))%N.

Fixpoint all_chars (p : ascii -> bool) (s : string) : bool :=
  match s with
  | EmptyString => true
  | String c s' => p c && all_chars p s'
  end.

(** [not s.strip()] *)
Definition str_blank (s : string) : bool := all_chars is_space s.

Lemma str_blank_app a b : str_blank (a +:+ b) = true -> str_blank a = true.
Proof.
  unfold str_blank. induction a as [|c a IH]; simpl; [done|].
  rewrite !andb_true_iff. intros [-> H]. auto.
Qed.

Fixpoint str_join (sep : string) (parts : list string) : string :=
  match parts with
  | [] => ""
  | [p] => p
  | p :: ps => p +:+ sep +:+ str_join sep ps
  end.

(** Lexicographic [<] on strings, by character code. *)
Fixpoint str_ltb (a b : string) : bool :=
  match a, b with
  | _, EmptyString => false
  | EmptyString, String _ _ => true
  | String c a', String d b' =>
      (N_of_ascii c <? N_of_ascii d)%N || ((N_of_ascii c =? N_of_ascii d)%N && str_ltb a' b')
  end.

Lemma str_ltb_irrefl a : str_ltb a a = false.
Proof. induction a as [|c a IH]; simpl; [done|]. by rewrite N.ltb_irrefl, IH, andb_false_r. Qed.

Lemma str_ltb_trans a b c : str_ltb a b = true -> str_ltb b c = true -> str_ltb a c = true.
Proof.
  revert b c; induction a as [|x a IH]; intros [|y b] [|z c]; simpl; try done.
  rewrite !orb_true_iff, !andb_true_iff, !N.ltb_lt, !N.eqb_eq.
  intros [?|[? ?]] [?|[? ?]]; [left; lia..|]. right. split; [lia|]. by eapply IH.
Qed.

Lemma str_ltb_total a b : str_ltb a b = false -> str_ltb b a = false -> a = b.
Proof.
  revert b; induction a as [|x a IH]; intros [|y b]; simpl; try done.
  rewrite !orb_false_iff, !andb_false_iff, !N.ltb_ge, !N.eqb_neq. intros [? H1] [? H2].
  assert (N_of_ascii x = N_of_ascii y) as E by lia.
  destruct H1 as [?|H1]; [lia|]. destruct H2 as [?|H2]; [lia|].
  rewrite (IH b H1 H2). f_equal.
  by rewrite <-(ascii_N_embedding x), <-(ascii_N_embedding y), E.
Qed.

(** Tuples compare their first components, then the rest. *)
Definition str_then (a b : string) (rest : bool) : bool :=
  str_ltb a b || (String.eqb a b && rest).

Record weak_order {A} (lt : A -> A -> bool) : Prop := {
  wo_asym : forall x y, lt x y = true -> lt y x = false;
  wo_trans : forall x y z, lt y x = false -> lt z y = false -> lt z x = false }.

Lemma str_cases a b :
  (str_ltb a b = true /\ str_ltb b a = false /\ String.eqb a b = false) \/
  (str_ltb a b = false /\ str_ltb b a = true /\ String.eqb a b = false) \/ a = b.
Proof.
  assert (Hne : forall a b, str_ltb a b = true -> a <> b).
  { intros x y H ->. by rewrite str_ltb_irrefl in H. }
  assert (Has : forall a b, str_ltb a b = true -> str_ltb b a = false).
  { intros x y H. destruct (str_ltb y x) eqn:E; [|done].
    pose proof (str_ltb_trans _ _ _ H E). by rewrite str_ltb_irrefl in *. }
  destruct (str_ltb a b) eqn:E1.
  - left. split; [done|]. split; [by apply Has|]. by apply String.eqb_neq, Hne.
  - destruct (str_ltb b a) eqn:E2; [|right; right; by apply str_ltb_total].
    right. left. repeat split. apply String.eqb_neq. intros ->. by apply (Hne _ _ E2).
Qed.

Lemma weak_order_Z {A} (f : A -> Z) : weak_order (fun x y => f x <? f y).
Proof. split; [intros x y | intros x y z]; rewrite ?Z.ltb_lt, !Z.ltb_ge; lia. Qed.

Lemma weak_order_str {A} (f : A -> string) (lt : A -> A -> bool) :
  weak_order lt -> weak_order (fun x y => str_then (f x) (f y) (lt x y)).
Proof.
  intros [Ha Ht]. unfold str_then. split.
  - intros x y. destruct (str_cases (f x) (f y)) as [(E1 & E2 & E3)|[(E1 & E2 & E3)|E]].
    + rewrite E1, E2, (String.eqb_sym (f y)), E3. done.
    + rewrite E1, E3. done.
    + rewrite E, str_ltb_irrefl, String.eqb_refl. simpl. apply Ha.
  - intros x y z. destruct (str_cases (f y) (f x)) as [(E1 & E2 & E3)|[(E1 & E2 & E3)|E]];
      [by rewrite E1 | |].
    + destruct (str_cases (f z) (f y)) as [(F1 & F2 & F3)|[(F1 & F2 & F3)|F]]; [by rewrite F1| |].
      * pose proof (str_ltb_trans _ _ _ E2 F2) as G.
        destruct (str_cases (f z) (f x)) as [(G1 & G2 & G3)|[(G1 & G2 & G3)|G']].
        -- congruence.
        -- by rewrite G1, G3.
        -- rewrite G', str_ltb_irrefl in G. done.
      * rewrite F, str_ltb_irrefl, E1, E3. done.
    + rewrite E, str_ltb_irrefl, String.eqb_refl. simpl. intros H1.
      destruct (str_cases (f z) (f x)) as [(F1 & F2 & F3)|[(F1 & F2 & F3)|F]].
      * by rewrite F1.
      * by rewrite F1, F3.
      * rewrite F, str_ltb_irrefl, String.eqb_refl. simpl. by apply Ht.
Qed.

Lemma weak_order_sorted {A} (lt : A -> A -> bool) l :
  weak_order lt -> StronglySorted (not_after lt) (py_sorted lt l).
Proof.
  intros [Ha Ht]. apply (py_sorted_sorted lt (fun _ => True)).
  - intros x y _ _. apply Ha.
  - intros x y z _ _ _. apply Ht.
  - by apply Forall_true.
Qed.

(** ** str of the values the code hashes *)

(** [str(n)] *)
Definition str_Z (n : Z) : string := pretty n.

(** [str(x)] of a [str | None] *)
Definition str_opt (o : option string) : string :=
  match o with Some s => s | None => "None" end.

Definition dquote : ascii := ascii_of_nat 34.
Definition squote : ascii := ascii_of_nat 39.
Definition backslash : ascii := ascii_of_nat 92.

Definition hex_digit (n : Z) : ascii :=
  ascii_of_N (Z.to_N (if n <? 10 then 48 + n else 87 + n)).
Definition hex_byte (n : Z) : string :=
  String (hex_digit (n / 16)) (String (hex_digit (n mod 16)) "").

Definition repr_char (quote c : ascii) : string :=
  let n := Z.of_N (N_of_ascii c) in
  if (Ascii.eqb c quote || Ascii.eqb c backslash)%bool then String backslash (String c "")
  else if n =? 9 then String backslash "t"
  else if n =? 10 then String backslash "n"
  else if n =? 13 then String backslash "r"
  else if ((n <? 32) || (n =? 127))%bool then String backslash ("x" +:+ hex_byte n)
  else String c "".

Fixpoint repr_chars (quote : ascii) (s : string) : string :=
  match s with
  | EmptyString => ""
  | String c s' => repr_char quote c +:+ repr_chars quote s'
  end.

(** [repr(s)]: single quotes unless the string has one and no double quote. *)
Definition repr_str (s : string) : string :=
  let has q := negb (all_chars (fun c => negb (Ascii.eqb c q)) s) in
  let quote := if (has squote && negb (has dquote))%bool then dquote else squote in
  String quote "" +:+ repr_chars quote s +:+ String quote "".

(** [repr] of a tuple, of its members' reprs. *)
Definition repr_tuple (members : list string) : string :=
  match members with
  | [m] => "(" +:+ m +:+ ",)"
  | _ => "(" +:+ str_join ", " members +:+ ")"
  end.

(** [repr] of a dataclass, of its fields' names and reprs. *)
Definition repr_dataclass (name : string) (fields : list (string * string)) : string :=
  name +:+ "(" +:+ str_join ", " ((fun '(k, v) => k +:+ "=" +:+ v) <$> fields) +:+ ")".

(** *** repr of a float: the shortest decimal that reads back *)

(** The binary64 nearest to [d * 10 ^ p]. *)
Definition sf_of_decimal (d p : Z) : spec_float :=
  if p <? 0 then
    let '(q, e, l) := SFdiv_core_binary prec emax d 0 (10 ^ (- p)) 0 in
    binary_round_aux prec emax false q e l
  else binary_normalize prec emax (d * 10 ^ p) 0 false.

Definition sf_same (x y : spec_float) : bool :=
  match x, y with
  | S754_finite s m e, S754_finite s' m' e' => Bool.eqb s s' && (m =? m')%positive && (e =? e')
  | _, _ => false
  end.

Fixpoint zeros (n : nat) : string :=
  match n with O => "" | S n' => "0" +:+ zeros n' end.

(** The place of the decimal point of [num / den]: [0.ddd * 10 ^ decpt]. *)
Fixpoint small_decpt (fuel : nat) (j num den : Z) : Z :=
  match fuel with
  | O => 1 - j
  | S fuel' => if den <=? num then 1 - j else small_decpt fuel' (j + 1) (num * 10) den
  end.
Definition decpt (num den : Z) : Z :=
  if den <=? num then Z.of_nat (String.length (str_Z (num / den)))
  else small_decpt 330 0 num den.

Definition div_half_even (a b : Z) : Z :=
  let q := a / b in
  let r := a mod b in
  if 2 * r <? b then q else if 2 * r =? b then (if Z.even q then q else q + 1) else q + 1.

(** The [n]-digit decimal closest to [num / den]. *)
Definition digits_at (num den dp : Z) (n : nat) : Z :=
  let s := Z.of_nat n - dp in
  if s <? 0 then div_half_even num (den * 10 ^ (- s)) else div_half_even (num * 10 ^ s) den.

Fixpoint shortest (fuel n : nat) (m : positive) (e num den dp : Z) : Z * Z :=
  let d := digits_at num den dp n in
  let p := dp - Z.of_nat n in
  match fuel with
  | O => (d, p)
  | S fuel' =>
      if sf_same (sf_of_decimal d p) (S754_finite false m e) then (d, p)
      else shortest fuel' (S n) m e num den dp
  end.

Fixpoint strip_zeros (fuel : nat) (d p : Z) : Z * Z :=
  match fuel with
  | O => (d, p)
  | S fuel' => if ((d mod 10 =? 0) && (0 <? d))%bool then strip_zeros fuel' (d / 10) (p + 1) else (d, p)
  end.

(** Digits [ds] with value [0.ds * 10 ^ dp]; exponents below -4 or above 16
    are written with [e]. *)
Definition format_short (ds : string) (dp : Z) : string :=
  let len := Z.of_nat (String.length ds) in
  if ((-4 <? dp) && (dp <=? 16))%bool then
    if dp <=? 0 then "0." +:+ zeros (Z.to_nat (- dp)) +:+ ds
    else if len <=? dp then ds +:+ zeros (Z.to_nat (dp - len)) +:+ ".0"
    else String.substring 0 (Z.to_nat dp) ds +:+ "." +:+ String.substring (Z.to_nat dp) (Z.to_nat (len - dp)) ds
  else
    let ex := dp - 1 in
    let frac := if len =? 1 then "" else "." +:+ String.substring 1 (Z.to_nat (len - 1)) ds in
    let mant := String.substring 0 1 ds +:+ frac in
    let sgn := if ex <? 0 then "-" else "+" in
    let digits := str_Z (Z.abs ex) in
    mant +:+ "e" +:+ sgn +:+ (if Z.abs ex <? 10 then "0" +:+ digits else digits).

Definition repr_sf (x : spec_float) : string :=
  match x with
  | S754_nan => "nan"
  | S754_infinity s => if s then "-inf" else "inf"
  | S754_zero s => if s then "-0.0" else "0.0"
  | S754_finite s m e =>
      let num := Z.pos m * 2 ^ Z.max e 0 in
      let den := 2 ^ Z.max (- e) 0 in
      let '(d, p) := shortest 17 1 m e num den (decpt num den) in
      let '(d, p) := strip_zeros 20 d p in
      let ds := str_Z d in
      (if s then "-" else "") +:+ format_short ds (p + Z.of_nat (String.length ds))
  end.
Definition repr_float (x : float) : string := repr_sf (Prim2SF x).

Example repr_float_examples :
  repr_float 0.1 = "0.1" /\ repr_float 100000 = "100000.0" /\ repr_float 1e16 = "1e+16" /\
  repr_float 0.0001 = "0.0001" /\ repr_float 0.00001 = "1e-05" /\ repr_float (-2.5) = "-2.5" /\
  repr_float 123456789.123 = "123456789.123" /\ repr_float 5e-324 = "5e-324" /\
  repr_float (0.1 + 0.2) = "0.30000000000000004" /\ repr_float 1.7976931348623157e308 = "1.7976931348623157e+308".
Proof. vm_compute. repeat split. Qed.
