(* ===== verification/PyDigits.v ===== *)
(** * Decimal digit strings

    What [int()] reads and [str()] of an int writes: the value of a string
    of digits, scanning, and that [str] of a non-negative int is its digits
    without leading zeros. *)

From Stdlib Require Import ZArith Ascii String ZifyBool.
From stdpp Require Import prelude strings list pretty numbers.
From S2P Require Import Prelude PyData PyFloat PyText.

Local Open Scope Z_scope.

Definition code (c : ascii) : Z := Z.of_N (N_of_ascii c).
Definition is_digit (c : ascii) : bool := (48 <=? code c) && (code c <=? 57).
Definition digit_value (c : ascii) : Z := code c - 48.

(** The number a string of digits denotes, after the digits read so far. *)
Fixpoint digits_from (acc : Z) (s : string) : Z :=
  match s with
  | EmptyString => acc
  | String c s' => digits_from (acc * 10 + digit_value c) s'
  end.
Definition digits_value (s : string) : Z := digits_from 0 s.

Definition str_len (s : string) : Z := Z.of_nat (String.length s).

(** The longest prefix whose characters satisfy [p], and the rest. *)
Fixpoint span (p : ascii -> bool) (s : string) : string * string :=
  match s with
  | EmptyString => ("", "")
  | String c s' => if p c then let '(a, b) := span p s' in (String c a, b) else ("", s)
  end.

Lemma str_app_nil s : s +:+ "" = s.
Proof. induction s as [|c s IH]; [done|]. change (String c (s +:+ "") = String c s). by rewrite IH. Qed.
Lemma str_app_assoc a b c : (a +:+ b) +:+ c = a +:+ (b +:+ c).
Proof. induction a as [|x a IH]; [done|]. change (String x ((a +:+ b) +:+ c) = String x (a +:+ (b +:+ c))). by rewrite IH. Qed.
Lemma str_len_app a b : str_len (a +:+ b) = str_len a + str_len b.
Proof.
  unfold str_len. induction a as [|x a IH]; [done|].
  change (String x a +:+ b) with (String x (a +:+ b)). cbn [String.length]. lia.
Qed.
Lemma length_str_app s t : String.length (s +:+ t) = (String.length s + String.length t)%nat.
Proof. induction s as [|c s IH]; [done|]. change (String c s +:+ t) with (String c (s +:+ t)). cbn [String.length]. lia. Qed.
Lemma str_len_cons c s : str_len (String c s) = 1 + str_len s.
Proof. unfold str_len. cbn [String.length]. lia. Qed.
Lemma str_len_nonneg s : 0 <= str_len s.
Proof. unfold str_len. lia. Qed.

Lemma digits_from_app acc a b : digits_from acc (a +:+ b) = digits_from (digits_from acc a) b.
Proof. revert acc. induction a as [|c a IH]; intros acc; [done|]. apply IH. Qed.

Lemma digits_from_value acc s : digits_from acc s = acc * 10 ^ str_len s + digits_value s.
Proof.
  unfold digits_value. revert acc. induction s as [|c s IH]; intros acc; [cbn [digits_from]; change (str_len "") with 0; lia|].
  cbn [digits_from]. rewrite IH, (IH (0 * 10 + digit_value c)), str_len_cons, (Z.pow_add_r 10 1) by (lia || apply str_len_nonneg).
  change (10 ^ 1) with 10. ring.
Qed.

Lemma digits_value_app a b : digits_value (a +:+ b) = digits_value a * 10 ^ str_len b + digits_value b.
Proof. unfold digits_value at 1. rewrite digits_from_app, digits_from_value. done. Qed.

Lemma span_all p s : all_chars p s = true -> span p s = (s, "").
Proof. induction s as [|c s IH]; simpl; [done|]. intros [-> H]%andb_prop. by rewrite IH. Qed.

Lemma span_app p a b : all_chars p a = true ->
  match b with String c _ => p c = false | EmptyString => True end -> span p (a +:+ b) = (a, b).
Proof.
  intros Ha Hb. induction a as [|c a IH].
  - change ("" +:+ b) with b. destruct b as [|c b]; [done|]. simpl. by rewrite Hb.
  - simpl in Ha. apply andb_prop in Ha as [Hc Ha]. change (String c a +:+ b) with (String c (a +:+ b)).
    simpl. by rewrite Hc, IH.
Qed.

Lemma all_chars_app p a b : all_chars p (a +:+ b) = all_chars p a && all_chars p b.
Proof.
  induction a as [|c a IH]; [done|]. change (String c a +:+ b) with (String c (a +:+ b)). simpl.
  by rewrite IH, andb_assoc.
Qed.

(** ** [str] of an int *)

Lemma digit_char n : (n < 10)%N -> is_digit (pretty_N_char n) = true /\ digit_value (pretty_N_char n) = Z.of_N n.
Proof.
  intros H. assert (Hn : forall n, (n < 10)%N -> n ∈ [0;1;2;3;4;5;6;7;8;9]%N).
  { clear. intros n Hn. destruct (decide (n ∈ [0;1;2;3;4;5;6;7;8;9]%N)) as [|Hno]; [done|]. exfalso.
    rewrite !not_elem_of_cons in Hno. lia. }
  specialize (Hn n H). repeat (apply elem_of_cons in Hn as [->|Hn]; [done|]). by apply elem_of_nil in Hn.
Qed.

Lemma pretty_go_digits n : forall s, (0 < n)%N -> exists ds, pretty_N_go n s = ds +:+ s /\
  all_chars is_digit ds = true /\ digits_value ds = Z.of_N n /\ 10 ^ (str_len ds - 1) <= Z.of_N n < 10 ^ str_len ds /\
  1 <= str_len ds.
Proof.
  induction (N.lt_wf_0 n) as [n _ IH]. intros s Hn. rewrite pretty_N_go_step by done.
  destruct (digit_char (n mod 10)) as [Hd Hv]; [by apply N.mod_lt|].
  destruct (decide (n / 10 = 0)%N) as [E|E].
  - rewrite E, pretty_N_go_0. exists (String (pretty_N_char (n mod 10)) "").
    assert (Hlt : (n < 10)%N) by (apply N.div_small_iff in E; lia). rewrite N.mod_small in * by done.
    unfold digits_value. cbn [all_chars digits_from str_len String.length]. rewrite Hd, Hv.
    change (str_len _) with 1. split; [done|]. split; [done|]. lia.
  - destruct (IH (n / 10)%N) with (s := String (pretty_N_char (n mod 10)) s) as (ds & -> & Ha & Hval & Hb & Hl);
      [by apply N.div_lt|by apply N.neq_0_lt_0|].
    exists (ds +:+ String (pretty_N_char (n mod 10)) ""). rewrite str_app_assoc. split; [done|].
    rewrite all_chars_app, Ha, digits_value_app, str_len_app. cbn [all_chars]. rewrite Hd. split; [done|].
    change (str_len (String _ "")) with 1. unfold digits_value at 2. cbn [digits_from]. rewrite Hval, Hv, N2Z.inj_div, N2Z.inj_mod.
    pose proof (Z.div_mod (Z.of_N n) 10 ltac:(lia)). pose proof (Z.mod_pos_bound (Z.of_N n) 10 ltac:(lia)).
    rewrite N2Z.inj_div in Hb. change (Z.of_N 10) with 10 in *.
    rewrite Z.pow_add_r by lia. replace (str_len ds + 1 - 1) with (str_len ds - 1 + 1) by lia.
    rewrite Z.pow_add_r by lia. split; [lia|]. nia.
Qed.

(** [str] of a positive int: its digits, no leading zero. *)
Lemma str_Z_pos n : 0 < n ->
  all_chars is_digit (str_Z n) = true /\ digits_value (str_Z n) = n /\
  10 ^ (str_len (str_Z n) - 1) <= n < 10 ^ str_len (str_Z n) /\ 1 <= str_len (str_Z n).
Proof.
  intros Hn. destruct n as [|n|]; [lia| |lia].
  change (str_Z (Z.pos n)) with (pretty (N.pos n)). unfold pretty, pretty_N. rewrite decide_False by done.
  destruct (pretty_go_digits (N.pos n) "" ltac:(lia)) as (ds & -> & H). rewrite str_app_nil. exact H.
Qed.

Lemma str_Z_nonneg n : 0 <= n -> all_chars is_digit (str_Z n) = true /\ digits_value (str_Z n) = n /\ 1 <= str_len (str_Z n).
Proof.
  intros Hn. destruct (Z.eq_dec n 0) as [->|]; [done|]. destruct (str_Z_pos n) as (H1 & H2 & _ & H3); [lia|]. done.
Qed.

Lemma str_Z_neg n : n < 0 -> str_Z n = "-" +:+ str_Z (- n).
Proof. by destruct n. Qed.

(** Zeros *)
Lemma zeros_digits k : all_chars is_digit (zeros k) = true /\ digits_value (zeros k) = 0 /\ str_len (zeros k) = Z.of_nat k.
Proof.
  induction k as [|k (H1 & H2 & H3)]; [done|]. cbn [zeros].
  rewrite all_chars_app, digits_value_app, str_len_app, H1, H2, H3. split; [done|]. split; [done|].
  change (str_len "0") with 1. lia.
Qed.
Lemma pow10_split a b : 0 <= a -> 0 <= b -> 10 ^ (a + b) = 10 ^ a * 10 ^ b.
Proof. intros. by rewrite Z.pow_add_r. Qed.

(** ** [int()] of a string *)

Definition underscore : ascii := "_"%char.

(** Digits with single underscores between them, as [int] and [float] allow:
    the digits, and the rest of the string. *)
Fixpoint scan_digits (after_digit : bool) (s : string) : string * string :=
  match s with
  | EmptyString => ("", "")
  | String c s' =>
      if is_digit c then let '(a, b) := scan_digits true s' in (String c a, b)
      else if after_digit && Ascii.eqb c underscore
              && match s' with String c' _ => is_digit c' | EmptyString => false end
           then scan_digits false s'
      else ("", s)
  end.

Fixpoint lstrip (s : string) : string :=
  match s with String c s' => if is_space c then lstrip s' else s | EmptyString => "" end.
Fixpoint rstrip (s : string) : string :=
  match s with
  | EmptyString => ""
  | String c s' => let t := rstrip s' in
      if is_space c && match t with EmptyString => true | _ => false end then "" else String c t
  end.
(** [s.strip()] *)
Definition str_strip (s : string) : string := rstrip (lstrip s).

(** [s.split(c)] *)
Fixpoint split_on (c : ascii) (s : string) : list string :=
  match s with
  | EmptyString => [""]
  | String x s =>
      if Ascii.eqb x c then "" :: split_on c s
      else match split_on c s with p :: l => String x p :: l | [] => [String x ""] end
  end.

Lemma split_on_none c s : all_chars (fun x => negb (Ascii.eqb x c)) s = true -> split_on c s = [s].
Proof.
  induction s as [|x s IH]; [done|]. simpl. intros [Hx H]%andb_prop. apply negb_true_iff in Hx. by rewrite Hx, IH.
Qed.
Lemma split_on_app c s t : all_chars (fun x => negb (Ascii.eqb x c)) s = true -> split_on c (s +:+ String c t) = s :: split_on c t.
Proof.
  induction s as [|x s IH].
  - intros _. change (split_on c (String c t) = "" :: split_on c t). simpl. by rewrite Ascii.eqb_refl.
  - change (String x s +:+ String c t) with (String x (s +:+ String c t)). simpl. intros [Hx H]%andb_prop.
    apply negb_true_iff in Hx. by rewrite Hx, IH.
Qed.

(** An optional sign. *)
Definition scan_sign (s : string) : bool * string :=
  match s with
  | String c s' => if Ascii.eqb c "-" then (true, s') else if Ascii.eqb c "+" then (false, s') else (false, s)
  | EmptyString => (false, "")
  end.

(** [int(s)] *)
Definition py_int_str (s : string) : result Z :=
  let '(negative, t) := scan_sign (str_strip s) in
  match scan_digits false t with
  | (String c ds, "") => let v := digits_value (String c ds) in Ok (if negative then - v else v)
  | _ => Err (ValueError ("invalid literal for int() with base 10: " +:+ repr_str s))
  end.

Lemma digit_not_space c : is_digit c = true -> is_space c = false.
Proof. unfold is_digit, is_space, code. lia. Qed.

Lemma scan_digits_all b s : all_chars is_digit s = true -> scan_digits b s = (s, "").
Proof.
  revert b. induction s as [|c s IH]; intros b; [done|]. simpl. intros [-> H]%andb_prop. by rewrite IH.
Qed.

Lemma scan_digits_app b s t : all_chars is_digit s = true ->
  match t with String c _ => is_digit c = false /\ c <> underscore | EmptyString => True end ->
  scan_digits b (s +:+ t) = (s, t).
Proof.
  intros Hs Ht. revert b. induction s as [|c s IH]; intros b.
  - change ("" +:+ t) with t. destruct t as [|c t]; [done|]. destruct Ht as [H1 H2]. simpl. rewrite H1.
    apply Ascii.eqb_neq in H2. by rewrite H2, andb_false_r.
  - simpl in Hs. apply andb_prop in Hs as [Hc Hs]. change (String c s +:+ t) with (String c (s +:+ t)).
    simpl. by rewrite Hc, IH.
Qed.

Lemma strip_id s : all_chars (fun c => negb (is_space c)) s = true -> str_strip s = s.
Proof.
  intros H. unfold str_strip. assert (lstrip s = s) as ->.
  { destruct s as [|c s]; [done|]. simpl in *. apply andb_prop in H as [H _]. apply negb_true_iff in H. by rewrite H. }
  induction s as [|c s IH]; [done|]. simpl in *. apply andb_prop in H as [Hc H]. apply negb_true_iff in Hc.
  by rewrite IH, Hc.
Qed.

Lemma all_chars_impl (p q : ascii -> bool) s : (forall c, p c = true -> q c = true) -> all_chars p s = true ->
  all_chars q s = true.
Proof. intros Hpq. induction s as [|c s IH]; [done|]. simpl. intros [H1 H2]%andb_prop. by rewrite Hpq, IH. Qed.

(** [int(str(n)) = n] *)
Lemma py_int_str_Z n : py_int_str (str_Z n) = Ok n.
Proof.
  assert (Hpos : forall n, 0 <= n -> str_strip (str_Z n) = str_Z n /\ str_strip ("-" +:+ str_Z n) = "-" +:+ str_Z n).
  { intros k Hk. destruct (str_Z_nonneg k Hk) as (H & _ & _).
    apply (all_chars_impl _ (fun c => negb (is_space c))) in H; [|intros c Hc; by rewrite digit_not_space].
    split; apply strip_id; [done|]. by rewrite all_chars_app, H. }
  assert (Hscan : forall n, 0 <= n -> exists c ds, str_Z n = String c ds /\ scan_digits false (str_Z n) = (str_Z n, "")
    /\ scan_sign (str_Z n) = (false, str_Z n) /\ digits_value (str_Z n) = n).
  { intros k Hk. destruct (str_Z_nonneg k Hk) as (H & Hv & Hl). destruct (str_Z k) as [|c ds] eqn:E; [done|].
    exists c, ds. split; [done|]. split; [by apply scan_digits_all|]. split; [|done]. simpl in H.
    apply andb_prop in H as [H _]. unfold scan_sign.
    destruct (Ascii.eqb_spec c "-") as [->|]; [done|]. by destruct (Ascii.eqb_spec c "+") as [->|]. }
  unfold py_int_str. destruct (Z.le_gt_cases 0 n) as [Hn|Hn].
  - destruct (Hpos n Hn) as [-> _]. destruct (Hscan n Hn) as (c & ds & E & H1 & H2 & H3).
    rewrite H2, H1. rewrite E in *. by rewrite H3.
  - rewrite str_Z_neg by done. destruct (Hpos (- n) ltac:(lia)) as [_ ->].
    destruct (Hscan (- n) ltac:(lia)) as (c & ds & E & H1 & _ & H3).
    change (scan_sign ("-" +:+ str_Z (- n))) with (true, str_Z (- n)).
    cbv beta iota. rewrite H1. rewrite E in *. rewrite H3. f_equal. lia.
Qed.
