(* ===== verification/FloatDecimal.v ===== *)
(** * Decimal and binary64

    The binary64 nearest to a decimal depends on its value only, and the
    decimal [repr] chooses reads back: seventeen digits always suffice. *)

From Stdlib Require Import ZArith Floats Ascii String ZifyBool.
From stdpp Require Import prelude strings list pretty numbers.
From S2P Require Import Prelude PyData PyFloat FloatTheory FloatRound PyText PyDigits.

Local Open Scope Z_scope.

Lemma pow10_pos n : 0 <= n -> 0 < 10 ^ n.
Proof. intros. by apply Z.pow_pos_nonneg. Qed.

(** [d * 10 ^ p] as a fraction. *)
Definition dec_num (d p : Z) : Z := d * 10 ^ Z.max p 0.
Definition dec_den (p : Z) : Z := 10 ^ Z.max (- p) 0.
Lemma dec_den_pos p : 0 < dec_den p.
Proof. apply pow10_pos. lia. Qed.

(** ** The nearest binary64 *)

Lemma sf_of_decimal_finishQ d p : 0 < d ->
  let x := sf_of_decimal d p in
  valid_binary x = true /\ sf_nan x = false /\
  sf_val x = Z.min over (rndQ (dec_num d p * 2 ^ 1074) (dec_den p)).
Proof.
  intros Hd. unfold sf_of_decimal, dec_num, dec_den. pose proof (pow2_pos 1074 ltac:(lia)) as H2.
  destruct (Z.ltb_spec p 0) as [Hp|Hp]; cbv zeta.
  - rewrite (Z.max_r p), (Z.max_l (- p)), Z.pow_0_r, Z.mul_1_r by lia.
    pose proof (pow10_pos (- p) ltac:(lia)) as H10.
    destruct d as [|d|]; [lia| |lia]. destruct (10 ^ (- p)) as [|t|] eqn:Et; [lia| |lia].
    rewrite (div_core_finishQ false d 0 t 0) by (unfold e_min; lia).
    assert (Hm : forall x, mag x 0 = Z.pos x * 2 ^ 1074) by done. rewrite !Hm.
    assert (H0 : 0 < Z.pos t * 2 ^ 1074) by lia. assert (H1 : 0 <= Z.pos d * 2 ^ 1074 * 2 ^ 1074) by lia.
    split; [by apply finishQ_valid|]. split; [|by rewrite finishQ_val, rndQ_scale by lia].
    destruct (finishQ_cases false (Z.pos d * 2 ^ 1074 * 2 ^ 1074) (Z.pos t * 2 ^ 1074) H0 H1)
      as [[_ ->]|(q & g & -> & _ & Hg & Hq & B1 & B2)]; [done|]. by apply round_finish.
  - rewrite (Z.max_l p), (Z.max_r (- p)), Z.pow_0_r by lia. pose proof (pow10_pos p Hp) as H10.
    destruct (binary_normalize_spec (d * 10 ^ p) 0 false) as [Hv Hn]; [unfold e_min; lia|].
    split; [apply binary_normalize_valid; unfold e_min; lia|]. split; [done|]. rewrite Hv.
    change (0 - e_min) with 1074. unfold rndZ.
    assert (0 < d * 10 ^ p) by nia. rewrite Z.sgn_pos, Z.abs_eq, Z.mul_1_l by nia.
    pose proof (rndQ_int (d * 10 ^ p * 2 ^ 1074) 1 ltac:(lia)) as E. by rewrite Z.mul_1_r in E; rewrite E.
Qed.

(** Positive floats of the same value are the same. *)
Lemma sf_val_inj x m e : valid_binary x = true -> sf_nan x = false -> valid_binary (S754_finite false m e) = true ->
  sf_val x = mag m e -> x = S754_finite false m e.
Proof.
  intros Hx Hn Hy Hv. pose proof (mag_lt_over _ _ _ Hy) as Hb. pose proof over_pos.
  destruct x as [s|s| |s m' e']; cbn in Hv; [lia|destruct s; cbn in Hv; lia|done|].
  pose proof (mag_lt_over _ _ _ Hx). destruct s; cbn in Hv; [lia|].
  pose proof (mag_compare _ _ _ _ _ _ Hx Hy) as Hc. rewrite Hv, Z.compare_refl in Hc.
  destruct (Z.compare_spec e' e) as [->|?|?]; [|done..].
  change (Pos.compare_cont Eq m' m) with (Pos.compare m' m) in Hc. apply Pos.compare_eq in Hc. by subst.
Qed.

(** Only the value of the decimal matters. *)
Lemma sf_of_decimal_value d p d' p' m e : 0 < d -> 0 < d' ->
  dec_num d p * dec_den p' = dec_num d' p' * dec_den p ->
  sf_of_decimal d p = S754_finite false m e -> sf_of_decimal d' p' = S754_finite false m e.
Proof.
  intros Hd Hd' H Hx. destruct (sf_of_decimal_finishQ d p Hd) as (V1 & N1 & E1).
  destruct (sf_of_decimal_finishQ d' p' Hd') as (V2 & N2 & E2).
  pose proof (dec_den_pos p). pose proof (dec_den_pos p'). rewrite Hx in V1, E1.
  apply sf_val_inj; [done..|]. cbn [sf_val signed] in E1. rewrite E1, E2. f_equal.
  rewrite <-(rndQ_scale _ (dec_den p') (dec_den p)), <-(rndQ_scale _ (dec_den p) (dec_den p')) by lia.
  f_equal; [|lia]. rewrite <-!Z.mul_assoc, !(Z.mul_comm (2 ^ 1074)), !Z.mul_assoc, H. done.
Qed.

(** *** Close decimals round to the float *)

Lemma rneQ_unique p D v : 0 < D -> 2 * Z.abs (p - v * D) < D -> rneQ p D = v.
Proof.
  intros HD H. unfold rneQ.
  pose proof (Z.div_mod p D ltac:(lia)) as E. pose proof (Z.mod_pos_bound p D HD) as B.
  set (q := p / D) in *. set (r := p mod D) in *. clearbody q r.
  destruct (Z.eq_dec q v) as [->|Hq].
  - destruct (Z.ltb_spec (2 * r) D); [done|]. nia.
  - assert (q = v - 1) as -> by nia.
    destruct (Z.ltb_spec (2 * r) D); [nia|]. destruct (Z.eqb_spec (2 * r) D); [nia|]. lia.
Qed.

Lemma log2_between v k : 0 <= k -> 2 ^ k <= v < 2 ^ (k + 1) -> Z.log2 v = k.
Proof. intros Hk H. apply Z.log2_unique; [lia|]. by replace (Z.succ k) with (k + 1) by lia. Qed.

(** A fraction within a relative [2 ^ -54] of a float rounds to it. *)
Lemma rndQ_nearest m e p d : valid_binary (S754_finite false m e) = true -> 0 < d -> 0 < p ->
  2 ^ 54 * Z.abs (p - mag m e * d) < mag m e * d -> rndQ p d = mag m e.
Proof.
  intros Hv Hd Hp Hc. destruct (valid_finite _ _ _ Hv) as ([He _] & Hm & Hn).
  set (k := e - e_min) in *. assert (Hk : 0 <= k) by lia. pose proof (pow2_pos k Hk) as HG.
  assert (HV : mag m e = Z.pos m * 2 ^ k) by done. set (V := mag m e) in *.
  assert (H54 : 2 ^ 54 = 4 * 2 ^ 52) by done. assert (H53 : 2 ^ 53 = 2 * 2 ^ 52) by done.
  pose proof (pow2_pos 52 ltac:(lia)) as H52. set (T := 2 ^ 52) in *.
  assert (Hw : p / d * d <= p < (p / d + 1) * d)
    by (pose proof (Z.mul_div_le p d Hd); pose proof (Z.mul_succ_div_gt p d Hd); lia).
  set (w := p / d) in *.
  assert (Hkey : exists g v, grid w = g /\ V = v * 2 ^ g /\ 0 <= g /\ V <= 2 * T * 2 ^ g).
  { assert (Hup : w < 2 * T * 2 ^ k).
    { assert (V + 2 ^ k <= 2 * T * 2 ^ k) by nia. assert (V < 4 * T * 2 ^ k) by nia.
      assert (p < (2 * T * 2 ^ k) * d); [|nia]. nia. }
    destruct (Z.eq_dec e e_min) as [E|E].
    - exists 0, V. assert (k = 0) as Ek by lia. rewrite Ek in *. change (2 ^ 0) with 1 in *.
      split; [|lia]. unfold grid. destruct (Z.lt_ge_cases 0 w); [|rewrite Z.log2_nonpos by lia; lia].
      assert (Z.log2 w < 53) by (apply Z.log2_lt_pow2; lia). lia.
    - specialize (Hn ltac:(lia)). destruct (Z.le_gt_cases (T * 2 ^ k) w) as [Hlo|Hlo].
      + exists k, (Z.pos m). split; [|nia]. unfold grid.
        rewrite (log2_between w (52 + k)); [lia|lia|]. rewrite !Z.pow_add_r by lia. fold T. lia.
      + assert (Z.pos m = T) as Em.
        { destruct (Z.eq_dec (Z.pos m) T); [done|]. exfalso.
          assert (T * 2 ^ k * d <= p); [|nia].
          assert (V = Z.pos m * 2 ^ k) by done. assert (V * d < 4 * T * (2 ^ k * d)) by nia.
          assert (Z.abs (p - V * d) < 2 ^ k * d) by nia. nia. }
        assert (Hk1 : 2 ^ k = 2 * 2 ^ (k - 1)) by (rewrite <-Z.pow_succ_r by lia; f_equal; lia).
        exists (k - 1), (2 * T). split; [|nia]. unfold grid.
        rewrite (log2_between w (52 + (k - 1))); [lia|lia|].
        replace (52 + (k - 1) + 1) with (52 + k) by lia. rewrite !Z.pow_add_r by lia. fold T. split; [|lia].
        assert (T * 2 ^ (k - 1) * d < p); [|nia]. nia. }
  destruct Hkey as (g & v & Hg & Hvv & Hg0 & HvT). unfold rndQ. fold w. rewrite Hg, Hvv.
  f_equal. apply rneQ_unique; [pose proof (pow2_pos g Hg0); nia|].
  pose proof (pow2_pos g Hg0). replace (v * (d * 2 ^ g)) with (V * d) by (rewrite Hvv; ring).
  assert (V * d <= 2 * T * (d * 2 ^ g)) by nia. nia.
Qed.

(** ** The decimal of a float *)

Section Decimal.
Context (num den : Z) (Hnum : 0 < num) (Hden : 0 < den).

(** [10 ^ (decpt - 1) <= num / den] *)
Definition decpt_ok (dp : Z) : Prop :=
  10 ^ Z.max (dp - 1) 0 * den <= num * 10 ^ Z.max (1 - dp) 0.

Lemma small_decpt_ok fuel j : 0 <= j -> den <= num * 10 ^ (j + Z.of_nat fuel) ->
  let dp := small_decpt fuel j (num * 10 ^ j) den in dp <= 1 - j /\ den <= num * 10 ^ (1 - dp).
Proof.
  revert j. induction fuel as [|fuel IH]; intros j Hj Hb; cbn [small_decpt]; cbv zeta.
  - replace (1 - (1 - j)) with j by lia. by replace (j + Z.of_nat 0) with j in Hb by lia.
  - destruct (Z.leb_spec den (num * 10 ^ j)) as [H|H]; [replace (1 - (1 - j)) with j by lia; lia|].
    replace (num * 10 ^ j * 10) with (num * 10 ^ (j + 1)) by (rewrite Z.pow_add_r by lia; change (10 ^ 1) with 10; ring).
    destruct (IH (j + 1)) as [IH1 IH2]; [lia|by replace (j + 1 + Z.of_nat fuel) with (j + Z.of_nat (S fuel)) by lia|].
    split; [lia|done].
Qed.

Lemma decpt_spec : den <= num * 10 ^ 330 -> decpt_ok (decpt num den).
Proof.
  intros Hb. unfold decpt, decpt_ok. destruct (Z.leb_spec den num) as [H|H].
  - assert (Hq : 0 < num / den) by (apply Z.div_str_pos; lia).
    destruct (str_Z_pos _ Hq) as (_ & _ & [Hlo _] & Hl). fold (str_len (str_Z (num / den))).
    set (L := str_len _) in *. rewrite Z.max_l, (Z.max_r (1 - L)), Z.pow_0_r by lia.
    pose proof (Z.mul_div_le num den Hden). nia.
  - destruct (small_decpt_ok 330 0) as [H1 H2]; [lia|done|]. rewrite Z.pow_0_r, Z.mul_1_r in *.
    set (dp := small_decpt 330 0 num den) in *. rewrite (Z.max_r (dp - 1)), (Z.max_l (1 - dp)), Z.pow_0_r by lia. lia.
Qed.

Lemma half_even_close a b : 0 < b -> 2 * Z.abs (div_half_even a b * b - a) <= b.
Proof.
  intros Hb. unfold div_half_even. pose proof (Z.div_mod a b ltac:(lia)). pose proof (Z.mod_pos_bound a b Hb).
  set (q := a / b) in *. set (r := a mod b) in *. clearbody q r.
  destruct (Z.ltb_spec (2 * r) b); [nia|]. destruct (Z.eqb_spec (2 * r) b); [|nia]. destruct (Z.even q); nia.
Qed.

(** The [n]-digit decimal is within half a unit of its last place. *)
Lemma digits_at_close dp n (d := digits_at num den dp n) (p := dp - Z.of_nat n) :
  2 * Z.abs (dec_num d p * den - num * dec_den p) <= den * 10 ^ Z.max p 0.
Proof.
  unfold d, digits_at, dec_num, dec_den, p. set (s := Z.of_nat n - dp).
  replace (dp - Z.of_nat n) with (- s) by lia. destruct (Z.ltb_spec s 0) as [Hs|Hs].
  - rewrite (Z.max_l (- s)), (Z.max_r (- - s)), Z.pow_0_r, Z.mul_1_r by lia.
    pose proof (pow10_pos (- s) ltac:(lia)). pose proof (half_even_close num (den * 10 ^ (- s)) ltac:(nia)) as H0.
    replace (div_half_even num (den * 10 ^ (- s)) * 10 ^ (- s) * den)
      with (div_half_even num (den * 10 ^ (- s)) * (den * 10 ^ (- s))) by ring. lia.
  - rewrite (Z.max_r (- s)), Z.opp_involutive, (Z.max_l s), Z.pow_0_r, !Z.mul_1_r by lia.
    by apply half_even_close.
Qed.

(** The leading digit is not zero. *)
Lemma digits_unit dp n : (1 <= n)%nat -> decpt_ok dp ->
  10 ^ (Z.of_nat n - 1) * (den * 10 ^ Z.max (dp - Z.of_nat n) 0) <= num * dec_den (dp - Z.of_nat n).
Proof.
  intros Hn Hdp. unfold decpt_ok in Hdp. unfold dec_den. set (N := Z.of_nat n) in *. assert (HN : 1 <= N) by lia. clearbody N.
  destruct (Z.le_gt_cases N dp) as [H|H].
  - rewrite (Z.max_l (dp - N)), (Z.max_r (- (dp - N))), Z.pow_0_r by lia.
    rewrite (Z.max_l (dp - 1)), (Z.max_r (1 - dp)), Z.pow_0_r in Hdp by lia.
    replace (dp - 1) with (N - 1 + (dp - N)) in Hdp by lia. rewrite Z.pow_add_r in Hdp by lia. lia.
  - rewrite (Z.max_r (dp - N)), (Z.max_l (- (dp - N))), Z.pow_0_r by lia.
    destruct (Z.le_gt_cases 1 dp) as [H1|H1].
    + rewrite (Z.max_l (dp - 1)), (Z.max_r (1 - dp)), Z.pow_0_r in Hdp by lia.
      replace (N - 1) with (dp - 1 + - (dp - N)) by lia. rewrite Z.pow_add_r by lia.
      pose proof (pow10_pos (- (dp - N)) ltac:(lia)). nia.
    + rewrite (Z.max_r (dp - 1)), (Z.max_l (1 - dp)), Z.pow_0_r in Hdp by lia.
      replace (- (dp - N)) with (N - 1 + (1 - dp)) by lia. rewrite Z.pow_add_r by lia.
      pose proof (pow10_pos (N - 1) ltac:(lia)). nia.
Qed.

Lemma digits_at_pos dp n : (1 <= n)%nat -> decpt_ok dp -> 0 < digits_at num den dp n.
Proof.
  intros Hn Hdp. pose proof (digits_unit dp n Hn Hdp) as Hu. pose proof (digits_at_close dp n) as Hc. cbv zeta in Hc.
  pose proof (pow10_pos (Z.of_nat n - 1) ltac:(lia)). pose proof (dec_den_pos (dp - Z.of_nat n)) as Hq.
  pose proof (pow10_pos (Z.max (dp - Z.of_nat n) 0) ltac:(lia)) as Hp. unfold dec_num in Hc.
  set (d := digits_at num den dp n) in *. set (T := 10 ^ Z.max _ 0) in *. set (X := num * _) in *.
  assert (0 < den * T) by nia. assert (den * T <= X) by nia. assert (0 < d * T * den) by lia. nia.
Qed.

(** Seventeen digits are within [2 ^ -54] of the number. *)
Lemma seventeen dp (d := digits_at num den dp 17) (p := dp - 17) : decpt_ok dp ->
  2 ^ 54 * Z.abs (dec_num d p * den - num * dec_den p) < num * dec_den p.
Proof.
  intros Hdp. pose proof (digits_at_close dp 17) as Hc. cbv zeta in Hc. change (Z.of_nat 17) with 17 in Hc. fold d p in Hc.
  pose proof (digits_unit dp 17 ltac:(lia) Hdp) as Hu. change (Z.of_nat 17) with 17 in Hu. fold p in Hu.
  change (10 ^ (17 - 1)) with 10000000000000000 in Hu. change (2 ^ 54) with 18014398509481984.
  pose proof (pow10_pos (Z.max p 0) ltac:(lia)) as Hp0.
  set (U := den * 10 ^ Z.max p 0) in *. set (X := num * dec_den p) in *.
  assert (HU : 0 < U) by (unfold U; nia). revert Hc. generalize (Z.abs (dec_num d p * den - X)). lia.
Qed.
End Decimal.

(** A positive float as the fraction [repr] works on. *)
Definition sf_num (m : positive) (e : Z) : Z := Z.pos m * 2 ^ Z.max e 0.
Definition sf_den (e : Z) : Z := 2 ^ Z.max (- e) 0.

Section Shortest.
Context (m : positive) (e : Z) (Hv : valid_binary (S754_finite false m e) = true).

Lemma sf_fraction : sf_num m e * 2 ^ 1074 = mag m e * sf_den e /\ 0 < sf_num m e /\ 0 < sf_den e /\
  sf_den e <= sf_num m e * 10 ^ 330.
Proof.
  destruct (valid_finite _ _ _ Hv) as ([He1 He2] & _ & _). unfold sf_num, sf_den, mag, e_min in *.
  pose proof (pow2_pos (Z.max e 0) ltac:(lia)). pose proof (pow2_pos (Z.max (- e) 0) ltac:(lia)).
  split; [|split; [lia|split; [lia|]]].
  - rewrite <-!Z.mul_assoc, <-!Z.pow_add_r by lia. do 2 f_equal. lia.
  - assert (2 ^ Z.max (- e) 0 <= 2 ^ 1074) by (apply Z.pow_le_mono_r; lia).
    assert (2 ^ 1074 <= 10 ^ 330) by (vm_compute; discriminate). pose proof (pow10_pos 330 ltac:(lia)). nia.
Qed.

(** A decimal as close as [seventeen] says reads as the float. *)
Lemma close_decimal d p : 0 < d ->
  2 ^ 54 * Z.abs (dec_num d p * sf_den e - sf_num m e * dec_den p) < sf_num m e * dec_den p ->
  sf_of_decimal d p = S754_finite false m e.
Proof.
  intros Hd Hc. destruct sf_fraction as (Hf & Hn & Hdn & _). destruct (sf_of_decimal_finishQ d p Hd) as (V & N & E).
  pose proof (dec_den_pos p) as Hq. pose proof (pow2_pos 1074 ltac:(lia)) as H2.
  pose proof (pow10_pos (Z.max p 0) ltac:(lia)).
  apply sf_val_inj; [done..|]. rewrite E.
  assert (Hr : rndQ (dec_num d p * 2 ^ 1074) (dec_den p) = mag m e).
  { apply rndQ_nearest; [done..|unfold dec_num; nia|].
    apply (Z.mul_lt_mono_pos_r (sf_den e)); [done|].
    replace (mag m e * dec_den p * sf_den e) with (sf_num m e * dec_den p * 2 ^ 1074)
      by (rewrite (Z.mul_comm (mag m e)), <-!Z.mul_assoc, <-Hf; ring).
    assert (Ea : Z.abs (dec_num d p * 2 ^ 1074 - mag m e * dec_den p) * sf_den e =
      Z.abs (dec_num d p * sf_den e - sf_num m e * dec_den p) * 2 ^ 1074).
    { assert (Habs : forall a k, 0 < k -> Z.abs a * k = Z.abs (a * k))
        by (intros; rewrite Z.abs_mul, (Z.abs_eq k) by lia; done).
      rewrite !Habs by done. f_equal.
      replace ((dec_num d p * 2 ^ 1074 - mag m e * dec_den p) * sf_den e)
        with (dec_num d p * 2 ^ 1074 * sf_den e - mag m e * sf_den e * dec_den p) by ring.
      rewrite <-Hf. ring. }
    rewrite <-Z.mul_assoc, Ea. set (U := 2 ^ 1074) in *. clearbody U. nia. }
  rewrite Hr. pose proof (mag_lt_over _ _ _ Hv). lia.
Qed.
End Shortest.

Section ReadBack.
Context (m : positive) (e : Z) (Hv : valid_binary (S754_finite false m e) = true).

Lemma sf_same_eq x : sf_same x (S754_finite false m e) = true -> x = S754_finite false m e.
Proof.
  destruct x as [s|s| |[] m' e']; try done. cbn [sf_same Bool.eqb andb].
  intros [Hm%Pos.eqb_eq He%Z.eqb_eq]%andb_prop. by subst.
Qed.
Lemma sf_same_refl : sf_same (S754_finite false m e) (S754_finite false m e) = true.
Proof. cbn [sf_same]. by rewrite Bool.eqb_reflx, Pos.eqb_refl, Z.eqb_refl. Qed.

(** The shortest decimal reads back: with 17 digits at the latest. *)
Lemma shortest_reads fuel n : (1 <= n)%nat -> (n <= 17)%nat -> (17 < n + fuel)%nat ->
  let '(d, p) := shortest fuel n m e (sf_num m e) (sf_den e) (decpt (sf_num m e) (sf_den e)) in
  0 < d /\ sf_of_decimal d p = S754_finite false m e.
Proof.
  destruct (sf_fraction m e Hv) as (_ & Hn & Hd & Hb).
  pose proof (decpt_spec _ _ Hd Hb) as Hdp. revert n.
  induction fuel as [|fuel IH]; intros n H0 H1 H2; [lia|]. cbn [shortest].
  pose proof (digits_at_pos _ _ Hn Hd _ _ H0 Hdp) as Hpos. destruct (sf_same _ _) eqn:E.
  - split; [done|]. by apply sf_same_eq.
  - destruct (decide (n = 17%nat)) as [->|Hne]; [|by apply IH; lia]. exfalso.
    pose proof (seventeen _ _ Hn Hd _ Hdp) as Hc. change (Z.of_nat 17) with 17 in E.
    rewrite (close_decimal m e Hv _ _ Hpos Hc), sf_same_refl in E. done.
Qed.

(** Dropping trailing zeros keeps the value. *)
Lemma strip_zeros_reads fuel d p : 0 < d -> sf_of_decimal d p = S754_finite false m e ->
  let '(d', p') := strip_zeros fuel d p in 0 < d' /\ sf_of_decimal d' p' = S754_finite false m e.
Proof.
  revert d p. induction fuel as [|fuel IH]; intros d p Hd H; cbn [strip_zeros]; [done|].
  destruct ((d mod 10 =? 0) && (0 <? d)) eqn:E; [|done].
  assert (Hm : d = 10 * (d / 10)) by (pose proof (Z.div_mod d 10 ltac:(lia)); lia).
  apply IH; [lia|]. apply (sf_of_decimal_value d p); [lia..| |done].
  unfold dec_num, dec_den. set (t := d / 10) in *. rewrite Hm.
  destruct (Z.le_gt_cases 0 p) as [Hp|Hp].
  - rewrite (Z.max_l p), (Z.max_l (p + 1)), (Z.max_r (- (p + 1))), (Z.max_r (- p)), Z.pow_add_r by lia.
    change (10 ^ 1) with 10. ring.
  - rewrite (Z.max_r p), (Z.max_r (p + 1)), (Z.max_l (- (p + 1))), (Z.max_l (- p)) by lia.
    replace (- p) with (- (p + 1) + 1) by lia. rewrite Z.pow_add_r by lia. change (10 ^ 1) with 10. ring.
Qed.

(** The decimal [repr] prints for a positive float. *)
Definition repr_decimal : Z * Z :=
  let '(d, p) := shortest 17 1 m e (sf_num m e) (sf_den e) (decpt (sf_num m e) (sf_den e)) in strip_zeros 20 d p.

Lemma repr_decimal_reads : 0 < fst repr_decimal /\
  sf_of_decimal (fst repr_decimal) (snd repr_decimal) = S754_finite false m e.
Proof.
  unfold repr_decimal. pose proof (shortest_reads 17 1 ltac:(lia) ltac:(lia) ltac:(lia)) as H.
  destruct (shortest _ _ _ _ _ _ _) as [d p]. destruct H as [Hd H].
  pose proof (strip_zeros_reads 20 d p Hd H) as H'. by destruct (strip_zeros 20 d p).
Qed.
End ReadBack.
