(* ===== verification/PyParse.v ===== *)
(** * float() and int() of text

    [float(s)] reads what Python's grammar allows and rounds correctly; the
    main lemma is [float(repr(x)) = x] for every float. *)

From Stdlib Require Import ZArith Floats Ascii String ZifyBool.
From stdpp Require Import prelude strings list pretty numbers.
From S2P Require Import Prelude PyData PyFloat FloatTheory FloatRound PyText PyDigits FloatDecimal.

Local Open Scope Z_scope.

(** ** Case *)

Definition lower_char (c : ascii) : ascii :=
  if (65 <=? code c) && (code c <=? 90) then ascii_of_N (N_of_ascii c + 32) else c.
Definition upper_char (c : ascii) : ascii :=
  if (97 <=? code c) && (code c <=? 122) then ascii_of_N (N_of_ascii c - 32) else c.
Fixpoint str_map (f : ascii -> ascii) (s : string) : string :=
  match s with EmptyString => "" | String c s' => String (f c) (str_map f s') end.
(** [s.lower()], [s.upper()] *)
Definition str_lower : string -> string := str_map lower_char.
Definition str_upper : string -> string := str_map upper_char.

(** ** float() *)

(** An unsigned decimal: its digits as an integer and the power of ten. *)
Definition scan_exponent (s : string) : option Z :=
  match s with
  | EmptyString => Some 0
  | String c s' =>
      if Ascii.eqb c "e" || Ascii.eqb c "E" then
        let '(negative, t) := scan_sign s' in
        match scan_digits false t with
        | (String c' ds, "") => let v := digits_value (String c' ds) in Some (if negative then - v else v)
        | _ => None
        end
      else None
  end.
Definition scan_decimal (s : string) : option (Z * Z) :=
  let '(ip, rest) := scan_digits false s in
  let '(fp, rest) := match rest with
                     | String c r => if Ascii.eqb c "." then scan_digits false r else ("", rest)
                     | EmptyString => ("", rest)
                     end in
  if str_empty (ip +:+ fp) then None
  else match scan_exponent rest with
       | Some ex => Some (digits_value (ip +:+ fp), ex - str_len fp)
       | None => None
       end.

Definition sf_negate (negative : bool) (x : spec_float) : spec_float := if negative then SFopp x else x.
Definition scan_float (s : string) : option spec_float :=
  let '(negative, t) := scan_sign s in
  let l := str_lower t in
  if String.eqb l "inf" || String.eqb l "infinity" then Some (S754_infinity negative)
  else if String.eqb l "nan" then Some S754_nan
  else match scan_decimal t with
       | Some (d, p) => Some (sf_negate negative (if d =? 0 then S754_zero false else sf_of_decimal d p))
       | None => None
       end.
(** [float(s)] *)
Definition py_float_str (s : string) : result float :=
  match scan_float (str_strip s) with
  | Some x => Ok (SF2Prim x)
  | None => Err (ValueError ("could not convert string to float: " +:+ repr_str s))
  end.

(** ** Reading what [repr] writes *)

Lemma substring_split k s : (k <= String.length s)%nat ->
  String.substring 0 k s +:+ String.substring k (String.length s - k) s = s /\
  str_len (String.substring 0 k s) = Z.of_nat k /\ str_len (String.substring k (String.length s - k) s) = str_len s - Z.of_nat k.
Proof.
  revert s. induction k as [|k IH]; intros s Hk.
  - assert (E : forall s, String.substring 0 (String.length s) s = s).
    { clear. induction s as [|c s IH]; [done|]. simpl. by rewrite IH. }
    rewrite Nat.sub_0_r, E. destruct s; (split; [done|]); split; [done|lia|done|lia].
  - destruct s as [|c s]; [simpl in Hk; lia|]. simpl in Hk. destruct (IH s ltac:(lia)) as (H1 & H2 & H3).
    cbn [String.substring String.length]. rewrite Nat.sub_succ.
    change (String c (String.substring 0 k s) +:+ ?t) with (String c (String.substring 0 k s +:+ t)).
    rewrite H1, !str_len_cons. split; [done|]. lia.
Qed.

Lemma scan_decimal_point ip fp : all_chars is_digit ip = true -> all_chars is_digit fp = true ->
  ip <> "" -> forall rest, match rest with String c _ => is_digit c = false /\ c <> underscore | _ => True end ->
  scan_decimal (ip +:+ ("." +:+ (fp +:+ rest))) =
    (ex ← scan_exponent rest; Some (digits_value (ip +:+ fp), ex - str_len fp)).
Proof.
  intros Hi Hf Hne rest Hr. unfold scan_decimal. rewrite scan_digits_app; [|done|done].
  change ("." +:+ (fp +:+ rest)) with (String "." (fp +:+ rest)). cbn [Ascii.eqb Bool.eqb].
  rewrite scan_digits_app by done.
  destruct ip as [|c ip]; [done|]. change (str_empty (String c ip +:+ fp)) with false. cbv iota.
  by destruct (scan_exponent rest).
Qed.

Lemma scan_decimal_int ip rest : all_chars is_digit ip = true -> ip <> "" ->
  match rest with String c _ => is_digit c = false /\ c <> underscore /\ c <> "."%char | _ => True end ->
  scan_decimal (ip +:+ rest) = (ex ← scan_exponent rest; Some (digits_value ip, ex)).
Proof.
  intros Hi Hne Hr. unfold scan_decimal. rewrite scan_digits_app; [|done|by destruct rest; [|split; apply Hr]].
  assert (E : match rest with String c r => if Ascii.eqb c "." then scan_digits false r else ("", rest)
              | EmptyString => ("", rest) end = ("", rest)).
  { destruct rest as [|c r]; [done|]. destruct Hr as (_ & _ & Hd). apply Ascii.eqb_neq in Hd. by rewrite Hd. }
  rewrite E, str_app_nil. destruct ip as [|c ip]; [done|]. change (str_empty (String c ip)) with false. cbv iota.
  destruct (scan_exponent rest); [|done]. simpl. by rewrite Z.sub_0_r.
Qed.

Lemma scan_exponent_digits ex : scan_exponent ("e" +:+ ((if ex <? 0 then "-" else "+") +:+
    (if Z.abs ex <? 10 then "0" +:+ str_Z (Z.abs ex) else str_Z (Z.abs ex)))) = Some ex.
Proof.
  destruct (str_Z_nonneg (Z.abs ex) ltac:(lia)) as (Hd & Hv & Hl).
  set (ds := if Z.abs ex <? 10 then "0" +:+ str_Z (Z.abs ex) else str_Z (Z.abs ex)).
  assert (H : all_chars is_digit ds = true /\ digits_value ds = Z.abs ex /\ exists c r, ds = String c r).
  { unfold ds. destruct (Z.abs ex <? 10).
    - split; [by rewrite all_chars_app|]. split; [|by eexists _, _]. rewrite digits_value_app, Hv. change (digits_value "0") with 0. lia.
    - split; [done|]. split; [done|]. destruct (str_Z (Z.abs ex)); [done|by eexists _, _]. }
  destruct H as (H1 & H2 & c & r & E). clearbody ds.
  assert (Hscan : scan_digits false ds = (ds, "")) by (by apply scan_digits_all).
  change (match (let '(negative, t) := scan_sign ((if ex <? 0 then "-" else "+") +:+ ds) in
      match scan_digits false t with
      | (String c' ds', "") => let v := digits_value (String c' ds') in Some (if negative then - v else v)
      | _ => None
      end) with r => r end = Some ex).
  assert (Hs : scan_sign ((if ex <? 0 then "-" else "+") +:+ ds) = (ex <? 0, ds)) by (by destruct (ex <? 0)).
  rewrite Hs, Hscan. rewrite E in *. cbv beta iota zeta. rewrite H2. f_equal. destruct (Z.ltb_spec ex 0); lia.
Qed.

(** The same decimal, perhaps written with another power of ten. *)
Definition same_decimal (d p : Z) (r : option (Z * Z)) : Prop :=
  exists d' p', r = Some (d', p') /\ 0 < d' /\ dec_num d p * dec_den p' = dec_num d' p' * dec_den p.

Lemma same_decimal_eq d p : 0 < d -> same_decimal d p (Some (d, p)).
Proof. intros Hd. exists d, p. done. Qed.

(** The characters of a number, and of an int. *)
Definition number_char (c : ascii) : bool :=
  is_digit c || (code c =? 43) || (code c =? 45) || (code c =? 46) || (code c =? 69) || (code c =? 101).
Definition int_char (c : ascii) : bool := is_digit c || (code c =? 45).

(** Text of a float: it starts with a digit, is not an int's, has only the
    characters of a number and reads as [d * 10 ^ p]. *)
Definition float_text (s : string) : Prop :=
  (exists c r, s = String c r /\ is_digit c = true) /\ all_chars number_char s = true /\ all_chars int_char s = false.
Definition reads (d p : Z) (s : string) : Prop := float_text s /\ same_decimal d p (scan_decimal s).

Lemma digits_number s : all_chars is_digit s = true -> all_chars number_char s = true.
Proof. apply all_chars_impl. intros c H. unfold number_char. by rewrite H. Qed.
Lemma number_not_space c : number_char c = true -> is_space c = false.
Proof. unfold number_char, is_digit, is_space, code. lia. Qed.
Lemma digits_head s t : all_chars is_digit s = true -> s <> "" -> exists c r, s +:+ t = String c r /\ is_digit c = true.
Proof. destruct s as [|c s]; [done|]. simpl. intros [H _]%andb_prop _. exists c, (s +:+ t). done. Qed.

Lemma reads_fixed d p ip fp : all_chars is_digit ip = true -> all_chars is_digit fp = true -> ip <> "" ->
  0 < digits_value (ip +:+ fp) ->
  dec_num d p * dec_den (- str_len fp) = dec_num (digits_value (ip +:+ fp)) (- str_len fp) * dec_den p ->
  reads d p (ip +:+ ("." +:+ fp)).
Proof.
  intros Hi Hf Hne Hpos Heq. split; [split; [by apply digits_head|split]|].
  - by rewrite !all_chars_app, (digits_number ip), (digits_number fp).
  - rewrite !all_chars_app. cbn. by rewrite andb_false_r.
  - rewrite <-(str_app_nil fp) at 1. rewrite scan_decimal_point by done. by eexists _, _.
Qed.

Definition exponent_text (ex : Z) : string :=
  "e" +:+ ((if ex <? 0 then "-" else "+") +:+ (if Z.abs ex <? 10 then "0" +:+ str_Z (Z.abs ex) else str_Z (Z.abs ex))).

Lemma reads_exp c fp ex : is_digit c = true -> all_chars is_digit fp = true -> 0 < digits_value (String c fp) ->
  reads (digits_value (String c fp)) (ex - str_len fp)
    ((String c "" +:+ (if str_len fp =? 0 then "" else "." +:+ fp)) +:+ exponent_text ex).
Proof.
  intros Hc Hf Hpos. assert (Hcd : all_chars is_digit (String c "") = true) by (simpl; by rewrite Hc).
  assert (He : all_chars number_char (exponent_text ex) = true).
  { destruct (str_Z_nonneg (Z.abs ex) ltac:(lia)) as (Hd & _). unfold exponent_text. rewrite !all_chars_app.
    destruct (ex <? 0), (Z.abs ex <? 10); rewrite ?all_chars_app, (digits_number (str_Z (Z.abs ex))) by done; done. }
  split; [split; [exists c; eexists; split; [reflexivity|done]|split]|].
  - rewrite !all_chars_app, He, (digits_number _ Hcd).
    destruct (_ =? 0); [done|]. rewrite all_chars_app, (digits_number fp) by done. done.
  - rewrite all_chars_app. unfold exponent_text at 1. rewrite !all_chars_app. cbn. by rewrite !andb_false_r.
  - destruct (Z.eqb_spec (str_len fp) 0) as [E|E].
    + assert (fp = "") as -> by (destruct fp; [done|rewrite str_len_cons in E; pose proof (str_len_nonneg fp); lia]).
      rewrite str_app_nil, scan_decimal_int by done. unfold exponent_text. rewrite scan_exponent_digits. simpl mbind.
      rewrite E, Z.sub_0_r. by apply same_decimal_eq.
    + rewrite !str_app_assoc, scan_decimal_point by done. unfold exponent_text. rewrite scan_exponent_digits.
      by apply same_decimal_eq.
Qed.

Lemma format_reads d p : 0 < d -> reads d p (format_short (str_Z d) (p + str_len (str_Z d))).
Proof.
  intros Hd. destruct (str_Z_pos d Hd) as (Hdig & Hval & _ & Hlen). set (ds := str_Z d) in *. clearbody ds.
  unfold format_short. fold (str_len ds). set (L := str_len ds) in *. set (dp := p + L).
  assert (Hne : ds <> "") by (intros ->; unfold L in Hlen; done).
  destruct ((-4 <? dp) && (dp <=? 16)) eqn:Eshape; [destruct (Z.leb_spec dp 0) as [H0|H0]; [|destruct (Z.leb_spec L dp) as [HL|HL]]|].
  - destruct (zeros_digits (Z.to_nat (- dp))) as (Z1 & Z2 & Z3). rewrite Z2Nat.id in Z3 by lia.
    change ("0." +:+ (zeros (Z.to_nat (- dp)) +:+ ds)) with ("0" +:+ ("." +:+ (zeros (Z.to_nat (- dp)) +:+ ds))).
    assert (Ev : digits_value ("0" +:+ (zeros (Z.to_nat (- dp)) +:+ ds)) = d).
    { rewrite !digits_value_app, Z2, Hval. change (digits_value "0") with 0. lia. }
    assert (El : - str_len (zeros (Z.to_nat (- dp)) +:+ ds) = p) by (rewrite str_len_app, Z3; fold L; lia).
    apply reads_fixed; [done|by rewrite all_chars_app, Z1|done|by rewrite Ev|by rewrite Ev, El].
  - destruct (zeros_digits (Z.to_nat (dp - L))) as (Z1 & Z2 & Z3). rewrite Z2Nat.id in Z3 by lia.
    change (ds +:+ (zeros (Z.to_nat (dp - L)) +:+ ".0")) with (ds +:+ (zeros (Z.to_nat (dp - L)) +:+ ("." +:+ "0"))).
    rewrite <-str_app_assoc.
    assert (Ev : digits_value ((ds +:+ zeros (Z.to_nat (dp - L))) +:+ "0") = d * 10 ^ p * 10).
    { rewrite !digits_value_app, Z2, Hval, Z3. change (str_len "0") with 1. change (digits_value "0") with 0.
      replace (dp - L) with p by lia. change (10 ^ 1) with 10. ring. }
    pose proof (pow10_pos p ltac:(lia)).
    apply reads_fixed; [by rewrite all_chars_app, Hdig|done| |rewrite Ev; nia|].
    + destruct ds; [done|]. done.
    + rewrite Ev. change (- str_len "0") with (-1). unfold dec_num, dec_den.
      rewrite (Z.max_l p), (Z.max_r (- p)) by lia. change (Z.max (-1) 0) with 0. change (Z.max (- -1) 0) with 1. ring.
  - destruct (substring_split (Z.to_nat dp) ds) as (S1 & S2 & S3); [unfold L, str_len in *; lia|].
    rewrite Z2Nat.id in S2, S3 by lia.
    replace (String.length ds - Z.to_nat dp)%nat with (Z.to_nat (L - dp)) in * by (unfold L, str_len in *; lia).
    set (ip := String.substring 0 (Z.to_nat dp) ds) in *. set (fp := String.substring (Z.to_nat dp) (Z.to_nat (L - dp)) ds) in *.
    assert (Hsplit : all_chars is_digit ip && all_chars is_digit fp = true) by (by rewrite <-all_chars_app, S1).
    apply andb_prop in Hsplit as [Hip Hfp].
    assert (El : - str_len fp = p) by (rewrite S3; fold L; lia).
    apply reads_fixed; [done|done| |by rewrite S1, Hval|by rewrite S1, Hval, El].
    intros E. rewrite E in S2. change (str_len "") with 0 in S2. lia.
  - destruct ds as [|c r]; [done|]. simpl in Hdig. apply andb_prop in Hdig as [Hc Hr].
    assert (HL1 : L - 1 = str_len r) by (unfold L; rewrite str_len_cons; lia).
    assert (E1 : String.substring 0 1 (String c r) = String c "") by (cbn; by destruct r).
    assert (E2 : String.substring 1 (Z.to_nat (L - 1)) (String c r) = r).
    { cbn. rewrite HL1. unfold str_len. rewrite Nat2Z.id. clear. induction r as [|c r IH]; [done|]. simpl. by rewrite IH. }
    rewrite E1, E2. replace (L =? 1) with (str_len r =? 0) by lia.
    fold (exponent_text (dp - 1)). rewrite <-Hval. replace p with (dp - 1 - str_len r) by lia.
    apply reads_exp; [done..|]. rewrite Hval. done.
Qed.

(** ** The round trip *)

Lemma lower_digit c : is_digit c = true -> lower_char c = c.
Proof. unfold is_digit, lower_char. intros H. destruct ((65 <=? code c) && (code c <=? 90)) eqn:E; [lia|done]. Qed.

Lemma scan_float_reads negative s d p m e : reads d p s -> 0 < d -> sf_of_decimal d p = S754_finite false m e ->
  scan_float ((if negative : bool then "-" else "") +:+ s) = Some (S754_finite negative m e).
Proof.
  intros (((c & r & -> & Hc) & _) & d' & p' & Hs & Hd' & Heq) Hd Hx.
  assert (Hsign : scan_sign ((if negative then "-" else "") +:+ String c r) = (negative, String c r)).
  { destruct negative; [done|]. change ("" +:+ String c r) with (String c r). unfold scan_sign.
    destruct (Ascii.eqb_spec c "-") as [->|]; [done|]. by destruct (Ascii.eqb_spec c "+") as [->|]. }
  unfold scan_float. rewrite Hsign. unfold str_lower. cbn [str_map]. rewrite (lower_digit c Hc).
  assert (Hne : forall w t x, is_digit w = false -> String.eqb (String c x) (String w t) = false).
  { intros w t x Hw. apply String.eqb_neq. intros [= -> ->]. congruence. }
  rewrite !Hne by done. cbv iota beta delta [orb]. rewrite Hs, (proj2 (Z.eqb_neq d' 0)) by lia.
  rewrite (sf_of_decimal_value d p d' p' m e) by done. by destruct negative.
Qed.

(** [repr] of a finite float is the text of a float, after its sign. *)
Lemma repr_float_text x : isfinite x = true ->
  exists (s : bool) t, repr_float x = (if s then "-" else "") +:+ t /\ float_text t /\
    scan_float (repr_float x) = Some (Prim2SF x).
Proof.
  rewrite isfinite_spec. unfold repr_float. pose proof (Prim2SF_valid x) as Hv.
  destruct (Prim2SF x) as [s|s| |s m e] eqn:E; try done; intros _.
  - exists s, "0.0". split; [by destruct s|]. split; [|by destruct s]. split; [by eexists _, _|done].
  - assert (Hv' : valid_binary (S754_finite false m e) = true) by done.
    destruct (repr_decimal_reads m e Hv') as [Hd Hx].
    unfold repr_decimal in Hd, Hx. unfold repr_sf. fold (sf_num m e) (sf_den e).
    destruct (shortest _ _ _ _ _ _ _) as [d0 p0], (strip_zeros 20 d0 p0) as [d p]. cbn [fst snd] in *. cbv zeta.
    fold (str_len (str_Z d)). pose proof (format_reads d p Hd) as Hr.
    eexists s, _. split; [done|]. split; [apply Hr|]. by apply (scan_float_reads s _ d p m e).
Qed.

Lemma repr_float_number x : isfinite x = true -> all_chars number_char (repr_float x) = true.
Proof.
  intros H. destruct (repr_float_text x H) as (s & t & -> & (_ & Ht & _) & _). rewrite all_chars_app, Ht. by destruct s.
Qed.

(** [float(repr(x))] is [x], for every float. *)
Lemma float_repr x : py_float_str (repr_float x) = Ok x.
Proof.
  unfold py_float_str. destruct (isfinite x) eqn:Hf.
  - destruct (repr_float_text x Hf) as (s & t & _ & _ & Hs).
    rewrite strip_id, Hs, SF2Prim_Prim2SF; [done|].
    apply (all_chars_impl number_char); [|by apply repr_float_number]. intros c Hc. by rewrite number_not_space.
  - rewrite isfinite_spec in Hf. unfold repr_float. rewrite <-(SF2Prim_Prim2SF x) at 2.
    destruct (Prim2SF x) as [s|s| |s m e]; [done|by destruct s|done|done].
Qed.

Example py_float_examples :
  py_float_str " 1_000.5e-3 " = Ok 1.0005%float /\ py_float_str "-Infinity" = Ok neg_infinity /\
  py_float_str ".5" = Ok 0.5%float /\ is_ok (py_float_str "1__0") = false /\ is_ok (py_float_str "") = false /\
  py_float_str "1e400" = Ok infinity.
Proof. vm_compute. repeat split. Qed.

(** [float(str(n))] of an int that is a float. *)
Lemma float_int_text n : 0 < n < 2 ^ 53 ->
  exists x, py_float_str (str_Z n) = Ok x /\ isfinite x = true /\ fval x = n * 2 ^ 1074.
Proof.
  intros Hn. destruct (str_Z_pos n ltac:(lia)) as (Hd & Hv & _ & Hl).
  destruct (float_of_Z_exact n ltac:(lia)) as [Hf Hx].
  exists (float_of_Z n). split; [|done].
  assert (Hs : scan_float (str_Z n) = Some (sf_of_decimal n 0)).
  { pose proof (scan_decimal_int (str_Z n) "" Hd ltac:(by intros E; rewrite E in Hl) I) as Hsd.
    rewrite str_app_nil in Hsd. change (scan_exponent "") with (Some 0) in Hsd. cbn [mbind option_bind] in Hsd. rewrite Hv in Hsd.
    destruct (str_Z n) as [|c r] eqn:E; [done|]. cbn [all_chars] in Hd. apply andb_prop in Hd as [Hc _].
    assert (Hsign : scan_sign (String c r) = (false, String c r)).
    { unfold scan_sign. destruct (Ascii.eqb_spec c "-") as [->|]; [done|]. by destruct (Ascii.eqb_spec c "+") as [->|]. }
    unfold scan_float. rewrite Hsign. unfold str_lower. cbn [str_map]. rewrite (lower_digit c Hc).
    assert (Hne : forall w t x, is_digit w = false -> String.eqb (String c x) (String w t) = false).
    { intros w t x Hw. apply String.eqb_neq. intros [= -> ->]. congruence. }
    rewrite !Hne by done. cbv iota beta delta [orb]. rewrite Hsd, (proj2 (Z.eqb_neq n 0)) by lia. done. }
  unfold py_float_str. rewrite strip_id, Hs.
  - f_equal. destruct (sf_of_decimal_finishQ n 0 ltac:(lia)) as (V & N & E). cbv zeta in *.
    rewrite <-(SF2Prim_Prim2SF (float_of_Z n)). f_equal.
    rewrite isfinite_spec in Hf. unfold fval in Hx. pose proof (Prim2SF_valid (float_of_Z n)) as Hval.
    pose proof (pow2_pos 1074 ltac:(lia)) as HU.
    destruct (Prim2SF (float_of_Z n)) as [s|s| |s m e] eqn:Ep; try done; [cbn in Hx; lia|].
    destruct s; [cbn [sf_val signed] in Hx; pose proof (mag_nonneg m e); lia|].
    apply sf_val_inj; [done|done|done|]. rewrite E. cbn [sf_val signed] in Hx. rewrite Hx.
    unfold dec_num, dec_den. cbn [Z.max Z.opp Z.pow]. rewrite Z.mul_1_r.
    rewrite <-(Z.mul_1_r (n * 2 ^ 1074)) at 1. rewrite rndQ_int, rnd_exact by lia.
    apply mag_lt_over in Hval. rewrite Hx in Hval. lia.
  - apply (all_chars_impl is_digit); [|done]. intros c Hc. by rewrite (digit_not_space c Hc).
Qed.
