(* ===== verification/PyJson.v ===== *)
(** * JSON text

    [json.dumps(v, sort_keys=True, separators=(",", ":"))] and [json.loads]
    on the values the repository stores.  Strings are ASCII; the decoder is
    only ever applied to text the encoder wrote, so it skips no white space.
    The main lemma: decoding what was encoded gives the value back with the
    members of its objects in key order, floats included. *)

From Stdlib Require Import ZArith Floats Ascii String ZifyBool.
From stdpp Require Import prelude strings pretty numbers list sorting.
From S2P Require Import Prelude PyData PyFloat FloatTheory FloatRound PyText PyDigits FloatDecimal PyParse.

Local Open Scope Z_scope.

Inductive json :=
| JNull
| JBool (b : bool)
| JInt (n : Z)
| JFloat (x : float)
| JStr (s : string)
| JArr (items : list json)
| JObj (members : list (string * json)).

(** Induction that reaches the members of arrays and objects. *)
Section JsonInd.
Context (P : json -> Prop) (Hnull : P JNull) (Hbool : forall b, P (JBool b)) (Hint : forall n, P (JInt n))
  (Hfloat : forall x, P (JFloat x)) (Hstr : forall s, P (JStr s))
  (Harr : forall l, Forall P l -> P (JArr l)) (Hobj : forall l, Forall (fun kv => P kv.2) l -> P (JObj l)).
Fixpoint json_ind' (v : json) : P v :=
  match v with
  | JNull => Hnull
  | JBool b => Hbool b
  | JInt n => Hint n
  | JFloat x => Hfloat x
  | JStr s => Hstr s
  | JArr l => Harr l ((fix go l : Forall P l :=
      match l with [] => List.Forall_nil P | x :: l' => @List.Forall_cons json P x l' (json_ind' x) (go l') end) l)
  | JObj l => Hobj l ((fix go l : Forall (fun kv => P kv.2) l :=
      match l with
      | [] => List.Forall_nil _
      | kv :: l' => @List.Forall_cons _ (fun kv => P kv.2) kv l' (json_ind' kv.2) (go l')
      end) l)
  end.
End JsonInd.

(** ** Encoding *)

Definition esc (c : string) : string := String backslash c.
Definition dumps_char (c : ascii) : string :=
  let n := code c in
  if Ascii.eqb c dquote then esc (String dquote "")
  else if Ascii.eqb c backslash then esc (String backslash "")
  else if n =? 8 then esc "b"
  else if n =? 9 then esc "t"
  else if n =? 10 then esc "n"
  else if n =? 12 then esc "f"
  else if n =? 13 then esc "r"
  else if n <? 32 then esc ("u00" +:+ hex_byte n)
  else String c "".
Fixpoint dumps_chars (s : string) : string :=
  match s with EmptyString => "" | String c s' => dumps_char c +:+ dumps_chars s' end.
Definition dumps_str (s : string) : string := String dquote (dumps_chars s +:+ String dquote "").

Definition dumps_float (x : float) : string :=
  if is_nan x then "NaN" else if (x =? infinity)%float then "Infinity"
  else if (x =? neg_infinity)%float then "-Infinity" else repr_float x.

Definition key_lt {A} (a b : string * A) : bool := str_ltb a.1 b.1.
Definition member_text (kt : string * string) : string := dumps_str kt.1 +:+ (":" +:+ kt.2).

Fixpoint dumps (v : json) : string :=
  match v with
  | JNull => "null"
  | JBool b => if b then "true" else "false"
  | JInt n => str_Z n
  | JFloat x => dumps_float x
  | JStr s => dumps_str s
  | JArr l => "[" +:+ (str_join "," (List.map dumps l) +:+ "]")
  | JObj l => "{" +:+ (str_join "," (List.map member_text (py_sorted key_lt (List.map (fun kv => (kv.1, dumps kv.2)) l))) +:+ "}")
  end.

(** ** Decoding *)

Definition hex_value (c : ascii) : option Z :=
  if is_digit c then Some (digit_value c)
  else if (97 <=? code c) && (code c <=? 102) then Some (code c - 87)
  else if (65 <=? code c) && (code c <=? 70) then Some (code c - 55)
  else None.
Definition char_of (n : Z) : ascii := ascii_of_N (Z.to_N n).

(** The rest of a string literal, after the opening quote.  An escape of a
    character that is not ASCII is outside the model. *)
Fixpoint parse_chars (s : string) : option (string * string) :=
  match s with
  | EmptyString => None
  | String c r =>
      if Ascii.eqb c dquote then Some ("", r)
      else if Ascii.eqb c backslash then
        match r with
        | String e r' =>
            let unescaped := fun x => '(t, rest) ← parse_chars r'; Some (String x t, rest) in
            if Ascii.eqb e dquote || Ascii.eqb e backslash || Ascii.eqb e "/" then unescaped e
            else if Ascii.eqb e "b" then unescaped (char_of 8)
            else if Ascii.eqb e "t" then unescaped (char_of 9)
            else if Ascii.eqb e "n" then unescaped (char_of 10)
            else if Ascii.eqb e "f" then unescaped (char_of 12)
            else if Ascii.eqb e "r" then unescaped (char_of 13)
            else if Ascii.eqb e "u" then
              match r' with
              | String h1 (String h2 (String h3 (String h4 r''))) =>
                  a ← hex_value h1; b ← hex_value h2; c ← hex_value h3; d ← hex_value h4;
                  let n := ((a * 16 + b) * 16 + c) * 16 + d in
                  if n <? 128 then '(t, rest) ← parse_chars r''; Some (String (char_of n) t, rest) else None
              | _ => None
              end
            else None
        | EmptyString => None
        end
      else if code c <? 32 then None
      else '(t, rest) ← parse_chars r; Some (String c t, rest)
  end.

Definition parse_number (s : string) : option (json * string) :=
  let '(token, rest) := span number_char s in
  if str_empty token then None
  else if all_chars int_char token then
    match py_int_str token with Ok n => Some (JInt n, rest) | Err _ => None end
  else match py_float_str token with Ok x => Some (JFloat x, rest) | Err _ => None end.

(** [drop_prefix p s] is what follows [p] in [s]. *)
Fixpoint drop_prefix (p s : string) : option string :=
  match p, s with
  | EmptyString, _ => Some s
  | String a p', String b s' => if Ascii.eqb a b then drop_prefix p' s' else None
  | String _ _, EmptyString => None
  end.

Definition literals : list (string * json) :=
  [("null", JNull); ("true", JBool true); ("false", JBool false); ("NaN", JFloat nan);
   ("Infinity", JFloat infinity); ("-Infinity", JFloat neg_infinity)].
Fixpoint parse_literal (l : list (string * json)) (s : string) : option (json * string) :=
  match l with
  | [] => None
  | (text, v) :: l' => match drop_prefix text s with Some rest => Some (v, rest) | None => parse_literal l' s end
  end.

Fixpoint parse_value (fuel : nat) (s : string) : option (json * string) :=
  match fuel with
  | O => None
  | S fuel =>
      match s with
      | String c r =>
          if Ascii.eqb c dquote then '(t, rest) ← parse_chars r; Some (JStr t, rest)
          else if Ascii.eqb c "[" then
            match drop_prefix "]" r with
            | Some rest => Some (JArr [], rest)
            | None => '(l, rest) ← parse_items fuel r; Some (JArr l, rest)
            end
          else if Ascii.eqb c "{" then
            match drop_prefix "}" r with
            | Some rest => Some (JObj [], rest)
            | None => '(l, rest) ← parse_members fuel r; Some (JObj l, rest)
            end
          else match parse_literal literals s with Some r => Some r | None => parse_number s end
      | EmptyString => None
      end
  end
with parse_items (fuel : nat) (s : string) : option (list json * string) :=
  match fuel with
  | O => None
  | S fuel =>
      '(v, r) ← parse_value fuel s;
      match drop_prefix "," r with
      | Some r' => '(l, rest) ← parse_items fuel r'; Some (v :: l, rest)
      | None => rest ← drop_prefix "]" r; Some ([v], rest)
      end
  end
with parse_members (fuel : nat) (s : string) : option (list (string * json) * string) :=
  match fuel with
  | O => None
  | S fuel =>
      r0 ← drop_prefix (String dquote "") s;
      '(k, r1) ← parse_chars r0;
      r2 ← drop_prefix ":" r1;
      '(v, r) ← parse_value fuel r2;
      match drop_prefix "," r with
      | Some r' => '(l, rest) ← parse_members fuel r'; Some ((k, v) :: l, rest)
      | None => rest ← drop_prefix "}" r; Some ([(k, v)], rest)
      end
  end.

(** [json.loads]: every value takes a character, so the length of the text
    is fuel enough. *)
Definition loads (s : string) : option json :=
  match parse_value (S (String.length s)) s with
  | Some (v, EmptyString) => Some v
  | _ => None
  end.

Example json_examples :
  loads (dumps (JObj [("b", JArr [JInt (-12); JFloat 0.1; JNull]); ("a", JStr "x\n"); ("c", JBool true)]))
    = Some (JObj [("a", JStr "x\n"); ("b", JArr [JInt (-12); JFloat 0.1; JNull]); ("c", JBool true)]) /\
  dumps (JObj [("b", JFloat 1e16); ("a", JArr [])]) =
    String.concat (String dquote "") ["{"; "a"; ":[],"; "b"; ":1e+16}"].
Proof. vm_compute. split; reflexivity. Qed.

(** ** Decoding what was encoded *)

Definition ascii_str (s : string) : bool := all_chars (fun c => code c <? 128) s.

(** Values of the model: ASCII strings, objects with distinct keys (as a
    Python dict has). *)
Fixpoint json_ok (v : json) : bool :=
  match v with
  | JStr s => ascii_str s
  | JArr l => forallb json_ok l
  | JObj l => forallb (fun kv => ascii_str kv.1 && json_ok kv.2) l && bool_decide (NoDup (List.map fst l))
  | _ => true
  end.

(** The decoded value: the same with every object's members in key order. *)
Fixpoint normal (v : json) : json :=
  match v with
  | JArr l => JArr (List.map normal l)
  | JObj l => JObj (py_sorted key_lt (List.map (fun kv => (kv.1, normal kv.2)) l))
  | v => v
  end.

Fixpoint json_size (v : json) : nat :=
  match v with
  | JArr l => S (list_sum (List.map (fun x => S (json_size x)) l))
  | JObj l => S (list_sum (List.map (fun kv => S (json_size kv.2)) l))
  | _ => 1
  end.

(** *** Strings *)

Lemma parse_chars_char c t : (code c <? 128) = true ->
  parse_chars (dumps_char c +:+ t) = ('(u, rest) ← parse_chars t; Some (String c u, rest)).
Proof.
  destruct c as [[] [] [] [] [] [] [] []]; intros H; try discriminate H; reflexivity.
Qed.

Lemma parse_chars_dumps s rest : ascii_str s = true ->
  parse_chars (dumps_chars s +:+ String dquote rest) = Some (s, rest).
Proof.
  induction s as [|c s IH]; [done|]. cbn [ascii_str all_chars dumps_chars]. intros [Hc Hs]%andb_prop.
  rewrite str_app_assoc, parse_chars_char by done. by rewrite IH.
Qed.

Lemma dumps_str_app s rest : dumps_str s +:+ rest = String dquote (dumps_chars s +:+ String dquote rest).
Proof.
  unfold dumps_str. change (String dquote (dumps_chars s +:+ String dquote "") +:+ rest)
    with (String dquote ((dumps_chars s +:+ String dquote "") +:+ rest)). by rewrite str_app_assoc.
Qed.

(** *** Numbers *)

(** What may follow a value. *)
Definition delimits (s : string) : Prop :=
  match s with String c _ => number_char c = false | EmptyString => True end.

Lemma literal_not_digit c r : is_digit c = true -> parse_literal literals (String c r) = None.
Proof.
  intros H. unfold literals. cbn [parse_literal drop_prefix].
  assert (Hne : forall a, is_digit a = false -> Ascii.eqb a c = false)
    by (intros a Ha; apply Ascii.eqb_neq; intros ->; congruence).
  by rewrite !Hne.
Qed.
Lemma literal_not_minus_digit c r : is_digit c = true -> parse_literal literals ("-" +:+ String c r) = None.
Proof.
  intros H. change ("-" +:+ String c r) with (String "-" (String c r)). unfold literals. cbn [parse_literal drop_prefix].
  assert (Hne : forall a, is_digit a = false -> Ascii.eqb a c = false)
    by (intros a Ha; apply Ascii.eqb_neq; intros ->; congruence).
  rewrite (Hne "I"%char) by done. reflexivity.
Qed.

(** A value whose text starts as a number does is read as one. *)
Lemma parse_value_number fuel (neg : bool) c r :
  is_digit c = true -> parse_value (S fuel) ((if neg then "-" else "") +:+ String c r) =
    parse_number ((if neg then "-" else "") +:+ String c r).
Proof.
  intros H. destruct neg.
  - cbn [parse_value]. change ("-" +:+ String c r) with (String "-" (String c r)).
    change (Ascii.eqb "-" dquote) with false. change (Ascii.eqb "-" "[") with false. change (Ascii.eqb "-" "{") with false.
    cbv iota. change (String "-" (String c r)) with ("-" +:+ String c r). by rewrite literal_not_minus_digit.
  - change ("" +:+ String c r) with (String c r). cbn [parse_value].
    assert (Hne : forall a, is_digit a = false -> Ascii.eqb c a = false)
      by (intros a Ha; apply Ascii.eqb_neq; intros ->; congruence).
    rewrite !Hne by done. cbv iota. by rewrite literal_not_digit.
Qed.

Lemma parse_number_token token rest v : token <> "" -> all_chars number_char token = true -> delimits rest ->
  (if all_chars int_char token then match py_int_str token with Ok n => Some (JInt n) | Err _ => None end
   else match py_float_str token with Ok x => Some (JFloat x) | Err _ => None end) = Some v ->
  parse_number (token +:+ rest) = Some (v, rest).
Proof.
  intros Hne Ht Hr Hv. unfold parse_number. rewrite span_app by (done || by destruct rest).
  assert (str_empty token = false) as -> by (by destruct token).
  destruct (all_chars int_char token).
  - destruct (py_int_str token); [|done]. by injection Hv as <-.
  - destruct (py_float_str token); [|done]. by injection Hv as <-.
Qed.

Lemma parse_int fuel n rest : delimits rest -> parse_value (S fuel) (str_Z n +:+ rest) = Some (JInt n, rest).
Proof.
  intros Hr. assert (Htext : exists (neg : bool) c r, str_Z n = (if neg then "-" else "") +:+ String c r /\ is_digit c = true /\
    all_chars is_digit (String c r) = true).
  { destruct (Z.le_gt_cases 0 n) as [Hn|Hn].
    - destruct (str_Z_nonneg n Hn) as (Hd & _ & Hl). exists false. destruct (str_Z n) as [|c r]; [done|].
      exists c, r. split; [done|]. split; [|done]. simpl in Hd. by apply andb_prop in Hd as [? _].
    - destruct (str_Z_nonneg (- n) ltac:(lia)) as (Hd & _ & Hl). exists true. rewrite str_Z_neg by done.
      destruct (str_Z (- n)) as [|c r]; [done|].
      exists c, r. split; [done|]. split; [|done]. simpl in Hd. by apply andb_prop in Hd as [? _]. }
  destruct Htext as (neg & c & r & E & Hc & Hd). rewrite E, str_app_assoc.
  change (String c r +:+ rest) with (String c (r +:+ rest)). rewrite parse_value_number by done.
  change (String c (r +:+ rest)) with (String c r +:+ rest). rewrite <-str_app_assoc, <-E.
  assert (Hi : all_chars int_char (str_Z n) = true).
  { rewrite E, all_chars_app, (all_chars_impl is_digit int_char (String c r)) by (done || (intros; unfold int_char; by apply orb_true_intro; left)).
    by destruct neg. }
  apply parse_number_token; [by rewrite E; destruct neg| |done|by rewrite Hi, py_int_str_Z].
  apply (all_chars_impl int_char); [|done]. intros x. unfold int_char, number_char. lia.
Qed.

Lemma float_class x : isfinite x = false ->
  x = nan \/ x = infinity \/ x = neg_infinity.
Proof.
  rewrite isfinite_spec. intros H. rewrite <-(SF2Prim_Prim2SF x). destruct (Prim2SF x) as [s|s| |s m e]; try done.
  - destruct s; [right; right|right; left]; reflexivity.
  - left. reflexivity.
Qed.

Lemma parse_float fuel x rest : delimits rest -> parse_value (S fuel) (dumps_float x +:+ rest) = Some (JFloat x, rest).
Proof.
  intros Hr. destruct (isfinite x) eqn:Hf.
  - assert (dumps_float x = repr_float x) as ->.
    { unfold dumps_float. pose proof (isfinite_nan x Hf) as Hn. unfold fnan in Hn. rewrite Hn.
      apply isfinite_val in Hf as [Hnan Hb]. 
      assert ((x =? infinity)%float = false) as ->.
      { apply feqb_false; [done..|]. change (fval infinity) with over. lia. }
      assert ((x =? neg_infinity)%float = false) as ->; [|done].
      apply feqb_false; [done..|]. change (fval neg_infinity) with (- over). lia. }
    pose proof (repr_float_number x Hf) as Hnum. pose proof (float_repr x) as Hrt.
    destruct (repr_float_text x Hf) as (neg & t & E & ((c & r & -> & Hc) & _ & Hint) & _).
    rewrite E, str_app_assoc. change (String c r +:+ rest) with (String c (r +:+ rest)).
    rewrite parse_value_number by done. change (String c (r +:+ rest)) with (String c r +:+ rest).
    rewrite <-str_app_assoc, <-E. apply parse_number_token; [by rewrite E; destruct neg|done|done|].
    rewrite E at 1. rewrite all_chars_app, Hint, andb_false_r, Hrt. done.
  - destruct (float_class x Hf) as [->|[->| ->]]; reflexivity.
Qed.

(** *** Arrays and objects *)

Lemma drop_prefix_self p s : drop_prefix p (p +:+ s) = Some s.
Proof.
  induction p as [|c p IH]; [done|]. change (String c p +:+ s) with (String c (p +:+ s)). cbn [drop_prefix].
  by rewrite Ascii.eqb_refl.
Qed.

Lemma py_sorted_map {A B} (f : A -> B) (l : list (string * A)) :
  py_sorted key_lt (List.map (fun kv => (kv.1, f kv.2)) l) = List.map (fun kv => (kv.1, f kv.2)) (py_sorted key_lt l).
Proof.
  assert (Hi : forall x l, insert_sorted key_lt (x.1, f x.2) (List.map (fun kv => (kv.1, f kv.2)) l) =
    List.map (fun kv => (kv.1, f kv.2)) (insert_sorted key_lt x l)).
  { intros x k. induction k as [|y k IH]; [done|]. cbn [List.map insert_sorted].
    change (key_lt (y.1, f y.2) (x.1, f x.2)) with (key_lt y x). destruct (key_lt y x); [|done]. cbn [List.map]. by rewrite <-IH. }
  induction l as [|x l IH]; [done|]. cbn [List.map py_sorted foldr].
  change (foldr (insert_sorted key_lt) [] ?k) with (py_sorted key_lt k). by rewrite IH, Hi.
Qed.

(** A value's text parses, whatever may follow it. *)
Definition parses (v : json) : Prop :=
  forall fuel rest, (json_size v <= fuel)%nat -> delimits rest -> parse_value fuel (dumps v +:+ rest) = Some (normal v, rest).

Lemma join_cons sep p ps rest : ps <> [] -> str_join sep (p :: ps) +:+ rest = p +:+ (sep +:+ (str_join sep ps +:+ rest)).
Proof. destruct ps as [|q ps]; [done|]. intros _. cbn [str_join]. by rewrite !str_app_assoc. Qed.

Lemma parse_items_dumps l : Forall parses l -> l <> [] -> forall fuel rest,
  (list_sum (List.map (fun x => S (json_size x)) l) <= fuel)%nat ->
  parse_items fuel (str_join "," (List.map dumps l) +:+ ("]" +:+ rest)) = Some (List.map normal l, rest).
Proof.
  induction 1 as [|x l Hx Hl IH]; [done|]. intros _ fuel rest Hf. cbn [List.map list_sum foldr] in Hf.
  destruct fuel as [|fuel]; [lia|]. cbn [parse_items List.map]. destruct l as [|y l].
  - cbn [List.map str_join]. rewrite Hx; [|lia|done]. done.
  - rewrite join_cons by done. rewrite Hx; [|lia|done]. cbn [mbind option_bind].
    rewrite (drop_prefix_self ","). rewrite IH; [done|done|]. change (foldr Nat.add 0%nat) with list_sum in Hf. lia.
Qed.

Lemma parse_members_dumps (l : list (string * json)) :
  Forall (fun kv => ascii_str kv.1 = true /\ parses kv.2) l -> l <> [] -> forall fuel rest,
  (list_sum (List.map (fun kv => S (json_size kv.2)) l) <= fuel)%nat ->
  parse_members fuel (str_join "," (List.map member_text (List.map (fun kv => (kv.1, dumps kv.2)) l)) +:+ ("}" +:+ rest))
    = Some (List.map (fun kv => (kv.1, normal kv.2)) l, rest).
Proof.
  induction 1 as [|[k x] l [Hk Hx] Hl IH]; [done|]. intros _ fuel rest Hf. cbn [List.map list_sum foldr fst snd] in *.
  destruct fuel as [|fuel]; [lia|]. cbn [parse_members].
  assert (Hmember : forall t, drop_prefix (String dquote "") (member_text (k, dumps x) +:+ t) =
    Some (dumps_chars k +:+ String dquote (":" +:+ (dumps x +:+ t)))).
  { intros t. unfold member_text. cbn [fst snd]. rewrite !str_app_assoc, dumps_str_app.
    apply (drop_prefix_self (String dquote "")). }
  destruct l as [|y l].
  - cbn [List.map str_join]. rewrite Hmember. cbn [mbind option_bind]. rewrite parse_chars_dumps by done.
    cbn [mbind option_bind]. rewrite (drop_prefix_self ":"). cbn [mbind option_bind]. rewrite Hx; [|lia|done]. done.
  - rewrite join_cons by done. rewrite Hmember. cbn [mbind option_bind]. rewrite parse_chars_dumps by done.
    cbn [mbind option_bind]. rewrite (drop_prefix_self ":"). cbn [mbind option_bind]. rewrite Hx; [|lia|done].
    cbn [mbind option_bind]. rewrite (drop_prefix_self ","). rewrite IH; [done|done|].
    change (foldr Nat.add 0%nat) with list_sum in Hf. lia.
Qed.

(** The first character of a value's text, which is never a closing bracket
    (so an array that is not empty is not read as empty). *)
Lemma dumps_first v : exists c r, dumps v = String c r /\ Ascii.eqb "]" c = false.
Proof.
  assert (Hsign : forall (neg : bool) c t, is_digit c = true -> exists c' r, (if neg then "-" else "") +:+ String c t = String c' r /\
    Ascii.eqb "]" c' = false).
  { intros neg c t Hc. destruct neg; [by exists "-"%char, (String c t)|]. exists c, t. split; [done|].
    apply Ascii.eqb_neq. by intros <-. }
  destruct v as [|b|n|x|s|l|l]; try (by eexists _, _); [by destruct b; eexists _, _|..]; cbn [dumps].
  - destruct (Z.le_gt_cases 0 n) as [Hn|Hn].
    + destruct (str_Z_nonneg n Hn) as (Hd & _ & Hl). destruct (str_Z n) as [|c r]; [done|].
      simpl in Hd. apply andb_prop in Hd as [Hc _]. exact (Hsign false c r Hc).
    + destruct (str_Z_nonneg (- n) ltac:(lia)) as (Hd & _ & Hl). rewrite str_Z_neg by done.
      destruct (str_Z (- n)) as [|c r]; [done|]. simpl in Hd. apply andb_prop in Hd as [Hc _]. exact (Hsign true c r Hc).
  - destruct (isfinite x) eqn:Hf; [|destruct (float_class x Hf) as [->|[->| ->]]; by eexists _, _].
    unfold dumps_float. destruct (is_nan x); [by eexists _, _|]. destruct (x =? infinity)%float; [by eexists _, _|].
    destruct (x =? neg_infinity)%float; [by eexists _, _|].
    destruct (repr_float_text x Hf) as (neg & t & E & ((c & r & -> & Hc) & _) & _). rewrite E. by apply Hsign.
Qed.

Lemma list_sum_perm (l k : list nat) : l ≡ₚ k -> list_sum l = list_sum k.
Proof. induction 1; cbn [list_sum foldr] in *; unfold list_sum in *; lia. Qed.

Lemma str_join_first sep p ps t : exists u, str_join sep (p :: ps) +:+ t = p +:+ u.
Proof. destruct ps as [|q ps]; [by exists t|]. eexists. by apply join_cons. Qed.

Lemma parses_arr l : Forall parses l -> parses (JArr l).
Proof.
  intros Hl [|fuel] rest Hf Hr; cbn [json_size] in Hf; [lia|]. cbn [dumps normal].
  change ("[" +:+ ?a) with (String "[" a). change (String ?c ?a +:+ rest) with (String c (a +:+ rest)). cbn [parse_value].
  change (Ascii.eqb "[" dquote) with false. change (Ascii.eqb "[" "[") with true. cbv iota.
  rewrite str_app_assoc. destruct l as [|x l]; [done|].
  rewrite parse_items_dumps; [|done|done|lia].
  destruct (str_join_first "," (dumps x) (List.map dumps l) ("]" +:+ rest)) as [u Hu]. cbn [List.map]. rewrite Hu.
  destruct (dumps_first x) as (c & r & -> & Hc). change (String c r +:+ u) with (String c (r +:+ u)).
  cbn [drop_prefix]. by rewrite Hc.
Qed.

Lemma parses_obj l : Forall (fun kv => ascii_str kv.1 = true /\ parses kv.2) l -> parses (JObj l).
Proof.
  intros Hl [|fuel] rest Hf Hr; cbn [json_size] in Hf; [lia|]. cbn [dumps normal]. rewrite !py_sorted_map.
  pose proof (py_sorted_perm key_lt l) as Hp.
  assert (Hl' : Forall (fun kv => ascii_str kv.1 = true /\ parses kv.2) (py_sorted key_lt l)) by by rewrite Hp.
  rewrite <-(list_sum_perm _ _ (Permutation_map (fun kv => S (json_size kv.2)) Hp)) in Hf.
  clear Hl Hp. revert Hl' Hf. generalize (py_sorted key_lt l). clear l. intros l Hl Hf.
  change ("{" +:+ ?a) with (String "{" a). change (String ?c ?a +:+ rest) with (String c (a +:+ rest)). cbn [parse_value].
  change (Ascii.eqb "{" dquote) with false. change (Ascii.eqb "{" "[") with false. change (Ascii.eqb "{" "{") with true. cbv iota.
  rewrite str_app_assoc. destruct l as [|x l]; [done|].
  rewrite parse_members_dumps; [|done|done|lia]. cbn [List.map].
  set (m := member_text (x.1, dumps x.2)). set (ms := List.map member_text _).
  destruct (str_join_first "," m ms ("}" +:+ rest)) as [u Hu]. rewrite Hu. subst m.
  unfold member_text. cbn [fst snd]. rewrite str_app_assoc, dumps_str_app. reflexivity.
Qed.

Lemma dumps_parses v : json_ok v = true -> parses v.
Proof.
  induction v as [| | n | x | s | l IH | l IH] using json_ind'; cbn [json_ok]; intros Hok.
  - intros [|fuel] rest Hf _; [cbn in Hf; lia|]. reflexivity.
  - intros [|fuel] rest Hf _; [cbn in Hf; lia|]. by destruct b.
  - intros [|fuel] rest Hf Hr; [cbn in Hf; lia|]. by apply parse_int.
  - intros [|fuel] rest Hf Hr; [cbn in Hf; lia|]. by apply parse_float.
  - intros [|fuel] rest Hf Hr; [cbn in Hf; lia|]. cbn [dumps normal]. rewrite dumps_str_app. cbn [parse_value].
    change (Ascii.eqb dquote dquote) with true. cbv iota. by rewrite parse_chars_dumps.
  - apply parses_arr. rewrite forallb_forall in Hok. rewrite Forall_forall in IH |- *.
    intros x Hx. apply IH; [done|]. by apply Hok, list_elem_of_In.
  - apply andb_prop in Hok as [Hok _]. apply parses_obj. rewrite forallb_forall in Hok. rewrite Forall_forall in IH |- *.
    intros x Hx. specialize (Hok x ltac:(by apply list_elem_of_In)). apply andb_prop in Hok as [Ha Hv]. split; [done|].
    by apply IH.
Qed.

Lemma length_join l : (list_sum (List.map (fun p => S (String.length p)) l) <= S (String.length (str_join "," l)))%nat.
Proof.
  induction l as [|p [|q l] IH]; [cbn; lia|cbn; lia|].
  change (str_join "," (p :: q :: l)) with (p +:+ ("," +:+ str_join "," (q :: l))). rewrite !length_str_app.
  cbn [List.map list_sum foldr] in *. cbn [String.length] in *. unfold list_sum in *. lia.
Qed.

Lemma list_sum_le {A} (f g : A -> nat) l : Forall (fun x => f x <= g x)%nat l ->
  (list_sum (List.map f l) <= list_sum (List.map g l))%nat.
Proof. induction 1; cbn [List.map list_sum foldr]; unfold list_sum in *; lia. Qed.

Lemma json_size_length v : (json_size v <= String.length (dumps v))%nat.
Proof.
  induction v as [| | n | x | s | l IH | l IH] using json_ind'; cbn [json_size].
  1-5: match goal with |- (_ <= String.length (dumps ?v))%nat => destruct (dumps_first v) as (c & r & -> & _) end; cbn; lia.
  - cbn [dumps]. rewrite !length_str_app. pose proof (length_join (List.map dumps l)) as Hj. rewrite List.map_map in Hj.
    assert (Hs := list_sum_le (fun x => S (json_size x)) (fun x => S (String.length (dumps x))) l).
    ospecialize (Hs _); [by eapply Forall_impl; [exact IH|]; intros x Hx; cbv beta in *; lia|]. cbn [String.length]. lia.
  - cbn [dumps]. rewrite !length_str_app, py_sorted_map. pose proof (py_sorted_perm key_lt l) as Hp.
    rewrite <-(list_sum_perm _ _ (Permutation_map (fun kv => S (json_size kv.2)) Hp)).
    assert (IH' : Forall (fun kv => (json_size kv.2 <= String.length (dumps kv.2))%nat) (py_sorted key_lt l)) by by rewrite Hp.
    clear IH Hp. revert IH'. generalize (py_sorted key_lt l). clear l. intros l IH.
    set (ms := List.map member_text _). pose proof (length_join ms) as Hj. subst ms. repeat rewrite List.map_map in Hj. rewrite List.map_map.
    assert (Hs := list_sum_le (fun kv => S (json_size kv.2)) (fun kv => S (String.length (member_text (kv.1, dumps kv.2)))) l).
    ospecialize (Hs _).
    { eapply Forall_impl; [exact IH|]. intros [k x]. unfold member_text. cbn [fst snd]. rewrite !length_str_app. lia. }
    cbv beta in *. change (String.length "{") with 1%nat. change (String.length "}") with 1%nat. lia.
Qed.

(** Decoding the canonical text of a value gives the value back, the members
    of every object in key order, and terminates within the fuel the length
    of the text gives. *)
Lemma json_decodes (v : json) : json_ok v = true -> loads (dumps v) = Some (normal v).
Proof.
  intros Hok. unfold loads. pose proof (dumps_parses v Hok (S (String.length (dumps v))) "") as H.
  rewrite str_app_nil in H. rewrite H; [done| |done]. pose proof (json_size_length v). lia.
Qed.

(** ** Canonical text *)

(** Sorting by distinct keys forgets the order of the members. *)
Lemma insert_sorted_swap {A} (x y : string * A) l : x.1 <> y.1 ->
  insert_sorted key_lt x (insert_sorted key_lt y l) = insert_sorted key_lt y (insert_sorted key_lt x l).
Proof.
  intros Hne. unfold key_lt.
  assert (Hxy : str_ltb x.1 y.1 = negb (str_ltb y.1 x.1)).
  { destruct (str_ltb x.1 y.1) eqn:E1, (str_ltb y.1 x.1) eqn:E2; try done.
    - pose proof (str_ltb_trans _ _ _ E1 E2) as E. by rewrite str_ltb_irrefl in E.
    - exfalso. apply Hne. by apply str_ltb_total. }
  assert (Htrans : forall a b c, str_ltb a b = true -> str_ltb a c = false -> str_ltb c b = true).
  { intros a b c Hab Hac. destruct (str_ltb c b) eqn:E; [done|].
    destruct (decide (c = a)) as [->|Hca]; [congruence|]. destruct (str_ltb c a) eqn:E2; [by rewrite (str_ltb_trans _ _ _ E2 Hab) in E|].
    exfalso. apply Hca. by apply str_ltb_total. }
  induction l as [|z l IH]; cbn [insert_sorted].
  - rewrite Hxy. by destruct (str_ltb y.1 x.1).
  - destruct (str_ltb z.1 y.1) eqn:Ezy, (str_ltb z.1 x.1) eqn:Ezx; cbn [insert_sorted]; rewrite ?Ezy, ?Ezx.
    + by rewrite IH.
    + rewrite Hxy. rewrite (Htrans _ _ _ Ezy Ezx) in Hxy. destruct (str_ltb y.1 x.1); done.
    + assert (str_ltb y.1 x.1 = true) as -> by (by apply (Htrans z.1)). done.
    + rewrite Hxy. destruct (str_ltb y.1 x.1); cbn [negb insert_sorted]; by rewrite ?Ezx, ?Ezy.
Qed.

Lemma py_sorted_perm_eq {A} (l k : list (string * A)) : l ≡ₚ k -> NoDup (List.map fst l) ->
  py_sorted key_lt l = py_sorted key_lt k.
Proof.
  induction 1 as [|x l k Hp IH|x y l|l k m Hp1 IH1 Hp2 IH2]; intros Hnd; [done|..].
  - cbn [List.map] in Hnd. apply NoDup_cons in Hnd as [_ Hnd]. cbn [py_sorted foldr].
    change (foldr (insert_sorted key_lt) [] ?a) with (py_sorted key_lt a). by rewrite IH.
  - cbn [List.map] in Hnd. apply NoDup_cons in Hnd as [Hx _]. cbn [py_sorted foldr]. apply insert_sorted_swap.
    intros E. apply Hx. rewrite E. by left.
  - rewrite IH1 by done. apply IH2. by rewrite <-Hp1.
Qed.

Lemma dumps_perm l k : l ≡ₚ k -> NoDup (List.map fst l) -> dumps (JObj l) = dumps (JObj k).
Proof. intros Hp Hnd. cbn [dumps]. rewrite !py_sorted_map. by rewrite (py_sorted_perm_eq l k). Qed.

Lemma key_order {A} : weak_order (key_lt (A := A)).
Proof.
  destruct (weak_order_str (A := string * A) fst (fun _ _ => false)) as [Ha Ht]; [by split|]. unfold str_then in Ha, Ht.
  split; [intros x y; specialize (Ha x y)|intros x y z; specialize (Ht x y z)]; unfold key_lt;
    by rewrite !andb_false_r, !orb_false_r in *.
Qed.
Lemma key_sorted_id {A} (l : list (string * A)) : py_sorted key_lt (py_sorted key_lt l) = py_sorted key_lt l.
Proof. apply py_sorted_id, weak_order_sorted, key_order. Qed.

Lemma map_pair_ext {A B} (f g : A -> B) (l : list (string * A)) : Forall (fun kv => f kv.2 = g kv.2) l ->
  List.map (fun kv => (kv.1, f kv.2)) l = List.map (fun kv => (kv.1, g kv.2)) l.
Proof. induction 1 as [|x l Hx Hl IH]; [done|]. cbn [List.map]. by rewrite Hx, IH. Qed.

Lemma map_pair_map {A B C} (f : A -> B) (g : B -> C) (l : list (string * A)) :
  List.map (fun kv => (kv.1, g kv.2)) (List.map (fun kv => (kv.1, f kv.2)) l) = List.map (fun kv => (kv.1, g (f kv.2))) l.
Proof. by rewrite List.map_map. Qed.

Lemma dumps_normal v : dumps (normal v) = dumps v.
Proof.
  induction v as [| | n | x | s | l IH | l IH] using json_ind'; cbn [dumps normal]; try done.
  - rewrite List.map_map. do 2 f_equal. f_equal. by apply map_ext_Forall.
  - rewrite !py_sorted_map, key_sorted_id, map_pair_map. do 3 f_equal.
    f_equal. apply (map_pair_ext (fun v => dumps (normal v)) dumps). by rewrite (py_sorted_perm key_lt l).
Qed.

Lemma normal_normal v : normal (normal v) = normal v.
Proof.
  induction v as [| | n | x | s | l IH | l IH] using json_ind'; cbn [normal]; try done.
  - rewrite List.map_map. f_equal. by apply map_ext_Forall.
  - rewrite !py_sorted_map, key_sorted_id, map_pair_map. f_equal. apply (map_pair_ext (fun v => normal (normal v)) normal). by rewrite (py_sorted_perm key_lt l).
Qed.

Lemma normal_ok v : json_ok v = true -> json_ok (normal v) = true.
Proof.
  induction v as [| | n | x | s | l IH | l IH] using json_ind'; cbn [json_ok normal]; try done.
  - rewrite !forallb_Forall, Forall_map. intros H. rewrite Forall_forall in *. auto.
  - rewrite !andb_true_iff, !forallb_Forall, !bool_decide_eq_true. rewrite py_sorted_map. intros [H Hnd].
    pose proof (py_sorted_perm key_lt l) as Hp. split.
    + rewrite Forall_map, Hp. rewrite Forall_forall in *. intros x Hx. specialize (H x Hx). specialize (IH x Hx). cbn [fst snd].
      apply andb_prop in H as [-> H]. by rewrite IH.
    + rewrite List.map_map. cbn [fst]. by rewrite Hp.
Qed.
