(* ===== verification/Sha256.v ===== *)
(** * SHA-256 and [stable_id]

    [hashlib.sha256] (FIPS 180-4) over 32-bit words kept in [Z], and
    [stable_id] of src/nanodelta/contracts.py: the hexadecimal digest of the
    parts' [str], joined by ["|"]. *)

From Stdlib Require Import ZArith Ascii String.
From stdpp Require Import prelude strings numbers list.
From S2P Require Import Prelude PyData PyFloat PyText.

Local Open Scope Z_scope.

Module Sha256.

Definition word (x : Z) : Z := Z.land x 4294967295.
Definition add32 (x y : Z) : Z := word (x + y).
Definition rotr (n x : Z) : Z := Z.lor (Z.shiftr x n) (word (Z.shiftl x (32 - n))).

Definition initial : list Z :=
  [1779033703; 3144134277; 1013904242; 2773480762; 1359893119; 2600822924;
   528734635; 1541459225].

Definition K : list Z :=
  [1116352408; 1899447441; 3049323471; 3921009573; 961987163; 1508970993;
   2453635748; 2870763221; 3624381080; 310598401; 607225278; 1426881987;
   1925078388; 2162078206; 2614888103; 3248222580; 3835390401; 4022224774;
   264347078; 604807628; 770255983; 1249150122; 1555081692; 1996064986;
   2554220882; 2821834349; 2952996808; 3210313671; 3336571891; 3584528711;
   113926993; 338241895; 666307205; 773529912; 1294757372; 1396182291;
   1695183700; 1986661051; 2177026350; 2456956037; 2730485921; 2820302411;
   3259730800; 3345764771; 3516065817; 3600352804; 4094571909; 275423344;
   430227734; 506948616; 659060556; 883997877; 958139571; 1322822218;
   1537002063; 1747873779; 1955562222; 2024104815; 2227730452; 2361852424;
   2428436474; 2756734187; 3204031479; 3329325298].

Definition ch (x y z : Z) : Z := Z.lxor (Z.land x y) (Z.land (Z.lxor x 4294967295) z).
Definition maj (x y z : Z) : Z := Z.lxor (Z.lxor (Z.land x y) (Z.land x z)) (Z.land y z).
Definition big0 (x : Z) : Z := Z.lxor (Z.lxor (rotr 2 x) (rotr 13 x)) (rotr 22 x).
Definition big1 (x : Z) : Z := Z.lxor (Z.lxor (rotr 6 x) (rotr 11 x)) (rotr 25 x).
Definition small0 (x : Z) : Z := Z.lxor (Z.lxor (rotr 7 x) (rotr 18 x)) (Z.shiftr x 3).
Definition small1 (x : Z) : Z := Z.lxor (Z.lxor (rotr 17 x) (rotr 19 x)) (Z.shiftr x 10).

(** The message schedule, latest word first. *)
Fixpoint schedule (n : nat) (rev_w : list Z) : list Z :=
  match n with
  | O => rev_w
  | S n' =>
      let at_ i := nth i rev_w 0 in
      schedule n' (add32 (add32 (small1 (at_ 1%nat)) (at_ 6%nat))
                         (add32 (small0 (at_ 14%nat)) (at_ 15%nat)) :: rev_w)
  end.

Record regs := Regs { ra : Z; rb : Z; rc : Z; rd : Z; re : Z; rf : Z; rg : Z; rh : Z }.

Definition round (r : regs) (k w : Z) : regs :=
  let t1 := add32 (add32 (rh r) (big1 (re r))) (add32 (ch (re r) (rf r) (rg r)) (add32 k w)) in
  let t2 := add32 (big0 (ra r)) (maj (ra r) (rb r) (rc r)) in
  Regs (add32 t1 t2) (ra r) (rb r) (rc r) (add32 (rd r) t1) (re r) (rf r) (rg r).

Fixpoint rounds (r : regs) (ks ws : list Z) : regs :=
  match ks, ws with
  | k :: ks', w :: ws' => rounds (round r k w) ks' ws'
  | _, _ => r
  end.

Definition compress (h : list Z) (block : list Z) : list Z :=
  let at_ i := nth i h 0 in
  let r := rounds (Regs (at_ 0%nat) (at_ 1%nat) (at_ 2%nat) (at_ 3%nat)
                        (at_ 4%nat) (at_ 5%nat) (at_ 6%nat) (at_ 7%nat))
                  K (rev (schedule 48 (rev block))) in
  zip_with add32 h [ra r; rb r; rc r; rd r; re r; rf r; rg r; rh r].

Fixpoint big_endian (n : nat) (x : Z) : list Z :=
  match n with
  | O => []
  | S n' => Z.land (Z.shiftr x (8 * Z.of_nat n')) 255 :: big_endian n' x
  end.

Fixpoint to_words (bytes : list Z) : list Z :=
  match bytes with
  | a :: b :: c :: d :: rest =>
      Z.lor (Z.lor (Z.shiftl a 24) (Z.shiftl b 16)) (Z.lor (Z.shiftl c 8) d) :: to_words rest
  | _ => []
  end.

Definition pad (bytes : list Z) : list Z :=
  let len := Z.of_nat (length bytes) in
  bytes ++ [128] ++ replicate (Z.to_nat ((55 - len) mod 64)) 0 ++ big_endian 8 (8 * len).

Fixpoint blocks (n : nat) (h : list Z) (ws : list Z) : list Z :=
  match n with
  | O => h
  | S n' => blocks n' (compress h (take 16 ws)) (drop 16 ws)
  end.

Definition string_bytes (s : string) : list Z :=
  (fun c => Z.of_N (N_of_ascii c)) <$> String.list_ascii_of_string s.

Definition hexdigest (s : string) : string :=
  let ws := to_words (pad (string_bytes s)) in
  let h := blocks (Nat.div (length ws) 16) initial ws in
  String.concat (EmptyString) ((fun b => hex_byte b) <$> mjoin (big_endian 4 <$> h)).

Example sha256_vectors :
  hexdigest "abc" = "ba7816bf8f01cfea414140de5dae2223b00361a396177a9cb410ff61f20015ad" /\
  hexdigest "abcdbcdecdefdefgefghfghighijhijkijkljklmklmnlmnomnopnopq" =
    "248d6a61d20638b8e5c026930c3e6039a33ce45964ff2167f6ecedd419db06c1".
Proof. vm_compute. split; reflexivity. Qed.

Lemma blocks_length n h ws : length h = 8%nat -> length (blocks n h ws) = 8%nat.
Proof.
  revert h ws; induction n as [|n IH]; intros h ws Hh; simpl; [done|]. apply IH.
  unfold compress. rewrite length_zip_with, Hh. done.
Qed.

Lemma str_length_app (a b : string) : String.length (a +:+ b) = (String.length a + String.length b)%nat.
Proof. induction a as [|c a IH]; simpl; [done | by rewrite IH]. Qed.

Lemma concat_hex_length (l : list Z) :
  String.length (String.concat EmptyString (hex_byte <$> l)) = (2 * length l)%nat.
Proof.
  induction l as [|b l IH]; [done|]. rewrite fmap_cons.
  destruct l as [|b' l]; [done|]. rewrite fmap_cons in *.
  change (String.length (hex_byte b +:+ String.concat "" (hex_byte b' :: (hex_byte <$> l)))
          = (2 * S (length (b' :: l)))%nat).
  rewrite str_length_app, IH. simpl. lia.
Qed.

Lemma big_endian_length n x : length (big_endian n x) = n.
Proof. induction n as [|n IH]; simpl; [done | by rewrite IH]. Qed.

Lemma hexdigest_length s : String.length (hexdigest s) = 64%nat.
Proof.
  unfold hexdigest. rewrite concat_hex_length.
  set (h := blocks _ _ _). assert (Hh : length h = 8%nat) by (by apply blocks_length).
  clearbody h. do 8 (destruct h as [|? h]; [done|]). destruct h; [|done]. done.
Qed.

End Sha256.

(** [stable_id( *parts)], of the parts' [str]. *)
Definition stable_id (parts : list string) : string :=
  Sha256.hexdigest (str_join "|" parts).

Lemma stable_id_length parts : String.length (stable_id parts) = 64%nat.
Proof. apply Sha256.hexdigest_length. Qed.

Lemma stable_id_nonempty parts : str_empty (stable_id parts) = false.
Proof.
  pose proof (stable_id_length parts) as H. unfold str_empty.
  destruct (String.eqb_spec (stable_id parts) ""); [|done]. by rewrite e in H.
Qed.

#[global] Opaque stable_id.
