(* ===== verification/PyTime.v ===== *)
(** * datetime

    A [datetime] is a wall-clock reading in microseconds since
    1970-01-01T00:00 and, when it is timezone-aware, its offset from UTC;
    a [date] is a day number.  The range limits of the class (years 1 to
    9999) are not modelled. *)

From Stdlib Require Import ZArith Floats Ascii String.
From stdpp Require Import prelude strings numbers list.
From S2P Require Import Prelude PyData PyFloat FloatTheory PyText.

Local Open Scope Z_scope.

Record datetime := Datetime { wall : Z; utcoffset : option Z }.
#[export] Instance datetime_eq_dec : EqDecision datetime.
Proof. solve_decision. Defined.

Definition second : Z := 1000000.
Definition minute : Z := 60 * second.
Definition hour : Z := 60 * minute.
Definition day : Z := 24 * hour.

(** The point on the UTC time line of an aware datetime. *)
Definition instant (d : datetime) : Z := d.(wall) - default 0 d.(utcoffset).
Definition aware (d : datetime) : bool := match d.(utcoffset) with Some _ => true | None => false end.
Definition at_utc (t : Z) : datetime := Datetime t (Some 0).

(** Python's [==]: aware datetimes by instant, never equal to a naive one. *)
#[export] Instance py_eq_datetime : PyEq datetime := fun a b =>
  Bool.eqb (aware a) (aware b) && (instant a =? instant b).

#[export] Instance py_eq_trans_datetime : PyEqTrans datetime.
Proof.
  intros x y z. unfold py_eq, py_eq_datetime. rewrite !andb_true_iff, !Bool.eqb_true_iff, !Z.eqb_eq.
  intros [-> ->] [-> ->]. done.
Qed.

Definition mixed_awareness : exn := TypeError "can't compare offset-naive and offset-aware datetimes".

(** [a < b] and [a <= b] *)
Definition dt_lt (a b : datetime) : result bool :=
  if Bool.eqb (aware a) (aware b) then Ok (instant a <? instant b) else Err mixed_awareness.
Definition dt_le (a b : datetime) : result bool :=
  if Bool.eqb (aware a) (aware b) then Ok (instant a <=? instant b) else Err mixed_awareness.

(** [utc(value, name)] of contracts.py. *)
Definition utc (value : datetime) (name : string) : result datetime :=
  match value.(utcoffset) with
  | None => Err (ValueError (name +:+ " must be timezone-aware"))
  | Some _ => Ok (at_utc (instant value))
  end.

Lemma utc_ok v n d : utc v n = Ok d <-> aware v = true /\ d = at_utc (instant v).
Proof.
  unfold utc, aware. destruct (utcoffset v); split; [intros [= <-] | intros [_ ->] | | intros []]; done.
Qed.
Lemma utc_err v n e : utc v n = Err e <->
  aware v = false /\ e = ValueError (n +:+ " must be timezone-aware").
Proof.
  unfold utc, aware. destruct (utcoffset v); split; [done | by intros [] | intros [= <-] | intros [_ ->]]; done.
Qed.
Lemma utc_at_utc t n : utc (at_utc t) n = Ok (at_utc t).
Proof. unfold utc, at_utc, instant. simpl. by rewrite Z.sub_0_r. Qed.
Lemma instant_at_utc t : instant (at_utc t) = t.
Proof. unfold instant. simpl. lia. Qed.
Lemma aware_at_utc t : aware (at_utc t) = true.
Proof. done. Qed.

(** ** Calendar *)

(** [d.date()] as a day number, [d.time()] as microseconds into the day. *)
Definition date_of (d : datetime) : Z := d.(wall) / day.
Definition time_of (d : datetime) : Z := d.(wall) mod day.
(** Monday is 0. *)
Definition weekday (d : datetime) : Z := (date_of d + 3) mod 7.

(** Year, month and day of a day number, in the proleptic Gregorian
    calendar, by 400-year eras that start on 1 March. *)
Definition civil (days : Z) : Z * Z * Z :=
  let z := days + 719468 in
  let era := z / 146097 in
  let doe := z mod 146097 in
  let yoe := (doe - doe / 1460 + doe / 36524 - doe / 146096) / 365 in
  let doy := doe - (365 * yoe + yoe / 4 - yoe / 100) in
  let mp := (5 * doy + 2) / 153 in
  let d := doy - (153 * mp + 2) / 5 + 1 in
  let m := if mp <? 10 then mp + 3 else mp - 9 in
  (yoe + era * 400 + (if m <=? 2 then 1 else 0), m, d).

Definition pad_Z (n : nat) (x : Z) : string :=
  let s := str_Z x in zeros (n - String.length s) +:+ s.

(** [date.isoformat()] *)
Definition date_iso (days : Z) : string :=
  let '(y, m, d) := civil days in pad_Z 4 y +:+ "-" +:+ pad_Z 2 m +:+ "-" +:+ pad_Z 2 d.

Definition offset_iso (o : Z) : string :=
  let a := Z.abs o in
  let secs := (a mod minute) / second in
  let us := a mod second in
  (if o <? 0 then "-" else "+") +:+ pad_Z 2 (a / hour) +:+ ":" +:+ pad_Z 2 ((a mod hour) / minute)
  +:+ (if (secs =? 0) && (us =? 0) then "" else ":" +:+ pad_Z 2 secs
       +:+ (if us =? 0 then "" else "." +:+ pad_Z 6 us)).

(** [datetime.isoformat()] *)
Definition isoformat (d : datetime) : string :=
  let t := time_of d in
  date_iso (date_of d) +:+ "T" +:+ pad_Z 2 (t / hour) +:+ ":" +:+ pad_Z 2 ((t mod hour) / minute)
  +:+ ":" +:+ pad_Z 2 ((t mod minute) / second)
  +:+ (if t mod second =? 0 then "" else "." +:+ pad_Z 6 (t mod second))
  +:+ match d.(utcoffset) with Some o => offset_iso o | None => "" end.

Example isoformat_examples :
  isoformat (at_utc 0) = "1970-01-01T00:00:00+00:00" /\
  isoformat (at_utc 1709210096000123) = "2024-02-29T12:34:56.000123+00:00" /\
  isoformat (Datetime (951782400 * second) (Some (330 * minute))) = "2000-02-29T00:00:00+05:30" /\
  isoformat (Datetime (- second) None) = "1969-12-31T23:59:59" /\
  weekday (at_utc (1709210096 * second)) = 3.
Proof. vm_compute. repeat split. Qed.

(** ** Durations *)

(** [int / int]: the quotient, correctly rounded.  Below 2^53 both operands
    are exact floats and one division rounds once, as in CPython. *)
Definition int_truediv (a b : Z) : result float :=
  if b =? 0 then Err ZeroDivisionError
  else if (Z.abs a <=? 2 ^ 53) && (Z.abs b <=? 2 ^ 53) then Ok (float_of_Z a / float_of_Z b)%float
  else
    let '(q, e, l) := SFdiv_core_binary prec emax (Z.abs a) 0 (Z.abs b) 0 in
    Ok (SF2Prim (binary_round_aux prec emax (xorb (a <? 0) (b <? 0)) q e l)).

(** [timedelta.total_seconds()] of a duration in microseconds. *)
Definition total_seconds (us : Z) : float :=
  match int_truediv us second with Ok f => f | Err _ => 0%float end.

(** Comparisons of a float with an int are exact in Python. *)
Definition float_lt_int (x : float) (n : Z) : bool := negb (fnan x) && (fval x <? n * 2 ^ 1074).
Definition int_lt_float (n : Z) (x : float) : bool := negb (fnan x) && (n * 2 ^ 1074 <? fval x).

Example total_seconds_examples :
  total_seconds (30 * second) = 30%float /\ total_seconds 1 = 1e-6%float /\
  int_lt_float 30 (total_seconds (30 * second + 1)) = true /\
  float_lt_int (total_seconds (-1)) 0 = true.
Proof. vm_compute. repeat split. Qed.
