(* ===== verification/PyDate.v ===== *)
(** * Reading dates

    [datetime.fromisoformat] (the grammar CPython 3.11 and 3.12 accept),
    [datetime.fromtimestamp(x, tz=UTC)] and the calendar in both directions.
    The main lemma: [fromisoformat] inverts [isoformat] on every UTC datetime
    of the class's range. *)

From Stdlib Require Import ZArith Floats Ascii String ZifyBool.
From stdpp Require Import prelude strings pretty numbers list.
From S2P Require Import Prelude PyData PyFloat FloatTheory FloatRound PyText PyDigits PyTime.

Local Open Scope Z_scope.

(** ** The calendar *)

Definition is_leap (y : Z) : bool := (y mod 4 =? 0) && (negb (y mod 100 =? 0) || (y mod 400 =? 0)).
Definition days_in_month (y m : Z) : Z :=
  if m =? 2 then (if is_leap y then 29 else 28)
  else if (m =? 4) || (m =? 6) || (m =? 9) || (m =? 11) then 30 else 31.

(** The day number of a calendar date: the inverse of [civil]. *)
Definition days_from_civil (y m d : Z) : Z :=
  let y' := if m <=? 2 then y - 1 else y in
  let yoe := y' mod 400 in
  let doy := (153 * (if 2 <? m then m - 3 else m + 9) + 2) / 5 + d - 1 in
  y' / 400 * 146097 + (yoe * 365 + yoe / 4 - yoe / 100 + doy) - 719468.

Definition min_day : Z := -719162.
Definition max_day : Z := 2932896.
(** The readings a [datetime] can hold: years 1 to 9999. *)
Definition in_range (us : Z) : bool := (min_day * day <=? us) && (us <? (max_day + 1) * day).

(** The constructor's checks, in its order. *)
Definition datetime_new (y m d h mi s us : Z) (offset : option Z) : result datetime :=
  _ ← raise_if ((y <? 1) || (9999 <? y)) (ValueError ("year " +:+ str_Z y +:+ " is out of range"));
  _ ← raise_if ((m <? 1) || (12 <? m)) (ValueError "month must be in 1..12");
  _ ← raise_if ((d <? 1) || (days_in_month y m <? d)) (ValueError "day is out of range for month");
  _ ← raise_if (23 <? h) (ValueError "hour must be in 0..23");
  _ ← raise_if (59 <? mi) (ValueError "minute must be in 0..59");
  _ ← raise_if (59 <? s) (ValueError "second must be in 0..59");
  mret (Datetime (days_from_civil y m d * day + h * hour + mi * minute + s * second + us) offset).

(** ** [datetime.fromisoformat] *)

(** [k] digits at the start of a text, and what follows them. *)
Fixpoint take_digits (k : nat) (acc : Z) (s : string) : option (Z * string) :=
  match k, s with
  | O, _ => Some (acc, s)
  | S k', String c r => if is_digit c then take_digits k' (10 * acc + digit_value c) r else None
  | S _, EmptyString => None
  end.
Definition char_at (n : nat) (s : string) : option ascii := String.get n s.
Definition char_is (c : ascii) (o : option ascii) : bool :=
  match o with Some x => Ascii.eqb x c | None => false end.
Definition head_is (c : ascii) (s : string) : bool := char_is c (char_at 0 s).
Definition str_tail (s : string) : string := match s with String _ r => r | EmptyString => "" end.

(** Where the date ends: the format is told from its fifth and sixth
    characters, and for week dates from the digits that follow. *)
Definition date_length (s : string) : option nat :=
  let len := String.length s in
  if Nat.eqb len 7 then Some 7%nat
  else if char_is "-" (char_at 4 s) then
    if char_is "W" (char_at 5 s) then
      if Nat.ltb len 8 then None
      else if Nat.ltb 8 len && char_is "-" (char_at 8 s) then
        if Nat.eqb len 9 then None
        else if match char_at 10 s with Some c => is_digit c | None => false end then Some 8%nat
        else Some 10%nat
      else Some 8%nat
    else Some 10%nat
  else if char_is "W" (char_at 4 s) then
    let '(digits, _) := span is_digit (String.substring 7 (len - 7) s) in
    let pos := (7 + String.length digits)%nat in
    if Nat.ltb pos 9 then Some pos
    else if Nat.even pos then Some 7%nat else Some 8%nat
  else Some 8%nat.

(** The day number of ISO week [w], day [d]. *)
Definition weekday_of (days : Z) : Z := (days + 3) mod 7.
Definition iso_to_civil (y w d : Z) : option (Z * Z * Z) :=
  let jan1 := days_from_civil y 1 1 in
  let first := weekday_of jan1 in
  if (y <? 1) || (w <=? 0) || (53 <? w) || ((w =? 53) && negb ((first =? 3) || ((first =? 2) && is_leap y))) then None
  else if (d <=? 0) || (7 <? d) then None
  else
    let monday := jan1 - first + (if 3 <? first then 7 else 0) in
    Some (civil (monday + (w - 1) * 7 + d - 1)).

(** [parse_isoformat_date] on the text and the length of its date. *)
Definition parse_date (s : string) (len : nat) : option (Z * Z * Z) :=
  '(y, r) ← take_digits 4 0 s;
  let sep := head_is "-" r in
  let r := if sep then str_tail r else r in
  if head_is "W" r then
    '(w, r) ← take_digits 2 0 (str_tail r);
    if Nat.ltb (String.length s - String.length r) len then
      if sep && negb (head_is "-" r) then None
      else '(d, _) ← take_digits 1 0 (if sep then str_tail r else r); iso_to_civil y w d
    else iso_to_civil y w 1
  else
    '(m, r) ← take_digits 2 0 r;
    if sep && negb (head_is "-" r) then None
    else '(d, _) ← take_digits 2 0 (if sep then str_tail r else r); Some (y, m, d).

(** [parse_hh_mm_ss_ff]: hours, minutes, seconds and microseconds, and
    whether text is left over; [more] says that something follows the text
    (the UTC offset). *)
Definition parse_fraction (more : bool) (s : string) : option (Z * bool) :=
  let k := Nat.min 6 (String.length s) in
  '(v, r) ← take_digits k 0 s;
  let '(_, rest) := span is_digit r in
  Some (v * 10 ^ (6 - Z.of_nat k), negb (str_empty rest) || more).
Definition last_field (more : bool) (s : string) : option (list Z * Z * bool) :=
  '(us, extra) ← parse_fraction more s; Some ([], us, extra).
Fixpoint parse_fields (k : nat) (sep : option bool) (more : bool) (s : string) : option (list Z * Z * bool) :=
  match k with
  | O => last_field more s
  | S k' =>
      '(v, r) ← take_digits 2 0 s;
      match r with
      | EmptyString => Some ([v], 0, more)
      | String c r' =>
          let separated := default (Ascii.eqb c ":") sep in
          let field x := match x with Some (vs, us, extra) => Some (v :: vs, us, extra) | None => None end in
          if str_empty r' then Some ([v], 0, true)
          else if separated && Ascii.eqb c ":" then field (parse_fields k' (Some separated) more r')
          else if Ascii.eqb c "." || Ascii.eqb c "," then field (last_field more r')
          else if negb separated then field (parse_fields k' (Some separated) more r)
          else None
      end
  end.
Definition parse_clock (more : bool) (s : string) : option (Z * Z * Z * Z * bool) :=
  '(vs, us, extra) ← parse_fields 3 None more s;
  Some (nth 0 vs 0, nth 1 vs 0, nth 2 vs 0, us, extra).

Definition offset_char (c : ascii) : bool := Ascii.eqb c "+" || Ascii.eqb c "-" || Ascii.eqb c "Z".

(** [parse_isoformat_time]: the clock and the offset in seconds and
    microseconds, if there is one. *)
Definition parse_time (s : string) : option (Z * Z * Z * Z * option (Z * Z)) :=
  let '(clock, tz) := span (fun c => negb (offset_char c)) s in
  '(h, mi, sec, us, extra) ← parse_clock (negb (str_empty tz)) clock;
  match tz with
  | EmptyString => if extra : bool then None else Some (h, mi, sec, us, None)
  | String c r =>
      if Ascii.eqb c "Z" then if str_empty r then Some (h, mi, sec, us, Some (0, 0)) else None
      else
        '(zh, zm, zs, zus, extra) ← parse_clock false r;
        let sign := if Ascii.eqb c "-" then -1 else 1 in
        if extra : bool then None else Some (h, mi, sec, us, Some (sign * (zh * 3600 + zm * 60 + zs), sign * zus))
  end.

Definition invalid_isoformat {A} (s : string) : result A := Err (ValueError ("Invalid isoformat string: " +:+ repr_str s)).

(** [repr(timedelta)] of microseconds. *)
Definition repr_timedelta (us : Z) : string :=
  let part name (n : Z) := if n =? 0 then [] else [name +:+ "=" +:+ str_Z n] in
  let parts := part "days" (us / day) ++ part "seconds" (us mod day / second) ++ part "microseconds" (us mod second) in
  "datetime.timedelta(" +:+ (match parts with [] => "0" | _ => str_join ", " parts end) +:+ ")".

Definition timezone_of (o : option (Z * Z)) : result (option Z) :=
  match o with
  | None => mret None
  | Some (secs, us) =>
      if secs =? 0 then mret (Some 0)
      else
        let off := secs * second + us in
        if Z.abs off <? day then mret (Some off)
        else Err (ValueError ("offset must be a timedelta strictly between -timedelta(hours=24) and "
                              +:+ "timedelta(hours=24), not " +:+ repr_timedelta off +:+ "."))
  end.

Definition fromisoformat (s : string) : result datetime :=
  if Nat.ltb (String.length s) 7 then invalid_isoformat s
  else
    let parsed :=
      len ← date_length s;
      '(y, m, d) ← parse_date s len;
      if Nat.ltb 1 (String.length s - len) then
        '(h, mi, sec, us, tz) ← parse_time (String.substring (S len) (String.length s - S len) s);
        Some (y, m, d, (h, mi, sec, us), tz)
      else Some (y, m, d, (0, 0, 0, 0), None) in
    match parsed with
    | None => invalid_isoformat s
    | Some (y, m, d, (h, mi, sec, us), tz) =>
        offset ← timezone_of tz;
        datetime_new y m d h mi sec us offset
    end.

Example fromisoformat_examples :
  fromisoformat "2024-02-29T12:34:56.000123+00:00" = Ok (at_utc 1709210096000123) /\
  fromisoformat "2024-02-29T12:34:56.123456789+05:30" = Ok (Datetime 1709210096123456 (Some (330 * minute))) /\
  fromisoformat "20240229 1234" = Ok (Datetime 1709210040000000 None) /\
  fromisoformat "2024-W09-4" = Ok (Datetime (1709164800 * second) None) /\
  fromisoformat "2024-02-30" = Err (ValueError "day is out of range for month") /\
  fromisoformat "2024-02-29T12:34:5" = invalid_isoformat "2024-02-29T12:34:5" /\
  fromisoformat "None" = Err (ValueError "Invalid isoformat string: 'None'").
Proof. vm_compute. repeat split. Qed.

(** ** [datetime.fromtimestamp(x, tz=UTC)] *)

(** Half-way cases to the even neighbour. *)
Definition round_half_even (p d : Z) : Z := Z.sgn p * rneQ (Z.abs p) d.

(** The fraction of a second is multiplied by 10^6 in floating point and
    rounded half to even; the whole seconds are exact. *)
Definition timestamp_us (x : float) : Z :=
  let unit := 2 ^ 1074 in
  let whole := Z.quot (fval x) unit in
  let fraction := Z.rem (fval x) unit in
  whole * second + round_half_even (rndF (fraction * fval 1e6) unit) unit.

(** The UTC datetime of a point in time.  Years past the platform's
    [struct tm] are an OSError, seconds past its [time_t] an OverflowError. *)
Definition utc_datetime (us : Z) : result datetime :=
  let secs := us / second in
  if (secs <? - 2 ^ 63) || (2 ^ 63 <=? secs) then Err (OverflowError "timestamp out of range for platform time_t")
  else
    let '(y, _, _) := civil (us / day) in
    if (y - 1900 <? - 2 ^ 31) || (2 ^ 31 <=? y - 1900) then
      Err (OtherException "OSError" "[Errno 75] Value too large for defined data type")
    else if in_range us then Ok (at_utc us)
    else Err (ValueError ("year " +:+ str_Z y +:+ " is out of range")).

(** From a float and from an int. *)
Definition fromtimestamp (x : float) : result datetime :=
  if fnan x then Err (ValueError "Invalid value NaN (not a number)") else utc_datetime (timestamp_us x).
Definition fromtimestamp_int (k : Z) : result datetime := utc_datetime (k * second).

Example fromtimestamp_examples :
  fromtimestamp 1700000000.25 = Ok (at_utc 1700000000250000) /\
  fromtimestamp (-0.5) = Ok (at_utc (-500000)) /\
  fromtimestamp 1e12 = Err (ValueError "year 33658 is out of range") /\
  fromtimestamp infinity = Err (OverflowError "timestamp out of range for platform time_t") /\
  fromtimestamp 1e300 = Err (OverflowError "timestamp out of range for platform time_t").
Proof. vm_compute. repeat split. Qed.

(** ** The calendar is a bijection *)

(** The year of the era, from the day of the era: the 4 centuries [c], the
    25 leap cycles [q] of each and the days [s] of a cycle. *)
Lemma year_of_era doe : 0 <= doe < 146097 ->
  let yoe := (doe - doe / 1460 + doe / 36524 - doe / 146096) / 365 in
  let doy := doe - (365 * yoe + yoe / 4 - yoe / 100) in
  0 <= yoe <= 399 /\ 0 <= doy <= 365 /\ (doy = 365 -> is_leap (yoe + 1) = true).
Proof.
  intros Hd. set (c := Z.min 3 (doe / 36524)). set (r := doe - 36524 * c).
  set (q := r / 1461). set (s := r mod 1461).
  assert (Hc : 0 <= c <= 3) by (subst c; Z.div_mod_to_equations; lia).
  assert (Hr : 0 <= r <= 36524 /\ (r = 36524 -> c = 3)) by (subst r c; Z.div_mod_to_equations; lia).
  assert (Hq : r = 1461 * q + s /\ 0 <= s <= 1460 /\ 0 <= q <= 24) by (subst q s; Z.div_mod_to_equations; lia).
  assert (Edoe : doe = 36524 * c + 1461 * q + s) by lia. clearbody c r q s.
  set (k := if s <? 1460 then s / 365 else 3).
  assert (Hk : 0 <= k <= 3 /\ 0 <= s - 365 * k <= 365 /\ (s - 365 * k = 365 -> s = 1460 /\ k = 3)).
  { subst k. destruct (Z.ltb_spec s 1460); Z.div_mod_to_equations; lia. }
  assert (Hyoe : (doe - doe / 1460 + doe / 36524 - doe / 146096) / 365 = 100 * c + 4 * q + k).
  { assert (H1 : doe / 1460 = 25 * c + q + (24 * c + q + s) / 1460).
    { replace doe with (24 * c + q + s + (25 * c + q) * 1460) by lia. rewrite Z.div_add by lia. lia. }
    assert (H2 : doe / 36524 - doe / 146096 = c) by (Z.div_mod_to_equations; lia).
    assert (H3 : 0 <= (24 * c + q + s) / 1460 <= 1) by (Z.div_mod_to_equations; lia).
    rewrite H1. replace (doe - _ + _ - _) with (s - (24 * c + q + s) / 1460 + (100 * c + 4 * q) * 365) by lia.
    rewrite Z.div_add by lia. subst k. destruct (Z.ltb_spec s 1460); Z.div_mod_to_equations; lia. }
  cbv zeta. rewrite Hyoe. clear Hyoe. 
  assert (Hq4 : (100 * c + 4 * q + k) / 4 = 25 * c + q) by (Z.div_mod_to_equations; lia).
  assert (Hq100 : (100 * c + 4 * q + k) / 100 = c) by (Z.div_mod_to_equations; lia).
  rewrite Hq4, Hq100. repeat split; try lia. intros H365. unfold is_leap.
  assert (k = 3 /\ s = 1460) as [-> ->] by lia.
  assert (q = 24 -> c = 3) by lia.
  assert ((100 * c + 4 * q + 3 + 1) mod 4 = 0) as -> by (Z.div_mod_to_equations; lia).
  destruct (Z.eq_dec q 24) as [->|Hne].
  - assert (c = 3) as -> by auto. reflexivity.
  - assert ((100 * c + 4 * q + 3 + 1) mod 100 <> 0) by (Z.div_mod_to_equations; lia). lia.
Qed.

Lemma leap_period y k : is_leap (y + k * 400) = is_leap y.
Proof.
  unfold is_leap. replace ((y + k * 400) mod 4) with (y mod 4) by (Z.div_mod_to_equations; lia).
  replace ((y + k * 400) mod 100) with (y mod 100) by (Z.div_mod_to_equations; lia).
  by rewrite Z_mod_plus_full.
Qed.

(** [civil] yields a valid date whose day number is the one it was given. *)
Lemma civil_valid z y m d : civil z = (y, m, d) ->
  days_from_civil y m d = z /\ 1 <= m <= 12 /\ 1 <= d <= days_in_month y m /\ d <= 31.
Proof.
  unfold civil. set (doe := (z + 719468) mod 146097). set (era := (z + 719468) / 146097).
  assert (Hz : z = era * 146097 + doe - 719468 /\ 0 <= doe < 146097)
    by (subst era doe; Z.div_mod_to_equations; lia). clearbody doe era. destruct Hz as [-> Hd].
  destruct (year_of_era doe Hd) as (Hyoe & Hdoy & Hleap). cbv zeta in *.
  set (yoe := (doe - doe / 1460 + doe / 36524 - doe / 146096) / 365) in *. clearbody yoe.
  set (doy := doe - (365 * yoe + yoe / 4 - yoe / 100)) in *.
  assert (Edoe : doe = 365 * yoe + yoe / 4 - yoe / 100 + doy) by lia. clearbody doy.
  set (mp := (5 * doy + 2) / 153). assert (Hmp : 0 <= mp <= 11 /\ 153 * mp <= 5 * doy + 2 < 153 * mp + 153)
    by (subst mp; Z.div_mod_to_equations; lia). clearbody mp.
  intros [= <- <- <-].
  assert (Hm : (if mp <? 10 then mp + 3 else mp - 9) = (if mp <? 10 then mp + 3 else mp - 9) /\
    1 <= (if mp <? 10 then mp + 3 else mp - 9) <= 12) by (split; [done|]; destruct (Z.ltb_spec mp 10); lia).
  set (m := if mp <? 10 then mp + 3 else mp - 9) in *.
  assert (Emp : (if 2 <? m then m - 3 else m + 9) = mp)
    by (subst m; destruct (Z.ltb_spec mp 10); destruct (Z.ltb_spec 2 (mp + 3)); destruct (Z.ltb_spec 2 (mp - 9)); lia).
  set (y := yoe + era * 400 + (if m <=? 2 then 1 else 0)).
  assert (Ey : (if m <=? 2 then y - 1 else y) = yoe + era * 400) by (subst y; destruct (m <=? 2); lia).
  assert (Edays : days_in_month y m = if mp =? 11 then (if is_leap (yoe + 1) then 29 else 28)
    else if (mp =? 1) || (mp =? 3) || (mp =? 6) || (mp =? 8) then 30 else 31).
  { unfold days_in_month. destruct (Z.eqb_spec mp 11) as [->|Hne].
    - change m with 2 in *. subst m y. cbn [Z.eqb Z.leb]. change (2 <=? 2) with true. cbv iota.
      replace (yoe + era * 400 + 1) with (yoe + 1 + era * 400) by lia. by rewrite leap_period.
    - assert (Hcase : mp = 0 \/ mp = 1 \/ mp = 2 \/ mp = 3 \/ mp = 4 \/ mp = 5 \/ mp = 6 \/ mp = 7 \/ mp = 8 \/ mp = 9
        \/ mp = 10) by lia. subst m. clear - Hcase. repeat destruct Hcase as [->|Hcase]; subst; reflexivity. }
  split; [|split; [tauto|]].
  - unfold days_from_civil. rewrite Emp, Ey. cbv zeta.
    assert (((yoe + era * 400) / 400) = era) as -> by (Z.div_mod_to_equations; lia).
    assert (((yoe + era * 400) mod 400) = yoe) as -> by (Z.div_mod_to_equations; lia). lia.
  - rewrite Edays. clearbody m. clear Emp Ey Edays y Hm m.
    assert (Hcase : mp = 0 \/ mp = 1 \/ mp = 2 \/ mp = 3 \/ mp = 4 \/ mp = 5 \/ mp = 6 \/ mp = 7 \/ mp = 8 \/ mp = 9
      \/ mp = 10 \/ mp = 11) by lia.
    destruct (is_leap (yoe + 1)) eqn:El; [assert (H : True) by done; clear Hleap|assert (H : doy <> 365) by (intros H365; discriminate (Hleap H365)); clear Hleap];
      clear El; repeat destruct Hcase as [->|Hcase]; subst; clear - Hdoy Hmp H;
      repeat match goal with |- context [if ?b then _ else _] => let b' := eval vm_compute in b in change b with b'; cbv iota end;
      Z.div_mod_to_equations; lia.
Qed.

Lemma civil_year z y m d : min_day <= z <= max_day -> civil z = (y, m, d) -> 1 <= y <= 9999.
Proof.
  unfold min_day, max_day. intros Hz E. destruct (civil_valid _ _ _ _ E) as (Hv & Hm & Hd & H31). revert Hv.
  unfold days_from_civil. set (y' := if m <=? 2 then y - 1 else y). cbv zeta.
  assert (Hf : y' / 400 * 146097 + (y' mod 400 * 365 + y' mod 400 / 4 - y' mod 400 / 100) = 365 * y' + y' / 4 - y' / 100 + y' / 400)
    by (Z.div_mod_to_equations; lia).
  set (doy := (153 * _ + 2) / 5 + d - 1). intros Hv.
  assert (Hdoy : 365 * y' + y' / 4 - y' / 100 + y' / 400 + doy = z + 719468) by lia. clear Hv Hf.
  subst y' doy. destruct (Z.leb_spec m 2), (Z.ltb_spec 2 m); try lia; Z.div_mod_to_equations; lia.
Qed.

(** ** Reading what [isoformat] wrote *)

Lemma take_digits_app s : forall acc rest, all_chars is_digit s = true ->
  take_digits (String.length s) acc (s +:+ rest) = Some (digits_from acc s, rest).
Proof.
  induction s as [|c s IH]; intros acc rest; [done|]. cbn [all_chars]. intros [Hc Hs]%andb_prop.
  change (String c s +:+ rest) with (String c (s +:+ rest)). cbn [String.length take_digits]. rewrite Hc, IH by done.
  cbn [digits_from]. do 3 f_equal; lia.
Qed.

Lemma pad_digits k x : 0 <= x < 10 ^ Z.of_nat k -> (0 < k)%nat ->
  all_chars is_digit (pad_Z k x) = true /\ digits_value (pad_Z k x) = x /\ String.length (pad_Z k x) = k.
Proof.
  intros Hx Hk. destruct (str_Z_nonneg x ltac:(lia)) as (Hd & Hv & Hl).
  assert (Hlen : (String.length (str_Z x) <= k)%nat).
  { destruct (Z.eq_dec x 0) as [->|Hne]; [cbn; lia|]. destruct (str_Z_pos x ltac:(lia)) as (_ & _ & Hlow & _).
    destruct (Nat.le_gt_cases (String.length (str_Z x)) k) as [|Hgt]; [done|exfalso].
    assert (10 ^ Z.of_nat k <= 10 ^ (str_len (str_Z x) - 1)) by (apply Z.pow_le_mono_r; unfold str_len; lia). lia. }
  unfold pad_Z. set (n := (k - String.length (str_Z x))%nat). destruct (zeros_digits n) as (Hzd & Hzv & Hzl).
  rewrite all_chars_app, digits_value_app, Hzd, Hd, Hzv, Hv. split; [done|]. split; [lia|].
  pose proof (str_len_app (zeros n) (str_Z x)) as Hla. unfold str_len in *. lia.
Qed.

Lemma take_pad k x rest : 0 <= x < 10 ^ Z.of_nat k -> (0 < k)%nat -> take_digits k 0 (pad_Z k x +:+ rest) = Some (x, rest).
Proof.
  intros Hx Hk. destruct (pad_digits k x Hx Hk) as (Hd & Hv & Hl). rewrite <-Hl at 1.
  rewrite take_digits_app by done. by rewrite <-Hv at 2.
Qed.

(** A clock text is digits, colons and a point: it holds no offset sign. *)
Definition clock_char (c : ascii) : bool := is_digit c || Ascii.eqb c ":" || Ascii.eqb c ".".
Lemma clock_not_offset c : clock_char c = true -> negb (offset_char c) = true.
Proof. destruct c as [[] [] [] [] [] [] [] []]; intros H; try discriminate H; reflexivity. Qed.
Lemma digits_clock s : all_chars is_digit s = true -> all_chars clock_char s = true.
Proof. apply all_chars_impl. intros c H. unfold clock_char. by rewrite H. Qed.

Definition clock_iso (t : Z) : string :=
  pad_Z 2 (t / hour) +:+ (":" +:+ (pad_Z 2 ((t mod hour) / minute) +:+ (":" +:+ (pad_Z 2 ((t mod minute) / second)
  +:+ (if t mod second =? 0 then "" else "." +:+ pad_Z 6 (t mod second)))))).

Lemma isoformat_at_utc us : isoformat (at_utc us) = date_iso (us / day) +:+ ("T" +:+ (clock_iso (us mod day) +:+ "+00:00")).
Proof.
  unfold isoformat, clock_iso, date_of, time_of. cbn [wall utcoffset at_utc].
  change (offset_iso 0) with "+00:00". by rewrite !str_app_assoc.
Qed.

Section Clock.
Context (t : Z) (Ht : 0 <= t < day).

Lemma clock_parts : 0 <= t / hour < 24 /\ 0 <= (t mod hour) / minute < 60 /\ 0 <= (t mod minute) / second < 60 /\
  0 <= t mod second < 1000000 /\
  t / hour * hour + (t mod hour) / minute * minute + (t mod minute) / second * second + t mod second = t.
Proof. unfold day, hour, minute, second in *. repeat split; Z.div_mod_to_equations; lia. Qed.

Lemma clock_iso_chars : all_chars clock_char (clock_iso t) = true.
Proof.
  destruct clock_parts as (Hh & Hm & Hs & Hu & _). unfold clock_iso. rewrite !all_chars_app.
  do 3 rewrite (digits_clock (pad_Z 2 _)) by (apply pad_digits; lia). destruct (t mod second =? 0); [reflexivity|].
  rewrite all_chars_app, (digits_clock (pad_Z 6 _)) by (apply pad_digits; lia). reflexivity.
Qed.

Lemma pad_cons k x : (0 < k)%nat -> 0 <= x < 10 ^ Z.of_nat k ->
  exists c r, pad_Z k x = String c r /\ is_digit c = true /\ all_chars is_digit r = true.
Proof.
  intros Hk Hx. destruct (pad_digits k x Hx Hk) as (Hd & _ & Hl). destruct (pad_Z k x) as [|c r]; [cbn in Hl; lia|].
  cbn [all_chars] in Hd. apply andb_prop in Hd as [Hc Hr]. by exists c, r.
Qed.
Lemma pad_nonempty k x r : (0 < k)%nat -> 0 <= x < 10 ^ Z.of_nat k -> str_empty (pad_Z k x +:+ r) = false.
Proof. intros Hk Hx. by destruct (pad_cons k x Hk Hx) as (c & r' & -> & _). Qed.

Lemma parse_fraction_pad x : 0 <= x < 1000000 -> parse_fraction true (pad_Z 6 x) = Some (x, true).
Proof.
  intros Hx. unfold parse_fraction. destruct (pad_digits 6 x Hx ltac:(lia)) as (_ & _ & Hl). rewrite Hl.
  change (Nat.min 6 6) with 6%nat. rewrite <-(str_app_nil (pad_Z 6 x)), take_pad by lia. cbn [mbind option_bind span].
  rewrite orb_true_r. do 2 f_equal. change (10 ^ (6 - Z.of_nat 6)) with 1. lia.
Qed.

Lemma parse_fields_colon k sep v r : 0 <= v < 100 -> str_empty r = false -> default true sep = true ->
  parse_fields (S k) sep true (pad_Z 2 v +:+ (":" +:+ r)) =
    match parse_fields k (Some true) true r with Some (vs, us, extra) => Some (v :: vs, us, extra) | None => None end.
Proof.
  intros Hv Hr Hsep. cbn [parse_fields]. rewrite take_pad by lia. cbn [mbind option_bind].
  change (":" +:+ r) with (String ":" r). cbv iota beta. rewrite Hr. change (Ascii.eqb ":" ":") with true.
  assert (default true sep = true) as -> by done. reflexivity.
Qed.
Lemma parse_fields_last v : 0 <= v < 100 -> parse_fields 1 (Some true) true (pad_Z 2 v) = Some ([v], 0, true).
Proof. intros Hv. cbn [parse_fields]. rewrite <-(str_app_nil (pad_Z 2 v)), take_pad by lia. reflexivity. Qed.
Lemma parse_fields_point v us : 0 <= v < 100 -> 0 <= us < 1000000 ->
  parse_fields 1 (Some true) true (pad_Z 2 v +:+ ("." +:+ pad_Z 6 us)) = Some ([v], us, true).
Proof.
  intros Hv Hus. cbn [parse_fields]. rewrite take_pad by lia. cbn [mbind option_bind].
  change ("." +:+ ?r) with (String "." r). cbv iota beta.
  rewrite <-(str_app_nil (pad_Z 6 us)), pad_nonempty by lia. rewrite str_app_nil. unfold last_field.
  rewrite parse_fraction_pad by lia. reflexivity.
Qed.

Lemma parse_clock_iso : parse_clock true (clock_iso t) =
  Some (t / hour, (t mod hour) / minute, (t mod minute) / second, t mod second, true).
Proof.
  destruct clock_parts as (Hh & Hm & Hs & Hu & _). unfold parse_clock, clock_iso.
  rewrite parse_fields_colon by (lia || done || by apply pad_nonempty; lia).
  rewrite parse_fields_colon by (lia || done || by apply pad_nonempty; lia).
  destruct (Z.eqb_spec (t mod second) 0) as [E|E].
  - rewrite str_app_nil, parse_fields_last, E by lia. reflexivity.
  - rewrite parse_fields_point by lia. reflexivity.
Qed.

Lemma parse_time_iso : parse_time (clock_iso t +:+ "+00:00") =
  Some (t / hour, (t mod hour) / minute, (t mod minute) / second, t mod second, Some (0, 0)).
Proof.
  unfold parse_time. rewrite span_app; [|apply (all_chars_impl clock_char); [apply clock_not_offset|apply clock_iso_chars]|done].
  change (negb (str_empty "+00:00")) with true. rewrite parse_clock_iso. reflexivity.
Qed.
End Clock.

Lemma parse_date_iso y m d rest : 1 <= y <= 9999 -> 1 <= m <= 12 -> 1 <= d <= 31 ->
  parse_date (pad_Z 4 y +:+ ("-" +:+ (pad_Z 2 m +:+ ("-" +:+ (pad_Z 2 d +:+ rest))))) 10 = Some (y, m, d).
Proof.
  intros Hy Hm Hd. unfold parse_date. rewrite take_pad by lia. cbn [mbind option_bind].
  change (head_is "-" ("-" +:+ ?r)) with true. change (str_tail ("-" +:+ ?r)) with r. cbv iota.
  assert (head_is "W" (pad_Z 2 m +:+ ("-" +:+ (pad_Z 2 d +:+ rest))) = false) as ->.
  { destruct (pad_cons 2 m) as (c & r & -> & Hc & _); [lia..|]. change (String c r +:+ ?x) with (String c (r +:+ x)).
    unfold head_is, char_at, char_is. cbn [String.get]. apply Ascii.eqb_neq. by intros ->. }
  rewrite take_pad by lia. cbn [mbind option_bind].
  change (head_is "-" ("-" +:+ ?r)) with true. change (str_tail ("-" +:+ ?r)) with r. cbn [andb negb]. cbv iota.
  by rewrite take_pad by lia.
Qed.

Lemma substring_after a b n : n = String.length a -> String.substring n (String.length b) (a +:+ b) = b.
Proof.
  intros ->. induction a as [|c a IH]; [|exact IH]. change ("" +:+ b) with b. cbn [String.length]. induction b as [|x b IHb]; [done|]. cbn [String.length String.substring]. by rewrite IHb.
Qed.

Lemma date_length_iso y m d rest : 0 <= y < 10000 -> 0 <= m < 100 -> rest <> "" -> 0 <= d < 100 ->
  date_length (pad_Z 4 y +:+ ("-" +:+ (pad_Z 2 m +:+ ("-" +:+ (pad_Z 2 d +:+ rest))))) = Some 10%nat.
Proof.
  intros Hy Hm Hr Hd. unfold date_length.
  destruct (pad_digits 4 y ltac:(lia) ltac:(lia)) as (_ & _ & Hl4).
  destruct (pad_digits 2 m ltac:(lia) ltac:(lia)) as (Hdm & _ & Hl2).
  destruct (pad_digits 2 d ltac:(lia) ltac:(lia)) as (_ & _ & Hl2').
  destruct (pad_Z 4 y) as [|a [|b [|c [|e [|]]]]]; cbn in Hl4; try lia. clear Hl4.
  destruct (pad_Z 2 m) as [|m1 [|m2 [|]]]; cbn in Hl2; try lia. clear Hl2.
  destruct (pad_Z 2 d) as [|d1 [|d2 [|]]]; cbn in Hl2'; try lia. clear Hl2'.
  destruct rest as [|x rest]; [done|].
  change (String a (String b (String c (String e ""))) +:+ _) with (String a (String b (String c (String e (String "-"
    (String m1 (String m2 (String "-" (String d1 (String d2 (String x rest))))))))))).
  unfold char_is, char_at. cbn [String.length Nat.eqb String.get]. change (Ascii.eqb "-" "-") with true. cbv iota.
  assert (Ascii.eqb m1 "W" = false) as ->; [|done].
  cbn [all_chars] in Hdm. apply Ascii.eqb_neq. intros ->. discriminate Hdm.
Qed.

Lemma datetime_new_ok y m d h mi s us o : 1 <= y <= 9999 -> 1 <= m <= 12 -> 1 <= d <= days_in_month y m ->
  0 <= h < 24 -> 0 <= mi < 60 -> 0 <= s < 60 ->
  datetime_new y m d h mi s us o = Ok (Datetime (days_from_civil y m d * day + h * hour + mi * minute + s * second + us) o).
Proof.
  intros Hy Hm Hd Hh Hmi Hs. unfold datetime_new, raise_if.
  assert ((y <? 1) || (9999 <? y) = false) as -> by lia. assert ((m <? 1) || (12 <? m) = false) as -> by lia.
  assert ((d <? 1) || (days_in_month y m <? d) = false) as -> by lia. assert ((23 <? h) = false) as -> by lia.
  assert ((59 <? mi) = false) as -> by lia. assert ((59 <? s) = false) as -> by lia. reflexivity.
Qed.

Lemma fromisoformat_isoformat us : in_range us = true -> fromisoformat (isoformat (at_utc us)) = Ok (at_utc us).
Proof.
  unfold in_range. intros Hr. assert (Hdays : min_day <= us / day <= max_day).
  { unfold min_day, max_day, day, hour, minute, second in *. Z.div_mod_to_equations; lia. }
  assert (Ht : 0 <= us mod day < day) by (apply Z.mod_pos_bound; done).
  rewrite isoformat_at_utc. unfold date_iso. destruct (civil (us / day)) as [[y m] d] eqn:E.
  destruct (civil_valid _ _ _ _ E) as (Hv & Hm & Hd & H31). pose proof (civil_year _ _ _ _ Hdays E) as Hy.
  rewrite !str_app_assoc.
  set (tail := clock_iso (us mod day) +:+ "+00:00"). set (s := pad_Z 4 y +:+ _).
  destruct (pad_digits 4 y ltac:(lia) ltac:(lia)) as (_ & _ & Hl4).
  destruct (pad_digits 2 m ltac:(lia) ltac:(lia)) as (_ & _ & Hlm).
  destruct (pad_digits 2 d ltac:(lia) ltac:(lia)) as (_ & _ & Hld).
  assert (Es : s = (pad_Z 4 y +:+ ("-" +:+ (pad_Z 2 m +:+ ("-" +:+ (pad_Z 2 d +:+ "T"))))) +:+ tail)
    by (subst s; by rewrite !str_app_assoc).
  assert (Hlen : String.length s = (11 + String.length tail)%nat).
  { rewrite Es, !length_str_app, Hl4, Hlm, Hld. reflexivity. }
  assert (Hclock : (6 <= String.length tail)%nat) by (subst tail; rewrite length_str_app; cbn; lia).
  unfold fromisoformat. rewrite Hlen. rewrite (proj2 (Nat.ltb_ge _ _)) by lia.
  subst s. rewrite date_length_iso by (lia || done). cbn [mbind option_bind].
  rewrite parse_date_iso by lia. rewrite (proj2 (Nat.ltb_lt 1 _)) by lia.
  rewrite Es. replace (11 + String.length tail - 11)%nat with (String.length tail) by lia.
  rewrite (substring_after _ tail 11) by (rewrite !length_str_app, Hl4, Hlm, Hld; reflexivity).
  subst tail. rewrite parse_time_iso by done. unfold option_bind, mbind, result_bind. cbv beta iota.
  assert (timezone_of (Some (0, 0)) = Ok (Some 0)) as -> by reflexivity.
  destruct (clock_parts _ Ht) as (Hh & Hmi & Hs & _ & Hsum).
  rewrite datetime_new_ok by lia. unfold at_utc. do 2 f_equal. rewrite Hv.
  pose proof (Z.div_mod us day ltac:(done)). lia.
Qed.

(** ** Whole seconds *)

Lemma timestamp_us_whole k : 0 <= k < 2 ^ 53 -> timestamp_us (float_of_Z k) = k * second.
Proof.
  intros Hk. destruct (float_of_Z_exact k Hk) as [_ Hv]. unfold timestamp_us. rewrite Hv. cbv zeta.
  pose proof (pow2_pos 1074 ltac:(lia)) as Hu. rewrite Z.rem_mul, Z.quot_mul by lia.
  rewrite Z.mul_0_l, rndF_0. change (round_half_even 0 (2 ^ 1074)) with 0. lia.
Qed.

Lemma utc_datetime_ok us : in_range us = true -> utc_datetime us = Ok (at_utc us).
Proof.
  intros Hr. unfold utc_datetime.
  assert (Hs : - 2 ^ 63 <= us / second < 2 ^ 63)
    by (unfold in_range, max_day, min_day, day, hour, minute, second in *; Z.div_mod_to_equations; lia).
  assert ((us / second <? - 2 ^ 63) || (2 ^ 63 <=? us / second) = false) as -> by lia.
  destruct (civil (us / day)) as [[y m] d] eqn:E. apply civil_year in E.
  - assert ((y - 1900 <? - 2 ^ 31) || (2 ^ 31 <=? y - 1900) = false) as -> by lia. by rewrite Hr.
  - unfold in_range, min_day, max_day, day, hour, minute, second in *. Z.div_mod_to_equations; lia.
Qed.

Lemma fromtimestamp_whole k : 0 <= k < 2 ^ 53 -> in_range (k * second) = true ->
  fromtimestamp (float_of_Z k) = Ok (at_utc (k * second)).
Proof.
  intros Hk Hr. unfold fromtimestamp. destruct (float_of_Z_exact k Hk) as [Hf _]. rewrite (isfinite_nan _ Hf).
  rewrite timestamp_us_whole by done. by apply utc_datetime_ok.
Qed.

(** ** Reading a timestamp *)

(** [int(x)] *)
Definition int_of_float (x : float) : result Z :=
  if fnan x then Err (ValueError "cannot convert float NaN to integer")
  else if negb (isfinite x) then Err (OverflowError "cannot convert float infinity to integer")
  else Ok (Z.quot (fval x) (2 ^ 1074)).

(** [d.timestamp()] of an aware datetime *)
Definition timestamp_of (d : datetime) : float := total_seconds (instant d).

(** Until the year 2242 the seconds of a timestamp survive its rounding. *)
Lemma timestamp_floor us : 0 <= us < 2 ^ 33 * second -> int_of_float (total_seconds us) = Ok (us / second).
Proof.
  unfold second. intros Hus. unfold total_seconds, int_truediv, second.
  change (1000000 =? 0) with false. cbv iota.
  assert ((Z.abs us <=? 2 ^ 53) && (Z.abs 1000000 <=? 2 ^ 53) = true) as -> by lia.
  destruct (float_of_Z_exact us ltac:(lia)) as [Fx Vx]. destruct (float_of_Z_exact 1000000 ltac:(lia)) as [Fy Vy].
  pose proof (pow2_pos 1074 ltac:(lia)) as HU.
  assert (Hy : 0 < fval (float_of_Z 1000000)) by (rewrite Vy; lia).
  set (q := (float_of_Z us / float_of_Z 1000000)%float).
  assert (Hnan : fnan q = false) by (by apply fdiv_sign).
  assert (Hq : fval q = rndF (us * 2 ^ 1074 * 2 ^ 1074) (1000000 * 2 ^ 1074)) by (subst q; by rewrite fval_div, Vx, Vy).
  set (k := us / 1000000). assert (Hk : 1000000 * k <= us <= 1000000 * k + 999999 /\ 0 <= k < 2 ^ 33)
    by (subst k; Z.div_mod_to_equations; lia).
  assert (Hlow : k * 2 ^ 1074 <= fval q).
  { destruct (float_of_Z_exact k ltac:(lia)) as [_ Vk]. rewrite <-Vk, Hq. apply rndF_ge; [lia|]. rewrite Vk.
    clear - Hk HU. set (U := 2 ^ 1074) in *. clearbody U. nia. }
  assert (Hhigh : fval q <= ((k + 1) * 2 ^ 20 - 1) * 2 ^ 1054).
  { set (v := ((k + 1) * 2 ^ 20 - 1) * 2 ^ 1054).
    assert (Hv : rndZ v = v).
    { apply (neighbour_rep v ((k + 1) * 2 ^ 20 - 1) 1054); [lia|lia|done|]. subst v.
      rewrite (over_split 53 2045) by lia. apply Z.le_trans with (2 ^ 53 * 2 ^ 1054).
      - apply Z.mul_le_mono_nonneg_r; [|lia]. apply Z.lt_le_incl, pow2_pos. lia.
      - apply Z.mul_le_mono_nonneg_l; [lia|]. apply Z.pow_le_mono_r; lia. }
    rewrite <-Hv, <-(rndF_int v (1000000 * 2 ^ 1074)), Hq by lia. apply rndF_mono; [lia|]. subst v.
    replace (2 ^ 1074) with (2 ^ 20 * 2 ^ 1054) in * by (by rewrite <-Z.pow_add_r).
    pose proof (pow2_pos 1054 ltac:(lia)) as HV. clear - Hk HV. set (V := 2 ^ 1054) in *. clearbody V.
    change (2 ^ 20) with 1048576. nia. }
  assert (Htop : ((k + 1) * 2 ^ 20 - 1) * 2 ^ 1054 < (k + 1) * 2 ^ 1074).
  { replace (2 ^ 1074) with (2 ^ 20 * 2 ^ 1054) by (by rewrite <-Z.pow_add_r).
    pose proof (pow2_pos 1054 ltac:(lia)) as HV. set (V := 2 ^ 1054) in *. clearbody V. lia. }
  assert (Hfin : isfinite q = true).
  { apply (finite_of 0x1p60 eq_refl); [done|].
    assert (E60 : fval 0x1p60 = 2 ^ 60 * 2 ^ 1074) by (vm_compute; reflexivity). rewrite E60.
    clear - Hk Hlow Hhigh Htop HU. set (U := 2 ^ 1074) in *. clearbody U. set (w := _ * 2 ^ 1054) in *. clearbody w.
    generalize dependent (fval q). intros f. nia. }
  unfold int_of_float. rewrite Hnan, Hfin. cbn [negb]. f_equal.
  rewrite Z.quot_div_nonneg by (clear - Hk Hlow HU; nia).
  symmetry. apply (Z.div_unique_pos _ _ _ (fval q - k * 2 ^ 1074)); [|lia]. lia.
Qed.
