(* ===== verification/PyCsv.v ===== *)
(** * Comma-separated text: [csv.reader] and [csv.DictReader]

    The reader of the excel dialect that is not strict: fields are split at
    commas, a field may be quoted, a doubled quote stands for one, and a quoted
    field may span lines.  The reader takes the lines of a text one by one;
    how a text is cut into lines depends on how it was opened.  The limit on
    the size of a field is left out.

    The lemmas: the reader consumes every line and ends; a record written with
    every field quoted is read back. *)

From Stdlib Require Import ZArith Lia Ascii String.
From stdpp Require Import prelude strings list.
From S2P Require Import Prelude PyData PyText PyDigits.

(** ** Lines *)

Definition LF : ascii := "010"%char.
Definition CR : ascii := "013"%char.

(** A text opened with [newline=""]: a line ends at LF, CR or CRLF and keeps
    its end. *)
Fixpoint universal_lines (s acc : string) : list string :=
  match s with
  | EmptyString => match acc with EmptyString => [] | _ => [acc] end
  | String c rest =>
      let acc := acc +:+ String c "" in
      if Ascii.eqb c LF then acc :: universal_lines rest ""
      else if Ascii.eqb c CR then
        match rest with
        | String d rest' => if Ascii.eqb d LF then (acc +:+ String d "") :: universal_lines rest' "" else acc :: universal_lines rest ""
        | EmptyString => [acc]
        end
      else universal_lines rest acc
  end.
(** [io.StringIO(text)]: a line ends at LF. *)
Fixpoint stringio_lines (s acc : string) : list string :=
  match s with
  | EmptyString => match acc with EmptyString => [] | _ => [acc] end
  | String c rest =>
      let acc := acc +:+ String c "" in
      if Ascii.eqb c LF then acc :: stringio_lines rest "" else stringio_lines rest acc
  end.

(** ** The reader *)

Inductive csv_state := START_RECORD | START_FIELD | IN_FIELD | IN_QUOTED_FIELD | QUOTE_IN_QUOTED_FIELD | EAT_CRNL.
#[export] Instance csv_state_eq_dec : EqDecision csv_state.
Proof. solve_decision. Defined.
Record csv_parser := MkParser { cp_state : csv_state; cp_fields : list string; cp_field : string }.

Definition quote : ascii := "034"%char.
Definition comma : ascii := ","%char.
Definition csv_error : exn := OtherException "Error" "new-line character seen in unquoted field - do you need to open the file with newline=''?".

Definition is_end (c : option ascii) : bool := match c with None => true | Some c => Ascii.eqb c LF || Ascii.eqb c CR end.
(** After a character that ends the record, or the end of the line itself. *)
Definition after_end (c : option ascii) : csv_state := match c with None => START_RECORD | Some _ => EAT_CRNL end.
Definition save_field (p : csv_parser) (state : csv_state) : csv_parser := MkParser state (p.(cp_fields) ++ [p.(cp_field)]) "".
Definition add_char (p : csv_parser) (c : ascii) (state : csv_state) : csv_parser := MkParser state p.(cp_fields) (p.(cp_field) +:+ String c "").
Definition in_state (p : csv_parser) (state : csv_state) : csv_parser := MkParser state p.(cp_fields) p.(cp_field).

(** [parse_process_char]; [None] is the end of the line. *)
Definition start_field (p : csv_parser) (c : option ascii) : csv_parser :=
  if is_end c then save_field p (after_end c)
  else match c with
       | Some c => if Ascii.eqb c quote then in_state p IN_QUOTED_FIELD
                   else if Ascii.eqb c comma then save_field p START_FIELD
                   else add_char p c IN_FIELD
       | None => p
       end.
Definition process_char (p : csv_parser) (c : option ascii) : result csv_parser :=
  match p.(cp_state) with
  | START_RECORD =>
      match c with
      | None => Ok p
      | Some _ => if is_end c then Ok (in_state p EAT_CRNL) else Ok (start_field (in_state p START_FIELD) c)
      end
  | START_FIELD => Ok (start_field p c)
  | IN_FIELD =>
      if is_end c then Ok (save_field p (after_end c))
      else match c with
           | Some c => if Ascii.eqb c comma then Ok (save_field p START_FIELD) else Ok (add_char p c IN_FIELD)
           | None => Ok p
           end
  | IN_QUOTED_FIELD =>
      match c with
      | None => Ok p
      | Some c => if Ascii.eqb c quote then Ok (in_state p QUOTE_IN_QUOTED_FIELD) else Ok (add_char p c IN_QUOTED_FIELD)
      end
  | QUOTE_IN_QUOTED_FIELD =>
      if is_end c then Ok (save_field p (after_end c))
      else match c with
           | Some c => if Ascii.eqb c quote then Ok (add_char p c IN_QUOTED_FIELD)
                       else if Ascii.eqb c comma then Ok (save_field p START_FIELD)
                       else Ok (add_char p c IN_FIELD)
           | None => Ok p
           end
  | EAT_CRNL =>
      match c with
      | None => Ok (in_state p START_RECORD)
      | Some _ => if is_end c then Ok p else Err csv_error
      end
  end.

Fixpoint process_line (p : csv_parser) (line : string) : result csv_parser :=
  match line with
  | EmptyString => process_char p None
  | String c rest => p ← process_char p (Some c); process_line p rest
  end.

(** [next(reader)] until the lines end: the records, each from the lines it
    needs; at the end an open field or quote gives a last record. *)
Fixpoint csv_records (p : csv_parser) (lines : list string) : result (list (list string)) :=
  match lines with
  | [] => Ok (if negb (str_empty p.(cp_field)) || bool_decide (p.(cp_state) = IN_QUOTED_FIELD) then [p.(cp_fields) ++ [p.(cp_field)]] else [])
  | line :: lines =>
      p ← process_line p line;
      if bool_decide (p.(cp_state) = START_RECORD) then
        rest ← csv_records (MkParser START_RECORD [] "") lines; mret (p.(cp_fields) :: rest)
      else csv_records p lines
  end.
Definition csv_reader (lines : list string) : result (list (list string)) := csv_records (MkParser START_RECORD [] "") lines.

(** ** DictReader *)

(** A value is a field, [None] for a field the row does not have, or, under
    the key [None], the fields beyond the header. *)
Inductive csv_cell := Text (s : string) | Missing | Rest (fields : list string).
Abbreviation csv_row := (dict (option string) csv_cell).

Definition dict_row (header row : list string) : csv_row :=
  let d := foldl (fun d '(k, v) => <[Some k := Text v]> d) (∅ : csv_row) (zip header row) in
  if Nat.ltb (length header) (length row) then <[None := Rest (drop (length header) row)]> d
  else foldl (fun d k => <[Some k := Missing]> d) d (drop (length row) header).

(** The first record and the lines after it; [None] when there is none. *)
Fixpoint csv_next (p : csv_parser) (lines : list string) : result (option (list string * list string)) :=
  match lines with
  | [] => Ok (if negb (str_empty p.(cp_field)) || bool_decide (p.(cp_state) = IN_QUOTED_FIELD) then Some (p.(cp_fields) ++ [p.(cp_field)], []) else None)
  | line :: lines =>
      p ← process_line p line;
      if bool_decide (p.(cp_state) = START_RECORD) then Ok (Some (p.(cp_fields), lines)) else csv_next p lines
  end.
(** [reader.fieldnames], [None] for an empty text *)
Definition dict_header (lines : list string) : result (option (list string * list string)) := csv_next (MkParser START_RECORD [] "") lines.
(** The rows after the header; empty ones are skipped. *)
Definition dict_rows (header lines : list string) : result (list csv_row) :=
  records ← csv_reader lines;
  mret (dict_row header <$> List.filter (fun r => match r with [] => false | _ => true end) records).

(** ** Reading back what was written *)

(** A field in quotes, its quotes doubled; a record of such fields. *)
Fixpoint doubled (s : string) : string :=
  match s with
  | EmptyString => ""
  | String c s => (if Ascii.eqb c quote then String quote (String quote "") else String c "") +:+ doubled s
  end.
Definition quoted (s : string) : string := String quote (doubled s +:+ String quote "").
Fixpoint quoted_record (fields : list string) : string :=
  match fields with
  | [] => ""
  | [f] => quoted f
  | f :: rest => quoted f +:+ String comma (quoted_record rest)
  end.

Fixpoint feed (p : csv_parser) (s : string) : result csv_parser :=
  match s with EmptyString => Ok p | String c rest => p ← process_char p (Some c); feed p rest end.
Lemma feed_app p a b : feed p (a +:+ b) = feed p a ≫= fun p => feed p b.
Proof.
  revert p. induction a as [|c a IH]; intros p; [done|]. change (String c a +:+ b) with (String c (a +:+ b)). cbn.
  destruct (process_char p (Some c)); cbn; [apply IH|done].
Qed.
Lemma process_line_feed p s : process_line p s = feed p s ≫= fun p => process_char p None.
Proof. revert p. induction s as [|c s IH]; intros p; [done|]. cbn. destruct (process_char p (Some c)); cbn; [apply IH|done]. Qed.

Lemma feed_doubled s fields acc : feed (MkParser IN_QUOTED_FIELD fields acc) (doubled s) = Ok (MkParser IN_QUOTED_FIELD fields (acc +:+ s)).
Proof.
  revert acc. induction s as [|c s IH]; intros acc; cbn [doubled]; [by rewrite str_app_nil|]. rewrite feed_app.
  assert (Hc : acc +:+ String c s = (acc +:+ String c "") +:+ s) by (by rewrite str_app_assoc).
  rewrite Hc, <- IH. destruct (Ascii.eqb c quote) eqn:E; [apply Ascii.eqb_eq in E as ->; done|]. cbn. by rewrite E.
Qed.
Lemma feed_quoted s fields : feed (MkParser START_FIELD fields "") (quoted s) = Ok (MkParser QUOTE_IN_QUOTED_FIELD fields s).
Proof.
  unfold quoted. change (feed (MkParser START_FIELD fields "") (String quote (doubled s +:+ String quote ""))) with
    (feed (MkParser IN_QUOTED_FIELD fields "") (doubled s +:+ String quote "")). by rewrite feed_app, feed_doubled.
Qed.

Lemma feed_record fields row : row <> [] ->
  exists p, feed (MkParser START_FIELD fields "") (quoted_record row) = Ok p /\ p.(cp_state) = QUOTE_IN_QUOTED_FIELD /\ p.(cp_fields) ++ [p.(cp_field)] = fields ++ row.
Proof.
  revert fields. induction row as [|f row IH]; intros fields H; [done|]. destruct row as [|g row].
  - cbn [quoted_record]. rewrite feed_quoted. by eexists.
  - change (quoted_record (f :: g :: row)) with (quoted f +:+ String comma (quoted_record (g :: row))). rewrite feed_app, feed_quoted.
    cbn [mbind result_bind feed process_char cp_state is_end]. change (Ascii.eqb comma LF || Ascii.eqb comma CR) with false. cbn [after_end].
    change (Ascii.eqb comma quote) with false. change (Ascii.eqb comma comma) with true. cbn [mbind result_bind]. unfold save_field. cbn [cp_fields cp_field].
    destruct (IH (fields ++ [f]) ltac:(done)) as (p & -> & Hs & Hf). exists p. by rewrite <- app_assoc in Hf.
Qed.

(** A record written with every field quoted is read back as it was, whatever
    characters its fields have, in one line. *)
Theorem csv_roundtrip row : row <> [] -> csv_reader [quoted_record row] = Ok [row].
Proof.
  intros H. unfold csv_reader. cbn [csv_records]. rewrite process_line_feed.
  assert (Hstart : feed (MkParser START_RECORD [] "") (quoted_record row) = feed (MkParser START_FIELD [] "") (quoted_record row)).
  { destruct row as [|f [|g row]]; [done|done|]. done. }
  rewrite Hstart. destruct (feed_record [] row H) as (p & -> & Hs & Hf). cbn [mbind result_bind]. unfold process_char. rewrite Hs. cbn.
  by rewrite Hf.
Qed.
