(* ===== verification/Sql.v ===== *)
(** * Tables of a database

    A table is the list of its rows in the order of their insertion.  [SELECT]
    is a filter, [UPDATE] maps the rows that satisfy its condition, [INSERT]
    adds a row behind the others after the constraints of the table, whose
    violations are exceptions. *)

From Stdlib Require Import ZArith Floats String.
From stdpp Require Import prelude strings list.
From S2P Require Import Prelude PyData PyFloat FloatTheory PyTime.

Definition unique_violation : exn := OtherException "UniqueViolation" "duplicate key value violates unique constraint".

(** [UPDATE table SET ... WHERE p] *)
Definition update_where {A} (p : A -> bool) (f : A -> A) (rows : list A) : list A := (fun r => if p r then f r else r) <$> rows.

(** A key of a new row is not one of the table's. *)
Definition unique {A} (key : A -> string) (rows : list A) (k : string) : result unit :=
  raise_if (existsb (fun r => key r ==p k) rows) unique_violation.

Definition check_violation : exn := OtherException "CheckViolation" "new row violates check constraint".
Definition foreign_key_violation : exn := OtherException "ForeignKeyViolation" "insert or update violates foreign key constraint".
(** [CHECK (c)] *)
Definition check (c : bool) : result unit := raise_if (negb c) check_violation.
(** [REFERENCES]: the key is in the table referred to. *)
Definition references {A} (key : A -> string) (rows : list A) (k : string) : result unit :=
  raise_if (negb (existsb (fun r => key r ==p k) rows)) foreign_key_violation.
Definition has_key {A} (key : A -> string) (rows : list A) (k : string) : bool := existsb (fun r => key r ==p k) rows.

(** A [timestamptz] keeps the instant; it is read back in UTC. *)
Definition timestamptz (d : datetime) : datetime := at_utc (instant d).

(** Comparisons and arithmetic of [double precision]: NaN is above every
    number, and a result that overflows or underflows is an error. *)
Definition pg_positive (x : float) : bool := fnan x || (0 <? x)%float.
Definition pg_nonneg (x : float) : bool := fnan x || (0 <=? x)%float.
Definition out_of_range : exn := OtherException "NumericValueOutOfRange" "value out of range".
Definition pg_sub (x y : float) : result float :=
  let r := (x - y)%float in
  _ ← raise_if (is_infinity r && negb (is_infinity x) && negb (is_infinity y)) out_of_range; mret r.
Definition pg_div (x y : float) : result float :=
  let r := (x / y)%float in
  _ ← raise_if ((y =? 0)%float && negb (fnan x)) (OtherException "DivisionByZero" "division by zero");
  _ ← raise_if (is_infinity r && negb (is_infinity x)) out_of_range;
  _ ← raise_if ((r =? 0)%float && negb (x =? 0)%float && negb (is_infinity y)) out_of_range;
  mret r.

(** A float in a jsonb column, whose numbers are decimals: no NaN, no
    infinity, one zero. *)
Definition jsonb_number (x : float) : float := if (x =? 0)%float then 0%float else x.
Definition jsonb_floats (xs : list float) : result unit :=
  raise_if (existsb (fun x => fnan x || is_infinity x) xs) (OtherException "InvalidTextRepresentation" "invalid input syntax for type json").

Lemma timestamptz_twice d : timestamptz (timestamptz d) = timestamptz d.
Proof. unfold timestamptz, instant, at_utc. simpl. by rewrite Z.sub_0_r. Qed.
Lemma jsonb_number_twice x : jsonb_number (jsonb_number x) = jsonb_number x.
Proof. unfold jsonb_number. destruct (x =? 0)%float eqn:E; [done|by rewrite E]. Qed.
Lemma jsonb_number_finite x : fnan x || is_infinity x = false -> fnan (jsonb_number x) || is_infinity (jsonb_number x) = false.
Proof. unfold jsonb_number. by destruct (x =? 0)%float. Qed.
Lemma jsonb_floats_stored xs : jsonb_floats xs = Ok () -> jsonb_floats (jsonb_number <$> xs) = Ok ().
Proof.
  unfold jsonb_floats. rewrite !raise_if_ok, !existsb_false_Forall, !Forall_forall. intros H y (x & -> & Hx)%list_elem_of_fmap.
  by apply jsonb_number_finite, H.
Qed.

(** ** Tables under updates *)

Lemma update_where_key {A B} (key : A -> B) p f rows : (forall r, key (f r) = key r) -> key <$> update_where p f rows = key <$> rows.
Proof. intros Hf. unfold update_where. rewrite <- list_fmap_compose. apply list_fmap_ext. intros _ r _. simpl. by destruct (p r). Qed.

Lemma update_where_same {A B} (key : A -> B) p f rows : (forall r, p r = true -> key (f r) = key r) -> key <$> update_where p f rows = key <$> rows.
Proof. intros Hf. unfold update_where. rewrite <- list_fmap_compose. apply list_fmap_ext. intros _ r _. simpl. destruct (p r) eqn:E; [by apply Hf|done]. Qed.

Lemma update_where_elem {A} p (f : A -> A) rows r : r ∈ update_where p f rows <-> exists x, x ∈ rows /\ r = if p x then f x else x.
Proof. unfold update_where. rewrite list_elem_of_fmap. naive_solver. Qed.

Lemma unique_fresh {A} (key : A -> string) rows k : unique key rows k = Ok () <-> k ∉ key <$> rows.
Proof.
  unfold unique. rewrite raise_if_ok, existsb_false_Forall, list_elem_of_fmap, Forall_forall. split.
  - intros H (r & -> & Hr). apply H in Hr. by apply py_eq_false in Hr.
  - intros H r Hr. apply py_eq_false. intros <-. apply H. by exists r.
Qed.

Lemma NoDup_snoc_key {A} (key : A -> string) rows r : NoDup (key <$> rows) -> key r ∉ key <$> rows -> NoDup (key <$> (rows ++ [r])).
Proof. intros H1 H2. rewrite fmap_app. apply NoDup_app. split; [done|]. split; [|apply NoDup_singleton]. by intros x Hx ->%list_elem_of_singleton. Qed.

Lemma NoDup_key_inj {A B} (key : A -> B) rows x y : NoDup (key <$> rows) -> x ∈ rows -> y ∈ rows -> key x = key y -> x = y.
Proof.
  induction rows as [|r rows IH]; [by intros _ ?%elem_of_nil|]. rewrite fmap_cons. intros [Hn Hd]%NoDup_cons.
  intros [->|Hx]%elem_of_cons [->|Hy]%elem_of_cons Hk; [done| | |by apply IH]; exfalso; apply Hn.
  - rewrite Hk. by apply list_elem_of_fmap_2.
  - rewrite <- Hk. by apply list_elem_of_fmap_2.
Qed.

Lemma find_elem {A} (p : A -> bool) rows r : List.find p rows = Some r -> r ∈ rows /\ p r = true.
Proof. intros H. apply find_some in H as [H1 H2]. by rewrite <- list_elem_of_In in H1. Qed.

Lemma find_unique {A B} (key : A -> B) p rows r : NoDup (key <$> rows) -> (forall x y, p x = true -> p y = true -> key x = key y) ->
  r ∈ rows -> p r = true -> List.find p rows = Some r.
Proof.
  intros Hn Hk Hr Hp. destruct (List.find p rows) as [x|] eqn:E.
  - apply find_elem in E as [Hx Hpx]. f_equal. eapply NoDup_key_inj; eauto.
  - exfalso. rewrite list_elem_of_In in Hr. by rewrite (find_none _ _ E _ Hr) in Hp.
Qed.

(** The only row with its key is what a selection of that key returns. *)
Lemma filter_key {A B} (key : A -> B) p rows r : NoDup (key <$> rows) -> r ∈ rows -> p r = true ->
  (forall x, p x = true -> key x = key r) -> List.filter p rows = [r].
Proof.
  intros Hn Hr Hp Hk. induction rows as [|x rows IH]; [by apply elem_of_nil in Hr|]. rewrite fmap_cons in Hn.
  apply NoDup_cons in Hn as [Hx Hn]. simpl. apply elem_of_cons in Hr as [<-|Hr].
  - rewrite Hp. f_equal. apply filter_none. intros y Hy. destruct (p y) eqn:E; [|done]. exfalso. apply Hx.
    rewrite <- (Hk y E). by apply list_elem_of_fmap_2.
  - destruct (p x) eqn:E; [|by apply IH]. exfalso. apply Hx. rewrite (Hk x E). by apply list_elem_of_fmap_2.
Qed.

Lemma NoDup_filter_key {A B} (key : A -> B) p rows : NoDup (key <$> rows) -> NoDup (key <$> List.filter p rows).
Proof.
  induction rows as [|r rows IH]; [done|]. rewrite fmap_cons. intros [Hn Hd]%NoDup_cons. simpl.
  destruct (p r); [|by apply IH]. rewrite fmap_cons. apply NoDup_cons. split; [|by apply IH].
  intros (x & Hx & Hin)%list_elem_of_fmap. apply Hn. rewrite Hx. apply list_elem_of_fmap_2.
  rewrite list_elem_of_In in *. by apply filter_In in Hin as [Hin _].
Qed.

Lemma find_updated {A} (q same : A -> bool) r (rows : list A) : (forall x, x ∈ rows -> same x = true -> q x = false) -> q r = false ->
  List.find q (update_where same (fun _ => r) rows) = List.find q rows.
Proof.
  intros Hs Hr. induction rows as [|x rows IH]; [done|]. simpl. rewrite IH by (intros y Hy; apply Hs; by right).
  destruct (same x) eqn:E; [|done]. by rewrite Hr, (Hs x ltac:(by left) E).
Qed.

Lemma find_replaced {A} (same : A -> bool) r rows : same r = true -> existsb same rows = true ->
  List.find same (update_where same (fun _ => r) rows) = Some r.
Proof.
  intros Hr. induction rows as [|x rows IH]; [done|]. simpl. destruct (same x) eqn:E; [by rewrite Hr|]. rewrite E. apply IH.
Qed.

Lemma find_snoc {A} (q : A -> bool) r rows : List.find q (rows ++ [r]) = match List.find q rows with Some x => Some x | None => if q r then Some r else None end.
Proof. induction rows as [|x rows IH]; [done|]. simpl. by destruct (q x). Qed.

Lemma find_filtered {A} (q p : A -> bool) rows : (forall x, q x = true -> p x = true) -> List.find q (List.filter p rows) = List.find q rows.
Proof.
  intros H. induction rows as [|x rows IH]; [done|]. simpl. destruct (p x) eqn:E; simpl; [by rewrite IH|].
  rewrite IH. destruct (q x) eqn:E2; [|done]. by rewrite (H x E2) in E.
Qed.

Lemma find_none_existsb {A} (q : A -> bool) rows : existsb q rows = false -> List.find q rows = None.
Proof. induction rows as [|x rows IH]; [done|]. simpl. intros [-> H]%orb_false_iff. by apply IH. Qed.

Lemma find_only {A} (q : A -> bool) (l : list A) x : x ∈ l -> q x = true -> (forall y, y ∈ l -> q y = true -> y = x) -> List.find q l = Some x.
Proof.
  intros Hx Hq Ho. destruct (List.find q l) as [y|] eqn:E.
  - apply find_elem in E as [Hy Hqy]. f_equal. by apply Ho.
  - exfalso. apply list_elem_of_In in Hx. by rewrite (find_none _ _ E _ Hx) in Hq.
Qed.
Lemma find_nothing {A} (q : A -> bool) (l : list A) : (forall y, y ∈ l -> q y = false) -> List.find q l = None.
Proof. intros H. destruct (List.find q l) as [y|] eqn:E; [|done]. apply find_elem in E as [Hy Hq]. by rewrite H in Hq. Qed.

Lemma filter_snoc_false {A} (p : A -> bool) rows x : p x = false -> List.filter p (rows ++ [x]) = List.filter p rows.
Proof. intros H. rewrite List.filter_app. simpl. by rewrite H, app_nil_r. Qed.
Lemma filter_snoc_only {A} (p : A -> bool) rows x : (forall y, y ∈ rows -> p y = false) -> p x = true -> List.filter p (rows ++ [x]) = [x].
Proof. intros H Hx. rewrite List.filter_app, (filter_none _ _ H). simpl. by rewrite Hx. Qed.

Lemma key_absent {A} (key : A -> string) (rows : list A) k : ~ k ∈ (key <$> rows) -> forall y, y ∈ rows -> (key y ==p k) = false.
Proof. intros H y Hy. apply py_eq_false. intros <-. apply H. by apply list_elem_of_fmap_2. Qed.

Lemma list_bind_ext_in {A B} (f g : A -> list B) (l : list A) : (forall x, x ∈ l -> f x = g x) -> l ≫= f = l ≫= g.
Proof. induction l as [|x l IH]; intros H; [done|]. cbn. rewrite (H x) by (by left). f_equal. apply IH. intros y Hy. apply H. by right. Qed.

Lemma has_key_false {A} (key : A -> string) rows k : has_key key rows k = false <-> ~ k ∈ (key <$> rows).
Proof.
  unfold has_key. rewrite existsb_false_Forall, list_elem_of_fmap, Forall_forall. split.
  - intros H (r & -> & Hr). apply H in Hr. by apply py_eq_false in Hr.
  - intros H r Hr. apply py_eq_false. intros <-. apply H. by exists r.
Qed.

(** ** A table as a dict *)

Section TableDict.
Context {A K V : Type} `{EqDecision K}.

(** The dict of the records that the rows of a table stand for, by their key. *)
Definition table_dict (key : A -> K) (f : A -> option V) (rows : list A) : dict K V :=
  Dict (omap (fun r => x ← f r; Some (key r, x)) rows).

Lemma table_dict_elem key f rows k x : (k, x) ∈ entries (table_dict key f rows) <-> exists r, r ∈ rows /\ key r = k /\ f r = Some x.
Proof.
  simpl. rewrite list_elem_of_omap. split.
  - intros (r & Hr & H). exists r. destruct (f r) as [y|]; [|done]. by injection H as <- <-.
  - intros (r & Hr & <- & H). exists r. by rewrite H.
Qed.
Lemma table_dict_wf key f rows : NoDup (key <$> rows) -> dict_wf (table_dict key f rows).
Proof.
  unfold dict_wf, dict_keys. induction rows as [|r rows IH]; [constructor|]. rewrite fmap_cons. intros [Hn Hd]%NoDup_cons. simpl.
  destruct (f r) as [x|]; simpl; [|by apply IH]. apply NoDup_cons. split; [|by apply IH]. intros ([k y] & Hk & Hin)%list_elem_of_fmap.
  apply table_dict_elem in Hin as (r' & Hr' & <- & _). simpl in Hk. apply Hn. rewrite Hk. by apply list_elem_of_fmap_2.
Qed.
Lemma table_dict_lookup key f rows r x : NoDup (key <$> rows) -> r ∈ rows -> f r = Some x -> table_dict key f rows !! key r = Some x.
Proof. intros Hn Hr Hf. apply dict_elem_lookup; [by apply table_dict_wf|]. apply table_dict_elem. by exists r. Qed.
Lemma table_dict_lookup_inv key f rows k x : table_dict key f rows !! k = Some x -> exists r, r ∈ rows /\ key r = k /\ f r = Some x.
Proof. intros H. by apply table_dict_elem, dict_lookup_elem. Qed.
Lemma table_dict_absent key f rows k : k ∉ key <$> rows -> table_dict key f rows !! k = None.
Proof.
  intros Hk. destruct (table_dict key f rows !! k) as [x|] eqn:E; [|done]. apply table_dict_lookup_inv in E as (r & Hr & <- & _).
  exfalso. by apply Hk, list_elem_of_fmap_2.
Qed.
Lemma table_dict_snoc key f rows r x : key r ∉ key <$> rows -> f r = Some x ->
  table_dict key f (rows ++ [r]) = <[key r := x]> (table_dict key f rows).
Proof.
  intros Hk Hf. pose proof (dict_entries_insert_None _ _ x (table_dict_absent key f rows (key r) Hk)) as He.
  destruct (<[key r := x]> _) as [l]. simpl in He. rewrite He. unfold table_dict. rewrite omap_app. simpl. by rewrite Hf.
Qed.
Lemma table_dict_ext key f g rows : (forall r, r ∈ rows -> f r = g r) -> table_dict key f rows = table_dict key g rows.
Proof.
  intros H. unfold table_dict. f_equal. induction rows as [|r rows IH]; [done|]. simpl. rewrite (H r) by (by left).
  destruct (g r); simpl; [f_equal|]; apply IH; intros x Hx; apply H; by right.
Qed.
Lemma table_dict_update key f (p : A -> bool) rows old new x y : NoDup (key <$> rows) -> old ∈ rows -> (forall r, p r = true <-> key r = key old) ->
  key new = key old -> f old = Some x -> f new = Some y ->
  table_dict key f (update_where p (fun _ => new) rows) = <[key old := y]> (table_dict key f rows).
Proof.
  intros Hn Ho Hp Hk Hx Hy. unfold table_dict, insert, dict_insert. f_equal. simpl.
  induction rows as [|r rows IH]; [by apply elem_of_nil in Ho|]. rewrite fmap_cons in Hn. apply NoDup_cons in Hn as [Hr Hn]. simpl.
  destruct (decide (key r = key old)) as [E|E].
  - rewrite (proj2 (Hp r) E), Hy. assert (r = old) as ->.
    { apply elem_of_cons in Ho as [->|Ho]; [done|]. exfalso. apply Hr. rewrite E. by apply list_elem_of_fmap_2. }
    rewrite Hx. simpl. rewrite decide_True by done. rewrite Hk. f_equal. f_equal. clear -Hr Hp.
    induction rows as [|q rows IH]; [done|]. rewrite fmap_cons, not_elem_of_cons in Hr. destruct Hr as [Hq Hr]. simpl.
    assert (p q = false) as -> by (apply not_true_is_false; intros H; by apply Hq, eq_sym, Hp). f_equal. by apply IH.
  - apply elem_of_cons in Ho as [->|Ho]; [done|]. assert (p r = false) as -> by (apply not_true_is_false; by intros H%Hp).
    destruct (f r) as [z|]; simpl; [rewrite decide_False by (by apply not_eq_sym); f_equal|]; by apply IH.
Qed.
End TableDict.
