(* ===== verification/Db.v ===== *)
(** * Transactions that may fail

    A process talks to the database in calls, [connect()], [execute(...)] and
    [commit()], each of which may raise.  The state of a process with tables
    [T] is the tables, what the process keeps in its own memory ([L]) and the
    outcomes of the calls still to come, which are given from outside.  A
    method that fails leaves the tables as they were: it rolls back, and what
    it would have written after the commit is not written. *)

From Stdlib Require Import ZArith String.
From stdpp Require Import prelude strings list.
From S2P Require Import Prelude PyData Sql.

Record Db (T L : Type) := MkDb {
  db_tables : T;
  db_local : L;
  db_faults : list (option exn) }.
Arguments MkDb {T L} db_tables db_local db_faults.
Arguments db_tables {T L} _.
Arguments db_local {T L} _.
Arguments db_faults {T L} _.

Section Transactions.
Context {T L : Type}.

Definition db_call : M (Db T L) unit := fun s =>
  match s.(db_faults) with
  | [] => (Ok (), s)
  | f :: rest => (match f with Some e => Err e | None => Ok () end, MkDb s.(db_tables) s.(db_local) rest)
  end.

(** One statement over the tables: constraint violations undo it. *)
Definition execute_sql {A} (m : M T A) : M (Db T L) A :=
  _ ← db_call;
  (fun s => let '(r, t) := m s.(db_tables) in
            (r, MkDb (if is_ok r then t else s.(db_tables)) s.(db_local) s.(db_faults))) : M (Db T L) A.
Definition in_memory {A} (m : M L A) : M (Db T L) A :=
  zoom db_local (fun l s => MkDb s.(db_tables) l s.(db_faults)) m.

(** [connect(); try: body; commit(); after  except: rollback(); raise  finally: close()] *)
Definition transaction {A} (body : M (Db T L) A) (after : A -> M L unit) : M (Db T L) A := fun s =>
  match (_ ← db_call; a ← body; _ ← db_call; mret a) s with
  | (Ok a, s') => (_ ← in_memory (after a); mret a) s'
  | (Err e, s') => (Err e, MkDb s.(db_tables) s'.(db_local) s'.(db_faults))
  end.
Definition committed {A} (body : M (Db T L) A) : M (Db T L) A := transaction body (fun _ => mret ()).
(** [connect(); try: body  finally: close()] *)
Definition reading {A} (body : M T A) : M (Db T L) A := _ ← db_call; execute_sql body.

(** ** What they do *)

Lemma db_call_effect s : exists r fs, db_call s = (r, MkDb s.(db_tables) s.(db_local) fs).
Proof. destruct s as [t l [|f fs]]; simpl; by eexists _, _. Qed.
Lemma db_call_fine s : s.(db_faults) = [] -> db_call s = (Ok (), s).
Proof. unfold db_call. by intros ->. Qed.

Lemma execute_sql_effect {A} (m : M T A) s r s' : execute_sql m s = (r, s') ->
  s'.(db_local) = s.(db_local) /\
  match r with
  | Ok a => m s.(db_tables) = (Ok a, s'.(db_tables))
  | Err _ => s'.(db_tables) = s.(db_tables)
  end.
Proof.
  unfold execute_sql, mbind, M_bind. destruct (db_call_effect s) as (r0 & fs & ->). destruct r0 as [[]|e]; [|by intros [= <- <-]].
  simpl. destruct (m (db_tables s)) as [[a|e] t] eqn:E; intros [= <- <-]; done.
Qed.
Lemma execute_sql_fine {A} (m : M T A) s : s.(db_faults) = [] ->
  execute_sql m s = ((m s.(db_tables)).1, MkDb (if is_ok (m s.(db_tables)).1 then (m s.(db_tables)).2 else s.(db_tables)) s.(db_local) []).
Proof. intros H. unfold execute_sql, mbind, M_bind. rewrite db_call_fine by done. rewrite H. by destruct (m (db_tables s)). Qed.

(** A body whose statements only touch the tables. *)
Definition keeps_local {A} (m : M (Db T L) A) : Prop := forall s r s', m s = (r, s') -> s'.(db_local) = s.(db_local).
Lemma execute_sql_keeps {A} (m : M T A) : keeps_local (execute_sql m).
Proof. intros s r s' H. by apply execute_sql_effect in H as [H _]. Qed.
Lemma lift_keeps {A} (r : result A) : keeps_local (lift r).
Proof. by intros s r' s' [= _ <-]. Qed.
Lemma bind_keeps {A B} (m : M (Db T L) A) (k : A -> M (Db T L) B) : keeps_local m -> (forall a, keeps_local (k a)) -> keeps_local (m ≫= k).
Proof.
  intros Hm Hk s r s'. unfold mbind, M_bind. destruct (m s) as [[a|e] s1] eqn:E.
  - intros H. rewrite (Hk a _ _ _ H). by apply (Hm _ _ _ E).
  - intros [= _ <-]. by apply (Hm _ _ _ E).
Qed.

Lemma transaction_ok {A} (body : M (Db T L) A) after s a s' : transaction body after s = (Ok a, s') ->
  exists s1 s2, s1.(db_tables) = s.(db_tables) /\ s1.(db_local) = s.(db_local) /\ body s1 = (Ok a, s2) /\
    s'.(db_tables) = s2.(db_tables) /\ after a s2.(db_local) = (Ok (), s'.(db_local)).
Proof.
  unfold transaction, mbind, M_bind. destruct (db_call_effect s) as (r0 & fs & ->). destruct r0 as [[]|e]; [|done].
  set (s1 := MkDb _ _ fs). destruct (body s1) as [[x|e] s2] eqn:Eb; [|done].
  destruct (db_call_effect s2) as (r1 & fs1 & ->). destruct r1 as [[]|e]; [|done]. simpl. unfold in_memory, zoom.
  destruct (after x (db_local s2)) as [[[]|e] l] eqn:Ea; simpl; rewrite Ea; [|done]. intros [= -> <-]. exists s1, s2. done.
Qed.
Lemma transaction_err {A} (body : M (Db T L) A) after s e s' : keeps_local body -> (forall a l, is_ok (after a l).1 = true) ->
  transaction body after s = (Err e, s') -> s'.(db_tables) = s.(db_tables) /\ s'.(db_local) = s.(db_local).
Proof.
  intros Hk Ha. unfold transaction, mbind, M_bind. destruct (db_call_effect s) as (r0 & fs & ->). destruct r0 as [[]|e0]; [|by intros [= _ <-]].
  set (s1 := MkDb _ _ fs). destruct (body s1) as [[x|e0] s2] eqn:Eb; [|intros [= _ <-]; split; [done|]; exact (Hk _ _ _ Eb)].
  destruct (db_call_effect s2) as (r1 & fs1 & ->). destruct r1 as [[]|e1]; [|intros [= _ <-]; split; [done|]; exact (Hk _ _ _ Eb)].
  simpl. unfold in_memory, zoom. simpl. specialize (Ha x (db_local s2)). by destruct (after x (db_local s2)) as [[[]|e1] l].
Qed.
Lemma reading_effect {A} (m : M T A) s r s' : reading m s = (r, s') ->
  s'.(db_local) = s.(db_local) /\ match r with Ok a => m s.(db_tables) = (Ok a, s'.(db_tables)) | Err _ => s'.(db_tables) = s.(db_tables) end.
Proof.
  unfold reading, mbind, M_bind. destruct (db_call_effect s) as (r0 & fs & ->). destruct r0 as [[]|e]; [|by intros [= <- <-]].
  intros H. by apply execute_sql_effect in H.
Qed.
End Transactions.

Create HintDb store.
#[export] Hint Resolve execute_sql_keeps lift_keeps bind_keeps : store.

(** A query changes nothing. *)
Definition query {T A} (f : T -> result A) : M T A := fun t => (f t, t).
Lemma reading_query {T L A} (f : T -> result A) (s : Db T L) r s' : reading (query f) s = (r, s') ->
  s'.(db_tables) = s.(db_tables) /\ s'.(db_local) = s.(db_local) /\ (forall a, r = Ok a -> f s.(db_tables) = Ok a).
Proof.
  intros [Hl H]%reading_effect. destruct r as [a|e]; [|done]. unfold query in H. injection H as H1 H2. split; [done|]. split; [done|]. by intros ? [= <-].
Qed.
Lemma reading_fine {T L A} (m : M T A) (s : Db T L) : s.(db_faults) = [] ->
  reading m s = ((m s.(db_tables)).1, MkDb (if is_ok (m s.(db_tables)).1 then (m s.(db_tables)).2 else s.(db_tables)) s.(db_local) []).
Proof. intros H. unfold reading, mbind, M_bind. rewrite db_call_fine by done. by apply execute_sql_fine. Qed.

(** A committed statement does it or changes nothing. *)
Lemma committed_effect {T L A} (m : M T A) (s : Db T L) :
  match committed (execute_sql m) s with
  | (Ok a, s') => m s.(db_tables) = (Ok a, s'.(db_tables))
  | (Err _, s') => s'.(db_tables) = s.(db_tables)
  end.
Proof.
  destruct (committed (execute_sql m) s) as [[a|e] s'] eqn:H.
  - apply transaction_ok in H as (s1 & s2 & Ht & _ & [_ H]%execute_sql_effect & -> & _). by rewrite Ht in H.
  - by apply transaction_err in H as [H _]; [|apply execute_sql_keeps|].
Qed.

(** [INSERT ... ON CONFLICT (key) DO UPDATE SET ...] *)
Definition upsert {A} (same : A -> bool) (new : A) (set : A -> A) (rows : list A) : list A :=
  if existsb same rows then update_where same set rows else rows ++ [new].

Lemma find_update_where {A} (same : A -> bool) (set : A -> A) rows : (forall r, same r = true -> same (set r) = true) ->
  List.find same (update_where same set rows) = set <$> List.find same rows.
Proof.
  intros H. induction rows as [|r rows IH]; [done|]. simpl. destruct (same r) eqn:E; [by rewrite (H r E)|]. by rewrite E.
Qed.
Lemma find_upsert {A} (same : A -> bool) new set rows : same new = true -> (forall r, same r = true -> same (set r) = true) ->
  List.find same (upsert same new set rows) = Some (match List.find same rows with Some r => set r | None => new end).
Proof.
  intros Hn Hs. unfold upsert. destruct (existsb same rows) eqn:E.
  - rewrite find_update_where by done. destruct (List.find same rows) as [r|] eqn:F; [done|]. apply existsb_exists in E as (r & Hr & Hq).
    by rewrite (find_none _ _ F _ Hr) in Hq.
  - rewrite find_snoc, (find_none_existsb _ _ E), Hn. done.
Qed.
Lemma find_upsert_other {A} (q same : A -> bool) new set rows : q new = false -> (forall r, same r = true -> q r = false /\ q (set r) = false) ->
  List.find q (upsert same new set rows) = List.find q rows.
Proof.
  intros Hn Hs. unfold upsert. destruct (existsb same rows).
  - induction rows as [|r rows IH]; [done|]. simpl. destruct (same r) eqn:E; [|by destruct (q r)].
    destruct (Hs r E) as [-> ->]. exact IH.
  - rewrite find_snoc, Hn. by destruct (List.find q rows).
Qed.
