(* ===== verification/Contracts.v ===== *)
(** * Shared records (src/nanodelta/contracts.py) and Gold features (features.py)

    The enumerations every component uses, the canonical candle with the
    checks of its constructor, and the deterministic Silver-to-Gold
    materialisation of features. *)

From Stdlib Require Import ZArith Floats.
From stdpp Require Import prelude strings list numbers sorting.
From S2P Require Import Prelude PyData PyFloat FloatTheory PyText Sha256 PyTime.

Inductive Market := NSE | FOREX | CRYPTO.
Definition Market_value (m : Market) : string :=
  match m with NSE => "nse" | FOREX => "forex" | CRYPTO => "crypto" end.

Inductive Provider := DHAN | TRUEDATA | OANDA | OKX | POLONIEX.
Definition Provider_value (p : Provider) : string :=
  match p with
  | DHAN => "dhan" | TRUEDATA => "truedata" | OANDA => "oanda" | OKX => "okx" | POLONIEX => "poloniex"
  end.

Inductive AdvisoryAction := BUY | SELL | ABSTAIN.
Definition AdvisoryAction_value (a : AdvisoryAction) : string :=
  match a with BUY => "BUY" | SELL => "SELL" | ABSTAIN => "ABSTAIN" end.

Inductive EventType := CANDLE | QUOTE | TRADE | ORDER_BOOK | INSTRUMENT.

#[export] Instance Market_eq_dec : EqDecision Market.
Proof. solve_decision. Defined.
#[export] Instance Provider_eq_dec : EqDecision Provider.
Proof. solve_decision. Defined.
#[export] Instance AdvisoryAction_eq_dec : EqDecision AdvisoryAction.
Proof. solve_decision. Defined.
#[export] Instance EventType_eq_dec : EqDecision EventType.
Proof. solve_decision. Defined.

(** Enum members are compared by identity. *)
#[export] Instance py_eq_Market : PyEq Market := fun a b => bool_decide (a = b).
#[export] Instance py_eq_Market_leibniz : PyEqLeibniz Market.
Proof. intros a b. apply bool_decide_eq_true. Qed.
#[export] Instance py_eq_AdvisoryAction : PyEq AdvisoryAction := fun a b => bool_decide (a = b).
#[export] Instance py_eq_AdvisoryAction_leibniz : PyEqLeibniz AdvisoryAction.
Proof. intros a b. apply bool_decide_eq_true. Qed.

(** ** CanonicalCandle *)

Record CanonicalCandle := {
  cc_record_id : string;
  cc_raw_record_id : string;
  cc_market : Market;
  cc_provider : Provider;
  cc_symbol : string;
  cc_timeframe : string;
  cc_open_time : datetime;
  cc_open : float;
  cc_high : float;
  cc_low : float;
  cc_close : float;
  cc_volume : float;
  cc_is_settled : bool;
  cc_schema_version : Z }.

(** [CanonicalCandle.__post_init__] *)
Definition CanonicalCandle_post_init (c : CanonicalCandle) : result unit :=
  _ ← utc c.(cc_open_time) "open_time";
  _ ← raise_if (negb (forallb isfinite [c.(cc_open); c.(cc_high); c.(cc_low); c.(cc_close); c.(cc_volume)]))
        (ValueError "OHLCV values must be finite");
  _ ← raise_if (c.(cc_volume) <? 0)%float (ValueError "volume cannot be negative");
  _ ← raise_if (fgt c.(cc_low) (fmin c.(cc_open) c.(cc_close))
                || (c.(cc_high) <? fmax c.(cc_open) c.(cc_close))%float)
        (ValueError "OHLC values are inconsistent");
  raise_if (fgt c.(cc_low) c.(cc_high)) (ValueError "low cannot exceed high").

(** ** FeatureRecord and [materialize_features] *)

Record FeatureRecord := {
  fr_record_id : string;
  fr_candle_record_id : string;
  fr_market : Market;
  fr_symbol : string;
  fr_timeframe : string;
  fr_event_time : datetime;
  fr_close : float;
  fr_return_1 : float;
  fr_range_pct : float;
  fr_body_pct : float;
  fr_volume_change : option float;
  fr_feature_version : Z }.

(** [groups[(market.value, symbol, timeframe)].append(candle)] over a
    [defaultdict(list)]: settled candles by series, in arrival order. *)
Definition series_key (c : CanonicalCandle) : string * string * string :=
  (Market_value c.(cc_market), c.(cc_symbol), c.(cc_timeframe)).

Definition group_candles (candles : list CanonicalCandle)
    : dict (string * string * string) (list CanonicalCandle) :=
  foldl (fun groups c =>
           if c.(cc_is_settled)
           then <[series_key c := default [] (groups !! series_key c) ++ [c]]> groups
           else groups) ∅ candles.

(** One loop iteration over a pair of consecutive candles. *)
Definition feature_of (previous current : CanonicalCandle) : result (option FeatureRecord) :=
  if ((previous.(cc_close) =? 0) || (current.(cc_open) =? 0))%float then mret None
  else
    volume_change ← (if fgt previous.(cc_volume) 0
                     then q ← fdiv current.(cc_volume) previous.(cc_volume); mret (Some (q - 1)%float)
                     else mret None);
    return_q ← fdiv current.(cc_close) previous.(cc_close);
    range_pct ← fdiv (current.(cc_high) - current.(cc_low))%float current.(cc_open);
    body_pct ← fdiv (current.(cc_close) - current.(cc_open))%float current.(cc_open);
    mret (Some {|
      fr_record_id := stable_id [current.(cc_record_id); "features"; str_Z 1];
      fr_candle_record_id := current.(cc_record_id);
      fr_market := current.(cc_market);
      fr_symbol := current.(cc_symbol);
      fr_timeframe := current.(cc_timeframe);
      fr_event_time := current.(cc_open_time);
      fr_close := current.(cc_close);
      fr_return_1 := (return_q - 1)%float;
      fr_range_pct := range_pct;
      fr_body_pct := body_pct;
      fr_volume_change := volume_change;
      fr_feature_version := 1 |}).

(** Candles are sorted by [open_time], which their constructor checked to be
    aware, so comparing them does not raise. *)
Definition candle_before (a b : CanonicalCandle) : bool :=
  (instant a.(cc_open_time) <? instant b.(cc_open_time))%Z.

Definition group_features (group : list CanonicalCandle) : result (list FeatureRecord) :=
  features ← map_result (fun '(p, c) => feature_of p c) (consecutive (py_sorted candle_before group));
  mret (somes features).

(** [(row.market.value, row.symbol, row.event_time)] as a sort key. *)
Definition feature_before (a b : FeatureRecord) : bool :=
  let ma := Market_value a.(fr_market) in let mb := Market_value b.(fr_market) in
  str_ltb ma mb || (String.eqb ma mb &&
    (str_ltb a.(fr_symbol) b.(fr_symbol) || (String.eqb a.(fr_symbol) b.(fr_symbol) &&
      (instant a.(fr_event_time) <? instant b.(fr_event_time))%Z))).

Definition materialize_features (candles : list CanonicalCandle) : result (list FeatureRecord) :=
  rows ← map_result group_features (dict_values (group_candles candles));
  mret (py_sorted feature_before (mjoin rows)).

(** ** Theorems *)

(** The divisions are all guarded: no candle list makes the code raise. *)
Lemma feature_of_total p c : exists o, feature_of p c = Ok o.
Proof.
  unfold feature_of. destruct (_ || _)%bool eqn:E; [eauto|].
  apply orb_false_iff in E as [Hp Hc].
  destruct (fgt (cc_volume p) 0) eqn:Hv.
  - rewrite (fdiv_ok _ _ (fgt_0_nonzero _ Hv)). simpl.
    rewrite (fdiv_ok _ _ Hp), !(fdiv_ok _ _ Hc). simpl. eauto.
  - simpl. rewrite (fdiv_ok _ _ Hp), !(fdiv_ok _ _ Hc). simpl. eauto.
Qed.

Lemma group_candles_members candles k group c :
  group_candles candles !! k = Some group -> c ∈ group ->
  c ∈ candles /\ c.(cc_is_settled) = true /\ series_key c = k.
Proof.
  unfold group_candles.
  assert (Hgen : forall seen (d : dict (string * string * string) (list CanonicalCandle)),
    (forall k group c, d !! k = Some group -> c ∈ group ->
       c ∈ seen /\ c.(cc_is_settled) = true /\ series_key c = k) ->
    forall k group c,
      foldl (fun groups c => if c.(cc_is_settled)
             then <[series_key c := default [] (groups !! series_key c) ++ [c]]> groups
             else groups) d candles !! k = Some group -> c ∈ group ->
      c ∈ seen ++ candles /\ c.(cc_is_settled) = true /\ series_key c = k).
  { clear. induction candles as [|x candles IH]; intros seen d Hd k group c; simpl.
    - rewrite app_nil_r. apply Hd.
    - rewrite (assoc_L app seen [x] candles : seen ++ x :: candles = (seen ++ [x]) ++ candles).
      apply IH. clear k group c. intros k group c. destruct (cc_is_settled x) eqn:Hx.
      + rewrite dict_lookup_insert. case_decide as Hk.
        * intros [= <-]. rewrite elem_of_app, list_elem_of_singleton. intros [Hc| ->]; [|set_solver].
          destruct (d !! series_key x) as [g|] eqn:Hg; simpl in Hc; [|by apply elem_of_nil in Hc].
          destruct (Hd _ _ _ Hg Hc) as (? & ? & ?). set_solver.
        * intros Hg Hc. destruct (Hd _ _ _ Hg Hc) as (? & ? & ?). set_solver.
      + intros Hg Hc. destruct (Hd _ _ _ Hg Hc) as (? & ? & ?). set_solver. }
  intros Hk Hc. apply (Hgen [] ∅) with (k := k) (group := group); [|done..].
  intros k' g' c' H'. by rewrite dict_lookup_empty in H'.
Qed.

Lemma group_candles_wf candles : dict_wf (group_candles candles).
Proof.
  unfold group_candles.
  assert (dict_wf (∅ : dict (string * string * string) (list CanonicalCandle))) as H by apply dict_wf_empty.
  revert H. generalize (∅ : dict (string * string * string) (list CanonicalCandle)).
  induction candles as [|x candles IH]; intros d Hd; simpl; [done|]. apply IH.
  case_match; [by apply dict_wf_insert | done].
Qed.

Lemma candle_sorted group : StronglySorted (not_after candle_before) (py_sorted candle_before group).
Proof.
  apply (py_sorted_sorted candle_before (fun _ => True)); unfold not_after, candle_before.
  - intros x y _ _. rewrite Z.ltb_lt, Z.ltb_ge. lia.
  - intros x y z _ _ _. rewrite !Z.ltb_ge. lia.
  - by apply Forall_true.
Qed.

(** No list of candles makes the materialisation raise. *)
Lemma materialize_total candles : exists rows, materialize_features candles = Ok rows.
Proof.
  unfold materialize_features.
  destruct (map_result_total group_features (dict_values (group_candles candles))) as [rows ->]; [|cbn; eauto].
  intros g _. unfold group_features.
  destruct (map_result_total (fun '(p, c) => feature_of p c)
    (consecutive (py_sorted candle_before g))) as [fs ->]; [|cbn; eauto].
  intros [p c] _. apply feature_of_total.
Qed.

(** Gold is a function of settled Silver only: [materialize_features] always
    returns, and every feature it returns comes from two settled candles of
    one (market, symbol, timeframe) series, the earlier one not after the
    later one, by the documented formulas. *)
Theorem materialize_features_sound candles :
  exists rows, materialize_features candles = Ok rows /\
  forall f, f ∈ rows -> exists p c,
    p ∈ candles /\ c ∈ candles /\ p.(cc_is_settled) = true /\ c.(cc_is_settled) = true /\
    series_key p = series_key c /\ (instant p.(cc_open_time) <= instant c.(cc_open_time))%Z /\
    feature_of p c = Ok (Some f).
Proof.
  destruct (materialize_total candles) as [rows' E]. rewrite E. eexists; split; [done|]. intros f Hf.
  unfold materialize_features in E. inv_ok E. subst rows'. rename a into rows, Hok into Hrows.
  apply py_sorted_elem, list_elem_of_join in Hf as (fs & Hf & Hfs).
  destruct (map_result_elem _ _ _ _ Hrows Hfs) as (g & Hg & Hgf).
  unfold group_features in Hgf. inv_ok Hgf. subst fs.
  apply somes_elem in Hf. destruct (map_result_elem _ _ _ _ Hok Hf) as ([p c] & Hpc & Hfo).
  apply (consecutive_elem _ _ _ _ (candle_sorted g)) in Hpc as (Hp & Hc & Hle).
  apply py_sorted_elem in Hp, Hc.
  apply (dict_values_elem _ _ (group_candles_wf candles)) in Hg as [k Hk].
  destruct (group_candles_members _ _ _ _ Hk Hp) as (? & ? & ?).
  destruct (group_candles_members _ _ _ _ Hk Hc) as (? & ? & ?).
  exists p, c. unfold not_after, candle_before in Hle. rewrite Z.ltb_ge in Hle.
  repeat split; try done. congruence.
Qed.
