(* ===== verification/Adapters.v ===== *)
(** * Raw records and provider adapters (src/nanodelta/contracts.py, markets/adapters.py)

    The Bronze record of a provider payload, content-addressed by its
    canonical JSON, and the five adapters that turn a raw candle into the
    canonical one, with every way a payload can be refused. *)

From Stdlib Require Import ZArith Floats Ascii String ZifyBool.
From stdpp Require Import prelude strings pretty numbers list sorting.
From S2P Require Import Prelude PyData PyFloat FloatTheory FloatRound PyText PyDigits PyParse PyJson Sha256 PyTime PyDate Contracts.

Local Open Scope Z_scope.

(** ** Values of a decoded payload *)

(** A JSON object as the dict [json.loads] builds. *)
Abbreviation payload := (list (string * json)).
Fixpoint jget (k : string) (p : payload) : option json :=
  match p with
  | [] => None
  | (k', v) :: p' => if String.eqb k k' then Some v else jget k p'
  end.
(** [p.get(k, default)] and [p[k]] *)
Definition jget_default (p : payload) (k : string) (d : json) : json := default d (jget k p).
Definition jitem (p : payload) (k : string) : result json :=
  match jget k p with Some v => Ok v | None => Err (KeyError k) end.

(** [repr(v)] and [str(v)] *)
Fixpoint repr_json (v : json) : string :=
  match v with
  | JNull => "None"
  | JBool b => if b then "True" else "False"
  | JInt n => str_Z n
  | JFloat x => repr_float x
  | JStr s => repr_str s
  | JArr l => "[" +:+ (str_join ", " (List.map repr_json l) +:+ "]")
  | JObj l => "{" +:+ (str_join ", " (List.map (fun kv => repr_str kv.1 +:+ (": " +:+ repr_json kv.2)) l) +:+ "}")
  end.
Definition str_json (v : json) : string := match v with JStr s => s | v => repr_json v end.

(** [bool(v)] *)
Definition truthy (v : json) : bool :=
  match v with
  | JNull => false
  | JBool b => b
  | JInt n => negb (n =? 0)
  | JFloat x => negb (x =? 0)%float
  | JStr s => negb (str_empty s)
  | JArr l => match l with [] => false | _ => true end
  | JObj l => match l with [] => false | _ => true end
  end.

(** [float(v)] *)
Definition float_json (v : json) : result float :=
  match v with
  | JNull => Err (TypeError "float() argument must be a string or a real number, not 'NoneType'")
  | JBool b => Ok (if b then 1 else 0)%float
  | JInt n => float_of_int n
  | JFloat x => Ok x
  | JStr s => py_float_str s
  | JArr _ => Err (TypeError "float() argument must be a string or a real number, not 'list'")
  | JObj _ => Err (TypeError "float() argument must be a string or a real number, not 'dict'")
  end.

(** [int(v)] *)
Definition int_json (v : json) : result Z :=
  match v with
  | JNull => Err (TypeError "int() argument must be a string, a bytes-like object or a real number, not 'NoneType'")
  | JBool b => Ok (if b then 1 else 0)
  | JInt n => Ok n
  | JFloat x => int_of_float x
  | JStr s => py_int_str s
  | JArr _ => Err (TypeError "int() argument must be a string, a bytes-like object or a real number, not 'list'")
  | JObj _ => Err (TypeError "int() argument must be a string, a bytes-like object or a real number, not 'dict'")
  end.

(** [s.isdigit()] *)
Definition str_isdigit (s : string) : bool := negb (str_empty s) && all_chars is_digit s.
(** [s.replace(c, by)] for a one-character [c] *)
Fixpoint str_replace (c : ascii) (by_ : string) (s : string) : string :=
  match s with
  | EmptyString => ""
  | String x r => (if Ascii.eqb x c then by_ else String x "") +:+ str_replace c by_ r
  end.

(** ** RawRecord *)

Definition EventType_value (e : EventType) : string :=
  match e with
  | CANDLE => "candle" | QUOTE => "quote" | TRADE => "trade" | ORDER_BOOK => "order_book" | INSTRUMENT => "instrument"
  end.

Record RawRecord := {
  rr_record_id : string;
  rr_market : Market;
  rr_provider : Provider;
  rr_event_type : EventType;
  rr_provider_symbol : string;
  rr_received_at : datetime;
  rr_payload : payload;
  rr_schema_version : Z }.

Definition RawRecord_create (market : Market) (provider : Provider) (event_type : EventType) (provider_symbol : string)
    (received_at : datetime) (p : payload) : result RawRecord :=
  received ← utc received_at "received_at";
  let encoded := dumps (JObj p) in
  let record_id := stable_id [Market_value market; Provider_value provider; EventType_value event_type; provider_symbol; encoded] in
  decoded ← match loads encoded with
            | Some (JObj l) => Ok l
            | _ => Err (OtherException "JSONDecodeError" "")
            end;
  mret {| rr_record_id := record_id; rr_market := market; rr_provider := provider; rr_event_type := event_type;
          rr_provider_symbol := provider_symbol; rr_received_at := received; rr_payload := decoded; rr_schema_version := 1 |}.

Definition RawRecord_to_dict (r : RawRecord) : payload :=
  [("record_id", JStr r.(rr_record_id)); ("market", JStr (Market_value r.(rr_market)));
   ("provider", JStr (Provider_value r.(rr_provider))); ("event_type", JStr (EventType_value r.(rr_event_type)));
   ("provider_symbol", JStr r.(rr_provider_symbol)); ("received_at", JStr (isoformat r.(rr_received_at)));
   ("payload", JObj r.(rr_payload)); ("schema_version", JInt r.(rr_schema_version))].

Definition CanonicalCandle_to_dict (c : CanonicalCandle) : payload :=
  [("record_id", JStr c.(cc_record_id)); ("raw_record_id", JStr c.(cc_raw_record_id));
   ("market", JStr (Market_value c.(cc_market))); ("provider", JStr (Provider_value c.(cc_provider)));
   ("symbol", JStr c.(cc_symbol)); ("timeframe", JStr c.(cc_timeframe)); ("open_time", JStr (isoformat c.(cc_open_time)));
   ("open", JFloat c.(cc_open)); ("high", JFloat c.(cc_high)); ("low", JFloat c.(cc_low)); ("close", JFloat c.(cc_close));
   ("volume", JFloat c.(cc_volume)); ("is_settled", JBool c.(cc_is_settled)); ("schema_version", JInt c.(cc_schema_version))].

Definition FeatureRecord_to_dict (f : FeatureRecord) : payload :=
  [("record_id", JStr f.(fr_record_id)); ("candle_record_id", JStr f.(fr_candle_record_id));
   ("market", JStr (Market_value f.(fr_market))); ("symbol", JStr f.(fr_symbol)); ("timeframe", JStr f.(fr_timeframe));
   ("event_time", JStr (isoformat f.(fr_event_time))); ("close", JFloat f.(fr_close)); ("return_1", JFloat f.(fr_return_1));
   ("range_pct", JFloat f.(fr_range_pct)); ("body_pct", JFloat f.(fr_body_pct));
   ("volume_change", match f.(fr_volume_change) with Some x => JFloat x | None => JNull end);
   ("feature_version", JInt f.(fr_feature_version))].

(** ** Adapters *)

(** [value is None or value == ""] *)
Definition absent (v : json) : bool :=
  match v with JNull => true | JStr s => str_empty s | _ => false end.

(** [_float] *)
Definition float_field (p : payload) (key : string) : result float :=
  let value := jget_default p key JNull in
  _ ← raise_if (absent value) (ValueError ("missing required field: " +:+ key));
  float_json value.

(** [_timestamp] on a decoded value (which is never a [datetime]). *)
Definition timestamp (value : json) : result datetime :=
  let number :=
    match value with
    | JBool _ | JInt _ | JFloat _ => true
    | JStr s => str_isdigit s
    | _ => false
    end in
  if number : bool then
    x ← float_json value;
    x ← (if fgt x 10000000000 then fdiv x 1000 else mret x);
    fromtimestamp x
  else
    let text := str_replace "Z" "+00:00" (str_json value) in
    parsed ← fromisoformat text;
    if aware parsed then mret (at_utc (instant parsed))
    else Err (ValueError "provider timestamp must include a timezone").

(** [_candle]: the canonical candle, checked by its constructor. *)
Definition candle (raw : RawRecord) (symbol timeframe : string) (open_time : datetime)
    (open_price high low close volume : float) (settled : bool) : result CanonicalCandle :=
  let identity := stable_id [Market_value raw.(rr_market); symbol; timeframe; isoformat open_time] in
  let c := {| cc_record_id := identity; cc_raw_record_id := raw.(rr_record_id); cc_market := raw.(rr_market);
              cc_provider := raw.(rr_provider); cc_symbol := symbol; cc_timeframe := timeframe; cc_open_time := open_time;
              cc_open := open_price; cc_high := high; cc_low := low; cc_close := close; cc_volume := volume;
              cc_is_settled := settled; cc_schema_version := 1 |} in
  _ ← CanonicalCandle_post_init c;
  mret c.

Definition dash_to_underscore (s : string) : string := str_replace "-" "_" s.

Definition dhan (raw : RawRecord) : result CanonicalCandle :=
  let p := raw.(rr_payload) in
  let timeframe := str_json (jget_default p "timeframe" (JStr "1m")) in
  value ← jitem p "timestamp";
  open_time ← timestamp value;
  open_price ← float_field p "open";
  high ← float_field p "high";
  low ← float_field p "low";
  close ← float_field p "close";
  volume ← float_field p "volume";
  candle raw (str_upper raw.(rr_provider_symbol)) timeframe open_time open_price high low close volume
    (truthy (jget_default p "settled" (JBool true))).

Definition truedata (raw : RawRecord) : result CanonicalCandle :=
  let p := raw.(rr_payload) in
  let timeframe := str_json (jget_default p "interval" (JStr "1m")) in
  value ← jitem p "time";
  open_time ← timestamp value;
  open_price ← float_field p "o";
  high ← float_field p "h";
  low ← float_field p "l";
  close ← float_field p "c";
  volume ← float_field p "v";
  candle raw (str_upper raw.(rr_provider_symbol)) timeframe open_time open_price high low close volume
    (truthy (jget_default p "complete" (JBool true))).

Definition oanda (raw : RawRecord) : result CanonicalCandle :=
  let p := raw.(rr_payload) in
  match jget_default p "mid" JNull with
  | JObj mid =>
      let timeframe := str_json (jget_default p "timeframe" (JStr "1m")) in
      value ← jitem p "time";
      open_time ← timestamp value;
      open_price ← float_field mid "o";
      high ← float_field mid "h";
      low ← float_field mid "l";
      close ← float_field mid "c";
      volume ← float_field p "volume";
      candle raw (dash_to_underscore (str_upper raw.(rr_provider_symbol))) timeframe open_time open_price high low close volume
        (truthy (jget_default p "complete" (JBool false)))
  | _ => Err (ValueError "missing required field: mid")
  end.

Definition okx (raw : RawRecord) : result CanonicalCandle :=
  let p := raw.(rr_payload) in
  let timeframe := str_json (jget_default p "bar" (JStr "1m")) in
  value ← jitem p "ts";
  open_time ← timestamp value;
  open_price ← float_field p "o";
  high ← float_field p "h";
  low ← float_field p "l";
  close ← float_field p "c";
  volume ← float_field p "vol";
  candle raw (dash_to_underscore (str_upper raw.(rr_provider_symbol))) timeframe open_time open_price high low close volume
    (str_json (jget_default p "confirm" (JStr "0")) ==p "1").

Definition poloniex (raw : RawRecord) : result CanonicalCandle :=
  let p := raw.(rr_payload) in
  let timeframe := str_lower (str_json (jget_default p "interval" (JStr "MINUTE_1"))) in
  value ← jitem p "startTime";
  open_time ← timestamp value;
  open_price ← float_field p "open";
  high ← float_field p "high";
  low ← float_field p "low";
  close ← float_field p "close";
  volume ← float_field p "quantity";
  candle raw (dash_to_underscore (str_upper raw.(rr_provider_symbol))) timeframe open_time open_price high low close volume
    (truthy (jget_default p "settled" (JBool true))).

(** [_ADAPTERS] and [adapter_for] *)
Definition ADAPTERS (p : Provider) : Market * (RawRecord -> result CanonicalCandle) :=
  match p with
  | DHAN => (NSE, dhan)
  | TRUEDATA => (NSE, truedata)
  | OANDA => (FOREX, oanda)
  | OKX => (CRYPTO, okx)
  | POLONIEX => (CRYPTO, poloniex)
  end.
Definition adapter_for (market : Market) (provider : Provider) : result (RawRecord -> result CanonicalCandle) :=
  let '(expected_market, adapter) := ADAPTERS provider in
  if bool_decide (market = expected_market) then Ok adapter
  else Err (ValueError (Provider_value provider +:+ (" cannot ingest " +:+ (Market_value market +:+ " data")))).

(** ** What an adapter can raise *)

(** The exceptions the ingestion path handles, and the ones it does not: a
    number too large for a float or for the platform's clock. *)
Definition handled (e : exn) : Prop :=
  match e with KeyError _ | TypeError _ | ValueError _ => True | _ => False end.
Definition unhandled (e : exn) : Prop :=
  match e with OverflowError _ => True | OtherException cls _ => cls = "OSError" | _ => False end.
Definition adapter_exn (e : exn) : Prop := handled e \/ unhandled e.

Lemma handled_exn e : handled e -> adapter_exn e.
Proof. by left. Qed.
Lemma unhandled_exn e : unhandled e -> adapter_exn e.
Proof. by right. Qed.
#[export] Hint Resolve handled_exn unhandled_exn : raises.
#[export] Hint Extern 1 (handled _) => exact I : raises.
#[export] Hint Extern 1 (unhandled _) => reflexivity || exact I : raises.

Lemma float_json_raises v : raises_only adapter_exn (float_json v).
Proof.
  destruct v as [|b|n|x|s|l|l]; cbn [float_json]; try (by left; exact I); try exact I.
  - unfold float_of_int. destruct (_ <? _); [done|]. by right.
  - unfold py_float_str. destruct (scan_float _); [done|]. by left.
Qed.
#[export] Hint Resolve float_json_raises : raises.

Lemma float_field_raises p key : raises_only adapter_exn (float_field p key).
Proof. unfold float_field. raising; auto with raises. Qed.
Lemma jitem_raises p key : raises_only adapter_exn (jitem p key).
Proof. unfold jitem. destruct (jget key p); [done|by left]. Qed.
#[export] Hint Resolve float_field_raises jitem_raises : raises.

Lemma fromtimestamp_raises x : raises_only adapter_exn (fromtimestamp x).
Proof.
  unfold fromtimestamp, utc_datetime. destruct (fnan x); [by left|]. destruct (_ || _); [by right|].
  destruct (civil _) as [[y m] d]. destruct (_ || _); [by right|]. destruct (in_range _); [done|by left].
Qed.
Lemma fromisoformat_raises s : raises_only adapter_exn (fromisoformat s).
Proof.
  unfold fromisoformat. destruct (Nat.ltb _ _); [by left|]. destruct (_ ← date_length s; _) as [[[[[y m] d] [[[h mi] sec] us]] tz]|]; [|by left].
  apply raises_bind.
  - unfold timezone_of. destruct tz as [[secs zus]|]; [|done]. destruct (secs =? 0); [done|].
    destruct (Z.abs _ <? day); [done|by left].
  - intros o. unfold datetime_new. raising; by left.
Qed.
Lemma fdiv_1000_raises x : raises_only adapter_exn (fdiv x 1000).
Proof. done. Qed.
#[export] Hint Resolve fromtimestamp_raises fromisoformat_raises fdiv_1000_raises : raises.

Lemma timestamp_raises v : raises_only adapter_exn (timestamp v).
Proof. unfold timestamp. raising; auto with raises; by left. Qed.
Lemma candle_raises raw symbol timeframe t o h l c v settled :
  raises_only adapter_exn (candle raw symbol timeframe t o h l c v settled).
Proof. unfold candle, CanonicalCandle_post_init, utc. raising; auto with raises; by left. Qed.
#[export] Hint Resolve timestamp_raises candle_raises : raises.

Lemma adapter_raises provider raw : raises_only adapter_exn ((ADAPTERS provider).2 raw).
Proof.
  destruct provider; cbn [ADAPTERS snd]; unfold dhan, truedata, oanda, okx, poloniex; raising; by left.
Qed.

(** ** What an adapter returns *)

(** A canonical candle made from a raw record: checked by its constructor,
    in UTC, identified by its market, symbol, timeframe and open time. *)
Record canonical_of (raw : RawRecord) (c : CanonicalCandle) : Prop := {
  co_valid : CanonicalCandle_post_init c = Ok tt;
  co_market : c.(cc_market) = raw.(rr_market);
  co_provider : c.(cc_provider) = raw.(rr_provider);
  co_raw : c.(cc_raw_record_id) = raw.(rr_record_id);
  co_utc : c.(cc_open_time) = at_utc (instant c.(cc_open_time));
  co_identity : c.(cc_record_id) =
    stable_id [Market_value raw.(rr_market); c.(cc_symbol); c.(cc_timeframe); isoformat c.(cc_open_time)] }.

Lemma fromtimestamp_utc x t : fromtimestamp x = Ok t -> exists us, t = at_utc us.
Proof.
  unfold fromtimestamp, utc_datetime. destruct (fnan x); [done|]. destruct (_ || _); [done|]. destruct (civil _) as [[y m] d].
  destruct (_ || _); [done|]. destruct (in_range _); [|done]. intros [= <-]. eauto.
Qed.
Lemma timestamp_utc v t : timestamp v = Ok t -> exists us, t = at_utc us.
Proof.
  unfold timestamp. destruct (match v with JBool _ => _ | _ => _ end); intros H; inv_ok H.
  - eauto using fromtimestamp_utc.
  - destruct (aware a); [|done]. inv_ok Hok0. eauto.
Qed.

Lemma candle_canonical raw symbol timeframe us o h l c v settled x :
  candle raw symbol timeframe (at_utc us) o h l c v settled = Ok x -> canonical_of raw x.
Proof.
  unfold candle. intros H. inv_ok H. subst x. destruct a.
  split; [done|done|done|done| |done]. cbn [cc_open_time]. by rewrite instant_at_utc.
Qed.

Lemma adapter_canonical provider raw c : (ADAPTERS provider).2 raw = Ok c -> canonical_of raw c.
Proof.
  destruct provider; cbn [ADAPTERS snd]; unfold dhan, truedata, oanda, okx, poloniex; intros H;
    [| |destruct (jget_default _ "mid" JNull); try done| |]; inv_ok H;
    match goal with Ht : timestamp _ = Ok _ |- _ => apply timestamp_utc in Ht as [us ->] end; by eapply candle_canonical.
Qed.

(** ** The record of a payload *)

Definition raw_of (market : Market) (provider : Provider) (event_type : EventType) (symbol : string) (us : Z) (p : payload)
    : RawRecord :=
  {| rr_record_id := stable_id [Market_value market; Provider_value provider; EventType_value event_type; symbol; dumps (JObj p)];
     rr_market := market; rr_provider := provider; rr_event_type := event_type; rr_provider_symbol := symbol;
     rr_received_at := at_utc us; rr_payload := py_sorted key_lt (List.map (fun kv => (kv.1, normal kv.2)) p);
     rr_schema_version := 1 |}.

Lemma create_raw market provider event_type symbol t p : aware t = true -> json_ok (JObj p) = true ->
  RawRecord_create market provider event_type symbol t p = Ok (raw_of market provider event_type symbol (instant t) p).
Proof.
  intros Ht Hp. unfold RawRecord_create. rewrite (proj2 (utc_ok t "received_at" _) (conj Ht eq_refl)). cbn [mbind result_bind].
  by rewrite json_decodes.
Qed.

(** A raw record keeps its payload: creating one from an aware time of
    receipt and a payload with ASCII strings and distinct keys succeeds, the
    stored payload is the payload with its objects in key order, and the
    record made from the stored payload is the same record (the identity is
    a function of the content). *)
Theorem raw_record_roundtrip market provider event_type symbol t (p : payload) :
  aware t = true -> json_ok (JObj p) = true ->
  exists raw, RawRecord_create market provider event_type symbol t p = Ok raw /\
    JObj raw.(rr_payload) = normal (JObj p) /\
    RawRecord_create market provider event_type symbol raw.(rr_received_at) raw.(rr_payload) = Ok raw.
Proof.
  intros Ht Hp. exists (raw_of market provider event_type symbol (instant t) p). split; [by apply create_raw|]. split; [done|].
  pose proof (normal_ok _ Hp) as Hn. change (normal (JObj p)) with (JObj (rr_payload (raw_of market provider event_type symbol (instant t) p))) in Hn.
  rewrite create_raw by done. unfold raw_of at 1. cbn [rr_received_at rr_payload raw_of]. rewrite instant_at_utc.
  pose proof (dumps_normal (JObj p)) as Hd. pose proof (normal_normal (JObj p)) as Hnn. cbn [normal] in Hd, Hnn.
  injection Hnn as Hnn. unfold raw_of. by rewrite Hd, Hnn.
Qed.

(** The order of the payload's members plays no part. *)
Lemma payload_keys p : json_ok (JObj p) = true -> NoDup (List.map fst p).
Proof. cbn [json_ok]. intros [_ Hnd]%andb_prop. by apply bool_decide_eq_true in Hnd. Qed.
Lemma raw_of_perm market provider event_type symbol us p p' : json_ok (JObj p) = true -> p ≡ₚ p' ->
  raw_of market provider event_type symbol us p' = raw_of market provider event_type symbol us p.
Proof.
  intros Hok Hp. apply payload_keys in Hok. unfold raw_of. rewrite <-(dumps_perm p p') by done. f_equal.
  rewrite !py_sorted_map. by rewrite (py_sorted_perm_eq p p').
Qed.
Lemma json_ok_perm p p' : json_ok (JObj p) = true -> p ≡ₚ p' -> json_ok (JObj p') = true.
Proof.
  cbn [json_ok]. rewrite !andb_true_iff, !forallb_Forall, !bool_decide_eq_true. intros [H1 H2] Hp. by rewrite <-Hp.
Qed.

(** Looking a field up in the stored payload is looking it up in the payload. *)
Lemma jget_elem p k v : NoDup (List.map fst p) -> jget k p = Some v <-> (k, v) ∈ p.
Proof.
  induction p as [|[k' v'] p IH]; cbn [List.map jget]; [by split; [|intros ?%elem_of_nil]|]. intros [Hk Hnd]%NoDup_cons.
  specialize (IH Hnd). rewrite elem_of_cons. destruct (String.eqb_spec k k') as [->|Hne].
  - split; [intros [= ->]; by left|]. intros [[= ->]|Hin]; [done|]. exfalso. apply Hk.
    apply list_elem_of_In, in_map_iff. exists (k', v). by rewrite <-list_elem_of_In.
  - rewrite IH. split; [by right|]. by intros [[= -> ->]|].
Qed.
Lemma jget_perm p p' k : p ≡ₚ p' -> NoDup (List.map fst p) -> jget k p' = jget k p.
Proof.
  intros Hp Hnd. assert (Hnd' : NoDup (List.map fst p')) by (by rewrite <-Hp).
  apply option_eq. intros v. rewrite !jget_elem by done. by rewrite Hp.
Qed.
Lemma jget_map (f : json -> json) p k : jget k (List.map (fun kv => (kv.1, f kv.2)) p) = option_map f (jget k p).
Proof. induction p as [|[k' v'] p IH]; [done|]. cbn. by destruct (String.eqb k k'). Qed.

Lemma jget_stored market provider event_type symbol us p k : json_ok (JObj p) = true ->
  jget k (rr_payload (raw_of market provider event_type symbol us p)) = option_map normal (jget k p).
Proof.
  intros Hok%payload_keys. cbn [rr_payload raw_of]. rewrite <-jget_map. apply jget_perm.
  - symmetry. apply py_sorted_perm.
  - by rewrite List.map_map.
Qed.
