(* ===== verification/Etl.v ===== *)
(** * Ingestion (src/nanodelta/storage.py, pipeline.py)

    The record store as an interface with its write-once law, the file lake
    that implements it, and the pipeline that writes Bronze, Silver and Gold,
    proved against the interface. *)

From Stdlib Require Import ZArith Floats Ascii String ZifyBool.
From stdpp Require Import prelude strings pretty numbers list sorting.
From S2P Require Import Prelude PyData PyFloat FloatTheory FloatRound PyText PyDigits PyParse PyJson Sha256 PyTime PyDate Contracts Adapters.

Local Open Scope Z_scope.

(** ** The store *)

(** [RecordStore.write] *)
Class RecordStore (S : Type) :=
  store_write : Market -> string -> datetime -> string -> payload -> M S bool.

Definition LAYERS : list string := ["bronze"; "silver"; "gold"].

(** Where a record lives: market, layer, date of the event, identity. *)
Definition key : Type := Market * string * string * string.
Definition key_of (market : Market) (layer : string) (event_time : datetime) (record_id : string) : key :=
  (market, layer, date_iso (date_of event_time), record_id).

(** The text of a stored record. *)
Definition newline : string := String (ascii_of_nat 10) "".
Definition record_text (record : payload) : string := dumps (JObj record) +:+ newline.

(** What a store promises: a map from keys to texts in which a key is
    written once. *)
Class WriteOnce (S : Type) `{RecordStore S} := {
  stored : S -> key -> option string;
  write_known market layer event_time record_id record s text :
    layer ∈ LAYERS -> stored s (key_of market layer event_time record_id) = Some text ->
    store_write market layer event_time record_id record s = (Ok false, s);
  write_new market layer event_time record_id record s :
    layer ∈ LAYERS -> stored s (key_of market layer event_time record_id) = None ->
    exists s', store_write market layer event_time record_id record s = (Ok true, s') /\
      forall k, stored s' k = if decide (k = key_of market layer event_time record_id) then Some (record_text record)
                              else stored s k;
  write_unsupported market layer event_time record_id record s :
    layer ∉ LAYERS ->
    store_write market layer event_time record_id record s = (Err (ValueError ("unsupported layer: " +:+ layer)), s) }.

(** ** FileLake *)

(** The directory tree under [root]: files by path.  A directory is created
    with its first file. *)
Record FileLake (root : string) := Lake { files : dict string string }.
Arguments Lake {root} files.
Arguments files {root} f.

Definition target (root : string) (k : key) : string :=
  let '(market, layer, date, record_id) := k in
  root +:+ ("/" +:+ (Market_value market +:+ ("/" +:+ (layer +:+ ("/" +:+ ("event_date=" +:+ (date +:+ ("/" +:+ (record_id +:+ ".json"))))))))).

(** [FileLake.write]: creation is exclusive, so an existing file is left as
    it is. *)
Definition FileLake_write {root} (market : Market) (layer : string) (event_time : datetime) (record_id : string)
    (record : payload) : M (FileLake root) bool :=
  _ ← lift (raise_if (negb (bool_decide (layer ∈ LAYERS))) (ValueError ("unsupported layer: " +:+ layer)));
  let path := target root (key_of market layer event_time record_id) in
  let encoded := record_text record in
  lake ← get_state;
  match lake.(files) !! path with
  | Some _ => mret false
  | None => _ ← modify (fun lake => Lake (<[path := encoded]> lake.(files))); mret true
  end.

#[export] Instance FileLake_store root : RecordStore (FileLake root) := FileLake_write.

(** ** EtlPipeline *)

Record IngestionResult := {
  ir_raw : RawRecord;
  ir_canonical : option CanonicalCandle;
  ir_bronze_created : bool;
  ir_silver_created : bool;
  ir_rejection_reason : option string }.

(** [except (KeyError, TypeError, ValueError)] and [str(exc)] *)
Definition caught (e : exn) : bool :=
  match e with KeyError _ | TypeError _ | ValueError _ => true | _ => false end.
Definition str_exn (e : exn) : string :=
  match e with
  | KeyError k => repr_str k
  | ZeroDivisionError => "division by zero"
  | ValueError m | PermissionError m | LookupError m | TypeError m | RuntimeError m | OverflowError m | AssertionError m
  | OtherException _ m => m
  end.

(** [type(exc).__name__] *)
Definition class_name (e : exn) : string :=
  match e with
  | ValueError _ => "ValueError" | PermissionError _ => "PermissionError" | LookupError _ => "LookupError" | KeyError _ => "KeyError"
  | TypeError _ => "TypeError" | RuntimeError _ => "RuntimeError" | ZeroDivisionError => "ZeroDivisionError"
  | OverflowError _ => "OverflowError" | AssertionError _ => "AssertionError" | OtherException cls _ => cls
  end.
(** [f"{type(exc).__name__}: {exc}"] *)
Definition error_text (e : exn) : string := class_name e +:+ (": " +:+ str_exn e).

Section Pipeline.
Context {S : Type} `{RecordStore S}.

Definition ingest (market : Market) (provider : Provider) (event_type : EventType) (provider_symbol : string)
    (p : payload) (received_at : datetime) : M S IngestionResult :=
  raw ← lift (RawRecord_create market provider event_type provider_symbol received_at p);
  bronze_created ← store_write market "bronze" raw.(rr_received_at) raw.(rr_record_id) (RawRecord_to_dict raw);
  if negb (bool_decide (event_type = CANDLE)) then mret (Build_IngestionResult raw None bronze_created false None)
  else
    match (adapter ← adapter_for market provider; adapter raw) with
    | Err e =>
        if caught e then mret (Build_IngestionResult raw None bronze_created false (Some (str_exn e)))
        else raise e
    | Ok canonical =>
        if negb canonical.(cc_is_settled) then
          mret (Build_IngestionResult raw (Some canonical) bronze_created false (Some "candle is not settled"))
        else
          silver_created ← store_write market "silver" canonical.(cc_open_time) canonical.(cc_record_id)
                             (CanonicalCandle_to_dict canonical);
          mret (Build_IngestionResult raw (Some canonical) bronze_created silver_created None)
    end.

Definition build_gold (candles : list CanonicalCandle) : M S (list FeatureRecord) :=
  features ← lift (materialize_features candles);
  _ ← for_each features (fun feature =>
        _ ← store_write feature.(fr_market) "gold" feature.(fr_event_time) feature.(fr_record_id) (FeatureRecord_to_dict feature);
        mret tt);
  mret features.
End Pipeline.

(** ** The lake keeps the store's promise *)

Lemma split_at_inj c (a a' b b' : string) : all_chars (fun x => negb (Ascii.eqb x c)) a = true ->
  all_chars (fun x => negb (Ascii.eqb x c)) a' = true -> a +:+ String c b = a' +:+ String c b' -> a = a' /\ b = b'.
Proof.
  revert a'. induction a as [|x a IH]; intros [|x' a']; cbn [all_chars].
  - intros _ _ E. change (String c b = String c b') in E. by injection E as ->.
  - intros _ Hx E. change (String c b = String x' (a' +:+ String c b')) in E. injection E as -> _.
    by rewrite Ascii.eqb_refl in Hx.
  - intros Hx _ E. change (String x (a +:+ String c b) = String c b') in E. injection E as -> _.
    by rewrite Ascii.eqb_refl in Hx.
  - intros [_ Ha]%andb_prop [_ Ha']%andb_prop E.
    change (String x (a +:+ String c b) = String x' (a' +:+ String c b')) in E. injection E as -> E.
    by destruct (IH a' Ha Ha' E) as [-> ->].
Qed.

Lemma app_inv_head (a b b' : string) : a +:+ b = a +:+ b' -> b = b'.
Proof. induction a as [|c a IH]; [done|]. intros E. apply IH. change (String c (a +:+ b) = String c (a +:+ b')) in E. by injection E. Qed.
Lemma app_inv_tail (a a' b : string) : a +:+ b = a' +:+ b -> a = a'.
Proof.
  assert (Hl : forall a b : string, b = a +:+ b -> a = "").
  { intros x y E. apply (f_equal String.length) in E. rewrite length_str_app in E. destruct x; [done|cbn in E; lia]. }
  revert a'. induction a as [|c a IH]; intros [|c' a'] E; [done|by apply Hl in E|symmetry in E; by apply Hl in E|].
  change (String c (a +:+ b) = String c' (a' +:+ b)) in E. injection E as -> E. f_equal. by apply IH.
Qed.

Definition no_slash : string -> bool := all_chars (fun x => negb (Ascii.eqb x "/")).

Lemma str_Z_no_slash n : no_slash (str_Z n) = true.
Proof.
  assert (Hd : forall s, all_chars is_digit s = true -> no_slash s = true).
  { intros s. apply all_chars_impl. intros c Hc. destruct (Ascii.eqb_spec c "/") as [->|]; [done|done]. }
  destruct (Z.le_gt_cases 0 n) as [Hn|Hn]; [apply Hd; by apply str_Z_nonneg|].
  rewrite str_Z_neg by done. unfold no_slash. rewrite all_chars_app. apply andb_true_intro. split; [done|].
  apply Hd, str_Z_nonneg. lia.
Qed.
Lemma pad_no_slash k n : no_slash (pad_Z k n) = true.
Proof.
  unfold pad_Z, no_slash. rewrite all_chars_app. apply andb_true_intro. split; [|apply str_Z_no_slash].
  apply (all_chars_impl is_digit); [|apply zeros_digits]. intros c Hc. by destruct (Ascii.eqb_spec c "/") as [->|].
Qed.
Lemma date_no_slash n : no_slash (date_iso n) = true.
Proof.
  unfold date_iso. destruct (civil n) as [[y m] d]. unfold no_slash. rewrite !all_chars_app.
  pose proof (pad_no_slash 4 y) as H1. pose proof (pad_no_slash 2 m) as H2. pose proof (pad_no_slash 2 d) as H3.
  unfold no_slash in *. by rewrite H1, H2, H3.
Qed.

(** Keys with texts the pipeline can produce. *)
Definition proper (k : key) : bool := let '(_, layer, date, _) := k in no_slash layer && no_slash date.

Lemma target_inj root k k' : proper k = true -> proper k' = true -> target root k = target root k' -> k = k'.
Proof.
  destruct k as [[[m l] d] i], k' as [[[m' l'] d'] i']. intros [Hl Hd]%andb_prop [Hl' Hd']%andb_prop E. unfold target in E.
  apply app_inv_head, app_inv_head in E.
  assert (Hm : forall m, no_slash (Market_value m) = true) by by intros [].
  apply (split_at_inj "/") in E as [Em E]; [|by apply Hm..].
  assert (m = m') as -> by (by destruct m, m').
  apply (split_at_inj "/") in E as [-> E]; [|done..].
  apply app_inv_head in E. apply (split_at_inj "/") in E as [-> E]; [|done..].
  apply app_inv_tail in E as ->. done.
Qed.

Lemma layer_no_slash layer : layer ∈ LAYERS -> no_slash layer = true.
Proof. unfold LAYERS. rewrite !elem_of_cons. by intros [->|[->|[->|[]%elem_of_nil]]]. Qed.
Lemma key_of_proper market layer t id : layer ∈ LAYERS -> proper (key_of market layer t id) = true.
Proof. intros Hl. apply andb_true_intro. split; [by apply layer_no_slash|apply date_no_slash]. Qed.

Definition lake_stored {root} (lake : FileLake root) (k : key) : option string :=
  if proper k then lake.(files) !! target root k else None.

Lemma FileLake_write_eq {root} market layer t id record (lake : FileLake root) : layer ∈ LAYERS ->
  FileLake_write market layer t id record lake =
    match lake.(files) !! target root (key_of market layer t id) with
    | Some _ => (Ok false, lake)
    | None => (Ok true, Lake (<[target root (key_of market layer t id) := record_text record]> lake.(files)))
    end.
Proof.
  intros Hl. unfold FileLake_write. rewrite bool_decide_true by done. unfold mbind, M_bind, lift, get_state, raise_if, negb.
  by destruct (files lake !! _).
Qed.

#[export, program] Instance FileLake_write_once root : WriteOnce (FileLake root) := {| stored := lake_stored |}.
Next Obligation.
  intros root market layer t id record lake text Hl. unfold lake_stored. rewrite key_of_proper by done. intros Hf.
  unfold store_write, FileLake_store. rewrite FileLake_write_eq by done. by rewrite Hf.
Qed.
Next Obligation.
  intros root market layer t id record lake Hl. unfold lake_stored. pose proof (key_of_proper market layer t id Hl) as Hp.
  rewrite Hp. intros Hf. unfold store_write, FileLake_store. rewrite FileLake_write_eq by done. rewrite Hf.
  eexists. split; [done|]. intros k. destruct (proper k) eqn:Hk.
  - cbn [files]. rewrite dict_lookup_insert. destruct (decide (k = _)) as [->|Hne]; [by rewrite decide_True by done|].
    rewrite decide_False; [done|]. intros E. apply Hne. symmetry. by apply (target_inj root).
  - rewrite decide_False; [done|]. intros ->. congruence.
Qed.
Next Obligation.
  intros root market layer t id record lake Hl. unfold store_write, FileLake_store, FileLake_write.
  by rewrite bool_decide_false by done.
Qed.

(** ** Ingestion *)

Lemma layer_bronze : "bronze" ∈ LAYERS. Proof. by left. Qed.
Lemma layer_silver : "silver" ∈ LAYERS. Proof. by right; left. Qed.
Lemma layer_gold : "gold" ∈ LAYERS. Proof. by right; right; left. Qed.

Section Ingestion.
Context {S : Type} `{WriteOnce S}.

(** One write: the record is created exactly when its key was free, and
    afterwards the key holds the text it held, or the new one. *)
Lemma write_effect market layer t id record (s : S) : layer ∈ LAYERS ->
  let k := key_of market layer t id in
  exists s', store_write market layer t id record s = (Ok (bool_decide (stored s k = None)), s') /\
    (forall k', stored s' k' = if decide (k' = k) then Some (default (record_text record) (stored s k)) else stored s k') /\
    (stored s k <> None -> s' = s).
Proof.
  intros Hl k. destruct (stored s k) as [text|] eqn:E.
  - exists s. split; [rewrite bool_decide_false by done; by apply (write_known _ _ _ _ _ _ text)|]. split; [|done].
    intros k'. by case_decide; subst.
  - destruct (write_new market layer t id record s Hl E) as (s' & Hw & Hs). exists s'.
    split; [by rewrite bool_decide_true|]. split; [exact Hs|done].
Qed.

Definition bronze_key (raw : RawRecord) : key := key_of raw.(rr_market) "bronze" raw.(rr_received_at) raw.(rr_record_id).
Definition silver_key (c : CanonicalCandle) : key := key_of c.(cc_market) "silver" c.(cc_open_time) c.(cc_record_id).

(** What the adapter makes of a raw record. *)
Definition adapted (raw : RawRecord) : result CanonicalCandle :=
  adapter ← adapter_for raw.(rr_market) raw.(rr_provider); adapter raw.

Lemma adapted_raises raw : raises_only adapter_exn (adapted raw).
Proof.
  unfold adapted, adapter_for. pose proof (adapter_raises raw.(rr_provider) raw) as Ha.
  destruct (ADAPTERS _) as [m adapter]. case_bool_decide; [exact Ha|by left].
Qed.
Lemma adapted_canonical raw c : adapted raw = Ok c -> canonical_of raw c.
Proof.
  unfold adapted, adapter_for. pose proof (adapter_canonical raw.(rr_provider) raw c) as Ha.
  destruct (ADAPTERS _) as [m adapter]. case_bool_decide; [exact Ha|done].
Qed.
(** The time of receipt plays no part in it. *)
Lemma adapted_received market provider event_type symbol us us' p :
  adapted (raw_of market provider event_type symbol us p) = adapted (raw_of market provider event_type symbol us' p).
Proof. unfold adapted, adapter_for. cbn [rr_market rr_provider raw_of]. by destruct provider, market. Qed.

(** [ingest] after the record was created. *)
Definition ingest_raw (raw : RawRecord) : M S IngestionResult :=
  bronze_created ← store_write raw.(rr_market) "bronze" raw.(rr_received_at) raw.(rr_record_id) (RawRecord_to_dict raw);
  if negb (bool_decide (raw.(rr_event_type) = CANDLE)) then mret (Build_IngestionResult raw None bronze_created false None)
  else
    match adapted raw with
    | Err e =>
        if caught e then mret (Build_IngestionResult raw None bronze_created false (Some (str_exn e)))
        else raise e
    | Ok canonical =>
        if negb canonical.(cc_is_settled) then
          mret (Build_IngestionResult raw (Some canonical) bronze_created false (Some "candle is not settled"))
        else
          silver_created ← store_write raw.(rr_market) "silver" canonical.(cc_open_time) canonical.(cc_record_id)
                             (CanonicalCandle_to_dict canonical);
          mret (Build_IngestionResult raw (Some canonical) bronze_created silver_created None)
    end.

Lemma ingest_unfold market provider event_type symbol p t (s : S) : aware t = true -> json_ok (JObj p) = true ->
  ingest market provider event_type symbol p t s = ingest_raw (raw_of market provider event_type symbol (instant t) p) s.
Proof. intros Ht Hp. unfold ingest. by rewrite create_raw. Qed.

(** The silver record a run writes, if any. *)
Definition silver_of (raw : RawRecord) : option CanonicalCandle :=
  if bool_decide (raw.(rr_event_type) = CANDLE) then
    match adapted raw with
    | Ok c => if c.(cc_is_settled) then Some c else None
    | Err _ => None
    end
  else None.

(** The outcome but for what was created. *)
Definition outcome (raw : RawRecord) (bronze silver : bool) : result IngestionResult :=
  if negb (bool_decide (raw.(rr_event_type) = CANDLE)) then Ok (Build_IngestionResult raw None bronze false None)
  else
    match adapted raw with
    | Err e => if caught e then Ok (Build_IngestionResult raw None bronze false (Some (str_exn e))) else Err e
    | Ok c => if c.(cc_is_settled) then Ok (Build_IngestionResult raw (Some c) bronze silver None)
              else Ok (Build_IngestionResult raw (Some c) bronze false (Some "candle is not settled"))
    end.

(** What the store holds after a run, and the whole effect of one. *)
Definition stored_after (raw : RawRecord) (s : S) (k : key) : option string :=
  if decide (k = bronze_key raw) then Some (default (record_text (RawRecord_to_dict raw)) (stored s k))
  else match silver_of raw with
       | Some c => if decide (k = silver_key c) then Some (default (record_text (CanonicalCandle_to_dict c)) (stored s k))
                   else stored s k
       | None => stored s k
       end.
Record effect (raw : RawRecord) (s : S) (r : result IngestionResult) (s' : S) (bronze silver : bool) : Prop := {
  ef_outcome : r = outcome raw bronze silver;
  ef_bronze : bronze = bool_decide (stored s (bronze_key raw) = None);
  ef_silver c : silver_of raw = Some c -> silver = bool_decide (stored s (silver_key c) = None);
  ef_stored k : stored s' k = stored_after raw s k;
  ef_same : stored s (bronze_key raw) <> None -> (forall c, silver_of raw = Some c -> stored s (silver_key c) <> None) -> s' = s }.

Lemma bronze_effect raw (s : S) : exists s1 : S,
  store_write raw.(rr_market) "bronze" raw.(rr_received_at) raw.(rr_record_id) (RawRecord_to_dict raw) s =
    (Ok (bool_decide (stored s (bronze_key raw) = None)), s1) /\
  (forall k, k <> bronze_key raw -> stored s1 k = stored s k) /\
  (silver_of raw = None -> effect raw s (outcome raw (bool_decide (stored s (bronze_key raw) = None)) false) s1
                             (bool_decide (stored s (bronze_key raw) = None)) false) /\
  stored s1 (bronze_key raw) = Some (default (record_text (RawRecord_to_dict raw)) (stored s (bronze_key raw))) /\
  (stored s (bronze_key raw) <> None -> s1 = s).
Proof.
  destruct (write_effect raw.(rr_market) "bronze" raw.(rr_received_at) raw.(rr_record_id) (RawRecord_to_dict raw) s layer_bronze)
    as (s1 & Hw & Hs1 & Hid1). fold (bronze_key raw) in *. exists s1. split; [exact Hw|].
  split; [intros k Hk; rewrite Hs1; by rewrite decide_False|]. split; [|split; [rewrite Hs1; by rewrite decide_True|done]].
  intros Hn. split; [done|done|by rewrite Hn| |auto].
  intros k. rewrite Hs1. unfold stored_after. rewrite Hn. by destruct (decide (k = bronze_key raw)) as [->|].
Qed.

Lemma ingest_raw_effect raw (s : S) : exists bronze silver r s', ingest_raw raw s = (r, s') /\ effect raw s r s' bronze silver.
Proof.
  destruct (bronze_effect raw s) as (s1 & Hw & Hother & Hend & Hbr & Hid1).
  set (b := bool_decide (stored s (bronze_key raw) = None)) in *. exists b.
  unfold ingest_raw, mbind, M_bind. rewrite Hw.
  assert (Hdone : silver_of raw = None -> exists silver r s', (outcome raw b false, s1) = (r, s') /\ effect raw s r s' b silver)
    by (intros Hn; exists false, (outcome raw b false), s1; auto).
  destruct (silver_of raw) as [c|] eqn:Es; [clear Hdone Hend|].
  - unfold silver_of in Es. assert (Hcase : bool_decide (rr_event_type raw = CANDLE) = true /\ adapted raw = Ok c /\ cc_is_settled c = true).
    { revert Es. destruct (bool_decide (rr_event_type raw = CANDLE)); [|done]. destruct (adapted raw) as [c'|]; [|done].
      destruct (cc_is_settled c') eqn:E; [by intros [= ->]|done]. }
    destruct Hcase as (Ev & Ea & Ec). rewrite Ev, Ea, Ec. cbn [negb].
    pose proof (adapted_canonical _ _ Ea) as Hc. rewrite <-(co_market _ _ Hc).
    destruct (write_effect c.(cc_market) "silver" c.(cc_open_time) c.(cc_record_id) (CanonicalCandle_to_dict c) s1 layer_silver)
      as (s2 & Hw2 & Hs2 & Hid2). fold (silver_key c) in *. rewrite Hw2.
    assert (Hne : silver_key c <> bronze_key raw) by (unfold silver_key, bronze_key, key_of; congruence).
    assert (Hsil : stored s1 (silver_key c) = stored s (silver_key c)) by auto. rewrite Hsil in *.
    exists (bool_decide (stored s (silver_key c) = None)). eexists _, s2. split; [reflexivity|].
    assert (Es' : silver_of raw = Some c) by (unfold silver_of; by rewrite Ev, Ea, Ec).
    split; [unfold outcome; by rewrite Ev, Ea, Ec|done|by rewrite Es'; intros c' [= <-]| |].
    + intros k. rewrite Hs2. unfold stored_after. rewrite Es'.
      destruct (decide (k = silver_key c)) as [->|Hk]; [by rewrite decide_False|].
      destruct (decide (k = bronze_key raw)) as [->|Hk']; [done|auto].
    + intros Hb Hsv. rewrite Hid2; [by apply Hid1|]. by apply Hsv.
  - specialize (Hdone eq_refl). unfold outcome in Hdone. unfold silver_of in Es. revert Hdone Es.
    destruct (bool_decide (rr_event_type raw = CANDLE)); cbn [negb]; [|by intros Hdone _].
    destruct (adapted raw) as [c|e]; [|destruct (caught e); by intros Hdone _].
    destruct (cc_is_settled c); [done|by intros Hdone _].
Qed.
End Ingestion.

(** ** Properties of ingestion *)

(** The same receipt again: equal but for what was created. *)
Definition repeats (r r' : result IngestionResult) : Prop :=
  match r, r' with
  | Ok a, Ok b =>
      b.(ir_raw).(rr_record_id) = a.(ir_raw).(rr_record_id) /\ b.(ir_raw).(rr_payload) = a.(ir_raw).(rr_payload) /\
      b.(ir_canonical) = a.(ir_canonical) /\ b.(ir_rejection_reason) = a.(ir_rejection_reason) /\
      b.(ir_bronze_created) = false /\ b.(ir_silver_created) = false
  | Err e, Err e' => e = e'
  | _, _ => False
  end.

Lemma bronze_key_date market provider event_type symbol us us' p : us / day = us' / day ->
  bronze_key (raw_of market provider event_type symbol us' p) = bronze_key (raw_of market provider event_type symbol us p).
Proof. intros Hd. unfold bronze_key, key_of, date_of. cbn. by rewrite Hd. Qed.

Lemma silver_of_received market provider event_type symbol us us' p :
  silver_of (raw_of market provider event_type symbol us' p) = silver_of (raw_of market provider event_type symbol us p).
Proof. unfold silver_of. cbn [rr_event_type raw_of]. by rewrite (adapted_received _ _ _ _ us' us). Qed.

(** C26. Ingestion is idempotent: receiving a payload again on the same UTC
    day, its members in any order, changes nothing in the store, creates
    nothing, and reports the same record identity, payload, canonical candle
    and rejection (or raises the same exception). *)
Theorem ingest_idempotent {S} `{WriteOnce S} market provider event_type symbol (p p' : payload) t t' (s : S)
    (Hok : json_ok (JObj p) = true) (Hperm : p ≡ₚ p') (Ht : aware t = true) (Ht' : aware t' = true)
    (Hday : instant t / day = instant t' / day) :
  let first := ingest market provider event_type symbol p t s in
  let again := ingest market provider event_type symbol p' t' first.2 in
  again.2 = first.2 /\ repeats first.1 again.1.
Proof.
  cbv zeta. rewrite (ingest_unfold _ _ _ _ p t s) by done.
  set (raw := raw_of market provider event_type symbol (instant t) p).
  destruct (ingest_raw_effect raw s) as (b & sl & r & s1 & -> & He). cbn [fst snd].
  rewrite (ingest_unfold _ _ _ _ p' t' s1) by eauto using json_ok_perm. rewrite (raw_of_perm _ _ _ _ _ p p') by done.
  set (raw' := raw_of market provider event_type symbol (instant t') p).
  destruct (ingest_raw_effect raw' s1) as (b' & sl' & r' & s2 & -> & He'). cbn [fst snd].
  assert (Hkey : bronze_key raw' = bronze_key raw) by (by apply bronze_key_date).
  assert (Hsil : silver_of raw' = silver_of raw) by apply silver_of_received.
  assert (Hb : stored s1 (bronze_key raw') <> None)
    by (rewrite Hkey, (ef_stored _ _ _ _ _ _ He); unfold stored_after; by rewrite decide_True).
  assert (Hs : forall c, silver_of raw' = Some c -> stored s1 (silver_key c) <> None).
  { intros c Hc. rewrite (ef_stored _ _ _ _ _ _ He). unfold stored_after. rewrite <-Hsil, Hc.
    case_decide; [done|]. by rewrite decide_True. }
  split; [by apply (ef_same _ _ _ _ _ _ He')|].
  assert (b' = false) as -> by (rewrite (ef_bronze _ _ _ _ _ _ He'); by apply bool_decide_false).
  rewrite (ef_outcome _ _ _ _ _ _ He), (ef_outcome _ _ _ _ _ _ He').
  assert (Hsl : forall c, silver_of raw' = Some c -> sl' = false)
    by (intros c Hc; rewrite (ef_silver _ _ _ _ _ _ He' c Hc); apply bool_decide_false; auto).
  unfold outcome. unfold silver_of in Hsl. change (rr_event_type raw') with (rr_event_type raw) in *.
  assert (Ea : adapted raw' = adapted raw) by apply adapted_received. rewrite Ea in *. clear - Hsl.
  destruct (bool_decide (rr_event_type raw = CANDLE)); cbn [negb]; [|done].
  destruct (adapted raw) as [c|e]; [|by destruct (caught e)].
  destruct (cc_is_settled c); [|done]. by rewrite (Hsl c eq_refl).
Qed.

(** Errors of ingestion.  A time of receipt without a zone is refused
    before the store is touched.  Otherwise Bronze is written whatever
    becomes of the payload; an exception of the adapter that ingestion
    handles is reported as the rejection reason and writes no Silver, and
    the only exceptions that escape are those of numbers too large for a
    float or for the platform's clock. *)
Theorem ingest_errors {S} `{WriteOnce S} market provider event_type symbol (p : payload) t (s : S)
    (Hok : json_ok (JObj p) = true) :
  let '(r, s') := ingest market provider event_type symbol p t s in
  if aware t then
    let raw := raw_of market provider event_type symbol (instant t) p in
    stored s' (bronze_key raw) <> None /\
    match r with
    | Ok a => a.(ir_raw) = raw /\
        (event_type = CANDLE -> forall e, adapted raw = Err e -> a.(ir_canonical) = None /\
           a.(ir_rejection_reason) = Some (str_exn e) /\ forall k, k <> bronze_key raw -> stored s' k = stored s k)
    | Err e => event_type = CANDLE /\ adapted raw = Err e /\ unhandled e /\
        forall k, k <> bronze_key raw -> stored s' k = stored s k
    end
  else r = Err (ValueError "received_at must be timezone-aware") /\ s' = s.
Proof.
  destruct (ingest _ _ _ _ _ _ _) as [r s'] eqn:E. destruct (aware t) eqn:Ht.
  - rewrite ingest_unfold in E by done. cbv zeta. set (raw := raw_of _ _ _ _ _ _) in *.
    destruct (ingest_raw_effect raw s) as (b & sl & r0 & s0 & E' & He). rewrite E in E'. injection E' as <- <-.
    split; [rewrite (ef_stored _ _ _ _ _ _ He); unfold stored_after; by rewrite decide_True|].
    assert (Hrest : silver_of raw = None -> forall k, k <> bronze_key raw -> stored s' k = stored s k).
    { intros Hn k Hk. rewrite (ef_stored _ _ _ _ _ _ He). unfold stored_after. by rewrite decide_False, Hn. }
    rewrite (ef_outcome _ _ _ _ _ _ He). pose proof (adapted_raises raw) as Hr. unfold outcome, silver_of in *.
    change (rr_event_type raw) with event_type in *. case_bool_decide; cbn [negb]; [|done].
    destruct (adapted raw) as [c|e]; [by destruct (cc_is_settled c)|].
    destruct (caught e) eqn:Hc; cbn.
    + split; [done|]. intros _ e' [= <-]. auto.
    + split; [done|]. split; [done|]. split; [|auto]. destruct Hr as [Hh|]; [|done]. by destruct e.
  - unfold ingest, RawRecord_create in E. rewrite (proj2 (utc_err t "received_at" _) (conj Ht eq_refl)) in E.
    by injection E as <- <-.
Qed.

(** What ingestion may write.  Nothing stored is ever changed; a record
    that appears is the Bronze record of the payload or the Silver record of
    its canonical candle, under the market it was ingested for, and Silver
    holds settled candles only, each checked by its constructor. *)
Theorem ingest_writes {S} `{WriteOnce S} market provider event_type symbol (p : payload) t (s : S)
    (Hok : json_ok (JObj p) = true) :
  let s' := (ingest market provider event_type symbol p t s).2 in
  (forall k text, stored s k = Some text -> stored s' k = Some text) /\
  (forall k text, stored s k = None -> stored s' k = Some text ->
     let raw := raw_of market provider event_type symbol (instant t) p in
     (k = bronze_key raw /\ text = record_text (RawRecord_to_dict raw)) \/
     exists c, adapted raw = Ok c /\ k = silver_key c /\ text = record_text (CanonicalCandle_to_dict c) /\
       c.(cc_market) = market /\ c.(cc_is_settled) = true /\ CanonicalCandle_post_init c = Ok tt).
Proof.
  cbv zeta. destruct (aware t) eqn:Ht.
  - rewrite ingest_unfold by done. set (raw := raw_of _ _ _ _ _ _) in *.
    destruct (ingest_raw_effect raw s) as (b & sl & r0 & s0 & -> & He). cbn [snd].
    split; intros k text Hk; rewrite (ef_stored _ _ _ _ _ _ He); unfold stored_after; rewrite Hk.
    + case_decide; [done|]. destruct (silver_of raw); [|done]. by case_decide.
    + case_decide as Hb; [intros [= <-]; by left|]. destruct (silver_of raw) as [c|] eqn:Es; [|done].
      case_decide as Hsk; [|done]. intros [= <-]. right. exists c. revert Es. unfold silver_of. case_bool_decide; [|done].
      destruct (adapted raw) as [c'|] eqn:Ea; [|done]. destruct (cc_is_settled c') eqn:Ec; [|done]. intros [= ->].
      pose proof (adapted_canonical _ _ Ea) as Hc. split; [done|]. split; [done|]. split; [done|].
      split; [exact (co_market _ _ Hc)|]. split; [done|exact (co_valid _ _ Hc)].
  - unfold ingest, RawRecord_create. rewrite (proj2 (utc_err t "received_at" _) (conj Ht eq_refl)).
    split; [done|]. intros k text Hn E. change (stored s k = Some text) in E. congruence.
Qed.

(** The gold layer is append-only too, and building it always succeeds: the
    features returned are the materialised ones. *)
Lemma for_each_gold {S} `{WriteOnce S} (features : list FeatureRecord) (s : S) : exists s',
  for_each features (fun feature =>
    _ ← store_write feature.(fr_market) "gold" feature.(fr_event_time) feature.(fr_record_id) (FeatureRecord_to_dict feature);
    mret tt) s = (Ok tt, s') /\
  (forall k text, stored s k = Some text -> stored s' k = Some text) /\
  (forall f, f ∈ features -> stored s' (key_of f.(fr_market) "gold" f.(fr_event_time) f.(fr_record_id)) <> None).
Proof.
  revert s. induction features as [|f features IH]; intros s; [exists s; split; [done|]; split; [done|]; by intros f ?%elem_of_nil|].
  destruct (write_effect f.(fr_market) "gold" f.(fr_event_time) f.(fr_record_id) (FeatureRecord_to_dict f) s layer_gold)
    as (s1 & Hw & Hs1 & _). destruct (IH s1) as (s2 & Hr & Hk & Hf). exists s2.
  cbn [for_each]. unfold mbind, M_bind in *. rewrite Hw. split; [exact Hr|].
  assert (Hk1 : forall k text, stored s k = Some text -> stored s1 k = Some text).
  { intros k text E. rewrite Hs1. case_decide; [|done]. subst k. by rewrite E. }
  split; [eauto|]. intros g [->|Hg]%elem_of_cons; [|by apply Hf].
  set (k := key_of _ _ _ _) in *. destruct (stored s1 k) as [text|] eqn:E; [by rewrite (Hk _ _ E)|].
  rewrite Hs1, decide_True in E by done. done.
Qed.

(** Building Gold never fails and never rewrites a record: every feature
    it returns is stored afterwards. *)
Theorem build_gold_stores {S} `{WriteOnce S} candles (s : S) :
  exists features s', build_gold candles s = (Ok features, s') /\ materialize_features candles = Ok features /\
    (forall k text, stored s k = Some text -> stored s' k = Some text) /\
    (forall f, f ∈ features -> stored s' (key_of f.(fr_market) "gold" f.(fr_event_time) f.(fr_record_id)) <> None).
Proof.
  destruct (materialize_total candles) as [features Hm]. destruct (for_each_gold features s) as (s' & Hr & Hk & Hf).
  exists features, s'. split; [|auto]. unfold build_gold, mbind, M_bind, lift in *. by rewrite Hm, Hr.
Qed.

(** ** Example *)

Module EtlExample.
Definition body : payload :=
  [("timestamp", JStr "2024-03-01T03:45:00Z"); ("open", JFloat 100); ("high", JStr "101.5"); ("low", JInt 99);
   ("close", JFloat 101); ("volume", JInt 1200)].
Definition reordered : payload :=
  [("volume", JInt 1200); ("timestamp", JStr "2024-03-01T03:45:00Z"); ("open", JFloat 100); ("high", JStr "101.5"); ("low", JInt 99);
   ("close", JFloat 101)].
Definition received : datetime := Datetime (1709264760 * second + 19800 * second) (Some (330 * minute)).
Definition later : datetime := at_utc (1709264800 * second).
Definition empty_lake : FileLake "lake" := Lake ∅.

(** Two ingestions of a candle: two files, the second time nothing. *)
Example ingest_twice :
  let first := ingest NSE DHAN CANDLE "reliance" body received empty_lake in
  let again := ingest NSE DHAN CANDLE "reliance" reordered later first.2 in
  length (entries first.2.(files)) = 2%nat /\ again.2 = first.2 /\
  match again.1 with Ok r => r.(ir_bronze_created) = false /\ r.(ir_silver_created) = false | Err _ => False end.
Proof. vm_compute. repeat split. Qed.

(** A clock reading out of the platform's range is not a rejection: it
    escapes ingestion. *)
Lemma ingest_overflow_escapes :
  (ingest NSE DHAN CANDLE "reliance" [("timestamp", JInt (10 ^ 25)); ("open", JFloat 1)] later empty_lake).1 =
    Err (OverflowError "timestamp out of range for platform time_t").
Proof. vm_compute. reflexivity. Qed.

Lemma reordered_perm : body ≡ₚ reordered.
Proof. unfold body, reordered. solve_Permutation. Qed.

Lemma ingest_idempotent_witness :
  let first := ingest NSE DHAN CANDLE "reliance" body received empty_lake in
  let again := ingest NSE DHAN CANDLE "reliance" reordered later first.2 in
  again.2 = first.2 /\ repeats first.1 again.1.
Proof. apply ingest_idempotent; [reflexivity|exact reordered_perm|reflexivity|reflexivity|reflexivity]. Defined.

Lemma raw_record_roundtrip_witness :
  exists raw, RawRecord_create NSE DHAN CANDLE "reliance" received body = Ok raw /\
    JObj raw.(rr_payload) = normal (JObj body) /\
    RawRecord_create NSE DHAN CANDLE "reliance" raw.(rr_received_at) raw.(rr_payload) = Ok raw.
Proof. apply raw_record_roundtrip; reflexivity. Defined.

Lemma ingest_errors_witness :
  let '(r, s') := ingest NSE DHAN CANDLE "reliance" [("open", JStr "x")] received empty_lake in
  let raw := raw_of NSE DHAN CANDLE "reliance" (instant received) [("open", JStr "x")] in
  stored s' (bronze_key raw) <> None /\
  match r with
  | Ok a => a.(ir_raw) = raw /\
      (CANDLE = CANDLE -> forall e, adapted raw = Err e -> a.(ir_canonical) = None /\
         a.(ir_rejection_reason) = Some (str_exn e) /\ forall k, k <> bronze_key raw -> stored s' k = stored empty_lake k)
  | Err e => CANDLE = CANDLE /\ adapted raw = Err e /\ unhandled e /\
      forall k, k <> bronze_key raw -> stored s' k = stored empty_lake k
  end.
Proof. exact (ingest_errors NSE DHAN CANDLE "reliance" [("open", JStr "x")] received empty_lake eq_refl). Defined.

Lemma ingest_writes_witness :
  let s' := (ingest NSE DHAN CANDLE "reliance" body received empty_lake).2 in
  (forall k text, stored empty_lake k = Some text -> stored s' k = Some text) /\
  (forall k text, stored empty_lake k = None -> stored s' k = Some text ->
     let raw := raw_of NSE DHAN CANDLE "reliance" (instant received) body in
     (k = bronze_key raw /\ text = record_text (RawRecord_to_dict raw)) \/
     exists c, adapted raw = Ok c /\ k = silver_key c /\ text = record_text (CanonicalCandle_to_dict c) /\
       c.(cc_market) = NSE /\ c.(cc_is_settled) = true /\ CanonicalCandle_post_init c = Ok tt).
Proof. apply (ingest_writes NSE DHAN CANDLE "reliance" body received empty_lake). reflexivity. Defined.
End EtlExample.
