(* ===== verification/Candles.v ===== *)
(** * Quotes and candle building (src/nanodelta/runtime/realtime.py, first half)

    The normalisation of provider messages into quotes, the builder of
    UTC-aligned bars, and the payload a settled bar is ingested with.  The
    builder is proved equal to a reference that looks at all quotes at once;
    the payload is proved to come back from the adapters as the same candle. *)

From Stdlib Require Import ZArith Floats Ascii String ZifyBool.
From stdpp Require Import prelude strings pretty numbers list sorting.
From S2P Require Import Prelude PyData PyFloat FloatTheory FloatRound PyText PyDigits FloatDecimal PyParse PyJson Sha256 PyTime PyDate Contracts Adapters.

Local Open Scope Z_scope.

Record QuoteEvent := {
  qe_market : Market;
  qe_provider : Provider;
  qe_symbol : string;
  qe_event_time : datetime;
  qe_price : float;
  qe_volume : float;
  qe_sequence : option Z }.

Record SettledCandle := {
  sc_symbol : string;
  sc_timeframe : string;
  sc_open_time : datetime;
  sc_open : float;
  sc_high : float;
  sc_low : float;
  sc_close : float;
  sc_volume : float }.

(** ** CandleBuilder *)

Record CandleBuilder := {
  cb_seconds : Z;
  cb_label : string;
  cb_forming : dict string SettledCandle }.

Definition CandleBuilder_new (timeframe_seconds : Z) (label : option string) : result CandleBuilder :=
  _ ← raise_if (timeframe_seconds <=? 0) (ValueError "timeframe_seconds must be positive");
  _ ← raise_if (match label with Some l => str_blank l | None => false end) (ValueError "timeframe label cannot be empty");
  mret {| cb_seconds := timeframe_seconds;
          cb_label := match label with
                      | Some l => if str_empty l then str_Z (timeframe_seconds / 60) +:+ "m" else l
                      | None => str_Z (timeframe_seconds / 60) +:+ "m"
                      end;
          cb_forming := ∅ |}.

Definition set_forming (k : string) (c : SettledCandle) (b : CandleBuilder) : CandleBuilder :=
  {| cb_seconds := b.(cb_seconds); cb_label := b.(cb_label); cb_forming := <[k := c]> b.(cb_forming) |}.

(** [CandleBuilder.add], on a quote with an aware time. *)
Definition CandleBuilder_add (quote : QuoteEvent) : M CandleBuilder (option SettledCandle) :=
  self ← get_state;
  timestamp ← lift (int_of_float (timestamp_of (at_utc (instant quote.(qe_event_time)))));
  opened ← lift (fromtimestamp_int (timestamp - timestamp mod self.(cb_seconds)));
  let started := {| sc_symbol := quote.(qe_symbol); sc_timeframe := self.(cb_label); sc_open_time := opened;
                    sc_open := quote.(qe_price); sc_high := quote.(qe_price); sc_low := quote.(qe_price);
                    sc_close := quote.(qe_price); sc_volume := quote.(qe_volume) |} in
  match self.(cb_forming) !! quote.(qe_symbol) with
  | None => _ ← modify (set_forming quote.(qe_symbol) started); mret None
  | Some current =>
      if instant current.(sc_open_time) <? instant opened then
        _ ← modify (set_forming quote.(qe_symbol) started); mret (Some current)
      else if instant opened <? instant current.(sc_open_time) then mret None
      else
        _ ← modify (set_forming quote.(qe_symbol)
              {| sc_symbol := current.(sc_symbol); sc_timeframe := current.(sc_timeframe);
                 sc_open_time := current.(sc_open_time); sc_open := current.(sc_open);
                 sc_high := fmax current.(sc_high) quote.(qe_price); sc_low := fmin current.(sc_low) quote.(qe_price);
                 sc_close := quote.(qe_price); sc_volume := (current.(sc_volume) + quote.(qe_volume))%float |});
        mret None
  end.

(** ** Normalisation *)

(** [_time] *)
Definition quote_time (value : json) (fallback : datetime) : result datetime :=
  match value with
  | JNull => mret fallback
  | _ =>
      let number := match value with JBool _ | JInt _ | JFloat _ => true | _ => str_isdigit (str_json value) end in
      if number : bool then
        raw ← py_float_str (str_json value);
        raw ← (if fgt raw 10000000000 then fdiv raw 1000 else mret raw);
        fromtimestamp raw
      else
        parsed ← fromisoformat (str_replace "Z" "+00:00" (str_json value));
        if aware parsed then mret (at_utc (instant parsed))
        else Err (ValueError "provider event time must include a timezone")
  end.

Definition type_name (v : json) : string :=
  match v with
  | JNull => "NoneType" | JBool _ => "bool" | JInt _ => "int" | JFloat _ => "float" | JStr _ => "str"
  | JArr _ => "list" | JObj _ => "dict"
  end.
Definition not_subscriptable (v : json) : exn := TypeError ("'" +:+ (type_name v +:+ "' object is not subscriptable")).

(** [v[0]] and [v["price"]] *)
Definition first_item (v : json) : result json :=
  match v with
  | JArr (x :: _) => Ok x
  | JArr [] => Err (OtherException "IndexError" "list index out of range")
  | JStr (String c _) => Ok (JStr (String c ""))
  | JStr "" => Err (OtherException "IndexError" "string index out of range")
  | JObj _ => Err (OtherException "KeyError" "0")
  | v => Err (not_subscriptable v)
  end.
Definition named_item (v : json) (k : string) : result json :=
  match v with
  | JObj l => jitem l k
  | JArr _ => Err (TypeError "list indices must be integers or slices, not str")
  | JStr _ => Err (TypeError "string indices must be integers, not 'str'")
  | v => Err (not_subscriptable v)
  end.

(** The fields each provider's message is read from: symbol, price, volume,
    time and sequence. *)
Definition quote_fields (provider : Provider) (p : payload) : result (json * json * json * json * json) :=
  let get k := jget_default p k JNull in
  match provider with
  | DHAN => mret (get "security_id", get "ltp", jget_default p "last_trade_quantity" (JInt 0), get "last_trade_time", JNull)
  | TRUEDATA => mret (jget_default p "symbol" (get "symbol_id"), get "ltp", jget_default p "ltq" (JInt 0), get "ltt", JNull)
  | OANDA =>
      let bids := jget_default p "bids" (JArr []) in
      let asks := jget_default p "asks" (JArr []) in
      price ← (if truthy bids && truthy asks then
                 bid ← first_item bids; bid ← named_item bid "price"; bid ← float_json bid;
                 ask ← first_item asks; ask ← named_item ask "price"; ask ← float_json ask;
                 mid ← fdiv (bid + ask)%float 2; mret (JFloat mid)
               else mret JNull);
      mret (get "instrument", price, JInt 0, get "time", JNull)
  | OKX =>
      let argument := jget_default p "arg" (JObj []) in
      let data := jget_default p "data" (JObj []) in
      let symbol := match argument with JObj l => jget_default l "instId" JNull | _ => JNull end in
      match data with
      | JObj d => mret (symbol, jget_default d "last" JNull, jget_default d "lastSz" (JInt 0), jget_default d "ts" JNull,
                        jget_default d "seqId" JNull)
      | _ => mret (symbol, JNull, JInt 0, JNull, JNull)
      end
  | POLONIEX =>
      mret (get "symbol", jget_default p "price" (get "close"),
            jget_default p "quantity" (jget_default p "amount" (JInt 0)), jget_default p "ts" (get "time"),
            jget_default p "id" (get "sequence"))
  end.

Definition is_null (v : json) : bool := match v with JNull => true | _ => false end.

Definition normalize_quote (market : Market) (provider : Provider) (p : payload) (received_at : datetime)
    (symbols : dict string string) : result (option QuoteEvent) :=
  '(provider_symbol, price, volume, event_time, sequence) ← quote_fields provider p;
  if is_null provider_symbol || is_null price then mret None
  else
    let raw_symbol := str_json provider_symbol in
    let symbol := default (dash_to_underscore raw_symbol) (symbols !! raw_symbol) in
    event_time ← quote_time event_time received_at;
    price ← py_float_str (str_json price);
    volume ← py_float_str (str_json volume);
    sequence ← (if is_null sequence then mret None else n ← py_int_str (str_json sequence); mret (Some n));
    mret (Some {| qe_market := market; qe_provider := provider; qe_symbol := symbol; qe_event_time := event_time;
                  qe_price := price; qe_volume := volume; qe_sequence := sequence |}).

(** ** Payloads of settled bars *)

(** [str(int(candle.open_time.timestamp() * 1000))] *)
Definition open_millis (t : datetime) : result string :=
  n ← int_of_float (timestamp_of t * 1000)%float; mret (str_Z n).

(** [_candle_payload] *)
Definition candle_payload (provider : Provider) (c : SettledCandle) : result payload :=
  let common := [("open", JFloat c.(sc_open)); ("high", JFloat c.(sc_high)); ("low", JFloat c.(sc_low));
                 ("close", JFloat c.(sc_close))] in
  match provider with
  | DHAN => mret (common ++ [("timestamp", JStr (isoformat c.(sc_open_time))); ("volume", JFloat c.(sc_volume));
                             ("timeframe", JStr c.(sc_timeframe)); ("settled", JBool true)])
  | TRUEDATA => mret [("time", JStr (isoformat c.(sc_open_time))); ("o", JFloat c.(sc_open)); ("h", JFloat c.(sc_high));
                      ("l", JFloat c.(sc_low)); ("c", JFloat c.(sc_close)); ("v", JFloat c.(sc_volume));
                      ("interval", JStr c.(sc_timeframe)); ("complete", JBool true)]
  | OANDA => mret [("time", JStr (isoformat c.(sc_open_time)));
                   ("mid", JObj [("o", JFloat c.(sc_open)); ("h", JFloat c.(sc_high)); ("l", JFloat c.(sc_low));
                                 ("c", JFloat c.(sc_close))]);
                   ("volume", JFloat c.(sc_volume)); ("timeframe", JStr c.(sc_timeframe)); ("complete", JBool true)]
  | OKX =>
      ts ← open_millis c.(sc_open_time);
      mret [("ts", JStr ts); ("o", JFloat c.(sc_open)); ("h", JFloat c.(sc_high)); ("l", JFloat c.(sc_low));
            ("c", JFloat c.(sc_close)); ("vol", JFloat c.(sc_volume)); ("bar", JStr c.(sc_timeframe)); ("confirm", JStr "1")]
  | POLONIEX =>
      ts ← open_millis c.(sc_open_time);
      mret (common ++ [("quantity", JFloat c.(sc_volume)); ("interval", JStr c.(sc_timeframe)); ("startTime", JStr ts);
                       ("settled", JBool true)])
  end.

Example normalize_examples :
  normalize_quote CRYPTO OKX [("arg", JObj [("instId", JStr "BTC-USDT")]);
      ("data", JObj [("last", JStr "42000.5"); ("lastSz", JStr "0.25"); ("ts", JStr "1709264760123"); ("seqId", JInt 17)])]
    (at_utc 0) ∅
  = Ok (Some {| qe_market := CRYPTO; qe_provider := OKX; qe_symbol := "BTC_USDT"; qe_event_time := at_utc 1709264760123000;
                qe_price := 42000.5; qe_volume := 0.25; qe_sequence := Some 17 |}) /\
  normalize_quote FOREX OANDA [("type", JStr "HEARTBEAT"); ("time", JStr "2024-03-01T03:45:00Z")] (at_utc 0) ∅ = Ok None.
Proof. vm_compute. split; reflexivity. Qed.

(** ** The builder against a reference

    The reference sees all quotes of a symbol at once: a quote is late when
    an earlier accepted one lies in a later bucket; the bar of a bucket is
    the first, highest, lowest and last price and the volume of the accepted
    quotes that fall in it. *)

Section Reference.
Context (seconds : Z) (label : string).

(** The start of the bar a quote belongs to, in seconds. *)
Definition bucket (q : QuoteEvent) : Z := instant q.(qe_event_time) / second / seconds * seconds.

Definition accept (acc : list QuoteEvent) (q : QuoteEvent) : list QuoteEvent :=
  if forallb (fun a => bucket a <=? bucket q) acc then acc ++ [q] else acc.
Definition accepted (qs : list QuoteEvent) : list QuoteEvent := foldl accept [] qs.

Definition bar (run : list QuoteEvent) : option SettledCandle :=
  match run with
  | [] => None
  | q :: rest => Some
      {| sc_symbol := q.(qe_symbol); sc_timeframe := label; sc_open_time := at_utc (bucket q * second);
         sc_open := q.(qe_price);
         sc_high := foldl fmax q.(qe_price) (List.map qe_price rest);
         sc_low := foldl fmin q.(qe_price) (List.map qe_price rest);
         sc_close := List.last (List.map qe_price run) q.(qe_price);
         sc_volume := foldl PrimFloat.add q.(qe_volume) (List.map qe_volume rest) |}
  end.
Definition in_bucket (b : Z) (qs : list QuoteEvent) : list QuoteEvent := List.filter (fun q => bucket q =? b) qs.

(** The bars of a list of accepted quotes, one per bucket in order of
    appearance, and the bars of a list of quotes. *)
Definition bars_of (qs : list QuoteEvent) : list SettledCandle :=
  somes (List.map (fun b => bar (in_bucket b qs)) (fromkeys (List.map bucket qs))).
Definition bars (qs : list QuoteEvent) : list SettledCandle := bars_of (accepted qs).

(** One more quote on a bar. *)
Definition extend (c : SettledCandle) (q : QuoteEvent) : SettledCandle :=
  {| sc_symbol := c.(sc_symbol); sc_timeframe := c.(sc_timeframe); sc_open_time := c.(sc_open_time); sc_open := c.(sc_open);
     sc_high := fmax c.(sc_high) q.(qe_price); sc_low := fmin c.(sc_low) q.(qe_price); sc_close := q.(qe_price);
     sc_volume := (c.(sc_volume) + q.(qe_volume))%float |}.
Definition first_bar (q : QuoteEvent) : SettledCandle :=
  {| sc_symbol := q.(qe_symbol); sc_timeframe := label; sc_open_time := at_utc (bucket q * second); sc_open := q.(qe_price);
     sc_high := q.(qe_price); sc_low := q.(qe_price); sc_close := q.(qe_price); sc_volume := q.(qe_volume) |}.

Lemma bar_snoc run q c : bar run = Some c -> bar (run ++ [q]) = Some (extend c q).
Proof.
  destruct run as [|x rest]; [done|]. cbn [bar]. intros [= <-]. cbn [bar app].
  unfold extend. cbn [sc_symbol sc_timeframe sc_open_time sc_open sc_high sc_low sc_volume].
  assert (El : List.last (List.map qe_price (x :: rest ++ [q])) (qe_price x) = qe_price q).
  { rewrite app_comm_cons, List.map_app. apply List.last_last. }
  rewrite El, !List.map_app, !foldl_app. done.
Qed.

Lemma bar_open run c : bar run = Some c -> exists q, q ∈ run /\ sc_open_time c = at_utc (bucket q * second).
Proof. destruct run as [|x rest]; [done|]. cbn [bar]. intros [= <-]. exists x. split; [by left|done]. Qed.

Lemma in_bucket_snoc b qs q : in_bucket b (qs ++ [q]) = in_bucket b qs ++ (if bucket q =? b then [q] else []).
Proof. unfold in_bucket. rewrite List.filter_app. cbn [List.filter]. by destruct (bucket q =? b). Qed.

Lemma in_bucket_nil b qs : b ∉ List.map bucket qs -> in_bucket b qs = [].
Proof.
  unfold in_bucket. induction qs as [|q qs IH]; [done|]. cbn [List.map List.filter]. intros Hb.
  destruct (Z.eqb_spec (bucket q) b) as [<-|]; [exfalso; apply Hb; by left|]. apply IH. intros H. apply Hb. by right.
Qed.

Lemma fromkeys_snoc (l : list Z) x : fromkeys (l ++ [x]) = if decide (x ∈ l) then fromkeys l else fromkeys l ++ [x].
Proof.
  unfold fromkeys at 1. rewrite foldl_app. cbn [foldl]. fold (fromkeys l). unfold add_key.
  destruct (decide (x ∈ l)) as [H|H].
  - rewrite decide_True by (by apply fromkeys_elem). done.
  - rewrite decide_False by (by rewrite fromkeys_elem). done.
Qed.

(** The latest bucket of the accepted quotes and its bar. *)
Record latest (A : list QuoteEvent) (init : list Z) (top : Z) (cur : SettledCandle) : Prop := {
  la_keys : fromkeys (List.map bucket A) = init ++ [top];
  la_top a : a ∈ A -> bucket a <= top;
  la_bar : bar (in_bucket top A) = Some cur;
  la_open : sc_open_time cur = at_utc (top * second) }.

Definition earlier (A : list QuoteEvent) (init : list Z) : list SettledCandle :=
  somes (List.map (fun b => bar (in_bucket b A)) init).

Lemma latest_bars A init top cur : latest A init top cur -> bars_of A = earlier A init ++ [cur].
Proof. intros H. unfold bars_of. rewrite (la_keys _ _ _ _ H), List.map_app, somes_app. cbn [List.map]. by rewrite (la_bar _ _ _ _ H). Qed.

Lemma latest_fresh A init top cur : latest A init top cur -> top ∉ init.
Proof.
  intros H Hin. pose proof (fromkeys_NoDup (List.map bucket A)) as Hnd. rewrite (la_keys _ _ _ _ H) in Hnd.
  apply NoDup_app in Hnd as (_ & Hd & _). apply (Hd _ Hin). by left.
Qed.

Lemma earlier_snoc A init q : bucket q ∉ init -> earlier (A ++ [q]) init = earlier A init.
Proof.
  intros Hq. unfold earlier. f_equal. apply List.map_ext_in. intros b Hb%list_elem_of_In.
  rewrite in_bucket_snoc. destruct (Z.eqb_spec (bucket q) b) as [<-|]; [done|]. by rewrite app_nil_r.
Qed.

Lemma latest_single q : latest [q] [] (bucket q) (first_bar q).
Proof.
  split; [done| |unfold in_bucket; cbn [List.filter]; by rewrite Z.eqb_refl|done].
  intros a ->%list_elem_of_singleton. lia.
Qed.

Lemma latest_same A init top cur q : latest A init top cur -> bucket q = top -> latest (A ++ [q]) init top (extend cur q).
Proof.
  intros H Hq. split.
  - rewrite List.map_app. cbn [List.map]. rewrite fromkeys_snoc, decide_True; [exact (la_keys _ _ _ _ H)|].
    apply fromkeys_elem. rewrite (la_keys _ _ _ _ H), Hq. apply elem_of_app. right. by left.
  - intros a [Ha| ->%list_elem_of_singleton]%elem_of_app; [by apply (la_top _ _ _ _ H)|lia].
  - rewrite in_bucket_snoc, Hq, Z.eqb_refl. by apply bar_snoc, (la_bar _ _ _ _ H).
  - exact (la_open _ _ _ _ H).
Qed.

Lemma latest_new A init top cur q : latest A init top cur -> top < bucket q ->
  latest (A ++ [q]) (init ++ [top]) (bucket q) (first_bar q).
Proof.
  intros H Hq. assert (Hnew : bucket q ∉ List.map bucket A).
  { intros Hin. apply list_elem_of_In, in_map_iff in Hin as (a & Ea & Ha%list_elem_of_In). pose proof (la_top _ _ _ _ H a Ha). lia. }
  split.
  - rewrite List.map_app. cbn [List.map]. by rewrite fromkeys_snoc, decide_False, (la_keys _ _ _ _ H).
  - intros a [Ha| ->%list_elem_of_singleton]%elem_of_app; [|lia]. pose proof (la_top _ _ _ _ H a Ha). lia.
  - by rewrite in_bucket_snoc, Z.eqb_refl, in_bucket_nil.
  - done.
Qed.

Lemma accepted_snoc qs q : accepted (qs ++ [q]) = accept (accepted qs) q.
Proof. unfold accepted. by rewrite foldl_app. Qed.

Lemma latest_top_in A init top cur : latest A init top cur -> exists a, a ∈ A /\ bucket a = top.
Proof.
  intros H. assert (Hin : top ∈ List.map bucket A).
  { apply fromkeys_elem. rewrite (la_keys _ _ _ _ H). apply elem_of_app. right. by left. }
  apply list_elem_of_In, in_map_iff in Hin as (a & Ea & Ha%list_elem_of_In). eauto.
Qed.

Lemma accept_ge A init top cur q : latest A init top cur -> accept A q = if top <=? bucket q then A ++ [q] else A.
Proof.
  intros H. unfold accept. destruct (Z.leb_spec top (bucket q)) as [Hle|Hlt].
  - rewrite (proj2 (forallb_Forall _ _)); [done|]. apply Forall_forall. intros a Ha. pose proof (la_top _ _ _ _ H a Ha). lia.
  - destruct (forallb _ _) eqn:E; [|done]. apply forallb_Forall in E. rewrite Forall_forall in E.
    destruct (latest_top_in _ _ _ _ H) as (a & Ha & Ea). specialize (E a Ha). lia.
Qed.

(** What the bars become with one more quote. *)
Definition bars_step (bs : list SettledCandle) (q : QuoteEvent) : list SettledCandle :=
  match last bs with
  | None => [first_bar q]
  | Some cur =>
      if instant (sc_open_time cur) <? bucket q * second then bs ++ [first_bar q]
      else if bucket q * second <? instant (sc_open_time cur) then bs
      else removelast bs ++ [extend cur q]
  end.

Lemma bars_snoc qs q : bars (qs ++ [q]) = bars_step (bars qs) q /\
  exists init top cur, latest (accepted (qs ++ [q])) init top cur.
Proof.
  revert q. induction qs as [|x qs IH] using rev_ind; intros q.
  - unfold bars. cbn [app]. change (accepted [q]) with [q]. split; [|by eexists _, _, _; apply latest_single].
    by rewrite (latest_bars _ _ _ _ (latest_single q)).
  - destruct (IH x) as (_ & init & top & cur & H). clear IH. set (A := accepted (qs ++ [x])) in *.
    unfold bars. rewrite accepted_snoc. fold A. rewrite (accept_ge _ _ _ _ q H).
    unfold bars_step. rewrite (latest_bars _ _ _ _ H), last_snoc, (la_open _ _ _ _ H), instant_at_utc.
    rewrite removelast_last. unfold second at 1 2 3 4.
    destruct (Z.leb_spec top (bucket q)) as [Hle|Hlt].
    + destruct (Z.eq_dec (bucket q) top) as [E|E].
      * assert ((top * 1000000 <? bucket q * 1000000) = false) as -> by lia.
        assert ((bucket q * 1000000 <? top * 1000000) = false) as -> by lia.
        pose proof (latest_same _ _ _ _ _ H E) as H'. split; [|by eexists _, _, _].
        rewrite (latest_bars _ _ _ _ H'), earlier_snoc; [done|]. rewrite E. by eapply latest_fresh.
      * assert ((top * 1000000 <? bucket q * 1000000) = true) as -> by lia.
        assert (Hlt : top < bucket q) by lia. pose proof (latest_new _ _ _ _ q H Hlt) as H'. split; [|by eexists _, _, _].
        rewrite (latest_bars _ _ _ _ H'). rewrite earlier_snoc by exact (latest_fresh _ _ _ _ H').
        unfold earlier. rewrite List.map_app, somes_app. cbn [List.map]. by rewrite (la_bar _ _ _ _ H).
    + assert ((top * 1000000 <? bucket q * 1000000) = false) as -> by lia.
      assert ((bucket q * 1000000 <? top * 1000000) = true) as -> by lia.
      split; [|by eexists _, _, _]. by rewrite ?(latest_bars _ _ _ _ H).
Qed.
End Reference.

(** ** The builder is the reference *)

(** Quotes whose seconds survive the rounding of [timestamp()]. *)
Definition dated (q : QuoteEvent) : bool :=
  (0 <=? instant q.(qe_event_time)) && (instant q.(qe_event_time) <? 2 ^ 33 * second).

Definition of_symbol (sym : string) (qs : list QuoteEvent) : list QuoteEvent :=
  List.filter (fun q => String.eqb q.(qe_symbol) sym) qs.
Definition bars_for (sym : string) (outs : list (option SettledCandle)) : list SettledCandle :=
  List.filter (fun c => String.eqb c.(sc_symbol) sym) (somes outs).

Lemma bucket_range seconds q : 0 < seconds -> dated q = true -> in_range (bucket seconds q * second) = true.
Proof.
  unfold dated, bucket, in_range, min_day, max_day, day, hour, minute, second. intros Hs Hd.
  set (t := instant (qe_event_time q)) in *. clearbody t.
  assert (H1 : 0 <= t / 1000000 < 2 ^ 33) by (Z.div_mod_to_equations; lia). set (u := t / 1000000) in *. clearbody u.
  assert (H2 : 0 <= u / seconds * seconds <= u) by (pose proof (Z.div_mod u seconds ltac:(lia)); pose proof (Z.mod_pos_bound u seconds Hs);
    pose proof (Z.div_pos u seconds ltac:(lia) Hs); nia). lia.
Qed.

(** One call of [add]. *)
Lemma add_step b q : 0 < b.(cb_seconds) -> dated q = true ->
  let bucket := bucket b.(cb_seconds) q in
  let started := first_bar b.(cb_seconds) b.(cb_label) q in
  CandleBuilder_add q b =
    match b.(cb_forming) !! q.(qe_symbol) with
    | None => (Ok None, set_forming q.(qe_symbol) started b)
    | Some cur =>
        if instant cur.(sc_open_time) <? bucket * second then (Ok (Some cur), set_forming q.(qe_symbol) started b)
        else if bucket * second <? instant cur.(sc_open_time) then (Ok None, b)
        else (Ok None, set_forming q.(qe_symbol) (extend cur q) b)
    end.
Proof.
  intros Hs Hd. cbv zeta. unfold CandleBuilder_add, timestamp_of. rewrite instant_at_utc. unfold mbind, M_bind, get_state, lift.
  rewrite timestamp_floor by (unfold dated in Hd; lia). unfold fromtimestamp_int.
  replace (_ - _ mod _) with (bucket (cb_seconds b) q)
    by (unfold bucket; pose proof (Z.div_mod (instant (qe_event_time q) / second) (cb_seconds b) ltac:(lia)); lia).
  rewrite utc_datetime_ok by (by apply bucket_range). rewrite instant_at_utc.
  destruct (cb_forming b !! qe_symbol q) as [cur|]; [|done].
  destruct (_ <? _); [done|]. by destruct (_ <? _).
Qed.

Lemma somes_snoc {A} (l : list (option A)) o : somes (l ++ [o]) = somes l ++ match o with Some x => [x] | None => [] end.
Proof. rewrite somes_app. by destruct o. Qed.

(** The builder after some quotes. *)
Record built (seconds : Z) (label : string) (qs : list QuoteEvent) (outs : list (option SettledCandle)) (b : CandleBuilder) : Prop := {
  bt_seconds : b.(cb_seconds) = seconds;
  bt_label : b.(cb_label) = label;
  bt_forming sym : b.(cb_forming) !! sym = last (bars seconds label (of_symbol sym qs));
  bt_symbol sym c : b.(cb_forming) !! sym = Some c -> c.(sc_symbol) = sym;
  bt_outs sym : bars_for sym outs = removelast (bars seconds label (of_symbol sym qs)) }.

Lemma of_symbol_snoc sym qs q : of_symbol sym (qs ++ [q]) = of_symbol sym qs ++ if String.eqb q.(qe_symbol) sym then [q] else [].
Proof. unfold of_symbol. rewrite List.filter_app. cbn [List.filter]. by destruct (String.eqb _ _). Qed.
Lemma bars_for_snoc sym outs o : bars_for sym (outs ++ [o]) =
  bars_for sym outs ++ match o with Some c => if String.eqb c.(sc_symbol) sym then [c] else [] | None => [] end.
Proof.
  unfold bars_for. rewrite somes_snoc, List.filter_app. destruct o as [c|]; [|done]. cbn [List.filter]. by destruct (String.eqb _ _).
Qed.

Lemma last_nil_inv {A} (l : list A) : last l = None -> l = [].
Proof. by rewrite last_None. Qed.
Lemma removelast_app_last {A} (l : list A) x : last l = Some x -> removelast l ++ [x] = l.
Proof. intros [l' ->]%last_Some. by rewrite removelast_last. Qed.

Lemma built_step seconds label qs outs b q : 0 < seconds -> dated q = true -> built seconds label qs outs b ->
  exists o b', CandleBuilder_add q b = (Ok o, b') /\ built seconds label (qs ++ [q]) (outs ++ [o]) b'.
Proof.
  intros Hs Hd [Es El Hf Hsym Ho]. pose proof (add_step b q) as Hadd. rewrite Es, El in Hadd. specialize (Hadd Hs Hd). cbv zeta in Hadd.
  set (sym0 := qe_symbol q) in *.
  assert (Hbars : bars seconds label (of_symbol sym0 (qs ++ [q])) = bars_step seconds label (bars seconds label (of_symbol sym0 qs)) q).
  { rewrite of_symbol_snoc, String.eqb_refl. apply bars_snoc. }
  assert (Hother : forall sym, sym <> sym0 -> of_symbol sym (qs ++ [q]) = of_symbol sym qs).
  { intros sym Hne. rewrite of_symbol_snoc. fold sym0. rewrite (proj2 (String.eqb_neq _ _)) by congruence. apply app_nil_r. }
  assert (Hmk : forall o b', CandleBuilder_add q b = (Ok o, b') -> b'.(cb_seconds) = seconds -> b'.(cb_label) = label ->
    (forall sym, sym <> sym0 -> b'.(cb_forming) !! sym = b.(cb_forming) !! sym) ->
    b'.(cb_forming) !! sym0 = last (bars_step seconds label (bars seconds label (of_symbol sym0 qs)) q) ->
    (forall c, b'.(cb_forming) !! sym0 = Some c -> c.(sc_symbol) = sym0) ->
    (forall c, o = Some c -> c.(sc_symbol) = sym0) ->
    removelast (bars seconds label (of_symbol sym0 qs)) ++ match o with Some c => [c] | None => [] end =
      removelast (bars_step seconds label (bars seconds label (of_symbol sym0 qs)) q) ->
    exists o b', CandleBuilder_add q b = (Ok o, b') /\ built seconds label (qs ++ [q]) (outs ++ [o]) b').
  { intros o b' Hrun Hs' Hl' Hfo Hf0 Hsy Hos Hrm. exists o, b'. split; [done|]. split; [done|done|..].
    - intros sym. destruct (decide (sym = sym0)) as [->|Hne]; [by rewrite Hbars|]. by rewrite Hfo, Hother.
    - intros sym c. destruct (decide (sym = sym0)) as [->|Hne]; [apply Hsy|]. rewrite Hfo by done. apply Hsym.
    - intros sym. rewrite bars_for_snoc, Ho. destruct (decide (sym = sym0)) as [->|Hne].
      + rewrite Hbars, <-Hrm. f_equal. destruct o as [c|]; [|done]. by rewrite (Hos c eq_refl), String.eqb_refl.
      + rewrite Hother by done. destruct o as [c|]; [|apply app_nil_r].
        rewrite (Hos c eq_refl), (proj2 (String.eqb_neq _ _)) by congruence. apply app_nil_r. }
  assert (Hset : forall c, cb_forming (set_forming sym0 c b) !! sym0 = Some c) by (intros c; apply dict_lookup_insert_eq).
  assert (Hins : forall c sym, sym <> sym0 -> cb_forming (set_forming sym0 c b) !! sym = cb_forming b !! sym)
    by (intros c sym Hne; by apply dict_lookup_insert_ne).
  pose proof (Hf sym0) as Hcur. revert Hmk. rewrite Hadd. unfold bars_step.
  destruct (cb_forming b !! sym0) as [cur|] eqn:Ef.
  - pose proof (Hsym _ _ Ef) as Hcs. rewrite <-Hcur. pose proof (removelast_app_last _ _ (eq_sym Hcur)) as Hsplit.
    set (bs := bars seconds label (of_symbol sym0 qs)) in *. clearbody bs.
    destruct (_ <? _); [|destruct (_ <? _)]; intros Hmk.
    + apply (Hmk _ _ eq_refl Es El); [apply Hins|by rewrite Hset, last_snoc| | |].
      * intros c. rewrite Hset. by intros [= <-].
      * by intros c [= <-].
      * by rewrite removelast_last.
    + apply (Hmk _ _ eq_refl Es El); [done|by rewrite Ef| |done|apply app_nil_r]. intros c. rewrite Ef. by intros [= <-].
    + apply (Hmk _ _ eq_refl Es El); [apply Hins|by rewrite Hset, last_snoc| |done|].
      * intros c. rewrite Hset. by intros [= <-].
      * by rewrite app_nil_r, removelast_last.
  - symmetry in Hcur. rewrite Hcur. apply last_nil_inv in Hcur. rewrite Hcur. intros Hmk.
    apply (Hmk _ _ eq_refl Es El); [apply Hins|by rewrite Hset| |done|done].
    intros c. rewrite Hset. by intros [= <-].
Qed.

Lemma built_run seconds label more : forall qs outs b, 0 < seconds -> forallb dated more = true -> built seconds label qs outs b ->
  exists outs' b', map_each more CandleBuilder_add b = (Ok outs', b') /\ built seconds label (qs ++ more) (outs ++ outs') b'.
Proof.
  induction more as [|q more IH]; intros qs outs b Hs Hd Hb; cbn [map_each].
  - exists [], b. by rewrite !app_nil_r.
  - cbn [forallb] in Hd. apply andb_prop in Hd as [Hq Hm]. destruct (built_step _ _ _ _ _ _ Hs Hq Hb) as (o & b1 & Hrun & Hb1).
    destruct (IH _ _ _ Hs Hm Hb1) as (outs' & b2 & Hrest & Hb2). exists (o :: outs'), b2.
    unfold mbind, M_bind in *. rewrite Hrun, Hrest. split; [done|]. by rewrite <-!app_assoc in Hb2.
Qed.

(** Every bar opens at the start of its bucket, and the bars of a symbol
    are in order of time. *)
Definition opens (c : SettledCandle) : Z := instant c.(sc_open_time).

(** C27. The candle builder is its reference.  Feeding a fresh builder any
    sequence of dated quotes succeeds, and for every symbol the bars it
    emitted followed by the bar still forming are exactly the bars of that
    symbol's quotes: one bar per bucket, in order of first appearance, of the
    quotes that are not late.  Symbols do not disturb each other. *)
Theorem builder_equivalent (seconds : Z) (label : string) (qs : list QuoteEvent) (b : CandleBuilder)
    (Hnew : CandleBuilder_new seconds (Some label) = Ok b) (Hdated : forallb dated qs = true) :
  exists outs b', map_each qs CandleBuilder_add b = (Ok outs, b') /\
    forall sym, bars_for sym outs ++ match b'.(cb_forming) !! sym with Some c => [c] | None => [] end
                = bars seconds label (of_symbol sym qs).
Proof.
  unfold CandleBuilder_new in Hnew. inv_ok Hnew. subst b.
  assert (Hl : str_empty label = false) by (by destruct label). rewrite Hl.
  set (b := {| cb_seconds := seconds; cb_label := label; cb_forming := ∅ |}).
  destruct (built_run seconds label qs [] [] b) as (outs & b' & Hrun & Hb); [lia|done| |].
  { split; [done|done| |done|done]. intros sym. subst b. cbn [cb_forming]. by rewrite dict_lookup_empty. }
  exists outs, b'. split; [exact Hrun|]. intros sym. rewrite app_nil_l in Hb. cbn [app] in Hb.
  rewrite (bt_outs _ _ _ _ _ Hb), (bt_forming _ _ _ _ _ Hb).
  destruct (last _) as [c|] eqn:E; [by apply removelast_app_last|]. apply last_nil_inv in E. by rewrite E.
Qed.

(** ** The payload of a bar comes back as the bar *)

(** The values the canonical candle's constructor accepts. *)
Definition well_formed (c : SettledCandle) : bool :=
  forallb isfinite [c.(sc_open); c.(sc_high); c.(sc_low); c.(sc_close); c.(sc_volume)] &&
  negb (c.(sc_volume) <? 0)%float &&
  negb (fgt c.(sc_low) (fmin c.(sc_open) c.(sc_close)) || (c.(sc_high) <? fmax c.(sc_open) c.(sc_close))%float) &&
  negb (fgt c.(sc_low) c.(sc_high)).

(** The canonical candle [x] carries the values of the bar [c]. *)
Definition carries (c : SettledCandle) (timeframe : string) (x : CanonicalCandle) : Prop :=
  x.(cc_open_time) = c.(sc_open_time) /\ x.(cc_open) = c.(sc_open) /\ x.(cc_high) = c.(sc_high) /\ x.(cc_low) = c.(sc_low) /\
  x.(cc_close) = c.(sc_close) /\ x.(cc_volume) = c.(sc_volume) /\ x.(cc_timeframe) = timeframe /\ x.(cc_is_settled) = true.

Definition iso_char (c : ascii) : bool := clock_char c || Ascii.eqb c "-" || Ascii.eqb c "T" || Ascii.eqb c "+".
Lemma iso_not_zulu c : iso_char c = true -> negb (Ascii.eqb c "Z") = true.
Proof. destruct c as [[] [] [] [] [] [] [] []]; intros H; try discriminate H; reflexivity. Qed.

Lemma isoformat_chars us : in_range us = true -> all_chars iso_char (isoformat (at_utc us)) = true.
Proof.
  unfold in_range. intros Hr. assert (Hdays : min_day <= us / day <= max_day).
  { unfold min_day, max_day, day, hour, minute, second in *. Z.div_mod_to_equations; lia. }
  assert (Ht : 0 <= us mod day < day) by (apply Z.mod_pos_bound; done).
  assert (Hclock : forall s, all_chars clock_char s = true -> all_chars iso_char s = true).
  { intros s. apply all_chars_impl. intros c Hc. unfold iso_char. by rewrite Hc. }
  rewrite isoformat_at_utc. unfold date_iso. destruct (civil (us / day)) as [[y m] d] eqn:E.
  destruct (civil_valid _ _ _ _ E) as (_ & Hm & Hd & H31). pose proof (civil_year _ _ _ _ Hdays E) as Hy.
  rewrite !all_chars_app. rewrite (Hclock (clock_iso _)) by (by apply clock_iso_chars).
  rewrite (Hclock (pad_Z 4 y)) by (apply digits_clock, pad_digits; lia).
  rewrite (Hclock (pad_Z 2 m)) by (apply digits_clock, pad_digits; lia).
  rewrite (Hclock (pad_Z 2 d)) by (apply digits_clock, pad_digits; lia). reflexivity.
Qed.

Lemma str_replace_none c by_ s : all_chars (fun x => negb (Ascii.eqb x c)) s = true -> str_replace c by_ s = s.
Proof.
  induction s as [|x s IH]; [done|]. cbn [all_chars str_replace]. intros [Hx Hs]%andb_prop.
  apply negb_true_iff in Hx. rewrite Hx, IH by done. done.
Qed.

Lemma timestamp_iso us : in_range us = true -> timestamp (JStr (isoformat (at_utc us))) = Ok (at_utc us).
Proof.
  intros Hr. unfold timestamp.
  assert (Hd : str_isdigit (isoformat (at_utc us)) = false).
  { unfold str_isdigit. rewrite isoformat_at_utc, !all_chars_app. change (all_chars is_digit "T") with false.
    by rewrite andb_false_l, !andb_false_r. }
  rewrite Hd. cbn [str_json]. rewrite str_replace_none.
  - rewrite fromisoformat_isoformat by done. cbn [mbind result_bind aware at_utc utcoffset]. by rewrite instant_at_utc.
  - apply (all_chars_impl iso_char); [apply iso_not_zulu|by apply isoformat_chars].
Qed.

(** Milliseconds, for the providers that count them. *)
Section Millis.
Context (k : Z) (Hk : 10 ^ 7 < k < 2 ^ 33).

Lemma seconds_exact : isfinite (total_seconds (k * second)) = true /\ fval (total_seconds (k * second)) = k * 2 ^ 1074.
Proof.
  unfold total_seconds, int_truediv, second. change (1000000 =? 0) with false. cbv iota.
  assert ((Z.abs (k * 1000000) <=? 2 ^ 53) && (Z.abs 1000000 <=? 2 ^ 53) = true) as -> by lia.
  destruct (float_of_Z_exact (k * 1000000) ltac:(lia)) as [Fx Vx]. destruct (float_of_Z_exact 1000000 ltac:(lia)) as [Fy Vy].
  pose proof (pow2_pos 1074 ltac:(lia)) as HU. destruct (float_of_Z_exact k ltac:(lia)) as [Fk Vk].
  assert (Hv : fval (float_of_Z (k * 1000000) / float_of_Z 1000000)%float = k * 2 ^ 1074).
  { rewrite fval_div by (done || rewrite Vy; lia). rewrite Vx, Vy.
    replace (k * 1000000 * 2 ^ 1074 * 2 ^ 1074) with (k * 2 ^ 1074 * (1000000 * 2 ^ 1074)) by lia.
    rewrite rndF_int by lia. rewrite <-Vk. apply rndZ_fval. }
  split; [|done]. apply (finite_of (float_of_Z k) Fk).
  - apply fdiv_sign; [done..|]. rewrite Vy. lia.
  - rewrite Hv, Vk. apply Z.eq_le_incl, Z.abs_eq. nia.
Qed.
Lemma millis_exact : open_millis (at_utc (k * second)) = Ok (str_Z (k * 1000)).
Proof.
  unfold open_millis, timestamp_of. rewrite instant_at_utc. destruct seconds_exact as [Fs Vs].
  assert (F1000 : isfinite 1000 = true) by reflexivity. destruct (float_of_Z_exact 1000 ltac:(lia)) as [_ V1000].
  assert (V : fval 1000 = 1000 * 2 ^ 1074) by (vm_compute; reflexivity). clear V1000.
  destruct (float_of_Z_exact (k * 1000) ltac:(lia)) as [Fk Vk]. pose proof (pow2_pos 1074 ltac:(lia)) as HU.
  assert (Hv : fval (total_seconds (k * second) * 1000)%float = k * 1000 * 2 ^ 1074).
  { rewrite fval_mul by done. rewrite Vs, V. replace (k * 2 ^ 1074 * (1000 * 2 ^ 1074)) with (k * 1000 * 2 ^ 1074 * 2 ^ 1074) by lia.
    rewrite rndF_int by lia. rewrite <-Vk. apply rndZ_fval. }
  assert (Hf : isfinite (total_seconds (k * second) * 1000)%float = true).
  { apply (fmul_bounded _ _ (float_of_Z (k * 1000)) Fs F1000 Fk). rewrite Vs, V, Vk, Z.abs_eq by nia. nia. }
  unfold int_of_float. rewrite (isfinite_nan _ Hf), Hf, Hv. cbn [negb mbind result_bind].
  by rewrite Z.quot_mul by lia.
Qed.

Lemma timestamp_millis : timestamp (JStr (str_Z (k * 1000))) = Ok (at_utc (k * second)).
Proof.
  unfold timestamp. destruct (str_Z_pos (k * 1000) ltac:(lia)) as (Hd & _ & _ & Hl).
  assert (str_isdigit (str_Z (k * 1000)) = true) as ->.
  { unfold str_isdigit. rewrite Hd. by destruct (str_Z (k * 1000)). }
  cbn [float_json]. destruct (float_int_text (k * 1000) ltac:(lia)) as (x & -> & Fx & Vx). cbn [mbind result_bind].
  assert (V : fval 1000 = 1000 * 2 ^ 1074) by (vm_compute; reflexivity).
  assert (V10 : fval 10000000000 = 10000000000 * 2 ^ 1074) by (vm_compute; reflexivity).
  pose proof (pow2_pos 1074 ltac:(lia)) as HU.
  assert (fgt x 10000000000 = true) as ->.
  { apply fltb_iff. split; [done|]. split; [by apply isfinite_nan|]. rewrite V10, Vx. nia. }
  unfold fdiv. change ((1000 =? 0)%float) with false. cbv iota. cbn [mbind result_bind].
  destruct (float_of_Z_exact k ltac:(lia)) as [_ Vk].
  assert (Hv : fval (x / 1000)%float = k * 2 ^ 1074).
  { rewrite fval_div by (done || rewrite V; lia). rewrite Vx, V.
    replace (k * 1000 * 2 ^ 1074 * 2 ^ 1074) with (k * 2 ^ 1074 * (1000 * 2 ^ 1074)) by lia.
    rewrite rndF_int by lia. rewrite <-Vk. apply rndZ_fval. }
  assert (Hn : fnan (x / 1000)%float = false) by (apply fdiv_sign; [done..|]; rewrite V; lia).
  unfold fromtimestamp. rewrite Hn. unfold timestamp_us. rewrite Hv, <-Vk. fold (timestamp_us (float_of_Z k)).
  rewrite timestamp_us_whole by lia. apply utc_datetime_ok.
  unfold in_range, min_day, max_day, day, hour, minute, second. lia.
Qed.
End Millis.

(** The market a provider serves. *)
Definition market_of (provider : Provider) : Market := (ADAPTERS provider).1.
Definition stored_timeframe (provider : Provider) (timeframe : string) : string :=
  match provider with POLONIEX => str_lower timeframe | _ => timeframe end.

Lemma candle_ok raw symbol timeframe c : well_formed c = true -> aware c.(sc_open_time) = true ->
  exists x, candle raw symbol timeframe c.(sc_open_time) c.(sc_open) c.(sc_high) c.(sc_low) c.(sc_close) c.(sc_volume) true = Ok x /\
    carries c timeframe x.
Proof.
  unfold well_formed. intros [[[Hf Hv]%andb_prop Hc]%andb_prop Hl]%andb_prop Ha.
  unfold candle, CanonicalCandle_post_init. cbn [cc_open_time cc_open cc_high cc_low cc_close cc_volume].
  rewrite (proj2 (utc_ok _ "open_time" _) (conj Ha eq_refl)). cbn [mbind result_bind].
  rewrite Hf. apply negb_true_iff in Hv, Hc, Hl. rewrite Hv, Hc, Hl. cbn. eexists. split; [reflexivity|]. done.
Qed.

(** What is left to show of a provider: that its adapter reads its payload. *)
Definition reads_back (provider : Provider) (c : SettledCandle) (p : payload) : Prop :=
  forall raw, (forall key, jget key raw.(rr_payload) = option_map normal (jget key p)) ->
    exists x, (ADAPTERS provider).2 raw = Ok x /\ carries c (stored_timeframe provider c.(sc_timeframe)) x.

Lemma reads_back_roundtrip provider symbol us c p : candle_payload provider c = Ok p -> json_ok (JObj p) = true ->
  reads_back provider c p ->
  exists p raw x, candle_payload provider c = Ok p /\
    RawRecord_create (market_of provider) provider CANDLE symbol (at_utc us) p = Ok raw /\
    (adapter ← adapter_for (market_of provider) provider; adapter raw) = Ok x /\
    carries c (stored_timeframe provider c.(sc_timeframe)) x.
Proof.
  intros Hp Hok Hread. set (raw := raw_of (market_of provider) provider CANDLE symbol us p).
  destruct (Hread raw) as (x & Hx & Hc); [intros key; by apply jget_stored|].
  exists p, raw, x. split; [done|]. split; [|split; [|done]].
  - rewrite create_raw by done. by rewrite instant_at_utc.
  - by destruct provider.
Qed.

(** C28. A settled bar survives ingestion: the payload built for any of the
    five providers is read back by that provider's adapter, after the trip
    through canonical JSON, as a settled canonical candle with the bar's open
    time, prices, volume and timeframe (in lower case for Poloniex). *)
Theorem payload_roundtrip provider symbol us (c : SettledCandle) (k : Z)
    (Htime : c.(sc_open_time) = at_utc (k * second)) (Hk : 10 ^ 7 < k < 2 ^ 33) (Hwf : well_formed c = true)
    (Hascii : ascii_str c.(sc_timeframe) = true) :
  exists p raw x, candle_payload provider c = Ok p /\
    RawRecord_create (market_of provider) provider CANDLE symbol (at_utc us) p = Ok raw /\
    (adapter ← adapter_for (market_of provider) provider; adapter raw) = Ok x /\
    carries c (stored_timeframe provider c.(sc_timeframe)) x.
Proof.
  assert (Hr : in_range (k * second) = true) by (unfold in_range, min_day, max_day, day, hour, minute, second; lia).
  pose proof (timestamp_iso _ Hr) as Hiso. pose proof (millis_exact k Hk) as Hm. pose proof (timestamp_millis k Hk) as Hts.
  assert (Hia : ascii_str (isoformat (at_utc (k * second))) = true).
  { apply (all_chars_impl iso_char); [|by apply isoformat_chars]. intros x Hx. unfold iso_char, clock_char, is_digit in Hx.
    destruct x as [[] [] [] [] [] [] [] []]; try discriminate Hx; reflexivity. }
  assert (Hda : ascii_str (str_Z (k * 1000)) = true).
  { apply (all_chars_impl is_digit); [|apply str_Z_nonneg; lia]. intros x Hx. unfold is_digit in Hx. lia. }
  assert (Hcandle : forall raw symbol timeframe, exists x,
    candle raw symbol timeframe (at_utc (k * second)) c.(sc_open) c.(sc_high) c.(sc_low) c.(sc_close) c.(sc_volume) true = Ok x /\
    carries c timeframe x) by (intros; rewrite <-Htime; apply candle_ok; [done|by rewrite Htime]).
  destruct provider; (eapply reads_back_roundtrip;
    [cbn [candle_payload]; rewrite Htime, ?Hm; reflexivity
    |cbn [json_ok forallb app fst snd]; rewrite ?Hascii, ?Hia, ?Hda; reflexivity|]);
    intros raw Hraw; cbn [ADAPTERS snd]; unfold dhan, truedata, oanda, okx, poloniex, jitem, float_field, jget_default;
    rewrite !Hraw; cbn -[timestamp candle isoformat at_utc Z.mul str_Z str_lower dash_to_underscore];
    rewrite ?Hiso, ?Hts; cbn -[candle at_utc Z.mul str_lower dash_to_underscore]; apply Hcandle.
Qed.

Module CandlesExample.
Definition quote (sym : string) (t : Z) (price volume : float) : QuoteEvent :=
  {| qe_market := NSE; qe_provider := DHAN; qe_symbol := sym; qe_event_time := at_utc (t * second); qe_price := price;
     qe_volume := volume; qe_sequence := None |}.
(** Two bars of A, a late quote for A, and a quote of B in between. *)
Definition stream : list QuoteEvent :=
  [quote "A" 120 10 1; quote "B" 121 5 1; quote "A" 150 12 2; quote "A" 179 11 1; quote "A" 180 13 4; quote "A" 170 99 9;
   quote "A" 239 9 1; quote "A" 240 8 1].

Example builder_example : match CandleBuilder_new 60 (Some "1m") with
  | Ok b => List.map (fun c => (sc_symbol c, opens c / second, sc_open c, sc_high c, sc_low c, sc_close c, sc_volume c))
              (somes match (map_each stream CandleBuilder_add b).1 with Ok l => l | Err _ => [] end)
  | Err _ => []
  end = [("A", 120%Z, 10, 12, 10, 11, 4); ("A", 180%Z, 13, 13, 9, 9, 5)]%float.
Proof. vm_compute. reflexivity. Qed.

Lemma builder_equivalent_witness :
  exists outs b', map_each stream CandleBuilder_add {| cb_seconds := 60; cb_label := "1m"; cb_forming := ∅ |} = (Ok outs, b') /\
    forall sym, bars_for sym outs ++ match b'.(cb_forming) !! sym with Some c => [c] | None => [] end
                = bars 60 "1m" (of_symbol sym stream).
Proof. apply (builder_equivalent 60 "1m" stream); reflexivity. Defined.
Definition minute_bar : SettledCandle :=
  {| sc_symbol := "BTC_USDT"; sc_timeframe := "1m"; sc_open_time := at_utc (1709264700 * second); sc_open := 0.1; sc_high := 0.3;
     sc_low := 0.1; sc_close := 0.2; sc_volume := 12.5 |}.

Lemma payload_roundtrip_witness :
  exists p raw x, candle_payload OKX minute_bar = Ok p /\
    RawRecord_create (market_of OKX) OKX CANDLE "BTC-USDT" (at_utc (1709264760 * second)) p = Ok raw /\
    (adapter ← adapter_for (market_of OKX) OKX; adapter raw) = Ok x /\
    carries minute_bar (stored_timeframe OKX minute_bar.(sc_timeframe)) x.
Proof. apply (payload_roundtrip OKX "BTC-USDT" (1709264760 * second) minute_bar 1709264700); [reflexivity|lia|reflexivity|reflexivity]. Defined.
End CandlesExample.
