(* ===== verification/Timeframes.v ===== *)
(** * Timeframes and market calendars (src/nanodelta/history/timeframes.py)

    Durations of timeframes, the open of the last settled bar at an instant,
    and the opens a market's calendar expects in a window. *)

From Stdlib Require Import ZArith Floats Ascii String ZifyBool.
From stdpp Require Import prelude strings list.
From S2P Require Import Prelude PyData PyFloat FloatTheory PyText PyDigits PyTime PyDate Contracts.

Local Open Scope Z_scope.

(** ** [timedelta] arithmetic with its bounds *)

Definition max_delta_days : Z := 999999999.
Definition timedelta_us (us : Z) : result Z :=
  let days := us / day in
  if (days <? - 2 ^ 31) || (2 ^ 31 <=? days) then Err (OverflowError "Python int too large to convert to C int")
  else if (days <? - max_delta_days) || (max_delta_days <? days)
  then Err (OverflowError ("days=" +:+ (str_Z days +:+ "; must have magnitude <= 999999999")))
  else Ok us.
(** [d + timedelta] *)
Definition dt_add (d : datetime) (us : Z) : result datetime :=
  if in_range (d.(wall) + us) then Ok (Datetime (d.(wall) + us) d.(utcoffset))
  else Err (OverflowError "date value out of range").

(** [s[-1:]] and [s[:-1]] *)
Definition last_char (s : string) : string := String.substring (pred (String.length s)) 1 s.
Definition but_last (s : string) : string := String.substring 0 (pred (String.length s)) s.

Definition unsupported {A} (timeframe : string) : result A := Err (ValueError ("unsupported timeframe: " +:+ timeframe)).
Definition unit_seconds (unit : string) : option Z :=
  if String.eqb unit "m" then Some 60 else if String.eqb unit "h" then Some 3600 else if String.eqb unit "d" then Some 86400 else None.

Definition timeframe_delta (timeframe : string) : result Z :=
  match py_int_str (but_last timeframe) with
  | Err _ => unsupported timeframe
  | Ok value =>
      match unit_seconds (last_char timeframe) with
      | Some k => if value <? 1 then unsupported timeframe else timedelta_us (value * k * second)
      | None => unsupported timeframe
      end
  end.

Definition last_settled_open (now : datetime) (timeframe : string) : result datetime :=
  now ← utc now "now";
  step ← timeframe_delta timeframe;
  epoch_seconds ← int_of_float (timestamp_of now);
  step_seconds ← int_of_float (total_seconds step);
  boundary ← fromtimestamp_int (epoch_seconds - epoch_seconds mod step_seconds);
  dt_add boundary (- step).

(** ** Calendars *)

Record MarketCalendar := { mc_market : Market; mc_holidays : list string }.

Definition is_expected (c : MarketCalendar) (timestamp : datetime) (timeframe : string) : result bool :=
  t ← utc timestamp "timestamp";
  mret (match c.(mc_market) with
        | CRYPTO => true
        | market =>
            if 5 <=? weekday t then false
            else if bool_decide (date_iso (date_of t) ∈ c.(mc_holidays)) then false
            else match market with
                 | FOREX => true
                 | _ => if String.eqb timeframe "1d" then true
                        else (3 * hour + 45 * minute <=? time_of t) && (time_of t <? 10 * hour)
                 end
        end).

(** The [while] loop of [expected_opens]. *)
Fixpoint collect_opens (fuel : nat) (c : MarketCalendar) (timeframe : string) (step : Z) (end_ cursor : datetime) : result (list datetime) :=
  match fuel with
  | O => mret []
  | S fuel =>
      go ← dt_le cursor end_;
      if go : bool then
        expected ← is_expected c cursor timeframe;
        next ← dt_add cursor step;
        rest ← collect_opens fuel c timeframe step end_ next;
        mret (if expected : bool then cursor :: rest else rest)
      else mret []
  end.
Definition opens_fuel (start end_ step : Z) : nat := S (Z.to_nat ((end_ - start) / step + 1)).
Definition expected_opens (c : MarketCalendar) (start end_ : datetime) (timeframe : string) : result (list datetime) :=
  start ← utc start "start";
  end_ ← utc end_ "end";
  step ← timeframe_delta timeframe;
  collect_opens (opens_fuel (instant start) (instant end_) step) c timeframe step end_ start.

(** ** Properties *)

Lemma timeframe_delta_bounds timeframe step : timeframe_delta timeframe = Ok step ->
  exists n, step = n * second /\ 60 <= n <= 86400 * (max_delta_days + 1).
Proof.
  unfold timeframe_delta. destruct (py_int_str _) as [value|e]; [|done].
  destruct (unit_seconds _) as [k|] eqn:Ek; [|done]. destruct (value <? 1) eqn:Ev; [done|].
  unfold timedelta_us. destruct (_ || _); [done|]. destruct ((value * k * second / day <? - max_delta_days) || _) eqn:Eb; [done|].
  intros [= <-]. exists (value * k). split; [done|].
  assert (Hk : 60 <= k <= 86400).
  { unfold unit_seconds in Ek. repeat (destruct (String.eqb _ _); [injection Ek as <-; lia|]). done. }
  split; [nia|]. set (x := value * k) in *. clearbody x. clear Ek Ev Hk.
  pose proof (Z.mul_succ_div_gt (x * second) day ltac:(done)) as Hd. assert (Hq : x * second / day <= max_delta_days) by lia.
  set (q := x * second / day) in *. clearbody q. unfold max_delta_days, day, hour, minute, second in *. lia.
Qed.

Lemma utc_datetime_inv us t : utc_datetime us = Ok t -> t = at_utc us.
Proof.
  unfold utc_datetime. destruct (_ || _); [done|]. destruct (civil _) as [[y m] d]. destruct (_ || _); [done|].
  destruct (in_range us); [|done]. by intros [= <-].
Qed.
Lemma dt_add_inv d us t : dt_add d us = Ok t -> t = Datetime (d.(wall) + us) d.(utcoffset).
Proof. unfold dt_add. destruct (in_range _); [by intros [= <-]|done]. Qed.

(** The open of the last settled bar: on the grid of the timeframe from the
    epoch, at least one whole bar in the past and less than two. *)
Theorem last_settled_open_bounds now timeframe t (Hnow : 0 <= instant now < 2 ^ 33 * second)
    (Hstep : forall step, timeframe_delta timeframe = Ok step -> step < 2 ^ 33 * second) (Hopen : last_settled_open now timeframe = Ok t) :
  exists step us, timeframe_delta timeframe = Ok step /\ t = at_utc us /\ us mod step = 0 /\ us + step <= instant now < us + 2 * step.
Proof.
  unfold last_settled_open in Hopen. apply result_bind_ok in Hopen as (d & [_ ->]%utc_ok & Hopen).
  apply result_bind_ok in Hopen as (step & Es & Hopen). specialize (Hstep _ Es).
  destruct (timeframe_delta_bounds _ _ Es) as (n & -> & Hn). apply result_bind_ok in Hopen as (secs & E1 & Hopen).
  unfold timestamp_of in E1. rewrite instant_at_utc, (timestamp_floor _ Hnow) in E1. injection E1 as <-.
  apply result_bind_ok in Hopen as (n' & E2 & Hopen). rewrite timestamp_floor in E2 by (unfold second in *; lia). injection E2 as <-.
  rewrite Z.div_mul in Hopen by done. apply result_bind_ok in Hopen as (b & E3%utc_datetime_inv & Hopen%dt_add_inv). subst.
  set (secs := instant now / second) in *. exists (n * second), ((secs - secs mod n) * second - n * second).
  split; [done|]. split; [done|]. pose proof (Z.div_mod secs n ltac:(lia)) as Hq. pose proof (Z.mod_pos_bound secs n ltac:(lia)) as Hm.
  assert (Hb : secs - secs mod n = n * (secs / n)) by lia. rewrite Hb. split.
  - rewrite <-Z.mul_sub_distr_r. replace (n * (secs / n) - n) with ((secs / n - 1) * n) by lia.
    rewrite <-Z.mul_assoc. apply Z.mod_mul. unfold second. lia.
  - pose proof (Z.div_mod (instant now) second ltac:(done)) as Hd. pose proof (Z.mod_pos_bound (instant now) second ltac:(done)) as Hdm.
    fold secs in Hd. unfold second in *. lia.
Qed.

(** [weekday], the date and the time of a UTC instant decide [is_expected]. *)
Definition expected_at (c : MarketCalendar) (timeframe : string) (us : Z) : bool :=
  match is_expected c (at_utc us) timeframe with Ok b => b | Err _ => false end.
Lemma is_expected_utc c timeframe us : is_expected c (at_utc us) timeframe = Ok (expected_at c timeframe us).
Proof. unfold expected_at, is_expected. by rewrite utc_at_utc. Qed.

(** The grid of opens from [start] by [step] up to [end]. *)
Fixpoint grid (n : nat) (start step : Z) : list Z :=
  match n with O => [] | S n => start :: grid n (start + step) step end.
Definition steps (start end_ step : Z) : nat := Z.to_nat ((end_ - start) / step + 1).

Lemma steps_more start end_ step : 0 < step -> start <= end_ -> steps start end_ step = S (steps (start + step) end_ step).
Proof.
  intros Hs He. unfold steps. replace (end_ - (start + step)) with (end_ - start + (-1) * step) by lia.
  rewrite Z.div_add by lia. pose proof (Z.div_pos (end_ - start) step ltac:(lia) Hs). lia.
Qed.
Lemma steps_none start end_ step : 0 < step -> end_ < start -> steps start end_ step = 0%nat.
Proof. intros Hs He. unfold steps. pose proof (Z.div_lt_upper_bound (end_ - start) step 0 Hs ltac:(lia)). lia. Qed.

Lemma collect_opens_grid c timeframe step end_ : 0 < step -> forall fuel start, (steps start end_ step < fuel)%nat ->
  forall l, collect_opens fuel c timeframe step (at_utc end_) (at_utc start) = Ok l ->
  l = at_utc <$> List.filter (expected_at c timeframe) (grid (steps start end_ step) start step).
Proof.
  intros Hs fuel. induction fuel as [|fuel IH]; intros start Hf l; [lia|]. cbn [collect_opens].
  unfold dt_le. rewrite !aware_at_utc, !instant_at_utc. cbn [eqb]. unfold mbind at 1, result_bind at 1.
  destruct (start <=? end_) eqn:E.
  - rewrite is_expected_utc. unfold mbind at 1, result_bind at 1. intros (next & Hn%dt_add_inv & Hl)%result_bind_ok.
    change (next = at_utc (start + step)) in Hn. subst next. apply result_bind_ok in Hl as (rest & Hrest & [= <-]).
    rewrite (steps_more start end_ step) in Hf |- * by lia. apply IH in Hrest; [|lia]. subst rest. cbn [grid List.filter].
    by destruct (expected_at c timeframe start).
  - intros [= <-]. by rewrite steps_none by lia.
Qed.
Lemma collect_opens_total c timeframe step end_ : 0 < step -> in_range (end_ + step) = true -> forall fuel start,
  in_range (start + step) = true -> exists l, collect_opens fuel c timeframe step (at_utc end_) (at_utc start) = Ok l.
Proof.
  intros Hs He fuel. induction fuel as [|fuel IH]; intros start Hr; [by eexists|]. cbn [collect_opens].
  unfold dt_le. rewrite !aware_at_utc, !instant_at_utc. cbn [eqb]. unfold mbind at 1, result_bind at 1.
  destruct (start <=? end_) eqn:E; [|by eexists]. rewrite is_expected_utc. unfold mbind at 1, result_bind at 1.
  unfold dt_add. change (wall (at_utc start)) with start. rewrite Hr. unfold mbind at 1, result_bind at 1.
  destruct (start + step <=? end_) eqn:E2.
  - destruct (IH (start + step)) as [l Hl]; [unfold in_range in *; lia|].
    change (Datetime (start + step) (utcoffset (at_utc start))) with (at_utc (start + step)). rewrite Hl. cbn. by eexists.
  - change (Datetime (start + step) (utcoffset (at_utc start))) with (at_utc (start + step)).
    destruct fuel; cbn [collect_opens]; [cbn; by eexists|].
    unfold dt_le. rewrite !aware_at_utc, !instant_at_utc. cbn [eqb]. rewrite E2. cbn. by eexists.
Qed.

Lemma grid_elem n start step x : 0 < step -> x ∈ grid n start step <-> exists k, 0 <= k < Z.of_nat n /\ x = start + k * step.
Proof.
  intros Hs. revert start. induction n as [|n IH]; intros start; cbn [grid].
  - split; [by intros H%elem_of_nil|]. intros (k & Hk & _). lia.
  - rewrite elem_of_cons, IH. split.
    + intros [->|(k & Hk & ->)]; [exists 0; lia|exists (k + 1); lia].
    + intros (k & Hk & ->). destruct (Z.eq_dec k 0) as [->|]; [left; lia|right; exists (k - 1); lia].
Qed.

(** The expected opens of a window are exactly the opens of the timeframe's
    grid from its start to its end that the market's calendar expects. *)
Theorem expected_opens_exact c start end_ timeframe step l :
  timeframe_delta timeframe = Ok step -> expected_opens c (at_utc start) (at_utc end_) timeframe = Ok l ->
  forall t, t ∈ l <-> exists k, 0 <= k /\ start + k * step <= end_ /\ t = at_utc (start + k * step) /\ is_expected c t timeframe = Ok true.
Proof.
  intros Es Hl t. destruct (timeframe_delta_bounds _ _ Es) as (n & Hn & Hb).
  assert (Hpos : 0 < step) by (subst step; unfold second; lia). unfold expected_opens in Hl.
  rewrite !utc_at_utc in Hl. unfold mbind, result_bind in Hl. rewrite Es, !instant_at_utc in Hl.
  apply collect_opens_grid in Hl; [|done|unfold opens_fuel; fold (steps start end_ step); lia]. subst l.
  rewrite list_elem_of_fmap. split.
  - intros (us & -> & Hus). apply filter_elem in Hus as [Hus He]. apply grid_elem in Hus as (k & Hk & ->); [|done].
    exists k. unfold steps in Hk. split; [lia|]. split; [|split; [done|]; by rewrite is_expected_utc, He].
    pose proof (Z.mul_div_le (end_ - start) step Hpos). nia.
  - intros (k & Hk & He & -> & Hex). exists (start + k * step). split; [done|]. apply filter_elem. rewrite is_expected_utc in Hex.
    split; [|by injection Hex]. apply grid_elem; [done|]. exists k. split; [|done]. unfold steps.
    assert (k <= (end_ - start) / step) by (apply Z.div_le_lower_bound; lia). lia.
Qed.

Module TimeframesExample.
Example deltas : timeframe_delta "5m" = Ok (300 * second) /\ timeframe_delta " 1_0h" = Ok (36000 * second) /\
  timeframe_delta "0m" = Err (ValueError "unsupported timeframe: 0m") /\ timeframe_delta "1w" = Err (ValueError "unsupported timeframe: 1w") /\
  timeframe_delta "m" = Err (ValueError "unsupported timeframe: m").
Proof. vm_compute. repeat split. Qed.

Definition now : datetime := at_utc (1709276700 * second + 5).
Lemma last_settled_open_bounds_witness :
  exists step us, timeframe_delta "1h" = Ok step /\ at_utc (1709272800 * second) = at_utc us /\ us mod step = 0 /\
    us + step <= instant now < us + 2 * step.
Proof.
  apply (last_settled_open_bounds now "1h" (at_utc (1709272800 * second))); [vm_compute; split; congruence| |vm_compute; reflexivity].
  intros step [= <-]. reflexivity.
Defined.

Definition nse : MarketCalendar := {| mc_market := NSE; mc_holidays := ["2024-03-08"] |}.
Definition opens : list datetime :=
  at_utc <$> [1709265600 * second; 1709269200 * second; 1709272800 * second; 1709276400 * second; 1709280000 * second; 1709283600 * second].
Lemma expected_opens_exact_witness :
  forall t, t ∈ opens <-> exists k, 0 <= k /\ 1709251200 * second + k * (3600 * second) <= 1709294400 * second /\
    t = at_utc (1709251200 * second + k * (3600 * second)) /\ is_expected nse t "1h" = Ok true.
Proof.
  apply (expected_opens_exact nse (1709251200 * second) (1709294400 * second) "1h" (3600 * second) opens); vm_compute; reflexivity.
Defined.
End TimeframesExample.
