(* ===== verification/NseSession.v ===== *)
(** * The NSE equity session (src/nanodelta/markets/nse_session.py)

    Whether the exchange is in its normal session at an instant, from the
    weekday, the configured holidays and the clock in India.  The offset of
    Asia/Kolkata comes from the time-zone database and is a parameter. *)

From Stdlib Require Import ZArith Floats Ascii String ZifyBool.
From stdpp Require Import prelude strings list.
From S2P Require Import Prelude PyData PyText PyDigits PyTime PyDate Contracts Timeframes.

Local Open Scope Z_scope.

(** [date.fromisoformat], as the number of the day *)
Definition date_fromisoformat (s : string) : result Z :=
  let n := String.length s in
  if Nat.eqb n 7 || Nat.eqb n 8 || Nat.eqb n 10 then
    match parse_date s n with
    | Some (y, m, d) => t ← datetime_new y m d 0 0 0 0 None; mret (date_of t)
    | None => invalid_isoformat s
    end
  else invalid_isoformat s.

Inductive NseSessionState := OPEN | CLOSED.
#[export] Instance NseSessionState_eq_dec : EqDecision NseSessionState.
Proof. solve_decision. Defined.

Record NseSessionSnapshot := {
  ns_state : NseSessionState;
  ns_as_of : datetime;
  ns_local_date : Z;
  ns_normal_open : string;
  ns_normal_close : string;
  ns_reason : string;
  ns_holiday_calendar_year : option Z;
  ns_holiday_calendar_complete : bool }.

Definition NORMAL_OPEN : Z := 9 * hour + 15 * minute.
Definition NORMAL_CLOSE : Z := 15 * hour + 30 * minute.

(** [_holidays] *)
Definition holidays_of (environ : dict string string) : result (list Z) :=
  let raw := default "" (environ !! "NANODELTA_NSE_HOLIDAYS") in
  match map_result (fun value => date_fromisoformat (str_strip value)) (List.filter (fun value => negb (str_blank value)) (split_on "," raw)) with
  | Ok l => Ok l
  | Err _ => Err (RuntimeError "NANODELTA_NSE_HOLIDAYS must contain comma-separated ISO dates")
  end.
Definition calendar_year_of (environ : dict string string) : result (option Z) :=
  let raw := str_strip (default "" (environ !! "NANODELTA_NSE_HOLIDAY_CALENDAR_YEAR")) in
  if str_empty raw then mret None
  else match py_int_str raw with
       | Ok y => mret (Some y)
       | Err _ => Err (RuntimeError "NANODELTA_NSE_HOLIDAY_CALENDAR_YEAR must be a year")
       end.

Section Session.
(** The offset of Asia/Kolkata at an instant. *)
Context (kolkata : Z -> Z).

(** [at.astimezone(tz)] for the offset of the zone *)
Definition astimezone (at_ : datetime) (offset : Z) : result datetime :=
  if in_range (instant at_ + offset) then Ok (Datetime (instant at_ + offset) (Some offset))
  else Err (OverflowError "date value out of range").

Definition session_state (holidays : list Z) (local : datetime) : NseSessionState * string :=
  if 5 <=? weekday local then (CLOSED, "WEEKEND")
  else if bool_decide (date_of local ∈ holidays) then (CLOSED, "CONFIGURED_TRADING_HOLIDAY")
  else if time_of local <? NORMAL_OPEN then (CLOSED, "BEFORE_NORMAL_MARKET")
  else if NORMAL_CLOSE <=? time_of local then (CLOSED, "AFTER_NORMAL_MARKET")
  else (OPEN, "NORMAL_MARKET_SESSION").

Definition nse_equity_session (at_ : datetime) (environ : dict string string) : result NseSessionSnapshot :=
  _ ← raise_if (negb (aware at_)) (ValueError "session timestamp must be timezone-aware");
  local ← astimezone at_ (kolkata (instant at_));
  calendar_year ← calendar_year_of environ;
  holidays ← holidays_of environ;
  let '(local_year, _, _) := civil (date_of local) in
  let complete := bool_decide (calendar_year = Some local_year) && match holidays with [] => false | _ => true end in
  let '(state, reason) := session_state holidays local in
  as_of ← astimezone at_ 0;
  mret {| ns_state := state; ns_as_of := as_of; ns_local_date := date_of local; ns_normal_open := "09:15"; ns_normal_close := "15:30";
          ns_reason := reason; ns_holiday_calendar_year := calendar_year; ns_holiday_calendar_complete := complete |}.
End Session.

(** ** Agreement with the calendar of the backfill *)

(** Within the session of India's clock the date is the UTC date. *)
Lemma session_window us : let offset := 330 * minute in
  (NORMAL_OPEN <= (us + offset) mod day < NORMAL_CLOSE <-> 3 * hour + 45 * minute <= us mod day < 10 * hour) /\
  (NORMAL_OPEN <= (us + offset) mod day < NORMAL_CLOSE -> (us + offset) / day = us / day).
Proof.
  cbv zeta. unfold NORMAL_OPEN, NORMAL_CLOSE. pose proof (Z.div_mod us day ltac:(done)) as H1. pose proof (Z.mod_pos_bound us day ltac:(done)) as H2.
  pose proof (Z.div_mod (us + 330 * minute) day ltac:(done)) as H3. pose proof (Z.mod_pos_bound (us + 330 * minute) day ltac:(done)) as H4.
  set (q := us / day) in *. set (r := us mod day) in *. set (q' := (us + 330 * minute) / day) in *. set (r' := (us + 330 * minute) mod day) in *.
  clearbody q r q' r'. unfold day, hour, minute, second in *.
  assert (q' = q \/ q' = q + 1) by lia. split; [split|]; intros; lia.
Qed.

(** ISO dates name days uniquely. *)
Lemma date_iso_inj d d' : min_day <= d <= max_day -> min_day <= d' <= max_day -> date_iso d = date_iso d' -> d = d'.
Proof.
  intros Hd Hd' E.
  assert (Hiso : isoformat (at_utc (d * day)) = isoformat (at_utc (d' * day))).
  { rewrite !isoformat_at_utc, !Z.div_mul, !Z.mod_mul by done. by rewrite E. }
  assert (Hr : forall x, min_day <= x <= max_day -> in_range (x * day) = true) by (intros x Hx; unfold in_range, day, hour, minute, second; lia).
  pose proof (fromisoformat_isoformat _ (Hr d Hd)) as H1. rewrite Hiso, (fromisoformat_isoformat _ (Hr d' Hd')) in H1.
  injection H1 as H1. unfold day, hour, minute, second in H1. lia.
Qed.
Lemma holiday_iso d holidays : min_day <= d <= max_day -> Forall (fun d => min_day <= d <= max_day) holidays ->
  bool_decide (date_iso d ∈ date_iso <$> holidays) = bool_decide (d ∈ holidays).
Proof.
  intros Hd Hall. apply bool_decide_ext. rewrite list_elem_of_fmap. split; [|by exists d].
  intros (d' & E & Hin). rewrite (date_iso_inj d d'); [done|done|by eapply Forall_forall in Hall|done].
Qed.

(** The two calendars of the exchange agree.  While India's offset is five
    and a half hours, the equity session is OPEN at an instant exactly when
    the backfill's calendar expects an intraday bar there, given the same
    holidays. *)
Theorem session_matches_calendar kolkata at_ environ holidays timeframe snapshot :
  kolkata (instant at_) = 330 * minute -> holidays_of environ = Ok holidays -> timeframe <> "1d" ->
  nse_equity_session kolkata at_ environ = Ok snapshot ->
  Forall (fun d => min_day <= d <= max_day) holidays -> in_range (instant at_) = true ->
  is_expected {| mc_market := NSE; mc_holidays := date_iso <$> holidays |} at_ timeframe =
    Ok (bool_decide (snapshot.(ns_state) = OPEN)).
Proof.
  intros Hk Hh Htf E Hall Hr. unfold nse_equity_session in E. rewrite Hk in E.
  apply result_bind_ok in E as (u & Ha%raise_if_ok & E). apply negb_false_iff in Ha. apply result_bind_ok in E as (local & El & E).
  apply result_bind_ok in E as (y & _ & E). rewrite Hh in E. unfold mbind at 1, result_bind at 1 in E.
  destruct (civil (date_of local)) as [[ly lm] ld]. destruct (session_state holidays local) as [state reason] eqn:Es.
  apply result_bind_ok in E as (as_of & _ & [= <-]). cbn [ns_state].
  unfold astimezone in El. destruct (in_range _); [|done]. injection El as <-.
  unfold is_expected. cbn [mc_market mc_holidays]. rewrite (proj2 (utc_ok at_ "timestamp" _) (conj Ha eq_refl)). unfold mbind, result_bind, mret, result_ret.
  f_equal. destruct (session_window (instant at_)) as [Hw Hdate]. unfold session_state in Es.
  unfold weekday, date_of, time_of in *. cbn [wall at_utc] in *.
  assert (String.eqb timeframe "1d" = false) as -> by (by apply String.eqb_neq).
  rewrite (holiday_iso (instant at_ / day)); [|unfold in_range in Hr; split;
    [apply Z.div_le_lower_bound|apply Z.lt_succ_r, Z.div_lt_upper_bound]; unfold day, hour, minute, second in *; lia|done].
  set (utc_time := instant at_ mod day) in *. set (local_time := (instant at_ + 330 * minute) mod day) in *.
  destruct (decide (NORMAL_OPEN <= local_time < NORMAL_CLOSE)) as [Hin|Hout].
  - rewrite (Hdate Hin) in Es. apply Hw in Hin as Hutc. destruct (5 <=? _); [by injection Es as <- _|].
    destruct (bool_decide (instant at_ / day ∈ holidays)); [by injection Es as <- _|].
    rewrite (proj2 (Z.ltb_ge local_time NORMAL_OPEN)), (proj2 (Z.leb_gt NORMAL_CLOSE local_time)) in Es by lia.
    injection Es as <- _. rewrite bool_decide_true by done. lia.
  - assert (Hutc : (3 * hour + 45 * minute <=? utc_time) && (utc_time <? 10 * hour) = false) by lia.
    assert (state = CLOSED) as ->.
    { destruct (5 <=? _); [by injection Es as <- _|]. destruct (bool_decide _); [by injection Es as <- _|].
      destruct (local_time <? NORMAL_OPEN) eqn:E1; [by injection Es as <- _|].
      destruct (NORMAL_CLOSE <=? local_time) eqn:E2; [by injection Es as <- _|]. lia. }
    rewrite Hutc, (bool_decide_false (CLOSED = OPEN)) by done.
    destruct (5 <=? (instant at_ / day + 3) mod 7); [done|]. by destruct (bool_decide (instant at_ / day ∈ holidays)).
Qed.

Module NseSessionExample.
Definition environ : dict string string :=
  <["NANODELTA_NSE_HOLIDAYS" := "2024-03-08, 20240325,,2024-W13-5"]> (<["NANODELTA_NSE_HOLIDAY_CALENDAR_YEAR" := " 2024 "]> ∅).
Definition ist (_ : Z) : Z := 330 * minute.
Definition at_second (t : Z) : datetime := at_utc (t * second).
Definition shown (t : Z) := match nse_equity_session ist (at_second t) environ with
  | Ok s => Some (s.(ns_state), s.(ns_reason), s.(ns_holiday_calendar_complete))
  | Err _ => None
  end.
(** Friday 1 March 2024 at 09:14:59, 09:15 and 15:30; Saturday; a holiday. *)
Example sessions :
  List.map shown [1709264699; 1709264700; 1709287200; 1709355600; 1709874000] =
  [Some (CLOSED, "BEFORE_NORMAL_MARKET", true); Some (OPEN, "NORMAL_MARKET_SESSION", true); Some (CLOSED, "AFTER_NORMAL_MARKET", true);
   Some (CLOSED, "WEEKEND", true); Some (CLOSED, "CONFIGURED_TRADING_HOLIDAY", true)].
Proof. vm_compute. reflexivity. Qed.

Definition holidays : list Z := [19790; 19807; 19811].
Definition opening : NseSessionSnapshot := {|
  ns_state := OPEN; ns_as_of := at_second 1709264700; ns_local_date := 19783; ns_normal_open := "09:15"; ns_normal_close := "15:30";
  ns_reason := "NORMAL_MARKET_SESSION"; ns_holiday_calendar_year := Some 2024; ns_holiday_calendar_complete := true |}.
Lemma session_matches_calendar_witness :
  is_expected {| mc_market := NSE; mc_holidays := date_iso <$> holidays |} (at_second 1709264700) "5m" =
    Ok (bool_decide (opening.(ns_state) = OPEN)).
Proof.
  apply (session_matches_calendar ist (at_second 1709264700) environ holidays "5m" opening);
    [reflexivity|vm_compute; reflexivity|done|vm_compute; reflexivity| |reflexivity].
  repeat constructor; unfold min_day, max_day; lia.
Defined.

(** The backfill is given a calendar without holidays and expects bars on
    one. *)
Example holiday_expected :
  shown 1709874000 = Some (CLOSED, "CONFIGURED_TRADING_HOLIDAY", true) /\
  is_expected {| mc_market := NSE; mc_holidays := [] |} (at_second 1709874000) "5m" = Ok true.
Proof. vm_compute. split; reflexivity. Qed.
End NseSessionExample.
