(* ===== verification/Realtime.v ===== *)
(** * The realtime market cycle (src/nanodelta/runtime/realtime.py, second half)

    One market's feed: it consumes a bounded slice of its active provider's
    stream, persists quotes and settled bars, counts sequence gaps, fails over
    along the provider route and returns to the primary after enough probes.

    The outside world (streams, clock, state store, handlers) is a state [W]
    with operations over it; an [await] is an operation of the world.  The
    loop over a stream may run for ever, so it takes fuel, and [None] stands
    for a run that has not ended within it. *)

From Stdlib Require Import ZArith Floats Ascii String ZifyBool.
From stdpp Require Import prelude strings pretty numbers list sorting.
From S2P Require Import Prelude PyData PyFloat FloatTheory FloatRound PyText PyDigits PyParse PyJson Sha256 PyTime PyDate Contracts Adapters Etl Candles.

Local Open Scope Z_scope.

Inductive FeedState := HEALTHY | DEGRADED | FAILED_OVER.
Definition FeedState_value (s : FeedState) : string :=
  match s with HEALTHY => "HEALTHY" | DEGRADED => "DEGRADED" | FAILED_OVER => "FAILED_OVER" end.
(** [FeedState(text)] *)
Definition FeedState_of (text : string) : result FeedState :=
  if String.eqb text "HEALTHY" then Ok HEALTHY
  else if String.eqb text "DEGRADED" then Ok DEGRADED
  else if String.eqb text "FAILED_OVER" then Ok FAILED_OVER
  else Err (ValueError (repr_str text +:+ " is not a valid FeedState")).

#[export] Instance FeedState_eq_dec : EqDecision FeedState.
Proof. solve_decision. Defined.

Record StreamSnapshot := {
  ss_market : Market;
  ss_active_provider : Provider;
  ss_state : FeedState;
  ss_connected_at : datetime;
  ss_last_event_at : option datetime;
  ss_gap_count : Z;
  ss_failover_count : Z;
  ss_last_error : option string;
  ss_failed_over_at : option datetime;
  ss_fallback_available : bool;
  ss_status_detail : option string }.

Record FeedStateRecord := {
  fr_feed_market : Market;
  fr_active_provider : Provider;
  fr_state : string;
  fr_connected_at : datetime;
  fr_last_event_at : option datetime;
  fr_gap_count : Z;
  fr_failover_count : Z;
  fr_last_error : option string;
  fr_failed_over_at : option datetime;
  fr_fallback_available : bool;
  fr_status_detail : option string }.

Abbreviation sequences := (dict (Provider * string) Z).

(** The [FeedStateStore] protocol over the world. *)
Record FeedStateStore (W : Type) := {
  fs_load : Market -> M W (option FeedStateRecord * sequences);
  fs_save : FeedStateRecord -> M W unit;
  fs_save_sequence : Market -> Provider -> string -> Z -> Z -> M W unit }.
Arguments fs_load {W}.
Arguments fs_save {W}.
Arguments fs_save_sequence {W}.

(** What awaiting the next message of a stream under its deadline gives: a
    message, the end of the stream, or an exception (a timeout included). *)
Inductive stream_event :=
| Received (message : payload)
| Ended
| Failed (e : exn).

Record Environment (W : Type) := {
  ev_clock : W -> datetime * W;
  ev_open : Provider -> M W nat;
  ev_next : nat -> W -> stream_event * W;
  ev_close : nat -> M W unit;
  ev_state_store : option (FeedStateStore W);
  ev_previous_candle_loader : option (CanonicalCandle -> M W (option CanonicalCandle));
  ev_on_features : option (list FeatureRecord -> M W unit) }.
Arguments ev_clock {W}.
Arguments ev_open {W}.
Arguments ev_next {W}.
Arguments ev_close {W}.
Arguments ev_state_store {W}.
Arguments ev_previous_candle_loader {W}.
Arguments ev_on_features {W}.

(** The arguments of the constructor that do not change. *)
Record CycleConfig := {
  cy_market : Market;
  cy_route : list Provider;
  cy_symbol_maps : dict Provider (dict string string);
  cy_max_events : Z;
  cy_staleness : float;
  cy_recovery_successes : Z;
  cy_recovery_cooldown : Z }.

Record CycleState (S W : Type) := {
  rc_active_index : nat;
  rc_primary_successes : Z;
  rc_failed_over_at : option datetime;
  rc_iterators : dict Provider nat;
  rc_snapshot : StreamSnapshot;
  rc_sequences : sequences;
  rc_builders : list CandleBuilder;
  rc_previous : dict (string * string) CanonicalCandle;
  rc_store : S;
  rc_world : W }.
Arguments rc_active_index {S W}.
Arguments rc_primary_successes {S W}.
Arguments rc_failed_over_at {S W}.
Arguments rc_iterators {S W}.
Arguments rc_snapshot {S W}.
Arguments rc_sequences {S W}.
Arguments rc_builders {S W}.
Arguments rc_previous {S W}.
Arguments rc_store {S W}.
Arguments rc_world {S W}.

Section Fields.
Context {S W : Type}.
Implicit Type s : CycleState S W.
Definition set_active_index v s := Build_CycleState S W v s.(rc_primary_successes) s.(rc_failed_over_at) s.(rc_iterators) s.(rc_snapshot) s.(rc_sequences) s.(rc_builders) s.(rc_previous) s.(rc_store) s.(rc_world).
Definition set_primary_successes v s := Build_CycleState S W s.(rc_active_index) v s.(rc_failed_over_at) s.(rc_iterators) s.(rc_snapshot) s.(rc_sequences) s.(rc_builders) s.(rc_previous) s.(rc_store) s.(rc_world).
Definition set_failed_over_at v s := Build_CycleState S W s.(rc_active_index) s.(rc_primary_successes) v s.(rc_iterators) s.(rc_snapshot) s.(rc_sequences) s.(rc_builders) s.(rc_previous) s.(rc_store) s.(rc_world).
Definition set_iterators v s := Build_CycleState S W s.(rc_active_index) s.(rc_primary_successes) s.(rc_failed_over_at) v s.(rc_snapshot) s.(rc_sequences) s.(rc_builders) s.(rc_previous) s.(rc_store) s.(rc_world).
Definition set_snapshot v s := Build_CycleState S W s.(rc_active_index) s.(rc_primary_successes) s.(rc_failed_over_at) s.(rc_iterators) v s.(rc_sequences) s.(rc_builders) s.(rc_previous) s.(rc_store) s.(rc_world).
Definition set_sequences v s := Build_CycleState S W s.(rc_active_index) s.(rc_primary_successes) s.(rc_failed_over_at) s.(rc_iterators) s.(rc_snapshot) v s.(rc_builders) s.(rc_previous) s.(rc_store) s.(rc_world).
Definition set_builders v s := Build_CycleState S W s.(rc_active_index) s.(rc_primary_successes) s.(rc_failed_over_at) s.(rc_iterators) s.(rc_snapshot) s.(rc_sequences) v s.(rc_previous) s.(rc_store) s.(rc_world).
Definition set_previous v s := Build_CycleState S W s.(rc_active_index) s.(rc_primary_successes) s.(rc_failed_over_at) s.(rc_iterators) s.(rc_snapshot) s.(rc_sequences) s.(rc_builders) v s.(rc_store) s.(rc_world).
Definition set_store v s := Build_CycleState S W s.(rc_active_index) s.(rc_primary_successes) s.(rc_failed_over_at) s.(rc_iterators) s.(rc_snapshot) s.(rc_sequences) s.(rc_builders) s.(rc_previous) v s.(rc_world).
Definition set_world v s := Build_CycleState S W s.(rc_active_index) s.(rc_primary_successes) s.(rc_failed_over_at) s.(rc_iterators) s.(rc_snapshot) s.(rc_sequences) s.(rc_builders) s.(rc_previous) s.(rc_store) v.
End Fields.

(** [replace(snapshot, ...)] for the fields the code replaces. *)
Definition with_active (p : Provider) (t : FeedState) (s : StreamSnapshot) : StreamSnapshot :=
  {| ss_market := s.(ss_market); ss_active_provider := p; ss_state := t; ss_connected_at := s.(ss_connected_at);
     ss_last_event_at := s.(ss_last_event_at); ss_gap_count := s.(ss_gap_count); ss_failover_count := s.(ss_failover_count);
     ss_last_error := s.(ss_last_error); ss_failed_over_at := s.(ss_failed_over_at);
     ss_fallback_available := s.(ss_fallback_available); ss_status_detail := s.(ss_status_detail) |}.
Definition with_degraded (error : string) (detail : option string) (s : StreamSnapshot) : StreamSnapshot :=
  {| ss_market := s.(ss_market); ss_active_provider := s.(ss_active_provider); ss_state := DEGRADED;
     ss_connected_at := s.(ss_connected_at); ss_last_event_at := s.(ss_last_event_at); ss_gap_count := s.(ss_gap_count);
     ss_failover_count := s.(ss_failover_count); ss_last_error := Some error; ss_failed_over_at := s.(ss_failed_over_at);
     ss_fallback_available := s.(ss_fallback_available); ss_status_detail := detail |}.
Definition with_failover (p : Provider) (error : string) (at_ : option datetime) (s : StreamSnapshot) : StreamSnapshot :=
  {| ss_market := s.(ss_market); ss_active_provider := p; ss_state := FAILED_OVER; ss_connected_at := s.(ss_connected_at);
     ss_last_event_at := s.(ss_last_event_at); ss_gap_count := s.(ss_gap_count); ss_failover_count := s.(ss_failover_count) + 1;
     ss_last_error := Some error; ss_failed_over_at := at_; ss_fallback_available := s.(ss_fallback_available);
     ss_status_detail := s.(ss_status_detail) |}.
Definition with_event (p : Provider) (t : datetime) (s : StreamSnapshot) : StreamSnapshot :=
  {| ss_market := s.(ss_market); ss_active_provider := p; ss_state := s.(ss_state); ss_connected_at := s.(ss_connected_at);
     ss_last_event_at := Some t; ss_gap_count := s.(ss_gap_count); ss_failover_count := s.(ss_failover_count);
     ss_last_error := None; ss_failed_over_at := s.(ss_failed_over_at); ss_fallback_available := s.(ss_fallback_available);
     ss_status_detail := s.(ss_status_detail) |}.
Definition with_gap (s : StreamSnapshot) : StreamSnapshot :=
  {| ss_market := s.(ss_market); ss_active_provider := s.(ss_active_provider); ss_state := s.(ss_state);
     ss_connected_at := s.(ss_connected_at); ss_last_event_at := s.(ss_last_event_at); ss_gap_count := s.(ss_gap_count) + 1;
     ss_failover_count := s.(ss_failover_count); ss_last_error := s.(ss_last_error); ss_failed_over_at := s.(ss_failed_over_at);
     ss_fallback_available := s.(ss_fallback_available); ss_status_detail := s.(ss_status_detail) |}.
Definition with_connected (t : datetime) (s : StreamSnapshot) : StreamSnapshot :=
  {| ss_market := s.(ss_market); ss_active_provider := s.(ss_active_provider); ss_state := s.(ss_state); ss_connected_at := t;
     ss_last_event_at := s.(ss_last_event_at); ss_gap_count := s.(ss_gap_count); ss_failover_count := s.(ss_failover_count);
     ss_last_error := s.(ss_last_error); ss_failed_over_at := s.(ss_failed_over_at);
     ss_fallback_available := s.(ss_fallback_available); ss_status_detail := s.(ss_status_detail) |}.

(** [asyncio.CancelledError] is the one modelled exception that
    [except Exception] lets through. *)
Definition is_cancelled (e : exn) : bool := match e with OtherException cls _ => String.eqb cls "CancelledError" | _ => false end.

(** Computations that may not end: [None] when the fuel did not suffice. *)
Definition P (S A : Type) : Type := S -> option (result A * S).
#[export] Instance P_ret {S} : MRet (P S) := fun A a s => Some (Ok a, s).
#[export] Instance P_bind {S} : MBind (P S) := fun A B f m s =>
  match m s with
  | Some (Ok a, s') => f a s'
  | Some (Err e, s') => Some (Err e, s')
  | None => None
  end.
Definition ending {S A} (m : M S A) : P S A := fun s => Some (m s).

(** [try: m  except: handler] for the exceptions [catches] accepts. *)
Definition try_except {S A} (catches : exn -> bool) (m : P S A) (handler : exn -> P S A) : P S A := fun s =>
  match m s with
  | Some (Err e, s') => if catches e then handler e s' else Some (Err e, s')
  | r => r
  end.

Section Cycle.
Context {S : Type} `{RecordStore S} {W : Type} (env : Environment W) (cfg : CycleConfig).
Abbreviation St := (CycleState S W).

Definition in_world {A} (m : M W A) : M St A := zoom rc_world set_world m.
Definition in_store {A} (m : M S A) : M St A := zoom rc_store set_store m.
Definition clock : M St datetime := in_world (fun w => let '(t, w') := env.(ev_clock) w in (Ok t, w')).

Definition record_of (s : StreamSnapshot) : FeedStateRecord :=
  {| fr_feed_market := s.(ss_market); fr_active_provider := s.(ss_active_provider); fr_state := FeedState_value s.(ss_state);
     fr_connected_at := s.(ss_connected_at); fr_last_event_at := s.(ss_last_event_at); fr_gap_count := s.(ss_gap_count);
     fr_failover_count := s.(ss_failover_count); fr_last_error := s.(ss_last_error); fr_failed_over_at := s.(ss_failed_over_at);
     fr_fallback_available := s.(ss_fallback_available); fr_status_detail := s.(ss_status_detail) |}.

Definition save_snapshot : M St unit :=
  match env.(ev_state_store) with
  | None => mret tt
  | Some store => self ← get_state; in_world (store.(fs_save) (record_of self.(rc_snapshot)))
  end.

Definition update_snapshot (f : StreamSnapshot -> StreamSnapshot) : M St unit :=
  modify (fun self => set_snapshot (f self.(rc_snapshot)) self).

Definition open_provider (provider : Provider) : M St nat :=
  iterator ← in_world (env.(ev_open) provider);
  _ ← modify (fun self => set_iterators (<[provider := iterator]> self.(rc_iterators)) self);
  now ← clock;
  _ ← update_snapshot (with_connected now);
  _ ← save_snapshot;
  mret iterator.

Definition close_provider (provider : Provider) : M St unit :=
  self ← get_state;
  match self.(rc_iterators) !! provider with
  | None => mret tt
  | Some iterator =>
      _ ← modify (fun self => set_iterators (delete provider self.(rc_iterators)) self);
      in_world (env.(ev_close) iterator)
  end.

Definition track_sequence (quote : QuoteEvent) : M St unit :=
  match quote.(qe_sequence) with
  | None => mret tt
  | Some sequence =>
      self ← get_state;
      let key := (quote.(qe_provider), quote.(qe_symbol)) in
      let previous := self.(rc_sequences) !! key in
      let gap := match previous with Some p => p + 1 <? sequence | None => false end in
      _ ← when gap (update_snapshot with_gap);
      _ ← when (match previous with Some p => p <? sequence | None => true end)
            (_ ← modify (fun self => set_sequences (<[key := sequence]> self.(rc_sequences)) self);
             match env.(ev_state_store) with
             | None => mret tt
             | Some store => in_world (store.(fs_save_sequence) cfg.(cy_market) quote.(qe_provider) quote.(qe_symbol) sequence
                                         (if gap then 1 else 0))
             end);
      save_snapshot
  end.

(** The features of a new candle, offered to the decision handler, whose
    exceptions end here. *)
Definition offer_features (features : list FeatureRecord) : M St unit :=
  match features, env.(ev_on_features) with
  | _ :: _, Some handler => fun self =>
      match in_world (handler features) self with
      | (Ok _, self') => (Ok tt, self')
      | (Err e, self') => if is_cancelled e then (Err e, self') else (Ok tt, self')
      end
  | _, _ => mret tt
  end.

Definition persist_settled (quote : QuoteEvent) (bar : SettledCandle) : M St unit :=
  p ← lift (candle_payload quote.(qe_provider) bar);
  now ← clock;
  res ← in_store (ingest quote.(qe_market) quote.(qe_provider) CANDLE quote.(qe_symbol) p now);
  match res.(ir_canonical) with
  | None => mret tt
  | Some canonical =>
      if negb res.(ir_silver_created) then mret tt
      else
        self ← get_state;
        let key := (canonical.(cc_symbol), canonical.(cc_timeframe)) in
        previous ← match self.(rc_previous) !! key, env.(ev_previous_candle_loader) with
                   | None, Some loader => in_world (loader canonical)
                   | previous, _ => mret previous
                   end;
        _ ← modify (fun self => set_previous (<[key := canonical]> self.(rc_previous)) self);
        match previous with
        | None => mret tt
        | Some previous => features ← in_store (build_gold [previous; canonical]); offer_features features
        end
  end.

(** [for builder in self.builders]: builder [i] of the tuple. *)
Definition in_builder {A} (i : nat) (b : CandleBuilder) (m : M CandleBuilder A) : M St A := fun self =>
  let '(r, b') := m b in (r, set_builders (<[i := b']> self.(rc_builders)) self).

Definition quote_payload (quote : QuoteEvent) : payload :=
  [("symbol", JStr quote.(qe_symbol)); ("time", JStr (isoformat quote.(qe_event_time))); ("price", JFloat quote.(qe_price));
   ("volume", JFloat quote.(qe_volume)); ("sequence", match quote.(qe_sequence) with Some n => JInt n | None => JNull end)].

Definition persist_quote_and_settled (quote : QuoteEvent) : M St unit :=
  now ← clock;
  _ ← in_store (ingest quote.(qe_market) quote.(qe_provider) QUOTE quote.(qe_symbol) (quote_payload quote) now);
  self ← get_state;
  for_each (imap pair self.(rc_builders)) (fun '(i, builder) =>
    bar ← in_builder i builder (CandleBuilder_add quote);
    match bar with None => mret tt | Some bar => persist_settled quote bar end).

Definition next_event (iterator : nat) : M St stream_event :=
  in_world (fun w => let '(e, w') := env.(ev_next) iterator w in (Ok e, w')).

(** One message: whether it counted. *)
Definition consume_message (provider : Provider) (persist observe : bool) (message : payload) : M St bool :=
  now ← clock;
  quote ← lift (normalize_quote cfg.(cy_market) provider message now (default ∅ (cfg.(cy_symbol_maps) !! provider)));
  match quote with
  | None => mret false
  | Some quote =>
      _ ← when observe (track_sequence quote);
      _ ← when persist (persist_quote_and_settled quote);
      _ ← when observe (_ ← update_snapshot (with_event provider quote.(qe_event_time)); save_snapshot);
      mret true
  end.

(** The [while] loop of [_consume]. *)
Fixpoint consume_loop (fuel : nat) (provider : Provider) (target : Z) (persist observe : bool) (iterator : nat)
    (count : Z) (clean_reconnects : nat) : P St Z :=
  match fuel with
  | O => fun _ => None
  | Datatypes.S fuel =>
      if negb (count <? target) then mret count
      else
        event ← ending (next_event iterator);
        match event with
        | Ended =>
            _ ← ending (close_provider provider);
            if Nat.leb 1 clean_reconnects then
              ending (raise (OtherException "ConnectionError" (Provider_value provider +:+ " realtime stream repeatedly ended")))
            else
              iterator ← ending (open_provider provider);
              consume_loop fuel provider target persist observe iterator count (Datatypes.S clean_reconnects)
        | Failed e => ending (raise e)
        | Received message =>
            counted ← ending (consume_message provider persist observe message);
            consume_loop fuel provider target persist observe iterator (if counted : bool then count + 1 else count) clean_reconnects
        end
  end.

Definition stale (provider : Provider) : exn := OtherException "TimeoutError" (Provider_value provider +:+ " realtime stream is stale").

Definition consume (fuel : nat) (provider : Provider) (limit : option Z) (persist observe : bool) : P St Z :=
  started ← ending clock;
  self ← ending get_state;
  iterator ← ending (match self.(rc_iterators) !! provider with Some it => mret it | None => open_provider provider end);
  let target := match limit with Some n => if n =? 0 then cfg.(cy_max_events) else n | None => cfg.(cy_max_events) end in
  count ← try_except (fun _ => true) (consume_loop fuel provider target persist observe iterator 0 0)
            (fun e => _ ← ending (close_provider provider); ending (raise e));
  if count =? 0 then ending (raise (stale provider))
  else
    now ← ending clock;
    if fgt (total_seconds (instant now - instant started)) cfg.(cy_staleness) then ending (raise (stale provider))
    else mret count.

Definition recovery_due : M St bool :=
  self ← get_state;
  match self.(rc_failed_over_at) with
  | None => mret false
  | Some t => now ← clock; lift (dt_le (Datetime (t.(wall) + cfg.(cy_recovery_cooldown)) t.(utcoffset)) now)
  end.

Definition probe_primary (fuel : nat) : P St bool :=
  match cfg.(cy_route) with
  | [] => ending (raise (OtherException "IndexError" "tuple index out of range"))
  | primary :: _ =>
      try_except (fun e => negb (is_cancelled e))
        (count ← consume fuel primary (Some 1) false false; mret (count =? 1))
        (fun _ => mret false)
  end.

(** The probe of the primary before a slice, when it is due. *)
Definition recover (fuel : nat) : P St unit :=
  self ← ending get_state;
  if Nat.eqb self.(rc_active_index) 0 then mret tt
  else
    due ← ending recovery_due;
    if negb due then mret tt
    else
      ok ← probe_primary fuel;
      if ok : bool then
        _ ← ending (modify (fun self => set_primary_successes (self.(rc_primary_successes) + 1) self));
        self ← ending get_state;
        if cfg.(cy_recovery_successes) <=? self.(rc_primary_successes) then
          _ ← ending (match cfg.(cy_route) !! self.(rc_active_index) with
                      | Some p => close_provider p
                      | None => raise (OtherException "IndexError" "tuple index out of range")
                      end);
          ending (modify (fun self => set_primary_successes 0 (set_active_index 0%nat self)))
        else mret tt
      else ending (modify (set_primary_successes 0)).

(** A slice from provider [index] of the route succeeded. *)
Definition settle_on (index : nat) (provider : Provider) (count : Z) : M St Z :=
  _ ← modify (set_active_index index);
  _ ← update_snapshot (with_active provider (if Nat.eqb index 0 then HEALTHY else FAILED_OVER));
  _ ← save_snapshot;
  mret count.

(** It failed: the last provider degrades the feed, another hands over. *)
Definition degrade (e : exn) : M St Z :=
  self ← get_state;
  let detail := if Nat.eqb (length cfg.(cy_route)) 1 then Some "NO_REALTIME_FALLBACK_CONFIGURED; operator action required"
                else self.(rc_snapshot).(ss_status_detail) in
  _ ← update_snapshot (with_degraded (str_exn e) detail);
  _ ← save_snapshot;
  raise e.
Definition fail_over (index : nat) (next : Provider) (e : exn) : M St unit :=
  _ ← modify (set_active_index (Datatypes.S index));
  now ← clock;
  _ ← modify (set_failed_over_at (Some now));
  _ ← update_snapshot (with_failover next (str_exn e) (Some now));
  save_snapshot.

(** The [for index in range(...)] loop of [run_once] from [index] on. *)
Fixpoint try_route (fuel : nat) (index : nat) (providers : list Provider) : P St Z :=
  match providers with
  | [] => mret 0
  | provider :: rest =>
      try_except (fun e => negb (is_cancelled e))
        (count ← consume fuel provider None true true; ending (settle_on index provider count))
        (fun e => match rest with
                  | [] => ending (degrade e)
                  | next :: _ => _ ← ending (fail_over index next e); try_route fuel (Datatypes.S index) rest
                  end)
  end.

Definition run_once (fuel : nat) : P St Z :=
  _ ← recover fuel;
  self ← ending get_state;
  try_route fuel self.(rc_active_index) (drop self.(rc_active_index) cfg.(cy_route)).

(** [__call__] and [aclose] *)
Definition call (fuel : nat) (market : Market) : P St unit :=
  _ ← ending (lift (raise_if (negb (bool_decide (market = cfg.(cy_market))))
                      (ValueError "market worker called a mismatched realtime cycle")));
  _ ← run_once fuel;
  mret tt.
Definition aclose : M St unit :=
  self ← get_state;
  for_each (dict_keys self.(rc_iterators)) close_provider.
End Cycle.

(** ** Provider routes (src/nanodelta/providers/registry.py) *)

Inductive ProviderCapability := HISTORICAL_CANDLES | REALTIME_QUOTES | REALTIME_CANDLES | ORDER_BOOK_CAPABILITY.
Definition ProviderCapability_value (c : ProviderCapability) : string :=
  match c with
  | HISTORICAL_CANDLES => "historical_candles" | REALTIME_QUOTES => "realtime_quotes"
  | REALTIME_CANDLES => "realtime_candles" | ORDER_BOOK_CAPABILITY => "order_book"
  end.
#[export] Instance ProviderCapability_eq_dec : EqDecision ProviderCapability.
Proof. solve_decision. Defined.

Definition ProviderRegistry : Type := dict (Market * ProviderCapability) (list Provider).

Definition register_route (market : Market) (capability : ProviderCapability) (providers : list Provider) : M ProviderRegistry unit :=
  _ ← lift (raise_if (match providers with [] => true | _ => negb (Nat.eqb (length (fromkeys providers)) (length providers)) end)
              (ValueError "provider route must be non-empty and contain no duplicates"));
  modify (fun routes => <[(market, capability) := providers]> routes).

Definition route (registry : ProviderRegistry) (market : Market) (capability : ProviderCapability) : result (list Provider) :=
  match (registry : dict (Market * ProviderCapability) (list Provider)) !! (market, capability) with
  | Some providers => Ok providers
  | None => Err (LookupError ("no provider route for " +:+ (Market_value market +:+ ("/" +:+ ProviderCapability_value capability))))
  end.

Definition default_provider_registry : result ProviderRegistry :=
  match (_ ← register_route NSE HISTORICAL_CANDLES [DHAN; TRUEDATA];
         _ ← register_route NSE REALTIME_QUOTES [TRUEDATA; DHAN];
         _ ← register_route FOREX HISTORICAL_CANDLES [OANDA];
         _ ← register_route FOREX REALTIME_QUOTES [OANDA];
         _ ← register_route CRYPTO HISTORICAL_CANDLES [OKX; POLONIEX];
         _ ← register_route CRYPTO REALTIME_QUOTES [OKX; POLONIEX];
         register_route CRYPTO ORDER_BOOK_CAPABILITY [OKX; POLONIEX]) ∅ with
  | (Ok _, registry) => Ok registry
  | (Err e, _) => Err e
  end.

(** ** Construction *)

Section Construction.
Context {S W : Type} (env : Environment W).

(** The bar builders, shortest bars first. *)
Definition bar_builders (bar_timeframes : dict string Z) : result (list CandleBuilder) :=
  let configured := match entries bar_timeframes with [] => [("1m", 60)] | l => l end in
  _ ← raise_if (existsb (fun '(label, seconds) => str_blank label || (seconds <=? 0)) configured)
        (ValueError "realtime bar timeframes must be labelled and positive");
  _ ← raise_if (negb (Nat.eqb (length (fromkeys (List.map snd configured))) (length configured)))
        (ValueError "realtime bar durations must be unique");
  map_result (fun '(label, seconds) => CandleBuilder_new seconds (Some label))
    (py_sorted (fun a b => a.2 <? b.2) configured).

(** The state a persisted record restores. *)
Definition restore (cfg : CycleConfig) (record : FeedStateRecord) (s : CycleState S W) : result (CycleState S W) :=
  match list_find (fun p => p = record.(fr_active_provider)) cfg.(cy_route) with
  | None => mret s
  | Some (index, _) =>
      state ← FeedState_of record.(fr_state);
      let fresh := s.(rc_snapshot) in
      mret (set_failed_over_at record.(fr_failed_over_at) (set_active_index index (set_snapshot
        {| ss_market := cfg.(cy_market); ss_active_provider := record.(fr_active_provider); ss_state := state;
           ss_connected_at := record.(fr_connected_at); ss_last_event_at := record.(fr_last_event_at);
           ss_gap_count := record.(fr_gap_count); ss_failover_count := record.(fr_failover_count);
           ss_last_error := record.(fr_last_error); ss_failed_over_at := record.(fr_failed_over_at);
           ss_fallback_available := fresh.(ss_fallback_available); ss_status_detail := fresh.(ss_status_detail) |} s)))
  end.

(** [RealtimeMarketCycle.__init__]: the configuration and the first state,
    over the world the clock and the state store live in. *)
Definition cycle_new (market : Market) (registry : ProviderRegistry) (clients : list Provider)
    (symbol_maps : dict Provider (dict string string)) (max_events : Z) (staleness : float) (recovery_successes cooldown : Z)
    (bar_timeframes : dict string Z) (store : S) : M W (CycleConfig * CycleState S W) :=
  providers ← lift (route registry market REALTIME_QUOTES);
  _ ← lift (raise_if (existsb (fun p => negb (bool_decide (p ∈ clients))) providers)
              (ValueError "every routed realtime provider requires a client"));
  _ ← lift (raise_if ((max_events <=? 0) || (staleness <=? 0)%float || (recovery_successes <=? 0))
              (ValueError "realtime limits must be positive"));
  builders ← lift (bar_builders bar_timeframes);
  now ← (fun w => let '(t, w') := env.(ev_clock) w in (Ok t, w'));
  let fallback := Nat.ltb 1 (length providers) in
  let cfg := {| cy_market := market; cy_route := providers; cy_symbol_maps := symbol_maps; cy_max_events := max_events;
                cy_staleness := staleness; cy_recovery_successes := recovery_successes; cy_recovery_cooldown := cooldown |} in
  primary ← lift (match providers with p :: _ => Ok p | [] => Err (OtherException "IndexError" "tuple index out of range") end);
  world ← get_state;
  let fresh := {| rc_active_index := 0; rc_primary_successes := 0; rc_failed_over_at := None; rc_iterators := ∅;
                  rc_snapshot := {| ss_market := market; ss_active_provider := primary; ss_state := HEALTHY; ss_connected_at := now;
                                    ss_last_event_at := None; ss_gap_count := 0; ss_failover_count := 0; ss_last_error := None;
                                    ss_failed_over_at := None; ss_fallback_available := fallback;
                                    ss_status_detail := if fallback then None else Some "NO_REALTIME_FALLBACK_CONFIGURED" |};
                  rc_sequences := ∅; rc_builders := builders; rc_previous := ∅; rc_store := store; rc_world := world |} in
  match env.(ev_state_store) with
  | None => mret (cfg, fresh)
  | Some state_store =>
      '(persisted, seqs) ← state_store.(fs_load) market;
      restored ← lift (match persisted with Some record => restore cfg record fresh | None => mret fresh end);
      let ready := set_sequences seqs restored in
      _ ← state_store.(fs_save) (record_of ready.(rc_snapshot));
      world ← get_state;
      mret (cfg, set_world world ready)
  end.
End Construction.

(** ** Computations that keep a relation *)

Definition keeps {S A} (R : S -> S -> Prop) (m : P S A) : Prop := forall s r s', m s = Some (r, s') -> R s s'.

Section Keeps.
Context {S : Type} (R : S -> S -> Prop) `{!PreOrder R}.

Lemma keeps_ret {A} (a : A) : keeps R (mret a).
Proof. intros s r s' [= <- <-]. reflexivity. Qed.
Lemma keeps_ending {A} (m : M S A) : preserves R m -> keeps R (ending m).
Proof. intros Hm s r s' [= E]. specialize (Hm s). by rewrite E in Hm. Qed.
Lemma keeps_bind {A B} (m : P S A) (f : A -> P S B) : keeps R m -> (forall a, keeps R (f a)) -> keeps R (m ≫= f).
Proof.
  intros Hm Hf s r s'. unfold mbind, P_bind. destruct (m s) as [[[a|e] s1]|] eqn:E; [| |done].
  - intros H. etransitivity; [by eapply Hm|by eapply Hf].
  - intros [= <- <-]. by eapply Hm.
Qed.
Lemma keeps_try {A} catches (m : P S A) handler : keeps R m -> (forall e, keeps R (handler e)) -> keeps R (try_except catches m handler).
Proof.
  intros Hm Hh s r s'. unfold try_except. destruct (m s) as [[[a|e] s1]|] eqn:E; [| |done].
  - intros [= <- <-]. by eapply Hm.
  - destruct (catches e); [|intros [= <- <-]; by eapply Hm]. intros H. etransitivity; [by eapply Hm|by eapply Hh].
Qed.
Lemma preserves_modify f : (forall s : S, R s (f s)) -> preserves R (modify f).
Proof. intros Hf s. apply Hf. Qed.
Lemma preserves_when b (m : M S unit) : preserves R m -> preserves R (when b m).
Proof. intros Hm. destruct b; [done|apply preserves_ret; typeclasses eauto]. Qed.
End Keeps.

Ltac keep :=
  repeat first
  [ progress preserve
  | match goal with
    | |- keeps _ (mbind _ _) => apply keeps_bind; [typeclasses eauto| |intros ?]
    | |- keeps _ (mret _) => apply keeps_ret; typeclasses eauto
    | |- keeps _ (ending _) => apply keeps_ending
    | |- keeps _ (try_except _ _ _) => apply keeps_try; [typeclasses eauto| |intros ?]
    | |- keeps _ (if ?b then _ else _) => destruct b
    | |- keeps _ (match ?x with _ => _ end) => destruct x
    | |- keeps _ _ => solve [eauto with preserves]
    | |- preserves _ (when _ _) => apply preserves_when; [typeclasses eauto|]
    end ].

(** ** What consuming a slice can do to the feed *)

(** A relation on the world that all its operations have. *)
Record world_relation {W} (Q : W -> W -> Prop) (env : Environment W) : Prop := {
  wr_order : PreOrder Q;
  wr_clock w : Q w (env.(ev_clock) w).2;
  wr_open p : preserves Q (env.(ev_open) p);
  wr_next it w : Q w (env.(ev_next) it w).2;
  wr_close it : preserves Q (env.(ev_close) it);
  wr_save store r : env.(ev_state_store) = Some store -> preserves Q (store.(fs_save) r);
  wr_save_sequence store m p x n d : env.(ev_state_store) = Some store -> preserves Q (store.(fs_save_sequence) m p x n d);
  wr_loader loader c : env.(ev_previous_candle_loader) = Some loader -> preserves Q (loader c);
  wr_handler handler l : env.(ev_on_features) = Some handler -> preserves Q (handler l) }.

Lemma any_world {W} (env : Environment W) : world_relation (fun _ _ => True) env.
Proof. by split. Qed.

Section Slice.
Context {S : Type} `{RecordStore S} {W : Type} (env : Environment W) (cfg : CycleConfig).
Abbreviation St := (CycleState S W).

(** A relation that the elementary steps of a slice from provider [p] have,
    given what the world's operations have. *)
Record slice_relation (Q : W -> W -> Prop) (R : St -> St -> Prop) (p : Provider) : Prop := {
  sl_order : PreOrder R;
  sl_world s w : Q s.(rc_world) w -> R s (set_world w s);
  sl_store s x : R s (set_store x s);
  sl_iterators s x : R s (set_iterators x s);
  sl_builders s x : R s (set_builders x s);
  sl_previous s x : R s (set_previous x s);
  sl_connected s t : R s (set_snapshot (with_connected t s.(rc_snapshot)) s);
  sl_gap s : R s (set_snapshot (with_gap s.(rc_snapshot)) s);
  sl_event s t : R s (set_snapshot (with_event p t s.(rc_snapshot)) s);
  sl_watermark s key n : (forall v, s.(rc_sequences) !! key = Some v -> v <= n) ->
    R s (set_sequences (<[key := n]> s.(rc_sequences)) s) }.

Context (Q : W -> W -> Prop) (R : St -> St -> Prop) (p : Provider) (HQ : world_relation Q env) (HR : slice_relation Q R p).
#[local] Instance slice_preorder : PreOrder R := sl_order _ _ _ HR.

Lemma slice_world {A} (m : M W A) : preserves Q m -> preserves R (in_world (S := S) m).
Proof.
  intros Hm s. unfold in_world, zoom. specialize (Hm (rc_world s)). destruct (m (rc_world s)) as [r w]. by apply (sl_world _ _ _ HR).
Qed.
Lemma slice_store {A} (m : M S A) : preserves R (in_store (W := W) m).
Proof. intros s. unfold in_store, zoom. destruct (m (rc_store s)) as [r w]. apply (sl_store _ _ _ HR). Qed.
Lemma slice_builder {A} i b (m : M CandleBuilder A) : preserves R (in_builder (S := S) (W := W) i b m).
Proof. intros s. unfold in_builder. destruct (m b) as [r b']. apply (sl_builders _ _ _ HR). Qed.
Lemma slice_clock : preserves R (clock (S := S) env).
Proof. apply slice_world. intros w. pose proof (wr_clock _ _ HQ w) as H0. by destruct (ev_clock env w). Qed.
Lemma slice_next it : preserves R (next_event (S := S) env it).
Proof. apply slice_world. intros w. pose proof (wr_next _ _ HQ it w) as H0. by destruct (ev_next env it w). Qed.
Lemma slice_world_open q : preserves R (in_world (S := S) (ev_open env q)).
Proof. apply slice_world, HQ. Qed.
Lemma slice_world_close it : preserves R (in_world (S := S) (ev_close env it)).
Proof. apply slice_world, HQ. Qed.
Hint Resolve slice_store slice_builder slice_clock slice_next slice_world_open slice_world_close : preserves.
Hint Extern 4 (preserves R (update_snapshot _)) => (intros ?; apply HR) : preserves.
Hint Extern 4 (preserves R (modify _)) => (intros ?; apply HR) : preserves.

Lemma slice_save : preserves R (save_snapshot (S := S) env).
Proof.
  unfold save_snapshot. destruct (ev_state_store env) as [store|] eqn:E; keep. by apply slice_world, (wr_save _ _ HQ).
Qed.
Hint Resolve slice_save : preserves.
Lemma slice_open q : preserves R (open_provider (S := S) env q).
Proof. unfold open_provider. keep. Qed.
Lemma slice_close q : preserves R (close_provider (S := S) env q).
Proof. unfold close_provider. keep. Qed.
Hint Resolve slice_open slice_close : preserves.

(** The watermark is raised and saved. *)
Definition raise_watermark (q : QuoteEvent) (n gap_delta : Z) : M St unit :=
  _ ← modify (fun self => set_sequences (<[(q.(qe_provider), q.(qe_symbol)) := n]> self.(rc_sequences)) self);
  match env.(ev_state_store) with
  | None => mret tt
  | Some store => in_world (store.(fs_save_sequence) cfg.(cy_market) q.(qe_provider) q.(qe_symbol) n gap_delta)
  end.

Lemma slice_raise (s : St) q n d : (forall v, s.(rc_sequences) !! (q.(qe_provider), q.(qe_symbol)) = Some v -> v <= n) ->
  R s (raise_watermark q n d s).2.
Proof.
  intros Hp. unfold raise_watermark, mbind, M_bind, modify. etransitivity; [by apply (sl_watermark _ _ _ HR)|].
  set (s2 := set_sequences _ s). clearbody s2. clear Hp s. destruct (ev_state_store env) eqn:E; [|reflexivity].
  by apply slice_world, (wr_save_sequence _ _ HQ).
Qed.

(** [_track_sequence] on a numbered quote: the gap, the watermark, the
    snapshot saved. *)
Lemma track_numbered (s : St) q n : q.(qe_sequence) = Some n ->
  let previous := s.(rc_sequences) !! (q.(qe_provider), q.(qe_symbol)) in
  let gap := match previous with Some v => v + 1 <? n | None => false end in
  let s1 := if gap then set_snapshot (with_gap s.(rc_snapshot)) s else s in
  track_sequence env cfg q s =
    (_ ← when (match previous with Some v => v <? n | None => true end) (raise_watermark q n (if gap then 1 else 0));
     save_snapshot env) s1.
Proof.
  intros Hq. cbv zeta. unfold track_sequence. rewrite Hq. unfold mbind, M_bind, get_state.
  by destruct (match _ with Some v => v + 1 <? n | None => false end).
Qed.

Lemma slice_track q : preserves R (track_sequence (S := S) env cfg q).
Proof.
  intros s. destruct (qe_sequence q) as [n|] eqn:Hq; [|unfold track_sequence; rewrite Hq; reflexivity].
  rewrite (track_numbered s q n Hq). cbv zeta. set (gap := match _ with Some v => v + 1 <? n | None => false end).
  set (s1 := if gap then _ else s).
  assert (H1 : R s s1 /\ rc_sequences s1 = rc_sequences s).
  { subst s1. destruct gap; [|split; reflexivity]. split; [apply (sl_gap _ _ _ HR)|done]. }
  destruct H1 as [H1 Eq]. etransitivity; [exact H1|].
  assert (Hn : forall v, rc_sequences s1 !! (qe_provider q, qe_symbol q) = Some v -> rc_sequences s !! (qe_provider q, qe_symbol q) = Some v)
    by (by rewrite Eq). clearbody s1 gap.
  destruct (match _ with Some v => v <? n | None => true end) eqn:Hnew; cbn [when]; [|apply slice_save].
  assert (Hr : R s1 (raise_watermark q n (if gap then 1 else 0) s1).2).
  { apply slice_raise. intros v Hv%Hn. rewrite Hv in Hnew. lia. }
  unfold mbind at 1, M_bind at 1. destruct (raise_watermark _ _ _ s1) as [[|e] s2]; [|done].
  etransitivity; [exact Hr|]. apply slice_save.
Qed.
Hint Resolve slice_track : preserves.

Lemma slice_offer features : preserves R (offer_features (S := S) env features).
Proof.
  unfold offer_features. destruct features as [|f features]; [keep|]. destruct (ev_on_features env) as [handler|] eqn:Eh; [|keep].
  intros s. pose proof (slice_world (handler (f :: features)) (wr_handler _ _ HQ _ _ Eh) s) as Hw.
  destruct (in_world _ s) as [[|e] s1]; [exact Hw|]. by destruct (is_cancelled e).
Qed.
Hint Resolve slice_offer : preserves.
Lemma slice_persist_settled q bar : preserves R (persist_settled env q bar).
Proof.
  unfold persist_settled. destruct (ev_previous_candle_loader env) as [loader|] eqn:El; keep.
  by apply slice_world, (wr_loader _ _ HQ).
Qed.
Hint Resolve slice_persist_settled : preserves.
Lemma slice_persist_quote q : preserves R (persist_quote_and_settled env q).
Proof. unfold persist_quote_and_settled. keep. Qed.
Hint Resolve slice_persist_quote : preserves.
Lemma slice_message persist observe m : preserves R (consume_message env cfg p persist observe m).
Proof. unfold consume_message. keep. Qed.
Hint Resolve slice_message : preserves.
Lemma slice_loop fuel target persist observe : forall it count n,
  keeps R (consume_loop env cfg fuel p target persist observe it count n).
Proof. induction fuel as [|fuel IH]; intros it count n; cbn [consume_loop]; [done|]. keep. Qed.
Hint Resolve slice_loop : preserves.
Lemma slice_consume fuel limit persist observe : keeps R (consume env cfg fuel p limit persist observe).
Proof. unfold consume. keep. Qed.
Lemma slice_due : preserves R (recovery_due (S := S) env cfg).
Proof. unfold recovery_due. keep. Qed.
End Slice.

Section Evolution.
Context {S : Type} `{RecordStore S} {W : Type} (env : Environment W) (cfg : CycleConfig).
Abbreviation St := (CycleState S W).

(** What a feed never loses: its market, its counters and its sequence
    watermarks only grow. *)
Record evolves (s s' : St) : Prop := {
  ev_market : s'.(rc_snapshot).(ss_market) = s.(rc_snapshot).(ss_market);
  ev_gaps : s.(rc_snapshot).(ss_gap_count) <= s'.(rc_snapshot).(ss_gap_count);
  ev_failovers : s.(rc_snapshot).(ss_failover_count) <= s'.(rc_snapshot).(ss_failover_count);
  ev_sequences key v : s.(rc_sequences) !! key = Some v -> exists v', s'.(rc_sequences) !! key = Some v' /\ v <= v' }.

#[export] Instance evolves_preorder : PreOrder evolves.
Proof.
  split; [intros s; split; try lia; try done; intros key v Hv; exists v; split; [done|lia]|].
  intros s1 s2 s3 [M1 G1 F1 Q1] [M2 G2 F2 Q2]. split; [congruence|lia|lia|].
  intros key v Hv. destruct (Q1 key v Hv) as (v' & Hv' & ?). destruct (Q2 key v' Hv') as (v'' & ? & ?). exists v''. split; [done|lia].
Qed.

Lemma evolves_slice p : slice_relation (fun _ _ => True) evolves p.
Proof.
  split; [typeclasses eauto|..]; intros s; intros;
    try (split; cbn; [done|lia|lia|]; intros k v Hv; exists v; split; [done|lia]).
  split; [done|cbn; lia|cbn; lia|]. intros k v Hv. cbn [rc_sequences set_sequences]. destruct (decide (key = k)) as [->|Hne].
  - exists n. rewrite dict_lookup_insert_eq. split; [done|auto].
  - exists v. rewrite dict_lookup_insert_ne by done. split; [done|lia].
Qed.
End Evolution.

(** ** Control of the feed *)

Lemma P_bind_some {S A B} (m : P S A) (f : A -> P S B) s r s' : (m ≫= f) s = Some (r, s') <->
  (exists a s1, m s = Some (Ok a, s1) /\ f a s1 = Some (r, s')) \/ (exists e, m s = Some (Err e, s') /\ r = Err e).
Proof.
  unfold mbind, P_bind. destruct (m s) as [[[a|e] s1]|]; split.
  - intros E. left. eauto.
  - intros [(a' & s2 & [= <- <-] & E)|(e & [=] & _)]. exact E.
  - intros [= <- <-]. right. eauto.
  - intros [(a' & s2 & [=] & _)|(e' & [= <- <-] & ->)]. done.
  - done.
  - intros [(a' & s2 & [=] & _)|(e' & [=] & ->)].
Qed.

Lemma try_some {S A} catches (m : P S A) handler s r s' : try_except catches m handler s = Some (r, s') ->
  (m s = Some (r, s') /\ forall e, r = Err e -> catches e = false) \/
  (exists e s1, m s = Some (Err e, s1) /\ catches e = true /\ handler e s1 = Some (r, s')).
Proof.
  unfold try_except. destruct (m s) as [[[a|e] s1]|]; [| |done].
  - intros [= <- <-]. by left.
  - destruct (catches e) eqn:Ec; [eauto 6|]. intros [= <- <-]. left. split; [done|]. by intros e' [= <-].
Qed.

Section Control.
Context {S : Type} `{RecordStore S} {W : Type} (env : Environment W) (cfg : CycleConfig).
Abbreviation St := (CycleState S W).

(** A slice leaves the control state alone; the provider it names is the
    one it names already, or the one consumed. *)
Record steady (p : Provider) (s s' : St) : Prop := {
  st_index : s'.(rc_active_index) = s.(rc_active_index);
  st_successes : s'.(rc_primary_successes) = s.(rc_primary_successes);
  st_failed_over : s'.(rc_failed_over_at) = s.(rc_failed_over_at);
  st_provider : s'.(rc_snapshot).(ss_active_provider) = s.(rc_snapshot).(ss_active_provider) \/
                s'.(rc_snapshot).(ss_active_provider) = p }.

#[export] Instance steady_preorder p : PreOrder (steady p).
Proof.
  split; [intros s; split; auto|]. intros s1 s2 s3 [A1 B1 C1 D1] [A2 B2 C2 D2]. split; [congruence..|].
  destruct D2 as [D2|D2]; [rewrite D2; done|by right].
Qed.
Lemma steady_slice p : slice_relation (fun _ _ => True) (steady p) p.
Proof. split; [typeclasses eauto|..]; intros s; intros; split; cbn; auto. Qed.

Lemma consume_steady fuel p limit persist observe s r s' :
  consume env cfg fuel p limit persist observe s = Some (r, s') -> steady p s s'.
Proof. apply (slice_consume env cfg _ _ _ (any_world env) (steady_slice p)). Qed.
Lemma ending_steady {A} p (m : M St A) s r s' : preserves (steady p) m -> ending m s = Some (r, s') -> steady p s s'.
Proof. intros Hm [= E]. specialize (Hm s). by rewrite E in Hm. Qed.

Lemma probe_steady fuel s r s' : probe_primary env cfg fuel s = Some (r, s') ->
  exists p, (cfg.(cy_route) = [] \/ p ∈ cfg.(cy_route)) /\ steady p s s'.
Proof.
  unfold probe_primary. destruct (cy_route cfg) as [|p rest].
  - intros [= <- <-]. exists DHAN. split; [by left|reflexivity].
  - intros E. exists p. split; [right; by left|]. apply try_some in E as [[E _]|(e & s1 & E & _ & [= _ <-])].
    + apply P_bind_some in E as [(a & s2 & E & [= _ <-])|(e & E & _)]; by eapply consume_steady.
    + apply P_bind_some in E as [(a & s2 & E & [=])|(e' & E & _)]. by eapply consume_steady.
Qed.

(** What the recovery step may do: nothing to the index, or the return to
    the primary once enough probes in a row succeeded after the cooldown. *)
Definition ready (s : St) : Prop :=
  cfg.(cy_recovery_successes) <= s.(rc_primary_successes) + 1 /\
  exists failed now, s.(rc_failed_over_at) = Some failed /\ instant failed + cfg.(cy_recovery_cooldown) <= instant now.

Record recovered (s s1 : St) : Prop := {
  re_index : s1.(rc_active_index) = s.(rc_active_index) \/ (s1.(rc_active_index) = 0%nat /\ ready s);
  re_successes : s1.(rc_primary_successes) = s.(rc_primary_successes) \/
    s1.(rc_primary_successes) = s.(rc_primary_successes) + 1 \/ s1.(rc_primary_successes) = 0;
  re_failed_over : s1.(rc_failed_over_at) = s.(rc_failed_over_at);
  re_provider : s1.(rc_snapshot).(ss_active_provider) = s.(rc_snapshot).(ss_active_provider) \/
    s1.(rc_snapshot).(ss_active_provider) ∈ cfg.(cy_route) \/ cfg.(cy_route) = [] }.

Lemma steady_recovered p s s1 : (cfg.(cy_route) = [] \/ p ∈ cfg.(cy_route)) -> steady p s s1 -> recovered s s1.
Proof.
  intros Hp [A B C D]. split; [by left|by left|done|]. destruct D as [D|D]; [by left|]. right. rewrite D.
  destruct Hp; [by right|by left].
Qed.

Lemma due_steady p s r s1 : recovery_due env cfg s = (r, s1) -> steady p s s1 /\
  (r = Ok true -> exists failed now, s.(rc_failed_over_at) = Some failed /\ instant failed + cfg.(cy_recovery_cooldown) <= instant now).
Proof.
  intros E. split.
  - pose proof (slice_due env cfg _ _ _ (any_world env) (steady_slice p) s) as Hs. by rewrite E in Hs.
  - unfold recovery_due, mbind, M_bind, get_state, clock, in_world, zoom in E. destruct (rc_failed_over_at s) as [t|] eqn:Et.
    + destruct (ev_clock env (rc_world s)) as [now w]. injection E as <- _. unfold dt_le.
      destruct (Bool.eqb _ _); [|done]. intros [= Hle]. exists t, now. split; [done|].
      unfold instant at 1 in Hle. cbn [wall utcoffset] in Hle. unfold instant at 1. lia.
    + injection E as <- _. done.
Qed.

Lemma recover_effect fuel s r s1 : recover env cfg fuel s = Some (r, s1) -> recovered s s1.
Proof.
  unfold recover. intros [(self & s0 & [= <- <-] & E)|(e & [=] & _)]%P_bind_some.
  destruct (Nat.eqb_spec (rc_active_index s) 0) as [E0|E0].
  { injection E as _ <-. split; auto. }
  apply P_bind_some in E as [(due & s2 & Ed & E)|(e & Ed & ->)].
  2: { injection Ed as Ed. destruct (due_steady (default DHAN (head cfg.(cy_route))) _ _ _ Ed) as [Hs _].
       eapply steady_recovered; [|exact Hs]. destruct (cy_route cfg); [by left|right; by left]. }
  injection Ed as Ed. destruct (due_steady (default DHAN (head cfg.(cy_route))) _ _ _ Ed) as [Hs Hdue].
  assert (Hr : recovered s s2) by (eapply steady_recovered; [|exact Hs]; destruct (cy_route cfg); [by left|right; by left]).
  destruct due; cbn [negb] in E; [|by injection E as _ <-]. specialize (Hdue eq_refl).
  apply P_bind_some in E as [(ok & s3 & Ep & E)|(e & Ep & ->)].
  2: { destruct (probe_steady _ _ _ _ Ep) as (p & Hp & Hs'). destruct Hs as [A B C D], Hs' as [A' B' C' D'].
       destruct Hr as [R1 R2 R3 R4]. split; [left; congruence|left; congruence|congruence|].
       destruct D' as [D'|D']; [by rewrite D'|]. right. rewrite D'. destruct Hp; [by right|by left]. }
  destruct (probe_steady _ _ _ _ Ep) as (p & Hp & Hs').
  assert (Hr3 : recovered s s3 /\ rc_primary_successes s3 = rc_primary_successes s /\ rc_active_index s3 = rc_active_index s).
  { destruct Hs as [A B C D], Hs' as [A' B' C' D'], Hr as [R1 R2 R3 R4].
    split; [|split; congruence]. split; [left; congruence|left; congruence|congruence|].
    destruct D' as [D'|D']; [by rewrite D'|]. right. rewrite D'. destruct Hp; [by right|by left]. }
  destruct Hr3 as (Hr3 & Hsucc & Hidx). destruct Hr3 as [R1 R2 R3 R4].
  destruct ok.
  2: { injection E as _ <-. split; cbn; auto. }
  apply P_bind_some in E as [(u & s4 & [= _ <-] & E)|(e & [=] & _)].
  apply P_bind_some in E as [(self' & s5 & [= <- <-] & E)|(e & [=] & _)].
  set (s4 := set_primary_successes (rc_primary_successes s3 + 1) s3) in *.
  cbn [rc_primary_successes set_primary_successes] in E.
  destruct (Z.leb_spec (cy_recovery_successes cfg) (rc_primary_successes s4)) as [Hle|Hlt].
  2: { injection E as _ <-. split; cbn; auto. right. left. lia. }
  assert (Hclose : forall m : M St unit, preserves (steady p) m -> forall r' s6, ending m s4 = Some (r', s6) -> steady p s4 s6)
    by (intros m Hm r' s6; by apply ending_steady).
  apply P_bind_some in E as [(u' & s6 & Ec & E)|(e & Ec & ->)].
  - assert (Hs6 : steady p s4 s6).
    { eapply Hclose; [|exact Ec]. destruct (cy_route cfg !! _); [apply (slice_close env _ _ _ (any_world env) (steady_slice p))|].
      intros x. reflexivity. }
    injection E as _ <-. destruct Hs6 as [A6 B6 C6 D6]. cbn in *. split; cbn.
    + right. split; [done|]. split; [lia|]. done.
    + auto.
    + congruence.
    + destruct D6 as [D6|D6]; [by rewrite D6|]. right. rewrite D6. destruct Hp; [by right|by left].
  - assert (Hs6 : steady p s4 s1).
    { eapply Hclose; [|exact Ec]. destruct (cy_route cfg !! _); [apply (slice_close env _ _ _ (any_world env) (steady_slice p))|].
      intros x. reflexivity. }
    destruct Hs6 as [A6 B6 C6 D6]. cbn in *. split; [left; congruence|right; left; lia|congruence|].
    destruct D6 as [D6|D6]; [by rewrite D6|]. right. rewrite D6. destruct Hp; [by right|by left].
Qed.

(** The environment parts that are not streams do not fail. *)
Record reliable : Prop := {
  rl_clock w : aware (env.(ev_clock) w).1 = true;
  rl_save store : env.(ev_state_store) = Some store -> forall r w, exists w', store.(fs_save) r w = (Ok tt, w');
  rl_close it w : exists w', env.(ev_close) it w = (Ok tt, w') }.

Lemma save_effect (s : St) r s' : save_snapshot env s = (r, s') -> (exists w, s' = set_world w s) /\ (reliable -> r = Ok tt).
Proof.
  unfold save_snapshot. destruct (ev_state_store env) as [store|] eqn:Es.
  - unfold mbind, M_bind, get_state, in_world, zoom. destruct (fs_save store _ _) as [r0 w] eqn:E. intros [= <- <-].
    split; [by exists w|]. intros Hr. destruct (rl_save Hr store Es (record_of (rc_snapshot s)) (rc_world s)) as [w' E'].
    rewrite E in E'. by injection E' as -> _.
  - intros [= <- <-]. split; [|done]. exists (rc_world s). by destruct s.
Qed.

Lemma settle_effect index p n (s : St) r s' : settle_on env index p n s = (r, s') ->
  s'.(rc_active_index) = index /\ s'.(rc_primary_successes) = s.(rc_primary_successes) /\
  s'.(rc_failed_over_at) = s.(rc_failed_over_at) /\ s'.(rc_snapshot).(ss_active_provider) = p /\
  s'.(rc_snapshot).(ss_state) = (if Nat.eqb index 0 then HEALTHY else FAILED_OVER) /\ (r = Ok n \/ (exists e, r = Err e /\ ~ reliable)).
Proof.
  unfold settle_on, update_snapshot, mbind, M_bind, modify. destruct (save_snapshot env _) as [r0 s0] eqn:E.
  apply save_effect in E as ((w & ->) & Hr). destruct r0 as [u|e]; intros [= <- <-]; cbn; repeat split; auto.
  right. exists e. split; [done|]. intros Hrel. by specialize (Hr Hrel).
Qed.

Lemma degrade_effect e (s : St) r s' : degrade env cfg e s = (r, s') ->
  s'.(rc_active_index) = s.(rc_active_index) /\ s'.(rc_primary_successes) = s.(rc_primary_successes) /\
  s'.(rc_failed_over_at) = s.(rc_failed_over_at) /\ s'.(rc_snapshot).(ss_active_provider) = s.(rc_snapshot).(ss_active_provider) /\
  s'.(rc_snapshot).(ss_state) = DEGRADED /\ s'.(rc_snapshot).(ss_last_error) = Some (str_exn e) /\ (exists e', r = Err e' /\ (reliable -> e' = e)).
Proof.
  unfold degrade, update_snapshot, mbind, M_bind, modify, get_state, raise. destruct (save_snapshot env _) as [r0 s0] eqn:E.
  apply save_effect in E as ((w & ->) & Hr). destruct r0 as [u|e0]; intros [= <- <-]; cbn; repeat split; eauto.
  exists e0. split; [done|]. intros Hrel. by specialize (Hr Hrel).
Qed.

Lemma fail_over_effect index next e (s : St) r s' : fail_over env index next e s = (r, s') ->
  s'.(rc_active_index) = Datatypes.S index /\ s'.(rc_primary_successes) = s.(rc_primary_successes) /\
  (exists t, s'.(rc_failed_over_at) = Some t /\ (reliable -> aware t = true)) /\ s'.(rc_snapshot).(ss_active_provider) = next /\
  s'.(rc_snapshot).(ss_failover_count) = s.(rc_snapshot).(ss_failover_count) + 1 /\ (reliable -> r = Ok tt).
Proof.
  unfold fail_over, update_snapshot, clock, in_world, zoom, mbind, M_bind, modify. cbn [rc_world set_active_index].
  destruct (ev_clock env (rc_world s)) as [now w] eqn:Ec. cbn.
  match goal with |- context [save_snapshot env ?x] => destruct (save_snapshot env x) as [r0 s0] eqn:E end.
  apply save_effect in E as ((w' & ->) & Hr). intros [= <- <-]. cbn. repeat split; auto.
  exists now. split; [done|]. intros Hrel. pose proof (rl_clock Hrel (rc_world s)) as Ha. by rewrite Ec in Ha.
Qed.

Definition aware_opt (o : option datetime) : Prop := match o with Some t => aware t = true | None => True end.

(** The effect of the failover loop from [index] on. *)
Record routed (s s' : St) (r : result Z) : Prop := {
  ro_index : (s.(rc_active_index) <= s'.(rc_active_index))%nat;
  ro_bound : (s'.(rc_active_index) < length cfg.(cy_route))%nat;
  ro_successes : s'.(rc_primary_successes) = s.(rc_primary_successes);
  ro_provider : s'.(rc_snapshot).(ss_active_provider) = s.(rc_snapshot).(ss_active_provider) \/
    s'.(rc_snapshot).(ss_active_provider) ∈ cfg.(cy_route);
  ro_failed_over : reliable -> aware_opt s.(rc_failed_over_at) -> aware_opt s'.(rc_failed_over_at);
  ro_outcome : reliable -> match r with
    | Ok n => n <> 0 /\ cfg.(cy_route) !! s'.(rc_active_index) = Some s'.(rc_snapshot).(ss_active_provider) /\
        s'.(rc_snapshot).(ss_state) = (if Nat.eqb s'.(rc_active_index) 0 then HEALTHY else FAILED_OVER)
    | Err e => is_cancelled e = true \/
        (s'.(rc_snapshot).(ss_state) = DEGRADED /\ s'.(rc_snapshot).(ss_last_error) = Some (str_exn e) /\
         Datatypes.S s'.(rc_active_index) = length cfg.(cy_route))
    end }.

Lemma consume_count fuel p limit persist observe (s : St) n s' :
  consume env cfg fuel p limit persist observe s = Some (Ok n, s') -> n <> 0.
Proof.
  unfold consume. intros E. apply P_bind_some in E as [(a1 & s1 & _ & E)|(e & _ & [=])].
  apply P_bind_some in E as [(a2 & s2 & _ & E)|(e & _ & [=])]. apply P_bind_some in E as [(a3 & s3 & _ & E)|(e & _ & [=])].
  apply P_bind_some in E as [(count & s4 & _ & E)|(e & _ & [=])]. destruct (Z.eqb_spec count 0) as [->|Hne]; [discriminate E|].
  apply P_bind_some in E as [(now & s5 & _ & E)|(e & _ & [=])]. destruct (fgt _ _); [discriminate E|]. by injection E as <- _.
Qed.

Lemma route_effect fuel providers : forall index s r s', try_route env cfg fuel index providers s = Some (r, s') ->
  providers <> [] -> s.(rc_active_index) = index -> drop index cfg.(cy_route) = providers -> routed s s' r.
Proof.
  induction providers as [|p rest IH]; intros index s r s' E Hne Hi Hd; [done|]. clear Hne. cbn [try_route] in E.
  assert (Hlook : cfg.(cy_route) !! index = Some p) by (rewrite <-(Nat.add_0_r index), <-lookup_drop, Hd; done).
  assert (Hlt : (index < length cfg.(cy_route))%nat) by (by eapply lookup_lt_Some).
  assert (Hin : p ∈ cfg.(cy_route)) by (by eapply list_elem_of_lookup_2).
  assert (Hrest : drop (Datatypes.S index) cfg.(cy_route) = rest) by (rewrite <-Nat.add_1_r, <-drop_drop, Hd; done).
  assert (Hcons : forall s1 r1, consume env cfg fuel p None true true s = Some (r1, s1) ->
    s1.(rc_active_index) = index /\ s1.(rc_primary_successes) = s.(rc_primary_successes) /\
    s1.(rc_failed_over_at) = s.(rc_failed_over_at) /\
    (s1.(rc_snapshot).(ss_active_provider) = s.(rc_snapshot).(ss_active_provider) \/ s1.(rc_snapshot).(ss_active_provider) ∈ cfg.(cy_route))).
  { intros s1 r1 Ec. apply consume_steady in Ec as [A B C D]. split; [congruence|]. split; [done|]. split; [done|].
    destruct D as [D|D]; [by left|right; by rewrite D]. }
  apply try_some in E as [[E Hcaught]|(e & s1 & E & Hcaught & Hh)].
  - apply P_bind_some in E as [(n & s1 & Ec & Es)|(e & Ec & ->)].
    + destruct (Hcons _ _ Ec) as (A & B & C & D). injection Es as Es.
      apply settle_effect in Es as (A' & B' & C' & D' & F' & Hr). apply consume_count in Ec.
      split; [lia|lia|congruence|right; by rewrite D'|by rewrite C', C|]. intros Hrel.
      destruct Hr as [->|(e & -> & Hbad)]; [|by destruct Hbad]. rewrite A', D'. auto.
    + destruct (Hcons _ _ Ec) as (A & B & C & D). split; [lia|lia|done|done|by rewrite C|].
      intros _. left. specialize (Hcaught e eq_refl). by apply negb_false_iff in Hcaught.
  - assert (H1 : rc_active_index s1 = index /\ rc_primary_successes s1 = rc_primary_successes s /\
      rc_failed_over_at s1 = rc_failed_over_at s /\
      (ss_active_provider (rc_snapshot s1) = ss_active_provider (rc_snapshot s) \/ ss_active_provider (rc_snapshot s1) ∈ cfg.(cy_route))).
    { apply P_bind_some in E as [(n & s2 & Ec & Es)|(e' & Ec & [= <-])]; [|by eapply Hcons].
      destruct (Hcons _ _ Ec) as (A & B & C & D). injection Es as Es.
      apply settle_effect in Es as (A' & B' & C' & D' & _). split; [done|]. split; [congruence|]. split; [congruence|]. right. by rewrite D'. }
    destruct H1 as (A & B & C & D). destruct rest as [|next rest].
    + injection Hh as Hh. apply degrade_effect in Hh as (A' & B' & C' & D' & F' & G' & (e' & -> & He)).
      assert (Hlast : Datatypes.S index = length (cy_route cfg)).
      { apply (f_equal length) in Hrest. rewrite length_drop in Hrest. cbn in Hrest. lia. }
      split; [lia|lia|congruence| |by rewrite C', C|].
      * rewrite D'. destruct D as [D|D]; [by left|by right].
      * intros Hrel. right. rewrite (He Hrel). split; [done|]. split; [done|]. congruence.
    + assert (Hnext : next ∈ cfg.(cy_route))
        by (rewrite <-(take_drop (Datatypes.S index) cfg.(cy_route)), Hrest; apply elem_of_app; right; by left).
      apply P_bind_some in Hh as [(u & s2 & Hf & Ht)|(e' & Hf & ->)].
      * injection Hf as Hf. apply fail_over_effect in Hf as (A' & B' & (t & C' & Ha) & D' & F' & Hr).
        destruct (IH _ _ _ _ Ht) as [R1 R2 R3 R4 R5 R6]; [done|done|done|].
        split; [lia|done|congruence| |intros Hrel _; apply R5; [done|]; rewrite C'; by apply Ha|exact R6].
        right. destruct R4 as [R4|R4]; [|done]. rewrite R4, D'. exact Hnext.
      * injection Hf as Hf. apply fail_over_effect in Hf as (A' & B' & (t & C' & Ha) & D' & F' & Hr).
        split; [lia| |congruence| |intros Hrel _; rewrite C'; by apply Ha|intros Hrel; by specialize (Hr Hrel)].
        -- apply (f_equal length) in Hrest. rewrite length_drop in Hrest. cbn in Hrest. lia.
        -- right. by rewrite D'.
Qed.

(** With a reliable environment only a cancellation escapes the recovery
    step. *)
Lemma due_reliable (s : St) r s1 : reliable -> aware_opt s.(rc_failed_over_at) -> recovery_due env cfg s = (r, s1) -> exists b, r = Ok b.
Proof.
  intros Hr Ha. unfold recovery_due, mbind, M_bind, get_state, clock, in_world, zoom.
  destruct (rc_failed_over_at s) as [t|]; [|intros [= <- _]; by eexists].
  destruct (ev_clock env (rc_world s)) as [now w] eqn:Ec. intros [= <- _]. unfold dt_le.
  pose proof (rl_clock Hr (rc_world s)) as Hn. rewrite Ec in Hn. cbn [fst] in Hn. rewrite Hn.
  assert (aware (Datetime (wall t + cy_recovery_cooldown cfg) (utcoffset t)) = true) as ->.
  { unfold aware_opt, aware in *. cbn [utcoffset]. by destruct (utcoffset t). }
  cbn. by eexists.
Qed.
Lemma close_reliable p (s : St) r s1 : reliable -> close_provider env p s = (r, s1) -> r = Ok tt.
Proof.
  intros Hr. unfold close_provider, mbind, M_bind, get_state, modify, in_world, zoom.
  destruct (rc_iterators s !! p) as [it|]; [|by intros [= <- _]]. cbn [rc_world set_iterators].
  destruct (rl_close Hr it (rc_world s)) as [w ->]. by intros [= <- _].
Qed.
Lemma probe_reliable fuel (s : St) e s1 : cfg.(cy_route) <> [] -> probe_primary env cfg fuel s = Some (Err e, s1) -> is_cancelled e = true.
Proof.
  intros Hne. unfold probe_primary. destruct (cy_route cfg) as [|p rest]; [done|].
  intros [[_ Hc]|(e' & s2 & _ & _ & [=])]%try_some. specialize (Hc e eq_refl). by apply negb_false_iff in Hc.
Qed.
Lemma recover_reliable fuel (s : St) e s1 : reliable -> (s.(rc_active_index) < length cfg.(cy_route))%nat ->
  aware_opt s.(rc_failed_over_at) -> recover env cfg fuel s = Some (Err e, s1) -> is_cancelled e = true.
Proof.
  intros Hr Hi Ha E. assert (Hne : cfg.(cy_route) <> []) by (intros Er; rewrite Er in Hi; cbn in Hi; lia).
  unfold recover in E. apply P_bind_some in E as [(self & s0 & [= <- <-] & E)|(e' & [=] & _)].
  destruct (Nat.eqb (rc_active_index s) 0); [done|].
  apply P_bind_some in E as [(due & s2 & Ed & E)|(e' & Ed & [= <-])].
  2: { injection Ed as Ed. by destruct (due_reliable _ _ _ Hr Ha Ed). }
  injection Ed as Ed. destruct (due_steady DHAN _ _ _ Ed) as [[A _ _ _] _].
  destruct (negb due); [done|].
  apply P_bind_some in E as [(ok & s3 & Ep & E)|(e' & Ep & [= <-])]; [|by eapply probe_reliable].
  destruct (probe_steady _ _ _ _ Ep) as (p & _ & [A3 _ _ _]).
  destruct ok; [|done].
  apply P_bind_some in E as [(u & s4 & [= _ <-] & E)|(e' & [=] & _)].
  apply P_bind_some in E as [(self' & s5 & [= <- <-] & E)|(e' & [=] & _)].
  destruct (_ <=? _); [|done]. apply P_bind_some in E as [(u' & s6 & _ & [=])|(e' & Ec & [= <-])].
  cbn [rc_active_index set_primary_successes] in Ec. rewrite A3, A in Ec.
  destruct (lookup_lt_is_Some_2 _ _ Hi) as [q Hq]. rewrite Hq in Ec. injection Ec as Ec. by apply close_reliable in Ec.
Qed.

(** The control state of a feed. *)
Record consistent (s : St) : Prop := {
  cn_index : (s.(rc_active_index) < length cfg.(cy_route))%nat;
  cn_provider : s.(rc_snapshot).(ss_active_provider) ∈ cfg.(cy_route);
  cn_successes : 0 <= s.(rc_primary_successes) }.

Lemma recovered_consistent s s1 : consistent s -> recovered s s1 -> consistent s1.
Proof.
  intros [A B C] [R1 R2 R3 R4]. split.
  - destruct R1 as [->|[-> _]]; [done|]. lia.
  - destruct R4 as [->|[R4|R4]]; [done|done|]. rewrite R4 in A. cbn in A. lia.
  - destruct R2 as [->|[->| ->]]; lia.
Qed.

(** What one call of [run_once] does, whatever its outcome. *)
Lemma run_once_effect fuel s r s' : consistent s -> run_once env cfg fuel s = Some (r, s') ->
  exists s1 r1, recover env cfg fuel s = Some (r1, s1) /\ recovered s s1 /\
    match r1 with Err e => r = Err e /\ s' = s1 | Ok _ => routed s1 s' r end.
Proof.
  intros Hc. unfold run_once. intros [(u & s1 & E & Ht)|(e & E & ->)]%P_bind_some.
  - exists s1, (Ok u). split; [done|]. pose proof (recover_effect _ _ _ _ E) as Hr. split; [done|].
    apply P_bind_some in Ht as [(self & s2 & [= <- <-] & Ht)|(e & [=] & _)].
    pose proof (recovered_consistent _ _ Hc Hr) as [Hi _ _].
    eapply route_effect; [exact Ht| |done|done].
    intros Hnil. apply (f_equal length) in Hnil. rewrite length_drop in Hnil. cbn in Hnil. lia.
  - exists s', (Err e). split; [done|]. split; [by eapply recover_effect|done].
Qed.

Lemma run_once_consistent fuel s r s' : consistent s -> run_once env cfg fuel s = Some (r, s') -> consistent s'.
Proof.
  intros Hc E. destruct (run_once_effect _ _ _ _ Hc E) as (s1 & r1 & _ & Hr & Hrest).
  pose proof (recovered_consistent _ _ Hc Hr) as Hc1. destruct r1 as [u|e]; [|destruct Hrest as [_ ->]; done].
  destruct Hc1 as [A B C], Hrest as [R1 R2 R3 R4 _ _]. split; [done| |lia]. destruct R4 as [->|R4]; done.
Qed.

Lemma evolves_save : preserves evolves (save_snapshot (S := S) env).
Proof. apply (slice_save env _ _ _ (any_world env) (evolves_slice DHAN)). Qed.
Lemma evolves_close p : preserves evolves (close_provider (S := S) env p).
Proof. apply (slice_close env _ _ _ (any_world env) (evolves_slice p)). Qed.
Lemma evolves_clock : preserves evolves (clock (S := S) env).
Proof. apply (slice_clock env _ _ _ (any_world env) (evolves_slice DHAN)). Qed.
Lemma evolves_due : preserves evolves (recovery_due (S := S) env cfg).
Proof. apply (slice_due env cfg _ _ _ (any_world env) (evolves_slice DHAN)). Qed.
Lemma evolves_consume fuel p limit persist observe : keeps evolves (consume env cfg fuel p limit persist observe).
Proof. apply (slice_consume env cfg _ _ _ (any_world env) (evolves_slice p)). Qed.
Hint Resolve evolves_save evolves_close evolves_clock evolves_due evolves_consume : preserves.
Hint Extern 4 (preserves evolves (update_snapshot _)) =>
  (intros ?; split; [done|cbn; lia|cbn; lia|]; intros ? v ?; exists v; split; [done|lia]) : preserves.
Hint Extern 4 (preserves evolves (modify _)) =>
  (intros ?; split; [done|cbn; lia|cbn; lia|]; intros ? v ?; exists v; split; [done|lia]) : preserves.
Lemma evolves_run fuel : keeps evolves (run_once env cfg fuel).
Proof.
  assert (Hp : keeps evolves (probe_primary env cfg fuel)) by (unfold probe_primary; keep).
  assert (Hrec : keeps evolves (recover env cfg fuel)) by (unfold recover; keep).
  assert (Hroute : forall providers index, keeps evolves (try_route env cfg fuel index providers)).
  { induction providers as [|p rest IH]; intros index; cbn [try_route]; unfold settle_on, degrade, fail_over; keep; apply IH. }
  unfold run_once. keep.
Qed.
End Control.

(** ** Properties of the feed *)

(** The supervisor calls the cycle again and again; an exception ends one
    call and leaves the state it reached. *)
Fixpoint run_many {S} `{RecordStore S} {W} (env : Environment W) (cfg : CycleConfig) (fuel k : nat) (s : CycleState S W)
    : option (CycleState S W) :=
  match k with
  | O => Some s
  | Datatypes.S k => match run_once env cfg fuel s with Some (_, s') => run_many env cfg fuel k s' | None => None end
  end.

(** The feed's control state is kept by every run of cycles, whatever
    fails or is cancelled in them: the active index stays within the route
    and the named provider on it, the success counter is not negative, the
    market never changes, and the gap count, the failover count and every
    sequence watermark only grow. *)
Theorem feed_invariant {S} `{RecordStore S} {W} (env : Environment W) (cfg : CycleConfig) fuel k (s s' : CycleState S W) :
  consistent cfg s -> run_many env cfg fuel k s = Some s' -> consistent cfg s' /\ evolves s s'.
Proof.
  revert s. induction k as [|k IH]; intros s Hc E; cbn [run_many] in E; [injection E as <-; split; [done|reflexivity]|].
  destruct (run_once env cfg fuel s) as [[r s1]|] eqn:E1; [|done].
  destruct (IH s1) as [Hc' He]; [by eapply run_once_consistent|done|]. split; [done|].
  etransitivity; [by eapply evolves_run|done].
Qed.


(** Recovery hysteresis.  A feed that failed over does not return
    towards the primary in fewer cycles than the successes it still needs:
    over that many cycles, whatever happens in them, the index does not go
    down and each cycle counts at most one successful probe. *)
Theorem no_early_return {S} `{RecordStore S} {W} (env : Environment W) (cfg : CycleConfig) fuel k (s s' : CycleState S W) :
  consistent cfg s -> s.(rc_primary_successes) + Z.of_nat k < cfg.(cy_recovery_successes) ->
  run_many env cfg fuel k s = Some s' ->
  (s.(rc_active_index) <= s'.(rc_active_index))%nat /\ s'.(rc_primary_successes) <= s.(rc_primary_successes) + Z.of_nat k.
Proof.
  revert s. induction k as [|k IH]; intros s Hc Hk E; cbn [run_many] in E; [injection E as <-; lia|].
  destruct (run_once env cfg fuel s) as [[r s1]|] eqn:E1; [|done].
  pose proof (run_once_consistent env cfg _ _ _ _ Hc E1) as Hc1. pose proof (cn_successes _ _ Hc) as H0.
  destruct (run_once_effect env cfg _ _ _ _ Hc E1) as (s0 & r0 & _ & [R1 R2 _ _] & Hrest).
  assert (Hstep : (rc_active_index s <= rc_active_index s1)%nat /\ rc_primary_successes s1 <= rc_primary_successes s + 1).
  { assert (H01 : (rc_active_index s0 <= rc_active_index s1)%nat /\ rc_primary_successes s1 = rc_primary_successes s0).
    { destruct r0; [split; apply Hrest|]. by destruct Hrest as [_ ->]. }
    destruct R1 as [R1|[_ [Hready _]]]; [|lia]. split; [lia|]. destruct R2 as [R2|[R2|R2]]; lia. }
  destruct (IH s1 Hc1 ltac:(lia) E) as [I1 I2]. lia.
Qed.

(** ** Sequence numbers against a reference *)

Section Sequences.
Context {S : Type} `{RecordStore S} {W : Type} (env : Environment W) (cfg : CycleConfig).

Definition stream_key (q : QuoteEvent) : Provider * string := (q.(qe_provider), q.(qe_symbol)).
(** The sequence numbers a stream carried, in order of arrival. *)
Definition numbered (key : Provider * string) (qs : list QuoteEvent) : list Z :=
  somes (List.map qe_sequence (List.filter (fun q => bool_decide (stream_key q = key)) qs)).
(** The largest of a starting watermark and some numbers. *)
Definition raised (start : option Z) (l : list Z) : option Z :=
  foldl (fun m n => Some (match m with Some v => Z.max v n | None => n end)) start l.
(** Whether a quote skips a number after the quotes [seen] before it. *)
Definition skips (base : Provider * string -> option Z) (seen : list QuoteEvent) (q : QuoteEvent) : bool :=
  match q.(qe_sequence), raised (base (stream_key q)) (numbered (stream_key q) seen) with
  | Some n, Some v => v + 1 <? n
  | _, _ => false
  end.
Fixpoint skipped (base : Provider * string -> option Z) (seen qs : list QuoteEvent) : Z :=
  match qs with
  | [] => 0
  | q :: qs' => (if skips base seen q then 1 else 0) + skipped base (seen ++ [q]) qs'
  end.

Lemma raised_snoc start l n : raised start (l ++ [n]) = Some (match raised start l with Some v => Z.max v n | None => n end).
Proof. unfold raised. by rewrite foldl_app. Qed.
Lemma numbered_snoc key qs q : numbered key (qs ++ [q]) =
  numbered key qs ++ (if bool_decide (stream_key q = key) then match q.(qe_sequence) with Some n => [n] | None => [] end else []).
Proof.
  unfold numbered. rewrite List.filter_app, List.map_app, somes_app. f_equal. cbn [List.filter].
  case_bool_decide; [|done]. cbn [List.map]. by destruct (qe_sequence q).
Qed.

(** One quote: watermarks and gaps. *)
Lemma track_step q (s s' : CycleState S W) : track_sequence env cfg q s = (Ok tt, s') ->
  (forall key, s'.(rc_sequences) !! key =
     if decide (stream_key q = key) then match q.(qe_sequence) with Some n => raised (s.(rc_sequences) !! key) [n]
                                         | None => s.(rc_sequences) !! key end
     else s.(rc_sequences) !! key) /\
  s'.(rc_snapshot).(ss_gap_count) = s.(rc_snapshot).(ss_gap_count) +
    (match q.(qe_sequence), s.(rc_sequences) !! stream_key q with Some n, Some v => if v + 1 <? n then 1 else 0 | _, _ => 0 end).
Proof.
  intros E. destruct (qe_sequence q) as [n|] eqn:Hq.
  2: { unfold track_sequence in E. rewrite Hq in E. injection E as <-. split; [intros key; by case_decide|lia]. }
  rewrite (track_numbered env cfg s q n Hq) in E. cbv zeta in E. fold (stream_key q) in E.
  set (gap := match _ with Some v => v + 1 <? n | None => false end) in E.
  set (s1 := if gap then _ else s) in E.
  assert (H1 : rc_sequences s1 = rc_sequences s /\ ss_gap_count (rc_snapshot s1) = ss_gap_count (rc_snapshot s) + if gap then 1 else 0)
    by (subst s1; destruct gap; cbn; split; [done|lia|done|lia]). destruct H1 as [Eq Eg].
  apply M_bind_ok in E as (u & s2 & Ew & Es). apply save_effect in Es as ((w & ->) & _).
  cbn [rc_sequences rc_snapshot set_world].
  assert (H2 : rc_snapshot s2 = rc_snapshot s1 /\ rc_sequences s2 =
    if match rc_sequences s !! stream_key q with Some v => v <? n | None => true end
    then <[stream_key q := n]> (rc_sequences s) else rc_sequences s).
  { destruct (match rc_sequences s !! stream_key q with Some v => v <? n | None => true end); cbn [when] in Ew.
    - unfold raise_watermark in Ew. apply M_bind_ok in Ew as (u1 & s3 & Em & Ew). unfold modify in Em. injection Em as _ <-.
      fold (stream_key q) in Ew. destruct (ev_state_store env) as [store|].
      + unfold in_world, zoom in Ew. destruct (fs_save_sequence _ _ _ _ _ _ _) as [r0 w0]. injection Ew as _ <-. cbn. by rewrite Eq.
      + injection Ew as _ <-. cbn. by rewrite Eq.
    - injection Ew as _ <-. by rewrite Eq. }
  destruct H2 as [Hs2 Hq2]. rewrite Hs2, Hq2, Eg. split.
  - intros key. case_decide as Hk; [subst key|].
    + unfold raised. cbn [foldl]. destruct (rc_sequences s !! stream_key q) as [v|] eqn:Ev.
      * destruct (Z.ltb_spec v n); [rewrite dict_lookup_insert_eq; f_equal; lia|]. rewrite Ev. f_equal. lia.
      * by rewrite dict_lookup_insert_eq.
    + destruct (match _ with Some v => v <? n | None => true end); [by rewrite dict_lookup_insert_ne|done].
  - subst gap. by destruct (rc_sequences s !! stream_key q).
Qed.

Lemma track_many base qs : forall seen (s s' : CycleState S W),
  (forall key, s.(rc_sequences) !! key = raised (base key) (numbered key seen)) ->
  for_each qs (track_sequence env cfg) s = (Ok tt, s') ->
  (forall key, s'.(rc_sequences) !! key = raised (base key) (numbered key (seen ++ qs))) /\
  s'.(rc_snapshot).(ss_gap_count) = s.(rc_snapshot).(ss_gap_count) + skipped base seen qs.
Proof.
  induction qs as [|q qs IH]; intros seen s s' Hseen E; cbn [for_each skipped] in *.
  - injection E as <-. rewrite app_nil_r. split; [done|lia].
  - apply M_bind_ok in E as ([] & s1 & E1 & E). destruct (track_step _ _ _ E1) as [Hk Hg].
    destruct (IH (seen ++ [q]) s1 s') as [Hk' Hg']; [|done|].
    + intros key. rewrite Hk, numbered_snoc. case_decide as Hkey.
      * rewrite bool_decide_true by done. destruct (qe_sequence q) as [n|]; [|by rewrite app_nil_r, Hseen].
        rewrite raised_snoc, Hseen. done.
      * rewrite bool_decide_false by done. by rewrite app_nil_r, Hseen.
    + split; [by rewrite <-app_assoc in Hk'|]. rewrite Hg', Hg. unfold skips. rewrite Hseen.
      destruct (qe_sequence q); [|lia]. destruct (raised _ _); lia.
Qed.
End Sequences.

(** Sequence tracking is its reference: after any quotes were tracked
    the watermark of every stream is the largest of its first value and of
    the numbers the stream carried (an old number never rewinds it), and the
    gap count grew by exactly the quotes that skip past the numbers of their
    stream seen before them. *)
Theorem sequence_tracking {S} `{RecordStore S} {W} (env : Environment W) (cfg : CycleConfig) qs (s s' : CycleState S W) :
  for_each qs (track_sequence env cfg) s = (Ok tt, s') ->
  (forall key, s'.(rc_sequences) !! key = raised (s.(rc_sequences) !! key) (numbered key qs)) /\
  s'.(rc_snapshot).(ss_gap_count) = s.(rc_snapshot).(ss_gap_count) + skipped (fun key => s.(rc_sequences) !! key) [] qs.
Proof. intros E. by apply (track_many env cfg (fun key => s.(rc_sequences) !! key) qs [] s s'). Qed.

(** ** Termination *)

Create HintDb ends.

(** Computations that end from every state of an invariant, within it. *)
Definition ends {S A} (I : S -> Prop) (m : P S A) : Prop := forall s, I s -> exists r s', m s = Some (r, s') /\ I s'.

Section Ends.
Context {S : Type} (R : S -> S -> Prop) (I : S -> Prop) (HI : forall s s', R s s' -> I s -> I s').

Lemma ends_ret {A} (a : A) : ends I (mret a).
Proof. intros s Hs. by eexists _, _. Qed.
Lemma ends_ending {A} (m : M S A) : preserves R m -> ends I (ending m).
Proof. intros Hm s Hs. specialize (Hm s). unfold ending. destruct (m s) as [r s'] eqn:E. exists r, s'. split; [done|]. by eapply HI. Qed.
Lemma ends_bind {A B} (m : P S A) (f : A -> P S B) : ends I m -> (forall a, ends I (f a)) -> ends I (m ≫= f).
Proof.
  intros Hm Hf s Hs. destruct (Hm s Hs) as ([a|e] & s1 & E & H1); unfold mbind, P_bind; rewrite E; [by apply Hf|by eexists _, _].
Qed.
Lemma ends_try {A} catches (m : P S A) handler : ends I m -> (forall e, ends I (handler e)) -> ends I (try_except catches m handler).
Proof.
  intros Hm Hh s Hs. destruct (Hm s Hs) as ([a|e] & s1 & E & H1); unfold try_except; rewrite E; [by eexists _, _|].
  destruct (catches e); [by apply Hh|by eexists _, _].
Qed.
End Ends.

(** A feed whose messages without a quote (heartbeats, foreign symbols) are
    finite in number: [quiet] bounds how many are still to come. *)
Record finite_noise {W} (env : Environment W) (cfg : CycleConfig) (quiet : W -> nat) : Prop := {
  fn_world : world_relation (fun w w' => (quiet w' <= quiet w)%nat) env;
  fn_message p it w message w' now : env.(ev_next) it w = (Received message, w') ->
    normalize_quote cfg.(cy_market) p message now (default ∅ (cfg.(cy_symbol_maps) !! p)) = Ok None -> (quiet w' < quiet w)%nat }.

Section Termination.
Context {S : Type} `{RecordStore S} {W : Type} (env : Environment W) (cfg : CycleConfig) (quiet : W -> nat).
Context (Hnoise : finite_noise env cfg quiet) (Hevents : 0 < cfg.(cy_max_events)) (fuel : nat).
Abbreviation St := (CycleState S W).

Definition quieter (s s' : St) : Prop := (quiet s'.(rc_world) <= quiet s.(rc_world))%nat.
#[local] Instance quieter_order : PreOrder quieter.
Proof. split; [intros s; unfold quieter; lia|intros x y z; unfold quieter; lia]. Qed.
Lemma quieter_slice p : slice_relation (fun w w' => (quiet w' <= quiet w)%nat) quieter p.
Proof. split; first [apply _|unfold quieter; cbn; intros; lia]. Qed.

Definition enough (s : St) : Prop := (Z.to_nat cfg.(cy_max_events) + quiet s.(rc_world) + 2 <= fuel)%nat.
Lemma enough_quieter s s' : quieter s s' -> enough s -> enough s'.
Proof. unfold quieter, enough. lia. Qed.

Lemma message_noise p persist observe m it w0 (s : St) s' : (ev_next env it w0) = (Received m, s.(rc_world)) ->
  consume_message env cfg p persist observe m s = (Ok false, s') -> (quiet s.(rc_world) < quiet w0)%nat.
Proof.
  intros En. unfold consume_message, mbind, M_bind, clock, in_world, zoom.
  destruct (ev_clock env (rc_world s)) as [now w]. cbn [lift]. unfold lift.
  destruct (normalize_quote _ _ _ _ _) as [[q|]|e] eqn:Eq; [|intros _; by eapply (fn_message _ _ _ Hnoise)|done].
  intros E. exfalso. revert E. destruct (when observe _ _) as [[]?]; [|done]. destruct (when persist _ _) as [[]?]; [|done].
  by destruct (when observe _ _) as [[]?].
Qed.

Lemma loop_ends p target persist observe : forall f it count n (s : St),
  (Z.to_nat (target - count) + quiet s.(rc_world) + (1 - n) + 1 <= f)%nat ->
  exists r s', consume_loop env cfg f p target persist observe it count n s = Some (r, s').
Proof.
  pose proof (fn_world _ _ _ Hnoise) as HQ.
  induction f as [|f IH]; intros it count n s Hf; [lia|]. cbn [consume_loop].
  destruct (count <? target) eqn:Ec; [|by eexists _, _]. cbn [negb].
  pose proof (slice_next env _ _ _ HQ (quieter_slice p) it s) as Hq.
  unfold mbind at 1, P_bind at 1, ending at 1. unfold next_event, in_world, zoom in Hq |- *.
  destruct (ev_next env it (rc_world s)) as [ev w] eqn:En. cbn [snd] in Hq. unfold quieter in Hq. cbn [rc_world set_world] in Hq.
  set (s1 := set_world w s) in *. assert (Hw : rc_world s1 = w) by done. rewrite <-Hw in En, Hq. clearbody s1.
  destruct ev as [m| |e]; [| |by eexists _, _].
  - pose proof (slice_message env cfg _ _ _ HQ (quieter_slice p) persist observe m s1) as Hm.
    unfold mbind, P_bind, ending. destruct (consume_message _ _ _ _ _ _ s1) as [[b|e] s2] eqn:Em; [|by eexists _, _].
    cbn [snd] in Hm. unfold quieter in Hm. apply IH. destruct b; [lia|]. apply (message_noise _ _ _ _ _ _ _ _ En) in Em. lia.
  - pose proof (slice_close env _ _ _ HQ (quieter_slice p) p s1) as Hc.
    unfold mbind at 1, P_bind at 1, ending at 1. destruct (close_provider env p s1) as [[u|e] s2]; [|by eexists _, _].
    cbn [snd] in Hc. unfold quieter in Hc. destruct (Nat.leb_spec 1 n); [by eexists _, _|].
    pose proof (slice_open env _ _ _ HQ (quieter_slice p) p s2) as Ho.
    unfold mbind, P_bind, ending. destruct (open_provider env p s2) as [[i|e] s3]; [|by eexists _, _].
    cbn [snd] in Ho. unfold quieter in Ho. apply IH. lia.
Qed.

Lemma ends_loop p target persist observe it : target <= cfg.(cy_max_events) ->
  ends enough (consume_loop env cfg fuel p target persist observe it 0 0).
Proof.
  intros Ht s Hs. destruct (loop_ends p target persist observe fuel it 0 0 s) as (r & s' & E); [unfold enough in Hs; lia|].
  exists r, s'. split; [done|]. eapply enough_quieter; [|exact Hs].
  by eapply (slice_loop env cfg _ _ _ (fn_world _ _ _ Hnoise) (quieter_slice p)).
Qed.

Lemma quieter_clock : preserves quieter (clock (S := S) env).
Proof. apply (slice_clock env _ _ _ (fn_world _ _ _ Hnoise) (quieter_slice DHAN)). Qed.
Lemma quieter_due : preserves quieter (recovery_due (S := S) env cfg).
Proof. apply (slice_due env cfg _ _ _ (fn_world _ _ _ Hnoise) (quieter_slice DHAN)). Qed.
Lemma quieter_open p : preserves quieter (open_provider (S := S) env p).
Proof. apply (slice_open env _ _ _ (fn_world _ _ _ Hnoise) (quieter_slice DHAN)). Qed.
Lemma quieter_close p : preserves quieter (close_provider (S := S) env p).
Proof. apply (slice_close env _ _ _ (fn_world _ _ _ Hnoise) (quieter_slice DHAN)). Qed.
Lemma quieter_save : preserves quieter (save_snapshot (S := S) env).
Proof. apply (slice_save env _ _ _ (fn_world _ _ _ Hnoise) (quieter_slice DHAN)). Qed.
#[local] Hint Resolve quieter_clock quieter_due quieter_open quieter_close quieter_save : preserves.
#[local] Hint Extern 4 (preserves quieter (update_snapshot _)) => (intros ?; unfold quieter; cbn; lia) : preserves.
#[local] Hint Extern 4 (preserves quieter (modify _)) => (intros ?; unfold quieter; cbn; lia) : preserves.
#[local] Hint Resolve ends_ret ends_loop : ends.

Ltac terminate :=
  repeat match goal with
  | |- ends _ (mbind _ _) => apply ends_bind; [|intros ?]
  | |- ends _ (ending _) => apply (ends_ending quieter enough enough_quieter); keep
  | |- ends _ (try_except _ _ _) => apply ends_try; [|intros ?]
  | |- ends _ (if ?b then _ else _) => destruct b
  | |- ends _ (match ?x with _ => _ end) => destruct x
  | |- ends _ _ => solve [eauto with ends]
  end.

Lemma ends_consume p limit persist observe : match limit with Some n => n <= cfg.(cy_max_events) | None => True end ->
  ends enough (consume env cfg fuel p limit persist observe).
Proof.
  intros Hl. unfold consume.
  assert (Ht : match limit with Some n => if n =? 0 then cy_max_events cfg else n | None => cy_max_events cfg end <= cy_max_events cfg)
    by (destruct limit as [n|]; [destruct (n =? 0)|]; lia).
  revert Ht. generalize (match limit with Some n => if n =? 0 then cy_max_events cfg else n | None => cy_max_events cfg end).
  intros target Ht. terminate.
Qed.
Lemma ends_probe : ends enough (probe_primary env cfg fuel).
Proof. unfold probe_primary. terminate. apply ends_consume. lia. Qed.
#[local] Hint Resolve ends_probe : ends.
Lemma ends_recover : ends enough (recover env cfg fuel).
Proof. unfold recover. terminate. Qed.
Lemma ends_route providers : forall index, ends enough (try_route env cfg fuel index providers).
Proof.
  induction providers as [|p rest IH]; intros index; cbn [try_route]; unfold settle_on, degrade, fail_over; terminate.
  by apply ends_consume.
Qed.
#[local] Hint Resolve ends_recover ends_route : ends.
Lemma ends_run : ends enough (run_once env cfg fuel).
Proof. unfold run_once. terminate. Qed.
End Termination.

(** C33. A cycle ends.  When the streams carry finitely many messages without a
    quote, [run_once] returns or raises within as many steps as its event
    budget, those messages and one reconnection allow, whatever the streams,
    the store and the handlers do. *)
Theorem run_once_terminates {S} `{RecordStore S} {W} (env : Environment W) (cfg : CycleConfig) (quiet : W -> nat) fuel
    (s : CycleState S W) :
  finite_noise env cfg quiet -> 0 < cfg.(cy_max_events) ->
  (Z.to_nat cfg.(cy_max_events) + quiet s.(rc_world) + 2 <= fuel)%nat ->
  exists r s', run_once env cfg fuel s = Some (r, s').
Proof.
  intros Hn He Hf. destruct (ends_run env cfg quiet Hn He fuel s Hf) as (r & s' & E & _). by exists r, s'.
Qed.

(** A stream of nothing but messages without a quote holds the cycle for
    ever: the deadline is on the next message, and every message is in
    time. *)
Lemma heartbeats_starve {S} `{RecordStore S} {W} (env : Environment W) (cfg : CycleConfig) p target persist observe it :
  (forall w, exists m, (env.(ev_next) it w).1 = Received m /\
     forall now, normalize_quote cfg.(cy_market) p m now (default ∅ (cfg.(cy_symbol_maps) !! p)) = Ok None) ->
  forall fuel count n (s : CycleState S W), count < target ->
  consume_loop env cfg fuel p target persist observe it count n s = None.
Proof.
  intros Hbeat fuel. induction fuel as [|fuel IH]; intros count n s Hc; [done|]. cbn [consume_loop].
  assert ((count <? target) = true) as -> by lia. cbn [negb].
  destruct (Hbeat (rc_world s)) as (m & Em & Hm). unfold mbind, P_bind, ending, next_event, in_world, zoom.
  destruct (ev_next env it (rc_world s)) as [ev w]. cbn [fst] in Em. subst ev.
  unfold consume_message, mbind, M_bind, clock, in_world, zoom. cbn [rc_world set_world].
  destruct (ev_clock env w) as [now w']. unfold lift. rewrite Hm. by apply IH.
Qed.

(** A restart restores the snapshot that was saved, with the fallback fields
    of the new configuration. *)
Lemma FeedState_roundtrip t : FeedState_of (FeedState_value t) = Ok t.
Proof. by destruct t. Qed.
Lemma restore_saved {S W} (cfg : CycleConfig) (saved fresh : CycleState S W) :
  consistent cfg saved -> saved.(rc_snapshot).(ss_market) = cfg.(cy_market) ->
  exists s, restore cfg (record_of saved.(rc_snapshot)) fresh = Ok s /\
    cfg.(cy_route) !! s.(rc_active_index) = Some saved.(rc_snapshot).(ss_active_provider) /\
    s.(rc_failed_over_at) = saved.(rc_snapshot).(ss_failed_over_at) /\
    s.(rc_snapshot) = {| ss_market := ss_market (rc_snapshot saved); ss_active_provider := ss_active_provider (rc_snapshot saved);
      ss_state := ss_state (rc_snapshot saved); ss_connected_at := ss_connected_at (rc_snapshot saved);
      ss_last_event_at := ss_last_event_at (rc_snapshot saved); ss_gap_count := ss_gap_count (rc_snapshot saved);
      ss_failover_count := ss_failover_count (rc_snapshot saved); ss_last_error := ss_last_error (rc_snapshot saved);
      ss_failed_over_at := ss_failed_over_at (rc_snapshot saved);
      ss_fallback_available := ss_fallback_available (rc_snapshot fresh);
      ss_status_detail := ss_status_detail (rc_snapshot fresh) |}.
Proof.
  intros [_ Hin _] Hm. unfold restore, record_of. cbn [fr_active_provider fr_state fr_connected_at].
  destruct (list_find (fun p => p = ss_active_provider (rc_snapshot saved)) (cy_route cfg)) as [[i q]|] eqn:E.
  - apply list_find_Some in E as (Hi & -> & _). unfold mbind, result_bind. rewrite FeedState_roundtrip. eexists. split; [reflexivity|].
    split; [exact Hi|]. split; [reflexivity|]. rewrite <-Hm. reflexivity.
  - apply list_find_None in E. rewrite Forall_forall in E. exfalso. by apply (E _ Hin).
Qed.

Module RealtimeExample.
Record world := { w_now : Z; w_scripts : dict Provider (list (list stream_event)); w_open : dict nat (list stream_event);
                  w_next : nat; w_saved : list FeedStateRecord; w_offered : list FeatureRecord }.

Definition tick (n : Z) (w : world) : world :=
  {| w_now := w_now w + n; w_scripts := w_scripts w; w_open := w_open w; w_next := w_next w; w_saved := w_saved w;
     w_offered := w_offered w |}.
Definition with_open v (w : world) : world :=
  {| w_now := w_now w; w_scripts := w_scripts w; w_open := v; w_next := w_next w; w_saved := w_saved w; w_offered := w_offered w |}.

(** Each opening of a provider takes its next script; a stream that has
    nothing more to say times out.  [pace] is the time between messages. *)
Definition environment (pace : Z) : Environment world := {|
  ev_clock w := (at_utc (w_now w * second), w);
  ev_open p := fun w =>
    match w_scripts w !! p with
    | Some (script :: rest) =>
        (Ok (w_next w), {| w_now := w_now w; w_scripts := <[p := rest]> (w_scripts w); w_open := <[w_next w := script]> (w_open w);
                           w_next := S (w_next w); w_saved := w_saved w; w_offered := w_offered w |})
    | _ => (Err (OtherException "ConnectionError" "refused"), w)
    end;
  ev_next it w :=
    match w_open w !! it with
    | Some (e :: rest) => (e, tick pace (with_open (<[it := rest]> (w_open w)) w))
    | _ => (Failed (OtherException "TimeoutError" ""), tick 30 w)
    end;
  ev_close it := fun w => (Ok tt, with_open (delete it (w_open w)) w);
  ev_state_store := Some {|
    fs_load _ := fun w => (Ok (None, ∅), w);
    fs_save r := fun w => (Ok tt, {| w_now := w_now w; w_scripts := w_scripts w; w_open := w_open w; w_next := w_next w;
                                     w_saved := r :: w_saved w; w_offered := w_offered w |});
    fs_save_sequence _ _ _ _ _ := fun w => (Ok tt, w) |};
  ev_previous_candle_loader := None;
  ev_on_features := Some (fun l w =>
    (Ok tt, {| w_now := w_now w; w_scripts := w_scripts w; w_open := w_open w; w_next := w_next w; w_saved := w_saved w;
               w_offered := w_offered w ++ l |})) |}.

Definition okx_message (n t : Z) (price : float) : payload :=
  [("arg", JObj [("instId", JStr "BTC-USDT")]);
   ("data", JObj [("last", JFloat price); ("lastSz", JStr "0.25"); ("ts", JInt (t * 1000)); ("seqId", JInt n)])].
Definition poloniex_message (n t : Z) (price : float) : payload :=
  [("symbol", JStr "BTC_USDT"); ("price", JFloat price); ("quantity", JInt 1); ("ts", JInt (t * 1000)); ("id", JInt n)].
Definition heartbeat : payload := [("event", JStr "pong")].

(** OKX opens with one quote and then drops; it comes back for probes.
    Poloniex skips sequence 3 and sends noise in between. *)
Definition start : world := {|
  w_now := 1709264700;
  w_scripts := <[OKX := [[Received (okx_message 1 1709264700 42000); Failed (OtherException "ConnectionError" "reset")];
                         [Received (okx_message 7 1709264790 42001); Received (okx_message 8 1709264791 42001);
                          Received (okx_message 9 1709264792 42003); Received (okx_message 10 1709264793 42004);
                          Received (okx_message 11 1709264794 42005)]]]>
               (<[POLONIEX := [[Received (poloniex_message 1 1709264701 42000); Received heartbeat;
                                Received (poloniex_message 2 1709264762 42010); Received (poloniex_message 4 1709264763 42020);
                                Received (poloniex_message 3 1709264824 42030); Received (poloniex_message 5 1709264884 42040);
                                Received (poloniex_message 6 1709264885 42040); Received (poloniex_message 7 1709264886 42041);
                                Received (poloniex_message 8 1709264887 42042)]]]> ∅);
  w_open := ∅; w_next := 0; w_saved := []; w_offered := [] |}.

Definition made (pace : Z) (w : world) := match default_provider_registry with
  | Ok registry => (cycle_new (environment pace) CRYPTO registry [OKX; POLONIEX] ∅ 2 10 3 (2 * second) ∅ (Lake ∅ : FileLake "lake") w).1
  | Err e => Err e
  end.
Definition dummy : CycleConfig * CycleState (FileLake "lake") world.
Proof.
  refine ({| cy_market := CRYPTO; cy_route := []; cy_symbol_maps := ∅; cy_max_events := 0; cy_staleness := 0; cy_recovery_successes := 0;
             cy_recovery_cooldown := 0 |}, _).
  exact {| rc_active_index := 0; rc_primary_successes := 0; rc_failed_over_at := None; rc_iterators := ∅;
           rc_snapshot := {| ss_market := CRYPTO; ss_active_provider := OKX; ss_state := HEALTHY; ss_connected_at := at_utc 0;
             ss_last_event_at := None; ss_gap_count := 0; ss_failover_count := 0; ss_last_error := None; ss_failed_over_at := None;
             ss_fallback_available := false; ss_status_detail := None |};
           rc_sequences := ∅; rc_builders := []; rc_previous := ∅; rc_store := Lake ∅; rc_world := start |}.
Defined.
Definition config : CycleConfig := Eval vm_compute in match made 1 start with Ok (c, _) => c | Err _ => dummy.1 end.
Definition first : CycleState (FileLake "lake") world := Eval vm_compute in match made 1 start with Ok (_, s) => s | Err _ => dummy.2 end.
Abbreviation state := (CycleState (FileLake "lake") world).
Definition step (s : state) : result Z * state := default (Err (ValueError "fuel"), s) (run_once (environment 1) config 20 s).
Definition after1 : state := Eval vm_compute in (step first).2.
Definition after2 : state := Eval vm_compute in (step after1).2.
Definition after3 : state := Eval vm_compute in (step after2).2.
Definition after4 : state := Eval vm_compute in (step after3).2.
Definition after5 : state := Eval vm_compute in (step after4).2.
Definition refused : exn := OtherException "ConnectionError" "refused".

Lemma step1 : run_once (environment 1) config 20 first = Some (Ok 2, after1).
Proof. vm_compute. reflexivity. Qed.
Lemma step2 : run_once (environment 1) config 20 after1 = Some (Ok 2, after2).
Proof. vm_compute. reflexivity. Qed.
Lemma step3 : run_once (environment 1) config 20 after2 = Some (Ok 2, after3).
Proof. vm_compute. reflexivity. Qed.
Lemma step4 : run_once (environment 1) config 20 after3 = Some (Ok 2, after4).
Proof. vm_compute. reflexivity. Qed.
Lemma step5 : run_once (environment 1) config 20 after4 = Some (Err refused, after5).
Proof. vm_compute. reflexivity. Qed.

(** Failover after one quote, two probes that count, and the return to the
    primary with the third; two gaps were seen.  Then the primary falls
    silent and the fallback refuses. *)
Definition control (s : state) :=
  (rc_active_index s, rc_primary_successes s, ss_active_provider (rc_snapshot s), ss_state (rc_snapshot s), ss_gap_count (rc_snapshot s),
   ss_failover_count (rc_snapshot s), entries (rc_sequences s), length (w_offered (rc_world s))).
Example feed_story :
  List.map control [first; after1; after2; after3; after4; after5] =
  [(0%nat, 0, OKX, HEALTHY, 0, 0, [], 0%nat);
   (1%nat, 0, POLONIEX, FAILED_OVER, 0, 1, [(OKX, "BTC_USDT", 1); (POLONIEX, "BTC_USDT", 2)], 0%nat);
   (1%nat, 1, POLONIEX, FAILED_OVER, 1, 1, [(OKX, "BTC_USDT", 1); (POLONIEX, "BTC_USDT", 4)], 1%nat);
   (1%nat, 2, POLONIEX, FAILED_OVER, 1, 1, [(OKX, "BTC_USDT", 1); (POLONIEX, "BTC_USDT", 6)], 2%nat);
   (0%nat, 0, OKX, HEALTHY, 2, 1, [(OKX, "BTC_USDT", 11); (POLONIEX, "BTC_USDT", 6)], 2%nat);
   (1%nat, 0, POLONIEX, DEGRADED, 2, 2, [(OKX, "BTC_USDT", 11); (POLONIEX, "BTC_USDT", 6)], 2%nat)].
Proof. vm_compute. reflexivity. Qed.

(** A slice whose messages each arrive within the deadline is stale when
    together they took longer, and its stream is then neither closed nor
    forgotten. *)
Example slow_slice :
  match consume (environment 6) config 20 POLONIEX None false true first with
  | Some (r, s) => r = Err (stale POLONIEX) /\ rc_iterators s !! POLONIEX = Some 0%nat /\ is_Some (w_open (rc_world s) !! 0%nat)
  | None => False
  end.
Proof. vm_compute. split; [reflexivity|]. split; [reflexivity|]. by eexists. Qed.

Lemma first_consistent : consistent config first.
Proof. split; [vm_compute; lia|apply list_elem_of_here|vm_compute; discriminate]. Qed.
Lemma runs : run_many (environment 1) config 20 4 first = Some after4.
Proof. cbn [run_many]. rewrite step1, step2, step3, step4. reflexivity. Qed.
Lemma later_runs : run_many (environment 1) config 20 2 after1 = Some after3.
Proof. cbn [run_many]. rewrite step2, step3. reflexivity. Qed.
Lemma after1_consistent : consistent config after1.
Proof. exact (run_once_consistent _ _ _ _ _ _ first_consistent step1). Qed.
Lemma after4_consistent : consistent config after4.
Proof.
  apply (run_once_consistent _ _ _ _ _ _) with (2 := step4), (run_once_consistent _ _ _ _ _ _) with (2 := step3).
  exact (run_once_consistent _ _ _ _ _ _ after1_consistent step2).
Qed.
Lemma environment_reliable pace : reliable (environment pace).
Proof. split; [done| |by eexists]. intros store [= <-] r w. by eexists. Qed.

Lemma feed_invariant_witness : consistent config after4 /\ evolves first after4.
Proof. apply (feed_invariant (environment 1) config 20 4 first after4); [apply first_consistent|apply runs]. Defined.


Lemma no_early_return_witness :
  (after1.(rc_active_index) <= after3.(rc_active_index))%nat /\
  after3.(rc_primary_successes) <= after1.(rc_primary_successes) + Z.of_nat 2.
Proof.
  apply (no_early_return (environment 1) config 20 2 after1 after3); [apply after1_consistent|vm_compute; reflexivity|apply later_runs].
Defined.

Definition numbered_quote (n : Z) : QuoteEvent :=
  {| qe_market := CRYPTO; qe_provider := OKX; qe_symbol := "BTC_USDT"; qe_event_time := at_utc (1709264700 * second); qe_price := 42000;
     qe_volume := 1; qe_sequence := Some n |}.
Definition quotes : list QuoteEvent := List.map numbered_quote [1; 2; 5; 4; 6; 9].
Definition tracked := (for_each quotes (track_sequence (environment 1) config) first).2.
Lemma sequence_tracking_witness :
  (forall key, tracked.(rc_sequences) !! key = raised (first.(rc_sequences) !! key) (numbered key quotes)) /\
  tracked.(rc_snapshot).(ss_gap_count) = first.(rc_snapshot).(ss_gap_count) + skipped (fun key => first.(rc_sequences) !! key) [] quotes.
Proof. apply (sequence_tracking (environment 1) config quotes first tracked). vm_compute. reflexivity. Defined.
Example two_gaps : tracked.(rc_snapshot).(ss_gap_count) = 2 /\ tracked.(rc_sequences) !! (OKX, "BTC_USDT") = Some 9.
Proof. vm_compute. split; reflexivity. Qed.

(** One queue of messages for every stream. *)
Definition queue : Environment (list payload) := {|
  ev_clock w := (at_utc 0, w); ev_open _ := mret 0%nat;
  ev_next _ w := match w with m :: w => (Received m, w) | [] => (Ended, []) end;
  ev_close _ := mret tt; ev_state_store := None; ev_previous_candle_loader := None; ev_on_features := None |}.
Lemma queue_noise : finite_noise queue config length.
Proof.
  split.
  - split; [split; [intros w; lia|intros x y z; lia]|intros w; cbn; lia|intros p w; cbn; lia| |intros it w; cbn; lia|done|done|done|done].
    intros it [|m w]; cbn; lia.
  - intros p it [|m w] message w' now [=]; subst. cbn. lia.
Qed.
Definition queued : CycleState (FileLake "lake") (list payload) :=
  {| rc_active_index := 1; rc_primary_successes := 2; rc_failed_over_at := Some (at_utc (- 5 * second)); rc_iterators := ∅;
     rc_snapshot := rc_snapshot first; rc_sequences := ∅; rc_builders := rc_builders first; rc_previous := ∅; rc_store := Lake ∅;
     rc_world := [heartbeat; okx_message 1 0 42000; heartbeat; heartbeat; okx_message 2 0 42000] |}.
Lemma run_once_terminates_witness : exists r s', run_once queue config 9 queued = Some (r, s').
Proof. apply (run_once_terminates queue config length 9 queued); [exact queue_noise|reflexivity|vm_compute; lia]. Defined.
End RealtimeExample.
