(* ===== verification/History.v ===== *)
(** * Historical backfill (src/nanodelta/history/engine.py)

    Jobs that page a window of candles from the first provider of the route
    that delivers, ingest them, and keep track of covered opens, watermarks
    and runs; the readiness of a series; the repair of its gaps.  The
    providers' clients and the wall clock are operations of the world. *)

From Stdlib Require Import ZArith Floats Ascii String ZifyBool.
From stdpp Require Import prelude strings pretty numbers list sorting.
From S2P Require Import Prelude PyData PyFloat PyText PyDigits PyJson Sha256 PyTime PyDate Contracts Adapters Etl Candles Timeframes Realtime.

Local Open Scope Z_scope.

Inductive HistoryRunState := RUNNING | SUCCEEDED | FAILED.
#[export] Instance HistoryRunState_eq_dec : EqDecision HistoryRunState.
Proof. solve_decision. Defined.
Inductive ReadinessState := READY | BACKFILLING | INSUFFICIENT_DATA | STALE | FAILED_HISTORY.

Record HistoryJob := {
  hj_market : Market;
  hj_symbol : string;
  hj_timeframe : string;
  hj_provider_symbols : dict Provider string;
  hj_target_days : Z;
  hj_overlap_bars : Z;
  hj_request_limit : Z;
  hj_window_start : option datetime;
  hj_window_end : option datetime }.

Definition HistoryJob_post_init (j : HistoryJob) : result unit :=
  _ ← timeframe_delta j.(hj_timeframe);
  _ ← raise_if (str_empty j.(hj_symbol) || (j.(hj_target_days) <? 1) || (j.(hj_overlap_bars) <? 0))
        (ValueError "history job settings are invalid");
  match j.(hj_window_start), j.(hj_window_end) with
  | None, None => mret tt
  | Some s, Some e =>
      s ← utc s "window_start"; e ← utc e "window_end"; late ← dt_le e s;
      raise_if late (ValueError "history window start must be before end")
  | _, _ => Err (ValueError "both history window overrides are required")
  end.

Record Watermark := {
  wm_market : Market;
  wm_provider : Provider;
  wm_symbol : string;
  wm_timeframe : string;
  wm_event_time : datetime;
  wm_updated_at : datetime }.

Record HistoryRun := {
  hr_run_id : string;
  hr_market : Market;
  hr_symbol : string;
  hr_timeframe : string;
  hr_state : HistoryRunState;
  hr_started_at : datetime;
  hr_finished_at : option datetime;
  hr_provider : option Provider;
  hr_rows_received : Z;
  hr_bronze_created : Z;
  hr_silver_created : Z;
  hr_error : option string }.

Record HistoryStatus := {
  ht_market : Market;
  ht_symbol : string;
  ht_timeframe : string;
  ht_state : ReadinessState;
  ht_target_start : datetime;
  ht_settled_end : datetime;
  ht_first_open : option datetime;
  ht_last_open : option datetime;
  ht_expected_count : Z;
  ht_actual_count : Z;
  ht_gap_count : Z;
  ht_gaps : list datetime }.

(** ** [InMemoryHistoryState] *)

Abbreviation series := (Market * string * string)%type.
Record HistoryState := {
  hs_watermarks : dict (Market * Provider * string * string) Watermark;
  hs_coverage : dict series (list datetime);
  hs_runs : dict string HistoryRun }.

Definition covered (s : HistoryState) (k : series) : list datetime := default [] (s.(hs_coverage) !! k).
(** [coverage.setdefault(key, set()).add(utc(value))] *)
Definition record_open (k : series) (value : datetime) : M HistoryState unit :=
  v ← lift (utc value "open_time");
  modify (fun s => {| hs_watermarks := s.(hs_watermarks);
                      hs_coverage := <[k := if bool_decide (v ∈ covered s k) then covered s k else covered s k ++ [v]]> s.(hs_coverage);
                      hs_runs := s.(hs_runs) |}).
Definition watermark (s : HistoryState) (m : Market) (p : Provider) (symbol timeframe : string) : option Watermark :=
  s.(hs_watermarks) !! (m, p, symbol, timeframe).
Definition watermark_key (v : Watermark) : Market * Provider * string * string :=
  (v.(wm_market), v.(wm_provider), v.(wm_symbol), v.(wm_timeframe)).
Definition commit_watermark (value : Watermark) : M HistoryState unit :=
  s ← get_state;
  newer ← lift (match s.(hs_watermarks) !! watermark_key value with
                | None => mret true
                | Some current => dt_le current.(wm_event_time) value.(wm_event_time)
                end);
  when newer (modify (fun s => {| hs_watermarks := <[watermark_key value := value]> s.(hs_watermarks);
                                  hs_coverage := s.(hs_coverage); hs_runs := s.(hs_runs) |})).
Definition save_run (run : HistoryRun) : M HistoryState unit :=
  modify (fun s => {| hs_watermarks := s.(hs_watermarks); hs_coverage := s.(hs_coverage);
                      hs_runs := <[run.(hr_run_id) := run]> s.(hs_runs) |}).
Definition has_run_state (s : HistoryState) (m : Market) (symbol timeframe : string) (state : HistoryRunState) : bool :=
  existsb (fun run => bool_decide (run.(hr_market) = m) && String.eqb run.(hr_symbol) symbol
                      && String.eqb run.(hr_timeframe) timeframe && bool_decide (run.(hr_state) = state))
    (dict_values s.(hs_runs)).

(** ** Clients (src/nanodelta/providers/base.py) *)

Record HistoricalRequest := {
  hq_symbol : string;
  hq_timeframe : string;
  hq_start : datetime;
  hq_end : datetime;
  hq_limit : Z }.
Definition HistoricalRequest_post_init (q : HistoricalRequest) : result unit :=
  s ← utc q.(hq_start) "start";
  e ← utc q.(hq_end) "end";
  late ← dt_le e s;
  _ ← raise_if late (ValueError "historical start must be before end");
  _ ← raise_if (str_blank q.(hq_symbol) || str_blank q.(hq_timeframe)) (ValueError "symbol and timeframe are required");
  raise_if (negb ((1 <=? q.(hq_limit)) && (q.(hq_limit) <=? 5000))) (ValueError "limit must be between 1 and 5000").

Record HistoricalClient (W : Type) := {
  hc_market : Market;
  hc_provider : Provider;
  hc_fetch_candles : HistoricalRequest -> M W (list payload) }.
Arguments hc_market {W}.
Arguments hc_provider {W}.
Arguments hc_fetch_candles {W}.

Record HistoryWorld (S W : Type) := MkHistoryWorld { hw_state : HistoryState; hw_store : S; hw_world : W }.
Arguments MkHistoryWorld {S W}.
Arguments hw_state {S W}.
Arguments hw_store {S W}.
Arguments hw_world {S W}.

(** [max(a, b)], [min(a, b)] and [max(list)] of aware datetimes *)
Definition later (a b : datetime) : datetime := if instant a <? instant b then b else a.
Definition earlier (a b : datetime) : datetime := if instant b <? instant a then b else a.
Definition latest (l : list datetime) : option datetime :=
  match l with [] => None | t :: l => Some (foldl later t l) end.
Definition earliest (l : list datetime) : option datetime :=
  match l with [] => None | t :: l => Some (foldl earlier t l) end.

(** The tallies of a provider's pages. *)
Record Tally := { ty_rows : Z; ty_bronze : Z; ty_silver : Z; ty_opens : list datetime }.
Definition no_tally : Tally := {| ty_rows := 0; ty_bronze := 0; ty_silver := 0; ty_opens := [] |}.

Section BackfillEngine.
Context {S : Type} `{RecordStore S} {W : Type}.
Context (wall_clock : W -> datetime * W) (registry : ProviderRegistry) (clients : dict Provider (HistoricalClient W)).
Context (calendars : dict Market MarketCalendar).
Abbreviation HW := (HistoryWorld S W).

Definition in_state {A} (m : M HistoryState A) : M HW A := zoom hw_state (fun x w => MkHistoryWorld x w.(hw_store) w.(hw_world)) m.
Definition in_lake {A} (m : M S A) : M HW A := zoom hw_store (fun x w => MkHistoryWorld w.(hw_state) x w.(hw_world)) m.
Definition outside {A} (m : M W A) : M HW A := zoom hw_world (fun x w => MkHistoryWorld w.(hw_state) w.(hw_store) x) m.
Definition utc_now : M HW datetime := outside (fun w => let '(t, w') := wall_clock w in (Ok t, w')).

Definition series_of (job : HistoryJob) : series := (job.(hj_market), job.(hj_symbol), job.(hj_timeframe)).

(** One row of a page. *)
Definition take_row (job : HistoryJob) (provider : Provider) (provider_symbol : string) (now start end_ : datetime)
    (acc : Tally) (row : payload) : M HW Tally :=
  res ← in_lake (ingest job.(hj_market) provider CANDLE provider_symbol row now);
  let bronze := acc.(ty_bronze) + (if res.(ir_bronze_created) then 1 else 0) in
  let silver := acc.(ty_silver) + (if res.(ir_silver_created) then 1 else 0) in
  let acc := {| ty_rows := acc.(ty_rows); ty_bronze := bronze; ty_silver := silver; ty_opens := acc.(ty_opens) |} in
  match res.(ir_canonical) with
  | Some c =>
      if c.(cc_is_settled) && String.eqb c.(cc_symbol) job.(hj_symbol) && String.eqb c.(cc_timeframe) job.(hj_timeframe) then
        after ← lift (dt_le start c.(cc_open_time));
        before ← lift (if after : bool then dt_le c.(cc_open_time) end_ else mret false);
        if before : bool then
          _ ← in_state (record_open (series_of job) c.(cc_open_time));
          mret {| ty_rows := acc.(ty_rows); ty_bronze := bronze; ty_silver := silver; ty_opens := acc.(ty_opens) ++ [c.(cc_open_time)] |}
        else mret acc
      else mret acc
  | None => mret acc
  end.

(** One page: its request and the start of the next page. *)
Definition page_request (job : HistoryJob) (provider_symbol : string) (step : Z) (end_ cursor : datetime)
    : result HistoricalRequest :=
  stop ← dt_add end_ step;
  span ← timedelta_us (step * job.(hj_request_limit));
  next ← dt_add cursor span;
  let q := {| hq_symbol := provider_symbol; hq_timeframe := job.(hj_timeframe); hq_start := cursor; hq_end := earlier stop next;
              hq_limit := job.(hj_request_limit) |} in
  _ ← HistoricalRequest_post_init q;
  mret q.

(** [while cursor <= end] *)
Fixpoint pages (fuel : nat) (job : HistoryJob) (provider : Provider) (client : HistoricalClient W) (provider_symbol : string)
    (step : Z) (now start end_ cursor : datetime) (acc : Tally) : P HW Tally :=
  match fuel with
  | O => fun _ => None
  | Datatypes.S fuel =>
      go ← ending (lift (dt_le cursor end_));
      if go : bool then
        q ← ending (lift (page_request job provider_symbol step end_ cursor));
        rows ← ending (outside (client.(hc_fetch_candles) q));
        acc ← ending (fold_each rows {| ty_rows := acc.(ty_rows) + Z.of_nat (length rows); ty_bronze := acc.(ty_bronze);
                                        ty_silver := acc.(ty_silver); ty_opens := acc.(ty_opens) |}
                        (take_row job provider provider_symbol now start end_));
        pages fuel job provider client provider_symbol step now start end_ q.(hq_end) acc
      else mret acc
  end.
(** Pages needed: each covers at least one bar. *)
Definition page_fuel (start end_ : datetime) (step : Z) : nat := (3 + Z.to_nat ((instant end_ - instant start) / step))%nat.

(** [replace(run, ...)] for the ends of a run *)
Definition succeeded (run : HistoryRun) (t : datetime) (provider : Provider) (acc : Tally) : HistoryRun :=
  {| hr_run_id := run.(hr_run_id); hr_market := run.(hr_market); hr_symbol := run.(hr_symbol); hr_timeframe := run.(hr_timeframe);
     hr_state := SUCCEEDED; hr_started_at := run.(hr_started_at); hr_finished_at := Some t; hr_provider := Some provider;
     hr_rows_received := acc.(ty_rows); hr_bronze_created := acc.(ty_bronze); hr_silver_created := acc.(ty_silver);
     hr_error := run.(hr_error) |}.
Definition failed (run : HistoryRun) (t : option datetime) (error : string) : HistoryRun :=
  {| hr_run_id := run.(hr_run_id); hr_market := run.(hr_market); hr_symbol := run.(hr_symbol); hr_timeframe := run.(hr_timeframe);
     hr_state := FAILED; hr_started_at := run.(hr_started_at); hr_finished_at := t; hr_provider := run.(hr_provider);
     hr_rows_received := run.(hr_rows_received); hr_bronze_created := run.(hr_bronze_created);
     hr_silver_created := run.(hr_silver_created); hr_error := Some error |}.

(** The window a provider is asked for. *)
Definition window_start (job : HistoryJob) (step : Z) (end_ : datetime) (mark : option Watermark) : result datetime :=
  match job.(hj_window_start) with
  | Some t => utc t "window_start"
  | None =>
      days ← timedelta_us (job.(hj_target_days) * day);
      target ← dt_add end_ (- days);
      match mark with
      | None => mret target
      | Some m => overlap ← timedelta_us (step * job.(hj_overlap_bars)); t ← dt_add m.(wm_event_time) (- overlap); mret (later target t)
      end
  end.

(** The [try] of one provider: the finished run, or the reason it is passed
    over. *)
Definition backfill_from (job : HistoryJob) (provider : Provider) (client : HistoricalClient W) (provider_symbol : string)
    (step : Z) (now start end_ : datetime) (run : HistoryRun) : P HW (HistoryRun + string) :=
  try_except (fun e => negb (is_cancelled e))
    (acc ← pages (page_fuel start end_ step) job provider client provider_symbol step now start end_ start no_tally;
     match latest acc.(ty_opens) with
     | None => mret (inr (Provider_value provider +:+ ": no matching settled candles"))
     | Some last =>
         _ ← ending (in_state (commit_watermark
               {| wm_market := job.(hj_market); wm_provider := provider; wm_symbol := job.(hj_symbol);
                  wm_timeframe := job.(hj_timeframe); wm_event_time := last; wm_updated_at := now |}));
         t ← ending utc_now;
         let run := succeeded run t provider acc in
         _ ← ending (in_state (save_run run));
         mret (inl run)
     end)
    (fun e => mret (inr (Provider_value provider +:+ (": " +:+ error_text e)))).

(** [for provider in route] *)
Fixpoint try_providers (job : HistoryJob) (now end_ : datetime) (run : HistoryRun) (route : list Provider) (errors : list string)
    : P HW HistoryRun :=
  match route with
  | [] =>
      t ← ending utc_now;
      let run := failed run (Some t) (String.concat "; " errors) in
      _ ← ending (in_state (save_run run));
      mret run
  | provider :: route =>
      match clients !! provider, job.(hj_provider_symbols) !! provider with
      | Some client, Some provider_symbol =>
          if negb (bool_decide (client.(hc_market) = job.(hj_market)) && bool_decide (client.(hc_provider) = provider))
          then try_providers job now end_ run route (errors ++ [Provider_value provider +:+ ": ownership mismatch"])
          else
            self ← ending get_state;
            step ← ending (lift (timeframe_delta job.(hj_timeframe)));
            start ← ending (lift (window_start job step end_
                      (watermark self.(hw_state) job.(hj_market) provider job.(hj_symbol) job.(hj_timeframe))));
            outcome ← backfill_from job provider client provider_symbol step now start end_ run;
            match outcome with
            | inl run => mret run
            | inr error => try_providers job now end_ run route (errors ++ [error])
            end
      | _, _ => try_providers job now end_ run route (errors ++ [Provider_value provider +:+ ": unavailable"])
      end
  end.

Definition sync_end (job : HistoryJob) (now : datetime) : result datetime :=
  match job.(hj_window_end) with
  | Some t => t ← utc t "window_end"; settled ← last_settled_open now job.(hj_timeframe); mret (earlier t settled)
  | None => last_settled_open now job.(hj_timeframe)
  end.

Definition sync (job : HistoryJob) (now : datetime) : P HW HistoryRun :=
  now ← ending (lift (utc now "now"));
  started_at ← ending utc_now;
  end_ ← ending (lift (sync_end job now));
  providers ← ending (lift (route registry job.(hj_market) HISTORICAL_CANDLES));
  let run := {| hr_run_id := stable_id [Market_value job.(hj_market); job.(hj_symbol); job.(hj_timeframe); isoformat now];
                hr_market := job.(hj_market); hr_symbol := job.(hj_symbol); hr_timeframe := job.(hj_timeframe); hr_state := RUNNING;
                hr_started_at := started_at; hr_finished_at := None; hr_provider := None; hr_rows_received := 0;
                hr_bronze_created := 0; hr_silver_created := 0; hr_error := None |} in
  _ ← ending (in_state (save_run run));
  try_providers job now end_ run providers [].

(** ** Readiness *)

Definition readiness (running failed_before : bool) (step : Z) (end_ : datetime) (gaps : list datetime) (last : option datetime) : ReadinessState :=
  if running then BACKFILLING
  else match gaps, last with
       | [], _ => READY
       | _, Some t => if step <? instant end_ - instant t then STALE else if failed_before then FAILED_HISTORY else INSUFFICIENT_DATA
       | _, None => if failed_before then FAILED_HISTORY else INSUFFICIENT_DATA
       end.

Definition status (s : HistoryState) (job : HistoryJob) (now : datetime) : result HistoryStatus :=
  end_ ← last_settled_open now job.(hj_timeframe);
  days ← timedelta_us (job.(hj_target_days) * day);
  start ← dt_add end_ (- days);
  calendar ← match calendars !! job.(hj_market) with Some c => Ok c | None => Err (KeyError (Market_value job.(hj_market))) end;
  expected ← expected_opens calendar start end_ job.(hj_timeframe);
  let actual_all := covered s (series_of job) in
  let actual := List.filter (fun t => bool_decide (t ∈ actual_all)) expected in
  let gaps := List.filter (fun t => bool_decide (t ∉ actual_all)) expected in
  let running := has_run_state s job.(hj_market) job.(hj_symbol) job.(hj_timeframe) RUNNING in
  let failed_before := has_run_state s job.(hj_market) job.(hj_symbol) job.(hj_timeframe) FAILED in
  step ← timeframe_delta job.(hj_timeframe);
  mret {| ht_market := job.(hj_market); ht_symbol := job.(hj_symbol); ht_timeframe := job.(hj_timeframe);
          ht_state := readiness running failed_before step end_ gaps (latest actual_all);
          ht_target_start := start; ht_settled_end := end_; ht_first_open := earliest actual_all; ht_last_open := latest actual_all;
          ht_expected_count := Z.of_nat (length expected); ht_actual_count := Z.of_nat (length actual);
          ht_gap_count := Z.of_nat (length gaps); ht_gaps := gaps |}.

(** ** Repair *)

(** The groups of consecutive gaps; [group] ends in [last]. *)
Fixpoint group_gaps (step : Z) (group : list datetime) (last : datetime) (l : list datetime) : result (list (list datetime)) :=
  match l with
  | [] => mret [group]
  | gap :: l =>
      next ← dt_add last step;
      if bool_decide (gap = next) then group_gaps step (group ++ [gap]) gap l
      else rest ← group_gaps step [gap] gap l; mret (group :: rest)
  end.

Definition with_window (job : HistoryJob) (first last : datetime) : HistoryJob :=
  {| hj_market := job.(hj_market); hj_symbol := job.(hj_symbol); hj_timeframe := job.(hj_timeframe);
     hj_provider_symbols := job.(hj_provider_symbols); hj_target_days := job.(hj_target_days); hj_overlap_bars := job.(hj_overlap_bars);
     hj_request_limit := job.(hj_request_limit); hj_window_start := Some first; hj_window_end := Some last |}.

(** [replace(job, window_start=group[0], window_end=group[-1] + step)] *)
Definition repair_job (job : HistoryJob) (step : Z) (group : list datetime) : result HistoryJob :=
  match group, last group with
  | first :: _, Some final =>
      e ← dt_add final step;
      let j := with_window job first e in
      _ ← HistoryJob_post_init j;
      mret j
  | _, _ => Err (OtherException "IndexError" "list index out of range")
  end.

Fixpoint repair_groups (job : HistoryJob) (step : Z) (now : datetime) (index : Z) (groups : list (list datetime)) : P HW (list HistoryRun) :=
  match groups with
  | [] => mret []
  | group :: groups =>
      j ← ending (lift (repair_job job step group));
      now_i ← ending (lift (dt_add now index));
      run ← sync j now_i;
      self ← ending get_state;
      let remaining := List.filter (fun gap => bool_decide (gap ∉ covered self.(hw_state) (series_of job))) group in
      run ← ending (match remaining with
                    | _ :: _ =>
                        if bool_decide (run.(hr_state) = SUCCEEDED) then
                          let run := failed run run.(hr_finished_at) ("targeted gaps remain: " +:+ str_Z (Z.of_nat (length remaining))) in
                          _ ← in_state (save_run run); mret run
                        else mret run
                    | [] => mret run
                    end);
      runs ← repair_groups job step now (index + 1) groups;
      mret (run :: runs)
  end.

Definition repair (job : HistoryJob) (gaps : list datetime) (now : datetime) : P HW (list HistoryRun) :=
  match gaps with
  | [] => mret []
  | _ =>
      normal ← ending (lift (map_result (fun gap => utc gap "gap") gaps));
      step ← ending (lift (timeframe_delta job.(hj_timeframe)));
      match py_sorted (fun a b => instant a <? instant b) (fromkeys normal) with
      | [] => ending (raise (OtherException "IndexError" "list index out of range"))
      | first :: rest => groups ← ending (lift (group_gaps step [first] first rest)); repair_groups job step now 0 groups
      end
  end.
End BackfillEngine.

(** ** What the state gains *)

(** Coverage of series [k0] up to [limit] and nothing else is added, no
    watermark goes back, no run is forgotten. *)
Record advances (limit : Z) (k0 : series) (s s' : HistoryState) : Prop := {
  av_kept k t : t ∈ covered s k -> t ∈ covered s' k;
  av_new k t : t ∈ covered s' k -> t ∈ covered s k \/ (k = k0 /\ aware t = true /\ instant t <= limit);
  av_marks key m : s.(hs_watermarks) !! key = Some m ->
    exists m', s'.(hs_watermarks) !! key = Some m' /\ instant m.(wm_event_time) <= instant m'.(wm_event_time);
  av_runs id : is_Some (s.(hs_runs) !! id) -> is_Some (s'.(hs_runs) !! id) }.

#[export] Instance advances_order limit k0 : PreOrder (advances limit k0).
Proof.
  split.
  - intros s. split; [done|by left| |done]. intros key m Hm. exists m. split; [done|lia].
  - intros a b c [A1 A2 A3 A4] [B1 B2 B3 B4]. split; [auto| | |auto].
    + intros k t Ht. destruct (B2 _ _ Ht) as [Hb|Hb]; [auto|by right].
    + intros key m Hm. destruct (A3 _ _ Hm) as (m1 & H1 & L1). destruct (B3 _ _ H1) as (m2 & H2 & L2). exists m2. split; [done|lia].
Qed.

Lemma dt_le_true a b : dt_le a b = Ok true -> instant a <= instant b.
Proof. unfold dt_le. destruct (Bool.eqb _ _); [|done]. intros [= H]. lia. Qed.

Section Growth.
Context (limit : Z) (k0 : series).

Lemma save_run_advances run : preserves (advances limit k0) (save_run run).
Proof.
  intros s. split; cbn [snd save_run modify hs_runs hs_watermarks]; [done|by left| |].
  - intros key m Hm. exists m. split; [done|lia].
  - intros id Hid. rewrite dict_lookup_insert. case_decide; [by eexists|done].
Qed.
Lemma commit_advances value : preserves (advances limit k0) (commit_watermark value).
Proof.
  intros s. unfold commit_watermark, mbind, M_bind, get_state, lift.
  destruct (match hs_watermarks s !! watermark_key value with None => _ | Some _ => _ end) as [[|]|e] eqn:E; [|reflexivity|reflexivity].
  cbn [when snd modify]. split; cbn [hs_runs hs_watermarks]; [done|by left| |done].
  intros key m Hm. rewrite dict_lookup_insert. case_decide as Hk; [|exists m; split; [done|lia]]. subst key. rewrite Hm in E.
  exists value. split; [done|]. by apply dt_le_true.
Qed.
Lemma record_open_advances t (s : HistoryState) : instant t <= limit -> advances limit k0 s (record_open k0 t s).2.
Proof.
  intros Ht. unfold record_open, mbind, M_bind, lift, modify. destruct (utc t "open_time") as [v|e] eqn:Eu; [|reflexivity].
  apply utc_ok in Eu as [_ ->]. cbn [snd]. set (v := at_utc (instant t)).
  assert (Hcov : forall k, covered {| hs_watermarks := hs_watermarks s;
      hs_coverage := <[k0 := if bool_decide (v ∈ covered s k0) then covered s k0 else covered s k0 ++ [v]]> (hs_coverage s);
      hs_runs := hs_runs s |} k =
    if decide (k0 = k) then (if bool_decide (v ∈ covered s k0) then covered s k0 else covered s k0 ++ [v]) else covered s k).
  { intros k. unfold covered at 1. cbn [hs_coverage]. rewrite dict_lookup_insert. by case_decide. }
  split; cbn [hs_runs hs_watermarks].
  - intros k x Hx. rewrite Hcov. destruct (decide (k0 = k)) as [<-|]; [|done]. case_bool_decide; [done|]. apply elem_of_app. by left.
  - intros k x. rewrite Hcov. destruct (decide (k0 = k)) as [<-|]; [|by left]. case_bool_decide; [by left|].
    intros [Hx|Hx%list_elem_of_singleton]%elem_of_app; [by left|right]. subst x. subst v. by rewrite instant_at_utc.
  - intros key m Hm. exists m. split; [done|lia].
  - done.
Qed.
End Growth.

Section EngineTheory.
Context {S : Type} `{RecordStore S} {W : Type}.
Context (wall_clock : W -> datetime * W) (registry : ProviderRegistry) (clients : dict Provider (HistoricalClient W)).
Abbreviation HW := (HistoryWorld S W).

Definition gains (limit : Z) (k0 : series) (w w' : HW) : Prop := advances limit k0 w.(hw_state) w'.(hw_state).
#[local] Instance gains_order limit k0 : PreOrder (gains limit k0).
Proof. split; [intros w; unfold gains; reflexivity|intros a b c; unfold gains; by etransitivity]. Qed.

Lemma gains_state {A} limit k0 (m : M HistoryState A) : preserves (advances limit k0) m -> preserves (gains limit k0) (in_state (S := S) (W := W) m).
Proof. intros Hm w. unfold in_state, zoom, gains. specialize (Hm (hw_state w)). by destruct (m (hw_state w)). Qed.
Lemma gains_lake {A} limit k0 (m : M S A) : preserves (gains limit k0) (in_lake (W := W) m).
Proof. intros w. unfold in_lake, zoom, gains. destruct (m (hw_store w)). reflexivity. Qed.
Lemma gains_outside {A} limit k0 (m : M W A) : preserves (gains limit k0) (outside (S := S) m).
Proof. intros w. unfold outside, zoom, gains. destruct (m (hw_world w)). reflexivity. Qed.
Lemma gains_now limit k0 : preserves (gains limit k0) (utc_now (S := S) wall_clock).
Proof. apply gains_outside. Qed.
Lemma gains_save limit k0 run : preserves (gains limit k0) (in_state (S := S) (W := W) (save_run run)).
Proof. apply gains_state, save_run_advances. Qed.
Lemma gains_commit limit k0 v : preserves (gains limit k0) (in_state (S := S) (W := W) (commit_watermark v)).
Proof. apply gains_state, commit_advances. Qed.
#[local] Hint Resolve gains_lake gains_outside gains_now gains_save gains_commit : preserves.

Lemma gains_row job provider symbol now start end_ acc row :
  preserves (gains (instant end_) (series_of job)) (take_row (S := S) (W := W) job provider symbol now start end_ acc row).
Proof.
  unfold take_row. apply preserves_bind; [typeclasses eauto|apply gains_lake|]. intros res.
  destruct (ir_canonical res) as [c|]; [|keep]. destruct (_ && _ && _); [|keep].
  intros w. unfold mbind at 1, M_bind at 1. unfold lift at 1.
  destruct (dt_le start (cc_open_time _)) as [after|e]; [|reflexivity]. unfold mbind at 1, M_bind at 1. unfold lift at 1.
  destruct after; [|reflexivity]. destruct (dt_le (cc_open_time _) end_) as [[|]|e] eqn:El; [|reflexivity|reflexivity].
  apply dt_le_true in El. pose proof (record_open_advances _ (series_of job) _ (hw_state w) El) as Hr.
  unfold mbind at 1, M_bind at 1, in_state, zoom. destruct (record_open _ _ (hw_state w)) as [[u|e] s']; exact Hr.
Qed.
#[local] Hint Resolve gains_row : preserves.

Lemma gains_pages fuel job provider client symbol step now start end_ : forall cursor acc,
  keeps (gains (instant end_) (series_of job)) (pages (S := S) fuel job provider client symbol step now start end_ cursor acc).
Proof.
  induction fuel as [|fuel IH]; intros cursor acc; cbn [pages]; [done|]. keep.
Qed.
#[local] Hint Resolve gains_pages : preserves.
Lemma gains_backfill job provider client symbol step now start end_ run :
  keeps (gains (instant end_) (series_of job)) (backfill_from (S := S) wall_clock job provider client symbol step now start end_ run).
Proof. unfold backfill_from. keep. Qed.
#[local] Hint Resolve gains_backfill : preserves.
Lemma gains_providers job now end_ run providers : forall errors,
  keeps (gains (instant end_) (series_of job)) (try_providers (S := S) wall_clock clients job now end_ run providers errors).
Proof. induction providers as [|p providers IH]; intros errors; cbn [try_providers]; keep; apply IH. Qed.

(** ** Pages *)

(** A valid request moves past the end or by at least one bar. *)
Lemma page_request_moves job symbol step end_ cursor q : 0 < step -> page_request job symbol step end_ cursor = Ok q ->
  hq_start q = cursor /\ instant cursor < instant (hq_end q) <= instant end_ + step /\
  instant (hq_end q) <= instant cursor + step * job.(hj_request_limit) /\
  (instant end_ < instant (hq_end q) \/ instant cursor + step <= instant (hq_end q)).
Proof.
  intros Hs. unfold page_request. intros (stop & Est%dt_add_inv & E)%result_bind_ok.
  apply result_bind_ok in E as (span & Esp & E). apply result_bind_ok in E as (next & En%dt_add_inv & E).
  apply result_bind_ok in E as (u & Hv & [= <-]). cbn [hq_start hq_end hq_symbol hq_timeframe hq_limit] in *.
  assert (span = step * hj_request_limit job) as ->.
  { unfold timedelta_us in Esp. destruct (_ || _); [done|]. destruct (_ || _); [done|]. by injection Esp. }
  assert (Hi : instant stop = instant end_ + step /\ instant next = instant cursor + step * hj_request_limit job).
  { subst. unfold instant. cbn. lia. }
  unfold HistoricalRequest_post_init in Hv. cbn [hq_start hq_end hq_symbol hq_timeframe hq_limit] in Hv.
  apply result_bind_ok in Hv as (a & [Ha1 ->]%utc_ok & Hv). apply result_bind_ok in Hv as (b & [Hb1 ->]%utc_ok & Hv).
  apply result_bind_ok in Hv as (late & Hl & Hv). apply result_bind_ok in Hv as (v & Hlate%raise_if_ok & Hv). subst late.
  apply result_bind_ok in Hv as (v' & _ & Hv%raise_if_ok). unfold dt_le in Hl. rewrite !aware_at_utc, !instant_at_utc in Hl.
  cbn [Bool.eqb] in Hl. injection Hl as Hl. split; [done|]. unfold earlier in *. destruct (instant next <? instant stop) eqn:Ec; nia.
Qed.

Lemma steps_antitone a b end_ step : 0 < step -> a <= b -> (steps b end_ step <= steps a end_ step)%nat.
Proof. intros Hs Hab. unfold steps. assert ((end_ - b) / step <= (end_ - a) / step) by (apply Z.div_le_mono; lia). lia. Qed.

Lemma pages_end fuel job provider client symbol step now start end_ : 0 < step -> forall cursor acc (w : HW),
  (steps (instant cursor) (instant end_) step < fuel)%nat ->
  exists r w', pages fuel job provider client symbol step now start end_ cursor acc w = Some (r, w').
Proof.
  intros Hs. induction fuel as [|fuel IH]; intros cursor acc w Hf; [lia|]. cbn [pages].
  unfold mbind at 1, P_bind at 1, ending at 1, lift at 1. destruct (dt_le cursor end_) as [[|]|e] eqn:El; [|by eexists _, _|by eexists _, _].
  apply dt_le_true in El. unfold mbind at 1, P_bind at 1, ending at 1, lift at 1.
  destruct (page_request _ _ _ _ _) as [q|e] eqn:Eq; [|by eexists _, _].
  apply page_request_moves in Eq as (_ & Hq & _ & Hmove); [|done].
  unfold mbind at 1, P_bind at 1, ending at 1. destruct (outside _ w) as [[rows|e] w1]; [|by eexists _, _].
  unfold mbind at 1, P_bind at 1, ending at 1. destruct (fold_each rows _ _ w1) as [[acc'|e] w2]; [|by eexists _, _].
  apply IH. rewrite (steps_more (instant cursor)) in Hf by lia. destruct Hmove as [Hm|Hm].
  - rewrite (steps_none (instant (hq_end q))) by lia. lia.
  - pose proof (steps_antitone _ _ (instant end_) step Hs Hm). lia.
Qed.
#[local] Hint Resolve ends_ret : ends.
Definition anything (_ : HW) : Prop := True.
Lemma ends_any {A} (m : M HW A) : ends anything (ending m).
Proof. intros w _. unfold ending. destruct (m w) as [r w']. by exists r, w'. Qed.

Lemma ends_backfill job provider client symbol step now start end_ run : 0 < step ->
  ends anything (backfill_from (S := S) wall_clock job provider client symbol step now start end_ run).
Proof.
  intros Hs. unfold backfill_from. apply ends_try; [|intros e; apply ends_ret]. apply ends_bind.
  - intros w _. destruct (pages_end (page_fuel start end_ step) job provider client symbol step now start end_ Hs start no_tally w) as (r & w' & E).
    + unfold page_fuel, steps. lia.
    + by exists r, w'.
  - intros acc. destruct (latest _) as [t|]; [|apply ends_ret]. repeat first [apply ends_bind; [apply ends_any|intros ?]|apply ends_ret].
Qed.
Lemma ends_providers job now end_ run providers : forall errors,
  ends anything (try_providers (S := S) wall_clock clients job now end_ run providers errors).
Proof.
  induction providers as [|p providers IH]; intros errors; cbn [try_providers].
  - repeat first [apply ends_bind; [apply ends_any|intros ?]|apply ends_ret].
  - destruct (clients !! p) as [client|]; [|apply IH]. destruct (hj_provider_symbols job !! p) as [symbol|]; [|apply IH].
    destruct (negb _); [apply IH|]. apply ends_bind; [apply ends_any|intros self].
    intros w _. unfold mbind at 1, P_bind at 1, ending at 1, lift at 1.
    destruct (timeframe_delta (hj_timeframe job)) as [step|e] eqn:Es; [|by eexists _, _].
    destruct (timeframe_delta_bounds _ _ Es) as (n & Hn & Hb).
    assert (Hs : 0 < step) by (unfold second in Hn; lia). revert w.
    assert (Hrest : ends anything (start ← ending (lift (window_start job step end_
        (watermark self.(hw_state) job.(hj_market) p job.(hj_symbol) job.(hj_timeframe))));
      outcome ← backfill_from (S := S) wall_clock job p client symbol step now start end_ run;
      match outcome with inl run => mret run | inr error => try_providers wall_clock clients job now end_ run providers (errors ++ [error]) end)).
    { apply ends_bind; [apply ends_any|intros start]. apply ends_bind; [by apply ends_backfill|].
      intros [r|error]; [apply ends_ret|apply IH]. }
    intros w. by apply Hrest.
Qed.
Lemma ends_sync job now : ends anything (sync (S := S) wall_clock registry clients job now).
Proof. unfold sync. repeat (apply ends_bind; [apply ends_any|intros ?]). apply ends_providers. Qed.
End EngineTheory.

(** ** Properties of a backfill *)

Lemma advances_weaken limit limit' k0 s s' : limit <= limit' -> advances limit k0 s s' -> advances limit' k0 s s'.
Proof.
  intros Hl [A B C D]. split; [done| |done|done]. intros k t Ht.
  destruct (B k t Ht) as [|(? & ? & ?)]; [by left|right]. split; [done|]. split; [done|lia].
Qed.

Lemma sync_end_settled job now end_ : sync_end job now = Ok end_ ->
  exists settled, last_settled_open now job.(hj_timeframe) = Ok settled /\ instant end_ <= instant settled.
Proof.
  unfold sync_end. destruct (hj_window_end job) as [t|]; [|intros ->; by exists end_].
  intros (t' & _ & E)%result_bind_ok. apply result_bind_ok in E as (settled & Es & [= <-]). exists settled. split; [done|].
  unfold earlier. destruct (instant settled <? instant t') eqn:E; lia.
Qed.

(** Every backfill ends, whatever its job, its clients and its store do: a
    request that would not move forward is refused, and every other page
    covers a bar or passes the end. *)
Theorem sync_terminates {S} `{RecordStore S} {W} wall_clock registry (clients : dict Provider (HistoricalClient W)) job now (w : HistoryWorld S W) :
  exists r w', sync wall_clock registry clients job now w = Some (r, w').
Proof. destruct (ends_sync wall_clock registry clients job now w I) as (r & w' & E & _). by exists r, w'. Qed.

Lemma sync_gains {S} `{RecordStore S} {W} wall_clock registry (clients : dict Provider (HistoricalClient W)) job now
    (w w' : HistoryWorld S W) r : sync wall_clock registry clients job now w = Some (r, w') ->
  w'.(hw_state) = w.(hw_state) \/
  exists end_, sync_end job (at_utc (instant now)) = Ok end_ /\ gains (instant end_) (series_of job) w w'.
Proof.
  unfold sync. intros [(t & w1 & [= E1 <-] & E)|(e & [= E1 <-] & ->)]%P_bind_some; [|by left]. apply utc_ok in E1 as [_ ->].
  assert (Hsame : forall r0 w0, ending (utc_now (S := S) wall_clock) w = Some (r0, w0) -> hw_state w0 = hw_state w).
  { intros r0 w0 [= E0]. revert E0. unfold utc_now, outside, zoom. destruct (wall_clock (hw_world w)). by intros [= _ <-]. }
  apply P_bind_some in E as [(started & w2 & E2 & E)|(e & E2 & ->)]; apply Hsame in E2; [|by left].
  apply P_bind_some in E as [(end_ & w3 & [= E3 <-] & E)|(e & [= E3 <-] & ->)]; [|by left].
  apply P_bind_some in E as [(providers & w4 & [= E4 <-] & E)|(e & [= E4 <-] & ->)]; [|by left].
  right. exists end_. split; [done|]. unfold gains. rewrite <-E2.
  apply P_bind_some in E as [(u & w5 & E5 & E)|(e & E5 & ->)];
    pose proof (keeps_ending _ _ (gains_save (instant end_) (series_of job) _) _ _ _ E5) as Hsave; [|exact Hsave].
  unfold gains in Hsave. etransitivity; [exact Hsave|]. exact (gains_providers wall_clock clients job _ end_ _ providers [] _ _ _ E).
Qed.


(** ** How a backfill ends *)

Section Outcome.
Context {S : Type} `{RecordStore S} {W : Type}.
Context (wall_clock : W -> datetime * W) (registry : ProviderRegistry) (clients : dict Provider (HistoricalClient W)).
Abbreviation HW := (HistoryWorld S W).

Definition same_run (a b : HistoryRun) : Prop :=
  b.(hr_run_id) = a.(hr_run_id) /\ b.(hr_market) = a.(hr_market) /\ b.(hr_symbol) = a.(hr_symbol) /\ b.(hr_timeframe) = a.(hr_timeframe).

Lemma ending_some {St A} (m : M St A) s r s' : ending m s = Some (r, s') -> m s = (r, s').
Proof. unfold ending. by intros [= ->]. Qed.
Lemma commit_present value (s s' : HistoryState) u : commit_watermark value s = (Ok u, s') -> is_Some (s'.(hs_watermarks) !! watermark_key value).
Proof.
  unfold commit_watermark, mbind, M_bind, get_state, lift.
  destruct (hs_watermarks s !! watermark_key value) as [m|] eqn:E.
  - destruct (dt_le _ _) as [[|]|e]; [|intros [= _ <-]; by rewrite E|done]. intros [= _ <-]. cbn. rewrite dict_lookup_insert_eq. by eexists.
  - intros [= _ <-]. cbn. rewrite dict_lookup_insert_eq. by eexists.
Qed.

Lemma backfill_outcome job provider client symbol step now start end_ run (w w' : HW) run' :
  backfill_from wall_clock job provider client symbol step now start end_ run w = Some (Ok (inl run'), w') ->
  same_run run run' /\ w'.(hw_state).(hs_runs) !! run'.(hr_run_id) = Some run' /\ run'.(hr_state) = SUCCEEDED /\
  run'.(hr_provider) = Some provider /\ is_Some (watermark w'.(hw_state) job.(hj_market) provider job.(hj_symbol) job.(hj_timeframe)).
Proof.
  unfold backfill_from. intros [[E _]|(e & w1 & _ & _ & [=])]%try_some.
  apply P_bind_some in E as [(acc & w1 & _ & E)|(e & _ & [=])].
  destruct (latest (ty_opens acc)) as [t|]; [|done].
  apply P_bind_some in E as [(u & w2 & E2%ending_some & E)|(e & _ & [=])].
  apply P_bind_some in E as [(t' & w3 & E3%ending_some & E)|(e & _ & [=])].
  apply P_bind_some in E as [(u' & w4 & E4%ending_some & E)|(e & _ & [=])]. injection E as <- <-.
  unfold in_state, zoom in E2. destruct (commit_watermark _ (hw_state w1)) as [r s2] eqn:Ec. injection E2 as -> <-.
  apply commit_present in Ec. unfold utc_now, outside, zoom in E3. cbn [hw_world] in E3. destruct (wall_clock (hw_world w1)) as [tc wc].
  injection E3 as <- <-. cbn [hw_state] in E4. injection E4 as <- <-. cbn [hw_state hs_runs].
  split; [done|]. split; [cbn; by rewrite dict_lookup_insert_eq|]. split; [done|]. split; [done|]. exact Ec.
Qed.

Lemma providers_outcome job now end_ run providers : forall errors (w w' : HW) run',
  try_providers wall_clock clients job now end_ run providers errors w = Some (Ok run', w') ->
  same_run run run' /\ w'.(hw_state).(hs_runs) !! run'.(hr_run_id) = Some run' /\
  ((run'.(hr_state) = SUCCEEDED /\ exists p, p ∈ providers /\ run'.(hr_provider) = Some p /\
      is_Some (watermark w'.(hw_state) job.(hj_market) p job.(hj_symbol) job.(hj_timeframe))) \/
   (run'.(hr_state) = FAILED /\ exists reasons, run'.(hr_error) = Some (String.concat "; " reasons) /\
      length reasons = (length errors + length providers)%nat)).
Proof.
  assert (Hskip : forall errors reason (reasons : list string) (l : list Provider),
    length reasons = (length (errors ++ [reason] : list string) + length l)%nat -> length reasons = (length errors + Datatypes.S (length l))%nat)
    by (intros ????; rewrite length_app; cbn; lia).
  induction providers as [|p providers IH]; intros errors w w' run' E; cbn [try_providers] in E.
  - apply P_bind_some in E as [(t & w1 & _ & E)|(e & _ & [=])]. apply P_bind_some in E as [(u & w2 & E2%ending_some & E)|(e & _ & [=])].
    injection E as <- <-. split; [done|]. injection E2 as _ <-. cbn [hw_state hs_runs]. split; [cbn; by rewrite dict_lookup_insert_eq|].
    right. split; [done|]. exists errors. split; [done|]. cbn. lia.
  - assert (Hrest : forall errors' w0, try_providers wall_clock clients job now end_ run providers errors' w0 = Some (Ok run', w') ->
      (exists reason, errors' = errors ++ [reason]) -> same_run run run' /\ w'.(hw_state).(hs_runs) !! run'.(hr_run_id) = Some run' /\
      ((run'.(hr_state) = SUCCEEDED /\ exists q, q ∈ p :: providers /\ run'.(hr_provider) = Some q /\
          is_Some (watermark w'.(hw_state) job.(hj_market) q job.(hj_symbol) job.(hj_timeframe))) \/
       (run'.(hr_state) = FAILED /\ exists reasons, run'.(hr_error) = Some (String.concat "; " reasons) /\
          length reasons = (length errors + length (p :: providers))%nat))).
    { intros errors' w0 E0 [reason ->]. destruct (IH _ _ _ _ E0) as (A & B & C). split; [done|]. split; [done|].
      destruct C as [(C & q & Hq & D)|(C & reasons & D & Hl)]; [left; split; [done|]; exists q; split; [by right|done]|right].
      split; [done|]. exists reasons. split; [done|]. by eapply Hskip. }
    destruct (clients !! p) as [client|]; [|eapply Hrest; [exact E|by eexists]].
    destruct (hj_provider_symbols job !! p) as [symbol|]; [|eapply Hrest; [exact E|by eexists]].
    destruct (negb _); [eapply Hrest; [exact E|by eexists]|].
    apply P_bind_some in E as [(self & w1 & _ & E)|(e & _ & [=])]. apply P_bind_some in E as [(step & w2 & _ & E)|(e & _ & [=])].
    apply P_bind_some in E as [(start & w3 & _ & E)|(e & _ & [=])]. apply P_bind_some in E as [([r|reason] & w4 & Eb & E)|(e & _ & [=])].
    + injection E as <- <-. destruct (backfill_outcome _ _ _ _ _ _ _ _ _ _ _ _ Eb) as (A & B & C & D & F).
      split; [done|]. split; [done|]. left. split; [done|]. exists p. split; [by left|done].
    + eapply Hrest; [exact E|by eexists].
Qed.
End Outcome.

(** How a backfill that returns has ended.  The run is recorded under its
    identity and is no longer RUNNING: it SUCCEEDED with a provider of the
    route whose watermark is set, or FAILED with one reason for every provider
    of the route. *)
Theorem sync_outcome {S} `{RecordStore S} {W} wall_clock registry (clients : dict Provider (HistoricalClient W)) job now providers
    (w w' : HistoryWorld S W) run :
  route registry job.(hj_market) HISTORICAL_CANDLES = Ok providers ->
  sync wall_clock registry clients job now w = Some (Ok run, w') ->
  run.(hr_run_id) = stable_id [Market_value job.(hj_market); job.(hj_symbol); job.(hj_timeframe); isoformat (at_utc (instant now))] /\
  w'.(hw_state).(hs_runs) !! run.(hr_run_id) = Some run /\
  ((run.(hr_state) = SUCCEEDED /\ exists p, p ∈ providers /\ run.(hr_provider) = Some p /\
      is_Some (watermark w'.(hw_state) job.(hj_market) p job.(hj_symbol) job.(hj_timeframe))) \/
   (run.(hr_state) = FAILED /\ exists reasons, run.(hr_error) = Some (String.concat "; " reasons) /\ length reasons = length providers)).
Proof.
  intros Hroute. unfold sync. intros [(t & w1 & [= E1 <-] & E)|(e & _ & [=])]%P_bind_some. apply utc_ok in E1 as [_ ->].
  apply P_bind_some in E as [(started & w2 & _ & E)|(e & _ & [=])]. apply P_bind_some in E as [(end_ & w3 & _ & E)|(e & _ & [=])].
  apply P_bind_some in E as [(ps & w4 & [= E4 _] & E)|(e & _ & [=])]. rewrite Hroute in E4. injection E4 as <-.
  apply P_bind_some in E as [(u & w5 & _ & E)|(e & _ & [=])].
  apply providers_outcome in E as ((Hid & _) & Hrun & Hend). split; [exact Hid|]. split; [exact Hrun|]. exact Hend.
Qed.

(** ** The requests of a backfill *)

(** A client whose requests are logged. *)
Definition logged {W} (client : HistoricalClient W) : HistoricalClient (W * list HistoricalRequest) := {|
  hc_market := client.(hc_market); hc_provider := client.(hc_provider);
  hc_fetch_candles q := fun w => let '(r, w') := client.(hc_fetch_candles) q w.1 in (r, (w', w.2 ++ [q])) |}.

(** Requests that follow each other from [cursor] until past [end_], none
    longer than [span] nor reaching more than a bar past the end. *)
Fixpoint tiles (span step end_ : Z) (cursor : datetime) (l : list HistoricalRequest) : Prop :=
  match l with
  | [] => end_ < instant cursor
  | q :: l =>
      hq_start q = cursor /\ instant cursor <= end_ /\
      instant cursor < instant (hq_end q) <= Z.min (instant cursor + span) (end_ + step) /\ tiles span step end_ (hq_end q) l
  end.
Lemma tiles_cover span step end_ l : forall cursor x, tiles span step end_ cursor l -> instant cursor <= x <= end_ ->
  exists q, q ∈ l /\ instant (hq_start q) <= x < instant (hq_end q).
Proof.
  induction l as [|q l IH]; intros cursor x Ht Hx; cbn in Ht; [lia|]. destruct Ht as (Hq & _ & Hb & Ht).
  destruct (Z.lt_ge_cases x (instant (hq_end q))) as [Hlt|Hge]; [exists q; split; [by left|rewrite Hq; lia]|].
  destruct (IH _ x Ht ltac:(lia)) as (q' & Hin & Hq'). exists q'. split; [by right|done].
Qed.

Section Requests.
Context {S : Type} `{RecordStore S} {W : Type}.
Abbreviation HW := (HistoryWorld S (W * list HistoricalRequest)).

Definition same_log (w w' : HW) : Prop := w'.(hw_world).2 = w.(hw_world).2.
#[local] Instance same_log_order : PreOrder same_log.
Proof. split; [by intros w|]. intros a b c. unfold same_log. congruence. Qed.
Lemma same_log_state {A} (m : M HistoryState A) : preserves same_log (in_state m).
Proof. intros w. unfold in_state, zoom. by destruct (m (hw_state w)). Qed.
Lemma same_log_lake {A} (m : M S A) : preserves same_log (in_lake m).
Proof. intros w. unfold in_lake, zoom. by destruct (m (hw_store w)). Qed.
#[local] Hint Resolve same_log_state same_log_lake : preserves.
Lemma same_log_row job provider symbol now start end_ acc row : preserves same_log (take_row job provider symbol now start end_ acc row).
Proof. unfold take_row. keep. Qed.

Lemma pages_tile fuel job provider (client : HistoricalClient W) symbol step now start end_ : 0 < step -> forall cursor acc (w w' : HW) acc',
  pages fuel job provider (logged client) symbol step now start end_ cursor acc w = Some (Ok acc', w') ->
  exists l, w'.(hw_world).2 = w.(hw_world).2 ++ l /\ tiles (step * job.(hj_request_limit)) step (instant end_) cursor l.
Proof.
  intros Hs. induction fuel as [|fuel IH]; intros cursor acc w w' acc' E; [done|]. cbn [pages] in E.
  apply P_bind_some in E as [(go & w1 & [= E1 <-] & E)|(e & _ & [=])]. destruct go.
  - apply P_bind_some in E as [(q & w2 & [= E2 <-] & E)|(e & _ & [=])]. apply page_request_moves in E2 as (H1 & H2 & H3 & _); [|done].
    apply dt_le_true in E1. apply P_bind_some in E as [(rows & w3 & E3%ending_some & E)|(e & _ & [=])].
    apply P_bind_some in E as [(acc1 & w4 & E4 & E)|(e & _ & [=])]. destruct (IH _ _ _ _ _ E) as (l & Hl & Ht).
    exists (q :: l). split; [|cbn; split; [done|]; split; [done|]; split; [lia|done]].
    assert (H4 : same_log w3 w4).
    { eapply (keeps_ending same_log); [|exact E4]. apply preserves_fold_each; [typeclasses eauto|]. intros; apply same_log_row. }
    assert (H3' : w3.(hw_world).2 = w.(hw_world).2 ++ [q]).
    { unfold outside, zoom in E3. cbn [logged hc_fetch_candles] in E3. destruct (hc_fetch_candles client q _) as [r w0].
      injection E3 as _ <-. done. }
    rewrite Hl, H4, H3', <-app_assoc. done.
  - injection E as <- <-. exists []. split; [by rewrite app_nil_r|]. cbn.
    unfold dt_le in E1. destruct (Bool.eqb _ _); [|done]. injection E1 as E1. lia.
Qed.
End Requests.

(** A provider's pages tile the window: the requests start at its start,
    each begins where the one before ended and spans at most the job's limit
    of bars, and together they cover every instant up to the end. *)
Theorem pages_tile_window {S} `{RecordStore S} {W} (client : HistoricalClient W) job provider symbol step now start end_
    (w w' : HistoryWorld S (W * list HistoricalRequest)) fuel acc :
  0 < step -> pages fuel job provider (logged client) symbol step now start end_ start no_tally w = Some (Ok acc, w') ->
  exists l, w'.(hw_world).2 = w.(hw_world).2 ++ l /\ tiles (step * job.(hj_request_limit)) step (instant end_) start l /\
    forall x, instant start <= x <= instant end_ -> exists q, q ∈ l /\ instant (hq_start q) <= x < instant (hq_end q).
Proof.
  intros Hs E. destruct (pages_tile _ _ _ _ _ _ _ _ _ Hs _ _ _ _ _ E) as (l & Hl & Ht). exists l. split; [done|]. split; [done|].
  intros x Hx. by eapply tiles_cover.
Qed.

(** ** Readiness *)

Lemma last_settled_open_utc now timeframe t : last_settled_open now timeframe = Ok t -> exists us, t = at_utc us.
Proof.
  unfold last_settled_open. intros (d & _ & E)%result_bind_ok. apply result_bind_ok in E as (step & _ & E).
  apply result_bind_ok in E as (a & _ & E). apply result_bind_ok in E as (b & _ & E).
  apply result_bind_ok in E as (c & ->%utc_datetime_inv & ->%dt_add_inv). by eexists.
Qed.
Lemma filter_split {A} (f : A -> bool) (l : list A) : (length (List.filter f l) + length (List.filter (fun x => negb (f x)) l) = length l)%nat.
Proof. induction l as [|x l IH]; [done|]. cbn. destruct (f x); cbn; lia. Qed.

(** The status of a series.  Its gaps are exactly the opens that the
    calendar expects in the target window and that are not covered; the
    counts add up; and without a running backfill it is READY exactly when
    nothing is missing. *)
Theorem status_exact calendars s job now st :
  status calendars s job now = Ok st ->
  exists step c start end_, timeframe_delta job.(hj_timeframe) = Ok step /\ calendars !! job.(hj_market) = Some c /\
    last_settled_open now job.(hj_timeframe) = Ok (at_utc end_) /\ start = end_ - job.(hj_target_days) * day /\
    (forall t, t ∈ st.(ht_gaps) <-> (t ∉ covered s (series_of job)) /\
       exists n, 0 <= n /\ start + n * step <= end_ /\ t = at_utc (start + n * step) /\ is_expected c t job.(hj_timeframe) = Ok true) /\
    st.(ht_actual_count) + st.(ht_gap_count) = st.(ht_expected_count) /\
    (has_run_state s job.(hj_market) job.(hj_symbol) job.(hj_timeframe) RUNNING = false ->
     (st.(ht_state) = READY <-> st.(ht_gaps) = [])).
Proof.
  unfold status. intros (e & Ee & E)%result_bind_ok. destruct (last_settled_open_utc _ _ _ Ee) as [end_ ->].
  apply result_bind_ok in E as (days & Ed & E). apply result_bind_ok in E as (b & ->%dt_add_inv & E).
  assert (days = hj_target_days job * day) as ->.
  { unfold timedelta_us in Ed. destruct (_ || _); [done|]. destruct (_ || _); [done|]. by injection Ed. }
  apply result_bind_ok in E as (c & Hc & E). destruct (calendars !! hj_market job) as [c'|] eqn:Ecal; [|done]. injection Hc as ->.
  apply result_bind_ok in E as (expected & Eo & E). apply result_bind_ok in E as (step & Es & [= <-]).
  change (Datetime (wall (at_utc end_) + - (hj_target_days job * day)) (utcoffset (at_utc end_)))
    with (at_utc (end_ + - (hj_target_days job * day))) in Eo.
  exists step, c, (end_ + - (hj_target_days job * day)), end_. cbn [ht_gaps ht_actual_count ht_gap_count ht_expected_count ht_state].
  split; [done|]. split; [done|]. split; [done|]. split; [lia|]. split; [|split].
  - intros t. rewrite filter_elem, (expected_opens_exact _ _ _ _ _ _ Es Eo), bool_decide_eq_true. tauto.
  - rewrite <-(filter_split (fun t => bool_decide (t ∈ covered s (series_of job))) expected) at 1.
    assert (List.filter (fun t => bool_decide (t ∉ covered s (series_of job))) expected =
            List.filter (fun t => negb (bool_decide (t ∈ covered s (series_of job)))) expected) as ->; [|lia].
    apply filter_ext. intros t. by rewrite bool_decide_not.
  - intros ->. unfold readiness. destruct (List.filter _ expected) as [|g l]; [done|].
    split; [|done]. destruct (latest _) as [t|]; [destruct (_ <? _); [done|]|]; destruct (has_run_state _ _ _ _ _); done.
Qed.

(** ** Repair *)

(** The open one step later. *)
Definition following (step : Z) (t : datetime) : datetime := Datetime (t.(wall) + step) t.(utcoffset).
Fixpoint consecutive (step : Z) (l : list datetime) : Prop :=
  match l with
  | a :: ((b :: _) as l') => b = following step a /\ consecutive step l'
  | _ => True
  end.
(** Adjacent groups do not continue each other. *)
Fixpoint separate (step : Z) (groups : list (list datetime)) : Prop :=
  match groups with
  | g :: ((h :: _) as groups') =>
      (forall a b, last g = Some a -> head h = Some b -> b <> following step a) /\ separate step groups'
  | _ => True
  end.

Lemma consecutive_snoc step l a b : last l = Some a -> consecutive step l -> b = following step a -> consecutive step (l ++ [b]).
Proof.
  induction l as [|x l IH]; [done|]. destruct l as [|y l]; cbn [last app consecutive].
  - intros [= ->] _ ->. done.
  - intros Hl [Hxy Hc] Hb. split; [done|]. by apply IH.
Qed.

Lemma group_gaps_spec step : forall l group t groups, last group = Some t -> consecutive step group -> group_gaps step group t l = Ok groups ->
  concat groups = group ++ l /\ Forall (fun g => g <> [] /\ consecutive step g) groups /\ separate step groups /\
  (exists g rest, groups = g :: rest /\ head g = head group).
Proof.
  induction l as [|gap l IH]; intros group t groups Hl Hc E; cbn [group_gaps] in E.
  - injection E as <-. cbn. split; [by rewrite app_nil_r|]. assert (Hne : group <> []) by (by intros ->).
    split; [constructor; [by split|constructor]|]. split; [done|]. by exists group, [].
  - apply result_bind_ok in E as (next & ->%dt_add_inv & E). fold (following step t) in E. case_bool_decide as Hgap.
    + destruct (IH (group ++ [gap]) gap groups) as (A & B & C & D); [by rewrite last_snoc|by eapply consecutive_snoc|done|].
      split; [by rewrite A, <-app_assoc|]. split; [done|]. split; [done|]. destruct D as (g & rest & Hg & Hh). exists g, rest. split; [done|].
      rewrite Hh. by destruct group.
    + apply result_bind_ok in E as (rest & E & [= <-]). destruct (IH [gap] gap rest) as (A & B & C & D); [done|done|done|].
      assert (Hne : group <> []) by (by intros ->). cbn [concat]. split; [by rewrite A|]. split; [constructor; done|].
      destruct D as (g & rest' & -> & Hh). split; [|by exists group, (g :: rest')]. cbn [separate]. split; [|done].
      intros a b Ha Hb. rewrite Hl in Ha. injection Ha as <-. rewrite Hh in Hb. by injection Hb as <-.
Qed.

(** The gaps to repair are split into maximal runs: the groups partition
    the gaps in order, each is a run of consecutive opens, and no group
    continues the one before. *)
Theorem repair_groups_partition step first rest groups :
  group_gaps step [first] first rest = Ok groups ->
  concat groups = first :: rest /\ Forall (fun g => g <> [] /\ consecutive step g) groups /\ separate step groups.
Proof. intros E. destruct (group_gaps_spec step rest [first] first groups) as (A & B & C & _); done. Qed.

Section Repair.
Context {S : Type} `{RecordStore S} {W : Type}.
Context (wall_clock : W -> datetime * W) (registry : ProviderRegistry) (clients : dict Provider (HistoricalClient W)).
Abbreviation HW := (HistoryWorld S W).

Definition keeps_covered (w w' : HW) : Prop := forall k t, t ∈ covered w.(hw_state) k -> t ∈ covered w'.(hw_state) k.
#[local] Instance keeps_covered_order : PreOrder keeps_covered.
Proof. split; [by intros w k t|]. intros a b c Hab Hbc k t Ht. by apply Hbc, Hab. Qed.
Lemma sync_keeps job now : keeps keeps_covered (sync (S := S) wall_clock registry clients job now).
Proof.
  intros w r w' [Heq|(e & _ & Hg)]%sync_gains; intros k t Ht; [by rewrite Heq|]. by apply (av_kept _ _ _ _ Hg).
Qed.
Lemma save_keeps run : preserves keeps_covered (in_state (S := S) (W := W) (save_run run)).
Proof. by intros w k t. Qed.
#[local] Hint Resolve sync_keeps save_keeps : preserves.
Lemma repair_keeps job step now groups : forall index,
  keeps keeps_covered (repair_groups (S := S) wall_clock registry clients job step now index groups).
Proof. induction groups as [|g groups IH]; intros index; cbn [repair_groups]; keep; apply IH. Qed.

Lemma repair_groups_close job step now groups : forall index (w w' : HW) runs,
  repair_groups wall_clock registry clients job step now index groups w = Some (Ok runs, w') ->
  Forall (fun run => run.(hr_state) = SUCCEEDED) runs -> forall gap, gap ∈ concat groups -> gap ∈ covered w'.(hw_state) (series_of job).
Proof.
  induction groups as [|g groups IH]; intros index w w' runs E Hall gap Hgap; [by apply elem_of_nil in Hgap|]. cbn [repair_groups] in E.
  apply P_bind_some in E as [(j & w1 & _ & E)|(e & _ & [=])]. apply P_bind_some in E as [(t & w2 & _ & E)|(e & _ & [=])].
  apply P_bind_some in E as [(run & w3 & _ & E)|(e & _ & [=])]. apply P_bind_some in E as [(self & w4 & [= <- <-] & E)|(e & _ & [=])].
  apply P_bind_some in E as [(run' & w5 & E5%ending_some & E)|(e & _ & [=])].
  apply P_bind_some in E as [(runs' & w6 & E6 & E)|(e & _ & [=])]. injection E as <- <-.
  apply Forall_cons in Hall as [Hrun Hall]. cbn [concat] in Hgap. apply elem_of_app in Hgap as [Hgap|Hgap]; [|by eapply IH].
  apply (repair_keeps _ _ _ _ _ _ _ _ E6).
  destruct (List.filter _ g) as [|x rest] eqn:Er.
  - injection E5 as <- <-. destruct (decide (gap ∈ covered (hw_state w3) (series_of job))) as [Hin|Hout]; [done|].
    assert (Hf : gap ∈ List.filter (fun gap => bool_decide (gap ∉ covered (hw_state w3) (series_of job))) g)
      by (apply filter_elem; split; [done|by apply bool_decide_eq_true]).
    rewrite Er in Hf. by apply elem_of_nil in Hf.
  - exfalso. revert E5. case_bool_decide as Hs.
    + intros [= <- _]. done.
    + intros [= <- _]. done.
Qed.
Lemma ends_repair_groups job step now groups : forall index,
  ends anything (repair_groups (S := S) wall_clock registry clients job step now index groups).
Proof.
  induction groups as [|g groups IH]; intros index; cbn [repair_groups]; [apply ends_ret|].
  apply ends_bind; [apply ends_any|intros j]. apply ends_bind; [apply ends_any|intros t]. apply ends_bind; [apply ends_sync|intros run].
  apply ends_bind; [apply ends_any|intros self]. apply ends_bind; [apply ends_any|intros run']. apply ends_bind; [apply IH|intros runs].
  apply ends_ret.
Qed.
End Repair.

(** A repair ends, and one whose runs all SUCCEEDED has closed its gaps:
    every gap it was given is covered afterwards. *)
Theorem repair_closes_gaps {S} `{RecordStore S} {W} wall_clock registry (clients : dict Provider (HistoricalClient W)) job gaps now
    (w : HistoryWorld S W) :
  exists r w', repair wall_clock registry clients job gaps now w = Some (r, w') /\
    forall runs, r = Ok runs -> Forall (fun run => run.(hr_state) = SUCCEEDED) runs ->
    forall gap, gap ∈ gaps -> at_utc (instant gap) ∈ covered w'.(hw_state) (series_of job).
Proof.
  assert (Hends : ends anything (repair (S := S) wall_clock registry clients job gaps now)).
  { unfold repair. destruct gaps as [|g gaps]; [apply ends_ret|]. apply ends_bind; [apply ends_any|intros normal].
    apply ends_bind; [apply ends_any|intros step]. destruct (py_sorted _ _); [apply ends_any|].
    apply ends_bind; [apply ends_any|intros groups]. apply ends_repair_groups. }
  destruct (Hends w I) as (r & w' & E & _). exists r, w'. split; [done|]. intros runs -> Hall gap Hgap. clear Hends.
  unfold repair in E. destruct gaps as [|g gaps]; [by apply elem_of_nil in Hgap|]. set (all := g :: gaps) in *. clearbody all.
  apply P_bind_some in E as [(normal & w1 & [= E1 <-] & E)|(e & _ & [=])].
  assert (Hin : at_utc (instant gap) ∈ normal).
  { apply map_result_ok in E1. apply list_elem_of_lookup in Hgap as [i Hi].
    destruct (Forall2_lookup_l _ _ _ _ _ E1 Hi) as (t & Ht & [_ ->]%utc_ok). by apply (list_elem_of_lookup_2 _ i). }
  apply P_bind_some in E as [(step & w2 & [= _ <-] & E)|(e & _ & [=])].
  assert (Hsorted : at_utc (instant gap) ∈ py_sorted (fun a b => instant a <? instant b) (fromkeys normal))
    by (apply py_sorted_elem; by apply fromkeys_elem).
  destruct (py_sorted _ _) as [|t rest]; [done|]. apply P_bind_some in E as [(groups & w3 & [= Eg <-] & E)|(e & _ & [=])].
  destruct (group_gaps_spec step rest [t] t groups eq_refl I Eg) as (Hc & _).
  eapply repair_groups_close; [exact E|exact Hall|]. rewrite Hc. exact Hsorted.
Qed.

Module HistoryExample.
Definition dhan_row (t : Z) : payload :=
  [("timestamp", JStr (isoformat (at_utc (t * second)))); ("open", JFloat 100); ("high", JFloat 101); ("low", JFloat 99);
   ("close", JFloat 100); ("volume", JInt 10); ("timeframe", JStr "1h"); ("settled", JBool true)].
(** Hourly bars of the day at 04:00 and 06:00 UTC; the clock stands still. *)
Definition opened : Z := 1709265600.
Definition dhan : HistoricalClient Z := {|
  hc_market := NSE; hc_provider := DHAN;
  hc_fetch_candles q := fun n =>
    (Ok (dhan_row <$> List.filter (fun t => (instant (hq_start q) <=? t * second) && (t * second <? instant (hq_end q)))
                        [opened; opened + 7200]), n + 1) |}.
Definition wall_clock (n : Z) : datetime * Z := (at_utc (1709290000 * second), n).
Definition registry : ProviderRegistry := match default_provider_registry with Ok r => r | Err _ => ∅ end.
Definition clients : dict Provider (HistoricalClient Z) := <[DHAN := dhan]> ∅.
Definition job : HistoryJob := {|
  hj_market := NSE; hj_symbol := "RELIANCE"; hj_timeframe := "1h"; hj_provider_symbols := <[DHAN := "RELIANCE"]> ∅; hj_target_days := 1;
  hj_overlap_bars := 1; hj_request_limit := 10; hj_window_start := None; hj_window_end := None |}.
Definition now : datetime := at_utc (1709276700 * second).
Definition empty_state : HistoryState := {| hs_watermarks := ∅; hs_coverage := ∅; hs_runs := ∅ |}.
Definition start : HistoryWorld (FileLake "lake") Z := MkHistoryWorld empty_state (Lake ∅) 0.
Definition outcome := Eval vm_compute in
  match sync wall_clock registry clients job now start with Some (Ok run, w) => Some (run, w) | _ => None end.
Definition unset : HistoryRun :=
  {| hr_run_id := ""; hr_market := NSE; hr_symbol := ""; hr_timeframe := ""; hr_state := RUNNING; hr_started_at := now; hr_finished_at := None;
     hr_provider := None; hr_rows_received := 0; hr_bronze_created := 0; hr_silver_created := 0; hr_error := None |}.
Definition run : HistoryRun := Eval vm_compute in match outcome with Some (r, _) => r | None => unset end.
Definition final : HistoryWorld (FileLake "lake") Z := Eval vm_compute in match outcome with Some (_, w) => w | None => start end.
Lemma ran : sync wall_clock registry clients job now start = Some (Ok run, final).
Proof. vm_compute. reflexivity. Qed.

Definition calendars : dict Market MarketCalendar := <[NSE := {| mc_market := NSE; mc_holidays := ["2024-03-08"] |}]> ∅.
Definition missing : HistoryStatus := Eval vm_compute in
  match status calendars final.(hw_state) job now with
  | Ok st => st
  | Err _ => {| ht_market := NSE; ht_symbol := ""; ht_timeframe := ""; ht_state := READY; ht_target_start := now; ht_settled_end := now;
                ht_first_open := None; ht_last_open := None; ht_expected_count := 0; ht_actual_count := 0; ht_gap_count := 0; ht_gaps := [] |}
  end.
(** The window holds two expected opens of that day up to the last settled
    bar and the afternoon of the day before. *)
Example backfill_story :
  (run.(hr_state), run.(hr_provider), run.(hr_rows_received)) = (SUCCEEDED, Some DHAN, 2) /\
  covered final.(hw_state) (series_of job) = [at_utc (opened * second); at_utc ((opened + 7200) * second)] /\
  (missing.(ht_state), missing.(ht_expected_count), missing.(ht_actual_count), missing.(ht_gap_count)) = (INSUFFICIENT_DATA, 7, 2, 5).
Proof. vm_compute. repeat split. Qed.

(** A cancelled backfill leaves its run RUNNING, and the series BACKFILLING
    from then on. *)
Definition cancelling : HistoricalClient Z := {|
  hc_market := NSE; hc_provider := DHAN; hc_fetch_candles _ := raise (OtherException "CancelledError" "") |}.
Example cancelled_run_stays :
  match sync wall_clock registry (<[DHAN := cancelling]> ∅) job now start with
  | Some (Err _, w) => match status calendars w.(hw_state) job (at_utc (1709376700 * second)) with
                       | Ok st => st.(ht_state) = BACKFILLING
                       | Err _ => False
                       end
  | _ => False
  end.
Proof. vm_compute. reflexivity. Qed.


Lemma sync_outcome_witness :
  run.(hr_run_id) = stable_id [Market_value job.(hj_market); job.(hj_symbol); job.(hj_timeframe); isoformat (at_utc (instant now))] /\
  final.(hw_state).(hs_runs) !! run.(hr_run_id) = Some run /\
  ((run.(hr_state) = SUCCEEDED /\ exists p, p ∈ [DHAN; TRUEDATA] /\ run.(hr_provider) = Some p /\
      is_Some (watermark final.(hw_state) job.(hj_market) p job.(hj_symbol) job.(hj_timeframe))) \/
   (run.(hr_state) = FAILED /\ exists reasons, run.(hr_error) = Some (String.concat "; " reasons) /\ length reasons = length [DHAN; TRUEDATA])).
Proof. apply (sync_outcome wall_clock registry clients job now [DHAN; TRUEDATA] start final run); [reflexivity|exact ran]. Defined.

Lemma status_exact_witness :
  exists step c start end_, timeframe_delta job.(hj_timeframe) = Ok step /\ calendars !! job.(hj_market) = Some c /\
    last_settled_open now job.(hj_timeframe) = Ok (at_utc end_) /\ start = end_ - job.(hj_target_days) * day /\
    (forall t, t ∈ missing.(ht_gaps) <-> (t ∉ covered final.(hw_state) (series_of job)) /\
       exists n, 0 <= n /\ start + n * step <= end_ /\ t = at_utc (start + n * step) /\ is_expected c t job.(hj_timeframe) = Ok true) /\
    missing.(ht_actual_count) + missing.(ht_gap_count) = missing.(ht_expected_count) /\
    (has_run_state final.(hw_state) job.(hj_market) job.(hj_symbol) job.(hj_timeframe) RUNNING = false ->
     (missing.(ht_state) = READY <-> missing.(ht_gaps) = [])).
Proof. apply (status_exact calendars final.(hw_state) job now missing). vm_compute. reflexivity. Defined.

(** Three pages of ten hours for a day of bars. *)
Definition silent : HistoricalClient Z := {| hc_market := NSE; hc_provider := DHAN; hc_fetch_candles _ := fun n => (Ok [], n) |}.
Definition from : datetime := at_utc (1709186400 * second).
Definition until : datetime := at_utc (1709272800 * second).
Definition unlogged : HistoryWorld (FileLake "lake") (Z * list HistoricalRequest) := MkHistoryWorld empty_state (Lake ∅) (0, []).
Definition paged := match pages 9 job DHAN (logged silent) "RELIANCE" (3600 * second) now from until from no_tally unlogged with
  | Some (_, w) => w | None => unlogged end.
Lemma pages_tile_window_witness :
  exists l, paged.(hw_world).2 = unlogged.(hw_world).2 ++ l /\ tiles (3600 * second * job.(hj_request_limit)) (3600 * second) (instant until) from l /\
    forall x, instant from <= x <= instant until -> exists q, q ∈ l /\ instant (hq_start q) <= x < instant (hq_end q).
Proof.
  apply (pages_tile_window silent job DHAN "RELIANCE" (3600 * second) now from until unlogged paged 9 no_tally); [reflexivity|vm_compute; reflexivity].
Defined.
Example three_pages : List.map (fun q => (instant (hq_end q) - instant (hq_start q)) / hour) paged.(hw_world).2 = [10; 10; 5].
Proof. vm_compute. reflexivity. Qed.
End HistoryExample.
