(* ===== verification/Registry.v ===== *)
(** * Strategy registry and validation gates

    src/nanodelta/strategies/registry.py (identities, definitions, approvals
    and the in-memory registry) and strategies/validation.py (the cost-aware
    gates an approval rests on). *)

From Stdlib Require Import ZArith Floats.
From stdpp Require Import prelude strings list numbers sorting.
From S2P Require Import Prelude PyData PyFloat FloatTheory PyText Sha256 PyTime Contracts.

(** ** StrategyIdentity *)

Record StrategyIdentity := {
  si_market : Market;
  si_strategy_id : string;
  si_strategy_version : string;
  si_timeframe : string;
  si_trade_horizon : string;
  si_feature_set_version : Z }.
#[export] Instance StrategyIdentity_eq_dec : EqDecision StrategyIdentity.
Proof. solve_decision. Defined.
#[export] Instance py_eq_StrategyIdentity : PyEq StrategyIdentity := fun a b => bool_decide (a = b).
#[export] Instance py_eq_StrategyIdentity_leibniz : PyEqLeibniz StrategyIdentity.
Proof. intros a b. apply bool_decide_eq_true. Qed.

Definition StrategyIdentity_post_init (i : StrategyIdentity) : result unit :=
  _ ← raise_if (str_blank i.(si_strategy_id)) (ValueError "strategy_id cannot be empty");
  _ ← raise_if (str_blank i.(si_strategy_version)) (ValueError "strategy_version cannot be empty");
  _ ← raise_if (str_blank i.(si_timeframe)) (ValueError "timeframe cannot be empty");
  _ ← raise_if (str_blank i.(si_trade_horizon)) (ValueError "trade_horizon cannot be empty");
  raise_if (i.(si_feature_set_version) <? 1)%Z (ValueError "feature_set_version must be positive").

(** The [key] property *)
Definition identity_key (i : StrategyIdentity) : string :=
  stable_id [Market_value i.(si_market); i.(si_strategy_id); i.(si_strategy_version);
             i.(si_timeframe); i.(si_trade_horizon); str_Z i.(si_feature_set_version)].

(** [order=True]: the fields as a tuple, lexicographically. *)
Definition identity_lt (a b : StrategyIdentity) : bool :=
  str_then (Market_value a.(si_market)) (Market_value b.(si_market))
  (str_then a.(si_strategy_id) b.(si_strategy_id)
  (str_then a.(si_strategy_version) b.(si_strategy_version)
  (str_then a.(si_timeframe) b.(si_timeframe)
  (str_then a.(si_trade_horizon) b.(si_trade_horizon)
     (a.(si_feature_set_version) <? b.(si_feature_set_version))%Z)))).

(** ** StrategyDefinition *)

Record StrategyDefinition := {
  sd_identity : StrategyIdentity;
  sd_family : string;
  sd_parameters : list (string * string);
  sd_implementation_ref : string }.
#[export] Instance StrategyDefinition_eq_dec : EqDecision StrategyDefinition.
Proof. solve_decision. Defined.
#[export] Instance py_eq_StrategyDefinition : PyEq StrategyDefinition := fun a b => bool_decide (a = b).
#[export] Instance py_eq_StrategyDefinition_leibniz : PyEqLeibniz StrategyDefinition.
Proof. intros a b. apply bool_decide_eq_true. Qed.

Definition StrategyDefinition_post_init (d : StrategyDefinition) : result unit :=
  _ ← raise_if (str_blank d.(sd_family) || str_blank d.(sd_implementation_ref))
        (ValueError "family and implementation_ref cannot be empty");
  let names := d.(sd_parameters).*1 in
  raise_if (negb (length names =? length (fromkeys names))%nat)
    (ValueError "strategy parameter names must be unique").

(** ** StrategyApproval *)

Inductive ApprovalState := APPROVED | REVOKED.
#[export] Instance ApprovalState_eq_dec : EqDecision ApprovalState.
Proof. solve_decision. Defined.

Record StrategyApproval := {
  sa_approval_id : string;
  sa_identity : StrategyIdentity;
  sa_validation_run_id : string;
  sa_state : ApprovalState;
  sa_approved_at : datetime;
  sa_expires_at : datetime;
  sa_approved_by : string;
  sa_reason : string }.
#[export] Instance py_eq_StrategyApproval : PyEq StrategyApproval := fun a b =>
  (a.(sa_approval_id) ==p b.(sa_approval_id)) && (a.(sa_identity) ==p b.(sa_identity)) &&
  (a.(sa_validation_run_id) ==p b.(sa_validation_run_id)) && bool_decide (a.(sa_state) = b.(sa_state)) &&
  (a.(sa_approved_at) ==p b.(sa_approved_at)) && (a.(sa_expires_at) ==p b.(sa_expires_at)) &&
  (a.(sa_approved_by) ==p b.(sa_approved_by)) && (a.(sa_reason) ==p b.(sa_reason)).

(** [StrategyApproval.create] *)
Definition StrategyApproval_create (identity : StrategyIdentity) (validation_run_id : string)
    (approved_at expires_at : datetime) (approved_by reason : string) : result StrategyApproval :=
  approved_at ← utc approved_at "approved_at";
  expires_at ← utc expires_at "expires_at";
  late ← dt_le expires_at approved_at;
  _ ← raise_if late (ValueError "approval must expire after it is approved");
  _ ← raise_if (str_empty validation_run_id || str_empty approved_by || str_empty reason)
        (ValueError "validation_run_id, approved_by, and reason are required");
  mret {| sa_approval_id := stable_id [identity_key identity; validation_run_id; isoformat approved_at];
          sa_identity := identity;
          sa_validation_run_id := validation_run_id;
          sa_state := APPROVED;
          sa_approved_at := approved_at;
          sa_expires_at := expires_at;
          sa_approved_by := approved_by;
          sa_reason := reason |}.

(** [is_current]: the [and] and the chained comparison stop at the first
    false operand, so a revoked approval never looks at [at]. *)
Definition is_current (a : StrategyApproval) (at_ : datetime) : result bool :=
  match a.(sa_state) with
  | REVOKED => mret false
  | APPROVED =>
      now ← utc at_ "at";
      started ← dt_le a.(sa_approved_at) now;
      if (started : bool) then dt_lt now a.(sa_expires_at) else mret false
  end.

(** [StrategyApproval.revoke] *)
Definition approval_revoke (a : StrategyApproval) (reason : string) : result StrategyApproval :=
  _ ← raise_if (str_blank reason) (ValueError "revocation reason cannot be empty");
  mret {| sa_approval_id := a.(sa_approval_id);
          sa_identity := a.(sa_identity);
          sa_validation_run_id := a.(sa_validation_run_id);
          sa_state := REVOKED;
          sa_approved_at := a.(sa_approved_at);
          sa_expires_at := a.(sa_expires_at);
          sa_approved_by := a.(sa_approved_by);
          sa_reason := reason |}.

(** ** Validation gates *)

Record ValidationMetrics := {
  vm_trade_count : Z;
  vm_walk_forward_windows : Z;
  vm_profitable_windows : Z;
  vm_gross_expectancy : float;
  vm_estimated_cost_per_trade : float;
  vm_maximum_drawdown : float;
  vm_p_value : float;
  vm_tested_hypotheses : Z }.
Definition net_expectancy (m : ValidationMetrics) : float :=
  (m.(vm_gross_expectancy) - m.(vm_estimated_cost_per_trade))%float.

Record ValidationPolicy := {
  vp_minimum_trades : Z;
  vp_minimum_walk_forward_windows : Z;
  vp_minimum_profitable_window_ratio : float;
  vp_minimum_net_expectancy : float;
  vp_maximum_drawdown : float;
  vp_family_wise_alpha : float }.
Definition default_validation_policy : ValidationPolicy := {|
  vp_minimum_trades := 30;
  vp_minimum_walk_forward_windows := 3;
  vp_minimum_profitable_window_ratio := 0.6;
  vp_minimum_net_expectancy := 0;
  vp_maximum_drawdown := 0.25;
  vp_family_wise_alpha := 0.05 |}.

Definition ValidationPolicy_post_init (p : ValidationPolicy) : result unit :=
  _ ← raise_if ((p.(vp_minimum_trades) <? 1) || (p.(vp_minimum_walk_forward_windows) <? 1))%Z
        (ValueError "minimum sample sizes must be positive");
  _ ← raise_if (negb ((0 <? p.(vp_minimum_profitable_window_ratio)) &&
                      (p.(vp_minimum_profitable_window_ratio) <=? 1)))%float
        (ValueError "profitable window ratio must be in (0, 1]");
  raise_if (negb ((0 <? p.(vp_family_wise_alpha)) && (p.(vp_family_wise_alpha) <? 1)))%float
    (ValueError "family_wise_alpha must be in (0, 1)").

#[export] Instance py_eq_ValidationMetrics : PyEq ValidationMetrics := fun a b =>
  (a.(vm_trade_count) ==p b.(vm_trade_count)) &&
  (a.(vm_walk_forward_windows) ==p b.(vm_walk_forward_windows)) &&
  (a.(vm_profitable_windows) ==p b.(vm_profitable_windows)) &&
  (a.(vm_gross_expectancy) ==p b.(vm_gross_expectancy)) &&
  (a.(vm_estimated_cost_per_trade) ==p b.(vm_estimated_cost_per_trade)) &&
  (a.(vm_maximum_drawdown) ==p b.(vm_maximum_drawdown)) &&
  (a.(vm_p_value) ==p b.(vm_p_value)) && (a.(vm_tested_hypotheses) ==p b.(vm_tested_hypotheses)).
#[export] Instance py_eq_ValidationPolicy : PyEq ValidationPolicy := fun a b =>
  (a.(vp_minimum_trades) ==p b.(vp_minimum_trades)) &&
  (a.(vp_minimum_walk_forward_windows) ==p b.(vp_minimum_walk_forward_windows)) &&
  (a.(vp_minimum_profitable_window_ratio) ==p b.(vp_minimum_profitable_window_ratio)) &&
  (a.(vp_minimum_net_expectancy) ==p b.(vp_minimum_net_expectancy)) &&
  (a.(vp_maximum_drawdown) ==p b.(vp_maximum_drawdown)) &&
  (a.(vp_family_wise_alpha) ==p b.(vp_family_wise_alpha)).

Record ValidationResult := {
  vr_validation_run_id : string;
  vr_identity : StrategyIdentity;
  vr_evaluated_at : datetime;
  vr_passed : bool;
  vr_rejection_reasons : list string;
  vr_metrics : ValidationMetrics;
  vr_policy : ValidationPolicy }.
#[export] Instance py_eq_ValidationResult : PyEq ValidationResult := fun a b =>
  (a.(vr_validation_run_id) ==p b.(vr_validation_run_id)) && (a.(vr_identity) ==p b.(vr_identity)) &&
  (a.(vr_evaluated_at) ==p b.(vr_evaluated_at)) && (a.(vr_passed) ==p b.(vr_passed)) &&
  (a.(vr_rejection_reasons) ==p b.(vr_rejection_reasons)) && (a.(vr_metrics) ==p b.(vr_metrics)) &&
  (a.(vr_policy) ==p b.(vr_policy)).

(** [str(metrics)] and [str(policy)], as [stable_id] renders them. *)
Definition repr_metrics (m : ValidationMetrics) : string :=
  repr_dataclass "ValidationMetrics"
    [("trade_count", str_Z m.(vm_trade_count));
     ("walk_forward_windows", str_Z m.(vm_walk_forward_windows));
     ("profitable_windows", str_Z m.(vm_profitable_windows));
     ("gross_expectancy", repr_float m.(vm_gross_expectancy));
     ("estimated_cost_per_trade", repr_float m.(vm_estimated_cost_per_trade));
     ("maximum_drawdown", repr_float m.(vm_maximum_drawdown));
     ("p_value", repr_float m.(vm_p_value));
     ("tested_hypotheses", str_Z m.(vm_tested_hypotheses))].
Definition repr_policy (p : ValidationPolicy) : string :=
  repr_dataclass "ValidationPolicy"
    [("minimum_trades", str_Z p.(vp_minimum_trades));
     ("minimum_walk_forward_windows", str_Z p.(vp_minimum_walk_forward_windows));
     ("minimum_profitable_window_ratio", repr_float p.(vp_minimum_profitable_window_ratio));
     ("minimum_net_expectancy", repr_float p.(vp_minimum_net_expectancy));
     ("maximum_drawdown", repr_float p.(vp_maximum_drawdown));
     ("family_wise_alpha", repr_float p.(vp_family_wise_alpha))].

(** [reasons.append(code)] under a condition. *)
Definition reason_if (b : bool) (code : string) : list string := if b then [code] else [].

Definition validate_strategy (identity : StrategyIdentity) (metrics : ValidationMetrics)
    (policy : ValidationPolicy) (evaluated_at : datetime) : result ValidationResult :=
  _ ← raise_if ((metrics.(vm_walk_forward_windows) <? 1) || (metrics.(vm_tested_hypotheses) <? 1))%Z
        (ValueError "walk-forward windows and tested hypotheses must be positive");
  _ ← raise_if (negb ((0 <=? metrics.(vm_profitable_windows)) &&
                      (metrics.(vm_profitable_windows) <=? metrics.(vm_walk_forward_windows))))%Z
        (ValueError "profitable_windows is outside the evaluated window count");
  _ ← raise_if ((metrics.(vm_estimated_cost_per_trade) <? 0) || (metrics.(vm_maximum_drawdown) <? 0))%float
        (ValueError "cost and drawdown cannot be negative");
  _ ← raise_if (negb ((0 <=? metrics.(vm_p_value)) && (metrics.(vm_p_value) <=? 1)))%float
        (ValueError "p_value must be in [0, 1]");
  let r1 := reason_if (metrics.(vm_trade_count) <? policy.(vp_minimum_trades))%Z "INSUFFICIENT_TRADES" in
  r2 ← (if (metrics.(vm_walk_forward_windows) <? policy.(vp_minimum_walk_forward_windows))%Z
        then mret ["INSUFFICIENT_WALK_FORWARD_WINDOWS"]
        else
          ratio ← int_truediv metrics.(vm_profitable_windows) metrics.(vm_walk_forward_windows);
          mret (reason_if (ratio <? policy.(vp_minimum_profitable_window_ratio))%float
                  "UNSTABLE_WALK_FORWARD_PERFORMANCE"));
  let r3 := reason_if (net_expectancy metrics <=? policy.(vp_minimum_net_expectancy))%float
              "NON_POSITIVE_COST_ADJUSTED_EXPECTANCY" in
  let r4 := reason_if (fgt metrics.(vm_maximum_drawdown) policy.(vp_maximum_drawdown))
              "MAXIMUM_DRAWDOWN_EXCEEDED" in
  alpha ← fdiv policy.(vp_family_wise_alpha) (float_of_Z metrics.(vm_tested_hypotheses));
  let r5 := reason_if (fgt metrics.(vm_p_value) alpha) "BONFERRONI_SIGNIFICANCE_FAILED" in
  let reasons := r1 ++ r2 ++ r3 ++ r4 ++ r5 in
  evaluated_at ← utc evaluated_at "evaluated_at";
  let run_id := stable_id [identity_key identity; isoformat evaluated_at;
                           repr_metrics metrics; repr_policy policy] in
  mret {| vr_validation_run_id := run_id;
          vr_identity := identity;
          vr_evaluated_at := evaluated_at;
          vr_passed := match reasons with [] => true | _ => false end;
          vr_rejection_reasons := reasons;
          vr_metrics := metrics;
          vr_policy := policy |}.

(** ** StrategyRegistry *)

Record StrategyRegistry := {
  reg_definitions : dict StrategyIdentity StrategyDefinition;
  reg_validations : dict string ValidationResult;
  reg_approvals : dict string StrategyApproval }.

Definition empty_registry : StrategyRegistry :=
  {| reg_definitions := ∅; reg_validations := ∅; reg_approvals := ∅ |}.

Definition set_definitions d (r : StrategyRegistry) :=
  {| reg_definitions := d; reg_validations := r.(reg_validations); reg_approvals := r.(reg_approvals) |}.
Definition set_validations v (r : StrategyRegistry) :=
  {| reg_definitions := r.(reg_definitions); reg_validations := v; reg_approvals := r.(reg_approvals) |}.
Definition set_approvals a (r : StrategyRegistry) :=
  {| reg_definitions := r.(reg_definitions); reg_validations := r.(reg_validations); reg_approvals := a |}.

(** [existing is not None and existing != value] *)
Definition conflicts `{PyEq V} (existing : option V) (v : V) : bool :=
  match existing with Some w => w !=p v | None => false end.

Definition register (d : StrategyDefinition) : M StrategyRegistry unit :=
  r ← get_state;
  _ ← lift (raise_if (conflicts (r.(reg_definitions) !! d.(sd_identity)) d)
             (ValueError "strategy identity is immutable; publish a new version"));
  modify (set_definitions (<[d.(sd_identity) := d]> r.(reg_definitions))).

Definition record_validation (v : ValidationResult) : M StrategyRegistry unit :=
  r ← get_state;
  _ ← lift (raise_if (negb (dict_mem v.(vr_identity) r.(reg_definitions)))
             (ValueError "cannot validate an unregistered strategy"));
  _ ← lift (raise_if (conflicts (r.(reg_validations) !! v.(vr_validation_run_id)) v)
             (ValueError "validation artifacts are immutable"));
  modify (set_validations (<[v.(vr_validation_run_id) := v]> r.(reg_validations))).

Definition record_approval (a : StrategyApproval) : M StrategyRegistry unit :=
  r ← get_state;
  _ ← lift (raise_if (negb (dict_mem a.(sa_identity) r.(reg_definitions)))
             (ValueError "cannot approve an unregistered strategy"));
  validation ← lift (match r.(reg_validations) !! a.(sa_validation_run_id) with
    | Some v => if v.(vr_identity) !=p a.(sa_identity)
                then Err (ValueError "approval requires its exact-identity validation artifact")
                else Ok v
    | None => Err (ValueError "approval requires its exact-identity validation artifact")
    end);
  _ ← lift (raise_if (negb validation.(vr_passed))
             (PermissionError "a failed validation cannot be approved"));
  _ ← lift (raise_if (conflicts (r.(reg_approvals) !! a.(sa_approval_id)) a)
             (ValueError "approval artifacts are immutable"));
  modify (set_approvals (<[a.(sa_approval_id) := a]> r.(reg_approvals))).

Definition revoke (approval_id reason : string) : M StrategyRegistry unit :=
  r ← get_state;
  a ← lift (match r.(reg_approvals) !! approval_id with
            | Some a => Ok a | None => Err (KeyError approval_id) end);
  a' ← lift (approval_revoke a reason);
  modify (set_approvals (<[approval_id := a']> r.(reg_approvals))).

(** The comprehension of [require_approval]: approvals of the identity that
    are current, in insertion order. *)
Fixpoint current_approvals (identity : StrategyIdentity) (at_ : datetime)
    (l : list StrategyApproval) : result (list StrategyApproval) :=
  match l with
  | [] => mret []
  | a :: l' =>
      keep ← (if a.(sa_identity) ==p identity then is_current a at_ else mret false);
      rest ← current_approvals identity at_ l';
      mret (if keep : bool then a :: rest else rest)
  end.

Definition require_approval (r : StrategyRegistry) (identity : StrategyIdentity) (at_ : datetime)
    : result StrategyApproval :=
  _ ← raise_if (negb (dict_mem identity r.(reg_definitions)))
        (LookupError "strategy identity is not registered");
  current ← current_approvals identity at_ (dict_values r.(reg_approvals));
  match py_max_by (fun a b => (instant a.(sa_approved_at) <? instant b.(sa_approved_at))%Z) current with
  | Some a => mret a
  | None => Err (PermissionError "no current approval for exact strategy identity")
  end.

(** The loop of [eligible]; only PermissionError is caught. *)
Fixpoint eligible_loop (r : StrategyRegistry) (market : Market) (timeframe trade_horizon : string)
    (feature_set_version : Z) (at_ : datetime)
    (l : list (StrategyIdentity * StrategyDefinition)) : result (list StrategyDefinition) :=
  match l with
  | [] => mret []
  | (i, d) :: l' =>
      if (i.(si_market) ==p market) && (i.(si_timeframe) ==p timeframe) &&
         (i.(si_trade_horizon) ==p trade_horizon) && (i.(si_feature_set_version) ==p feature_set_version)
      then
        match require_approval r i at_ with
        | Ok _ =>
            rest ← eligible_loop r market timeframe trade_horizon feature_set_version at_ l';
            mret (d :: rest)
        | Err (PermissionError _) => eligible_loop r market timeframe trade_horizon feature_set_version at_ l'
        | Err e => Err e
        end
      else eligible_loop r market timeframe trade_horizon feature_set_version at_ l'
  end.

Definition eligible (r : StrategyRegistry) (market : Market) (timeframe trade_horizon : string)
    (feature_set_version : Z) (at_ : datetime) : result (list StrategyDefinition) :=
  found ← eligible_loop r market timeframe trade_horizon feature_set_version at_ (entries r.(reg_definitions));
  mret (py_sorted (fun a b => identity_lt a.(sd_identity) b.(sd_identity)) found).

(** ** Registry states a program can reach *)

Inductive RegistryOp :=
| OpRegister (d : StrategyDefinition)
| OpRecordValidation (v : ValidationResult)
| OpRecordApproval (a : StrategyApproval)
| OpRevoke (approval_id reason : string).

Definition registry_run (op : RegistryOp) : M StrategyRegistry unit :=
  match op with
  | OpRegister d => register d
  | OpRecordValidation v => record_validation v
  | OpRecordApproval a => record_approval a
  | OpRevoke i reason => revoke i reason
  end.

(** Any sequence of calls, whether they return or raise. *)
Inductive registry_steps (r : StrategyRegistry) : StrategyRegistry -> Prop :=
| registry_refl : registry_steps r r
| registry_step r1 op : registry_steps r r1 -> registry_steps r (registry_run op r1).2.

(** Every approval on record is of a registered identity and rests on a
    passed validation of that same identity. *)
Record registry_ok (r : StrategyRegistry) : Prop := {
  ok_definitions : dict_wf r.(reg_definitions);
  ok_approvals : dict_wf r.(reg_approvals);
  ok_definition_key : forall i d, r.(reg_definitions) !! i = Some d -> d.(sd_identity) = i;
  ok_approval : forall k a, r.(reg_approvals) !! k = Some a ->
    a.(sa_approval_id) = k /\ dict_mem a.(sa_identity) r.(reg_definitions) = true /\
    exists v, r.(reg_validations) !! a.(sa_validation_run_id) = Some v /\
      v.(vr_identity) = a.(sa_identity) /\ v.(vr_passed) = true }.

Lemma conflicts_false `{PyEq V} (o : option V) (v : V) :
  conflicts o v = false <-> forall w, o = Some w -> w ==p v = true.
Proof.
  destruct o as [w|]; simpl; [|by split].
  unfold py_ne. rewrite negb_false_iff. split; [by intros ? ? [= <-] | auto].
Qed.

Lemma validation_eq_inv (v w : ValidationResult) : v ==p w = true ->
  v.(vr_identity) = w.(vr_identity) /\ v.(vr_passed) = w.(vr_passed).
Proof.
  unfold py_eq at 1, py_eq_ValidationResult. rewrite !andb_true_iff, !py_eq_true. tauto.
Qed.

Lemma approval_eq_inv (a b : StrategyApproval) : a ==p b = true -> a.(sa_state) = b.(sa_state).
Proof.
  unfold py_eq at 1, py_eq_StrategyApproval. rewrite !andb_true_iff, bool_decide_eq_true. tauto.
Qed.

Lemma dict_mem_insert `{EqDecision K} {V} (d : dict K V) k v k' :
  dict_mem k' d = true -> dict_mem k' (<[k:=v]> d) = true.
Proof. unfold dict_mem. rewrite dict_lookup_insert. by case_decide. Qed.

(** What each call does to the state; a call that raises changes nothing. *)
Lemma register_effect d r :
  (register d r).2 = r \/
  (register d r).2 = set_definitions (<[d.(sd_identity) := d]> r.(reg_definitions)) r /\
  (forall w, r.(reg_definitions) !! d.(sd_identity) = Some w -> w = d).
Proof.
  unfold register, mbind, M_bind, get_state, lift, modify.
  destruct (conflicts _ d) eqn:E; simpl; [by left|]. right. split; [done|].
  intros w Hw. by apply py_eq_true, (proj1 (conflicts_false _ _) E).
Qed.

Lemma record_validation_effect v r :
  (record_validation v r).2 = r \/
  (record_validation v r).2 = set_validations (<[v.(vr_validation_run_id) := v]> r.(reg_validations)) r /\
  (forall w, r.(reg_validations) !! v.(vr_validation_run_id) = Some w -> w ==p v = true).
Proof.
  unfold record_validation, mbind, M_bind, get_state, lift, modify.
  destruct (negb _) eqn:E1; simpl; [by left|].
  destruct (conflicts _ v) eqn:E; simpl; [by left|]. right. split; [done|].
  by apply conflicts_false.
Qed.

Lemma record_approval_effect a r :
  (record_approval a r).2 = r \/
  (record_approval a r).2 = set_approvals (<[a.(sa_approval_id) := a]> r.(reg_approvals)) r /\
  dict_mem a.(sa_identity) r.(reg_definitions) = true /\
  (exists v, r.(reg_validations) !! a.(sa_validation_run_id) = Some v /\
     v.(vr_identity) = a.(sa_identity) /\ v.(vr_passed) = true) /\
  (forall w, r.(reg_approvals) !! a.(sa_approval_id) = Some w -> w ==p a = true).
Proof.
  unfold record_approval, mbind, M_bind, get_state, lift, modify.
  destruct (negb _) eqn:E1; simpl; [by left|]. apply negb_false_iff in E1.
  destruct (_ !! sa_validation_run_id a) as [v|] eqn:Ev; [|by left].
  destruct (_ !=p _) eqn:E2; [by left|]. rewrite py_ne_false in E2.
  destruct (vr_passed v) eqn:Ep; simpl; [|by left].
  destruct (conflicts _ a) eqn:E; simpl; [by left|]. right.
  split; [done|]. split; [done|]. split; [by exists v|]. by apply conflicts_false.
Qed.

Lemma revoke_effect k reason r :
  (revoke k reason r).2 = r \/
  exists a a', r.(reg_approvals) !! k = Some a /\ approval_revoke a reason = Ok a' /\
    (revoke k reason r).2 = set_approvals (<[k := a']> r.(reg_approvals)) r.
Proof.
  unfold revoke, mbind, M_bind, get_state, lift, modify.
  destruct (_ !! k) as [a|] eqn:Ea; simpl; [|by left].
  destruct (approval_revoke a reason) as [a'|] eqn:Er; [|by left]. right. eauto.
Qed.

Lemma approval_revoke_ok a reason a' : approval_revoke a reason = Ok a' ->
  a'.(sa_approval_id) = a.(sa_approval_id) /\ a'.(sa_identity) = a.(sa_identity) /\
  a'.(sa_validation_run_id) = a.(sa_validation_run_id) /\ a'.(sa_state) = REVOKED.
Proof. unfold approval_revoke. intros H. inv_ok H. by subst. Qed.

Lemma registry_ok_empty : registry_ok empty_registry.
Proof. split; simpl; try apply dict_wf_empty; by intros k a. Qed.

Lemma registry_ok_step op r : registry_ok r -> registry_ok (registry_run op r).2.
Proof.
  intros [Hd Ha Hk Hap]. destruct op as [d|v|a|k reason]; simpl.
  - destruct (register_effect d r) as [->|[-> Hw]]; [by split|].
    split; simpl; [by apply dict_wf_insert | done | |].
    + intros i d'. rewrite dict_lookup_insert. case_decide as E; [by intros [= <-] | apply Hk].
    + intros k a (? & ? & ?)%Hap. eauto using dict_mem_insert.
  - destruct (record_validation_effect v r) as [->|[-> Hw]]; [by split|].
    split; simpl; [done | done | done |].
    intros k a (? & ? & w & Hv & Hi & Hp)%Hap. split; [done|]. split; [done|].
    rewrite dict_lookup_insert. case_decide as E; [|by exists w].
    exists v. rewrite <-E in Hv. destruct (validation_eq_inv _ _ (Hw _ Hv)).
    split; [done|]. split; congruence.
  - destruct (record_approval_effect a r) as [->|(-> & Hm & Hv & Hw)]; [by split|].
    split; simpl; [done | by apply dict_wf_insert | done |].
    intros k a'. rewrite dict_lookup_insert. case_decide as E; [|apply Hap].
    intros [= <-]. by subst k.
  - destruct (revoke_effect k reason r) as [->|(a & a' & Hg & Hr & ->)]; [by split|].
    destruct (approval_revoke_ok _ _ _ Hr) as (E1 & E2 & E3 & E4).
    split; simpl; [done | by apply dict_wf_insert | done |].
    intros k' b. rewrite dict_lookup_insert. case_decide as E; [|apply Hap].
    intros [= <-]. subst k'. rewrite E1, E2, E3. by apply Hap.
Qed.

Lemma registry_ok_reachable r : registry_steps empty_registry r -> registry_ok r.
Proof. induction 1; [apply registry_ok_empty | by apply registry_ok_step]. Qed.

(** ** What [require_approval] promises *)

Lemma is_current_true a at_ : is_current a at_ = Ok true <->
  a.(sa_state) = APPROVED /\ aware at_ = true /\ aware a.(sa_approved_at) = true /\
  aware a.(sa_expires_at) = true /\
  (instant a.(sa_approved_at) <= instant at_ < instant a.(sa_expires_at))%Z.
Proof.
  unfold is_current. destruct (sa_state a); [|split; [done | by intros [? _]]].
  unfold utc. destruct (utcoffset at_) as [o|] eqn:Eo; simpl.
  2: { split; [done|]. unfold aware. rewrite Eo. intros (_ & ? & _). done. }
  assert (aware at_ = true) as Haw by (unfold aware; by rewrite Eo).
  unfold dt_le, dt_lt. rewrite aware_at_utc, instant_at_utc.
  destruct (aware (sa_approved_at a)); simpl; [|split; [done | by intros (_ & _ & ? & _)]].
  destruct (Z.leb_spec (instant (sa_approved_at a)) (instant at_)); simpl.
  - destruct (aware (sa_expires_at a)); simpl; [|split; [done | by intros (_ & _ & _ & ? & _)]].
    split; [intros [= Hlt%Z.ltb_lt] | intros (_ & _ & _ & _ & ?); do 2 f_equal; apply Z.ltb_lt; lia].
    repeat split; done.
  - split; [done|]. intros (_ & _ & _ & _ & ?). lia.
Qed.

Lemma current_approvals_ok i at_ l cur : current_approvals i at_ l = Ok cur ->
  forall a, a ∈ cur <-> a ∈ l /\ a.(sa_identity) = i /\ is_current a at_ = Ok true.
Proof.
  revert cur; induction l as [|b l IH]; simpl; intros cur Hc a.
  - inv_ok Hc. subst cur. split; [by intros ?%elem_of_nil | by intros [?%elem_of_nil _]].
  - inv_ok Hc. specialize (IH _ Hok1 a). subst cur. destruct (sa_identity b ==p i) eqn:Ei.
    + rewrite py_eq_true in Ei. destruct a0; rewrite ?elem_of_cons, IH.
      * split; [intros [->|(? & ? & ?)]; auto | intros ([->|?] & ? & ?); auto].
      * split; [intros (? & ? & ?); auto | intros ([->|?] & ? & ?); [congruence|auto]].
    + rewrite py_eq_false in Ei. injection Hok as <-. rewrite ?elem_of_cons, IH.
      split; [intros (? & ? & ?); auto | intros ([->|?] & ? & ?); [done|auto]].
Qed.

Lemma require_approval_ok r i at_ a :
  require_approval r i at_ = Ok a ->
  dict_mem i r.(reg_definitions) = true /\ a ∈ dict_values r.(reg_approvals) /\
  a.(sa_identity) = i /\ is_current a at_ = Ok true /\
  forall b, b ∈ dict_values r.(reg_approvals) -> b.(sa_identity) = i -> is_current b at_ = Ok true ->
    (instant b.(sa_approved_at) <= instant a.(sa_approved_at))%Z.
Proof.
  unfold require_approval. intros H. inv_ok H. apply negb_false_iff in Hok.
  destruct (py_max_by _ _) as [m|] eqn:Em; [|done]. injection Hok2 as ->.
  pose proof (py_max_by_elem _ _ _ Em) as Hin.
  pose proof (py_max_by_Z (fun a => instant a.(sa_approved_at)) _ _ Em) as Hmax.
  pose proof (current_approvals_ok _ _ _ _ Hok1) as Hcur.
  apply Hcur in Hin as (? & ? & ?). repeat split; try done.
  intros b Hb Hi Hc. rewrite Forall_forall in Hmax. apply Hmax, Hcur. done.
Qed.

Lemma identity_lt_order : weak_order identity_lt.
Proof. unfold identity_lt. do 5 apply weak_order_str. apply weak_order_Z. Qed.

Lemma definition_order :
  weak_order (fun a b : StrategyDefinition => identity_lt a.(sd_identity) b.(sd_identity)).
Proof.
  destruct identity_lt_order as [Ha Ht]. split; [intros x y; apply Ha | intros x y z; apply Ht].
Qed.

Definition matches_request (i : StrategyIdentity) (market : Market) (timeframe trade_horizon : string)
    (version : Z) : Prop :=
  i.(si_market) = market /\ i.(si_timeframe) = timeframe /\ i.(si_trade_horizon) = trade_horizon /\
  i.(si_feature_set_version) = version.

Lemma eligible_loop_ok r m tf h v at_ l ds :
  eligible_loop r m tf h v at_ l = Ok ds ->
  forall d, d ∈ ds <-> exists i, (i, d) ∈ l /\ matches_request i m tf h v /\
    exists a, require_approval r i at_ = Ok a.
Proof.
  revert ds; induction l as [|[i d0] l IH]; simpl; intros ds Hds d.
  - inv_ok Hds. subst. split; [by intros ?%elem_of_nil | by intros (? & ?%elem_of_nil & _)].
  - destruct (_ && _) eqn:Em.
    + rewrite !andb_true_iff, !py_eq_true in Em. destruct (require_approval r i at_) as [a|e] eqn:Er.
      * inv_ok Hds. subst ds. rewrite elem_of_cons, (IH _ Hok). split.
        -- intros [->|(j & ? & ? & ?)]; [|exists j; split; [by right|done]].
           exists i. split; [by left|]. unfold matches_request. split; [tauto|eauto].
        -- intros (j & [[= -> ->]|Hj]%elem_of_cons & Hm & Ha); [by left|right; eauto].
      * destruct e; try done. rewrite (IH _ Hds). split.
        -- intros (j & ? & ? & ?). exists j. split; [by right|done].
        -- intros (j & [[= -> ->]|Hj]%elem_of_cons & Hm & a & Ha); [congruence|eauto].
    + rewrite (IH _ Hds). split.
      * intros (j & ? & ? & ?). exists j. split; [by right|done].
      * intros (j & [[= -> ->]|Hj]%elem_of_cons & (<- & <- & <- & <-) & Ha); [|by exists j].
        apply not_true_iff_false in Em. destruct Em. by rewrite !andb_true_iff, !py_eq_true.
Qed.

(** ** Theorems *)

(** Runtime admission: in every registry state the program can reach, an
    approval that [require_approval] returns is of exactly the requested,
    registered identity, is neither revoked nor outside its validity window
    at the requested time, rests on a recorded passed validation of that same
    identity, and no other current approval of it is more recent. *)
Theorem approval_admission r i at_ a :
  registry_steps empty_registry r ->
  require_approval r i at_ = Ok a ->
  (exists d, r.(reg_definitions) !! i = Some d /\ d.(sd_identity) = i) /\
  a.(sa_identity) = i /\ a.(sa_state) = APPROVED /\
  (instant a.(sa_approved_at) <= instant at_ < instant a.(sa_expires_at))%Z /\
  (exists v, r.(reg_validations) !! a.(sa_validation_run_id) = Some v /\
     v.(vr_identity) = i /\ v.(vr_passed) = true) /\
  (forall b, b ∈ dict_values r.(reg_approvals) -> b.(sa_identity) = i ->
     is_current b at_ = Ok true -> (instant b.(sa_approved_at) <= instant a.(sa_approved_at))%Z).
Proof.
  intros Hr%registry_ok_reachable (Hm & Hin & <- & Hcur & Hmax)%require_approval_ok.
  apply is_current_true in Hcur as (? & _ & _ & _ & ?).
  apply (dict_values_elem _ _ (ok_approvals _ Hr)) in Hin as [k Hk].
  destruct (ok_approval _ Hr _ _ Hk) as (_ & _ & Hv). repeat split; try done; try lia.
  unfold dict_mem in Hm. destruct (_ !! sa_identity a) as [d|] eqn:E; [|done].
  exists d. split; [done|]. by apply (ok_definition_key _ Hr).
Qed.

(** Revocation is permanent: whatever calls follow, returning or raising,
    a revoked approval stays on record as revoked. *)
Theorem revocation_permanent r r' k a :
  r.(reg_approvals) !! k = Some a -> a.(sa_state) = REVOKED -> registry_steps r r' ->
  exists a', r'.(reg_approvals) !! k = Some a' /\ a'.(sa_state) = REVOKED.
Proof.
  intros Hk Ha. induction 1 as [|r1 op _ (b & Hb & Hs)]; [eauto|].
  destruct op as [d|v|c|k' reason]; simpl.
  - destruct (register_effect d r1) as [->|[-> _]]; eauto.
  - destruct (record_validation_effect v r1) as [->|[-> _]]; eauto.
  - destruct (record_approval_effect c r1) as [->|(-> & _ & _ & Hw)]; [eauto|]. simpl.
    rewrite dict_lookup_insert. case_decide as E; [|eauto]. subst k. exists c. split; [done|].
    rewrite <-Hs. symmetry. by apply approval_eq_inv, Hw.
  - destruct (revoke_effect k' reason r1) as [->|(x & x' & _ & Hx & ->)]; [eauto|]. simpl.
    rewrite dict_lookup_insert. case_decide; [|eauto].
    apply approval_revoke_ok in Hx as (_ & _ & _ & ?). eauto.
Qed.

(** [eligible] returns exactly the registered definitions that match the
    request and have a current approval, in the order of their identities. *)
Theorem eligible_exact r market timeframe trade_horizon version at_ ds :
  registry_steps empty_registry r ->
  eligible r market timeframe trade_horizon version at_ = Ok ds ->
  (forall d, d ∈ ds <->
     r.(reg_definitions) !! d.(sd_identity) = Some d /\
     matches_request d.(sd_identity) market timeframe trade_horizon version /\
     exists a, require_approval r d.(sd_identity) at_ = Ok a) /\
  StronglySorted (fun d e => identity_lt e.(sd_identity) d.(sd_identity) = false) ds.
Proof.
  intros Hr%registry_ok_reachable H. unfold eligible in H. inv_ok H. subst ds. split.
  - intros d. rewrite py_sorted_elem, (eligible_loop_ok _ _ _ _ _ _ _ _ Hok d). split.
    + intros (i & Hi%(dict_elem_lookup _ _ _ (ok_definitions _ Hr)) & Hm & Ha).
      by rewrite (ok_definition_key _ Hr _ _ Hi).
    + intros (Hi & Hm & Ha). exists (sd_identity d). split; [by apply dict_lookup_elem|done].
  - apply (weak_order_sorted _ _ definition_order).
Qed.

(** A validation run passes exactly when every gate holds: enough trades
    and walk-forward windows, a stable share of profitable windows, an
    expectancy above the minimum after costs, drawdown within its limit, and
    significance after the Bonferroni correction. *)
Theorem validate_strategy_gates identity metrics policy at_ v :
  validate_strategy identity metrics policy at_ = Ok v ->
  v.(vr_passed) = true <->
  (policy.(vp_minimum_trades) <= metrics.(vm_trade_count))%Z /\
  (policy.(vp_minimum_walk_forward_windows) <= metrics.(vm_walk_forward_windows))%Z /\
  (exists ratio, int_truediv metrics.(vm_profitable_windows) metrics.(vm_walk_forward_windows) = Ok ratio /\
     (ratio <? policy.(vp_minimum_profitable_window_ratio))%float = false) /\
  (net_expectancy metrics <=? policy.(vp_minimum_net_expectancy))%float = false /\
  (policy.(vp_maximum_drawdown) <? metrics.(vm_maximum_drawdown))%float = false /\
  (exists alpha, fdiv policy.(vp_family_wise_alpha) (float_of_Z metrics.(vm_tested_hypotheses)) = Ok alpha /\
     (alpha <? metrics.(vm_p_value))%float = false).
Proof.
  unfold validate_strategy. intros H. inv_ok H. subst v. cbn [vr_passed].
  assert (Hnil : forall (l : list string), match l with [] => true | _ => false end = true <-> l = [])
    by (by intros []).
  assert (Hif : forall b s, reason_if b s = [] <-> b = false) by (by intros []).
  rewrite Hnil, !app_nil, !Hif, Z.ltb_ge. unfold fgt.
  match goal with H : (if Z.ltb _ _ then _ else _) = Ok _ |- _ => rename H into Hr2 end.
  match goal with H : fdiv _ _ = Ok _ |- _ => rename H into Hfd end.
  destruct (Z.ltb_spec (vm_walk_forward_windows metrics) (vp_minimum_walk_forward_windows policy)) as [Hw|Hw].
  - injection Hr2 as <-. split; [by intros (_ & ? & _) | lia].
  - apply result_bind_ok in Hr2 as (ratio & Hratio & [= <-]). rewrite Hif. split.
    + intros (? & ? & ? & ? & ?). split; [done|]. split; [done|]. split; [by eexists|].
      split; [done|]. split; [done|]. by eexists.
    + intros (? & ? & (ra & Hra & ?) & ? & ? & (al & Hal & ?)).
      rewrite Hratio in Hra. injection Hra as ->. rewrite Hfd in Hal. injection Hal as ->. done.
Qed.

(** ** A concrete registry *)

Module RegistryExample.

Definition identity : StrategyIdentity := {|
  si_market := NSE; si_strategy_id := "vwap_pullback"; si_strategy_version := "1.0.0";
  si_timeframe := "5m"; si_trade_horizon := "intraday"; si_feature_set_version := 2 |}.
Definition definition : StrategyDefinition := {|
  sd_identity := identity; sd_family := "trend"; sd_parameters := [("adx", "22")];
  sd_implementation_ref := "nanodelta.strategies.technical:VwapPullback" |}.
Definition t0 : Z := (1709200000 * second)%Z.
Definition now : datetime := at_utc (t0 + hour).
Definition metrics : ValidationMetrics := {|
  vm_trade_count := 120; vm_walk_forward_windows := 5; vm_profitable_windows := 4;
  vm_gross_expectancy := 0.01; vm_estimated_cost_per_trade := 0.002; vm_maximum_drawdown := 0.1;
  vm_p_value := 0.001; vm_tested_hypotheses := 3 |}.
Definition validation : ValidationResult := {|
  vr_validation_run_id := "run-1"; vr_identity := identity; vr_evaluated_at := at_utc t0;
  vr_passed := true; vr_rejection_reasons := []; vr_metrics := metrics;
  vr_policy := default_validation_policy |}.
Definition approval : StrategyApproval := {|
  sa_approval_id := "approval-1"; sa_identity := identity; sa_validation_run_id := "run-1";
  sa_state := APPROVED; sa_approved_at := at_utc t0; sa_expires_at := at_utc (t0 + 30 * day);
  sa_approved_by := "risk"; sa_reason := "passed" |}.
Definition registry : StrategyRegistry :=
  (registry_run (OpRecordApproval approval)
    (registry_run (OpRecordValidation validation)
      (registry_run (OpRegister definition) empty_registry).2).2).2.

Lemma registry_reachable : registry_steps empty_registry registry.
Proof. do 3 apply registry_step. apply registry_refl. Qed.

Lemma approval_admission_witness :
  exists a, require_approval registry identity now = Ok a /\ a.(sa_state) = APPROVED.
Proof.
  exists approval. split; [vm_compute; reflexivity|].
  apply (approval_admission registry identity now approval registry_reachable).
  vm_compute. reflexivity.
Defined.

Definition revoked : StrategyRegistry := (registry_run (OpRevoke "approval-1" "drift") registry).2.

Lemma revocation_permanent_witness :
  exists a, (registry_run (OpRecordApproval approval) revoked).2.(reg_approvals) !! "approval-1" = Some a
    /\ a.(sa_state) = REVOKED.
Proof.
  assert (H : exists a, revoked.(reg_approvals) !! "approval-1" = Some a /\ a.(sa_state) = REVOKED)
    by (vm_compute; eexists; split; reflexivity).
  destruct H as (a & Ha & Hs).
  apply (revocation_permanent revoked _ "approval-1" a Ha Hs).
  apply registry_step, registry_refl.
Defined.

Lemma eligible_exact_witness :
  eligible registry NSE "5m" "intraday" 2 now = Ok [definition] /\ definition ∈ [definition].
Proof.
  assert (H : eligible registry NSE "5m" "intraday" 2 now = Ok [definition]) by (vm_compute; reflexivity).
  split; [exact H|]. apply (eligible_exact _ _ _ _ _ _ _ registry_reachable H).
  split; [vm_compute; reflexivity|]. split; [by repeat split|]. exists approval. vm_compute. reflexivity.
Defined.

Lemma validate_strategy_gates_witness :
  exists v, validate_strategy identity metrics default_validation_policy (at_utc t0) = Ok v /\
    v.(vr_passed) = true.
Proof.
  assert (H : exists v, validate_strategy identity metrics default_validation_policy (at_utc t0) = Ok v)
    by (vm_compute; eexists; reflexivity).
  destruct H as [v Hv]. exists v. split; [exact Hv|].
  apply (validate_strategy_gates _ _ _ _ _ Hv).
  split; [vm_compute; discriminate|]. split; [vm_compute; discriminate|].
  split; [eexists; split; [vm_compute; reflexivity | vm_compute; reflexivity]|].
  split; [vm_compute; reflexivity|]. split; [vm_compute; reflexivity|].
  eexists; split; [vm_compute; reflexivity | vm_compute; reflexivity].
Defined.

End RegistryExample.

(** A NaN expectancy is not rejected by any gate: [nan <= minimum] is false,
    so such a run is recorded as passed. *)
Lemma nan_expectancy_passes :
  exists v, validate_strategy RegistryExample.identity
    {| vm_trade_count := 120; vm_walk_forward_windows := 5; vm_profitable_windows := 4;
       vm_gross_expectancy := nan; vm_estimated_cost_per_trade := 0.002; vm_maximum_drawdown := 0.1;
       vm_p_value := 0.001; vm_tested_hypotheses := 3 |}
    default_validation_policy (at_utc RegistryExample.t0) = Ok v /\ v.(vr_passed) = true.
Proof. vm_compute. eexists. split; reflexivity. Qed.
