(* ===== verification/Risk.v ===== *)
(** * Deterministic risk engine (src/nanodelta/risk/engine.py)

    Trade intents, portfolio snapshots and limits with the checks of their
    constructors, and the two evaluations: [evaluate] for entries and
    [evaluate_exit] for protective exits. *)

From Stdlib Require Import ZArith Floats.
From stdpp Require Import prelude strings numbers list.
From S2P Require Import Prelude PyData PyFloat FloatTheory PyText Sha256 PyTime Contracts Registry.

Record TradeIntent := {
  ti_intent_id : string;
  ti_market : Market;
  ti_account_id : string;
  ti_symbol : string;
  ti_action : AdvisoryAction;
  ti_quantity : float;
  ti_reference_price : float;
  ti_event_time : datetime;
  ti_candidate_id : string;
  ti_approval_id : string;
  ti_identity : StrategyIdentity;
  ti_gold_snapshot_ids : list string;
  ti_agent_evidence_id : option string }.

(** [not seq] of a tuple *)
Definition is_nil {A} (l : list A) : bool := match l with [] => true | _ => false end.

Definition TradeIntent_post_init (i : TradeIntent) : result unit :=
  _ ← raise_if (i.(ti_action) ==p ABSTAIN) (ValueError "ABSTAIN cannot become a trade intent");
  _ ← raise_if (i.(ti_market) !=p i.(ti_identity).(si_market))
        (ValueError "trade intent market must match strategy identity");
  _ ← raise_if (str_empty i.(ti_account_id) || str_empty i.(ti_symbol) || is_nil i.(ti_gold_snapshot_ids))
        (ValueError "account_id, symbol, and Gold lineage are required");
  _ ← raise_if (negb (isfinite i.(ti_quantity)) || (i.(ti_quantity) <=? 0)%float)
        (ValueError "quantity must be finite and positive");
  _ ← raise_if (negb (isfinite i.(ti_reference_price)) || (i.(ti_reference_price) <=? 0)%float)
        (ValueError "reference_price must be finite and positive");
  _ ← utc i.(ti_event_time) "event_time";
  mret tt.

(** The constructor call [TradeIntent(...)]. *)
Definition new_TradeIntent (i : TradeIntent) : result TradeIntent :=
  _ ← TradeIntent_post_init i; mret i.

Record PortfolioPosition := {
  pp_market : Market;
  pp_account_id : string;
  pp_symbol : string;
  pp_signed_quantity : float;
  pp_mark_price : float }.
Definition gross_notional (p : PortfolioPosition) : float :=
  abs (p.(pp_signed_quantity) * p.(pp_mark_price))%float.

Record PortfolioSnapshot := {
  ps_snapshot_id : string;
  ps_account_id : string;
  ps_equity : float;
  ps_realized_pnl_today : float;
  ps_positions : list PortfolioPosition;
  ps_captured_at : datetime }.

Definition PortfolioSnapshot_post_init (s : PortfolioSnapshot) : result unit :=
  _ ← raise_if (negb (isfinite s.(ps_equity)) || (s.(ps_equity) <=? 0)%float)
        (ValueError "equity must be finite and positive");
  _ ← raise_if (negb (isfinite s.(ps_realized_pnl_today)))
        (ValueError "realized_pnl_today must be finite");
  _ ← raise_if (existsb (fun p => p.(pp_account_id) !=p s.(ps_account_id)) s.(ps_positions))
        (ValueError "portfolio positions must belong to the snapshot account");
  _ ← utc s.(ps_captured_at) "captured_at";
  mret tt.

Record RiskLimits := {
  rl_max_order_notional : float;
  rl_max_position_notional : float;
  rl_max_market_gross_exposure : float;
  rl_max_total_gross_exposure : float;
  rl_max_daily_loss : float;
  rl_max_open_positions : Z;
  rl_max_snapshot_age_seconds : Z }.

Definition RiskLimits_post_init (l : RiskLimits) : result unit :=
  _ ← raise_if (negb (forallb (fun v => isfinite v && fgt v 0)
          [l.(rl_max_order_notional); l.(rl_max_position_notional); l.(rl_max_market_gross_exposure);
           l.(rl_max_total_gross_exposure); l.(rl_max_daily_loss)]))
        (ValueError "risk limits must be finite and positive");
  raise_if ((l.(rl_max_open_positions) <? 1) || (l.(rl_max_snapshot_age_seconds) <? 0))%Z
    (ValueError "position and freshness limits are invalid").

Definition repr_limits (l : RiskLimits) : string :=
  repr_dataclass "RiskLimits"
    [("max_order_notional", repr_float l.(rl_max_order_notional));
     ("max_position_notional", repr_float l.(rl_max_position_notional));
     ("max_market_gross_exposure", repr_float l.(rl_max_market_gross_exposure));
     ("max_total_gross_exposure", repr_float l.(rl_max_total_gross_exposure));
     ("max_daily_loss", repr_float l.(rl_max_daily_loss));
     ("max_open_positions", str_Z l.(rl_max_open_positions));
     ("max_snapshot_age_seconds", str_Z l.(rl_max_snapshot_age_seconds))].

Inductive RiskDecisionState := RISK_APPROVED | RISK_REJECTED.
#[export] Instance RiskDecisionState_eq_dec : EqDecision RiskDecisionState.
Proof. solve_decision. Defined.

Record RiskDecision := {
  rd_decision_id : string;
  rd_intent : TradeIntent;
  rd_portfolio_snapshot_id : string;
  rd_state : RiskDecisionState;
  rd_rejection_reasons : list string;
  rd_evaluated_at : datetime;
  rd_limits : RiskLimits }.
Definition approved (d : RiskDecision) : bool := bool_decide (d.(rd_state) = RISK_APPROVED).

(** [next((p for p in positions if ...), None)] *)
Definition find_position (market : Market) (symbol : string) (l : list PortfolioPosition)
    : option PortfolioPosition :=
  find (fun p => (p.(pp_market) ==p market) && (p.(pp_symbol) ==p symbol)) l.

(** The order's change of the signed position. *)
Definition order_delta (i : TradeIntent) : float :=
  if i.(ti_action) ==p BUY then i.(ti_quantity) else (- i.(ti_quantity))%float.

(** The numbers [evaluate] compares with the limits. *)
Definition target_position (i : TradeIntent) (p : PortfolioSnapshot) : option PortfolioPosition :=
  find_position i.(ti_market) i.(ti_symbol) p.(ps_positions).
Definition current_signed (i : TradeIntent) (p : PortfolioSnapshot) : float :=
  match target_position i p with Some t => t.(pp_signed_quantity) | None => 0%float end.
Definition order_notional (i : TradeIntent) : float := (i.(ti_quantity) * i.(ti_reference_price))%float.
Definition projected_signed (i : TradeIntent) (p : PortfolioSnapshot) : float :=
  (current_signed i p + order_delta i)%float.
Definition projected_notional (i : TradeIntent) (p : PortfolioSnapshot) : float :=
  abs (projected_signed i p * i.(ti_reference_price))%float.
Definition current_notional (i : TradeIntent) (p : PortfolioSnapshot) : float :=
  match target_position i p with Some t => gross_notional t | None => 0%float end.
Definition projected_total (i : TradeIntent) (p : PortfolioSnapshot) : float :=
  (py_sum (gross_notional <$> p.(ps_positions)) - current_notional i p + projected_notional i p)%float.
Definition projected_market (i : TradeIntent) (p : PortfolioSnapshot) : float :=
  (py_sum (gross_notional <$> List.filter (fun q => q.(pp_market) ==p i.(ti_market)) p.(ps_positions))
   - current_notional i p + projected_notional i p)%float.
Definition existing_open (p : PortfolioSnapshot) : Z :=
  Z.of_nat (length (List.filter (fun q => negb (q.(pp_signed_quantity) =? 0)%float) p.(ps_positions))).
Definition opens_new (i : TradeIntent) (p : PortfolioSnapshot) : bool :=
  (current_signed i p =? 0)%float && negb (projected_signed i p =? 0)%float.

(** [age < 0 or age > max_snapshot_age_seconds] *)
Definition stale_age (age : float) (max_age : Z) : bool := float_lt_int age 0 || int_lt_float max_age age.

Definition decide_state (reasons : list string) : RiskDecisionState :=
  if is_nil reasons then RISK_APPROVED else RISK_REJECTED.

(** [RiskEngine.evaluate] *)
Definition evaluate (limits : RiskLimits) (intent : TradeIntent) (approval : StrategyApproval)
    (portfolio : PortfolioSnapshot) (evaluated_at : datetime) : result RiskDecision :=
  evaluated_at ← utc evaluated_at "evaluated_at";
  r1 ← (if (approval.(sa_approval_id) !=p intent.(ti_approval_id))
           || (approval.(sa_identity) !=p intent.(ti_identity))
        then mret ["STRATEGY_APPROVAL_MISMATCH"]
        else cur ← is_current approval evaluated_at;
             mret (reason_if (negb cur) "STRATEGY_APPROVAL_NOT_CURRENT"));
  let r2 := reason_if (portfolio.(ps_account_id) !=p intent.(ti_account_id)) "ACCOUNT_MISMATCH" in
  captured ← utc portfolio.(ps_captured_at) "captured_at";
  let age := total_seconds (instant evaluated_at - instant captured)%Z in
  let r3 := reason_if (stale_age age limits.(rl_max_snapshot_age_seconds)) "STALE_PORTFOLIO_SNAPSHOT" in
  let r4 := reason_if (portfolio.(ps_realized_pnl_today) <=? - limits.(rl_max_daily_loss))%float
              "DAILY_LOSS_LIMIT_REACHED" in
  let r5 := reason_if (fgt (order_notional intent) limits.(rl_max_order_notional))
              "ORDER_NOTIONAL_LIMIT_EXCEEDED" in
  let r6 := reason_if (fgt (projected_notional intent portfolio) limits.(rl_max_position_notional))
              "POSITION_NOTIONAL_LIMIT_EXCEEDED" in
  let r7 := reason_if (fgt (projected_total intent portfolio) limits.(rl_max_total_gross_exposure))
              "TOTAL_GROSS_EXPOSURE_LIMIT_EXCEEDED" in
  let r8 := reason_if (fgt (projected_market intent portfolio) limits.(rl_max_market_gross_exposure))
              "MARKET_GROSS_EXPOSURE_LIMIT_EXCEEDED" in
  let r9 := reason_if (opens_new intent portfolio && (limits.(rl_max_open_positions) <=? existing_open portfolio)%Z)
              "OPEN_POSITION_LIMIT_REACHED" in
  let reasons := r1 ++ r2 ++ r3 ++ r4 ++ r5 ++ r6 ++ r7 ++ r8 ++ r9 in
  mret {| rd_decision_id := stable_id [intent.(ti_intent_id); portfolio.(ps_snapshot_id);
                                       isoformat evaluated_at; repr_limits limits];
          rd_intent := intent;
          rd_portfolio_snapshot_id := portfolio.(ps_snapshot_id);
          rd_state := decide_state reasons;
          rd_rejection_reasons := reasons;
          rd_evaluated_at := evaluated_at;
          rd_limits := limits |}.

(** [RiskEngine.evaluate_exit] *)
Definition evaluate_exit (limits : RiskLimits) (intent : TradeIntent)
    (portfolio : PortfolioSnapshot) (evaluated_at : datetime) : result RiskDecision :=
  evaluated_at ← utc evaluated_at "evaluated_at";
  let r1 := reason_if (portfolio.(ps_account_id) !=p intent.(ti_account_id)) "ACCOUNT_MISMATCH" in
  captured ← utc portfolio.(ps_captured_at) "captured_at";
  let age := total_seconds (instant evaluated_at - instant captured)%Z in
  let r2 := reason_if (stale_age age limits.(rl_max_snapshot_age_seconds)) "STALE_PORTFOLIO_SNAPSHOT" in
  let delta := order_delta intent in
  let r3 :=
    match target_position intent portfolio with
    | None => ["OPEN_POSITION_NOT_FOUND"]
    | Some current =>
        if (current.(pp_signed_quantity) =? 0)%float then ["OPEN_POSITION_NOT_FOUND"]
        else if fge (current.(pp_signed_quantity) * delta)%float 0 then ["EXIT_MUST_REDUCE_POSITION"]
        else reason_if (fgt (abs delta) (abs current.(pp_signed_quantity))) "EXIT_CANNOT_REVERSE_POSITION"
    end in
  let reasons := r1 ++ r2 ++ r3 in
  mret {| rd_decision_id := stable_id ["protective-exit"; intent.(ti_intent_id);
                                       portfolio.(ps_snapshot_id); isoformat evaluated_at];
          rd_intent := intent;
          rd_portfolio_snapshot_id := portfolio.(ps_snapshot_id);
          rd_state := decide_state reasons;
          rd_rejection_reasons := reasons;
          rd_evaluated_at := evaluated_at;
          rd_limits := limits |}.

(** ** Lemmas *)

Lemma is_nil_true {A} (l : list A) : is_nil l = true <-> l = [].
Proof. by destruct l. Qed.

Lemma reason_if_nil b s : reason_if b s = [] <-> b = false.
Proof. by destruct b. Qed.

Lemma approved_state reasons d : d.(rd_state) = decide_state reasons -> approved d = true <-> reasons = [].
Proof.
  intros H. unfold approved. rewrite bool_decide_eq_true, H. unfold decide_state.
  destruct reasons; simpl; split; done.
Qed.

Ltac approved_by_reasons :=
  match goal with
  | |- approved ?d = true <-> _ =>
      rewrite (approved_state d.(rd_rejection_reasons) d eq_refl); cbn [rd_rejection_reasons]
  end.

(** An intent that passed its constructor. *)
Lemma TradeIntent_valid i : TradeIntent_post_init i = Ok tt ->
  i.(ti_action) <> ABSTAIN /\ i.(ti_market) = i.(ti_identity).(si_market) /\
  isfinite i.(ti_quantity) = true /\ (0 < fval i.(ti_quantity))%Z /\
  isfinite i.(ti_reference_price) = true /\ (0 < fval i.(ti_reference_price))%Z.
Proof.
  unfold TradeIntent_post_init. intros H. inv_ok H.
  rewrite py_eq_false in Hok. rewrite py_ne_false in Hok1.
  repeat match goal with
  | E : negb _ || _ = false |- _ => apply orb_false_iff in E as [?%negb_false_iff ?]
  end.
  repeat split; try done; by apply positive_spec.
Qed.

Lemma order_delta_val i : TradeIntent_post_init i = Ok tt ->
  isfinite (order_delta i) = true /\
  fval (order_delta i) = (if bool_decide (i.(ti_action) = BUY) then fval i.(ti_quantity)
                          else - fval i.(ti_quantity))%Z /\
  fval (order_delta i) <> 0%Z.
Proof.
  intros (Ha & _ & Hq & Hp & _)%TradeIntent_valid. unfold order_delta.
  change (i.(ti_action) ==p BUY) with (bool_decide (i.(ti_action) = BUY)).
  case_bool_decide; rewrite ?isfinite_opp, ?fval_opp; repeat split; try done; lia.
Qed.

(** ** Theorems *)

Lemma evaluate_approved_spec limits intent approval portfolio at_ d :
  evaluate limits intent approval portfolio at_ = Ok d ->
  approved d = true <->
  (approval.(sa_approval_id) = intent.(ti_approval_id) /\ approval.(sa_identity) = intent.(ti_identity) /\
   is_current approval at_ = Ok true) /\
  portfolio.(ps_account_id) = intent.(ti_account_id) /\
  stale_age (total_seconds (instant at_ - instant portfolio.(ps_captured_at)))
    limits.(rl_max_snapshot_age_seconds) = false /\
  (portfolio.(ps_realized_pnl_today) <=? - limits.(rl_max_daily_loss))%float = false /\
  fgt (order_notional intent) limits.(rl_max_order_notional) = false /\
  fgt (projected_notional intent portfolio) limits.(rl_max_position_notional) = false /\
  fgt (projected_total intent portfolio) limits.(rl_max_total_gross_exposure) = false /\
  fgt (projected_market intent portfolio) limits.(rl_max_market_gross_exposure) = false /\
  (opens_new intent portfolio = true -> (existing_open portfolio < limits.(rl_max_open_positions))%Z).
Proof.
  unfold evaluate. intros H. apply result_bind_ok in H as (now & Hnow & H).
  apply result_bind_ok in H as (r1 & Hr1 & H). apply result_bind_ok in H as (cap & Hcap & H).
  injection H as <-. apply utc_ok in Hnow as [Haw ->]. apply utc_ok in Hcap as [_ ->].
  approved_by_reasons. rewrite !instant_at_utc.
  rewrite !app_nil, !reason_if_nil, py_ne_false, andb_false_iff, Z.leb_gt.
  assert (Hcur : is_current approval (at_utc (instant at_)) = is_current approval at_).
  { unfold is_current. destruct (sa_state approval); [|done]. rewrite utc_at_utc.
    by rewrite (proj2 (utc_ok at_ "at" _) (conj Haw eq_refl)). }
  assert (E1 : r1 = [] <-> sa_approval_id approval = ti_approval_id intent /\
    sa_identity approval = ti_identity intent /\ is_current approval at_ = Ok true).
  { destruct (_ || _) eqn:Em.
    - injection Hr1 as <-. split; [done|]. intros (Ea & Ei & _).
      apply orb_true_iff in Em as [Em|Em]; rewrite py_ne_true in Em; done.
    - apply orb_false_iff in Em as [Ea Ei]. rewrite py_ne_false in Ea. rewrite py_ne_false in Ei.
      apply result_bind_ok in Hr1 as (c & Hc & [= <-]). rewrite Hcur in Hc. rewrite Hc, reason_if_nil.
      destruct c; simpl; split; try done. by intros (_ & _ & [=]). }
  rewrite E1. destruct (opens_new intent portfolio); intuition congruence.
Qed.

(** An entry is approved exactly when the approval is the intent's own and
    current, the snapshot is the account's and fresh, the day's loss is below
    its limit, and order, position, total, market and position-count limits
    all hold of the projected portfolio (as the code computes it). *)
Theorem evaluate_approved_iff limits intent approval portfolio at_ d :
  evaluate limits intent approval portfolio at_ = Ok d ->
  approved d = true <->
  (approval.(sa_approval_id) = intent.(ti_approval_id) /\ approval.(sa_identity) = intent.(ti_identity) /\
   is_current approval at_ = Ok true) /\
  portfolio.(ps_account_id) = intent.(ti_account_id) /\
  stale_age (total_seconds (instant at_ - instant portfolio.(ps_captured_at)))
    limits.(rl_max_snapshot_age_seconds) = false /\
  (portfolio.(ps_realized_pnl_today) <=? - limits.(rl_max_daily_loss))%float = false /\
  fgt (order_notional intent) limits.(rl_max_order_notional) = false /\
  fgt (projected_notional intent portfolio) limits.(rl_max_position_notional) = false /\
  fgt (projected_total intent portfolio) limits.(rl_max_total_gross_exposure) = false /\
  fgt (projected_market intent portfolio) limits.(rl_max_market_gross_exposure) = false /\
  (opens_new intent portfolio = true -> (existing_open portfolio < limits.(rl_max_open_positions))%Z).
Proof. apply evaluate_approved_spec. Qed.

Lemma RiskLimits_valid l : RiskLimits_post_init l = Ok tt ->
  Forall (fun v => isfinite v = true /\ (0 < fval v)%Z)
    [l.(rl_max_order_notional); l.(rl_max_position_notional); l.(rl_max_market_gross_exposure);
     l.(rl_max_total_gross_exposure); l.(rl_max_daily_loss)] /\
  (1 <= l.(rl_max_open_positions))%Z /\ (0 <= l.(rl_max_snapshot_age_seconds))%Z.
Proof.
  unfold RiskLimits_post_init. intros H. inv_ok H.
  apply negb_false_iff in Hok. apply orb_false_iff in Hok0 as [H1%Z.ltb_ge H2%Z.ltb_ge].
  split; [|done]. rewrite Forall_forall. intros v Hv.
  assert (Hb : isfinite v && fgt v 0 = true).
  { rewrite forallb_forall in Hok. apply Hok. by apply list_elem_of_In. }
  apply andb_true_iff in Hb as [Hf Hg]. split; [done|].
  apply fltb_iff in Hg as (_ & _ & Hg). by rewrite fval_0 in Hg.
Qed.

Definition finite_positions (p : PortfolioSnapshot) : Prop :=
  Forall (fun q => isfinite q.(pp_signed_quantity) = true) p.(ps_positions).

Lemma current_signed_finite i p : finite_positions p -> isfinite (current_signed i p) = true.
Proof.
  intros H. unfold current_signed, target_position, find_position.
  destruct (find _ _) as [t|] eqn:E; [|done]. apply find_some in E as [Hin _].
  unfold finite_positions in H. rewrite Forall_forall in H. apply H. by apply list_elem_of_In.
Qed.

Lemma approved_entry_limits limits intent approval portfolio at_ d :
  RiskLimits_post_init limits = Ok tt ->
  TradeIntent_post_init intent = Ok tt ->
  PortfolioSnapshot_post_init portfolio = Ok tt ->
  finite_positions portfolio ->
  evaluate limits intent approval portfolio at_ = Ok d ->
  approved d = true ->
  (order_notional intent <=? limits.(rl_max_order_notional))%float = true /\
  (projected_notional intent portfolio <=? limits.(rl_max_position_notional))%float = true /\
  (- limits.(rl_max_daily_loss) <? portfolio.(ps_realized_pnl_today))%float = true /\
  (opens_new intent portfolio = true -> (existing_open portfolio < limits.(rl_max_open_positions))%Z).
Proof.
  intros (Hl & _)%RiskLimits_valid Hi Hp Hfin He Ha.
  apply (evaluate_approved_spec _ _ _ _ _ _ He) in Ha as (_ & _ & _ & Hloss & Hord & Hpos & _ & _ & Hopen).
  destruct (order_delta_val _ Hi) as (Hdf & _ & _).
  apply TradeIntent_valid in Hi as (_ & _ & Hq & Hqp & Hr & Hrp).
  repeat (apply Forall_cons in Hl as [[? ?] Hl]).
  split; [|split; [|split; [|done]]].
  - apply fgt_false_le; [|by apply isfinite_nan | done]. unfold order_notional. by apply fmul_sign.
  - apply fgt_false_le; [|by apply isfinite_nan | done]. unfold projected_notional.
    rewrite fnan_abs. apply fmul_nan; [|done|lia].
    apply fnan_add; [by apply current_signed_finite | done].
  - unfold PortfolioSnapshot_post_init in Hp. inv_ok Hp.
    match goal with E : negb (isfinite (ps_realized_pnl_today _)) = false |- _ =>
      apply negb_false_iff, isfinite_nan in E; rename E into Hn end.
    apply fleb_false in Hloss; [|done | rewrite fnan_opp; by apply isfinite_nan].
    apply fltb_iff. rewrite fnan_opp. split; [by apply isfinite_nan | by split].
Qed.

(** C5. Hard entry limits in binary64: an approved order of a well-formed
    intent, evaluated against finite positions and well-formed limits, has a
    notional at most the order limit, leaves a position whose notional at the
    reference price is at most the position limit, is never sent once the
    day's loss limit is reached, and never opens a position beyond the
    position-count limit. *)
Theorem approved_entry_within_limits limits intent approval portfolio at_ d :
  RiskLimits_post_init limits = Ok tt ->
  TradeIntent_post_init intent = Ok tt ->
  PortfolioSnapshot_post_init portfolio = Ok tt ->
  finite_positions portfolio ->
  evaluate limits intent approval portfolio at_ = Ok d ->
  approved d = true ->
  (order_notional intent <=? limits.(rl_max_order_notional))%float = true /\
  (projected_notional intent portfolio <=? limits.(rl_max_position_notional))%float = true /\
  (- limits.(rl_max_daily_loss) <? portfolio.(ps_realized_pnl_today))%float = true /\
  (opens_new intent portfolio = true -> (existing_open portfolio < limits.(rl_max_open_positions))%Z).
Proof. apply approved_entry_limits. Qed.

(** C6. A protective exit can only reduce: when [evaluate_exit] approves a
    well-formed order against finite positions, the position it names exists
    and is open, the order is on the opposite side, and the binary64 position
    after the fill is on the same side or flat and no larger in size.  The
    order can neither open, add to, nor reverse a position. *)
Theorem exit_only_reduces limits intent portfolio at_ d :
  TradeIntent_post_init intent = Ok tt ->
  finite_positions portfolio ->
  evaluate_exit limits intent portfolio at_ = Ok d ->
  approved d = true ->
  exists t, target_position intent portfolio = Some t /\
    let old := t.(pp_signed_quantity) in
    let new := (old + order_delta intent)%float in
    (old =? 0)%float = false /\
    (abs new <=? abs old)%float = true /\
    ((0 <? old)%float = true -> intent.(ti_action) = SELL /\ (0 <=? new)%float = true) /\
    ((old <? 0)%float = true -> intent.(ti_action) = BUY /\ (new <=? 0)%float = true).
Proof.
  intros Hi Hfin He. unfold evaluate_exit in He.
  apply result_bind_ok in He as (now & _ & He). apply result_bind_ok in He as (cap & _ & He).
  injection He as <-. revert Hfin.
  match goal with |- _ -> approved ?x = true -> _ =>
    rewrite (approved_state x.(rd_rejection_reasons) x eq_refl); cbn [rd_rejection_reasons] end.
  intros Hfin. rewrite !app_nil. intros (_ & _ & H3).
  destruct (target_position intent portfolio) as [t|] eqn:Et; [|done]. exists t. split; [done|].
  pose proof (current_signed_finite intent _ Hfin) as Hf. unfold current_signed in Hf. rewrite Et in Hf.
  destruct (order_delta_val _ Hi) as (Hdf & Hdv & Hd0). apply TradeIntent_valid in Hi as (Ha & _ & _ & Hqp & _).
  set (old := pp_signed_quantity t) in *. cbv zeta.
  destruct (old =? 0)%float eqn:E0; [done|].
  destruct (fge _ 0) eqn:Es; [done|]. rewrite reason_if_nil in H3. split; [done|].
  assert (Hno : fnan old = false) by (by apply isfinite_nan).
  assert (Hnd : fnan (order_delta intent) = false) by (by apply isfinite_nan).
  destruct (fmul_sign old (order_delta intent) Hf Hdf) as (Hnm & Hm & _).
  apply fleb_false in Es; [|done..]. rewrite fval_0 in Es.
  apply fltb_false in H3; [|by rewrite fnan_abs..]. rewrite !fval_abs in H3.
  assert (Hopp : (fval old * fval (order_delta intent) < 0)%Z) by lia.
  assert (Hna : fnan (old + order_delta intent)%float = false) by (by apply fnan_add).
  destruct (fadd_shrink old (order_delta intent) Hf Hdf) as [S1 S2].
  rewrite !fltb_iff, !fleb_iff, !fnan_abs, !fval_abs, !fval_0, fnan_0, Hno, Hna.
  case_bool_decide as Hb; rewrite Hdv in *.
  - assert (fval old < 0)%Z by nia. destruct S2 as [? ?]; [lia|]. repeat split; try done; lia.
  - assert (0 < fval old)%Z by nia. destruct S1 as [? ?]; [lia|].
    assert (ti_action intent = SELL) by (by destruct (ti_action intent)).
    repeat split; try done; lia.
Qed.

(** ** A concrete evaluation *)

Module RiskExample.
Import RegistryExample.

Definition limits : RiskLimits := {|
  rl_max_order_notional := 100000; rl_max_position_notional := 200000;
  rl_max_market_gross_exposure := 500000; rl_max_total_gross_exposure := 1000000;
  rl_max_daily_loss := 20000; rl_max_open_positions := 5; rl_max_snapshot_age_seconds := 30 |}.
Definition intent : TradeIntent := {|
  ti_intent_id := "intent-1"; ti_market := NSE; ti_account_id := "paper"; ti_symbol := "RELIANCE";
  ti_action := BUY; ti_quantity := 10.5; ti_reference_price := 2500.25; ti_event_time := now;
  ti_candidate_id := "candidate-1"; ti_approval_id := "approval-1"; ti_identity := identity;
  ti_gold_snapshot_ids := ["gold-1"]; ti_agent_evidence_id := None |}.
Definition held (symbol : string) (quantity mark : float) : PortfolioPosition := {|
  pp_market := NSE; pp_account_id := "paper"; pp_symbol := symbol;
  pp_signed_quantity := quantity; pp_mark_price := mark |}.
Definition portfolio (positions : list PortfolioPosition) : PortfolioSnapshot := {|
  ps_snapshot_id := "snap-1"; ps_account_id := "paper"; ps_equity := 1000000;
  ps_realized_pnl_today := -150.5; ps_positions := positions; ps_captured_at := now |}.
Definition exit_intent : TradeIntent := {|
  ti_intent_id := "exit-1"; ti_market := NSE; ti_account_id := "paper"; ti_symbol := "RELIANCE";
  ti_action := SELL; ti_quantity := 4.25; ti_reference_price := 2510; ti_event_time := now;
  ti_candidate_id := "candidate-1"; ti_approval_id := "approval-1"; ti_identity := identity;
  ti_gold_snapshot_ids := ["gold-1"]; ti_agent_evidence_id := None |}.

Lemma evaluate_approved_iff_witness :
  exists d, evaluate limits intent approval (portfolio [held "TCS" (-3) 3900]) now = Ok d /\
    approved d = true.
Proof.
  assert (H : exists d, evaluate limits intent approval (portfolio [held "TCS" (-3) 3900]) now = Ok d)
    by (vm_compute; eexists; reflexivity).
  destruct H as [d Hd]. exists d. split; [exact Hd|].
  apply (evaluate_approved_iff _ _ _ _ _ _ Hd).
  repeat (split; [vm_compute; repeat split; reflexivity|]). vm_compute. reflexivity.
Defined.

Lemma approved_entry_within_limits_witness :
  (order_notional intent <=? limits.(rl_max_order_notional))%float = true.
Proof.
  assert (H : exists d, evaluate limits intent approval (portfolio [held "TCS" (-3) 3900]) now = Ok d
                        /\ approved d = true) by (vm_compute; eexists; split; reflexivity).
  destruct H as (d & Hd & Ha).
  apply (approved_entry_within_limits limits intent approval (portfolio [held "TCS" (-3) 3900]) now d);
    [vm_compute; reflexivity.. | repeat constructor | exact Hd | exact Ha].
Defined.

Lemma exit_only_reduces_witness :
  exists t, target_position exit_intent (portfolio [held "RELIANCE" 10.5 2500]) = Some t /\
    (abs (t.(pp_signed_quantity) + order_delta exit_intent) <=? abs t.(pp_signed_quantity))%float = true.
Proof.
  assert (H : exists d, evaluate_exit limits exit_intent (portfolio [held "RELIANCE" 10.5 2500]) now = Ok d
                        /\ approved d = true) by (vm_compute; eexists; split; reflexivity).
  destruct H as (d & Hd & Ha).
  destruct (exit_only_reduces limits exit_intent (portfolio [held "RELIANCE" 10.5 2500]) now d)
    as (t & Ht & _ & Hr & _);
    [vm_compute; reflexivity | repeat constructor | exact Hd | exact Ha |].
  exists t. split; [exact Ht | exact Hr].
Defined.

(** A NaN mark price (which no constructor rejects) makes the exposure sums
    NaN, and [nan > limit] is false: an order is approved although the finite
    part of the book alone exceeds the total and market exposure limits. *)
Lemma nan_mark_disables_exposure_limits :
  exists d, evaluate limits intent approval
    (portfolio [held "TCS" 1000 5000; held "STALE" 1 nan]) now = Ok d /\ approved d = true /\
    fgt (gross_notional (held "TCS" 1000 5000)) limits.(rl_max_total_gross_exposure) = true.
Proof. vm_compute. eexists. repeat split; reflexivity. Qed.

End RiskExample.
