(* ===== verification/Execution.v ===== *)
(** * Paper execution engine (src/nanodelta/paper/execution.py)

    The in-memory paper ledger: idempotent immediate fills, positions with
    average price, realised profit and lineage, and atomic batches. *)

From Stdlib Require Import ZArith Floats.
From stdpp Require Import prelude strings numbers list.
From S2P Require Import Prelude PyData PyFloat FloatTheory PyText Sha256 PyTime Contracts Registry Risk.

Inductive PositionState := OPEN | CLOSED.
#[export] Instance PositionState_eq_dec : EqDecision PositionState.
Proof. solve_decision. Defined.

Record ExecutionPolicy := { ep_slippage_bps : float; ep_fee_bps : float }.
Definition ExecutionPolicy_post_init (p : ExecutionPolicy) : result unit :=
  raise_if (negb (forallb (fun v => isfinite v && fge v 0) [p.(ep_slippage_bps); p.(ep_fee_bps)]))
    (ValueError "slippage and fees must be finite and non-negative").

(** [OrderState] has the single member FILLED. *)
Inductive OrderState := FILLED.

Record PaperOrder := {
  po_order_id : string;
  po_idempotency_key : string;
  po_decision_id : string;
  po_market : Market;
  po_account_id : string;
  po_symbol : string;
  po_action : AdvisoryAction;
  po_quantity : float;
  po_state : OrderState;
  po_submitted_at : datetime }.

Record PaperFill := {
  pf_fill_id : string;
  pf_order_id : string;
  pf_quantity : float;
  pf_price : float;
  pf_fee : float;
  pf_filled_at : datetime }.

Record PaperPosition := {
  pos_position_id : string;
  pos_market : Market;
  pos_account_id : string;
  pos_symbol : string;
  pos_signed_quantity : float;
  pos_average_entry_price : float;
  pos_realized_pnl : float;
  pos_total_fees : float;
  pos_opened_at : datetime;
  pos_updated_at : datetime;
  pos_closed_at : option datetime;
  pos_state : PositionState;
  pos_decision_ids : list string;
  pos_strategy_keys : list string;
  pos_approval_ids : list string;
  pos_gold_snapshot_ids : list string;
  pos_agent_evidence_ids : list string }.

Record ExecutionReceipt := {
  er_order : PaperOrder;
  er_fill : PaperFill;
  er_position : PaperPosition }.

Definition position_key : Type := Market * string * string.

Record EngineState := {
  eng_receipts : dict string ExecutionReceipt;
  eng_positions : dict position_key PaperPosition }.
Definition empty_engine : EngineState := {| eng_receipts := ∅; eng_positions := ∅ |}.

(** [(x,) if x else ()] *)
Definition evidence_tuple (o : option string) : list string :=
  match o with Some s => if str_empty s then [] else [s] | None => [] end.

(** [_apply_fill]: a new position from no position or a closed one. *)
Definition open_position (decision : RiskDecision) (fill : PaperFill) : PaperPosition :=
  let intent := decision.(rd_intent) in
  let delta := if intent.(ti_action) ==p BUY then fill.(pf_quantity) else (- fill.(pf_quantity))%float in
  {| pos_position_id := stable_id ["paper-position"; Market_value intent.(ti_market);
                                   intent.(ti_account_id); intent.(ti_symbol); fill.(pf_fill_id)];
     pos_market := intent.(ti_market);
     pos_account_id := intent.(ti_account_id);
     pos_symbol := intent.(ti_symbol);
     pos_signed_quantity := delta;
     pos_average_entry_price := fill.(pf_price);
     pos_realized_pnl := 0;
     pos_total_fees := fill.(pf_fee);
     pos_opened_at := fill.(pf_filled_at);
     pos_updated_at := fill.(pf_filled_at);
     pos_closed_at := None;
     pos_state := OPEN;
     pos_decision_ids := [decision.(rd_decision_id)];
     pos_strategy_keys := [identity_key intent.(ti_identity)];
     pos_approval_ids := [intent.(ti_approval_id)];
     pos_gold_snapshot_ids := intent.(ti_gold_snapshot_ids);
     pos_agent_evidence_ids := evidence_tuple intent.(ti_agent_evidence_id) |}.

(** [_apply_fill]: average price and realised profit of a fill on an open
    position of signed size [old]. *)
Definition fill_economics (old delta : float) (average realized price : float) : result (float * float) :=
  let new := (old + delta)%float in
  if fgt (old * delta) 0 then
    a ← fdiv (abs old * average + abs delta * price)%float (abs new);
    mret (a, realized)
  else
    let closing := fmin (abs old) (abs delta) in
    let realized' :=
      (realized + closing * (price - average) * (if fgt old 0 then 1 else -1))%float in
    let average' :=
      if (new =? 0)%float then 0%float
      else if (old * new <? 0)%float then price else average in
    mret (average', realized').

(** [_apply_fill]: [replace(current, ...)] *)
Definition update_position (current : PaperPosition) (decision : RiskDecision) (fill : PaperFill)
    : result PaperPosition :=
  let intent := decision.(rd_intent) in
  let delta := if intent.(ti_action) ==p BUY then fill.(pf_quantity) else (- fill.(pf_quantity))%float in
  let old := current.(pos_signed_quantity) in
  let new := (old + delta)%float in
  economics ← fill_economics old delta current.(pos_average_entry_price)
                current.(pos_realized_pnl) fill.(pf_price);
  let flat := (new =? 0)%float in
  mret {| pos_position_id := current.(pos_position_id);
          pos_market := current.(pos_market);
          pos_account_id := current.(pos_account_id);
          pos_symbol := current.(pos_symbol);
          pos_signed_quantity := new;
          pos_average_entry_price := economics.1;
          pos_realized_pnl := economics.2;
          pos_total_fees := (current.(pos_total_fees) + fill.(pf_fee))%float;
          pos_opened_at := current.(pos_opened_at);
          pos_updated_at := fill.(pf_filled_at);
          pos_closed_at := if flat then Some fill.(pf_filled_at) else None;
          pos_state := if flat then CLOSED else OPEN;
          pos_decision_ids := current.(pos_decision_ids) ++ [decision.(rd_decision_id)];
          pos_strategy_keys := fromkeys (current.(pos_strategy_keys) ++ [identity_key intent.(ti_identity)]);
          pos_approval_ids := fromkeys (current.(pos_approval_ids) ++ [intent.(ti_approval_id)]);
          pos_gold_snapshot_ids := fromkeys (current.(pos_gold_snapshot_ids) ++ intent.(ti_gold_snapshot_ids));
          pos_agent_evidence_ids :=
            fromkeys (current.(pos_agent_evidence_ids) ++ evidence_tuple intent.(ti_agent_evidence_id)) |}.

Definition apply_fill (current : option PaperPosition) (decision : RiskDecision) (fill : PaperFill)
    : result PaperPosition :=
  match current with
  | None => mret (open_position decision fill)
  | Some p => match p.(pos_state) with
              | CLOSED => mret (open_position decision fill)
              | OPEN => update_position p decision fill
              end
  end.

Definition intent_key (i : TradeIntent) : position_key := (i.(ti_market), i.(ti_account_id), i.(ti_symbol)).

Section Engine.
Context (policy : ExecutionPolicy).

Definition fill_price (i : TradeIntent) : float :=
  let direction := if i.(ti_action) ==p BUY then 1%float else (-1)%float in
  (i.(ti_reference_price) * (1 + direction * policy.(ep_slippage_bps) / 10000))%float.
Definition fill_fee (i : TradeIntent) : float :=
  (i.(ti_quantity) * fill_price i * policy.(ep_fee_bps) / 10000)%float.

Definition make_order (decision : RiskDecision) (key : string) (at_ : datetime) : PaperOrder :=
  let intent := decision.(rd_intent) in
  {| po_order_id := stable_id ["paper-order"; key; decision.(rd_decision_id)];
     po_idempotency_key := key;
     po_decision_id := decision.(rd_decision_id);
     po_market := intent.(ti_market);
     po_account_id := intent.(ti_account_id);
     po_symbol := intent.(ti_symbol);
     po_action := intent.(ti_action);
     po_quantity := intent.(ti_quantity);
     po_state := FILLED;
     po_submitted_at := at_ |}.
Definition make_fill (decision : RiskDecision) (key : string) (at_ : datetime) : PaperFill :=
  let order_id := stable_id ["paper-order"; key; decision.(rd_decision_id)] in
  {| pf_fill_id := stable_id ["paper-fill"; order_id; isoformat at_];
     pf_order_id := order_id;
     pf_quantity := decision.(rd_intent).(ti_quantity);
     pf_price := fill_price decision.(rd_intent);
     pf_fee := fill_fee decision.(rd_intent);
     pf_filled_at := at_ |}.

(** [PaperExecutionEngine.execute] *)
Definition execute (decision : RiskDecision) (idempotency_key : string) (executed_at : datetime)
    : M EngineState ExecutionReceipt :=
  _ ← lift (raise_if (str_blank idempotency_key) (ValueError "idempotency_key is required"));
  s ← get_state;
  match s.(eng_receipts) !! idempotency_key with
  | Some cached =>
      _ ← lift (raise_if (cached.(er_order).(po_decision_id) !=p decision.(rd_decision_id))
                 (ValueError "idempotency key is already bound to another decision"));
      mret cached
  | None =>
      _ ← lift (raise_if (negb (approved decision))
                 (PermissionError "paper execution requires an approved risk decision"));
      at_ ← lift (utc executed_at "executed_at");
      let order := make_order decision idempotency_key at_ in
      let fill := make_fill decision idempotency_key at_ in
      let key := intent_key decision.(rd_intent) in
      position ← lift (apply_fill (s.(eng_positions) !! key) decision fill);
      _ ← modify (fun s => {| eng_receipts := s.(eng_receipts);
                              eng_positions := <[key := position]> s.(eng_positions) |});
      let receipt := {| er_order := order; er_fill := fill; er_position := position |} in
      _ ← modify (fun s => {| eng_receipts := <[idempotency_key := receipt]> s.(eng_receipts);
                              eng_positions := s.(eng_positions) |});
      mret receipt
  end.

Definition batch_key (batch_id : string) (d : RiskDecision) : string :=
  batch_id +:+ ":" +:+ d.(rd_decision_id).

(** [PaperExecutionEngine.execute_batch]: every check precedes the first
    fill; an exception from a fill restores both dicts. *)
Definition execute_batch (decisions : list RiskDecision) (batch_id : string) (executed_at : datetime)
    : M EngineState (list ExecutionReceipt) :=
  _ ← lift (raise_if (str_blank batch_id) (ValueError "batch_id is required"));
  _ ← lift (raise_if (existsb (fun d => negb (approved d)) decisions)
             (PermissionError "every batch risk decision must be approved"));
  let keys := batch_key batch_id <$> decisions in
  _ ← lift (raise_if (negb (length keys =? length (fromkeys keys))%nat)
             (ValueError "batch contains duplicate risk decisions"));
  before ← get_state;
  _ ← lift (raise_if (existsb (fun d =>
               match before.(eng_receipts) !! batch_key batch_id d with
               | Some cached => cached.(er_order).(po_decision_id) !=p d.(rd_decision_id)
               | None => false
               end) decisions)
             (ValueError "batch idempotency key is bound to another decision"));
  restoring before (map_each decisions (fun d => execute d (batch_key batch_id d) executed_at)).

(** [PaperExecutionEngine.position] *)
Definition position (market : Market) (account_id symbol : string) (s : EngineState) : option PaperPosition :=
  s.(eng_positions) !! (market, account_id, symbol).
End Engine.

(** ** Effects of the operations *)

Definition receipt_of (policy : ExecutionPolicy) (d : RiskDecision) (key : string) (at_ : datetime)
    (p : PaperPosition) : ExecutionReceipt :=
  {| er_order := make_order d key at_; er_fill := make_fill policy d key at_; er_position := p |}.
Definition committed (policy : ExecutionPolicy) (d : RiskDecision) (key : string) (at_ : datetime)
    (p : PaperPosition) (s : EngineState) : EngineState :=
  {| eng_receipts := <[key := receipt_of policy d key at_ p]> s.(eng_receipts);
     eng_positions := <[intent_key d.(rd_intent) := p]> s.(eng_positions) |}.

(** A new fill: what the fresh branch of [execute] requires and does. *)
Record fresh_fill (policy : ExecutionPolicy) (d : RiskDecision) (key : string) (t : datetime)
    (s s' : EngineState) (r : ExecutionReceipt) : Prop := {
  ff_key : str_blank key = false;
  ff_unused : s.(eng_receipts) !! key = None;
  ff_approved : approved d = true;
  ff_aware : aware t = true;
  ff_applied : apply_fill (s.(eng_positions) !! intent_key d.(rd_intent)) d
                 (make_fill policy d key (at_utc (instant t))) = Ok r.(er_position);
  ff_receipt : r = receipt_of policy d key (at_utc (instant t)) r.(er_position);
  ff_state : s' = committed policy d key (at_utc (instant t)) r.(er_position) s }.

Section EngineLemmas.
Context (policy : ExecutionPolicy).

(** A call either raises and changes nothing, returns the receipt on
    record and changes nothing, or makes one new fill. *)
Lemma execute_cases d key t s :
  (exists e, execute policy d key t s = (Err e, s)) \/
  (exists c, s.(eng_receipts) !! key = Some c /\ c.(er_order).(po_decision_id) = d.(rd_decision_id) /\
     execute policy d key t s = (Ok c, s)) \/
  (exists r s', execute policy d key t s = (Ok r, s') /\ fresh_fill policy d key t s s' r).
Proof.
  unfold execute, mbind, M_bind, get_state, lift, modify, mret, M_ret.
  destruct (str_blank key) eqn:Hb; simpl; [by left; eexists|].
  destruct (_ !! key) as [c|] eqn:Ec.
  - destruct (_ !=p _) eqn:En; simpl; [by left; eexists|]. rewrite py_ne_false in En. right. left. eauto.
  - destruct (approved d) eqn:Ea; simpl; [|by left; eexists].
    destruct (utc t "executed_at") as [at_|e] eqn:Et; [|by left; eexists].
    destruct (apply_fill _ d _) as [p|e] eqn:Ep; [|by left; eexists].
    right. right. apply utc_ok in Et as [Haw ->]. do 2 eexists. split; [done|]. by split.
Qed.

Lemma execute_fresh d key t s r s' :
  execute policy d key t s = (Ok r, s') ->
  (s' = s /\ s.(eng_receipts) !! key = Some r /\ r.(er_order).(po_decision_id) = d.(rd_decision_id)) \/
  fresh_fill policy d key t s s' r.
Proof.
  intros H. destruct (execute_cases d key t s) as [(e & He)|[(c & Hc & Hd & He)|(r1 & s1 & He & Hf)]];
    rewrite He in H; [done| |]; injection H as <- <-; [by left | by right].
Qed.

Lemma execute_err d key t s e s' : execute policy d key t s = (Err e, s') -> s' = s.
Proof.
  intros H. destruct (execute_cases d key t s) as [(e1 & He)|[(c & Hc & Hd & He)|(r1 & s1 & He & Hf)]];
    rewrite He in H; [|done..]. by injection H as _ <-.
Qed.

Lemma fresh_fill_receipt d key t s s' r :
  fresh_fill policy d key t s s' r ->
  s'.(eng_receipts) !! key = Some r /\ r.(er_order).(po_decision_id) = d.(rd_decision_id).
Proof.
  intros [_ _ _ _ _ Hr ->]. simpl. rewrite dict_lookup_insert_eq, <-Hr. by rewrite Hr.
Qed.

(** A receipt on record answers every later call with its key. *)
Lemma execute_replay d key t s r :
  s.(eng_receipts) !! key = Some r -> str_blank key = false ->
  execute policy d key t s =
    (if r.(er_order).(po_decision_id) !=p d.(rd_decision_id)
     then Err (ValueError "idempotency key is already bound to another decision") else Ok r, s).
Proof.
  intros Hr Hb. unfold execute, mbind, M_bind, get_state, lift, mret, M_ret. rewrite Hb. simpl.
  rewrite Hr. by destruct (_ !=p _).
Qed.
End EngineLemmas.

(** ** The position invariant *)

Record position_ok (k : position_key) (p : PaperPosition) : Prop := {
  pk_key : k = (p.(pos_market), p.(pos_account_id), p.(pos_symbol));
  pk_number : fnan p.(pos_signed_quantity) = false;
  pk_closed : p.(pos_state) = CLOSED <-> (p.(pos_signed_quantity) =? 0)%float = true;
  pk_closed_at : p.(pos_state) = CLOSED <-> is_Some p.(pos_closed_at);
  pk_decisions : p.(pos_decision_ids) <> [];
  pk_strategies : NoDup p.(pos_strategy_keys);
  pk_approvals : NoDup p.(pos_approval_ids) }.

Lemma fill_delta policy d key at_ :
  (if (rd_intent d).(ti_action) ==p BUY then (make_fill policy d key at_).(pf_quantity)
   else (- (make_fill policy d key at_).(pf_quantity))%float) = order_delta (rd_intent d).
Proof. done. Qed.

Lemma open_position_ok policy d key at_ :
  TradeIntent_post_init (rd_intent d) = Ok tt ->
  position_ok (intent_key (rd_intent d)) (open_position d (make_fill policy d key at_)).
Proof.
  intros Hi. destruct (order_delta_val _ Hi) as (Hf & _ & Hnz).
  split; simpl; fold (order_delta (rd_intent d)); try done.
  - by apply isfinite_nan.
  - split; [done|]. intros (_ & _ & H)%feqb_iff. by rewrite fval_0 in H.
  - apply NoDup_singleton.
  - apply NoDup_singleton.
Qed.

(** A fill of a well-formed decision always applies, and keeps the invariant. *)
Lemma apply_fill_ok policy d key at_ cur :
  TradeIntent_post_init (rd_intent d) = Ok tt ->
  (forall p, cur = Some p -> position_ok (intent_key (rd_intent d)) p) ->
  exists p, apply_fill cur d (make_fill policy d key at_) = Ok p /\
    position_ok (intent_key (rd_intent d)) p.
Proof.
  intros Hi Hcur. destruct cur as [p|]; simpl.
  2: { eexists. split; [done|]. by apply open_position_ok. }
  destruct (pos_state p) eqn:Es.
  2: { eexists. split; [done|]. by apply open_position_ok. }
  destruct (Hcur p eq_refl) as [Hk Hn Hc Hca Hd Hs Ha]. unfold update_position.
  cbv zeta. rewrite fill_delta. destruct (order_delta_val _ Hi) as (Hf & _ & Hnz).
  set (delta := order_delta (rd_intent d)) in *. set (old := pos_signed_quantity p) in *.
  assert (He : exists ec, fill_economics old delta (pos_average_entry_price p) (pos_realized_pnl p)
                            (pf_price (make_fill policy d key at_)) = Ok ec).
  { unfold fill_economics. destruct (fgt (old * delta) 0) eqn:Ed; [|eauto].
    unfold fdiv. assert ((abs (old + delta) =? 0)%float = false) as ->; [|simpl; eauto].
    pose proof (fadd_same_side old delta Hn Hf Ed) as Hz.
    apply feqb_false in Hz; [|by apply fnan_add_finite|done].
    apply feqb_false; [rewrite fnan_abs; by apply fnan_add_finite | done|].
    rewrite fval_abs. rewrite fval_0 in *. lia. }
  destruct He as [ec ->]. simpl. eexists. split; [done|].
  split; simpl; try done.
  - by apply fnan_add_finite.
  - destruct (old + delta =? 0)%float; done.
  - destruct (old + delta =? 0)%float; [by split | split; [done | by intros []]].
  - by destruct (pos_decision_ids p).
  - apply fromkeys_NoDup.
  - apply fromkeys_NoDup.
Qed.

(** ** Reachable engine states *)

Inductive EngineOp :=
| OpExecute (d : RiskDecision) (key : string) (t : datetime)
| OpExecuteBatch (ds : list RiskDecision) (batch_id : string) (t : datetime).

(** The decisions a program can hold carry intents their constructor checked. *)
Definition op_decisions (op : EngineOp) : list RiskDecision :=
  match op with OpExecute d _ _ => [d] | OpExecuteBatch ds _ _ => ds end.
Definition op_wf (op : EngineOp) : Prop :=
  Forall (fun d => TradeIntent_post_init d.(rd_intent) = Ok tt) (op_decisions op).

Definition engine_run (policy : ExecutionPolicy) (op : EngineOp) (s : EngineState) : EngineState :=
  match op with
  | OpExecute d key t => (execute policy d key t s).2
  | OpExecuteBatch ds batch_id t => (execute_batch policy ds batch_id t s).2
  end.

Inductive engine_steps (policy : ExecutionPolicy) (s : EngineState) : EngineState -> Prop :=
| engine_refl : engine_steps policy s s
| engine_step s1 op : engine_steps policy s s1 -> op_wf op -> engine_steps policy s (engine_run policy op s1).

(** Every operation is a sequence of new fills. *)
Inductive fills (policy : ExecutionPolicy) (ok : RiskDecision -> Prop) (s : EngineState) : EngineState -> Prop :=
| fills_refl : fills policy ok s s
| fills_step s1 s2 d key t r : fills policy ok s s1 -> ok d ->
    fresh_fill policy d key t s1 s2 r -> fills policy ok s s2.

Section Fills.
Context (policy : ExecutionPolicy) (ok : RiskDecision -> Prop).

Lemma fills_trans s1 s2 s3 : fills policy ok s1 s2 -> fills policy ok s2 s3 -> fills policy ok s1 s3.
Proof. intros H1. induction 1; [done | by econstructor]. Qed.

Lemma execute_fills d key t s : ok d -> fills policy ok s (execute policy d key t s).2.
Proof.
  intros Hd. destruct (execute_cases policy d key t s) as [(e & He)|[(c & Hc & _ & He)|(r & s1 & He & Hf)]];
    rewrite He; simpl; [constructor..|]. econstructor; [constructor | exact Hd | exact Hf].
Qed.

Lemma map_each_fills ds batch_id t s :
  Forall ok ds ->
  fills policy ok s (map_each ds (fun d => execute policy d (batch_key batch_id d) t) s).2.
Proof.
  revert s; induction ds as [|d ds IH]; intros s Hds; [constructor|].
  apply Forall_cons in Hds as [Hd Hds]. simpl. unfold mbind at 1, M_bind at 1.
  pose proof (execute_fills d (batch_key batch_id d) t s Hd) as H1.
  destruct (execute policy d (batch_key batch_id d) t s) as [[r|e] s1]; simpl in *; [|done].
  unfold mbind, M_bind. specialize (IH s1 Hds).
  destruct (map_each ds _ s1) as [[rs|e] s2]; simpl in *; by eapply fills_trans.
Qed.

(** What a batch call does, whatever its outcome. *)
Lemma execute_batch_cases ds batch_id t s :
  (exists e, execute_batch policy ds batch_id t s = (Err e, s)) \/
  (exists rs s', execute_batch policy ds batch_id t s = (Ok rs, s') /\
     str_blank batch_id = false /\ Forall (fun d => approved d = true) ds /\
     NoDup (batch_key batch_id <$> ds) /\
     map_each ds (fun d => execute policy d (batch_key batch_id d) t) s = (Ok rs, s')).
Proof.
  unfold execute_batch. unfold mbind, M_bind, get_state, lift, restoring.
  destruct (str_blank batch_id) eqn:Hb; simpl; [by left; eexists|].
  destruct (existsb _ ds) eqn:Hap; simpl; [by left; eexists|].
  destruct (negb _) eqn:Hdup; simpl; [by left; eexists|].
  destruct (existsb _ ds) eqn:Hc in |- *; simpl; [by left; eexists|].
  destruct (map_each ds _ s) as [[rs|e] s1] eqn:Em; [|by left; eexists].
  right. exists rs, s1. split; [done|]. split; [done|]. split; [|split; [|done]].
  - apply existsb_false_Forall in Hap. eapply Forall_impl; [exact Hap|].
    intros d. apply negb_false_iff.
  - apply negb_false_iff, Nat.eqb_eq in Hdup. by apply fromkeys_length_NoDup.
Qed.
End Fills.

Section Reachable.
Context (policy : ExecutionPolicy).

Definition decision_wf (d : RiskDecision) : Prop := TradeIntent_post_init d.(rd_intent) = Ok tt.

Lemma engine_run_fills op s : op_wf op ->
  fills policy (fun d => decision_wf d /\ d ∈ op_decisions op) s (engine_run policy op s).
Proof.
  unfold op_wf. intros Hop. destruct op as [d key t|ds b t]; simpl in *.
  - apply Forall_cons in Hop as [Hop _]. apply execute_fills. split; [exact Hop | by left].
  - destruct (execute_batch_cases policy ds b t s)
      as [(e & ->)|(rs & s' & -> & _ & _ & _ & Hm)]; [constructor|]. simpl.
    change s' with (Ok rs, s').2. rewrite <-Hm. apply map_each_fills.
    rewrite Forall_forall in Hop |- *. intros d Hd. split; [by apply Hop | done].
Qed.

Lemma fills_weaken (ok ok' : RiskDecision -> Prop) s s' :
  (forall d, ok d -> ok' d) -> fills policy ok s s' -> fills policy ok' s s'.
Proof. intros H. induction 1; [constructor | econstructor; eauto]. Qed.

Lemma engine_steps_fills s s' : engine_steps policy s s' -> fills policy decision_wf s s'.
Proof.
  induction 1 as [|s1 op _ IH Hop]; [constructor|]. eapply fills_trans; [exact IH|].
  eapply fills_weaken, engine_run_fills; [|done]. by intros d [? _].
Qed.

(** Receipts are never rewritten. *)
Lemma fills_receipts ok s s' :
  fills policy ok s s' -> dict_extends s.(eng_receipts) s'.(eng_receipts).
Proof.
  induction 1 as [|s1 s2 d key t r _ IH _ Hf]; [done|]. etransitivity; [exact IH|].
  destruct Hf as [_ Hu _ _ _ _ ->]. simpl. apply dict_extends_insert.
  intros w Hw. by rewrite Hu in Hw.
Qed.

(** A position changes only under a fill for its own market, account and symbol. *)
Lemma fills_positions ok s s' k :
  fills policy ok s s' -> (forall d, ok d -> intent_key d.(rd_intent) <> k) ->
  s'.(eng_positions) !! k = s.(eng_positions) !! k.
Proof.
  induction 1 as [|s1 s2 d key t r _ IH Hd Hf]; [done|]. intros Hk.
  destruct Hf as [_ _ _ _ _ _ ->]. simpl. rewrite dict_lookup_insert_ne by auto. by apply IH.
Qed.

Definition positions_ok (s : EngineState) : Prop :=
  forall k p, s.(eng_positions) !! k = Some p -> position_ok k p.

Lemma fills_positions_ok s s' : fills policy decision_wf s s' -> positions_ok s -> positions_ok s'.
Proof.
  induction 1 as [|s1 s2 d key t r _ IH Hd Hf]; [done|]. intros Hs k p.
  destruct Hf as [_ _ _ _ Ha _ ->]. simpl. rewrite dict_lookup_insert.
  case_decide as E; [|by apply IH]. intros [= <-]. subst k.
  destruct (apply_fill_ok policy d key (at_utc (instant t))
    (s1.(eng_positions) !! intent_key (rd_intent d)) Hd) as (p & Hp & Hk); [by apply IH|].
  rewrite Ha in Hp. by injection Hp as ->.
Qed.

Lemma reachable_positions_ok s : engine_steps policy empty_engine s -> positions_ok s.
Proof.
  intros H. eapply fills_positions_ok; [by apply engine_steps_fills|]. done.
Qed.

(** From a consistent state a fresh, approved, well-formed decision fills. *)
Lemma execute_succeeds d key t s :
  positions_ok s -> decision_wf d -> approved d = true -> str_blank key = false ->
  aware t = true -> s.(eng_receipts) !! key = None ->
  exists r s', execute policy d key t s = (Ok r, s') /\ fresh_fill policy d key t s s' r.
Proof.
  intros Hs Hd Ha Hb Hw Hu.
  destruct (apply_fill_ok policy d key (at_utc (instant t))
    (s.(eng_positions) !! intent_key (rd_intent d)) Hd) as (p & Hp & _); [by apply Hs|].
  exists (receipt_of policy d key (at_utc (instant t)) p), (committed policy d key (at_utc (instant t)) p s).
  split; [|by split].
  unfold execute, mbind, M_bind, get_state, lift, modify, mret, M_ret. rewrite Hb. simpl.
  rewrite Hu, Ha. simpl. rewrite (proj2 (utc_ok t "executed_at" _) (conj Hw eq_refl)). simpl.
  by rewrite Hp.
Qed.
End Reachable.

(** ** The abstract ledger: an append-only journal of fills *)

Record JournalEntry := {
  je_decision : RiskDecision;
  je_key : string;
  je_at : datetime }.
Definition je_position_key (e : JournalEntry) : position_key := intent_key e.(je_decision).(rd_intent).

Section Journal.
Context (policy : ExecutionPolicy).

Definition journal_apply (k : position_key) (cur : option PaperPosition) (e : JournalEntry)
    : option PaperPosition :=
  if decide (je_position_key e = k) then
    match apply_fill cur e.(je_decision) (make_fill policy e.(je_decision) e.(je_key) e.(je_at)) with
    | Ok p => Some p
    | Err _ => cur
    end
  else cur.

(** The position under [k] is the replay of the journal's fills for [k]. *)
Definition journal_position (j : list JournalEntry) (k : position_key) : option PaperPosition :=
  foldl (journal_apply k) None j.

Definition journal_receipt (j : list JournalEntry) (key : string) (r : ExecutionReceipt) : Prop :=
  exists pre e post, j = pre ++ e :: post /\ e.(je_key) = key /\
    journal_position (pre ++ [e]) (je_position_key e) = Some r.(er_position) /\
    r = receipt_of policy e.(je_decision) key e.(je_at) r.(er_position).

Record refines (s : EngineState) (j : list JournalEntry) : Prop := {
  rf_positions : forall k, s.(eng_positions) !! k = journal_position j k;
  rf_receipts : forall key r, s.(eng_receipts) !! key = Some r <-> journal_receipt j key r;
  rf_keys : NoDup (je_key <$> j);
  rf_recorded : forall e, e ∈ j -> is_Some (s.(eng_receipts) !! e.(je_key));
  rf_approved : Forall (fun e => approved e.(je_decision) = true) j }.

Lemma refines_empty : refines empty_engine [].
Proof.
  split; [done| |constructor|by intros e ?%elem_of_nil|constructor].
  intros key r. split; [done|]. by intros ([|] & ? & ? & [=] & _).
Qed.

Lemma journal_position_snoc j e k :
  journal_position (j ++ [e]) k = journal_apply k (journal_position j k) e.
Proof. unfold journal_position. by rewrite foldl_app. Qed.

Lemma journal_receipt_snoc j e key r :
  journal_receipt (j ++ [e]) key r <->
  journal_receipt j key r \/
  (e.(je_key) = key /\ journal_position (j ++ [e]) (je_position_key e) = Some r.(er_position) /\
   r = receipt_of policy e.(je_decision) key e.(je_at) r.(er_position)).
Proof.
  split.
  - intros (pre & e1 & post & Hj & Hrest). destruct post as [|e2 post _] using rev_ind.
    + apply app_inj_tail in Hj as [<- <-]. by right.
    + left. exists pre, e1, post. split; [|done].
      by rewrite app_comm_cons, (assoc_L app) in Hj; apply app_inj_tail in Hj as [-> _].
  - intros [(pre & e1 & post & -> & Hrest)|Hrest]; [|by exists j, e, []].
    exists pre, e1, (post ++ [e]). split; [|done]. by rewrite <-(assoc_L app).
Qed.

Lemma journal_receipt_keys j key r : journal_receipt j key r -> key ∈ je_key <$> j.
Proof. intros (pre & e & post & -> & <- & _). rewrite fmap_app. set_solver. Qed.

(** A new fill appends one entry. *)
Lemma fresh_fill_refines d key t s s' r j :
  refines s j -> fresh_fill policy d key t s s' r ->
  refines s' (j ++ [{| je_decision := d; je_key := key; je_at := at_utc (instant t) |}]).
Proof.
  intros [Hp Hr Hk Hrec Ha] [_ Hu Hap _ Happ Hreq ->].
  set (e := {| je_decision := d; je_key := key; je_at := at_utc (instant t) |}).
  assert (Hnew : journal_position (j ++ [e]) (je_position_key e) = Some (er_position r)).
  { rewrite journal_position_snoc. unfold journal_apply. rewrite decide_True by done.
    rewrite <-Hp. unfold je_position_key. simpl. by rewrite Happ. }
  assert (Hfresh : key ∉ je_key <$> j).
  { intros (e1 & Hk1 & He1)%list_elem_of_fmap. destruct (Hrec e1 He1) as [w Hw]. congruence. }
  split.
  - intros k. simpl. rewrite dict_lookup_insert. case_decide as E; [by subst k; rewrite <-Hnew|].
    rewrite journal_position_snoc. unfold journal_apply. by rewrite decide_False.
  - intros key' r'. simpl. rewrite dict_lookup_insert, journal_receipt_snoc. case_decide as E.
    + subst key'. split; [intros [= <-]; right; by rewrite Hnew|].
      intros [Hj|(_ & Hpos & Hr')]; [by apply journal_receipt_keys in Hj|].
      rewrite Hnew in Hpos. injection Hpos as Hpos. rewrite Hr'. simpl. by rewrite Hpos.
    + rewrite Hr. split; [by left | by intros [?|[? _]]].
  - rewrite fmap_app. apply NoDup_app. split; [done|]. split; [|apply NoDup_singleton].
    intros x Hx. simpl. rewrite list_elem_of_singleton. by intros ->.
  - intros e1 [He1|He1]%elem_of_app; simpl; rewrite dict_lookup_insert; case_decide; eauto.
    apply list_elem_of_singleton in He1 as ->. done.
  - apply Forall_app. by split; [|apply Forall_singleton].
Qed.

Lemma fills_refines (ok : RiskDecision -> Prop) s s' j :
  fills policy ok s s' -> refines s j ->
  exists j', refines s' (j ++ j') /\ Forall (fun e => ok e.(je_decision)) j'.
Proof.
  induction 1 as [|s1 s2 d key t r _ IH Hd Hf]; intros Hs.
  - exists []. rewrite app_nil_r. by split; [|constructor].
  - destruct (IH Hs) as (j' & Hj & Hall). eexists (j' ++ [_]). rewrite (assoc_L app).
    split; [eapply fresh_fill_refines; [exact Hj | exact Hf]|].
    apply Forall_app. by split; [|apply Forall_singleton].
Qed.
End Journal.

(** ** Theorems *)

(** C2. The engine implements an append-only journal: in every state reachable
    by [execute] and [execute_batch] each position is the replay of the
    journal's fills for its market, account and symbol, the receipts are
    exactly the journal's entries under distinct keys, every entry was risk
    approved, and the next operation only appends entries for decisions it
    was given. *)
Theorem engine_refines_journal policy s op :
  engine_steps policy empty_engine s -> op_wf op ->
  exists j j', refines policy s j /\ refines policy (engine_run policy op s) (j ++ j') /\
    Forall (fun e => e.(je_decision) ∈ op_decisions op) j'.
Proof.
  intros Hs%engine_steps_fills Hop.
  destruct (fills_refines policy _ _ _ [] Hs (refines_empty policy)) as (j & Hj & _).
  destruct (fills_refines policy _ _ _ j (engine_run_fills policy op s Hop) Hj) as (j' & Hj' & Hall).
  exists j, j'. split; [done|]. split; [done|]. eapply Forall_impl; [exact Hall|]. by intros e [_ ?].
Qed.

(** Idempotency for ever: once [execute] returned a receipt under a key,
    every later call with that key and decision, at any time and after any
    further operations, returns that same receipt and changes nothing, and
    a call with the key and another decision raises and changes nothing. *)
Theorem execute_idempotent policy d key t s r s' s'' d' t' :
  execute policy d key t s = (Ok r, s') ->
  engine_steps policy s' s'' ->
  execute policy d' key t' s'' =
    (if decide (d'.(rd_decision_id) = d.(rd_decision_id)) then Ok r
     else Err (ValueError "idempotency key is already bound to another decision"), s'').
Proof.
  intros He Hs%engine_steps_fills%fills_receipts.
  assert (Hr : s'.(eng_receipts) !! key = Some r /\ r.(er_order).(po_decision_id) = d.(rd_decision_id)).
  { destruct (execute_fresh _ _ _ _ _ _ _ He) as [(-> & Hr & Hd)|Hf]; [done|].
    by eapply fresh_fill_receipt. }
  assert (Hb : str_blank key = false).
  { destruct (str_blank key) eqn:E; [|done]. unfold execute, mbind, M_bind, lift in He.
    by rewrite E in He. }
  destruct Hr as [Hr Hd]. rewrite (execute_replay policy d' key t' s'' r); [|by apply Hs|done].
  rewrite Hd. destruct (_ !=p _) eqn:E.
  - rewrite py_ne_true in E. by rewrite decide_False.
  - rewrite py_ne_false in E. by rewrite decide_True.
Qed.

(** In every reachable state a position sits under its own market, account
    and symbol, its quantity is a number, it is CLOSED exactly when flat and
    exactly when it has a close time, and its lineage lists decisions and
    names every strategy and approval once. *)
Theorem reachable_positions_consistent policy s k p :
  engine_steps policy empty_engine s ->
  position k.1.1 k.1.2 k.2 s = Some p -> position_ok k p.
Proof. intros Hs. destruct k as [[m a] y]. apply (reachable_positions_ok policy s Hs). Qed.

(** Progress: in every reachable state a risk-approved decision on a
    well-formed intent, with a non-blank unused key and an aware time, is
    filled: no arithmetic exception can escape, the receipt is recorded
    under the key, the fill is of the intent's quantity, and the position of
    every other market, account or symbol is untouched. *)
Theorem execute_progress policy s d key t :
  engine_steps policy empty_engine s ->
  TradeIntent_post_init d.(rd_intent) = Ok tt -> approved d = true ->
  str_blank key = false -> aware t = true -> s.(eng_receipts) !! key = None ->
  exists r s', execute policy d key t s = (Ok r, s') /\
    s'.(eng_receipts) !! key = Some r /\
    r.(er_fill).(pf_quantity) = d.(rd_intent).(ti_quantity) /\
    s'.(eng_positions) !! intent_key d.(rd_intent) = Some r.(er_position) /\
    (forall k, k <> intent_key d.(rd_intent) -> s'.(eng_positions) !! k = s.(eng_positions) !! k).
Proof.
  intros Hs%reachable_positions_ok Hd Ha Hb Hw Hu.
  destruct (execute_succeeds policy d key t s) as (r & s' & He & Hf); [done..|].
  exists r, s'. split; [done|].
  destruct (fresh_fill_receipt _ _ _ _ _ _ _ Hf) as [Hr _].
  destruct Hf as [_ _ _ _ _ Hreq ->]. split; [done|]. split; [by rewrite Hreq|].
  simpl. split; [apply dict_lookup_insert_eq|]. intros k Hk. by apply dict_lookup_insert_ne.
Qed.

(** The receipts a batch returned are on record, one per decision. *)
Lemma map_each_receipts policy ds b t s rs s' :
  map_each ds (fun d => execute policy d (batch_key b d) t) s = (Ok rs, s') ->
  Forall2 (fun d r => s'.(eng_receipts) !! batch_key b d = Some r /\
    r.(er_order).(po_decision_id) = d.(rd_decision_id)) ds rs.
Proof.
  revert s rs; induction ds as [|d ds IH]; intros s rs; simpl.
  - intros [= <- <-]. constructor.
  - intros (r & s1 & He & (rs' & s2 & Hm & [= <- <-])%M_bind_ok)%M_bind_ok.
    constructor; [|by eapply IH].
    assert (Hr : s1.(eng_receipts) !! batch_key b d = Some r /\ r.(er_order).(po_decision_id) = d.(rd_decision_id)).
    { destruct (execute_fresh _ _ _ _ _ _ _ He) as [(-> & Hr & Hd)|Hf]; [done|].
      by eapply fresh_fill_receipt. }
    destruct Hr as [Hr Hd]. split; [|done].
    pose proof (map_each_fills policy (fun _ => True) ds b t s1) as Hf. rewrite Hm in Hf.
    eapply fills_receipts; [|exact Hr]. apply Hf. by apply Forall_true.
Qed.

(** C8. A batch is all or nothing: either it raises and receipts and
    positions are exactly as before, or every decision was risk approved,
    each has its receipt recorded under its own batch key, no earlier
    receipt changed, and no position outside the batch's keys moved. *)
Theorem execute_batch_atomic policy ds batch_id t s :
  match execute_batch policy ds batch_id t s with
  | (Err _, s') => s' = s
  | (Ok rs, s') =>
      Forall (fun d => approved d = true) ds /\ NoDup (batch_key batch_id <$> ds) /\
      Forall2 (fun d r => s'.(eng_receipts) !! batch_key batch_id d = Some r /\
        r.(er_order).(po_decision_id) = d.(rd_decision_id)) ds rs /\
      dict_extends s.(eng_receipts) s'.(eng_receipts) /\
      (forall k, k ∉ (intent_key ∘ rd_intent <$> ds) -> s'.(eng_positions) !! k = s.(eng_positions) !! k)
  end.
Proof.
  destruct (execute_batch_cases policy ds batch_id t s) as [(e & ->)|(rs & s' & -> & _ & Ha & Hn & Hm)]; [done|].
  split; [done|]. split; [done|]. split; [by eapply map_each_receipts|].
  pose proof (map_each_fills policy (fun d => d ∈ ds) ds batch_id t s) as Hf. rewrite Hm in Hf.
  assert (Hall : Forall (fun d => d ∈ ds) ds) by (by apply Forall_forall).
  split; [by eapply fills_receipts, Hf|]. intros k Hk. eapply fills_positions; [by apply Hf|].
  intros d Hd Heq. apply Hk. apply list_elem_of_fmap. by exists d.
Qed.

(** Progress of a batch: from a reachable state, approved decisions on
    well-formed intents with distinct unused batch keys are all filled. *)
Theorem execute_batch_progress policy ds batch_id t s :
  engine_steps policy empty_engine s ->
  Forall (fun d => TradeIntent_post_init d.(rd_intent) = Ok tt /\ approved d = true /\
    s.(eng_receipts) !! batch_key batch_id d = None) ds ->
  NoDup (batch_key batch_id <$> ds) ->
  str_blank batch_id = false -> aware t = true ->
  exists rs s', execute_batch policy ds batch_id t s = (Ok rs, s') /\ length rs = length ds.
Proof.
  intros Hs%reachable_positions_ok Hall Hn Hb Hw.
  assert (Hblank : forall x, str_blank (batch_id +:+ x) = false).
  { intros x. destruct (str_blank (batch_id +:+ x)) eqn:E; [|done].
    by rewrite (str_blank_app _ _ E) in Hb. }
  assert (Hm : exists rs s', map_each ds (fun d => execute policy d (batch_key batch_id d) t) s = (Ok rs, s')
    /\ length rs = length ds).
  { clear Hb. revert s Hs Hall Hn. induction ds as [|d ds IH]; intros s Hs Hall Hn; simpl; [by eexists _, _|].
    apply Forall_cons in Hall as [(Hd & Ha & Hu) Hall]. apply NoDup_cons in Hn as [Hnin Hn].
    destruct (execute_succeeds policy d (batch_key batch_id d) t s) as (r & s1 & He & Hf); [try done..|].
    { apply Hblank. }
    destruct (IH s1) as (rs & s2 & Hm & Hlen); [..|done|].
    - eapply fills_positions_ok; [|exact Hs]. econstructor; [constructor | exact Hd | exact Hf].
    - destruct Hf as [_ _ _ _ _ _ ->]. rewrite Forall_forall in Hall |- *. intros d' Hd'.
      destruct (Hall d' Hd') as (? & ? & Hu'). split; [done|]. split; [done|]. simpl.
      rewrite dict_lookup_insert_ne; [done|]. intros Heq. apply Hnin. rewrite Heq.
      apply list_elem_of_fmap. by exists d'.
    - exists (r :: rs), s2. unfold mbind, M_bind. rewrite He, Hm. split; [done|]. simpl. by rewrite Hlen. }
  destruct Hm as (rs & s' & Hm & Hlen). exists rs, s'. split; [|done].
  unfold execute_batch, mbind, M_bind, lift, get_state, restoring. rewrite Hb. simpl.
  rewrite (proj2 (existsb_false_Forall _ ds)); [|eapply Forall_impl; [exact Hall|]; by intros d (_ & -> & _)].
  rewrite fromkeys_id, Nat.eqb_refl by done. simpl.
  rewrite (proj2 (existsb_false_Forall _ ds)); [|eapply Forall_impl; [exact Hall|]; by intros d (_ & _ & ->)].
  simpl. by rewrite Hm.
Qed.

(** ** A concrete run *)

Module ExecutionExample.
Import RegistryExample RiskExample.

Definition policy : ExecutionPolicy := {| ep_slippage_bps := 2.5; ep_fee_bps := 3 |}.
Definition decision (id : string) (i : TradeIntent) : RiskDecision := {|
  rd_decision_id := id; rd_intent := i; rd_portfolio_snapshot_id := "snap-1";
  rd_state := RISK_APPROVED; rd_rejection_reasons := []; rd_evaluated_at := now; rd_limits := limits |}.
Definition buy : RiskDecision := decision "decision-1" intent.
Definition sell : RiskDecision := decision "decision-2" exit_intent.
Definition bought : EngineState := engine_run policy (OpExecute buy "key-1" now) empty_engine.

Lemma wf_ops : op_wf (OpExecute buy "key-1" now) /\ op_wf (OpExecuteBatch [sell] "batch-1" now).
Proof. split; repeat constructor. Qed.
Lemma bought_reachable : engine_steps policy empty_engine bought.
Proof. apply engine_step; [apply engine_refl | apply wf_ops]. Qed.

Lemma engine_refines_journal_witness :
  exists j, refines policy (engine_run policy (OpExecuteBatch [sell] "batch-1" now) bought) j.
Proof.
  destruct (engine_refines_journal policy bought (OpExecuteBatch [sell] "batch-1" now)
    bought_reachable (proj2 wf_ops)) as (j & j' & _ & Hj & _).
  exists (j ++ j'). exact Hj.
Defined.

Lemma execute_idempotent_witness :
  exists r, execute policy buy "key-1" now bought = (Ok r, bought).
Proof.
  assert (H : exists r, execute policy buy "key-1" now empty_engine = (Ok r, bought))
    by (vm_compute; eexists; reflexivity).
  destruct H as [r Hr]. exists r.
  apply (execute_idempotent policy buy "key-1" now empty_engine r bought bought buy now Hr).
  apply engine_refl.
Defined.

Lemma reachable_positions_consistent_witness :
  exists p, position NSE "paper" "RELIANCE" bought = Some p /\
    position_ok (NSE, "paper", "RELIANCE") p.
Proof.
  assert (H : exists p, position NSE "paper" "RELIANCE" bought = Some p)
    by (vm_compute; eexists; reflexivity).
  destruct H as [p Hp]. exists p. split; [exact Hp|].
  apply (reachable_positions_consistent policy bought (NSE, "paper", "RELIANCE") p bought_reachable Hp).
Defined.

Lemma execute_progress_witness :
  exists r s', execute policy sell "key-2" now bought = (Ok r, s').
Proof.
  destruct (execute_progress policy bought sell "key-2" now bought_reachable) as (r & s' & H & _);
    [vm_compute; reflexivity..|].
  exists r, s'. exact H.
Defined.

Lemma execute_batch_progress_witness :
  exists rs s', execute_batch policy [sell; decision "decision-3" intent] "batch-1" now bought = (Ok rs, s')
    /\ length rs = 2.
Proof.
  apply (execute_batch_progress policy [sell; decision "decision-3" intent] "batch-1" now bought bought_reachable).
  - repeat constructor.
  - vm_compute. repeat constructor; set_solver.
  - vm_compute. reflexivity.
  - vm_compute. reflexivity.
Defined.

End ExecutionExample.
