(* ===== verification/Outcomes.v ===== *)
(** * Outcomes and offline learning (src/nanodelta/outcomes/learning.py)

    Attribution of closed positions, recorded once per position, and the
    bounded learning summary over the outcomes of one strategy. *)

From Stdlib Require Import ZArith Floats.
From stdpp Require Import prelude strings numbers list sorting.
From S2P Require Import Prelude PyData PyFloat FloatTheory PyText Sha256 PyTime Contracts Registry Risk Execution.

Record Outcome := {
  oc_outcome_id : string;
  oc_position_id : string;
  oc_market : Market;
  oc_account_id : string;
  oc_symbol : string;
  oc_opened_at : datetime;
  oc_closed_at : datetime;
  oc_gross_pnl : float;
  oc_total_fees : float;
  oc_net_pnl : float;
  oc_return_on_allocated_capital : float;
  oc_decision_ids : list string;
  oc_approval_ids : list string;
  oc_gold_snapshot_ids : list string;
  oc_agent_evidence_ids : list string;
  oc_strategy_identity : StrategyIdentity;
  oc_recorded_at : datetime }.
#[export] Instance py_eq_Outcome : PyEq Outcome := fun a b =>
  (a.(oc_outcome_id) ==p b.(oc_outcome_id)) && (a.(oc_position_id) ==p b.(oc_position_id)) &&
  (a.(oc_market) ==p b.(oc_market)) && (a.(oc_account_id) ==p b.(oc_account_id)) &&
  (a.(oc_symbol) ==p b.(oc_symbol)) && (a.(oc_opened_at) ==p b.(oc_opened_at)) &&
  (a.(oc_closed_at) ==p b.(oc_closed_at)) && (a.(oc_gross_pnl) ==p b.(oc_gross_pnl)) &&
  (a.(oc_total_fees) ==p b.(oc_total_fees)) && (a.(oc_net_pnl) ==p b.(oc_net_pnl)) &&
  (a.(oc_return_on_allocated_capital) ==p b.(oc_return_on_allocated_capital)) &&
  (a.(oc_decision_ids) ==p b.(oc_decision_ids)) && (a.(oc_approval_ids) ==p b.(oc_approval_ids)) &&
  (a.(oc_gold_snapshot_ids) ==p b.(oc_gold_snapshot_ids)) &&
  (a.(oc_agent_evidence_ids) ==p b.(oc_agent_evidence_ids)) &&
  (a.(oc_strategy_identity) ==p b.(oc_strategy_identity)) && (a.(oc_recorded_at) ==p b.(oc_recorded_at)).

(** [math.isclose(a, b, rel_tol=rel_tol)] *)
Definition isclose (a b rel_tol : float) : bool :=
  if (a =? b)%float then true
  else if is_infinity a || is_infinity b then false
  else
    let diff := abs (b - a)%float in
    (diff <=? abs (rel_tol * b))%float || (diff <=? abs (rel_tol * a))%float || (diff <=? 0)%float.

(** ** OutcomeRecorder: outcomes by position identity *)

Definition OutcomeRecorder : Type := dict string Outcome.

Definition outcome_of (p : PaperPosition) (closed_at : datetime) (identity : StrategyIdentity)
    (return_on_capital : float) (recorded_at : datetime) : Outcome := {|
  oc_outcome_id := stable_id ["outcome"; p.(pos_position_id)];
  oc_position_id := p.(pos_position_id);
  oc_market := p.(pos_market);
  oc_account_id := p.(pos_account_id);
  oc_symbol := p.(pos_symbol);
  oc_opened_at := p.(pos_opened_at);
  oc_closed_at := closed_at;
  oc_gross_pnl := p.(pos_realized_pnl);
  oc_total_fees := p.(pos_total_fees);
  oc_net_pnl := (p.(pos_realized_pnl) - p.(pos_total_fees))%float;
  oc_return_on_allocated_capital := return_on_capital;
  oc_decision_ids := p.(pos_decision_ids);
  oc_approval_ids := p.(pos_approval_ids);
  oc_gold_snapshot_ids := p.(pos_gold_snapshot_ids);
  oc_agent_evidence_ids := p.(pos_agent_evidence_ids);
  oc_strategy_identity := identity;
  oc_recorded_at := recorded_at |}.

(** [OutcomeRecorder.record] *)
Definition record_outcome (p : PaperPosition) (strategy_identity : StrategyIdentity)
    (allocated_capital : float) (recorded_at : datetime) : M OutcomeRecorder Outcome :=
  _ ← lift (raise_if (negb (isfinite allocated_capital) || (allocated_capital <=? 0)%float)
             (ValueError "allocated_capital must be finite and positive"));
  s ← get_state;
  match s !! p.(pos_position_id) with
  | Some existing =>
      expected_return ← lift (fdiv (p.(pos_realized_pnl) - p.(pos_total_fees))%float allocated_capital);
      _ ← lift (raise_if ((existing.(oc_strategy_identity) !=p strategy_identity)
                          || negb (isclose existing.(oc_return_on_allocated_capital) expected_return 1e-12))
                 (ValueError "position outcome is already bound to different inputs"));
      mret existing
  | None =>
      closed_at ← lift (match p.(pos_state), p.(pos_closed_at) with
                        | CLOSED, Some t => Ok t
                        | _, _ => Err (ValueError "outcomes can be recorded only for closed positions")
                        end);
      _ ← lift (raise_if ((p.(pos_market) !=p strategy_identity.(si_market))
                          || (p.(pos_strategy_keys) !=p [identity_key strategy_identity]))
                 (ValueError "outcome requires one matching exact strategy identity"));
      recorded_at ← lift (utc recorded_at "recorded_at");
      return_on_capital ← lift (fdiv (p.(pos_realized_pnl) - p.(pos_total_fees))%float allocated_capital);
      let outcome := outcome_of p closed_at strategy_identity return_on_capital recorded_at in
      _ ← modify (fun s => <[p.(pos_position_id) := outcome]> s);
      mret outcome
  end.

(** ** OfflineLearner *)

Inductive LearningDisposition := INSUFFICIENT_DATA | RETAIN | REVIEW | SUSPENSION_REVIEW.
#[export] Instance LearningDisposition_eq_dec : EqDecision LearningDisposition.
Proof. solve_decision. Defined.

Record LearningAssessment := {
  la_assessment_id : string;
  la_identity : StrategyIdentity;
  la_outcome_ids : list string;
  la_sample_size : Z;
  la_win_rate : float;
  la_average_net_return : float;
  la_cumulative_net_pnl : float;
  la_disposition : LearningDisposition;
  la_generated_at : datetime;
  la_policy_version : string }.

Record OfflineLearner := {
  ol_minimum_sample_size : Z;
  ol_review_average_return : float;
  ol_suspension_average_return : float;
  ol_policy_version : string }.
Definition OfflineLearner_init (l : OfflineLearner) : result OfflineLearner :=
  _ ← raise_if (l.(ol_minimum_sample_size) <? 1)%Z (ValueError "minimum_sample_size must be positive");
  _ ← raise_if (fgt l.(ol_suspension_average_return) l.(ol_review_average_return))
        (ValueError "suspension threshold must not exceed review threshold");
  mret l.

(** The sort key [(closed_at, outcome_id)]; close times are the engine's,
    always aware. *)
Definition outcome_before (a b : Outcome) : bool :=
  if (instant a.(oc_closed_at) =? instant b.(oc_closed_at))%Z
  then str_ltb a.(oc_outcome_id) b.(oc_outcome_id)
  else (instant a.(oc_closed_at) <? instant b.(oc_closed_at))%Z.

Definition dispose (l : OfflineLearner) (sample : Z) (average_return : float) : LearningDisposition :=
  if (sample <? l.(ol_minimum_sample_size))%Z then INSUFFICIENT_DATA
  else if (average_return <=? l.(ol_suspension_average_return))%float then SUSPENSION_REVIEW
  else if (average_return <=? l.(ol_review_average_return))%float then REVIEW
  else RETAIN.

(** [OfflineLearner.assess] *)
Definition assess (l : OfflineLearner) (identity : StrategyIdentity) (outcomes : list Outcome)
    (generated_at : datetime) : result LearningAssessment :=
  _ ← raise_if (existsb (fun o => o.(oc_strategy_identity) !=p identity) outcomes)
        (ValueError "learning inputs must share the exact strategy identity");
  let ordered := py_sorted outcome_before outcomes in
  let sample := Z.of_nat (length ordered) in
  win_rate ← (if (sample =? 0)%Z then mret 0%float
              else int_truediv (Z.of_nat (length (List.filter (fun o => fgt o.(oc_net_pnl) 0) ordered))) sample);
  average_return ← (if (sample =? 0)%Z then mret 0%float
                    else fdiv (py_sum (oc_return_on_allocated_capital <$> ordered)) (float_of_Z sample));
  let cumulative := py_sum (oc_net_pnl <$> ordered) in
  let disposition := dispose l sample average_return in
  generated_at ← utc generated_at "generated_at";
  let outcome_ids := oc_outcome_id <$> ordered in
  mret {| la_assessment_id := stable_id ([identity_key identity] ++ outcome_ids ++ [l.(ol_policy_version)]);
          la_identity := identity;
          la_outcome_ids := outcome_ids;
          la_sample_size := sample;
          la_win_rate := win_rate;
          la_average_net_return := average_return;
          la_cumulative_net_pnl := cumulative;
          la_disposition := disposition;
          la_generated_at := generated_at;
          la_policy_version := l.(ol_policy_version) |}.

(** ** Recording *)

Lemma record_outcome_cases p i cap t s :
  (exists e, record_outcome p i cap t s = (Err e, s)) \/
  (exists o, s !! p.(pos_position_id) = Some o /\ o.(oc_strategy_identity) = i /\
     record_outcome p i cap t s = (Ok o, s)) \/
  (exists closed_at ret, s !! p.(pos_position_id) = None /\
     p.(pos_state) = CLOSED /\ p.(pos_closed_at) = Some closed_at /\
     p.(pos_market) = i.(si_market) /\ p.(pos_strategy_keys) = [identity_key i] /\
     isfinite cap = true /\ (0 < fval cap)%Z /\ aware t = true /\
     ret = ((p.(pos_realized_pnl) - p.(pos_total_fees)) / cap)%float /\
     record_outcome p i cap t s =
       (Ok (outcome_of p closed_at i ret (at_utc (instant t))),
        <[p.(pos_position_id) := outcome_of p closed_at i ret (at_utc (instant t))]> s)).
Proof.
  unfold record_outcome, mbind, M_bind, get_state, lift, modify, mret, M_ret.
  destruct (_ || _) eqn:Hcap; simpl; [by left; eexists|].
  apply orb_false_iff in Hcap as [Hf%negb_false_iff Hp].
  assert (Hpos : (0 < fval cap)%Z) by (by apply positive_spec).
  assert (Hdiv : forall x, fdiv x cap = Ok (x / cap)%float).
  { intros x. unfold fdiv. assert ((cap =? 0)%float = false) as ->; [|done].
    apply feqb_false; [by apply isfinite_nan | done|]. rewrite fval_0. lia. }
  rewrite !Hdiv. destruct (s !! _) as [o|] eqn:Es.
  - simpl. destruct (_ || _) eqn:Ho; simpl; [by left; eexists|].
    apply orb_false_iff in Ho as [Hi _]. rewrite py_ne_false in Hi. right. left. by exists o.
  - destruct (pos_state p) eqn:Est; simpl; [by left; eexists|].
    destruct (pos_closed_at p) as [ct|] eqn:Ect; simpl; [|by left; eexists].
    destruct (_ || _) eqn:Hm; simpl; [by left; eexists|].
    apply orb_false_iff in Hm as [Hm Hk]. rewrite py_ne_false in Hm. rewrite py_ne_false in Hk.
    destruct (utc t _) as [at_|e] eqn:Et; [|by left; eexists]. apply utc_ok in Et as [Haw ->].
    right. right. exists ct. eexists. by repeat split.
Qed.

(** A closed position of the strategy alone, not seen before, is recorded. *)
Lemma record_outcome_fresh p i cap t s ct :
  s !! p.(pos_position_id) = None -> p.(pos_state) = CLOSED -> p.(pos_closed_at) = Some ct ->
  p.(pos_market) = i.(si_market) -> p.(pos_strategy_keys) = [identity_key i] ->
  isfinite cap = true -> (cap <=? 0)%float = false -> aware t = true ->
  let o := outcome_of p ct i ((p.(pos_realized_pnl) - p.(pos_total_fees)) / cap)%float (at_utc (instant t)) in
  record_outcome p i cap t s = (Ok o, <[p.(pos_position_id) := o]> s).
Proof.
  intros Hs Hc Hct Hm Hk Hf Hp Haw o.
  assert (Hdiv : forall x, fdiv x cap = Ok (x / cap)%float).
  { intros x. unfold fdiv. assert ((cap =? 0)%float = false) as ->; [|done].
    apply feqb_false; [by apply isfinite_nan | done|]. pose proof (positive_spec _ Hf Hp). rewrite fval_0. lia. }
  unfold record_outcome, mbind, M_bind, get_state, lift, modify, mret, M_ret.
  rewrite Hf, Hp. simpl. rewrite Hs, Hc, Hct, Hm, Hk. simpl.
  rewrite (proj2 (py_ne_false _ _) eq_refl), (proj2 (py_ne_false [identity_key i] _) eq_refl). simpl.
  rewrite (proj2 (utc_ok t "recorded_at" _) (conj Haw eq_refl)), Hdiv. simpl. done.
Qed.

(** Any sequence of calls of [record], whether they return or raise. *)
Inductive recorder_steps (s : OutcomeRecorder) : OutcomeRecorder -> Prop :=
| recorder_refl : recorder_steps s s
| recorder_step s1 p i cap t : recorder_steps s s1 -> recorder_steps s (record_outcome p i cap t s1).2.

Lemma recorder_steps_extends s s' : recorder_steps s s' -> dict_extends s s'.
Proof.
  induction 1 as [|s1 p i cap t _ IH]; [done|]. etransitivity; [exact IH|].
  destruct (record_outcome_cases p i cap t s1)
    as [(e & ->)|[(o & _ & _ & ->)|(ct & ret & Hn & _ & _ & _ & _ & _ & _ & _ & _ & ->)]]; simpl; try done.
  apply dict_extends_insert. intros w Hw. exfalso. unfold OutcomeRecorder in *. congruence.
Qed.

(** ** Order independence of the summary *)

Lemma outcome_before_weak : weak_order outcome_before.
Proof.
  split.
  - intros x y. unfold outcome_before. rewrite (Z.eqb_sym (instant (oc_closed_at y))).
    destruct (Z.eqb_spec (instant (oc_closed_at x)) (instant (oc_closed_at y))).
    + destruct (str_cases (oc_outcome_id x) (oc_outcome_id y)) as [(-> & -> & _)|[(-> & _)| ->]]; try done.
      by rewrite str_ltb_irrefl.
    + rewrite Z.ltb_lt, Z.ltb_ge. lia.
  - intros x y z. unfold outcome_before.
    destruct (Z.eqb_spec (instant (oc_closed_at y)) (instant (oc_closed_at x))),
      (Z.eqb_spec (instant (oc_closed_at z)) (instant (oc_closed_at y))),
      (Z.eqb_spec (instant (oc_closed_at z)) (instant (oc_closed_at x))); rewrite ?Z.ltb_ge; try lia.
    intros H1 H2. destruct (str_ltb (oc_outcome_id z) (oc_outcome_id x)) eqn:E; [|done].
    destruct (str_cases (oc_outcome_id x) (oc_outcome_id y)) as [(E1 & _)|[(_ & E1 & _)|E1]].
    + by rewrite (str_ltb_trans _ _ _ E E1) in H2.
    + congruence.
    + rewrite <-E1 in H2. congruence.
Qed.

Lemma outcome_before_total a b :
  outcome_before a b = false -> outcome_before b a = false -> a.(oc_outcome_id) = b.(oc_outcome_id).
Proof.
  unfold outcome_before. rewrite (Z.eqb_sym (instant (oc_closed_at b))).
  destruct (Z.eqb_spec (instant (oc_closed_at a)) (instant (oc_closed_at b))).
  - intros. by apply str_ltb_total.
  - rewrite !Z.ltb_ge. lia.
Qed.

Lemma ordered_unique l l' :
  NoDup (oc_outcome_id <$> l) -> l ≡ₚ l' -> py_sorted outcome_before l = py_sorted outcome_before l'.
Proof.
  intros Hnd Hp. apply (StronglySorted_unique_strong (not_after outcome_before)).
  - intros a b Ha Hb Hab Hba. rewrite py_sorted_elem in Ha. rewrite py_sorted_elem, <-Hp in Hb.
    assert (Hid : oc_outcome_id a = oc_outcome_id b) by (by apply outcome_before_total).
    apply list_elem_of_lookup in Ha as [i Hi]. apply list_elem_of_lookup in Hb as [j Hj].
    assert (i = j); [|congruence].
    eapply NoDup_lookup; [exact Hnd| |]; rewrite list_lookup_fmap; [by rewrite Hi | rewrite Hj; simpl; by rewrite Hid].
  - apply weak_order_sorted, outcome_before_weak.
  - apply weak_order_sorted, outcome_before_weak.
  - by rewrite !py_sorted_perm.
Qed.

Lemma existsb_perm {A} (f : A -> bool) l l' : l ≡ₚ l' -> existsb f l = existsb f l'.
Proof.
  intros Hp. apply eq_true_iff_eq. rewrite !existsb_true_elem. by setoid_rewrite Hp.
Qed.

(** ** Theorems *)

(** Attribution: an outcome is recorded only for a position that is
    closed, in the strategy's own market and touched by that strategy alone;
    its net profit is realised profit less fees, its return that over the
    positive finite capital; and once recorded it is what every later state
    of the recorder holds for the position. A call that raises changes
    nothing. *)
Theorem outcome_attribution p i cap t s :
  match record_outcome p i cap t s with
  | (Err _, s') => s' = s
  | (Ok o, s') =>
      o.(oc_strategy_identity) = i /\
      (s !! p.(pos_position_id) = Some o \/
       p.(pos_state) = CLOSED /\ p.(pos_closed_at) = Some o.(oc_closed_at) /\
       p.(pos_market) = i.(si_market) /\ p.(pos_strategy_keys) = [identity_key i] /\
       (0 < fval cap)%Z /\ o.(oc_net_pnl) = (p.(pos_realized_pnl) - p.(pos_total_fees))%float /\
       o.(oc_return_on_allocated_capital) = (o.(oc_net_pnl) / cap)%float /\
       o.(oc_decision_ids) = p.(pos_decision_ids)) /\
      (forall s'', recorder_steps s' s'' -> s'' !! p.(pos_position_id) = Some o)
  end.
Proof.
  destruct (record_outcome_cases p i cap t s)
    as [(e & ->)|[(o & Ho & Hi & ->)|(ct & ret & Hn & Hc & Hct & Hm & Hk & Hf & Hp & _ & -> & ->)]]; [done|..].
  - split; [done|]. split; [by left|]. intros s'' Hs. by apply (recorder_steps_extends _ _ Hs).
  - split; [done|]. split; [right; by repeat split|]. intros s'' Hs.
    apply (recorder_steps_extends _ _ Hs). apply dict_lookup_insert_eq.
Qed.

(** Learning is order independent: the assessment of the outcomes of a
    strategy, down to its identity and its compensated float sums, does not
    depend on the order in which distinct outcomes arrive. *)
Theorem assess_order_independent l identity outcomes outcomes' t :
  NoDup (oc_outcome_id <$> outcomes) -> outcomes ≡ₚ outcomes' ->
  assess l identity outcomes t = assess l identity outcomes' t.
Proof.
  intros Hnd Hp. unfold assess. by rewrite (existsb_perm _ _ _ Hp), (ordered_unique _ _ Hnd Hp).
Qed.

(** Dispositions: an assessment of fewer outcomes than the minimum is
    INSUFFICIENT_DATA; otherwise a strategy is retained exactly when its
    average net return exceeds the review threshold, and proposed for
    suspension exactly when it does not exceed the suspension threshold
    (for thresholds the constructor accepts and an average that is a number). *)
Theorem assess_disposition l identity outcomes t a :
  OfflineLearner_init l = Ok l ->
  fnan l.(ol_review_average_return) = false -> fnan l.(ol_suspension_average_return) = false ->
  assess l identity outcomes t = Ok a ->
  fnan a.(la_average_net_return) = false ->
  a.(la_sample_size) = Z.of_nat (length outcomes) /\
  (a.(la_disposition) = INSUFFICIENT_DATA <-> (Z.of_nat (length outcomes) < l.(ol_minimum_sample_size))%Z) /\
  ((l.(ol_minimum_sample_size) <= Z.of_nat (length outcomes))%Z ->
   (a.(la_disposition) = RETAIN <->
      (l.(ol_review_average_return) <? a.(la_average_net_return))%float = true) /\
   (a.(la_disposition) = SUSPENSION_REVIEW <->
      (a.(la_average_net_return) <=? l.(ol_suspension_average_return))%float = true)).
Proof.
  intros Hl Hnr Hns Ha Hna. unfold OfflineLearner_init in Hl. inv_ok Hl.
  match goal with E : fgt _ _ = false |- _ => apply fltb_false in E; [|done..]; rename E into Hth end.
  unfold assess in Ha. inv_ok Ha. subst a. simpl in *. rewrite py_sorted_length in *.
  match type of Hna with fnan ?x = false => set (avg := x) in * end.
  split; [done|]. unfold dispose.
  destruct (Z.ltb_spec (Z.of_nat (length outcomes)) (ol_minimum_sample_size l)).
  { split; [done|]. lia. }
  rewrite !fltb_iff. destruct (avg <=? ol_suspension_average_return l)%float eqn:E1.
  { pose proof E1 as (_ & _ & Hle)%fleb_iff. split; [split; [done|lia]|]. intros _. split; [|done].
    split; [done|]. intros (_ & _ & ?). lia. }
  apply fleb_false in E1; [|done..].
  destruct (avg <=? ol_review_average_return l)%float eqn:E2.
  { apply fleb_iff in E2 as (_ & _ & ?). split; [split; [done|lia]|]. intros _. split; [|done].
    split; [done|]. intros (_ & _ & ?). lia. }
  apply fleb_false in E2; [|done..]. split; [split; [done|lia]|]. intros _. split; [|done]. by split.
Qed.

(** ** Concrete outcomes *)

Module OutcomeExample.
Import RegistryExample.

Definition learner : OfflineLearner := {|
  ol_minimum_sample_size := 2; ol_review_average_return := 0; ol_suspension_average_return := -0.01;
  ol_policy_version := "1" |}.
Definition outcome (id : string) (net ret : float) (t : Z) : Outcome := {|
  oc_outcome_id := id; oc_position_id := id; oc_market := NSE; oc_account_id := "paper";
  oc_symbol := "RELIANCE"; oc_opened_at := now; oc_closed_at := at_utc (instant now + t);
  oc_gross_pnl := net; oc_total_fees := 0; oc_net_pnl := net; oc_return_on_allocated_capital := ret;
  oc_decision_ids := ["d"]; oc_approval_ids := ["approval-1"]; oc_gold_snapshot_ids := ["gold-1"];
  oc_agent_evidence_ids := []; oc_strategy_identity := identity; oc_recorded_at := now |}.
Definition first : Outcome := outcome "o1" 25 0.025 hour.
Definition second_outcome : Outcome := outcome "o2" (-5) (-0.005) minute.

Lemma assess_order_independent_witness :
  assess learner identity [first; second_outcome] now = assess learner identity [second_outcome; first] now.
Proof.
  apply (assess_order_independent learner identity [first; second_outcome] [second_outcome; first] now).
  - apply (bool_decide_unpack (NoDup (oc_outcome_id <$> [first; second_outcome]))). vm_compute. exact I.
  - apply Permutation_swap.
Defined.

Lemma assess_disposition_witness :
  exists a, assess learner identity [first; second_outcome] now = Ok a /\ a.(la_disposition) = RETAIN.
Proof.
  assert (H : exists a, assess learner identity [first; second_outcome] now = Ok a /\
    fnan a.(la_average_net_return) = false /\
    (learner.(ol_review_average_return) <? a.(la_average_net_return))%float = true).
  { vm_compute. eexists. repeat split; reflexivity. }
  destruct H as (a & Ha & Hn & Hlt). exists a. split; [exact Ha|].
  destruct (assess_disposition learner identity [first; second_outcome] now a) as (_ & _ & Hd);
    [vm_compute; reflexivity.. | exact Ha | exact Hn|].
  apply Hd; [vm_compute; discriminate | exact Hlt].
Defined.

End OutcomeExample.
