(* ===== verification/Decisions.v ===== *)
(** * Stage decisions and the decision ledger (src/nanodelta/decisions.py)

    Immutable stage decisions with derived identities, the signal evidence
    record, and the append-only ledger: the interface the pipeline and the
    position lifecycle rely on ([DecisionLedger], [DecisionLedgerLaws]) and
    the in-memory implementation that discharges it. *)

From Stdlib Require Import ZArith Floats.
From stdpp Require Import prelude strings numbers list.
From S2P Require Import Prelude PyData PyFloat FloatTheory PyText Sha256 PyTime Contracts Registry Risk.

Inductive DecisionStage :=
| GLOBAL | POSITION_MANAGEMENT | DATA_READINESS | TRADEABILITY | STRATEGY_ELIGIBILITY
| SIGNAL | SCORING | SIGNAL_QUALITY | LLM_REVIEW | PORTFOLIO_CONSTRUCTION
| ENTRY_REVALIDATION | RISK | EXECUTION.
Definition DecisionStage_value (s : DecisionStage) : string :=
  match s with
  | GLOBAL => "global"
  | POSITION_MANAGEMENT => "position_management"
  | DATA_READINESS => "data_readiness"
  | TRADEABILITY => "tradeability"
  | STRATEGY_ELIGIBILITY => "strategy_eligibility"
  | SIGNAL => "signal"
  | SCORING => "scoring"
  | SIGNAL_QUALITY => "signal_quality"
  | LLM_REVIEW => "llm_review"
  | PORTFOLIO_CONSTRUCTION => "portfolio_construction"
  | ENTRY_REVALIDATION => "entry_revalidation"
  | RISK => "risk"
  | EXECUTION => "execution"
  end.
#[export] Instance DecisionStage_eq_dec : EqDecision DecisionStage.
Proof. solve_decision. Defined.

Inductive DecisionStatus := PASSED | REJECTED | SKIPPED | ORDERED | ERROR.
Definition DecisionStatus_value (s : DecisionStatus) : string :=
  match s with
  | PASSED => "passed" | REJECTED => "rejected" | SKIPPED => "skipped"
  | ORDERED => "ordered" | ERROR => "error"
  end.
#[export] Instance DecisionStatus_eq_dec : EqDecision DecisionStatus.
Proof. solve_decision. Defined.

#[export] Instance py_eq_DecisionStage : PyEq DecisionStage := fun a b => bool_decide (a = b).
#[export] Instance py_eq_DecisionStage_leibniz : PyEqLeibniz DecisionStage.
Proof. intros a b. apply bool_decide_eq_true. Qed.
#[export] Instance py_eq_DecisionStatus : PyEq DecisionStatus := fun a b => bool_decide (a = b).
#[export] Instance py_eq_DecisionStatus_leibniz : PyEqLeibniz DecisionStatus.
Proof. intros a b. apply bool_decide_eq_true. Qed.

(** ** Decision *)

Record Decision := {
  dc_decision_id : string;
  dc_cycle_id : string;
  dc_market : Market;
  dc_symbol : string;
  dc_timeframe : option string;
  dc_stage : DecisionStage;
  dc_status : DecisionStatus;
  dc_reason_code : string;
  dc_occurred_at : datetime;
  dc_candidate_id : option string;
  dc_strategy_key : option string;
  dc_detail : string;
  dc_metrics : list (string * float) }.
#[export] Instance py_eq_Decision : PyEq Decision := fun a b =>
  (a.(dc_decision_id) ==p b.(dc_decision_id)) && (a.(dc_cycle_id) ==p b.(dc_cycle_id)) &&
  (a.(dc_market) ==p b.(dc_market)) && (a.(dc_symbol) ==p b.(dc_symbol)) &&
  (a.(dc_timeframe) ==p b.(dc_timeframe)) && (a.(dc_stage) ==p b.(dc_stage)) &&
  (a.(dc_status) ==p b.(dc_status)) && (a.(dc_reason_code) ==p b.(dc_reason_code)) &&
  (a.(dc_occurred_at) ==p b.(dc_occurred_at)) && (a.(dc_candidate_id) ==p b.(dc_candidate_id)) &&
  (a.(dc_strategy_key) ==p b.(dc_strategy_key)) && (a.(dc_detail) ==p b.(dc_detail)) &&
  (a.(dc_metrics) ==p b.(dc_metrics)).

(** [len({name for name, _ in pairs}) != len(pairs)] *)
Definition duplicate_names {A} (pairs : list (string * A)) : bool :=
  negb (length (fromkeys pairs.*1) =? length pairs)%nat.

(** The identity of a decision: neither its time nor its detail nor its
    metrics enter it. *)
Definition decision_identity (cycle_id : string) (market : Market) (symbol : string)
    (timeframe : option string) (stage : DecisionStage) (status : DecisionStatus)
    (reason_code : string) (candidate_id strategy_key : option string) : string :=
  stable_id [cycle_id; Market_value market; symbol; str_opt timeframe; DecisionStage_value stage;
             DecisionStatus_value status; reason_code; str_opt candidate_id; str_opt strategy_key].

(** [Decision.create] *)
Definition Decision_create (cycle_id : string) (market : Market) (symbol : string)
    (timeframe : option string) (stage : DecisionStage) (status : DecisionStatus)
    (reason_code : string) (occurred_at : datetime) (candidate_id strategy_key : option string)
    (detail : string) (metrics : list (string * float)) : result Decision :=
  _ ← raise_if (str_empty cycle_id || str_empty symbol || str_empty reason_code)
        (ValueError "cycle_id, symbol, and reason_code are required");
  _ ← raise_if (duplicate_names metrics) (ValueError "decision metric names must be unique");
  occurred_at ← utc occurred_at "occurred_at";
  mret {| dc_decision_id := decision_identity cycle_id market symbol timeframe stage status
                              reason_code candidate_id strategy_key;
          dc_cycle_id := cycle_id;
          dc_market := market;
          dc_symbol := symbol;
          dc_timeframe := timeframe;
          dc_stage := stage;
          dc_status := status;
          dc_reason_code := reason_code;
          dc_occurred_at := occurred_at;
          dc_candidate_id := candidate_id;
          dc_strategy_key := strategy_key;
          dc_detail := detail;
          dc_metrics := metrics |}.

(** ** SignalCandidate *)

Record SignalCandidate := {
  sc_candidate_id : string;
  sc_cycle_id : string;
  sc_market : Market;
  sc_symbol : string;
  sc_timeframe : string;
  sc_strategy_key : string;
  sc_approval_id : string;
  sc_event_time : datetime;
  sc_action : AdvisoryAction;
  sc_reference_price : float;
  sc_stop_price : float;
  sc_target_price : float;
  sc_confidence : float;
  sc_gold_snapshot_ids : list string;
  sc_evidence : list (string * float) }.
#[export] Instance py_eq_SignalCandidate : PyEq SignalCandidate := fun a b =>
  (a.(sc_candidate_id) ==p b.(sc_candidate_id)) && (a.(sc_cycle_id) ==p b.(sc_cycle_id)) &&
  (a.(sc_market) ==p b.(sc_market)) && (a.(sc_symbol) ==p b.(sc_symbol)) &&
  (a.(sc_timeframe) ==p b.(sc_timeframe)) && (a.(sc_strategy_key) ==p b.(sc_strategy_key)) &&
  (a.(sc_approval_id) ==p b.(sc_approval_id)) && (a.(sc_event_time) ==p b.(sc_event_time)) &&
  (a.(sc_action) ==p b.(sc_action)) && (a.(sc_reference_price) ==p b.(sc_reference_price)) &&
  (a.(sc_stop_price) ==p b.(sc_stop_price)) && (a.(sc_target_price) ==p b.(sc_target_price)) &&
  (a.(sc_confidence) ==p b.(sc_confidence)) &&
  (a.(sc_gold_snapshot_ids) ==p b.(sc_gold_snapshot_ids)) && (a.(sc_evidence) ==p b.(sc_evidence)).

(** [SignalCandidate.__post_init__] *)
Definition SignalCandidate_post_init (c : SignalCandidate) : result unit :=
  _ ← raise_if (existsb str_empty [c.(sc_candidate_id); c.(sc_cycle_id); c.(sc_symbol);
                  c.(sc_timeframe); c.(sc_strategy_key); c.(sc_approval_id)]
                || is_nil c.(sc_gold_snapshot_ids))
        (ValueError "signal candidate identity and Gold lineage are required");
  _ ← raise_if (c.(sc_action) ==p ABSTAIN) (ValueError "signal candidate action must be BUY or SELL");
  _ ← raise_if (existsb (fun v => negb (isfinite v))
                  ([c.(sc_reference_price); c.(sc_stop_price); c.(sc_target_price); c.(sc_confidence)]
                   ++ c.(sc_evidence).*2))
        (ValueError "signal candidate evidence must be finite");
  _ ← raise_if ((c.(sc_reference_price) <=? 0)
                || negb ((0 <=? c.(sc_confidence)) && (c.(sc_confidence) <=? 1)))%float
        (ValueError "signal candidate price or confidence is invalid");
  _ ← raise_if (duplicate_names c.(sc_evidence))
        (ValueError "signal candidate evidence names must be unique");
  _ ← utc c.(sc_event_time) "event_time";
  mret tt.
Definition new_SignalCandidate (c : SignalCandidate) : result SignalCandidate :=
  _ ← SignalCandidate_post_init c; mret c.

(** ** DecisionLedger: the protocol its clients call *)

Class DecisionLedger (W : Type) := {
  ledger_append_candidate : SignalCandidate -> Decision -> M W unit;
  ledger_append : Decision -> M W unit;
  ledger_for_cycle : string -> W -> list Decision }.

(** ** InMemoryDecisionLedger *)

Record InMemoryDecisionLedger := {
  ml_decisions : dict string Decision;
  ml_candidates : dict string SignalCandidate }.
Definition empty_ledger : InMemoryDecisionLedger := {| ml_decisions := ∅; ml_candidates := ∅ |}.

Definition append (d : Decision) : M InMemoryDecisionLedger unit :=
  s ← get_state;
  _ ← lift (raise_if (conflicts (s.(ml_decisions) !! d.(dc_decision_id)) d)
             (ValueError "decision identity is immutable"));
  modify (fun s => {| ml_decisions := <[d.(dc_decision_id) := d]> s.(ml_decisions);
                      ml_candidates := s.(ml_candidates) |}).

Definition append_candidate (c : SignalCandidate) (d : Decision) : M InMemoryDecisionLedger unit :=
  s ← get_state;
  _ ← lift (raise_if (conflicts (s.(ml_candidates) !! c.(sc_candidate_id)) c)
             (ValueError "signal candidate identity is immutable"));
  _ ← lift (raise_if ((d.(dc_candidate_id) !=p Some c.(sc_candidate_id))
                      || (d.(dc_cycle_id) !=p c.(sc_cycle_id)))
             (ValueError "signal decision does not match candidate identity"));
  _ ← modify (fun s => {| ml_decisions := s.(ml_decisions);
                          ml_candidates := <[c.(sc_candidate_id) := c]> s.(ml_candidates) |});
  append d.

Definition for_cycle (cycle_id : string) (s : InMemoryDecisionLedger) : list Decision :=
  List.filter (fun d => d.(dc_cycle_id) ==p cycle_id) (dict_values s.(ml_decisions)).

#[export] Instance in_memory_ledger : DecisionLedger InMemoryDecisionLedger := {|
  ledger_append_candidate := append_candidate;
  ledger_append := append;
  ledger_for_cycle := for_cycle |}.

(** ** What a ledger promises

    [same_decision] is the replacement a ledger may make: the very decision,
    or one Python's [==] identifies with it. *)

Definition same_decision (d d' : Decision) : Prop := d = d' \/ d ==p d' = true.

Definition recorded {W} `{DecisionLedger W} (d : Decision) (w : W) : Prop :=
  exists d', d' ∈ ledger_for_cycle d.(dc_cycle_id) w /\ same_decision d d'.

Class DecisionLedgerLaws (W : Type) `{DecisionLedger W} := {
  ledger_le : W -> W -> Prop;
  #[global] ledger_le_preorder :: PreOrder ledger_le;
  ledger_append_le d : preserves ledger_le (ledger_append d);
  ledger_append_candidate_le c d : preserves ledger_le (ledger_append_candidate c d);
  ledger_append_recorded d w u w' : ledger_append d w = (Ok u, w') -> recorded d w';
  ledger_append_candidate_recorded c d w u w' :
    ledger_append_candidate c d w = (Ok u, w') -> recorded d w';
  ledger_le_recorded d w w' : ledger_le w w' -> recorded d w -> recorded d w' }.

Lemma decision_eq_inv (a b : Decision) : a ==p b = true ->
  a.(dc_decision_id) = b.(dc_decision_id) /\ a.(dc_cycle_id) = b.(dc_cycle_id) /\
  a.(dc_market) = b.(dc_market) /\ a.(dc_symbol) = b.(dc_symbol) /\
  a.(dc_timeframe) = b.(dc_timeframe) /\ a.(dc_stage) = b.(dc_stage) /\
  a.(dc_status) = b.(dc_status) /\ a.(dc_reason_code) = b.(dc_reason_code) /\
  a.(dc_candidate_id) = b.(dc_candidate_id) /\ a.(dc_strategy_key) = b.(dc_strategy_key) /\
  a.(dc_occurred_at) ==p b.(dc_occurred_at) = true /\ a.(dc_metrics) ==p b.(dc_metrics) = true.
Proof. unfold py_eq at 1, py_eq_Decision. rewrite !andb_true_iff, !py_eq_true. tauto. Qed.

#[export] Instance py_eq_trans_Decision : PyEqTrans Decision.
Proof.
  intros a b c. unfold py_eq at 1 2 3, py_eq_Decision. rewrite !andb_true_iff. intros H1 H2.
  repeat split; (eapply py_eq_trans; [apply H1 | apply H2]).
Qed.

#[export] Instance same_decision_preorder : PreOrder same_decision.
Proof.
  split; [by left|]. intros a b c [->|H1] [->|H2]; [by left | by right | by right|].
  right. by eapply py_eq_trans.
Qed.

Lemma same_decision_cycle d d' : same_decision d d' -> d'.(dc_cycle_id) = d.(dc_cycle_id).
Proof. intros [->|H]; [done|]. by apply decision_eq_inv in H as (_ & -> & _). Qed.

(** ** The in-memory ledger keeps the promise *)

(** Every entry is still there, under its key, at most replaced by an equal one. *)
Definition memory_le (s s' : InMemoryDecisionLedger) : Prop :=
  forall k d, (k, d) ∈ entries s.(ml_decisions) ->
    exists d', (k, d') ∈ entries s'.(ml_decisions) /\ same_decision d d'.

#[export] Instance memory_le_preorder : PreOrder memory_le.
Proof.
  split; [intros s k d H; by exists d|]. intros s1 s2 s3 H12 H23 k d H.
  destruct (H12 k d H) as (d2 & H2 & E2). destruct (H23 k d2 H2) as (d3 & H3 & E3).
  exists d3. split; [done|]. by etransitivity.
Qed.

(** A call to [append] either raises and changes nothing, or the decision is
    now the one under its identity. *)
Lemma append_cases d s :
  (exists w, s.(ml_decisions) !! d.(dc_decision_id) = Some w /\ w !=p d = true /\
     append d s = (Err (ValueError "decision identity is immutable"), s)) \/
  (conflicts (s.(ml_decisions) !! d.(dc_decision_id)) d = false /\
   append d s = (Ok tt, {| ml_decisions := <[d.(dc_decision_id) := d]> s.(ml_decisions);
                           ml_candidates := s.(ml_candidates) |})).
Proof.
  unfold append, mbind, M_bind, get_state, lift, modify.
  destruct (conflicts _ d) eqn:E; simpl; [left | by right].
  destruct (_ !! _) as [w|] eqn:Ew; [|done]. by exists w.
Qed.

Lemma append_le d : preserves memory_le (append d).
Proof.
  intros s. destruct (append_cases d s) as [(w & _ & _ & ->)|[Hc ->]]; simpl; [reflexivity|].
  intros k v Hin. simpl.
  destruct (dict_insert_entries s.(ml_decisions) d.(dc_decision_id) d k v Hin) as [H|[-> Hl]].
  - by exists v.
  - exists d. split; [apply (dict_elem_insert s.(ml_decisions))|].
    right. by apply (proj1 (conflicts_false _ _) Hc).
Qed.

Lemma append_recorded d s u s' : append d s = (Ok u, s') -> recorded d s'.
Proof.
  intros H. destruct (append_cases d s) as [(w & _ & _ & E)|[_ E]]; rewrite E in H; [done|].
  injection H as _ <-. exists d. split; [|by left].
  apply filter_elem. split; [|by rewrite py_eq_true].
  apply list_elem_of_fmap. exists (d.(dc_decision_id), d). split; [done|].
  apply (dict_elem_insert s.(ml_decisions)).
Qed.

Lemma append_candidate_cases c d s :
  (exists e, append_candidate c d s = (Err e, s)) \/
  (append_candidate c d s =
   append d {| ml_decisions := s.(ml_decisions);
               ml_candidates := <[c.(sc_candidate_id) := c]> s.(ml_candidates) |}).
Proof.
  unfold append_candidate, mbind, M_bind, get_state, lift, modify.
  destruct (conflicts _ c); simpl; [left; by eexists|].
  destruct (_ || _); simpl; [left; by eexists | by right].
Qed.

Lemma memory_le_recorded d s s' : memory_le s s' -> recorded d s -> recorded d s'.
Proof.
  intros Hle (d1 & Hin & Hsame). apply filter_elem in Hin as [Hin Hc]. rewrite py_eq_true in Hc.
  apply list_elem_of_fmap in Hin as ([k d2] & -> & Hin). simpl in *.
  destruct (Hle k d2 Hin) as (d3 & Hin3 & H3). exists d3. split; [|by etransitivity].
  apply filter_elem. split; [apply list_elem_of_fmap; by exists (k, d3)|].
  rewrite py_eq_true. by rewrite (same_decision_cycle _ _ H3).
Qed.

#[export] Instance in_memory_ledger_laws : DecisionLedgerLaws InMemoryDecisionLedger.
Proof.
  refine {| ledger_le := memory_le |}.
  - apply append_le.
  - intros c d s. destruct (append_candidate_cases c d s) as [[e E]|E]; simpl; rewrite E; [reflexivity|].
    etransitivity; [|apply append_le]. by intros k v Hin; exists v.
  - apply append_recorded.
  - intros c d s u s' H. destruct (append_candidate_cases c d s) as [[e E]|E]; simpl in H; rewrite E in H; [done|].
    by eapply append_recorded.
  - apply memory_le_recorded.
Defined.

(** ** Histories of the in-memory ledger *)

Inductive LedgerOp :=
| OpAppend (d : Decision)
| OpAppendCandidate (c : SignalCandidate) (d : Decision).
Definition ledger_run (op : LedgerOp) : M InMemoryDecisionLedger unit :=
  match op with OpAppend d => append d | OpAppendCandidate c d => append_candidate c d end.

(** Any sequence of calls, whether they return or raise. *)
Inductive ledger_steps (s : InMemoryDecisionLedger) : InMemoryDecisionLedger -> Prop :=
| ledger_refl : ledger_steps s s
| ledger_step s1 op : ledger_steps s s1 -> ledger_steps s (ledger_run op s1).2.

Lemma ledger_steps_le s s' : ledger_steps s s' -> memory_le s s'.
Proof.
  induction 1 as [|s1 op _ IH]; [reflexivity|]. etransitivity; [exact IH|].
  destruct op as [d|c d].
  - exact (ledger_append_le (W := InMemoryDecisionLedger) d s1).
  - exact (ledger_append_candidate_le (W := InMemoryDecisionLedger) c d s1).
Qed.

Definition identity_kept (s s' : InMemoryDecisionLedger) : Prop :=
  forall k d, s.(ml_decisions) !! k = Some d ->
    exists d', s'.(ml_decisions) !! k = Some d' /\ same_decision d d'.

#[export] Instance identity_kept_preorder : PreOrder identity_kept.
Proof.
  split; [intros s k d H; by exists d|]. intros s1 s2 s3 H12 H23 k d H.
  destruct (H12 k d H) as (d2 & H2 & E2). destruct (H23 k d2 H2) as (d3 & H3 & E3).
  exists d3. split; [done|]. by etransitivity.
Qed.

Lemma append_identity_kept d : preserves identity_kept (append d).
Proof.
  intros s. destruct (append_cases d s) as [(w & _ & _ & ->)|[Hc ->]]; simpl; [reflexivity|].
  intros k v Hv. simpl. rewrite dict_lookup_insert. case_decide as E; [|by exists v].
  exists d. split; [done|]. right. subst k. by apply (proj1 (conflicts_false _ _) Hc).
Qed.

Lemma ledger_steps_kept s s' : ledger_steps s s' -> identity_kept s s'.
Proof.
  induction 1 as [|s1 op _ IH]; [reflexivity|]. etransitivity; [exact IH|].
  destruct op as [d|c d]; simpl; [apply append_identity_kept|].
  destruct (append_candidate_cases c d s1) as [[e E]|E]; rewrite E; [reflexivity|].
  etransitivity; [|apply append_identity_kept]. by intros k v Hv; exists v.
Qed.

(** ** Theorems *)

(** The decision ledger is append-only and identities are immutable: a
    decision whose append returned is reported by [for_cycle] after any
    further calls (at most replaced by an equal value), and an append of an
    unequal decision under the same identity raises and changes nothing. *)
Theorem ledger_append_only d s u s1 s2 :
  append d s = (Ok u, s1) -> ledger_steps s1 s2 ->
  (exists d', d' ∈ for_cycle d.(dc_cycle_id) s2 /\ same_decision d d') /\
  (forall d', d'.(dc_decision_id) = d.(dc_decision_id) -> d ==p d' = false -> d <> d' ->
     append d' s2 = (Err (ValueError "decision identity is immutable"), s2)).
Proof.
  intros Happ Hs. split.
  { apply (memory_le_recorded d s1 s2); [by apply ledger_steps_le | by eapply append_recorded]. }
  intros d' Hid Hne Hd.
  assert (Hl : s1.(ml_decisions) !! d.(dc_decision_id) = Some d).
  { destruct (append_cases d s) as [(w & _ & _ & E)|[_ E]]; rewrite E in Happ; [done|].
    injection Happ as _ <-. apply dict_lookup_insert_eq. }
  destruct (ledger_steps_kept _ _ Hs _ _ Hl) as (w & Hw & Hsame).
  destruct (append_cases d' s2) as [(w' & _ & _ & E)|[Hc _]]; [done|]. exfalso.
  rewrite Hid, Hw in Hc. apply (proj1 (conflicts_false _ _)) with (w := w) in Hc; [|done].
  destruct Hsame as [<-|Hsame]; [by rewrite Hc in Hne|].
  by rewrite (py_eq_trans _ _ _ Hsame Hc) in Hne.
Qed.

(** The checks of [Decision.create], and what it returns. *)
Lemma Decision_create_ok c m s tf st ss r t ci sk dt mt d :
  Decision_create c m s tf st ss r t ci sk dt mt = Ok d ->
  d = {| dc_decision_id := decision_identity c m s tf st ss r ci sk;
         dc_cycle_id := c; dc_market := m; dc_symbol := s; dc_timeframe := tf; dc_stage := st;
         dc_status := ss; dc_reason_code := r; dc_occurred_at := at_utc (instant t);
         dc_candidate_id := ci; dc_strategy_key := sk; dc_detail := dt; dc_metrics := mt |}.
Proof.
  unfold Decision_create. intros H. inv_ok H.
  match goal with E : utc _ _ = Ok _ |- _ => apply utc_ok in E as [_ ->] end. done.
Qed.

(** A signal candidate its constructor accepts. *)
Lemma SignalCandidate_valid c : SignalCandidate_post_init c = Ok tt ->
  c.(sc_action) <> ABSTAIN /\ isfinite c.(sc_reference_price) = true /\
  (0 < fval c.(sc_reference_price))%Z /\ NoDup c.(sc_evidence).*1.
Proof.
  unfold SignalCandidate_post_init. intros H. inv_ok H.
  rewrite py_eq_false in Hok1.
  match goal with E : existsb _ _ = false |- _ =>
    apply existsb_false_Forall in E; apply Forall_cons in E as [Hf%negb_false_iff _] end.
  match goal with E : _ || negb _ = false |- _ => apply orb_false_iff in E as [Hp _] end.
  match goal with E : duplicate_names _ = false |- _ =>
    unfold duplicate_names in E; apply negb_false_iff, Nat.eqb_eq in E; rename E into Hn end.
  split; [done|]. split; [done|]. split; [by apply positive_spec|].
  apply fromkeys_length_NoDup. by rewrite Hn, length_fmap.
Qed.

(** ** Concrete histories *)

Module DecisionExample.
Import RegistryExample.

Definition later : datetime := at_utc (instant now + hour).
Definition entry_rejected (t : datetime) : result Decision :=
  Decision_create "cycle-1" NSE "RELIANCE" (Some "5m") DATA_READINESS REJECTED
    "STALE_QUOTE" t None None "" [].
Definition first : Decision := {|
  dc_decision_id := decision_identity "cycle-1" NSE "RELIANCE" (Some "5m") DATA_READINESS REJECTED
                      "STALE_QUOTE" None None;
  dc_cycle_id := "cycle-1"; dc_market := NSE; dc_symbol := "RELIANCE"; dc_timeframe := Some "5m";
  dc_stage := DATA_READINESS; dc_status := REJECTED; dc_reason_code := "STALE_QUOTE";
  dc_occurred_at := now; dc_candidate_id := None; dc_strategy_key := None; dc_detail := "";
  dc_metrics := [] |}.
Definition once : InMemoryDecisionLedger := (append first empty_ledger).2.

Lemma ledger_append_only_witness :
  exists d', d' ∈ for_cycle "cycle-1" (append first once).2 /\ same_decision first d'.
Proof.
  apply (ledger_append_only first empty_ledger tt once (ledger_run (OpAppend first) once).2);
    [vm_compute; reflexivity|].
  apply ledger_step. apply ledger_refl.
Defined.

(** The same outcome of the same cycle decided again at another time has the
    same identity and is not equal, so the ledger raises. *)
Lemma redecided_later_raises :
  exists d1 d2 s1, entry_rejected now = Ok d1 /\ entry_rejected later = Ok d2 /\
    append d1 empty_ledger = (Ok tt, s1) /\
    append d2 s1 = (Err (ValueError "decision identity is immutable"), s1).
Proof. do 3 eexists. repeat split; vm_compute; reflexivity. Qed.

(** [append_candidate] stores the candidate before the decision is checked:
    when the decision's identity is taken, the call raises and the candidate
    stays. *)
Lemma candidate_stored_before_raise :
  exists c d s s' e, append_candidate c d s = (Err e, s') /\
    s.(ml_candidates) !! c.(sc_candidate_id) = None /\
    s'.(ml_candidates) !! c.(sc_candidate_id) = Some c.
Proof.
  pose (d0 := {| dc_decision_id := "d"; dc_cycle_id := "cycle-1"; dc_market := NSE;
    dc_symbol := "TCS"; dc_timeframe := None; dc_stage := SIGNAL; dc_status := PASSED;
    dc_reason_code := "SIGNAL_GENERATED"; dc_occurred_at := now; dc_candidate_id := Some "c";
    dc_strategy_key := None; dc_detail := "BUY"; dc_metrics := [] |}).
  pose (d1 := {| dc_decision_id := "d"; dc_cycle_id := "cycle-1"; dc_market := NSE;
    dc_symbol := "TCS"; dc_timeframe := None; dc_stage := SIGNAL; dc_status := PASSED;
    dc_reason_code := "SIGNAL_GENERATED"; dc_occurred_at := later; dc_candidate_id := Some "c";
    dc_strategy_key := None; dc_detail := "BUY"; dc_metrics := [] |}).
  exists {| sc_candidate_id := "c"; sc_cycle_id := "cycle-1"; sc_market := NSE; sc_symbol := "TCS";
    sc_timeframe := "5m"; sc_strategy_key := "k"; sc_approval_id := "a"; sc_event_time := now;
    sc_action := BUY; sc_reference_price := 100; sc_stop_price := 99; sc_target_price := 103;
    sc_confidence := 0.5; sc_gold_snapshot_ids := ["g"]; sc_evidence := [] |}.
  exists d1, (append d0 empty_ledger).2. do 2 eexists. repeat split; vm_compute; reflexivity.
Qed.

End DecisionExample.
