(* ===== verification/DecisionStore.v ===== *)
(** * The durable decision ledger (src/nanodelta/decisions_postgres.py)

    The Postgres ledger inserts decisions and candidates with
    [ON CONFLICT DO NOTHING] and reads the decisions of a cycle in the order of
    their times.  Every call is a transaction; [lt_faults] lists the outcomes
    of the calls to the database still to come.  The rows of the events have
    the fields of a decision; their metrics are a jsonb object, which is read
    back sorted by name.

    The theorems: the tables only grow, whatever is appended and whatever
    fails; a candidate and its decision are recorded together or not at all;
    and where the in-memory ledger accepts a sequence of calls the durable one
    accepts it too and answers with the same decisions. *)

From Stdlib Require Import ZArith Lia Floats Ascii String ZifyBool.
From stdpp Require Import prelude strings pretty numbers list sorting.
From S2P Require Import Prelude PyData PyFloat FloatTheory PyText PyTime Sql Contracts Registry Risk Decisions.

Local Open Scope Z_scope.

Record LedgerTables := {
  lt_candidates : list SignalCandidate;
  lt_events : list Decision;
  lt_faults : list (option string) }.
Definition set_candidate_rows (rows : list SignalCandidate) (t : LedgerTables) : LedgerTables :=
  {| lt_candidates := rows; lt_events := t.(lt_events); lt_faults := t.(lt_faults) |}.
Definition set_event_rows (rows : list Decision) (t : LedgerTables) : LedgerTables :=
  {| lt_candidates := t.(lt_candidates); lt_events := rows; lt_faults := t.(lt_faults) |}.

(** [connect()], [execute(...)] or [commit()]: it may raise. *)
Definition ledger_statement : M LedgerTables unit := fun t =>
  match t.(lt_faults) with
  | [] => (Ok (), t)
  | f :: rest => (match f with Some msg => Err (OtherException "DatabaseError" msg) | None => Ok () end,
                  {| lt_candidates := t.(lt_candidates); lt_events := t.(lt_events); lt_faults := rest |})
  end.
Definition ledger_transaction {A} (m : M LedgerTables A) : M LedgerTables A := fun t =>
  match (_ ← ledger_statement; a ← m; _ ← ledger_statement; mret a) t with
  | (Ok a, t') => (Ok a, t')
  | (Err e, t') => (Err e, {| lt_candidates := t.(lt_candidates); lt_events := t.(lt_events); lt_faults := t'.(lt_faults) |})
  end.

(** [dict(pairs)] as a jsonb object, read back with [sorted(...)] *)
Definition jsonb_object (pairs : list (string * float)) : list (string * float) :=
  py_sorted (fun a b => str_ltb a.1 b.1)
    ((fun '(name, x) => (name, jsonb_number x)) <$> entries (foldl (fun d p => <[p.1 := p.2]> d) (∅ : dict string float) pairs)).
(** [json.dumps] of the last value of each name is valid JSON. *)
Definition jsonb_pairs (pairs : list (string * float)) : result unit :=
  jsonb_floats (dict_values (foldl (fun d p => <[p.1 := p.2]> d) (∅ : dict string float) pairs)).

(** [_decision_values], and [_from_row] of what the columns keep *)
Definition event_row (d : Decision) : Decision := {|
  dc_decision_id := d.(dc_decision_id); dc_cycle_id := d.(dc_cycle_id); dc_market := d.(dc_market); dc_symbol := d.(dc_symbol);
  dc_timeframe := d.(dc_timeframe); dc_stage := d.(dc_stage); dc_status := d.(dc_status); dc_reason_code := d.(dc_reason_code);
  dc_occurred_at := timestamptz d.(dc_occurred_at); dc_candidate_id := d.(dc_candidate_id); dc_strategy_key := d.(dc_strategy_key);
  dc_detail := d.(dc_detail); dc_metrics := jsonb_object d.(dc_metrics) |}.
Definition candidate_row (c : SignalCandidate) : SignalCandidate := {|
  sc_candidate_id := c.(sc_candidate_id); sc_cycle_id := c.(sc_cycle_id); sc_market := c.(sc_market); sc_symbol := c.(sc_symbol);
  sc_timeframe := c.(sc_timeframe); sc_strategy_key := c.(sc_strategy_key); sc_approval_id := c.(sc_approval_id);
  sc_event_time := timestamptz c.(sc_event_time); sc_action := c.(sc_action); sc_reference_price := c.(sc_reference_price);
  sc_stop_price := c.(sc_stop_price); sc_target_price := c.(sc_target_price); sc_confidence := c.(sc_confidence);
  sc_gold_snapshot_ids := c.(sc_gold_snapshot_ids); sc_evidence := jsonb_object c.(sc_evidence) |}.

(** [INSERT INTO control.decision_events ... ON CONFLICT (decision_id) DO NOTHING] *)
Definition insert_event (d : Decision) : M LedgerTables unit :=
  _ ← ledger_statement;
  t ← get_state;
  _ ← lift (jsonb_pairs d.(dc_metrics));
  if has_key dc_decision_id t.(lt_events) d.(dc_decision_id) then mret ()
  else modify (set_event_rows (t.(lt_events) ++ [event_row d])).
(** [INSERT INTO control.signal_candidates ... ON CONFLICT (candidate_id) DO NOTHING] *)
Definition candidate_check (c : SignalCandidate) : bool :=
  ((c.(sc_action) ==p BUY) || (c.(sc_action) ==p SELL)) && pg_positive c.(sc_reference_price) &&
  pg_nonneg c.(sc_confidence) && (c.(sc_confidence) <=? 1)%float.
Definition insert_candidate (c : SignalCandidate) : M LedgerTables unit :=
  _ ← ledger_statement;
  t ← get_state;
  _ ← lift (jsonb_pairs c.(sc_evidence));
  _ ← lift (check (candidate_check c));
  if has_key sc_candidate_id t.(lt_candidates) c.(sc_candidate_id) then mret ()
  else modify (set_candidate_rows (t.(lt_candidates) ++ [candidate_row c])).

(** [append] *)
Definition durable_append (decision : Decision) : M LedgerTables unit := ledger_transaction (insert_event decision).
(** [append_candidate] *)
Definition durable_append_candidate (candidate : SignalCandidate) (decision : Decision) : M LedgerTables unit :=
  _ ← lift (raise_if ((decision.(dc_candidate_id) !=p Some candidate.(sc_candidate_id)) || (decision.(dc_cycle_id) !=p candidate.(sc_cycle_id)))
             (ValueError "signal decision does not match candidate identity"));
  ledger_transaction (_ ← insert_candidate candidate; insert_event decision).

(** [ORDER BY occurred_at,decision_id] *)
Definition event_before (a b : Decision) : bool :=
  (instant a.(dc_occurred_at) <? instant b.(dc_occurred_at)) ||
  ((instant a.(dc_occurred_at) =? instant b.(dc_occurred_at)) && str_ltb a.(dc_decision_id) b.(dc_decision_id)).
Definition cycle_rows (cycle_id : string) (t : LedgerTables) : list Decision :=
  py_sorted event_before (List.filter (fun d => d.(dc_cycle_id) ==p cycle_id) t.(lt_events)).
(** [for_cycle] *)
Definition durable_for_cycle (cycle_id : string) : M LedgerTables (list Decision) :=
  _ ← ledger_statement;
  _ ← ledger_statement;
  t ← get_state;
  mret (cycle_rows cycle_id t).

(** The ledger its clients see. *)
#[export] Instance postgres_ledger : DecisionLedger LedgerTables := {|
  ledger_append_candidate := durable_append_candidate;
  ledger_append := durable_append;
  ledger_for_cycle := cycle_rows |}.

(** ** The tables only grow *)

Definition durable_ledger_run (op : LedgerOp) : M LedgerTables unit :=
  match op with OpAppend d => durable_append d | OpAppendCandidate c d => durable_append_candidate c d end.
Definition op_decision (op : LedgerOp) : Decision := match op with OpAppend d => d | OpAppendCandidate _ d => d end.
Definition op_candidate (op : LedgerOp) : option SignalCandidate := match op with OpAppend _ => None | OpAppendCandidate c _ => Some c end.

Lemma ledger_statement_ok t r t' : ledger_statement t = (r, t') -> t'.(lt_events) = t.(lt_events) /\ t'.(lt_candidates) = t.(lt_candidates).
Proof. destruct t as [c e [|f fs]]; intros [= _ <-]; done. Qed.
Lemma ledger_transaction_ok {A} (m : M LedgerTables A) t a t' : ledger_transaction m t = (Ok a, t') ->
  exists t1 t2, m t1 = (Ok a, t2) /\ t1.(lt_events) = t.(lt_events) /\ t1.(lt_candidates) = t.(lt_candidates) /\
    t'.(lt_events) = t2.(lt_events) /\ t'.(lt_candidates) = t2.(lt_candidates).
Proof.
  unfold ledger_transaction. intros H. destruct ((_ ← ledger_statement; _) t) as [[x|e] t3] eqn:E; [|done]. injection H as -> ->.
  apply M_bind_ok in E as ([] & t1 & [? ?]%ledger_statement_ok & E). apply M_bind_ok in E as (y & t2 & Hm & E).
  apply M_bind_ok in E as ([] & t4 & [? ?]%ledger_statement_ok & [= <- <-]). by exists t1, t2.
Qed.
Lemma ledger_transaction_err {A} (m : M LedgerTables A) t e t' : ledger_transaction m t = (Err e, t') ->
  t'.(lt_events) = t.(lt_events) /\ t'.(lt_candidates) = t.(lt_candidates).
Proof. unfold ledger_transaction. destruct ((_ ← ledger_statement; _) t) as [[x|e'] t3]; [done|]. by intros [= _ <-]. Qed.

Lemma insert_event_ok d t t' : insert_event d t = (Ok (), t') ->
  t'.(lt_candidates) = t.(lt_candidates) /\ d.(dc_decision_id) ∈ dc_decision_id <$> t'.(lt_events) /\
  (t'.(lt_events) = t.(lt_events) \/
   ~ d.(dc_decision_id) ∈ (dc_decision_id <$> t.(lt_events)) /\ t'.(lt_events) = t.(lt_events) ++ [event_row d]).
Proof.
  unfold insert_event. intros H. apply M_bind_ok in H as ([] & t1 & [E1 E2]%ledger_statement_ok & H). apply M_bind_ok in H as (? & ? & [= <- <-] & H).
  apply M_bind_ok in H as ([] & ? & [_ ->]%lift_ok & H). rewrite <- E1, <- E2. destruct (has_key _ _ _) eqn:Ek.
  - injection H as <-. split; [done|]. split; [|by left]. unfold has_key in Ek. apply existsb_true_elem in Ek as (r & Hr & Hk).
    apply (proj1 (py_eq_true _ _)) in Hk. rewrite <- Hk. by apply list_elem_of_fmap_2.
  - injection H as <-. apply has_key_false in Ek. simpl. split; [done|]. split; [|right; by split]. rewrite fmap_app. apply elem_of_app. right. by left.
Qed.
Lemma insert_candidate_ok c t t' : insert_candidate c t = (Ok (), t') ->
  t'.(lt_events) = t.(lt_events) /\ c.(sc_candidate_id) ∈ sc_candidate_id <$> t'.(lt_candidates) /\
  (t'.(lt_candidates) = t.(lt_candidates) \/
   ~ c.(sc_candidate_id) ∈ (sc_candidate_id <$> t.(lt_candidates)) /\ t'.(lt_candidates) = t.(lt_candidates) ++ [candidate_row c]).
Proof.
  unfold insert_candidate. intros H. apply M_bind_ok in H as ([] & t1 & [E1 E2]%ledger_statement_ok & H). apply M_bind_ok in H as (? & ? & [= <- <-] & H).
  apply M_bind_ok in H as ([] & ? & [_ ->]%lift_ok & H). apply M_bind_ok in H as ([] & ? & [_ ->]%lift_ok & H). rewrite <- E1, <- E2.
  destruct (has_key _ _ _) eqn:Ek.
  - injection H as <-. split; [done|]. split; [|by left]. unfold has_key in Ek. apply existsb_true_elem in Ek as (r & Hr & Hk).
    apply (proj1 (py_eq_true _ _)) in Hk. rewrite <- Hk. by apply list_elem_of_fmap_2.
  - injection H as <-. apply has_key_false in Ek. simpl. split; [done|]. split; [|right; by split]. rewrite fmap_app. apply elem_of_app. right. by left.
Qed.

(** What a call does: on return the decision, and the candidate with it, have
    a row, and no earlier row has changed; on an exception, wherever the
    database failed, neither table has changed. *)
Theorem durable_ledger_effect op t :
  match durable_ledger_run op t with
  | (Ok _, t') => t.(lt_events) `prefix_of` t'.(lt_events) /\ t.(lt_candidates) `prefix_of` t'.(lt_candidates) /\
      (op_decision op).(dc_decision_id) ∈ (dc_decision_id <$> t'.(lt_events)) /\
      (forall c, op_candidate op = Some c -> c.(sc_candidate_id) ∈ (sc_candidate_id <$> t'.(lt_candidates)) /\
        (op_decision op).(dc_candidate_id) = Some c.(sc_candidate_id)) /\
      (NoDup (dc_decision_id <$> t.(lt_events)) -> NoDup (dc_decision_id <$> t'.(lt_events)))
  | (Err _, t') => t'.(lt_events) = t.(lt_events) /\ t'.(lt_candidates) = t.(lt_candidates)
  end.
Proof.
  destruct op as [d|c d]; simpl.
  - destruct (durable_append d t) as [[[]|e] t'] eqn:H; [|by eapply ledger_transaction_err].
    apply ledger_transaction_ok in H as (t1 & t2 & (Hc & Hin & Hev)%insert_event_ok & E1 & E2 & E3 & E4). rewrite E3, E4, Hc, E2. rewrite E1 in Hev.
    split_and!; [destruct Hev as [->|[_ ->]]; [done|by apply prefix_app_r]|done|done|done|].
    destruct Hev as [->|[Hn ->]]; [done|]. intros Hd. by apply NoDup_snoc_key.
  - unfold durable_append_candidate, mbind at 1, M_bind, lift. destruct (raise_if _ _) as [u|e] eqn:Er; [|done]. apply raise_if_ok in Er.
    apply orb_false_iff in Er as [Ei%(proj1 (py_ne_false _ _)) _]. destruct (ledger_transaction _ t) as [[[]|e] t'] eqn:H; [|by eapply ledger_transaction_err].
    apply ledger_transaction_ok in H as (t1 & t2 & H & E1 & E2 & E3 & E4). apply M_bind_ok in H as ([] & t3 & (He3 & Hcin & Hcs)%insert_candidate_ok & H).
    apply insert_event_ok in H as (Hc & Hin & Hev). rewrite E3, E4, Hc. rewrite He3, E1 in Hev. rewrite E2 in Hcs.
    split_and!; [destruct Hev as [->|[_ ->]]; [done|by apply prefix_app_r]|destruct Hcs as [->|[_ ->]]; [done|by apply prefix_app_r]|done|by intros ? [= <-]|].
    destruct Hev as [->|[Hn ->]]; [done|]. intros Hd. by apply NoDup_snoc_key.
Qed.

(** ** Where the in-memory ledger agrees *)

Section Simulation.
Context {A : Type} (key : A -> string) (row_of : A -> A) (same : A -> A -> Prop) `{!PreOrder same}.
Context (row_key : forall a, key (row_of a) = key a).

(** A row stands for an entry: it was made from one that is the same. *)
Definition stands_for (row : A) (p : string * A) : Prop := p.1 = key p.2 /\ exists a, row = row_of a /\ key a = p.1 /\ same a p.2.

Lemma stands_keys rows l : Forall2 stands_for rows l -> key <$> rows = l.*1.
Proof. induction 1 as [|r [k a] rows l (Hk & x & -> & Hx & _) _ IH]; [done|]. rewrite !fmap_cons, IH. f_equal. rewrite row_key. exact Hx. Qed.
Lemma stands_new rows (d : dict string A) a : Forall2 stands_for rows (entries d) -> d !! key a = None ->
  Forall2 stands_for (rows ++ [row_of a]) (entries (<[key a := a]> d)).
Proof.
  intros H Hn. rewrite dict_entries_insert_None by done. apply Forall2_app; [done|]. constructor; [|constructor]. split; [done|]. exists a.
  split; [done|]. split; [done|]. simpl. reflexivity.
Qed.
Lemma stands_again rows (d : dict string A) a w : Forall2 stands_for rows (entries d) -> d !! key a = Some w -> same w a ->
  Forall2 stands_for rows (entries (<[key a := a]> d)).
Proof.
  destruct d as [l]. unfold lookup, dict_lookup, insert, dict_insert. simpl. induction 1 as [|r [k x] rows l Hr Hrest IH]; [done|]. simpl.
  destruct (decide (key a = k)) as [<-|Hne]; [|intros Hw Hs; constructor; [done|by apply IH]]. intros [= ->] Hs. constructor; [|exact Hrest].
  destruct Hr as (_ & y & -> & Hy & Hyw). split; [done|]. exists y. split; [done|]. split; [done|]. simpl in *. by transitivity w.
Qed.
End Simulation.

Definition same_candidate (a b : SignalCandidate) : Prop := a = b \/ a ==p b = true.
Lemma same_candidate_preorder : PreOrder same_candidate.
Proof.
  split; [by left|]. intros a b c [->|H1] [->|H2]; [by left|by right|by right|]. right. revert H1 H2.
  unfold py_eq at 1 2 3, py_eq_SignalCandidate. rewrite !andb_true_iff. intros H1 H2. repeat split; (eapply py_eq_trans; [apply H1|apply H2]).
Qed.
#[local] Existing Instance same_candidate_preorder.

(** The tables hold the entries of the dicts, in their order. *)
Record ledger_simulates (t : LedgerTables) (s : InMemoryDecisionLedger) : Prop := {
  ls_events : Forall2 (stands_for dc_decision_id event_row same_decision) t.(lt_events) (entries s.(ml_decisions));
  ls_candidates : Forall2 (stands_for sc_candidate_id candidate_row same_candidate) t.(lt_candidates) (entries s.(ml_candidates)) }.
(** No NaN and no infinity in what is written, and the checks of the candidate table. *)
Definition storable_op (op : LedgerOp) : Prop :=
  jsonb_pairs (op_decision op).(dc_metrics) = Ok () /\
  (forall c, op_candidate op = Some c -> jsonb_pairs c.(sc_evidence) = Ok () /\ candidate_check c = true).

Lemma dict_lookup_keyed {V} (d : dict string V) (rows : list string) k : rows = dict_keys d -> d !! k = None <-> ~ k ∈ (rows).
Proof. intros ->. apply dict_lookup_None_keys. Qed.

Lemma append_simulated d t s s' : ledger_simulates t s -> append d s = (Ok (), s') -> jsonb_pairs d.(dc_metrics) = Ok () -> t.(lt_faults) = [] ->
  exists t', insert_event d t = (Ok (), t') /\ ledger_simulates t' s' /\ t'.(lt_faults) = [].
Proof.
  intros [He Hc] H Hj Hf. destruct (append_cases d s) as [(w & _ & _ & E)|[Hcf E]]; rewrite E in H; [done|]. injection H as <-.
  pose proof (stands_keys dc_decision_id event_row same_decision (fun _ => eq_refl) _ _ He) as Hk. unfold insert_event, mbind, M_bind, get_state, lift, ledger_statement.
  rewrite Hf, Hj. destruct (s.(ml_decisions) !! d.(dc_decision_id)) as [w|] eqn:Ew.
  - assert (has_key dc_decision_id t.(lt_events) d.(dc_decision_id) = true) as ->.
    { destruct (has_key _ _ _) eqn:Eh; [done|]. apply has_key_false, (dict_lookup_keyed s.(ml_decisions) _ _ Hk) in Eh. congruence. }
    eexists. split; [done|]. split; [|done]. split; [|done]. simpl. apply (stands_again _ _ _ _ _ _ w); [done|done|].
    right. by apply (proj1 (conflicts_false _ _) Hcf).
  - assert (has_key dc_decision_id t.(lt_events) d.(dc_decision_id) = false) as -> by (apply has_key_false; by apply (dict_lookup_keyed _ _ _ Hk)).
    eexists. split; [done|]. split; [|done]. split; [|done]. simpl. by apply (stands_new dc_decision_id event_row same_decision).
Qed.

Lemma candidate_simulated c t s : ledger_simulates t s -> conflicts (s.(ml_candidates) !! c.(sc_candidate_id)) c = false ->
  jsonb_pairs c.(sc_evidence) = Ok () -> candidate_check c = true -> t.(lt_faults) = [] ->
  exists t', insert_candidate c t = (Ok (), t') /\
    ledger_simulates t' {| ml_decisions := s.(ml_decisions); ml_candidates := <[c.(sc_candidate_id) := c]> s.(ml_candidates) |} /\ t'.(lt_faults) = [].
Proof.
  intros [He Hc] Hcf Hj Hck Hf. pose proof (stands_keys sc_candidate_id candidate_row same_candidate (fun _ => eq_refl) _ _ Hc) as Hk.
  unfold insert_candidate, mbind, M_bind, get_state, lift, ledger_statement. rewrite Hf, Hj. unfold check. rewrite Hck. simpl.
  destruct (s.(ml_candidates) !! c.(sc_candidate_id)) as [w|] eqn:Ew.
  - assert (has_key sc_candidate_id t.(lt_candidates) c.(sc_candidate_id) = true) as ->.
    { destruct (has_key _ _ _) eqn:Eh; [done|]. apply has_key_false, (dict_lookup_keyed s.(ml_candidates) _ _ Hk) in Eh. congruence. }
    eexists. split; [done|]. split; [|done]. split; [done|]. simpl. apply (stands_again _ _ _ _ _ _ w); [done|done|].
    right. by apply (proj1 (conflicts_false _ _) Hcf).
  - assert (has_key sc_candidate_id t.(lt_candidates) c.(sc_candidate_id) = false) as -> by (apply has_key_false; by apply (dict_lookup_keyed _ _ _ Hk)).
    eexists. split; [done|]. split; [|done]. split; [done|]. simpl. by apply (stands_new sc_candidate_id candidate_row same_candidate).
Qed.

Lemma transaction_runs {A} (m : M LedgerTables A) t a t' : t.(lt_faults) = [] -> m t = (Ok a, t') -> t'.(lt_faults) = [] -> ledger_transaction m t = (Ok a, t').
Proof.
  intros Hf Hm Hf'. unfold ledger_transaction, mbind, M_bind, ledger_statement at 1. rewrite Hf. simpl. rewrite Hm. unfold ledger_statement. by rewrite Hf'.
Qed.

Lemma ledger_step_simulated op t s s' : ledger_simulates t s -> ledger_run op s = (Ok (), s') -> storable_op op -> t.(lt_faults) = [] ->
  exists t', durable_ledger_run op t = (Ok (), t') /\ ledger_simulates t' s' /\ t'.(lt_faults) = [].
Proof.
  intros Hs H [Hj Hcand] Hf. destruct op as [d|c d]; simpl in *.
  - destruct (append_simulated d t s s' Hs H Hj Hf) as (t' & Hi & Hs' & Hf'). exists t'. split; [|done]. by apply transaction_runs.
  - destruct (Hcand c eq_refl) as [Hjc Hck]. unfold append_candidate in H. apply M_bind_ok in H as (? & ? & [= <- <-] & H).
    apply M_bind_ok in H as ([] & ? & [Hcf%raise_if_ok ->]%lift_ok & H). apply M_bind_ok in H as ([] & ? & [Hm ->]%lift_ok & H).
    apply M_bind_ok in H as ([] & ? & [= <-] & H).
    destruct (candidate_simulated c t s Hs Hcf Hjc Hck Hf) as (t1 & Hi1 & Hs1 & Hf1).
    destruct (append_simulated d t1 _ s' Hs1 H Hj Hf1) as (t' & Hi & Hs' & Hf'). exists t'. split; [|done].
    unfold durable_append_candidate, mbind at 1, M_bind, lift. rewrite Hm. apply transaction_runs; [done| |done].
    unfold mbind, M_bind. by rewrite Hi1.
Qed.

Definition new_ledger_tables : LedgerTables := {| lt_candidates := []; lt_events := []; lt_faults := [] |}.

Lemma ledger_runs_simulated ops : forall t s s', ledger_simulates t s -> for_each ops ledger_run s = (Ok (), s') -> Forall storable_op ops ->
  t.(lt_faults) = [] -> exists t', for_each ops durable_ledger_run t = (Ok (), t') /\ ledger_simulates t' s'.
Proof.
  induction ops as [|op ops IH]; intros t s s' Hs H Hst Hf; simpl in *; [injection H as <-; by exists t|].
  apply Forall_cons in Hst as [Hop Hops]. apply M_bind_ok in H as ([] & s1 & H1 & H).
  destruct (ledger_step_simulated op t s s1 Hs H1 Hop Hf) as (t1 & Hr & Hs1 & Hf1). destruct (IH t1 s1 s' Hs1 H Hops Hf1) as (t' & Hr' & Hs').
  exists t'. split; [|done]. unfold mbind, M_bind. by rewrite Hr.
Qed.

(** The durable ledger implements the in-memory one: every history that the
    in-memory ledger accepts, and whose numbers JSON can hold, is accepted, and
    afterwards the decisions read for a cycle are those of the in-memory
    ledger, each as its columns keep it. *)
Theorem durable_ledger_refines ops s' cycle :
  for_each ops ledger_run empty_ledger = (Ok (), s') -> Forall storable_op ops ->
  exists t', for_each ops durable_ledger_run new_ledger_tables = (Ok (), t') /\
    (forall d, d ∈ for_cycle cycle s' -> exists d0, event_row d0 ∈ cycle_rows cycle t' /\ same_decision d0 d) /\
    (forall row, row ∈ cycle_rows cycle t' -> exists d d0, d ∈ for_cycle cycle s' /\ row = event_row d0 /\ same_decision d0 d).
Proof.
  intros H Hst. assert (H0 : ledger_simulates new_ledger_tables empty_ledger) by (split; constructor).
  destruct (ledger_runs_simulated ops _ _ _ H0 H Hst eq_refl) as (t' & Hr & [He _]). exists t'. split; [done|]. split.
  - intros d [Hd Hc]%filter_elem. apply (proj1 (py_eq_true _ _)) in Hc. apply list_elem_of_fmap in Hd as ([k x] & Hx & Hin). simpl in Hx. subst x.
    apply list_elem_of_lookup in Hin as [i Hi]. destruct (Forall2_lookup_r _ _ _ _ _ He Hi) as (row & Hrow & _ & d0 & -> & _ & Hs).
    exists d0. split; [|done]. apply py_sorted_elem, filter_elem. split; [by eapply list_elem_of_lookup_2|]. apply py_eq_true. simpl.
    pose proof (same_decision_cycle _ _ Hs). simpl in *. congruence.
  - intros row Hrow. apply py_sorted_elem, filter_elem in Hrow as [Hrow Hc]. apply (proj1 (py_eq_true _ _)) in Hc.
    apply list_elem_of_lookup in Hrow as [i Hi]. destruct (Forall2_lookup_l _ _ _ _ _ He Hi) as ([k d] & Hd & _ & d0 & -> & _ & Hs).
    exists d, d0. split; [|done]. apply filter_elem. split; [apply list_elem_of_fmap; exists (k, d); split; [done|by eapply list_elem_of_lookup_2]|].
    apply py_eq_true. pose proof (same_decision_cycle _ _ Hs) as Hcy. simpl in *. congruence.
Qed.

(** ** Concrete runs *)

Module DecisionStoreExample.
Import RegistryExample DecisionExample.

Definition metrics_decision : Decision := {|
  dc_decision_id := "d-1"; dc_cycle_id := "cycle-1"; dc_market := NSE; dc_symbol := "TCS"; dc_timeframe := None; dc_stage := SCORING;
  dc_status := PASSED; dc_reason_code := "SCORED"; dc_occurred_at := now; dc_candidate_id := None; dc_strategy_key := None; dc_detail := "";
  dc_metrics := [("score", 0.5%float); ("edge", 0.25%float)] |}.
(** The metrics of a decision come back in the order of their names. *)
Example metrics_reordered : option_map dc_metrics (head (cycle_rows "cycle-1" (durable_append metrics_decision new_ledger_tables).2)) =
  Some [("edge", 0.25%float); ("score", 0.5%float)].
Proof. vm_compute. reflexivity. Qed.
(** What the in-memory ledger refuses, [redecided_later_raises], is ignored. *)
Example redecided_later_ignored :
  exists d1 d2 t1, entry_rejected now = Ok d1 /\ entry_rejected later = Ok d2 /\ durable_append d1 new_ledger_tables = (Ok (), t1) /\
    durable_append d2 t1 = (Ok (), t1).
Proof. do 3 eexists. repeat split; vm_compute; reflexivity. Qed.

Definition history : list LedgerOp := [OpAppend metrics_decision; OpAppend first; OpAppend metrics_decision].
Lemma durable_ledger_refines_witness :
  exists t', for_each history durable_ledger_run new_ledger_tables = (Ok (), t') /\ exists d0, event_row d0 ∈ cycle_rows "cycle-1" t' /\ same_decision d0 first.
Proof.
  assert (H : for_each history ledger_run empty_ledger = (Ok (), (for_each history ledger_run empty_ledger).2)) by (vm_compute; reflexivity).
  destruct (durable_ledger_refines history _ "cycle-1" H) as (t' & Hr & Hd & _).
  - repeat constructor; intros; discriminate.
  - exists t'. split; [exact Hr|]. apply Hd. vm_compute. right. left.
Defined.

End DecisionStoreExample.
