(* ===== verification/StrategyRuntime.v ===== *)
(** * Runtime strategy contracts (src/nanodelta/strategies/runtime.py)

    The evidence a strategy sees, the signals it may return with the checks of
    their constructors, deterministic candidates, and the catalog that binds
    an identity to one plugin. *)

From Stdlib Require Import ZArith Floats.
From stdpp Require Import prelude strings numbers list.
From S2P Require Import Prelude PyData PyFloat FloatTheory PyText Sha256 PyTime Contracts Registry Risk.

Record RegimeEvidence := {
  re_market_fit : float;
  re_sector_fit : float;
  re_symbol_fit : float;
  re_mtf_alignment : float;
  re_symbol_regime_label : string }.
Definition default_RegimeEvidence : RegimeEvidence := {|
  re_market_fit := 1; re_sector_fit := 1; re_symbol_fit := 1; re_mtf_alignment := 1;
  re_symbol_regime_label := "UNKNOWN" |}.
Definition RegimeEvidence_post_init (r : RegimeEvidence) : result unit :=
  raise_if (existsb (fun v => negb (isfinite v) || (v <? 0)%float)
              [r.(re_market_fit); r.(re_sector_fit); r.(re_symbol_fit); r.(re_mtf_alignment)])
    (ValueError "regime scoring terms must be finite and non-negative").

Record StrategyContext := {
  cx_market : Market;
  cx_symbol : string;
  cx_sector : option string;
  cx_timeframe : string;
  cx_trade_horizon : string;
  cx_feature_set_version : Z;
  cx_event_time : datetime;
  cx_gold_snapshot_ids : list string;
  cx_features : dict string float;
  cx_settled : bool;
  cx_complete : bool;
  cx_adjusted : bool;
  cx_fresh : bool;
  cx_warm : bool;
  cx_tradeable : bool;
  cx_tradeability_reason : string;
  cx_regime : RegimeEvidence }.
Definition StrategyContext_post_init (c : StrategyContext) : result unit :=
  _ ← raise_if (str_empty c.(cx_symbol) || str_empty c.(cx_timeframe) || str_empty c.(cx_trade_horizon))
        (ValueError "symbol, timeframe, and trade_horizon are required");
  _ ← raise_if ((c.(cx_feature_set_version) <? 1)%Z || is_nil c.(cx_gold_snapshot_ids))
        (ValueError "positive feature version and Gold lineage are required");
  _ ← raise_if (existsb (fun v => negb (isfinite v)) (dict_values c.(cx_features)))
        (ValueError "strategy features must be finite");
  _ ← utc c.(cx_event_time) "event_time";
  mret tt.

Record StrategySignal := {
  sg_action : AdvisoryAction;
  sg_confidence : float;
  sg_reference_price : float;
  sg_stop_price : float;
  sg_target_price : float;
  sg_estimated_cost_r : float;
  sg_historical_expectancy_r : float;
  sg_ml_tilt_r : float }.
Definition StrategySignal_post_init (s : StrategySignal) : result unit :=
  _ ← raise_if (s.(sg_action) ==p ABSTAIN) (ValueError "a strategy signal must be BUY or SELL");
  _ ← raise_if (existsb (fun v => negb (isfinite v))
                  [s.(sg_confidence); s.(sg_reference_price); s.(sg_stop_price); s.(sg_target_price);
                   s.(sg_estimated_cost_r); s.(sg_historical_expectancy_r); s.(sg_ml_tilt_r)])
        (ValueError "signal values must be finite");
  _ ← raise_if (negb ((0 <=? s.(sg_confidence)) && (s.(sg_confidence) <=? 1))
                || (s.(sg_reference_price) <=? 0))%float
        (ValueError "signal confidence or reference price is invalid");
  _ ← raise_if (s.(sg_estimated_cost_r) <? 0)%float (ValueError "estimated cost cannot be negative");
  _ ← raise_if ((s.(sg_action) ==p BUY) &&
                negb ((s.(sg_stop_price) <? s.(sg_reference_price)) &&
                      (s.(sg_reference_price) <? s.(sg_target_price))))%float
        (ValueError "BUY geometry requires stop < entry < target");
  raise_if ((s.(sg_action) ==p SELL) &&
            negb ((s.(sg_target_price) <? s.(sg_reference_price)) &&
                  (s.(sg_reference_price) <? s.(sg_stop_price))))%float
    (ValueError "SELL geometry requires target < entry < stop").

Record DeterministicCandidate := {
  ca_candidate_id : string;
  ca_identity : StrategyIdentity;
  ca_approval_id : string;
  ca_symbol : string;
  ca_sector : option string;
  ca_event_time : datetime;
  ca_gold_snapshot_ids : list string;
  ca_signal : StrategySignal;
  ca_regime : RegimeEvidence }.

(** [DeterministicCandidate.create] *)
Definition DeterministicCandidate_create (definition : StrategyDefinition) (approval_id : string)
    (context : StrategyContext) (signal : StrategySignal) : result DeterministicCandidate :=
  event_time ← utc context.(cx_event_time) "event_time";
  mret {| ca_candidate_id := stable_id ([identity_key definition.(sd_identity); context.(cx_symbol);
                               isoformat event_time; AdvisoryAction_value signal.(sg_action)]
                               ++ context.(cx_gold_snapshot_ids));
          ca_identity := definition.(sd_identity);
          ca_approval_id := approval_id;
          ca_symbol := context.(cx_symbol);
          ca_sector := context.(cx_sector);
          ca_event_time := context.(cx_event_time);
          ca_gold_snapshot_ids := context.(cx_gold_snapshot_ids);
          ca_signal := signal;
          ca_regime := context.(cx_regime) |}.

(** A plugin object: its identity as an object, and its methods, which are
    functions of the context that may raise. *)
Record StrategyPlugin := {
  pl_object : Z;
  pl_definition : StrategyDefinition;
  pl_compatibility : StrategyContext -> result (bool * string);
  pl_generate : StrategyContext -> result (option StrategySignal) }.

Definition StrategyRuntimeCatalog : Type := dict StrategyIdentity StrategyPlugin.

Definition catalog_register (plugin : StrategyPlugin) : M StrategyRuntimeCatalog unit :=
  c ← get_state;
  let identity := plugin.(pl_definition).(sd_identity) in
  _ ← lift (raise_if (match c !! identity with
                      | Some existing => negb (existing.(pl_object) =? plugin.(pl_object))%Z
                      | None => false
                      end) (ValueError "runtime strategy identity is already registered"));
  modify (fun c => <[identity := plugin]> c).

Definition catalog_require (c : StrategyRuntimeCatalog) (identity : StrategyIdentity) : result StrategyPlugin :=
  match c !! identity with
  | Some p => Ok p
  | None => Err (LookupError "approved strategy has no runtime plugin")
  end.

(** ** Facts about valid values *)

(** The geometry of a signal its constructor accepts: finite prices, the stop
    and the target strictly on their sides of the entry. *)
Record signal_geometry (s : StrategySignal) : Prop := {
  sgv_action : s.(sg_action) = BUY \/ s.(sg_action) = SELL;
  sgv_finite : Forall (fun v => isfinite v = true)
    [s.(sg_confidence); s.(sg_reference_price); s.(sg_stop_price); s.(sg_target_price);
     s.(sg_estimated_cost_r); s.(sg_historical_expectancy_r); s.(sg_ml_tilt_r)];
  sgv_reference : (0 < fval s.(sg_reference_price))%Z;
  sgv_buy : s.(sg_action) = BUY ->
    (s.(sg_stop_price) <? s.(sg_reference_price))%float = true /\
    (s.(sg_reference_price) <? s.(sg_target_price))%float = true;
  sgv_sell : s.(sg_action) = SELL ->
    (s.(sg_target_price) <? s.(sg_reference_price))%float = true /\
    (s.(sg_reference_price) <? s.(sg_stop_price))%float = true }.

Lemma StrategySignal_valid s : StrategySignal_post_init s = Ok tt -> signal_geometry s.
Proof.
  unfold StrategySignal_post_init. intros H. inv_ok H.
  match goal with E : sg_action s ==p ABSTAIN = false |- _ => rewrite py_eq_false in E; rename E into Ha end.
  match goal with E : existsb _ _ = false |- _ => apply existsb_false_Forall in E; rename E into Hfin end.
  match goal with E : _ || (sg_reference_price s <=? 0)%float = false |- _ =>
    apply orb_false_iff in E as [_ Hr] end.
  assert (Hf : Forall (fun v => isfinite v = true)
    [s.(sg_confidence); s.(sg_reference_price); s.(sg_stop_price); s.(sg_target_price);
     s.(sg_estimated_cost_r); s.(sg_historical_expectancy_r); s.(sg_ml_tilt_r)]).
  { eapply Forall_impl; [exact Hfin|]. intros v. apply negb_false_iff. }
  split; [by destruct (sg_action s); [left|right|] | done | | |].
  - apply positive_spec; [|done]. by apply Forall_cons in Hf as [_ [? _]%Forall_cons].
  - intros E. rewrite E in *.
    repeat match goal with Hx : (_ ==p _) && negb _ = false |- _ => revert Hx end.
    simpl. rewrite negb_false_iff, andb_true_iff. tauto.
  - intros E. rewrite E in *.
    repeat match goal with Hx : (_ ==p _) && negb _ = false |- _ => revert Hx end.
    simpl. rewrite negb_false_iff, andb_true_iff. tauto.
Qed.

(** The stop is never at the entry price: the distance an allocation divides
    by is positive. *)
Lemma stop_distance_positive s : signal_geometry s ->
  (0 <? abs (s.(sg_reference_price) - s.(sg_stop_price)))%float = true.
Proof.
  intros [Ha Hf _ Hb Hs]. apply Forall_cons in Hf as [_ [Hr [Hst _]%Forall_cons]%Forall_cons].
  apply fabs_sub_pos; [done..|]. apply feqb_false; [by apply isfinite_nan..|]. destruct Ha as [E|E].
  - destruct (Hb E) as [(_ & _ & ?)%fltb_iff _]. lia.
  - destruct (Hs E) as [_ (_ & _ & ?)%fltb_iff]. lia.
Qed.
