(* ===== verification/Pipeline.v ===== *)
(** * Staged decision pipeline (src/nanodelta/orchestration/decision_pipeline.py)

    One cycle: manage positions, then generate, score, deduplicate, review,
    allocate and revalidate entry candidates, recording a decision for every
    outcome.  The cycle runs over a world [W] that is a decision ledger; the
    reviewer and the position manager are objects outside the pipeline, given
    as computations over the same world. *)

From Stdlib Require Import ZArith Floats.
From stdpp Require Import prelude strings numbers list sorting.
From S2P Require Import Prelude PyData PyFloat FloatTheory PyText Sha256 PyTime Contracts Registry Risk Decisions StrategyRuntime.

Inductive CycleMode := NORMAL | EXITS_ONLY.
#[export] Instance CycleMode_eq_dec : EqDecision CycleMode.
Proof. solve_decision. Defined.

Record CyclePreconditions := {
  cp_entry_kill_switch_clear : bool;
  cp_daily_loss_capacity : bool;
  cp_entry_session_open : bool;
  cp_capital_available : bool }.
Definition preconditions_mode (p : CyclePreconditions) : CycleMode :=
  if forallb id [p.(cp_entry_kill_switch_clear); p.(cp_daily_loss_capacity);
                 p.(cp_entry_session_open); p.(cp_capital_available)]
  then NORMAL else EXITS_ONLY.
Definition preconditions_reason (p : CyclePreconditions) : string :=
  if negb p.(cp_entry_kill_switch_clear) then "ENTRY_KILL_SWITCH_ACTIVE"
  else if negb p.(cp_daily_loss_capacity) then "DAILY_LOSS_LIMIT_REACHED"
  else if negb p.(cp_entry_session_open) then "ENTRY_SESSION_CLOSED"
  else if negb p.(cp_capital_available) then "INSUFFICIENT_CAPITAL"
  else "ENTRY_PRECONDITIONS_PASSED".

Record ScoreBreakdown := {
  sb_strategy_confidence : float;
  sb_market_regime_fit : float;
  sb_sector_regime_fit : float;
  sb_symbol_regime_fit : float;
  sb_mtf_alignment : float;
  sb_historical_expectancy_r : float;
  sb_ml_tilt_r : float;
  sb_estimated_cost_r : float;
  sb_expected_r_net_of_costs : float }.

Record ScoredCandidate := {
  sc_candidate : DeterministicCandidate;
  sc_score : ScoreBreakdown }.

Inductive LlmReviewMode := OFF | SHADOW | ENFORCED_VETO.
#[export] Instance LlmReviewMode_eq_dec : EqDecision LlmReviewMode.
Proof. solve_decision. Defined.

Inductive LlmVerdict := PASS | BLOCK | VERDICT_ABSTAIN | UNAVAILABLE.
#[export] Instance LlmVerdict_eq_dec : EqDecision LlmVerdict.
Proof. solve_decision. Defined.
Definition LlmVerdict_value (v : LlmVerdict) : string :=
  match v with
  | PASS => "PASS" | BLOCK => "BLOCK" | VERDICT_ABSTAIN => "ABSTAIN" | UNAVAILABLE => "UNAVAILABLE"
  end.

Record AllocationPolicy := {
  ap_equity : float;
  ap_risk_fraction_per_trade : float;
  ap_max_order_notional : float;
  ap_max_total_new_notional : float;
  ap_max_positions : Z;
  ap_max_sector_positions : Z;
  ap_max_pairwise_correlation : float;
  ap_minimum_expected_r : float;
  ap_maximum_entry_drift_fraction : float;
  ap_minimum_reward_risk : float }.
Definition AllocationPolicy_post_init (p : AllocationPolicy) : result unit :=
  _ ← raise_if (existsb (fun v => negb (isfinite v) || (v <=? 0)%float)
                  [p.(ap_equity); p.(ap_risk_fraction_per_trade); p.(ap_max_order_notional);
                   p.(ap_max_total_new_notional)]
                || existsb (fun v => negb (isfinite (float_of_Z v)) || (v <=? 0)%Z)
                  [p.(ap_max_positions); p.(ap_max_sector_positions)])
        (ValueError "allocation limits must be finite and positive");
  _ ← raise_if (negb ((0 <=? p.(ap_max_pairwise_correlation)) && (p.(ap_max_pairwise_correlation) <=? 1)))%float
        (ValueError "correlation limit must be in [0, 1]");
  raise_if ((p.(ap_maximum_entry_drift_fraction) <? 0) || (p.(ap_minimum_reward_risk) <=? 0))%float
    (ValueError "entry revalidation settings are invalid").

Record PortfolioAllocation := {
  pa_candidate : ScoredCandidate;
  pa_quantity : float;
  pa_expected_entry_price : float;
  pa_stop_price : float;
  pa_target_price : float }.
Definition notional (a : PortfolioAllocation) : float :=
  (a.(pa_quantity) * a.(pa_expected_entry_price))%float.

Record PipelineResult := {
  pr_cycle_id : string;
  pr_mode : CycleMode;
  pr_candidates : list DeterministicCandidate;
  pr_scored : list ScoredCandidate;
  pr_allocations : list PortfolioAllocation;
  pr_decisions : list Decision }.

(** ** Cycle identity

    [sorted] of the contexts' tuples, compared member by member, and [str] of
    the tuple of tuples. *)

Fixpoint strs_ltb (a b : list string) : bool :=
  match a, b with
  | _, [] => false
  | [], _ :: _ => true
  | x :: a', y :: b' => str_then x y (strs_ltb a' b')
  end.
Definition cycle_tuple : Type := list string * Z * list string.
Definition cycle_tuple_lt (a b : cycle_tuple) : bool :=
  let '(s, v, g) := a in let '(s', v', g') := b in
  if bool_decide (s = s') then if (v =? v')%Z then strs_ltb g g' else (v <? v')%Z
  else strs_ltb s s'.
Definition context_tuple (c : StrategyContext) : result cycle_tuple :=
  event_time ← utc c.(cx_event_time) "context.event_time";
  mret ([Market_value c.(cx_market); c.(cx_symbol); isoformat event_time; c.(cx_timeframe);
         c.(cx_trade_horizon)], c.(cx_feature_set_version), c.(cx_gold_snapshot_ids)).
Definition repr_cycle_tuple (t : cycle_tuple) : string :=
  let '(s, v, g) := t in repr_tuple ((repr_str <$> s) ++ [str_Z v] ++ (repr_str <$> g)).
Definition cycle_identity (contexts : list StrategyContext) : result string :=
  tuples ← map_result context_tuple contexts;
  mret (stable_id ["decision-cycle"; repr_tuple (repr_cycle_tuple <$> py_sorted cycle_tuple_lt tuples)]).

(** ** Pure parts of the stages *)

Definition readiness_reason (c : StrategyContext) : option string :=
  snd <$> find (fun '(passed, _) => negb passed)
    [(c.(cx_settled), "NO_SETTLED_BAR"); (c.(cx_complete), "MISSING_BARS");
     (c.(cx_adjusted), "CORP_ACTION_SUSPECT"); (c.(cx_fresh), "STALE_QUOTE");
     (c.(cx_warm), "INDICATOR_WARMUP")].

Definition expected_r (signal : StrategySignal) (regime : RegimeEvidence) : float :=
  (signal.(sg_confidence) * regime.(re_market_fit) * regime.(re_sector_fit) * regime.(re_symbol_fit)
   * regime.(re_mtf_alignment) + signal.(sg_historical_expectancy_r) + signal.(sg_ml_tilt_r)
   - signal.(sg_estimated_cost_r))%float.
Definition score_of (c : DeterministicCandidate) : ScoredCandidate :=
  let signal := c.(ca_signal) in let regime := c.(ca_regime) in
  {| sc_candidate := c;
     sc_score := {| sb_strategy_confidence := signal.(sg_confidence);
                    sb_market_regime_fit := regime.(re_market_fit);
                    sb_sector_regime_fit := regime.(re_sector_fit);
                    sb_symbol_regime_fit := regime.(re_symbol_fit);
                    sb_mtf_alignment := regime.(re_mtf_alignment);
                    sb_historical_expectancy_r := signal.(sg_historical_expectancy_r);
                    sb_ml_tilt_r := signal.(sg_ml_tilt_r);
                    sb_estimated_cost_r := signal.(sg_estimated_cost_r);
                    sb_expected_r_net_of_costs := expected_r signal regime |} |}.

(** The sort key [(-expected_r, identity.key, symbol, candidate_id)]. *)
Definition rank_lt (a b : ScoredCandidate) : bool :=
  let x := (- a.(sc_score).(sb_expected_r_net_of_costs))%float in
  let y := (- b.(sc_score).(sb_expected_r_net_of_costs))%float in
  if (x =? y)%float then
    str_then (identity_key a.(sc_candidate).(ca_identity)) (identity_key b.(sc_candidate).(ca_identity))
    (str_then a.(sc_candidate).(ca_symbol) b.(sc_candidate).(ca_symbol)
      (str_ltb a.(sc_candidate).(ca_candidate_id) b.(sc_candidate).(ca_candidate_id)))
  else (x <? y)%float.

Definition symbol_key (c : DeterministicCandidate) : Market * string :=
  (c.(ca_identity).(si_market), c.(ca_symbol)).
Definition item_key (i : ScoredCandidate) : Market * string := symbol_key i.(sc_candidate).
Definition item_action (i : ScoredCandidate) : AdvisoryAction := i.(sc_candidate).(ca_signal).(sg_action).

(** [groups.setdefault(key, []).append(item)] *)
Definition add_to_group (groups : dict (Market * string) (list ScoredCandidate)) (item : ScoredCandidate)
    : dict (Market * string) (list ScoredCandidate) :=
  let groups := dict_setdefault (item_key item) [] groups in
  <[item_key item := default [] (groups !! item_key item) ++ [item]]> groups.
Definition group_items (scored : list ScoredCandidate) : dict (Market * string) (list ScoredCandidate) :=
  foldl add_to_group ∅ scored.

(** The members of a group that go on, and every member's outcome. *)
Definition conflicting (group : list ScoredCandidate) : bool :=
  (1 <? length (fromkeys (item_action <$> group)))%nat.

Definition score_metrics (s : ScoreBreakdown) : list (string * float) :=
  [("strategy_confidence", s.(sb_strategy_confidence));
   ("market_regime_fit", s.(sb_market_regime_fit));
   ("sector_regime_fit", s.(sb_sector_regime_fit));
   ("symbol_regime_fit", s.(sb_symbol_regime_fit));
   ("mtf_alignment", s.(sb_mtf_alignment));
   ("historical_expectancy_r", s.(sb_historical_expectancy_r));
   ("ml_tilt_r", s.(sb_ml_tilt_r));
   ("estimated_cost_r", s.(sb_estimated_cost_r));
   ("expected_r_net_of_costs", s.(sb_expected_r_net_of_costs))].

Definition correlated (limit : float) (symbol : string) (allocations : list PortfolioAllocation)
    (correlations : dict (string * string) float) : bool :=
  existsb (fun a =>
    let other := a.(pa_candidate).(sc_candidate).(ca_symbol) in
    let value := match correlations !! (symbol, other) with
                 | Some v => v
                 | None => default 0%float (correlations !! (other, symbol))
                 end in
    fgt (abs value) limit) allocations.

(** [candidate.sector or "UNCLASSIFIED"] *)
Definition sector_of (c : DeterministicCandidate) : string :=
  match c.(ca_sector) with
  | Some s => if str_empty s then "UNCLASSIFIED" else s
  | None => "UNCLASSIFIED"
  end.

(** The loop variables of [_allocate]. *)
Record AllocationState := {
  as_allocations : list PortfolioAllocation;
  as_sectors : dict string Z;
  as_total_notional : float }.

Definition signal_evidence (c : DeterministicCandidate) (signal : StrategySignal) : list (string * float) :=
  [("market_regime_fit", c.(ca_regime).(re_market_fit));
   ("sector_regime_fit", c.(ca_regime).(re_sector_fit));
   ("symbol_regime_fit", c.(ca_regime).(re_symbol_fit));
   ("mtf_alignment", c.(ca_regime).(re_mtf_alignment));
   ("historical_expectancy_r", signal.(sg_historical_expectancy_r));
   ("ml_tilt_r", signal.(sg_ml_tilt_r));
   ("estimated_cost_r", signal.(sg_estimated_cost_r))].
Definition candidate_record_of (c : DeterministicCandidate) (cycle_id : string) (signal : StrategySignal)
    : SignalCandidate := {|
  sc_candidate_id := c.(ca_candidate_id);
  sc_cycle_id := cycle_id;
  sc_market := c.(ca_identity).(si_market);
  sc_symbol := c.(ca_symbol);
  sc_timeframe := c.(ca_identity).(si_timeframe);
  sc_strategy_key := identity_key c.(ca_identity);
  sc_approval_id := c.(ca_approval_id);
  sc_event_time := c.(ca_event_time);
  sc_action := signal.(sg_action);
  sc_reference_price := signal.(sg_reference_price);
  sc_stop_price := signal.(sg_stop_price);
  sc_target_price := signal.(sg_target_price);
  sc_confidence := signal.(sg_confidence);
  sc_gold_snapshot_ids := c.(ca_gold_snapshot_ids);
  sc_evidence := signal_evidence c signal |}.

(** ** The stages *)

(** The world the cycle mutates and its local list [emitted]. *)
Record Cycle (W : Type) := MkCycle { cy_world : W; cy_emitted : list Decision }.
Arguments MkCycle {W} cy_world cy_emitted.
Arguments cy_world {W} _.
Arguments cy_emitted {W} _.

Record StagedDecisionPipeline (W : Type) := {
  sp_registry : StrategyRegistry;
  sp_strategies : StrategyRuntimeCatalog;
  sp_policy : AllocationPolicy;
  sp_llm_mode : LlmReviewMode;
  sp_reviewer : option (ScoredCandidate -> M W LlmVerdict);
  sp_position_manager : option (string -> datetime -> M W (list Decision)) }.
Arguments sp_registry {W} _.
Arguments sp_strategies {W} _.
Arguments sp_policy {W} _.
Arguments sp_llm_mode {W} _.
Arguments sp_reviewer {W} _.
Arguments sp_position_manager {W} _.

Definition StagedDecisionPipeline_init {W} (p : StagedDecisionPipeline W)
    : result (StagedDecisionPipeline W) :=
  _ ← raise_if (negb (bool_decide (p.(sp_llm_mode) = OFF)) && negb (bool_decide (is_Some p.(sp_reviewer))))
        (ValueError "an LLM reviewer is required when review is enabled");
  mret p.

(** A method of an object in the world. *)
Definition in_world {W A} (m : M W A) : M (Cycle W) A :=
  zoom cy_world (fun w c => MkCycle w c.(cy_emitted)) m.
(** [emitted.append(decision)] *)
Definition push {W} (d : Decision) : M (Cycle W) unit :=
  modify (fun c => MkCycle c.(cy_world) (c.(cy_emitted) ++ [d])).

Section Stages.
Context {W : Type} `{DecisionLedger W}.
Context (self : StagedDecisionPipeline W).
Context (cycle_id : string) (at_ : datetime).

Definition record_decision (d : Decision) : M (Cycle W) unit :=
  _ ← in_world (ledger_append d); push d.

Definition record_candidate (c : SignalCandidate) (d : Decision) : M (Cycle W) unit :=
  _ ← in_world (ledger_append_candidate c d); push d.

(** [_emit] *)
Definition emit (context : StrategyContext) (stage : DecisionStage) (status : DecisionStatus)
    (reason : string) (strategy_key : option string) : M (Cycle W) unit :=
  decision ← lift (Decision_create cycle_id context.(cx_market) context.(cx_symbol)
                     (Some context.(cx_timeframe)) stage status reason at_ None strategy_key "" []);
  record_decision decision.

(** [_emit_candidate] *)
Definition emit_candidate (item : ScoredCandidate) (stage : DecisionStage) (status : DecisionStatus)
    (reason : string) (extra_metrics : list (string * float)) : M (Cycle W) unit :=
  let candidate := item.(sc_candidate) in
  decision ← lift (Decision_create cycle_id candidate.(ca_identity).(si_market) candidate.(ca_symbol)
                     (Some candidate.(ca_identity).(si_timeframe)) stage status reason at_
                     (Some candidate.(ca_candidate_id)) (Some (identity_key candidate.(ca_identity)))
                     "" (score_metrics item.(sc_score) ++ extra_metrics));
  record_decision decision.

(** [_portfolio_reject] and [_entry_reject] *)
Definition portfolio_reject (item : ScoredCandidate) (reason : string) : M (Cycle W) unit :=
  emit_candidate item PORTFOLIO_CONSTRUCTION REJECTED reason [].
Definition entry_reject (a : PortfolioAllocation) (reason : string) (observed : option float)
    : M (Cycle W) unit :=
  emit_candidate a.(pa_candidate) ENTRY_REVALIDATION REJECTED reason
    (match observed with Some v => [("observed", v)] | None => [] end).

(** [_manage_positions] *)
Definition manage_positions : M (Cycle W) unit :=
  match self.(sp_position_manager) with
  | None => mret tt
  | Some manage =>
      decisions ← in_world (manage cycle_id at_);
      for_each decisions record_decision
  end.

(** [_generate]: one eligible definition for one context. *)
Definition generate_one (context : StrategyContext) (candidates : list DeterministicCandidate)
    (definition : StrategyDefinition) : M (Cycle W) (list DeterministicCandidate) :=
  let key := Some (identity_key definition.(sd_identity)) in
  plugin ← lift (catalog_require self.(sp_strategies) definition.(sd_identity));
  compat ← lift (plugin.(pl_compatibility) context);
  if negb compat.1 then
    _ ← emit context STRATEGY_ELIGIBILITY REJECTED compat.2 key;
    mret candidates
  else
    approval ← lift (require_approval self.(sp_registry) definition.(sd_identity) at_);
    _ ← emit context STRATEGY_ELIGIBILITY PASSED "STRATEGY_ELIGIBLE" key;
    generated ← lift (plugin.(pl_generate) context);
    match generated with
    | None =>
        _ ← emit context SIGNAL REJECTED "NO_TRIGGER" key;
        mret candidates
    | Some signal =>
        candidate ← lift (DeterministicCandidate_create definition approval.(sa_approval_id) context signal);
        candidate_record ← lift (new_SignalCandidate (candidate_record_of candidate cycle_id signal));
        let candidates := candidates ++ [candidate] in
        signal_decision ← lift (Decision_create cycle_id context.(cx_market) context.(cx_symbol)
          (Some context.(cx_timeframe)) SIGNAL PASSED "SIGNAL_GENERATED" at_
          (Some candidate.(ca_candidate_id)) key (AdvisoryAction_value signal.(sg_action))
          ([("reference_price", signal.(sg_reference_price)); ("stop_price", signal.(sg_stop_price));
            ("target_price", signal.(sg_target_price)); ("strategy_confidence", signal.(sg_confidence))]
           ++ signal_evidence candidate signal));
        _ ← record_candidate candidate_record signal_decision;
        mret candidates
    end.

(** [_generate]: one context. *)
Definition generate_context (candidates : list DeterministicCandidate) (context : StrategyContext)
    : M (Cycle W) (list DeterministicCandidate) :=
  match readiness_reason context with
  | Some reason =>
      _ ← emit context DATA_READINESS REJECTED reason None;
      mret candidates
  | None =>
      _ ← emit context DATA_READINESS PASSED "DATA_READY" None;
      if negb context.(cx_tradeable) then
        _ ← emit context TRADEABILITY REJECTED context.(cx_tradeability_reason) None;
        mret candidates
      else
        _ ← emit context TRADEABILITY PASSED "SYMBOL_TRADEABLE" None;
        definitions ← lift (eligible self.(sp_registry) context.(cx_market) context.(cx_timeframe)
                              context.(cx_trade_horizon) context.(cx_feature_set_version) at_);
        match definitions with
        | [] =>
            _ ← emit context STRATEGY_ELIGIBILITY REJECTED "NO_APPROVED_STRATEGY" None;
            mret candidates
        | _ => fold_each definitions candidates (generate_one context)
        end
  end.

Definition generate (contexts : list StrategyContext) : M (Cycle W) (list DeterministicCandidate) :=
  fold_each contexts [] generate_context.

(** [_score] *)
Definition score (candidates : list DeterministicCandidate) : M (Cycle W) (list ScoredCandidate) :=
  result ← fold_each candidates [] (fun result candidate =>
    let item := score_of candidate in
    if fgt item.(sc_score).(sb_expected_r_net_of_costs) self.(sp_policy).(ap_minimum_expected_r) then
      _ ← emit_candidate item SCORING PASSED "POSITIVE_EXPECTED_R" [];
      mret (result ++ [item])
    else
      _ ← emit_candidate item SCORING REJECTED "NON_POSITIVE_EXPECTED_R" [];
      mret result);
  mret (py_sorted rank_lt result).

(** [_resolve_conflicts] *)
Definition resolve_group (resolved : list ScoredCandidate) (group : list ScoredCandidate)
    : M (Cycle W) (list ScoredCandidate) :=
  if conflicting group then
    _ ← for_each group (fun item => emit_candidate item SIGNAL_QUALITY REJECTED "CONFLICTING_SIGNALS" []);
    mret resolved
  else
    match group with
    | [] => mret resolved
    | best :: others =>
        _ ← emit_candidate best SIGNAL_QUALITY PASSED
              (if (length group =? 1)%nat then "NO_CONFLICT" else "BEST_RANKED_DUPLICATE") [];
        _ ← for_each others (fun item =>
              emit_candidate item SIGNAL_QUALITY REJECTED "DUPLICATE_SIGNAL_LOWER_RANKED" []);
        mret (resolved ++ [best])
    end.
Definition resolve_conflicts (scored : list ScoredCandidate) : M (Cycle W) (list ScoredCandidate) :=
  resolved ← fold_each (dict_values (group_items scored)) [] resolve_group;
  mret (py_sorted rank_lt resolved).

(** [_review]: an exception of the reviewer is the verdict UNAVAILABLE. *)
Definition ask_reviewer (reviewer : ScoredCandidate -> M W LlmVerdict) (item : ScoredCandidate)
    : M (Cycle W) LlmVerdict := fun c =>
  match in_world (reviewer item) c with
  | (Ok verdict, c') => (Ok verdict, c')
  | (Err _, c') => (Ok UNAVAILABLE, c')
  end.
Definition blocked (verdict : LlmVerdict) : bool :=
  bool_decide (self.(sp_llm_mode) = ENFORCED_VETO) && bool_decide (verdict = BLOCK).
Definition review (candidates : list ScoredCandidate) : M (Cycle W) (list ScoredCandidate) :=
  match self.(sp_llm_mode) with
  | OFF =>
      _ ← for_each candidates (fun item => emit_candidate item LLM_REVIEW SKIPPED "LLM_OFF" []);
      mret candidates
  | _ =>
      match self.(sp_reviewer) with
      | None => raise (AssertionError "")
      | Some reviewer =>
          fold_each candidates [] (fun result item =>
            verdict ← ask_reviewer reviewer item;
            _ ← emit_candidate item LLM_REVIEW (if blocked verdict then REJECTED else PASSED)
                  ("LLM_" +:+ LlmVerdict_value verdict) [];
            mret (if blocked verdict then result else result ++ [item]))
      end
  end.

(** [_allocate] *)
Definition risk_cash : float :=
  (self.(sp_policy).(ap_equity) * self.(sp_policy).(ap_risk_fraction_per_trade))%float.
Definition order_quantity (signal : StrategySignal) : result float :=
  let stop_distance := abs (signal.(sg_reference_price) - signal.(sg_stop_price))%float in
  by_risk ← fdiv risk_cash stop_distance;
  by_notional ← fdiv self.(sp_policy).(ap_max_order_notional) signal.(sg_reference_price);
  mret (fmin by_risk by_notional).

Definition allocate_one (existing_symbols : list (Market * string))
    (correlations : dict (string * string) float) (st : AllocationState) (item : ScoredCandidate)
    : M (Cycle W) AllocationState :=
  let candidate := item.(sc_candidate) in
  let policy := self.(sp_policy) in
  let reject reason := (_ ← portfolio_reject item reason; mret st) in
  if bool_decide (symbol_key candidate ∈ existing_symbols) then reject "EXISTING_POSITION"
  else if existsb (fun a => a.(pa_candidate).(sc_candidate).(ca_symbol) ==p candidate.(ca_symbol))
            st.(as_allocations)
  then reject "SYMBOL_ALREADY_SELECTED"
  else if (policy.(ap_max_positions) <=? Z.of_nat (length st.(as_allocations)))%Z
  then reject "POSITION_CAPACITY_REACHED"
  else
    let sector := sector_of candidate in
    let held := default 0%Z (st.(as_sectors) !! sector) in
    if (policy.(ap_max_sector_positions) <=? held)%Z then reject "SECTOR_CONCENTRATION"
    else if correlated policy.(ap_max_pairwise_correlation) candidate.(ca_symbol) st.(as_allocations) correlations
    then reject "CORRELATION_LIMIT"
    else
      let signal := candidate.(ca_signal) in
      quantity ← lift (order_quantity signal);
      let notional := (quantity * signal.(sg_reference_price))%float in
      if fgt (st.(as_total_notional) + notional) policy.(ap_max_total_new_notional)
      then reject "INSUFFICIENT_BATCH_CAPITAL"
      else
        let allocation := {|
          pa_candidate := item;
          pa_quantity := quantity;
          pa_expected_entry_price := signal.(sg_reference_price);
          pa_stop_price := signal.(sg_stop_price);
          pa_target_price := signal.(sg_target_price) |} in
        _ ← emit_candidate item PORTFOLIO_CONSTRUCTION PASSED "PORTFOLIO_SELECTED"
              [("quantity", quantity); ("notional", notional)];
        mret {| as_allocations := st.(as_allocations) ++ [allocation];
                as_sectors := <[sector := (held + 1)%Z]> st.(as_sectors);
                as_total_notional := (st.(as_total_notional) + notional)%float |}.
Definition allocation_start : AllocationState :=
  {| as_allocations := []; as_sectors := ∅; as_total_notional := 0 |}.
Definition allocate (candidates : list ScoredCandidate) (existing_symbols : list (Market * string))
    (correlations : dict (string * string) float) : M (Cycle W) (list PortfolioAllocation) :=
  st ← fold_each candidates allocation_start (allocate_one existing_symbols correlations);
  mret st.(as_allocations).

(** [_revalidate] *)
Definition geometry_valid (signal : StrategySignal) (quote : float) : bool :=
  if signal.(sg_action) ==p BUY
  then (signal.(sg_stop_price) <? quote)%float && (quote <? signal.(sg_target_price))%float
  else (signal.(sg_target_price) <? quote)%float && (quote <? signal.(sg_stop_price))%float.
Definition reward_risk_at (signal : StrategySignal) (quote : float) : result float :=
  let risk := abs (quote - signal.(sg_stop_price))%float in
  let reward := abs (signal.(sg_target_price) - quote)%float in
  if fgt risk 0 then fdiv reward risk else mret 0%float.
Definition revalidate_one (quotes : dict (Market * string) float) (valid : list PortfolioAllocation)
    (a : PortfolioAllocation) : M (Cycle W) (list PortfolioAllocation) :=
  let candidate := a.(pa_candidate).(sc_candidate) in
  let signal := candidate.(ca_signal) in
  match quotes !! symbol_key candidate with
  | Some quote =>
      if negb (isfinite quote) || (quote <=? 0)%float then
        _ ← entry_reject a "LIVE_QUOTE_UNAVAILABLE" None; mret valid
      else
        drift ← lift (fdiv (abs (quote - signal.(sg_reference_price)))%float signal.(sg_reference_price));
        if fgt drift self.(sp_policy).(ap_maximum_entry_drift_fraction) then
          _ ← entry_reject a "ENTRY_DRIFT_EXCEEDED" (Some drift); mret valid
        else
          reward_risk ← lift (reward_risk_at signal quote);
          if negb (geometry_valid signal quote)
             || (reward_risk <? self.(sp_policy).(ap_minimum_reward_risk))%float then
            _ ← entry_reject a "RR_DEGRADED_AT_ENTRY" (Some reward_risk); mret valid
          else
            let valid := valid ++ [{| pa_candidate := a.(pa_candidate);
                                      pa_quantity := a.(pa_quantity);
                                      pa_expected_entry_price := quote;
                                      pa_stop_price := a.(pa_stop_price);
                                      pa_target_price := a.(pa_target_price) |}] in
            _ ← emit_candidate a.(pa_candidate) ENTRY_REVALIDATION PASSED "ENTRY_REVALIDATED"
                  [("entry_drift", drift); ("reward_risk", reward_risk)];
            mret valid
  | None => _ ← entry_reject a "LIVE_QUOTE_UNAVAILABLE" None; mret valid
  end.
Definition revalidate (allocations : list PortfolioAllocation) (quotes : dict (Market * string) float)
    : M (Cycle W) (list PortfolioAllocation) :=
  fold_each allocations [] (revalidate_one quotes).

(** The body of [run] once the cycle has its identity. *)
Definition run_cycle (contexts : list StrategyContext) (preconditions : CyclePreconditions)
    (live_quotes : dict (Market * string) float) (existing_symbols : list (Market * string))
    (correlations : dict (string * string) float) : M (Cycle W) PipelineResult :=
  _ ← manage_positions;
  match preconditions_mode preconditions with
  | EXITS_ONLY =>
      _ ← for_each contexts (fun context =>
            emit context GLOBAL REJECTED (preconditions_reason preconditions) None);
      c ← get_state;
      mret {| pr_cycle_id := cycle_id; pr_mode := EXITS_ONLY; pr_candidates := []; pr_scored := [];
              pr_allocations := []; pr_decisions := c.(cy_emitted) |}
  | NORMAL =>
      candidates ← generate contexts;
      scored ← score candidates;
      resolved ← resolve_conflicts scored;
      reviewed ← review resolved;
      allocations ← allocate reviewed existing_symbols correlations;
      valid ← revalidate allocations live_quotes;
      c ← get_state;
      mret {| pr_cycle_id := cycle_id; pr_mode := NORMAL; pr_candidates := candidates;
              pr_scored := scored; pr_allocations := valid; pr_decisions := c.(cy_emitted) |}
  end.
End Stages.

(** [StagedDecisionPipeline.run] *)
Definition run {W} `{DecisionLedger W} (self : StagedDecisionPipeline W) (contexts : list StrategyContext)
    (preconditions : CyclePreconditions) (evaluated_at : datetime)
    (live_quotes : dict (Market * string) float) (existing_symbols : list (Market * string))
    (correlations : option (dict (string * string) float)) : M W PipelineResult := fun w =>
  match utc evaluated_at "evaluated_at" with
  | Err e => (Err e, w)
  | Ok at_ =>
      match cycle_identity contexts with
      | Err e => (Err e, w)
      | Ok cycle_id =>
          let '(r, c) := run_cycle self cycle_id at_ contexts preconditions live_quotes existing_symbols
                           (default ∅ correlations) (MkCycle w []) in
          (r, c.(cy_world))
      end
  end.
