(* ===== verification/PipelineTheory.v ===== *)
(** * Theorems about the decision pipeline

    The functional behaviour of every stage of [Pipeline], the portfolio
    bounds of a cycle's allocations, and the completeness of its audit trail,
    proved against the ledger interface [DecisionLedgerLaws]. *)

From Stdlib Require Import ZArith Floats.
From stdpp Require Import prelude strings numbers list sorting.
From S2P Require Import Prelude PyData PyFloat FloatTheory PyText Sha256 PyTime Contracts Registry Risk Decisions StrategyRuntime Pipeline.

(** ** Emission: every stage only appends recorded decisions *)

Section Emission.
Context {W : Type} `{DecisionLedgerLaws W}.

Definition emits (c c' : Cycle W) : Prop :=
  ledger_le c.(cy_world) c'.(cy_world) /\
  exists ds, c'.(cy_emitted) = c.(cy_emitted) ++ ds /\ Forall (fun d => recorded d c'.(cy_world)) ds.

#[export] Instance emits_preorder : PreOrder emits.
Proof.
  split.
  - intros c. split; [reflexivity|]. exists []. by rewrite app_nil_r.
  - intros c1 c2 c3 [L1 (d1 & E1 & R1)] [L2 (d2 & E2 & R2)]. split; [by etransitivity|].
    exists (d1 ++ d2). rewrite E2, E1, (assoc_L app). split; [done|].
    apply Forall_app. split; [|done]. eapply Forall_impl; [exact R1|].
    intros d. by apply ledger_le_recorded.
Qed.

Lemma emits_emitted c c' d : emits c c' -> d ∈ c.(cy_emitted) -> d ∈ c'.(cy_emitted).
Proof. intros [_ (ds & -> & _)] Hd. apply elem_of_app. by left. Qed.

Lemma in_world_emits {A} (m : M W A) : preserves ledger_le m -> preserves emits (in_world m).
Proof.
  intros Hm c. unfold in_world, zoom. specialize (Hm c.(cy_world)).
  destruct (m (cy_world c)) as [r w]. simpl in *. split; [done|]. exists []. by rewrite app_nil_r.
Qed.

Lemma append_push_emits (m : M W unit) d :
  preserves ledger_le m -> (forall w u w', m w = (Ok u, w') -> recorded d w') ->
  preserves emits (_ ← in_world m; push d).
Proof.
  intros Hm Hr c. unfold mbind, M_bind, in_world, zoom. specialize (Hm c.(cy_world)).
  destruct (m (cy_world c)) as [[u|e] w] eqn:E; simpl in *.
  - split; [done|]. exists [d]. split; [done|]. apply Forall_singleton. by eapply Hr.
  - split; [done|]. exists []. by rewrite app_nil_r.
Qed.

Lemma record_decision_emits d : preserves emits (record_decision d).
Proof. apply append_push_emits; [apply ledger_append_le | apply ledger_append_recorded]. Qed.

Lemma record_candidate_emits c d : preserves emits (record_candidate c d).
Proof.
  apply append_push_emits; [apply ledger_append_candidate_le | apply ledger_append_candidate_recorded].
Qed.

Context (self : StagedDecisionPipeline W) (cycle_id : string) (at_ : datetime).

Lemma emit_emits ctx st ss r k : preserves emits (emit cycle_id at_ ctx st ss r k).
Proof. unfold emit. preserve. apply record_decision_emits. Qed.

Lemma emit_candidate_emits i st ss r m : preserves emits (emit_candidate cycle_id at_ i st ss r m).
Proof. unfold emit_candidate. cbv zeta. preserve. apply record_decision_emits. Qed.

Hint Resolve record_decision_emits record_candidate_emits emit_emits emit_candidate_emits : preserves.

(** The reviewer and the position manager may use the ledger themselves;
    they must not lose what is on it. *)
Definition clients_append_only : Prop :=
  (forall f item, self.(sp_reviewer) = Some f -> preserves ledger_le (f item)) /\
  (forall f cid t, self.(sp_position_manager) = Some f -> preserves ledger_le (f cid t)).
Context (Hclients : clients_append_only).

Lemma manage_positions_emits : preserves emits (manage_positions self cycle_id at_).
Proof.
  unfold manage_positions. destruct (sp_position_manager self) as [f|] eqn:E; preserve.
  apply in_world_emits. by apply (proj2 Hclients).
Qed.

Lemma generate_one_emits ctx cs d : preserves emits (generate_one self cycle_id at_ ctx cs d).
Proof. unfold generate_one. cbv zeta. preserve. Qed.
Hint Resolve generate_one_emits : preserves.

Lemma generate_context_emits cs ctx : preserves emits (generate_context self cycle_id at_ cs ctx).
Proof. unfold generate_context. preserve. Qed.
Hint Resolve generate_context_emits : preserves.

Lemma generate_emits cs : preserves emits (generate self cycle_id at_ cs).
Proof. unfold generate. preserve. Qed.

Lemma score_emits cs : preserves emits (score self cycle_id at_ cs).
Proof. unfold score. cbv zeta. preserve. Qed.

Lemma resolve_conflicts_emits cs : preserves emits (resolve_conflicts cycle_id at_ cs).
Proof. unfold resolve_conflicts, resolve_group. preserve. Qed.

Lemma review_emits cs : preserves emits (review self cycle_id at_ cs).
Proof.
  unfold review. destruct (sp_llm_mode self), (sp_reviewer self) as [f|] eqn:E; preserve.
  all: intros c; pose proof (in_world_emits (f x) (proj1 Hclients f x E) c) as Hc;
    unfold ask_reviewer; by destruct (in_world (f x) c) as [[v|e] c'].
Qed.

Lemma allocate_emits cs ex co : preserves emits (allocate self cycle_id at_ cs ex co).
Proof. unfold allocate, allocate_one, portfolio_reject. cbv zeta. preserve. Qed.

Lemma revalidate_emits al q : preserves emits (revalidate self cycle_id at_ al q).
Proof. unfold revalidate, revalidate_one, entry_reject. cbv zeta. preserve. Qed.
Hint Resolve manage_positions_emits generate_emits score_emits resolve_conflicts_emits review_emits
  allocate_emits revalidate_emits : preserves.

Lemma run_cycle_emits cx p q ex co : preserves emits (run_cycle self cycle_id at_ cx p q ex co).
Proof. unfold run_cycle. preserve. Qed.
End Emission.

(** ** What each stage returns *)

(** A loop whose body extends its result by a function of the item. *)
Lemma fold_each_collect {S A B} (f : A -> list B) (l : list A) (acc : list B) body (s : S) r s' :
  (forall acc x s acc' s', x ∈ l -> body acc x s = (Ok acc', s') -> acc' = acc ++ f x) ->
  fold_each l acc body s = (Ok r, s') -> r = acc ++ (l ≫= f).
Proof.
  intros Hb. revert acc s. induction l as [|x l IH]; intros acc s.
  - intros [= <- _]. by rewrite app_nil_r.
  - cbn [fold_each]. intros (a1 & s1 & H1 & H2)%M_bind_ok. apply Hb in H1; [|by left]. subst a1.
    apply IH in H2; [by rewrite H2, bind_cons, <-(assoc_L app)|]. intros ????? Hx. apply Hb. by right.
Qed.

Lemma filter_bind {A} (p : A -> bool) (l : list A) :
  (l ≫= fun x => if p x then [x] else []) = List.filter p l.
Proof. induction l as [|x l IH]; [done|]. rewrite bind_cons, IH. simpl. by destruct (p x). Qed.

(** The first member of a group whose members agree on the action. *)
Definition winner (group : list ScoredCandidate) : list ScoredCandidate :=
  if conflicting group then [] else take 1 group.

Definition passes_score (policy : AllocationPolicy) (i : ScoredCandidate) : bool :=
  fgt i.(sc_score).(sb_expected_r_net_of_costs) policy.(ap_minimum_expected_r).

Section Values.
Context {W : Type} `{DecisionLedger W}.
Context (self : StagedDecisionPipeline W) (cycle_id : string) (at_ : datetime).

Lemma score_ok cs c r c' :
  score self cycle_id at_ cs c = (Ok r, c') ->
  r = py_sorted rank_lt (List.filter (passes_score self.(sp_policy)) (score_of <$> cs)).
Proof.
  unfold score. intros (l & c1 & Hl & [= <- _])%M_bind_ok. f_equal.
  apply fold_each_collect with
    (f := fun x => if passes_score (sp_policy self) (score_of x) then [score_of x] else []) in Hl.
  - rewrite Hl, <-filter_bind. clear. induction cs as [|x cs IH]; [done|].
    rewrite fmap_cons, !bind_cons. simpl in *. by rewrite IH.
  - intros acc x s acc' s' _. unfold passes_score. cbv zeta. destruct (fgt _ _).
    + intros (u & s1 & _ & [= <- _])%M_bind_ok. done.
    + intros (u & s1 & _ & [= <- _])%M_bind_ok. by rewrite app_nil_r.
Qed.

Lemma resolve_conflicts_ok scored c r c' :
  resolve_conflicts cycle_id at_ scored c = (Ok r, c') ->
  r = py_sorted rank_lt (dict_values (group_items scored) ≫= winner).
Proof.
  unfold resolve_conflicts. intros (l & c1 & Hl & [= <- _])%M_bind_ok. f_equal.
  apply fold_each_collect with (f := winner) in Hl; [done|].
  intros acc g s acc' s' _. unfold resolve_group, winner. destruct (conflicting g).
  - intros (u & s1 & _ & [= <- _])%M_bind_ok. by rewrite app_nil_r.
  - destruct g as [|i g]; [intros [= <- _]; by rewrite app_nil_r|].
    intros (u & s1 & _ & (u' & s2 & _ & [= <- _])%M_bind_ok)%M_bind_ok. simpl. by rewrite take_0.
Qed.
End Values.

(** *** Grouping by market and symbol *)

Lemma add_to_group_lookup g i k :
  add_to_group g i !! k =
  if decide (item_key i = k) then Some (default [] (g !! k) ++ [i]) else g !! k.
Proof.
  unfold add_to_group, dict_setdefault. cbv zeta. rewrite dict_lookup_insert.
  case_decide as E.
  - subst k. f_equal. destruct (g !! item_key i) as [l|] eqn:El; [by rewrite El|].
    by rewrite dict_lookup_insert_eq.
  - destruct (g !! item_key i); [done|]. by rewrite dict_lookup_insert_ne.
Qed.

Lemma add_to_group_wf g i : dict_wf g -> dict_wf (add_to_group g i).
Proof.
  intros Hg. unfold add_to_group, dict_setdefault. cbv zeta. apply dict_wf_insert.
  destruct (g !! item_key i); [done | by apply dict_wf_insert].
Qed.

Lemma group_items_wf l : dict_wf (group_items l).
Proof.
  unfold group_items. generalize (dict_wf_empty (K := Market * string) (V := list ScoredCandidate)).
  generalize (∅ : dict (Market * string) (list ScoredCandidate)).
  induction l as [|i l IH]; intros g Hg; simpl; [done|]. by apply IH, add_to_group_wf.
Qed.

(** The group of a key holds the items with that key, in order. *)
Lemma group_items_lookup l k :
  group_items l !! k = match List.filter (fun i => bool_decide (item_key i = k)) l with
                       | [] => None | g => Some g end.
Proof.
  unfold group_items. induction l as [|i l IH] using rev_ind; [done|].
  rewrite foldl_app. simpl. rewrite add_to_group_lookup, IH, List.filter_app. simpl.
  case_decide as E; [rewrite bool_decide_true by done | rewrite bool_decide_false, app_nil_r by done].
  - by destruct (List.filter _ l).
  - done.
Qed.

Lemma group_items_elem l g :
  g ∈ dict_values (group_items l) <->
  exists k, g = List.filter (fun i => bool_decide (item_key i = k)) l /\ g <> [].
Proof.
  rewrite (dict_values_elem _ _ (group_items_wf l)). split; intros [k Hk]; exists k.
  - rewrite group_items_lookup in Hk. destruct (List.filter _ l); [done|]. by injection Hk as <-.
  - destruct Hk as [Hg Hn]. rewrite group_items_lookup, <-Hg. by destruct g.
Qed.

Lemma winner_elem g i : i ∈ winner g <->
  (exists rest, g = i :: rest) /\ (forall x y, x ∈ g -> y ∈ g -> item_action x = item_action y).
Proof.
  unfold winner. destruct (conflicting g) eqn:E.
  - split; [by intros ?%elem_of_nil|]. intros [_ H]. exfalso.
    assert (conflicting g = false); [|congruence]. apply fromkeys_agree.
    intros a b (x & -> & Hx)%list_elem_of_fmap (y & -> & Hy)%list_elem_of_fmap. by apply H.
  - unfold conflicting in E. rewrite fromkeys_agree in E. split.
    + destruct g as [|j g]; simpl; [by intros ?%elem_of_nil|]. rewrite take_0.
      intros ->%list_elem_of_singleton. split; [by exists g|].
      intros x y Hx Hy. apply E; by apply list_elem_of_fmap_2.
    + intros [[rest ->] _]. simpl. by left.
Qed.

(** *** Ranking *)

Lemma weak_order_then_Z {A} (f : A -> Z) (lt : A -> A -> bool) :
  weak_order lt -> weak_order (fun x y => if (f x =? f y)%Z then lt x y else (f x <? f y)%Z).
Proof.
  intros [Ha Ht]. split.
  - intros x y. rewrite (Z.eqb_sym (f y)). destruct (Z.eqb_spec (f x) (f y)); [apply Ha|].
    rewrite Z.ltb_lt, Z.ltb_ge. lia.
  - intros x y z. destruct (Z.eqb_spec (f y) (f x)), (Z.eqb_spec (f z) (f y)), (Z.eqb_spec (f z) (f x));
      rewrite ?Z.ltb_ge; try lia; eauto.
Qed.

Definition expected (i : ScoredCandidate) : float := i.(sc_score).(sb_expected_r_net_of_costs).
Definition numbered (i : ScoredCandidate) : Prop := fnan (expected i) = false.

Definition rank_order (a b : ScoredCandidate) : bool :=
  if ((- fval (expected a)) =? (- fval (expected b)))%Z then
    str_then (identity_key a.(sc_candidate).(ca_identity)) (identity_key b.(sc_candidate).(ca_identity))
    (str_then a.(sc_candidate).(ca_symbol) b.(sc_candidate).(ca_symbol)
      (str_ltb a.(sc_candidate).(ca_candidate_id) b.(sc_candidate).(ca_candidate_id)))
  else ((- fval (expected a)) <? (- fval (expected b)))%Z.

Lemma rank_order_weak : weak_order rank_order.
Proof.
  apply (weak_order_then_Z (fun i => - fval (expected i))%Z).
  apply (weak_order_str (fun i => identity_key i.(sc_candidate).(ca_identity))).
  apply (weak_order_str (fun i => i.(sc_candidate).(ca_symbol))).
  pose proof (weak_order_str (fun i : ScoredCandidate => i.(sc_candidate).(ca_candidate_id))
    (fun _ _ => false)) as Ho.
  destruct Ho as [Ha Ht]; [by split|]. unfold str_then in *. split.
  - intros x y Hxy. specialize (Ha x y). rewrite Hxy in Ha. specialize (Ha eq_refl).
    by apply orb_false_iff in Ha as [? _].
  - intros x y z H1 H2. specialize (Ht x y z). rewrite H1, H2, !andb_false_r in Ht.
    specialize (Ht eq_refl eq_refl). by rewrite orb_false_r in Ht.
Qed.

(** On scores that are numbers the code's key comparison is a weak order. *)
Lemma rank_lt_order a b : numbered a -> numbered b -> rank_lt a b = rank_order a b.
Proof.
  unfold numbered. intros Ha Hb. unfold rank_lt, rank_order. cbv zeta.
  fold (expected a). fold (expected b).
  assert (E : (- expected a =? - expected b)%float = (- fval (expected a) =? - fval (expected b))%Z).
  { apply eq_true_iff_eq. rewrite feqb_iff, !fnan_opp, !fval_opp, Z.eqb_eq. tauto. }
  assert (L : (- expected a <? - expected b)%float = (- fval (expected a) <? - fval (expected b))%Z).
  { apply eq_true_iff_eq. rewrite fltb_iff, !fnan_opp, !fval_opp, Z.ltb_lt. tauto. }
  by rewrite E, L.
Qed.

Lemma passes_score_numbered p i : passes_score p i = true -> numbered i.
Proof. unfold passes_score, numbered, expected. by intros (_ & ? & _)%fltb_iff. Qed.

Lemma ranked_sorted l : Forall numbered l -> StronglySorted (not_after rank_lt) (py_sorted rank_lt l).
Proof.
  intros Hl. destruct rank_order_weak as [Ha Ht].
  apply (py_sorted_sorted rank_lt numbered); [..|done].
  - intros x y Hx Hy. rewrite !rank_lt_order by done. apply Ha.
  - unfold not_after. intros x y z Hx Hy Hz. rewrite !rank_lt_order by done. apply Ht.
Qed.

(** A candidate that may stand first has at least the other's expected return. *)
Lemma not_after_expected a b : numbered a -> numbered b -> not_after rank_lt a b ->
  (expected b <=? expected a)%float = true.
Proof.
  unfold not_after, numbered. intros Ha Hb. rewrite rank_lt_order by done. unfold rank_order.
  intros H. apply fleb_iff. split; [done|]. split; [done|].
  destruct (Z.eqb_spec (- fval (expected b)) (- fval (expected a))); [lia|].
  apply Z.ltb_ge in H. lia.
Qed.

Lemma StronglySorted_filter {A} (R : A -> A -> Prop) p l :
  StronglySorted R l -> StronglySorted R (List.filter p l).
Proof.
  induction 1 as [|x l Hs IH Hall]; simpl; [constructor|]. destruct (p x); [|done].
  constructor; [done|]. rewrite Forall_forall in *. intros y [Hy _]%filter_elem. auto.
Qed.

(** What deduplication keeps of a ranked list. *)
Record resolution (scored r : list ScoredCandidate) : Prop := {
  rs_distinct : NoDup (item_key <$> r);
  rs_best : forall i, i ∈ r -> i ∈ scored /\ forall j, j ∈ scored -> item_key j = item_key i ->
    item_action j = item_action i /\ (j = i \/ not_after rank_lt i j);
  rs_complete : forall i, i ∈ scored ->
    (forall j, j ∈ scored -> item_key j = item_key i -> item_action j = item_action i) ->
    exists k, k ∈ r /\ item_key k = item_key i;
  rs_conflict : forall i j, i ∈ scored -> j ∈ scored -> item_key i = item_key j ->
    item_action i <> item_action j -> item_key i ∉ (item_key <$> r);
  rs_ranked : StronglySorted (not_after rank_lt) r }.

Lemma winners_elem scored i :
  i ∈ (dict_values (group_items scored) ≫= winner) <->
  (exists rest, List.filter (fun j => bool_decide (item_key j = item_key i)) scored = i :: rest) /\
  (forall j, j ∈ scored -> item_key j = item_key i -> item_action j = item_action i).
Proof.
  rewrite list_elem_of_bind. split.
  - intros (g & [[rest ->] Hag]%winner_elem & (k & Hg & _)%group_items_elem).
    assert (Hi : item_key i = k).
    { assert (i ∈ i :: rest) as Hin by by left. rewrite Hg in Hin.
      apply filter_elem in Hin as [_ Hin]. by apply bool_decide_eq_true in Hin. }
    subst k. split; [by exists rest|]. intros j Hj Hk. apply Hag; [|by left].
    rewrite Hg. apply filter_elem. by rewrite bool_decide_eq_true.
  - intros [[rest Hf] Hag]. exists (i :: rest). split.
    + apply winner_elem. split; [by exists rest|].
      assert (Hall : forall x, x ∈ i :: rest -> item_action x = item_action i).
      { intros x Hx. rewrite <-Hf in Hx. apply filter_elem in Hx as [Hx Hk].
        apply bool_decide_eq_true in Hk. by apply Hag. }
      intros x y Hx Hy. by rewrite (Hall x Hx), (Hall y Hy).
    + apply group_items_elem. exists (item_key i). by rewrite Hf.
Qed.

Lemma winner_keys_NoDup scored :
  NoDup (item_key <$> (dict_values (group_items scored) ≫= winner)).
Proof.
  pose proof (group_items_wf scored) as Hwf.
  assert (Hg : forall k g, (k, g) ∈ entries (group_items scored) ->
    Forall (fun i => item_key i = k) g).
  { intros k g Hin%(dict_elem_lookup _ _ _ Hwf). rewrite group_items_lookup in Hin.
    apply Forall_forall. intros i Hi. destruct (List.filter _ scored) eqn:E; [done|].
    injection Hin as <-. rewrite <-E in Hi. apply filter_elem in Hi as [_ Hi].
    by apply bool_decide_eq_true in Hi. }
  revert Hwf Hg. unfold dict_wf, dict_keys, dict_values.
  induction (entries (group_items scored)) as [|[k g] l IH]; intros Hwf Hg; [constructor|].
  rewrite fmap_cons in Hwf. apply NoDup_cons in Hwf as [Hn Hwf].
  rewrite fmap_cons, bind_cons, fmap_app. cbn [fst snd] in *.
  assert (Hhd : Forall (fun i => item_key i = k) (winner g)).
  { specialize (Hg k g ltac:(by left)). unfold winner. destruct (conflicting g); [constructor|].
    by apply Forall_take. }
  apply NoDup_app. split; [|split].
  - unfold winner. destruct (conflicting g); [constructor|]. destruct g as [|i g]; [constructor|].
    change (NoDup (item_key <$> i :: take 0 g)). rewrite take_0. apply NoDup_singleton.
  - intros x (i & -> & Hi)%list_elem_of_fmap (j & Hij & Hj)%list_elem_of_fmap.
    rewrite Forall_forall in Hhd. apply Hn. rewrite <-(Hhd i Hi), Hij.
    apply list_elem_of_bind in Hj as (g' & Hj & Hg'). apply list_elem_of_fmap in Hg' as ([k' g''] & -> & Hin).
    assert (Hk : item_key j = k').
    { specialize (Hg k' g'' ltac:(by right)). rewrite Forall_forall in Hg. apply Hg.
      apply winner_elem in Hj as [[rest Hr] _]. simpl in Hr. rewrite Hr. by left. }
    rewrite Hk. apply list_elem_of_fmap. by exists (k', g'').
  - apply IH; [done|]. intros k' g' Hin. apply Hg. by right.
Qed.

Lemma resolution_spec scored :
  Forall numbered scored -> StronglySorted (not_after rank_lt) scored ->
  resolution scored (py_sorted rank_lt (dict_values (group_items scored) ≫= winner)).
Proof.
  intros Hnum Hs. set (ws := dict_values (group_items scored) ≫= winner).
  assert (Hsub : forall i, i ∈ ws -> i ∈ scored).
  { intros i [[rest Hf] _]%winners_elem. assert (i ∈ i :: rest) as Hin by by left.
    rewrite <-Hf in Hin. by apply filter_elem in Hin as [? _]. }
  split.
  - rewrite py_sorted_perm. apply winner_keys_NoDup.
  - intros i Hi. rewrite py_sorted_elem in Hi. split; [by apply Hsub|].
    apply winners_elem in Hi as [[rest Hf] Hag]. intros j Hj Hk. split; [by apply Hag|].
    pose proof (StronglySorted_filter _ (fun j => bool_decide (item_key j = item_key i)) _ Hs) as Hsf.
    rewrite Hf in Hsf. apply StronglySorted_inv in Hsf as [_ Hall].
    assert (Hin : j ∈ i :: rest) by (rewrite <-Hf; apply filter_elem; by rewrite bool_decide_eq_true).
    apply elem_of_cons in Hin as [->|Hin]; [by left|]. right. rewrite Forall_forall in Hall. auto.
  - intros i Hi Hag.
    destruct (List.filter (fun j => bool_decide (item_key j = item_key i)) scored) as [|w rest] eqn:Ef.
    { assert (i ∈ []) as Hn; [|by apply elem_of_nil in Hn].
      rewrite <-Ef. apply filter_elem. by rewrite bool_decide_eq_true. }
    assert (Hw : w ∈ scored /\ item_key w = item_key i).
    { assert (w ∈ w :: rest) as Hin by by left. rewrite <-Ef in Hin.
      apply filter_elem in Hin as [? ?%bool_decide_eq_true]. done. }
    destruct Hw as [Hw Hk]. exists w. split; [|done]. rewrite py_sorted_elem. apply winners_elem.
    rewrite Hk. split; [by exists rest|]. intros j Hj Hjk. rewrite (Hag j Hj Hjk). symmetry. by apply Hag.
  - intros i j Hi Hj Hk Hne (w & Hwk & Hw)%list_elem_of_fmap. rewrite py_sorted_elem in Hw.
    apply winners_elem in Hw as [_ Hag]. apply Hne.
    rewrite (Hag i Hi Hwk). rewrite Hk in Hwk. by rewrite (Hag j Hj Hwk).
  - apply ranked_sorted. rewrite Forall_forall in Hnum |- *. auto.
Qed.

(** ** Review, allocation, revalidation and generation *)

(** The verdict the pipeline takes from one call of the reviewer. *)
Definition verdict_of (r : result LlmVerdict) : LlmVerdict :=
  match r with Ok v => v | Err _ => UNAVAILABLE end.

(** The entry quantity, price and levels of an allocation come from its
    candidate's signal. *)
Definition allocated {W} (self : StagedDecisionPipeline W) (a : PortfolioAllocation) : Prop :=
  let signal := a.(pa_candidate).(sc_candidate).(ca_signal) in
  order_quantity self signal = Ok a.(pa_quantity) /\
  a.(pa_expected_entry_price) = signal.(sg_reference_price) /\
  a.(pa_stop_price) = signal.(sg_stop_price) /\ a.(pa_target_price) = signal.(sg_target_price).

Definition alloc_symbol (a : PortfolioAllocation) : string := a.(pa_candidate).(sc_candidate).(ca_symbol).
Definition alloc_sector (a : PortfolioAllocation) : string := sector_of a.(pa_candidate).(sc_candidate).
Definition in_sector (s : string) (l : list PortfolioAllocation) : list PortfolioAllocation :=
  List.filter (fun a => bool_decide (alloc_sector a = s)) l.

(** The pair was accepted by the correlation limit when [b] joined [a]. *)
Definition uncorrelated (limit : float) (correlations : dict (string * string) float)
    (a b : PortfolioAllocation) : Prop :=
  correlated limit (alloc_symbol b) [a] correlations = false.

(** Gross new notional at the signals' reference prices, in selection order. *)
Definition total_notional (l : list PortfolioAllocation) : float :=
  foldl (fun t a => t + a.(pa_quantity) * a.(pa_candidate).(sc_candidate).(ca_signal).(sg_reference_price))%float
    0%float l.

(** The limits a batch satisfies, whichever allocations are in it. *)
Record within_limits (policy : AllocationPolicy) (existing : list (Market * string))
    (correlations : dict (string * string) float) (l : list PortfolioAllocation) : Prop := {
  wl_positions : (Z.of_nat (length l) <= Z.max 0 policy.(ap_max_positions))%Z;
  wl_sectors : forall s, (Z.of_nat (length (in_sector s l)) <= Z.max 0 policy.(ap_max_sector_positions))%Z;
  wl_symbols : NoDup (alloc_symbol <$> l);
  wl_existing : Forall (fun a => item_key a.(pa_candidate) ∉ existing) l;
  wl_correlation : StronglySorted (uncorrelated policy.(ap_max_pairwise_correlation) correlations) l }.

Record allocation_ok {W} (self : StagedDecisionPipeline W) (existing : list (Market * string))
    (correlations : dict (string * string) float) (cands : list ScoredCandidate) (st : AllocationState)
    : Prop := {
  al_limits : within_limits self.(sp_policy) existing correlations st.(as_allocations);
  al_sublist : sublist (pa_candidate <$> st.(as_allocations)) cands;
  al_from : Forall (allocated self) st.(as_allocations);
  al_sectors : forall s, default 0%Z (st.(as_sectors) !! s) = Z.of_nat (length (in_sector s st.(as_allocations)));
  al_total : st.(as_total_notional) = total_notional st.(as_allocations);
  al_capital : forall pre a, prefix (pre ++ [a]) st.(as_allocations) ->
    fgt (total_notional (pre ++ [a])) self.(sp_policy).(ap_max_total_new_notional) = false }.

Lemma StronglySorted_snoc {A} (R : A -> A -> Prop) l x :
  StronglySorted R l -> Forall (fun y => R y x) l -> StronglySorted R (l ++ [x]).
Proof.
  induction 1 as [|y l Hs IH Hall]; simpl; [intros _; repeat constructor|].
  intros [Hy Hl]%Forall_cons. constructor; [by apply IH|]. apply Forall_app. by split; [|constructor].
Qed.

Lemma StronglySorted_sublist {A} (R : A -> A -> Prop) l l' :
  sublist l' l -> StronglySorted R l -> StronglySorted R l'.
Proof.
  induction 1 as [|x l1 l2 Hsub IH|x l1 l2 Hsub IH]; intros Hs; [done|..];
    apply StronglySorted_inv in Hs as [Hs Hall]; [|auto].
  constructor; [auto|]. rewrite Forall_forall in *. intros y Hy. apply Hall.
  by eapply elem_of_sublist.
Qed.

Lemma in_sector_snoc s l a :
  in_sector s (l ++ [a]) = in_sector s l ++ (if bool_decide (alloc_sector a = s) then [a] else []).
Proof. unfold in_sector. rewrite List.filter_app. done. Qed.

Section Allocation.
Context {W : Type} `{DecisionLedger W}.
Context (self : StagedDecisionPipeline W) (cycle_id : string) (at_ : datetime).
Context (existing : list (Market * string)) (correlations : dict (string * string) float).

(** The tests an item passed and the state it leads to. *)
Lemma allocate_one_ok st item c st' c' :
  allocate_one self cycle_id at_ existing correlations st item c = (Ok st', c') ->
  st' = st \/
  exists a, a.(pa_candidate) = item /\ allocated self a /\
    (item_key item ∉ existing) /\
    (alloc_symbol a ∉ (alloc_symbol <$> st.(as_allocations))) /\
    (Z.of_nat (length st.(as_allocations)) < self.(sp_policy).(ap_max_positions))%Z /\
    (default 0 (st.(as_sectors) !! alloc_sector a) < self.(sp_policy).(ap_max_sector_positions))%Z /\
    correlated self.(sp_policy).(ap_max_pairwise_correlation) (alloc_symbol a)
      st.(as_allocations) correlations = false /\
    fgt st'.(as_total_notional) self.(sp_policy).(ap_max_total_new_notional) = false /\
    st' = {| as_allocations := st.(as_allocations) ++ [a];
             as_sectors := <[alloc_sector a := (default 0 (st.(as_sectors) !! alloc_sector a) + 1)%Z]>
                             st.(as_sectors);
             as_total_notional := (st.(as_total_notional) + a.(pa_quantity) *
               a.(pa_candidate).(sc_candidate).(ca_signal).(sg_reference_price))%float |}.
Proof.
  unfold allocate_one. cbv zeta.
  assert (Hrej : forall reason, (_ ← portfolio_reject cycle_id at_ item reason; mret st) c = (Ok st', c') ->
    st' = st) by (by intros reason (u & c1 & _ & [= <- _])%M_bind_ok).
  case_bool_decide as Hex; [left; by eapply Hrej|].
  destruct (existsb _ (as_allocations st)) eqn:Hsym; [left; by eapply Hrej|].
  destruct (_ <=? Z.of_nat _)%Z eqn:Hcap; [left; by eapply Hrej|].
  destruct (_ <=? default _ _)%Z eqn:Hsec; [left; by eapply Hrej|].
  destruct (correlated _ _ _ _) eqn:Hcor; [left; by eapply Hrej|].
  intros (q & c1 & Hq & Hrest)%M_bind_ok. apply lift_ok in Hq as [Hq ->].
  destruct (fgt _ _) eqn:Hmax; [left; by eapply Hrej|].
  apply M_bind_ok in Hrest as (u & c2 & _ & [= <- _]). right.
  exists {| pa_candidate := item; pa_quantity := q;
            pa_expected_entry_price := item.(sc_candidate).(ca_signal).(sg_reference_price);
            pa_stop_price := item.(sc_candidate).(ca_signal).(sg_stop_price);
            pa_target_price := item.(sc_candidate).(ca_signal).(sg_target_price) |}.
  split; [done|]. split; [done|]. split; [done|].
  split; [|split; [by apply Z.leb_gt|split; [by apply Z.leb_gt|]]].
  - intros (a & Ha & Hin)%list_elem_of_fmap. apply existsb_false_Forall in Hsym.
    rewrite Forall_forall in Hsym. specialize (Hsym a Hin). rewrite py_eq_false in Hsym. by apply Hsym.
  - done.
Qed.

Lemma allocation_ok_snoc cands st item a st' :
  allocation_ok self existing correlations cands st ->
  a.(pa_candidate) = item -> allocated self a -> item_key item ∉ existing ->
  alloc_symbol a ∉ (alloc_symbol <$> st.(as_allocations)) ->
  (Z.of_nat (length st.(as_allocations)) < self.(sp_policy).(ap_max_positions))%Z ->
  (default 0 (st.(as_sectors) !! alloc_sector a) < self.(sp_policy).(ap_max_sector_positions))%Z ->
  correlated self.(sp_policy).(ap_max_pairwise_correlation) (alloc_symbol a)
    st.(as_allocations) correlations = false ->
  fgt st'.(as_total_notional) self.(sp_policy).(ap_max_total_new_notional) = false ->
  st' = {| as_allocations := st.(as_allocations) ++ [a];
           as_sectors := <[alloc_sector a := (default 0 (st.(as_sectors) !! alloc_sector a) + 1)%Z]>
                           st.(as_sectors);
           as_total_notional := (st.(as_total_notional) + a.(pa_quantity) *
             a.(pa_candidate).(sc_candidate).(ca_signal).(sg_reference_price))%float |} ->
  allocation_ok self existing correlations (cands ++ [item]) st'.
Proof.
  intros [[Hp Hs Hn He Hc] Hsub Hf Hsec Htot Hmax] Hai Ha Hex Hsym Hcap Hsc Hcor Hmax' ->.
  split; simpl.
  - split.
    + rewrite length_app. simpl. lia.
    + intros s. rewrite in_sector_snoc, length_app. specialize (Hs s).
      case_bool_decide as E; simpl; [|lia]. rewrite E, Hsec in Hsc. lia.
    + rewrite fmap_app. apply NoDup_app. split; [done|]. split; [|apply NoDup_singleton].
      intros x Hx. simpl. rewrite list_elem_of_singleton. by intros ->.
    + apply Forall_app. split; [done|]. constructor; [by rewrite Hai|constructor].
    + apply StronglySorted_snoc; [done|]. apply Forall_forall. intros b Hb. unfold uncorrelated.
      unfold correlated in *. apply existsb_false_Forall in Hcor. rewrite Forall_forall in Hcor.
      apply existsb_false_Forall. constructor; [by apply Hcor|constructor].
  - rewrite fmap_app. simpl. rewrite Hai. by apply sublist_app.
  - apply Forall_app. split; [done|]. by constructor.
  - intros s. rewrite dict_lookup_insert, in_sector_snoc, length_app.
    case_decide as E; [rewrite bool_decide_true by done | rewrite bool_decide_false by done]; simpl.
    + subst s. rewrite Hsec. lia.
    + rewrite Hsec. lia.
  - rewrite Htot. unfold total_notional. by rewrite foldl_app.
  - intros pre b [post Hpost]. destruct post as [|x post _] using rev_ind.
    + rewrite app_nil_r in Hpost. apply app_inj_tail in Hpost as [<- <-].
      unfold total_notional. rewrite foldl_app. simpl. rewrite Htot in Hmax'. exact Hmax'.
    + apply Hmax. exists post. rewrite (assoc_L app) in Hpost. by apply app_inj_tail in Hpost as [-> _].
Qed.

Lemma allocate_ok cands c r c' :
  allocate self cycle_id at_ cands existing correlations c = (Ok r, c') ->
  exists st, allocation_ok self existing correlations cands st /\ r = st.(as_allocations).
Proof.
  unfold allocate. intros (st & c1 & Hst & [= <- _])%M_bind_ok. exists st. split; [|done].
  revert Hst. apply (fold_each_inv (fun done st _ => allocation_ok self existing correlations done st)).
  - split; simpl; try done.
    + split; simpl; try done; [lia | intros; lia | constructor | constructor].
    + by intros [|x pre] a Hpre%prefix_nil_inv.
  - intros pre s c0 x s' c2 _ Hinv Hbody. destruct (allocate_one_ok _ _ _ _ _ Hbody)
      as [->|(a & ? & ? & ? & ? & ? & ? & ? & ? & ?)].
    + destruct Hinv as [? ? ? ? ? ?]. split; try done. by apply sublist_inserts_r.
    + by eapply allocation_ok_snoc.
Qed.
End Allocation.

(** An allocation at its live quote: only the entry price changed, and the
    quote passed every entry check. *)
Record revalidated (policy : AllocationPolicy) (quotes : dict (Market * string) float)
    (a a' : PortfolioAllocation) : Prop := {
  rv_candidate : a'.(pa_candidate) = a.(pa_candidate);
  rv_quantity : a'.(pa_quantity) = a.(pa_quantity);
  rv_levels : a'.(pa_stop_price) = a.(pa_stop_price) /\ a'.(pa_target_price) = a.(pa_target_price);
  rv_quote : quotes !! item_key a.(pa_candidate) = Some a'.(pa_expected_entry_price);
  rv_finite : isfinite a'.(pa_expected_entry_price) = true;
  rv_positive : (a'.(pa_expected_entry_price) <=? 0)%float = false;
  rv_drift : exists drift,
    fdiv (abs (a'.(pa_expected_entry_price) - a.(pa_candidate).(sc_candidate).(ca_signal).(sg_reference_price)))
      a.(pa_candidate).(sc_candidate).(ca_signal).(sg_reference_price) = Ok drift /\
    fgt drift policy.(ap_maximum_entry_drift_fraction) = false;
  rv_geometry : geometry_valid a.(pa_candidate).(sc_candidate).(ca_signal) a'.(pa_expected_entry_price) = true;
  rv_reward : exists rr,
    reward_risk_at a.(pa_candidate).(sc_candidate).(ca_signal) a'.(pa_expected_entry_price) = Ok rr /\
    (rr <? policy.(ap_minimum_reward_risk))%float = false }.

(** A candidate with the gates its context, strategy and approval passed. *)
Definition generated {W} (self : StagedDecisionPipeline W) (at_ : datetime) (context : StrategyContext)
    (candidate : DeterministicCandidate) : Prop :=
  readiness_reason context = None /\ context.(cx_tradeable) = true /\
  exists definitions definition plugin reason approval signal,
    eligible self.(sp_registry) context.(cx_market) context.(cx_timeframe) context.(cx_trade_horizon)
      context.(cx_feature_set_version) at_ = Ok definitions /\
    definition ∈ definitions /\
    self.(sp_strategies) !! definition.(sd_identity) = Some plugin /\
    plugin.(pl_compatibility) context = Ok (true, reason) /\
    require_approval self.(sp_registry) definition.(sd_identity) at_ = Ok approval /\
    plugin.(pl_generate) context = Ok (Some signal) /\
    DeterministicCandidate_create definition approval.(sa_approval_id) context signal = Ok candidate.

Section Stages2.
Context {W : Type} `{DecisionLedger W}.
Context (self : StagedDecisionPipeline W) (cycle_id : string) (at_ : datetime).

Lemma revalidate_one_ok quotes valid a c r c' :
  revalidate_one self cycle_id at_ quotes valid a c = (Ok r, c') ->
  r = valid \/ exists a', revalidated self.(sp_policy) quotes a a' /\ r = valid ++ [a'].
Proof.
  unfold revalidate_one. cbv zeta.
  assert (Hrej : forall reason o c0, (_ ← entry_reject cycle_id at_ a reason o; mret valid) c0 = (Ok r, c') ->
    r = valid) by (by intros reason o c0 (u & c1 & _ & [= <- _])%M_bind_ok).
  destruct (quotes !! _) as [q|] eqn:Eq; [|left; by eapply Hrej].
  destruct (_ || _) eqn:Hfin; [left; by eapply Hrej|].
  apply orb_false_iff in Hfin as [Hf%negb_false_iff Hp].
  intros (drift & c1 & Hd & Hrest)%M_bind_ok. apply lift_ok in Hd as [Hd ->].
  destruct (fgt drift _) eqn:Hdr; [left; by eapply Hrej|].
  apply M_bind_ok in Hrest as (rr & c2 & Hrr & Hrest). apply lift_ok in Hrr as [Hrr ->].
  destruct (_ || _) eqn:Hgeo; [left; by eapply Hrej|].
  apply orb_false_iff in Hgeo as [Hg%negb_false_iff Hrw].
  apply M_bind_ok in Hrest as (u & c3 & _ & [= <- _]). right. eexists. split; [|reflexivity].
  split; simpl; try done; eauto.
Qed.

Lemma revalidate_ok allocations quotes c r c' :
  revalidate self cycle_id at_ allocations quotes c = (Ok r, c') ->
  exists kept, sublist kept allocations /\ Forall2 (revalidated self.(sp_policy) quotes) kept r.
Proof.
  apply (fold_each_inv (fun done r _ =>
    exists kept, sublist kept done /\ Forall2 (revalidated self.(sp_policy) quotes) kept r)).
  - exists []. split; constructor.
  - intros pre acc c0 x acc' c1 _ (kept & Hsub & Hall) Hb.
    destruct (revalidate_one_ok _ _ _ _ _ _ Hb) as [->|(a' & Ha & ->)].
    + exists kept. split; [by apply sublist_inserts_r | done].
    + exists (kept ++ [x]). split; [by apply sublist_app|]. apply Forall2_app; [done|]. by constructor.
Qed.

Lemma generate_one_ok ctx defs cs d c r c' :
  readiness_reason ctx = None -> ctx.(cx_tradeable) = true ->
  eligible self.(sp_registry) ctx.(cx_market) ctx.(cx_timeframe) ctx.(cx_trade_horizon)
    ctx.(cx_feature_set_version) at_ = Ok defs -> d ∈ defs ->
  generate_one self cycle_id at_ ctx cs d c = (Ok r, c') ->
  r = cs \/ exists cand, generated self at_ ctx cand /\ r = cs ++ [cand].
Proof.
  intros Hrd Htr Hel Hd. unfold generate_one. cbv zeta.
  intros (pl & c1 & Hpl & H1)%M_bind_ok. apply lift_ok in Hpl as [Hpl ->].
  apply M_bind_ok in H1 as ([ok reason] & c2 & Hco & H1). apply lift_ok in Hco as [Hco ->].
  destruct ok; simpl in H1.
  2: { apply M_bind_ok in H1 as (u & c3 & _ & [= <- _]). by left. }
  apply M_bind_ok in H1 as (ap & c3 & Hap & H1). apply lift_ok in Hap as [Hap ->].
  apply M_bind_ok in H1 as (u & c4 & _ & H1).
  apply M_bind_ok in H1 as (g & c5 & Hg & H1). apply lift_ok in Hg as [Hg ->].
  destruct g as [signal|].
  2: { apply M_bind_ok in H1 as (u' & c6 & _ & [= <- _]). by left. }
  apply M_bind_ok in H1 as (cand & c6 & Hca & H1). apply lift_ok in Hca as [Hca ->].
  apply M_bind_ok in H1 as (rec & c7 & _ & H1). apply M_bind_ok in H1 as (sd & c8 & _ & H1).
  apply M_bind_ok in H1 as (u' & c9 & _ & [= <- _]).
  right. exists cand. split; [|done]. split; [done|]. split; [done|].
  unfold catalog_require in Hpl. destruct (sp_strategies self !! _) as [pl'|] eqn:Epl; [|done].
  injection Hpl as ->. by exists defs, d, pl, reason, ap, signal.
Qed.

Lemma generate_context_ok cs ctx c r c' :
  generate_context self cycle_id at_ cs ctx c = (Ok r, c') ->
  exists new, r = cs ++ new /\ Forall (generated self at_ ctx) new.
Proof.
  unfold generate_context. destruct (readiness_reason ctx) eqn:Hrd.
  { intros (u & c1 & _ & [= <- _])%M_bind_ok. exists []. by rewrite app_nil_r. }
  intros (u & c1 & _ & H1)%M_bind_ok. destruct (cx_tradeable ctx) eqn:Htr; simpl in H1.
  2: { apply M_bind_ok in H1 as (u' & c2 & _ & [= <- _]). exists []. by rewrite app_nil_r. }
  apply M_bind_ok in H1 as (u' & c2 & _ & H1). apply M_bind_ok in H1 as (defs & c3 & Hel & H1).
  apply lift_ok in Hel as [Hel ->].
  assert (Hloop : fold_each defs cs (generate_one self cycle_id at_ ctx) c2 = (Ok r, c') ->
    exists new, r = cs ++ new /\ Forall (generated self at_ ctx) new).
  { apply (fold_each_inv (fun _ r _ => exists new, r = cs ++ new /\ Forall (generated self at_ ctx) new)).
    - exists []. by rewrite app_nil_r.
    - intros pre acc c4 d acc' c5 Hd (new & -> & Hnew) Hb.
      destruct (generate_one_ok _ _ _ _ _ _ _ Hrd Htr Hel Hd Hb) as [->|(cand & Hc & ->)]; [by exists new|].
      exists (new ++ [cand]). rewrite <-(assoc_L app). split; [done|]. apply Forall_app. by split; [|constructor]. }
  destruct defs as [|d defs]; [|by apply Hloop].
  apply M_bind_ok in H1 as (u'' & c4 & _ & [= <- _]). exists []. by rewrite app_nil_r.
Qed.

Lemma generate_ok contexts c r c' :
  generate self cycle_id at_ contexts c = (Ok r, c') ->
  Forall (fun cand => exists ctx, ctx ∈ contexts /\ generated self at_ ctx cand) r.
Proof.
  intros Hg. cut (Forall (fun cand => exists ctx, ctx ∈ contexts /\ generated self at_ ctx cand) r); [done|].
  revert Hg. apply (fold_each_inv (fun done r _ =>
    Forall (fun cand => exists ctx, ctx ∈ done /\ generated self at_ ctx cand) r)); [constructor|].
  intros pre acc c0 ctx acc' c1 _ Hacc Hb.
  destruct (generate_context_ok _ _ _ _ _ Hb) as (new & -> & Hnew). apply Forall_app. split.
  - eapply Forall_impl; [exact Hacc|]. intros cand (x & Hx & Hgen). exists x. split; [|done].
    apply elem_of_app. by left.
  - eapply Forall_impl; [exact Hnew|]. intros cand Hgen. exists ctx. split; [|done].
    apply elem_of_app. right. by left.
Qed.

(** Review keeps the order and drops exactly the vetoed candidates. *)
Lemma review_ok cands c r c' :
  review self cycle_id at_ cands c = (Ok r, c') ->
  exists verdicts, length verdicts = length cands /\
    (forall i item v, cands !! i = Some item -> verdicts !! i = Some v -> self.(sp_llm_mode) <> OFF ->
       exists f w, self.(sp_reviewer) = Some f /\ v = verdict_of (f item w).1) /\
    r = (List.filter (fun p => negb (blocked self p.2)) (zip cands verdicts)).*1.
Proof.
  unfold review. intros Hr. destruct (decide (sp_llm_mode self = OFF)) as [Hoff|Hon].
  - rewrite Hoff in Hr. apply M_bind_ok in Hr as (u & c1 & _ & [= <- _]).
    exists (replicate (length cands) PASS). rewrite length_replicate. split; [done|]. split; [by intros|].
    clear. induction cands as [|x l IH]; simpl; [done|].
    assert (blocked self PASS = false) as -> by (unfold blocked; by rewrite andb_false_r). simpl.
    f_equal. exact IH.
  - assert (Hf : exists f, sp_reviewer self = Some f /\
      fold_each cands [] (fun result item =>
            verdict ← ask_reviewer f item;
            _ ← emit_candidate cycle_id at_ item LLM_REVIEW (if blocked self verdict then REJECTED else PASSED)
                  ("LLM_" +:+ LlmVerdict_value verdict) [];
            mret (if blocked self verdict then result else result ++ [item])) c = (Ok r, c')).
    { destruct (sp_llm_mode self); [done|..]; destruct (sp_reviewer self) as [f|]; try done; by exists f. }
    destruct Hf as (f & Ef & Hr'). clear Hr. revert Hr'.
    apply (fold_each_inv (fun done r _ => exists verdicts, length verdicts = length done /\
      (forall i item v, done !! i = Some item -> verdicts !! i = Some v -> self.(sp_llm_mode) <> OFF ->
         exists f w, self.(sp_reviewer) = Some f /\ v = verdict_of (f item w).1) /\
      r = (List.filter (fun p => negb (blocked self p.2)) (zip done verdicts)).*1)).
    { by exists []. }
    intros pre acc c0 item acc' c1 _ (vs & Hlen & Hvs & ->) Hb.
    apply M_bind_ok in Hb as (v & c2 & Hv & Hb). apply M_bind_ok in Hb as (u & c3 & _ & [= <- _]).
    exists (vs ++ [v]). rewrite !length_app, Hlen. split; [done|]. split.
    + intros i x y Hx Hy _. destruct (decide (i < length pre)) as [Hi|Hi].
      * rewrite lookup_app_l in Hx by done. rewrite lookup_app_l in Hy by lia. by eapply Hvs.
      * rewrite lookup_app_r in Hx by lia. rewrite lookup_app_r in Hy by lia.
        apply list_lookup_singleton_Some in Hx as [_ <-]. apply list_lookup_singleton_Some in Hy as [_ <-].
        exists f, c0.(cy_world). split; [done|]. revert Hv. unfold ask_reviewer, in_world, zoom.
        destruct (f item (cy_world c0)) as [[w|e] w']; simpl; by intros [= <- _].
    + rewrite zip_with_app by done. rewrite List.filter_app, fmap_app. simpl.
      destruct (blocked self v); simpl; [by rewrite app_nil_r | done].
Qed.

Lemma review_sublist cands c r c' : review self cycle_id at_ cands c = (Ok r, c') -> sublist r cands.
Proof.
  intros (vs & Hlen & _ & ->)%review_ok. revert vs Hlen. induction cands as [|x l IH]; intros [|v vs] Hlen;
    simpl in *; [done..|]. injection Hlen as Hlen. destruct (blocked self v); simpl; constructor; by apply IH.
Qed.
End Stages2.

(** ** A whole cycle *)

(** What is known of a normal cycle that returned. *)
Record normal_cycle {W} (self : StagedDecisionPipeline W) (at_ : datetime) (contexts : list StrategyContext)
    (quotes : dict (Market * string) float) (existing : list (Market * string))
    (correlations : dict (string * string) float) (res : PipelineResult) : Prop := {
  nc_candidates : Forall (fun cand => exists ctx, ctx ∈ contexts /\ generated self at_ ctx cand) res.(pr_candidates);
  nc_scored : res.(pr_scored) =
    py_sorted rank_lt (List.filter (passes_score self.(sp_policy)) (score_of <$> res.(pr_candidates)));
  nc_flow : exists resolved reviewed st kept,
    resolution res.(pr_scored) resolved /\ sublist reviewed resolved /\
    allocation_ok self existing correlations reviewed st /\ sublist kept st.(as_allocations) /\
    Forall2 (revalidated self.(sp_policy) quotes) kept res.(pr_allocations) }.

Section Cycle.
Context {W : Type} `{DecisionLedger W}.
Context (self : StagedDecisionPipeline W).

Lemma run_cycle_ok cid at_ cx p q ex co c res c' :
  run_cycle self cid at_ cx p q ex co c = (Ok res, c') ->
  res.(pr_cycle_id) = cid /\ res.(pr_mode) = preconditions_mode p /\ res.(pr_decisions) = c'.(cy_emitted) /\
  match preconditions_mode p with
  | EXITS_ONLY => res.(pr_candidates) = [] /\ res.(pr_scored) = [] /\ res.(pr_allocations) = [] /\
      exists c1, manage_positions self cid at_ c = (Ok tt, c1) /\
        for_each cx (fun context => emit cid at_ context GLOBAL REJECTED (preconditions_reason p) None) c1
          = (Ok tt, c')
  | NORMAL => normal_cycle self at_ cx q ex co res /\
      exists c1 c2, manage_positions self cid at_ c = (Ok tt, c1) /\
        generate self cid at_ cx c1 = (Ok res.(pr_candidates), c2) /\
        exists m : M (Cycle W) unit, m c2 = (Ok tt, c') /\
          m = (scored ← score self cid at_ res.(pr_candidates);
               resolved ← resolve_conflicts cid at_ scored;
               reviewed ← review self cid at_ resolved;
               allocations ← allocate self cid at_ reviewed ex co;
               valid ← revalidate self cid at_ allocations q; mret tt)
  end.
Proof.
  unfold run_cycle. intros ([] & c1 & Hm & H1)%M_bind_ok. destruct (preconditions_mode p) eqn:Ep.
  - apply M_bind_ok in H1 as (cs & c2 & Hg & H1). apply M_bind_ok in H1 as (sc & c3 & Hs & H1).
    apply M_bind_ok in H1 as (rs & c4 & Hr & H1). apply M_bind_ok in H1 as (rv & c5 & Hv & H1).
    apply M_bind_ok in H1 as (al & c6 & Ha & H1). apply M_bind_ok in H1 as (va & c7 & Hva & H1).
    apply M_bind_ok in H1 as (c8 & c9 & [= <- <-] & [= <- <-]). simpl.
    split; [done|]. split; [done|]. split; [done|].
    pose proof (score_ok _ _ _ _ _ _ _ Hs) as Hsc. split.
    + split; simpl; [by eapply generate_ok | done |].
      destruct (allocate_ok _ _ _ _ _ _ _ _ _ Ha) as (st & Hst & ->).
      destruct (revalidate_ok _ _ _ _ _ _ _ _ Hva) as (kept & Hk & Hall).
      exists rs, rv, st, kept. split; [|split; [by eapply review_sublist | done]].
      apply resolve_conflicts_ok in Hr. rewrite Hr.
      assert (Hnum : Forall numbered (List.filter (passes_score (sp_policy self)) (score_of <$> cs))).
      { apply Forall_forall. intros i [_ Hi]%filter_elem. by eapply passes_score_numbered. }
      subst sc. apply resolution_spec; [by rewrite py_sorted_perm | by apply ranked_sorted].
    + exists c1, c2. split; [done|]. split; [done|]. eexists. split; [|reflexivity].
      apply M_bind_ok. exists sc, c3. split; [done|]. apply M_bind_ok. exists rs, c4. split; [done|].
      apply M_bind_ok. exists rv, c5. split; [done|]. apply M_bind_ok. exists al, c6. split; [done|].
      apply M_bind_ok. by exists va, c7.
  - apply M_bind_ok in H1 as ([] & c2 & Hf & H1).
    apply M_bind_ok in H1 as (c8 & c9 & [= <- <-] & [= <- <-]). simpl.
    split; [done|]. split; [done|]. split; [done|]. split; [done|]. split; [done|]. split; [done|].
    by exists c1.
Qed.

Lemma run_ok cx p t q ex co w res w' :
  run self cx p t q ex co w = (Ok res, w') ->
  aware t = true /\ exists cid c', cycle_identity cx = Ok cid /\ w' = c'.(cy_world) /\
    run_cycle self cid (at_utc (instant t)) cx p q ex (default ∅ co) (MkCycle w []) = (Ok res, c').
Proof.
  unfold run. destruct (utc t _) as [at_|e] eqn:Et; [|done]. apply utc_ok in Et as [Haw ->].
  destruct (cycle_identity cx) as [cid|e]; [|done].
  destruct (run_cycle _ _ _ _ _ _ _ _ _) as [r c'] eqn:Er. intros [= -> <-].
  split; [done|]. by exists cid, c'.
Qed.

(** A returned allocation belongs to a normal cycle. *)
Lemma run_allocations cx p t q ex co w res w' :
  run self cx p t q ex co w = (Ok res, w') ->
  res.(pr_allocations) = [] \/
  preconditions_mode p = NORMAL /\ normal_cycle self (at_utc (instant t)) cx q ex (default ∅ co) res.
Proof.
  intros (_ & cid & c' & _ & _ & Hr)%run_ok. apply run_cycle_ok in Hr as (_ & _ & _ & Hm).
  destruct (preconditions_mode p); [right; by destruct Hm | left; by destruct Hm as (_ & _ & ? & _)].
Qed.
End Cycle.

Lemma Forall2_revalidated_candidates policy q kept r :
  Forall2 (revalidated policy q) kept r -> pa_candidate <$> r = pa_candidate <$> kept.
Proof. induction 1 as [|a a' l l' Ha _ IH]; [done|]. rewrite !fmap_cons, IH. by rewrite (rv_candidate _ _ _ _ Ha). Qed.

(** The limits depend only on which candidates are in the batch, and hold of
    every part of it. *)
Lemma within_limits_sublist policy ex co l l' :
  within_limits policy ex co l -> sublist (pa_candidate <$> l') (pa_candidate <$> l) ->
  within_limits policy ex co l'.
Proof.
  intros [Hp Hs Hn He Hc] Hsub.
  assert (Hlen : length l' <= length l).
  { apply sublist_length in Hsub. by rewrite !length_fmap in Hsub. }
  assert (Hsec : forall s k, length (in_sector s k) =
    length (List.filter (fun c => bool_decide (sector_of c.(sc_candidate) = s)) (pa_candidate <$> k))).
  { intros s k. unfold in_sector. induction k as [|a k IH]; simpl; [done|].
    fold (alloc_sector a). destruct (bool_decide (alloc_sector a = s)); simpl; [f_equal|]; exact IH. }
  assert (Hsym : forall k : list PortfolioAllocation, alloc_symbol <$> k = (fun c => c.(sc_candidate).(ca_symbol)) <$> (pa_candidate <$> k)).
  { intros k. by rewrite <-list_fmap_compose. }
  split.
  - lia.
  - intros s. specialize (Hs s). rewrite Hsec in Hs |- *.
    assert (Hfs : forall k k', sublist k' k ->
      length (List.filter (fun c => bool_decide (sector_of c.(sc_candidate) = s)) k') <=
      length (List.filter (fun c => bool_decide (sector_of c.(sc_candidate) = s)) k)).
    { induction 1; simpl; [done|..]; case_bool_decide; simpl; lia. }
    specialize (Hfs _ _ Hsub). lia.
  - rewrite Hsym in Hn |- *. eapply sublist_NoDup; [exact Hn|]. by apply fmap_sublist.
  - rewrite Forall_forall in He |- *. intros a Ha.
    assert (Hin : pa_candidate a ∈ pa_candidate <$> l).
    { eapply elem_of_sublist; [|exact Hsub]. by apply list_elem_of_fmap_2. }
    apply list_elem_of_fmap in Hin as (b & -> & Hb). by apply He.
  - assert (Hmap : forall k, StronglySorted (uncorrelated policy.(ap_max_pairwise_correlation) co) k <->
      StronglySorted (fun x y => correlated policy.(ap_max_pairwise_correlation) y.(sc_candidate).(ca_symbol)
        [{| pa_candidate := x; pa_quantity := 0; pa_expected_entry_price := 0;
            pa_stop_price := 0; pa_target_price := 0 |}] co = false) (pa_candidate <$> k)).
    { induction k as [|a k IH]; simpl; [by split; constructor|]. split; intros [H1 H2]%StronglySorted_inv.
      - constructor; [by apply IH|]. by apply Forall_fmap.
      - constructor; [by apply IH|]. by apply Forall_fmap in H2. }
    apply Hmap. apply Hmap in Hc. by eapply StronglySorted_sublist.
Qed.

(** ** Capital *)

Section Capital.
Context {W : Type} (self : StagedDecisionPipeline W).
Context (Hpolicy : AllocationPolicy_post_init self.(sp_policy) = Ok tt).
Context (Hcash : isfinite (risk_cash self) = true).

Definition leg_notional (a : PortfolioAllocation) : float :=
  (a.(pa_quantity) * a.(pa_candidate).(sc_candidate).(ca_signal).(sg_reference_price))%float.
(** A signal whose stop distance does not overflow. *)
Definition sized_signal (s : StrategySignal) : Prop :=
  signal_geometry s /\ isfinite (abs (s.(sg_reference_price) - s.(sg_stop_price))) = true.

Lemma policy_positive :
  Forall (fun v => isfinite v = true /\ (0 < fval v)%Z)
    [self.(sp_policy).(ap_equity); self.(sp_policy).(ap_risk_fraction_per_trade);
     self.(sp_policy).(ap_max_order_notional); self.(sp_policy).(ap_max_total_new_notional)] /\
  (0 < self.(sp_policy).(ap_max_positions))%Z /\ (0 < self.(sp_policy).(ap_max_sector_positions))%Z.
Proof.
  pose proof Hpolicy as Hp. unfold AllocationPolicy_post_init in Hp. inv_ok Hp.
  match goal with E : existsb _ _ || existsb _ _ = false |- _ =>
    apply orb_false_iff in E as [E1%existsb_false_Forall E2%existsb_false_Forall] end.
  split.
  - eapply Forall_impl; [exact E1|]. intros v [Hf%negb_false_iff Hv]%orb_false_iff.
    split; [done | by apply positive_spec].
  - apply Forall_cons in E2 as [[_ E2]%orb_false_iff [[_ E3]%orb_false_iff _]%Forall_cons].
    apply Z.leb_gt in E2, E3. done.
Qed.

Lemma risk_cash_nonneg : (0 <= fval (risk_cash self))%Z.
Proof.
  destruct policy_positive as [Hp _]. apply Forall_cons in Hp as [[He Hev] [[Hr Hrv] _]%Forall_cons].
  apply fmul_nonneg; [by apply isfinite_nan | lia | done | done].
Qed.

Lemma leg_notional_nonneg a :
  allocated self a -> sized_signal a.(pa_candidate).(sc_candidate).(ca_signal) ->
  fnan (leg_notional a) = false /\ (0 <= fval (leg_notional a))%Z.
Proof.
  intros (Hq & _) [Hg Hd]. unfold leg_notional.
  set (s := ca_signal _) in *. pose proof (stop_distance_positive s Hg) as Hpos.
  apply fltb_iff in Hpos as (_ & _ & Hpos). rewrite fval_0 in Hpos.
  destruct Hg as [_ Hf Href _ _]. apply Forall_cons in Hf as [_ [Hrf _]%Forall_cons].
  destruct policy_positive as [Hp _].
  apply Forall_cons in Hp as [_ [_ [[Ho Hov] _]%Forall_cons]%Forall_cons].
  unfold order_quantity in Hq. inv_ok Hq.
  repeat match goal with E : fdiv _ _ = Ok _ |- _ =>
    unfold fdiv in E; destruct (_ =? 0)%float in E; [done|]; injection E as <- end.
  subst. rewrite <-Hok2. apply fmul_nonneg; [| |done|done];
    (apply fmin_nonneg; [apply fdiv_nonneg.. | apply fdiv_nonneg | apply fdiv_nonneg]);
    try done; try lia; apply risk_cash_nonneg.
Qed.

Lemma total_notional_snoc l a : total_notional (l ++ [a]) = (total_notional l + leg_notional a)%float.
Proof. unfold total_notional. by rewrite foldl_app. Qed.

(** Dropping legs never raises the total: rounded addition is monotone. *)
Lemma total_notional_sublist m l l' :
  isfinite m = true ->
  Forall (fun a => fnan (leg_notional a) = false /\ (0 <= fval (leg_notional a))%Z) l ->
  (forall pre a, prefix (pre ++ [a]) l -> fgt (total_notional (pre ++ [a])) m = false) ->
  sublist l' l ->
  isfinite (total_notional l) = true /\ isfinite (total_notional l') = true /\
  (0 <= fval (total_notional l') <= fval (total_notional l))%Z.
Proof.
  intros Hm. revert l'. induction l as [|a l IH] using rev_ind; intros l' Hleg Hpre Hsub.
  { apply sublist_nil_r in Hsub as ->. split; [done|]. split; [done|]. done. }
  apply Forall_app in Hleg as [Hleg Ha]. apply Forall_cons in Ha as [[Hna Hpa] _].
  assert (Hpre' : forall pre b, prefix (pre ++ [b]) l -> fgt (total_notional (pre ++ [b])) m = false).
  { intros pre b Hp. apply Hpre. by apply prefix_app_r. }
  apply sublist_app_r in Hsub as (l1 & l2 & -> & H1 & H2).
  destruct (IH l1 Hleg Hpre' H1) as (Hf & Hf1 & Hle).
  assert (Hs : isfinite (total_notional (l ++ [a])) = true).
  { eapply nonneg_le_finite; [| |exact Hm|by apply Hpre]; rewrite total_notional_snoc.
    - by apply fnan_add_nonneg.
    - apply fadd_nonneg; [done..| |done]. lia. }
  rewrite total_notional_snoc in Hs. pose proof (fadd_finite_inv _ _ Hf Hna Hs) as Hfa.
  rewrite total_notional_snoc. split; [done|]. rewrite fval_add by done.
  apply sublist_cons_r in H2 as [->%sublist_nil_r|(k & -> & ->%sublist_nil_r)].
  - rewrite app_nil_r. split; [done|]. split; [lia|].
    rewrite <-rndZ_fval. apply rndZ_mono. lia.
  - assert (H0 : (0 <= rndZ (fval (total_notional l1) + fval (leg_notional a)) <=
                 rndZ (fval (total_notional l) + fval (leg_notional a)))%Z).
    { split; [rewrite <-rndZ_0|]; apply rndZ_mono; lia. }
    rewrite total_notional_snoc, fval_add by done. split; [|done].
    apply isfinite_val. split; [by apply fnan_add|]. rewrite fval_add by done.
    apply isfinite_val in Hs as [_ Hs]. rewrite fval_add in Hs by done. lia.
Qed.
End Capital.

(** ** Audit trail *)

Section Audit.
Context {W : Type} `{DecisionLedgerLaws W}.
Context (self : StagedDecisionPipeline W) (cycle_id : string) (at_ : datetime).

Definition decision_for (ctx : StrategyContext) (stage : DecisionStage) (d : Decision) : Prop :=
  d.(dc_cycle_id) = cycle_id /\ d.(dc_market) = ctx.(cx_market) /\ d.(dc_symbol) = ctx.(cx_symbol) /\
  d.(dc_timeframe) = Some ctx.(cx_timeframe) /\ d.(dc_stage) = stage /\
  d.(dc_occurred_at) = at_utc (instant at_).

Lemma emit_ok ctx stage status reason key (c : Cycle W) u c' :
  emit cycle_id at_ ctx stage status reason key c = (Ok u, c') ->
  exists d, c'.(cy_emitted) = c.(cy_emitted) ++ [d] /\ decision_for ctx stage d /\
    d.(dc_status) = status /\ d.(dc_reason_code) = reason.
Proof.
  unfold emit. intros (d & c1 & Hd & Hr)%M_bind_ok. apply lift_ok in Hd as [Hd ->].
  apply Decision_create_ok in Hd. exists d. split; [|by subst d].
  unfold record_decision in Hr. apply M_bind_ok in Hr as (u1 & c2 & Hw & [= _ <-]).
  unfold in_world, zoom in Hw. destruct (ledger_append d _) as [r w]. injection Hw as _ <-. done.
Qed.

Lemma generate_context_audited cs ctx (c : Cycle W) r c' :
  generate_context self cycle_id at_ cs ctx c = (Ok r, c') ->
  exists d, d ∈ c'.(cy_emitted) /\ decision_for ctx DATA_READINESS d.
Proof.
  intros Hg. unfold generate_context in Hg.
  assert (Hfst : exists u c1 (m : M (Cycle W) (list DeterministicCandidate)),
    c' = (m c1).2 /\ preserves emits m /\
    exists status reason, emit cycle_id at_ ctx DATA_READINESS status reason None c = (Ok u, c1)).
  { destruct (readiness_reason ctx); apply M_bind_ok in Hg as (u & c1 & He & Hm); exists u, c1.
    - exists (M_ret _ cs). split; [by injection Hm as _ <-|].
      split; [by intros c2|]. eauto.
    - eexists. split; [rewrite Hm; reflexivity|]. split; [|eauto].
      preserve; auto using emit_emits, generate_one_emits. }
  destruct Hfst as (u & c1 & m & -> & Hm & status & reason & He).
  destruct (emit_ok _ _ _ _ _ _ _ _ He) as (d & Hd & Hfor & _). exists d. split; [|done].
  eapply emits_emitted; [apply Hm|]. rewrite Hd. apply elem_of_app. right. by left.
Qed.

Lemma generate_audited contexts (c : Cycle W) r c' :
  generate self cycle_id at_ contexts c = (Ok r, c') ->
  Forall (fun ctx => exists d, d ∈ c'.(cy_emitted) /\ decision_for ctx DATA_READINESS d) contexts.
Proof.
  apply (fold_each_inv (fun done _ c' =>
    Forall (fun ctx => exists d, d ∈ c'.(cy_emitted) /\ decision_for ctx DATA_READINESS d) done)); [constructor|].
  intros pre acc c0 ctx acc' c1 _ Hpre Hb. apply Forall_app. split.
  - eapply Forall_impl; [exact Hpre|]. intros x (d & Hd & Hx). exists d. split; [|done].
    pose proof (generate_context_emits self cycle_id at_ acc ctx c0) as He. rewrite Hb in He.
    by eapply emits_emitted.
  - constructor; [by eapply generate_context_audited | constructor].
Qed.

Lemma exits_audited reason contexts (c : Cycle W) u c' :
  for_each contexts (fun ctx => emit cycle_id at_ ctx GLOBAL REJECTED reason None) c = (Ok u, c') ->
  exists ds, c'.(cy_emitted) = c.(cy_emitted) ++ ds /\
    Forall2 (fun ctx d => decision_for ctx GLOBAL d /\ d.(dc_status) = REJECTED /\
      d.(dc_reason_code) = reason) contexts ds.
Proof.
  revert c. induction contexts as [|ctx l IH]; intros c; simpl.
  - intros [= _ <-]. exists []. rewrite app_nil_r. by split; [|constructor].
  - intros (u1 & c1 & He & Hr)%M_bind_ok. destruct (emit_ok _ _ _ _ _ _ _ _ He) as (d & Hd & Hfor & Hs & Hre).
    destruct (IH c1 Hr) as (ds & Hds & Hall). exists (d :: ds). rewrite Hds, Hd, <-(assoc_L app).
    split; [done|]. by constructor.
Qed.
End Audit.

(** ** Theorems *)

Lemma entry_gates {W} `{DecisionLedger W} (self : StagedDecisionPipeline W)
    contexts preconditions t quotes existing correlations w res w' a :
  run self contexts preconditions t quotes existing correlations w = (Ok res, w') ->
  a ∈ res.(pr_allocations) ->
  preconditions_mode preconditions = NORMAL /\
  (exists ctx, ctx ∈ contexts /\
     generated self (at_utc (instant t)) ctx a.(pa_candidate).(sc_candidate)) /\
  fgt (expected_r a.(pa_candidate).(sc_candidate).(ca_signal) a.(pa_candidate).(sc_candidate).(ca_regime))
    self.(sp_policy).(ap_minimum_expected_r) = true /\
  exists a0, allocated self a0 /\ revalidated self.(sp_policy) quotes a0 a.
Proof.
  intros Hr Ha. destruct (run_allocations _ _ _ _ _ _ _ _ _ _ Hr) as [E|[Hmode [Hc Hs Hflow]]].
  { rewrite E in Ha. by apply elem_of_nil in Ha. }
  split; [done|]. destruct Hflow as (rs & rv & st & kept & Hres & Hsub & [_ Hsl Hf _ _ _] & Hk & Hall).
  assert (Hcand : pa_candidate a ∈ pr_scored res).
  { apply (rs_best _ _ Hres). eapply elem_of_sublist; [|exact Hsub].
    eapply elem_of_sublist; [|exact Hsl]. eapply elem_of_sublist; [|by apply fmap_sublist].
    rewrite <-(Forall2_revalidated_candidates _ _ _ _ Hall). by apply list_elem_of_fmap_2. }
  rewrite Hs in Hcand. apply py_sorted_elem, filter_elem in Hcand as [Hin Hpass].
  apply list_elem_of_fmap in Hin as (cand & Hsc & Hin). rewrite Forall_forall in Hc.
  destruct (Hc cand Hin) as (ctx & Hctx & Hgen).
  split; [exists ctx; split; [done | by rewrite Hsc]|].
  split; [unfold passes_score in Hpass; by rewrite Hsc in Hpass |- *|].
  apply list_elem_of_lookup in Ha as [i Hi]. destruct (Forall2_lookup_r _ _ _ _ _ Hall Hi) as (a0 & Hi0 & Hrv).
  exists a0. split; [|done]. rewrite Forall_forall in Hf. apply Hf.
  eapply elem_of_sublist; [|exact Hk]. by eapply list_elem_of_lookup_2.
Qed.

(** C1. Every entry a cycle returns passed every gate: the cycle's
    preconditions all held; the candidate comes from one of the contexts,
    whose data was settled, complete, adjusted, fresh and warm and whose
    symbol was tradeable, through a strategy eligible for exactly that market,
    timeframe, horizon and feature version, with a compatible plugin and a
    current approval; its expected return exceeds the policy's minimum; and
    its entry price is the live quote, finite and positive, within the drift
    limit, strictly between stop and target and with at least the minimum
    reward-to-risk, its size being what the allocation computed. *)
Theorem entries_pass_every_gate {W} `{DecisionLedger W} (self : StagedDecisionPipeline W)
    contexts preconditions t quotes existing correlations w res w' a :
  run self contexts preconditions t quotes existing correlations w = (Ok res, w') ->
  a ∈ res.(pr_allocations) ->
  preconditions_mode preconditions = NORMAL /\
  (exists ctx, ctx ∈ contexts /\
     generated self (at_utc (instant t)) ctx a.(pa_candidate).(sc_candidate)) /\
  fgt (expected_r a.(pa_candidate).(sc_candidate).(ca_signal) a.(pa_candidate).(sc_candidate).(ca_regime))
    self.(sp_policy).(ap_minimum_expected_r) = true /\
  exists a0, allocated self a0 /\ revalidated self.(sp_policy) quotes a0 a.
Proof. apply entry_gates. Qed.

(** C4. Portfolio limits of a batch: a cycle returns at most the maximum
    number of positions and at most the maximum per sector, all on distinct
    symbols, none on a symbol already held, and no two of them correlated
    beyond the limit. *)
Theorem batch_within_limits {W} `{DecisionLedger W} (self : StagedDecisionPipeline W)
    contexts preconditions t quotes existing correlations w res w' :
  run self contexts preconditions t quotes existing correlations w = (Ok res, w') ->
  within_limits self.(sp_policy) existing (default ∅ correlations) res.(pr_allocations).
Proof.
  intros Hr. destruct (run_allocations _ _ _ _ _ _ _ _ _ _ Hr) as [E|[_ [_ _ Hflow]]].
  - rewrite E. split; simpl; try done; [lia | intros; lia | constructor | constructor].
  - destruct Hflow as (rs & rv & st & kept & _ & _ & [Hl _ _ _ _ _] & Hk & Hall).
    eapply within_limits_sublist; [exact Hl|].
    rewrite (Forall2_revalidated_candidates _ _ _ _ Hall). by apply fmap_sublist.
Qed.

(** C9. Capital: when the strategies return well-formed signals, the batch's
    total notional at the signals' reference prices, as binary64 sums it, is
    a finite number no greater than the policy's maximum new notional. *)
Theorem batch_capital_bounded {W} `{DecisionLedger W} (self : StagedDecisionPipeline W)
    contexts preconditions t quotes existing correlations w res w' :
  AllocationPolicy_post_init self.(sp_policy) = Ok tt ->
  isfinite (risk_cash self) = true ->
  (forall i p ctx s, self.(sp_strategies) !! i = Some p -> p.(pl_generate) ctx = Ok (Some s) -> sized_signal s) ->
  run self contexts preconditions t quotes existing correlations w = (Ok res, w') ->
  isfinite (total_notional res.(pr_allocations)) = true /\
  (total_notional res.(pr_allocations) <=? self.(sp_policy).(ap_max_total_new_notional))%float = true.
Proof.
  intros Hp Hcash Hsig Hr.
  destruct (policy_positive self Hp) as [Hpos _].
  apply Forall_cons in Hpos as [_ [_ [_ [[Hm Hmv] _]%Forall_cons]%Forall_cons]%Forall_cons].
  destruct (run_allocations _ _ _ _ _ _ _ _ _ _ Hr) as [E|[_ [Hc Hs Hflow]]].
  { rewrite E. change (total_notional []) with 0%float. split; [done|].
    apply fleb_iff. rewrite fval_0. split; [done|].
    split; [by apply isfinite_nan | lia]. }
  destruct Hflow as (rs & rv & st & kept & Hres & Hsub & [_ Hsl Hf _ _ Hcap] & Hk & Hall).
  assert (Hlegs : Forall (fun a => fnan (leg_notional a) = false /\ (0 <= fval (leg_notional a))%Z) (as_allocations st)).
  { rewrite Forall_forall in Hf |- *. intros a Ha. apply (leg_notional_nonneg self Hp Hcash); [by apply Hf|].
    assert (Hcand : pa_candidate a ∈ pr_scored res).
    { apply (rs_best _ _ Hres). eapply elem_of_sublist; [|exact Hsub].
      eapply elem_of_sublist; [|exact Hsl]. by apply list_elem_of_fmap_2. }
    rewrite Hs in Hcand. apply py_sorted_elem, filter_elem in Hcand as [Hin _].
    apply list_elem_of_fmap in Hin as (cand & -> & Hin). rewrite Forall_forall in Hc.
    destruct (Hc cand Hin) as (ctx & _ & _ & _ & defs & d & pl & reason & ap & s & _ & _ & Hpl & _ & _ & Hg & Hca).
    unfold DeterministicCandidate_create in Hca. apply result_bind_ok in Hca as (e & _ & [= <-]).
    by eapply Hsig. }
  destruct (total_notional_sublist _ _ _ Hm Hlegs Hcap Hk) as (Hft & Hfk & Hle).
  assert (Heq : total_notional (pr_allocations res) = total_notional kept).
  { unfold total_notional. clear -Hall. generalize 0%float. induction Hall as [|a a' l l' Ha _ IH]; intros z; [done|].
    simpl. rewrite (rv_candidate _ _ _ _ Ha), (rv_quantity _ _ _ _ Ha). apply IH. }
  rewrite Heq. split; [done|]. apply fleb_iff. split; [by apply isfinite_nan|]. split; [by apply isfinite_nan|].
  transitivity (fval (total_notional (as_allocations st))); [lia|].
  destruct (as_allocations st) as [|a l _] eqn:El using rev_ind.
  - change (total_notional []) with 0%float. rewrite fval_0. lia.
  - specialize (Hcap l a ltac:(done)). apply fltb_false in Hcap; [done | by apply isfinite_nan..].
Qed.

(** Exits only: when any entry precondition fails, a cycle that returns
    has no candidate, score or allocation; positions were managed first, and
    then exactly one rejection per context was recorded, in order, with the
    first failing precondition as its reason. *)
Theorem exits_only_blocks_entries {W} `{DecisionLedgerLaws W} (self : StagedDecisionPipeline W)
    contexts preconditions t quotes existing correlations w res w' :
  clients_append_only self ->
  preconditions_mode preconditions = EXITS_ONLY ->
  run self contexts preconditions t quotes existing correlations w = (Ok res, w') ->
  res.(pr_candidates) = [] /\ res.(pr_scored) = [] /\ res.(pr_allocations) = [] /\
  exists managed rejections c1,
    manage_positions self res.(pr_cycle_id) (at_utc (instant t)) (MkCycle w []) = (Ok tt, c1) /\
    c1.(cy_emitted) = managed /\ res.(pr_decisions) = managed ++ rejections /\
    Forall2 (fun ctx d => decision_for res.(pr_cycle_id) t ctx GLOBAL d /\ d.(dc_status) = REJECTED /\
      d.(dc_reason_code) = preconditions_reason preconditions) contexts rejections.
Proof.
  intros Hcl Hmode (_ & cid & c' & _ & _ & Hr)%run_ok.
  apply run_cycle_ok in Hr as (Hid & _ & Hd & Hm). rewrite Hmode in Hm.
  destruct Hm as (? & ? & ? & c1 & Hman & Hfor). split; [done|]. split; [done|]. split; [done|].
  destruct (exits_audited _ _ _ _ _ _ _ Hfor) as (ds & Hds & Hall).
  exists c1.(cy_emitted), ds, c1. rewrite Hid, Hd. split; [done|]. split; [done|]. split; [done|].
  unfold decision_for in *. by rewrite instant_at_utc in Hall.
Qed.


(** Deduplication: scoring and conflict resolution together keep at most
    one candidate per market and symbol; a symbol whose strategies disagree on
    the side keeps none; otherwise the one kept ranks before every other and
    has the highest expected return of the symbol's candidates, and every
    undisputed symbol keeps one.  The list is in rank order. *)
Theorem conflict_resolution {W} `{DecisionLedger W} (self : StagedDecisionPipeline W)
    cycle_id at_ candidates c scored c1 resolved c2 :
  score self cycle_id at_ candidates c = (Ok scored, c1) ->
  resolve_conflicts cycle_id at_ scored c1 = (Ok resolved, c2) ->
  resolution scored resolved /\
  (forall i j, i ∈ resolved -> j ∈ scored -> item_key j = item_key i ->
     (j.(sc_score).(sb_expected_r_net_of_costs) <=? i.(sc_score).(sb_expected_r_net_of_costs))%float = true).
Proof.
  intros Hs%score_ok Hr%resolve_conflicts_ok.
  assert (Hnum : Forall numbered scored).
  { rewrite Hs, py_sorted_perm. apply Forall_forall. intros i [_ Hi]%filter_elem.
    by eapply passes_score_numbered. }
  assert (Hsort : StronglySorted (not_after rank_lt) scored).
  { rewrite Hs in Hnum |- *. rewrite py_sorted_perm in Hnum. by apply ranked_sorted. }
  pose proof (resolution_spec scored Hnum Hsort) as Hres. rewrite <-Hr in Hres. split; [done|].
  intros i j Hi Hj Hk. destruct (rs_best _ _ Hres i Hi) as [Hi' Hbest].
  destruct (Hbest j Hj Hk) as [_ Hna]. rewrite Forall_forall in Hnum.
  destruct Hna as [->|Hna]; [|by apply not_after_expected; auto].
  apply fleb_iff. pose proof (Hnum i Hi') as Hn. unfold numbered, expected in Hn. repeat split; try done.
Qed.

(** The reviewer can only veto: with review off or in shadow mode every
    candidate goes on; when the veto is enforced exactly those whose verdict
    is BLOCK are dropped, in order, and a reviewer that raises blocks nothing. *)
Theorem review_only_vetoes {W} `{DecisionLedger W} (self : StagedDecisionPipeline W)
    cycle_id at_ candidates c reviewed c' :
  review self cycle_id at_ candidates c = (Ok reviewed, c') ->
  match self.(sp_llm_mode) with
  | ENFORCED_VETO => exists f verdicts, self.(sp_reviewer) = Some f /\
      length verdicts = length candidates /\
      (forall i item v, candidates !! i = Some item -> verdicts !! i = Some v ->
         exists w, v = match (f item w).1 with Ok v => v | Err _ => UNAVAILABLE end) /\
      reviewed = (List.filter (fun p => negb (bool_decide (p.2 = BLOCK))) (zip candidates verdicts)).*1
  | _ => reviewed = candidates
  end.
Proof.
  intros Hr. destruct (review_ok _ _ _ _ _ _ _ Hr) as (vs & Hlen & Hvs & ->).
  assert (Hkeep : self.(sp_llm_mode) <> ENFORCED_VETO ->
    (List.filter (fun p => negb (blocked self p.2)) (zip candidates vs)).*1 = candidates).
  { intros Hm. assert (Hb : forall v, blocked self v = false).
    { intros v. unfold blocked. by rewrite bool_decide_false. }
    clear Hr. revert vs Hlen Hvs. induction candidates as [|x l IH]; intros [|v vs] Hlen Hvs; simpl in *; try done.
    rewrite Hb. simpl. f_equal. apply IH; [lia|]. intros i. apply (Hvs (S i)). }
  destruct (sp_llm_mode self) eqn:Em; [by apply Hkeep..|].
  assert (Hf : exists f, sp_reviewer self = Some f).
  { unfold review in Hr. rewrite Em in Hr. destruct (sp_reviewer self) as [f|]; [by exists f|done]. }
  destruct Hf as [f Ef]. exists f, vs. split; [done|]. split; [done|]. split.
  - intros i item v Hi Hv. destruct (Hvs i item v Hi Hv) as (f' & w & Ef' & ->); [done|].
    exists w. by simplify_eq.
  - f_equal. apply List.filter_ext. intros p. unfold blocked. rewrite Em. by rewrite bool_decide_true.
Qed.

(** ** A concrete cycle *)

Module PipelineExample.
Import RegistryExample.

Definition signal : StrategySignal := {|
  sg_action := BUY; sg_confidence := 0.75; sg_reference_price := 2500; sg_stop_price := 2475.5;
  sg_target_price := 2560; sg_estimated_cost_r := 0.1; sg_historical_expectancy_r := 0.25;
  sg_ml_tilt_r := 0 |}.
Definition plugin : StrategyPlugin := {|
  pl_object := 1; pl_definition := definition;
  pl_compatibility := fun _ => Ok (true, "COMPATIBLE");
  pl_generate := fun _ => Ok (Some signal) |}.
Definition context (symbol : string) : StrategyContext := {|
  cx_market := NSE; cx_symbol := symbol; cx_sector := Some "ENERGY"; cx_timeframe := "5m";
  cx_trade_horizon := "intraday"; cx_feature_set_version := 2; cx_event_time := now;
  cx_gold_snapshot_ids := ["gold-1"]; cx_features := ∅; cx_settled := true; cx_complete := true;
  cx_adjusted := true; cx_fresh := true; cx_warm := true; cx_tradeable := true;
  cx_tradeability_reason := "TRADEABLE"; cx_regime := default_RegimeEvidence |}.
Definition policy : AllocationPolicy := {|
  ap_equity := 1000000; ap_risk_fraction_per_trade := 0.005; ap_max_order_notional := 100000;
  ap_max_total_new_notional := 300000; ap_max_positions := 3; ap_max_sector_positions := 2;
  ap_max_pairwise_correlation := 0.7; ap_minimum_expected_r := 0; ap_maximum_entry_drift_fraction := 0.003;
  ap_minimum_reward_risk := 1 |}.
Definition reviewer : ScoredCandidate -> M InMemoryDecisionLedger LlmVerdict := fun i =>
  if i.(sc_candidate).(ca_symbol) ==p "ONGC" then mret BLOCK else mret PASS.
Definition pipeline : StagedDecisionPipeline InMemoryDecisionLedger := {|
  sp_registry := registry; sp_strategies := <[identity := plugin]> ∅; sp_policy := policy;
  sp_llm_mode := ENFORCED_VETO; sp_reviewer := Some reviewer; sp_position_manager := None |}.
Definition clear : CyclePreconditions := {|
  cp_entry_kill_switch_clear := true; cp_daily_loss_capacity := true; cp_entry_session_open := true;
  cp_capital_available := true |}.
Definition closed : CyclePreconditions := {|
  cp_entry_kill_switch_clear := true; cp_daily_loss_capacity := true; cp_entry_session_open := false;
  cp_capital_available := true |}.
Definition quotes : dict (Market * string) float :=
  <[(NSE, "RELIANCE") := 2501.5%float]> (<[(NSE, "ONGC") := 2500%float]> ∅).
Definition contexts : list StrategyContext := [context "RELIANCE"; context "ONGC"].
Local Abbreviation cycle p := (run pipeline contexts p now quotes [] None empty_ledger) (only parsing).

Lemma pipeline_clients : clients_append_only pipeline.
Proof.
  split; [|done]. intros f item [= <-] s. unfold reviewer.
  destruct (_ ==p _); apply (reflexivity (R := memory_le)).
Qed.

Lemma plugin_signals i p ctx s :
  pipeline.(sp_strategies) !! i = Some p -> p.(pl_generate) ctx = Ok (Some s) -> sized_signal s.
Proof.
  change (sp_strategies pipeline !! i)
    with (<[identity := plugin]> (∅ : dict StrategyIdentity StrategyPlugin) !! i).
  rewrite dict_lookup_insert. case_decide; [|done].
  intros [= <-] [= <-]. split; [by apply StrategySignal_valid | done].
Qed.

(** The cycle selects RELIANCE at its live quote and drops the vetoed ONGC. *)
Lemma cycle_result : exists res w, cycle clear = (Ok res, w) /\ length res.(pr_scored) = 2 /\
  alloc_symbol <$> res.(pr_allocations) = ["RELIANCE"].
Proof. vm_compute. do 2 eexists. repeat split; reflexivity. Qed.

Lemma entries_pass_every_gate_witness :
  exists res w a, cycle clear = (Ok res, w) /\ a ∈ res.(pr_allocations) /\
    fgt (expected_r a.(pa_candidate).(sc_candidate).(ca_signal) a.(pa_candidate).(sc_candidate).(ca_regime))
      policy.(ap_minimum_expected_r) = true.
Proof.
  destruct cycle_result as (res & w & Hr & _ & Ha).
  destruct (pr_allocations res) as [|a l] eqn:E; [discriminate Ha|].
  assert (Hin : a ∈ pr_allocations res) by (rewrite E; left).
  exists res, w, a. split; [exact Hr|]. split; [rewrite E; left|].
  apply (entries_pass_every_gate pipeline contexts clear now quotes [] None empty_ledger res w a Hr Hin).
Defined.

Lemma batch_within_limits_witness :
  exists res w, cycle clear = (Ok res, w) /\ NoDup (alloc_symbol <$> res.(pr_allocations)).
Proof.
  destruct cycle_result as (res & w & Hr & _). exists res, w. split; [exact Hr|].
  apply (batch_within_limits pipeline contexts clear now quotes [] None empty_ledger res w Hr).
Defined.

Lemma batch_capital_bounded_witness :
  exists res w, cycle clear = (Ok res, w) /\
    (total_notional res.(pr_allocations) <=? 300000)%float = true.
Proof.
  destruct cycle_result as (res & w & Hr & _). exists res, w. split; [exact Hr|].
  apply (batch_capital_bounded pipeline contexts clear now quotes [] None empty_ledger res w);
    [vm_compute; reflexivity | vm_compute; reflexivity | exact plugin_signals | exact Hr].
Defined.

Lemma exits_only_blocks_entries_witness :
  exists res w, cycle closed = (Ok res, w) /\ res.(pr_allocations) = [].
Proof.
  assert (H : exists res w, cycle closed = (Ok res, w)) by (vm_compute; do 2 eexists; reflexivity).
  destruct H as (res & w & Hr). exists res, w. split; [exact Hr|].
  apply (exits_only_blocks_entries pipeline contexts closed now quotes [] None empty_ledger res w
    pipeline_clients eq_refl Hr).
Defined.


Definition started : Cycle InMemoryDecisionLedger := MkCycle empty_ledger [].
Definition candidate (id symbol : string) (s : StrategySignal) : DeterministicCandidate := {|
  ca_candidate_id := id; ca_identity := identity; ca_approval_id := "approval-1"; ca_symbol := symbol;
  ca_sector := Some "ENERGY"; ca_event_time := now; ca_gold_snapshot_ids := ["gold-1"];
  ca_signal := s; ca_regime := default_RegimeEvidence |}.
Definition weaker : StrategySignal := {|
  sg_action := BUY; sg_confidence := 0.5; sg_reference_price := 2500; sg_stop_price := 2480;
  sg_target_price := 2560; sg_estimated_cost_r := 0.1; sg_historical_expectancy_r := 0.25;
  sg_ml_tilt_r := 0 |}.
Definition candidates : list DeterministicCandidate :=
  [candidate "c1" "RELIANCE" weaker; candidate "c2" "RELIANCE" signal; candidate "c3" "ONGC" signal].
Definition scoring : result (list ScoredCandidate) * Cycle InMemoryDecisionLedger :=
  score pipeline "cycle-1" now candidates started.
Definition scored : list ScoredCandidate := match scoring.1 with Ok l => l | Err _ => [] end.

Lemma conflict_resolution_witness :
  exists resolved c2, resolve_conflicts "cycle-1" now scored scoring.2 = (Ok resolved, c2) /\
    resolution scored resolved.
Proof.
  assert (Hs : scoring = (Ok scored, scoring.2)) by (vm_compute; reflexivity).
  assert (Hr : exists resolved c2, resolve_conflicts "cycle-1" now scored scoring.2 = (Ok resolved, c2))
    by (vm_compute; do 2 eexists; reflexivity).
  destruct Hr as (resolved & c2 & Hr). exists resolved, c2. split; [exact Hr|].
  apply (conflict_resolution pipeline "cycle-1" now candidates started scored scoring.2 resolved c2 Hs Hr).
Defined.

Lemma review_only_vetoes_witness :
  exists reviewed c' f, review pipeline "cycle-1" now scored started = (Ok reviewed, c') /\
    pipeline.(sp_reviewer) = Some f /\ length reviewed = 2.
Proof.
  assert (H : exists reviewed c', review pipeline "cycle-1" now scored started = (Ok reviewed, c') /\
    length reviewed = 2) by (vm_compute; do 2 eexists; split; reflexivity).
  destruct H as (reviewed & c' & Hr & Hl).
  destruct (review_only_vetoes pipeline "cycle-1" now scored started reviewed c' Hr) as (f & _ & Hf & _).
  exists reviewed, c', f. split; [exact Hr|]. split; [exact Hf | exact Hl].
Defined.

End PipelineExample.
