(* ===== verification/PaperBatch.v ===== *)
(** * Paper batch executor (src/nanodelta/orchestration/paper_batch.py)

    The hand-off from a cycle's allocations to risk evaluation and atomic
    paper execution, with a decision recorded for every outcome. *)

From Stdlib Require Import ZArith Floats.
From stdpp Require Import prelude strings numbers list sorting.
From S2P Require Import Prelude PyData PyFloat FloatTheory PyText Sha256 PyTime Contracts Registry Risk Execution.
From S2P Require Import Decisions StrategyRuntime Pipeline PipelineTheory.

Record PaperBatchResult := {
  pb_risk_decisions : list RiskDecision;
  pb_receipts : list ExecutionReceipt }.

(** The executor's collaborators: the registry, risk limits and execution
    policy it was built with, and the engine and ledger it mutates. *)
Record PaperBatchExecutor := {
  pe_registry : StrategyRegistry;
  pe_limits : RiskLimits;
  pe_policy : ExecutionPolicy }.
Record BatchWorld (L : Type) := MkBatchWorld { bw_engine : EngineState; bw_ledger : L }.
Arguments MkBatchWorld {L} bw_engine bw_ledger.
Arguments bw_engine {L} _.
Arguments bw_ledger {L} _.

Section Batch.
Context {L : Type} `{DecisionLedger L}.
Context (self : PaperBatchExecutor).

Definition in_engine {A} (m : M EngineState A) : M (BatchWorld L) A :=
  zoom bw_engine (fun e w => MkBatchWorld e w.(bw_ledger)) m.
Definition in_ledger {A} (m : M L A) : M (BatchWorld L) A :=
  zoom bw_ledger (fun l w => MkBatchWorld w.(bw_engine) l) m.

(** [_append] *)
Definition batch_append (res : PipelineResult) (candidate : DeterministicCandidate)
    (stage : DecisionStage) (status : DecisionStatus) (reason : string) (occurred_at : datetime)
    (detail : string) : M (BatchWorld L) unit :=
  decision ← lift (Decision_create res.(pr_cycle_id) candidate.(ca_identity).(si_market)
                     candidate.(ca_symbol) (Some candidate.(ca_identity).(si_timeframe)) stage status reason
                     occurred_at (Some candidate.(ca_candidate_id))
                     (Some (identity_key candidate.(ca_identity))) detail []);
  in_ledger (ledger_append decision).

Definition batch_intent (cycle_id account_id : string) (evaluated_at : datetime)
    (allocation : PortfolioAllocation) (approval : StrategyApproval) : TradeIntent :=
  let candidate := allocation.(pa_candidate).(sc_candidate) in {|
  ti_intent_id := stable_id ["trade-intent"; cycle_id; candidate.(ca_candidate_id)];
  ti_market := candidate.(ca_identity).(si_market);
  ti_account_id := account_id;
  ti_symbol := candidate.(ca_symbol);
  ti_action := candidate.(ca_signal).(sg_action);
  ti_quantity := allocation.(pa_quantity);
  ti_reference_price := allocation.(pa_expected_entry_price);
  ti_event_time := evaluated_at;
  ti_candidate_id := candidate.(ca_candidate_id);
  ti_approval_id := approval.(sa_approval_id);
  ti_identity := candidate.(ca_identity);
  ti_gold_snapshot_ids := candidate.(ca_gold_snapshot_ids);
  ti_agent_evidence_id := None |}.

(** The risk half of the first loop: approval, intent and evaluation. *)
Definition batch_risk (res : PipelineResult) (account_id : string) (portfolio : PortfolioSnapshot)
    (evaluated_at : datetime) (allocation : PortfolioAllocation) : result RiskDecision :=
  let candidate := allocation.(pa_candidate).(sc_candidate) in
  approval ← require_approval self.(pe_registry) candidate.(ca_identity) evaluated_at;
  intent ← new_TradeIntent (batch_intent res.(pr_cycle_id) account_id evaluated_at allocation approval);
  evaluate self.(pe_limits) intent approval portfolio evaluated_at.

Definition batch_evaluate (res : PipelineResult) (account_id : string) (portfolio : PortfolioSnapshot)
    (evaluated_at : datetime) (risk_decisions : list RiskDecision) (allocation : PortfolioAllocation)
    : M (BatchWorld L) (list RiskDecision) :=
  risk_decision ← lift (batch_risk res account_id portfolio evaluated_at allocation);
  let risk_decisions := risk_decisions ++ [risk_decision] in
  reason ← lift (if approved risk_decision then Ok "RISK_APPROVED"
                 else match risk_decision.(rd_rejection_reasons) with
                      | r :: _ => Ok r
                      | [] => Err (OtherException "IndexError" "tuple index out of range")
                      end);
  _ ← batch_append res allocation.(pa_candidate).(sc_candidate) RISK
        (if approved risk_decision then PASSED else REJECTED) reason evaluated_at "";
  mret risk_decisions.

(** [PaperBatchExecutor.execute] *)
Definition batch_execute (res : PipelineResult) (account_id : string) (portfolio : PortfolioSnapshot)
    (evaluated_at : datetime) : M (BatchWorld L) PaperBatchResult :=
  evaluated_at ← lift (utc evaluated_at "evaluated_at");
  decisions ← fold_each res.(pr_allocations) [] (batch_evaluate res account_id portfolio evaluated_at);
  if existsb (fun d => negb (approved d)) decisions then
    mret {| pb_risk_decisions := decisions; pb_receipts := [] |}
  else
    receipts ← in_engine (execute_batch self.(pe_policy) decisions res.(pr_cycle_id) evaluated_at);
    _ ← for_each (zip res.(pr_allocations) receipts) (fun '(allocation, receipt) =>
          batch_append res allocation.(pa_candidate).(sc_candidate) EXECUTION ORDERED
            "PAPER_ORDER_CREATED" evaluated_at receipt.(er_order).(po_order_id));
    _ ← lift (raise_if (negb (length res.(pr_allocations) =? length receipts)%nat)
               (ValueError "zip() arguments have different lengths"));
    mret {| pb_risk_decisions := decisions; pb_receipts := receipts |}.
End Batch.

(** ** What a batch does *)

Section BatchLemmas.
Context {L : Type} `{DecisionLedger L}.
Context (self : PaperBatchExecutor).

Definition engine_same (w w' : BatchWorld L) : Prop := w'.(bw_engine) = w.(bw_engine).
#[export] Instance engine_same_preorder : PreOrder engine_same.
Proof. split; [done|]. intros w1 w2 w3 H1 H2. unfold engine_same in *. congruence. Qed.

Lemma batch_append_same res c st ss r t d : preserves engine_same (batch_append (L := L) res c st ss r t d).
Proof.
  unfold batch_append. preserve. intros w. unfold in_ledger, zoom.
  by destruct (ledger_append _ _) as [r' l].
Qed.

Lemma batch_evaluate_same res acct pf t ds a :
  preserves engine_same (batch_evaluate self (L := L) res acct pf t ds a).
Proof. unfold batch_evaluate. cbv zeta. preserve; apply batch_append_same. Qed.

Lemma batch_evaluate_ok res acct pf t ds a w ds' w' :
  batch_evaluate self (L := L) res acct pf t ds a w = (Ok ds', w') ->
  exists d, batch_risk self res acct pf t a = Ok d /\ ds' = ds ++ [d].
Proof.
  unfold batch_evaluate. cbv zeta. intros (d & w1 & Hd & Hrest)%M_bind_ok. apply lift_ok in Hd as [Hd ->].
  apply M_bind_ok in Hrest as (r & w2 & _ & Hrest). apply M_bind_ok in Hrest as (u & w3 & _ & [= <- _]).
  by exists d.
Qed.

Lemma batch_decisions_ok res acct pf t l w ds w' :
  fold_each l [] (batch_evaluate self (L := L) res acct pf t) w = (Ok ds, w') ->
  Forall2 (fun a d => batch_risk self res acct pf t a = Ok d) l ds.
Proof.
  apply (fold_each_inv (fun done ds _ => Forall2 (fun a d => batch_risk self res acct pf t a = Ok d) done ds)).
  - constructor.
  - intros pre acc w0 x acc' w1 _ Hall Hb. destruct (batch_evaluate_ok _ _ _ _ _ _ _ _ _ Hb) as (d & Hd & ->).
    apply Forall2_app; [done|]. by constructor.
Qed.

(** The three ways a call ends. *)
Lemma batch_execute_cases res acct pf t w :
  (exists e w', batch_execute self res acct pf t w = (Err e, w') /\ engine_same w w') \/
  (exists ds w1, aware t = true /\
     Forall2 (fun a d => batch_risk self res acct pf (at_utc (instant t)) a = Ok d) res.(pr_allocations) ds /\
     engine_same w w1 /\
     ((existsb (fun d => negb (approved d)) ds = true /\
       batch_execute self res acct pf t w = (Ok {| pb_risk_decisions := ds; pb_receipts := [] |}, w1)) \/
      (exists rs e2 w', existsb (fun d => negb (approved d)) ds = false /\
         execute_batch self.(pe_policy) ds res.(pr_cycle_id) (at_utc (instant t)) w.(bw_engine) = (Ok rs, e2) /\
         w'.(bw_engine) = e2 /\
         (batch_execute self res acct pf t w = (Ok {| pb_risk_decisions := ds; pb_receipts := rs |}, w') \/
          exists err, batch_execute self res acct pf t w = (Err err, w'))))).
Proof.
  destruct (batch_execute self res acct pf t w) as [r w'] eqn:HB. unfold batch_execute in HB.
  unfold mbind at 1, M_bind at 1, lift at 1 in HB.
  destruct (utc t _) as [at_|e] eqn:Et; [|injection HB as <- <-; left; by exists e, w].
  apply utc_ok in Et as [Haw ->]. set (at_ := at_utc (instant t)) in *.
  pose proof (preserves_fold_each engine_same (pr_allocations res) [] (batch_evaluate self (L := L) res acct pf at_)
    (fun ds a _ => batch_evaluate_same res acct pf at_ ds a) w) as Hsame.
  unfold mbind at 1, M_bind at 1 in HB.
  destruct (fold_each (pr_allocations res) [] _ w) as [[ds|e] w1] eqn:Ef; simpl in Hsame;
    [|injection HB as <- <-; left; by exists e, w1].
  pose proof (batch_decisions_ok _ _ _ _ _ _ _ _ Ef) as Hall.
  destruct (existsb _ ds) eqn:Hap.
  { injection HB as <- <-. right. exists ds, w1. split; [done|]. split; [done|]. split; [done|]. by left. }
  unfold mbind at 1, M_bind at 1, in_engine, zoom in HB. unfold engine_same in Hsame. rewrite Hsame in HB.
  destruct (execute_batch_cases (pe_policy self) ds (pr_cycle_id res) at_ (bw_engine w))
    as [(e & He)|(rs & e2 & He & _)]; rewrite He in HB.
  { injection HB as <- <-. left. do 2 eexists. split; [done|]. done. }
  right. exists ds, w1. split; [done|]. split; [done|]. split; [done|]. right.
  match type of HB with ?m ?w2 = _ => assert (Hm : preserves engine_same m) end.
  { preserve; apply batch_append_same. }
  match type of HB with ?m ?w2 = _ => specialize (Hm w2) end. rewrite HB in Hm.
  exists rs, e2, w'. split; [done|]. split; [done|]. split; [exact Hm|].
  destruct r as [r|e]; [left|right; by exists e].
  apply M_bind_ok in HB as (u & w3 & _ & HB). apply M_bind_ok in HB as (u' & w4 & _ & [= <- _]). done.
Qed.

(** A decision that came out of the batch's risk step. *)
Lemma batch_risk_ok res acct pf t a d :
  batch_risk self res acct pf t a = Ok d ->
  exists approval, require_approval self.(pe_registry) a.(pa_candidate).(sc_candidate).(ca_identity) t = Ok approval /\
    TradeIntent_post_init (batch_intent res.(pr_cycle_id) acct t a approval) = Ok tt /\
    evaluate self.(pe_limits) (batch_intent res.(pr_cycle_id) acct t a approval) approval pf t = Ok d /\
    d.(rd_intent) = batch_intent res.(pr_cycle_id) acct t a approval.
Proof.
  unfold batch_risk. cbv zeta. intros (ap & Hap & Hrest)%result_bind_ok.
  apply result_bind_ok in Hrest as (i & Hi & He). unfold new_TradeIntent in Hi.
  apply result_bind_ok in Hi as ([] & Hi & [= <-]). exists ap. split; [done|]. split; [done|]. split; [done|].
  unfold evaluate in He. apply result_bind_ok in He as (now & _ & He). apply result_bind_ok in He as (r1 & _ & He).
  apply result_bind_ok in He as (cap & _ & [= <-]). done.
Qed.
End BatchLemmas.

(** ** Theorems *)

(** The batch is all or nothing across risk and execution: if risk
    rejects any allocation nothing is executed and the engine is exactly as
    it was; if a result with receipts is returned, every allocation was
    approved, each has its receipt on record under the batch's key, and no
    position outside the batch moved; and if the call raises, either the
    engine is unchanged or the whole approved batch was filled (only the
    audit append after it failed), never a part of it. *)
Theorem paper_batch_all_or_nothing {L} `{DecisionLedger L} self res acct pf t (w : BatchWorld L) :
  match batch_execute self res acct pf t w with
  | (Ok r, w') =>
      length r.(pb_risk_decisions) = length res.(pr_allocations) /\
      (Exists (fun d => approved d = false) r.(pb_risk_decisions) ->
         r.(pb_receipts) = [] /\ w'.(bw_engine) = w.(bw_engine)) /\
      (Forall (fun d => approved d = true) r.(pb_risk_decisions) ->
         Forall2 (fun d rc => w'.(bw_engine).(eng_receipts) !! batch_key res.(pr_cycle_id) d = Some rc /\
           rc.(er_order).(po_decision_id) = d.(rd_decision_id)) r.(pb_risk_decisions) r.(pb_receipts) /\
         (forall k, k ∉ (intent_key ∘ rd_intent <$> r.(pb_risk_decisions)) ->
            w'.(bw_engine).(eng_positions) !! k = w.(bw_engine).(eng_positions) !! k))
  | (Err _, w') =>
      w'.(bw_engine) = w.(bw_engine) \/
      exists ds rs, length ds = length res.(pr_allocations) /\ Forall (fun d => approved d = true) ds /\
        execute_batch self.(pe_policy) ds res.(pr_cycle_id) (at_utc (instant t)) w.(bw_engine)
          = (Ok rs, w'.(bw_engine))
  end.
Proof.
  assert (Hno : forall ds, existsb (fun d => negb (approved d)) ds = false -> Forall (fun d => approved d = true) ds).
  { intros ds Hd%existsb_false_Forall. eapply Forall_impl; [exact Hd|]. intros d. apply negb_false_iff. }
  destruct (batch_execute_cases self res acct pf t w)
    as [(e & w' & -> & Hs)|(ds & w1 & _ & Hall & Hs & [[Hap ->]|(rs & e2 & w' & Hap & He & <- & [->|(err & ->)])])].
  - by left.
  - apply Forall2_length in Hall. split; [done|]. split; [done|]. intros Hf. exfalso.
    apply existsb_true_elem in Hap as (d & Hd & Hn). rewrite Forall_forall in Hf. by rewrite (Hf d Hd) in Hn.
  - apply Forall2_length in Hall. split; [done|]. apply Hno in Hap. simpl. split.
    + intros (d & Hd & Hn)%Exists_exists. rewrite Forall_forall in Hap. by rewrite (Hap d Hd) in Hn.
    + intros _. destruct (execute_batch_cases (pe_policy self) ds (pr_cycle_id res) (at_utc (instant t)) (bw_engine w))
        as [(e & Hc)|(rs' & s' & Hc & _ & _ & _ & Hm)]; rewrite Hc in He; [done|]. injection He as <- <-.
      split; [by eapply map_each_receipts|]. intros k Hk.
      pose proof (map_each_fills (pe_policy self) (fun d => d ∈ ds) ds (pr_cycle_id res) (at_utc (instant t))
        (bw_engine w)) as Hf. rewrite Hm in Hf.
      eapply fills_positions; [apply Hf; by apply Forall_forall|].
      intros d Hd Heq. apply Hk. apply list_elem_of_fmap. by exists d.
  - right. exists ds, rs. apply Forall2_length in Hall. split; [done|]. split; [by apply Hno | done].
Qed.

(** No unapproved or oversized trade reaches the engine: when a batch
    returns receipts, each allocation's order was built from it (its side,
    size and live entry price), under an approval current at that time, and
    passed the risk engine with its notional at most the order limit and the
    projected position at most the position limit. *)
Theorem paper_batch_orders_approved {L} `{DecisionLedger L} self res acct pf t (w : BatchWorld L) r w' :
  RiskLimits_post_init self.(pe_limits) = Ok tt ->
  PortfolioSnapshot_post_init pf = Ok tt -> finite_positions pf ->
  batch_execute self res acct pf t w = (Ok r, w') -> r.(pb_receipts) <> [] ->
  Forall2 (fun a d => approved d = true /\
    exists approval, require_approval self.(pe_registry) a.(pa_candidate).(sc_candidate).(ca_identity)
        (at_utc (instant t)) = Ok approval /\
      d.(rd_intent) = batch_intent res.(pr_cycle_id) acct (at_utc (instant t)) a approval /\
      (a.(pa_quantity) * a.(pa_expected_entry_price) <=? self.(pe_limits).(rl_max_order_notional))%float = true /\
      (projected_notional d.(rd_intent) pf <=? self.(pe_limits).(rl_max_position_notional))%float = true)
    res.(pr_allocations) r.(pb_risk_decisions).
Proof.
  intros Hl Hp Hfin Hr Hne.
  destruct (batch_execute_cases self res acct pf t w)
    as [(e & w1 & E & _)|(ds & w1 & _ & Hall & _ & [[_ E]|(rs & e2 & w2 & Hap & He & _ & [E|(err & E)])])];
    rewrite E in Hr; try done; injection Hr as <- <-; [done|]. simpl.
  assert (Hds : Forall (fun d => approved d = true) ds).
  { apply existsb_false_Forall in Hap. eapply Forall_impl; [exact Hap|]. intros d. apply negb_false_iff. }
  clear -Hall Hds Hl Hp Hfin. induction Hall as [|a d l l' Ha Hall IH]; constructor.
  - apply Forall_cons in Hds as [Hd _]. split; [done|].
    destruct (batch_risk_ok _ _ _ _ _ _ _ Ha) as (ap & Hap & Hi & He & Hint). exists ap. split; [done|]. split; [done|].
    destruct (approved_entry_limits _ _ _ _ _ _ Hl Hi Hp Hfin He Hd) as (Ho & Hpo & _). rewrite Hint. by split.
  - apply Forall_cons in Hds as [_ Hds]. by apply IH.
Qed.

(** ** Concrete batches *)

Module PaperBatchExample.
Import RegistryExample RiskExample PipelineExample.

Definition allocation (id symbol : string) : PortfolioAllocation := {|
  pa_candidate := score_of (candidate id symbol signal); pa_quantity := 10.5;
  pa_expected_entry_price := 2501.5; pa_stop_price := 2475.5; pa_target_price := 2560 |}.
Definition cycle_result (l : list PortfolioAllocation) : PipelineResult := {|
  pr_cycle_id := "cycle-1"; pr_mode := NORMAL; pr_candidates := []; pr_scored := [];
  pr_allocations := l; pr_decisions := [] |}.
Definition executor (max_open : Z) : PaperBatchExecutor := {|
  pe_registry := registry;
  pe_limits := {| rl_max_order_notional := 100000; rl_max_position_notional := 200000;
                  rl_max_market_gross_exposure := 500000; rl_max_total_gross_exposure := 1000000;
                  rl_max_daily_loss := 20000; rl_max_open_positions := max_open;
                  rl_max_snapshot_age_seconds := 30 |};
  pe_policy := ExecutionExample.policy |}.
Definition world : BatchWorld InMemoryDecisionLedger := MkBatchWorld empty_engine empty_ledger.

Lemma paper_batch_orders_approved_witness :
  exists r w', batch_execute (executor 5) (cycle_result [allocation "c1" "RELIANCE"]) "paper"
      (portfolio []) now world = (Ok r, w') /\
    Forall (fun d => approved d = true) r.(pb_risk_decisions).
Proof.
  assert (H : exists r w', batch_execute (executor 5) (cycle_result [allocation "c1" "RELIANCE"]) "paper"
      (portfolio []) now world = (Ok r, w') /\ is_nil r.(pb_receipts) = false)
    by (vm_compute; do 2 eexists; split; reflexivity).
  destruct H as (r & w' & Hr & Hn). exists r, w'. split; [exact Hr|].
  assert (Hall : Forall2 (fun a d => approved d = true) [allocation "c1" "RELIANCE"] r.(pb_risk_decisions)).
  { eapply Forall2_impl;
      [apply (paper_batch_orders_approved (executor 5) (cycle_result [allocation "c1" "RELIANCE"]) "paper"
         (portfolio []) now world r w'); [vm_compute; reflexivity | vm_compute; reflexivity | constructor
         | exact Hr | intros E; rewrite E in Hn; discriminate Hn] |].
    intros a d [Hd _]. exact Hd. }
  inversion Hall as [|a d l l' Hd Hl]; subst. constructor; [exact Hd|].
  inversion Hl. constructor.
Defined.

(** Every order of a batch is evaluated against the same snapshot, so the
    batch as a whole may pass a limit none of its orders passes: here two
    positions are opened although at most one may be open. *)
Lemma batch_exceeds_position_limit :
  exists r w', batch_execute (executor 1)
      (cycle_result [allocation "c1" "RELIANCE"; allocation "c2" "ONGC"]) "paper" (portfolio []) now world
      = (Ok r, w') /\
    length r.(pb_receipts) = 2 /\
    length (List.filter (fun p => bool_decide (p.(pos_state) = OPEN)) (dict_values w'.(bw_engine).(eng_positions))) = 2.
Proof. vm_compute. do 2 eexists. repeat split; reflexivity. Qed.

End PaperBatchExample.
