(* ===== verification/Lifecycle.v ===== *)
(** * Position lifecycle (src/nanodelta/paper/lifecycle.py)

    Exit plans registered for filled entries, the stop/target management that
    closes them through the risk engine and the paper engine, and the record
    of their outcomes. *)

From Stdlib Require Import ZArith Floats.
From stdpp Require Import prelude strings numbers list sorting.
From S2P Require Import Prelude PyData PyFloat FloatTheory PyText Sha256 PyTime Contracts Registry Risk Execution.
From S2P Require Import Outcomes Decisions StrategyRuntime Pipeline.

Inductive ExitReason := STOP | TARGET.
#[export] Instance ExitReason_eq_dec : EqDecision ExitReason.
Proof. solve_decision. Defined.
Definition ExitReason_value (r : ExitReason) : string :=
  match r with STOP => "STOP" | TARGET => "TARGET" end.

Record ExitPlan := {
  xp_position_id : string;
  xp_market : Market;
  xp_account_id : string;
  xp_symbol : string;
  xp_entry_action : AdvisoryAction;
  xp_quantity : float;
  xp_stop_price : float;
  xp_target_price : float;
  xp_allocated_capital : float;
  xp_candidate_id : string;
  xp_approval_id : string;
  xp_identity : StrategyIdentity;
  xp_gold_snapshot_ids : list string;
  xp_created_at : datetime }.
#[export] Instance py_eq_ExitPlan : PyEq ExitPlan := fun a b =>
  (a.(xp_position_id) ==p b.(xp_position_id)) && (a.(xp_market) ==p b.(xp_market)) &&
  (a.(xp_account_id) ==p b.(xp_account_id)) && (a.(xp_symbol) ==p b.(xp_symbol)) &&
  (a.(xp_entry_action) ==p b.(xp_entry_action)) && (a.(xp_quantity) ==p b.(xp_quantity)) &&
  (a.(xp_stop_price) ==p b.(xp_stop_price)) && (a.(xp_target_price) ==p b.(xp_target_price)) &&
  (a.(xp_allocated_capital) ==p b.(xp_allocated_capital)) && (a.(xp_candidate_id) ==p b.(xp_candidate_id)) &&
  (a.(xp_approval_id) ==p b.(xp_approval_id)) && (a.(xp_identity) ==p b.(xp_identity)) &&
  (a.(xp_gold_snapshot_ids) ==p b.(xp_gold_snapshot_ids)) && (a.(xp_created_at) ==p b.(xp_created_at)).

#[export] Instance py_eq_trans_ExitPlan : PyEqTrans ExitPlan.
Proof.
  intros x y z. unfold py_eq, py_eq_ExitPlan. rewrite !andb_true_iff. intros H1 H2.
  repeat split; (eapply py_eq_trans; [apply H1 | apply H2]).
Qed.

(** ** MemoryLifecycleStore *)

Record MemoryLifecycleStore := {
  ms_plans : dict string ExitPlan;
  ms_outcomes : dict string Outcome;
  ms_reasons : dict string ExitReason }.
Definition empty_store : MemoryLifecycleStore := {| ms_plans := ∅; ms_outcomes := ∅; ms_reasons := ∅ |}.

Definition save_plan (plan : ExitPlan) : M MemoryLifecycleStore unit :=
  s ← get_state;
  _ ← lift (raise_if (conflicts (s.(ms_plans) !! plan.(xp_position_id)) plan)
             (ValueError "position exit plan is immutable"));
  modify (fun s => {| ms_plans := <[plan.(xp_position_id) := plan]> s.(ms_plans);
                      ms_outcomes := s.(ms_outcomes); ms_reasons := s.(ms_reasons) |}).

Definition active (market : Market) (account_id : string) (s : MemoryLifecycleStore) : list ExitPlan :=
  snd <$> List.filter (fun '(position_id, plan) =>
    (plan.(xp_market) ==p market) && (plan.(xp_account_id) ==p account_id)
    && negb (dict_mem position_id s.(ms_outcomes))) (entries s.(ms_plans)).

Definition save_outcome (outcome : Outcome) (reason : ExitReason) : M MemoryLifecycleStore unit :=
  s ← get_state;
  _ ← lift (raise_if (conflicts (s.(ms_outcomes) !! outcome.(oc_position_id)) outcome)
             (ValueError "position outcome is immutable"));
  modify (fun s => {| ms_plans := s.(ms_plans);
                      ms_outcomes := <[outcome.(oc_position_id) := outcome]> s.(ms_outcomes);
                      ms_reasons := <[outcome.(oc_position_id) := reason]> s.(ms_reasons) |}).

(** ** PaperPositionLifecycle *)

Record LifeWorld (L : Type) := MkLifeWorld {
  lw_store : MemoryLifecycleStore;
  lw_engine : EngineState;
  lw_outcomes : OutcomeRecorder;
  lw_ledger : L }.
Arguments MkLifeWorld {L} lw_store lw_engine lw_outcomes lw_ledger.
Arguments lw_store {L} _.
Arguments lw_engine {L} _.
Arguments lw_outcomes {L} _.
Arguments lw_ledger {L} _.

(** [_trigger] *)
Definition trigger (plan : ExitPlan) (mark : float) : option ExitReason :=
  if plan.(xp_entry_action) ==p BUY then
    if (mark <=? plan.(xp_stop_price))%float then Some STOP
    else if fge mark plan.(xp_target_price) then Some TARGET else None
  else
    if fge mark plan.(xp_stop_price) then Some STOP
    else if (mark <=? plan.(xp_target_price))%float then Some TARGET else None.

Definition exit_action (plan : ExitPlan) : AdvisoryAction :=
  if plan.(xp_entry_action) ==p BUY then SELL else BUY.
Definition exit_lineage (plan : ExitPlan) (gold_snapshot_ids : dict string string) : list string :=
  List.filter (fun item => negb (str_empty item))
    (fromkeys (plan.(xp_gold_snapshot_ids) ++ [default "" (gold_snapshot_ids !! plan.(xp_symbol))])).
Definition exit_intent_of (plan : ExitPlan) (reason : ExitReason) (mark : float)
    (gold_snapshot_ids : dict string string) (evaluated_at : datetime) : TradeIntent := {|
  ti_intent_id := stable_id ["protective-exit"; plan.(xp_position_id); ExitReason_value reason];
  ti_market := plan.(xp_market);
  ti_account_id := plan.(xp_account_id);
  ti_symbol := plan.(xp_symbol);
  ti_action := exit_action plan;
  ti_quantity := plan.(xp_quantity);
  ti_reference_price := mark;
  ti_event_time := evaluated_at;
  ti_candidate_id := plan.(xp_candidate_id);
  ti_approval_id := plan.(xp_approval_id);
  ti_identity := plan.(xp_identity);
  ti_gold_snapshot_ids := exit_lineage plan gold_snapshot_ids;
  ti_agent_evidence_id := None |}.
Definition exit_key (plan : ExitPlan) (reason : ExitReason) : string :=
  "exit:" +:+ plan.(xp_position_id) +:+ ":" +:+ ExitReason_value reason.

(** The plan [register] saves for one filled allocation. *)
Definition plan_of (allocation : PortfolioAllocation) (receipt : ExecutionReceipt) : ExitPlan :=
  let candidate := allocation.(pa_candidate).(sc_candidate) in {|
  xp_position_id := receipt.(er_position).(pos_position_id);
  xp_market := receipt.(er_position).(pos_market);
  xp_account_id := receipt.(er_position).(pos_account_id);
  xp_symbol := receipt.(er_position).(pos_symbol);
  xp_entry_action := candidate.(ca_signal).(sg_action);
  xp_quantity := receipt.(er_fill).(pf_quantity);
  xp_stop_price := allocation.(pa_stop_price);
  xp_target_price := allocation.(pa_target_price);
  xp_allocated_capital :=
    (receipt.(er_fill).(pf_quantity) * receipt.(er_fill).(pf_price) + receipt.(er_fill).(pf_fee))%float;
  xp_candidate_id := candidate.(ca_candidate_id);
  xp_approval_id := candidate.(ca_approval_id);
  xp_identity := candidate.(ca_identity);
  xp_gold_snapshot_ids := candidate.(ca_gold_snapshot_ids);
  xp_created_at := receipt.(er_fill).(pf_filled_at) |}.

Section Lifecycle.
Context {L : Type} `{DecisionLedger L}.
Context (limits : RiskLimits) (policy : ExecutionPolicy).

Definition in_store {A} (m : M MemoryLifecycleStore A) : M (LifeWorld L) A :=
  zoom lw_store (fun s w => MkLifeWorld s w.(lw_engine) w.(lw_outcomes) w.(lw_ledger)) m.
Definition in_paper {A} (m : M EngineState A) : M (LifeWorld L) A :=
  zoom lw_engine (fun e w => MkLifeWorld w.(lw_store) e w.(lw_outcomes) w.(lw_ledger)) m.
Definition in_recorder {A} (m : M OutcomeRecorder A) : M (LifeWorld L) A :=
  zoom lw_outcomes (fun o w => MkLifeWorld w.(lw_store) w.(lw_engine) o w.(lw_ledger)) m.
Definition in_log {A} (m : M L A) : M (LifeWorld L) A :=
  zoom lw_ledger (fun l w => MkLifeWorld w.(lw_store) w.(lw_engine) w.(lw_outcomes) l) m.

(** [register]: [zip(..., strict=True)] raises once the shorter is used up. *)
Definition lifecycle_register (allocations : list PortfolioAllocation) (receipts : list ExecutionReceipt)
    : M (LifeWorld L) unit :=
  _ ← for_each (zip allocations receipts) (fun '(allocation, receipt) =>
        in_store (save_plan (plan_of allocation receipt)));
  lift (raise_if (negb (length allocations =? length receipts)%nat)
          (ValueError "zip() arguments have different lengths")).

(** [_record] *)
Definition record_exit (plan : ExitPlan) (reason : ExitReason) (at_ : datetime)
    (status : DecisionStatus) (code : string) : M (LifeWorld L) unit :=
  decision ← lift (Decision_create
    (stable_id ["exit-cycle"; plan.(xp_position_id); ExitReason_value reason]) plan.(xp_market)
    plan.(xp_symbol) (Some plan.(xp_identity).(si_timeframe)) POSITION_MANAGEMENT status code at_
    (Some plan.(xp_candidate_id)) (Some (identity_key plan.(xp_identity))) "" []);
  in_log (ledger_append decision).

(** [manage]: one active plan. *)
Definition manage_one (marks : dict string float) (portfolio : PortfolioSnapshot)
    (gold_snapshot_ids : dict string string) (evaluated_at : datetime)
    (outcomes : list Outcome) (plan : ExitPlan) : M (LifeWorld L) (list Outcome) :=
  match marks !! plan.(xp_symbol) with
  | None => mret outcomes
  | Some mark =>
      match trigger plan mark with
      | None => mret outcomes
      | Some reason =>
          intent ← lift (new_TradeIntent (exit_intent_of plan reason mark gold_snapshot_ids evaluated_at));
          decision ← lift (evaluate_exit limits intent portfolio evaluated_at);
          if negb (approved decision) then
            _ ← record_exit plan reason evaluated_at REJECTED "EXIT_RISK_REJECTED";
            mret outcomes
          else
            receipt ← in_paper (execute policy decision (exit_key plan reason) evaluated_at);
            outcome ← in_recorder (record_outcome receipt.(er_position) plan.(xp_identity)
                                     plan.(xp_allocated_capital) evaluated_at);
            _ ← in_store (save_outcome outcome reason);
            _ ← record_exit plan reason evaluated_at ORDERED
                  ("PAPER_" +:+ ExitReason_value reason +:+ "_EXIT");
            mret (outcomes ++ [outcome])
      end
  end.

(** [manage]: the active plans are listed once, before the loop. *)
Definition manage (market : Market) (account_id : string) (marks : dict string float)
    (portfolio : PortfolioSnapshot) (gold_snapshot_ids : dict string string) (evaluated_at : datetime)
    : M (LifeWorld L) (list Outcome) :=
  evaluated_at ← lift (utc evaluated_at "evaluated_at");
  w ← get_state;
  fold_each (active market account_id w.(lw_store)) []
    (manage_one marks portfolio gold_snapshot_ids evaluated_at).
End Lifecycle.

(** ** What management does *)

Section LifecycleLemmas.
Context {L : Type} `{DecisionLedger L}.
Context (limits : RiskLimits) (policy : ExecutionPolicy).

(** Every plan sits under its own position's identity. *)
Definition plans_keyed (s : MemoryLifecycleStore) : Prop :=
  forall k p, (k, p) ∈ entries s.(ms_plans) -> p.(xp_position_id) = k.

(** Outcomes stay, and the engine only filled orders under the given keys. *)
Definition life_step (keys : list position_key) (w w' : LifeWorld L) : Prop :=
  fills policy (fun d => intent_key d.(rd_intent) ∈ keys) w.(lw_engine) w'.(lw_engine) /\
  (forall k, dict_mem k w.(lw_store).(ms_outcomes) = true -> dict_mem k w'.(lw_store).(ms_outcomes) = true) /\
  (plans_keyed w.(lw_store) -> plans_keyed w'.(lw_store)).

#[export] Instance life_step_preorder keys : PreOrder (life_step keys).
Proof.
  split.
  - intros w. split; [constructor | done].
  - intros w1 w2 w3 (F1 & O1 & K1) (F2 & O2 & K2). split; [by eapply fills_trans | split; auto].
Qed.

Lemma in_paper_step keys d key t :
  intent_key d.(rd_intent) ∈ keys -> preserves (life_step keys) (in_paper (L := L) (execute policy d key t)).
Proof.
  intros Hk w. unfold in_paper, zoom.
  pose proof (execute_fills policy (fun d => intent_key (rd_intent d) ∈ keys) d key t (lw_engine w) Hk) as Hf.
  destruct (execute policy d key t (lw_engine w)) as [r e]. by split.
Qed.

Lemma in_recorder_step {A} keys (m : M OutcomeRecorder A) : preserves (life_step keys) (in_recorder (L := L) m).
Proof. intros w. unfold in_recorder, zoom. destruct (m _) as [r o]. split; [constructor | done]. Qed.

Lemma in_log_step {A} keys (m : M L A) : preserves (life_step keys) (in_log m).
Proof. intros w. unfold in_log, zoom. destruct (m _) as [r o]. split; [constructor | done]. Qed.

Lemma save_outcome_step keys o r : preserves (life_step keys) (in_store (L := L) (save_outcome o r)).
Proof.
  intros w. unfold in_store, zoom, save_outcome, mbind, M_bind, get_state, lift, modify.
  destruct (conflicts _ o); simpl; (split; [constructor|]); [done|].
  split; [|done]. intros k Hk. by apply dict_mem_insert.
Qed.

Lemma save_plan_step keys p : preserves (life_step keys) (in_store (L := L) (save_plan p)).
Proof.
  intros w. unfold in_store, zoom, save_plan, mbind, M_bind, get_state, lift, modify.
  destruct (conflicts _ p); simpl; (split; [constructor|]); [done|]. split; [done|].
  intros Hw k q Hin. simpl in Hin. apply dict_insert_entries_inv in Hin as [Hin|[-> ->]]; [by apply Hw | done].
Qed.
Hint Resolve in_recorder_step in_log_step save_outcome_step save_plan_step : preserves.

Lemma evaluate_exit_intent l i pf t d : evaluate_exit l i pf t = Ok d -> d.(rd_intent) = i.
Proof.
  unfold evaluate_exit. intros (now & _ & Hd)%result_bind_ok.
  by apply result_bind_ok in Hd as (cap & _ & [= <-]).
Qed.

Definition plan_key (p : ExitPlan) : position_key := (p.(xp_market), p.(xp_account_id), p.(xp_symbol)).

Lemma manage_one_step keys marks pf gold t outs plan :
  plan_key plan ∈ keys -> preserves (life_step keys) (manage_one (L := L) limits policy marks pf gold t outs plan).
Proof.
  intros Hk. unfold manage_one. destruct (marks !! _) as [mark|]; [|preserve].
  destruct (trigger plan mark) as [reason|]; [|preserve].
  intros w. unfold mbind at 1, M_bind at 1, lift at 1.
  destruct (new_TradeIntent _) as [i|e] eqn:Ei; [|reflexivity].
  unfold new_TradeIntent in Ei. apply result_bind_ok in Ei as (u & _ & [= <-]).
  unfold mbind at 1, M_bind at 1, lift at 1.
  destruct (evaluate_exit _ _ _ _) as [d|e] eqn:Ed; [|reflexivity].
  apply evaluate_exit_intent in Ed. revert w.
  match goal with |- forall w, life_step keys w (?m w).2 => change (preserves (life_step keys) m) end.
  unfold record_exit. preserve. apply in_paper_step. by rewrite Ed.
Qed.

Lemma active_elem market acct s plan : plan ∈ active market acct s ->
  plan.(xp_market) = market /\ plan.(xp_account_id) = acct.
Proof.
  intros ([k p] & -> & Hp)%list_elem_of_fmap. apply filter_elem in Hp as [_ Hp].
  apply andb_true_iff in Hp as [[Hm Ha]%andb_true_iff _]. rewrite py_eq_true in Hm. by rewrite py_eq_true in Ha.
Qed.

Lemma manage_step market acct marks pf gold t w :
  life_step (plan_key <$> active market acct w.(lw_store)) w
    (manage (L := L) limits policy market acct marks pf gold t w).2.
Proof.
  unfold manage. unfold mbind at 1, M_bind at 1, lift at 1.
  destruct (utc t _) as [at_|e]; [|reflexivity].
  unfold mbind at 1, M_bind at 1, get_state at 1. revert w.
  intros w. apply (preserves_fold_each (life_step (plan_key <$> active market acct (lw_store w)))).
  intros outs plan Hp. apply manage_one_step. by apply list_elem_of_fmap_2.
Qed.

(** One plan's exit: what was decided and what was done. *)
Record exit_done (marks : dict string float) (pf : PortfolioSnapshot) (gold : dict string string)
    (t : datetime) (plan : ExitPlan) (o : Outcome) (w w' : LifeWorld L) : Prop := {
  xd_result : exists mark reason d rc,
    marks !! plan.(xp_symbol) = Some mark /\ trigger plan mark = Some reason /\
    TradeIntent_post_init (exit_intent_of plan reason mark gold t) = Ok tt /\
    evaluate_exit limits (exit_intent_of plan reason mark gold t) pf t = Ok d /\ approved d = true /\
    execute policy d (exit_key plan reason) t w.(lw_engine) = (Ok rc, w'.(lw_engine)) /\
    record_outcome rc.(er_position) plan.(xp_identity) plan.(xp_allocated_capital) t w.(lw_outcomes)
      = (Ok o, w'.(lw_outcomes));
  xd_saved : w'.(lw_store).(ms_outcomes) !! o.(oc_position_id) = Some o }.

Lemma record_exit_frame plan reason t ss c (w : LifeWorld L) u w' :
  record_exit plan reason t ss c w = (Ok u, w') ->
  w'.(lw_store) = w.(lw_store) /\ w'.(lw_engine) = w.(lw_engine) /\ w'.(lw_outcomes) = w.(lw_outcomes).
Proof.
  unfold record_exit. intros (d & w1 & Hd & Hl)%M_bind_ok. apply lift_ok in Hd as [_ ->].
  unfold in_log, zoom in Hl. destruct (ledger_append d _) as [r l]. by injection Hl as _ <-.
Qed.

Lemma manage_one_ok marks pf gold t outs plan (w : LifeWorld L) outs' w' :
  manage_one limits policy marks pf gold t outs plan w = (Ok outs', w') ->
  (outs' = outs /\ w'.(lw_store) = w.(lw_store) /\ w'.(lw_engine) = w.(lw_engine)) \/
  exists o, outs' = outs ++ [o] /\ exit_done marks pf gold t plan o w w'.
Proof.
  unfold manage_one. destruct (marks !! _) as [mark|] eqn:Em; [|intros [= <- <-]; by left].
  destruct (trigger plan mark) as [reason|] eqn:Et; [|intros [= <- <-]; by left].
  intros (i & w1 & Hi & Hr)%M_bind_ok. apply lift_ok in Hi as [Hi ->].
  unfold new_TradeIntent in Hi. apply result_bind_ok in Hi as ([] & Hi & [= <-]).
  apply M_bind_ok in Hr as (d & w2 & Hd & Hr). apply lift_ok in Hd as [Hd ->].
  destruct (approved d) eqn:Ea; simpl in Hr.
  2: { apply M_bind_ok in Hr as (u & w3 & Hx & [= <- <-]). left.
       apply record_exit_frame in Hx as (? & ? & _). done. }
  apply M_bind_ok in Hr as (rc & w3 & Hrc & Hr). apply M_bind_ok in Hr as (o & w4 & Ho & Hr).
  apply M_bind_ok in Hr as (u & w5 & Hs & Hr). apply M_bind_ok in Hr as (u' & w6 & Hx & [= <- <-]).
  right. exists o. split; [done|]. apply record_exit_frame in Hx as (Es & Ee & Eo).
  unfold in_paper, zoom in Hrc. destruct (execute _ _ _ _ _) as [r1 e1] eqn:E1. injection Hrc as -> <-.
  unfold in_recorder, zoom in Ho. simpl in Ho. destruct (record_outcome _ _ _ _ _) as [r2 o2] eqn:E2.
  injection Ho as -> <-. unfold in_store, zoom in Hs. simpl in Hs.
  destruct (save_outcome o reason (lw_store w)) as [r3 s3] eqn:E3. injection Hs as -> <-.
  simpl in *. split.
  - exists mark, reason, d, rc. rewrite Ee, Eo. repeat split; try done.
  - rewrite Es. unfold save_outcome, mbind, M_bind, get_state, lift, modify in E3.
    destruct (conflicts _ o); [done|]. injection E3 as _ <-. simpl. apply dict_lookup_insert_eq.
Qed.
End LifecycleLemmas.

(** Any sequence of [register] and [manage] calls, whether they return or raise. *)
Inductive life_steps {L} `{DecisionLedger L} (limits : RiskLimits) (policy : ExecutionPolicy)
    (w : LifeWorld L) : LifeWorld L -> Prop :=
| life_refl : life_steps limits policy w w
| life_register w1 allocations receipts : life_steps limits policy w w1 ->
    life_steps limits policy w (lifecycle_register allocations receipts w1).2
| life_manage w1 market acct marks pf gold t : life_steps limits policy w w1 ->
    life_steps limits policy w (manage limits policy market acct marks pf gold t w1).2.

Lemma life_steps_step {L} `{DecisionLedger L} limits policy (w w' : LifeWorld L) :
  life_steps limits policy w w' ->
  (forall k, dict_mem k w.(lw_store).(ms_outcomes) = true -> dict_mem k w'.(lw_store).(ms_outcomes) = true) /\
  (plans_keyed w.(lw_store) -> plans_keyed w'.(lw_store)).
Proof.
  induction 1 as [|w1 al rc _ [IH1 IH2]|w1 m a marks pf gold t _ [IH1 IH2]]; [done|..].
  - assert (Hp : preserves (life_step policy []) (lifecycle_register (L := L) al rc)).
    { unfold lifecycle_register. preserve. all: apply save_plan_step. }
    destruct (Hp w1) as (_ & ? & ?). auto.
  - destruct (manage_step limits policy m a marks pf gold t w1) as (_ & ? & ?). auto.
Qed.

(** [register] stores every plan: under a position's identity stands the
    plan itself or one that compares equal to it. *)
Definition holds_plan (s : MemoryLifecycleStore) (p : ExitPlan) : Prop :=
  exists q, s.(ms_plans) !! p.(xp_position_id) = Some q /\ (q = p \/ p ==p q = true).

Lemma save_plan_holds p q (s : MemoryLifecycleStore) u s' : save_plan q s = (Ok u, s') ->
  holds_plan s' q /\ (holds_plan s p -> holds_plan s' p) /\ s'.(ms_outcomes) = s.(ms_outcomes).
Proof.
  unfold save_plan. intros (s0 & s1 & [= <- <-] & E)%M_bind_ok. apply M_bind_ok in E as (u' & s2 & Hc & [= _ <-]).
  apply lift_ok in Hc as [Hc ->]. apply raise_if_ok in Hc. split; [exists q; split; [apply dict_lookup_insert_eq|by left]|].
  split; [|done]. intros (p' & Hp' & Heq). unfold holds_plan. cbn.
  destruct (decide (q.(xp_position_id) = p.(xp_position_id))) as [E|Hne].
  - rewrite E in *. rewrite Hp' in Hc. cbn in Hc. apply negb_false_iff in Hc. exists q. split; [apply dict_lookup_insert_eq|].
    right. destruct Heq as [->|Heq]; [done|by eapply py_eq_trans].
  - exists p'. split; [by rewrite dict_lookup_insert_ne|done].
Qed.
Lemma register_holds {L} `{DecisionLedger L} allocations receipts (w : LifeWorld L) u w' :
  lifecycle_register allocations receipts w = (Ok u, w') ->
  Forall2 (fun a r => holds_plan w'.(lw_store) (plan_of a r)) allocations receipts /\ w'.(lw_engine) = w.(lw_engine) /\
  w'.(lw_store).(ms_outcomes) = w.(lw_store).(ms_outcomes) /\ w'.(lw_ledger) = w.(lw_ledger).
Proof.
  unfold lifecycle_register. intros (u1 & w1 & Hf & Hl)%M_bind_ok. apply lift_ok in Hl as [Hl ->]. apply raise_if_ok, negb_false_iff, Nat.eqb_eq in Hl.
  assert (H2 : forall l (w w1 : LifeWorld L) u1, for_each l (fun '(a, r) => in_store (save_plan (plan_of a r))) w = (Ok u1, w1) ->
    Forall (fun '(a, r) => holds_plan w1.(lw_store) (plan_of a r)) l /\ (forall p, holds_plan w.(lw_store) p -> holds_plan w1.(lw_store) p) /\
    w1.(lw_engine) = w.(lw_engine) /\ w1.(lw_store).(ms_outcomes) = w.(lw_store).(ms_outcomes) /\ w1.(lw_ledger) = w.(lw_ledger)).
  { clear. induction l as [|[a r] l IH]; intros w w1 u1; cbn [for_each]; [intros [= _ <-]; by repeat split|].
    intros (u2 & w2 & Hs & Hr)%M_bind_ok. destruct (IH _ _ _ Hr) as (Hall & Hkeep & He & Ho & Hlg). unfold in_store, zoom in Hs.
    destruct (save_plan _ _) as [r0 s0] eqn:Es. injection Hs as -> <-. cbn in *.
    split_and!; [constructor; [|done]|..].
    - apply Hkeep. by destruct (save_plan_holds (plan_of a r) _ _ _ _ Es).
    - intros p Hp. apply Hkeep. destruct (save_plan_holds p _ _ _ _ Es) as (_ & Hk & _). auto.
    - done.
    - rewrite Ho. by destruct (save_plan_holds (plan_of a r) _ _ _ _ Es) as (_ & _ & ->).
    - done. }
  destruct (H2 _ _ _ _ Hf) as (Hall & _ & He & Ho & Hlg). split; [|done].
  clear -Hall Hl. revert receipts Hl Hall. induction allocations as [|a l IH]; intros [|r receipts] Hl Hall; try done.
  cbn in Hall. apply Forall_cons in Hall as [H1 H2]. constructor; [done|]. apply IH; [cbn in Hl; lia|done].
Qed.

(** The evidence behind one exit. *)
Definition exit_evidence {L} (limits : RiskLimits) (market : Market) (acct : string) (marks : dict string float)
    (pf : PortfolioSnapshot) (t : datetime) (plans : list ExitPlan) (w' : LifeWorld L) (o : Outcome) : Prop :=
  dict_mem o.(oc_position_id) w'.(lw_store).(ms_outcomes) = true /\
  exists plan mark reason d, plan ∈ plans /\
    marks !! plan.(xp_symbol) = Some mark /\ trigger plan mark = Some reason /\
    d.(rd_intent).(ti_action) = (if decide (plan.(xp_entry_action) = BUY) then SELL else BUY) /\
    d.(rd_intent).(ti_quantity) = plan.(xp_quantity) /\ d.(rd_intent).(ti_reference_price) = mark /\
    intent_key d.(rd_intent) = (market, acct, plan.(xp_symbol)) /\
    evaluate_exit limits d.(rd_intent) pf (at_utc (instant t)) = Ok d /\ approved d = true.

(** ** Theorems *)


(** Isolation: whatever its outcome, exceptions included, [manage] leaves
    untouched every position but those of the active plans of its market and
    account; in particular no position of another market or account moves. *)
Theorem manage_isolated {L} `{DecisionLedger L} limits policy market acct marks pf gold t (w : LifeWorld L) k :
  k ∉ (plan_key <$> active market acct w.(lw_store)) ->
  (manage limits policy market acct marks pf gold t w).2.(lw_engine).(eng_positions) !! k
    = w.(lw_engine).(eng_positions) !! k.
Proof.
  intros Hk. destruct (manage_step limits policy market acct marks pf gold t w) as (Hf & _).
  eapply fills_positions; [exact Hf|]. intros d Hd Heq. apply Hk. rewrite <-Heq. exact Hd.
Qed.

(** A plan is closed at most once: once its position has an outcome, no
    plan of that position is active again, after any further registrations
    and management. *)
Theorem closed_plan_stays_closed {L} `{DecisionLedger L} limits policy (w0 w w' : LifeWorld L) market acct plan :
  w0.(lw_store) = empty_store ->
  life_steps limits policy w0 w -> life_steps limits policy w w' ->
  dict_mem plan.(xp_position_id) w.(lw_store).(ms_outcomes) = true ->
  plan ∉ active market acct w'.(lw_store).
Proof.
  intros H0 H1 H2 Hm Hin. apply life_steps_step in H1 as [_ K1]. apply life_steps_step in H2 as [O2 K2].
  apply list_elem_of_fmap in Hin as ([k p] & -> & Hin). apply filter_elem in Hin as [Hin Hf].
  apply andb_true_iff in Hf as [_ Hf%negb_true_iff]. simpl in Hm.
  assert (Hk : p.(xp_position_id) = k).
  { apply K2; [apply K1|done]. rewrite H0. by intros ? ? ?%elem_of_nil. }
  rewrite Hk in Hm. apply O2 in Hm. congruence.
Qed.

(** An exit of the plan's whole size flattens the position it was made for. *)
Lemma exit_flattens policy d key at_ p p' q :
  p.(pos_state) = OPEN -> isfinite q = true ->
  p.(pos_signed_quantity) = (- order_delta d.(rd_intent))%float \/
  order_delta d.(rd_intent) = (- p.(pos_signed_quantity))%float ->
  isfinite (order_delta d.(rd_intent)) = true -> isfinite p.(pos_signed_quantity) = true ->
  apply_fill (Some p) d (make_fill policy d key at_) = Ok p' ->
  p'.(pos_state) = CLOSED /\ p'.(pos_closed_at) = Some at_ /\
  (p'.(pos_signed_quantity) =? 0)%float = true /\ p'.(pos_position_id) = p.(pos_position_id) /\
  p'.(pos_market) = p.(pos_market) /\
  p'.(pos_strategy_keys) = fromkeys (p.(pos_strategy_keys) ++ [identity_key d.(rd_intent).(ti_identity)]).
Proof.
  intros Ho Hq Hop Hd Hp. unfold apply_fill. rewrite Ho. unfold update_position. cbv zeta. rewrite fill_delta.
  intros (ec & _ & [= <-])%result_bind_ok. simpl.
  assert (Hz : (pos_signed_quantity p + order_delta (rd_intent d) =? 0)%float = true).
  { apply fadd_zero_iff; [done..|]. destruct Hop as [->| ->]; rewrite fval_opp; lia. }
  by rewrite Hz.
Qed.

Lemma fromkeys_single_dup {A} `{EqDecision A} (x : A) : fromkeys [x; x] = [x].
Proof. unfold fromkeys, add_key. simpl. by rewrite (decide_True _ _ (list_elem_of_here x [])). Qed.

(** The record of an exit succeeds when the ledger accepts decisions. *)
Lemma record_exit_total {L} `{DecisionLedger L} plan reason t ss code (w : LifeWorld L) :
  str_empty plan.(xp_symbol) = false -> aware t = true -> str_empty code = false ->
  (forall dc, exists l, ledger_append dc w.(lw_ledger) = (Ok tt, l)) ->
  exists w', record_exit plan reason t ss code w = (Ok tt, w') /\
    w'.(lw_store) = w.(lw_store) /\ w'.(lw_engine) = w.(lw_engine).
Proof.
  intros Hs Ht Hc Hl. unfold record_exit, Decision_create, mbind, M_bind, lift.
  rewrite stable_id_nonempty, Hs, Hc. simpl. rewrite (proj2 (utc_ok t "occurred_at" _) (conj Ht eq_refl)). simpl.
  unfold in_log, zoom. match goal with |- context [ledger_append ?d _] => destruct (Hl d) as [l Hd] end.
  rewrite Hd. by eexists.
Qed.

(** A triggered exit closes: for an open engine position of exactly the
    plan's signed size held by the plan's strategy alone, when the mark
    reaches a level, the risk check approves and the ledger accepts the
    record, management fills the exit, the position is CLOSED and flat, and
    its outcome is recorded and stored; no exception can intervene. *)
Theorem triggered_exit_closes {L} `{DecisionLedger L} limits policy marks pf gold t outs plan mark reason d p
    (w : LifeWorld L) :
  engine_steps policy empty_engine w.(lw_engine) ->
  w.(lw_engine).(eng_positions) !! plan_key plan = Some p ->
  p.(pos_state) = OPEN -> p.(pos_position_id) = plan.(xp_position_id) ->
  p.(pos_strategy_keys) = [identity_key plan.(xp_identity)] ->
  p.(pos_signed_quantity) = (if decide (plan.(xp_entry_action) = BUY) then plan.(xp_quantity)
                             else - plan.(xp_quantity))%float ->
  marks !! plan.(xp_symbol) = Some mark -> trigger plan mark = Some reason ->
  TradeIntent_post_init (exit_intent_of plan reason mark gold t) = Ok tt ->
  evaluate_exit limits (exit_intent_of plan reason mark gold t) pf t = Ok d -> approved d = true ->
  w.(lw_engine).(eng_receipts) !! exit_key plan reason = None ->
  w.(lw_outcomes) !! plan.(xp_position_id) = None ->
  w.(lw_store).(ms_outcomes) !! plan.(xp_position_id) = None ->
  isfinite plan.(xp_allocated_capital) = true -> (plan.(xp_allocated_capital) <=? 0)%float = false ->
  (forall dc, exists l, ledger_append dc w.(lw_ledger) = (Ok tt, l)) ->
  exists o w' p', manage_one limits policy marks pf gold t outs plan w = (Ok (outs ++ [o]), w') /\
    w'.(lw_engine).(eng_positions) !! plan_key plan = Some p' /\ p'.(pos_state) = CLOSED /\
    (p'.(pos_signed_quantity) =? 0)%float = true /\
    o.(oc_position_id) = plan.(xp_position_id) /\ o.(oc_strategy_identity) = plan.(xp_identity) /\
    w'.(lw_store).(ms_outcomes) !! plan.(xp_position_id) = Some o.
Proof.
  intros Heng Hpos Ho Hpid Hkeys Hsig Hm Htr Hi Hd Ha Hrc Hrec Hout Hcf Hcp Hled.
  pose proof (evaluate_exit_intent _ _ _ _ _ Hd) as Hint.
  pose proof (reachable_positions_ok policy _ Heng) as Hok.
  destruct (Hok _ _ Hpos) as [Hk _ _ _ _ _ _]. unfold plan_key in Hk. injection Hk as Hmk Hac Hsy.
  destruct (TradeIntent_valid _ Hi) as (_ & Hmi & Hqf & Hqp & _).
  assert (Haw : aware t = true).
  { unfold TradeIntent_post_init in Hi. inv_ok Hi.
    match goal with E : utc _ _ = Ok _ |- _ => by apply utc_ok in E as [? _] end. }
  assert (Hsym : str_empty plan.(xp_symbol) = false).
  { unfold TradeIntent_post_init in Hi. inv_ok Hi.
    match goal with E : _ || _ || is_nil _ = false |- _ => by apply orb_false_iff in E as [[_ ?]%orb_false_iff _] end. }
  destruct (execute_succeeds policy d (exit_key plan reason) t (lw_engine w)) as (rc & e' & He & Hf);
    [done | unfold decision_wf; by rewrite Hint | done | done | done | done |].
  destruct (order_delta_val _ Hi) as (Hdf & _ & _). simpl in Hqf.
  assert (Hopp : p.(pos_signed_quantity) = (- order_delta d.(rd_intent))%float \/
    order_delta d.(rd_intent) = (- p.(pos_signed_quantity))%float).
  { rewrite Hint, Hsig. unfold order_delta, exit_intent_of, exit_action. simpl.
    destruct (xp_entry_action plan ==p BUY) eqn:E.
    - rewrite py_eq_true in E. rewrite decide_True by done. by right.
    - rewrite py_eq_false in E. rewrite decide_False by done. by left. }
  assert (Hpf : isfinite p.(pos_signed_quantity) = true).
  { rewrite Hsig. case_decide; [|rewrite isfinite_opp]; done. }
  destruct Hf as [_ _ _ _ Happ Hreq Hst].
  assert (Hkey : intent_key (rd_intent d) = plan_key plan) by (by rewrite Hint).
  rewrite Hkey, Hpos in Happ. rewrite <-Hint in Hdf.
  destruct (exit_flattens policy d _ _ p _ _ Ho Hqf Hopp Hdf Hpf Happ) as (Hc & Hct & Hz & Hid & Hm' & Hks).
  rewrite Hkeys, Hint in Hks. simpl in Hks. rewrite fromkeys_single_dup in Hks.
  set (p' := er_position rc) in *.
  pose proof (record_outcome_fresh p' plan.(xp_identity) plan.(xp_allocated_capital) t w.(lw_outcomes) _
    ltac:(by rewrite Hid, Hpid) Hc Hct ltac:(by rewrite Hm', <-Hmk) Hks Hcf Hcp Haw) as Ho'.
  cbv zeta in Ho'. set (o := outcome_of p' _ _ _ _) in *.
  assert (Hopid : oc_position_id o = xp_position_id plan) by (simpl; by rewrite Hid).
  assert (Hosi : oc_strategy_identity o = xp_identity plan) by done. clearbody o.
  set (w1 := MkLifeWorld {| ms_plans := w.(lw_store).(ms_plans);
      ms_outcomes := <[oc_position_id o := o]> w.(lw_store).(ms_outcomes);
      ms_reasons := <[oc_position_id o := reason]> w.(lw_store).(ms_reasons) |} e'
    (<[pos_position_id p' := o]> w.(lw_outcomes)) w.(lw_ledger)).
  destruct (record_exit_total plan reason t ORDERED ("PAPER_" +:+ ExitReason_value reason +:+ "_EXIT") w1)
    as (w2 & Hw2 & Es & Ee); [done | done | by destruct reason | done |].
  exists o, w2, p'. split; [|rewrite Ee, Es; split; [by subst e'; rewrite <-Hkey; apply dict_lookup_insert_eq|]].
  - unfold manage_one. rewrite Hm, Htr. unfold mbind, M_bind, lift, new_TradeIntent. rewrite Hi. simpl. rewrite Hd, Ha. simpl.
    unfold in_paper, zoom. rewrite He. simpl. unfold in_recorder, zoom. simpl. fold p'. rewrite Ho'. simpl.
    unfold in_store, zoom, save_outcome, mbind, M_bind, get_state, lift, modify. simpl.
    rewrite Hopid, Hout. simpl. rewrite <-Hopid. fold w1. by rewrite Hw2.
  - split; [done|]. split; [done|]. split; [done|]. split; [done|]. simpl. rewrite Hopid. apply dict_lookup_insert_eq.
Qed.

(** ** Concrete management *)

Module LifecycleExample.
Import RegistryExample RiskExample.

Definition epolicy : ExecutionPolicy := ExecutionExample.policy.
Definition engine : EngineState := ExecutionExample.bought.
Definition held_position : option PaperPosition := position NSE "paper" "RELIANCE" engine.
Definition plan_for (pid symbol : string) (quantity : float) : ExitPlan := {|
  xp_position_id := pid; xp_market := NSE; xp_account_id := "paper"; xp_symbol := symbol;
  xp_entry_action := BUY; xp_quantity := quantity; xp_stop_price := 2475.5; xp_target_price := 2560;
  xp_allocated_capital := 26267.5; xp_candidate_id := "candidate-1"; xp_approval_id := "approval-1";
  xp_identity := identity; xp_gold_snapshot_ids := ["gold-1"]; xp_created_at := now |}.
Definition pid : string := match held_position with Some p => p.(pos_position_id) | None => "" end.
Definition plan : ExitPlan := plan_for pid "RELIANCE" 10.5.
Definition store : MemoryLifecycleStore := (save_plan plan empty_store).2.
Definition world : LifeWorld InMemoryDecisionLedger := MkLifeWorld store engine ∅ empty_ledger.
Definition snapshot : PortfolioSnapshot := portfolio [held "RELIANCE" 10.5 2470].
Definition marks (m : float) : dict string float := <["RELIANCE" := m]> ∅.

Local Abbreviation manage_at m := (manage limits epolicy NSE "paper" (marks m) snapshot ∅ now world) (only parsing).


Lemma manage_isolated_witness :
  (manage_at 2470%float).2.(lw_engine).(eng_positions) !! (CRYPTO, "paper", "BTC")
    = engine.(eng_positions) !! (CRYPTO, "paper", "BTC").
Proof.
  apply (manage_isolated limits epolicy NSE "paper" (marks 2470) snapshot ∅ now world (CRYPTO, "paper", "BTC")).
  assert (E : plan_key <$> active NSE "paper" store = [(NSE, "paper", "RELIANCE")]) by (vm_compute; reflexivity).
  change (lw_store world) with store. rewrite E. intros Hin. apply list_elem_of_singleton in Hin. discriminate Hin.
Defined.

Definition start : LifeWorld InMemoryDecisionLedger := MkLifeWorld empty_store engine ∅ empty_ledger.
Definition allocated_entry : PortfolioAllocation := {|
  pa_candidate := score_of {| ca_candidate_id := "candidate-1"; ca_identity := identity;
    ca_approval_id := "approval-1"; ca_symbol := "RELIANCE"; ca_sector := None; ca_event_time := now;
    ca_gold_snapshot_ids := ["gold-1"];
    ca_signal := {| sg_action := BUY; sg_confidence := 0.75; sg_reference_price := 2500; sg_stop_price := 2475.5;
      sg_target_price := 2560; sg_estimated_cost_r := 0; sg_historical_expectancy_r := 0; sg_ml_tilt_r := 0 |};
    ca_regime := default_RegimeEvidence |};
  pa_quantity := 10.5; pa_expected_entry_price := 2500.25; pa_stop_price := 2475.5; pa_target_price := 2560 |}.
Definition entry_receipts : list ExecutionReceipt := dict_values engine.(eng_receipts).
Definition registered : LifeWorld InMemoryDecisionLedger :=
  (lifecycle_register [allocated_entry] entry_receipts start).2.
Definition closed_world : LifeWorld InMemoryDecisionLedger :=
  (manage limits epolicy NSE "paper" (marks 2470) snapshot ∅ now registered).2.
Definition registered_plan : ExitPlan :=
  match entry_receipts with rc :: _ => plan_of allocated_entry rc | [] => plan end.

Lemma closed_plan_stays_closed_witness :
  registered_plan ∈ active NSE "paper" registered.(lw_store) /\
  registered_plan ∉ active NSE "paper" closed_world.(lw_store).
Proof.
  split.
  - assert (E : active NSE "paper" registered.(lw_store) = [registered_plan]) by (vm_compute; reflexivity).
    rewrite E. left.
  - apply (closed_plan_stays_closed limits epolicy start closed_world closed_world NSE "paper" registered_plan).
    + reflexivity.
    + apply life_manage. apply life_register. apply life_refl.
    + apply life_refl.
    + vm_compute. reflexivity.
Defined.

Lemma triggered_exit_closes_witness :
  exists o w', manage_one limits epolicy (marks 2470) snapshot ∅ now [] plan world = (Ok [o], w').
Proof.
  assert (Hp : exists p, held_position = Some p /\ p.(pos_state) = OPEN /\ p.(pos_position_id) = pid /\
    p.(pos_strategy_keys) = [identity_key identity] /\ p.(pos_signed_quantity) = 10.5%float)
    by (vm_compute; eexists; repeat split; reflexivity).
  destruct Hp as (p & Hp & Ho & Hid & Hk & Hq).
  assert (Hd : exists d, evaluate_exit limits (exit_intent_of plan STOP 2470 ∅ now) snapshot now = Ok d /\
    approved d = true) by (vm_compute; eexists; split; reflexivity).
  destruct Hd as (d & Hd & Ha).
  destruct (triggered_exit_closes limits epolicy (marks 2470) snapshot ∅ now [] plan 2470 STOP d p world)
    as (o & w' & p' & Hr & _).
  - exact ExecutionExample.bought_reachable.
  - exact Hp.
  - exact Ho.
  - exact Hid.
  - exact Hk.
  - exact Hq.
  - vm_compute. reflexivity.
  - vm_compute. reflexivity.
  - vm_compute. reflexivity.
  - exact Hd.
  - exact Ha.
  - vm_compute. reflexivity.
  - reflexivity.
  - reflexivity.
  - vm_compute. reflexivity.
  - vm_compute. reflexivity.
  - intros dc. exists (append dc empty_ledger).2. reflexivity.
  - exists o, w'. exact Hr.
Defined.

(** An exit that risk rejects is recorded under an identity without the time
    of evaluation: at the next evaluation the same rejection is an unequal
    decision under the same identity, the in-memory ledger raises, and
    [manage] stops before the plans that follow, here before a triggered stop
    that alone would have closed its position. *)
Definition orphan : ExitPlan := plan_for "gone" "ORPHAN" 3.
Definition two_plans : MemoryLifecycleStore := (save_plan plan (save_plan orphan empty_store).2).2.
Definition later : datetime := at_utc (instant now + 5 * second).
Definition mark_orphan : dict string float := <["ORPHAN" := 2470%float]> ∅.
Definition mark_both : dict string float := <["RELIANCE" := 2470%float]> mark_orphan.
Definition rejected_once : LifeWorld InMemoryDecisionLedger :=
  (manage limits epolicy NSE "paper" mark_orphan snapshot ∅ now
     (MkLifeWorld two_plans engine ∅ empty_ledger)).2.

Lemma repeated_rejection_blocks_stop :
  (manage limits epolicy NSE "paper" mark_orphan snapshot ∅ now
     (MkLifeWorld two_plans engine ∅ empty_ledger)).1 = Ok [] /\
  (manage limits epolicy NSE "paper" mark_both snapshot ∅ later rejected_once).1
    = Err (ValueError "decision identity is immutable") /\
  (manage limits epolicy NSE "paper" mark_both snapshot ∅ later rejected_once).2.(lw_engine).(eng_positions)
    = engine.(eng_positions) /\
  (exists o, (manage limits epolicy NSE "paper" (marks 2470) snapshot ∅ later rejected_once).1 = Ok [o]).
Proof. vm_compute. repeat split; try reflexivity. eexists. reflexivity. Qed.

End LifecycleExample.
