(* ===== verification/PaperStore.v ===== *)
(** * The durable paper ledger (src/nanodelta/paper/postgres.py, paper/lifecycle_postgres.py)

    The Postgres engine runs the in-memory engine of [Execution] on a cache of
    the process, after loading the receipt and the open position of the order
    from the tables, and writes the result back in the same transaction.  The
    lifecycle store keeps the exit plans and the outcomes.

    Every call is one transaction: it commits, or raises and leaves both the
    tables and the cache as they were.  A text column with the values of an
    enumeration holds the enumeration, a jsonb column of strings their list.

    The theorems: with one process at a time the durable engine answers as the
    in-memory engine that never stops would, restarts included; its receipts
    are replayed exactly; the close of a managed exit and its outcome are one
    step; a second process with an old cache breaks this. *)

From Stdlib Require Import ZArith Lia Floats Ascii String ZifyBool.
From stdpp Require Import prelude strings pretty numbers list sorting.
From S2P Require Import Prelude PyData PyFloat FloatTheory PyText PyDigits PyJson Sha256 PyTime Sql Contracts.
From S2P Require Import Registry Risk Execution Outcomes Decisions StrategyRuntime Pipeline Lifecycle.

Local Open Scope Z_scope.

(** ** The tables *)

(** [paper.decisions] *)
Record RiskDecisionRow := {
  dr_decision_id : string;
  dr_intent_id : string;
  dr_market : Market;
  dr_account_id : string;
  dr_symbol : string;
  dr_action : AdvisoryAction;
  dr_quantity : float;
  dr_reference_price : float;
  dr_candidate_id : string;
  dr_approval_id : string;
  dr_portfolio_snapshot_id : string;
  dr_state : RiskDecisionState;
  dr_rejection_reasons : list string;
  dr_limits : RiskLimits;
  dr_gold_snapshot_ids : list string;
  dr_agent_evidence_id : option string;
  dr_evaluated_at : datetime }.
(** [paper.order_positions]: the position as the order left it; its market,
    account and symbol are the order's *)
Record SnapshotRow := {
  sr_order_id : string;
  sr_position_id : string;
  sr_signed_quantity : float;
  sr_average_entry_price : float;
  sr_realized_pnl : float;
  sr_total_fees : float;
  sr_opened_at : datetime;
  sr_updated_at : datetime;
  sr_closed_at : option datetime;
  sr_state : PositionState;
  sr_decision_ids : list string;
  sr_strategy_keys : list string;
  sr_approval_ids : list string;
  sr_gold_snapshot_ids : list string;
  sr_agent_evidence_ids : list string }.
(** [paper.realization_events] *)
Record RealizationRow := {
  rz_event_id : string;
  rz_fill_id : string;
  rz_position_id : string;
  rz_market : Market;
  rz_account_id : string;
  rz_symbol : string;
  rz_gross_pnl_delta : float;
  rz_fee : float;
  rz_net_pnl : float;
  rz_realized_at : datetime }.
(** [paper.outcomes] *)
Record OutcomeRow := {
  ow_outcome_id : string;
  ow_position_id : string;
  ow_market : Market;
  ow_account_id : string;
  ow_symbol : string;
  ow_strategy_key : string;
  ow_opened_at : datetime;
  ow_closed_at : option datetime;
  ow_gross_pnl : float;
  ow_total_fees : float;
  ow_net_pnl : float;
  ow_return_on_allocated_capital : float;
  ow_decision_ids : list string;
  ow_approval_ids : list string;
  ow_gold_snapshot_ids : list string;
  ow_agent_evidence_ids : list string;
  ow_recorded_at : option datetime }.
(** [paper.exit_plans] *)
Record ExitPlanRow := {
  ep_position_id : string;
  ep_market : Market;
  ep_account_id : string;
  ep_symbol : string;
  ep_entry_action : AdvisoryAction;
  ep_quantity : float;
  ep_stop_price : float;
  ep_target_price : float;
  ep_allocated_capital : float;
  ep_candidate_id : string;
  ep_approval_id : string;
  ep_strategy_key : string;
  ep_gold_snapshot_ids : list string;
  ep_active : bool;
  ep_exit_reason : option string;
  ep_created_at : datetime;
  ep_closed_at : option datetime }.

(** The rows of [paper.orders], [paper.fills] and [paper.positions] have the
    fields of the records they are made from.  Of the research tables only
    the keys referred to are kept. *)
Record PaperTables := {
  pt_approvals : list string;
  pt_evidence : list string;
  pt_definitions : list StrategyIdentity;
  pt_decisions : list RiskDecisionRow;
  pt_orders : list PaperOrder;
  pt_fills : list PaperFill;
  pt_positions : list PaperPosition;
  pt_snapshots : list SnapshotRow;
  pt_realizations : list RealizationRow;
  pt_outcomes : list OutcomeRow;
  pt_plans : list ExitPlanRow }.

Definition set_decisions (rows : list RiskDecisionRow) (t : PaperTables) : PaperTables :=
  {| pt_approvals := t.(pt_approvals); pt_evidence := t.(pt_evidence); pt_definitions := t.(pt_definitions); pt_decisions := rows;
     pt_orders := t.(pt_orders); pt_fills := t.(pt_fills); pt_positions := t.(pt_positions); pt_snapshots := t.(pt_snapshots);
     pt_realizations := t.(pt_realizations); pt_outcomes := t.(pt_outcomes); pt_plans := t.(pt_plans) |}.
Definition set_orders (rows : list PaperOrder) (t : PaperTables) : PaperTables :=
  {| pt_approvals := t.(pt_approvals); pt_evidence := t.(pt_evidence); pt_definitions := t.(pt_definitions); pt_decisions := t.(pt_decisions);
     pt_orders := rows; pt_fills := t.(pt_fills); pt_positions := t.(pt_positions); pt_snapshots := t.(pt_snapshots);
     pt_realizations := t.(pt_realizations); pt_outcomes := t.(pt_outcomes); pt_plans := t.(pt_plans) |}.
Definition set_fills (rows : list PaperFill) (t : PaperTables) : PaperTables :=
  {| pt_approvals := t.(pt_approvals); pt_evidence := t.(pt_evidence); pt_definitions := t.(pt_definitions); pt_decisions := t.(pt_decisions);
     pt_orders := t.(pt_orders); pt_fills := rows; pt_positions := t.(pt_positions); pt_snapshots := t.(pt_snapshots);
     pt_realizations := t.(pt_realizations); pt_outcomes := t.(pt_outcomes); pt_plans := t.(pt_plans) |}.
Definition set_positions (rows : list PaperPosition) (t : PaperTables) : PaperTables :=
  {| pt_approvals := t.(pt_approvals); pt_evidence := t.(pt_evidence); pt_definitions := t.(pt_definitions); pt_decisions := t.(pt_decisions);
     pt_orders := t.(pt_orders); pt_fills := t.(pt_fills); pt_positions := rows; pt_snapshots := t.(pt_snapshots);
     pt_realizations := t.(pt_realizations); pt_outcomes := t.(pt_outcomes); pt_plans := t.(pt_plans) |}.
Definition set_snapshots (rows : list SnapshotRow) (t : PaperTables) : PaperTables :=
  {| pt_approvals := t.(pt_approvals); pt_evidence := t.(pt_evidence); pt_definitions := t.(pt_definitions); pt_decisions := t.(pt_decisions);
     pt_orders := t.(pt_orders); pt_fills := t.(pt_fills); pt_positions := t.(pt_positions); pt_snapshots := rows;
     pt_realizations := t.(pt_realizations); pt_outcomes := t.(pt_outcomes); pt_plans := t.(pt_plans) |}.
Definition set_realizations (rows : list RealizationRow) (t : PaperTables) : PaperTables :=
  {| pt_approvals := t.(pt_approvals); pt_evidence := t.(pt_evidence); pt_definitions := t.(pt_definitions); pt_decisions := t.(pt_decisions);
     pt_orders := t.(pt_orders); pt_fills := t.(pt_fills); pt_positions := t.(pt_positions); pt_snapshots := t.(pt_snapshots);
     pt_realizations := rows; pt_outcomes := t.(pt_outcomes); pt_plans := t.(pt_plans) |}.
Definition set_outcomes (rows : list OutcomeRow) (t : PaperTables) : PaperTables :=
  {| pt_approvals := t.(pt_approvals); pt_evidence := t.(pt_evidence); pt_definitions := t.(pt_definitions); pt_decisions := t.(pt_decisions);
     pt_orders := t.(pt_orders); pt_fills := t.(pt_fills); pt_positions := t.(pt_positions); pt_snapshots := t.(pt_snapshots);
     pt_realizations := t.(pt_realizations); pt_outcomes := rows; pt_plans := t.(pt_plans) |}.
Definition set_plan_rows (rows : list ExitPlanRow) (t : PaperTables) : PaperTables :=
  {| pt_approvals := t.(pt_approvals); pt_evidence := t.(pt_evidence); pt_definitions := t.(pt_definitions); pt_decisions := t.(pt_decisions);
     pt_orders := t.(pt_orders); pt_fills := t.(pt_fills); pt_positions := t.(pt_positions); pt_snapshots := t.(pt_snapshots);
     pt_realizations := t.(pt_realizations); pt_outcomes := t.(pt_outcomes); pt_plans := rows |}.

(** ** Writes of the engine *)

Definition tradable (a : AdvisoryAction) : bool := (a ==p BUY) || (a ==p SELL).
(** The key of a nullable reference is NULL or in the table. *)
Definition references_opt (rows : list string) (k : option string) : result unit :=
  match k with Some k => references (fun r => r) rows k | None => Ok () end.

Definition decision_row (decision : RiskDecision) : RiskDecisionRow :=
  let intent := decision.(rd_intent) in {|
  dr_decision_id := decision.(rd_decision_id); dr_intent_id := intent.(ti_intent_id); dr_market := intent.(ti_market);
  dr_account_id := intent.(ti_account_id); dr_symbol := intent.(ti_symbol); dr_action := intent.(ti_action);
  dr_quantity := intent.(ti_quantity); dr_reference_price := intent.(ti_reference_price); dr_candidate_id := intent.(ti_candidate_id);
  dr_approval_id := intent.(ti_approval_id); dr_portfolio_snapshot_id := decision.(rd_portfolio_snapshot_id); dr_state := decision.(rd_state);
  dr_rejection_reasons := decision.(rd_rejection_reasons); dr_limits := decision.(rd_limits);
  dr_gold_snapshot_ids := intent.(ti_gold_snapshot_ids); dr_agent_evidence_id := intent.(ti_agent_evidence_id);
  dr_evaluated_at := timestamptz decision.(rd_evaluated_at) |}.

(** [_save_decision]: [ON CONFLICT (decision_id) DO NOTHING] *)
Definition save_decision (decision : RiskDecision) : M PaperTables unit :=
  t ← get_state;
  let row := decision_row decision in
  _ ← lift (check (tradable row.(dr_action) && pg_positive row.(dr_quantity) && pg_positive row.(dr_reference_price)));
  if has_key dr_decision_id t.(pt_decisions) row.(dr_decision_id) then mret ()
  else
    _ ← lift (references (fun r => r) t.(pt_approvals) row.(dr_approval_id));
    _ ← lift (references_opt t.(pt_evidence) row.(dr_agent_evidence_id));
    modify (set_decisions (t.(pt_decisions) ++ [row])).

Definition order_row (o : PaperOrder) : PaperOrder := {|
  po_order_id := o.(po_order_id); po_idempotency_key := o.(po_idempotency_key); po_decision_id := o.(po_decision_id);
  po_market := o.(po_market); po_account_id := o.(po_account_id); po_symbol := o.(po_symbol); po_action := o.(po_action);
  po_quantity := o.(po_quantity); po_state := o.(po_state); po_submitted_at := timestamptz o.(po_submitted_at) |}.
(** [_save_order]: [ON CONFLICT (idempotency_key) DO NOTHING] *)
Definition save_order (order : PaperOrder) : M PaperTables unit :=
  t ← get_state;
  let row := order_row order in
  _ ← lift (check (tradable row.(po_action) && pg_positive row.(po_quantity)));
  if has_key po_idempotency_key t.(pt_orders) row.(po_idempotency_key) then mret ()
  else
    _ ← lift (unique po_order_id t.(pt_orders) row.(po_order_id));
    _ ← lift (references dr_decision_id t.(pt_decisions) row.(po_decision_id));
    modify (set_orders (t.(pt_orders) ++ [row])).

Definition fill_row (f : PaperFill) : PaperFill := {|
  pf_fill_id := f.(pf_fill_id); pf_order_id := f.(pf_order_id); pf_quantity := f.(pf_quantity); pf_price := f.(pf_price);
  pf_fee := f.(pf_fee); pf_filled_at := timestamptz f.(pf_filled_at) |}.
(** [_save_fill]: [ON CONFLICT (order_id) DO NOTHING] *)
Definition save_fill (fill : PaperFill) : M PaperTables unit :=
  t ← get_state;
  let row := fill_row fill in
  _ ← lift (check (pg_positive row.(pf_quantity) && pg_positive row.(pf_price) && pg_nonneg row.(pf_fee)));
  if has_key pf_order_id t.(pt_fills) row.(pf_order_id) then mret ()
  else
    _ ← lift (unique pf_fill_id t.(pt_fills) row.(pf_fill_id));
    _ ← lift (references po_order_id t.(pt_orders) row.(pf_order_id));
    modify (set_fills (t.(pt_fills) ++ [row])).

Definition position_row (p : PaperPosition) : PaperPosition := {|
  pos_position_id := p.(pos_position_id); pos_market := p.(pos_market); pos_account_id := p.(pos_account_id); pos_symbol := p.(pos_symbol);
  pos_signed_quantity := p.(pos_signed_quantity); pos_average_entry_price := p.(pos_average_entry_price);
  pos_realized_pnl := p.(pos_realized_pnl); pos_total_fees := p.(pos_total_fees); pos_opened_at := timestamptz p.(pos_opened_at);
  pos_updated_at := timestamptz p.(pos_updated_at); pos_closed_at := timestamptz <$> p.(pos_closed_at); pos_state := p.(pos_state);
  pos_decision_ids := p.(pos_decision_ids); pos_strategy_keys := p.(pos_strategy_keys); pos_approval_ids := p.(pos_approval_ids);
  pos_gold_snapshot_ids := p.(pos_gold_snapshot_ids); pos_agent_evidence_ids := p.(pos_agent_evidence_ids) |}.
(** [DO UPDATE SET ...]: every column but the key and when and where it was opened *)
Definition updated_position (new old : PaperPosition) : PaperPosition := {|
  pos_position_id := old.(pos_position_id); pos_market := old.(pos_market); pos_account_id := old.(pos_account_id);
  pos_symbol := old.(pos_symbol); pos_signed_quantity := new.(pos_signed_quantity);
  pos_average_entry_price := new.(pos_average_entry_price); pos_realized_pnl := new.(pos_realized_pnl);
  pos_total_fees := new.(pos_total_fees); pos_opened_at := old.(pos_opened_at); pos_updated_at := new.(pos_updated_at);
  pos_closed_at := new.(pos_closed_at); pos_state := new.(pos_state); pos_decision_ids := new.(pos_decision_ids);
  pos_strategy_keys := new.(pos_strategy_keys); pos_approval_ids := new.(pos_approval_ids);
  pos_gold_snapshot_ids := new.(pos_gold_snapshot_ids); pos_agent_evidence_ids := new.(pos_agent_evidence_ids) |}.
Definition row_key (p : PaperPosition) : position_key := (p.(pos_market), p.(pos_account_id), p.(pos_symbol)).
Definition is_open (p : PaperPosition) : bool := bool_decide (p.(pos_state) = OPEN).
Definition open_at (key : position_key) (p : PaperPosition) : bool := bool_decide (row_key p = key) && is_open p.
(** [paper_open_position_idx]: one open row of a key *)
Definition open_index (rows : list PaperPosition) (row : PaperPosition) : result unit :=
  raise_if (is_open row && existsb (fun p => open_at (row_key row) p && (p.(pos_position_id) !=p row.(pos_position_id))) rows) unique_violation.
(** [_save_position]: [ON CONFLICT (position_id) DO UPDATE] *)
Definition save_position (position : PaperPosition) : M PaperTables unit :=
  t ← get_state;
  let row := position_row position in
  _ ← lift (check (pg_nonneg row.(pos_average_entry_price) && pg_nonneg row.(pos_total_fees)));
  match List.find (fun p => p.(pos_position_id) ==p row.(pos_position_id)) t.(pt_positions) with
  | Some old =>
      let new := updated_position row old in
      _ ← lift (open_index t.(pt_positions) new);
      modify (set_positions (update_where (fun p => p.(pos_position_id) ==p row.(pos_position_id)) (fun _ => new) t.(pt_positions)))
  | None =>
      _ ← lift (open_index t.(pt_positions) row);
      modify (set_positions (t.(pt_positions) ++ [row]))
  end.

Definition snapshot_row (order_id : string) (p : PaperPosition) : SnapshotRow := {|
  sr_order_id := order_id; sr_position_id := p.(pos_position_id); sr_signed_quantity := p.(pos_signed_quantity);
  sr_average_entry_price := p.(pos_average_entry_price); sr_realized_pnl := p.(pos_realized_pnl); sr_total_fees := p.(pos_total_fees);
  sr_opened_at := timestamptz p.(pos_opened_at); sr_updated_at := timestamptz p.(pos_updated_at);
  sr_closed_at := timestamptz <$> p.(pos_closed_at); sr_state := p.(pos_state); sr_decision_ids := p.(pos_decision_ids);
  sr_strategy_keys := p.(pos_strategy_keys); sr_approval_ids := p.(pos_approval_ids); sr_gold_snapshot_ids := p.(pos_gold_snapshot_ids);
  sr_agent_evidence_ids := p.(pos_agent_evidence_ids) |}.
(** [_save_order_position_snapshot]: [ON CONFLICT (order_id) DO NOTHING] *)
Definition save_order_position_snapshot (order_id : string) (position : PaperPosition) : M PaperTables unit :=
  t ← get_state;
  let row := snapshot_row order_id position in
  _ ← lift (check (pg_nonneg row.(sr_average_entry_price) && pg_nonneg row.(sr_total_fees)));
  if has_key sr_order_id t.(pt_snapshots) order_id then mret ()
  else
    _ ← lift (references po_order_id t.(pt_orders) order_id);
    modify (set_snapshots (t.(pt_snapshots) ++ [row])).

Definition realization_row (fill : PaperFill) (position : PaperPosition) (prior_realized_pnl : float) : RealizationRow :=
  let gross_delta := (position.(pos_realized_pnl) - prior_realized_pnl)%float in {|
  rz_event_id := stable_id ["paper-realization"; fill.(pf_fill_id)]; rz_fill_id := fill.(pf_fill_id);
  rz_position_id := position.(pos_position_id); rz_market := position.(pos_market); rz_account_id := position.(pos_account_id);
  rz_symbol := position.(pos_symbol); rz_gross_pnl_delta := gross_delta; rz_fee := fill.(pf_fee);
  rz_net_pnl := (gross_delta - fill.(pf_fee))%float; rz_realized_at := timestamptz fill.(pf_filled_at) |}.
(** [_save_realization]: [ON CONFLICT (fill_id) DO NOTHING] *)
Definition save_realization (fill : PaperFill) (position : PaperPosition) (prior_realized_pnl : float) : M PaperTables unit :=
  t ← get_state;
  let row := realization_row fill position prior_realized_pnl in
  _ ← lift (check (pg_nonneg row.(rz_fee)));
  if has_key rz_fill_id t.(pt_realizations) row.(rz_fill_id) then mret ()
  else
    _ ← lift (unique rz_event_id t.(pt_realizations) row.(rz_event_id));
    _ ← lift (references pf_fill_id t.(pt_fills) row.(rz_fill_id));
    _ ← lift (references pos_position_id t.(pt_positions) row.(rz_position_id));
    modify (set_realizations (t.(pt_realizations) ++ [row])).

(** The row that [INSERT ... SELECT] makes of a closed position and its plan. *)
Definition closed_outcome_row (outcome_id : string) (p : PaperPosition) (x : ExitPlanRow) : result OutcomeRow :=
  net ← pg_sub p.(pos_realized_pnl) p.(pos_total_fees);
  ret ← pg_div net x.(ep_allocated_capital);
  mret {| ow_outcome_id := outcome_id; ow_position_id := p.(pos_position_id); ow_market := p.(pos_market); ow_account_id := p.(pos_account_id);
          ow_symbol := p.(pos_symbol); ow_strategy_key := x.(ep_strategy_key); ow_opened_at := p.(pos_opened_at); ow_closed_at := p.(pos_closed_at);
          ow_gross_pnl := p.(pos_realized_pnl); ow_total_fees := p.(pos_total_fees); ow_net_pnl := net; ow_return_on_allocated_capital := ret;
          ow_decision_ids := p.(pos_decision_ids); ow_approval_ids := p.(pos_approval_ids); ow_gold_snapshot_ids := p.(pos_gold_snapshot_ids);
          ow_agent_evidence_ids := p.(pos_agent_evidence_ids); ow_recorded_at := p.(pos_closed_at) |}.
(** [INSERT INTO paper.outcomes ... ON CONFLICT (position_id) DO NOTHING] of one row *)
Definition insert_outcome (row : OutcomeRow) : M PaperTables unit :=
  t ← get_state;
  _ ← lift (check (pg_nonneg row.(ow_total_fees) && negb (bool_decide (row.(ow_closed_at) = None)) && negb (bool_decide (row.(ow_recorded_at) = None))));
  if has_key ow_position_id t.(pt_outcomes) row.(ow_position_id) then mret ()
  else
    _ ← lift (unique ow_outcome_id t.(pt_outcomes) row.(ow_outcome_id));
    _ ← lift (references pos_position_id t.(pt_positions) row.(ow_position_id));
    _ ← lift (references identity_key t.(pt_definitions) row.(ow_strategy_key));
    modify (set_outcomes (t.(pt_outcomes) ++ [row])).
(** [_save_closed_outcome] *)
Definition save_closed_outcome (position : PaperPosition) : M PaperTables unit :=
  t ← get_state;
  let pairs :=
    p ← List.filter (fun p => (p.(pos_position_id) ==p position.(pos_position_id)) && bool_decide (p.(pos_state) = CLOSED)) t.(pt_positions);
    x ← List.filter (fun x => x.(ep_position_id) ==p p.(pos_position_id)) t.(pt_plans);
    [(p, x)] in
  rows ← lift (map_result (fun '(p, x) => closed_outcome_row (stable_id ["outcome"; position.(pos_position_id)]) p x) pairs);
  for_each rows insert_outcome.

Definition closed_plan (reason : option string) (closed_at : option datetime) (x : ExitPlanRow) : ExitPlanRow := {|
  ep_position_id := x.(ep_position_id); ep_market := x.(ep_market); ep_account_id := x.(ep_account_id); ep_symbol := x.(ep_symbol);
  ep_entry_action := x.(ep_entry_action); ep_quantity := x.(ep_quantity); ep_stop_price := x.(ep_stop_price);
  ep_target_price := x.(ep_target_price); ep_allocated_capital := x.(ep_allocated_capital); ep_candidate_id := x.(ep_candidate_id);
  ep_approval_id := x.(ep_approval_id); ep_strategy_key := x.(ep_strategy_key); ep_gold_snapshot_ids := x.(ep_gold_snapshot_ids);
  ep_active := false; ep_exit_reason := reason; ep_created_at := x.(ep_created_at); ep_closed_at := timestamptz <$> closed_at |}.
(** [UPDATE paper.exit_plans SET state='CLOSED',exit_reason=...,closed_at=... WHERE position_id=...] *)
Definition close_plan (position_id reason : string) (closed_at : option datetime) : M PaperTables unit :=
  modify (fun t => set_plan_rows (update_where (fun x => x.(ep_position_id) ==p position_id) (closed_plan (Some reason) closed_at) t.(pt_plans)) t).

(** ** Reads of the engine *)

(** [_load_open_position] *)
Definition load_open_position (key : position_key) (t : PaperTables) : option PaperPosition := List.find (open_at key) t.(pt_positions).

(** [_position_from_row] of the snapshot of an order *)
Definition position_from_snapshot (o : PaperOrder) (s : SnapshotRow) : PaperPosition := {|
  pos_position_id := s.(sr_position_id); pos_market := o.(po_market); pos_account_id := o.(po_account_id); pos_symbol := o.(po_symbol);
  pos_signed_quantity := s.(sr_signed_quantity); pos_average_entry_price := s.(sr_average_entry_price);
  pos_realized_pnl := s.(sr_realized_pnl); pos_total_fees := s.(sr_total_fees); pos_opened_at := s.(sr_opened_at);
  pos_updated_at := s.(sr_updated_at); pos_closed_at := s.(sr_closed_at); pos_state := s.(sr_state); pos_decision_ids := s.(sr_decision_ids);
  pos_strategy_keys := s.(sr_strategy_keys); pos_approval_ids := s.(sr_approval_ids); pos_gold_snapshot_ids := s.(sr_gold_snapshot_ids);
  pos_agent_evidence_ids := s.(sr_agent_evidence_ids) |}.
(** [FROM paper.orders o JOIN paper.fills f ... JOIN paper.order_positions s ... WHERE o.idempotency_key=...] *)
Definition receipt_rows (key : string) (t : PaperTables) : list (PaperOrder * PaperFill * SnapshotRow) :=
  o ← List.filter (fun o => o.(po_idempotency_key) ==p key) t.(pt_orders);
  f ← List.filter (fun f => f.(pf_order_id) ==p o.(po_order_id)) t.(pt_fills);
  s ← List.filter (fun s => s.(sr_order_id) ==p o.(po_order_id)) t.(pt_snapshots);
  [(o, f, s)].
(** [_load_receipt] *)
Definition load_receipt (key : string) (t : PaperTables) : option ExecutionReceipt :=
  match receipt_rows key t with
  | [] => None
  | (o, f, s) :: _ => Some {|
      er_order := o;
      er_fill := {| pf_fill_id := f.(pf_fill_id); pf_order_id := o.(po_order_id); pf_quantity := f.(pf_quantity); pf_price := f.(pf_price);
                    pf_fee := f.(pf_fee); pf_filled_at := f.(pf_filled_at) |};
      er_position := position_from_snapshot o s |}
  end.

(** ** PostgresPaperExecutionEngine *)

(** The database and the dicts of the process. *)
Record PaperProcess := { pp_tables : PaperTables; pp_cache : EngineState }.
Definition in_tables {A} (m : M PaperTables A) : M PaperProcess A :=
  zoom pp_tables (fun t s => {| pp_tables := t; pp_cache := s.(pp_cache) |}) m.
Definition in_cache {A} (m : M EngineState A) : M PaperProcess A :=
  zoom pp_cache (fun c s => {| pp_tables := s.(pp_tables); pp_cache := c |}) m.

Definition cache_receipt (key : string) (r : ExecutionReceipt) : M EngineState unit :=
  modify (fun c => {| eng_receipts := <[key := r]> c.(eng_receipts); eng_positions := c.(eng_positions) |}).
Definition cache_position (key : position_key) (p : PaperPosition) : M EngineState unit :=
  modify (fun c => {| eng_receipts := c.(eng_receipts); eng_positions := <[key := p]> c.(eng_positions) |}).

(** [key.startswith(f"exit:{position_id}:")] *)
Definition managed_exit (key position_id : string) : bool := negb (bool_decide (drop_prefix ("exit:" +:+ position_id +:+ ":") key = None)).
(** [key.rsplit(":", 1)[-1]] *)
Definition exit_reason_of (key : string) : string := default "" (last (split_on ":" key)).

Section Engine.
Context (policy : ExecutionPolicy).

(** What follows a fill: its rows, and the end of a managed exit. *)
Definition persist_receipt (decision : RiskDecision) (key : string) (current : option PaperPosition) (receipt : ExecutionReceipt)
  : M PaperTables unit :=
  let position := receipt.(er_position) in
  _ ← save_decision decision;
  _ ← save_order receipt.(er_order);
  _ ← save_fill receipt.(er_fill);
  _ ← save_position position;
  _ ← save_order_position_snapshot receipt.(er_order).(po_order_id) position;
  _ ← save_realization receipt.(er_fill) position (match current with Some p => p.(pos_realized_pnl) | None => 0%float end);
  when (bool_decide (position.(pos_state) = CLOSED) && managed_exit key position.(pos_position_id)) (
    let reason := exit_reason_of key in
    _ ← lift (raise_if (negb (bool_decide (reason ∈ ["STOP"; "TARGET"]))) (ValueError "paper exit idempotency key has an invalid reason"));
    _ ← save_closed_outcome position;
    close_plan position.(pos_position_id) reason position.(pos_closed_at)).

(** [_execute_one] *)
Definition execute_one (decision : RiskDecision) (idempotency_key : string) (executed_at : datetime) : M PaperProcess ExecutionReceipt :=
  _ ← lift (raise_if (str_blank idempotency_key) (ValueError "idempotency_key is required"));
  s ← get_state;
  match load_receipt idempotency_key s.(pp_tables) with
  | Some existing =>
      _ ← lift (raise_if (existing.(er_order).(po_decision_id) !=p decision.(rd_decision_id))
                 (ValueError "idempotency key is already bound to another decision"));
      _ ← in_cache (cache_receipt idempotency_key existing);
      mret existing
  | None =>
      _ ← lift (raise_if (negb (approved decision)) (PermissionError "paper execution requires an approved risk decision"));
      let key := intent_key decision.(rd_intent) in
      let current := load_open_position key s.(pp_tables) in
      _ ← match current with Some p => in_cache (cache_position key p) | None => mret () end;
      receipt ← in_cache (execute policy decision idempotency_key executed_at);
      _ ← in_tables (persist_receipt decision idempotency_key current receipt);
      mret receipt
  end.

(** A transaction: [commit()], or [rollback()] and the dicts as they were. *)
Definition paper_transaction {A} (fault : option exn) (m : M PaperProcess A) : M PaperProcess A := fun s =>
  match fault with
  | Some e => (Err e, s)
  | None => restoring s m s
  end.

(** [execute], [execute_batch] *)
Definition durable_execute (fault : option exn) (decision : RiskDecision) (idempotency_key : string) (executed_at : datetime)
  : M PaperProcess ExecutionReceipt :=
  paper_transaction fault (execute_one decision idempotency_key executed_at).

Definition durable_execute_batch (fault : option exn) (decisions : list RiskDecision) (batch_id : string) (executed_at : datetime)
  : M PaperProcess (list ExecutionReceipt) :=
  _ ← lift (raise_if (str_blank batch_id) (ValueError "batch_id is required"));
  _ ← lift (raise_if (existsb (fun d => negb (approved d)) decisions) (PermissionError "every batch risk decision must be approved"));
  let keys := batch_key batch_id <$> decisions in
  _ ← lift (raise_if (negb (length keys =? length (fromkeys keys))%nat) (ValueError "batch contains duplicate risk decisions"));
  paper_transaction fault (map_each decisions (fun d => execute_one d (batch_key batch_id d) executed_at)).
End Engine.

(** A new process starts with empty dicts. *)
Definition restarted (s : PaperProcess) : PaperProcess := {| pp_tables := s.(pp_tables); pp_cache := empty_engine |}.

(** ** PostgresLifecycleStore *)

Definition table_transaction {A} (fault : option exn) (m : M PaperTables A) : M PaperTables A := fun t =>
  match fault with
  | Some e => (Err e, t)
  | None => restoring t m t
  end.

Definition plan_to_row (plan : ExitPlan) : ExitPlanRow := {|
  ep_position_id := plan.(xp_position_id); ep_market := plan.(xp_market); ep_account_id := plan.(xp_account_id); ep_symbol := plan.(xp_symbol);
  ep_entry_action := plan.(xp_entry_action); ep_quantity := plan.(xp_quantity); ep_stop_price := plan.(xp_stop_price);
  ep_target_price := plan.(xp_target_price); ep_allocated_capital := plan.(xp_allocated_capital); ep_candidate_id := plan.(xp_candidate_id);
  ep_approval_id := plan.(xp_approval_id); ep_strategy_key := identity_key plan.(xp_identity);
  ep_gold_snapshot_ids := plan.(xp_gold_snapshot_ids); ep_active := true; ep_exit_reason := None;
  ep_created_at := timestamptz plan.(xp_created_at); ep_closed_at := None |}.
(** [save_plan]: [ON CONFLICT (position_id) DO NOTHING] *)
Definition durable_save_plan (fault : option exn) (plan : ExitPlan) : M PaperTables unit :=
  table_transaction fault (
    t ← get_state;
    let row := plan_to_row plan in
    _ ← lift (check (tradable row.(ep_entry_action) && pg_positive row.(ep_quantity) && pg_positive row.(ep_stop_price) &&
                     pg_positive row.(ep_target_price) && pg_positive row.(ep_allocated_capital)));
    if has_key ep_position_id t.(pt_plans) row.(ep_position_id) then mret ()
    else
      _ ← lift (references pos_position_id t.(pt_positions) row.(ep_position_id));
      _ ← lift (references (fun r => r) t.(pt_approvals) row.(ep_approval_id));
      _ ← lift (references identity_key t.(pt_definitions) row.(ep_strategy_key));
      modify (set_plan_rows (t.(pt_plans) ++ [row]))).

(** [UPDATE paper.exit_plans p SET state='CLOSED',closed_at=x.closed_at FROM paper.positions x
    WHERE x.position_id=p.position_id AND p.state='ACTIVE' AND x.state='CLOSED'] *)
Definition closed_position_of (t : PaperTables) (x : ExitPlanRow) : option PaperPosition :=
  List.find (fun p => (p.(pos_position_id) ==p x.(ep_position_id)) && negb (is_open p)) t.(pt_positions).
Definition retire_plans (t : PaperTables) : list ExitPlanRow :=
  (fun x => if x.(ep_active) then match closed_position_of t x with Some p => closed_plan x.(ep_exit_reason) p.(pos_closed_at) x | None => x end else x)
    <$> t.(pt_plans).

(** [_from_row] *)
Definition plan_from_row (x : ExitPlanRow) (d : StrategyIdentity) : result ExitPlan :=
  let identity := {| si_market := x.(ep_market); si_strategy_id := d.(si_strategy_id); si_strategy_version := d.(si_strategy_version);
    si_timeframe := d.(si_timeframe); si_trade_horizon := d.(si_trade_horizon); si_feature_set_version := d.(si_feature_set_version) |} in
  _ ← StrategyIdentity_post_init identity;
  mret {| xp_position_id := x.(ep_position_id); xp_market := x.(ep_market); xp_account_id := x.(ep_account_id); xp_symbol := x.(ep_symbol);
          xp_entry_action := x.(ep_entry_action); xp_quantity := x.(ep_quantity); xp_stop_price := x.(ep_stop_price);
          xp_target_price := x.(ep_target_price); xp_allocated_capital := x.(ep_allocated_capital); xp_candidate_id := x.(ep_candidate_id);
          xp_approval_id := x.(ep_approval_id); xp_identity := identity; xp_gold_snapshot_ids := x.(ep_gold_snapshot_ids);
          xp_created_at := x.(ep_created_at) |}.
(** [ORDER BY p.created_at,p.position_id] *)
Definition plan_before (a b : ExitPlanRow * StrategyIdentity) : bool :=
  (instant a.1.(ep_created_at) <? instant b.1.(ep_created_at)) ||
  ((instant a.1.(ep_created_at) =? instant b.1.(ep_created_at)) && str_ltb a.1.(ep_position_id) b.1.(ep_position_id)).
Definition active_rows (market : Market) (account_id : string) (t : PaperTables) : list (ExitPlanRow * StrategyIdentity) :=
  x ← List.filter (fun x => (x.(ep_market) ==p market) && (x.(ep_account_id) ==p account_id) && x.(ep_active)) t.(pt_plans);
  d ← List.filter (fun d => identity_key d ==p x.(ep_strategy_key)) t.(pt_definitions);
  p ← List.filter (fun p => (p.(pos_position_id) ==p x.(ep_position_id)) && is_open p) t.(pt_positions);
  [(x, d)].
(** [active]: the retirement is committed before the plans are read *)
Definition durable_active (fault : option exn) (market : Market) (account_id : string) : M PaperTables (list ExitPlan) :=
  _ ← table_transaction fault (modify (fun t => set_plan_rows (retire_plans t) t));
  t ← get_state;
  lift (map_result (fun '(x, d) => plan_from_row x d) (py_sorted plan_before (active_rows market account_id t))).

Definition outcome_to_row (o : Outcome) : OutcomeRow := {|
  ow_outcome_id := o.(oc_outcome_id); ow_position_id := o.(oc_position_id); ow_market := o.(oc_market); ow_account_id := o.(oc_account_id);
  ow_symbol := o.(oc_symbol); ow_strategy_key := identity_key o.(oc_strategy_identity); ow_opened_at := timestamptz o.(oc_opened_at);
  ow_closed_at := Some (timestamptz o.(oc_closed_at)); ow_gross_pnl := o.(oc_gross_pnl); ow_total_fees := o.(oc_total_fees);
  ow_net_pnl := o.(oc_net_pnl); ow_return_on_allocated_capital := o.(oc_return_on_allocated_capital);
  ow_decision_ids := o.(oc_decision_ids); ow_approval_ids := o.(oc_approval_ids); ow_gold_snapshot_ids := o.(oc_gold_snapshot_ids);
  ow_agent_evidence_ids := o.(oc_agent_evidence_ids); ow_recorded_at := Some (timestamptz o.(oc_recorded_at)) |}.
(** [save_outcome] *)
Definition durable_save_outcome (fault : option exn) (outcome : Outcome) (reason : ExitReason) : M PaperTables unit :=
  table_transaction fault (
    _ ← insert_outcome (outcome_to_row outcome);
    close_plan outcome.(oc_position_id) (ExitReason_value reason) (Some outcome.(oc_closed_at))).

(** ** What the writes do *)

(** The four tables that receipts and positions are read from. *)
Definition ledger_same (t t' : PaperTables) : Prop :=
  t'.(pt_orders) = t.(pt_orders) /\ t'.(pt_fills) = t.(pt_fills) /\ t'.(pt_positions) = t.(pt_positions) /\ t'.(pt_snapshots) = t.(pt_snapshots).
#[export] Instance ledger_same_preorder : PreOrder ledger_same.
Proof. split; [by intros t|]. intros ??? (A1 & A2 & A3 & A4) (B1 & B2 & B3 & B4). split_and!; congruence. Qed.

Lemma same_modify f : (forall t, ledger_same t (f t)) -> preserves ledger_same (modify f).
Proof. intros H t. apply H. Qed.
Ltac ledger_kept := preserve; try (apply same_modify; intros ?; repeat split; reflexivity).

Lemma save_decision_same d : preserves ledger_same (save_decision d).
Proof. unfold save_decision. ledger_kept. Qed.
Lemma save_realization_same f p x : preserves ledger_same (save_realization f p x).
Proof. unfold save_realization. ledger_kept. Qed.
Lemma insert_outcome_same r : preserves ledger_same (insert_outcome r).
Proof. unfold insert_outcome. ledger_kept. Qed.
Lemma save_closed_outcome_same p : preserves ledger_same (save_closed_outcome p).
Proof. unfold save_closed_outcome. ledger_kept. apply insert_outcome_same. Qed.
Lemma close_plan_same i r c : preserves ledger_same (close_plan i r c).
Proof. unfold close_plan. ledger_kept. Qed.

Lemma save_order_ok o t t' : save_order o t = (Ok (), t') -> ~ o.(po_idempotency_key) ∈ (po_idempotency_key <$> t.(pt_orders)) ->
  ~ o.(po_order_id) ∈ (po_order_id <$> t.(pt_orders)) /\ t' = set_orders (t.(pt_orders) ++ [order_row o]) t.
Proof.
  unfold save_order. intros H Hk. apply M_bind_ok in H as (t0 & s & [= <- <-] & H). apply M_bind_ok in H as ([] & s1 & [_ ->]%lift_ok & H).
  assert (has_key po_idempotency_key t.(pt_orders) (order_row o).(po_idempotency_key) = false) as Hf by (by apply has_key_false).
  rewrite Hf in H. apply M_bind_ok in H as ([] & s2 & [Hu%unique_fresh ->]%lift_ok & H).
  apply M_bind_ok in H as ([] & s3 & [_ ->]%lift_ok & [= <-]). done.
Qed.
Lemma save_fill_ok f t t' : save_fill f t = (Ok (), t') -> ~ f.(pf_order_id) ∈ (pf_order_id <$> t.(pt_fills)) ->
  t' = set_fills (t.(pt_fills) ++ [fill_row f]) t.
Proof.
  unfold save_fill. intros H Hk. apply M_bind_ok in H as (t0 & s & [= <- <-] & H). apply M_bind_ok in H as ([] & s1 & [_ ->]%lift_ok & H).
  assert (has_key pf_order_id t.(pt_fills) (fill_row f).(pf_order_id) = false) as Hf by (by apply has_key_false).
  rewrite Hf in H. apply M_bind_ok in H as ([] & s2 & [_ ->]%lift_ok & H).
  apply M_bind_ok in H as ([] & s3 & [_ ->]%lift_ok & [= <-]). done.
Qed.
Lemma save_snapshot_ok i p t t' : save_order_position_snapshot i p t = (Ok (), t') -> ~ i ∈ (sr_order_id <$> t.(pt_snapshots)) ->
  t' = set_snapshots (t.(pt_snapshots) ++ [snapshot_row i p]) t.
Proof.
  unfold save_order_position_snapshot. intros H Hk. apply M_bind_ok in H as (t0 & s & [= <- <-] & H).
  apply M_bind_ok in H as ([] & s1 & [_ ->]%lift_ok & H). apply has_key_false in Hk. rewrite Hk in H.
  apply M_bind_ok in H as ([] & s3 & [_ ->]%lift_ok & [= <-]). done.
Qed.

(** The table of positions after the upsert. *)
Definition put_position (row : PaperPosition) (rows : list PaperPosition) : list PaperPosition :=
  match List.find (fun p => p.(pos_position_id) ==p row.(pos_position_id)) rows with
  | Some old => update_where (fun p => p.(pos_position_id) ==p row.(pos_position_id)) (fun _ => updated_position row old) rows
  | None => rows ++ [row]
  end.
Lemma save_position_ok p t t' : save_position p t = (Ok (), t') ->
  t' = set_positions (put_position (position_row p) t.(pt_positions)) t /\
  open_index t.(pt_positions)
    (match List.find (fun q => q.(pos_position_id) ==p p.(pos_position_id)) t.(pt_positions) with
     | Some old => updated_position (position_row p) old | None => position_row p end) = Ok ().
Proof.
  unfold save_position, put_position. intros H. apply M_bind_ok in H as (t0 & s & [= <- <-] & H).
  apply M_bind_ok in H as ([] & s1 & [_ ->]%lift_ok & H). change (position_row p).(pos_position_id) with p.(pos_position_id) in *.
  destruct (List.find _ _) as [old|]; apply M_bind_ok in H as ([] & s3 & [Hi ->]%lift_ok & [= <-]); done.
Qed.

(** ** The simulation *)

(** Timestamps are in UTC. *)
Definition stored (p : PaperPosition) : Prop := position_row p = p.

Record ledger_ok (t : PaperTables) : Prop := {
  lk_order_ids : NoDup (po_order_id <$> t.(pt_orders));
  lk_keys : NoDup (po_idempotency_key <$> t.(pt_orders));
  lk_fills : pf_order_id <$> t.(pt_fills) = po_order_id <$> t.(pt_orders);
  lk_snapshots : sr_order_id <$> t.(pt_snapshots) = po_order_id <$> t.(pt_orders);
  lk_position_ids : NoDup (pos_position_id <$> t.(pt_positions));
  lk_stored : Forall stored t.(pt_positions);
  lk_open : forall p q, p ∈ t.(pt_positions) -> q ∈ t.(pt_positions) -> is_open p = true -> is_open q = true -> row_key p = row_key q -> p = q }.

(** The open position of a key in a dict of positions. *)
Definition open_in (d : dict position_key PaperPosition) (key : position_key) : option PaperPosition :=
  p ← d !! key; if is_open p then Some p else None.

(** The tables hold the receipts and the open positions of the in-memory engine. *)
Record represents (t : PaperTables) (s : EngineState) : Prop := {
  rp_receipts : forall key, load_receipt key t = s.(eng_receipts) !! key;
  rp_positions : forall key, load_open_position key t = open_in s.(eng_positions) key }.
(** What the dicts of the process hold is in the tables. *)
Record coherent (c : EngineState) (t : PaperTables) : Prop := {
  co_receipts : forall key r, c.(eng_receipts) !! key = Some r -> load_receipt key t = Some r;
  co_positions : forall key p, open_in c.(eng_positions) key = Some p -> load_open_position key t = Some p }.

Record simulates (p : PaperProcess) (s : EngineState) : Prop := {
  si_ledger : ledger_ok p.(pp_tables);
  si_represents : represents p.(pp_tables) s;
  si_coherent : coherent p.(pp_cache) p.(pp_tables) }.

Lemma timestamptz_utc t : timestamptz (at_utc t) = at_utc t.
Proof. unfold timestamptz, instant. simpl. by rewrite Z.sub_0_r. Qed.
Lemma timestamptz_idem d : timestamptz (timestamptz d) = timestamptz d.
Proof. apply timestamptz_utc. Qed.

Lemma load_open_elem key t p : load_open_position key t = Some p -> p ∈ t.(pt_positions) /\ is_open p = true /\ row_key p = key.
Proof. intros [Hp Ho]%find_elem. apply andb_prop in Ho as [Hk Ho]. by apply bool_decide_eq_true in Hk. Qed.

(** The position that a fill makes is in UTC and has the key of its order. *)
Lemma applied_stored policy d key at_ current p :
  (forall q, current = Some q -> stored q /\ row_key q = intent_key d.(rd_intent)) ->
  apply_fill current d (make_fill policy d key (at_utc at_)) = Ok p ->
  stored p /\ row_key p = intent_key d.(rd_intent).
Proof.
  intros Hc H.
  assert (Hopen : stored (open_position d (make_fill policy d key (at_utc at_))) /\
      row_key (open_position d (make_fill policy d key (at_utc at_))) = intent_key d.(rd_intent)).
  { split; [|done]. unfold stored, position_row, open_position. simpl. by rewrite !timestamptz_utc. }
  destruct current as [q|]; [|injection H as <-; exact Hopen]. simpl in H.
  destruct (pos_state q); [|injection H as <-; exact Hopen].
  destruct (Hc q eq_refl) as [Hq Hk]. unfold update_position in H. cbv zeta in H.
  apply result_bind_ok in H as (ec & _ & [= <-]). split; [|exact Hk].
  unfold stored, position_row in *. simpl. destruct q. simpl in *. injection Hq. intros. rewrite !timestamptz_utc.
  destruct (_ =? 0)%float; simpl; rewrite ?timestamptz_utc; congruence.
Qed.

Lemma persist_ok d key current r t t' : ledger_ok t -> persist_receipt d key current r t = (Ok (), t') ->
  r.(er_fill).(pf_order_id) = r.(er_order).(po_order_id) ->
  ~ r.(er_order).(po_idempotency_key) ∈ (po_idempotency_key <$> t.(pt_orders)) ->
  ~ r.(er_order).(po_order_id) ∈ (po_order_id <$> t.(pt_orders)) /\
  t'.(pt_orders) = t.(pt_orders) ++ [order_row r.(er_order)] /\ t'.(pt_fills) = t.(pt_fills) ++ [fill_row r.(er_fill)] /\
  t'.(pt_snapshots) = t.(pt_snapshots) ++ [snapshot_row r.(er_order).(po_order_id) r.(er_position)] /\
  t'.(pt_positions) = put_position (position_row r.(er_position)) t.(pt_positions) /\
  open_index t.(pt_positions)
    (match List.find (fun q => q.(pos_position_id) ==p r.(er_position).(pos_position_id)) t.(pt_positions) with
     | Some old => updated_position (position_row r.(er_position)) old | None => position_row r.(er_position) end) = Ok ().
Proof.
  intros Hok H Hf Hk. unfold persist_receipt in H. cbv zeta in H.
  apply M_bind_ok in H as ([] & t1 & H1 & H). apply (preserves_run _ _ _ _ _ (save_decision_same _)) in H1 as (A1 & A2 & A3 & A4).
  apply M_bind_ok in H as ([] & t2 & H2 & H). apply save_order_ok in H2 as [Hid H2]; [|by rewrite A1].
  apply M_bind_ok in H as ([] & t3 & H3 & H). rewrite A1 in Hid, H2.
  apply save_fill_ok in H3; [|subst t2; simpl; by rewrite A2, (lk_fills _ Hok), Hf].
  apply M_bind_ok in H as ([] & t4 & H4 & H). apply save_position_ok in H4 as [H4 Hi].
  apply M_bind_ok in H as ([] & t5 & H5 & H). apply save_snapshot_ok in H5; [|subst; simpl; by rewrite A4, (lk_snapshots _ Hok)].
  apply M_bind_ok in H as ([] & t6 & H6 & H). apply (preserves_run _ _ _ _ _ (save_realization_same _ _ _)) in H6 as (B1 & B2 & B3 & B4).
  assert (ledger_same t6 t') as (C1 & C2 & C3 & C4).
  { eapply preserves_run; [|exact H]. unfold when. preserve; [apply save_closed_outcome_same|apply close_plan_same]. }
  subst t5 t4 t3 t2. simpl in *. rewrite A3 in Hi, B3. rewrite A2 in B2. rewrite A4 in B4.
  split_and!; [done|congruence..|done].
Qed.

(** Receipts after the rows of an order were added. *)
Lemma receipts_added t t' o f p : ledger_ok t -> f.(pf_order_id) = o.(po_order_id) ->
  ~ o.(po_order_id) ∈ (po_order_id <$> t.(pt_orders)) -> ~ o.(po_idempotency_key) ∈ (po_idempotency_key <$> t.(pt_orders)) ->
  t'.(pt_orders) = t.(pt_orders) ++ [o] -> t'.(pt_fills) = t.(pt_fills) ++ [f] ->
  t'.(pt_snapshots) = t.(pt_snapshots) ++ [snapshot_row o.(po_order_id) p] ->
  row_key p = (o.(po_market), o.(po_account_id), o.(po_symbol)) -> stored p ->
  forall key, load_receipt key t' =
    if o.(po_idempotency_key) ==p key then Some {| er_order := o; er_fill := f; er_position := p |} else load_receipt key t.
Proof.
  intros Hok Hf Hid Hk Eo Ef Es Hrk Hst key. unfold load_receipt, receipt_rows. rewrite Eo, Ef, Es.
  destruct (o.(po_idempotency_key) ==p key) eqn:E.
  - apply (proj1 (py_eq_true _ _)) in E. subst key.
    rewrite (filter_snoc_only _ _ _ (key_absent _ _ _ Hk)) by apply py_refl_leibniz. cbn [mbind list_bind].
    rewrite (filter_snoc_only _ t.(pt_fills)); [|apply (key_absent pf_order_id); by rewrite (lk_fills _ Hok)|rewrite Hf; apply py_refl_leibniz]. cbn [mbind list_bind].
    rewrite (filter_snoc_only _ t.(pt_snapshots)); [|apply (key_absent sr_order_id); by rewrite (lk_snapshots _ Hok)|apply py_refl_leibniz]. simpl.
    do 2 f_equal.
    + destruct f; simpl in *. by rewrite Hf.
    + injection Hrk as H1 H2 H3. unfold stored, position_row in Hst. destruct p; simpl in *. injection Hst. intros.
      unfold position_from_snapshot, snapshot_row. simpl. congruence.
  - rewrite filter_snoc_false by done.
    match goal with |- match ?a with _ => _ end = match ?b with _ => _ end => assert (a = b) as ->; [|done] end.
    apply list_bind_ext_in. intros x Hx. apply list_elem_of_In, filter_In in Hx as [Hx _]. apply list_elem_of_In in Hx.
    assert (Hne : x.(po_order_id) <> o.(po_order_id)) by (intros Heq; apply Hid; rewrite <- Heq; by apply list_elem_of_fmap_2).
    rewrite (filter_snoc_false _ t.(pt_fills)) by (apply py_eq_false; rewrite Hf; congruence).
    apply list_bind_ext_in. intros y _. rewrite filter_snoc_false; [done|]. simpl. apply py_eq_false. congruence.
Qed.

Definition same_position (p cur : PaperPosition) : Prop :=
  p.(pos_position_id) = cur.(pos_position_id) /\ row_key p = row_key cur /\ p.(pos_opened_at) = cur.(pos_opened_at).

(** The positions after the upsert of a position made from the open one of
    its key, or of a new one. *)
Definition positions_after (rows : list PaperPosition) (p : PaperPosition) (rows' : list PaperPosition) : Prop :=
  (forall key, List.find (open_at key) rows' =
     if bool_decide (row_key p = key) then (if is_open p then Some p else None) else List.find (open_at key) rows) /\
  (forall x, x ∈ rows' -> x = p \/ x ∈ rows /\ open_at (row_key p) x = false) /\
  NoDup (pos_position_id <$> rows') /\
  (forall i, i ∈ pos_position_id <$> rows' -> i = p.(pos_position_id) \/ i ∈ pos_position_id <$> rows).

Lemma put_known t p cur : ledger_ok t -> load_open_position (row_key p) t = Some cur -> same_position p cur ->
  positions_after t.(pt_positions) p (put_position p t.(pt_positions)).
Proof.
  intros Hok Hcur (Hid & Hkey & Hop). destruct (load_open_elem _ _ _ Hcur) as (Hin & Ho & _). unfold put_position.
  set (same := fun q => q.(pos_position_id) ==p p.(pos_position_id)).
  assert (Hsame : forall x, x ∈ t.(pt_positions) -> same x = true -> x = cur).
  { intros x Hx Hs. apply (proj1 (py_eq_true _ _)) in Hs. eapply (NoDup_key_inj pos_position_id); [apply Hok|done..|congruence]. }
  assert (List.find same t.(pt_positions) = Some cur) as ->.
  { apply find_only; [done|unfold same; rewrite Hid; apply py_refl_leibniz|done]. }
  assert (updated_position p cur = p) as ->.
  { injection Hkey as H1 H2 H3. unfold updated_position. destruct p, cur. simpl in *. congruence. }
  assert (Helem : forall x, x ∈ update_where same (fun _ => p) t.(pt_positions) ->
      x = p \/ x ∈ t.(pt_positions) /\ x.(pos_position_id) <> p.(pos_position_id)).
  { intros x (y & Hy & ->)%update_where_elem. destruct (same y) eqn:E; [by left|right]. split; [done|]. by apply py_eq_false in E. }
  assert (Hids : pos_position_id <$> update_where same (fun _ => p) t.(pt_positions) = pos_position_id <$> t.(pt_positions)).
  { unfold update_where. rewrite <- list_fmap_compose. apply list_fmap_ext. intros i x Hx. simpl. destruct (same x) eqn:E; [|done].
    apply list_elem_of_lookup_2 in Hx. by rewrite (Hsame x Hx E). }
  assert (Hother : forall x, x ∈ t.(pt_positions) -> x.(pos_position_id) <> p.(pos_position_id) -> open_at (row_key p) x = false).
  { intros x Hx Hne. apply not_true_iff_false. intros [Hk Hx']%andb_prop. apply bool_decide_eq_true in Hk. apply Hne.
    rewrite Hid. f_equal. eapply lk_open; eauto. congruence. }
  split; [|split; [|rewrite Hids; split; [apply Hok|by right]]].
  2: { intros x [->|[Hx Hne]]%Helem; [by left|right]. split; [done|]. by apply Hother. }
  intros key. case_bool_decide as Hk.
  - subst key. destruct (is_open p) eqn:Eo.
    + apply find_only.
      * apply update_where_elem. exists cur. split; [done|]. unfold same. by rewrite Hid, py_refl_leibniz.
      * unfold open_at. by rewrite Eo, bool_decide_eq_true_2.
      * intros y [->|[Hy Hne]]%Helem Hq; [done|]. by rewrite Hother in Hq.
    + apply find_nothing. intros y [->|[Hy Hne]]%Helem; [|by apply Hother]. unfold open_at. by rewrite Eo, andb_false_r.
  - apply find_updated.
    + intros x Hx Hs. rewrite (Hsame x Hx Hs). unfold open_at. rewrite bool_decide_eq_false_2; [done|congruence].
    + unfold open_at. by rewrite bool_decide_eq_false_2.
Qed.

Lemma put_new t p : ledger_ok t -> load_open_position (row_key p) t = None -> ~ p.(pos_position_id) ∈ (pos_position_id <$> t.(pt_positions)) ->
  positions_after t.(pt_positions) p (put_position p t.(pt_positions)).
Proof.
  intros Hok Hcur Hid. unfold put_position. rewrite find_nothing by (by apply (key_absent pos_position_id)).
  split; [|split; [|split]].
  - intros key. rewrite find_snoc. unfold open_at at 2. case_bool_decide as Hk.
    + subst key. unfold load_open_position in Hcur. rewrite Hcur. by destruct (is_open p).
    + simpl. by destruct (List.find _ _).
  - intros x [Hx|Hx]%elem_of_app; [right|left; by apply list_elem_of_singleton in Hx]. split; [done|].
    apply not_true_iff_false. intros Ho. apply list_elem_of_In in Hx. by rewrite (find_none _ _ Hcur _ Hx) in Ho.
  - apply NoDup_snoc_key; [apply Hok|done].
  - intros i. rewrite fmap_app, elem_of_app. intros [Hi|Hi%list_elem_of_singleton]; [by right|by left].
Qed.

(** The next state of the in-memory engine, when its fill applies. *)
Lemma execute_applies policy d key t s p : str_blank key = false -> s.(eng_receipts) !! key = None -> approved d = true -> aware t = true ->
  apply_fill (s.(eng_positions) !! intent_key d.(rd_intent)) d (make_fill policy d key (at_utc (instant t))) = Ok p ->
  execute policy d key t s = (Ok (receipt_of policy d key (at_utc (instant t)) p), committed policy d key (at_utc (instant t)) p s).
Proof.
  intros Hb Hk Ha Hw Hp. unfold execute, mbind, M_bind, get_state, lift, modify, mret, M_ret. rewrite Hb. simpl. rewrite Hk, Ha. simpl.
  rewrite (proj2 (utc_ok t "executed_at" _) (conj Hw eq_refl)). by rewrite Hp.
Qed.

(** A fill sees a position only when it is open. *)
Lemma apply_seen d f (o : dict position_key PaperPosition) key : apply_fill (o !! key) d f = apply_fill (open_in o key) d f.
Proof.
  unfold open_in, is_open. destruct (o !! key) as [p|]; [|done]. simpl.
  destruct (pos_state p) eqn:E; [rewrite bool_decide_eq_true_2 by done|rewrite bool_decide_eq_false_2 by done]; simpl; by rewrite ?E.
Qed.

(** A key without a receipt has no order. *)
Lemma receipt_key_absent key t : ledger_ok t -> load_receipt key t = None -> ~ key ∈ (po_idempotency_key <$> t.(pt_orders)).
Proof.
  intros Hok Hn (o & -> & Ho)%list_elem_of_fmap. unfold load_receipt, receipt_rows in Hn.
  rewrite (filter_key po_idempotency_key _ _ o) in Hn; [|apply Hok|done|apply py_refl_leibniz|by intros x Hx%(proj1 (py_eq_true _ _))].
  cbn [mbind list_bind] in Hn. rewrite app_nil_r in Hn.
  assert (Hf : o.(po_order_id) ∈ pf_order_id <$> t.(pt_fills)) by (rewrite (lk_fills _ Hok); by apply list_elem_of_fmap_2).
  assert (Hs : o.(po_order_id) ∈ sr_order_id <$> t.(pt_snapshots)) by (rewrite (lk_snapshots _ Hok); by apply list_elem_of_fmap_2).
  apply list_elem_of_fmap in Hf as (f & Hfo & Hf). apply list_elem_of_fmap in Hs as (x & Hxo & Hx).
  rewrite (filter_key pf_order_id _ _ f) in Hn; [|rewrite (lk_fills _ Hok); apply Hok|done|rewrite Hfo; apply py_refl_leibniz|
    intros y Hy%(proj1 (py_eq_true _ _)); congruence]. cbn [mbind list_bind] in Hn. rewrite app_nil_r in Hn.
  rewrite (filter_key sr_order_id _ _ x) in Hn; [|rewrite (lk_snapshots _ Hok); apply Hok|done|rewrite Hxo; apply py_refl_leibniz|
    intros y Hy%(proj1 (py_eq_true _ _)); congruence]. done.
Qed.

Section Refinement.
Context (policy : ExecutionPolicy).

(** The identity of the position that the fill of an order would open. *)
Definition opens (executed_at : datetime) (dk : RiskDecision * string) : string :=
  (open_position dk.1 (make_fill policy dk.1 dk.2 (at_utc (instant executed_at)))).(pos_position_id).

(** What a fill makes of the open position that was loaded. *)
Lemma applied_position d key at_ t p : ledger_ok t ->
  let current := load_open_position (intent_key d.(rd_intent)) t in
  apply_fill current d (make_fill policy d key (at_utc (instant at_))) = Ok p ->
  ~ (opens at_ (d, key)) ∈ (pos_position_id <$> t.(pt_positions)) ->
  stored p /\ row_key p = intent_key d.(rd_intent) /\
  match current with
  | Some cur => same_position p cur
  | None => ~ p.(pos_position_id) ∈ (pos_position_id <$> t.(pt_positions))
  end.
Proof.
  intros Hok current Hp Hfresh.
  assert (Hcur : forall q, current = Some q -> stored q /\ row_key q = intent_key d.(rd_intent)).
  { intros q (Hq & _ & Hk)%load_open_elem. split; [|done]. by eapply Forall_forall in Hq; [|apply Hok]. }
  destruct (applied_stored _ _ _ _ _ _ Hcur Hp) as [Hst Hrk]. split; [done|]. split; [done|].
  destruct current as [cur|] eqn:Ec; [|by injection Hp as <-].
  destruct (load_open_elem _ _ _ Ec) as (Hin & Ho & Hck). apply bool_decide_eq_true in Ho. simpl in Hp. rewrite Ho in Hp.
  unfold update_position in Hp. cbv zeta in Hp. by apply result_bind_ok in Hp as (ec & _ & [= <-]).
Qed.

Lemma applied_row d key at_ t p : ledger_ok t ->
  let current := load_open_position (intent_key d.(rd_intent)) t in
  apply_fill current d (make_fill policy d key (at_utc (instant at_))) = Ok p ->
  ~ (opens at_ (d, key)) ∈ (pos_position_id <$> t.(pt_positions)) ->
  stored p /\ row_key p = intent_key d.(rd_intent) /\ positions_after t.(pt_positions) p (put_position p t.(pt_positions)) /\
  (p.(pos_position_id) = opens at_ (d, key) \/ p.(pos_position_id) ∈ pos_position_id <$> t.(pt_positions)).
Proof.
  intros Hok current Hp Hfresh. destruct (applied_position _ _ _ _ _ Hok Hp Hfresh) as (Hst & Hrk & Hcur). fold current in Hcur.
  split; [done|]. split; [done|]. destruct current as [cur|] eqn:Ec.
  - split; [by apply (put_known _ _ cur); [done|rewrite Hrk|]|]. right. destruct Hcur as (-> & _). apply load_open_elem in Ec as (Hin & _).
    by apply list_elem_of_fmap_2.
  - split; [by apply put_new; [done|rewrite Hrk|]|]. left. by injection Hp as <-.
Qed.

(** After the open position was loaded, the dicts of the process hold it. *)
Lemma current_cached d (key : string) p s : simulates p s ->
  let ik := intent_key d.(rd_intent) in
  let current := load_open_position ik p.(pp_tables) in
  exists c1, (match current with Some q => in_cache (cache_position ik q) | None => mret () end) p
      = (Ok (), {| pp_tables := p.(pp_tables); pp_cache := c1 |}) /\
    c1.(eng_receipts) = p.(pp_cache).(eng_receipts) /\ open_in c1.(eng_positions) ik = current.
Proof.
  intros [_ _ [_ Hcp]] ik current. destruct current as [cur|] eqn:Ec.
  - eexists. split_and!; [done..|]. simpl. unfold open_in. rewrite dict_lookup_insert_eq. simpl. by apply load_open_elem in Ec as (_ & -> & _).
  - exists p.(pp_cache). split_and!; [by destruct p|done|]. destruct (open_in _ ik) as [q|] eqn:Eo; [|done]. apply Hcp in Eo.
    unfold current in Ec. by rewrite Ec in Eo.
Qed.

(** Once the rows of a new fill are in the tables, they are the ledger of the
    engine that made the same fill. *)
Lemma fill_persisted d key at_ t t' s c pos :
  let r := receipt_of policy d key (at_utc (instant at_)) pos in
  let current := load_open_position (intent_key d.(rd_intent)) t in
  simulates {| pp_tables := t; pp_cache := c |} s -> load_receipt key t = None ->
  apply_fill current d (make_fill policy d key (at_utc (instant at_))) = Ok pos ->
  ~ (opens at_ (d, key)) ∈ (pos_position_id <$> t.(pt_positions)) ->
  persist_receipt d key current r t = (Ok (), t') ->
  simulates {| pp_tables := t'; pp_cache := committed policy d key (at_utc (instant at_)) pos c |}
            (committed policy d key (at_utc (instant at_)) pos s) /\
  (forall i, i ∈ pos_position_id <$> t'.(pt_positions) -> i ∈ pos_position_id <$> t.(pt_positions) \/ i = opens at_ (d, key)).
Proof.
  intros r current [Hok [Hrr Hrp] [Hcr Hcp]] Hnone Happ Hfresh Hper. simpl in *.
  destruct (applied_row _ _ _ _ _ Hok Happ Hfresh) as (Hst & Hrk & (Hfind & Hel & Hnd & Hids) & Hpid).
  assert (Hkey : ~ key ∈ (po_idempotency_key <$> t.(pt_orders))) by (by apply receipt_key_absent).
  destruct (persist_ok _ _ _ _ _ _ Hok Hper eq_refl Hkey) as (Hoid & Eo & Ef & Es & Ep & _).
  assert (order_row r.(er_order) = r.(er_order)) as Ho by (unfold order_row; simpl; by rewrite timestamptz_utc).
  assert (fill_row r.(er_fill) = r.(er_fill)) as Hf by (unfold fill_row; simpl; by rewrite timestamptz_utc).
  rewrite Ho in Eo. rewrite Hf in Ef. simpl in Ep. unfold stored in Hst. rewrite Hst in Ep.
  pose proof (receipts_added t t' r.(er_order) r.(er_fill) pos Hok eq_refl Hoid Hkey Eo Ef Es Hrk Hst) as Hrec.
  assert (Hrec' : forall (d0 : dict string ExecutionReceipt) k x, <[key := r]> d0 !! k = Some x ->
      (forall k x, d0 !! k = Some x -> load_receipt k t = Some x) -> load_receipt k t' = Some x).
  { intros d0 k x Hx Hd0. rewrite Hrec. rewrite dict_lookup_insert in Hx. simpl. case_decide as Hk.
    - subst k. rewrite py_refl_leibniz. by injection Hx as <-.
    - rewrite (proj2 (py_eq_false key k)) by done. by apply Hd0. }
  assert (Hpos : forall k, load_open_position k t' = if bool_decide (intent_key d.(rd_intent) = k) then (if is_open pos then Some pos else None)
      else load_open_position k t).
  { intros k. unfold load_open_position. rewrite Ep, Hfind, Hrk. done. }
  assert (Hopen : forall (d0 : dict position_key PaperPosition) k, open_in (<[intent_key d.(rd_intent) := pos]> d0) k =
      if bool_decide (intent_key d.(rd_intent) = k) then (if is_open pos then Some pos else None) else open_in d0 k).
  { intros d0 k. unfold open_in. rewrite dict_lookup_insert. case_decide; case_bool_decide; done. }
  split; [split; simpl|].
  - split; rewrite ?Eo, ?Ef, ?Es, ?Ep; [by apply NoDup_snoc_key; [apply Hok|]|by apply NoDup_snoc_key; [apply Hok|]| | |done| |].
    + rewrite !fmap_app, (lk_fills _ Hok). done.
    + rewrite !fmap_app, (lk_snapshots _ Hok). done.
    + apply Forall_forall. intros x [->|[Hx _]]%Hel; [done|]. by eapply Forall_forall in Hx; [|apply Hok].
    + intros x y Hx Hy Hox Hoy Hk.
      assert (Hp : forall z, z ∈ put_position pos t.(pt_positions) -> is_open z = true -> row_key z = row_key pos -> z = pos).
      { intros z [->|[_ Hz]]%Hel Ho' Hk'; [done|]. unfold open_at in Hz. by rewrite Ho', bool_decide_eq_true_2 in Hz. }
      destruct (Hel x Hx) as [->|[Hx' _]]; [symmetry; by apply Hp|]. destruct (Hel y Hy) as [->|[Hy' _]]; [by apply Hp|].
      by apply (lk_open _ Hok).
  - split; simpl.
    + intros k. rewrite Hrec, dict_lookup_insert. simpl. case_decide as Hk.
      * subst. by rewrite py_refl_leibniz.
      * rewrite (proj2 (py_eq_false key k)) by done. apply Hrr.
    + intros k. rewrite Hpos, Hopen. case_bool_decide; [done|]. apply Hrp.
  - split; simpl.
    + intros k x Hx. by eapply Hrec'.
    + intros k x. rewrite Hpos, Hopen. case_bool_decide; [done|]. apply Hcp.
  - rewrite Ep. intros i [->|Hi]%Hids; [destruct Hpid; [by right|by left]|by left].
Qed.

Lemma execute_one_step d key at_ p s r p' : simulates p s -> execute_one policy d key at_ p = (Ok r, p') ->
  (load_receipt key p.(pp_tables) = None -> ~ (opens at_ (d, key)) ∈ (pos_position_id <$> p.(pp_tables).(pt_positions))) ->
  exists s', execute policy d key at_ s = (Ok r, s') /\ simulates p' s' /\
    (forall i, i ∈ pos_position_id <$> p'.(pp_tables).(pt_positions) ->
       i ∈ pos_position_id <$> p.(pp_tables).(pt_positions) \/ load_receipt key p.(pp_tables) = None /\ i = opens at_ (d, key)).
Proof.
  intros [Hok [Hrr Hrp] [Hcr Hcp]] H Hfresh. unfold execute_one in H.
  apply M_bind_ok in H as ([] & p1 & [Hb%raise_if_ok ->]%lift_ok & H). apply M_bind_ok in H as (p1 & p2 & [= <- <-] & H).
  destruct (load_receipt key (pp_tables p)) as [existing|] eqn:Ex.
  { apply M_bind_ok in H as ([] & p1 & [Hd%raise_if_ok ->]%lift_ok & H). apply M_bind_ok in H as ([] & p1 & [= <-] & [= <- <-]).
    exists s. rewrite Hrr in Ex. rewrite (execute_replay _ _ _ _ _ _ Ex Hb), Hd. split; [done|]. split; [|by left].
    split; [done|by split|]. split; [|done]. simpl. intros k r. rewrite dict_lookup_insert. case_decide as Hk; [|apply Hcr].
    intros [= <-]. subst. by rewrite Hrr. }
  specialize (Hfresh eq_refl).
  apply M_bind_ok in H as ([] & p1 & [Ha%raise_if_ok%negb_false_iff ->]%lift_ok & H). cbv zeta in H.
  set (ik := intent_key d.(rd_intent)) in *. set (current := load_open_position ik (pp_tables p)) in *.
  apply M_bind_ok in H as ([] & p1 & H1 & H). apply M_bind_ok in H as (r1 & p2 & H2 & H). apply M_bind_ok in H as ([] & p3 & H3 & [= <- <-]).
  assert (Hp1 : p1.(pp_tables) = p.(pp_tables) /\ p1.(pp_cache).(eng_receipts) = p.(pp_cache).(eng_receipts) /\
      open_in p1.(pp_cache).(eng_positions) ik = current /\
      forall k, k <> ik -> p1.(pp_cache).(eng_positions) !! k = p.(pp_cache).(eng_positions) !! k).
  { destruct current as [cur|] eqn:Ec.
    - injection H1 as <-. simpl. split_and!; [done|done| |by intros k Hk; apply dict_lookup_insert_ne].
      unfold open_in. rewrite dict_lookup_insert_eq. simpl. by apply load_open_elem in Ec as (_ & -> & _).
    - injection H1 as <-. split_and!; try done. destruct (open_in _ ik) as [q|] eqn:Eo; [|done].
      apply Hcp in Eo. unfold current in Ec. by rewrite Ec in Eo. }
  destruct Hp1 as (Ht1 & Hr1 & Ho1 & Hk1).
  unfold in_cache, zoom in H2. destruct (execute policy d key at_ p1.(pp_cache)) as [[r2|] c2] eqn:Ee; [|done]. injection H2 as <- <-.
  destruct (execute_fresh _ _ _ _ _ _ _ Ee) as [(_ & Hc & _)|[_ Hu _ Hw Happ Hr Hc2]].
  { rewrite Hr1 in Hc. apply Hcr in Hc. by rewrite Ex in Hc. }
  fold ik in Happ. rewrite apply_seen, Ho1 in Happ. exists (committed policy d key (at_utc (instant at_)) r2.(er_position) s). split.
  { rewrite Hr at 1. apply execute_applies; [done|by rewrite <- Hrr|done|done|]. fold ik. by rewrite apply_seen, <- Hrp. }
  unfold in_tables, zoom in H3. simpl in H3. rewrite Ht1 in H3. destruct (persist_receipt _ _ _ _ _) as [[[]|] t'] eqn:Eper; [|done].
  injection H3 as <-. rewrite Hr in Eper. simpl. rewrite Hc2.
  assert (Hsim : simulates {| pp_tables := p.(pp_tables); pp_cache := p1.(pp_cache) |} s).
  { split; [done|done|]. split; simpl; [by rewrite Hr1|]. intros k q Hq. destruct (decide (k = ik)) as [->|Hne].
    - fold current. by rewrite <- Hq.
    - apply Hcp. unfold open_in in *. by rewrite <- Hk1. }
  destruct (fill_persisted _ _ _ _ _ _ _ _ Hsim Ex Happ Hfresh Eper) as [Hs Hi]. split; [done|].
  intros i [Hi'|Hi']%Hi; [by left|by right].
Qed.


(** *** Batches *)

(** The positions that orders would open have identities of their own. *)
Definition fresh_ids (t : PaperTables) (at_ : datetime) (l : list (RiskDecision * string)) : Prop :=
  NoDup (opens at_ <$> l) /\
  Forall (fun dk => load_receipt dk.2 t = None -> ~ (opens at_ dk) ∈ (pos_position_id <$> t.(pt_positions))) l.

Lemma execute_extends d key t s r s' : execute policy d key t s = (Ok r, s') -> dict_extends s.(eng_receipts) s'.(eng_receipts).
Proof.
  intros H. pose proof (execute_fills policy (fun _ => True) d key t s I) as Hf. rewrite H in Hf. by eapply fills_receipts.
Qed.

Lemma map_each_step ds b at_ p s rs p' : simulates p s ->
  map_each ds (fun d => execute_one policy d (batch_key b d) at_) p = (Ok rs, p') ->
  fresh_ids p.(pp_tables) at_ ((fun d => (d, batch_key b d)) <$> ds) ->
  exists s', map_each ds (fun d => execute policy d (batch_key b d) at_) s = (Ok rs, s') /\ simulates p' s'.
Proof.
  revert p s rs. induction ds as [|d ds IH]; intros p s rs Hs H [Hn Hf]; simpl in *.
  { injection H as <- <-. by exists s. }
  apply M_bind_ok in H as (r & p1 & H1 & H). apply M_bind_ok in H as (rs' & p2 & H2 & [= <- <-]).
  apply NoDup_cons in Hn as [Hnew Hn]. apply Forall_cons in Hf as [Hf1 Hf].
  destruct (execute_one_step _ _ _ _ _ _ _ Hs H1 Hf1) as (s1 & He & Hs1 & Hids).
  destruct (IH p1 s1 rs' Hs1 H2) as (s2 & Hm & Hs2).
  { split; [done|]. apply Forall_forall. intros dk Hdk Hnone Hin. rewrite Forall_forall in Hf. apply Hids in Hin as [Hin|[_ Heq]].
    - revert Hin. apply Hf; [done|]. destruct (load_receipt dk.2 p.(pp_tables)) as [x|] eqn:Ex; [|done].
      rewrite (rp_receipts _ _ (si_represents _ _ Hs)) in Ex. apply (execute_extends _ _ _ _ _ _ He) in Ex.
      by rewrite (rp_receipts _ _ (si_represents _ _ Hs1)), Ex in Hnone.
    - apply Hnew. rewrite <- Heq. by apply list_elem_of_fmap_2. }
  exists s2. split; [|done]. apply M_bind_ok. exists r, s1. split; [done|]. apply M_bind_ok. by exists rs', s2.
Qed.

(** A batch of fills that all apply passes the checks of the in-memory engine. *)
Lemma execute_batch_applies ds b t s rs s' : str_blank b = false -> existsb (fun d => negb (approved d)) ds = false ->
  negb (length (batch_key b <$> ds) =? length (fromkeys (batch_key b <$> ds)))%nat = false ->
  map_each ds (fun d => execute policy d (batch_key b d) t) s = (Ok rs, s') -> execute_batch policy ds b t s = (Ok rs, s').
Proof.
  intros Hb Ha Hd Hm. unfold execute_batch, mbind, M_bind, get_state, lift, restoring. rewrite Hb, Ha, Hd. simpl. rewrite Hm.
  assert (existsb (fun d => match s.(eng_receipts) !! batch_key b d with
      | Some cached => cached.(er_order).(po_decision_id) !=p d.(rd_decision_id) | None => false end) ds = false) as ->; [|done].
  apply existsb_false_Forall. apply Forall_forall. intros d Hin. destruct (s.(eng_receipts) !! batch_key b d) as [cached|] eqn:Ec; [|done].
  pose proof (map_each_receipts _ _ _ _ _ _ _ Hm) as Hr. apply list_elem_of_lookup in Hin as [i Hi].
  destruct (Forall2_lookup_l _ _ _ _ _ Hr Hi) as (r & _ & Hrs & Hrd).
  pose proof (map_each_fills policy (fun _ => True) ds b t s) as Hfl. rewrite Hm in Hfl.
  assert (Hall : Forall (fun _ : RiskDecision => True) ds) by (by apply Forall_true).
  pose proof (fills_receipts _ _ _ _ (Hfl Hall) _ _ Ec) as Hc. simpl in Hc. rewrite Hc in Hrs. injection Hrs as ->. by apply py_ne_false.
Qed.

(** *** The engine *)

Definition durable_run (fault : option exn) (op : EngineOp) : M PaperProcess (list ExecutionReceipt) :=
  match op with
  | OpExecute d key t => r ← durable_execute policy fault d key t; mret [r]
  | OpExecuteBatch ds b t => durable_execute_batch policy fault ds b t
  end.
Definition memory_run (op : EngineOp) : M EngineState (list ExecutionReceipt) :=
  match op with
  | OpExecute d key t => r ← execute policy d key t; mret [r]
  | OpExecuteBatch ds b t => execute_batch policy ds b t
  end.
Definition fresh_op (t : PaperTables) (op : EngineOp) : Prop :=
  match op with
  | OpExecute d key at_ => fresh_ids t at_ [(d, key)]
  | OpExecuteBatch ds b at_ => fresh_ids t at_ ((fun d => (d, batch_key b d)) <$> ds)
  end.

Lemma paper_transaction_ok {A} fault (m : M PaperProcess A) p a p' : paper_transaction fault m p = (Ok a, p') -> fault = None /\ m p = (Ok a, p').
Proof. unfold paper_transaction, restoring. destruct fault; [done|]. destruct (m p) as [[b|e] p1]; [by intros [= <- <-]|done]. Qed.
Lemma paper_transaction_err {A} fault (m : M PaperProcess A) p e p' : paper_transaction fault m p = (Err e, p') -> p' = p.
Proof. unfold paper_transaction, restoring. destruct fault; [by intros [= _ <-]|]. destruct (m p) as [[b|e'] p1]; [done|by intros [= _ <-]]. Qed.

Lemma durable_raises fault op p e p' : durable_run fault op p = (Err e, p') -> p' = p.
Proof.
  destruct op as [d key t|ds b t]; simpl.
  - intros [H|(r & p1 & _ & [=])]%M_bind_err. by eapply paper_transaction_err.
  - unfold durable_execute_batch. intros [[_ ->]%lift_err|([] & p1 & [_ ->]%lift_ok & H)]%M_bind_err; [done|].
    apply M_bind_err in H as [[_ ->]%lift_err|([] & p1 & [_ ->]%lift_ok & H)]; [done|]. cbv zeta in H.
    apply M_bind_err in H as [[_ ->]%lift_err|([] & p1 & [_ ->]%lift_ok & H)]; [done|]. by eapply paper_transaction_err.
Qed.

Lemma durable_step fault op p s rs p' : simulates p s -> fresh_op p.(pp_tables) op -> durable_run fault op p = (Ok rs, p') ->
  exists s', memory_run op s = (Ok rs, s') /\ simulates p' s'.
Proof.
  intros Hs Hf H. destruct op as [d key t|ds b t]; simpl in *.
  - apply M_bind_ok in H as (r & p1 & [_ H]%paper_transaction_ok & [= <- <-]). destruct Hf as [_ Hf]. apply Forall_cons in Hf as [Hf _].
    destruct (execute_one_step _ _ _ _ _ _ _ Hs H Hf) as (s' & He & Hs' & _). exists s'. split; [|done].
    apply M_bind_ok. by exists r, s'.
  - unfold durable_execute_batch in H. apply M_bind_ok in H as ([] & p1 & [Hb%raise_if_ok ->]%lift_ok & H).
    apply M_bind_ok in H as ([] & p1 & [Ha%raise_if_ok ->]%lift_ok & H). cbv zeta in H.
    apply M_bind_ok in H as ([] & p1 & [Hd%raise_if_ok ->]%lift_ok & H). apply paper_transaction_ok in H as [_ H].
    destruct (map_each_step _ _ _ _ _ _ _ Hs H Hf) as (s' & Hm & Hs'). exists s'. split; [|done]. by apply execute_batch_applies.
Qed.

Lemma simulates_restarted p s : simulates p s -> simulates (restarted p) s.
Proof. intros [H1 H2 _]. split; [done|done|]. split; simpl; intros k x; [by rewrite dict_lookup_empty|]. unfold open_in. by rewrite dict_lookup_empty. Qed.


(** Runs of one process at a time, restarted at any moment. *)
Inductive durable_steps (p : PaperProcess) : PaperProcess -> Prop :=
| durable_refl : durable_steps p p
| durable_call p1 fault op : durable_steps p p1 -> fresh_op p1.(pp_tables) op -> durable_steps p (durable_run fault op p1).2
| durable_restart p1 : durable_steps p p1 -> durable_steps p (restarted p1).

Lemma memory_extends op s rs s' : memory_run op s = (Ok rs, s') -> dict_extends s.(eng_receipts) s'.(eng_receipts).
Proof.
  destruct op as [d key t|ds b t]; simpl.
  - intros (r & s1 & H & [= _ <-])%M_bind_ok. by eapply execute_extends.
  - intros H. destruct (execute_batch_cases policy ds b t s) as [(e & He)|(rs' & s1 & He & _ & _ & _ & Hm)]; rewrite He in H; [done|].
    injection H as <- <-. pose proof (map_each_fills policy (fun _ => True) ds b t s) as Hf. rewrite Hm in Hf.
    eapply fills_receipts, Hf. by apply Forall_true.
Qed.

Lemma steps_simulate p p' s : durable_steps p p' -> simulates p s ->
  exists s', simulates p' s' /\ dict_extends s.(eng_receipts) s'.(eng_receipts).
Proof.
  induction 1 as [|p1 fault op _ IH Hf|p1 _ IH]; intros Hs.
  - by exists s.
  - destruct (IH Hs) as (s1 & Hs1 & Hx). destruct (durable_run fault op p1) as [[rs|e] p2] eqn:E; simpl.
    + destruct (durable_step _ _ _ _ _ _ Hs1 Hf E) as (s2 & Hm & Hs2). exists s2. split; [done|].
      etransitivity; [exact Hx|]. by eapply memory_extends.
    + apply durable_raises in E as ->. by exists s1.
  - destruct (IH Hs) as (s1 & Hs1 & Hx). exists s1. split; [|done]. by apply simulates_restarted.
Qed.

(** C7. A receipt is for good: whatever is executed afterwards, and in whatever
    process, the same order under the same key is answered with the receipt
    of the first time, the position included as it was then, and changes
    neither the tables nor the positions. *)
Theorem receipts_replayed fault d key t p s r p1 p2 t' :
  simulates p s -> fresh_op p.(pp_tables) (OpExecute d key t) ->
  durable_execute policy fault d key t p = (Ok r, p1) -> durable_steps p1 p2 ->
  exists p3, durable_execute policy None d key t' p2 = (Ok r, p3) /\ p3.(pp_tables) = p2.(pp_tables) /\
    p3.(pp_cache).(eng_positions) = p2.(pp_cache).(eng_positions).
Proof.
  intros Hs [_ Hf] He Hsteps. apply paper_transaction_ok in He as [_ He]. apply Forall_cons in Hf as [Hf _].
  destruct (execute_one_step _ _ _ _ _ _ _ Hs He Hf) as (s1 & Hm & Hs1 & _).
  assert (Hr : s1.(eng_receipts) !! key = Some r /\ r.(er_order).(po_decision_id) = d.(rd_decision_id) /\ str_blank key = false).
  { assert (Hb : str_blank key = false) by (unfold execute in Hm; by apply M_bind_ok in Hm as (? & ? & [?%raise_if_ok _]%lift_ok & _)).
    destruct (execute_fresh _ _ _ _ _ _ _ Hm) as [(-> & Hr & Hd)|Hfr]; [done|]. apply fresh_fill_receipt in Hfr as [? ?]. done. }
  destruct Hr as (Hr & Hd & Hb). destruct (steps_simulate _ _ _ Hsteps Hs1) as (s2 & [_ [Hrr _] _] & Hx). apply Hx in Hr.
  exists {| pp_tables := p2.(pp_tables); pp_cache := {| eng_receipts := <[key := r]> p2.(pp_cache).(eng_receipts); eng_positions := p2.(pp_cache).(eng_positions) |} |}.
  split; [|done]. unfold durable_execute, paper_transaction, restoring, execute_one, mbind, M_bind, lift, get_state. rewrite Hb. simpl.
  rewrite Hrr, Hr. rewrite (proj2 (py_ne_false _ _) Hd). done.
Qed.

(** *** What the in-memory engine refuses *)

(** An error of the in-memory engine is the error of the durable one. *)
Lemma durable_refuses d key t p s e s' : simulates p s -> execute policy d key t s = (Err e, s') ->
  durable_execute policy None d key t p = (Err e, p).
Proof.
  intros Hsim H. pose proof Hsim as [Hok [Hrr Hrp] [Hcr Hcp]]. unfold durable_execute, paper_transaction, restoring.
  assert (Hone : (execute_one policy d key t p).1 = Err e).
  { unfold execute in H. unfold execute_one. unfold mbind, M_bind, lift, get_state in *.
    destruct (str_blank key) eqn:Hb; simpl in *; [by injection H as <-|]. rewrite Hrr.
    destruct (s.(eng_receipts) !! key) as [c|] eqn:Ek; simpl in *.
    { destruct (_ !=p _); simpl in *; [by injection H as <-|done]. }
    destruct (approved d) eqn:Ea; simpl in *; [|by injection H as <-].
    set (ik := intent_key d.(rd_intent)) in *. set (current := load_open_position ik p.(pp_tables)).
    destruct (current_cached d key p s Hsim) as (c1 & Hp1 & Hr1 & Ho1). fold ik current in Hp1, Ho1. rewrite Hp1. unfold in_cache, zoom. simpl.
    assert (Hc : (execute policy d key t c1).1 = Err e).
    { unfold execute, mbind, M_bind, lift, get_state. rewrite Hb. simpl. rewrite Hr1.
      destruct (p.(pp_cache).(eng_receipts) !! key) as [x|] eqn:Ex; [apply Hcr in Ex; by rewrite Hrr, Ek in Ex|]. rewrite Ea. simpl.
      destruct (utc t "executed_at"); simpl in *; [|by injection H as <-]. fold ik. rewrite apply_seen, Ho1. rewrite apply_seen, <- Hrp in H.
      fold current in H. destruct (apply_fill _ _ _); simpl in *; [done|by injection H as <-]. }
    destruct (execute policy d key t c1) as [[x|x] c]; simpl in *; [done|]. by injection Hc as ->. }
  destruct (execute_one policy d key t p) as [[x|x] p1]; simpl in Hone; [done|]. by injection Hone as ->.
Qed.
End Refinement.

(** ** The durable engine returns *)

(** The rows of a fill satisfy the constraints of the tables. *)
Record storable (t : PaperTables) (d : RiskDecision) (key : string) (r : ExecutionReceipt) : Prop := {
  sb_decision : tradable d.(rd_intent).(ti_action) && pg_positive d.(rd_intent).(ti_quantity) && pg_positive d.(rd_intent).(ti_reference_price) = true;
  sb_approval : references (fun r => r) t.(pt_approvals) d.(rd_intent).(ti_approval_id) = Ok ();
  sb_evidence : references_opt t.(pt_evidence) d.(rd_intent).(ti_agent_evidence_id) = Ok ();
  sb_order : ~ r.(er_order).(po_order_id) ∈ (po_order_id <$> t.(pt_orders));
  sb_fill_id : ~ r.(er_fill).(pf_fill_id) ∈ (pf_fill_id <$> t.(pt_fills));
  sb_fill : pg_positive r.(er_fill).(pf_price) && pg_nonneg r.(er_fill).(pf_fee) = true;
  sb_position : pg_nonneg r.(er_position).(pos_average_entry_price) && pg_nonneg r.(er_position).(pos_total_fees) = true;
  sb_event : ~ (stable_id ["paper-realization"; r.(er_fill).(pf_fill_id)]) ∈ (rz_event_id <$> t.(pt_realizations));
  sb_exit : bool_decide (r.(er_position).(pos_state) = CLOSED) && managed_exit key r.(er_position).(pos_position_id) = false }.

Lemma check_ok c : c = true -> check c = Ok ().
Proof. by intros ->. Qed.
Lemma references_elem {A} (key : A -> string) (rows : list A) x : x ∈ rows -> references key rows (key x) = Ok ().
Proof.
  intros Hx. unfold references. apply raise_if_ok, negb_false_iff, existsb_true_elem. exists x. split; [done|apply py_refl_leibniz].
Qed.

Lemma save_decision_runs d key r t : storable t d key r -> exists rows, save_decision d t = (Ok (), set_decisions rows t) /\
  exists row, row ∈ rows /\ row.(dr_decision_id) = d.(rd_decision_id).
Proof.
  intros Hs. unfold save_decision, mbind, M_bind, get_state, lift. simpl. rewrite (check_ok _ (sb_decision _ _ _ _ Hs)).
  destruct (has_key _ _ _) eqn:E.
  - exists t.(pt_decisions). split; [by destruct t|]. unfold has_key in E. apply existsb_true_elem in E as (x & Hx & Hk). exists x. split; [done|].
    by apply (proj1 (py_eq_true _ _)) in Hk.
  - simpl. rewrite (sb_approval _ _ _ _ Hs), (sb_evidence _ _ _ _ Hs). eexists. split; [done|]. exists (decision_row d). split; [|done].
    apply elem_of_app. right. by left.
Qed.

Lemma save_order_runs o t : check (tradable o.(po_action) && pg_positive o.(po_quantity)) = Ok () ->
  ~ o.(po_idempotency_key) ∈ (po_idempotency_key <$> t.(pt_orders)) -> ~ o.(po_order_id) ∈ (po_order_id <$> t.(pt_orders)) ->
  references dr_decision_id t.(pt_decisions) o.(po_decision_id) = Ok () ->
  save_order o t = (Ok (), set_orders (t.(pt_orders) ++ [order_row o]) t).
Proof.
  intros Hc Hk Hi Hd. apply has_key_false in Hk. apply unique_fresh in Hi. unfold save_order, mbind, M_bind, get_state, lift. simpl.
  by rewrite Hc, Hk, Hi, Hd.
Qed.
Lemma save_fill_runs f t : check (pg_positive f.(pf_quantity) && pg_positive f.(pf_price) && pg_nonneg f.(pf_fee)) = Ok () ->
  ~ f.(pf_order_id) ∈ (pf_order_id <$> t.(pt_fills)) -> ~ f.(pf_fill_id) ∈ (pf_fill_id <$> t.(pt_fills)) ->
  references po_order_id t.(pt_orders) f.(pf_order_id) = Ok () -> save_fill f t = (Ok (), set_fills (t.(pt_fills) ++ [fill_row f]) t).
Proof.
  intros Hc Hk Hi Hd. apply has_key_false in Hk. apply unique_fresh in Hi. unfold save_fill, mbind, M_bind, get_state, lift. simpl.
  by rewrite Hc, Hk, Hi, Hd.
Qed.
Lemma save_snapshot_runs i p t : check (pg_nonneg p.(pos_average_entry_price) && pg_nonneg p.(pos_total_fees)) = Ok () ->
  ~ i ∈ (sr_order_id <$> t.(pt_snapshots)) -> references po_order_id t.(pt_orders) i = Ok () ->
  save_order_position_snapshot i p t = (Ok (), set_snapshots (t.(pt_snapshots) ++ [snapshot_row i p]) t).
Proof.
  intros Hc Hk Hd. apply has_key_false in Hk. unfold save_order_position_snapshot, mbind, M_bind, get_state, lift. simpl. by rewrite Hc, Hk, Hd.
Qed.
Lemma save_realization_runs f p x t : check (pg_nonneg f.(pf_fee)) = Ok () ->
  ~ (stable_id ["paper-realization"; f.(pf_fill_id)]) ∈ (rz_event_id <$> t.(pt_realizations)) ->
  references pf_fill_id t.(pt_fills) f.(pf_fill_id) = Ok () -> references pos_position_id t.(pt_positions) p.(pos_position_id) = Ok () ->
  exists rows, save_realization f p x t = (Ok (), set_realizations rows t).
Proof.
  intros Hc Hi Hf Hp. apply unique_fresh in Hi. unfold save_realization, mbind, M_bind, get_state, lift. simpl. rewrite Hc.
  destruct (has_key _ _ _); [exists t.(pt_realizations); by destruct t|]. rewrite Hi, Hf, Hp. by eexists.
Qed.

Lemma open_index_ok rows p : (forall q, q ∈ rows -> open_at (row_key p) q = true -> q.(pos_position_id) = p.(pos_position_id)) ->
  open_index rows p = Ok ().
Proof.
  intros H. unfold open_index. apply raise_if_ok, andb_false_iff. right. apply existsb_false_Forall, Forall_forall. intros q Hq.
  destruct (open_at _ q) eqn:E; [|done]. simpl. apply py_ne_false. by apply H.
Qed.

(** A position that is the only open one of its key, or new, can be saved. *)
Lemma save_position_runs t t0 p : ledger_ok t0 -> t.(pt_positions) = t0.(pt_positions) -> stored p ->
  check (pg_nonneg p.(pos_average_entry_price) && pg_nonneg p.(pos_total_fees)) = Ok () ->
  match load_open_position (row_key p) t0 with
  | Some cur => same_position p cur
  | None => ~ p.(pos_position_id) ∈ (pos_position_id <$> t0.(pt_positions))
  end ->
  exists rows, save_position p t = (Ok (), set_positions rows t) /\ references pos_position_id rows p.(pos_position_id) = Ok ().
Proof.
  intros Hok Hrows Hst Hc Hcur. unfold stored in Hst. unfold save_position, mbind, M_bind, get_state, lift. rewrite Hst, Hrows, Hc.
  set (same := fun q => q.(pos_position_id) ==p p.(pos_position_id)).
  assert (Hidx : forall q, row_key q = row_key p -> q.(pos_position_id) = p.(pos_position_id) -> open_index t0.(pt_positions) q = Ok ()).
  { intros q Hqk Hqi. apply open_index_ok. rewrite Hqk, Hqi. intros x Hx Hox. destruct (load_open_position _ _) as [cur|] eqn:Ec.
    - destruct (load_open_elem _ _ _ Ec) as (Hin & Ho & Hk). destruct Hcur as (Hid & _ & _). rewrite Hid. f_equal.
      apply andb_prop in Hox as [Hxk Hxo]. apply bool_decide_eq_true in Hxk. apply (lk_open _ Hok); congruence.
    - exfalso. apply list_elem_of_In in Hx. by rewrite (find_none _ _ Ec _ Hx) in Hox. }
  destruct (List.find same t0.(pt_positions)) as [old|] eqn:Eo.
  - apply find_elem in Eo as [Hold Hid]. apply (proj1 (py_eq_true _ _)) in Hid. destruct (load_open_position _ _) as [cur|] eqn:Ec.
    2: { exfalso. apply Hcur. rewrite <- Hid. by apply list_elem_of_fmap_2. }
    destruct (load_open_elem _ _ _ Ec) as (Hin & Ho & Hk). destruct Hcur as (Hcid & Hck & _).
    assert (old = cur) as -> by (eapply (NoDup_key_inj pos_position_id); [apply Hok|done..|congruence]).
    rewrite (Hidx (updated_position p cur)); [|exact (eq_sym Hck)|done]. eexists. split; [done|].
    rewrite Hcid. apply (references_elem pos_position_id _ (updated_position p cur)), update_where_elem. exists cur. split; [done|].
    unfold same. by rewrite Hcid, py_refl_leibniz.
  - rewrite (Hidx p eq_refl eq_refl). eexists. split; [done|]. apply references_elem, elem_of_app. right. by left.
Qed.

Lemma persist_runs policy d key at_ pos t :
  let r := receipt_of policy d key (at_utc (instant at_)) pos in
  let current := load_open_position (intent_key d.(rd_intent)) t in
  ledger_ok t -> load_receipt key t = None ->
  apply_fill current d (make_fill policy d key (at_utc (instant at_))) = Ok pos ->
  ~ (opens policy at_ (d, key)) ∈ (pos_position_id <$> t.(pt_positions)) -> storable t d key r ->
  exists t', persist_receipt d key current r t = (Ok (), t').
Proof.
  intros r current Hok Hnone Happ Hfresh Hs. pose proof (receipt_key_absent _ _ Hok Hnone) as Hkey.
  destruct (applied_position _ _ _ _ _ _ Hok Happ Hfresh) as (Hst & Hrk & Hcur).
  destruct (save_decision_runs _ _ _ _ Hs) as (ds & Hd & drow & Hdin & Hdid). destruct Hs as [Hc _ _ Hoid Hfid Hcf Hcp Hev Hex].
  apply andb_prop in Hc as [Hc1 _]. apply andb_prop in Hc1 as [Hc1 Hc2]. apply andb_prop in Hcf as [Hcpr Hcfee].
  change r.(er_position) with pos in *. unfold persist_receipt. cbv zeta. rewrite (M_bind_run _ _ _ _ _ Hd).
  erewrite M_bind_run; [|apply save_order_runs; [apply check_ok; exact (proj2 (andb_true_iff _ _) (conj Hc1 Hc2))|exact Hkey|exact Hoid|
    change (er_order r).(po_decision_id) with d.(rd_decision_id); rewrite <- Hdid; by apply references_elem]].
  erewrite M_bind_run; [|apply save_fill_runs; [apply check_ok; change r.(er_fill).(pf_quantity) with d.(rd_intent).(ti_quantity);
      by rewrite Hc2, Hcpr, Hcfee|simpl; rewrite (lk_fills _ Hok); exact Hoid|exact Hfid|
    apply (references_elem po_order_id _ (order_row r.(er_order))), elem_of_app; right; by left]].
  match goal with |- context [set_fills ?rows ?t2] => set (t3 := set_fills rows t2) end.
  destruct (save_position_runs t3 t pos Hok eq_refl Hst (check_ok _ Hcp)) as (rows & Hpos & Hpref); [by rewrite Hrk|].
  rewrite (M_bind_run _ _ _ _ _ Hpos).
  erewrite M_bind_run; [|apply save_snapshot_runs; [by apply check_ok|simpl; rewrite (lk_snapshots _ Hok); exact Hoid|
    apply (references_elem po_order_id _ (order_row r.(er_order))), elem_of_app; right; by left]].
  match goal with |- context [set_snapshots ?rows ?t4] => set (t5 := set_snapshots rows t4) end.
  destruct (save_realization_runs r.(er_fill) pos (match current with Some p => p.(pos_realized_pnl) | None => 0%float end) t5 (check_ok _ Hcfee) Hev)
    as (zrows & Hz); [apply (references_elem pf_fill_id _ (fill_row r.(er_fill))), elem_of_app; right; by left|exact Hpref|].
  rewrite (M_bind_run _ _ _ _ _ Hz). change r.(er_position) with pos. rewrite Hex. by eexists.
Qed.

(** When the in-memory engine fills an order and its rows satisfy the
    constraints of the tables, the durable engine returns that receipt. *)
Theorem durable_progress policy d key t p s r s' :
  simulates p s -> load_receipt key p.(pp_tables) = None -> execute policy d key t s = (Ok r, s') ->
  fresh_op policy p.(pp_tables) (OpExecute d key t) -> storable p.(pp_tables) d key r ->
  exists p', durable_execute policy None d key t p = (Ok r, p').
Proof.
  intros [Hok [Hrr Hrp] [Hcr Hcp]] Hnone He [_ Hf] Hs. apply Forall_cons in Hf as [Hf _].
  destruct (execute_fresh _ _ _ _ _ _ _ He) as [(_ & Hc & _)|[Hb Hu Ha Hw Happ Hr _]]; [by rewrite <- Hrr, Hnone in Hc|].
  rewrite apply_seen, <- Hrp in Happ. set (ik := intent_key d.(rd_intent)) in *. set (current := load_open_position ik p.(pp_tables)) in *.
  rewrite Hr in Hs. destruct (persist_runs policy d key t r.(er_position) p.(pp_tables) Hok Hnone Happ (Hf Hnone) Hs) as (t' & Hper).
  unfold durable_execute, paper_transaction, restoring, execute_one. erewrite M_bind_run; [|unfold lift; by rewrite Hb].
  erewrite M_bind_run; [|done]. cbv zeta. rewrite Hnone. erewrite M_bind_run; [|unfold lift; by rewrite Ha]. fold ik. fold current.
  destruct (current_cached d key p s) as (c1 & Hp1 & Hr1 & Ho1); [by split|]. fold ik current in Hp1, Ho1. rewrite (M_bind_run _ _ _ _ _ Hp1).
  erewrite M_bind_run.
  2: { unfold in_cache, zoom. simpl. rewrite (execute_applies policy d key t c1 r.(er_position)); [done|done| |done|done|].
    - destruct (c1.(eng_receipts) !! key) as [x|] eqn:Ex; [|done]. rewrite Hr1 in Ex. apply Hcr in Ex. by rewrite Hnone in Ex.
    - fold ik. rewrite apply_seen, Ho1. exact Happ. }
  rewrite <- Hr in Hper |- *. erewrite M_bind_run; [|unfold in_tables, zoom; simpl; fold ik current in Hper; by rewrite Hper]. by eexists.
Qed.

(** ** Exits and their outcomes *)

Definition keeps_rows (t t' : PaperTables) : Prop := t'.(pt_plans) = t.(pt_plans) /\ t'.(pt_positions) = t.(pt_positions).
#[export] Instance keeps_rows_preorder : PreOrder keeps_rows.
Proof. split; [by intros t|]. intros ??? [A1 A2] [B1 B2]. split; congruence. Qed.

Lemma insert_outcome_ok row t t' : insert_outcome row t = (Ok (), t') ->
  row.(ow_position_id) ∈ ow_position_id <$> t'.(pt_outcomes) /\
  (forall i, i ∈ ow_position_id <$> t.(pt_outcomes) -> i ∈ ow_position_id <$> t'.(pt_outcomes)) /\ keeps_rows t t'.
Proof.
  unfold insert_outcome. intros H. apply M_bind_ok in H as (t0 & s & [= <- <-] & H). apply M_bind_ok in H as ([] & s1 & [_ ->]%lift_ok & H).
  destruct (has_key _ _ _) eqn:E.
  - injection H as <-. split; [|done]. unfold has_key in E. apply existsb_true_elem in E as (r & Hr & Hk).
    apply (proj1 (py_eq_true _ _)) in Hk. rewrite <- Hk. by apply list_elem_of_fmap_2.
  - apply M_bind_ok in H as ([] & s2 & [_ ->]%lift_ok & H). apply M_bind_ok in H as ([] & s3 & [_ ->]%lift_ok & H).
    apply M_bind_ok in H as ([] & s4 & [_ ->]%lift_ok & [= <-]). simpl. rewrite fmap_app. split_and!; [|by intros i Hi; apply elem_of_app; left|done].
    apply elem_of_app. right. by left.
Qed.

Lemma outcomes_inserted rows t t' : for_each rows insert_outcome t = (Ok (), t') ->
  Forall (fun r => r.(ow_position_id) ∈ ow_position_id <$> t'.(pt_outcomes)) rows /\ keeps_rows t t' /\
  (forall i, i ∈ ow_position_id <$> t.(pt_outcomes) -> i ∈ ow_position_id <$> t'.(pt_outcomes)).
Proof.
  revert t. induction rows as [|r rows IH]; intros t H; simpl in H; [by injection H as <-|].
  apply M_bind_ok in H as ([] & t1 & (H1 & H2 & H3)%insert_outcome_ok & H). destruct (IH t1 H) as (F & K & G).
  split_and!; [constructor; [by apply G|done]|by transitivity t1|by intros i Hi; apply G, H2].
Qed.

(** The outcome of a closed position with a plan is in the table. *)
Lemma closed_outcome_saved position t t' p x : save_closed_outcome position t = (Ok (), t') ->
  p ∈ t.(pt_positions) -> p.(pos_position_id) = position.(pos_position_id) -> p.(pos_state) = CLOSED ->
  x ∈ t.(pt_plans) -> x.(ep_position_id) = position.(pos_position_id) ->
  position.(pos_position_id) ∈ ow_position_id <$> t'.(pt_outcomes) /\ keeps_rows t t'.
Proof.
  intros H Hp Hpid Hst Hx Hxid. unfold save_closed_outcome in H. apply M_bind_ok in H as (t0 & s & [= <- <-] & H).
  cbv zeta in H. apply M_bind_ok in H as (rows & s1 & [Hrows ->]%lift_ok & H). apply outcomes_inserted in H as (F & K & _).
  split; [|done].
  set (pairs := _ ≫= _) in Hrows. assert (Hin : (p, x) ∈ pairs).
  { unfold pairs. apply list_elem_of_bind. exists p. split.
    - apply list_elem_of_bind. exists x. split; [by left|]. apply list_elem_of_In, filter_In. split; [by apply list_elem_of_In|].
      apply py_eq_true. congruence.
    - apply list_elem_of_In, filter_In. split; [by apply list_elem_of_In|]. apply andb_true_iff. split; [by apply py_eq_true|by apply bool_decide_eq_true]. }
  apply map_result_ok in Hrows. apply list_elem_of_lookup in Hin as [i Hi].
  destruct (Forall2_lookup_l _ _ _ _ _ Hrows Hi) as (row & Hrow & Hmk). simpl in Hmk. unfold closed_outcome_row in Hmk.
  apply result_bind_ok in Hmk as (net & _ & Hmk). apply result_bind_ok in Hmk as (ret & _ & [= <-]).
  eapply Forall_lookup_1 in F; [|exact Hrow]. simpl in F. by rewrite Hpid in F.
Qed.

Lemma put_position_has row rows : exists q, q ∈ put_position row rows /\ q.(pos_position_id) = row.(pos_position_id) /\ q.(pos_state) = row.(pos_state).
Proof.
  unfold put_position. destruct (List.find _ _) as [old|] eqn:E.
  - apply find_elem in E as [Hold Hid]. exists (updated_position row old). split; [|by apply (proj1 (py_eq_true _ _)) in Hid].
    apply update_where_elem. exists old. by rewrite Hid.
  - exists row. split; [|done]. apply elem_of_app. right. by left.
Qed.

Definition plans_same (t t' : PaperTables) : Prop := t'.(pt_plans) = t.(pt_plans).
#[export] Instance plans_same_preorder : PreOrder plans_same.
Proof. split; [by intros t|]. intros ??? A B. unfold plans_same in *. congruence. Qed.
Ltac plans_kept := preserve; try (intros ?; reflexivity).

(** The end of a managed exit, after the rows of its fill. *)
Lemma persist_closes d key current r t t' :
  persist_receipt d key current r t = (Ok (), t') -> r.(er_position).(pos_state) = CLOSED ->
  managed_exit key r.(er_position).(pos_position_id) = true ->
  exit_reason_of key ∈ ["STOP"; "TARGET"] /\
  exists t6 t7, t6.(pt_plans) = t.(pt_plans) /\
    (exists q, q ∈ t6.(pt_positions) /\ q.(pos_position_id) = r.(er_position).(pos_position_id) /\ q.(pos_state) = CLOSED) /\
    save_closed_outcome r.(er_position) t6 = (Ok (), t7) /\
    close_plan r.(er_position).(pos_position_id) (exit_reason_of key) r.(er_position).(pos_closed_at) t7 = (Ok (), t').
Proof.
  intros H Hst Hex. unfold persist_receipt in H. cbv zeta in H.
  apply M_bind_ok in H as ([] & t1 & H1 & H). apply M_bind_ok in H as ([] & t2 & H2 & H). apply M_bind_ok in H as ([] & t3 & H3 & H).
  apply M_bind_ok in H as ([] & t4 & H4 & H). apply M_bind_ok in H as ([] & t5 & H5 & H). apply M_bind_ok in H as ([] & t6 & H6 & H).
  assert (plans_same t t3) as P3.
  { transitivity t2; [transitivity t1|].
    - eapply preserves_run; [|exact H1]. unfold save_decision. plans_kept.
    - eapply preserves_run; [|exact H2]. unfold save_order. plans_kept.
    - eapply preserves_run; [|exact H3]. unfold save_fill. plans_kept. }
  apply save_position_ok in H4 as [H4 _].
  assert (keeps_rows t4 t6) as [P6 Q6].
  { transitivity t5.
    - eapply preserves_run; [|exact H5]. unfold save_order_position_snapshot. preserve; intros ?; done.
    - eapply preserves_run; [|exact H6]. unfold save_realization. preserve; intros ?; done. }
  rewrite Hst, Hex in H. simpl in H. apply M_bind_ok in H as ([] & t7 & [Hr%raise_if_ok%negb_false_iff ->]%lift_ok & H).
  apply bool_decide_eq_true in Hr. apply M_bind_ok in H as ([] & t8 & H7 & H8).
  split; [done|]. exists t6, t8. subst t4. unfold plans_same in P3. simpl in P6. split_and!; [congruence| |done|done].
  destruct (put_position_has (position_row r.(er_position)) t3.(pt_positions)) as (q & Hq & Hid & Hqs).
  exists q. split; [by rewrite Q6|]. split; [done|]. by rewrite Hqs.
Qed.


(** ** The plans in force *)

(** Reading the plans first retires those whose position has closed; then it
    returns the plans of the account whose position is open, all of them and no
    others. *)
Theorem active_plans_exact market account_id t plans t' :
  durable_active None market account_id t = (Ok plans, t') ->
  Forall (fun x => x.(ep_active) = true -> closed_position_of t' x = None) t'.(pt_plans) /\
  Forall (fun plan => plan.(xp_market) = market /\ plan.(xp_account_id) = account_id /\
    exists p, p ∈ t'.(pt_positions) /\ p.(pos_position_id) = plan.(xp_position_id) /\ is_open p = true) plans /\
  (forall x d p, x ∈ t'.(pt_plans) -> x.(ep_active) = true -> x.(ep_market) = market -> x.(ep_account_id) = account_id ->
     d ∈ t'.(pt_definitions) -> identity_key d = x.(ep_strategy_key) ->
     p ∈ t'.(pt_positions) -> p.(pos_position_id) = x.(ep_position_id) -> is_open p = true ->
     x.(ep_position_id) ∈ xp_position_id <$> plans).
Proof.
  unfold durable_active. intros H. apply M_bind_ok in H as ([] & t1 & H1 & H). injection H1 as <-.
  apply M_bind_ok in H as (t2 & t3 & [= <- <-] & [H ->]%lift_ok). set (t1 := set_plan_rows (retire_plans t) t) in *.
  apply map_result_ok in H.
  assert (Hrows : forall x d, (x, d) ∈ active_rows market account_id t1 <->
      (x ∈ t1.(pt_plans) /\ ((x.(ep_market) ==p market) && (x.(ep_account_id) ==p account_id) && x.(ep_active)) = true) /\
      (d ∈ t1.(pt_definitions) /\ identity_key d = x.(ep_strategy_key)) /\
      exists p, p ∈ t1.(pt_positions) /\ p.(pos_position_id) = x.(ep_position_id) /\ is_open p = true).
  { intros x d. unfold active_rows. rewrite list_elem_of_bind. split.
    - intros (x' & Hb & Hx%list_elem_of_In%filter_In). apply list_elem_of_bind in Hb as (d' & Hb & Hd%list_elem_of_In%filter_In).
      apply list_elem_of_bind in Hb as (p & Hb & Hp%list_elem_of_In%filter_In). apply list_elem_of_singleton in Hb as [= -> ->].
      destruct Hx as [Hx Hxc], Hd as [Hd Hdc], Hp as [Hp Hpc]. apply andb_prop in Hpc as [Hpc Hpo].
      split; [split; [by apply list_elem_of_In|done]|]. split; [split; [by apply list_elem_of_In|by apply (proj1 (py_eq_true _ _)) in Hdc]|].
      exists p. split; [by apply list_elem_of_In|]. by apply (proj1 (py_eq_true _ _)) in Hpc.
    - intros ([Hx Hxc] & [Hd Hdc] & p & Hp & Hpi & Hpo). exists x. split; [|apply list_elem_of_In, filter_In; split; [by apply list_elem_of_In|done]].
      apply list_elem_of_bind. exists d. split; [|apply list_elem_of_In, filter_In; split; [by apply list_elem_of_In|by apply py_eq_true]].
      apply list_elem_of_bind. exists p. split; [by left|]. apply list_elem_of_In, filter_In. split; [by apply list_elem_of_In|].
      rewrite Hpo, andb_true_r. by apply py_eq_true. }
  assert (Hplan : forall x d plan, plan_from_row x d = Ok plan ->
      plan.(xp_market) = x.(ep_market) /\ plan.(xp_account_id) = x.(ep_account_id) /\ plan.(xp_position_id) = x.(ep_position_id)).
  { intros x d plan Hp. unfold plan_from_row in Hp. cbv zeta in Hp. by apply result_bind_ok in Hp as (_ & _ & [= <-]). }
  split; [|split].
  - apply Forall_forall. intros x Hx Ha. simpl in Hx. apply list_elem_of_fmap in Hx as (y & -> & Hy).
    change (closed_position_of t1) with (closed_position_of t). destruct (ep_active y) eqn:Ey; [|by rewrite Ey in Ha].
    destruct (closed_position_of t y) eqn:Ec; [done|exact Ec].
  - apply Forall_forall. intros plan [i Hi]%list_elem_of_lookup. destruct (Forall2_lookup_r _ _ _ _ _ H Hi) as ([x d] & Hxd & Hp).
    apply list_elem_of_lookup_2, py_sorted_elem, Hrows in Hxd as ([_ Hc] & _ & p & Hpp & Hpi & Hpo). apply Hplan in Hp as (-> & -> & ->).
    apply andb_prop in Hc as [Hc _]. apply andb_prop in Hc as [Hm Ha]. apply (proj1 (py_eq_true _ _)) in Hm. apply (proj1 (py_eq_true _ _)) in Ha.
    split_and!; [done|done|]. by exists p.
  - intros x d p Hx Ha Hm Hac Hd Hdk Hp Hpi Hpo.
    assert (Hin : (x, d) ∈ py_sorted plan_before (active_rows market account_id t1)).
    { apply py_sorted_elem, Hrows. split; [split; [done|]; by rewrite Hm, Hac, Ha, !py_refl_leibniz|]. split; [done|]. by exists p. }
    apply list_elem_of_lookup in Hin as [i Hi]. destruct (Forall2_lookup_l _ _ _ _ _ H Hi) as (plan & Hpl & Hr).
    apply Hplan in Hr as (_ & _ & <-). by eapply list_elem_of_fmap_2, list_elem_of_lookup_2.
Qed.

(** ** Concrete runs *)

Module PaperStoreExample.
Import RegistryExample RiskExample ExecutionExample.

Definition migrated : PaperTables := {|
  pt_approvals := [intent.(ti_approval_id)]; pt_evidence := []; pt_definitions := [intent.(ti_identity)]; pt_decisions := []; pt_orders := [];
  pt_fills := []; pt_positions := []; pt_snapshots := []; pt_realizations := []; pt_outcomes := []; pt_plans := [] |}.
Definition started : PaperProcess := {| pp_tables := migrated; pp_cache := empty_engine |}.

Lemma started_simulates : simulates started empty_engine.
Proof.
  split; [|by split|by split]. split; simpl; try constructor. intros p q Hp. by apply elem_of_nil in Hp.
Qed.
Lemma first_order_fresh : fresh_op policy migrated (OpExecute buy "key-1" now).
Proof. split; [apply NoDup_singleton|]. apply Forall_singleton. intros _ Hin. by apply elem_of_nil in Hin. Qed.

(** An order is filled, and filled no second time after a restart. *)
Definition bought_result : result ExecutionReceipt * PaperProcess := Eval vm_compute in durable_execute policy None buy "key-1" now started.

Lemma receipts_replayed_witness :
  match bought_result with
  | (Ok r, p1) => exists p3, durable_execute policy None buy "key-1" now (restarted p1) = (Ok r, p3) /\ p3.(pp_tables) = (restarted p1).(pp_tables)
  | _ => False
  end.
Proof.
  assert (H : durable_execute policy None buy "key-1" now started = bought_result) by (vm_compute; reflexivity).
  destruct bought_result as [[r|e] p1] eqn:E; [|discriminate E].
  destruct (receipts_replayed policy None buy "key-1" now started empty_engine r p1 (restarted p1) now started_simulates first_order_fresh H
    (durable_restart policy p1 p1 (durable_refl policy p1))) as (p3 & H3 & Ht & _).
  exists p3. exact (conj H3 Ht).
Defined.

(** Two processes.  The first buys; the second, started later, sells the
    whole position; the first buys again.  In the first process the position
    is still open, so the fill is added to it: twice the quantity, and the
    closed row is open again.  One engine would have opened a new position. *)
Definition sale_intent : TradeIntent := {|
  ti_intent_id := "intent-2"; ti_market := NSE; ti_account_id := "paper"; ti_symbol := "RELIANCE"; ti_action := SELL;
  ti_quantity := intent.(ti_quantity); ti_reference_price := 2510; ti_event_time := now; ti_candidate_id := "candidate-1";
  ti_approval_id := "approval-1"; ti_identity := identity; ti_gold_snapshot_ids := ["gold-1"]; ti_agent_evidence_id := None |}.
Definition sale : RiskDecision := decision "decision-2" sale_intent.
Definition after_sale : PaperTables := (durable_execute policy None sale "key-2" now (restarted bought_result.2)).2.(pp_tables).
Definition stale_process : PaperProcess := {| pp_tables := after_sale; pp_cache := bought_result.2.(pp_cache) |}.
Definition again : RiskDecision := decision "decision-3" intent.
Definition one_engine : EngineState := engine_run policy (OpExecute sale "key-2" now) (engine_run policy (OpExecute buy "key-1" now) empty_engine).

Example stale_cache_reopens :
  match (durable_execute policy None again "key-3" now stale_process).1, (execute policy again "key-3" now one_engine).1 with
  | Ok r, Ok r' =>
      (pos_state <$> after_sale.(pt_positions)) = [CLOSED] /\
      (pos_position_id <$> after_sale.(pt_positions)) = [r.(er_position).(pos_position_id)] /\
      r.(er_position).(pos_state) = OPEN /\
      (r.(er_position).(pos_signed_quantity) =? intent.(ti_quantity) + intent.(ti_quantity))%float = true /\
      (r'.(er_position).(pos_signed_quantity) =? intent.(ti_quantity))%float = true /\
      String.eqb r'.(er_position).(pos_position_id) r.(er_position).(pos_position_id) = false
  | _, _ => False
  end.
Proof. vm_compute. repeat split. Qed.

End PaperStoreExample.
