(* ===== verification/Controller.v ===== *)
(** * Runtime controller (src/nanodelta/operations/controller.py)

    The market-scoped worker state machine: authorised, idempotent commands
    with an immutable audit record for each.  The workers are objects outside
    the controller, given by their [start], [stop] and [drain] as computations
    over a world [X]. *)

From Stdlib Require Import ZArith.
From stdpp Require Import prelude strings numbers list.
From S2P Require Import Prelude PyData PyText Sha256 PyTime Contracts Registry.

Inductive WorkerState := STOPPED | RUNNING | DRAINING.
#[export] Instance WorkerState_eq_dec : EqDecision WorkerState.
Proof. solve_decision. Defined.

Inductive Command := START | STOP_COMMAND | DRAIN | REPAIR.
#[export] Instance Command_eq_dec : EqDecision Command.
Proof. solve_decision. Defined.
Definition Command_value (c : Command) : string :=
  match c with START => "start" | STOP_COMMAND => "stop" | DRAIN => "drain" | REPAIR => "repair" end.

Record Actor := { ac_actor_id : string; ac_role : string }.
Definition can_operate (a : Actor) : bool := (a.(ac_role) ==p "operator") || (a.(ac_role) ==p "admin").

Record AuditRecord := {
  ar_audit_id : string;
  ar_idempotency_key : string;
  ar_market : Market;
  ar_command : Command;
  ar_actor_id : string;
  ar_previous_state : WorkerState;
  ar_resulting_state : WorkerState;
  ar_requested_at : datetime;
  ar_detail : string }.

(** ** OperationalStore: the fields commands read and write *)

Record OperationalStore := {
  os_workers : dict Market WorkerState;
  os_audit : dict string AuditRecord }.
Definition all_markets : list Market := [NSE; FOREX; CRYPTO].
Definition new_store : OperationalStore := {|
  os_workers := Dict ((fun m => (m, STOPPED)) <$> all_markets);
  os_audit := ∅ |}.

Definition worker_state (s : OperationalStore) (m : Market) : result WorkerState :=
  match s.(os_workers) !! m with Some st => Ok st | None => Err (KeyError (Market_value m)) end.
Definition audit_record (s : OperationalStore) (key : string) : option AuditRecord := s.(os_audit) !! key.
Definition set_worker_state (m : Market) (st : WorkerState) : M OperationalStore unit :=
  modify (fun s => {| os_workers := <[m := st]> s.(os_workers); os_audit := s.(os_audit) |}).
Definition save_audit (r : AuditRecord) : M OperationalStore unit :=
  modify (fun s => {| os_workers := s.(os_workers);
                      os_audit := <[r.(ar_idempotency_key) := r]> s.(os_audit) |}).
Definition commit_transition (r : AuditRecord) : M OperationalStore unit :=
  _ ← set_worker_state r.(ar_market) r.(ar_resulting_state); save_audit r.
(** The in-memory store has no mailbox. *)
Definition commit_queued_command (r : AuditRecord) : M OperationalStore unit :=
  raise (RuntimeError "durable runtime command mailbox is not configured").

(** ** RuntimeController *)

Record WorkerControl (X : Type) := {
  wc_start : M X unit;
  wc_stop : M X unit;
  wc_drain : M X unit }.
Arguments wc_start {X} _.
Arguments wc_stop {X} _.
Arguments wc_drain {X} _.

Record ControlWorld (X : Type) := MkControlWorld { cw_store : OperationalStore; cw_world : X }.
Arguments MkControlWorld {X} cw_store cw_world.
Arguments cw_store {X} _.
Arguments cw_world {X} _.

Record RuntimeController (X : Type) := {
  rc_workers : dict Market (WorkerControl X);
  rc_durable_commands : bool }.
Arguments rc_workers {X} _.
Arguments rc_durable_commands {X} _.

Definition transition (command : Command) (previous : WorkerState) : WorkerState :=
  match command with
  | START => RUNNING
  | STOP_COMMAND => STOPPED
  | DRAIN => DRAINING
  | REPAIR => previous
  end.

Section Controller.
Context {X : Type} (self : RuntimeController X).

Definition on_store {A} (m : M OperationalStore A) : M (ControlWorld X) A :=
  zoom cw_store (fun s w => MkControlWorld s w.(cw_world)) m.
Definition on_world {A} (m : M X A) : M (ControlWorld X) A :=
  zoom cw_world (fun x w => MkControlWorld w.(cw_store) x) m.

(** [{START: worker.start, STOP: worker.stop, DRAIN: worker.drain}[command]()] *)
Definition worker_call (worker : WorkerControl X) (command : Command) : M X unit :=
  match command with
  | START => worker.(wc_start)
  | STOP_COMMAND => worker.(wc_stop)
  | DRAIN => worker.(wc_drain)
  | REPAIR => raise (KeyError "repair")
  end.

(** [RuntimeController.command] *)
Definition command (market : Market) (cmd : Command) (actor : Actor) (idempotency_key : string)
    (confirmed : bool) (requested_at : datetime) (detail : string) : M (ControlWorld X) AuditRecord :=
  _ ← lift (raise_if (negb (can_operate actor)) (PermissionError "operator or admin role is required"));
  _ ← lift (raise_if (str_blank idempotency_key) (ValueError "idempotency key is required"));
  w ← get_state;
  match audit_record w.(cw_store) idempotency_key with
  | Some existing =>
      _ ← lift (raise_if (negb (bool_decide (existing.(ar_market) = market))
                          || negb (bool_decide (existing.(ar_command) = cmd))
                          || (existing.(ar_detail) !=p detail))
                 (ValueError "idempotency key is bound to another command"));
      mret existing
  | None =>
      _ ← lift (raise_if (negb confirmed) (PermissionError "explicit confirmation is required"));
      previous ← lift (worker_state w.(cw_store) market);
      _ ← lift (raise_if (bool_decide (cmd = DRAIN) && negb (bool_decide (previous = RUNNING)))
                 (RuntimeError "only a running worker can drain"));
      _ ← (if negb (bool_decide (cmd = REPAIR)) && negb self.(rc_durable_commands) then
             match self.(rc_workers) !! market with
             | None => raise (RuntimeError (Market_value market +:+ " worker is not configured"))
             | Some worker => on_world (worker_call worker cmd)
             end
           else mret tt);
      let queued := self.(rc_durable_commands) && negb (bool_decide (cmd = REPAIR)) in
      let resulting := if queued then previous else transition cmd previous in
      requested_at ← lift (utc requested_at "requested_at");
      let record := {|
        ar_audit_id := stable_id [idempotency_key; Market_value market; Command_value cmd];
        ar_idempotency_key := idempotency_key;
        ar_market := market;
        ar_command := cmd;
        ar_actor_id := actor.(ac_actor_id);
        ar_previous_state := previous;
        ar_resulting_state := resulting;
        ar_requested_at := requested_at;
        ar_detail := detail |} in
      _ ← on_store (if queued then commit_queued_command record else commit_transition record);
      mret record
  end.
End Controller.

(** ** Histories of commands *)

Record ControlCall := MkControlCall {
  cl_market : Market;
  cl_command : Command;
  cl_actor : Actor;
  cl_key : string;
  cl_confirmed : bool;
  cl_requested_at : datetime;
  cl_detail : string }.
Definition run_command {X} (self : RuntimeController X) (c : ControlCall) : M (ControlWorld X) AuditRecord :=
  command self c.(cl_market) c.(cl_command) c.(cl_actor) c.(cl_key) c.(cl_confirmed)
    c.(cl_requested_at) c.(cl_detail).

(** The world may change between commands: workers run on their own. *)
Inductive control_steps {X} (self : RuntimeController X) (w : ControlWorld X) : ControlWorld X -> Prop :=
| control_here : control_steps self w w
| control_command w' c : control_steps self w w' -> control_steps self w (run_command self c w').2
| control_outside w' x : control_steps self w w' -> control_steps self w (MkControlWorld w'.(cw_store) x).

(** The state of a market's worker according to the audit trail alone, [None]
    when some record does not continue from the one before it, moves to a state
    its command does not lead to, or drains a worker that is not running. *)
Fixpoint replay (m : Market) (st : WorkerState) (trail : list AuditRecord) : option WorkerState :=
  match trail with
  | [] => Some st
  | r :: rest =>
      if bool_decide (r.(ar_market) = m) then
        if bool_decide (r.(ar_previous_state) = st)
           && bool_decide (r.(ar_resulting_state) = transition r.(ar_command) st)
           && (negb (bool_decide (r.(ar_command) = DRAIN)) || bool_decide (st = RUNNING))
        then replay m r.(ar_resulting_state) rest
        else None
      else replay m st rest
  end.

Lemma replay_app m st l1 l2 :
  replay m st (l1 ++ l2) = replay m st l1 ≫= fun st' => replay m st' l2.
Proof. revert st; induction l1 as [|r l1 IH]; intros st; simpl; [done|]. repeat case_match; auto. Qed.

(** The record a successful new command writes. *)
Definition record_of (c : ControlCall) (previous : WorkerState) : AuditRecord := {|
  ar_audit_id := stable_id [c.(cl_key); Market_value c.(cl_market); Command_value c.(cl_command)];
  ar_idempotency_key := c.(cl_key);
  ar_market := c.(cl_market);
  ar_command := c.(cl_command);
  ar_actor_id := c.(cl_actor).(ac_actor_id);
  ar_previous_state := previous;
  ar_resulting_state := transition c.(cl_command) previous;
  ar_requested_at := at_utc (instant c.(cl_requested_at));
  ar_detail := c.(cl_detail) |}.

(** A call refused before it reaches a worker. *)
Definition refused (s : OperationalStore) (c : ControlCall) : bool :=
  negb (can_operate c.(cl_actor)) || str_blank c.(cl_key) || negb c.(cl_confirmed)
  || match s.(os_workers) !! c.(cl_market) with
     | None => true
     | Some previous => bool_decide (c.(cl_command) = DRAIN) && negb (bool_decide (previous = RUNNING))
     end.

(** The store after a call and what it returned, for a new key. *)
Inductive command_spec {X} (self : RuntimeController X) (c : ControlCall) (w : ControlWorld X) :
    result AuditRecord * ControlWorld X -> Prop :=
| command_refused e : refused w.(cw_store) c = true -> command_spec self c w (Err e, w)
| command_failed e x : refused w.(cw_store) c = false ->
    command_spec self c w (Err e, MkControlWorld w.(cw_store) x)
| command_done previous x :
    refused w.(cw_store) c = false ->
    w.(cw_store).(os_workers) !! c.(cl_market) = Some previous ->
    c.(cl_command) = REPAIR \/ self.(rc_durable_commands) = false ->
    aware c.(cl_requested_at) = true ->
    command_spec self c w
      (Ok (record_of c previous),
       MkControlWorld {|
         os_workers := <[c.(cl_market) := transition c.(cl_command) previous]> w.(cw_store).(os_workers);
         os_audit := <[c.(cl_key) := record_of c previous]> w.(cw_store).(os_audit) |} x).

Section ControllerTheory.
Context {X : Type} (self : RuntimeController X).

Lemma worker_effect (c : ControlCall) (w : ControlWorld X) :
  exists r x,
    (if negb (bool_decide (c.(cl_command) = REPAIR)) && negb self.(rc_durable_commands) then
       match self.(rc_workers) !! c.(cl_market) with
       | None => raise (RuntimeError (Market_value c.(cl_market) +:+ " worker is not configured"))
       | Some worker => on_world (worker_call worker c.(cl_command))
       end
     else mret tt) w = (r, MkControlWorld w.(cw_store) x).
Proof.
  destruct w as [s x]. destruct (_ && _); [|by exists (Ok tt), x].
  destruct (_ !! _) as [worker|]; [|by eexists _, x].
  unfold on_world, zoom. simpl. destruct (worker_call worker _ x) as [r x']. by exists r, x'.
Qed.

Lemma run_command_new c w :
  w.(cw_store).(os_audit) !! c.(cl_key) = None -> command_spec self c w (run_command self c w).
Proof.
  intros Hnew. destruct (worker_effect c w) as (r & x & Hw).
  unfold run_command, command, audit_record.
  unfold mbind, M_bind, lift, get_state, raise_if, worker_state in *.
  destruct (refused (cw_store w) c) eqn:Hr.
  - assert (Hspec : forall e, command_spec self c w (Err e, w)) by (intros; by apply command_refused).
    unfold refused in Hr. destruct (can_operate (cl_actor c)); simpl in *; [|done].
    destruct (str_blank (cl_key c)); simpl in *; [done|]. rewrite Hnew.
    destruct (cl_confirmed c); simpl in *; [|done].
    destruct (os_workers (cw_store w) !! cl_market c) as [previous|]; simpl in *; [|done].
    by rewrite Hr.
  - assert (Hspec : forall e y, command_spec self c w (Err e, MkControlWorld (cw_store w) y))
      by (intros; by apply command_failed).
    pose proof (command_done self c w) as Hdone. rewrite Hr in Hdone. unfold refused in Hr.
    destruct (can_operate (cl_actor c)); simpl in *; [|done].
    destruct (str_blank (cl_key c)); simpl in *; [done|]. rewrite Hnew.
    destruct (cl_confirmed c); simpl in *; [|done].
    destruct (os_workers (cw_store w) !! cl_market c) as [previous|]; simpl in *; [|done].
    rewrite Hr, Hw. destruct r; [|done].
    destruct (utc (cl_requested_at c) "requested_at") as [d|] eqn:Haw; [|apply Hspec].
    apply utc_ok in Haw as [Haw ->].
    destruct (decide (cl_command c = REPAIR)) as [Hrep|Hrep].
    + rewrite (bool_decide_eq_true_2 _ Hrep), andb_false_r. simpl.
      eapply (Hdone previous x); auto.
    + rewrite (bool_decide_eq_false_2 _ Hrep), andb_true_r. simpl.
      destruct (rc_durable_commands self) eqn:Hd; simpl; [apply Hspec|].
      eapply (Hdone previous x); auto.
Qed.

Lemma run_command_existing c w r :
  w.(cw_store).(os_audit) !! c.(cl_key) = Some r ->
  exists res, run_command self c w = (res, w) /\
    (forall r', res = Ok r' -> r' = r /\ r.(ar_market) = c.(cl_market) /\
      r.(ar_command) = c.(cl_command) /\ r.(ar_detail) = c.(cl_detail)).
Proof.
  intros Hr. unfold run_command, command, audit_record, mbind, M_bind, lift, get_state, raise_if.
  destruct (can_operate (cl_actor c)); simpl; [|by eexists].
  destruct (str_blank (cl_key c)); simpl; [by eexists|]. rewrite Hr.
  repeat case_bool_decide; simpl; try by eexists.
  destruct (ar_detail r !=p cl_detail c) eqn:Hd; simpl; [by eexists|].
  rewrite py_ne_false in Hd. eexists; split; [done|]. by intros ? [= <-].
Qed.

(** Every record is filed under its own key and the trail replays to the
    workers' states. *)
Record trail_ok (s : OperationalStore) : Prop := {
  trail_wf : dict_wf s.(os_audit);
  trail_keys : forall k r, s.(os_audit) !! k = Some r -> r.(ar_idempotency_key) = k;
  trail_states : forall m, exists st, s.(os_workers) !! m = Some st /\
    replay m STOPPED (dict_values s.(os_audit)) = Some st }.

Lemma trail_ok_new : trail_ok new_store.
Proof.
  split; [constructor | by intros k r ?%dict_lookup_elem%elem_of_nil |].
  intros []; exists STOPPED; split; reflexivity.
Qed.

Lemma trail_ok_command c w : trail_ok w.(cw_store) -> trail_ok (run_command self c w).2.(cw_store).
Proof.
  intros [Hwf Hk Hs]. destruct (os_audit (cw_store w) !! cl_key c) as [r|] eqn:Hr.
  { destruct (run_command_existing c w r Hr) as (res & -> & _). by split. }
  destruct (run_command_new c w Hr) as [e Href|e x Href|previous x Href Hp Hm Haw]; simpl; [by split..|].
  split; simpl.
  - by apply dict_wf_insert.
  - intros k r. rewrite dict_lookup_insert. case_decide; [by intros [= <-]; subst | apply Hk].
  - intros m. destruct (Hs m) as (st & Hst & Hrep).
    rewrite dict_values_insert_None, replay_app, Hrep by done. simpl.
    destruct (decide (cl_market c = m)) as [<-|Hne].
    + rewrite Hst in Hp. injection Hp as <-. unfold refused in Href. rewrite Hst in Href.
      apply orb_false_iff in Href as [_ Href].
      rewrite !(bool_decide_eq_true_2 (_ = _)) by done. simpl.
      exists (transition (cl_command c) st). rewrite dict_lookup_insert_eq. split; [done|].
      repeat case_bool_decide; done.
    + exists st. rewrite dict_lookup_insert_ne by done. by rewrite (bool_decide_eq_false_2 _ Hne).
Qed.

Lemma trail_ok_reachable x w : control_steps self (MkControlWorld new_store x) w -> trail_ok w.(cw_store).
Proof.
  induction 1 as [|w c _ IH|w y _ IH]; [exact trail_ok_new | by apply trail_ok_command | exact IH].
Qed.

Lemma audit_extends c w : dict_extends w.(cw_store).(os_audit) (run_command self c w).2.(cw_store).(os_audit).
Proof.
  destruct (os_audit (cw_store w) !! cl_key c) as [r|] eqn:Hr.
  { by destruct (run_command_existing c w r Hr) as (res & -> & _). }
  destruct (run_command_new c w Hr) as [|?|?]; simpl; [done..|].
  apply dict_extends_insert. intros ?. by rewrite Hr.
Qed.

Lemma audit_extends_steps w w' :
  control_steps self w w' -> dict_extends w.(cw_store).(os_audit) w'.(cw_store).(os_audit).
Proof. induction 1 as [|w' c _ IH|w' y _ IH]; [done| |exact IH]. etransitivity; [exact IH | apply audit_extends]. Qed.


Lemma run_command_recorded c w r w' :
  run_command self c w = (Ok r, w') ->
  str_blank c.(cl_key) = false /\ w'.(cw_store).(os_audit) !! c.(cl_key) = Some r /\
  r.(ar_market) = c.(cl_market) /\ r.(ar_command) = c.(cl_command) /\ r.(ar_detail) = c.(cl_detail).
Proof.
  intros Hrun. split.
  { unfold run_command, command in Hrun. inv_ok Hrun. done. }
  destruct (os_audit (cw_store w) !! cl_key c) as [r'|] eqn:Hr.
  - destruct (run_command_existing c w r' Hr) as (res & Heq & Hres). rewrite Hrun in Heq.
    injection Heq as <- ->. destruct (Hres r eq_refl) as (-> & ? & ? & ?). done.
  - pose proof (run_command_new c w Hr) as Hspec. rewrite Hrun in Hspec.
    inversion Hspec; subst; simpl. by rewrite dict_lookup_insert_eq.
Qed.

(** A command that succeeded is answered for ever: after any later
    commands and any activity of the workers, repeating it returns the same
    record, whoever operates and whether or not confirmed, and changes nothing;
    the key with another market, command or detail raises and changes nothing. *)
Theorem command_idempotent c w r w' w'' c' :
  run_command self c w = (Ok r, w') ->
  control_steps self w' w'' ->
  c'.(cl_key) = c.(cl_key) ->
  can_operate c'.(cl_actor) = true ->
  run_command self c' w'' =
    (if bool_decide (c'.(cl_market) = c.(cl_market) /\ c'.(cl_command) = c.(cl_command) /\
                     c'.(cl_detail) = c.(cl_detail))
     then Ok r else Err (ValueError "idempotency key is bound to another command"), w'').
Proof.
  intros Hrun Hsteps Hkey Hop.
  destruct (run_command_recorded c w r w' Hrun) as (Hb & Hr & Hm & Hc & Hd).
  apply (audit_extends_steps _ _ Hsteps) in Hr.
  rewrite <-Hkey in Hr, Hb. rewrite <-Hm, <-Hc, <-Hd.
  unfold run_command, command, audit_record, mbind, M_bind, lift, get_state, raise_if.
  rewrite Hop, Hb, Hr. simpl.
  destruct (decide (cl_market c' = ar_market r /\ cl_command c' = ar_command r /\ cl_detail c' = ar_detail r))
    as [Hsame|Hdiff].
  - rewrite (bool_decide_eq_true_2 _ Hsame). destruct Hsame as (-> & -> & ->). rewrite !bool_decide_eq_true_2 by done. simpl.
    by rewrite (proj2 (py_ne_false (ar_detail r) _) eq_refl).
  - rewrite (bool_decide_eq_false_2 _ Hdiff). destruct (_ || _) eqn:E; [done|]. destruct Hdiff.
    rewrite !orb_false_iff, !negb_false_iff, !bool_decide_eq_true, py_ne_false in E. naive_solver.
Qed.

(** A command stays within its market and its authority.  Whatever it
    returns, the other markets' workers keep their states.  A caller without an
    operating role, a blank key, a missing confirmation and a drain of a worker
    that is not running reach no worker and change nothing; a call that raises
    changes no stored state. *)
Theorem command_confined c w :
  w.(cw_store).(os_audit) !! c.(cl_key) = None ->
  let out := run_command self c w in
  (forall m, m <> c.(cl_market) -> out.2.(cw_store).(os_workers) !! m = w.(cw_store).(os_workers) !! m) /\
  (refused w.(cw_store) c = true -> out.2 = w /\ is_ok out.1 = false) /\
  (is_ok out.1 = false -> out.2.(cw_store) = w.(cw_store)) /\
  (is_ok out.1 = true -> exists previous,
     w.(cw_store).(os_workers) !! c.(cl_market) = Some previous /\
     out.2.(cw_store).(os_workers) !! c.(cl_market) = Some (transition c.(cl_command) previous)).
Proof.
  intros Hnew out. subst out.
  destruct (run_command_new c w Hnew) as [e Href|e x Href|previous x Href Hp Hm Haw]; simpl; rewrite Href;
    (split_and!; try done).
  - intros m Hne. by rewrite dict_lookup_insert_ne.
  - intros _. exists previous. by rewrite dict_lookup_insert_eq.
Qed.

(** A permitted command is carried out: an operator's confirmed command
    under a new key, on a market whose worker answers, at a timestamp with a
    zone, returns its record and moves the worker as the command says, unless
    it drains a worker that is not running. *)
Theorem command_progress c w previous worker x :
  w.(cw_store).(os_audit) !! c.(cl_key) = None ->
  refused w.(cw_store) c = false ->
  self.(rc_durable_commands) = false ->
  self.(rc_workers) !! c.(cl_market) = Some worker ->
  worker_call worker c.(cl_command) w.(cw_world) = (Ok tt, x) \/ (c.(cl_command) = REPAIR /\ x = w.(cw_world)) ->
  aware c.(cl_requested_at) = true ->
  w.(cw_store).(os_workers) !! c.(cl_market) = Some previous ->
  run_command self c w = (Ok (record_of c previous), MkControlWorld {|
    os_workers := <[c.(cl_market) := transition c.(cl_command) previous]> w.(cw_store).(os_workers);
    os_audit := <[c.(cl_key) := record_of c previous]> w.(cw_store).(os_audit) |} x).
Proof.
  intros Hnew Href Hd Hw Hcall Haw Hp. unfold refused in Href. rewrite Hp in Href.
  rewrite !orb_false_iff, !negb_false_iff in Href. destruct Href as [[[Ha Hb] Hcf] Hdr].
  unfold run_command, command, audit_record, mbind, M_bind, lift, get_state, raise_if, worker_state.
  rewrite Ha, Hb, Hcf, Hd. simpl. rewrite Hnew, Hp, Hdr, Hw. simpl.
  rewrite (proj2 (utc_ok _ _ _) (conj Haw eq_refl)).
  destruct (decide (cl_command c = REPAIR)) as [Hrep|Hrep].
  - rewrite (bool_decide_eq_true_2 _ Hrep). simpl.
    destruct Hcall as [Hcall|[_ ->]]; [by rewrite Hrep in Hcall|]. by destruct w as [[] ?].
  - rewrite (bool_decide_eq_false_2 _ Hrep). simpl. destruct Hcall as [Hcall|[? _]]; [|done].
    unfold on_world, zoom. rewrite Hcall. by destruct w as [[] ?].
Qed.
End ControllerTheory.

Module ControllerExample.

(** Workers that log the calls they receive. *)
Definition logging (name : string) : WorkerControl (list string) := {|
  wc_start := modify (fun l => l ++ [name +:+ ".start"]);
  wc_stop := modify (fun l => l ++ [name +:+ ".stop"]);
  wc_drain := modify (fun l => l ++ [name +:+ ".drain"]) |}.
Definition controller : RuntimeController (list string) := {|
  rc_workers := <[NSE := logging "nse"]> (<[CRYPTO := logging "crypto"]> ∅);
  rc_durable_commands := false |}.
Definition operator : Actor := {| ac_actor_id := "alice"; ac_role := "operator" |}.
Definition noon : datetime := at_utc (1709208000 * second).
Definition call (m : Market) (c : Command) (key : string) : ControlCall :=
  MkControlCall m c operator key true noon "".
Definition fresh : ControlWorld (list string) := MkControlWorld new_store [].
Definition started : ControlWorld (list string) := (run_command controller (call NSE START "k1") fresh).2.
Definition drained : ControlWorld (list string) := (run_command controller (call NSE DRAIN "k2") started).2.

Lemma drained_reachable : control_steps controller fresh drained.
Proof. apply control_command, control_command, control_here. Qed.


Lemma command_idempotent_witness :
  run_command controller (call NSE START "k1") drained
    = (Ok (record_of (call NSE START "k1") STOPPED), drained) /\
  run_command controller (call CRYPTO START "k1") drained
    = (Err (ValueError "idempotency key is bound to another command"), drained).
Proof.
  assert (Hrun : run_command controller (call NSE START "k1") fresh
    = (Ok (record_of (call NSE START "k1") STOPPED), started)) by (vm_compute; reflexivity).
  assert (Hsteps : control_steps controller started drained) by apply control_command, control_here.
  split.
  - rewrite (command_idempotent controller _ _ _ _ drained (call NSE START "k1") Hrun Hsteps) by reflexivity.
    reflexivity.
  - rewrite (command_idempotent controller _ _ _ _ drained (call CRYPTO START "k1") Hrun Hsteps) by reflexivity.
    reflexivity.
Defined.

Lemma command_confined_witness :
  (run_command controller (call CRYPTO DRAIN "k3") started).2 = started /\
  (run_command controller (call CRYPTO START "k4") started).2.(cw_store).(os_workers) !! NSE = Some RUNNING.
Proof.
  split.
  - refine (proj1 (proj1 (proj2 (command_confined controller (call CRYPTO DRAIN "k3") started _)) _));
      vm_compute; reflexivity.
  - rewrite (proj1 (command_confined controller (call CRYPTO START "k4") started
      ltac:(vm_compute; reflexivity))) by discriminate.
    vm_compute. reflexivity.
Defined.

Lemma command_progress_witness :
  (run_command controller (call CRYPTO START "k4") started).2.(cw_world) = ["nse.start"; "crypto.start"].
Proof.
  rewrite (command_progress controller (call CRYPTO START "k4") started STOPPED (logging "crypto")
    ["nse.start"; "crypto.start"]); try (vm_compute; reflexivity).
  left. vm_compute. reflexivity.
Defined.

(** The worker is called before the timestamp is checked: a start requested
    at a naive datetime raises with the worker already started, the stored
    state still STOPPED and no audit record of the call. *)
Lemma naive_timestamp_starts_unaudited :
  let out := run_command controller (MkControlCall NSE START operator "k1" true (Datetime 0 None) "") fresh in
  out.1 = Err (ValueError "requested_at must be timezone-aware") /\
  out.2.(cw_world) = ["nse.start"] /\
  out.2.(cw_store) = new_store.
Proof. vm_compute. repeat split; reflexivity. Qed.

End ControllerExample.
