(* ===== verification/Supervisor.v ===== *)
(** * Market workers and their supervisor
    (src/nanodelta/runtime/supervisor.py and runtime/control.py)

    A worker runs on one event loop: its [_run] task, its heartbeat tasks and
    the callers of [start], [drain], [stop] and [cancel] interleave, but only
    at their awaits.  An event of the model is what happens between two
    awaits of one of them, and [react] gives the state after it.  The state
    stores of the program save without suspending, so a [_publish] belongs to
    one event; a save may raise.  [CancelledError] reaches a task when it is
    resumed after a request.

    The cycle itself is left open: it may return, raise or be cancelled at
    any time. *)

From Stdlib Require Import ZArith Floats String.
From stdpp Require Import prelude strings list.
From S2P Require Import Prelude PyData PyText PyTime Contracts Adapters Etl Controller Realtime.

Inductive RuntimeState := STARTING | RUNNING | DRAINING | STOPPED | FAILED.
Definition RuntimeState_value (s : RuntimeState) : string :=
  match s with
  | STARTING => "STARTING" | RUNNING => "RUNNING" | DRAINING => "DRAINING" | STOPPED => "STOPPED" | FAILED => "FAILED"
  end.
#[export] Instance RuntimeState_eq_dec : EqDecision RuntimeState.
Proof. solve_decision. Defined.

Record WorkerSnapshot := {
  ws_market : Market;
  ws_instance_id : string;
  ws_state : RuntimeState;
  ws_last_heartbeat : datetime;
  ws_last_cycle_started : option datetime;
  ws_last_cycle_finished : option datetime;
  ws_last_error : option string }.

(** Where the [_run] task is suspended. *)
Inductive run_pc :=
| Created
| InCycle
| Pausing
| Done (r : result unit).
Record run_task := { rt_pc : run_pc; rt_cancel : bool }.
Record beat_task := { bt_done : bool; bt_cancel : bool }.

(** A caller of [drain], [stop] or [cancel], and what it awaits. *)
Inductive call_kind := DrainCall | StopCall | CancelCall.
Inductive call_stage :=
| AwaitTask (i : nat)
| AwaitBeat (j : nat)
| Closing
| Returned (r : result unit).
Record caller := { cl_kind : call_kind; cl_stage : call_stage }.

(** A worker: every [_run] task and heartbeat it created (the last ones are
    [self._task] and [self._heartbeat_task]), its callers, the snapshot the
    store holds, and the number of cycles started. *)
Record Worker (W : Type) := {
  wk_snapshot : WorkerSnapshot;
  wk_stored : option WorkerSnapshot;
  wk_stop : bool;
  wk_drain : bool;
  wk_tasks : list run_task;
  wk_beats : list beat_task;
  wk_callers : list caller;
  wk_cycles : nat;
  wk_world : W }.
Arguments wk_snapshot {W}.
Arguments wk_stored {W}.
Arguments wk_stop {W}.
Arguments wk_drain {W}.
Arguments wk_tasks {W}.
Arguments wk_beats {W}.
Arguments wk_callers {W}.
Arguments wk_cycles {W}.
Arguments wk_world {W}.

(** The clock, and whether the store accepts a save. *)
Record WorkerEnv (W : Type) := {
  we_clock : W -> datetime * W;
  we_save : WorkerSnapshot -> M W unit }.
Arguments we_clock {W}.
Arguments we_save {W}.

Section Setters.
Context {W : Type}.
Implicit Type w : Worker W.
Definition set_published v w := Build_Worker W v w.(wk_stored) w.(wk_stop) w.(wk_drain) w.(wk_tasks) w.(wk_beats) w.(wk_callers) w.(wk_cycles) w.(wk_world).
Definition set_stored v w := Build_Worker W w.(wk_snapshot) v w.(wk_stop) w.(wk_drain) w.(wk_tasks) w.(wk_beats) w.(wk_callers) w.(wk_cycles) w.(wk_world).
Definition set_flags stop drain w := Build_Worker W w.(wk_snapshot) w.(wk_stored) stop drain w.(wk_tasks) w.(wk_beats) w.(wk_callers) w.(wk_cycles) w.(wk_world).
Definition set_tasks v w := Build_Worker W w.(wk_snapshot) w.(wk_stored) w.(wk_stop) w.(wk_drain) v w.(wk_beats) w.(wk_callers) w.(wk_cycles) w.(wk_world).
Definition set_beats v w := Build_Worker W w.(wk_snapshot) w.(wk_stored) w.(wk_stop) w.(wk_drain) w.(wk_tasks) v w.(wk_callers) w.(wk_cycles) w.(wk_world).
Definition set_callers v w := Build_Worker W w.(wk_snapshot) w.(wk_stored) w.(wk_stop) w.(wk_drain) w.(wk_tasks) w.(wk_beats) v w.(wk_cycles) w.(wk_world).
Definition set_cycles v w := Build_Worker W w.(wk_snapshot) w.(wk_stored) w.(wk_stop) w.(wk_drain) w.(wk_tasks) w.(wk_beats) w.(wk_callers) v w.(wk_world).
Definition set_env v w := Build_Worker W w.(wk_snapshot) w.(wk_stored) w.(wk_stop) w.(wk_drain) w.(wk_tasks) w.(wk_beats) w.(wk_callers) w.(wk_cycles) v.
End Setters.

Definition CancelledError : exn := OtherException "CancelledError" "".

Section MarketWorker.
Context {W : Type} (env : WorkerEnv W).
Abbreviation Wk := (Worker W).

Definition now : M Wk datetime := zoom wk_world set_env (fun w => let '(t, w') := env.(we_clock) w in (Ok t, w')).

(** [self._store.save(self._snapshot)] *)
Definition save : M Wk unit :=
  self ← get_state;
  _ ← zoom wk_world set_env (env.(we_save) self.(wk_snapshot));
  modify (set_stored (Some self.(wk_snapshot))).

(** [_publish]: a [Some] argument is one the caller updates. *)
Definition publish (state : option RuntimeState) (started finished : option (option datetime)) (error : option (option string))
    : M Wk unit :=
  self ← get_state;
  heartbeat ← now;
  let current := self.(wk_snapshot) in
  _ ← modify (set_published
        {| ws_market := current.(ws_market); ws_instance_id := current.(ws_instance_id);
           ws_state := default current.(ws_state) state; ws_last_heartbeat := heartbeat;
           ws_last_cycle_started := default current.(ws_last_cycle_started) started;
           ws_last_cycle_finished := default current.(ws_last_cycle_finished) finished;
           ws_last_error := default current.(ws_last_error) error |});
  save.

(** ** The [_run] task: from one await to the next *)

(** [finally: await self._publish(RuntimeState.STOPPED)], leaving with [r]. *)
Definition finish (r : result unit) (w : Wk) : run_pc * Wk :=
  let '(saved, w') := publish (Some STOPPED) None None None w in
  (Done (match saved with Ok _ => r | Err e => Err e end), w').

(** [except asyncio.CancelledError] of the task, then [finally]. *)
Definition cancelled (w : Wk) : run_pc * Wk :=
  let '(saved, w') := publish (Some FAILED) None None (Some (Some "worker cancelled")) w in
  finish (match saved with Ok _ => Err CancelledError | Err e => Err e end) w'.
Definition leave (e : exn) (w : Wk) : run_pc * Wk := if is_cancelled e then cancelled w else finish (Err e) w.

(** The head of the [while] loop, up to the await of the cycle. *)
Definition loop_head (w : Wk) : run_pc * Wk :=
  if w.(wk_stop) || w.(wk_drain) then finish (Ok tt) w
  else
    match (started ← now; publish None (Some (Some started)) None (Some None)) w with
    | (Ok _, w') => (InCycle, set_cycles (S w'.(wk_cycles)) w')
    | (Err e, w') => leave e w'
    end.

Definition begin_run (w : Wk) : run_pc * Wk :=
  match publish (Some RUNNING) None None None w with
  | (Ok _, w') => loop_head w'
  | (Err e, w') => (Done (Err e), w')
  end.

(** [except Exception as exc] around a cycle. *)
Definition cycle_failed (e : exn) (w : Wk) : run_pc * Wk :=
  if is_cancelled e then leave e w
  else
    match (finished ← now; publish None None (Some (Some finished)) (Some (Some (str_exn e)))) w with
    | (Ok _, w') => (Pausing, w')
    | (Err e', w') => leave e' w'
    end.
(** The cycle ended with [r]. *)
Definition cycle_ended (r : result unit) (w : Wk) : run_pc * Wk :=
  match r with
  | Ok _ =>
      match (finished ← now; publish None None (Some (Some finished)) (Some None)) w with
      | (Ok _, w') => (Pausing, w')
      | (Err e, w') => cycle_failed e w'
      end
  | Err e => cycle_failed e w
  end.

(** ** Callers *)

Definition is_done (t : run_task) : bool := match t.(rt_pc) with Done _ => true | _ => false end.
(** [self._task] *)
Definition task (w : Wk) : option (nat * run_task) :=
  match length w.(wk_tasks) with O => None | S i => t ← w.(wk_tasks) !! i; Some (i, t) end.
(** [self._task is not None and not self._task.done()] *)
Definition active (w : Wk) : option nat :=
  match task w with Some (i, t) => if is_done t then None else Some i | None => None end.

Definition start : M Wk unit :=
  self ← get_state;
  match active self with
  | Some _ => mret tt
  | None =>
      _ ← modify (set_flags false false);
      _ ← publish (Some STARTING) None None (Some None);
      modify (fun w => set_beats (w.(wk_beats) ++ [{| bt_done := false; bt_cancel := false |}])
                         (set_tasks (w.(wk_tasks) ++ [{| rt_pc := Created; rt_cancel := false |}]) w))
  end.

(** [task.cancel()] *)
Definition request_cancel (i : nat) (w : Wk) : Wk :=
  set_tasks (alter (fun t => if is_done t then t else {| rt_pc := t.(rt_pc); rt_cancel := true |}) i w.(wk_tasks)) w.
Definition cancel_beat (j : nat) (w : Wk) : Wk :=
  set_beats (alter (fun b => if b.(bt_done) then b else {| bt_done := false; bt_cancel := true |}) j w.(wk_beats)) w.

(** [_finish_heartbeat], up to its await. *)
Definition finish_heartbeat (w : Wk) : call_stage * Wk :=
  match length w.(wk_beats) with O => (Closing, w) | S j => (AwaitBeat j, cancel_beat j w) end.

(** A call, up to its first await. *)
Definition call_begins (kind : call_kind) (w : Wk) : call_stage * Wk :=
  match kind with
  | DrainCall =>
      match active w with
      | None => (Returned (Ok tt), w)
      | Some i =>
          match publish (Some DRAINING) None None None (set_flags w.(wk_stop) true w) with
          | (Ok _, w') => (AwaitTask i, w')
          | (Err e, w') => (Returned (Err e), w')
          end
      end
  | StopCall =>
      let w := set_flags true w.(wk_drain) w in
      match task w with Some (i, _) => (AwaitTask i, w) | None => finish_heartbeat w end
  | CancelCall =>
      let w := set_flags true w.(wk_drain) w in
      match active w with Some i => (AwaitTask i, request_cancel i w) | None => finish_heartbeat w end
  end.

(** A call goes on when what it awaits is there; [closed] is the outcome of
    the cycle's [aclose]. *)
Definition call_resumes (kind : call_kind) (stage : call_stage) (closed : result unit) (w : Wk) : option (call_stage * Wk) :=
  match stage with
  | AwaitTask i =>
      match w.(wk_tasks) !! i with
      | Some {| rt_pc := Done r |} =>
          match kind, r with
          | CancelCall, _ | _, Ok _ => Some (finish_heartbeat w)
          | _, Err e => Some (Returned (Err e), w)
          end
      | _ => None
      end
  | AwaitBeat j => match w.(wk_beats) !! j with Some {| bt_done := true |} => Some (Closing, w) | _ => None end
  | Closing => Some (Returned closed, w)
  | Returned _ => None
  end.

(** A caller is cancelled (its deadline passed): the task it awaits is
    cancelled with it. *)
Definition call_interrupted (stage : call_stage) (w : Wk) : option (call_stage * Wk) :=
  match stage with
  | AwaitTask i => Some (AwaitTask i, request_cancel i w)
  | AwaitBeat _ | Closing => Some (Returned (Err CancelledError), w)
  | Returned _ => None
  end.

(** ** Events *)

Inductive event :=
| Start
| Call (kind : call_kind)
| Resume (i : nat)
| CycleEnds (i : nat) (r : result unit) (world : W)
| Beat (j : nat)
| Continue (k : nat) (closed : result unit)
| Interrupt (k : nat).

Definition put_task (i : nat) (p : run_pc * Wk) : Wk :=
  set_tasks (<[i := {| rt_pc := p.1; rt_cancel := false |}]> p.2.(wk_tasks)) p.2.
Definition put_caller (k : nat) (kind : call_kind) (p : call_stage * Wk) : Wk :=
  set_callers (<[k := {| cl_kind := kind; cl_stage := p.1 |}]> p.2.(wk_callers)) p.2.

(** [_heartbeat_loop] from its start or its sleep to the next sleep. *)
Definition beat (b : beat_task) (w : Wk) : bool * Wk :=
  if b.(bt_cancel) || w.(wk_stop) || bool_decide (w.(wk_snapshot).(ws_state) = STOPPED) then (true, w)
  else match publish None None None None w with (Ok _, w') => (false, w') | (Err _, w') => (true, w') end.

Definition react (ev : event) (w : Wk) : option Wk :=
  match ev with
  | Start => Some (start w).2
  | Call kind =>
      let '(stage, w') := call_begins kind w in
      Some (set_callers (w'.(wk_callers) ++ [{| cl_kind := kind; cl_stage := stage |}]) w')
  | Resume i =>
      match w.(wk_tasks) !! i with
      | Some {| rt_pc := Created; rt_cancel := c |} =>
          Some (put_task i (if c : bool then (Done (Err CancelledError), w) else begin_run w))
      | Some {| rt_pc := Pausing; rt_cancel := c |} => Some (put_task i (if c : bool then cancelled w else loop_head w))
      | _ => None
      end
  | CycleEnds i r world =>
      match w.(wk_tasks) !! i with
      | Some {| rt_pc := InCycle |} => Some (put_task i (cycle_ended r (set_env world w)))
      | _ => None
      end
  | Beat j =>
      match w.(wk_beats) !! j with
      | Some ({| bt_done := false |} as b) =>
          let '(d, w') := beat b w in
          Some (set_beats (<[j := {| bt_done := d; bt_cancel := b.(bt_cancel) |}]> w'.(wk_beats)) w')
      | _ => None
      end
  | Continue k closed =>
      match w.(wk_callers) !! k with
      | Some c => p ← call_resumes c.(cl_kind) c.(cl_stage) closed w; Some (put_caller k c.(cl_kind) p)
      | None => None
      end
  | Interrupt k =>
      match w.(wk_callers) !! k with
      | Some c => p ← call_interrupted c.(cl_stage) w; Some (put_caller k c.(cl_kind) p)
      | None => None
      end
  end.

Fixpoint reacts (evs : list event) (w : Wk) : option Wk :=
  match evs with
  | [] => Some w
  | ev :: evs => w' ← react ev w; reacts evs w'
  end.
End MarketWorker.

(** [MarketWorker.__init__] *)
Definition worker_new {W} (env : WorkerEnv W) (market : Market) (instance_id : string) (interval heartbeat : float) : M W (Worker W) :=
  _ ← lift (raise_if ((interval <=? 0) || (heartbeat <=? 0))%float (ValueError "worker intervals must be positive"));
  t ← (fun w => let '(t, w') := env.(we_clock) w in (Ok t, w'));
  world ← get_state;
  mret {| wk_snapshot := {| ws_market := market; ws_instance_id := instance_id; ws_state := STOPPED; ws_last_heartbeat := t;
                            ws_last_cycle_started := None; ws_last_cycle_finished := None; ws_last_error := None |};
          wk_stored := None; wk_stop := false; wk_drain := false; wk_tasks := []; wk_beats := []; wk_callers := [];
          wk_cycles := 0; wk_world := world |}.

(** ** One event at a time *)

Section WorkerTheory.
Context {W : Type} (env : WorkerEnv W).
Abbreviation Wk := (Worker W).

Definition state_of (w : Wk) : RuntimeState := w.(wk_snapshot).(ws_state).

(** What every part of the [_run] task leaves alone. *)
Record frame (w w' : Wk) : Prop := {
  fr_tasks : w'.(wk_tasks) = w.(wk_tasks);
  fr_beats : w'.(wk_beats) = w.(wk_beats);
  fr_callers : w'.(wk_callers) = w.(wk_callers);
  fr_stop : w'.(wk_stop) = w.(wk_stop);
  fr_drain : w'.(wk_drain) = w.(wk_drain) }.
#[local] Instance frame_order : PreOrder frame.
Proof. split; [by intros w; split|]. intros x y z [] []. split; congruence. Qed.

(** A store that accepts every save. *)
Definition accepting : Prop := forall s w, exists w', env.(we_save) s w = (Ok tt, w').

Lemma now_effect (w : Wk) r w' : now env w = (r, w') -> exists world t, w' = set_env world w /\ r = Ok t.
Proof. unfold now, zoom. destruct (we_clock env (wk_world w)) as [t world]. intros [= <- <-]. by eexists _, _. Qed.

Record published (state : RuntimeState) (w : Wk) (r : result unit) (w' : Wk) : Prop := {
  pb_frame : frame w w';
  pb_state : state_of w' = state;
  pb_cycles : w'.(wk_cycles) = w.(wk_cycles);
  pb_stored : r = Ok tt -> w'.(wk_stored) = Some w'.(wk_snapshot);
  pb_accepted : accepting -> r = Ok tt }.

Lemma publish_effect st a b c (w : Wk) r w' : publish env st a b c w = (r, w') -> published (default (state_of w) st) w r w'.
Proof.
  unfold publish, mbind at 1, M_bind at 1, get_state. unfold mbind at 1, M_bind at 1.
  destruct (now env w) as [rt w1] eqn:En. apply now_effect in En as (world & t & -> & ->).
  unfold mbind at 1, M_bind at 1, modify. set (w2 := set_published _ _).
  assert (Hw2 : frame w w2 /\ state_of w2 = default (state_of w) st /\ wk_cycles w2 = wk_cycles w) by done.
  clearbody w2. destruct Hw2 as (Hf & Hs & Hc). unfold save, mbind, M_bind, get_state, zoom, modify.
  destruct (we_save env (wk_snapshot w2) (wk_world w2)) as [[u|e] world'] eqn:Es; intros [= <- <-].
  - split; [|exact Hs|exact Hc|done|by destruct u]. etransitivity; [exact Hf|done].
  - split; [|exact Hs|exact Hc|done|]; [etransitivity; [exact Hf|done]|].
    intros Ha. destruct (Ha (wk_snapshot w2) (wk_world w2)) as [? Hok]. congruence.
Qed.
Lemma timed_publish st (f g : datetime -> option (option datetime)) c (w : Wk) r w' :
  (t ← now env; publish env st (f t) (g t) c) w = (r, w') -> published (default (state_of w) st) w r w'.
Proof.
  unfold mbind at 1, M_bind at 1. destruct (now env w) as [rt w1] eqn:En. apply now_effect in En as (world & t & -> & ->).
  intros E. apply publish_effect in E as [A B C D F]. split; [|done|done|done|done]. etransitivity; [|exact A]. done.
Qed.

(** A part of the task that ends in [pc]: a new cycle only with the flags
    down, the snapshot STOPPED when the task is done and unchanged in state
    otherwise. *)
Record segment (w : Wk) (p : run_pc * Wk) : Prop := {
  sg_frame : frame w p.2;
  sg_cycles : p.2.(wk_cycles) = match p.1 with InCycle => S w.(wk_cycles) | _ => w.(wk_cycles) end;
  sg_flags : p.1 = InCycle -> w.(wk_stop) || w.(wk_drain) = false;
  sg_pc : p.1 <> Created;
  sg_state : state_of p.2 = match p.1 with Done _ => STOPPED | _ => state_of w end;
  sg_stored : accepting -> p.2.(wk_stored) = Some p.2.(wk_snapshot) }.

Lemma published_segment st w r w1 p : published st w r w1 -> segment w1 p ->
  (match p.1 with Done _ => True | _ => st = state_of w end) -> (p.1 = InCycle -> w.(wk_stop) || w.(wk_drain) = false) -> segment w p.
Proof.
  intros [A B C _ _] [F1 F2 F3 F4 F5 F6] Hst Hfl. split; [by etransitivity| |done|done| |done].
  - rewrite F2. destruct (p.1); congruence.
  - rewrite F5. destruct (p.1); congruence.
Qed.

Lemma finish_segment r w : segment w (finish env r w) /\ exists r', (finish env r w).1 = Done r' /\ (accepting -> r' = r).
Proof.
  unfold finish. destruct (publish _ _ _ _ _ w) as [saved w'] eqn:E. apply publish_effect in E as [A B C D F]. cbn [fst snd]. split.
  - split; [done|done|done|done|exact B|]. intros Ha. apply D, F, Ha.
  - eexists. split; [done|]. intros Ha. by rewrite (F Ha).
Qed.
Lemma cancelled_segment w : segment w (cancelled env w) /\ exists r', (cancelled env w).1 = Done r' /\ (accepting -> r' = Err CancelledError).
Proof.
  unfold cancelled. destruct (publish _ _ _ _ _ w) as [saved w'] eqn:E. apply publish_effect in E.
  set (r := match saved with Ok _ => Err CancelledError | Err e => Err e end).
  destruct (finish_segment r w') as [Hs (r' & Hr & Ha)]. split.
  - eapply published_segment; [exact E|exact Hs| |]; rewrite Hr; done.
  - exists r'. split; [done|]. intros H. rewrite (Ha H). subst r. by rewrite (pb_accepted _ _ _ _ E H).
Qed.
Lemma leave_segment e w : segment w (leave env e w) /\ exists r', (leave env e w).1 = Done r'.
Proof.
  unfold leave. destruct (is_cancelled e).
  - destruct (cancelled_segment w) as [H (r & Hr & _)]. eauto.
  - destruct (finish_segment (Err e) w) as [H (r & Hr & _)]. eauto.
Qed.

Lemma loop_segment w : segment w (loop_head env w).
Proof.
  unfold loop_head. destruct (wk_stop w || wk_drain w) eqn:Ef; [apply finish_segment|].
  destruct ((t ← now env; publish env None (Some (Some t)) None (Some None)) w) as [[u|e] w'] eqn:E;
    apply (timed_publish None (fun t => Some (Some t)) (fun _ => None)) in E.
  - destruct E as [A B C D F]. split; [by destruct A; split|cbn; by rewrite C|done|done|exact B|]. intros Ha. apply D, F, Ha.
  - destruct (leave_segment e w') as [H (r & Hr)]. eapply published_segment; [exact E|exact H| |]; rewrite Hr; done.
Qed.
Lemma loop_pc w : (loop_head env w).1 <> Pausing.
Proof.
  unfold loop_head. destruct (_ || _); [by destruct (finish_segment (Ok tt) w) as [_ (r & -> & _)]|].
  destruct ((t ← now env; publish env None (Some (Some t)) None (Some None)) w) as [[u|e] w']; [done|]. by destruct (leave_segment e w') as [_ (r & ->)].
Qed.
Lemma failed_segment e w : segment w (cycle_failed env e w) /\ (cycle_failed env e w).1 <> InCycle.
Proof.
  unfold cycle_failed. destruct (is_cancelled e); [destruct (leave_segment e w) as [H (r & Hr)]; by rewrite Hr|].
  destruct ((t ← now env; publish env None None (Some (Some t)) (Some (Some (str_exn e)))) w) as [[u|e'] w'] eqn:E;
    apply (timed_publish None (fun _ => None) (fun t => Some (Some t))) in E.
  - destruct E as [A B C D F]. split; [|discriminate]. split; [done|done|done|done|exact B|]. intros Ha. apply D, F, Ha.
  - destruct (leave_segment e' w') as [H (r & Hr)]. rewrite Hr. split; [|done].
    eapply published_segment; [exact E|exact H| |]; rewrite Hr; done.
Qed.
Lemma ended_segment r w : segment w (cycle_ended env r w) /\ (cycle_ended env r w).1 <> InCycle.
Proof.
  destruct r as [u|e]; cbn [cycle_ended]; [|apply failed_segment].
  destruct ((t ← now env; publish env None None (Some (Some t)) (Some None)) w) as [[v|e'] w'] eqn:E;
    apply (timed_publish None (fun _ => None) (fun t => Some (Some t))) in E.
  - destruct E as [A B C D F]. split; [|discriminate]. split; [done|done|done|done|exact B|]. intros Ha. apply D, F, Ha.
  - destruct (failed_segment e' w') as [H Hn]. split; [|done]. eapply published_segment; [exact E|exact H| |].
    + by destruct (_.1).
    + done.
Qed.
(** The first part of the task starts from RUNNING, or its save failed. *)
Lemma begin_segment w : exists r w1, published RUNNING w r w1 /\
  match r with Ok _ => segment w1 (begin_run env w) | Err e => begin_run env w = (Done (Err e), w1) end.
Proof.
  unfold begin_run. destruct (publish _ _ _ _ _ w) as [[u|e] w1] eqn:E; apply publish_effect in E.
  - exists (Ok u), w1. split; [done|]. apply loop_segment.
  - by exists (Err e), w1.
Qed.

Lemma begin_pc w : (begin_run env w).1 <> Pausing.
Proof. unfold begin_run. destruct (publish _ _ _ _ _ w) as [[u|e] w1]; [apply loop_pc|done]. Qed.

(** What an event does: it moves one unfinished task, starts a task when
    none is active, or moves no task. *)
Definition pcs (w : Wk) : list run_pc := List.map rt_pc w.(wk_tasks).
Definition task_event (ev : event (W := W)) : bool := match ev with Resume _ | CycleEnds _ _ _ => true | _ => false end.

Record passive (w w' : Wk) : Prop := {
  pv_pcs : pcs w' = pcs w;
  pv_stop : w.(wk_stop) = true -> w'.(wk_stop) = true;
  pv_drain : w.(wk_drain) = true -> w'.(wk_drain) = true;
  pv_cycles : w'.(wk_cycles) = w.(wk_cycles);
  pv_state : state_of w' = state_of w \/ (state_of w' = DRAINING /\ w'.(wk_drain) = true /\ active w <> None);
  pv_stored : accepting -> w.(wk_stored) = Some w.(wk_snapshot) -> w'.(wk_stored) = Some w'.(wk_snapshot) }.

Inductive moved (w : Wk) (t : run_task) : run_pc * Wk -> Prop :=
| moved_unbegun : t.(rt_pc) = Created -> moved w t (Done (Err CancelledError), w)
| moved_begun : t.(rt_pc) = Created -> (begin_run env w).1 <> Pausing -> moved w t (begin_run env w)
| moved_on p : t.(rt_pc) = Pausing -> segment w p -> p.1 <> Pausing -> moved w t p
| moved_cycle p world : t.(rt_pc) = InCycle -> segment (set_env world w) p -> p.1 <> InCycle -> moved w t p.

Inductive reaction (w : Wk) : event (W := W) -> Wk -> Prop :=
| reaction_task ev i t p : task_event ev = true -> w.(wk_tasks) !! i = Some t -> is_done t = false -> moved w t p ->
    reaction w ev (put_task i p)
| reaction_start r w1 w' : active w = None -> published STARTING (set_flags false false w) r w1 ->
    (match r with
     | Ok _ => exists beats, w' = set_beats beats (set_tasks (w1.(wk_tasks) ++ [{| rt_pc := Created; rt_cancel := false |}]) w1)
     | Err _ => w' = w1
     end) -> reaction w Start w'
| reaction_passive ev w' : task_event ev = false -> passive w w' -> reaction w ev w'.

Lemma passive_refl w : passive w w.
Proof. split; auto. Qed.
Lemma passive_callers l w w' : passive w w' -> passive w (set_callers l w').
Proof. intros []. by split. Qed.
Lemma passive_cancel i w : passive w (request_cancel i w).
Proof.
  split; auto. unfold pcs, request_cancel. cbn [wk_tasks set_tasks]. apply list_eq. intros j.
  rewrite !list_lookup_fmap, list_lookup_alter. destruct (decide (i = j)) as [->|]; [|done].
  destruct (wk_tasks w !! j) as [t|]; [|done]. cbn. by destruct (is_done t).
Qed.
Lemma passive_finish w : passive w (finish_heartbeat w).2.
Proof. unfold finish_heartbeat. destruct (length _); [apply passive_refl|]. split; auto. Qed.
Lemma passive_flag (b : bool) w w' : (b = true \/ b = w.(wk_stop)) -> passive (set_flags b w.(wk_drain) w) w' -> passive w w'.
Proof.
  intros Hb [A B C D F G]. split; [exact A| |exact C|exact D| |exact G].
  - intros H. apply B. cbn. destruct Hb as [->| ->]; done.
  - exact F.
Qed.
Lemma passive_call kind w : passive w (call_begins env kind w).2.
Proof.
  destruct kind; cbn [call_begins].
  - destruct (active w) as [i|] eqn:Ea; [|apply passive_refl].
    destruct (publish _ _ _ _ _ _) as [[u|e] w'] eqn:E; apply publish_effect in E as [[F1 F2 F3 F4 F5] B C D F]; cbn [snd];
      (split; [unfold pcs; by rewrite F1|by rewrite F4|by rewrite F5|exact C
             |right; split; [exact B|split; [exact F5|by rewrite Ea]]|]); intros Ha _; apply D, F, Ha.
  - apply (passive_flag true); [by left|]. destruct (task _) as [[i t]|]; [apply passive_refl|apply passive_finish].
  - apply (passive_flag true); [by left|]. destruct (active _) as [i|]; [apply passive_cancel|apply passive_finish].
Qed.
Lemma passive_resumes kind stage closed w p : call_resumes kind stage closed w = Some p -> passive w p.2.
Proof.
  unfold call_resumes. destruct stage as [i|j| |r]; [|destruct (wk_beats w !! j) as [[[] ?]|]; [|done|done]| |done];
    [|by intros [= <-]; apply passive_refl|by intros [= <-]; apply passive_refl].
  destruct (wk_tasks w !! i) as [[[| | |r] c]|]; [done|done|done| |done].
  destruct kind, r; intros [= <-]; first [apply passive_finish|apply passive_refl].
Qed.
Lemma passive_interrupted stage w p : call_interrupted stage w = Some p -> passive w p.2.
Proof. destruct stage; cbn; [|by intros [= <-]; apply passive_refl..|done]. intros [= <-]. apply passive_cancel. Qed.
Lemma passive_beat b w : passive w (beat env b w).2.
Proof.
  unfold beat. destruct (_ || _); [apply passive_refl|].
  destruct (publish _ _ _ _ _ _) as [[u|e] w'] eqn:E; apply publish_effect in E as [[F1 F2 F3 F4 F5] B C D F]; cbn [snd];
    (split; [unfold pcs; by rewrite F1|by rewrite F4|by rewrite F5|exact C|left; exact B|]); intros Ha _; apply D, F, Ha.
Qed.

Lemma react_reaction ev w w' : react env ev w = Some w' -> reaction w ev w'.
Proof.
  destruct ev as [|kind|i|i r world|j|k closed|k]; cbn [react].
  - intros [= <-]. unfold start, mbind at 1, M_bind at 1, get_state. destruct (active w) as [i|] eqn:Ea.
    { apply reaction_passive; [done|]. apply passive_refl. }
    unfold mbind at 1, M_bind at 1, modify at 1. unfold mbind, M_bind.
    destruct (publish _ _ _ _ _ _) as [[u|e] w1] eqn:E; apply publish_effect in E;
      (eapply reaction_start; [done|exact E|]); [by eexists|done].
  - pose proof (passive_call kind w) as Hp. destruct (call_begins env kind w) as [stage w1]. intros [= <-].
    apply reaction_passive; [done|]. by apply passive_callers.
  - destruct (wk_tasks w !! i) as [t|] eqn:Et; [|done].
    destruct t as [[| | |r] c]; [|done| |done]; intros [= <-]; (eapply reaction_task; [done|exact Et|done|]); destruct c.
    + by apply moved_unbegun.
    + apply moved_begun; [done|apply begin_pc].
    + destruct (cancelled_segment w) as [Hs (r & Hr & _)]. apply moved_on; [done|done|]. by rewrite Hr.
    + apply moved_on; [done|apply loop_segment|apply loop_pc].
  - destruct (wk_tasks w !! i) as [t|] eqn:Et; [|done]. destruct t as [[| | |r'] c]; [done| |done|done]. intros [= <-].
    eapply reaction_task; [done|exact Et|done|]. apply (moved_cycle _ _ _ world); [done| |]; apply ended_segment.
  - destruct (wk_beats w !! j) as [[[] c]|]; [done| |done].
    pose proof (passive_beat {| bt_done := false; bt_cancel := c |} w) as Hp.
    destruct (beat env _ w) as [d w1]. intros [= <-]. apply reaction_passive; [done|]. cbn [snd] in Hp. destruct Hp. by split.
  - destruct (wk_callers w !! k) as [c|]; [|done]. destruct (call_resumes _ _ _ w) as [p|] eqn:E; [|done]. intros [= <-].
    apply reaction_passive; [done|]. apply passive_callers. by eapply passive_resumes.
  - destruct (wk_callers w !! k) as [c|]; [|done]. destruct (call_interrupted _ w) as [p|] eqn:E; [|done]. intros [= <-].
    apply reaction_passive; [done|]. apply passive_callers. by eapply passive_interrupted.
Qed.

(** ** Invariants *)

(** Every task but the last is done, so at most one runs a cycle. *)
Definition serial (w : Wk) : Prop := forall i t, w.(wk_tasks) !! i = Some t -> is_done t = false -> S i = length w.(wk_tasks).

Lemma active_pc w : active w <> None <-> exists pc, last (pcs w) = Some pc /\ (forall r, pc <> Done r).
Proof.
  unfold active, task, pcs. rewrite (last_lookup (List.map rt_pc (wk_tasks w))), length_map.
  destruct (length (wk_tasks w)) as [|n] eqn:El; cbn [pred].
  - apply nil_length_inv in El. rewrite El. split; [done|]. by intros (pc & [=] & _).
  - rewrite list_lookup_fmap. destruct (wk_tasks w !! n) as [t|]; cbn; [|by split; [|intros (pc & [=] & _)]].
    unfold is_done. destruct (rt_pc t) as [| | |r] eqn:E; cbn; split; intros H; try done; try (eexists; split; [done|by intros r']).
    destruct H as (pc & [= <-] & Hn). by destruct (Hn r).
Qed.
Lemma serial_done w i t : serial w -> active w = None -> w.(wk_tasks) !! i = Some t -> is_done t = true.
Proof.
  intros Hs Ha Ht. destruct (is_done t) eqn:Hd; [done|]. specialize (Hs _ _ Ht Hd). exfalso. revert Ha.
  unfold active, task. rewrite <-Hs, Ht. cbn. by rewrite Hd.
Qed.
Lemma pcs_lookup w i : pcs w !! i = rt_pc <$> w.(wk_tasks) !! i.
Proof. apply list_lookup_fmap. Qed.
Lemma moved_frame w t p : moved w t p -> frame w p.2.
Proof.
  intros [Hc|Hc _|p' Hc Hs _|p' world Hc Hs _]; [done| |apply Hs|].
  - destruct (begin_segment w) as (r & w1 & [Hf _ _ _ _] & Hm). destruct r as [u|e]; [|by rewrite Hm].
    etransitivity; [exact Hf|apply Hm].
  - destruct Hs as [[] _ _ _ _ _]. by split.
Qed.

Lemma react_serial ev w w' : serial w -> react env ev w = Some w' -> serial w'.
Proof.
  intros Hs Hr. destruct (react_reaction _ _ _ Hr) as [ev i t p Hev Ht Hd Hm|r w1 w' Ha Hp Hw|ev w' _ Hp].
  - intros i' t'. unfold put_task. cbn [wk_tasks set_tasks]. rewrite (fr_tasks _ _ (moved_frame _ _ _ Hm)), length_insert.
    destruct (decide (i' = i)) as [->|Hne]; [by intros _ _; eapply Hs|]. rewrite list_lookup_insert_ne by done. apply Hs.
  - pose proof (fr_tasks _ _ (pb_frame _ _ _ _ Hp)) as Et. cbn [wk_tasks set_flags] in Et. destruct r as [u|e]; [|subst w'].
    + destruct Hw as [beats ->]. cbn [wk_tasks set_beats set_tasks]. intros i t. cbn [wk_tasks set_beats set_tasks]. rewrite Et, length_app. cbn.
      intros [Ht|[Hi Ht]]%lookup_app_Some Hd; [by rewrite (serial_done _ _ _ Hs Ha Ht) in Hd|].
      apply lookup_lt_Some in Ht. cbn in Ht. lia.
    + intros i t. rewrite Et. apply Hs.
  - intros i t Ht Hd. pose proof (pv_pcs _ _ Hp) as He. pose proof (f_equal (fun l => l !! i) He) as Hi. cbn beta in Hi.
    rewrite !pcs_lookup, Ht in Hi. destruct (wk_tasks w !! i) as [t0|] eqn:E0; [|done]. injection Hi as Hi.
    apply (f_equal length) in He. unfold pcs in He. rewrite !length_map in He. rewrite He. apply (Hs _ _ E0).
    unfold is_done in *. by rewrite <-Hi.
Qed.

(** Which states the snapshot can show while the last task is where it is. *)
Definition draining (w : Wk) : Prop := state_of w = DRAINING /\ w.(wk_drain) = true.
Definition shows (w : Wk) : Prop :=
  match last (pcs w) with
  | None => state_of w = STOPPED
  | Some Created => state_of w = STARTING \/ draining w
  | Some InCycle | Some Pausing => state_of w = RUNNING \/ draining w
  | Some (Done r) => state_of w = STOPPED \/ (r = Err CancelledError /\ (state_of w = STARTING \/ draining w))
  end.
Definition persisted (w : Wk) : Prop := w.(wk_tasks) <> [] -> w.(wk_stored) = Some w.(wk_snapshot).

Lemma last_put i w t p : serial w -> w.(wk_tasks) !! i = Some t -> is_done t = false -> p.2.(wk_tasks) = w.(wk_tasks) ->
  last (pcs w) = Some t.(rt_pc) /\ last (pcs (put_task i p)) = Some p.1.
Proof.
  intros Hs Ht Hd He. pose proof (Hs _ _ Ht Hd) as Hl. unfold pcs, put_task. cbn [wk_tasks set_tasks].
  rewrite !last_lookup, He, !length_map, length_insert, <-Hl, !list_lookup_fmap. cbn [pred].
  rewrite Ht, list_lookup_insert_eq by lia. done.
Qed.

(** A task that moves shows what its new place allows. *)
Lemma moved_shows i w t p : accepting -> serial w -> w.(wk_tasks) !! i = Some t -> is_done t = false -> moved w t p -> shows w ->
  shows (put_task i p) /\ (wk_stored (put_task i p) = Some (wk_snapshot (put_task i p)) \/ wk_stored (put_task i p) = wk_stored w /\ wk_snapshot (put_task i p) = wk_snapshot w).
Proof.
  intros Ha Hs Ht Hd Hm Hw. destruct (last_put i w t p Hs Ht Hd (fr_tasks _ _ (moved_frame _ _ _ Hm))) as [L0 L1].
  unfold shows in Hw |- *. rewrite L0 in Hw. rewrite L1. clear L0 L1.
  assert (Hdr : draining w -> state_of p.2 = state_of w -> draining (put_task i p)).
  { intros [A B] E. split; [exact (eq_trans E A)|]. cbn. by rewrite (fr_drain _ _ (moved_frame _ _ _ Hm)). }
  assert (Hseg : forall w0 p, state_of w0 = state_of w -> segment w0 p -> (state_of w = RUNNING \/ draining w) ->
    (draining w -> state_of p.2 = state_of w -> draining (put_task i p)) ->
    match p.1 with
    | Created => state_of (put_task i p) = STARTING \/ draining (put_task i p)
    | InCycle | Pausing => state_of (put_task i p) = RUNNING \/ draining (put_task i p)
    | Done r => state_of (put_task i p) = STOPPED \/ (r = Err CancelledError /\ (state_of (put_task i p) = STARTING \/ draining (put_task i p)))
    end).
  { clear. intros w0 p E [_ _ _ Hc Hst _] Hw Hdr. destruct (p.1) eqn:Ep; [done| | |by left];
      (rewrite E in Hst; destruct Hw as [Hw|Hw]; [left; exact (eq_trans Hst Hw)|right; by apply Hdr]). }
  destruct Hm as [Hc|Hc _|p Hc Hsg _|p world Hc Hsg Hn]; rewrite Hc in Hw; cbn [fst snd] in *.
  - split; [|right; done]. right. split; [done|]. destruct Hw as [Hw|Hw]; [by left|right; by apply Hdr].
  - destruct (begin_segment w) as (r & w1 & Hp & Hm). destruct r as [u|e]; [|by specialize (pb_accepted _ _ _ _ Hp Ha)].
    split; [|left; apply Hm, Ha]. destruct Hm as [_ _ _ Hcr Hst _]. pose proof (pb_state _ _ _ _ Hp) as H1.
    destruct (_.1) eqn:Ep; [done| | |by left]; left; exact (eq_trans Hst H1).
  - split; [|left; apply Hsg, Ha]. apply (Hseg w); [done|done|done|exact Hdr].
  - split; [|left; apply Hsg, Ha]. apply (Hseg (set_env world w)); [done|done|done|exact Hdr].
Qed.

Lemma react_shows ev w w' : accepting -> serial w -> shows w -> persisted w -> react env ev w = Some w' -> shows w' /\ persisted w'.
Proof.
  intros Ha Hs Hw Hst Hr. destruct (react_reaction _ _ _ Hr) as [ev i t p Hev Ht Hd Hm|r w1 w' Hact Hp Hw'|ev w' _ Hp].
  - destruct (moved_shows i w t p Ha Hs Ht Hd Hm Hw) as [A B]. split; [done|]. intros _. destruct B as [B|[B1 B2]]; [done|].
    rewrite B1, B2. apply Hst. intros E. by rewrite E in Ht.
  - destruct r as [u|e]; [|by specialize (pb_accepted _ _ _ _ Hp Ha)]. destruct Hw' as [beats ->]. destruct u. split.
    + unfold shows, pcs. cbn [wk_tasks set_beats set_tasks]. rewrite map_app. cbn. rewrite last_snoc. left. exact (pb_state _ _ _ _ Hp).
    + intros _. exact (pb_stored _ _ _ _ Hp eq_refl).
  - destruct Hp as [P1 P2 P3 P4 P5 P6]. split.
    + assert (Hdr : draining w -> draining w').
      { intros [A B]. destruct P5 as [P5|(P5 & ? & _)]; [|by split]. split; [congruence|by apply P3]. }
      unfold shows in *. rewrite P1. destruct P5 as [P5|(P5 & P5' & Hact)].
      * destruct (last (pcs w)) as [[| | |r]|]; rewrite ?P5; intuition.
      * apply active_pc in Hact as (pc & -> & Hpc). destruct pc as [| | |r]; [..|by destruct (Hpc r)]; right; by split.
    + intros Hne. apply P6, Hst; [done|]. intros E. apply Hne, length_zero_iff_nil. apply (f_equal length) in P1.
      unfold pcs in P1. rewrite !length_map in P1. by rewrite P1, E.
Qed.

(** ** Draining *)

(** The activations a task still needs once no new cycle may start. *)
Definition rank (pc : run_pc) : nat := match pc with Done _ => 0 | Created | Pausing => 1 | InCycle => 2 end.
Definition work (w : Wk) : nat := sum_list_with rank (pcs w).
Definition quiet (w : Wk) : Prop := w.(wk_stop) || w.(wk_drain) = true \/ active w = None.

Lemma sum_insert {A} (f : A -> nat) (l : list A) i x y : l !! i = Some x ->
  (sum_list_with f (<[i := y]> l) + f x = sum_list_with f l + f y)%nat.
Proof.
  revert i. induction l as [|a l IH]; intros i Hi; [done|]. destruct i as [|i]; [injection Hi as ->; cbn; lia|].
  change (<[S i := y]> (a :: l)) with (a :: <[i := y]> l). specialize (IH i Hi). cbn [sum_list_with]. lia.
Qed.

Lemma moved_rank w t p : w.(wk_stop) || w.(wk_drain) = true -> is_done t = false -> moved w t p ->
  (rank p.1 < rank t.(rt_pc))%nat /\ p.2.(wk_cycles) = w.(wk_cycles).
Proof.
  intros Hq Hd [Hc|Hc Hp|p' Hc Hs Hp|p' world Hc Hs Hn]; rewrite Hc; cbn [fst snd].
  - split; [cbn; lia|done].
  - destruct (begin_segment w) as (r & w1 & [Hf _ Hcy _ _] & Hm). destruct r as [u|e]; [|rewrite Hm; split; [cbn; lia|exact Hcy]].
    destruct Hm as [_ M1 M2 M3 _ _]. rewrite (fr_stop _ _ Hf), (fr_drain _ _ Hf), Hq in M2.
    destruct (_.1) eqn:Ep; [done|by specialize (M2 eq_refl)|done|]. split; [cbn; lia|congruence].
  - destruct Hs as [_ M1 M2 M3 _ _]. rewrite Hq in M2.
    destruct (p'.1) eqn:Ep; [done|by specialize (M2 eq_refl)|done|]. split; [cbn; lia|congruence].
  - destruct Hs as [_ M1 _ M3 _ _]. destruct (p'.1) eqn:Ep; [done|done|..]; (split; [cbn; lia|exact M1]).
Qed.

Lemma react_quiet ev w w' : serial w -> quiet w -> react env ev w = Some w' ->
  (length w.(wk_tasks) <= length w'.(wk_tasks))%nat /\
  (length w'.(wk_tasks) = length w.(wk_tasks) ->
   quiet w' /\ w'.(wk_cycles) = w.(wk_cycles) /\ ((if task_event ev then 1 else 0) + work w' <= work w)%nat).
Proof.
  intros Hs Hq Hr. destruct (react_reaction _ _ _ Hr) as [ev i t p Hev Ht Hd Hm|r w1 w' Ha Hp Hw|ev w' Hev Hp].
  - pose proof (moved_frame _ _ _ Hm) as [F1 _ _ F4 F5].
    assert (Hfl : w.(wk_stop) || w.(wk_drain) = true).
    { destruct Hq as [Hq|Hq]; [done|]. by rewrite (serial_done _ _ _ Hs Hq Ht) in Hd. }
    destruct (moved_rank _ _ _ Hfl Hd Hm) as [Hrank Hc]. unfold put_task. cbn [wk_tasks set_tasks]. rewrite F1, length_insert.
    split; [done|]. intros _. split; [left; cbn; by rewrite F4, F5|]. split; [exact Hc|].
    rewrite Hev. unfold work, pcs. cbn [wk_tasks set_tasks]. rewrite ?F1.
    change (List.map rt_pc ?l) with (rt_pc <$> l). rewrite list_fmap_insert.
    pose proof (sum_insert rank (rt_pc <$> wk_tasks w) i (rt_pc t) p.1) as Hsum.
    rewrite list_lookup_fmap, Ht in Hsum. specialize (Hsum eq_refl). cbn [rt_pc]. lia.
  - pose proof (fr_tasks _ _ (pb_frame _ _ _ _ Hp)) as Et. cbn [wk_tasks set_flags] in Et. destruct r as [u|e].
    + destruct Hw as [beats ->]. cbn [wk_tasks set_beats set_tasks]. rewrite Et, length_app. cbn. split; lia.
    + subst w'. rewrite Et. split; [done|]. intros _.
      assert (Hpcs : pcs w1 = pcs w) by (unfold pcs; by rewrite Et). split; [right|split; [exact (pb_cycles _ _ _ _ Hp)|]].
      * unfold active, task in Ha |- *. rewrite Et. exact Ha.
      * unfold work. by rewrite Hpcs.
  - destruct Hp as [P1 P2 P3 P4 P5 P6]. pose proof (f_equal length P1) as Hl. unfold pcs in Hl. rewrite !length_map in Hl.
    split; [lia|]. intros _. rewrite Hev. split; [|split; [exact P4|unfold work; rewrite P1; lia]]. destruct Hq as [Hq|Hq].
    + left. apply orb_true_iff in Hq as [Hq|Hq]; apply orb_true_iff; [left; by apply P2|right; by apply P3].
    + right. destruct (active w') eqn:Ea; [|done]. exfalso.
      assert (active w' <> None) as (pc & Hpc & Hn)%active_pc by (by rewrite Ea). rewrite P1 in Hpc.
      assert (active w <> None) by (apply active_pc; by exists pc). done.
Qed.

Lemma react_tasks ev w w' : react env ev w = Some w' -> (length w.(wk_tasks) <= length w'.(wk_tasks))%nat.
Proof.
  intros Hr. destruct (react_reaction _ _ _ Hr) as [ev i t p _ _ _ Hm|r w1 w' _ Hp Hw|ev w' _ [P1 _ _ _ _ _]].
  - unfold put_task. cbn [wk_tasks set_tasks]. by rewrite length_insert, (fr_tasks _ _ (moved_frame _ _ _ Hm)).
  - pose proof (fr_tasks _ _ (pb_frame _ _ _ _ Hp)) as Et. cbn [wk_tasks set_flags] in Et. rewrite <-Et.
    destruct r as [u|e]; [destruct Hw as [beats ->]; cbn; rewrite length_app; lia|by subst w'].
  - apply (f_equal length) in P1. unfold pcs in P1. rewrite !length_map in P1. lia.
Qed.
(** A serial worker has at most two activations left. *)
Lemma serial_work w : serial w -> (work w <= 2)%nat.
Proof.
  unfold work, pcs, serial. intros Hs. destruct (wk_tasks w) as [|t l _] using rev_ind; [cbn; lia|].
  rewrite map_app, sum_list_with_app. cbn.
  assert (sum_list_with rank (List.map rt_pc l) = 0%nat) as ->; [|destruct (rt_pc t); cbn; lia].
  assert (Hd : forall x, x ∈ l -> is_done x = true).
  { intros x [i Hi]%list_elem_of_lookup. destruct (is_done x) eqn:Hx; [done|]. exfalso.
    assert (S i = length (l ++ [t])) as Hlen by (apply (Hs i x); [by apply lookup_app_l_Some|done]).
    apply lookup_lt_Some in Hi. rewrite length_app in Hlen. cbn in Hlen. lia. }
  clear Hs. induction l as [|x l IH]; [done|]. cbn. rewrite IH by (intros y Hy; apply Hd; by right).
  pose proof (Hd x ltac:(by left)) as Hx. unfold is_done in Hx. by destruct (rt_pc x).
Qed.

(** Whatever is unfinished can go on. *)
Lemma unfinished_enabled w i t world : w.(wk_tasks) !! i = Some t -> is_done t = false ->
  exists ev, task_event ev = true /\ is_Some (react env ev w) /\ (ev = Resume i \/ ev = CycleEnds i (Ok tt) world).
Proof.
  intros Ht Hd. destruct t as [pc c]. unfold is_done in Hd. cbn in Hd. destruct pc as [| | |r]; [| | |done].
  - exists (Resume i). cbn. rewrite Ht. split; [done|]. split; [by eexists|by left].
  - exists (CycleEnds i (Ok tt) world). cbn. rewrite Ht. split; [done|]. split; [by eexists|by right].
  - exists (Resume i). cbn. rewrite Ht. split; [done|]. split; [by eexists|by left].
Qed.
End WorkerTheory.

(** ** Properties of a worker *)

Lemma reacts_serial {W} (env : WorkerEnv W) evs : forall w w', serial w -> reacts env evs w = Some w' -> serial w'.
Proof.
  induction evs as [|ev evs IH]; intros w w' Hs E; cbn [reacts] in E; [by injection E as <-|].
  destruct (react env ev w) as [w1|] eqn:E1; [|done]. apply (IH w1 w'); [by eapply react_serial|exact E].
Qed.
Lemma new_worker {W} (env : WorkerEnv W) market instance_id interval heartbeat world w0 world' :
  worker_new env market instance_id interval heartbeat world = (Ok w0, world') ->
  w0.(wk_tasks) = [] /\ state_of w0 = STOPPED /\ w0.(wk_snapshot).(ws_market) = market.
Proof.
  unfold worker_new, mbind, M_bind, lift. destruct (raise_if _ _); [|done]. destruct (we_clock env world) as [t world1].
  by intros [= <- <-].
Qed.

(** Cycles are serial.  In every run of events from a new worker, with
    whatever failures of the store and interleaving of callers, a task in a
    cycle is the only one that has not ended. *)
Theorem worker_serial {W} (env : WorkerEnv W) market instance_id interval heartbeat world (w0 : Worker W) world' evs w :
  worker_new env market instance_id interval heartbeat world = (Ok w0, world') -> reacts env evs w0 = Some w ->
  forall i j t u, w.(wk_tasks) !! i = Some t -> w.(wk_tasks) !! j = Some u -> t.(rt_pc) = InCycle -> is_done u = false -> i = j.
Proof.
  intros (Ht & _)%new_worker E i j t u Hi Hj Hc Hu.
  assert (Hs : serial w) by (eapply reacts_serial; [|exact E]; intros k x; by rewrite Ht).
  assert (Hd : is_done t = false) by (unfold is_done; by rewrite Hc).
  pose proof (Hs _ _ Hi Hd). pose proof (Hs _ _ Hj Hu). lia.
Qed.


Lemma reacts_tasks {W} (env : WorkerEnv W) evs : forall w w', reacts env evs w = Some w' ->
  (length w.(wk_tasks) <= length w'.(wk_tasks))%nat.
Proof.
  induction evs as [|ev evs IH]; intros w w' E; cbn [reacts] in E; [by injection E as <-|].
  destruct (react env ev w) as [w1|] eqn:E1; [|done]. etransitivity; [by eapply react_tasks|by apply IH].
Qed.
Lemma reacts_quiet {W} (env : WorkerEnv W) evs : forall w w', serial w -> quiet w -> reacts env evs w = Some w' ->
  (length w.(wk_tasks) <= length w'.(wk_tasks))%nat /\
  (length w'.(wk_tasks) = length w.(wk_tasks) ->
   w'.(wk_cycles) = w.(wk_cycles) /\ (length (List.filter task_event evs) + work w' <= work w)%nat).
Proof.
  induction evs as [|ev evs IH]; intros w w' Hs Hq E; cbn [reacts] in E; [injection E as <-; cbn; lia|].
  destruct (react env ev w) as [w1|] eqn:E1; [|done].
  destruct (react_quiet env _ _ _ Hs Hq E1) as [L1 Q1]. pose proof (react_serial env _ _ _ Hs E1) as Hs1.
  assert (Hmono : (length w1.(wk_tasks) <= length w'.(wk_tasks))%nat).
  { by eapply reacts_tasks. }
  split; [lia|]. intros Hl. destruct Q1 as (Q1 & C1 & W1); [lia|]. destruct (IH w1 w' Hs1 Q1 E) as [_ H2].
  destruct H2 as [C2 W2]; [lia|]. split; [congruence|]. cbn [List.filter]. destruct (task_event ev); cbn [length]; lia.
Qed.

(** C35. Draining and stopping.  From the moment a drain or a stop is requested,
    as long as no later start creates a new task, no further cycle starts,
    the task is activated at most twice more (once it is in a cycle, else
    once), and it can always go on until it has ended. *)
Theorem drain_is_bounded {W} (env : WorkerEnv W) (w w' : Worker W) evs :
  serial w -> w.(wk_stop) || w.(wk_drain) = true -> reacts env evs w = Some w' ->
  length w'.(wk_tasks) = length w.(wk_tasks) ->
  w'.(wk_cycles) = w.(wk_cycles) /\
  (length (List.filter task_event evs) + work w' <= work w <= 2)%nat /\
  (forall i t, w'.(wk_tasks) !! i = Some t -> is_done t = false ->
     exists ev, task_event ev = true /\ is_Some (react env ev w')).
Proof.
  intros Hs Hq E Hl. destruct (reacts_quiet env evs w w' Hs (or_introl Hq) E) as [_ H]. destruct (H Hl) as [Hc Hw].
  split; [done|]. split; [pose proof (serial_work w Hs); lia|]. intros i t Ht Hd.
  destruct (unfinished_enabled env w' i t w'.(wk_world) Ht Hd) as (ev & A & B & _). by exists ev.
Qed.

(** ** The supervisor of the three markets *)

Definition py_list_repr (l : list string) : string := "[" +:+ (String.concat ", " (List.map repr_str l) +:+ "]").

(** [RuntimeSupervisor.__init__] *)
Definition supervisor_new {A} (workers : dict Market A) : result (dict Market A) :=
  let missing := List.filter (fun m => negb (dict_mem m workers)) all_markets in
  _ ← raise_if (match missing with [] => false | _ => true end)
        (ValueError ("workers must cover all markets; missing=" +:+ (py_list_repr (py_sorted str_ltb (List.map Market_value missing))
           +:+ (", extra=" +:+ py_list_repr []))));
  mret workers.

Section RuntimeSupervisor.
Context {W : Type} (env : WorkerEnv W).
Abbreviation Workers := (dict Market (Worker W)).

Definition snapshots (workers : Workers) : dict Market WorkerSnapshot :=
  Dict ((fun '(m, w) => (m, w.(wk_snapshot))) <$> entries workers).
Definition each_worker (f : Worker W -> Worker W) (workers : Workers) : Workers := Dict ((fun '(m, w) => (m, f w)) <$> entries workers).
Definition first_error (l : list (result unit)) : result unit :=
  match List.filter (fun r => negb (is_ok r)) l with r :: _ => r | [] => Ok tt end.

(** [start]: every worker starts; the first exception is raised. *)
Definition supervisor_start : M Workers unit := fun workers =>
  (first_error ((fun '(m, w) => (start env w).1) <$> entries workers), each_worker (fun w => (start env w).2) workers).

(** A call that a worker receives, up to its first await. *)
Definition receive (kind : call_kind) (w : Worker W) : Worker W :=
  let '(stage, w') := call_begins env kind w in set_callers (w'.(wk_callers) ++ [{| cl_kind := kind; cl_stage := stage |}]) w'.

(** [shutdown] begins by draining every worker; when its deadline passes the
    drains still waiting are interrupted and every worker is cancelled. *)
Definition shutdown_begins (timeout : float) : M Workers unit :=
  _ ← lift (raise_if (timeout <=? 0)%float (ValueError "drain timeout must be positive"));
  modify (each_worker (receive DrainCall)).
Definition interrupt_last (w : Worker W) : Worker W :=
  match w.(wk_callers) with [] => w | _ => default w (react env (Interrupt (pred (length w.(wk_callers)))) w) end.
Definition shutdown_expires : M Workers unit := modify (fun workers => each_worker (receive CancelCall) (each_worker interrupt_last workers)).
End RuntimeSupervisor.

Lemma receive_quiet {W} (env : WorkerEnv W) (w : Worker W) : quiet (receive env DrainCall w).
Proof.
  unfold receive. cbn [call_begins]. destruct (active w) as [i|] eqn:Ea.
  - destruct (publish env (Some DRAINING) None None None _) as [[u|e] w'] eqn:E; apply publish_effect in E as [[_ _ _ F4 F5] _ _ _ _];
      left; cbn; rewrite F5; cbn; by rewrite orb_true_r.
  - right. cbn. exact Ea.
Qed.
Lemma receive_react {W} (env : WorkerEnv W) kind (w : Worker W) : react env (Call kind) w = Some (receive env kind w).
Proof. unfold react, receive. by destruct (call_begins env kind w). Qed.

(** A shutdown stops every market.  Once it has begun, no worker starts a
    cycle again, whatever its tasks, heartbeats and callers do, unless a
    later start gives it a new task, and each needs at most two activations
    to end. *)
Theorem shutdown_quiesces {W} (env : WorkerEnv W) (workers workers' : dict Market (Worker W)) timeout market w' evs w'' :
  (forall m w, (m, w) ∈ entries workers -> serial w) ->
  shutdown_begins env timeout workers = (Ok tt, workers') -> (market, w') ∈ entries workers' ->
  reacts env evs w' = Some w'' -> length w''.(wk_tasks) = length w'.(wk_tasks) ->
  w''.(wk_cycles) = w'.(wk_cycles) /\ (length (List.filter task_event evs) + work w'' <= work w' <= 2)%nat.
Proof.
  intros Hs. unfold shutdown_begins, mbind, M_bind, lift, modify. destruct (raise_if _ _); [|done]. intros [= <-].
  unfold each_worker. cbn [entries]. intros [[m w] [[= -> ->] Hin]]%list_elem_of_fmap E Hl.
  assert (Hser : serial (receive env DrainCall w)) by (eapply react_serial; [eapply Hs, Hin|apply receive_react]).
  destruct (reacts_quiet env evs _ _ Hser (receive_quiet env w) E) as [_ H]. destruct (H Hl) as [Hc Hw].
  split; [done|]. pose proof (serial_work _ Hser). lia.
Qed.

Module SupervisorExample.
(** A clock that ticks; saves fail while the counter is in the list. *)
Definition environment (bad : list Z) : WorkerEnv Z := {|
  we_clock n := (at_utc (n * second), (n + 1)%Z);
  we_save _ n := (if bool_decide (n ∈ bad) then Err (OtherException "OperationalError" "server closed") else Ok tt, n) |}.
Definition good := environment [].
Definition fresh : Worker Z := match worker_new good NSE "host-1" 60 10 0%Z with (Ok w, _) => w | (Err _, _) =>
  {| wk_snapshot := {| ws_market := NSE; ws_instance_id := ""; ws_state := FAILED; ws_last_heartbeat := at_utc 0;
       ws_last_cycle_started := None; ws_last_cycle_finished := None; ws_last_error := None |};
     wk_stored := None; wk_stop := false; wk_drain := false; wk_tasks := []; wk_beats := []; wk_callers := []; wk_cycles := 0;
     wk_world := 0%Z |} end.
Definition after (env : WorkerEnv Z) (evs : list event) : Worker Z := default fresh (reacts env evs fresh).
Definition shown (w : Worker Z) := (state_of w, List.map rt_pc w.(wk_tasks), w.(wk_cycles), ws_last_error (wk_snapshot w)).

(** Two cycles, the second failing, then a drain during the third. *)
Definition day : list event :=
  [Start; Beat 0; Resume 0; Beat 0; CycleEnds 0 (Ok tt) 10%Z; Resume 0; CycleEnds 0 (Err (ValueError "no candles")) 20%Z; Resume 0].
Definition evening : list event :=
  [Call DrainCall; Beat 0; CycleEnds 0 (Ok tt) 30%Z; Resume 0; Continue 0 (Ok tt); Beat 0; Continue 0 (Ok tt); Continue 0 (Ok tt)].

Example working_day :
  shown (after good day) = (RUNNING, [InCycle], 3%nat, None) /\
  shown (after good (day ++ evening)) = (STOPPED, [Done (Ok tt)], 3%nat, None) /\
  (after good (day ++ evening)).(wk_callers) = [{| cl_kind := DrainCall; cl_stage := Returned (Ok tt) |}].
Proof. vm_compute. repeat split. Qed.

(** A save that fails as the task publishes RUNNING ends the task outside
    its [finally]: the snapshot says RUNNING, and heartbeats repeat it, with
    no task left. *)
Example running_without_task :
  let w := after (environment [3%Z]) [Start; Resume 0; Beat 0; Beat 0] in
  shown w = (RUNNING, [Done (Err (OtherException "OperationalError" "server closed"))], 0%nat, None) /\
  wk_stored w = Some (wk_snapshot w) /\ wk_beats w = [{| bt_done := false; bt_cancel := false |}].
Proof. vm_compute. repeat split. Qed.

(** A task cancelled before its first step leaves the snapshot STARTING. *)
Example cancelled_unbegun :
  shown (after good [Start; Call CancelCall; Resume 0; Continue 0 (Ok tt); Beat 0; Continue 0 (Ok tt); Continue 0 (Ok tt)]) =
  (STARTING, [Done (Err CancelledError)], 0%nat, None).
Proof. vm_compute. reflexivity. Qed.

(** Stopping a worker whose task was cancelled raises CancelledError in the
    caller. *)
Example stop_after_cancel :
  let w := after good [Start; Resume 0; Call CancelCall; CycleEnds 0 (Err CancelledError) 9%Z; Continue 0 (Ok tt); Beat 0;
                       Continue 0 (Ok tt); Continue 0 (Ok tt); Call StopCall; Continue 1 (Ok tt)] in
  shown w = (STOPPED, [Done (Err CancelledError)], 1%nat, Some "worker cancelled") /\
  List.map cl_stage w.(wk_callers) = [Returned (Ok tt); Returned (Err CancelledError)].
Proof. vm_compute. split; reflexivity. Qed.

Lemma accepts : accepting good.
Proof. intros s w. by eexists. Qed.

Lemma worker_serial_witness :
  forall i j t u, (after good day).(wk_tasks) !! i = Some t -> (after good day).(wk_tasks) !! j = Some u -> t.(rt_pc) = InCycle ->
    is_done u = false -> i = j.
Proof. apply (worker_serial good NSE "host-1" 60 10 0%Z fresh 1%Z day); vm_compute; reflexivity. Defined.

Lemma day_serial : serial (after good day).
Proof. intros i t. vm_compute. by destruct i as [|[|i]]. Qed.
(** The drain of [evening], from the state after its request. *)
Definition requested : Worker Z := after good (day ++ [Call DrainCall]).
Definition drained : Worker Z := after good (day ++ evening).
Lemma drain_is_bounded_witness :
  drained.(wk_cycles) = requested.(wk_cycles) /\
  (length (List.filter (task_event (W := Z)) (tail evening)) + work drained <= work requested <= 2)%nat /\
  (forall i t, drained.(wk_tasks) !! i = Some t -> is_done t = false ->
     exists ev, task_event ev = true /\ is_Some (react good ev drained)).
Proof.
  apply (drain_is_bounded good requested drained (tail evening)); [|reflexivity|vm_compute; reflexivity|reflexivity].
  intros i t. vm_compute. by destruct i as [|[|i]].
Defined.

Definition markets : dict Market (Worker Z) := Dict [(NSE, after good day); (FOREX, fresh); (CRYPTO, after good day)].
Definition closing : Worker Z := receive good DrainCall (after good day).
Lemma shutdown_quiesces_witness :
  drained.(wk_cycles) = closing.(wk_cycles) /\
  (length (List.filter (task_event (W := Z)) (tail evening)) + work drained <= work closing <= 2)%nat.
Proof.
  apply (shutdown_quiesces good markets (each_worker (receive good DrainCall) markets) 30 CRYPTO closing (tail evening) drained);
    [|reflexivity|right; right; left|vm_compute; reflexivity|reflexivity].
  intros m w [[= -> ->]|[[= -> ->]|[[= -> ->]|[]%elem_of_nil]%elem_of_cons]%elem_of_cons]%elem_of_cons; first [apply day_serial|done].
Defined.
End SupervisorExample.
