(* ===== verification/Commands.v ===== *)
(** * Durable commands for the market workers (src/nanodelta/runtime/control.py)

    The mailbox is a table of commands: a consumer claims the oldest pending
    one, runs the worker's transition under a deadline and records how it
    ended.  The rows are the table's; a claim is one transaction, and of rows
    requested at the same instant the first is taken.  The transitions of the
    workers are operations of the world. *)

From Stdlib Require Import ZArith String ZifyBool.
From stdpp Require Import prelude strings list.
From S2P Require Import Prelude PyData PyText PyTime Contracts Adapters Etl Controller Realtime.

Local Open Scope Z_scope.

Record RuntimeCommand := {
  rq_command_id : string;
  rq_market : Market;
  rq_command : Command;
  rq_requested_at : datetime }.

Inductive queue_state := PENDING | CLAIMED | SUCCEEDED | FAILED.
#[export] Instance queue_state_eq_dec : EqDecision queue_state.
Proof. solve_decision. Defined.
Record queue_row := {
  qr_command : RuntimeCommand;
  qr_state : queue_state;
  qr_attempts : Z;
  qr_instance_id : option string;
  qr_last_error : option string }.
Definition row_id (r : queue_row) : string := r.(qr_command).(rq_command_id).
Definition pending (r : queue_row) : bool := bool_decide (r.(qr_state) = PENDING).
Definition row_time (r : queue_row) : Z := instant r.(qr_command).(rq_requested_at).

(** [ORDER BY requested_at ... LIMIT 1] over the pending rows *)
Fixpoint oldest_pending (rows : list queue_row) : option queue_row :=
  match rows with
  | [] => None
  | r :: rows =>
      match pending r, oldest_pending rows with
      | true, Some o => if row_time o <? row_time r then Some o else Some r
      | true, None => Some r
      | false, o => o
      end
  end.

(** [UPDATE ... SET state='RUNNING', attempts=attempts+1, instance_id=%s] *)
Definition claimed (instance : string) (r : queue_row) : queue_row :=
  {| qr_command := r.(qr_command); qr_state := CLAIMED; qr_attempts := r.(qr_attempts) + 1; qr_instance_id := Some instance;
     qr_last_error := r.(qr_last_error) |}.
(** [UPDATE ... SET state=%s, last_error=%s] *)
Definition completed (error : option string) (r : queue_row) : queue_row :=
  {| qr_command := r.(qr_command); qr_state := match error with Some _ => FAILED | None => SUCCEEDED end;
     qr_attempts := r.(qr_attempts); qr_instance_id := r.(qr_instance_id); qr_last_error := error |}.
Definition update_row (where_ : queue_row -> bool) (f : queue_row -> queue_row) (rows : list queue_row) : list queue_row :=
  (fun r => if where_ r then f r else r) <$> rows.

(** [PostgresRuntimeCommandMailbox.claim] and [.complete] *)
Definition claim (instance : string) : M (list queue_row) (option RuntimeCommand) :=
  rows ← get_state;
  match oldest_pending rows with
  | None => mret None
  | Some r =>
      _ ← modify (update_row (fun x => String.eqb (row_id x) (row_id r)) (claimed instance));
      mret (Some r.(qr_command))
  end.
Definition owned (instance id : string) (r : queue_row) : bool :=
  String.eqb (row_id r) id && bool_decide (r.(qr_instance_id) = Some instance).
Definition complete (instance id : string) (error : option string) : M (list queue_row) unit :=
  modify (update_row (owned instance id) (completed error)).

(** The workers' operations over the world; [start], [stop] and [drain] run
    under the consumer's deadline and raise TimeoutError when it passes. *)
Record WorkerOps (W : Type) := {
  wo_workers : list Market;
  wo_start : Market -> M W unit;
  wo_stop : Market -> M W unit;
  wo_drain : Market -> M W unit;
  wo_cancel : Market -> M W unit }.
Arguments wo_workers {W}.
Arguments wo_start {W}.
Arguments wo_stop {W}.
Arguments wo_drain {W}.
Arguments wo_cancel {W}.

Record ConsumerWorld (W : Type) := MkConsumerWorld { cw_queue : list queue_row; cw_world : W }.
Arguments MkConsumerWorld {W}.
Arguments cw_queue {W}.
Arguments cw_world {W}.

Definition is_timeout (e : exn) : bool := String.eqb (class_name e) "TimeoutError".
(** [try: m  except ... as r] *)
Definition attempt {S A} (m : M S A) : M S (result A) := fun s => let '(r, s') := m s in (Ok r, s').

Section Consumer.
Context {W : Type} (ops : WorkerOps W) (instance : string).
Abbreviation Cw := (ConsumerWorld W).

Definition in_queue {A} (m : M (list queue_row) A) : M Cw A := zoom cw_queue (fun q w => MkConsumerWorld q w.(cw_world)) m.
Definition in_workers {A} (m : M W A) : M Cw A := zoom cw_world (fun x w => MkConsumerWorld w.(cw_queue) x) m.

Definition transition_of (q : RuntimeCommand) : M W unit :=
  match q.(rq_command) with
  | START => ops.(wo_start) q.(rq_market)
  | STOP_COMMAND => ops.(wo_stop) q.(rq_market)
  | DRAIN => ops.(wo_drain) q.(rq_market)
  | REPAIR => raise (RuntimeError ("unsupported runtime command: " +:+ Command_value q.(rq_command)))
  end.

(** [RuntimeCommandConsumer.process_one] *)
Definition settle (q : RuntimeCommand) (r : result unit) : M Cw bool :=
  match r with
  | Ok _ => _ ← in_queue (complete instance q.(rq_command_id) None); mret true
  | Err e =>
      if is_cancelled e then raise e
      else
        _ ← when (is_timeout e) (in_workers (ops.(wo_cancel) q.(rq_market)));
        _ ← in_queue (complete instance q.(rq_command_id) (Some (error_text e)));
        mret true
  end.
Definition process_one : M Cw bool :=
  queued ← in_queue (claim instance);
  match queued with
  | None => mret false
  | Some q =>
      _ ← lift (raise_if (negb (bool_decide (q.(rq_market) ∈ ops.(wo_workers)))) (KeyError (Market_value q.(rq_market))));
      r ← attempt (in_workers (transition_of q));
      settle q r
  end.
End Consumer.

(** ** The queue *)

Lemma oldest_none rows : oldest_pending rows = None <-> forall r, r ∈ rows -> pending r = false.
Proof.
  induction rows as [|r rows IH]; cbn [oldest_pending]; [split; [intros _ r Hr; by apply elem_of_nil in Hr|done]|].
  destruct (pending r) eqn:Hp.
  - split; [destruct (oldest_pending rows); [destruct (_ <? _)|]; done|]. intros H. by rewrite (H r ltac:(by left)) in Hp.
  - rewrite IH. split; [intros H x [->|Hx]%elem_of_cons; auto|]. intros H x Hx. apply H. by right.
Qed.
Lemma oldest_some rows r : oldest_pending rows = Some r ->
  r ∈ rows /\ pending r = true /\ forall x, x ∈ rows -> pending x = true -> row_time r <= row_time x.
Proof.
  revert r. induction rows as [|y rows IH]; intros r; cbn [oldest_pending]; [done|].
  destruct (pending y) eqn:Hp; [destruct (oldest_pending rows) as [o|] eqn:Eo; [destruct (row_time o <? row_time y) eqn:Et|]|].
  - intros [= <-]. destruct (IH _ eq_refl) as (A & B & C). split; [by right|]. split; [done|].
    intros x [->|Hx]%elem_of_cons Hpx; [lia|by apply C].
  - intros [= <-]. destruct (IH _ eq_refl) as (A & B & C). split; [by left|]. split; [done|].
    intros x [->|Hx]%elem_of_cons Hpx; [lia|]. specialize (C _ Hx Hpx). lia.
  - intros [= <-]. split; [by left|]. split; [done|]. intros x [->|Hx]%elem_of_cons Hpx; [lia|].
    by rewrite (proj1 (oldest_none rows) Eo x Hx) in Hpx.
  - intros E. destruct (IH _ E) as (A & B & C). split; [by right|]. split; [done|].
    intros x [->|Hx]%elem_of_cons Hpx; [congruence|by apply C].
Qed.

(** The row with an identity changed, the others as they were. *)
Definition with_row (id : string) (f : queue_row -> queue_row) (rows : list queue_row) : list queue_row :=
  update_row (fun x => String.eqb (row_id x) id) f rows.

(** Completing a row the instance has claimed changes that row alone. *)
Lemma complete_claimed instance id error rows :
  update_row (owned instance id) (completed error) (with_row id (claimed instance) rows) =
  with_row id (fun r => completed error (claimed instance r)) rows.
Proof.
  unfold with_row, update_row. rewrite <-list_fmap_compose. apply list_fmap_ext. intros i r _. cbn. unfold owned.
  destruct (String.eqb (row_id r) id) eqn:E; [|by rewrite E].
  unfold row_id in *. cbn. by rewrite E, bool_decide_true.
Qed.

Section ConsumerTheory.
Context {W : Type} (ops : WorkerOps W) (instance : string).
Abbreviation Cw := (ConsumerWorld W).

(** How a served command ends in the table. *)
Definition served (r : result bool) (transition : result unit) (row : queue_row) : queue_row :=
  match r, transition with
  | Ok _, Ok _ => completed None (claimed instance row)
  | Ok _, Err e => completed (Some (error_text e)) (claimed instance row)
  | Err _, _ => claimed instance row
  end.

Lemma settle_row q transition rows x (w' : Cw) r :
  settle ops instance q transition (MkConsumerWorld (with_row q.(rq_command_id) (claimed instance) rows) x) = (r, w') ->
  w'.(cw_queue) = with_row q.(rq_command_id) (served r transition) rows /\
  match r with Ok b => b = true | Err _ => is_ok transition = false end.
Proof.
  unfold settle. destruct transition as [u|e].
  - unfold mbind, M_bind, in_queue, zoom, complete, modify. cbn [cw_queue cw_world]. intros [= <- <-]. cbn. by rewrite complete_claimed.
  - destruct (is_cancelled e); [by intros [= <- <-]|].
    unfold mbind, M_bind. destruct (when (is_timeout e) _ _) as [[v|e'] w1] eqn:Ew.
    + assert (Hq : cw_queue w1 = with_row (rq_command_id q) (claimed instance) rows).
      { revert Ew. destruct (is_timeout e); cbn [when]; [|by intros [= _ <-]]. unfold in_workers, zoom. cbn.
        destruct (wo_cancel _ _ x). by intros [= _ <-]. }
      unfold in_queue, zoom, complete, modify. intros [= <- <-]. cbn. by rewrite Hq, complete_claimed.
    + intros [= <- <-]. split; [|done]. revert Ew. destruct (is_timeout e); cbn [when]; [|done].
      unfold in_workers, zoom. cbn. destruct (wo_cancel _ _ x). by intros [= _ <-].
Qed.

Lemma claim_effect (w : Cw) : in_queue (claim instance) w =
  match oldest_pending w.(cw_queue) with
  | None => (Ok None, w)
  | Some row => (Ok (Some row.(qr_command)), MkConsumerWorld (with_row (row_id row) (claimed instance) w.(cw_queue)) w.(cw_world))
  end.
Proof.
  unfold in_queue, zoom, claim, mbind, M_bind, get_state. destruct w as [rows x]. cbn [cw_queue cw_world].
  by destruct (oldest_pending rows) as [row|].
Qed.

(** One claimed command: the table afterwards, and when it is left
    claimed. *)
Lemma process_effect (w : Cw) row r w' : oldest_pending w.(cw_queue) = Some row -> process_one ops instance w = (r, w') ->
  w'.(cw_queue) = with_row (row_id row) (served r (transition_of ops row.(qr_command) w.(cw_world)).1) w.(cw_queue) /\
  match r with
  | Ok b => b = true
  | Err _ => row.(qr_command).(rq_market) ∉ ops.(wo_workers) \/ is_ok (transition_of ops row.(qr_command) w.(cw_world)).1 = false
  end.
Proof.
  intros Ho. unfold process_one, mbind at 1, M_bind at 1. rewrite claim_effect, Ho. unfold mbind, M_bind, lift.
  destruct (bool_decide_reflect (rq_market (qr_command row) ∈ wo_workers ops)) as [Hin|Hin]; cbn [negb raise_if];
    [|intros [= <- <-]; auto].
  unfold attempt, in_workers at 1, zoom. cbn [cw_world cw_queue].
  destruct (transition_of ops (qr_command row) (cw_world w)) as [t x] eqn:Et. cbn [fst].
  intros [A B]%(settle_row (qr_command row)). split; [exact A|]. destruct r; [exact B|right; exact B].
Qed.
End ConsumerTheory.

(** The consumer serves the oldest pending command and touches no other row.
    It reports false exactly when nothing is pending and then changes
    nothing; otherwise the command's row ends SUCCEEDED when its transition
    returned, FAILED with the exception's text when it raised, and stays
    claimed when the consumer itself raises. *)
Theorem process_one_serves_oldest {W} (ops : WorkerOps W) instance (w : ConsumerWorld W) r w' :
  process_one ops instance w = (r, w') ->
  (r = Ok false /\ w' = w /\ forall x, x ∈ w.(cw_queue) -> pending x = false) \/
  (r <> Ok false /\ exists row, row ∈ w.(cw_queue) /\ pending row = true /\
     (forall x, x ∈ w.(cw_queue) -> pending x = true -> row_time row <= row_time x) /\
     w'.(cw_queue) = with_row (row_id row) (served instance r (transition_of ops row.(qr_command) w.(cw_world)).1) w.(cw_queue)).
Proof.
  destruct (oldest_pending w.(cw_queue)) as [row|] eqn:Ho; intros E.
  - right. destruct (process_effect ops instance w row r w' Ho E) as [A B]. split; [intros ->; done|].
    exists row. apply oldest_some in Ho as (H1 & H2 & H3). auto.
  - left. unfold process_one, mbind, M_bind in E. rewrite claim_effect, Ho in E. injection E as <- <-.
    split; [done|]. split; [done|]. by apply oldest_none.
Qed.

(** ** Serving the whole queue *)

Fixpoint process_many {W} (ops : WorkerOps W) (instance : string) (k : nat) : M (ConsumerWorld W) unit :=
  match k with O => mret tt | S k => _ ← process_one ops instance; process_many ops instance k end.

(** Transitions end in time or raise, and cancelling succeeds. *)
Record orderly {W} (ops : WorkerOps W) : Prop := {
  od_workers m : m ∈ ops.(wo_workers);
  od_transition q w e w' : transition_of ops q w = (Err e, w') -> is_cancelled e = false;
  od_cancel m w : is_ok (ops.(wo_cancel) m w).1 = true }.

Definition settled_from (instance : string) (a b : queue_row) : Prop :=
  b.(qr_command) = a.(qr_command) /\ b.(qr_attempts) = a.(qr_attempts) + 1 /\ b.(qr_instance_id) = Some instance /\
  ((b.(qr_state) = SUCCEEDED /\ b.(qr_last_error) = None) \/ (b.(qr_state) = FAILED /\ is_Some b.(qr_last_error))).
Definition progressed (instance : string) (a b : queue_row) : Prop :=
  b = a \/ (pending a = true /\ settled_from instance a b).

Lemma settled_not_pending instance a b : settled_from instance a b -> pending b = false.
Proof. intros (_ & _ & _ & [[H _]|[H _]]); unfold pending; rewrite H; done. Qed.
Lemma progressed_trans instance a b c : progressed instance a b -> progressed instance b c -> progressed instance a c.
Proof.
  intros [->|[Ha Hb]] [->|[Hp Hc]]; [by left|by right|by right|]. by rewrite (settled_not_pending _ _ _ Hb) in Hp.
Qed.
Lemma progressed_id instance a b : progressed instance a b -> row_id b = row_id a.
Proof. intros [->|[_ [H _]]]; [done|]. unfold row_id. by rewrite H. Qed.

Lemma served_settled instance (b : bool) t row : settled_from instance row (served instance (Ok b) t row).
Proof. unfold served. destruct t; (split; [done|split; [done|split; [done|]]]); [by left|right; split; [done|by eexists]]. Qed.

(** A step settles one row of a table with unique identities. *)
Lemma serve_counts instance b t row rows : NoDup (row_id <$> rows) -> row ∈ rows -> pending row = true ->
  Forall2 (progressed instance) rows (with_row (row_id row) (served instance (Ok b) t) rows) /\
  S (length (List.filter pending (with_row (row_id row) (served instance (Ok b) t) rows))) = length (List.filter pending rows).
Proof.
  set (f := served instance (Ok b) t). intros Hnd Hin Hp.
  assert (Hother : forall l, row_id row ∉ row_id <$> l -> with_row (row_id row) f l = l).
  { intros l Hl. unfold with_row, update_row. rewrite <-(list_fmap_id l) at 2. apply list_fmap_ext. intros i x Hx. cbn.
    destruct (String.eqb (row_id x) (row_id row)) eqn:E; [|done]. apply String.eqb_eq in E. exfalso. apply Hl. rewrite <-E.
    apply list_elem_of_fmap_2, (list_elem_of_lookup_2 _ _ _ Hx). }
  assert (Hrefl : forall l, Forall2 (progressed instance) l l) by (intros l; apply Forall2_same_length_lookup_2; [done|]; intros; left; congruence).
  induction rows as [|x rows IH]; [by apply elem_of_nil in Hin|]. apply NoDup_cons in Hnd as [Hx Hnd].
  apply elem_of_cons in Hin as [->|Hin].
  - cbn [with_row update_row fmap list_fmap]. rewrite String.eqb_refl. fold (update_row (fun z => String.eqb (row_id z) (row_id x)) f rows).
    fold (with_row (row_id x) f rows). rewrite (Hother _ Hx). split.
    + constructor; [right; split; [done|apply served_settled]|apply Hrefl].
    + cbn [List.filter]. rewrite Hp, (settled_not_pending instance x); [done|apply served_settled].
  - assert (Hne : String.eqb (row_id x) (row_id row) = false).
    { apply String.eqb_neq. intros E. apply Hx. rewrite E. by apply list_elem_of_fmap_2. }
    destruct (IH Hnd Hin) as [A B].
    assert (Hcons : with_row (row_id row) f (x :: rows) = x :: with_row (row_id row) f rows)
      by (unfold with_row, update_row; cbn; by rewrite Hne).
    rewrite Hcons. split; [constructor; [by left|done]|]. cbn [List.filter]. destruct (pending x); cbn [length]; lia.
Qed.

Lemma process_orderly {W} (ops : WorkerOps W) instance (w : ConsumerWorld W) row : orderly ops -> oldest_pending w.(cw_queue) = Some row ->
  exists b w', process_one ops instance w = (Ok b, w').
Proof.
  intros Ho Hold. destruct (process_one ops instance w) as [[b|e] w'] eqn:E; [by eexists _, _|]. exfalso.
  unfold process_one, mbind at 1, M_bind at 1 in E. rewrite claim_effect, Hold in E. unfold mbind, M_bind, lift in E.
  rewrite bool_decide_true in E by apply Ho. cbn [negb raise_if] in E.
  unfold attempt, in_workers at 1, zoom in E. cbn [cw_world cw_queue] in E.
  destruct (transition_of ops (qr_command row) (cw_world w)) as [[u|e'] x] eqn:Et; cbn [settle] in E; [done|].
  rewrite (od_transition _ Ho _ _ _ _ Et) in E. unfold mbind, M_bind in E. destruct (is_timeout e'); cbn [when] in E; [|done].
  unfold in_workers, zoom in E. cbn [cw_world cw_queue] in E.
  pose proof (od_cancel _ Ho (rq_market (qr_command row)) x) as Hc. by destruct (wo_cancel ops _ x) as [[v|e2] x'].
Qed.

Definition progress (instance : string) (rows rows' : list queue_row) : Prop := Forall2 (progressed instance) rows rows'.
#[local] Instance progress_order instance : PreOrder (progress instance).
Proof.
  split.
  - intros l. induction l; constructor; [by left|done].
  - intros l1 l2 l3 H. revert l3. induction H as [|a b l l' Hab _ IH]; intros l3 H3; inversion H3; subst; [constructor|].
    constructor; [by eapply progressed_trans|by apply IH].
Qed.
Lemma progress_ids instance rows rows' : progress instance rows rows' -> row_id <$> rows' = row_id <$> rows.
Proof. induction 1 as [|x y l l' Hxy _ IH]; [done|]. cbn. by rewrite (progressed_id _ _ _ Hxy), IH. Qed.
Lemma none_pending rows : List.filter pending rows = [] <-> forall x, x ∈ rows -> pending x = false.
Proof.
  split.
  - intros E x Hx. destruct (pending x) eqn:Hp; [|done]. apply list_elem_of_In in Hx.
    assert (H0 : In x (List.filter pending rows)) by (by apply filter_In). by rewrite E in H0.
  - intros H. destruct (List.filter pending rows) as [|x l] eqn:E; [done|].
    assert (Hx : In x (List.filter pending rows)) by (rewrite E; by left).
    apply filter_In in Hx as [Hx Hp]. apply list_elem_of_In in Hx. by rewrite (H x Hx) in Hp.
Qed.

Lemma serve_many {W} (ops : WorkerOps W) instance k : orderly ops -> forall (w : ConsumerWorld W),
  NoDup (row_id <$> w.(cw_queue)) -> length (List.filter pending w.(cw_queue)) = k ->
  exists w', process_many ops instance k w = (Ok tt, w') /\ progress instance w.(cw_queue) w'.(cw_queue) /\
    List.filter pending w'.(cw_queue) = [].
Proof.
  intros Ho. induction k as [|k IH]; intros w Hnd Hk; [exists w; split; [done|]; split; [reflexivity|by apply nil_length_inv]|].
  destruct (oldest_pending (cw_queue w)) as [row|] eqn:Eo.
  - destruct (process_orderly ops instance w row Ho Eo) as (b & w1 & E1).
    destruct (process_effect ops instance w row _ w1 Eo E1) as [Hq ->]. apply oldest_some in Eo as (Hin & Hp & _).
    destruct (serve_counts instance true (transition_of ops (qr_command row) (cw_world w)).1 row (cw_queue w) Hnd Hin Hp) as [A B].
    rewrite <-Hq in A, B. destruct (IH w1) as (w' & E' & A' & B'); [by rewrite (progress_ids _ _ _ A)|lia|].
    exists w'. cbn [process_many]. unfold mbind, M_bind. rewrite E1. split; [done|]. split; [by etransitivity|done].
  - rewrite oldest_none, <-none_pending in Eo. by rewrite Eo in Hk.
Qed.


Module CommandsExample.
(** A world that logs calls: stopping FOREX misses its deadline, stopping
    CRYPTO finds its task cancelled. *)
Definition ops : WorkerOps (list string) := {|
  wo_workers := all_markets;
  wo_start m := modify (fun l => l ++ ["start " +:+ Market_value m]);
  wo_stop m := fun l => (match m with
                         | FOREX => Err (OtherException "TimeoutError" "")
                         | CRYPTO => Err (OtherException "CancelledError" "")
                         | NSE => Ok tt
                         end, l ++ ["stop " +:+ Market_value m]);
  wo_drain m := modify (fun l => l ++ ["drain " +:+ Market_value m]);
  wo_cancel m := modify (fun l => l ++ ["cancel " +:+ Market_value m]) |}.
Definition row (id : string) (m : Market) (c : Command) (t : Z) : queue_row :=
  {| qr_command := {| rq_command_id := id; rq_market := m; rq_command := c; rq_requested_at := at_utc t |}; qr_state := PENDING;
     qr_attempts := 0; qr_instance_id := None; qr_last_error := None |}.
Definition queue : list queue_row :=
  [row "c3" NSE STOP_COMMAND 30; row "c1" NSE START 10; completed None (claimed "host-0" (row "c0" NSE DRAIN 0)); row "c2" FOREX STOP_COMMAND 20].
Definition start : ConsumerWorld (list string) := MkConsumerWorld queue [].

Example served_in_order :
  let '(r, w) := process_many ops "host-1" 3 start in
  r = Ok tt /\ w.(cw_world) = ["start nse"; "stop forex"; "cancel forex"; "stop nse"] /\
  List.map qr_state w.(cw_queue) = [SUCCEEDED; SUCCEEDED; SUCCEEDED; FAILED].
Proof. vm_compute. repeat split. Qed.

(** A cancelled transition escapes the consumer and leaves its command
    claimed for ever. *)
Example cancellation_escapes :
  let '(r, w) := process_one ops "host-1" (MkConsumerWorld [row "c9" CRYPTO STOP_COMMAND 40] []) in
  r = Err (OtherException "CancelledError" "") /\ List.map qr_state w.(cw_queue) = [CLAIMED].
Proof. vm_compute. split; reflexivity. Qed.

Definition next : ConsumerWorld (list string) := (process_one ops "host-1" start).2.
Lemma process_one_serves_oldest_witness :
  (Ok true = Ok false /\ next = start /\ forall x, x ∈ start.(cw_queue) -> pending x = false) \/
  (Ok true <> Ok false /\ exists row, row ∈ start.(cw_queue) /\ pending row = true /\
     (forall x, x ∈ start.(cw_queue) -> pending x = true -> row_time row <= row_time x) /\
     next.(cw_queue) = with_row (row_id row) (served "host-1" (Ok true) (transition_of ops row.(qr_command) start.(cw_world)).1) start.(cw_queue)).
Proof. apply (process_one_serves_oldest ops "host-1" start (Ok true) next). vm_compute. reflexivity. Defined.

(** The same operations where every stop ends or misses its deadline. *)
Definition steady : WorkerOps (list string) := {|
  wo_workers := all_markets; wo_start := wo_start ops;
  wo_stop m := match m with CRYPTO => wo_drain ops m | _ => wo_stop ops m end; wo_drain := wo_drain ops; wo_cancel := wo_cancel ops |}.
Lemma steady_orderly : orderly steady.
Proof.
  split; [by intros []; repeat (first [left|right])| |done].
  intros [id m c t] w e w'. destruct c; cbn; [done| |done|by intros [= <- _]]. destruct m; cbn; [done|by intros [= <- _]|done].
Qed.
End CommandsExample.
