(* ===== verification/OpsStore.v ===== *)
(** * Durable runtime state and commands (src/nanodelta/operations/postgres.py)

    The deployed API keeps the operational state in tables: the state of each
    market's worker, the audit of the commands and the queue from which the
    worker processes take them (runtime/control.py); the workers write their
    snapshots there too (runtime/postgres.py).  Every method is a transaction
    of its own, so a command of the controller is several of them, between
    which those of other processes may run.

    [command_on] is the controller's command over any store; over the
    in-memory one it is [Controller.command].  The theorems: however the
    transactions of any number of processes interleave and fail, the queue
    holds exactly the audited commands, each once, and none is claimed twice;
    a command that returned is answered with the same record for ever. *)

From Stdlib Require Import ZArith Lia Ascii String ZifyBool.
From stdpp Require Import prelude strings numbers list.
From S2P Require Import Prelude PyData PyText Sha256 PyTime Sql Db Contracts Registry Realtime Supervisor Commands Controller.

Local Open Scope Z_scope.

(** ** The tables *)

Record WorkerRow := {
  wr_market : Market;
  wr_state : WorkerState;
  wr_last_heartbeat : option datetime;
  wr_updated_at : datetime }.
Record InstanceRow := { ir_snapshot : WorkerSnapshot; ir_updated_at : datetime }.
Record FeedRow := { fw_record : FeedStateRecord; fw_updated_at : datetime }.
Record QueueEntry := {
  mq_idempotency_key : string;
  mq_row : queue_row;
  mq_claimed_at : option datetime;
  mq_completed_at : option datetime }.

Record OpsTables := {
  ot_workers : list WorkerRow;
  ot_instances : list InstanceRow;
  ot_feed : list FeedRow;
  ot_audit : list AuditRecord;
  ot_queue : list QueueEntry }.
Definition set_worker_rows (f : list WorkerRow -> list WorkerRow) : M OpsTables unit := modify (fun t =>
  {| ot_workers := f t.(ot_workers); ot_instances := t.(ot_instances); ot_feed := t.(ot_feed); ot_audit := t.(ot_audit); ot_queue := t.(ot_queue) |}).
Definition set_instance_rows (f : list InstanceRow -> list InstanceRow) : M OpsTables unit := modify (fun t =>
  {| ot_workers := t.(ot_workers); ot_instances := f t.(ot_instances); ot_feed := t.(ot_feed); ot_audit := t.(ot_audit); ot_queue := t.(ot_queue) |}).
Definition add_audit_row (r : AuditRecord) : M OpsTables unit := modify (fun t =>
  {| ot_workers := t.(ot_workers); ot_instances := t.(ot_instances); ot_feed := t.(ot_feed); ot_audit := t.(ot_audit) ++ [r]; ot_queue := t.(ot_queue) |}).
Definition set_queue_rows (f : list QueueEntry -> list QueueEntry) : M OpsTables unit := modify (fun t =>
  {| ot_workers := t.(ot_workers); ot_instances := t.(ot_instances); ot_feed := t.(ot_feed); ot_audit := t.(ot_audit); ot_queue := f t.(ot_queue) |}).

(** The rows the migration inserts. *)
Definition seeded (now : datetime) : OpsTables := {|
  ot_workers := (fun m => {| wr_market := m; wr_state := STOPPED; wr_last_heartbeat := None; wr_updated_at := now |}) <$> all_markets;
  ot_instances := []; ot_feed := []; ot_audit := []; ot_queue := [] |}.

(** ** PostgresOperationalStore

    A process keeps the dicts of the in-memory store beside the tables; only
    [worker_state] of a market without a row looks at them. *)
Definition Ops := Db OpsTables OperationalStore.

Definition of_market (m : Market) (r : WorkerRow) : bool := bool_decide (r.(wr_market) = m).
Definition durable_worker_state (market : Market) : M Ops WorkerState :=
  row ← reading (query (fun t => Ok (List.find (of_market market) t.(ot_workers))));
  match row with
  | Some r => mret r.(wr_state)
  | None => in_memory (s ← get_state; lift (worker_state s market))
  end.

Definition latest_heartbeat (market : Market) : M Ops (option datetime) :=
  row ← reading (query (fun t => Ok (List.find (fun r => bool_decide (r.(ir_snapshot).(ws_market) = market)) t.(ot_instances))));
  mret ((fun r => r.(ir_snapshot).(ws_last_heartbeat)) <$> row).
(** The row's columns under their names; [None] is the empty dict. *)
Definition market_provider_health (market : Market) : M Ops (option FeedRow) :=
  reading (query (fun t => Ok (List.find (fun r => bool_decide (r.(fw_record).(fr_feed_market) = market)) t.(ot_feed)))).

(** [INSERT INTO control.runtime_workers(...) ON CONFLICT (market) DO UPDATE SET state,updated_at] *)
Definition upsert_worker (market : Market) (state : WorkerState) (now : datetime) : M OpsTables unit :=
  set_worker_rows (upsert (of_market market)
    {| wr_market := market; wr_state := state; wr_last_heartbeat := None; wr_updated_at := now |}
    (fun r => {| wr_market := r.(wr_market); wr_state := state; wr_last_heartbeat := r.(wr_last_heartbeat); wr_updated_at := now |})).
Definition durable_set_worker_state (market : Market) (state : WorkerState) (now : datetime) : M Ops unit :=
  transaction (execute_sql (upsert_worker market state now)) (fun _ => set_worker_state market state).

Definition durable_audit_record (idempotency_key : string) : M Ops (option AuditRecord) :=
  reading (query (fun t => Ok (List.find (fun r => r.(ar_idempotency_key) ==p idempotency_key) t.(ot_audit)))).

Definition audit_row (r : AuditRecord) : AuditRecord := {|
  ar_audit_id := r.(ar_audit_id); ar_idempotency_key := r.(ar_idempotency_key); ar_market := r.(ar_market); ar_command := r.(ar_command);
  ar_actor_id := r.(ar_actor_id); ar_previous_state := r.(ar_previous_state); ar_resulting_state := r.(ar_resulting_state);
  ar_requested_at := timestamptz r.(ar_requested_at); ar_detail := r.(ar_detail) |}.
(** [INSERT INTO control.operational_audit ...], with or without
    [ON CONFLICT (idempotency_key) DO NOTHING] *)
Definition insert_audit (do_nothing : bool) (r : AuditRecord) : M OpsTables unit :=
  t ← get_state;
  if do_nothing && has_key ar_idempotency_key t.(ot_audit) r.(ar_idempotency_key) then mret ()
  else
    _ ← lift (unique ar_audit_id t.(ot_audit) r.(ar_audit_id));
    _ ← lift (unique ar_idempotency_key t.(ot_audit) r.(ar_idempotency_key));
    add_audit_row (audit_row r).
Definition durable_save_audit (r : AuditRecord) : M Ops unit :=
  transaction (execute_sql (insert_audit true r)) (fun _ => save_audit r).

Definition durable_commit_transition (r : AuditRecord) (now : datetime) : M Ops unit :=
  transaction (_ ← execute_sql (insert_audit true r); execute_sql (upsert_worker r.(ar_market) r.(ar_resulting_state) now))
    (fun _ => _ ← set_worker_state r.(ar_market) r.(ar_resulting_state); save_audit r).

(** [INSERT INTO control.runtime_command_queue ...]: a row in its defaults *)
Definition queued_row (r : AuditRecord) : QueueEntry := {|
  mq_idempotency_key := r.(ar_idempotency_key);
  mq_row := {| qr_command := {| rq_command_id := r.(ar_audit_id); rq_market := r.(ar_market); rq_command := r.(ar_command);
                                rq_requested_at := timestamptz r.(ar_requested_at) |};
               qr_state := PENDING; qr_attempts := 0; qr_instance_id := None; qr_last_error := None |};
  mq_claimed_at := None; mq_completed_at := None |}.
Definition entry_id (q : QueueEntry) : string := row_id q.(mq_row).
Definition insert_queue (r : AuditRecord) : M OpsTables unit :=
  t ← get_state;
  _ ← lift (check (negb (bool_decide (r.(ar_command) = REPAIR))));
  _ ← lift (unique entry_id t.(ot_queue) r.(ar_audit_id));
  _ ← lift (unique mq_idempotency_key t.(ot_queue) r.(ar_idempotency_key));
  set_queue_rows (fun rows => rows ++ [queued_row r]).
Definition durable_commit_queued_command (r : AuditRecord) : M Ops unit :=
  transaction (_ ← execute_sql (insert_audit false r); execute_sql (insert_queue r)) (fun _ => save_audit r).

(** The row's columns under their names. *)
Definition runtime_command_status (idempotency_key : string) : M Ops (option QueueEntry) :=
  reading (query (fun t => Ok (List.find (fun q => q.(mq_idempotency_key) ==p idempotency_key) t.(ot_queue)))).

(** ** The transactions of the worker processes *)

(** PostgresRuntimeStateStore.save (runtime/postgres.py) *)
Definition worker_state_of (s : RuntimeState) : option WorkerState :=
  match s with
  | Supervisor.RUNNING => Some RUNNING
  | Supervisor.DRAINING => Some DRAINING
  | Supervisor.STOPPED => Some STOPPED
  | _ => None
  end.
Definition save_snapshot (snapshot : WorkerSnapshot) (now : datetime) : M Ops unit :=
  let market := snapshot.(ws_market) in
  let row := {| ir_snapshot := {| ws_market := market; ws_instance_id := snapshot.(ws_instance_id); ws_state := snapshot.(ws_state);
                                  ws_last_heartbeat := timestamptz snapshot.(ws_last_heartbeat);
                                  ws_last_cycle_started := timestamptz <$> snapshot.(ws_last_cycle_started);
                                  ws_last_cycle_finished := timestamptz <$> snapshot.(ws_last_cycle_finished);
                                  ws_last_error := snapshot.(ws_last_error) |};
                ir_updated_at := now |} in
  committed (
    _ ← execute_sql (set_instance_rows (upsert (fun r => bool_decide (r.(ir_snapshot).(ws_market) = market)) row (fun _ => row)));
    match worker_state_of snapshot.(ws_state) with
    | Some state =>
        execute_sql (set_worker_rows (update_where (of_market market) (fun r =>
          {| wr_market := r.(wr_market); wr_state := state; wr_last_heartbeat := Some (timestamptz snapshot.(ws_last_heartbeat)); wr_updated_at := now |})))
    | None => mret ()
    end).

(** [PostgresRuntimeCommandMailbox.claim] and [.complete], with the columns
    that [Commands] leaves out *)
Definition claim_entry (instance : string) (now : datetime) : M OpsTables (option RuntimeCommand) :=
  t ← get_state;
  match oldest_pending (mq_row <$> t.(ot_queue)) with
  | None => mret None
  | Some row =>
      _ ← set_queue_rows (update_where (fun q => String.eqb (entry_id q) (row_id row)) (fun q =>
            {| mq_idempotency_key := q.(mq_idempotency_key); mq_row := claimed instance q.(mq_row); mq_claimed_at := Some now;
               mq_completed_at := q.(mq_completed_at) |}));
      mret (Some row.(qr_command))
  end.
Definition complete_entry (instance id : string) (error : option string) (now : datetime) : M OpsTables unit :=
  set_queue_rows (update_where (fun q => owned instance id q.(mq_row)) (fun q =>
    {| mq_idempotency_key := q.(mq_idempotency_key); mq_row := completed error q.(mq_row); mq_claimed_at := q.(mq_claimed_at);
       mq_completed_at := Some now |})).
Definition durable_claim (instance : string) (now : datetime) : M Ops (option RuntimeCommand) := committed (execute_sql (claim_entry instance now)).
Definition durable_complete (instance id : string) (error : option string) (now : datetime) : M Ops unit :=
  committed (execute_sql (complete_entry instance id error now)).

(** ** The controller over a store *)

Record CommandStore (S : Type) := {
  co_worker_state : Market -> M S WorkerState;
  co_audit_record : string -> M S (option AuditRecord);
  co_commit_transition : AuditRecord -> M S unit;
  co_commit_queued_command : AuditRecord -> M S unit;
  co_call_worker : Market -> Command -> M S unit }.
Arguments co_worker_state {S}.
Arguments co_audit_record {S}.
Arguments co_commit_transition {S}.
Arguments co_commit_queued_command {S}.
Arguments co_call_worker {S}.

(** The record of a command on a worker in the state [previous]. *)
Definition audit_of (durable : bool) (c : ControlCall) (previous : WorkerState) (requested_at : datetime) : AuditRecord := {|
  ar_audit_id := stable_id [c.(cl_key); Market_value c.(cl_market); Command_value c.(cl_command)];
  ar_idempotency_key := c.(cl_key);
  ar_market := c.(cl_market);
  ar_command := c.(cl_command);
  ar_actor_id := c.(cl_actor).(ac_actor_id);
  ar_previous_state := previous;
  ar_resulting_state := if durable && negb (bool_decide (c.(cl_command) = REPAIR)) then previous else transition c.(cl_command) previous;
  ar_requested_at := requested_at;
  ar_detail := c.(cl_detail) |}.

Section CommandOn.
Context {S : Type} (store : CommandStore S) (durable : bool).

(** The answer to a key that is known. *)
Definition answered (existing : AuditRecord) (c : ControlCall) : result AuditRecord :=
  _ ← raise_if (negb (bool_decide (existing.(ar_market) = c.(cl_market))) || negb (bool_decide (existing.(ar_command) = c.(cl_command)))
                || (existing.(ar_detail) !=p c.(cl_detail)))
       (ValueError "idempotency key is bound to another command");
  mret existing.

(** [RuntimeController.command] *)
Definition command_on (c : ControlCall) : M S AuditRecord :=
  _ ← lift (raise_if (negb (can_operate c.(cl_actor))) (PermissionError "operator or admin role is required"));
  _ ← lift (raise_if (str_blank c.(cl_key)) (ValueError "idempotency key is required"));
  existing ← store.(co_audit_record) c.(cl_key);
  match existing with
  | Some r => lift (answered r c)
  | None =>
      _ ← lift (raise_if (negb c.(cl_confirmed)) (PermissionError "explicit confirmation is required"));
      previous ← store.(co_worker_state) c.(cl_market);
      _ ← lift (raise_if (bool_decide (c.(cl_command) = DRAIN) && negb (bool_decide (previous = RUNNING)))
                 (RuntimeError "only a running worker can drain"));
      _ ← when (negb (bool_decide (c.(cl_command) = REPAIR)) && negb durable) (store.(co_call_worker) c.(cl_market) c.(cl_command));
      requested_at ← lift (utc c.(cl_requested_at) "requested_at");
      let record := audit_of durable c previous requested_at in
      _ ← (if durable && negb (bool_decide (c.(cl_command) = REPAIR)) then store.(co_commit_queued_command) record
           else store.(co_commit_transition) record);
      mret record
  end.
End CommandOn.

(** The in-memory store with its workers, and the tables without any. *)
Definition memory_commands {X} (self : RuntimeController X) : CommandStore (ControlWorld X) := {|
  co_worker_state m := on_store (s ← get_state; lift (worker_state s m));
  co_audit_record k := on_store (s ← get_state; mret (audit_record s k));
  co_commit_transition r := on_store (commit_transition r);
  co_commit_queued_command r := on_store (commit_queued_command r);
  co_call_worker m cmd :=
    match self.(rc_workers) !! m with
    | None => raise (RuntimeError (Market_value m +:+ " worker is not configured"))
    | Some worker => on_world (worker_call worker cmd)
    end |}.
Definition table_commands (now : datetime) : CommandStore Ops := {|
  co_worker_state := durable_worker_state;
  co_audit_record := durable_audit_record;
  co_commit_transition r := durable_commit_transition r now;
  co_commit_queued_command := durable_commit_queued_command;
  co_call_worker m _ := raise (RuntimeError (Market_value m +:+ " worker is not configured")) |}.
(** A command of the deployed API: [RuntimeController(operations, durable_commands=True)] *)
Definition durable_command (now : datetime) (c : ControlCall) : M Ops AuditRecord := command_on (table_commands now) true c.

(** Over the in-memory store it is the controller's command. *)
Lemma command_on_memory {X} (self : RuntimeController X) c w :
  command_on (memory_commands self) self.(rc_durable_commands) c w = run_command self c w.
Proof.
  destruct w as [s x]. unfold command_on, run_command, command, answered, audit_of, when.
  cbn [memory_commands co_audit_record co_worker_state co_call_worker co_commit_transition co_commit_queued_command].
  unfold on_store, zoom, mbind, M_bind, result_bind, lift, get_state, mret, M_ret, result_ret. cbn [cw_store cw_world].
  destruct (raise_if _ _); [|done]. destruct (raise_if _ _); [|done].
  destruct (audit_record s (cl_key c)) as [r|]; [by destruct (raise_if _ _)|].
  destruct (raise_if _ _); [|done]. cbn [cw_store cw_world].
  destruct (worker_state s (cl_market c)) as [previous|e]; [|done].  destruct (raise_if _ _); [|done].
  by destruct (rc_workers self !! cl_market c), (rc_durable_commands self), (bool_decide (cl_command c = REPAIR)).
Qed.

(** ** What the transactions write *)

Lemma insert_audit_ok b r t t' : insert_audit b r t = (Ok (), t') ->
  (b = true /\ has_key ar_idempotency_key t.(ot_audit) r.(ar_idempotency_key) = true /\ t' = t) \/
  (~ r.(ar_audit_id) ∈ (ar_audit_id <$> t.(ot_audit)) /\ ~ r.(ar_idempotency_key) ∈ (ar_idempotency_key <$> t.(ot_audit)) /\
   t' = (add_audit_row (audit_row r) t).2).
Proof.
  unfold insert_audit. intros H. apply M_bind_ok in H as (? & ? & [= <- <-] & H). destruct (b && _) eqn:Eb.
  - apply andb_true_iff in Eb as [-> Hk]. injection H as <-. by left.
  - apply M_bind_ok in H as ([] & ? & [Hu ->]%lift_ok & H). apply M_bind_ok in H as ([] & ? & [Hv ->]%lift_ok & H).
    apply unique_fresh in Hu, Hv. right. by injection H as <-.
Qed.
Lemma insert_queue_ok r t t' : insert_queue r t = (Ok (), t') ->
  r.(ar_command) <> REPAIR /\ ~ r.(ar_audit_id) ∈ (entry_id <$> t.(ot_queue)) /\ t' = (set_queue_rows (fun rows => rows ++ [queued_row r]) t).2.
Proof.
  unfold insert_queue. intros H. apply M_bind_ok in H as (? & ? & [= <- <-] & H). apply M_bind_ok in H as ([] & ? & [Hc ->]%lift_ok & H).
  apply M_bind_ok in H as ([] & ? & [Hu ->]%lift_ok & H). apply M_bind_ok in H as ([] & ? & [Hv ->]%lift_ok & H).
  unfold check in Hc. apply raise_if_ok, negb_false_iff, negb_true_iff, bool_decide_eq_false in Hc. apply unique_fresh in Hu. by injection H as <-.
Qed.

(** The tables after a commit of a queued command. *)
Definition with_queued (r : AuditRecord) (t : OpsTables) : OpsTables := {|
  ot_workers := t.(ot_workers); ot_instances := t.(ot_instances); ot_feed := t.(ot_feed);
  ot_audit := t.(ot_audit) ++ [audit_row r]; ot_queue := t.(ot_queue) ++ [queued_row r] |}.
Lemma commit_queued_effect r s : 
  match durable_commit_queued_command r s with
  | (Ok _, s') => r.(ar_command) <> REPAIR /\ ~ r.(ar_audit_id) ∈ (ar_audit_id <$> s.(db_tables).(ot_audit)) /\
      ~ r.(ar_idempotency_key) ∈ (ar_idempotency_key <$> s.(db_tables).(ot_audit)) /\ s'.(db_tables) = with_queued r s.(db_tables)
  | (Err _, s') => s'.(db_tables) = s.(db_tables)
  end.
Proof.
  destruct (durable_commit_queued_command r s) as [[[]|e] s'] eqn:H.
  - apply transaction_ok in H as (s1 & s2 & Ht & _ & H & -> & _). apply M_bind_ok in H as ([] & s3 & [_ Ha]%execute_sql_effect & [_ Hq]%execute_sql_effect).
    rewrite Ht in Ha. apply insert_audit_ok in Ha as [[? _]|(Hi & Hk & Ea)]; [done|]. apply insert_queue_ok in Hq as (Hc & _ & ->). by rewrite Ea.
  - apply transaction_err in H as [H _]; [done|eauto with store|done].
Qed.
Lemma commit_transition_effect r now s :
  match durable_commit_transition r now s with
  | (Ok _, s') => s'.(db_tables).(ot_queue) = s.(db_tables).(ot_queue) /\
      s'.(db_tables).(ot_workers) = ((upsert_worker r.(ar_market) r.(ar_resulting_state) now) s.(db_tables)).2.(ot_workers) /\
      ((has_key ar_idempotency_key s.(db_tables).(ot_audit) r.(ar_idempotency_key) = true /\ s'.(db_tables).(ot_audit) = s.(db_tables).(ot_audit)) \/
       (~ r.(ar_audit_id) ∈ (ar_audit_id <$> s.(db_tables).(ot_audit)) /\ ~ r.(ar_idempotency_key) ∈ (ar_idempotency_key <$> s.(db_tables).(ot_audit)) /\
        s'.(db_tables).(ot_audit) = s.(db_tables).(ot_audit) ++ [audit_row r]))
  | (Err _, s') => s'.(db_tables) = s.(db_tables)
  end.
Proof.
  destruct (durable_commit_transition r now s) as [[[]|e] s'] eqn:H.
  - apply transaction_ok in H as (s1 & s2 & Ht & _ & H & -> & _). apply M_bind_ok in H as ([] & s3 & [_ Ha]%execute_sql_effect & [_ Hu]%execute_sql_effect).
    rewrite Ht in Ha. injection Hu as <-. simpl. apply insert_audit_ok in Ha as [(_ & Hk & ->)|(Hi & Hk & ->)]; simpl; auto 6.
  - apply transaction_err in H as [H _]; [done|eauto with store|done].
Qed.
Lemma save_snapshot_effect snapshot now s : let s' := (save_snapshot snapshot now s).2 in
  s'.(db_tables).(ot_audit) = s.(db_tables).(ot_audit) /\ s'.(db_tables).(ot_queue) = s.(db_tables).(ot_queue).
Proof.
  simpl. destruct (save_snapshot snapshot now s) as [[[]|e] s'] eqn:H; simpl.
  - apply transaction_ok in H as (s1 & s2 & Ht & _ & H & -> & _). apply M_bind_ok in H as ([] & s3 & [_ Ha]%execute_sql_effect & Hu).
    rewrite Ht in Ha. injection Ha as Ha. destruct (worker_state_of _); [apply execute_sql_effect in Hu as [_ Hu]; injection Hu as <-|injection Hu as <-]; by rewrite <- Ha.
  - apply transaction_err in H as [-> _]; [done| |done]. apply bind_keeps; [apply execute_sql_keeps|]. intros _.
    destruct (worker_state_of _); [apply execute_sql_keeps|]. by intros ? ? ? [= _ <-].
Qed.

(** ** All processes, in any order

    A step is one transaction of some process, with whatever it remembers and
    whatever fails: the last one of a command of the API, a snapshot of a
    worker, a claim or a completion of a consumer. *)

(** A call that reaches the commit. *)
Definition issued (c : ControlCall) : Prop :=
  can_operate c.(cl_actor) = true /\ str_blank c.(cl_key) = false /\ c.(cl_confirmed) = true /\ aware c.(cl_requested_at) = true.
Definition durable_record (c : ControlCall) (previous : WorkerState) : AuditRecord := audit_of true c previous (at_utc (instant c.(cl_requested_at))).

Inductive ops_step (t : OpsTables) : OpsTables -> Prop :=
| step_queued c previous l fs : issued c -> c.(cl_command) <> REPAIR ->
    ops_step t (durable_commit_queued_command (durable_record c previous) (MkDb t l fs)).2.(db_tables)
| step_repair c previous now l fs : issued c -> c.(cl_command) = REPAIR ->
    ops_step t (durable_commit_transition (durable_record c previous) now (MkDb t l fs)).2.(db_tables)
| step_snapshot snapshot now l fs : ops_step t (save_snapshot snapshot now (MkDb t l fs)).2.(db_tables)
| step_claim instance now l fs : ops_step t (durable_claim instance now (MkDb t l fs)).2.(db_tables)
| step_complete instance id error now l fs : ops_step t (durable_complete instance id error now (MkDb t l fs)).2.(db_tables).

(** A queued command is the audited one. *)
Definition queues (a : AuditRecord) (q : QueueEntry) : Prop :=
  q.(mq_idempotency_key) = a.(ar_idempotency_key) /\
  q.(mq_row).(qr_command) = {| rq_command_id := a.(ar_audit_id); rq_market := a.(ar_market); rq_command := a.(ar_command); rq_requested_at := a.(ar_requested_at) |}.
Definition for_worker (a : AuditRecord) : bool := negb (bool_decide (a.(ar_command) = REPAIR)).
(** Never claimed, or claimed once. *)
Definition claimed_once (q : QueueEntry) : Prop :=
  if pending q.(mq_row) then q.(mq_row).(qr_attempts) = 0 /\ q.(mq_row).(qr_instance_id) = None
  else q.(mq_row).(qr_attempts) = 1 /\ is_Some q.(mq_row).(qr_instance_id).

Record ops_ok (t : OpsTables) : Prop := {
  oo_keys : NoDup (ar_idempotency_key <$> t.(ot_audit));
  oo_ids : NoDup (ar_audit_id <$> t.(ot_audit));
  oo_queue : Forall2 queues (List.filter for_worker t.(ot_audit)) t.(ot_queue);
  oo_once : Forall claimed_once t.(ot_queue) }.

Lemma queues_ids audit queue : Forall2 queues audit queue -> entry_id <$> queue = ar_audit_id <$> audit.
Proof. induction 1 as [|a q l l' [_ Hq] _ IH]; [done|]. rewrite !fmap_cons, IH. unfold entry_id, row_id. by rewrite Hq. Qed.
Lemma entry_ids_unique t : ops_ok t -> NoDup (entry_id <$> t.(ot_queue)).
Proof. intros H. rewrite (queues_ids _ _ (oo_queue _ H)). apply NoDup_filter_key, (oo_ids _ H). Qed.

(** Changes of the rows of the queue that keep their commands. *)
Lemma queues_update p f audit queue : (forall q, (f q).(mq_idempotency_key) = q.(mq_idempotency_key) /\ (f q).(mq_row).(qr_command) = q.(mq_row).(qr_command)) ->
  Forall2 queues audit queue -> Forall2 queues audit (update_where p f queue).
Proof.
  intros Hf. unfold update_where. induction 1 as [|a q l l' [Hk Hq] _ IH]; [constructor|]. rewrite fmap_cons. constructor; [|exact IH].
  destruct (p q); [|by split]. destruct (Hf q) as [A B]. split; congruence.
Qed.
Lemma Forall_update {A} (P : A -> Prop) (p : A -> bool) f (rows : list A) : Forall P rows -> (forall x, x ∈ rows -> P x -> p x = true -> P (f x)) ->
  Forall P (update_where p f rows).
Proof.
  intros H Hf. rewrite Forall_forall in *. intros y (x & Hx & ->)%update_where_elem. destruct (p x) eqn:E; [|by apply H]. apply Hf; auto.
Qed.

Lemma ops_ok_queue t p f : ops_ok t ->
  (forall q, (f q).(mq_idempotency_key) = q.(mq_idempotency_key) /\ (f q).(mq_row).(qr_command) = q.(mq_row).(qr_command)) ->
  (forall q, q ∈ t.(ot_queue) -> claimed_once q -> p q = true -> claimed_once (f q)) ->
  ops_ok (set_queue_rows (update_where p f) t).2.
Proof.
  intros [Hk Hi Hq Ho] Hf Hc. split; simpl; [done|done|by apply queues_update|by apply Forall_update].
Qed.

Lemma ops_ok_claim instance now t a t' : ops_ok t -> claim_entry instance now t = (Ok a, t') -> ops_ok t' /\ t'.(ot_audit) = t.(ot_audit).
Proof.
  intros Hok. unfold claim_entry. intros H. apply M_bind_ok in H as (? & ? & [= <- <-] & H).
  destruct (oldest_pending _) as [row|] eqn:Eo; [|by injection H as _ <-]. injection H as _ <-. split; [|done].
  apply oldest_some in Eo as ((q0 & -> & Hq0)%list_elem_of_fmap & Hp & _). apply ops_ok_queue; [done|done|].
  intros q Hq Hc He. apply String.eqb_eq in He. fold (entry_id q0) in He. pose proof (NoDup_key_inj entry_id _ _ _ (entry_ids_unique _ Hok) Hq Hq0 He) as ->.
  unfold claimed_once in *. rewrite Hp in Hc. simpl. split; [|done]. destruct Hc as [-> _]. done.
Qed.
Lemma ops_ok_complete instance id error now t a t' : ops_ok t -> complete_entry instance id error now t = (Ok a, t') -> ops_ok t' /\ t'.(ot_audit) = t.(ot_audit).
Proof.
  intros Hok [= _ <-]. split; [|done]. apply ops_ok_queue; [done|done|]. intros q Hq Hc Ho. unfold owned in Ho.
  apply andb_true_iff in Ho as [_ Hi%bool_decide_eq_true]. unfold claimed_once in *.
  destruct (pending (mq_row q)); [destruct Hc as [_ Hn]; congruence|]. unfold pending. simpl. by destruct error.
Qed.

Lemma audit_row_record c previous : audit_row (durable_record c previous) = durable_record c previous.
Proof. unfold audit_row, durable_record, audit_of. simpl. f_equal. unfold timestamptz, instant, at_utc. simpl. by rewrite Z.sub_0_r. Qed.

Lemma ops_ok_audit r t t' : ops_ok t -> t'.(ot_audit) = t.(ot_audit) ++ [audit_row r] -> r.(ar_audit_id) ∉ ar_audit_id <$> t.(ot_audit) ->
  r.(ar_idempotency_key) ∉ ar_idempotency_key <$> t.(ot_audit) ->
  t'.(ot_queue) = (if for_worker r then t.(ot_queue) ++ [queued_row r] else t.(ot_queue)) -> ops_ok t'.
Proof.
  intros [Hk Hi Hq Ho] Ha Hni Hnk Hqu. split; rewrite ?Ha, ?Hqu.
  - by apply (NoDup_snoc_key ar_idempotency_key).
  - by apply (NoDup_snoc_key ar_audit_id).
  - rewrite List.filter_app. simpl. change (for_worker (audit_row r)) with (for_worker r). destruct (for_worker r); [|by rewrite app_nil_r].
    apply Forall2_app; [done|]. by repeat constructor.
  - destruct (for_worker r); [|done]. apply Forall_app. split; [done|]. by repeat constructor.
Qed.

Lemma ops_step_ok t t' : ops_step t t' -> ops_ok t -> ops_ok t' /\ t.(ot_audit) `prefix_of` t'.(ot_audit).
Proof.
  intros Hs Hok. destruct Hs as [c previous l fs _ Hc|c previous now l fs _ Hc|snapshot now l fs|instance now l fs|instance id error now l fs].
  - pose proof (commit_queued_effect (durable_record c previous) (MkDb t l fs)) as H. destruct (durable_commit_queued_command _ _) as [[[]|e] s']; simpl in *; [|by rewrite H].
    destruct H as (_ & Hi & Hk & ->). split; [|by apply prefix_app_r]. apply (ops_ok_audit (durable_record c previous) t); [done|done|done|done|].
    unfold for_worker. simpl. by rewrite bool_decide_eq_false_2.
  - pose proof (commit_transition_effect (durable_record c previous) now (MkDb t l fs)) as H. destruct (durable_commit_transition _ _ _) as [[[]|e] s']; simpl in *; [|by rewrite H].
    destruct H as (Hq & _ & [[_ Ha]|(Hi & Hk & Ha)]).
    + split; [|by rewrite Ha]. destruct Hok as [? ? ? ?]. by split; rewrite ?Ha, ?Hq.
    + split; [|rewrite Ha; by apply prefix_app_r]. apply (ops_ok_audit (durable_record c previous) t); [done|done|done|done|].
      unfold for_worker. simpl. by rewrite bool_decide_eq_true_2.
  - destruct (save_snapshot_effect snapshot now (MkDb t l fs)) as [Ha Hq]. simpl in *. split; [|by rewrite Ha].
    destruct Hok as [? ? ? ?]. by split; rewrite ?Ha, ?Hq.
  - pose proof (committed_effect (claim_entry instance now) (MkDb t l fs)) as H. unfold durable_claim. destruct (committed _ _) as [[a|e] s']; simpl in *; [|by rewrite H].
    apply ops_ok_claim in H as [A B]; [|done]. by rewrite B.
  - pose proof (committed_effect (complete_entry instance id error now) (MkDb t l fs)) as H. unfold durable_complete. destruct (committed _ _) as [[a|e] s']; simpl in *; [|by rewrite H].
    apply ops_ok_complete in H as [A B]; [|done]. by rewrite B.
Qed.
Lemma ops_steps_ok t t' : rtc ops_step t t' -> ops_ok t -> ops_ok t' /\ t.(ot_audit) `prefix_of` t'.(ot_audit).
Proof.
  induction 1 as [t|t1 t2 t3 H12 _ IH]; [done|]. intros H. destruct (ops_step_ok _ _ H12 H) as [A B]. destruct (IH A) as [C D].
  split; [done|]. by etransitivity.
Qed.
Lemma seeded_ok now : ops_ok (seeded now).
Proof. by repeat constructor. Qed.

(** C20. However the transactions of any number of API processes, workers and
    consumers interleave and whichever of them fail, the command queue holds
    exactly the audited commands for workers, each once and in the order of
    the audit, under the identity, key, market, command and time of its audit
    record; keys are never audited twice, no command is claimed twice, and
    audit records are never changed or removed. *)
Theorem commands_queued_once now t t' :
  rtc ops_step (seeded now) t -> rtc ops_step t t' ->
  NoDup (ar_idempotency_key <$> t.(ot_audit)) /\
  Forall2 queues (List.filter for_worker t.(ot_audit)) t.(ot_queue) /\
  Forall claimed_once t.(ot_queue) /\
  t.(ot_audit) `prefix_of` t'.(ot_audit).
Proof.
  intros H1 H2. destruct (ops_steps_ok _ _ H1 (seeded_ok now)) as [Hok _]. destruct (ops_steps_ok _ _ H2 Hok) as [_ Hp].
  destruct Hok as [? ? ? ?]. done.
Qed.

(** ** A command, alone *)

Lemma audit_read key (s : Ops) r s' : durable_audit_record key s = (r, s') ->
  s'.(db_tables) = s.(db_tables) /\ (forall a, r = Ok a -> a = List.find (fun r => r.(ar_idempotency_key) ==p key) s.(db_tables).(ot_audit)).
Proof. intros (Ht & _ & H)%reading_query. split; [done|]. intros a Ha. specialize (H a Ha). congruence. Qed.
Lemma state_read market (s : Ops) r s' : durable_worker_state market s = (r, s') -> s'.(db_tables) = s.(db_tables).
Proof.
  unfold durable_worker_state, mbind, M_bind. destruct (reading _ s) as [[row|e] s1] eqn:E; apply reading_query in E as (Ht & _ & _); [|by intros [= _ <-]].
  destruct row as [x|]; [by intros [= _ <-]|]. unfold in_memory, zoom. cbn. intros [= _ <-]. done.
Qed.

(** What a command leaves in the tables. *)
Definition command_effect (c : ControlCall) (t : OpsTables) (r : AuditRecord) (t' : OpsTables) : Prop :=
  (List.find (fun a => a.(ar_idempotency_key) ==p c.(cl_key)) t.(ot_audit) = Some r /\ answered r c = Ok r /\ t' = t) \/
  (~ c.(cl_key) ∈ (ar_idempotency_key <$> t.(ot_audit)) /\ issued c /\ ops_step t t' /\ exists previous, r = durable_record c previous /\
   t'.(ot_audit) = t.(ot_audit) ++ [r] /\
   t'.(ot_queue) = if bool_decide (c.(cl_command) = REPAIR) then t.(ot_queue) else t.(ot_queue) ++ [queued_row r]).

Lemma durable_command_effect now c s :
  match durable_command now c s with
  | (Ok r, s') => command_effect c s.(db_tables) r s'.(db_tables)
  | (Err _, s') => s'.(db_tables) = s.(db_tables)
  end.
Proof.
  unfold durable_command, command_on. unfold mbind, M_bind, lift.
  destruct (raise_if _ _) as [u|e] eqn:Hop; [|done]. destruct (raise_if (str_blank _) _) as [u2|e] eqn:Hkey; [|done].
  apply raise_if_ok in Hop, Hkey. apply negb_false_iff in Hop. cbn [table_commands co_audit_record co_worker_state].
  destruct (durable_audit_record (cl_key c) s) as [[found|e] s1] eqn:Ea; apply audit_read in Ea as [Ht1 Hf]; [|done].
  specialize (Hf _ eq_refl). destruct found as [r|].
  { destruct (answered r c) as [x|e] eqn:Eans; [|done]. left. rewrite Ht1, <- Hf. unfold answered in Eans. apply result_bind_ok in Eans as (w & Hw & [= <-]).
    split; [done|]. split; [|done]. unfold answered. by rewrite Hw. }
  assert (Hfresh : cl_key c ∉ ar_idempotency_key <$> ot_audit (db_tables s)).
  { intros (a & Hk & Hin)%list_elem_of_fmap. symmetry in Hf. apply list_elem_of_In in Hin. pose proof (find_none _ _ Hf _ Hin) as Hn. simpl in Hn.
    apply (proj1 (py_eq_false _ _)) in Hn. congruence. }
  destruct (raise_if (negb (cl_confirmed c)) _) as [u3|e] eqn:Hconf; [|done]. apply raise_if_ok, negb_false_iff in Hconf.
  destruct (durable_worker_state (cl_market c) s1) as [[previous|e] s2] eqn:Es; apply state_read in Es; rewrite Ht1 in Es; [|done].
  destruct (raise_if (bool_decide _ && _) _) as [u4|e]; [|done]. rewrite andb_false_r. cbn [when mret M_ret].
  destruct (utc (cl_requested_at c) "requested_at") as [d|e] eqn:Eu; [|done]. apply utc_ok in Eu as [Haw ->].
  fold (durable_record c previous). cbn [andb].
  assert (Hiss : issued c) by (by unfold issued).
  destruct (bool_decide_reflect (cl_command c = REPAIR)) as [Hr|Hr]; cbn [negb co_commit_transition co_commit_queued_command table_commands].
  - pose proof (commit_transition_effect (durable_record c previous) now s2) as H.
    pose proof (step_repair s.(db_tables) c previous now s2.(db_local) s2.(db_faults) Hiss Hr) as Hst. rewrite <- Es in Hst at 2.
    replace (MkDb s2.(db_tables) s2.(db_local) s2.(db_faults)) with s2 in Hst by (by destruct s2).
    destruct (durable_commit_transition _ _ _) as [[[]|e] s3]; rewrite Es in H; [|done]. right. split; [done|]. split; [done|]. split; [done|]. exists previous. split; [done|].
    rewrite bool_decide_eq_true_2 by done. destruct H as (Hq & _ & [[Hk _]|(_ & _ & Ha)]).
    + exfalso. apply not_false_iff_true in Hk. apply Hk, has_key_false. exact Hfresh.
    + by rewrite Ha, audit_row_record, Hq.
  - pose proof (commit_queued_effect (durable_record c previous) s2) as H.
    pose proof (step_queued s.(db_tables) c previous s2.(db_local) s2.(db_faults) Hiss Hr) as Hst. rewrite <- Es in Hst at 2.
    replace (MkDb s2.(db_tables) s2.(db_local) s2.(db_faults)) with s2 in Hst by (by destruct s2).
    destruct (durable_commit_queued_command _ _) as [[[]|e] s3]; rewrite Es in H; [|done]. right. split; [done|]. split; [done|]. split; [done|]. exists previous. split; [done|].
    rewrite bool_decide_eq_false_2 by done. destruct H as (_ & _ & _ & ->). simpl. by rewrite audit_row_record.
Qed.

Lemma find_prefix {A} (q : A -> bool) l l' x : l `prefix_of` l' -> List.find q l = Some x -> List.find q l' = Some x.
Proof. intros [k ->]. induction l as [|y l IH]; [done|]. simpl. by destruct (q y). Qed.

Lemma durable_command_found now c s r : s.(db_faults) = [] -> can_operate c.(cl_actor) = true -> str_blank c.(cl_key) = false ->
  List.find (fun a => a.(ar_idempotency_key) ==p c.(cl_key)) s.(db_tables).(ot_audit) = Some r ->
  durable_command now c s = (answered r c, s).
Proof.
  intros Hf Hop Hb Hr. unfold durable_command, command_on. unfold mbind, M_bind, lift. rewrite Hop, Hb. simpl.
  unfold durable_audit_record. rewrite reading_fine by done. simpl. rewrite Hr. destruct s as [t l fs]. simpl in *. by rewrite Hf.
Qed.
Lemma durable_command_key now c s r s' : durable_command now c s = (Ok r, s') -> str_blank c.(cl_key) = false.
Proof.
  unfold durable_command, command_on, mbind, M_bind, lift. destruct (raise_if _ _); [|done].
  destruct (raise_if (str_blank _) _) eqn:E; [|done]. by apply raise_if_ok in E.
Qed.

(** The commands of the deployed API are durable and idempotent.  A call
    that raises, wherever the database failed, has changed no table.  A call
    that returned is recorded, with its pending command unless it is a repair,
    and repeating it in any process after any further transactions returns the
    very record and changes nothing; the key with another market, command or
    detail raises. *)
Theorem durable_command_answered now0 now c s :
  rtc ops_step (seeded now0) s.(db_tables) ->
  match durable_command now c s with
  | (Err _, s') => s'.(db_tables) = s.(db_tables)
  | (Ok r, s') =>
      command_effect c s.(db_tables) r s'.(db_tables) /\
      forall t l now' c', rtc ops_step s'.(db_tables) t -> c'.(cl_key) = c.(cl_key) -> can_operate c'.(cl_actor) = true ->
        durable_command now' c' (MkDb t l []) =
          (if bool_decide (c'.(cl_market) = c.(cl_market) /\ c'.(cl_command) = c.(cl_command) /\ c'.(cl_detail) = c.(cl_detail))
           then Ok r else Err (ValueError "idempotency key is bound to another command"), MkDb t l [])
  end.
Proof.
  intros Hreach. pose proof (durable_command_effect now c s) as H. destruct (durable_command now c s) as [[r|e] s'] eqn:Ed; [|done].
  split; [done|]. intros t l now' c' Hsteps Hk Hop.
  destruct (ops_steps_ok _ _ Hreach (seeded_ok now0)) as [Hok _].
  assert (Hnew : ops_ok s'.(db_tables) /\ List.find (fun a => a.(ar_idempotency_key) ==p c.(cl_key)) s'.(db_tables).(ot_audit) = Some r /\
    r.(ar_market) = c.(cl_market) /\ r.(ar_command) = c.(cl_command) /\ r.(ar_detail) = c.(cl_detail)).
  { destruct H as [(Hf & Ha & Ht)|(Hn & Hi & Hst & previous & Hr & Ha & Hq)].
    - rewrite Ht. split; [done|]. split; [done|]. unfold answered in Ha. apply result_bind_ok in Ha as (w & Hw%raise_if_ok & _).
      rewrite !orb_false_iff, !negb_false_iff, !bool_decide_eq_true, py_ne_false in Hw. naive_solver.
    - split; [by apply (ops_step_ok _ _ Hst)|]. split; [|by rewrite Hr].
      rewrite Ha, find_snoc, find_nothing by (exact (key_absent ar_idempotency_key _ _ Hn)).
      rewrite Hr. cbn. by rewrite (proj2 (py_eq_true _ _) eq_refl). }
  destruct Hnew as (Hok' & Hf & Hm & Hc & Hd). destruct (ops_steps_ok _ _ Hsteps Hok') as [_ Hp].
  rewrite (durable_command_found now' c' (MkDb t l []) r); [|done|done|rewrite Hk; by apply (durable_command_key _ _ _ _ _ Ed)|rewrite Hk; by apply (find_prefix _ _ _ _ Hp)].
  f_equal. unfold answered. rewrite <- Hm, <- Hc, <- Hd.
  destruct (decide (cl_market c' = ar_market r /\ cl_command c' = ar_command r /\ cl_detail c' = ar_detail r)) as [Hs|Hs].
  - rewrite (bool_decide_eq_true_2 _ Hs). destruct Hs as (-> & -> & ->). rewrite !bool_decide_eq_true_2 by done. simpl.
    by rewrite (proj2 (py_ne_false (ar_detail r) _) eq_refl).
  - rewrite (bool_decide_eq_false_2 _ Hs). destruct (_ || _) eqn:E; [done|]. destruct Hs.
    rewrite !orb_false_iff, !negb_false_iff, !bool_decide_eq_true, py_ne_false in E. naive_solver.
Qed.

(** ** Examples *)

Module OpsStoreExample.

Definition noon : datetime := at_utc (1709208000 * second).
Definition later : datetime := at_utc (1709208060 * second).
Definition operator : Actor := {| ac_actor_id := "alice"; ac_role := "operator" |}.
Definition call (cmd : Command) (key : string) : ControlCall := MkControlCall NSE cmd operator key true noon "".
Definition process (t : OpsTables) : Ops := MkDb t new_store [].

Definition queued : OpsTables := Eval vm_compute in (durable_commit_queued_command (durable_record (call START "k1") STOPPED) (process (seeded noon))).2.(db_tables).
Definition served : OpsTables := Eval vm_compute in (durable_claim "w1" later (process queued)).2.(db_tables).
Lemma queued_step : ops_step (seeded noon) queued.
Proof. exact (step_queued (seeded noon) (call START "k1") STOPPED new_store [] ltac:(by unfold issued) ltac:(done)). Qed.
Lemma served_step : ops_step queued served.
Proof. exact (step_claim queued "w1" later new_store []). Qed.

Lemma commands_queued_once_witness :
  length served.(ot_queue) = 1%nat /\
  Forall2 queues (List.filter for_worker served.(ot_audit)) served.(ot_queue) /\ Forall claimed_once served.(ot_queue).
Proof.
  split; [reflexivity|].
  destruct (commands_queued_once noon served served) as (_ & A & B & _); [|reflexivity|by split].
  eapply rtc_l; [exact queued_step|]. eapply rtc_l; [exact served_step|]. reflexivity.
Defined.

Lemma durable_command_answered_witness :
  exists r, durable_command later (call START "k1") (process (seeded noon)) = (Ok r, MkDb queued (save_audit r new_store).2 []) /\
    durable_command later (call START "k1") (process served) = (Ok r, process served) /\
    durable_command later (call STOP_COMMAND "k1") (process served) = (Err (ValueError "idempotency key is bound to another command"), process served).
Proof.
  pose proof (durable_command_answered noon later (call START "k1") (process (seeded noon)) ltac:(reflexivity)) as H.
  assert (E : durable_command later (call START "k1") (process (seeded noon)) =
    (Ok (durable_record (call START "k1") STOPPED), MkDb queued (save_audit (durable_record (call START "k1") STOPPED) new_store).2 [])) by (vm_compute; reflexivity).
  rewrite E in H. destruct H as [_ H]. exists (durable_record (call START "k1") STOPPED). split; [exact E|].
  assert (Hs : rtc ops_step queued served) by (eapply rtc_l; [exact served_step|]; reflexivity).
  split; [exact (H served new_store later (call START "k1") Hs eq_refl eq_refl)|exact (H served new_store later (call STOP_COMMAND "k1") Hs eq_refl eq_refl)].
Defined.

(** A repair writes back the worker state it read in an earlier transaction:
    a worker that stopped in between is shown as running. *)
Definition snapshot (s : RuntimeState) : WorkerSnapshot := {|
  ws_market := NSE; ws_instance_id := "w1"; ws_state := s; ws_last_heartbeat := noon; ws_last_cycle_started := None;
  ws_last_cycle_finished := None; ws_last_error := None |}.
Definition running : OpsTables := (save_snapshot (snapshot Supervisor.RUNNING) noon (process (seeded noon))).2.(db_tables).
Definition stopped : OpsTables := (save_snapshot (snapshot Supervisor.STOPPED) later (process running)).2.(db_tables).
Definition repaired : OpsTables := (durable_commit_transition (durable_record (call REPAIR "k2") RUNNING) later (process stopped)).2.(db_tables).
Example repair_reverts_worker :
  (durable_worker_state NSE (process running)).1 = Ok RUNNING /\
  (durable_worker_state NSE (process stopped)).1 = Ok STOPPED /\
  (durable_worker_state NSE (process repaired)).1 = Ok RUNNING /\
  (fun r => r.(ir_snapshot).(ws_state)) <$> repaired.(ot_instances) = [Supervisor.STOPPED].
Proof. vm_compute. by repeat split. Qed.

(** Two repairs with one key that both looked before either committed both
    return; the audit holds the first alone. *)
Definition other_repair : ControlCall := MkControlCall NSE REPAIR operator "k2" true noon "another".
Example raced_repairs_both_return :
  let first := durable_commit_transition (durable_record (call REPAIR "k2") STOPPED) noon (process (seeded noon)) in
  let second := durable_commit_transition (durable_record other_repair STOPPED) noon first.2 in
  is_ok first.1 = true /\ is_ok second.1 = true /\ ar_detail <$> second.2.(db_tables).(ot_audit) = [""].
Proof. vm_compute. by repeat split. Qed.

End OpsStoreExample.
