(* ===== verification/Security.v ===== *)
(** * Identities, sessions and API keys (src/nanodelta/security.py)

    Passwords are kept as scrypt hashes, sessions and API keys as SHA-256
    hashes of random tokens.  The store is five tables of a database; every
    method is one transaction over them that commits, or raises and leaves
    them alone.  What a method draws from outside (the clocks of the process
    and of the database, random identifiers and secrets, a failure of the
    database) is an argument of it; scrypt is a parameter.

    The theorems: a password verifies against its own hash and only through
    scrypt; a session ended by a logout, a password change or a disabled
    account stays ended whatever happens later; guessing a password is
    bounded in every window of time; disabled accounts are locked out; the
    tables keep their uniqueness and references. *)

From Stdlib Require Import ZArith Lia Ascii String ZifyBool.
From stdpp Require Import prelude strings pretty numbers list.
From S2P Require Import Prelude PyData PyText PyDigits PyParse PyJson Sha256 PyTime Sql Controller.

Local Open Scope Z_scope.

(** ** Passwords *)

Definition ROLES : list string := ["viewer"; "operator"; "admin"].
Definition _SCRYPT_N : Z := 2 ^ 14.
Definition _SCRYPT_R : Z := 8.
Definition _SCRYPT_P : Z := 1.
Definition _DUMMY_PASSWORD_HASH : string :=
  "scrypt$16384$8$1$00000000000000000000000000000000$" +:+
  "4f261698a2c7c85d8f431f8480051230d66451a58a74787885018f2e1b650462".

(** [b.hex()] *)
Fixpoint bytes_hex (b : string) : string :=
  match b with EmptyString => "" | String c b => hex_byte (code c) +:+ bytes_hex b end.
(** [bytes.fromhex(s)]: pairs of digits, spaces allowed between them *)
Definition hex_space (c : ascii) : bool := (9 <=? code c) && (code c <=? 13) || (code c =? 32).
Fixpoint fromhex_pairs (s : string) : option string :=
  match s with
  | EmptyString => Some ""
  | String a s' =>
      if hex_space a then fromhex_pairs s'
      else match s' with
           | String b s'' =>
               h ← hex_value a; l ← hex_value b; rest ← fromhex_pairs s''; Some (String (char_of (16 * h + l)) rest)
           | EmptyString => None
           end
  end.
Definition bytes_fromhex (s : string) : result string :=
  match fromhex_pairs s with
  | Some b => Ok b
  | None => Err (ValueError "non-hexadecimal number found in fromhex() arg")
  end.

(** [except (ValueError, TypeError): return False] *)
Definition refused (r : result bool) : result bool :=
  match r with
  | Err (ValueError _) | Err (TypeError _) => Ok false
  | _ => r
  end.

Section Passwords.
(** [hashlib.scrypt(password, salt=, n=, r=, p=, dklen=32)] *)
Context (scrypt : string -> string -> Z -> Z -> Z -> result string).

Definition hash_password (password : string) (salt : option string) (random : string) : result string :=
  _ ← raise_if (str_len password <? 12) (ValueError "password must contain at least 12 characters");
  let actual_salt := match salt with Some s => if str_empty s then random else s | None => random end in
  derived ← scrypt password actual_salt _SCRYPT_N _SCRYPT_R _SCRYPT_P;
  mret (str_join "$" ["scrypt"; str_Z _SCRYPT_N; str_Z _SCRYPT_R; str_Z _SCRYPT_P; bytes_hex actual_salt; bytes_hex derived]).

Definition verify_password (password encoded : string) : result bool :=
  refused
    match split_on "$" encoded with
    | [algorithm; n; r; p; salt; expected] =>
        if algorithm !=p "scrypt" then mret false
        else
          salt ← bytes_fromhex salt; n ← py_int_str n; r ← py_int_str r; p ← py_int_str p;
          actual ← scrypt password salt n r p;
          expected ← bytes_fromhex expected;
          mret (actual ==p expected)
    | _ => Err (ValueError "wrong number of values to unpack (expected 6)")
    end.
End Passwords.

Definition token_hash (token : string) : string := Sha256.hexdigest token.
Definition source_hash (source : string) : string := Sha256.hexdigest source.

(** ** The tables *)

Record AuthSession := { as_token : string; as_actor : Actor; as_username : string; as_expires_at : datetime }.

Record UserRow := {
  us_user_id : string;
  us_username : string;
  us_password_hash : string;
  us_role : string;
  us_active : bool;
  us_created_at : Z;
  us_updated_at : Z;
  us_password_changed_at : Z }.
Record ThrottleRow := {
  th_username : string;
  th_source_hash : string;
  th_failed_attempts : Z;
  th_window_started_at : Z;
  th_locked_until : option Z }.
Record SessionRow := {
  se_session_id : string;
  se_user_id : string;
  se_token_hash : string;
  se_created_at : Z;
  se_expires_at : Z;
  se_revoked_at : option Z;
  se_last_seen_at : Z;
  se_source_hash : string }.
Record ApiKeyRow := {
  ak_key_id : string;
  ak_name : string;
  ak_key_hash : string;
  ak_actor_id : string;
  ak_role : string;
  ak_created_at : Z;
  ak_expires_at : option Z;
  ak_revoked_at : option Z;
  ak_last_used_at : option Z }.
Record SecurityEvent := {
  sv_event_id : string;
  sv_occurred_at : Z;
  sv_event_type : string;
  sv_actor_id : option string;
  sv_subject_id : option string;
  sv_source_hash : option string;
  sv_success : bool;
  sv_detail : json }.

Record AuthTables := {
  at_users : list UserRow;
  at_throttle : list ThrottleRow;
  at_sessions : list SessionRow;
  at_api_keys : list ApiKeyRow;
  at_audit : list SecurityEvent }.

Definition set_users (f : list UserRow -> list UserRow) : M AuthTables unit := modify (fun t =>
  {| at_users := f t.(at_users); at_throttle := t.(at_throttle); at_sessions := t.(at_sessions);
     at_api_keys := t.(at_api_keys); at_audit := t.(at_audit) |}).
Definition set_throttle (f : list ThrottleRow -> list ThrottleRow) : M AuthTables unit := modify (fun t =>
  {| at_users := t.(at_users); at_throttle := f t.(at_throttle); at_sessions := t.(at_sessions);
     at_api_keys := t.(at_api_keys); at_audit := t.(at_audit) |}).
Definition set_sessions (f : list SessionRow -> list SessionRow) : M AuthTables unit := modify (fun t =>
  {| at_users := t.(at_users); at_throttle := t.(at_throttle); at_sessions := f t.(at_sessions);
     at_api_keys := t.(at_api_keys); at_audit := t.(at_audit) |}).
Definition set_api_keys (f : list ApiKeyRow -> list ApiKeyRow) : M AuthTables unit := modify (fun t =>
  {| at_users := t.(at_users); at_throttle := t.(at_throttle); at_sessions := t.(at_sessions);
     at_api_keys := f t.(at_api_keys); at_audit := t.(at_audit) |}).
Definition set_audit (f : list SecurityEvent -> list SecurityEvent) : M AuthTables unit := modify (fun t =>
  {| at_users := t.(at_users); at_throttle := t.(at_throttle); at_sessions := t.(at_sessions);
     at_api_keys := t.(at_api_keys); at_audit := f t.(at_audit) |}).

(** What one call draws from outside: [datetime.now(UTC)], [now()] of its
    transaction, the n-th [uuid.uuid4()], [secrets], and a failure. *)
Record Outside := {
  ou_now : Z;
  ou_db_now : Z;
  ou_uuid : nat -> string;
  ou_secret : string;
  ou_salt : string;
  ou_fault : option exn }.

Record Security := {
  sc_max_failures : Z;
  sc_failure_window : Z;
  sc_lockout : Z;
  sc_session_ttl : Z }.
Definition default_security : Security := {|
  sc_max_failures := 5; sc_failure_window := 15 * minute; sc_lockout := 30 * minute; sc_session_ttl := 8 * hour |}.

(** [username.strip().casefold()] *)
Definition normalized_name (username : string) : string := str_lower (str_strip username).

Section Store.
Context (scrypt : string -> string -> Z -> Z -> Z -> result string).
Context (self : Security).

(** [try: ...; commit()  except Exception: rollback(); raise  finally: close()] *)
Definition auth_transaction {A} (o : Outside) (m : M AuthTables A) : M AuthTables A := fun t =>
  match o.(ou_fault) with
  | Some e => (Err e, t)
  | None => restoring t m t
  end.

Definition security_audit (o : Outside) (event_id event : string) (actor subject origin : option string) (success : bool) (detail : json)
  : M AuthTables unit :=
  t ← get_state;
  _ ← lift (unique sv_event_id t.(at_audit) event_id);
  set_audit (fun rows => rows ++ [{|
    sv_event_id := event_id; sv_occurred_at := o.(ou_db_now); sv_event_type := event; sv_actor_id := actor;
    sv_subject_id := subject; sv_source_hash := origin; sv_success := success; sv_detail := detail |}]).

(** [UPDATE auth.sessions SET revoked_at=now() WHERE p AND revoked_at IS NULL] *)
Definition is_null {A} (o : option A) : bool := match o with None => true | Some _ => false end.
Definition revoked (o : Outside) (s : SessionRow) : SessionRow := {|
  se_session_id := s.(se_session_id); se_user_id := s.(se_user_id); se_token_hash := s.(se_token_hash);
  se_created_at := s.(se_created_at); se_expires_at := s.(se_expires_at); se_revoked_at := Some o.(ou_db_now);
  se_last_seen_at := s.(se_last_seen_at); se_source_hash := s.(se_source_hash) |}.
Definition revoke_sessions (o : Outside) (p : SessionRow -> bool) : M AuthTables unit :=
  set_sessions (update_where (fun s => p s && is_null s.(se_revoked_at)) (revoked o)).

Definition user_named (name : string) (t : AuthTables) : option UserRow :=
  List.find (fun u => u.(us_username) ==p name) t.(at_users).
Definition new_user (o : Outside) (user_id name hash role : string) : UserRow := {|
  us_user_id := user_id; us_username := name; us_password_hash := hash; us_role := role; us_active := true;
  us_created_at := o.(ou_db_now); us_updated_at := o.(ou_db_now); us_password_changed_at := o.(ou_db_now) |}.
Definition updated_user (o : Outside) (hash role : string) (u : UserRow) : UserRow := {|
  us_user_id := u.(us_user_id); us_username := u.(us_username); us_password_hash := hash; us_role := role; us_active := true;
  us_created_at := u.(us_created_at); us_updated_at := o.(ou_db_now); us_password_changed_at := o.(ou_db_now) |}.

(** [INSERT INTO auth.users ... ON CONFLICT(username) DO UPDATE ... RETURNING user_id] *)
Definition put_user (o : Outside) (user_id name hash role : string) : M AuthTables string :=
  t ← get_state;
  match user_named name t with
  | Some u =>
      _ ← set_users (update_where (fun u => u.(us_username) ==p name) (updated_user o hash role));
      mret u.(us_user_id)
  | None =>
      _ ← lift (unique us_user_id t.(at_users) user_id);
      _ ← set_users (fun rows => rows ++ [new_user o user_id name hash role]);
      mret user_id
  end.

Definition upsert_user (o : Outside) (username password role : string) : M AuthTables string :=
  _ ← lift (raise_if (negb (bool_decide (role ∈ ROLES))) (ValueError "invalid role"));
  let normalized := normalized_name username in
  _ ← lift (raise_if (str_empty normalized) (ValueError "username is required"));
  auth_transaction o (
    hash ← lift (hash_password scrypt password None o.(ou_salt));
    actual_id ← put_user o (o.(ou_uuid) 0%nat) normalized hash role;
    _ ← revoke_sessions o (fun s => s.(se_user_id) ==p actual_id);
    _ ← security_audit o (o.(ou_uuid) 1%nat) "user_upserted" (Some actual_id) (Some actual_id) None true (JObj [("role", JStr role)]);
    mret actual_id).

Definition disabled_user (o : Outside) (u : UserRow) : UserRow := {|
  us_user_id := u.(us_user_id); us_username := u.(us_username); us_password_hash := u.(us_password_hash); us_role := u.(us_role);
  us_active := false; us_created_at := u.(us_created_at); us_updated_at := o.(ou_db_now);
  us_password_changed_at := u.(us_password_changed_at) |}.

Definition disable_user (o : Outside) (username actor_id : string) : M AuthTables bool :=
  auth_transaction o (
    let name := normalized_name username in
    t ← get_state;
    let row := user_named name t in
    _ ← set_users (update_where (fun u => u.(us_username) ==p name) (disabled_user o));
    _ ← match row with
        | Some u => revoke_sessions o (fun s => s.(se_user_id) ==p u.(us_user_id))
        | None => mret tt
        end;
    _ ← security_audit o (o.(ou_uuid) 0%nat) "user_disabled" (Some actor_id) (us_user_id <$> row) None (negb (is_null row)) (JObj []);
    mret (negb (is_null row))).

(** *** Login *)

Definition throttled (name origin : string) (r : ThrottleRow) : bool := (r.(th_username) ==p name) && (r.(th_source_hash) ==p origin).
Definition throttle_of (name origin : string) (t : AuthTables) : option ThrottleRow := List.find (throttled name origin) t.(at_throttle).
Definition locked (r : option ThrottleRow) (now : Z) : bool :=
  match r with
  | Some r => match r.(th_locked_until) with Some until => now <? until | None => false end
  | None => false
  end.

(** The row after a failed attempt. *)
Definition failed_attempt (now : Z) (name origin : string) (throttle : option ThrottleRow) : ThrottleRow :=
  let '(failures, window_start) :=
    match throttle with
    | Some r => if now - r.(th_window_started_at) <=? self.(sc_failure_window) then (r.(th_failed_attempts) + 1, r.(th_window_started_at)) else (1, now)
    | None => (1, now)
    end in
  {| th_username := name; th_source_hash := origin; th_failed_attempts := failures; th_window_started_at := window_start;
     th_locked_until := if self.(sc_max_failures) <=? failures then Some (now + self.(sc_lockout)) else None |}.
(** [INSERT INTO auth.login_throttle ... ON CONFLICT(username,source_hash) DO UPDATE] *)
Definition put_throttle (r : ThrottleRow) (rows : list ThrottleRow) : list ThrottleRow :=
  let same := throttled r.(th_username) r.(th_source_hash) in
  if existsb same rows then update_where same (fun _ => r) rows else rows ++ [r].

Definition active_user_named (name : string) (t : AuthTables) : option UserRow :=
  List.find (fun u => (u.(us_username) ==p name) && u.(us_active)) t.(at_users).

(** Up to the decision on the password: the user's row, or the refusal. *)
Definition login_check (o : Outside) (normalized password origin : string) : M AuthTables (option UserRow) :=
  t ← get_state;
  let throttle := throttle_of normalized origin t in
  if locked throttle o.(ou_now) then
    _ ← security_audit o (o.(ou_uuid) 0%nat) "login_locked" None (Some normalized) (Some origin) false (JObj []);
    mret None
  else
    let row := active_user_named normalized t in
    verified ← lift (verify_password scrypt password (match row with Some u => u.(us_password_hash) | None => _DUMMY_PASSWORD_HASH end));
    match row, verified with
    | Some u, true => mret (Some u)
    | _, _ =>
        _ ← set_throttle (put_throttle (failed_attempt o.(ou_now) normalized origin throttle));
        _ ← security_audit o (o.(ou_uuid) 0%nat) "login_failed" None (Some normalized) (Some origin) false (JObj []);
        mret None
    end.

Definition new_session (o : Outside) (user_id origin : string) : SessionRow := {|
  se_session_id := o.(ou_uuid) 0%nat; se_user_id := user_id; se_token_hash := token_hash o.(ou_secret);
  se_created_at := o.(ou_db_now); se_expires_at := o.(ou_now) + self.(sc_session_ttl); se_revoked_at := None;
  se_last_seen_at := o.(ou_db_now); se_source_hash := origin |}.

(** After the decision: the throttle is cleared and the session issued. *)
Definition login_grant (o : Outside) (normalized origin : string) (row : UserRow) : M AuthTables AuthSession :=
  _ ← set_throttle (List.filter (fun r => negb (throttled normalized origin r)));
  t ← get_state;
  let s := new_session o row.(us_user_id) origin in
  _ ← lift (unique se_session_id t.(at_sessions) s.(se_session_id));
  _ ← lift (unique se_token_hash t.(at_sessions) s.(se_token_hash));
  _ ← set_sessions (fun rows => rows ++ [s]);
  _ ← security_audit o (o.(ou_uuid) 1%nat) "login_succeeded" (Some row.(us_user_id)) (Some row.(us_user_id)) (Some origin) true (JObj []);
  mret {| as_token := o.(ou_secret); as_actor := {| ac_actor_id := row.(us_user_id); ac_role := row.(us_role) |};
          as_username := normalized; as_expires_at := at_utc (o.(ou_now) + self.(sc_session_ttl)) |}.

Definition login (o : Outside) (username password source : string) : M AuthTables (option AuthSession) :=
  let normalized := normalized_name username in
  let origin := source_hash source in
  auth_transaction o (
    row ← login_check o normalized password origin;
    match row with
    | Some u => session ← login_grant o normalized origin u; mret (Some session)
    | None => mret None
    end).

(** *** Sessions *)

(** [FROM auth.sessions s JOIN auth.users u ON u.user_id=s.user_id WHERE
    s.token_hash=... AND s.revoked_at IS NULL AND s.expires_at>now() AND u.active=true] *)
Definition live_row (hash : string) (now : Z) (s : SessionRow) : bool :=
  (s.(se_token_hash) ==p hash) && is_null s.(se_revoked_at) && (now <? s.(se_expires_at)).
Definition live_users (hash : string) (now : Z) (t : AuthTables) : list UserRow :=
  s ← List.filter (live_row hash now) t.(at_sessions);
  List.filter (fun u => (u.(us_user_id) ==p s.(se_user_id)) && u.(us_active)) t.(at_users).

Definition seen (o : Outside) (s : SessionRow) : SessionRow := {|
  se_session_id := s.(se_session_id); se_user_id := s.(se_user_id); se_token_hash := s.(se_token_hash);
  se_created_at := s.(se_created_at); se_expires_at := s.(se_expires_at); se_revoked_at := s.(se_revoked_at);
  se_last_seen_at := o.(ou_db_now); se_source_hash := s.(se_source_hash) |}.

Definition session_actor (o : Outside) (token : string) (touch : bool) : M AuthTables (option Actor) :=
  auth_transaction o (
    t ← get_state;
    match live_users (token_hash token) o.(ou_db_now) t with
    | [] => mret None
    | u :: _ =>
        _ ← when touch (set_sessions (update_where (fun s => s.(se_token_hash) ==p token_hash token) (seen o)));
        mret (Some {| ac_actor_id := u.(us_user_id); ac_role := u.(us_role) |})
    end).

Definition session_username (o : Outside) (token : string) : M AuthTables (option string) :=
  auth_transaction o (t ← get_state; mret (us_username <$> head (live_users (token_hash token) o.(ou_db_now) t))).

Definition revoke_session (o : Outside) (token : string) (actor_id : option string) : M AuthTables unit :=
  auth_transaction o (
    _ ← revoke_sessions o (fun s => s.(se_token_hash) ==p token_hash token);
    security_audit o (o.(ou_uuid) 0%nat) "session_revoked" actor_id None None true (JObj [])).

(** *** API keys *)

Definition usable_key (hash : string) (now : Z) (k : ApiKeyRow) : bool :=
  (k.(ak_key_hash) ==p hash) && is_null k.(ak_revoked_at) && match k.(ak_expires_at) with None => true | Some e => now <? e end.
Definition used_key (o : Outside) (k : ApiKeyRow) : ApiKeyRow := {|
  ak_key_id := k.(ak_key_id); ak_name := k.(ak_name); ak_key_hash := k.(ak_key_hash); ak_actor_id := k.(ak_actor_id);
  ak_role := k.(ak_role); ak_created_at := k.(ak_created_at); ak_expires_at := k.(ak_expires_at); ak_revoked_at := k.(ak_revoked_at);
  ak_last_used_at := Some o.(ou_db_now) |}.

Definition authenticate_api_key (o : Outside) (key : string) : M AuthTables (option Actor) :=
  auth_transaction o (
    t ← get_state;
    let p := usable_key (token_hash key) o.(ou_db_now) in
    _ ← set_api_keys (update_where p (used_key o));
    mret ((fun k => {| ac_actor_id := k.(ak_actor_id); ac_role := k.(ak_role) |}) <$> head (List.filter p t.(at_api_keys)))).

Definition new_api_key (o : Outside) (key_id name hash actor_id role : string) : ApiKeyRow := {|
  ak_key_id := key_id; ak_name := name; ak_key_hash := hash; ak_actor_id := actor_id; ak_role := role;
  ak_created_at := o.(ou_db_now); ak_expires_at := None; ak_revoked_at := None; ak_last_used_at := None |}.

Definition create_api_key (o : Outside) (name actor_id role : string) : M AuthTables (string * string) :=
  _ ← lift (raise_if (negb (bool_decide (role ∈ ROLES))) (ValueError "invalid role"));
  let raw := "nd_" +:+ o.(ou_secret) in
  let key_id := o.(ou_uuid) 0%nat in
  auth_transaction o (
    t ← get_state;
    _ ← lift (unique ak_key_id t.(at_api_keys) key_id);
    _ ← lift (unique ak_name t.(at_api_keys) name);
    _ ← lift (unique ak_key_hash t.(at_api_keys) (token_hash raw));
    _ ← set_api_keys (fun rows => rows ++ [new_api_key o key_id name (token_hash raw) actor_id role]);
    _ ← security_audit o (o.(ou_uuid) 1%nat) "api_key_created" (Some actor_id) (Some key_id) None true
          (JObj [("name", JStr name); ("role", JStr role)]);
    mret (key_id, raw)).

Definition revoked_key (o : Outside) (k : ApiKeyRow) : ApiKeyRow := {|
  ak_key_id := k.(ak_key_id); ak_name := k.(ak_name); ak_key_hash := k.(ak_key_hash); ak_actor_id := k.(ak_actor_id);
  ak_role := k.(ak_role); ak_created_at := k.(ak_created_at); ak_expires_at := k.(ak_expires_at); ak_revoked_at := Some o.(ou_db_now);
  ak_last_used_at := k.(ak_last_used_at) |}.

Definition revoke_api_key (o : Outside) (key_id actor_id : string) : M AuthTables bool :=
  auth_transaction o (
    t ← get_state;
    let p := fun k : ApiKeyRow => (k.(ak_key_id) ==p key_id) && is_null k.(ak_revoked_at) in
    let changed := existsb p t.(at_api_keys) in
    _ ← set_api_keys (update_where p (revoked_key o));
    _ ← security_audit o (o.(ou_uuid) 0%nat) "api_key_revoked" (Some actor_id) (Some key_id) None changed (JObj []);
    mret changed).

(** ** The calls, in any order *)

Inductive auth_call :=
| UpsertUser (username password role : string)
| DisableUser (username actor_id : string)
| Login (username password source : string)
| SessionActor (token : string) (touch : bool)
| SessionUsername (token : string)
| RevokeSession (token : string) (actor_id : option string)
| AuthenticateKey (key : string)
| CreateKey (name actor_id role : string)
| RevokeKey (key_id actor_id : string).

Definition call_run (o : Outside) (c : auth_call) : M AuthTables unit :=
  match c with
  | UpsertUser u p r => _ ← upsert_user o u p r; mret tt
  | DisableUser u a => _ ← disable_user o u a; mret tt
  | Login u p s => _ ← login o u p s; mret tt
  | SessionActor k touch => _ ← session_actor o k touch; mret tt
  | SessionUsername k => _ ← session_username o k; mret tt
  | RevokeSession k a => revoke_session o k a
  | AuthenticateKey k => _ ← authenticate_api_key o k; mret tt
  | CreateKey n a r => _ ← create_api_key o n a r; mret tt
  | RevokeKey k a => _ ← revoke_api_key o k a; mret tt
  end.

(** A run of calls, whatever each of them answers. *)
Fixpoint calls_run (l : list (Outside * auth_call)) (t : AuthTables) : AuthTables :=
  match l with
  | [] => t
  | (o, c) :: l => calls_run l (call_run o c t).2
  end.

End Store.

(** ** Hexadecimal text and passwords *)

Lemma hex_byte_value n : 0 <= n < 256 ->
  hex_value (hex_digit (n / 16)) = Some (n / 16) /\ hex_value (hex_digit (n mod 16)) = Some (n mod 16).
Proof.
  assert (H : forall d, 0 <= d < 16 -> hex_value (hex_digit d) = Some d).
  { intros d Hd. assert (Hin : d ∈ seqZ 0 16) by (apply elem_of_seqZ; lia).
    revert d Hin Hd. apply (Forall_forall (fun d => 0 <= d < 16 -> hex_value (hex_digit d) = Some d)).
    repeat constructor. }
  intros Hn. split; apply H; [|apply Z.mod_pos_bound; lia].
  split; [apply Z.div_pos; lia | apply Z.div_lt_upper_bound; lia].
Qed.

(** The digits of a byte are neither space nor separator. *)
Definition hex_char (c : ascii) : bool := negb (is_null (hex_value c)).
Lemma hex_char_plain c : hex_char c = true -> hex_space c = false /\ Ascii.eqb c "$" = false.
Proof.
  destruct c as [[] [] [] [] [] [] [] []]; vm_compute; intros H; (discriminate H || (split; reflexivity)).
Qed.

Lemma code_bounds c : 0 <= code c < 256.
Proof. unfold code. pose proof (N_ascii_bounded c). lia. Qed.

Lemma char_of_code c : char_of (code c) = c.
Proof. unfold char_of, code. by rewrite N2Z.id, ascii_N_embedding. Qed.

Lemma hex_byte_chars c : all_chars hex_char (hex_byte (code c)) = true.
Proof.
  destruct (hex_byte_value (code c) (code_bounds c)) as [H1 H2]. simpl. unfold hex_char. by rewrite H1, H2.
Qed.

Lemma bytes_hex_chars b : all_chars hex_char (bytes_hex b) = true.
Proof.
  induction b as [|c b IH]; [done|]. simpl bytes_hex. rewrite all_chars_app, IH, hex_byte_chars. done.
Qed.

(** [bytes.fromhex(b.hex()) = b] *)
Lemma fromhex_hex b : bytes_fromhex (bytes_hex b) = Ok b.
Proof.
  unfold bytes_fromhex. assert (fromhex_pairs (bytes_hex b) = Some b) as ->; [|done].
  induction b as [|c b IH]; [done|]. simpl bytes_hex.
  pose proof (hex_byte_chars c) as Hc. simpl in Hc. apply andb_prop in Hc as [Ha Hc]. apply andb_prop in Hc as [Hb _].
  apply hex_char_plain in Ha as [Ha _]. destruct (hex_byte_value (code c) (code_bounds c)) as [H1 H2].
  change (fromhex_pairs (String (hex_digit (code c / 16)) (String (hex_digit (code c mod 16)) (bytes_hex b))) = Some (String c b)).
  simpl. rewrite Ha, H1, H2, IH. simpl.
  rewrite <- (Z.div_mod (code c) 16) by lia. by rewrite char_of_code.
Qed.

Definition plain (s : string) : Prop := all_chars (fun x => negb (Ascii.eqb x "$")) s = true.

Lemma split_join parts : parts <> [] -> Forall plain parts -> split_on "$" (str_join "$" parts) = parts.
Proof.
  intros Hne. induction 1 as [|p ps Hp Hps IH]; [done|]. destruct ps as [|q ps]; [by apply split_on_none|].
  change (split_on "$" (p +:+ String "$" (str_join "$" (q :: ps))) = p :: q :: ps).
  rewrite split_on_app by done. by rewrite IH.
Qed.

Lemma plain_hex b : plain (bytes_hex b).
Proof. eapply all_chars_impl, bytes_hex_chars. intros c [_ H]%hex_char_plain. by rewrite H. Qed.

Section PasswordTheory.
Context (scrypt : string -> string -> Z -> Z -> Z -> result string).

(** A password is tested against a hash by deriving bytes from it and the
    salt of the hash, and comparing. *)
Lemma verify_hashed password salt random encoded :
  hash_password scrypt password salt random = Ok encoded ->
  exists actual_salt derived, scrypt password actual_salt _SCRYPT_N _SCRYPT_R _SCRYPT_P = Ok derived /\
    forall guess, verify_password scrypt guess encoded =
      refused (actual ← scrypt guess actual_salt _SCRYPT_N _SCRYPT_R _SCRYPT_P; mret (actual ==p derived)).
Proof.
  unfold hash_password. intros (_ & _ & (derived & Hd & Henc%Ok_inj)%result_bind_ok)%result_bind_ok. subst encoded.
  eexists _, derived. split; [exact Hd|]. intros guess. unfold verify_password.
  rewrite split_join by (try done; repeat constructor; first [apply plain_hex | vm_compute; reflexivity]).
  change ("scrypt" !=p "scrypt") with false. cbv iota. f_equal.
  by rewrite !fromhex_hex, !py_int_str_Z.
Qed.

(** A password is accepted against its own hash, and any other is accepted
    only when scrypt derives the same bytes from both. *)
Lemma password_roundtrip password salt random encoded :
  hash_password scrypt password salt random = Ok encoded ->
  verify_password scrypt password encoded = Ok true /\
  forall guess, verify_password scrypt guess encoded = Ok true -> exists used,
    scrypt guess used _SCRYPT_N _SCRYPT_R _SCRYPT_P = scrypt password used _SCRYPT_N _SCRYPT_R _SCRYPT_P.
Proof.
  intros (used & derived & Hd & Hv)%verify_hashed. split.
  - rewrite Hv, Hd. simpl. f_equal. by apply py_eq_true.
  - intros guess. rewrite Hv. intros H. exists used. rewrite Hd.
    destruct (scrypt guess used _ _ _) as [actual|[]]; try done. simpl in H. injection H as H.
    apply (proj1 (py_eq_true actual derived)) in H. by subst.
Qed.
End PasswordTheory.

(** ** Transactions *)

Lemma auth_transaction_ok {A} o (m : M AuthTables A) t a t' :
  auth_transaction o m t = (Ok a, t') <-> o.(ou_fault) = None /\ m t = (Ok a, t').
Proof.
  unfold auth_transaction, restoring. destruct o.(ou_fault); [naive_solver|].
  destruct (m t) as [[b|e] t1] eqn:E; naive_solver.
Qed.

Lemma auth_transaction_err {A} o (m : M AuthTables A) t e t' : auth_transaction o m t = (Err e, t') -> t' = t.
Proof. unfold auth_transaction, restoring. destruct o.(ou_fault); [naive_solver|]. destruct (m t) as [[b|e'] t1]; naive_solver. Qed.

Lemma transaction_preserves {A} (R : AuthTables -> AuthTables -> Prop) `{!PreOrder R} o (m : M AuthTables A) :
  (forall t a t', m t = (Ok a, t') -> R t t') -> preserves R (auth_transaction o m).
Proof.
  intros Hm t. destruct (auth_transaction o m t) as [[a|e] t'] eqn:E; simpl.
  - apply auth_transaction_ok in E as [_ E]. by eapply Hm.
  - apply auth_transaction_err in E. by subst.
Qed.

(** ** Rows stay

    A table's rows stay in their order, each related to what it was, and new
    ones come after them. *)

Definition grows {A} (le : A -> A -> Prop) (rows rows' : list A) : Prop := exists l r, rows' = l ++ r /\ Forall2 le rows l.
Definition rows_evolve {A} (get : AuthTables -> list A) (le : A -> A -> Prop) (t t' : AuthTables) : Prop := grows le (get t) (get t').

Section Evolve.
Context {A : Type} (get : AuthTables -> list A) (le : A -> A -> Prop) `{!PreOrder le}.

Lemma grows_refl rows : grows le rows rows.
Proof. exists rows, []. by rewrite app_nil_r. Qed.
#[export] Instance rows_evolve_preorder : PreOrder (rows_evolve get le).
Proof.
  split; [intros t; apply grows_refl|].
  intros t1 t2 t3 (l & r & E1 & F1) (l' & r' & E2 & F2). rewrite E1 in F2.
  apply Forall2_app_inv_l in F2 as (l1 & l2 & G1 & G2 & ->). exists l1, (l2 ++ r').
  split; [by rewrite E2, app_assoc|]. by transitivity l.
Qed.

Lemma evolve_same t t' : get t' = get t -> rows_evolve get le t t'.
Proof. intros E. unfold rows_evolve. rewrite E. apply grows_refl. Qed.
Lemma grows_update p f rows : (forall x, p x = true -> le x (f x)) -> grows le rows (update_where p f rows).
Proof.
  intros Hf. exists (update_where p f rows), []. rewrite app_nil_r. split; [done|].
  unfold update_where. apply Forall2_fmap_r, Forall_Forall2_diag, Forall_forall. intros x _.
  change (le x (if p x then f x else x)). destruct (p x) eqn:E; [by apply Hf|done].
Qed.
Lemma grows_snoc x rows : grows le rows (rows ++ [x]).
Proof. by exists rows, [x]. Qed.
Lemma evolve_transaction {B} o (m : M AuthTables B) : preserves (rows_evolve get le) m -> preserves (rows_evolve get le) (auth_transaction o m).
Proof. intros Hm. apply transaction_preserves; [typeclasses eauto|]. intros t a t'. by apply preserves_run. Qed.

Lemma evolve_elem t t' x : rows_evolve get le t t' -> x ∈ get t -> exists y, y ∈ get t' /\ le x y.
Proof.
  intros (l & r & E & F) [i Hi]%list_elem_of_lookup. destruct (Forall2_lookup_l _ _ _ _ _ F Hi) as (y & Hy & Hle).
  exists y. split; [rewrite E, elem_of_app; left; by eapply list_elem_of_lookup_2|done].
Qed.
End Evolve.

(** A session or a key that was revoked stays so. *)
Definition session_le (s s' : SessionRow) : Prop :=
  s'.(se_session_id) = s.(se_session_id) /\ s'.(se_user_id) = s.(se_user_id) /\ s'.(se_token_hash) = s.(se_token_hash) /\
  s'.(se_expires_at) = s.(se_expires_at) /\ (is_null s.(se_revoked_at) = false -> s'.(se_revoked_at) = s.(se_revoked_at)).
Definition key_le (k k' : ApiKeyRow) : Prop :=
  k'.(ak_key_id) = k.(ak_key_id) /\ k'.(ak_key_hash) = k.(ak_key_hash) /\ k'.(ak_actor_id) = k.(ak_actor_id) /\
  k'.(ak_role) = k.(ak_role) /\ (is_null k.(ak_revoked_at) = false -> k'.(ak_revoked_at) = k.(ak_revoked_at)).

#[export] Instance session_le_preorder : PreOrder session_le.
Proof.
  split; [by intros s|]. intros s1 s2 s3 (A1 & A2 & A3 & A4 & A5) (B1 & B2 & B3 & B4 & B5).
  split_and!; try congruence. intros H. rewrite <- (A5 H). apply B5. by rewrite (A5 H).
Qed.
#[export] Instance key_le_preorder : PreOrder key_le.
Proof.
  split; [by intros s|]. intros s1 s2 s3 (A1 & A2 & A3 & A4 & A5) (B1 & B2 & B3 & B4 & B5).
  split_and!; try congruence. intros H. rewrite <- (A5 H). apply B5. by rewrite (A5 H).
Qed.

Definition sessions_evolve : AuthTables -> AuthTables -> Prop := rows_evolve at_sessions session_le.
Definition keys_evolve : AuthTables -> AuthTables -> Prop := rows_evolve at_api_keys key_le.
Definition audit_grows : AuthTables -> AuthTables -> Prop := rows_evolve at_audit eq.

Lemma revoked_le o s : is_null s.(se_revoked_at) = true -> session_le s (revoked o s).
Proof. intros H. split_and!; try done. by rewrite H. Qed.
Lemma revoked_key_le o k : is_null k.(ak_revoked_at) = true -> key_le k (revoked_key o k).
Proof. intros H. split_and!; try done. by rewrite H. Qed.

(** A statement that leaves the table alone, adds a row to it or updates some. *)
Ltac evolve_step :=
  match goal with
  | |- preserves (rows_evolve _ _) (auth_transaction _ _) => apply evolve_transaction; [typeclasses eauto|]
  | |- preserves (rows_evolve _ _) _ => intros ?; apply evolve_same; [typeclasses eauto|reflexivity]
  | |- preserves (rows_evolve _ _) _ => intros ?; apply grows_snoc; typeclasses eauto
  | |- preserves (rows_evolve _ _) _ => intros ?; apply grows_update; [typeclasses eauto|];
      intros x Hx; try (apply andb_prop in Hx as [_ Hx]); first [done | by apply revoked_le | by apply revoked_key_le]
  end.

Section StoreTheory.
Context (scrypt : string -> string -> Z -> Z -> Z -> result string).
Context (self : Security).
Local Abbreviation call_run := (call_run scrypt self).
Local Abbreviation calls_run := (calls_run scrypt self).

Ltac evolve_call :=
  unfold upsert_user, disable_user, login, session_actor, session_username, revoke_session, authenticate_api_key, create_api_key,
    revoke_api_key, when, put_user, login_check, login_grant, revoke_sessions, security_audit;
  repeat (preserve; try evolve_step).

Lemma call_evolves o c : preserves sessions_evolve (call_run o c).
Proof. unfold sessions_evolve. destruct c; simpl; evolve_call. Qed.
Lemma call_keys_evolve o c : preserves keys_evolve (call_run o c).
Proof. unfold keys_evolve. destruct c; simpl; evolve_call. Qed.
Lemma call_audit_grows o c : preserves audit_grows (call_run o c).
Proof. unfold audit_grows. destruct c; simpl; evolve_call. Qed.

(** ** Keys, references and roles *)

Record auth_wf (t : AuthTables) : Prop := {
  wf_usernames : NoDup (us_username <$> t.(at_users));
  wf_user_ids : NoDup (us_user_id <$> t.(at_users));
  wf_user_roles : Forall (fun u => u.(us_role) ∈ ROLES) t.(at_users);
  wf_session_ids : NoDup (se_session_id <$> t.(at_sessions));
  wf_token_hashes : NoDup (se_token_hash <$> t.(at_sessions));
  wf_session_users : Forall (fun s => s.(se_user_id) ∈ us_user_id <$> t.(at_users)) t.(at_sessions);
  wf_throttle : NoDup ((fun r => (r.(th_username), r.(th_source_hash))) <$> t.(at_throttle));
  wf_attempts : Forall (fun r => 0 <= r.(th_failed_attempts)) t.(at_throttle);
  wf_key_ids : NoDup (ak_key_id <$> t.(at_api_keys));
  wf_key_names : NoDup (ak_name <$> t.(at_api_keys));
  wf_key_hashes : NoDup (ak_key_hash <$> t.(at_api_keys));
  wf_key_roles : Forall (fun k => k.(ak_role) ∈ ROLES) t.(at_api_keys);
  wf_event_ids : NoDup (sv_event_id <$> t.(at_audit)) }.

Definition keeps_wf (t t' : AuthTables) : Prop := auth_wf t -> auth_wf t'.
#[local] Instance keeps_wf_preorder : PreOrder keeps_wf.
Proof. split; unfold keeps_wf; [by intros t | naive_solver]. Qed.

Lemma wf_update_users p f : (forall u, (f u).(us_username) = u.(us_username) /\ (f u).(us_user_id) = u.(us_user_id)) ->
  (forall u, u.(us_role) ∈ ROLES -> (f u).(us_role) ∈ ROLES) -> preserves keeps_wf (set_users (update_where p f)).
Proof.
  intros Hf Hr t []. split; simpl; rewrite ?(update_where_key us_username), ?(update_where_key us_user_id) by apply Hf; try done.
  apply Forall_forall. intros u (x & Hx & ->)%update_where_elem. eapply Forall_forall in wf_user_roles0; [|exact Hx]. destruct (p x); auto.
Qed.

Lemma wf_update_sessions p f :
  (forall s, (f s).(se_session_id) = s.(se_session_id) /\ (f s).(se_user_id) = s.(se_user_id) /\ (f s).(se_token_hash) = s.(se_token_hash)) ->
  preserves keeps_wf (set_sessions (update_where p f)).
Proof.
  intros Hf t []. split; simpl; rewrite ?(update_where_key se_session_id), ?(update_where_key se_token_hash) by apply Hf; try done.
  apply Forall_forall. intros u (x & Hx & ->)%update_where_elem. eapply Forall_forall in wf_session_users0; [|exact Hx].
  destruct (p x); [by rewrite (proj1 (proj2 (Hf x)))|done].
Qed.

Lemma wf_update_keys p f : (forall k, (f k).(ak_key_id) = k.(ak_key_id) /\ (f k).(ak_name) = k.(ak_name) /\
    (f k).(ak_key_hash) = k.(ak_key_hash) /\ (f k).(ak_role) = k.(ak_role)) ->
  preserves keeps_wf (set_api_keys (update_where p f)).
Proof.
  intros Hf t []. split; simpl; rewrite ?(update_where_key ak_key_id), ?(update_where_key ak_name), ?(update_where_key ak_key_hash) by apply Hf; try done.
  apply Forall_forall. intros u (x & Hx & ->)%update_where_elem. eapply Forall_forall in wf_key_roles0; [|exact Hx].
  destruct (p x); [by rewrite (proj2 (proj2 (proj2 (Hf x))))|done].
Qed.

Lemma wf_security_audit o id ev a s or b d : preserves keeps_wf (security_audit o id ev a s or b d).
Proof.
  intros t Hwf. unfold security_audit. destruct (unique sv_event_id t.(at_audit) id) as [[]|e] eqn:E.
  - unfold mbind, M_bind, get_state, lift. rewrite E. simpl. apply unique_fresh in E.
    destruct Hwf. split; simpl; try done. by apply NoDup_snoc_key.
  - unfold mbind, M_bind, get_state, lift. by rewrite E.
Qed.

Lemma throttled_key name origin r : throttled name origin r = true <-> (r.(th_username), r.(th_source_hash)) = (name, origin).
Proof. unfold throttled. rewrite andb_true_iff, !py_eq_true. split; [by intros [-> ->] | by intros [= -> ->]]. Qed.

Lemma wf_put_throttle r : 0 <= r.(th_failed_attempts) -> preserves keeps_wf (set_throttle (put_throttle r)).
Proof.
  intros Hr t []. unfold put_throttle. set (same := throttled _ _). destruct (existsb same (at_throttle t)) eqn:E; split; simpl; rewrite ?E; try done.
  - unfold update_where. rewrite <- list_fmap_compose.
    erewrite list_fmap_ext; [exact wf_throttle0|]. intros i x _. simpl. destruct (same x) eqn:Ex; [|done]. by apply throttled_key in Ex.
  - apply Forall_forall. intros x (y & Hy & ->)%update_where_elem. destruct (same y); [done|]. by eapply Forall_forall in wf_attempts0.
  - rewrite fmap_app. apply NoDup_app. split; [done|]. split; [|apply NoDup_singleton].
    intros k Hk ->%list_elem_of_singleton. apply list_elem_of_fmap in Hk as (x & Hx & Hin).
    apply existsb_false_Forall in E. rewrite Forall_forall in E. apply E in Hin. assert (same x = true) by (by apply throttled_key). congruence.
  - apply Forall_app. split; [done|]. by apply Forall_singleton.
Qed.

Lemma wf_clear_throttle p : preserves keeps_wf (set_throttle (List.filter p)).
Proof.
  intros t []. split; simpl; try done; [by apply NoDup_filter_key|].
  apply Forall_forall. intros x Hx. rewrite list_elem_of_In in Hx. apply filter_In in Hx as [Hx _].
  rewrite <- list_elem_of_In in Hx. by eapply Forall_forall in wf_attempts0.
Qed.

Lemma wf_new_user o id name hash role : role ∈ ROLES -> preserves keeps_wf (put_user o id name hash role).
Proof.
  intros Hrole t Hwf. unfold put_user, user_named. unfold mbind, M_bind, get_state. cbv beta iota.
  destruct (List.find _ _) as [u|] eqn:E.
  - apply (wf_update_users (fun u => u.(us_username) ==p name) (updated_user o hash role)); [by intros|by intros|done].
  - unfold lift. destruct (unique _ _ _) as [[]|e] eqn:Eu; [|done]. apply unique_fresh in Eu. simpl.
    assert (Hname : name ∉ us_username <$> t.(at_users)).
    { intros (u & -> & Hu)%list_elem_of_fmap. rewrite list_elem_of_In in Hu. pose proof (find_none _ _ E _ Hu) as H.
      simpl in H. by apply py_eq_false in H. }
    destruct Hwf. split; simpl; try done; [by apply NoDup_snoc_key|by apply NoDup_snoc_key| |].
    + apply Forall_app. split; [done|]. by apply Forall_singleton.
    + eapply Forall_impl; [exact wf_session_users0|]. intros s Hs. rewrite fmap_app, elem_of_app. by left.
Qed.

(** What the decision on a password does, by its outcome. *)
Inductive check_outcome (o : Outside) (name password origin : string) (t : AuthTables) : option UserRow -> AuthTables -> Prop :=
| CheckLocked e : locked (throttle_of name origin t) o.(ou_now) = true -> e.(sv_event_type) = "login_locked" ->
    ~ e.(sv_event_id) ∈ (sv_event_id <$> t.(at_audit)) ->
    check_outcome o name password origin t None
      {| at_users := t.(at_users); at_throttle := t.(at_throttle); at_sessions := t.(at_sessions); at_api_keys := t.(at_api_keys);
         at_audit := t.(at_audit) ++ [e] |}
| CheckFailed e : locked (throttle_of name origin t) o.(ou_now) = false ->
    (e.(sv_event_type), e.(sv_subject_id), e.(sv_source_hash)) = ("login_failed", Some name, Some origin) ->
    ~ e.(sv_event_id) ∈ (sv_event_id <$> t.(at_audit)) ->
    check_outcome o name password origin t None
      {| at_users := t.(at_users); at_throttle := put_throttle (failed_attempt self o.(ou_now) name origin (throttle_of name origin t)) t.(at_throttle);
         at_sessions := t.(at_sessions); at_api_keys := t.(at_api_keys); at_audit := t.(at_audit) ++ [e] |}
| CheckPassed u : locked (throttle_of name origin t) o.(ou_now) = false -> active_user_named name t = Some u ->
    verify_password scrypt password u.(us_password_hash) = Ok true ->
    check_outcome o name password origin t (Some u) t.

Lemma security_audit_ok o id ev a s or b d t t' : security_audit o id ev a s or b d t = (Ok (), t') ->
    ~ id ∈ (sv_event_id <$> t.(at_audit)) /\
  t' = {| at_users := t.(at_users); at_throttle := t.(at_throttle); at_sessions := t.(at_sessions); at_api_keys := t.(at_api_keys);
          at_audit := t.(at_audit) ++ [{| sv_event_id := id; sv_occurred_at := o.(ou_db_now); sv_event_type := ev; sv_actor_id := a;
            sv_subject_id := s; sv_source_hash := or; sv_success := b; sv_detail := d |}] |}.
Proof.
  unfold security_audit, mbind, M_bind, get_state, lift. destruct (unique _ _ _) as [[]|e] eqn:E; [|done].
  apply unique_fresh in E. by intros [= <-].
Qed.

Lemma login_check_outcome o name password origin t row t' :
  login_check scrypt self o name password origin t = (Ok row, t') -> check_outcome o name password origin t row t'.
Proof.
  unfold login_check. intros H. apply M_bind_ok in H as (t0 & st & [= <- <-] & H).
  destruct (locked _ _) eqn:El.
  - apply M_bind_ok in H as ([] & st & [Hid ->]%security_audit_ok & [= <- <-]). by apply CheckLocked.
  - apply M_bind_ok in H as (v & st & [Hv ->]%lift_ok & H).
    assert (Hfail : (_ ← set_throttle (put_throttle (failed_attempt self o.(ou_now) name origin (throttle_of name origin t)));
        _ ← security_audit o (o.(ou_uuid) 0%nat) "login_failed" None (Some name) (Some origin) false (JObj []); mret None) t = (Ok row, t') ->
        check_outcome o name password origin t row t').
    { intros H'. apply M_bind_ok in H' as ([] & s1 & [= <-] & H').
      apply M_bind_ok in H' as ([] & s2 & [Hid ->]%security_audit_ok & [= <- <-]). by apply CheckFailed. }
    destruct (active_user_named name t) as [u|] eqn:Eu; [|by apply Hfail].
    destruct v; [|by apply Hfail]. injection H as <- <-. by apply CheckPassed.
Qed.

Lemma grant_outcome o name origin u t s t' : login_grant self o name origin u t = (Ok s, t') ->
  exists e, e.(sv_event_type) = "login_succeeded" /\ ~ e.(sv_event_id) ∈ (sv_event_id <$> t.(at_audit)) /\
    ~ o.(ou_uuid) 0%nat ∈ (se_session_id <$> t.(at_sessions)) /\ ~ token_hash o.(ou_secret) ∈ (se_token_hash <$> t.(at_sessions)) /\
    s = {| as_token := o.(ou_secret); as_actor := {| ac_actor_id := u.(us_user_id); ac_role := u.(us_role) |};
           as_username := name; as_expires_at := at_utc (o.(ou_now) + self.(sc_session_ttl)) |} /\
    t' = {| at_users := t.(at_users); at_throttle := List.filter (fun r => negb (throttled name origin r)) t.(at_throttle);
            at_sessions := t.(at_sessions) ++ [new_session self o u.(us_user_id) origin]; at_api_keys := t.(at_api_keys);
            at_audit := t.(at_audit) ++ [e] |}.
Proof.
  unfold login_grant. intros H. apply M_bind_ok in H as ([] & s1 & [= <-] & H).
  apply M_bind_ok in H as (t0 & s2 & [= <- <-] & H).
  apply M_bind_ok in H as ([] & s3 & [Hid%unique_fresh ->]%lift_ok & H).
  apply M_bind_ok in H as ([] & s4 & [Hh%unique_fresh ->]%lift_ok & H).
  apply M_bind_ok in H as ([] & s5 & [= <-] & H).
  apply M_bind_ok in H as ([] & s6 & [He ->]%security_audit_ok & [= <- <-]).
  exists (Build_SecurityEvent (o.(ou_uuid) 1%nat) o.(ou_db_now) "login_succeeded" (Some u.(us_user_id)) (Some u.(us_user_id)) (Some origin) true (JObj [])).
  done.
Qed.

Lemma failed_attempt_nonneg now name origin t : auth_wf t -> 0 <= (failed_attempt self now name origin (throttle_of name origin t)).(th_failed_attempts).
Proof.
  intros Hwf. unfold failed_attempt, throttle_of. destruct (List.find _ _) as [r|] eqn:E; [|done].
  destruct (_ <=? _); simpl; [|done]. apply find_elem in E as [Hr _]. pose proof (proj1 (Forall_forall _ _) (wf_attempts _ Hwf) r Hr). simpl in *. lia.
Qed.

Lemma wf_event t e : auth_wf t -> ~ e.(sv_event_id) ∈ (sv_event_id <$> t.(at_audit)) ->
  auth_wf {| at_users := t.(at_users); at_throttle := t.(at_throttle); at_sessions := t.(at_sessions); at_api_keys := t.(at_api_keys);
             at_audit := t.(at_audit) ++ [e] |}.
Proof. intros [] He. split; simpl; try done. by apply NoDup_snoc_key. Qed.

Lemma wf_login_body o name password origin t a t' :
  (row ← login_check scrypt self o name password origin;
   match row with Some u => session ← login_grant self o name origin u; mret (Some session) | None => mret None end) t = (Ok a, t') ->
  keeps_wf t t'.
Proof.
  intros (row & t1 & H1%login_check_outcome & H2)%M_bind_ok Hwf.
  destruct H1 as [e _ _ He|e _ _ He|u _ Hu _].
  - injection H2 as <- <-. by apply wf_event.
  - injection H2 as <- <-. apply (wf_event {| at_users := _; at_throttle := _; at_sessions := _; at_api_keys := _; at_audit := _ |}); [|done].
    by apply (wf_put_throttle _ (failed_attempt_nonneg o.(ou_now) name origin t Hwf) t).
  - apply M_bind_ok in H2 as (s & t2 & (e & _ & He & Hid & Hh & _ & ->)%grant_outcome & [= <- <-]).
    apply (wf_event {| at_users := _; at_throttle := _; at_sessions := _; at_api_keys := _; at_audit := t.(at_audit) |}); [|done].
    pose proof (wf_clear_throttle (fun r => negb (throttled name origin r)) t Hwf) as [].
    apply find_elem in Hu as [Hu _].
    split; simpl in *; try done; [by apply NoDup_snoc_key|by apply NoDup_snoc_key|].
    apply Forall_app. split; [done|]. apply Forall_singleton. simpl. by apply (list_elem_of_fmap_2 us_user_id).
Qed.

Lemma wf_new_key o key_id name hash actor_id role t : role ∈ ROLES -> auth_wf t ->
  ~ key_id ∈ (ak_key_id <$> t.(at_api_keys)) -> ~ name ∈ (ak_name <$> t.(at_api_keys)) -> ~ hash ∈ (ak_key_hash <$> t.(at_api_keys)) ->
  auth_wf (set_api_keys (fun rows => rows ++ [new_api_key o key_id name hash actor_id role]) t).2.
Proof.
  intros Hr [] H1 H2 H3. split; simpl; try done; try by apply NoDup_snoc_key.
  apply Forall_app. split; [done|]. by apply Forall_singleton.
Qed.

Lemma wf_revoke o p : preserves keeps_wf (revoke_sessions o p).
Proof. by apply wf_update_sessions. Qed.
Lemma wf_transaction {A} o (m : M AuthTables A) : preserves keeps_wf m -> preserves keeps_wf (auth_transaction o m).
Proof. intros Hm. apply transaction_preserves; [typeclasses eauto|]. intros t a t'. by apply preserves_run. Qed.
#[local] Hint Resolve wf_revoke wf_security_audit wf_transaction : preserves.

Lemma wf_create_key o name actor_id role : preserves keeps_wf (create_api_key o name actor_id role).
Proof.
  unfold create_api_key. destruct (bool_decide _) eqn:Hr; [|by intros t]. apply bool_decide_eq_true in Hr.
  apply preserves_bind; [typeclasses eauto|apply preserves_lift; typeclasses eauto|]. intros _.
  apply transaction_preserves; [typeclasses eauto|]. intros t a t' H Hwf.
  apply M_bind_ok in H as (t0 & s0 & [= <- <-] & H).
  apply M_bind_ok in H as ([] & s1 & [H1%unique_fresh ->]%lift_ok & H).
  apply M_bind_ok in H as ([] & s2 & [H2%unique_fresh ->]%lift_ok & H).
  apply M_bind_ok in H as ([] & s3 & [H3%unique_fresh ->]%lift_ok & H).
  apply M_bind_ok in H as ([] & s4 & H4 & H).
  apply M_bind_ok in H as ([] & s5 & H5 & [= <- <-]).
  eapply (preserves_run _ _ _ _ _ (wf_security_audit _ _ _ _ _ _ _ _) H5).
  assert (s4 = (set_api_keys (fun rows => rows ++ [new_api_key o (o.(ou_uuid) 0%nat) name (token_hash ("nd_" +:+ o.(ou_secret))) actor_id role]) t).2) as ->
    by (by rewrite H4).
  by apply wf_new_key.
Qed.

Lemma wf_upsert o username password role : preserves keeps_wf (upsert_user scrypt o username password role).
Proof.
  unfold upsert_user. destruct (bool_decide _) eqn:Hr; [|by intros t]. apply bool_decide_eq_true in Hr.
  apply preserves_bind; [typeclasses eauto|apply preserves_lift; typeclasses eauto|]. intros _.
  apply preserves_bind; [typeclasses eauto|apply preserves_lift; typeclasses eauto|]. intros _.
  apply wf_transaction. preserve. by apply wf_new_user.
Qed.

(** Every call keeps the keys unique, the references and the roles valid. *)
Lemma call_keeps_wf o c : preserves keeps_wf (call_run o c).
Proof.
  destruct c; simpl; preserve; try apply wf_upsert; try apply wf_create_key;
    unfold disable_user, session_actor, session_username, revoke_session, authenticate_api_key, revoke_api_key, when; cbv zeta.
  - apply wf_transaction. preserve. by apply wf_update_users.
  - unfold login. apply transaction_preserves; [typeclasses eauto|]. intros t a t'. apply wf_login_body.
  - apply wf_transaction. preserve. by apply wf_update_sessions.
  - apply wf_transaction. preserve.
  - apply wf_transaction. preserve.
  - apply wf_transaction. preserve. by apply wf_update_keys.
  - apply wf_transaction. preserve. by apply wf_update_keys.
Qed.

(** A relation that every call has holds over a run of calls. *)
Lemma calls_preserve (R : AuthTables -> AuthTables -> Prop) `{!PreOrder R} l t :
  (forall o c, (o, c) ∈ l -> preserves R (call_run o c)) -> R t (calls_run l t).
Proof.
  revert t. induction l as [|[o c] l IH]; intros t H; [done|]. simpl. transitivity (call_run o c t).2.
  - apply H. by left.
  - apply IH. intros o' c' Hin. apply H. by right.
Qed.

Lemma calls_keep_wf l t : auth_wf t -> auth_wf (calls_run l t).
Proof. apply (calls_preserve keeps_wf). intros o c _. apply call_keeps_wf. Qed.
Lemma calls_evolve l t : sessions_evolve t (calls_run l t).
Proof. apply calls_preserve; [apply rows_evolve_preorder; typeclasses eauto|]. intros o c _. apply call_evolves. Qed.
Lemma calls_keys_evolve l t : keys_evolve t (calls_run l t).
Proof. apply calls_preserve; [apply rows_evolve_preorder; typeclasses eauto|]. intros o c _. apply call_keys_evolve. Qed.

(** ** Revocation *)

(** The session is in the table and has ended. *)
Definition ended (s : SessionRow) (t : AuthTables) : Prop :=
  exists s', s' ∈ t.(at_sessions) /\ session_le s s' /\ is_null s'.(se_revoked_at) = false.

Lemma ended_stays s t t' : sessions_evolve t t' -> ended s t -> ended s t'.
Proof.
  intros He (s1 & H1 & H2 & H3). destruct (evolve_elem _ _ _ _ _ He H1) as (s2 & Hs2 & Hle).
  exists s2. split; [done|]. split; [by transitivity s1|]. destruct Hle as (_ & _ & _ & _ & Hr). by rewrite (Hr H3).
Qed.

(** Nobody is found by the token of an ended session. *)
Lemma ended_no_users s t hash now : auth_wf t -> ended s t -> s.(se_token_hash) = hash -> live_users hash now t = [].
Proof.
  intros Hwf (s1 & H1 & (_ & _ & Hh & _ & _) & Hr) Hs. unfold live_users.
  assert (List.filter (live_row hash now) t.(at_sessions) = []) as ->; [|done].
  destruct (List.filter _ _) as [|x rest] eqn:E; [done|]. exfalso.
  assert (Hx : In x (List.filter (live_row hash now) t.(at_sessions))) by (rewrite E; by left).
  apply filter_In in Hx as [Hx Hl]. rewrite <- list_elem_of_In in Hx. unfold live_row in Hl.
  apply andb_prop in Hl as [Hl _]. apply andb_prop in Hl as [Hk Hn]. apply (proj1 (py_eq_true _ _)) in Hk.
  assert (x = s1) as -> by (eapply (NoDup_key_inj se_token_hash); [apply Hwf|done..|congruence]). congruence.
Qed.

Lemma live_actor_none o token touch t : live_users (token_hash token) o.(ou_db_now) t = [] ->
  session_actor o token touch t = (match o.(ou_fault) with Some e => Err e | None => Ok None end, t) /\
  session_username o token t = (match o.(ou_fault) with Some e => Err e | None => Ok None end, t).
Proof.
  intros H. unfold session_actor, session_username, auth_transaction, restoring. destruct o.(ou_fault); [done|].
  unfold mbind, M_bind, get_state. by rewrite H.
Qed.

Lemma revoke_ends o p s t : s ∈ t.(at_sessions) -> p s = true -> ended s (revoke_sessions o p t).2.
Proof.
  intros Hs Hp. simpl. exists (if p s && is_null s.(se_revoked_at) then revoked o s else s).
  split; [apply update_where_elem; eauto|]. rewrite Hp. destruct (is_null s.(se_revoked_at)) eqn:E; simpl; [|by rewrite E].
  split; [|done]. split_and!; try done. by rewrite E.
Qed.

(** The calls that end a session: its logout, a new password for its user,
    the disabling of its user. *)
Definition ends (c : auth_call) (s : SessionRow) (t : AuthTables) : bool :=
  match c with
  | RevokeSession token _ => s.(se_token_hash) ==p token_hash token
  | UpsertUser u _ _ | DisableUser u _ =>
      match user_named (normalized_name u) t with Some r => s.(se_user_id) ==p r.(us_user_id) | None => false end
  | _ => false
  end.

Lemma audit_keeps_ended o id ev a s or b d x t r t' : security_audit o id ev a s or b d t = (r, t') -> ended x t -> ended x t'.
Proof. intros H. apply ended_stays. eapply preserves_run; [|exact H]. unfold sessions_evolve, security_audit. repeat (preserve; try evolve_step). Qed.

Lemma put_user_known o id name hash role t u a t' : user_named name t = Some u -> put_user o id name hash role t = (Ok a, t') ->
  a = u.(us_user_id) /\ t'.(at_sessions) = t.(at_sessions).
Proof. unfold put_user, mbind, M_bind, get_state. intros ->. by intros [= <- <-]. Qed.

Lemma ends_ended o c s t t' : s ∈ t.(at_sessions) -> ends c s t = true -> call_run o c t = (Ok (), t') -> ended s t'.
Proof.
  intros Hs He H. destruct c as [username password role|username actor_id| | | |token actor_id| | |]; try done; simpl in He, H.
  - destruct (user_named _ _) as [u|] eqn:Eu; [|done]. apply M_bind_ok in H as (id & t1 & H & [= <-]). unfold upsert_user in H.
    apply M_bind_ok in H as ([] & s1 & [_ ->]%lift_ok & H). apply M_bind_ok in H as ([] & s2 & [_ ->]%lift_ok & H).
    apply auth_transaction_ok in H as [_ H]. apply M_bind_ok in H as (hash & s3 & [_ ->]%lift_ok & H).
    apply M_bind_ok in H as (a & s4 & Hput & H). destruct (put_user_known _ _ _ _ _ _ _ _ _ Eu Hput) as [-> Hss].
    apply M_bind_ok in H as ([] & s5 & Hrev & H). apply M_bind_ok in H as ([] & s6 & Haud & [= <- <-]).
    eapply audit_keeps_ended; [exact Haud|]. rewrite <- Hss in Hs.
    pose proof (revoke_ends o (fun s => s.(se_user_id) ==p u.(us_user_id)) s s4 Hs He) as Hend. by rewrite Hrev in Hend.
  - destruct (user_named _ _) as [u|] eqn:Eu; [|done]. apply M_bind_ok in H as (b & t1 & H & [= <-]). unfold disable_user in H.
    apply auth_transaction_ok in H as [_ H]. cbv zeta in H. apply M_bind_ok in H as (t0 & s1 & [= <- <-] & H).
    apply M_bind_ok in H as ([] & s2 & [= <-] & H). rewrite Eu in H.
    apply M_bind_ok in H as ([] & s3 & Hrev & H). apply M_bind_ok in H as ([] & s4 & Haud & [= <- <-]).
    eapply audit_keeps_ended; [exact Haud|].
    match type of Hrev with _ ?st = _ =>
      pose proof (revoke_ends o (fun s => s.(se_user_id) ==p u.(us_user_id)) s st Hs He) as Hend end. by rewrite Hrev in Hend.
  - unfold revoke_session in H. apply auth_transaction_ok in H as [_ H].
    apply M_bind_ok in H as ([] & s1 & Hrev & H). eapply audit_keeps_ended; [exact H|].
    pose proof (revoke_ends o (fun s => s.(se_token_hash) ==p token_hash token) s t Hs He) as Hend. by rewrite Hrev in Hend.
Qed.

(** C39. A session that was ended by the logout of its token, by a new password of
    its user or by disabling its user identifies nobody any more, whatever
    calls are made afterwards: logins, password changes, enabling the user
    again.  Its row is never removed, so its token is never issued again. *)
Theorem revocation_final o c s t t1 l o' token touch :
  auth_wf t -> s ∈ t.(at_sessions) -> s.(se_token_hash) = token_hash token ->
  ends c s t = true -> call_run o c t = (Ok (), t1) ->
  let t2 := calls_run l t1 in
  let answer := match o'.(ou_fault) with Some e => Err e | None => Ok None end in
  session_actor o' token touch t2 = (answer, t2) /\
  session_username o' token t2 = (match o'.(ou_fault) with Some e => Err e | None => Ok None end, t2).
Proof.
  intros Hwf Hs Hh He Hc. apply live_actor_none. eapply (ended_no_users s); [|by eapply ended_stays, ends_ended; [apply calls_evolve|..]|done].
  apply calls_keep_wf. pose proof (call_keeps_wf o c t Hwf) as H. by rewrite Hc in H.
Qed.

(** ** Who is let in *)

Definition actor_of (u : UserRow) : Actor := {| ac_actor_id := u.(us_user_id); ac_role := u.(us_role) |}.

Lemma session_answer o token touch t : (session_actor o token touch t).1 =
  match o.(ou_fault) with Some e => Err e | None => Ok (actor_of <$> head (live_users (token_hash token) o.(ou_db_now) t)) end.
Proof.
  unfold session_actor, auth_transaction, restoring. destruct o.(ou_fault); [done|]. unfold mbind, M_bind, get_state.
  destruct (live_users _ _ _) as [|u rest]; [done|]. by destruct touch.
Qed.

(** The token of a session that was just granted finds its user, for as long
    as the session lasts. *)
Lemma granted_live o name origin u u' t a t' now : NoDup (us_user_id <$> t.(at_users)) -> u' ∈ t.(at_users) ->
  u'.(us_user_id) = u.(us_user_id) -> u'.(us_active) = true -> login_grant self o name origin u t = (Ok a, t') ->
  live_users (token_hash a.(as_token)) now t' = if now <? instant a.(as_expires_at) then [u'] else [].
Proof.
  intros Hn Hin Hid Hact (e & _ & _ & _ & Hh & -> & ->)%grant_outcome. unfold live_users, instant. simpl. rewrite Z.sub_0_r, List.filter_app.
  assert (List.filter (live_row (token_hash o.(ou_secret)) now) t.(at_sessions) = []) as ->.
  { apply filter_none. intros s Hs. unfold live_row. destruct (_ ==p _) eqn:E; [|done]. exfalso. apply Hh.
    apply (proj1 (py_eq_true _ _)) in E. rewrite <- E. by apply (list_elem_of_fmap_2 se_token_hash). }
  simpl. unfold live_row. simpl. rewrite py_refl_leibniz. destruct (now <? _); [|done]. simpl. rewrite app_nil_r.
  apply (filter_key us_user_id); [done|done|by rewrite Hid, py_refl_leibniz|].
  intros x Hx. apply andb_prop in Hx as [Hx _]. apply (proj1 (py_eq_true _ _)) in Hx. congruence.
Qed.

(** A login succeeds only for an active user, with a password that verifies
    against the stored hash, outside a lockout; the token it returns then
    identifies that user until it expires. *)
Theorem login_sound o username password source t a t' o' touch :
  auth_wf t -> login scrypt self o username password source t = (Ok (Some a), t') ->
  exists u, u ∈ t.(at_users) /\ u.(us_username) = normalized_name username /\ u.(us_active) = true /\
    verify_password scrypt password u.(us_password_hash) = Ok true /\
    locked (throttle_of (normalized_name username) (source_hash source) t) o.(ou_now) = false /\
    a.(as_actor) = actor_of u /\
    (session_actor o' a.(as_token) touch t').1 =
      match o'.(ou_fault) with
      | Some e => Err e
      | None => Ok (if o'.(ou_db_now) <? instant a.(as_expires_at) then Some a.(as_actor) else None)
      end.
Proof.
  intros Hwf H. unfold login in H. apply auth_transaction_ok in H as [_ H].
  apply M_bind_ok in H as (row & t1 & H1%login_check_outcome & H2).
  destruct H1 as [e _ _ He|e _ _ He|u Hl Hu Hv]; [done|done|].
  apply M_bind_ok in H2 as (s & t2 & Hgrant & [= <- <-]).
  apply find_elem in Hu as [Hin Hu]. apply andb_prop in Hu as [Hname Hact]. apply (proj1 (py_eq_true _ _)) in Hname.
  assert (Ha : s.(as_actor) = actor_of u) by (by apply grant_outcome in Hgrant as (e & _ & _ & _ & _ & -> & _)).
  exists u. split_and!; try done. rewrite session_answer. destruct o'.(ou_fault); [done|].
  rewrite (granted_live _ _ _ _ u _ _ _ _ (wf_user_ids _ Hwf) Hin eq_refl Hact Hgrant), Ha. by destruct (_ <? _).
Qed.

(** What a login leaves in the tables depends on the password only through
    its verification, and on the token only through its hash. *)
Theorem secrets_not_stored o secret username p p' source t :
  (forall h, verify_password scrypt p h = verify_password scrypt p' h) -> token_hash secret = token_hash o.(ou_secret) ->
  let o' := {| ou_now := o.(ou_now); ou_db_now := o.(ou_db_now); ou_uuid := o.(ou_uuid); ou_secret := secret; ou_salt := o.(ou_salt);
               ou_fault := o.(ou_fault) |} in
  (login scrypt self o' username p' source t).2 = (login scrypt self o username p source t).2.
Proof.
  intros Hv Hh o'. unfold login, auth_transaction. change o'.(ou_fault) with o.(ou_fault). destruct o.(ou_fault); [done|].
  set (name := normalized_name username). set (origin := source_hash source).
  assert (Hc : login_check scrypt self o' name p' origin t = login_check scrypt self o name p origin t)
    by (unfold login_check, mbind, M_bind, get_state, lift; cbv beta iota zeta; destruct (locked _ _); by rewrite <- ?Hv).
  unfold restoring, mbind, M_bind. rewrite Hc. destruct (login_check scrypt self o name p origin t) as [[[u|]|e] t1]; [|done..].
  assert (Hs : new_session self o' u.(us_user_id) origin = new_session self o u.(us_user_id) origin).
  { unfold new_session. simpl. by rewrite Hh. }
  unfold login_grant. rewrite Hs. unfold mbind, M_bind, lift. simpl.
  repeat (destruct (unique _ _ _) as [[]|]; simpl; try done).
  unfold security_audit. simpl. unfold mbind, M_bind, lift, get_state. simpl. destruct (unique _ _ _) as [[]|]; done.
Qed.

(** ** A login beside a password change

    The password is tested in one statement and the session issued in a later
    one.  Between the two another transaction may commit: a new password ends
    the sessions that are in the table, and the session issued afterwards, on
    the strength of the old password, is live. *)

Lemma upsert_row o username password role t u id t' : auth_wf t -> u ∈ t.(at_users) -> u.(us_username) = normalized_name username ->
  upsert_user scrypt o username password role t = (Ok id, t') ->
  exists u', u' ∈ t'.(at_users) /\ u'.(us_user_id) = u.(us_user_id) /\ u'.(us_active) = true /\ u'.(us_role) = role.
Proof.
  intros Hwf Hu Hname H. unfold upsert_user in H.
  apply M_bind_ok in H as ([] & s1 & [_ ->]%lift_ok & H). apply M_bind_ok in H as ([] & s2 & [_ ->]%lift_ok & H).
  apply auth_transaction_ok in H as [_ H]. apply M_bind_ok in H as (hash & s3 & [_ ->]%lift_ok & H).
  apply M_bind_ok in H as (a & s4 & Hput & H). apply M_bind_ok in H as ([] & s5 & [= <-] & H).
  apply M_bind_ok in H as ([] & s6 & [_ ->]%security_audit_ok & [= <- <-]). simpl. unfold put_user, user_named in Hput.
  apply M_bind_ok in Hput as (t0 & s7 & [= <- <-] & Hput).
  rewrite (find_unique us_username _ _ u (wf_usernames _ Hwf)) in Hput; [| |done|by rewrite Hname, py_refl_leibniz].
  2: { intros x y Hx Hy. apply (proj1 (py_eq_true _ _)) in Hx. apply (proj1 (py_eq_true _ _)) in Hy. congruence. }
  apply M_bind_ok in Hput as ([] & s8 & [= <-] & [= <- <-]). exists (updated_user o hash role u). split_and!; try done.
  simpl. apply update_where_elem. exists u. by rewrite Hname, py_refl_leibniz.
Qed.

Theorem login_outlives_rotation o name origin password t u o1 username new_password role id t1 a t2 o' touch :
  auth_wf t -> login_check scrypt self o name password origin t = (Ok (Some u), t) ->
  normalized_name username = name -> upsert_user scrypt o1 username new_password role t = (Ok id, t1) ->
  login_grant self o name origin u t1 = (Ok a, t2) ->
  o'.(ou_fault) = None -> o'.(ou_db_now) < instant a.(as_expires_at) ->
  (session_actor o' a.(as_token) touch t2).1 = Ok (Some {| ac_actor_id := u.(us_user_id); ac_role := role |}).
Proof.
  intros Hwf Hc%login_check_outcome Hname Hup Hgrant Hf Hnow. inversion Hc as [| |? _ Hu _ Heq]; subst.
  apply find_elem in Hu as [Hin Hu]. apply andb_prop in Hu as [Hn _]. apply (proj1 (py_eq_true _ _)) in Hn.
  destruct (upsert_row _ _ _ _ _ u _ _ Hwf Hin Hn Hup) as (u' & Hin' & Hid & Hact & Hrole).
  assert (Hwf1 : auth_wf t1) by (pose proof (wf_upsert o1 username new_password role t Hwf) as H; by rewrite Hup in H).
  rewrite session_answer, Hf, (granted_live _ _ _ _ u' _ _ _ _ (wf_user_ids _ Hwf1) Hin' Hid Hact Hgrant).
  apply Z.ltb_lt in Hnow. rewrite Hnow. simpl. unfold actor_of. by rewrite Hid, Hrole.
Qed.

(** A user who was disabled cannot log in until the account is given a new
    password. *)
Definition shut_out (name : string) (t : AuthTables) : Prop :=
  Forall (fun u => u.(us_username) = name -> u.(us_active) = false) t.(at_users).
Definition keeps_out (name : string) (t t' : AuthTables) : Prop := shut_out name t -> shut_out name t'.
#[local] Instance keeps_out_preorder name : PreOrder (keeps_out name).
Proof. split; unfold keeps_out; [by intros t | naive_solver]. Qed.

Lemma out_same name {A} (m : M AuthTables A) : (forall t, (m t).2.(at_users) = t.(at_users)) -> preserves (keeps_out name) m.
Proof. intros H t. unfold keeps_out, shut_out. by rewrite H. Qed.
Lemma out_disable name p o : preserves (keeps_out name) (set_users (update_where p (disabled_user o))).
Proof.
  intros t H. apply Forall_forall. intros u (x & Hx & ->)%update_where_elem. simpl. unfold shut_out in H. rewrite Forall_forall in H.
  destruct (p x); [done|by apply H].
Qed.
Lemma out_put name o id other hash role : other <> name -> preserves (keeps_out name) (put_user o id other hash role).
Proof.
  intros Hne t H. unfold put_user, mbind, M_bind, get_state. cbv beta iota. unfold shut_out in *. destruct (user_named _ _) as [u|].
  - simpl. apply Forall_forall. intros u' (x & Hx & ->)%update_where_elem. rewrite Forall_forall in H.
    destruct (us_username x ==p other) eqn:E; [|by apply H]. apply (proj1 (py_eq_true _ _)) in E. simpl. congruence.
  - unfold lift. destruct (unique _ _ _) as [[]|]; [|done]. simpl. apply Forall_app. split; [done|]. by apply Forall_singleton.
Qed.
Lemma out_transaction name {A} o (m : M AuthTables A) : preserves (keeps_out name) m -> preserves (keeps_out name) (auth_transaction o m).
Proof. intros Hm. apply transaction_preserves; [typeclasses eauto|]. intros t a t'. by apply preserves_run. Qed.

(** The call does not give the named account a password. *)
Definition not_enabling (name : string) (c : auth_call) : bool :=
  match c with UpsertUser u _ _ => negb (normalized_name u ==p name) | _ => true end.

Lemma call_keeps_out name o c : not_enabling name c = true -> preserves (keeps_out name) (call_run o c).
Proof.
  intros Hc. destruct c; simpl; preserve;
    unfold upsert_user, disable_user, login, session_actor, session_username, revoke_session, authenticate_api_key, create_api_key,
      revoke_api_key, when, login_check, login_grant, revoke_sessions, security_audit; cbv zeta;
    repeat (preserve; try apply out_transaction; try (apply out_same; reflexivity)).
  - apply out_put. simpl in Hc. by apply negb_true_iff, py_eq_false in Hc.
  - apply out_disable.
Qed.

Lemma shut_out_no_user name t : shut_out name t -> active_user_named name t = None.
Proof.
  intros H. unfold active_user_named. destruct (List.find _ _) as [u|] eqn:E; [|done]. exfalso.
  apply find_elem in E as [Hu Hp]. apply andb_prop in Hp as [Hn Ha]. apply (proj1 (py_eq_true _ _)) in Hn.
  unfold shut_out in H. rewrite Forall_forall in H. by rewrite (H u Hu Hn) in Ha.
Qed.

Theorem disabled_stays_out o username actor_id t b t1 l o' password source s t2 :
  disable_user o username actor_id t = (Ok b, t1) ->
  Forall (fun oc => not_enabling (normalized_name username) oc.2 = true) l ->
  login scrypt self o' username password source (calls_run l t1) <> (Ok (Some s), t2).
Proof.
  intros H Hl Hlogin. set (name := normalized_name username) in *.
  assert (Hout : shut_out name t1).
  { unfold disable_user in H. apply auth_transaction_ok in H as [_ H]. cbv zeta in H. fold name in H.
    apply M_bind_ok in H as (t0 & s1 & [= <- <-] & H). apply M_bind_ok in H as ([] & s2 & [= <-] & H).
    match type of H with _ ?st = _ => assert (Hst : shut_out name st) end.
    { apply Forall_forall. intros u (x & Hx & ->)%update_where_elem. destruct (us_username x ==p name) eqn:E; [done|].
      intros Hn. apply (proj1 (py_eq_false _ _)) in E. done. }
    revert Hst. eapply (preserves_run (keeps_out name)); [|exact H]. unfold revoke_sessions, security_audit.
    repeat (preserve; try (apply out_same; reflexivity)). }
  assert (Hout2 : shut_out name (calls_run l t1)).
  { revert Hout. apply (calls_preserve (keeps_out name)). intros o1 c Hin. apply call_keeps_out.
    rewrite Forall_forall in Hl. by apply (Hl _ Hin). }
  unfold login in Hlogin. apply auth_transaction_ok in Hlogin as [_ Hlogin].
  apply M_bind_ok in Hlogin as (row & t3 & Hc%login_check_outcome & Hrest).
  destruct Hc as [| |u _ Hu _]; [done|done|]. fold name in Hu. by rewrite shut_out_no_user in Hu.
Qed.

(** ** API keys *)

(** A revoked key identifies nobody any more. *)
Theorem revoked_key_final o key_id actor_id t b t1 k l o' raw :
  auth_wf t -> k ∈ t.(at_api_keys) -> k.(ak_key_id) = key_id -> k.(ak_key_hash) = token_hash raw ->
  revoke_api_key o key_id actor_id t = (Ok b, t1) ->
  forall a t2, authenticate_api_key o' raw (calls_run l t1) <> (Ok (Some a), t2).
Proof.
  intros Hwf Hk Hid Hh Hrev a t2 Hauth.
  assert (Hrun : call_run o (RevokeKey key_id actor_id) t = (Ok (), t1)) by (simpl; unfold mbind, M_bind; by rewrite Hrev).
  assert (Hwf2 : auth_wf (calls_run l t1)).
  { apply calls_keep_wf. pose proof (call_keeps_wf o (RevokeKey key_id actor_id) t Hwf) as H. by rewrite Hrun in H. }
  assert (Hk1 : exists k1, k1 ∈ t1.(at_api_keys) /\ k1.(ak_key_hash) = token_hash raw /\ is_null k1.(ak_revoked_at) = false).
  { unfold revoke_api_key in Hrev. apply auth_transaction_ok in Hrev as [_ Hrev]. cbv zeta in Hrev.
    apply M_bind_ok in Hrev as (t0 & s0 & [= <- <-] & H). apply M_bind_ok in H as ([] & s1 & [= <-] & H).
    apply M_bind_ok in H as ([] & s2 & [_ ->]%security_audit_ok & [= _ <-]).
    exists (if is_null k.(ak_revoked_at) then revoked_key o k else k). split; [|by destruct (is_null k.(ak_revoked_at)) eqn:E].
    apply update_where_elem. exists k. split; [done|]. by rewrite Hid, py_refl_leibniz. }
  destruct Hk1 as (k1 & Hk1 & Hh1 & Hr1).
  destruct (evolve_elem _ _ _ _ _ (calls_keys_evolve l t1) Hk1) as (k2 & Hk2 & _ & Hh2 & _ & _ & Hr2). specialize (Hr2 Hr1).
  unfold authenticate_api_key in Hauth. apply auth_transaction_ok in Hauth as [_ Hauth]. cbv zeta in Hauth.
  apply M_bind_ok in Hauth as (t0 & s0 & [= <- <-] & H). apply M_bind_ok in H as ([] & s1 & [= <-] & [= H _]).
  rewrite filter_none in H; [done|]. intros x Hx. unfold usable_key. destruct (_ ==p _) eqn:E; [|done]. apply (proj1 (py_eq_true _ _)) in E.
  assert (x = k2) as -> by (eapply (NoDup_key_inj ak_key_hash); [apply Hwf2|done..|congruence]). by rewrite Hr2, Hr1.
Qed.

(** ** Guessing passwords *)

Section Guesses.
Context (name origin : string).

Definition failed_login (e : SecurityEvent) : bool :=
  (e.(sv_event_type) ==p "login_failed") && (e.(sv_subject_id) ==p Some name) && (e.(sv_source_hash) ==p Some origin).
(** The passwords that were tested for the account from the source and did
    not verify, as the audit has them. *)
Definition guesses (t : AuthTables) : Z := Z.of_nat (length (List.filter failed_login t.(at_audit))).

Definition on_key (c : auth_call) : bool :=
  match c with Login u _ s => (normalized_name u ==p name) && (source_hash s ==p origin) | _ => false end.
Definition grants (o : Outside) (c : auth_call) (t : AuthTables) : bool :=
  match c with
  | Login u p s => on_key c && match (login scrypt self o u p s t).1 with Ok (Some _) => true | _ => false end
  | _ => false
  end.
Fixpoint never_granted (l : list (Outside * auth_call)) (t : AuthTables) : bool :=
  match l with
  | [] => true
  | (o, c) :: l => negb (grants o c t) && never_granted l (call_run o c t).2
  end.

Definition same_view (t t' : AuthTables) : Prop := throttle_of name origin t' = throttle_of name origin t /\ guesses t' = guesses t.
#[local] Instance same_view_preorder : PreOrder same_view.
Proof. split; [by intros t|]. intros t1 t2 t3 [A1 A2] [B1 B2]. split; congruence. Qed.

Lemma guesses_snoc t e us th ss ks : guesses {| at_users := us; at_throttle := th; at_sessions := ss; at_api_keys := ks; at_audit := t.(at_audit) ++ [e] |}
  = guesses t + (if failed_login e then 1 else 0).
Proof. unfold guesses. simpl. rewrite List.filter_app, length_app. simpl. destruct (failed_login e); simpl; lia. Qed.

Lemma view_audit o id ev a s or b d : ev <> "login_failed" -> preserves same_view (security_audit o id ev a s or b d).
Proof.
  intros Hev t. destruct (security_audit o id ev a s or b d t) as [[[]|e] t'] eqn:E; simpl.
  - apply security_audit_ok in E as [_ ->]. split; [done|]. rewrite guesses_snoc. unfold failed_login at 1. simpl.
    destruct (ev ==p "login_failed") eqn:E; [by apply (proj1 (py_eq_true _ _)) in E|]. simpl. lia.
  - unfold security_audit, mbind, M_bind, get_state, lift in E. destruct (unique _ _ _) as [[]|]; [done|]. injection E as _ <-. done.
Qed.
Lemma view_same {A} (m : M AuthTables A) : (forall t, (m t).2.(at_throttle) = t.(at_throttle) /\ (m t).2.(at_audit) = t.(at_audit)) -> preserves same_view m.
Proof. intros H t. destruct (H t) as [H1 H2]. unfold same_view, throttle_of, guesses. by rewrite H1, H2. Qed.
Lemma view_transaction {A} o (m : M AuthTables A) : preserves same_view m -> preserves same_view (auth_transaction o m).
Proof. intros Hm. apply transaction_preserves; [typeclasses eauto|]. intros t a t'. by apply preserves_run. Qed.

(** Every call but a login leaves what is known of the guesses. *)
Lemma view_call o c : match c with Login _ _ _ => False | _ => True end -> preserves same_view (call_run o c).
Proof.
  intros Hc. destruct c; try done; simpl; preserve;
    unfold upsert_user, disable_user, session_actor, session_username, revoke_session, authenticate_api_key, create_api_key,
      revoke_api_key, when, put_user, revoke_sessions; cbv zeta;
    repeat (preserve; try apply view_transaction; try (by apply view_audit); try (by apply view_same)).
Qed.

Lemma failed_attempt_key now n o th : (failed_attempt self now n o th).(th_username) = n /\ (failed_attempt self now n o th).(th_source_hash) = o.
Proof. unfold failed_attempt. destruct th as [r|]; [destruct (_ <=? _)|]; done. Qed.

Lemma find_put r rows : r.(th_username) = name -> r.(th_source_hash) = origin ->
  List.find (throttled name origin) (put_throttle r rows) = Some r.
Proof.
  intros Hn Ho. unfold put_throttle. rewrite Hn, Ho.
  assert (throttled name origin r = true) by (apply throttled_key; congruence).
  destruct (existsb _ rows) eqn:E; [by apply find_replaced|]. rewrite find_snoc, find_none_existsb by done. by rewrite H.
Qed.
Lemma find_put_other r rows : (r.(th_username), r.(th_source_hash)) <> (name, origin) ->
  List.find (throttled name origin) (put_throttle r rows) = List.find (throttled name origin) rows.
Proof.
  intros Hne. unfold put_throttle.
  assert (Hq : throttled name origin r = false) by (apply not_true_iff_false; by rewrite throttled_key).
  destruct (existsb _ rows).
  - apply find_updated; [|done]. intros x _ Hx%throttled_key. apply not_true_iff_false. rewrite throttled_key. congruence.
  - rewrite find_snoc, Hq. by destruct (List.find _ rows).
Qed.

(** A login of another account or source leaves the view; one of this account
    and source that is not granted is locked, or counts as a guess. *)
Definition counted (o : Outside) (t t' : AuthTables) : Prop :=
  locked (throttle_of name origin t) o.(ou_now) = false /\
  throttle_of name origin t' = Some (failed_attempt self o.(ou_now) name origin (throttle_of name origin t)) /\
  guesses t' = guesses t + 1.

Lemma checked_view o n p s t t' : check_outcome o n p s t None t' ->
  if bool_decide ((n, s) = (name, origin)) then same_view t t' \/ counted o t t' else same_view t t'.
Proof.
  intros H. inversion H as [e Hl He Hid|e Hl He Hid|]; subst.
  - assert (same_view t {| at_users := t.(at_users); at_throttle := t.(at_throttle); at_sessions := t.(at_sessions);
        at_api_keys := t.(at_api_keys); at_audit := t.(at_audit) ++ [e] |}).
    { split; [done|]. rewrite guesses_snoc. unfold failed_login. rewrite He. simpl. lia. }
    case_bool_decide; [by left|done].
  - injection He as He1 He2 He3. destruct (failed_attempt_key o.(ou_now) n s (throttle_of n s t)) as [Hk1 Hk2].
    case_bool_decide as Hkey; [injection Hkey as -> ->; right; split; [done|]; split|split].
    + by apply find_put.
    + rewrite guesses_snoc. unfold failed_login. by rewrite He1, He2, He3, !py_refl_leibniz.
    + apply find_put_other. by rewrite Hk1, Hk2.
    + rewrite guesses_snoc. unfold failed_login. rewrite He1, He2, He3.
      destruct (Some n ==p Some name) eqn:E1, (Some s ==p Some origin) eqn:E2; simpl; try lia.
      apply (proj1 (py_eq_true _ _)) in E1. apply (proj1 (py_eq_true _ _)) in E2. congruence.
Qed.

Lemma granted_view o n s u t a t' : login_grant self o n s u t = (Ok a, t') -> (n, s) <> (name, origin) -> same_view t t'.
Proof.
  intros (e & He & _ & _ & _ & _ & ->)%grant_outcome Hne. split.
  - apply find_filtered. intros x Hx%throttled_key. apply negb_true_iff, not_true_iff_false. rewrite throttled_key. congruence.
  - rewrite guesses_snoc. unfold failed_login. rewrite He. simpl. lia.
Qed.

Lemma call_view o c t : grants o c t = false ->
  same_view t (call_run o c t).2 \/ on_key c = true /\ counted o t (call_run o c t).2.
Proof.
  intros Hg. destruct c as [| |u p s| | | | | |]; try (left; by apply view_call).
  assert (Hrun : (call_run o (Login u p s) t).2 = (login scrypt self o u p s t).2).
  { simpl. unfold mbind, M_bind. by destruct (login scrypt self o u p s t) as [[|]]. }
  rewrite Hrun. unfold grants in Hg. destruct (login scrypt self o u p s t) as [[a|e] t'] eqn:E; simpl.
  2: { apply auth_transaction_err in E. subst. by left. }
  apply auth_transaction_ok in E as [_ E]. apply M_bind_ok in E as (row & t1 & Hc%login_check_outcome & E).
  destruct row as [v|].
  - inversion Hc; subst. apply M_bind_ok in E as (x & t2 & Hgr & [= <- <-]). simpl in Hg. rewrite andb_true_r in Hg.
    left. apply (granted_view _ _ _ _ _ _ _ Hgr). intros [= Hn Hs]. by rewrite Hn, Hs, !py_refl_leibniz in Hg.
  - injection E as <- <-. apply checked_view in Hc. case_bool_decide as Hk; [|by left].
    destruct Hc as [Hc|Hc]; [by left|]. right. split; [|done]. injection Hk as H1 H2. simpl. by rewrite H1, H2, !py_refl_leibniz.
Qed.

(** *** The bound *)

Context (from : Z).
Local Abbreviation until := (from + self.(sc_failure_window)).

(** The guesses that are left between [from] and [until], from a row. *)
Definition left_after (r : option ThrottleRow) (b : Z) : Prop :=
  match r with
  | None => self.(sc_max_failures) <= b
  | Some r =>
      (exists u, r.(th_locked_until) = Some u /\ until < u /\ 0 <= b) \/
      (from <= r.(th_window_started_at) /\ r.(th_failed_attempts) < self.(sc_max_failures) /\
       self.(sc_max_failures) - r.(th_failed_attempts) <= b) \/
      (0 <= r.(th_failed_attempts) /\ self.(sc_max_failures) + Z.max 0 (self.(sc_max_failures) - 1 - r.(th_failed_attempts)) <= b)
  end.

Hypothesis max_positive : 1 <= self.(sc_max_failures).
Hypothesis lockout_longer : self.(sc_failure_window) < self.(sc_lockout).

Lemma left_nonneg r b : left_after r b -> 0 <= b.
Proof. destruct r as [r|]; simpl; [intros [(u & _ & _ & H)|[(_ & ? & H)|[_ H]]]|intros H]; lia. Qed.

Lemma left_failed now r b : from <= now <= until -> locked r now = false -> left_after r b ->
  left_after (Some (failed_attempt self now name origin r)) (b - 1).
Proof.
  intros Hnow Hl Hb.
  assert (Hrow : forall f w, left_after (Some {| th_username := name; th_source_hash := origin; th_failed_attempts := f;
      th_window_started_at := w; th_locked_until := if self.(sc_max_failures) <=? f then Some (now + self.(sc_lockout)) else None |}) (b - 1)
    <-> if self.(sc_max_failures) <=? f then 1 <= b \/ 0 <= f /\ self.(sc_max_failures) + 1 <= b else
        (from <= w /\ self.(sc_max_failures) - f <= b - 1) \/ (0 <= f /\ self.(sc_max_failures) + Z.max 0 (self.(sc_max_failures) - 1 - f) <= b - 1)).
  { intros f w. simpl. destruct (Z.leb_spec self.(sc_max_failures) f); split.
    - intros [(u & _ & _ & H1)|[H1|H1]]; lia.
    - intros H1. left. eexists. split; [done|]. lia.
    - intros [(u & H1 & _)|H1]; [done|lia].
    - intros H1. right. lia. }
  unfold failed_attempt. destruct r as [r|]; simpl in Hb.
  - destruct (Z.leb_spec (now - r.(th_window_started_at)) self.(sc_failure_window)); apply Hrow.
    + destruct Hb as [(u & Hu & H1 & H2)|Hb]; [simpl in Hl; rewrite Hu in Hl; lia|].
      destruct (Z.leb_spec self.(sc_max_failures) (r.(th_failed_attempts) + 1)); lia.
    + destruct Hb as [(u & Hu & H1 & H2)|Hb]; [simpl in Hl; rewrite Hu in Hl; lia|].
      destruct (Z.leb_spec self.(sc_max_failures) 1); lia.
  - apply Hrow. destruct (Z.leb_spec self.(sc_max_failures) 1); lia.
Qed.

Lemma guesses_left l t b : left_after (throttle_of name origin t) b -> never_granted l t = true ->
  Forall (fun oc => on_key oc.2 = true -> from <= oc.1.(ou_now) <= until) l ->
  guesses (calls_run l t) <= guesses t + b.
Proof.
  revert t b. induction l as [|[o c] l IH]; intros t b Hb Hg Hl; simpl.
  - apply left_nonneg in Hb. lia.
  - simpl in Hg. apply andb_prop in Hg as [Hg1 Hg]. apply negb_true_iff in Hg1. apply Forall_cons in Hl as [Hoc Hl].
    destruct (call_view o c t Hg1) as [[Ht Hn]|[Hk (Hlk & Ht & Hn)]].
    + rewrite <- Hn. apply IH; [by rewrite Ht|done..].
    + pose proof (IH (call_run o c t).2 (b - 1)) as IH'. rewrite Ht, Hn in IH'.
      assert (guesses (calls_run l (call_run o c t).2) <= guesses t + 1 + (b - 1)); [|lia].
      apply IH'; [|done..]. apply left_failed; auto.
Qed.

(** C38. In any stretch of time as long as the failure window, at most twice the
    allowed failures less one passwords of an account can be tested from one
    source without success, and at most the allowed failures when none was
    counted before, whatever else happens in the store meanwhile. *)
Theorem guesses_bounded l t :
  auth_wf t -> never_granted l t = true ->
  Forall (fun oc => on_key oc.2 = true -> from <= oc.1.(ou_now) <= from + self.(sc_failure_window)) l ->
  guesses (calls_run l t) <= guesses t + 2 * self.(sc_max_failures) - 1 /\
  (throttle_of name origin t = None -> guesses (calls_run l t) <= guesses t + self.(sc_max_failures)).
Proof.
  intros Hwf Hg Hl. split.
  - assert (guesses (calls_run l t) <= guesses t + (2 * self.(sc_max_failures) - 1)); [|lia]. apply guesses_left; [|done..].
    destruct (throttle_of name origin t) as [r|] eqn:E; simpl; [|lia]. apply find_elem in E as [Hr _].
    pose proof (proj1 (Forall_forall _ _) (wf_attempts _ Hwf) r Hr). simpl in *. lia.
  - intros Hnone. apply guesses_left; [by rewrite Hnone; simpl|done..].
Qed.
End Guesses.
End StoreTheory.

(** ** Concrete runs *)

Module SecurityExample.

Definition scrypt (password salt : string) (n r p : Z) : result string := Ok (password +:+ salt).
Definition outside (k : nat) : Outside := {|
  ou_now := Z.of_nat k * minute; ou_db_now := Z.of_nat k * minute; ou_uuid := fun i => pretty (100 * k + i)%nat; ou_secret := "secret " +:+ pretty k;
  ou_salt := "salt"; ou_fault := None |}.
Definition no_tables : AuthTables := {| at_users := []; at_throttle := []; at_sessions := []; at_api_keys := []; at_audit := [] |}.
Definition enrolled : AuthTables := (upsert_user scrypt (outside 1) " Alice " "correct horse" "operator" no_tables).2.

(** An account is made, its password accepted and a wrong one refused. *)
Example alice_enrolled :
  (us_username <$> enrolled.(at_users)) = ["alice"] /\
  (verify_password scrypt "correct horse" <$> (us_password_hash <$> enrolled.(at_users))) = [Ok true] /\
  (verify_password scrypt "correct house" <$> (us_password_hash <$> enrolled.(at_users))) = [Ok false] /\
  (upsert_user scrypt (outside 2) "bob" "short" "viewer" enrolled).1 = Err (ValueError "password must contain at least 12 characters").
Proof. vm_compute. repeat split. Qed.

Lemma no_tables_wf : auth_wf no_tables.
Proof. split; simpl; constructor. Qed.
Lemma enrolled_wf : auth_wf enrolled.
Proof. exact (call_keeps_wf scrypt default_security (outside 1) (UpsertUser " Alice " "correct horse" "operator") no_tables no_tables_wf). Qed.

(** A session of Alice, disabled and enabled again. *)
Definition alice_session : SessionRow := {|
  se_session_id := "s"; se_user_id := "100"; se_token_hash := token_hash "token"; se_created_at := 0; se_expires_at := 8 * hour;
  se_revoked_at := None; se_last_seen_at := 0; se_source_hash := "host" |}.
Definition logged_in : AuthTables := {|
  at_users := enrolled.(at_users); at_throttle := []; at_sessions := [alice_session]; at_api_keys := []; at_audit := [] |}.
Definition shut : AuthTables := (call_run scrypt default_security (outside 2) (DisableUser "alice" "admin") logged_in).2.
Definition reopened : AuthTables := calls_run scrypt default_security [(outside 3, UpsertUser "alice" "another horse" "operator")] shut.

Lemma logged_in_wf : auth_wf logged_in.
Proof.
  destruct enrolled_wf. split; try done; try by apply NoDup_singleton. apply Forall_singleton.
  assert (us_user_id <$> enrolled.(at_users) = ["100"]) as Hu by (vm_compute; reflexivity). change ("100" ∈ (us_user_id <$> enrolled.(at_users))). rewrite Hu. by left.
Qed.

Lemma revocation_final_witness :
  session_actor (outside 4) "token" true reopened = (Ok None, reopened) /\ session_username (outside 4) "token" reopened = (Ok None, reopened).
Proof.
  apply (revocation_final scrypt default_security (outside 2) (DisableUser "alice" "admin") alice_session logged_in shut
           [(outside 3, UpsertUser "alice" "another horse" "operator")] (outside 4) "token" true).
  - exact logged_in_wf.
  - by left.
  - reflexivity.
  - vm_compute. reflexivity.
  - vm_compute. reflexivity.
Defined.

(** Two wrong passwords within the window. *)
Definition wrong : list (Outside * auth_call) :=
  [(outside 2, Login "alice" "correct house" "host"); (outside 3, Login "ALICE" "correct mouse" "host")].

Lemma guesses_bounded_witness :
  let t := calls_run scrypt default_security wrong enrolled in
  guesses "alice" (source_hash "host") t <= guesses "alice" (source_hash "host") enrolled + 2 * 5 - 1 /\
  (throttle_of "alice" (source_hash "host") enrolled = None ->
   guesses "alice" (source_hash "host") t <= guesses "alice" (source_hash "host") enrolled + 5).
Proof.
  apply (guesses_bounded scrypt default_security "alice" (source_hash "host") (2 * minute)).
  - done.
  - done.
  - exact enrolled_wf.
  - vm_compute. reflexivity.
  - apply Forall_cons; split; [|apply Forall_cons; split; [|by apply Forall_nil]]; intros _; vm_compute; split; discriminate.
Defined.

Example two_guesses : guesses "alice" (source_hash "host") (calls_run scrypt default_security wrong enrolled) = 2.
Proof. vm_compute. reflexivity. Qed.

(** The old password's session after the change. *)
Example rotation_run :
  let check := login_check scrypt default_security (outside 2) "alice" "correct horse" "host" enrolled in
  let changed := upsert_user scrypt (outside 3) "alice" "another horse" "operator" enrolled in
  match check.1 with
  | Ok (Some u) =>
      check.2 = enrolled /\ changed.1 = Ok "100" /\
      (verify_password scrypt "correct horse" <$> (us_password_hash <$> changed.2.(at_users))) = [Ok false] /\
      match login_grant default_security (outside 2) "alice" "host" u changed.2 with
      | (Ok a, t) => (session_actor (outside 5) a.(as_token) false t).1 = Ok (Some {| ac_actor_id := "100"; ac_role := "operator" |})
      | _ => False
      end
  | _ => False
  end.
Proof. vm_compute. repeat split. Qed.

End SecurityExample.
