(* ===== verification/PyDecimal.v ===== *)
(** * Decimal arithmetic (the standard library's decimal)

    A finite [Decimal] is a coefficient and a power of ten.  Arithmetic rounds
    half-even to the default context's 28 digits; comparison is exact.  NaN,
    the infinities, negative zero and exponents past the context's one million
    are not represented. *)

From Stdlib Require Import ZArith Lia String.
From stdpp Require Import prelude strings numbers list.
From S2P Require Import Prelude PyData PyFloat PyText.

Local Open Scope Z_scope.

Record Decimal := Dec { dcoef : Z; dexp : Z }.
#[export] Instance Decimal_eq_dec : EqDecision Decimal.
Proof. solve_decision. Defined.

Definition context_prec : Z := 28.

(** The digits of [str(abs(n))]. *)
Definition ndigits (n : Z) : Z := Z.of_nat (String.length (str_Z (Z.abs n))).

(** [Decimal(n)] of an int, exact. *)
Definition decimal_of_Z (n : Z) : Decimal := Dec n 0.

(** The coefficient at a smaller exponent. *)
Definition at_exp (e : Z) (x : Decimal) : Z := x.(dcoef) * 10 ^ (x.(dexp) - e).

Definition dcmp (x y : Decimal) : comparison :=
  let e := Z.min x.(dexp) y.(dexp) in at_exp e x ?= at_exp e y.
Definition dlt (x y : Decimal) : bool := match dcmp x y with Lt => true | _ => false end.
Definition dle (x y : Decimal) : bool := match dcmp x y with Gt => false | _ => true end.
#[export] Instance py_eq_Decimal : PyEq Decimal := fun x y =>
  match dcmp x y with Eq => true | _ => false end.

(** [_fix]: rounding to the context's precision, half to even. *)
Definition round_coef (c k : Z) : Z := Z.sgn c * div_half_even (Z.abs c) (10 ^ k).
Definition dfix (x : Decimal) : Decimal :=
  let k := ndigits x.(dcoef) - context_prec in
  if k <=? 0 then x
  else
    let c := round_coef x.(dcoef) k in
    if context_prec <? ndigits c then Dec (c / 10) (x.(dexp) + k + 1) else Dec c (x.(dexp) + k).

Definition dadd (x y : Decimal) : Decimal :=
  let e := Z.min x.(dexp) y.(dexp) in dfix (Dec (at_exp e x + at_exp e y) e).
Definition dmul (x y : Decimal) : Decimal := dfix (Dec (x.(dcoef) * y.(dcoef)) (x.(dexp) + y.(dexp))).

(** [while exp < ideal_exp and coeff % 10 == 0] *)
Fixpoint toward_ideal (fuel : nat) (c e ideal : Z) : Z * Z :=
  match fuel with
  | O => (c, e)
  | S fuel' => if (e <? ideal) && (c mod 10 =? 0) then toward_ideal fuel' (c / 10) (e + 1) ideal else (c, e)
  end.

(** [x / y]: a quotient of two digits more than the precision, made sticky
    when inexact, then rounded. *)
Definition ddiv (x y : Decimal) : result Decimal :=
  if y.(dcoef) =? 0 then
    Err (if x.(dcoef) =? 0 then OtherException "InvalidOperation" "[<class 'decimal.DivisionUndefined'>]"
         else ZeroDivisionError)
  else if x.(dcoef) =? 0 then Ok (Dec 0 (x.(dexp) - y.(dexp)))
  else
    let shift := ndigits y.(dcoef) - ndigits x.(dcoef) + context_prec + 1 in
    let num := Z.abs x.(dcoef) * 10 ^ Z.max shift 0 in
    let den := Z.abs y.(dcoef) * 10 ^ Z.max (- shift) 0 in
    let q := num / den in
    let e := x.(dexp) - y.(dexp) - shift in
    let '(c, e) :=
      if negb (num mod den =? 0) then (if q mod 5 =? 0 then q + 1 else q, e)
      else toward_ideal (Z.to_nat (Z.max shift 0)) q e (x.(dexp) - y.(dexp)) in
    Ok (dfix (Dec (Z.sgn x.(dcoef) * Z.sgn y.(dcoef) * c) e)).

(** [sum(xs, Decimal(0))] *)
Definition dsum (xs : list Decimal) : Decimal := foldl dadd (decimal_of_Z 0) xs.

(** [str(x)] *)
Definition str_Decimal (x : Decimal) : string :=
  let ds := str_Z (Z.abs x.(dcoef)) in
  let len := Z.of_nat (String.length ds) in
  let leftdigits := x.(dexp) + len in
  let dotplace := if (x.(dexp) <=? 0) && (-6 <? leftdigits) then leftdigits else 1 in
  let mant :=
    if dotplace <=? 0 then "0." +:+ zeros (Z.to_nat (- dotplace)) +:+ ds
    else if len <=? dotplace then ds +:+ zeros (Z.to_nat (dotplace - len))
    else String.substring 0 (Z.to_nat dotplace) ds +:+ "."
         +:+ String.substring (Z.to_nat dotplace) (Z.to_nat (len - dotplace)) ds in
  let ex := leftdigits - dotplace in
  (if x.(dcoef) <? 0 then "-" else "") +:+ mant
  +:+ (if ex =? 0 then "" else "E" +:+ (if ex <? 0 then "-" else "+") +:+ str_Z (Z.abs ex)).

Example decimal_examples :
  str_Decimal (Dec 50 (-2)) = "0.50" /\ str_Decimal (Dec 5 (-8)) = "5E-8" /\
  str_Decimal (Dec 12345 (-3)) = "12.345" /\ str_Decimal (Dec 12 3) = "1.2E+4" /\
  ddiv (Dec 1 0) (Dec 3 0) = Ok (Dec 3333333333333333333333333333 (-28)) /\
  ddiv (Dec 2 0) (Dec 3 0) = Ok (Dec 6666666666666666666666666667 (-28)) /\
  ddiv (Dec 1200 (-2)) (Dec 1000000 0) = Ok (Dec 12 (-6)) /\
  dadd (Dec 9999999999999999999999999999 0) (Dec 6 (-1)) = Dec 1000000000000000000000000000 1 /\
  dmul (Dec 15 (-1)) (Dec 20 0) = Dec 300 (-1).
Proof. vm_compute. repeat split. Qed.
