(* ===== verification/FinOps.v ===== *)
(** * LLM spend control (src/nanodelta/finops/core.py)

    Budgets, price tiers, reservations and the kill switch in front of the
    language-model provider.  Every operation of the guard runs under the
    ledger's lock, so each is one step on the ledger. *)

From Stdlib Require Import ZArith Lia.
From stdpp Require Import prelude strings numbers sorting list.
From S2P Require Import Prelude PyData PyText PyDecimal Sha256 PyTime Contracts.

Local Open Scope Z_scope.

Inductive BillingMode := PAYG | SUBSCRIPTION.
#[export] Instance BillingMode_eq_dec : EqDecision BillingMode.
Proof. solve_decision. Defined.

Record Attribution := { at_market : option Market; at_component : string; at_reason : string }.
#[export] Instance Attribution_eq_dec : EqDecision Attribution.
Proof. solve_decision. Defined.
Definition Attribution_post_init (a : Attribution) : result unit :=
  raise_if (str_blank a.(at_component) || str_blank a.(at_reason)) (ValueError "component and reason are required").

Record TokenUsage := {
  tu_input_tokens : Z;
  tu_output_tokens : Z;
  tu_cached_input_tokens : Z;
  tu_reasoning_tokens : Z }.
#[export] Instance TokenUsage_eq_dec : EqDecision TokenUsage.
Proof. solve_decision. Defined.
Definition TokenUsage_post_init (u : TokenUsage) : result unit :=
  _ ← raise_if (existsb (fun v => v <? 0)
        [u.(tu_input_tokens); u.(tu_output_tokens); u.(tu_cached_input_tokens); u.(tu_reasoning_tokens)])
        (ValueError "token counts cannot be negative");
  raise_if (u.(tu_input_tokens) <? u.(tu_cached_input_tokens)) (ValueError "cached input cannot exceed total input").
Definition total_tokens (u : TokenUsage) : Z := u.(tu_input_tokens) + u.(tu_output_tokens).

(** ** Prices *)

Record PriceTier := {
  pt_model : string;
  pt_deployment_scope : string;
  pt_maximum_input_tokens : Z;
  pt_input_usd_per_million : Decimal;
  pt_cached_input_usd_per_million : Decimal;
  pt_output_usd_per_million : Decimal;
  pt_catalog_version : string }.
Definition PriceTier_post_init (t : PriceTier) : result unit :=
  _ ← raise_if (t.(pt_maximum_input_tokens) <? 1) (ValueError "price tier token ceiling must be positive");
  raise_if (existsb (fun v => dlt v (decimal_of_Z 0))
      [t.(pt_input_usd_per_million); t.(pt_cached_input_usd_per_million); t.(pt_output_usd_per_million)])
    (ValueError "prices cannot be negative").

(** [PriceTier.cost] *)
Definition tier_cost (t : PriceTier) (u : TokenUsage) : result Decimal :=
  let uncached := u.(tu_input_tokens) - u.(tu_cached_input_tokens) in
  ddiv (dadd (dadd (dmul (decimal_of_Z uncached) t.(pt_input_usd_per_million))
                   (dmul (decimal_of_Z u.(tu_cached_input_tokens)) t.(pt_cached_input_usd_per_million)))
             (dmul (decimal_of_Z u.(tu_output_tokens)) t.(pt_output_usd_per_million)))
       (decimal_of_Z 1000000).

Definition PriceCatalog : Type := list PriceTier.
Definition tier_matches (model scope : string) (input_tokens : Z) (t : PriceTier) : bool :=
  (t.(pt_model) ==p model) && (t.(pt_deployment_scope) ==p scope) && (input_tokens <=? t.(pt_maximum_input_tokens)).
(** [PriceCatalog.tier] *)
Definition catalog_tier (c : PriceCatalog) (model scope : string) (input_tokens : Z) : result PriceTier :=
  match py_sorted (fun a b => a.(pt_maximum_input_tokens) <? b.(pt_maximum_input_tokens))
          (List.filter (tier_matches model scope input_tokens) c) with
  | [] => Err (LookupError ("no price tier for " +:+ model +:+ "/" +:+ scope +:+ "/" +:+ str_Z input_tokens
                            +:+ " input tokens"))
  | t :: _ => Ok t
  end.

(** ** Policies *)

Record SubscriptionPlan := {
  sp_plan_id : string;
  sp_monthly_fee_usd : Decimal;
  sp_five_hour_request_limit : option Z;
  sp_weekly_request_limit : option Z;
  sp_monthly_request_limit : option Z }.
Definition SubscriptionPlan_post_init (p : SubscriptionPlan) : result unit :=
  _ ← raise_if (dlt p.(sp_monthly_fee_usd) (decimal_of_Z 0)) (ValueError "subscription fee cannot be negative");
  raise_if (existsb (fun v => match v with Some n => n <? 1 | None => false end)
      [p.(sp_five_hour_request_limit); p.(sp_weekly_request_limit); p.(sp_monthly_request_limit)])
    (ValueError "subscription request limits must be positive").

Record BudgetPolicy := {
  bp_daily_request_limit : Z;
  bp_daily_token_limit : Z;
  bp_daily_cost_limit_usd : Decimal;
  bp_alert_thresholds : list Decimal }.
Definition default_alert_thresholds : list Decimal := [Dec 50 (-2); Dec 80 (-2); Dec 100 (-2)].
Definition BudgetPolicy_post_init (p : BudgetPolicy) : result unit :=
  _ ← raise_if ((p.(bp_daily_request_limit) <? 1) || (p.(bp_daily_token_limit) <? 1))
        (ValueError "daily request and token limits must be positive");
  _ ← raise_if (dlt p.(bp_daily_cost_limit_usd) (decimal_of_Z 0)) (ValueError "daily cost limit cannot be negative");
  raise_if (existsb (fun v => negb (dlt (decimal_of_Z 0) v && dle v (decimal_of_Z 1))) p.(bp_alert_thresholds))
    (ValueError "alert thresholds must be in (0, 1]").

(** ** The ledger *)

Record UsageRecord := {
  ur_record_id : string;
  ur_provider_request_id : string;
  ur_model : string;
  ur_deployment_scope : string;
  ur_billing_mode : BillingMode;
  ur_attribution : Attribution;
  ur_usage : TokenUsage;
  ur_marginal_cost_usd : Decimal;
  ur_catalog_version : option string;
  ur_occurred_at : datetime }.
#[export] Instance py_eq_UsageRecord : PyEq UsageRecord := fun a b =>
  (a.(ur_record_id) ==p b.(ur_record_id)) && (a.(ur_provider_request_id) ==p b.(ur_provider_request_id))
  && (a.(ur_model) ==p b.(ur_model)) && (a.(ur_deployment_scope) ==p b.(ur_deployment_scope))
  && bool_decide (a.(ur_billing_mode) = b.(ur_billing_mode)) && bool_decide (a.(ur_attribution) = b.(ur_attribution))
  && bool_decide (a.(ur_usage) = b.(ur_usage)) && (a.(ur_marginal_cost_usd) ==p b.(ur_marginal_cost_usd))
  && (a.(ur_catalog_version) ==p b.(ur_catalog_version)) && (a.(ur_occurred_at) ==p b.(ur_occurred_at)).

Record FinOpsAlert := {
  fa_alert_id : string;
  fa_alert_type : string;
  fa_threshold : Decimal;
  fa_observed : Decimal;
  fa_occurred_at : datetime }.

Record Reservation := {
  rs_reservation_id : string;
  rs_estimated_tokens : Z;
  rs_estimated_cost_usd : Decimal;
  rs_created_at : datetime }.

Record DailyUsage := { du_requests : Z; du_tokens : Z; du_marginal_cost_usd : Decimal }.

Record InMemoryFinOpsLedger := MkFinOpsLedger {
  fl_records : dict string UsageRecord;
  fl_reservations : dict string Reservation;
  fl_alerts : dict string FinOpsAlert;
  fl_kill_switch : bool;
  fl_kill_reason : option string }.
Definition empty_finops : InMemoryFinOpsLedger := MkFinOpsLedger ∅ ∅ ∅ false None.

Definition lenZ {A} (l : list A) : Z := Z.of_nat (length l).

Definition on_day (day : Z) (r : UsageRecord) : bool := date_of r.(ur_occurred_at) =? day.
(** [InMemoryFinOpsLedger.daily] *)
Definition daily (l : InMemoryFinOpsLedger) (day : Z) : DailyUsage :=
  let records := List.filter (on_day day) (dict_values l.(fl_records)) in
  {| du_requests := lenZ records;
     du_tokens := sumZ ((fun r => total_tokens r.(ur_usage)) <$> records);
     du_marginal_cost_usd := dsum (ur_marginal_cost_usd <$> records) |}.

(** [InMemoryFinOpsLedger.requests_since] *)
Definition requests_since (l : InMemoryFinOpsLedger) (since : datetime) : result Z :=
  hits ← map_result (fun r => dt_le since r.(ur_occurred_at)) (dict_values l.(fl_records));
  mret (sumZ ((fun b : bool => if b then 1 else 0) <$> hits)).

(** [InMemoryFinOpsLedger.reserved] *)
Definition reserved (l : InMemoryFinOpsLedger) : Z * Z * Decimal :=
  (lenZ (dict_values l.(fl_reservations)),
   sumZ (rs_estimated_tokens <$> dict_values l.(fl_reservations)),
   dsum (rs_estimated_cost_usd <$> dict_values l.(fl_reservations))).

Definition set_records d (l : InMemoryFinOpsLedger) :=
  MkFinOpsLedger d l.(fl_reservations) l.(fl_alerts) l.(fl_kill_switch) l.(fl_kill_reason).
Definition set_reservations d (l : InMemoryFinOpsLedger) :=
  MkFinOpsLedger l.(fl_records) d l.(fl_alerts) l.(fl_kill_switch) l.(fl_kill_reason).
Definition set_alerts d (l : InMemoryFinOpsLedger) :=
  MkFinOpsLedger l.(fl_records) l.(fl_reservations) d l.(fl_kill_switch) l.(fl_kill_reason).
Definition set_kill b reason (l : InMemoryFinOpsLedger) :=
  MkFinOpsLedger l.(fl_records) l.(fl_reservations) l.(fl_alerts) b reason.

(** ** FinOpsGuard *)

Record FinOpsGuard := {
  fg_provider : string;
  fg_billing_mode : BillingMode;
  fg_policy : BudgetPolicy;
  fg_price_catalog : option PriceCatalog;
  fg_subscription : option SubscriptionPlan }.

Definition FinOpsGuard_init (g : FinOpsGuard) : result unit :=
  _ ← raise_if (bool_decide (g.(fg_billing_mode) = PAYG)
                && match g.(fg_price_catalog) with None => true | _ => false end)
        (ValueError "PAYG mode requires a price catalog");
  raise_if (bool_decide (g.(fg_billing_mode) = SUBSCRIPTION)
            && match g.(fg_subscription) with None => true | _ => false end)
    (ValueError "subscription mode requires a subscription plan").

Section Guard.
Context (self : FinOpsGuard).

(** [_add_alert] *)
Definition add_alert (alert_type : string) (threshold observed : Decimal) (now : datetime) :
    M InMemoryFinOpsLedger unit :=
  let alert := {|
    fa_alert_id := stable_id [alert_type; str_Decimal threshold; date_iso (date_of now)];
    fa_alert_type := alert_type;
    fa_threshold := threshold;
    fa_observed := observed;
    fa_occurred_at := now |} in
  modify (fun l => set_alerts (dict_setdefault alert.(fa_alert_id) alert l.(fl_alerts)) l).

(** [_kill] *)
Definition kill (reason : string) (now : datetime) : M InMemoryFinOpsLedger unit :=
  _ ← modify (set_kill true (Some reason));
  add_alert "KILL_SWITCH" (decimal_of_Z 1) (decimal_of_Z 1) now.

(** [_cost] *)
Definition usage_cost (model scope : string) (usage : TokenUsage) : result (Decimal * option string) :=
  match self.(fg_billing_mode) with
  | SUBSCRIPTION => Ok (decimal_of_Z 0, None)
  | PAYG =>
      match self.(fg_price_catalog) with
      | None => Err (AssertionError "")
      | Some catalog =>
          tier ← catalog_tier catalog model scope usage.(tu_input_tokens);
          cost ← tier_cost tier usage;
          mret (cost, Some tier.(pt_catalog_version))
      end
  end.

(** [_budget_reason] *)
Definition budget_reason (usage : DailyUsage) : option string :=
  if self.(fg_policy).(bp_daily_request_limit) <? usage.(du_requests)
  then Some "daily LLM request budget exceeded"
  else if self.(fg_policy).(bp_daily_token_limit) <? usage.(du_tokens)
  then Some "daily LLM token budget exceeded"
  else if dlt self.(fg_policy).(bp_daily_cost_limit_usd) usage.(du_marginal_cost_usd)
  then Some "daily LLM marginal-cost budget exceeded"
  else None.

Definition minus_window (now : datetime) (window : Z) : datetime := Datetime (now.(wall) - window) now.(utcoffset).

Definition subscription_checks (p : SubscriptionPlan) : list (Z * option Z * string) :=
  [(5 * hour, p.(sp_five_hour_request_limit), "5-hour");
   (7 * day, p.(sp_weekly_request_limit), "weekly");
   (31 * day, p.(sp_monthly_request_limit), "monthly")].

(** [_enforce_subscription] *)
Definition enforce_subscription (now : datetime) : M InMemoryFinOpsLedger unit :=
  match self.(fg_subscription) with
  | None => mret tt
  | Some plan =>
      for_each (subscription_checks plan) (fun '(window, limit, label) =>
        l ← get_state;
        n ← lift (requests_since l (minus_window now window));
        let projected := n + lenZ (dict_values l.(fl_reservations)) + 1 in
        match limit with
        | Some limit =>
            if limit <? projected then
              let reason := "Qwen subscription " +:+ label +:+ " request quota reached" in
              _ ← kill reason now;
              raise (PermissionError reason)
            else mret tt
        | None => mret tt
        end)
  end.

(** [_alerts_and_postcheck] *)
Definition alert_ratios (usage : DailyUsage) : result (list (string * Decimal)) :=
  requests ← ddiv (decimal_of_Z usage.(du_requests)) (decimal_of_Z self.(fg_policy).(bp_daily_request_limit));
  tokens ← ddiv (decimal_of_Z usage.(du_tokens)) (decimal_of_Z self.(fg_policy).(bp_daily_token_limit));
  cost ← (if dlt (decimal_of_Z 0) self.(fg_policy).(bp_daily_cost_limit_usd)
          then ddiv usage.(du_marginal_cost_usd) self.(fg_policy).(bp_daily_cost_limit_usd)
          else Ok (decimal_of_Z 0));
  mret [("REQUEST_BUDGET", requests); ("TOKEN_BUDGET", tokens); ("COST_BUDGET", cost)].

Definition alerts_and_postcheck (now : datetime) : M InMemoryFinOpsLedger unit :=
  l ← get_state;
  let usage := daily l (date_of now) in
  ratios ← lift (alert_ratios usage);
  _ ← for_each ratios (fun '(alert_type, ratio) =>
        for_each self.(fg_policy).(bp_alert_thresholds) (fun threshold =>
          when (dle threshold ratio) (add_alert alert_type threshold ratio now)));
  match budget_reason usage with
  | Some reason => kill reason now
  | None => mret tt
  end.

(** The usage an authorisation projects, with what is reserved. *)
Definition projected_usage (l : InMemoryFinOpsLedger) (day estimated_tokens : Z) (cost : Decimal) : DailyUsage :=
  let usage := daily l day in
  let '(reserved_requests, reserved_tokens, reserved_cost) := reserved l in
  {| du_requests := usage.(du_requests) + reserved_requests + 1;
     du_tokens := usage.(du_tokens) + reserved_tokens + estimated_tokens;
     du_marginal_cost_usd := dadd (dadd usage.(du_marginal_cost_usd) reserved_cost) cost |}.

(** [authorize] *)
Definition authorize (model deployment_scope : string) (estimated_input_tokens maximum_output_tokens : Z)
    (now : datetime) : M InMemoryFinOpsLedger Reservation :=
  now ← lift (utc now "now");
  _ ← lift (raise_if (Z.min estimated_input_tokens maximum_output_tokens <? 0)
        (ValueError "estimated token counts cannot be negative"));
  l ← get_state;
  _ ← lift (raise_if l.(fl_kill_switch)
        (PermissionError ("LLM spend kill-switch active: " +:+ str_opt l.(fl_kill_reason))));
  let estimated_usage := {| tu_input_tokens := estimated_input_tokens; tu_output_tokens := maximum_output_tokens;
                            tu_cached_input_tokens := 0; tu_reasoning_tokens := 0 |} in
  _ ← lift (TokenUsage_post_init estimated_usage);
  cost ← lift (usage_cost model deployment_scope estimated_usage);
  let projected := projected_usage l (date_of now) (total_tokens estimated_usage) cost.1 in
  _ ← enforce_subscription now;
  match budget_reason projected with
  | Some reason => _ ← kill reason now; raise (PermissionError reason)
  | None =>
      let reservation := {|
        rs_reservation_id := stable_id [model; deployment_scope; isoformat now; str_Z projected.(du_requests)];
        rs_estimated_tokens := total_tokens estimated_usage;
        rs_estimated_cost_usd := cost.1;
        rs_created_at := now |} in
      _ ← modify (fun l => set_reservations
            (<[reservation.(rs_reservation_id) := reservation]> l.(fl_reservations)) l);
      mret reservation
  end.

Definition usage_record (provider_request_id model deployment_scope : string) (attribution : Attribution)
    (usage : TokenUsage) (cost : Decimal * option string) (occurred_at : datetime) : UsageRecord := {|
  ur_record_id := stable_id [self.(fg_provider); provider_request_id];
  ur_provider_request_id := provider_request_id;
  ur_model := model;
  ur_deployment_scope := deployment_scope;
  ur_billing_mode := self.(fg_billing_mode);
  ur_attribution := attribution;
  ur_usage := usage;
  ur_marginal_cost_usd := cost.1;
  ur_catalog_version := cost.2;
  ur_occurred_at := occurred_at |}.

(** [record]: the reservation is popped first. *)
Definition record_usage (reservation : Reservation) (provider_request_id model deployment_scope : string)
    (attribution : Attribution) (usage : TokenUsage) (occurred_at : datetime) : M InMemoryFinOpsLedger UsageRecord :=
  occurred_at ← lift (utc occurred_at "occurred_at");
  l ← get_state;
  match l.(fl_reservations) !! reservation.(rs_reservation_id) with
  | None => raise (ValueError "unknown or already completed FinOps reservation")
  | Some _ =>
      _ ← modify (fun l => set_reservations (delete reservation.(rs_reservation_id) l.(fl_reservations)) l);
      cost ← lift (usage_cost model deployment_scope usage);
      let record := usage_record provider_request_id model deployment_scope attribution usage cost occurred_at in
      match l.(fl_records) !! record.(ur_record_id) with
      | Some existing =>
          _ ← lift (raise_if (existing !=p record) (ValueError "provider request ID is bound to different usage"));
          mret existing
      | None =>
          _ ← modify (fun l => set_records (<[record.(ur_record_id) := record]> l.(fl_records)) l);
          _ ← alerts_and_postcheck occurred_at;
          mret record
      end
  end.

(** [cancel] *)
Definition cancel (reservation : Reservation) : M InMemoryFinOpsLedger unit :=
  modify (fun l => set_reservations (delete reservation.(rs_reservation_id) l.(fl_reservations)) l).

(** [set_kill_switch]: the switch is set before the timestamp is checked. *)
Definition set_kill_switch (active : bool) (reason : string) (now : datetime) : M InMemoryFinOpsLedger unit :=
  _ ← modify (set_kill active (if active then Some reason else None));
  if active then
    now ← lift (utc now "now");
    add_alert "MANUAL_KILL_SWITCH" (decimal_of_Z 1) (decimal_of_Z 1) now
  else mret tt.
End Guard.

(** ** Sums over a dict's values *)

Lemma lenZ_app {A} (l1 l2 : list A) : lenZ (l1 ++ l2) = lenZ l1 + lenZ l2.
Proof. unfold lenZ. rewrite length_app. lia. Qed.

Section DictSums.
Context {V : Type} (f : V -> Z).

Lemma sum_insert_le (d : dict string V) k v :
  (forall k' v', d !! k' = Some v' -> 0 <= f v') ->
  sumZ (f <$> dict_values (<[k:=v]> d)) <= sumZ (f <$> dict_values d) + f v.
Proof.
  destruct (d !! k) as [v0|] eqn:Hk; intros Hpos.
  - specialize (Hpos k v0 Hk). revert Hk. destruct d as [l].
    unfold lookup, dict_lookup, insert, dict_insert, dict_values, sumZ, fmap; simpl.
    induction l as [|[k' v'] l IH]; simpl; [done|].
    case_decide; simpl; intros Hk; [injection Hk as ->; lia | specialize (IH Hk); lia].
  - intros. rewrite dict_values_insert_None, fmap_app, sumZ_app by done. simpl. lia.
Qed.

Lemma sum_delete (d : dict string V) k v :
  d !! k = Some v -> sumZ (f <$> dict_values (delete k d)) = sumZ (f <$> dict_values d) - f v.
Proof.
  destruct d as [l]. unfold lookup, dict_lookup, delete, dict_delete, dict_values, sumZ, fmap; simpl.
  induction l as [|[k' v'] l IH]; simpl; [done|].
  case_decide; simpl; intros Hk; [injection Hk as ->; lia | specialize (IH Hk); lia].
Qed.
End DictSums.

Lemma lenZ_sum {V} (l : list V) : lenZ l = sumZ ((fun _ => 1) <$> l).
Proof. unfold lenZ, sumZ, fmap. induction l; simpl; lia. Qed.

Lemma dict_delete_absent {V} (d : dict string V) k : d !! k = None -> delete k d = d.
Proof.
  destruct d as [l]. unfold lookup, dict_lookup, delete, dict_delete; simpl. intros H. f_equal. revert H.
  induction l as [|[k' v'] l IH]; simpl; [done|]. case_decide; [done|]. intros Hk. by rewrite IH.
Qed.

Lemma delete_entries {V} (d : dict string V) k k' v : (k', v) ∈ entries (delete k d) -> (k', v) ∈ entries d.
Proof.
  destruct d as [l]. unfold delete, dict_delete; simpl.
  induction l as [|[k1 v1] l IH]; simpl; [done|].
  case_decide; [by right|]. intros [->|?]%elem_of_cons; [by left|right; auto].
Qed.

(** ** Ledger invariants *)

Section GuardTheory.
Context (self : FinOpsGuard).

(** What is spent and reserved for the day fits the request and token limits. *)
Definition within_day (d : Z) (l : InMemoryFinOpsLedger) : Prop :=
  (daily l d).(du_requests) + (reserved l).1.1 <= self.(fg_policy).(bp_daily_request_limit) /\
  (daily l d).(du_tokens) + (reserved l).1.2 <= self.(fg_policy).(bp_daily_token_limit) /\
  (forall k r, (k, r) ∈ entries l.(fl_reservations) -> 0 <= r.(rs_estimated_tokens)).

(** The parts of the ledger that alerts and the switch leave alone. *)
Definition same_books (l l' : InMemoryFinOpsLedger) : Prop :=
  l'.(fl_records) = l.(fl_records) /\ l'.(fl_reservations) = l.(fl_reservations).
#[local] Instance same_books_preorder : PreOrder same_books.
Proof. split; [by intros l | intros l1 l2 l3 [? ?] [? ?]; split; congruence]. Qed.

Lemma add_alert_books ty th ob now : preserves same_books (add_alert ty th ob now).
Proof. intros l. by split. Qed.
#[local] Hint Resolve add_alert_books : preserves.
Lemma kill_books reason now : preserves same_books (kill reason now).
Proof. unfold kill. preserve. intros l. by split. Qed.
#[local] Hint Resolve kill_books : preserves.
Lemma enforce_subscription_books now : preserves same_books (enforce_subscription self now).
Proof. unfold enforce_subscription. preserve. Qed.
Lemma alerts_and_postcheck_books now : preserves same_books (alerts_and_postcheck self now).
Proof. unfold alerts_and_postcheck, when. preserve. Qed.
#[local] Hint Resolve enforce_subscription_books alerts_and_postcheck_books : preserves.

Lemma daily_books l l' d : same_books l l' -> daily l' d = daily l d.
Proof. intros [Hr _]. unfold daily. by rewrite Hr. Qed.
Lemma within_books l l' d : same_books l l' -> within_day d l -> within_day d l'.
Proof. intros H. unfold within_day, reserved. rewrite (daily_books _ _ _ H). by destruct H as [_ ->]. Qed.

Lemma for_each_elem {S A} (R : S -> A -> Prop) (l : list A) body (s s' : S) :
  (forall x s s', body x s = (Ok tt, s') -> s' = s /\ R s x) ->
  for_each l body s = (Ok tt, s') -> s' = s /\ forall x, x ∈ l -> R s x.
Proof.
  intros Hb. revert s. induction l as [|y l IH]; intros s; simpl.
  - intros [= <-]. split; [done|]. by intros x ?%elem_of_nil.
  - intros ([] & s1 & (-> & Hy)%Hb & (-> & Hl)%IH)%M_bind_ok. split; [done|].
    intros x [->|Hx]%elem_of_cons; auto.
Qed.

(** A subscription window's quota admits one more request. *)
Definition quota_admits (now : datetime) (l : InMemoryFinOpsLedger) (check : Z * option Z * string) : Prop :=
  exists n, requests_since l (minus_window now check.1.1) = Ok n /\
    forall limit, check.1.2 = Some limit -> n + lenZ (dict_values l.(fl_reservations)) + 1 <= limit.

Lemma enforce_subscription_ok now l l' :
  enforce_subscription self now l = (Ok tt, l') ->
  l' = l /\ forall plan check, self.(fg_subscription) = Some plan ->
    check ∈ subscription_checks plan -> quota_admits now l check.
Proof.
  unfold enforce_subscription. destruct (fg_subscription self) as [plan|]; [|by intros [= <-]].
  intros H. eapply (for_each_elem (quota_admits now)) in H as [-> H].
  - split; [done|]. intros ? check [= <-]. apply H.
  - clear. intros [[window limit] label] s s' H. apply M_bind_ok in H as (l & s1 & [= -> ->] & H).
    apply M_bind_ok in H as (n & s2 & [Hn ->]%lift_ok & H). unfold quota_admits. simpl.
    destruct limit as [limit|].
    + destruct (limit <? _) eqn:Hlt; [by apply M_bind_ok in H as (? & ? & ? & [=])|].
      injection H as <-. split; [done|]. exists n. split; [done|]. intros ? [= <-]. lia.
    + injection H as <-. split; [done|]. by exists n.
Qed.

Lemma budget_reason_none usage : budget_reason self usage = None <->
  usage.(du_requests) <= self.(fg_policy).(bp_daily_request_limit) /\
  usage.(du_tokens) <= self.(fg_policy).(bp_daily_token_limit) /\
  dlt self.(fg_policy).(bp_daily_cost_limit_usd) usage.(du_marginal_cost_usd) = false.
Proof. unfold budget_reason. repeat case_match; split; try done; lia || (intros (? & ? & ?); (lia || congruence)). Qed.

Lemma authorize_spec model scope i o now l r l' :
  authorize self model scope i o now l = (Ok r, l') ->
  aware now = true /\ l.(fl_kill_switch) = false /\ 0 <= i /\ 0 <= o /\
  (exists version, usage_cost self model scope
     {| tu_input_tokens := i; tu_output_tokens := o; tu_cached_input_tokens := 0; tu_reasoning_tokens := 0 |}
     = Ok (r.(rs_estimated_cost_usd), version)) /\
  r.(rs_estimated_tokens) = i + o /\
  budget_reason self (projected_usage l (date_of (at_utc (instant now))) (i + o) r.(rs_estimated_cost_usd)) = None /\
  (forall plan check, self.(fg_subscription) = Some plan -> check ∈ subscription_checks plan ->
     quota_admits (at_utc (instant now)) l check) /\
  l' = set_reservations (<[r.(rs_reservation_id) := r]> l.(fl_reservations)) l.
Proof.
  unfold authorize. intros H. apply M_bind_ok in H as (t & s1 & [(Haw & ->)%utc_ok ->]%lift_ok & H).
  apply M_bind_ok in H as (? & s2 & [Hmin%raise_if_ok ->]%lift_ok & H).
  apply M_bind_ok in H as (l0 & s3 & [= -> ->] & H).
  apply M_bind_ok in H as (? & s4 & [Hk%raise_if_ok ->]%lift_ok & H).
  apply M_bind_ok in H as (? & s5 & [_ ->]%lift_ok & H).
  apply M_bind_ok in H as ([cost version] & s6 & [Hcost ->]%lift_ok & H).
  apply M_bind_ok in H as ([] & s7 & (-> & Hsub)%enforce_subscription_ok & H).
  destruct (budget_reason _ _) eqn:Hb; [by apply M_bind_ok in H as (? & ? & ? & [=])|].
  apply M_bind_ok in H as (? & s8 & [= <-] & [= <- <-]).
  split_and!; try done; simpl; try lia. by exists version.
Qed.

(** The guard's operations; [OpRelease] turns the kill switch off. *)
Inductive FinOpsOp :=
| OpAuthorize (model scope : string) (i o : Z) (now : datetime)
| OpRecord (res : Reservation) (request_id model scope : string) (a : Attribution) (u : TokenUsage) (at_ : datetime)
| OpCancel (res : Reservation)
| OpKill (reason : string) (now : datetime)
| OpRelease (reason : string) (now : datetime).

Definition finops_run (op : FinOpsOp) (l : InMemoryFinOpsLedger) : InMemoryFinOpsLedger :=
  match op with
  | OpAuthorize model scope i o now => (authorize self model scope i o now l).2
  | OpRecord res id model scope a u at_ => (record_usage self res id model scope a u at_ l).2
  | OpCancel res => (cancel res l).2
  | OpKill reason now => (set_kill_switch true reason now l).2
  | OpRelease reason now => (set_kill_switch false reason now l).2
  end.

(** On day [d], with no more tokens used than were reserved. *)
Definition op_on_day (d : Z) (l : InMemoryFinOpsLedger) (op : FinOpsOp) : Prop :=
  match op with
  | OpAuthorize _ _ _ _ now => date_of (at_utc (instant now)) = d
  | OpRecord res _ _ _ _ u at_ =>
      date_of (at_utc (instant at_)) = d /\
      forall r, l.(fl_reservations) !! res.(rs_reservation_id) = Some r -> total_tokens u <= r.(rs_estimated_tokens)
  | _ => True
  end.

Inductive day_history (d : Z) (l : InMemoryFinOpsLedger) : InMemoryFinOpsLedger -> Prop :=
| day_start : day_history d l l
| day_op l' op : day_history d l l' -> op_on_day d l' op -> day_history d l (finops_run op l').

Lemma within_delete d l k r :
  l.(fl_reservations) !! k = Some r -> within_day d l ->
  within_day d (set_reservations (delete k l.(fl_reservations)) l) /\
  (reserved (set_reservations (delete k l.(fl_reservations)) l)).1.1 = (reserved l).1.1 - 1 /\
  (reserved (set_reservations (delete k l.(fl_reservations)) l)).1.2 = (reserved l).1.2 - r.(rs_estimated_tokens).
Proof.
  intros Hk (Hr & Ht & Hpos). pose proof (Hpos _ _ (dict_lookup_elem _ _ _ Hk)).
  assert (daily (set_reservations (delete k (fl_reservations l)) l) d = daily l d) as Hd by done.
  unfold within_day. rewrite Hd. simpl in *.
  rewrite (sum_delete _ _ _ _ Hk), !lenZ_sum, (sum_delete _ _ _ _ Hk). rewrite !lenZ_sum in Hr.
  split_and!; try lia. intros k' r' Hin. by eapply Hpos, (delete_entries _ k).
Qed.

Lemma authorize_err model scope i o now l e l' :
  authorize self model scope i o now l = (Err e, l') -> same_books l l'.
Proof.
  unfold authorize. intros H. apply M_bind_err in H as [[_ ->]%lift_err|(t & s1 & [_ ->]%lift_ok & H)]; [done|].
  apply M_bind_err in H as [[_ ->]%lift_err|(? & s2 & [_ ->]%lift_ok & H)]; [done|].
  apply M_bind_err in H as [[=]|(l0 & s3 & [= <- <-] & H)].
  apply M_bind_err in H as [[_ ->]%lift_err|(? & s4 & [_ ->]%lift_ok & H)]; [done|].
  apply M_bind_err in H as [[_ ->]%lift_err|(? & s5 & [_ ->]%lift_ok & H)]; [done|].
  apply M_bind_err in H as [[_ ->]%lift_err|(cost & s6 & [_ ->]%lift_ok & H)]; [done|].
  apply M_bind_err in H as [H|([] & s7 & (-> & _)%enforce_subscription_ok & H)].
  { pose proof (enforce_subscription_books t l) as Hb. by rewrite H in Hb. }
  destruct (budget_reason _ _) as [reason|].
  - assert (preserves same_books (_ ← kill reason t; raise (A := Reservation) (PermissionError reason))) as Hb
      by preserve. specialize (Hb l). by rewrite H in Hb.
  - by apply M_bind_err in H as [[=]|(? & ? & [= <-] & [=])].
Qed.

Lemma set_kill_switch_books b reason now : preserves same_books (set_kill_switch b reason now).
Proof. unfold set_kill_switch. preserve. intros l. by split. Qed.

Lemma delete_absent l k :
  l.(fl_reservations) !! k = None -> set_reservations (delete k l.(fl_reservations)) l = l.
Proof.
  intros H. rewrite dict_delete_absent by done. by destruct l.
Qed.

Lemma within_authorize d model scope i o now l :
  date_of (at_utc (instant now)) = d -> within_day d l -> within_day d (authorize self model scope i o now l).2.
Proof.
  intros Hday Hw. destruct (authorize self model scope i o now l) as [[r|e] l'] eqn:H; simpl.
  - apply authorize_spec in H as (_ & _ & Hi & Ho & _ & Ht & (Hreq & Htok & _)%budget_reason_none & _ & ->).
    rewrite Hday in Hreq, Htok. destruct Hw as (_ & _ & Hpos). unfold projected_usage in *. simpl in *.
    assert (daily (set_reservations (<[rs_reservation_id r:=r]> (fl_reservations l)) l) d = daily l d) as Hd by done.
    unfold within_day. rewrite Hd. simpl in *. rewrite !lenZ_sum in *.
    pose proof (sum_insert_le rs_estimated_tokens (fl_reservations l) (rs_reservation_id r) r) as H1.
    pose proof (sum_insert_le (fun _ => 1) (fl_reservations l) (rs_reservation_id r) r) as H2.
    simpl in *. split_and!.
    + specialize (H2 ltac:(lia)). lia.
    + ospecialize (H1 _); [|lia]. intros k' v' Hk. eapply Hpos, dict_lookup_elem, Hk.
    + intros k' r' [?|[_ ->]]%dict_insert_entries_inv; [eauto|lia].
  - eapply within_books; [|exact Hw]. by eapply authorize_err.
Qed.

Lemma within_record d res id model scope a u at_ l :
  op_on_day d l (OpRecord res id model scope a u at_) -> within_day d l ->
  within_day d (record_usage self res id model scope a u at_ l).2.
Proof.
  intros [Hday Hu] Hw. unfold record_usage, mbind, M_bind, lift, get_state, modify.
  destruct (utc at_ "occurred_at") as [t|] eqn:Ht; [|done]. apply utc_ok in Ht as [_ ->].
  destruct (fl_reservations l !! rs_reservation_id res) as [r|] eqn:Hr; [|done].
  specialize (Hu r eq_refl). destruct (within_delete d l _ r Hr Hw) as (Hw' & Hn & Ht).
  destruct (usage_cost self model scope u) as [cost|e]; [|done].
  destruct (fl_records l !! _) as [existing|] eqn:He.
  - unfold raise_if. by destruct (existing !=p _).
  - match goal with |- context [set_records ?d ?l] => set (l1 := set_records d l) end.
    assert (within_day d l1) as H1.
    { destruct Hw as (Hq & Hk & _), Hw' as (_ & _ & Hpos).
      unfold within_day, l1, daily in *. simpl in *.
      rewrite dict_values_insert_None, List.filter_app, lenZ_app, fmap_app, sumZ_app by done.
      simpl. unfold on_day at 2 4. simpl. rewrite Hday, Z.eqb_refl. simpl. unfold lenZ at 2. simpl.
      split_and!; [lia|lia|exact Hpos]. }
    eapply within_books in H1; [|apply (alerts_and_postcheck_books (at_utc (instant at_)))]. revert H1.
    by destruct (alerts_and_postcheck _ _ l1) as [[?|?] ?].
Qed.


(** An authorisation is within every budget: it is given only with the
    kill switch off, and then the day's requests, tokens and cost, with what is
    already reserved and the estimate of this call, are within the daily
    limits, every subscription window has room for one more request, and the
    ledger gains exactly the reservation returned. *)
Theorem authorize_within_budget model scope i o now l r l' :
  authorize self model scope i o now l = (Ok r, l') ->
  let today := date_of (at_utc (instant now)) in
  l.(fl_kill_switch) = false /\
  (daily l today).(du_requests) + lenZ (dict_values l.(fl_reservations)) + 1
    <= self.(fg_policy).(bp_daily_request_limit) /\
  (daily l today).(du_tokens) + sumZ (rs_estimated_tokens <$> dict_values l.(fl_reservations)) + (i + o)
    <= self.(fg_policy).(bp_daily_token_limit) /\
  dlt self.(fg_policy).(bp_daily_cost_limit_usd)
    (dadd (dadd (daily l today).(du_marginal_cost_usd) (reserved l).2) r.(rs_estimated_cost_usd)) = false /\
  (forall plan check, self.(fg_subscription) = Some plan -> check ∈ subscription_checks plan ->
     quota_admits (at_utc (instant now)) l check) /\
  r.(rs_estimated_tokens) = i + o /\
  l' = set_reservations (<[r.(rs_reservation_id) := r]> l.(fl_reservations)) l.
Proof.
  intros (_ & Hk & _ & _ & _ & Ht & (Hr & Htok & Hc)%budget_reason_none & Hsub & Hl)%authorize_spec.
  unfold projected_usage in *. simpl in *. by split_and!.
Qed.

(** ** The kill switch *)

Definition releases (op : FinOpsOp) : bool := match op with OpRelease _ _ => true | _ => false end.
Inductive unreleased (l : InMemoryFinOpsLedger) : InMemoryFinOpsLedger -> Prop :=
| unreleased_here : unreleased l l
| unreleased_op l' op : unreleased l l' -> releases op = false -> unreleased l (finops_run op l').

Definition stays_killed (l l' : InMemoryFinOpsLedger) : Prop :=
  l.(fl_kill_switch) = true -> l'.(fl_kill_switch) = true.
#[local] Instance stays_killed_preorder : PreOrder stays_killed.
Proof. split; [by intros l H | intros l1 l2 l3 H1 H2 H; by apply H2, H1]. Qed.

Lemma modify_killed f : (forall l, stays_killed l (f l)) -> preserves stays_killed (modify f).
Proof. intros H l. apply H. Qed.
Lemma add_alert_killed ty th ob now : preserves stays_killed (add_alert ty th ob now).
Proof. apply modify_killed. by intros l H. Qed.
#[local] Hint Resolve add_alert_killed : preserves.
Lemma kill_killed reason now : preserves stays_killed (kill reason now).
Proof. unfold kill. preserve. apply modify_killed. by intros l H. Qed.
#[local] Hint Resolve kill_killed : preserves.

Lemma finops_run_killed op l : releases op = false -> stays_killed l (finops_run op l).
Proof.
  destruct op; simpl; intros Hop; try done.
  - revert l. change (preserves stays_killed (authorize self model scope i o now)).
    unfold authorize, enforce_subscription. preserve. apply modify_killed. by intros l H.
  - revert l. change (preserves stays_killed (record_usage self res request_id model scope a u at_)).
    unfold record_usage, alerts_and_postcheck, when. preserve; apply modify_killed; by intros l H.
  - by intros H.
  - revert l. change (preserves stays_killed (set_kill_switch true reason now)).
    unfold set_kill_switch. preserve. apply modify_killed. by intros l H.
Qed.

Lemma unreleased_killed l l' : unreleased l l' -> stays_killed l l'.
Proof.
  induction 1 as [|l' op _ IH Hop]; [done|]. etransitivity; [exact IH | by apply finops_run_killed].
Qed.

Lemma kill_sets reason now l : (kill reason now l).2.(fl_kill_switch) = true.
Proof. done. Qed.

Lemma authorize_killed model scope i o now l :
  l.(fl_kill_switch) = true -> aware now = true -> 0 <= i -> 0 <= o ->
  authorize self model scope i o now l =
    (Err (PermissionError ("LLM spend kill-switch active: " +:+ str_opt l.(fl_kill_reason))), l).
Proof.
  intros Hk Haw Hi Ho. unfold authorize, mbind, M_bind, lift, get_state, raise_if.
  rewrite (proj2 (utc_ok _ _ _) (conj Haw eq_refl)). rewrite (proj2 (Z.ltb_ge _ _)) by lia. by rewrite Hk.
Qed.

(** Overspending stops the provider until a person releases it: when a
    newly recorded call takes its day over a budget, every later authorisation
    is refused and changes nothing, after any operations but a manual release. *)
Theorem overspend_blocks res id model scope a u at_ l r l' l'' reason model' scope' i o now :
  record_usage self res id model scope a u at_ l = (Ok r, l') ->
  l.(fl_records) !! r.(ur_record_id) = None ->
  budget_reason self (daily l' (date_of r.(ur_occurred_at))) = Some reason ->
  unreleased l' l'' ->
  aware now = true -> 0 <= i -> 0 <= o ->
  authorize self model' scope' i o now l'' =
    (Err (PermissionError ("LLM spend kill-switch active: " +:+ str_opt l''.(fl_kill_reason))), l'').
Proof.
  intros H Hnew Hb Hu Haw Hi Ho. apply authorize_killed; [|done..].
  apply (unreleased_killed _ _ Hu). clear Hu.
  unfold record_usage in H. apply M_bind_ok in H as (t & s1 & [_ ->]%lift_ok & H).
  apply M_bind_ok in H as (l0 & s2 & [= <- <-] & H).
  destruct (fl_reservations l !! _); [|done].
  apply M_bind_ok in H as (? & s3 & [= <- <-] & H).
  apply M_bind_ok in H as (cost & s4 & [_ ->]%lift_ok & H).
  destruct (fl_records l !! _) as [existing|] eqn:He.
  { apply M_bind_ok in H as (? & s5 & [E ->]%lift_ok & [= <- <-]).
    apply raise_if_ok, negb_false_iff in E.
    unfold py_eq, py_eq_UsageRecord in E. rewrite !andb_true_iff in E.
    destruct E as [[[[[[[[[Hid%String.eqb_eq _] _] _] _] _] _] _] _] _].
    by rewrite Hid, He in Hnew. }
  apply M_bind_ok in H as (? & s5 & [= <- <-] & H).
  apply M_bind_ok in H as ([] & s6 & H & [= <- <-]).
  pose proof (preserves_run _ _ _ _ _ (alerts_and_postcheck_books t) H) as Hbooks. simpl in Hb.
  rewrite (daily_books _ _ _ Hbooks) in Hb.
  unfold alerts_and_postcheck in H. apply M_bind_ok in H as (? & s7 & [= <- <-] & H).
  apply M_bind_ok in H as (ratios & s8 & [_ ->]%lift_ok & H).
  apply M_bind_ok in H as ([] & s9 & _ & H). rewrite Hb in H.
  by rewrite <-(kill_sets reason t s9), H.
Qed.
End GuardTheory.

Module FinOpsExample.

Definition tier : PriceTier := {|
  pt_model := "qwen-plus"; pt_deployment_scope := "intl"; pt_maximum_input_tokens := 128000;
  pt_input_usd_per_million := Dec 40 (-2); pt_cached_input_usd_per_million := Dec 8 (-2);
  pt_output_usd_per_million := Dec 120 (-2); pt_catalog_version := "2026-01" |}.
Definition guard : FinOpsGuard := {|
  fg_provider := "qwen";
  fg_billing_mode := PAYG;
  fg_policy := {| bp_daily_request_limit := 3; bp_daily_token_limit := 10000;
                  bp_daily_cost_limit_usd := Dec 5 (-3); bp_alert_thresholds := default_alert_thresholds |};
  fg_price_catalog := Some [tier];
  fg_subscription := Some {| sp_plan_id := "pro"; sp_monthly_fee_usd := Dec 50 0;
    sp_five_hour_request_limit := Some 10; sp_weekly_request_limit := None; sp_monthly_request_limit := None |} |}.
Definition t0 : Z := 1709208000 * second.
Definition noon : datetime := at_utc t0.
Definition later (s : Z) : datetime := at_utc (t0 + s * second).
Definition today : Z := date_of noon.
Definition attribution : Attribution := {| at_market := Some NSE; at_component := "review"; at_reason := "veto" |}.
Definition usage (i o : Z) : TokenUsage :=
  {| tu_input_tokens := i; tu_output_tokens := o; tu_cached_input_tokens := 0; tu_reasoning_tokens := 0 |}.

Local Abbreviation ask := (authorize guard "qwen-plus" "intl").
Definition reservation (out : result Reservation * InMemoryFinOpsLedger) : Reservation :=
  match out.1 with
  | Ok r => r
  | Err _ => {| rs_reservation_id := ""; rs_estimated_tokens := 0; rs_estimated_cost_usd := Dec 0 0; rs_created_at := noon |}
  end.
Local Abbreviation first := (ask 1000 500 noon empty_finops).
Local Abbreviation book res id u at_ l := (record_usage guard res id "qwen-plus" "intl" attribution u at_ l).
Local Abbreviation reserved_once := (finops_run guard (OpAuthorize "qwen-plus" "intl" 1000 500 noon) empty_finops).
Local Abbreviation booked := (finops_run guard (OpRecord (reservation first) "req-1" "qwen-plus" "intl" attribution
  (usage 900 400) (later 2)) reserved_once).

Lemma guard_valid : FinOpsGuard_init guard = Ok tt /\ BudgetPolicy_post_init guard.(fg_policy) = Ok tt /\
  PriceTier_post_init tier = Ok tt.
Proof. vm_compute. repeat split. Qed.

Lemma authorize_within_budget_witness :
  exists r, first = (Ok r, first.2) /\ r.(rs_estimated_tokens) = 1000 + 500 /\
    first.2 = set_reservations (<[r.(rs_reservation_id) := r]> ∅) empty_finops.
Proof.
  assert (H : first = (Ok (reservation first), first.2)) by (vm_compute; reflexivity).
  destruct (authorize_within_budget guard "qwen-plus" "intl" 1000 500 noon empty_finops _ _ H)
    as (_ & _ & _ & _ & _ & Ht & Hl).
  exists (reservation first). split; [exact H | split; [exact Ht | exact Hl]].
Defined.


(** A call that used far more than it reserved. *)
Local Abbreviation overspent := ( book (reservation first) "req-1" (usage 9000 4000) (later 2) first.2).
Lemma overspend_blocks_witness :
  exists msg, ask 1 1 (later 60) overspent.2 = (Err (PermissionError msg), overspent.2).
Proof.
  eexists.
  apply (overspend_blocks guard (reservation first) "req-1" "qwen-plus" "intl" attribution (usage 9000 4000) (later 2)
    first.2 (usage_record guard "req-1" "qwen-plus" "intl" attribution (usage 9000 4000)
      (Dec 84 (-4), Some "2026-01") (later 2)) overspent.2 overspent.2
    "daily LLM token budget exceeded" "qwen-plus" "intl" 1 1 (later 60)).
  - vm_compute. reflexivity.
  - vm_compute. reflexivity.
  - vm_compute. reflexivity.
  - apply unreleased_here.
  - reflexivity.
  - discriminate.
  - discriminate.
Defined.

(** A reservation's identity is the model, the scope, the time and a count.
    Two calls are reserved at one time, the first is cancelled, and the next
    reservation at that time has the second one's identity: it overwrites it,
    and of the two calls in flight only one can be recorded. *)
Definition second_call := ask 100 100 noon first.2.
Definition cancelled := (cancel (reservation first) second_call.2).2.
Definition third := ask 200 200 noon cancelled.
Lemma reservation_identity_reused :
  (reservation third).(rs_reservation_id) = (reservation second_call).(rs_reservation_id) /\
  lenZ (dict_values third.2.(fl_reservations)) = 1 /\
  (book (reservation third) "req-3" (usage 200 200) (later 9)
     (book (reservation second_call) "req-2" (usage 100 100) (later 8) third.2).2).1
    = Err (ValueError "unknown or already completed FinOps reservation").
Proof. vm_compute. repeat split; reflexivity. Qed.

(** A call that used more input tokens than any price tier covers is not
    recorded at all: the reservation is gone, the day shows no spend and the
    kill switch stays off. *)
Lemma untiered_usage_lost :
  let out := book (reservation first) "req-1" (usage 200000 500) (later 2) first.2 in
  is_ok out.1 = false /\ out.2.(fl_reservations) = ∅ /\
  (daily out.2 today).(du_requests) = 0 /\ out.2.(fl_kill_switch) = false.
Proof. vm_compute. repeat split; reflexivity. Qed.

End FinOpsExample.
