(* ===== verification/Qwen.v ===== *)
(** * The guarded language-model gateway (src/nanodelta/finops/qwen.py, runtime/llm_review.py)

    A call of the language model is authorised by the budget guard, sent, and
    its usage recorded; a call that raises gives its reservation back.  The
    answer is awaited, so between the authorisation and the end of a call
    other calls begin and end: [begin_call] and [finish_call] are the parts of
    a call around the await, and [traffic_step] lets any number of calls
    interleave.  The transport is a parameter; a cancelled await raises
    CancelledError, which [except Exception] does not catch.

    The reviewer of the decision pipeline asks the model about a candidate and
    answers with a verdict; whatever goes wrong is UNAVAILABLE.

    The theorems: every reservation on the ledger belongs to a call under way
    or to one that was cancelled; a call that returned is recorded under the
    request's identity; the reviewer never raises. *)

From Stdlib Require Import ZArith Lia Floats Ascii String ZifyBool.
From stdpp Require Import prelude strings numbers list.
From S2P Require Import Prelude PyData PyFloat FloatTheory PyText PyDigits PyParse PyJson PyDecimal Sha256 PyTime PyDate Contracts Adapters Realtime Registry StrategyRuntime Pipeline FinOps.

Local Open Scope Z_scope.

(** ** Values of a JSON object *)

(** [QwenFinOpsGateway.usage] *)
Definition detail_tokens (details : option json) (key : string) : result Z :=
  match details with Some (JObj d) => int_json (jget_default d key (JInt 0)) | _ => Ok 0 end.
Definition response_usage (response : payload) : result TokenUsage :=
  match jget "usage" response with
  | Some (JObj raw) =>
      cached ← detail_tokens (jget "prompt_tokens_details" raw) "cached_tokens";
      reasoning ← detail_tokens (jget "completion_tokens_details" raw) "reasoning_tokens";
      input ← int_json (jget_default raw "prompt_tokens" (JInt 0));
      output ← int_json (jget_default raw "completion_tokens" (JInt 0));
      let usage := {| tu_input_tokens := input; tu_output_tokens := output; tu_cached_input_tokens := cached; tu_reasoning_tokens := reasoning |} in
      _ ← TokenUsage_post_init usage;
      mret usage
  | _ => Err (ValueError "Qwen response is missing token usage")
  end.
Definition request_id (response : payload) : string := str_strip (str_json (jget_default response "id" (JStr ""))).

(** ** A call *)

Abbreviation Ledger := InMemoryFinOpsLedger.

(** [except Exception: handler; raise] *)
Definition on_exception {S A} (m : M S A) (handler : M S unit) : M S A := fun s =>
  match m s with
  | (Ok a, s') => (Ok a, s')
  | (Err e, s') => if is_cancelled e then (Err e, s') else (_ ← handler; raise e) s'
  end.

Record InFlight := { if_model : string; if_reservation : Reservation; if_attribution : Attribution }.

Section Gateway.
Context (guard : FinOpsGuard) (deployment_scope : string).

(** [complete] up to the await *)
Definition begin_call (body : payload) (attribution : Attribution) (estimated_input_tokens : Z) (now : datetime) : M Ledger InFlight :=
  _ ← lift (raise_if (match jget "stream" body with Some (JBool true) => true | _ => false end)
             (ValueError "streaming Qwen calls require a usage-aware stream adapter"));
  let model := str_strip (str_json (jget_default body "model" (JStr ""))) in
  _ ← lift (raise_if (str_empty model) (ValueError "Qwen model is required"));
  maximum_output ← lift (int_json (jget_default body "max_completion_tokens" (jget_default body "max_tokens" (JInt 0))));
  _ ← lift (raise_if (maximum_output <? 1) (ValueError "max_completion_tokens is required for bounded Qwen FinOps authorization"));
  reservation ← authorize guard model deployment_scope estimated_input_tokens maximum_output now;
  mret {| if_model := model; if_reservation := reservation; if_attribution := attribution |}.

(** [complete] from the await on; [outcome] is what it gave. *)
Definition settle_call (call : InFlight) (outcome : result payload) (now : datetime) : M Ledger payload :=
  response ← lift outcome;
  usage ← lift (response_usage response);
  _ ← lift (raise_if (str_empty (request_id response)) (ValueError "Qwen response is missing request ID"));
  _ ← record_usage guard call.(if_reservation) (request_id response) call.(if_model) deployment_scope call.(if_attribution) usage now;
  mret response.
Definition finish_call (call : InFlight) (outcome : result payload) (now : datetime) : M Ledger payload :=
  on_exception (settle_call call outcome now) (cancel call.(if_reservation)).

(** [QwenFinOpsGateway.complete]: the transport may take time in which the
    ledger changes, and raise. *)
Definition complete_call (transport : payload -> M Ledger (result payload)) (body : payload) (attribution : Attribution)
    (estimated_input_tokens : Z) (began ended : datetime) : M Ledger payload :=
  call ← begin_call body attribution estimated_input_tokens began;
  outcome ← transport body;
  finish_call call outcome ended.

(** ** QwenCandidateReviewer *)

(** [format(x, ".nf")]: the exact value rounded half to even *)
Definition round_half_even (a b : Z) : Z :=
  let q := a / b in let r := a mod b in
  if 2 * r <? b then q else if b <? 2 * r then q + 1 else if Z.even q then q else q + 1.
Definition pad_zeros (n : nat) (s : string) : string := String.concat "" (repeat "0" (n - String.length s)) +:+ s.
Definition format_fixed (n : nat) (x : float) : string :=
  if fnan x then "nan"
  else
    let sign := if get_sign x then "-" else "" in
    if is_infinity x then sign +:+ "inf"
    else
      let q := round_half_even (Z.abs (fval x) * 10 ^ Z.of_nat n) (2 ^ 1074) in
      sign +:+ str_Z (q / 10 ^ Z.of_nat n) +:+ "." +:+ pad_zeros n (str_Z (q mod 10 ^ Z.of_nat n)).

Fixpoint str_in (needle s : string) : bool :=
  String.prefix needle s || match s with EmptyString => false | String _ s => str_in needle s end.

Record Reviewer := { rv_model : string; rv_max_output_tokens : Z }.

Definition review_prompt (candidate : ScoredCandidate) : string :=
  let signal := candidate.(sc_candidate).(ca_signal) in
  "NSE paper-trading candidate: symbol " +:+ candidate.(sc_candidate).(ca_symbol) +:+
  ", proposed " +:+ AdvisoryAction_value signal.(sg_action) +:+ " at " +:+ repr_float signal.(sg_reference_price) +:+
  ", stop " +:+ repr_float signal.(sg_stop_price) +:+ ", target " +:+ repr_float signal.(sg_target_price) +:+
  ", strategy confidence " +:+ format_fixed 2 signal.(sg_confidence) +:+
  ", expected_r " +:+ format_fixed 3 candidate.(sc_score).(sb_expected_r_net_of_costs) +:+
  ". Reply with exactly one word: PASS, BLOCK, or ABSTAIN.".
Definition review_body (self : Reviewer) (candidate : ScoredCandidate) : payload := [
  ("model", JStr self.(rv_model));
  ("messages", JArr [JObj [("role", JStr "user"); ("content", JStr (review_prompt candidate))]]);
  ("max_completion_tokens", JInt self.(rv_max_output_tokens))].

Definition content_verdict (content : string) : LlmVerdict :=
  if str_in "BLOCK" content then BLOCK
  else if str_in "ABSTAIN" content then VERDICT_ABSTAIN
  else if str_in "PASS" content then PASS
  else UNAVAILABLE.
Definition response_verdict (response : payload) : result LlmVerdict :=
  match jget "choices" response with
  | Some (JArr (first :: _)) =>
      let message := match first with JObj c => jget_default c "message" (JObj []) | _ => JObj [] end in
      match message with
      | JObj m => mret (content_verdict (str_upper (str_strip (str_json (jget_default m "content" (JStr ""))))))
      | _ => Err (OtherException "AttributeError" "object has no attribute 'get'")
      end
  | _ => mret UNAVAILABLE
  end.

(** [_review_async] *)
Definition review_async (self : Reviewer) (transport : payload -> M Ledger (result payload)) (candidate : ScoredCandidate) (began ended : datetime)
  : M Ledger LlmVerdict :=
  let attribution := {| at_market := Some candidate.(sc_candidate).(ca_identity).(si_market); at_component := "paper-decision-review"; at_reason := "shadow-review" |} in
  response ← complete_call transport (review_body self candidate) attribution 200 began ended;
  lift (response_verdict response).

(** [asyncio.wait_for]: the deadline cancels the review and raises TimeoutError. *)
Definition wait_for {A} (m : M Ledger A) : M Ledger A := fun l =>
  match m l with
  | (Err e, l') => (Err (if is_cancelled e then OtherException "TimeoutError" "" else e), l')
  | r => r
  end.
(** [review] *)
Definition review (self : Reviewer) (transport : payload -> M Ledger (result payload)) (candidate : ScoredCandidate) (began ended : datetime)
  : M Ledger LlmVerdict := fun l =>
  match wait_for (review_async self transport candidate began ended) l with
  | (Ok v, l') => (Ok v, l')
  | (Err _, l') => (Ok UNAVAILABLE, l')
  end.
End Gateway.

(** ** Deleting from a dict, and what is never a cancellation *)

Lemma delete_wf {V} (d : dict string V) k : dict_wf d -> dict_wf (delete k d).
Proof.
  destruct d as [l]. unfold dict_wf, dict_keys, delete, dict_delete. cbn. induction l as [|[k' v] l IH]; cbn; [done|].
  intros [Hn Hd]%NoDup_cons. case_decide; [done|]. cbn. apply NoDup_cons. split; [|by apply IH].
  intros ([k2 v2] & -> & Hin)%list_elem_of_fmap. apply Hn. apply (delete_entries (Dict l)) in Hin. by apply (list_elem_of_fmap_2 fst l (k2, v2)).
Qed.
Lemma delete_lookup {V} (d : dict string V) k : dict_wf d -> delete k d !! k = None.
Proof.
  destruct d as [l]. unfold dict_wf, dict_keys, delete, dict_delete, lookup, dict_lookup. cbn. induction l as [|[k' v] l IH]; cbn; [done|].
  intros [Hn Hd]%NoDup_cons. case_decide as E; cbn; [subst|by rewrite decide_False; [apply IH|]].
  apply (dict_lookup_None_keys (Dict l)). exact Hn.
Qed.
Lemma delete_lookup_inv {V} (d : dict string V) k k' v : dict_wf d -> delete k d !! k' = Some v -> d !! k' = Some v.
Proof. intros Hwf H. apply dict_elem_lookup; [done|]. by apply dict_lookup_elem, delete_entries in H. Qed.

Definition uncancelled (e : exn) : Prop := is_cancelled e = false.
#[local] Hint Extern 1 (uncancelled _) => reflexivity : raises.
Lemma int_json_uncancelled v : raises_only uncancelled (int_json v).
Proof. unfold int_json, int_of_float, py_int_str. raising; reflexivity. Qed.
Lemma response_usage_uncancelled response e : response_usage response = Err e -> is_cancelled e = false.
Proof.
  intros H. assert (Hr : raises_only uncancelled (response_usage response)); [|by rewrite H in Hr].
  unfold response_usage, detail_tokens, TokenUsage_post_init. raising; first [apply int_json_uncancelled|reflexivity].
Qed.
Lemma ddiv_uncancelled a b : raises_only uncancelled (ddiv a b).
Proof. unfold ddiv. raising; unfold uncancelled; by destruct (dcoef a =? 0). Qed.
Lemma usage_cost_uncancelled guard model scope usage : raises_only uncancelled (usage_cost guard model scope usage).
Proof. unfold usage_cost, catalog_tier, tier_cost. raising; first [apply ddiv_uncancelled|reflexivity]. Qed.
Lemma alert_ratios_uncancelled guard usage : raises_only uncancelled (alert_ratios guard usage).
Proof. unfold alert_ratios. raising; first [apply ddiv_uncancelled|reflexivity]. Qed.
Lemma for_each_ok {S A} (l : list A) (body : A -> M S unit) : (forall x s, is_ok (body x s).1 = true) -> forall s, is_ok (for_each l body s).1 = true.
Proof.
  intros Hb. induction l as [|x l IH]; intros s; [done|]. cbn. unfold mbind, M_bind. specialize (Hb x s). destruct (body x s) as [[[]|e] s']; [apply IH|done].
Qed.
Lemma alerts_uncancelled guard now l e l' : alerts_and_postcheck guard now l = (Err e, l') -> is_cancelled e = false.
Proof.
  unfold alerts_and_postcheck, mbind, M_bind, get_state, lift. pose proof (alert_ratios_uncancelled guard (daily l (date_of now))) as Hr.
  destruct (alert_ratios _ _) as [ratios|e0]; [|by intros [= <- _]].
  match goal with |- context [for_each ratios ?b l] => pose proof (for_each_ok ratios b) as Hf end.
  assert (Hok : forall s, is_ok (for_each ratios (fun '(alert_type, ratio) => for_each guard.(fg_policy).(bp_alert_thresholds) (fun threshold =>
          when (dle threshold ratio) (add_alert alert_type threshold ratio now))) s).1 = true).
  { apply Hf. intros [ty ratio] s. apply for_each_ok. intros th s'. by destruct (dle th ratio). }
  specialize (Hok l). destruct (for_each ratios _ l) as [[[]|e0] l1]; [|done]. by destruct (budget_reason _ _).
Qed.
Lemma record_uncancelled guard res id model scope a u at_ l e l' : record_usage guard res id model scope a u at_ l = (Err e, l') -> is_cancelled e = false.
Proof.
  unfold record_usage, mbind, M_bind, lift, get_state, modify, utc. destruct (utcoffset at_); [|by intros [= <- _]]. cbn.
  destruct (fl_reservations l !! rs_reservation_id res) as [r|]; [|by intros [= <- _]].
  pose proof (usage_cost_uncancelled guard model scope u) as Hc. destruct (usage_cost guard model scope u) as [cost|e0]; [|by intros [= <- _]].
  destruct (fl_records l !! _) as [existing|].
  - unfold raise_if. destruct (existing !=p _); [by intros [= <- _]|done].
  - destruct (alerts_and_postcheck _ _ _) as [[[]|e0] l2] eqn:Ea; [done|]. intros [= <- _]. by apply alerts_uncancelled in Ea.
Qed.

(** ** Calls that interleave *)

Section Traffic.
Context (guard : FinOpsGuard) (deployment_scope : string).

Record Traffic := { tr_ledger : Ledger; tr_calls : list InFlight; tr_cancelled : list InFlight }.

Inductive traffic_step (s : Traffic) : Traffic -> Prop :=
| call_begins body attribution i now call l :
    begin_call guard deployment_scope body attribution i now s.(tr_ledger) = (Ok call, l) ->
    traffic_step s {| tr_ledger := l; tr_calls := s.(tr_calls) ++ [call]; tr_cancelled := s.(tr_cancelled) |}
| call_refused body attribution i now e l :
    begin_call guard deployment_scope body attribution i now s.(tr_ledger) = (Err e, l) ->
    traffic_step s {| tr_ledger := l; tr_calls := s.(tr_calls); tr_cancelled := s.(tr_cancelled) |}
| call_ends before call after outcome now : s.(tr_calls) = before ++ call :: after ->
    (forall e, outcome = Err e -> is_cancelled e = false) ->
    traffic_step s {| tr_ledger := (finish_call guard deployment_scope call outcome now s.(tr_ledger)).2;
                      tr_calls := before ++ after; tr_cancelled := s.(tr_cancelled) |}
| call_cancelled before call after e now : s.(tr_calls) = before ++ call :: after -> is_cancelled e = true ->
    traffic_step s {| tr_ledger := (finish_call guard deployment_scope call (Err e) now s.(tr_ledger)).2;
                      tr_calls := before ++ after; tr_cancelled := s.(tr_cancelled) ++ [call] |}
| switch_turned active reason now :
    traffic_step s {| tr_ledger := (set_kill_switch active reason now s.(tr_ledger)).2; tr_calls := s.(tr_calls); tr_cancelled := s.(tr_cancelled) |}.

Definition idle (l : Ledger) : Traffic := {| tr_ledger := l; tr_calls := []; tr_cancelled := [] |}.

(** Every reservation is some call's. *)
Definition accounted (s : Traffic) : Prop :=
  forall k r, s.(tr_ledger).(fl_reservations) !! k = Some r ->
    exists call, call ∈ s.(tr_calls) ++ s.(tr_cancelled) /\ call.(if_reservation).(rs_reservation_id) = k.

Lemma begin_call_effect body attribution i now l :
  match begin_call guard deployment_scope body attribution i now l with
  | (Ok call, l') => l' = set_reservations (<[call.(if_reservation).(rs_reservation_id) := call.(if_reservation)]> l.(fl_reservations)) l
  | (Err _, l') => same_books l l'
  end.
Proof.
  unfold begin_call, mbind, M_bind, lift. destruct (raise_if _ _); [|done]. destruct (raise_if _ _); [|done].
  destruct (int_json _) as [n|]; [|done]. destruct (raise_if _ _); [|done].
  destruct (authorize _ _ _ _ _ _ _) as [[r|e] l'] eqn:E; [|by apply authorize_err in E].
  by apply authorize_spec in E as (_ & _ & _ & _ & _ & _ & _ & _ & ->).
Qed.

Lemma record_reservations res id model scope a u at_ l :
  match record_usage guard res id model scope a u at_ l with
  | (Ok r, l') => l'.(fl_reservations) = delete res.(rs_reservation_id) l.(fl_reservations) /\
      l'.(fl_records) !! stable_id [guard.(fg_provider); id] = Some r /\ r.(ur_usage) = u /\ r.(ur_attribution) = a /\ r.(ur_model) = model
  | (Err _, l') => l'.(fl_reservations) = l.(fl_reservations) \/ l'.(fl_reservations) = delete res.(rs_reservation_id) l.(fl_reservations)
  end.
Proof.
  unfold record_usage, mbind, M_bind, lift, get_state, modify. destruct (utc at_ "occurred_at") as [t|]; [|by left].
  destruct (fl_reservations l !! rs_reservation_id res) as [r|]; [|by left].
  destruct (usage_cost guard model scope u) as [cost|e]; [|by right]. cbn [ur_record_id usage_record].
  destruct (fl_records l !! _) as [existing|] eqn:He.
  - unfold raise_if. destruct (existing !=p _) eqn:Ee; [by right|]. split; [done|]. split; [done|].
    unfold py_ne, py_eq, py_eq_UsageRecord in Ee. apply negb_false_iff in Ee. rewrite !andb_true_iff, !bool_decide_eq_true in Ee.
    destruct Ee as [[[[[[[[[_ _] Hm] _] _] Ha] Hu] _] _] _]. apply (proj1 (py_eq_true _ _)) in Hm. done.
  - match goal with |- context [set_records ?d ?l] => set (l1 := set_records d l) end.
    pose proof (alerts_and_postcheck_books guard t l1) as [Hr Hs]. destruct (alerts_and_postcheck guard t l1) as [[[]|e] l2]; cbn in *.
    + rewrite Hs, Hr. split; [done|]. split; [apply dict_lookup_insert_eq|done].
    + right. by rewrite Hs.
Qed.

Lemma settle_call_effect call outcome now l :
  match settle_call guard deployment_scope call outcome now l with
  | (Ok response, l') => outcome = Ok response /\ l'.(fl_reservations) = delete call.(if_reservation).(rs_reservation_id) l.(fl_reservations) /\
      exists usage r, response_usage response = Ok usage /\ str_empty (request_id response) = false /\
        l'.(fl_records) !! stable_id [guard.(fg_provider); request_id response] = Some r /\
        r.(ur_usage) = usage /\ r.(ur_attribution) = call.(if_attribution) /\ r.(ur_model) = call.(if_model)
  | (Err e, l') => (is_cancelled e = true -> outcome = Err e /\ l' = l) /\
      (l'.(fl_reservations) = l.(fl_reservations) \/ l'.(fl_reservations) = delete call.(if_reservation).(rs_reservation_id) l.(fl_reservations))
  end.
Proof.
  unfold settle_call, mbind, M_bind, lift. destruct outcome as [response|e]; [|auto].
  pose proof (response_usage_uncancelled response) as Hu. destruct (response_usage response) as [usage|e] eqn:Eu; [|split; [by rewrite (Hu e eq_refl)|by left]].
  destruct (raise_if _ _) as [u|e] eqn:Er; [|apply raise_if_err in Er as [_ <-]; split; [done|by left]]. apply raise_if_ok in Er.
  pose proof (record_reservations call.(if_reservation) (request_id response) call.(if_model) deployment_scope call.(if_attribution) usage now l) as H.
  pose proof (record_uncancelled guard call.(if_reservation) (request_id response) call.(if_model) deployment_scope call.(if_attribution) usage now l) as Hc.
  destruct (record_usage _ _ _ _ _ _ _ _ _) as [[r|e] l']; cbn in *; [|split; [by rewrite (Hc e l' eq_refl)|done]].
  destruct H as (Hr & Hl & H1 & H2 & H3). split; [done|]. split; [done|]. exists usage, r. done.
Qed.

(** A call that was not cancelled has no reservation left. *)
Lemma finish_call_releases call outcome now l : dict_wf l.(fl_reservations) -> (forall e, outcome = Err e -> is_cancelled e = false) ->
  let l' := (finish_call guard deployment_scope call outcome now l).2 in
  dict_wf l'.(fl_reservations) /\ l'.(fl_reservations) !! call.(if_reservation).(rs_reservation_id) = None /\
  (forall k r, l'.(fl_reservations) !! k = Some r -> l.(fl_reservations) !! k = Some r).
Proof.
  intros Hwf Ho l'. subst l'. pose proof (settle_call_effect call outcome now l) as H. unfold finish_call, on_exception.
  destruct (settle_call _ _ _ _ _ _) as [[response|e] l']; cbn [snd].
  - destruct H as (_ & -> & _). split; [by apply delete_wf|]. split; [by apply delete_lookup|]. intros k r. by apply delete_lookup_inv.
  - destruct H as [Hc Hr]. destruct (is_cancelled e) eqn:E; [destruct (Hc eq_refl) as [-> _]; by rewrite (Ho e eq_refl) in E|].
    unfold mbind, M_bind, cancel, modify. cbn [snd fl_reservations set_reservations]. destruct Hr as [->| ->].
    + split; [by apply delete_wf|]. split; [by apply delete_lookup|]. intros k r. by apply delete_lookup_inv.
    + split; [by do 2 apply delete_wf|]. split; [by apply delete_lookup, delete_wf|]. intros k r H. apply delete_lookup_inv in H; [|by apply delete_wf].
      by apply delete_lookup_inv in H.
Qed.
Lemma finish_call_cancelled call e now l : is_cancelled e = true -> finish_call guard deployment_scope call (Err e) now l = (Err e, l).
Proof. intros H. unfold finish_call, on_exception, settle_call, mbind, M_bind, lift. by rewrite H. Qed.

Definition traffic_ok (s : Traffic) : Prop := dict_wf s.(tr_ledger).(fl_reservations) /\ accounted s.

Lemma traffic_step_ok s s' : traffic_step s s' -> traffic_ok s -> traffic_ok s'.
Proof.
  intros Hs [Hwf Ha]. destruct Hs as [body a i now call l H|body a i now e l H|before call after outcome now Hc Ho|before call after e now Hc He|active reason now].
  - pose proof (begin_call_effect body a i now s.(tr_ledger)) as Hb. rewrite H in Hb. subst l. split; cbn; [by apply dict_wf_insert|].
    intros k r. cbn. rewrite dict_lookup_insert. case_decide as E.
    + intros _. exists call. split; [set_solver|done].
    + intros (c & Hin & Hk)%Ha. exists c. split; [set_solver|done].
  - pose proof (begin_call_effect body a i now s.(tr_ledger)) as Hb. rewrite H in Hb. destruct Hb as [_ Hb]. split; cbn; [by rewrite Hb|].
    intros k r. cbn. rewrite Hb. apply Ha.
  - destruct (finish_call_releases call outcome now s.(tr_ledger) Hwf Ho) as (Hw & Hn & Hsub). split; [done|]. intros k r. cbn. intros Hk.
    destruct (Ha k r (Hsub _ _ Hk)) as (c & Hin & <-). exists c. split; [|done]. rewrite Hc in Hin.
    assert (c <> call) by (intros ->; congruence). set_solver.
  - rewrite finish_call_cancelled by done. split; [done|]. intros k r Hk. destruct (Ha k r Hk) as (c & Hin & <-). exists c. split; [|done].
    cbn. rewrite Hc in Hin. set_solver.
  - pose proof (set_kill_switch_books active reason now s.(tr_ledger)) as [_ Hb]. split; cbn; [by rewrite Hb|]. intros k r. cbn. rewrite Hb. apply Ha.
Qed.

(** C22. Reservations are accounted for.  However calls interleave, from a
    ledger without reservations, every reservation on the ledger is that of a
    call still under way or of one that was cancelled; so when every call has
    ended and none was cancelled the ledger holds no reservation, whatever
    the transports answered or raised. *)
Theorem reservations_accounted l s : l.(fl_reservations) = ∅ -> rtc traffic_step (idle l) s ->
  (forall k r, s.(tr_ledger).(fl_reservations) !! k = Some r ->
     exists call, call ∈ (s.(tr_calls) ++ s.(tr_cancelled)) /\ call.(if_reservation).(rs_reservation_id) = k) /\
  (s.(tr_calls) = [] -> s.(tr_cancelled) = [] -> s.(tr_ledger).(fl_reservations) = ∅).
Proof.
  intros Hl H. assert (Hok : traffic_ok s).
  { assert (H0 : traffic_ok (idle l)). { split; cbn; [rewrite Hl; constructor|]. intros k r. cbn [idle tr_ledger]. by rewrite Hl. }
    revert H0. induction H as [|x y z Hxy _ IH]; [done|]. intros Hx. apply IH. by eapply traffic_step_ok. }
  destruct Hok as [_ Ha]. split; [exact Ha|]. intros Hc Hx. destruct (fl_reservations (tr_ledger s)) as [[|[k r] rest]] eqn:E; [done|].
  destruct (Ha k r) as (c & Hin & _); [rewrite E; unfold lookup, dict_lookup; cbn; by rewrite decide_True|]. rewrite Hc, Hx in Hin. by apply elem_of_nil in Hin.
Qed.

Lemma recorded_of_call transport body attribution i began ended l response l' :
  complete_call guard deployment_scope transport body attribution i began ended l = (Ok response, l') ->
  exists usage r, response_usage response = Ok usage /\ str_empty (request_id response) = false /\
    l'.(fl_records) !! stable_id [guard.(fg_provider); request_id response] = Some r /\ r.(ur_usage) = usage /\ r.(ur_attribution) = attribution.
Proof.
  unfold complete_call, mbind, M_bind. destruct (begin_call _ _ _ _ _ _ _) as [[call|e] l1] eqn:Eb; [|done].
  destruct (transport body l1) as [[outcome|e] l2]; [|done]. unfold finish_call, on_exception.
  pose proof (settle_call_effect call outcome ended l2) as H. destruct (settle_call _ _ _ _ _ _) as [[x|e] l3].
  - intros [= <- <-]. destruct H as (_ & _ & usage & r & H1 & H2 & H3 & H4 & H5 & _). exists usage, r. rewrite H5.
    unfold begin_call in Eb. inv_ok Eb. by subst call.
  - destruct (is_cancelled e); done.
Qed.
(** A call that returned: its answer's usage is recorded under the
    provider and the request, attributed as asked; its reservation is gone. *)
Theorem completed_call_recorded transport body attribution i began ended l response l' :
  complete_call guard deployment_scope transport body attribution i began ended l = (Ok response, l') ->
  exists usage r, response_usage response = Ok usage /\ str_empty (request_id response) = false /\
    l'.(fl_records) !! stable_id [guard.(fg_provider); request_id response] = Some r /\ r.(ur_usage) = usage /\ r.(ur_attribution) = attribution.
Proof. apply recorded_of_call. Qed.
End Traffic.

(** A review always answers.  A verdict other than UNAVAILABLE is the
    recorded answer's: the model's text contains the word, BLOCK before
    ABSTAIN before PASS. *)
Theorem review_never_raises guard scope self transport candidate began ended l :
  exists v l', review guard scope self transport candidate began ended l = (Ok v, l') /\
    (v <> UNAVAILABLE -> exists response usage r, response_verdict response = Ok v /\ response_usage response = Ok usage /\
       l'.(fl_records) !! stable_id [guard.(fg_provider); request_id response] = Some r /\ r.(ur_usage) = usage).
Proof.
  unfold review, wait_for. destruct (review_async guard scope self transport candidate began ended l) as [[v|e] l'] eqn:E; [|by eexists _, _].
  exists v, l'. split; [done|]. intros _. unfold review_async in E. apply M_bind_ok in E as (response & l1 & Hc & [Hv <-]%lift_ok).
  apply recorded_of_call in Hc as (usage & r & H1 & _ & H2 & H3 & _). by exists response, usage, r.
Qed.

(** ** Examples *)

Module QwenExample.

Definition guard : FinOpsGuard := {|
  fg_provider := "qwen"; fg_billing_mode := SUBSCRIPTION;
  fg_policy := {| bp_daily_request_limit := 2; bp_daily_token_limit := 100000; bp_daily_cost_limit_usd := Dec 5 0;
                  bp_alert_thresholds := default_alert_thresholds |};
  fg_price_catalog := None;
  fg_subscription := Some {| sp_plan_id := "pro"; sp_monthly_fee_usd := Dec 50 0;
    sp_five_hour_request_limit := None; sp_weekly_request_limit := None; sp_monthly_request_limit := None |} |}.
Definition at_second (s : Z) : datetime := at_utc ((1709208000 + s) * second).
Definition attribution : Attribution := {| at_market := Some NSE; at_component := "review"; at_reason := "shadow" |}.
Definition answer (text : string) : payload := [
  ("id", JStr "req-1"); ("choices", JArr [JObj [("message", JObj [("content", JStr text)])]]);
  ("usage", JObj [("prompt_tokens", JInt 120); ("completion_tokens", JInt 1); ("prompt_tokens_details", JObj [("cached_tokens", JInt 20)])])].
Definition body : payload := [("model", JStr " qwen-plus "); ("max_tokens", JInt 16)].

Definition signal : StrategySignal := {|
  sg_action := BUY; sg_confidence := 0.625; sg_reference_price := 2500; sg_stop_price := 2480; sg_target_price := 2560;
  sg_estimated_cost_r := 0.125; sg_historical_expectancy_r := 0.25; sg_ml_tilt_r := 0 |}.
Definition candidate : ScoredCandidate := score_of {|
  ca_candidate_id := "c1"; ca_identity := {| si_market := NSE; si_strategy_id := "orb"; si_strategy_version := "1"; si_timeframe := "5m";
    si_trade_horizon := "intraday"; si_feature_set_version := 1 |};
  ca_approval_id := "a1"; ca_symbol := "RELIANCE"; ca_sector := None; ca_event_time := at_second 0; ca_gold_snapshot_ids := [];
  ca_signal := signal; ca_regime := default_RegimeEvidence |}.
Definition reviewer : Reviewer := {| rv_model := "qwen-plus"; rv_max_output_tokens := 16 |}.
Definition answering (text : string) : payload -> M Ledger (result payload) := fun _ => mret (Ok (answer text)).
(** The deadline passes during the request. *)
Definition timing_out : payload -> M Ledger (result payload) := fun _ => mret (Err (OtherException "CancelledError" "")).

Example prompt_text : review_prompt candidate =
  "NSE paper-trading candidate: symbol RELIANCE, proposed BUY at 2500.0, stop 2480.0, target 2560.0, strategy confidence 0.62, expected_r 0.750. Reply with exactly one word: PASS, BLOCK, or ABSTAIN.".
Proof. vm_compute. reflexivity. Qed.
Example verdicts :
  (fun text => (review guard "intl" reviewer (answering text) candidate (at_second 0) (at_second 1) empty_finops).1) <$>
    ["pass"; " Abstain."; "I would block, not pass"; "maybe"] = [Ok PASS; Ok VERDICT_ABSTAIN; Ok BLOCK; Ok UNAVAILABLE].
Proof. vm_compute. reflexivity. Qed.

(** Two calls that overlap, one answered and one failed. *)
Definition first_call := begin_call guard "intl" body attribution 200 (at_second 0) empty_finops.
Definition call_of (out : result InFlight * Ledger) : InFlight :=
  match out.1 with
  | Ok c => c
  | Err _ => {| if_model := ""; if_reservation := {| rs_reservation_id := ""; rs_estimated_tokens := 0; rs_estimated_cost_usd := Dec 0 0; rs_created_at := at_second 0 |};
                if_attribution := attribution |}
  end.
Definition second_call := begin_call guard "intl" body attribution 200 (at_second 1) first_call.2.
Definition first_ended := (finish_call guard "intl" (call_of first_call) (Ok (answer "PASS")) (at_second 2) second_call.2).2.
Definition both_ended := (finish_call guard "intl" (call_of second_call) (Err (OtherException "HTTPStatusError" "502")) (at_second 3) first_ended).2.

Lemma reservations_accounted_witness :
  lenZ (dict_values second_call.2.(fl_reservations)) = 2 /\ both_ended.(fl_reservations) = ∅.
Proof.
  split; [vm_compute; reflexivity|].
  assert (H : rtc (traffic_step guard "intl") (idle empty_finops) {| tr_ledger := both_ended; tr_calls := []; tr_cancelled := [] |}).
  { eapply rtc_l; [apply (call_begins guard "intl" _ body attribution 200 (at_second 0) (call_of first_call) first_call.2); vm_compute; reflexivity|].
    eapply rtc_l; [apply (call_begins guard "intl" _ body attribution 200 (at_second 1) (call_of second_call) second_call.2); vm_compute; reflexivity|].
    eapply rtc_l; [apply (call_ends guard "intl" _ [] (call_of first_call) [call_of second_call] (Ok (answer "PASS")) (at_second 2)); [reflexivity|by intros ? [=]]|].
    eapply rtc_l; [apply (call_ends guard "intl" _ [] (call_of second_call) [] (Err (OtherException "HTTPStatusError" "502")) (at_second 3)); [reflexivity|by intros ? [= <-]]|].
    reflexivity. }
  apply (reservations_accounted guard "intl" empty_finops _ eq_refl H); reflexivity.
Defined.

Lemma completed_call_recorded_witness :
  exists usage r l', complete_call guard "intl" (answering "PASS") body attribution 200 (at_second 0) (at_second 1) empty_finops = (Ok (answer "PASS"), l') /\
    l'.(fl_records) !! stable_id ["qwen"; "req-1"] = Some r /\ r.(ur_usage) = usage /\ usage.(tu_cached_input_tokens) = 20.
Proof.
  set (out := complete_call guard "intl" (answering "PASS") body attribution 200 (at_second 0) (at_second 1) empty_finops).
  assert (H : out = (Ok (answer "PASS"), out.2)) by (vm_compute; reflexivity).
  destruct (completed_call_recorded guard "intl" (answering "PASS") body attribution 200 (at_second 0) (at_second 1) empty_finops (answer "PASS") out.2 H)
    as (usage & r & Hu & _ & Hr & He & _).
  exists usage, r, out.2. split; [exact H|]. split; [exact Hr|]. split; [exact He|]. assert (E : response_usage (answer "PASS") = Ok usage) by exact Hu.
  vm_compute in E. injection E as <-. reflexivity.
Defined.

(** A review that times out keeps its reservation for good: with a daily limit
    of two requests the third review turns the spend kill switch on, though no
    request was ever recorded. *)
Definition timed_out (s : Z) (l : Ledger) : Ledger :=
  (review guard "intl" reviewer timing_out candidate (at_second s) (at_second (s + 8)) l).2.
Definition after_three : Ledger := timed_out 20 (timed_out 10 (timed_out 0 empty_finops)).
Example timeouts_exhaust_budget :
  entries after_three.(fl_records) = [] /\ lenZ (dict_values after_three.(fl_reservations)) = 2 /\
  after_three.(fl_kill_switch) = true /\ after_three.(fl_kill_reason) = Some "daily LLM request budget exceeded".
Proof. vm_compute. by repeat split. Qed.

End QwenExample.
