(* ===== verification/Technical.v ===== *)
(** * Technical features (src/nanodelta/strategies/technical_features.py)

    The indicators the strategies read, computed from settled candles, and the
    property the module promises: no snapshot depends on a later candle. *)

From Stdlib Require Import ZArith Lia ZifyBool Floats.
From stdpp Require Import prelude strings numbers sorting list.
From S2P Require Import Prelude PyData PyFloat PyText PyTime FloatTheory.

Local Open Scope Z_scope.

Record TechnicalCandle := {
  tc_event_time : datetime;
  tc_open : float;
  tc_high : float;
  tc_low : float;
  tc_close : float;
  tc_volume : float;
  tc_settled : bool }.
Definition TechnicalCandle_post_init (c : TechnicalCandle) : result unit :=
  _ ← raise_if (negb (aware c.(tc_event_time))) (ValueError "technical candle timestamp must be timezone-aware");
  _ ← raise_if ((c.(tc_open) <=? 0)%float || (c.(tc_close) <=? 0)%float || (c.(tc_low) <=? 0)%float
                || (c.(tc_high) <? c.(tc_low))%float)
        (ValueError "technical candle prices are invalid");
  _ ← raise_if ((c.(tc_high) <? fmax c.(tc_open) c.(tc_close))%float
                || (fgt c.(tc_low) (fmin c.(tc_open) c.(tc_close))))
        (ValueError "technical candle OHLC is inconsistent");
  raise_if (c.(tc_volume) <? 0)%float (ValueError "technical candle volume cannot be negative").

Record TechnicalFeatureSnapshot := {
  tf_event_time : datetime;
  tf_values : dict string float;
  tf_feature_set_version : Z }.

(** ** Loops

    A loop that goes through a list, keeps variables and fills one entry of a
    result list per element. *)

Fixpoint scan {S A B} (step : S -> A -> result (B * S)) (s : S) (l : list A) : result (list B) :=
  match l with
  | [] => Ok []
  | x :: l' => '(y, s') ← step s x; ys ← scan step s' l'; mret (y :: ys)
  end.

Definition column : Type := list (option float).

(** The recurrence of [_ema] and [_wilder]: [None] until [period] values are
    seen, their mean, then [step]. *)
Definition seeded (period : Z) (step : float -> float -> result float) (values : list float) : result column :=
  if Z.of_nat (length values) <? period then Ok (replicate (length values) None)
  else
    current ← fdiv (py_sum (take (Z.to_nat period) values)) (float_of_Z period);
    rest ← scan (fun current v => current' ← step current v; mret (Some current', current')) current
             (drop (Z.to_nat period) values);
    mret (replicate (Z.to_nat (period - 1)) None ++ Some current :: rest).

Definition ema (values : list float) (period : Z) : result column :=
  alpha ← int_truediv 2 (period + 1);
  seeded period (fun current v => mret (current + alpha * (v - current))%float) values.

Definition wilder (values : list float) (period : Z) : result column :=
  seeded period (fun current v => fdiv (current * float_of_Z (period - 1) + v)%float (float_of_Z period)) values.

Definition changes (closes : list float) : list float :=
  (fun '(previous, current) => (current - previous)%float) <$> zip closes (tail closes).
Definition rsi_of (gain loss : option float) : result (option float) :=
  match gain, loss with
  | Some gain, Some loss =>
      if (loss =? 0)%float then mret (Some 100%float)
      else q ← fdiv gain loss; r ← fdiv 100 (1 + q)%float; mret (Some (100 - r)%float)
  | _, _ => mret None
  end.
Definition rsi (closes : list float) (period : Z) : result column :=
  average_gain ← wilder ((fun change => fmax change 0) <$> changes closes) period;
  average_loss ← wilder ((fun change => fmax (- change)%float 0) <$> changes closes) period;
  values ← map_result (fun '(gain, loss) => rsi_of gain loss) (zip average_gain average_loss);
  mret (match closes with [] => [] | _ => None :: values end).

(** One entry of [ranges], [positive] and [negative]; [previous] is [None] at
    index 0, where the candle is its own predecessor. *)
Definition movement (previous : option TechnicalCandle) (candle : TechnicalCandle) : float * float * float :=
  let prior := default candle previous in
  let range := fmax (fmax (candle.(tc_high) - candle.(tc_low))%float
                          (abs (candle.(tc_high) - prior.(tc_close))%float))
                    (abs (candle.(tc_low) - prior.(tc_close))%float) in
  let up := (candle.(tc_high) - prior.(tc_high))%float in
  let down := (prior.(tc_low) - candle.(tc_low))%float in
  let index := match previous with Some _ => true | None => false end in
  (range,
   if index && fgt up down && fgt up 0 then up else 0%float,
   if index && fgt down up && fgt down 0 then down else 0%float).
Definition movements (candles : list TechnicalCandle) : result (list (float * float * float)) :=
  scan (fun previous candle => mret (movement previous candle, Some candle)) None candles.

(** [value or 0] *)
Definition or_zero (o : option float) : float :=
  match o with Some v => if (v =? 0)%float then 0%float else v | None => 0%float end.
Definition dx_of (row : option float * option float * option float) : result (option float) :=
  let '(average_range, plus, minus) := row in
  match average_range with
  | None => mret None
  | Some average_range =>
      if (average_range =? 0)%float then mret None
      else
        plus_di ← fdiv (100 * or_zero plus)%float average_range;
        minus_di ← fdiv (100 * or_zero minus)%float average_range;
        let total := (plus_di + minus_di)%float in
        if (total =? 0)%float then mret (Some 0%float)
        else v ← fdiv (100 * abs (plus_di - minus_di))%float total; mret (Some v)
  end.

(** The entries of [values] at the places where [dx] has one. *)
Fixpoint spread (dx values : column) : column :=
  match dx with
  | [] => []
  | None :: dx' => None :: spread dx' values
  | Some _ :: dx' => match values with
                     | v :: values' => v :: spread dx' values'
                     | [] => None :: spread dx' []
                     end
  end.

Definition atr_adx (candles : list TechnicalCandle) (atr_period adx_period : Z) : result (column * column) :=
  rows ← movements candles;
  let ranges := (fun m => m.1.1) <$> rows in
  let positive := (fun m => m.1.2) <$> rows in
  let negative := (fun m => m.2) <$> rows in
  atr ← wilder ranges atr_period;
  directional_range ← wilder ranges adx_period;
  plus ← wilder positive adx_period;
  minus ← wilder negative adx_period;
  dx ← map_result dx_of (zip (zip directional_range plus) minus);
  adx ← wilder (somes dx) adx_period;
  mret (atr, spread dx adx).

Record TrendState := {
  ts_previous : option TechnicalCandle;
  ts_upper : option float;
  ts_lower : option float;
  ts_trend : option float }.
Definition supertrend_step (multiplier : float) (s : TrendState) (row : TechnicalCandle * option float) :
    result ((option float * option float) * TrendState) :=
  let '(candle, average_range) := row in
  match average_range with
  | None => mret ((None, None), {| ts_previous := Some candle; ts_upper := s.(ts_upper);
                                   ts_lower := s.(ts_lower); ts_trend := s.(ts_trend) |})
  | Some average_range =>
      midpoint ← fdiv (candle.(tc_high) + candle.(tc_low))%float 2;
      let basic_upper := (midpoint + multiplier * average_range)%float in
      let basic_lower := (midpoint - multiplier * average_range)%float in
      let previous_close := (default candle s.(ts_previous)).(tc_close) in
      let upper := match s.(ts_upper) with
                   | None => basic_upper
                   | Some upper => if (basic_upper <? upper)%float || fgt previous_close upper
                                   then basic_upper else upper
                   end in
      let lower := match s.(ts_lower) with
                   | None => basic_lower
                   | Some lower => if fgt basic_lower lower || (previous_close <? lower)%float
                                   then basic_lower else lower
                   end in
      let trend :=
        match s.(ts_trend) with
        | None => if fge candle.(tc_close) midpoint then lower else upper
        | Some previous_trend =>
            if Some previous_trend ==p s.(ts_upper)
            then if fgt candle.(tc_close) upper then lower else upper
            else if (candle.(tc_close) <? lower)%float then upper else lower
        end in
      mret ((Some trend, Some (if fgt candle.(tc_close) trend then 1 else -1)%float),
            {| ts_previous := Some candle; ts_upper := Some upper; ts_lower := Some lower;
               ts_trend := Some trend |})
  end.
Definition supertrend (candles : list TechnicalCandle) (atr : column) (multiplier : float) :
    result (column * column) :=
  rows ← scan (supertrend_step multiplier)
           {| ts_previous := None; ts_upper := None; ts_lower := None; ts_trend := None |} (zip candles atr);
  mret (rows.*1, rows.*2).

(** The last [n] elements. *)
Definition last_n {A} (n : Z) (l : list A) : list A := drop (length l - Z.to_nat n) l.

Record SessionState := {
  ss_seen : list TechnicalCandle;
  ss_session : option Z;
  ss_weighted : float;
  ss_cumulative_volume : float }.
Definition session_step (volume_period : Z) (s : SessionState) (candle : TechnicalCandle) :
    result ((option float * option float) * SessionState) :=
  let current_session := date_of candle.(tc_event_time) in
  let same := bool_decide (s.(ss_session) = Some current_session) in
  typical ← fdiv (candle.(tc_high) + candle.(tc_low) + candle.(tc_close))%float 3;
  let weighted := ((if same then s.(ss_weighted) else 0) + typical * candle.(tc_volume))%float in
  let cumulative_volume := ((if same then s.(ss_cumulative_volume) else 0) + candle.(tc_volume))%float in
  vwap ← (if fgt cumulative_volume 0 then v ← fdiv weighted cumulative_volume; mret (Some v) else mret None);
  let seen := s.(ss_seen) ++ [candle] in
  let window := last_n volume_period seen in
  average ← fdiv (py_sum (tc_volume <$> window)) (float_of_Z (Z.of_nat (length window)));
  ratio ← (if fgt average 0 then v ← fdiv candle.(tc_volume) average; mret (Some v) else mret None);
  mret ((vwap, ratio), {| ss_seen := seen; ss_session := Some current_session; ss_weighted := weighted;
                          ss_cumulative_volume := cumulative_volume |}).
Definition session_values (candles : list TechnicalCandle) (volume_period : Z) : result (column * column) :=
  rows ← scan (session_step volume_period)
           {| ss_seen := []; ss_session := None; ss_weighted := 0; ss_cumulative_volume := 0 |} candles;
  mret (rows.*1, rows.*2).

(** [max(generator)] and [min(generator)] of a non-empty window. *)
Definition fmax_list (l : list float) : option float :=
  match l with [] => None | x :: l' => Some (foldl fmax x l') end.
Definition fmin_list (l : list float) : option float :=
  match l with [] => None | x :: l' => Some (foldl fmin x l') end.

(** [_rolling_range]: the candles before the current one, [period] of them. *)
Definition rolling_step (period : Z) (seen : list TechnicalCandle) (candle : TechnicalCandle) :
    result ((option float * option float) * list TechnicalCandle) :=
  let out := if Z.of_nat (length seen) <? period then (None, None)
             else let window := last_n period seen in (fmax_list (tc_high <$> window), fmin_list (tc_low <$> window)) in
  mret (out, seen ++ [candle]).
Definition rolling_range (candles : list TechnicalCandle) (period : Z) : result (column * column) :=
  rows ← scan (rolling_step period) [] candles;
  mret (rows.*1, rows.*2).

Definition NSE_SESSION_OPEN_UTC : Z := (3 * 3600 + 45 * 60) * second.

(** [_opening_range]: event times are aware, so they compare as instants. *)
Definition opening_step (minutes : Z) (seen : list TechnicalCandle) (candle : TechnicalCandle) :
    result ((option float * option float) * list TechnicalCandle) :=
  let t := candle.(tc_event_time) in
  let session_open := Datetime (date_of t * day + NSE_SESSION_OPEN_UTC) t.(utcoffset) in
  let window_end := Datetime (session_open.(wall) + minutes * minute) t.(utcoffset) in
  let window := List.filter (fun prior =>
      (date_of prior.(tc_event_time) =? date_of t)
      && (instant session_open <=? instant prior.(tc_event_time))
      && (instant prior.(tc_event_time) <? instant window_end)) seen in
  let out := if negb (bool_decide (window = [])) && (instant window_end <=? instant t)
             then (fmax_list (tc_high <$> window), fmin_list (tc_low <$> window))
             else (None, None) in
  mret (out, seen ++ [candle]).
Definition opening_range (candles : list TechnicalCandle) (minutes : Z) : result (column * column) :=
  rows ← scan (opening_step minutes) [] candles;
  mret (rows.*1, rows.*2).

(** ** materialize_technical_features *)

(** The indicator columns of one run. *)
Record Columns := {
  col_ema_9 : column; col_ema_21 : column; col_rsi : column; col_atr : column; col_adx : column;
  col_supertrend : column; col_direction : column; col_vwap : column; col_volume_ratio : column;
  col_range_high_20 : column; col_range_low_20 : column;
  col_range_high_10 : column; col_range_low_10 : column;
  col_range_high_5 : column; col_range_low_5 : column;
  col_opening_range_high : column; col_opening_range_low : column }.

Section Materialize.
Context (rsi_period atr_period adx_period : Z) (supertrend_multiplier : float).

Definition columns (ordered : list TechnicalCandle) : result Columns :=
  let closes := tc_close <$> ordered in
  ema_9 ← ema closes 9;
  ema_21 ← ema closes 21;
  rsi ← rsi closes rsi_period;
  '(atr, adx) ← atr_adx ordered atr_period adx_period;
  '(supertrend, direction) ← supertrend ordered atr supertrend_multiplier;
  '(vwap, volume_ratio) ← session_values ordered 20;
  '(range_high_20, range_low_20) ← rolling_range ordered 20;
  '(range_high_10, range_low_10) ← rolling_range ordered 10;
  '(range_high_5, range_low_5) ← rolling_range ordered 5;
  '(opening_range_high, opening_range_low) ← opening_range ordered 15;
  mret {| col_ema_9 := ema_9; col_ema_21 := ema_21; col_rsi := rsi; col_atr := atr; col_adx := adx;
          col_supertrend := supertrend; col_direction := direction; col_vwap := vwap;
          col_volume_ratio := volume_ratio;
          col_range_high_20 := range_high_20; col_range_low_20 := range_low_20;
          col_range_high_10 := range_high_10; col_range_low_10 := range_low_10;
          col_range_high_5 := range_high_5; col_range_low_5 := range_low_5;
          col_opening_range_high := opening_range_high; col_opening_range_low := opening_range_low |}.

Definition at_index (c : list (option float)) (index : nat) : option float := mjoin (c !! index).

Definition set_all (d : dict string float) (kvs : list (string * float)) : dict string float :=
  foldl (fun d '(k, v) => <[k := v]> d) d kvs.

Definition named (k : string) (o : option float) : option (string * float) :=
  match o with Some v => Some (k, v) | None => None end.

(** The snapshot at [index], [None] while some indicator is not warm. *)
Definition snapshot_at (c : Columns) (index : nat) (candle : TechnicalCandle) :
    result (option TechnicalFeatureSnapshot) :=
  match at_index c.(col_ema_9) index, at_index c.(col_ema_21) index, at_index c.(col_rsi) index,
        at_index c.(col_atr) index, at_index c.(col_adx) index, at_index c.(col_supertrend) index,
        at_index c.(col_direction) index, at_index c.(col_vwap) index, at_index c.(col_volume_ratio) index with
  | Some ema_9, Some ema_21, Some rsi, Some atr, Some adx, Some supertrend, Some direction, Some vwap,
    Some volume_ratio =>
      body_pct ← fdiv (candle.(tc_close) - candle.(tc_open))%float candle.(tc_open);
      let values := set_all ∅ [
        ("close", candle.(tc_close)); ("high", candle.(tc_high)); ("low", candle.(tc_low));
        ("body_pct", body_pct); ("ema_9", ema_9); ("ema_21", ema_21); ("rsi_14", rsi); ("atr_14", atr);
        ("adx_14", adx); ("supertrend", supertrend); ("supertrend_direction", direction); ("vwap", vwap);
        ("volume_ratio_20", volume_ratio)] in
      let optional := [
        named "range_high_20" (at_index c.(col_range_high_20) index);
        named "range_low_20" (at_index c.(col_range_low_20) index);
        named "range_high_10" (at_index c.(col_range_high_10) index);
        named "range_low_10" (at_index c.(col_range_low_10) index);
        named "range_high_5" (at_index c.(col_range_high_5) index);
        named "range_low_5" (at_index c.(col_range_low_5) index);
        named "opening_range_high" (at_index c.(col_opening_range_high) index);
        named "opening_range_low" (at_index c.(col_opening_range_low) index)] in
      mret (Some {| tf_event_time := candle.(tc_event_time);
                    tf_values := set_all values (somes optional);
                    tf_feature_set_version := 2 |})
  | _, _, _, _, _, _, _, _, _ => mret None
  end.

Definition event_before (a b : TechnicalCandle) : bool := instant a.(tc_event_time) <? instant b.(tc_event_time).
Definition settled_in_order (candles : list TechnicalCandle) : list TechnicalCandle :=
  py_sorted event_before (List.filter tc_settled candles).

Definition materialize_technical_features (candles : list TechnicalCandle) :
    result (list TechnicalFeatureSnapshot) :=
  _ ← raise_if ((Z.min (Z.min rsi_period atr_period) adx_period <? 2) || (supertrend_multiplier <=? 0)%float)
        (ValueError "technical feature periods and multiplier are invalid");
  let ordered := settled_in_order candles in
  c ← columns ordered;
  snapshots ← map_result (fun '(index, candle) => snapshot_at c index candle) (imap pair ordered);
  mret (somes snapshots).
End Materialize.

(** ** Causality

    A computation of a column is causal when its entries for the first
    candles do not change as candles are appended. *)

Definition causal {A B} (f : list A -> result (list B)) : Prop :=
  forall l out, f l = Ok out -> length out = length l /\ forall n, f (take n l) = Ok (take n out).

Lemma causal_scan {S A B} (step : S -> A -> result (B * S)) s : causal (scan step s).
Proof.
  intros l. revert s. induction l as [|x l IH]; intros s out; simpl.
  - intros [= <-]. split; [done|]. intros n. by rewrite !take_nil.
  - intros ([y s'] & Hy & (ys & Hys & [= <-])%result_bind_ok)%result_bind_ok.
    destruct (IH _ _ Hys) as [Hlen Htake]. split; [simpl; congruence|].
    intros [|n]; simpl; [done|]. rewrite Hy. simpl. by rewrite Htake.
Qed.

Lemma causal_map_result {A B} (f : A -> result B) : causal (map_result f).
Proof.
  intros l out H%map_result_ok. split; [by symmetry; eapply Forall2_length|].
  intros n. apply map_result_ok. by apply Forall2_take.
Qed.

Lemma seeded_causal period step : 1 <= period -> causal (seeded period step).
Proof.
  intros Hp l out. unfold seeded. destruct (Z.of_nat (length l) <? period) eqn:Hl.
  - intros [= <-]. split; [by rewrite length_replicate|]. intros n.
    rewrite take_replicate, length_take, Nat.min_comm.
    rewrite (proj2 (Z.ltb_lt _ _)) by lia. by rewrite Nat.min_comm.
  - intros (seed & Hseed & (rest & Hrest & [= <-])%result_bind_ok)%result_bind_ok.
    destruct (causal_scan _ _ _ _ Hrest) as [Hlen Htake]. rewrite length_drop in Hlen. split.
    { rewrite length_app, length_replicate. simpl. lia. }
    intros n. rewrite length_take.
    destruct (Z.of_nat (n `min` length l) <? period) eqn:Hn.
    + rewrite take_app_le, take_replicate by (rewrite length_replicate; lia).
      do 2 f_equal. lia.
    + rewrite take_take, Nat.min_l, Hseed by lia. simpl.
      replace n with (Z.to_nat period + (n - Z.to_nat period))%nat at 1 by lia.
      rewrite <-take_drop_commute, Htake. simpl.
      rewrite take_app_ge, length_replicate by (rewrite length_replicate; lia).
      replace (n - Z.to_nat (period - 1))%nat with (S (n - Z.to_nat period)) by lia. done.
Qed.

Lemma ema_causal period : 1 <= period -> causal (fun l => ema l period).
Proof.
  intros Hp l out (alpha & Ha & H)%result_bind_ok. destruct (seeded_causal _ _ Hp _ _ H) as [Hlen Ht].
  split; [done|]. intros n. unfold ema. rewrite Ha. apply Ht.
Qed.
Lemma wilder_causal period : 1 <= period -> causal (fun l => wilder l period).
Proof. intros Hp. by apply seeded_causal. Qed.


Lemma changes_length closes : length (changes closes) = pred (length closes).
Proof. unfold changes. rewrite length_fmap, length_zip_with. destruct closes; cbn [tail length pred]; lia. Qed.
Lemma changes_take n closes : changes (take (S n) closes) = take n (changes closes).
Proof.
  destruct closes as [|x l]; [by destruct n|]. simpl.
  revert n x. induction l as [|y l IH]; intros [|n] x; try done.
  unfold changes in *. simpl in *. f_equal. apply (IH n y).
Qed.

Lemma rsi_nil period : 1 <= period -> rsi [] period = Ok [].
Proof.
  intros Hp. assert (Hw : wilder [] period = Ok []).
  { unfold wilder, seeded. rewrite (proj2 (Z.ltb_lt _ _)); [done | simpl; lia]. }
  unfold rsi. change (changes []) with (@nil float). rewrite !fmap_nil, Hw. done.
Qed.

Lemma rsi_causal period : 1 <= period -> causal (fun l => rsi l period).
Proof.
  intros Hp closes out (gain & Hg & (loss & Hl & (vals & Hv & [= <-])%result_bind_ok)%result_bind_ok)%result_bind_ok.
  destruct (wilder_causal _ Hp _ _ Hg) as [Hlg Htg], (wilder_causal _ Hp _ _ Hl) as [Hll Htl].
  destruct (causal_map_result _ _ _ Hv) as [Hlv Htv].
  rewrite length_fmap, changes_length in Hlg, Hll. rewrite length_zip_with in Hlv. split.
  { destruct closes; simpl in *; lia. }
  intros n. destruct closes as [|x closes]; [rewrite !take_nil; by apply rsi_nil|]. destruct n as [|n].
  - rewrite !take_0. by apply rsi_nil.
  - unfold rsi. rewrite changes_take, !fmap_take, Htg, Htl. simpl. rewrite <-zip_with_take, Htv. done.
Qed.

Lemma somes_cons {A} (o : option A) l : somes (o :: l) = match o with Some x => x :: somes l | None => somes l end.
Proof. by destruct o. Qed.

(** [spread] takes as many values as it has places for. *)
Lemma spread_length dx vals : length (spread dx vals) = length dx.
Proof. revert vals; induction dx as [|[d|] dx IH]; intros [|v vals]; simpl; by rewrite ?IH. Qed.
Lemma spread_take dx vals n :
  spread (take n dx) (take (length (somes (take n dx))) vals) = take n (spread dx vals).
Proof.
  revert dx vals; induction n as [|n IH]; intros dx vals; [done|].
  destruct dx as [|[d|] dx]; [done| |].
  - rewrite firstn_cons, somes_cons. destruct vals as [|v vals]; simpl; f_equal; [|apply IH].
    by rewrite <-(IH dx []), take_nil.
  - rewrite firstn_cons, somes_cons. simpl. f_equal. apply IH.
Qed.
Lemma somes_take {A} n (l : list (option A)) : somes (take n l) = take (length (somes (take n l))) (somes l).
Proof.
  revert l; induction n as [|n IH]; intros l; [done|]. destruct l as [|[x|] l]; [done| |].
  - rewrite firstn_cons, !somes_cons. simpl. f_equal. apply IH.
  - rewrite firstn_cons, !somes_cons. apply IH.
Qed.

Definition causal2 {A B C} (f : list A -> result (list B * list C)) : Prop :=
  forall l out, f l = Ok out -> length out.1 = length l /\ length out.2 = length l /\
    forall n, f (take n l) = Ok (take n out.1, take n out.2).

Lemma causal2_split {A B C} (f : list A -> result (list (B * C))) :
  causal f -> causal2 (fun l => rows ← f l; mret (rows.*1, rows.*2)).
Proof.
  intros Hf l out (rows & Hr & [= <-])%result_bind_ok. destruct (Hf _ _ Hr) as [Hlen Ht]. simpl.
  rewrite !length_fmap. split_and!; [done..|]. intros n. by rewrite Ht, <-!fmap_take.
Qed.

Lemma atr_adx_causal atr_period adx_period :
  1 <= atr_period -> 1 <= adx_period -> causal2 (fun l => atr_adx l atr_period adx_period).
Proof.
  intros Ha Hd candles out H. unfold atr_adx in *.
  apply result_bind_ok in H as (rows & Hr & H). apply result_bind_ok in H as (atr & Hatr & H).
  apply result_bind_ok in H as (dir & Hdir & H). apply result_bind_ok in H as (plus & Hplus & H).
  apply result_bind_ok in H as (minus & Hminus & H). apply result_bind_ok in H as (dx & Hdx & H).
  apply result_bind_ok in H as (adx & Hadx & [= <-]).
  destruct (causal_scan _ _ _ _ Hr) as [Lr Tr], (wilder_causal _ Ha _ _ Hatr) as [La Ta],
    (wilder_causal _ Hd _ _ Hdir) as [Ld Td], (wilder_causal _ Hd _ _ Hplus) as [Lp Tp],
    (wilder_causal _ Hd _ _ Hminus) as [Lm Tm], (causal_map_result _ _ _ Hdx) as [Lx Tx],
    (wilder_causal _ Hd _ _ Hadx) as [Lad Tad].
  rewrite length_fmap in *. rewrite !length_zip_with in Lx. simpl. rewrite spread_length.
  split_and!; [lia..|]. intros n. unfold movements. rewrite Tr. simpl.
  rewrite !fmap_take, Ta, Td, Tp, Tm. simpl. rewrite <-!zip_with_take, Tx. simpl.
  rewrite somes_take, Tad. simpl. by rewrite spread_take.
Qed.

Lemma supertrend_take candles atr m out :
  length atr = length candles -> supertrend candles atr m = Ok out ->
  length out.1 = length candles /\ length out.2 = length candles /\
  forall n, supertrend (take n candles) (take n atr) m = Ok (take n out.1, take n out.2).
Proof.
  intros Hlen (rows & Hr & [= <-])%result_bind_ok. destruct (causal_scan _ _ _ _ Hr) as [L T]. simpl.
  rewrite !length_fmap. rewrite length_zip_with in L. split_and!; [lia..|].
  intros n. unfold supertrend. rewrite <-zip_with_take, T. simpl. by rewrite <-!fmap_take.
Qed.
Lemma session_values_causal p : causal2 (fun l => session_values l p).
Proof. apply causal2_split, causal_scan. Qed.
Lemma rolling_range_causal p : causal2 (fun l => rolling_range l p).
Proof. apply causal2_split, causal_scan. Qed.
Lemma opening_range_causal p : causal2 (fun l => opening_range l p).
Proof. apply causal2_split, causal_scan. Qed.

Definition take_columns (n : nat) (c : Columns) : Columns := {|
  col_ema_9 := take n c.(col_ema_9); col_ema_21 := take n c.(col_ema_21); col_rsi := take n c.(col_rsi);
  col_atr := take n c.(col_atr); col_adx := take n c.(col_adx);
  col_supertrend := take n c.(col_supertrend); col_direction := take n c.(col_direction);
  col_vwap := take n c.(col_vwap); col_volume_ratio := take n c.(col_volume_ratio);
  col_range_high_20 := take n c.(col_range_high_20); col_range_low_20 := take n c.(col_range_low_20);
  col_range_high_10 := take n c.(col_range_high_10); col_range_low_10 := take n c.(col_range_low_10);
  col_range_high_5 := take n c.(col_range_high_5); col_range_low_5 := take n c.(col_range_low_5);
  col_opening_range_high := take n c.(col_opening_range_high);
  col_opening_range_low := take n c.(col_opening_range_low) |}.

Lemma at_index_take n c i : (i < n)%nat -> at_index (take n c) i = at_index c i.
Proof. intros Hi. unfold at_index. by rewrite lookup_take_lt. Qed.

Lemma snapshot_at_take n c i candle : (i < n)%nat -> snapshot_at (take_columns n c) i candle = snapshot_at c i candle.
Proof. intros Hi. unfold snapshot_at, take_columns. simpl. by rewrite !at_index_take. Qed.

Lemma somes_prefix {A} n (l : list (option A)) : somes (take n l) `prefix_of` somes l.
Proof. rewrite somes_take. exists (drop (length (somes (take n l))) (somes l)). by rewrite take_drop. Qed.

Lemma imap_pair_take {A} n (l : list A) : imap pair (take n l) = take n (imap pair l).
Proof.
  apply list_eq. intros i. rewrite list_lookup_imap. destruct (decide (i < n)%nat) as [Hi|Hi].
  - by rewrite !lookup_take_lt, list_lookup_imap.
  - by rewrite !lookup_take_ge by lia.
Qed.

Section NoLookahead.
Context (rsi_period atr_period adx_period : Z) (multiplier : float).
Local Abbreviation columns := (columns rsi_period atr_period adx_period multiplier).
Local Abbreviation materialize := (materialize_technical_features rsi_period atr_period adx_period multiplier).

Lemma columns_take l c n :
  2 <= rsi_period -> 2 <= atr_period -> 2 <= adx_period ->
  columns l = Ok c -> columns (take n l) = Ok (take_columns n c).
Proof.
  intros Hrp Hap Hxp H. unfold Technical.columns in *.
  apply result_bind_ok in H as (e9 & H1 & H). apply result_bind_ok in H as (e21 & H2 & H).
  apply result_bind_ok in H as (r & H3 & H). apply result_bind_ok in H as ([atr adx] & H4 & H).
  apply result_bind_ok in H as ([st dir] & H5 & H). apply result_bind_ok in H as ([vw vr] & H6 & H).
  apply result_bind_ok in H as ([h20 l20] & H7 & H). apply result_bind_ok in H as ([h10 l10] & H8 & H).
  apply result_bind_ok in H as ([h5 l5] & H9 & H). apply result_bind_ok in H as ([oh ol] & H10 & [= <-]).
  destruct (atr_adx_causal atr_period adx_period ltac:(lia) ltac:(lia) _ _ H4) as (La & _ & T4).
  destruct (supertrend_take _ _ _ _ La H5) as (_ & _ & T5).
  rewrite !fmap_take, (proj2 (ema_causal 9 ltac:(lia) _ _ H1)). simpl.
  rewrite (proj2 (ema_causal 21 ltac:(lia) _ _ H2)). simpl.
  rewrite (proj2 (rsi_causal rsi_period ltac:(lia) _ _ H3)). simpl. rewrite T4. simpl. rewrite T5. simpl.
  rewrite (proj2 (proj2 (session_values_causal _ _ _ H6))). simpl.
  rewrite (proj2 (proj2 (rolling_range_causal _ _ _ H7))). simpl.
  rewrite (proj2 (proj2 (rolling_range_causal _ _ _ H8))). simpl.
  rewrite (proj2 (proj2 (rolling_range_causal _ _ _ H9))). simpl.
  by rewrite (proj2 (proj2 (opening_range_causal _ _ _ H10))).
Qed.

Lemma map_result_app {A B} (f : A -> result B) l l' ys :
  map_result f (l ++ l') = Ok ys <-> exists xs xs', map_result f l = Ok xs /\ map_result f l' = Ok xs' /\ ys = xs ++ xs'.
Proof.
  rewrite map_result_ok. setoid_rewrite map_result_ok. split.
  - intros (xs & xs' & H & H' & ->)%Forall2_app_inv_l. by exists xs, xs'.
  - intros (xs & xs' & H & H' & ->). by apply Forall2_app.
Qed.
Lemma map_result_ext {A B} (f g : A -> result B) l :
  (forall x, x ∈ l -> f x = g x) -> map_result f l = map_result g l.
Proof.
  induction l as [|x l IH]; intros H; simpl; [done|]. rewrite (H x) by left.
  rewrite IH; [done|]. intros y Hy. apply H. by right.
Qed.

(** The snapshots of a prefix of the ordered candles. *)
Lemma snapshots_take l c snaps n :
  map_result (fun '(index, candle) => snapshot_at c index candle) (imap pair l) = Ok snaps ->
  map_result (fun '(index, candle) => snapshot_at (take_columns n c) index candle) (imap pair (take n l))
    = Ok (take n snaps).
Proof.
  intros H. destruct (causal_map_result _ _ _ H) as [_ T]. rewrite imap_pair_take, <-T.
  apply map_result_ext. intros [i candle] Hin. apply snapshot_at_take.
  apply list_elem_of_lookup in Hin as [j Hj]. destruct (decide (j < n)%nat) as [Hlt|];
    [|by rewrite lookup_take_ge in Hj by lia].
  rewrite lookup_take_lt, list_lookup_imap in Hj by done.
  destruct (l !! j); [|done]. by injection Hj as -> ->.
Qed.

Lemma event_before_unique l l' :
  NoDup ((fun c => instant c.(tc_event_time)) <$> l) -> l ≡ₚ l' ->
  py_sorted event_before l = py_sorted event_before l'.
Proof.
  intros Hnd Hp. apply (StronglySorted_unique_strong (not_after event_before)).
  - intros a b Ha Hb Hab Hba. rewrite py_sorted_elem in Ha. rewrite py_sorted_elem, <-Hp in Hb.
    assert (Hid : instant (tc_event_time a) = instant (tc_event_time b))
      by (unfold not_after, event_before in *; lia).
    apply list_elem_of_lookup in Ha as [i Hi]. apply list_elem_of_lookup in Hb as [j Hj].
    assert (i = j); [|congruence].
    eapply NoDup_lookup; [exact Hnd| |]; rewrite list_lookup_fmap; [by rewrite Hi | rewrite Hj; simpl; by rewrite Hid].
  - apply weak_order_sorted, weak_order_Z.
  - apply weak_order_sorted, weak_order_Z.
  - by rewrite !py_sorted_perm.
Qed.

Lemma sorted_app l l' :
  NoDup ((fun c => instant c.(tc_event_time)) <$> (l ++ l')) ->
  (forall c f, c ∈ l -> f ∈ l' -> instant c.(tc_event_time) < instant f.(tc_event_time)) ->
  py_sorted event_before (l ++ l') = py_sorted event_before l ++ py_sorted event_before l'.
Proof.
  intros Hnd Hlt. rewrite <-(py_sorted_id event_before (py_sorted event_before l ++ py_sorted event_before l')).
  { apply event_before_unique; [done|]. by rewrite !py_sorted_perm. }
  assert (Hl : StronglySorted (not_after event_before) (py_sorted event_before l))
    by apply weak_order_sorted, weak_order_Z.
  assert (Hin : forall c, c ∈ py_sorted event_before l -> c ∈ l) by (intros c; by rewrite py_sorted_elem).
  induction Hl as [|c k Hs IH Hall]; simpl; [apply weak_order_sorted, weak_order_Z|].
  constructor; [apply IH; intros d Hd; apply Hin; by right|].
  apply Forall_app. split; [done|]. apply Forall_forall. intros f Hf. rewrite py_sorted_elem in Hf.
  unfold not_after, event_before. apply Z.ltb_ge. specialize (Hlt c f (Hin c ltac:(left)) Hf). lia.
Qed.

Lemma list_filter_perm {A} (f : A -> bool) l l' : l ≡ₚ l' -> List.filter f l ≡ₚ List.filter f l'.
Proof.
  induction 1 as [|x l l' _ IH|x y l|l1 l2 l3 _ IH1 _ IH2]; simpl; [done| | |by etrans].
  - destruct (f x); by rewrite IH.
  - destruct (f x), (f y); try done. apply Permutation_swap.
Qed.

Lemma snapshot_at_time c i candle s :
  snapshot_at c i candle = Ok (Some s) -> s.(tf_event_time) = candle.(tc_event_time).
Proof.
  unfold snapshot_at. repeat (case_match; try done).
  by intros (b & _ & [= <-])%result_bind_ok.
Qed.

Lemma snapshots_drop c l n snaps s :
  map_result (fun '(index, candle) => snapshot_at c index candle) (imap pair l) = Ok snaps ->
  s ∈ somes (drop n snaps) -> exists f, f ∈ drop n l /\ s.(tf_event_time) = f.(tc_event_time).
Proof.
  intros H%map_result_ok Hs%somes_elem. apply (Forall2_drop _ _ _ n) in H.
  apply list_elem_of_lookup in Hs as [j Hj]. destruct (Forall2_lookup_r _ _ _ _ _ H Hj) as ([i f] & Hi & Hf).
  rewrite lookup_drop, list_lookup_imap in Hi. destruct (l !! (n + j)%nat) as [f'|] eqn:Hl; [|done].
  injection Hi as <- <-. exists f'. split; [|by eapply snapshot_at_time].
  apply list_elem_of_lookup. exists j. by rewrite lookup_drop.
Qed.

Lemma materialize_prefix past future all snaps' :
  all ≡ₚ past ++ future ->
  NoDup ((fun c => instant c.(tc_event_time)) <$> List.filter tc_settled all) ->
  (forall c f, c ∈ past -> f ∈ future -> instant c.(tc_event_time) < instant f.(tc_event_time)) ->
  materialize all = Ok snaps' ->
  exists snaps later, materialize past = Ok snaps /\ snaps' = snaps ++ later /\
    forall s, s ∈ later -> exists f, f ∈ future /\ f.(tc_settled) = true /\ s.(tf_event_time) = f.(tc_event_time).
Proof.
  intros Hp Hnd Hlt H. unfold materialize_technical_features in *.
  apply result_bind_ok in H as (? & Hguard & H). rewrite Hguard. simpl.
  apply raise_if_ok in Hguard. apply orb_false_iff in Hguard as [Hper _].
  apply result_bind_ok in H as (c & Hc & H). apply result_bind_ok in H as (rows & Hrows & [= <-]).
  set (past' := settled_in_order past). set (n := length past').
  assert (Hall : settled_in_order all = past' ++ settled_in_order future).
  { unfold settled_in_order in *.
    rewrite (event_before_unique _ _ Hnd (list_filter_perm _ _ _ Hp)), List.filter_app.
    apply sorted_app; [|intros ? ? [? _]%filter_elem [? _]%filter_elem; auto].
    by rewrite <-List.filter_app, <-(list_filter_perm _ _ _ Hp). }
  assert (Htake : take n (settled_in_order all) = past') by (rewrite Hall; apply take_app_length).
  pose proof (columns_take _ _ n ltac:(lia) ltac:(lia) ltac:(lia) Hc) as Hc'.
  pose proof (snapshots_take _ _ _ n Hrows) as Hrows'. rewrite Htake in Hc', Hrows'.
  rewrite Hc'. simpl. rewrite Hrows'. simpl.
  exists (somes (take n rows)), (somes (drop n rows)). split; [done|].
  split; [by rewrite <-somes_app, take_drop|].
  intros s (f & Hf & Ht)%(snapshots_drop _ _ _ _ _ Hrows).
  rewrite Hall in Hf. unfold n in Hf. rewrite drop_app_length in Hf. apply py_sorted_elem, filter_elem in Hf as [Hf Hset].
  by exists f.
Qed.

(** C23. No look-ahead: whatever the order in which candles arrive and however
    many later ones arrive with them, the snapshots computed from the candles
    up to some time are exactly the first snapshots of the whole run, and the
    remaining snapshots are stamped with the later candles' times. *)
Theorem no_lookahead past future all snaps' :
  all ≡ₚ past ++ future ->
  NoDup ((fun c => instant c.(tc_event_time)) <$> List.filter tc_settled all) ->
  (forall c f, c ∈ past -> f ∈ future -> instant c.(tc_event_time) < instant f.(tc_event_time)) ->
  materialize all = Ok snaps' ->
  exists snaps later, materialize past = Ok snaps /\ snaps' = snaps ++ later /\
    forall s, s ∈ later -> exists f, f ∈ future /\ f.(tc_settled) = true /\ s.(tf_event_time) = f.(tc_event_time).
Proof. apply materialize_prefix. Qed.
End NoLookahead.

Module TechnicalExample.

(** Fifteen-minute candles of a rising and falling price. *)
Definition candle (k : nat) : TechnicalCandle :=
  let base := (100 + float_of_Z (Z.of_nat (k mod 7)) - 0.5 * float_of_Z (Z.of_nat (k mod 3)))%float in {|
  tc_event_time := at_utc (1709208000 * second + Z.of_nat k * 15 * minute);
  tc_open := base;
  tc_high := (base + 2)%float;
  tc_low := (base - 1)%float;
  tc_close := (base + 0.5)%float;
  tc_volume := (1000 + float_of_Z (Z.of_nat k))%float;
  tc_settled := true |}.
Definition past : list TechnicalCandle := candle <$> seq 0 24.
Definition future : list TechnicalCandle := candle <$> seq 24 3.
Definition arrived : list TechnicalCandle := future ++ past.
Local Abbreviation materialize := (materialize_technical_features 3 3 3 3) (only parsing).

Lemma candles_valid : Forall (fun c => TechnicalCandle_post_init c = Ok tt) arrived.
Proof. repeat constructor. Qed.

Definition snapshots (l : list TechnicalCandle) : list TechnicalFeatureSnapshot :=
  match materialize l with Ok s => s | Err _ => [] end.
Lemma snapshot_counts : length (snapshots past) = 4%nat /\ length (snapshots arrived) = 7%nat.
Proof. vm_compute. split; reflexivity. Qed.

Lemma no_lookahead_witness :
  exists later, materialize arrived = Ok (snapshots past ++ later) /\
    forall s, s ∈ later -> exists f, f ∈ future /\ f.(tc_settled) = true /\ s.(tf_event_time) = f.(tc_event_time).
Proof.
  assert (Hall : materialize arrived = Ok (snapshots arrived)) by (vm_compute; reflexivity).
  destruct (no_lookahead 3 3 3 3 past future arrived (snapshots arrived)) as (snaps & later & Hs & Hl & Hf).
  - unfold arrived. apply Permutation_app_comm.
  - apply (bool_decide_unpack _). vm_compute. exact I.
  - intros c f Hc Hf. apply list_elem_of_fmap in Hc as (i & -> & Hi). apply list_elem_of_fmap in Hf as (j & -> & Hj).
    apply elem_of_seq in Hi, Hj. unfold candle, instant. simpl. unfold minute, second. lia.
  - exact Hall.
  - exists later. unfold snapshots. rewrite Hs. rewrite Hl in Hall. split; [exact Hall | exact Hf].
Defined.
End TechnicalExample.
