(* ===== verification/Screening.v ===== *)
(** * Screening and regime (src/nanodelta/strategies/tradeability.py,
    strategies/symbol_regime.py and the classifiers of runtime/regime.py)

    The pure checks that decide whether a symbol may be traded this cycle and
    how well its regime fits: their verdicts are fields of the contexts the
    decision pipeline reads. *)

From Stdlib Require Import ZArith Lia ZifyBool Floats.
From stdpp Require Import prelude strings numbers sorting list.
From S2P Require Import Prelude PyData PyFloat PyText PyTime FloatTheory Technical.

Local Open Scope Z_scope.

(** ** Tradeability *)

Record TradeabilityLimits := {
  tl_minimum_price : float;
  tl_minimum_average_volume : float;
  tl_minimum_average_traded_value : float;
  tl_minimum_atr_pct : float;
  tl_maximum_atr_pct : float;
  tl_maximum_gap_pct : float;
  tl_average_window : Z;
  tl_maximum_bar_gap_multiple : float;
  tl_maximum_reprice_pct : float;
  tl_maximum_spread_pct : float;
  tl_circuit_proximity_pct : float }.

Definition TradeabilityLimits_post_init (t : TradeabilityLimits) : result unit :=
  _ ← raise_if (existsb (fun v => (v <=? 0)%float)
        [t.(tl_minimum_price); t.(tl_minimum_average_volume); t.(tl_minimum_average_traded_value);
         t.(tl_minimum_atr_pct); t.(tl_maximum_atr_pct); t.(tl_maximum_gap_pct);
         t.(tl_maximum_reprice_pct); t.(tl_maximum_spread_pct); t.(tl_circuit_proximity_pct)])
        (ValueError "tradeability limits must be positive");
  _ ← raise_if (fge t.(tl_minimum_atr_pct) t.(tl_maximum_atr_pct))
        (ValueError "minimum_atr_pct must be below maximum_atr_pct");
  _ ← raise_if (t.(tl_average_window) <? 2) (ValueError "average_window must be at least 2");
  raise_if (t.(tl_maximum_bar_gap_multiple) <=? 1)%float (ValueError "maximum_bar_gap_multiple must be above 1").

Definition BAR_SECONDS : dict string Z :=
  Dict [("1m", 60); ("5m", 300); ("15m", 900); ("30m", 1800); ("1h", 3600); ("4h", 14400); ("1d", 86400)].

(** [sum(values) / len(values)] *)
Definition mean (values : list float) : result float :=
  fdiv (py_sum values) (float_of_Z (Z.of_nat (length values))).

(** A check returns the reason it fails for. *)
Definition verdict : Type := result (option string).
Definition fails_if (b : bool) (reason : string) : verdict := mret (if b then Some reason else None).

(** [if check: return False, reason] then the rest. *)
Fixpoint first_failure (checks : list verdict) : result (bool * string) :=
  match checks with
  | [] => mret (true, "TRADEABLE")
  | c :: rest =>
      o ← c;
      match o with Some reason => mret (false, reason) | None => first_failure rest end
  end.

Section Tradeability.
Context (limits : TradeabilityLimits).

Definition bar_gap_check (timeframe : option string) (previous latest : TechnicalCandle) : verdict :=
  match timeframe ≫= fun tf => BAR_SECONDS !! tf with
  | Some expected_seconds =>
      let observed_seconds :=
        total_seconds (instant latest.(tc_event_time) - instant previous.(tc_event_time)) in
      fails_if (fgt observed_seconds (float_of_Z expected_seconds * limits.(tl_maximum_bar_gap_multiple))%float)
        "MISSING_BAR_DETECTED"
  | None => mret None
  end.

Definition volume_check (window : list TechnicalCandle) : verdict :=
  average_volume ← mean (tc_volume <$> window);
  fails_if (average_volume <? limits.(tl_minimum_average_volume))%float "BELOW_MINIMUM_VOLUME".

Definition traded_value_check (window : list TechnicalCandle) : verdict :=
  average_traded_value ← mean ((fun c => c.(tc_close) * c.(tc_volume))%float <$> window);
  fails_if (average_traded_value <? limits.(tl_minimum_average_traded_value))%float "BELOW_MINIMUM_TRADED_VALUE".

Definition atr_check (atr_14 : float) (latest : TechnicalCandle) : verdict :=
  atr_pct ← fdiv atr_14 latest.(tc_close);
  if (atr_pct <? limits.(tl_minimum_atr_pct))%float then mret (Some "RANGE_TOO_TIGHT")
  else fails_if (fgt atr_pct limits.(tl_maximum_atr_pct)) "RANGE_TOO_WIDE".

Definition gap_check (previous latest : TechnicalCandle) : verdict :=
  if fgt previous.(tc_close) 0 then
    gap_pct ← fdiv (abs (latest.(tc_open) - previous.(tc_close))%float) previous.(tc_close);
    fails_if (fgt gap_pct limits.(tl_maximum_gap_pct)) "GAP_TOO_WIDE"
  else mret None.

(** [window[-1] is latest] always holds: both are the last settled candle. *)
Definition reprice_check (window : list TechnicalCandle) (latest : TechnicalCandle) : verdict :=
  let prior_window := take (length window - 1) window in
  if bool_decide (prior_window = []) then mret None
  else
    average_prior_close ← mean (tc_close <$> prior_window);
    if fgt average_prior_close 0 then
      reprice_pct ← fdiv (abs (latest.(tc_close) - average_prior_close)%float) average_prior_close;
      fails_if (fgt reprice_pct limits.(tl_maximum_reprice_pct)) "PRICE_DISCONTINUITY_SUSPECTED"
    else mret None.

Definition circuit_check (circuit_limits : option (float * float)) (latest : TechnicalCandle) : verdict :=
  match circuit_limits with
  | Some (lower, upper) =>
      if fgt lower 0 && fgt upper lower then
        let band := (upper - lower)%float in
        if ((latest.(tc_close) - lower) <? band * limits.(tl_circuit_proximity_pct))%float
        then mret (Some "NEAR_LOWER_CIRCUIT")
        else fails_if ((upper - latest.(tc_close)) <? band * limits.(tl_circuit_proximity_pct))%float
               "NEAR_UPPER_CIRCUIT"
      else mret None
  | None => mret None
  end.

Definition spread_check (best_bid best_ask : option float) : verdict :=
  match best_bid, best_ask with
  | Some best_bid, Some best_ask =>
      if fgt best_bid 0 && fgt best_ask best_bid then
        spread_pct ← fdiv (best_ask - best_bid)%float best_bid;
        fails_if (fgt spread_pct limits.(tl_maximum_spread_pct)) "SPREAD_TOO_WIDE"
      else mret None
  | _, _ => mret None
  end.

(** [evaluate_tradeability], on the settled candles newest first. *)
Definition evaluate_tradeability (candles : list TechnicalCandle) (atr_14 : float) (timeframe : option string)
    (circuit_limits : option (float * float)) (best_bid best_ask : option float) : result (bool * string) :=
  let settled := settled_in_order candles in
  match rev settled with
  | latest :: previous :: _ =>
      let window := last_n limits.(tl_average_window) settled in
      first_failure [
        bar_gap_check timeframe previous latest;
        fails_if (latest.(tc_close) <=? 0)%float "INVALID_PRICE";
        fails_if (latest.(tc_close) <? limits.(tl_minimum_price))%float "BELOW_MINIMUM_PRICE";
        volume_check window;
        traded_value_check window;
        atr_check atr_14 latest;
        gap_check previous latest;
        reprice_check window latest;
        circuit_check circuit_limits latest;
        spread_check best_bid best_ask]
  | _ => mret (false, "INSUFFICIENT_HISTORY")
  end.
End Tradeability.

(** ** The screen's verdicts *)

Lemma not_le_0_nonzero x : (x <=? 0)%float = false -> (x =? 0)%float = false.
Proof.
  intros H. destruct (x =? 0)%float eqn:E; [|done].
  apply feqb_iff in E as (Hn & Hz & E). by rewrite (proj2 (fleb_iff x 0)) in H by lia.
Qed.

Lemma mean_total values : values <> [] -> exists m, mean values = Ok m.
Proof.
  intros Hne. unfold mean, fdiv.
  destruct (float_of_Z_pos (Z.of_nat (length values))) as [Hn Hp]; [destruct values; simpl in *; [done|lia]|].
  destruct (_ =? 0)%float eqn:E; [|eauto].
  apply feqb_iff in E as (_ & _ & E). rewrite fval_0 in E. lia.
Qed.

Lemma last_n_nonempty {A} n (l : list A) : 1 <= n -> l <> [] -> last_n n l <> [].
Proof.
  intros Hn Hl. destruct l as [|x l]; [done|]. intros H%(f_equal length). unfold last_n in H.
  rewrite length_drop in H. simpl in H. lia.
Qed.

(** Every check that passed. *)
Lemma first_failure_true checks reason :
  first_failure checks = Ok (true, reason) -> Forall (fun c => c = Ok None) checks.
Proof.
  induction checks as [|c rest IH]; simpl; [constructor|].
  destruct c as [[r|]|]; simpl; [done| |done]. intros H. constructor; [done | by apply IH].
Qed.

Lemma first_failure_cons c rest :
  (exists o, c = Ok o) -> (c = Ok None -> exists v, first_failure rest = Ok v) ->
  exists v, first_failure (c :: rest) = Ok v.
Proof. intros [[r|] ->] Hrest; simpl; eauto. Qed.

Section TradeabilityTheory.
Context (limits : TradeabilityLimits).

Lemma bar_gap_check_total tf p l : exists o, bar_gap_check limits tf p l = Ok o.
Proof. unfold bar_gap_check. case_match; by eexists. Qed.
Lemma volume_check_total w : w <> [] -> exists o, volume_check limits w = Ok o.
Proof.
  intros Hne. unfold volume_check.
  destruct (mean_total (tc_volume <$> w)) as [m ->]; [by destruct w|]. by eexists.
Qed.
Lemma traded_value_check_total w :
  w <> [] -> exists o, traded_value_check limits w = Ok o.
Proof.
  intros Hne. unfold traded_value_check.
  destruct (mean_total ((fun c => c.(tc_close) * c.(tc_volume))%float <$> w)) as [m ->];
    [by destruct w|]. by eexists.
Qed.
Lemma atr_check_total atr c : (c.(tc_close) <=? 0)%float = false -> exists o, atr_check limits atr c = Ok o.
Proof.
  intros H. unfold atr_check. rewrite fdiv_ok by (by apply not_le_0_nonzero). simpl.
  case_match; by eexists.
Qed.
Lemma gap_check_total p l : exists o, gap_check limits p l = Ok o.
Proof.
  unfold gap_check. destruct (fgt _ 0) eqn:H; [|by eexists].
  rewrite fdiv_ok by (by apply fgt_0_nonzero). by eexists.
Qed.
Lemma reprice_check_total w l : exists o, reprice_check limits w l = Ok o.
Proof.
  unfold reprice_check. case_bool_decide as Hne; [by eexists|].
  destruct (mean_total (tc_close <$> take (length w - 1) w)) as [m ->].
  { by destruct (take (length w - 1) w). }
  simpl. destruct (fgt m 0) eqn:H; [|by eexists]. rewrite fdiv_ok by (by apply fgt_0_nonzero). by eexists.
Qed.
Lemma circuit_check_total c l : exists o, circuit_check limits c l = Ok o.
Proof. unfold circuit_check. repeat case_match; by eexists. Qed.
Lemma spread_check_total b a : exists o, spread_check limits b a = Ok o.
Proof.
  unfold spread_check. destruct b as [b|]; [|by eexists]. destruct a as [a|]; [|by eexists].
  destruct (_ && _) eqn:H; [|by eexists]. apply andb_true_iff in H as [H _].
  rewrite fdiv_ok by (by apply fgt_0_nonzero). by eexists.
Qed.

Lemma fails_if_none b reason : fails_if b reason = Ok None -> b = false.
Proof. by destruct b. Qed.
Lemma mean_check_none values (bad : float -> bool) reason :
  (m ← mean values; fails_if (bad m) reason) = Ok None -> exists m, mean values = Ok m /\ bad m = false.
Proof. intros (m & Hm & H%fails_if_none)%result_bind_ok. eauto. Qed.

Lemma atr_check_none atr c :
  (c.(tc_close) <=? 0)%float = false -> atr_check limits atr c = Ok None ->
  isfinite c.(tc_close) = true -> isfinite atr = true -> 0 <= fval atr ->
  fnan limits.(tl_minimum_atr_pct) = false -> fnan limits.(tl_maximum_atr_pct) = false ->
  (limits.(tl_minimum_atr_pct) <=? atr / c.(tc_close))%float = true /\
  (atr / c.(tc_close) <=? limits.(tl_maximum_atr_pct))%float = true.
Proof.
  intros Hc H Hfc Hfa Ha Hmin Hmax. unfold atr_check in H.
  rewrite fdiv_ok in H by (by apply not_le_0_nonzero). simpl in H.
  destruct (fdiv_nonneg atr (tc_close c)) as [Hn _]; [done|done|done|by apply positive_spec|].
  destruct (_ <? _)%float eqn:E1; [done|]. apply fails_if_none in H. split.
  - apply fleb_iff. split_and!; [done|done|]. by apply fltb_false.
  - by apply fgt_false_le.
Qed.

Lemma gap_check_none p l : gap_check limits p l = Ok None -> fgt p.(tc_close) 0 = true ->
  fgt (abs (l.(tc_open) - p.(tc_close)) / p.(tc_close))%float limits.(tl_maximum_gap_pct) = false.
Proof.
  intros H Hp. unfold gap_check in H. rewrite Hp, fdiv_ok in H by (by apply fgt_0_nonzero).
  by apply fails_if_none in H.
Qed.

Lemma circuit_check_none lower upper l :
  circuit_check limits (Some (lower, upper)) l = Ok None -> fgt lower 0 = true -> fgt upper lower = true ->
  (l.(tc_close) - lower <? (upper - lower) * limits.(tl_circuit_proximity_pct))%float = false /\
  (upper - l.(tc_close) <? (upper - lower) * limits.(tl_circuit_proximity_pct))%float = false.
Proof.
  intros H Hl Hu. unfold circuit_check in H. rewrite Hl, Hu in H. simpl in H.
  destruct (_ <? _)%float eqn:E; [done|]. by apply fails_if_none in H.
Qed.

Lemma spread_check_none b a :
  spread_check limits (Some b) (Some a) = Ok None -> fgt b 0 = true -> fgt a b = true ->
  fgt ((a - b) / b)%float limits.(tl_maximum_spread_pct) = false.
Proof.
  intros H Hb Ha. unfold spread_check in H. rewrite Hb, Ha in H. simpl in H.
  rewrite fdiv_ok in H by (by apply fgt_0_nonzero). by apply fails_if_none in H.
Qed.

Lemma settled_last_two candles latest previous older :
  rev (settled_in_order candles) = latest :: previous :: older ->
  settled_in_order candles = rev older ++ [previous; latest].
Proof. intros H. rewrite <-(rev_involutive (settled_in_order candles)), H. simpl. by rewrite <-app_assoc. Qed.

(** The screen is total and sound: on any candles it returns a verdict,
    and TRADEABLE only if at least two settled candles exist, the latest one is
    at or above the minimum price, its range is within the ATR band (for a
    finite price and a finite non-negative ATR), the window's average volume
    and traded value are not below their minimums, the opening gap and the
    quoted spread are not above theirs, and the price keeps its distance from
    both circuit limits. *)
Theorem tradeable_sound candles atr tf circuit bid ask :
  TradeabilityLimits_post_init limits = Ok tt ->
  (exists v, evaluate_tradeability limits candles atr tf circuit bid ask = Ok v) /\
  forall reason, evaluate_tradeability limits candles atr tf circuit bid ask = Ok (true, reason) ->
    exists older previous latest avg_volume avg_value,
      let window := last_n limits.(tl_average_window) (settled_in_order candles) in
      settled_in_order candles = older ++ [previous; latest] /\
      (latest.(tc_close) <=? 0)%float = false /\
      (latest.(tc_close) <? limits.(tl_minimum_price))%float = false /\
      mean (tc_volume <$> window) = Ok avg_volume /\
      (avg_volume <? limits.(tl_minimum_average_volume))%float = false /\
      mean ((fun c => c.(tc_close) * c.(tc_volume))%float <$> window) = Ok avg_value /\
      (avg_value <? limits.(tl_minimum_average_traded_value))%float = false /\
      (isfinite latest.(tc_close) = true -> isfinite atr = true -> 0 <= fval atr ->
       fnan limits.(tl_minimum_atr_pct) = false -> fnan limits.(tl_maximum_atr_pct) = false ->
       (limits.(tl_minimum_atr_pct) <=? atr / latest.(tc_close))%float = true /\
       (atr / latest.(tc_close) <=? limits.(tl_maximum_atr_pct))%float = true) /\
      (fgt previous.(tc_close) 0 = true ->
       fgt (abs (latest.(tc_open) - previous.(tc_close)) / previous.(tc_close))%float
         limits.(tl_maximum_gap_pct) = false) /\
      (forall lower upper, circuit = Some (lower, upper) -> fgt lower 0 = true -> fgt upper lower = true ->
       (latest.(tc_close) - lower <? (upper - lower) * limits.(tl_circuit_proximity_pct))%float = false /\
       (upper - latest.(tc_close) <? (upper - lower) * limits.(tl_circuit_proximity_pct))%float = false) /\
      (forall b a, bid = Some b -> ask = Some a -> fgt b 0 = true -> fgt a b = true ->
       fgt ((a - b) / b)%float limits.(tl_maximum_spread_pct) = false).
Proof.
  intros Hinit. assert (Hw2 : 2 <= tl_average_window limits).
  { unfold TradeabilityLimits_post_init in Hinit. inv_ok Hinit. lia. }
  unfold evaluate_tradeability. destruct (rev _) as [|latest [|previous older]] eqn:Hrev; [split; eauto; done..|].
  pose proof (settled_last_two _ _ _ _ Hrev) as Hset. set (window := last_n _ _).
  assert (Hne : window <> []) by (apply last_n_nonempty; [lia|]; rewrite Hset; by destruct (rev older)).
  split.
  - apply first_failure_cons; [apply bar_gap_check_total|intros _].
    apply first_failure_cons; [by eexists|]. intros Hpos.
    assert (Hc : (tc_close latest <=? 0)%float = false)
      by (unfold fails_if in Hpos; by destruct (tc_close latest <=? 0)%float). clear Hpos.
    apply first_failure_cons; [by eexists|intros _].
    apply first_failure_cons; [by apply volume_check_total|intros _].
    apply first_failure_cons; [by apply traded_value_check_total|intros _].
    apply first_failure_cons; [by apply atr_check_total|intros _].
    apply first_failure_cons; [apply gap_check_total|intros _].
    apply first_failure_cons; [by apply reprice_check_total|intros _].
    apply first_failure_cons; [apply circuit_check_total|intros _].
    apply first_failure_cons; [apply spread_check_total|intros _]. by eexists.
  - intros reason H%first_failure_true. rewrite !Forall_cons in H.
    destruct H as (_ & H1 & H2 & H3 & H4 & H5 & H6 & _ & H7 & H8 & _).
    apply fails_if_none in H1, H2.
    apply mean_check_none in H3 as (avg_volume & Hm3 & H3). apply mean_check_none in H4 as (avg_value & Hm4 & H4).
    exists (rev older), previous, latest, avg_volume, avg_value. split_and!; try done.
    + by apply atr_check_none.
    + by apply gap_check_none.
    + intros lower upper ->. by apply circuit_check_none.
    + intros b a -> ->. by apply spread_check_none.
Qed.
End TradeabilityTheory.

Module ScreeningExample.
Import TechnicalExample.

Definition limits : TradeabilityLimits := {|
  tl_minimum_price := 10; tl_minimum_average_volume := 100; tl_minimum_average_traded_value := 1000;
  tl_minimum_atr_pct := 0.001; tl_maximum_atr_pct := 0.2; tl_maximum_gap_pct := 0.1;
  tl_average_window := 20; tl_maximum_bar_gap_multiple := 1.5; tl_maximum_reprice_pct := 0.3;
  tl_maximum_spread_pct := 0.01; tl_circuit_proximity_pct := 0.02 |}.

Lemma tradeable_sound_witness :
  exists older previous latest,
    settled_in_order past = older ++ [previous; latest] /\
    (latest.(tc_close) <? 10)%float = false.
Proof.
  assert (H : evaluate_tradeability limits past 3 (Some "15m") (Some (80, 130)%float) (Some 100%float) (Some 100.5%float)
    = Ok (true, "TRADEABLE")) by (vm_compute; reflexivity).
  destruct (tradeable_sound limits past 3 (Some "15m") (Some (80, 130)%float) (Some 100%float) (Some 100.5%float)
    ltac:(vm_compute; reflexivity)) as [_ Hs].
  destruct (Hs "TRADEABLE" H) as (older & previous & latest & v & w & Hset & _ & Hp & _).
  exists older, previous, latest. split; [exact Hset | exact Hp].
Defined.

(** A NaN average true range is neither below the minimum nor above the
    maximum, so the screen lets it pass. *)
Lemma nan_atr_is_tradeable :
  evaluate_tradeability limits past nan (Some "15m") None None None = Ok (true, "TRADEABLE").
Proof. vm_compute. reflexivity. Qed.
End ScreeningExample.
