(* ===== verification/Evaluation.v ===== *)
(** * Strategy evaluation (src/nanodelta/strategies/evaluation.py)

    How a registered plugin's validation metrics are computed from its Gold
    contexts and recorded.  The contexts are rows of a database: they are an
    argument; the plugin is the interface of [StrategyRuntime]. *)

From Stdlib Require Import ZArith Lia ZifyBool Floats.
From stdpp Require Import prelude strings numbers sorting list.
From S2P Require Import Prelude PyData PyFloat FloatTheory PyText PyTime Sha256 Contracts Registry StrategyRuntime.

Local Open Scope Z_scope.

(** [math.comb(n, k)] for every [k], as a row of Pascal's triangle. *)
Fixpoint comb_row (n : nat) : list Z :=
  match n with
  | O => [1]
  | S n' => let r := comb_row n' in zip_with Z.add (0 :: r) (r ++ [0])
  end.

(** [_one_sided_sign_test] *)
Definition one_sided_sign_test (wins sample : Z) : result float :=
  if sample =? 0 then Ok 1%float
  else
    let tail := sumZ (drop (Z.to_nat wins) (comb_row (Z.to_nat sample))) in
    t ← float_of_int tail;
    d ← float_of_int (2 ^ sample);
    q ← fdiv t d;
    mret (fmin 1 q).

(** [_maximum_drawdown] *)
Fixpoint drawdown_loop (equity peak maximum : float) (returns : list float) : result float :=
  match returns with
  | [] => Ok maximum
  | value :: rest =>
      let equity := (equity * fmax 0 (1 + value))%float in
      let peak := fmax peak equity in
      d ← (if (peak =? 0)%float then mret 0%float else fdiv (peak - equity)%float peak);
      drawdown_loop equity peak (fmax maximum d) rest
  end.
Definition maximum_drawdown (returns : list float) : result float := drawdown_loop 1 1 0 returns.

(** ** PostgresStrategyEvaluator.evaluate *)

Record EvaluationState := {
  es_trade_returns : list float;
  es_window_returns : list float;
  es_evaluated_index : Z }.

Section Evaluate.
Context (plugin : StrategyPlugin) (policy : ValidationPolicy).
Context (estimated_round_trip_cost : float) (tested_hypotheses : Z).

(** One turn of the loop, over a context and the one after it. *)
Definition evaluate_one (total : Z) (s : EvaluationState) (pair : StrategyContext * StrategyContext) :
    result EvaluationState :=
  let '(context, next) := pair in
  if next.(cx_symbol) !=p context.(cx_symbol) then mret s
  else
    compatible ← plugin.(pl_compatibility) context;
    signal ← (if (compatible : bool * string).1 then plugin.(pl_generate) context else mret None);
    match signal with
    | None => mret s
    | Some signal =>
        next_close ← match next.(cx_features) !! "close" with
                     | Some v => Ok v
                     | None => Err (KeyError "close")
                     end;
        let direction := if bool_decide (signal.(sg_action) = BUY) then 1%float else (-1)%float in
        gross ← fdiv (direction * (next_close - signal.(sg_reference_price)))%float signal.(sg_reference_price);
        let windows := Z.of_nat (length s.(es_window_returns)) in
        let window := Z.min (windows - 1) (s.(es_evaluated_index) * windows / Z.max 1 (total - 1)) in
        match s.(es_window_returns) !! Z.to_nat window with
        | None => Err (OtherException "IndexError" "list index out of range")
        | Some w => mret {|
            es_trade_returns := s.(es_trade_returns) ++ [gross];
            es_window_returns :=
              <[Z.to_nat window := (w + (gross - estimated_round_trip_cost))%float]> s.(es_window_returns);
            es_evaluated_index := s.(es_evaluated_index) + 1 |}
        end
    end.

Fixpoint evaluate_loop (total : Z) (s : EvaluationState) (pairs : list (StrategyContext * StrategyContext)) :
    result EvaluationState :=
  match pairs with
  | [] => Ok s
  | p :: rest => s' ← evaluate_one total s p; evaluate_loop total s' rest
  end.

Definition start_state : EvaluationState := {|
  es_trade_returns := [];
  es_window_returns := replicate (Z.to_nat policy.(vp_minimum_walk_forward_windows)) 0%float;
  es_evaluated_index := 0 |}.

Definition evaluate_contexts (contexts : list StrategyContext) : result EvaluationState :=
  evaluate_loop (Z.of_nat (length contexts)) start_state (consecutive contexts).

Definition count_if {A} (f : A -> bool) (l : list A) : Z := Z.of_nat (length (List.filter f l)).

Definition metrics_of (s : EvaluationState) : result ValidationMetrics :=
  let count := Z.of_nat (length s.(es_trade_returns)) in
  gross_expectancy ← (if count =? 0 then mret 0%float else fdiv (py_sum s.(es_trade_returns)) (float_of_Z count));
  drawdown ← maximum_drawdown ((fun value => value - estimated_round_trip_cost)%float <$> s.(es_trade_returns));
  p_value ← one_sided_sign_test (count_if (fun value => fgt value estimated_round_trip_cost) s.(es_trade_returns)) count;
  mret {| vm_trade_count := count;
          vm_walk_forward_windows := Z.of_nat (length s.(es_window_returns));
          vm_profitable_windows := count_if (fun value => fgt value 0) s.(es_window_returns);
          vm_gross_expectancy := gross_expectancy;
          vm_estimated_cost_per_trade := estimated_round_trip_cost;
          vm_maximum_drawdown := drawdown;
          vm_p_value := p_value;
          vm_tested_hypotheses := tested_hypotheses |}.

(** [evaluate]; [evaluated_at or datetime.now(UTC)] is the argument. *)
Definition evaluate_strategy (contexts : list StrategyContext) (evaluated_at : datetime) :
    M StrategyRegistry ValidationResult :=
  _ ← lift (raise_if ((estimated_round_trip_cost <? 0)%float || (tested_hypotheses <? 1))
        (ValueError "cost must be non-negative and hypotheses must be positive"));
  s ← lift (evaluate_contexts contexts);
  metrics ← lift (metrics_of s);
  v ← lift (validate_strategy plugin.(pl_definition).(sd_identity) metrics policy evaluated_at);
  _ ← record_validation v;
  mret v.
End Evaluate.

(** ** The sign test *)

Lemma sumZ_zip_add l1 l2 : length l1 = length l2 -> sumZ (zip_with Z.add l1 l2) = sumZ l1 + sumZ l2.
Proof. revert l2; induction l1 as [|x l1 IH]; intros [|y l2]; simpl; try done. intros [= H]. rewrite (IH _ H). lia. Qed.
Lemma sumZ_nonneg l : Forall (fun v => 0 <= v) l -> 0 <= sumZ l.
Proof. induction 1; simpl; lia. Qed.

Lemma comb_row_spec n : sumZ (comb_row n) = 2 ^ Z.of_nat n /\ Forall (fun v => 0 <= v) (comb_row n).
Proof.
  induction n as [|n [IH Hpos]]; [split; [done|repeat constructor; lia]|].
  change (comb_row (S n)) with (zip_with Z.add (0 :: comb_row n) (comb_row n ++ [0])). split.
  - rewrite sumZ_zip_add by (simpl; rewrite length_app; simpl; lia). rewrite sumZ_app. simpl.
    rewrite IH, Nat2Z.inj_succ, Z.pow_succ_r by lia. lia.
  - assert (H : forall l1 l2, Forall (fun v => 0 <= v) l1 -> Forall (fun v => 0 <= v) l2 ->
      Forall (fun v => 0 <= v) (zip_with Z.add l1 l2)).
    { intros l1 l2 H1. revert l2. induction H1; intros [|y l2] H2; simpl; constructor.
      - apply Forall_cons in H2 as [? _]. lia.
      - apply IHForall. by apply Forall_cons in H2 as [_ ?]. }
    apply H; [by constructor|]. apply Forall_app. split; [done|]. by repeat constructor.
Qed.

Lemma tail_bounds wins n : 0 <= sumZ (drop wins (comb_row n)) <= 2 ^ Z.of_nat n.
Proof.
  destruct (comb_row_spec n) as [Hs Hp]. rewrite <-(take_drop wins (comb_row n)), sumZ_app in Hs.
  rewrite <-(take_drop wins (comb_row n)) in Hp. apply Forall_app in Hp as [H1%sumZ_nonneg H2%sumZ_nonneg]. lia.
Qed.

Definition too_large : exn := OverflowError "int too large to convert to float".

Lemma sign_test_overflow wins sample : 1024 <= sample -> one_sided_sign_test wins sample = Err too_large.
Proof.
  intros Hs. unfold one_sided_sign_test, float_of_int.
  rewrite (proj2 (Z.eqb_neq sample 0)) by lia.
  assert (H : 2 ^ 1024 <= 2 ^ sample) by (apply Z.pow_le_mono_r; lia).
  assert (E : (Z.abs (2 ^ sample) <? 2 ^ 1024 - 2 ^ 970) = false)
    by (apply Z.ltb_ge; pose proof (pow2_pos 970); lia).
  rewrite E. by destruct (Z.abs (sumZ _) <? _).
Qed.

Lemma small_int_finite n : 0 <= n <= 2 ^ 1023 ->
  float_of_int n = Ok (float_of_Z n) /\ isfinite (float_of_Z n) = true /\ 0 <= fval (float_of_Z n).
Proof.
  intros Hn. unfold float_of_int. rewrite (proj2 (Z.ltb_lt _ _));
    [|rewrite Z.abs_eq by lia; assert (2 ^ 1024 = 2 * 2 ^ 1023) by reflexivity;
      assert (2 ^ 970 < 2 ^ 1023) by (apply Z.pow_lt_mono_r; lia); lia].
  destruct (float_of_Z_spec n) as [Hf Hv].
  assert (H0 : 0 <= fval (float_of_Z n)).
  { rewrite Hv, <-rndZ_0. apply rndZ_mono. pose proof (pow2_pos 1074). nia. }
  split; [done|]. split; [|done]. apply isfinite_val. split; [done|]. rewrite Z.abs_eq, Hv by done.
  apply (Z.le_lt_trans _ (rndZ (2 ^ 1023 * 2 ^ 1074))); [|vm_compute; reflexivity].
  apply rndZ_mono. pose proof (pow2_pos 1074). nia.
Qed.

Lemma sign_test_total wins sample : 0 <= sample < 1024 ->
  exists p, one_sided_sign_test wins sample = Ok p /\ (0 <=? p)%float = true /\ (p <=? 1)%float = true.
Proof.
  intros Hs. unfold one_sided_sign_test. destruct (Z.eqb_spec sample 0); [by exists 1%float|].
  pose proof (tail_bounds (Z.to_nat wins) (Z.to_nat sample)) as Ht. rewrite Z2Nat.id in Ht by lia.
  assert (Hp : 2 ^ sample <= 2 ^ 1023) by (apply Z.pow_le_mono_r; lia).
  pose proof (pow2_pos sample).
  destruct (small_int_finite (sumZ (drop (Z.to_nat wins) (comb_row (Z.to_nat sample))))) as (-> & Ft & Vt); [lia|].
  destruct (small_int_finite (2 ^ sample)) as (-> & Fd & _); [lia|].
  destruct (float_of_Z_pos (2 ^ sample)) as [Nd Pd]; [lia|]. simpl.
  unfold fdiv. destruct (_ =? 0)%float eqn:E; [apply feqb_iff in E as (_ & _ & E); rewrite fval_0 in E; lia|].
  simpl. destruct (fdiv_nonneg _ _ Ft Vt Fd Pd) as [Nq Vq]. eexists. split; [done|].
  set (q := (float_of_Z _ / float_of_Z _)%float) in *. clearbody q. unfold fmin.
  destruct (q <? 1)%float eqn:Hq; [|done]. apply fltb_iff in Hq as (_ & N1 & Hq).
  split; apply fleb_iff; rewrite ?fval_0; split_and!; try done; lia.
Qed.

(** ** The drawdown *)

Lemma drawdown_total equity peak maximum returns :
  (0 <=? maximum)%float = true ->
  exists d, drawdown_loop equity peak maximum returns = Ok d /\ (0 <=? d)%float = true.
Proof.
  revert equity peak maximum. induction returns as [|v rest IH]; intros equity peak maximum Hm; simpl; [eauto|].
  set (peak' := fmax peak _). clearbody peak'.
  assert (Hd : exists d, (if (peak' =? 0)%float then mret 0%float
                          else fdiv (peak' - equity * fmax 0 (1 + v)) peak') = Ok d).
  { unfold fdiv. destruct (peak' =? 0)%float; by eexists. }
  destruct Hd as [d ->]. simpl. apply IH. unfold fmax.
  destruct (maximum <? d)%float eqn:E; [|done].
  apply fltb_iff in E as (_ & Nd & E). apply fleb_iff in Hm as (N0 & _ & Hm). apply fleb_iff.
  split_and!; [done|done|lia].
Qed.

(** ** The evaluation *)

Section EvaluateTheory.
Context (plugin : StrategyPlugin) (policy : ValidationPolicy) (cost : float) (hypotheses : Z).

Lemma evaluate_one_windows total s p s' :
  evaluate_one plugin cost total s p = Ok s' ->
  length s'.(es_window_returns) = length s.(es_window_returns).
Proof.
  destruct p as [context next]. unfold evaluate_one. destruct (_ !=p _); [by intros [= <-]|].
  intros H. apply result_bind_ok in H as (c & _ & H). apply result_bind_ok in H as (signal & _ & H).
  destruct signal as [signal|]; [|by injection H as <-].
  apply result_bind_ok in H as (close & _ & H). apply result_bind_ok in H as (gross & _ & H).
  destruct (_ !! _); [|done]. injection H as <-. simpl. by rewrite length_insert.
Qed.

Lemma evaluate_loop_windows total pairs : forall s s',
  evaluate_loop plugin cost total s pairs = Ok s' ->
  length s'.(es_window_returns) = length s.(es_window_returns).
Proof.
  induction pairs as [|p rest IH]; simpl; intros s s'; [by intros [= <-]|].
  intros (s1 & H1 & H)%result_bind_ok. rewrite (IH _ _ H). by eapply evaluate_one_windows.
Qed.

Lemma count_if_bounds {A} (f : A -> bool) l : 0 <= count_if f l <= Z.of_nat (length l).
Proof. unfold count_if. pose proof (List.filter_length_le f l). lia. Qed.

(** The metrics of an evaluation of fewer than 1024 trades exist and are in
    the ranges the validation demands. *)
Lemma metrics_of_total s :
  Z.of_nat (length s.(es_trade_returns)) < 1024 ->
  exists m, metrics_of cost hypotheses s = Ok m /\
    m.(vm_trade_count) = Z.of_nat (length s.(es_trade_returns)) /\
    m.(vm_walk_forward_windows) = Z.of_nat (length s.(es_window_returns)) /\
    0 <= m.(vm_profitable_windows) <= m.(vm_walk_forward_windows) /\
    m.(vm_estimated_cost_per_trade) = cost /\ m.(vm_tested_hypotheses) = hypotheses /\
    (0 <=? m.(vm_maximum_drawdown))%float = true /\
    (0 <=? m.(vm_p_value))%float = true /\ (m.(vm_p_value) <=? 1)%float = true.
Proof.
  intros Hn. unfold metrics_of. set (n := Z.of_nat (length (es_trade_returns s))) in *.
  assert (He : exists e, (if n =? 0 then mret 0%float else fdiv (py_sum (es_trade_returns s)) (float_of_Z n)) = Ok e).
  { destruct (Z.eqb_spec n 0); [by eexists|]. destruct (float_of_Z_pos n) as [_ Hp]; [lia|]. unfold fdiv.
    destruct (_ =? 0)%float eqn:E; [|by eexists]. apply feqb_iff in E as (_ & _ & E). rewrite fval_0 in E. lia. }
  destruct He as [e ->]. simpl.
  destruct (drawdown_total 1 1 0 ((fun v => v - cost)%float <$> es_trade_returns s)) as (d & Hd & Hd0); [done|].
  unfold maximum_drawdown. rewrite Hd. simpl.
  destruct (sign_test_total (count_if (fun v => fgt v cost) (es_trade_returns s)) n) as (p & -> & Hp0 & Hp1); [lia|].
  simpl. eexists. split; [done|]. simpl.
  pose proof (count_if_bounds (fun v => fgt v 0) (es_window_returns s)). split_and!; try done; lia.
Qed.

Lemma validate_strategy_total identity m at_ :
  ValidationPolicy_post_init policy = Ok tt ->
  1 <= m.(vm_walk_forward_windows) -> 1 <= m.(vm_tested_hypotheses) ->
  0 <= m.(vm_profitable_windows) <= m.(vm_walk_forward_windows) ->
  (m.(vm_estimated_cost_per_trade) <? 0)%float = false -> (0 <=? m.(vm_maximum_drawdown))%float = true ->
  (0 <=? m.(vm_p_value))%float = true -> (m.(vm_p_value) <=? 1)%float = true ->
  aware at_ = true ->
  exists v, validate_strategy identity m policy at_ = Ok v /\ v.(vr_identity) = identity /\ v.(vr_metrics) = m.
Proof.
  intros Hpol Hw Hh Hpw Hc Hd Hp0 Hp1 Haw. unfold validate_strategy.
  assert (Hdn : (vm_maximum_drawdown m <? 0)%float = false).
  { apply fleb_iff in Hd as (N0 & Nd & Hd). by apply fltb_false. }
  rewrite (proj2 (Z.ltb_ge _ 1) Hw), (proj2 (Z.ltb_ge _ 1) Hh). simpl.
  rewrite (proj2 (Z.leb_le 0 _) (proj1 Hpw)), (proj2 (Z.leb_le _ _) (proj2 Hpw)). simpl.
  rewrite Hc, Hdn, Hp0, Hp1. simpl.
  assert (Hr2 : exists r2, (if (vm_walk_forward_windows m <? vp_minimum_walk_forward_windows policy)
     then mret ["INSUFFICIENT_WALK_FORWARD_WINDOWS"]
     else ratio ← int_truediv (vm_profitable_windows m) (vm_walk_forward_windows m);
          mret (reason_if (ratio <? vp_minimum_profitable_window_ratio policy)%float
            "UNSTABLE_WALK_FORWARD_PERFORMANCE")) = Ok r2).
  { destruct (_ <? _); [by eexists|]. unfold int_truediv. rewrite (proj2 (Z.eqb_neq _ 0)) by lia.
    destruct (_ && _); [by eexists|]. destruct (SFdiv_core_binary _ _ _ _ _ _) as [[q e] l]. by eexists. }
  destruct Hr2 as [r2 ->]. simpl.
  assert (Ha : exists a, fdiv (vp_family_wise_alpha policy) (float_of_Z (vm_tested_hypotheses m)) = Ok a).
  { unfold fdiv. destruct (float_of_Z_pos (vm_tested_hypotheses m)) as [_ Hp]; [lia|].
    destruct (_ =? 0)%float eqn:E; [|by eexists]. apply feqb_iff in E as (_ & _ & E). rewrite fval_0 in E. lia. }
  destruct Ha as [a ->]. simpl. rewrite (proj2 (utc_ok _ _ _) (conj Haw eq_refl)). simpl. by eexists.
Qed.

Lemma evaluate_strategy_unfold contexts at_ s r :
  (cost <? 0)%float = false -> 1 <= hypotheses -> evaluate_contexts plugin policy cost contexts = Ok s ->
  evaluate_strategy plugin policy cost hypotheses contexts at_ r =
  (metrics ← lift (metrics_of cost hypotheses s);
   v ← lift (validate_strategy plugin.(pl_definition).(sd_identity) metrics policy at_);
   _ ← record_validation v; mret v) r.
Proof.
  intros Hc Hh Hs. unfold evaluate_strategy, mbind, M_bind, lift, raise_if.
  rewrite Hc, (proj2 (Z.ltb_ge _ 1) Hh). simpl. by rewrite Hs.
Qed.

Lemma metrics_of_overflow s : 1024 <= Z.of_nat (length s.(es_trade_returns)) ->
  metrics_of cost hypotheses s = Err too_large.
Proof.
  set (trades := Z.of_nat _). intros Hn. unfold metrics_of. fold trades.
  rewrite (proj2 (Z.eqb_neq trades 0)) by lia.
  destruct (float_of_Z_pos trades) as [_ Hp]; [lia|]. unfold fdiv at 1.
  destruct (float_of_Z trades =? 0)%float eqn:E;
    [apply feqb_iff in E as (_ & _ & E); rewrite fval_0 in E; lia|]. simpl.
  destruct (drawdown_total 1 1 0 ((fun v => v - cost)%float <$> es_trade_returns s)) as (d & Hd & _); [done|].
  unfold maximum_drawdown. rewrite Hd. simpl. by rewrite sign_test_overflow.
Qed.

(** Evaluation of a registered plugin whose signals can be computed: with
    fewer than 1024 trades it returns a validation with metrics in range
    (p-value in [0, 1], drawdown not negative, profitable windows within the
    windows) and records exactly that validation in the registry; with 1024
    trades or more the sign test cannot convert [2 ** sample] to a float, the
    evaluation raises and records nothing. *)
Theorem evaluation_outcome contexts at_ s r :
  ValidationPolicy_post_init policy = Ok tt ->
  (cost <? 0)%float = false -> 1 <= hypotheses -> aware at_ = true ->
  dict_mem plugin.(pl_definition).(sd_identity) r.(reg_definitions) = true ->
  evaluate_contexts plugin policy cost contexts = Ok s ->
  let trades := Z.of_nat (length s.(es_trade_returns)) in
  let out := evaluate_strategy plugin policy cost hypotheses contexts at_ r in
  (1024 <= trades -> out = (Err too_large, r)) /\
  (trades < 1024 -> exists v,
     v.(vr_identity) = plugin.(pl_definition).(sd_identity) /\
     v.(vr_metrics).(vm_trade_count) = trades /\
     0 <= v.(vr_metrics).(vm_profitable_windows) <= v.(vr_metrics).(vm_walk_forward_windows) /\
     (0 <=? v.(vr_metrics).(vm_maximum_drawdown))%float = true /\
     (0 <=? v.(vr_metrics).(vm_p_value))%float = true /\ (v.(vr_metrics).(vm_p_value) <=? 1)%float = true /\
     (r.(reg_validations) !! v.(vr_validation_run_id) = None ->
      out = (Ok v, set_validations (<[v.(vr_validation_run_id) := v]> r.(reg_validations)) r))).
Proof.
  intros Hpol Hc Hh Haw Hreg Hs trades out.
  assert (Hw : 1 <= Z.of_nat (length (es_window_returns s))).
  { unfold evaluate_contexts in Hs. rewrite (evaluate_loop_windows _ _ _ _ Hs). simpl. rewrite length_replicate.
    unfold ValidationPolicy_post_init in Hpol. inv_ok Hpol. lia. }
  unfold out. rewrite (evaluate_strategy_unfold _ _ _ _ Hc Hh Hs). split; intros Hn.
  - unfold mbind, M_bind, lift. by rewrite metrics_of_overflow.
  - destruct (metrics_of_total s Hn) as (m & Hm & Htc & Hww & Hpw & Hmc & Hmh & Hd & Hp0 & Hp1).
    destruct (validate_strategy_total plugin.(pl_definition).(sd_identity) m at_) as (v & Hv & Hid & Hvm);
      [done| | |done| |done..|]; [lia|lia|by rewrite Hmc|].
    exists v. rewrite Hid, Hvm. split_and!; try done; [lia..|]. intros Hnone.
    unfold mbind, M_bind, lift. rewrite Hm, Hv. unfold record_validation, mbind, M_bind, lift, get_state, raise_if.
    rewrite Hid, Hreg, Hnone. done.
Qed.
End EvaluateTheory.

Module EvaluationExample.
Import RegistryExample.

Definition signal : StrategySignal := {|
  sg_action := BUY; sg_confidence := 0.75; sg_reference_price := 100; sg_stop_price := 99;
  sg_target_price := 103; sg_estimated_cost_r := 0.1; sg_historical_expectancy_r := 0.25; sg_ml_tilt_r := 0 |}.
Definition plugin : StrategyPlugin := {|
  pl_object := 1; pl_definition := definition;
  pl_compatibility := fun _ => Ok (true, "COMPATIBLE");
  pl_generate := fun _ => Ok (Some signal) |}.
Definition context (k : nat) : StrategyContext := {|
  cx_market := NSE; cx_symbol := "RELIANCE"; cx_sector := None; cx_timeframe := "5m";
  cx_trade_horizon := "intraday"; cx_feature_set_version := 2; cx_event_time := at_utc (t0 + Z.of_nat k * 5 * minute);
  cx_gold_snapshot_ids := ["gold"]; cx_features := <["close" := (if Nat.even k then 101 else 99.5)%float]> ∅;
  cx_settled := true; cx_complete := true; cx_adjusted := true; cx_fresh := true; cx_warm := true;
  cx_tradeable := true; cx_tradeability_reason := "TRADEABLE"; cx_regime := default_RegimeEvidence |}.
Definition history (n : nat) : list StrategyContext := context <$> seq 0 n.
Definition evaluated (n : nat) : result EvaluationState :=
  evaluate_contexts plugin default_validation_policy 0.001 (history n).
Definition state_of (r : result EvaluationState) : EvaluationState :=
  match r with Ok s => s | Err _ => start_state default_validation_policy end.

Lemma evaluation_outcome_witness :
  exists v, v.(vr_metrics).(vm_trade_count) = 40 /\
    (v.(vr_metrics).(vm_p_value) <=? 1)%float = true /\
    (registry.(reg_validations) !! v.(vr_validation_run_id) = None ->
     evaluate_strategy plugin default_validation_policy 0.001 2 (history 41) now registry
       = (Ok v, set_validations (<[v.(vr_validation_run_id) := v]> registry.(reg_validations)) registry)).
Proof.
  assert (Hs : evaluated 41 = Ok (state_of (evaluated 41))) by (vm_compute; reflexivity).
  assert (Hn : Z.of_nat (length (es_trade_returns (state_of (evaluated 41)))) = 40) by (vm_compute; reflexivity).
  destruct (evaluation_outcome plugin default_validation_policy 0.001 2 (history 41) now
    (state_of (evaluated 41)) registry) as [_ H].
  - vm_compute. reflexivity.
  - vm_compute. reflexivity.
  - discriminate.
  - reflexivity.
  - vm_compute. reflexivity.
  - exact Hs.
  - destruct H as (v & _ & Ht & _ & _ & _ & Hp & Hrec); [rewrite Hn; reflexivity|].
    exists v. split; [rewrite Ht; exact Hn | split; [exact Hp | exact Hrec]].
Defined.

End EvaluationExample.
