(* ===== verification/NseValidation.v ===== *)
(** * Strategy research on NSE history (src/nanodelta/validation/nse.py)

    Campaigns over settled candles: the readiness of the data per symbol and
    timeframe, and the walk-forward evaluation of a strategy, whose signals
    are made from the snapshot of a bar and paid by the close of the next. *)

From Stdlib Require Import ZArith Lia Floats Ascii String ZifyBool.
From stdpp Require Import prelude strings pretty numbers sorting list.
From S2P Require Import Prelude PyData PyFloat FloatTheory PyText PyDigits PyParse PyJson Sha256 PyTime PyDate Contracts Timeframes Registry StrategyRuntime Technical Evaluation.

Local Open Scope Z_scope.

Definition REQUIRED_NSE_TIMEFRAMES : list string := ["5m"; "15m"; "30m"; "1h"].
(** [_MINIMUM_BARS_PER_SESSION[timeframe]] *)
Definition minimum_bars (timeframe : string) : result Z :=
  if String.eqb timeframe "5m" then Ok 75 else if String.eqb timeframe "15m" then Ok 25
  else if String.eqb timeframe "30m" then Ok 12 else if String.eqb timeframe "1h" then Ok 6
  else Err (KeyError timeframe).

Inductive ResearchState := RESEARCH | FAILED.
#[export] Instance ResearchState_eq_dec : EqDecision ResearchState.
Proof. solve_decision. Defined.

Record NseCostModel := {
  nc_brokerage_bps : float;
  nc_taxes_and_fees_bps : float;
  nc_slippage_bps : float }.
Definition NseCostModel_post_init (c : NseCostModel) : result unit :=
  raise_if (existsb (fun v => negb (isfinite v) || (v <? 0)%float) [c.(nc_brokerage_bps); c.(nc_taxes_and_fees_bps); c.(nc_slippage_bps)])
    (ValueError "cost assumptions must be finite and non-negative").
Definition round_trip_fraction (c : NseCostModel) : result float :=
  fdiv (c.(nc_brokerage_bps) + c.(nc_taxes_and_fees_bps) + c.(nc_slippage_bps))%float 10000.

Record NseValidationConfig := {
  nv_minimum_history_days : Z;
  nv_required_timeframes : list string;
  nv_walk_forward_windows : Z;
  nv_minimum_session_coverage : float;
  nv_maximum_last_bar_age : Z;
  nv_tested_hypotheses : Z;
  nv_cost_model : NseCostModel;
  nv_policy : ValidationPolicy }.
Definition default_config : NseValidationConfig := {|
  nv_minimum_history_days := 730; nv_required_timeframes := REQUIRED_NSE_TIMEFRAMES; nv_walk_forward_windows := 5;
  nv_minimum_session_coverage := 0.8; nv_maximum_last_bar_age := 4 * day; nv_tested_hypotheses := 3;
  nv_cost_model := {| nc_brokerage_bps := 3; nc_taxes_and_fees_bps := 7; nc_slippage_bps := 5 |};
  nv_policy := {| vp_minimum_trades := default_validation_policy.(vp_minimum_trades); vp_minimum_walk_forward_windows := 5;
                  vp_minimum_profitable_window_ratio := default_validation_policy.(vp_minimum_profitable_window_ratio);
                  vp_minimum_net_expectancy := default_validation_policy.(vp_minimum_net_expectancy);
                  vp_maximum_drawdown := default_validation_policy.(vp_maximum_drawdown);
                  vp_family_wise_alpha := default_validation_policy.(vp_family_wise_alpha) |} |}.
Definition same_set (a b : list string) : bool := bool_decide (Forall (fun x => x ∈ b) a) && bool_decide (Forall (fun x => x ∈ a) b).
Definition NseValidationConfig_post_init (c : NseValidationConfig) : result unit :=
  _ ← raise_if (c.(nv_minimum_history_days) <? 730) (ValueError "NSE credentialed validation requires at least 730 history days");
  _ ← raise_if ((c.(nv_walk_forward_windows) <? 2) || (c.(nv_tested_hypotheses) <? 1))
        (ValueError "walk-forward windows and hypotheses are invalid");
  _ ← raise_if (negb ((0.8 <=? c.(nv_minimum_session_coverage)) && (c.(nv_minimum_session_coverage) <=? 1)))%float
        (ValueError "minimum_session_coverage must be in [0.8, 1]");
  _ ← raise_if (negb (Nat.eqb (length c.(nv_required_timeframes)) (length REQUIRED_NSE_TIMEFRAMES))
                || negb (same_set c.(nv_required_timeframes) REQUIRED_NSE_TIMEFRAMES))
        (ValueError "NSE readiness must cover 5m, 15m, 30m, and 1h");
  raise_if (c.(nv_maximum_last_bar_age) <=? 0) (ValueError "maximum_last_bar_age must be positive").

(** [repr] of the configuration *)
Definition repr_cost (c : NseCostModel) : string :=
  repr_dataclass "NseCostModel" [("brokerage_bps", repr_float c.(nc_brokerage_bps));
    ("taxes_and_fees_bps", repr_float c.(nc_taxes_and_fees_bps)); ("slippage_bps", repr_float c.(nc_slippage_bps))].
Definition repr_config (c : NseValidationConfig) : string :=
  repr_dataclass "NseValidationConfig"
    [("minimum_history_days", str_Z c.(nv_minimum_history_days));
     ("required_timeframes", repr_tuple (List.map repr_str c.(nv_required_timeframes)));
     ("walk_forward_windows", str_Z c.(nv_walk_forward_windows));
     ("minimum_session_coverage", repr_float c.(nv_minimum_session_coverage));
     ("maximum_last_bar_age", repr_timedelta c.(nv_maximum_last_bar_age));
     ("tested_hypotheses", str_Z c.(nv_tested_hypotheses));
     ("cost_model", repr_cost c.(nv_cost_model));
     ("policy", repr_policy c.(nv_policy))].

Record SettledCandle := {
  sc_symbol : string;
  sc_timeframe : string;
  sc_open_time : datetime;
  sc_open : float;
  sc_high : float;
  sc_low : float;
  sc_close : float;
  sc_volume : float;
  sc_provider : Provider }.
Definition SettledCandle_post_init (c : SettledCandle) : result unit :=
  _ ← raise_if (str_blank c.(sc_symbol) || str_blank c.(sc_timeframe)) (ValueError "candle symbol and timeframe are required");
  _ ← utc c.(sc_open_time) "open_time";
  _ ← raise_if (existsb (fun v => negb (isfinite v)) [c.(sc_open); c.(sc_high); c.(sc_low); c.(sc_close); c.(sc_volume)])
        (ValueError "candle values must be finite");
  _ ← raise_if ((fmin (fmin (fmin c.(sc_open) c.(sc_high)) c.(sc_low)) c.(sc_close) <=? 0) || (c.(sc_volume) <? 0))%float
        (ValueError "candle prices and volume are invalid");
  raise_if (fgt c.(sc_low) (fmin c.(sc_open) c.(sc_close)) || (c.(sc_high) <? fmax c.(sc_open) c.(sc_close))%float)
    (ValueError "candle OHLC is inconsistent").

Record NseReadinessEvidence := {
  rd_readiness_id : string;
  rd_campaign_id : string;
  rd_symbol : string;
  rd_timeframe : string;
  rd_first_open : option datetime;
  rd_last_open : option datetime;
  rd_settled_count : Z;
  rd_minimum_settled_count : Z;
  rd_history_days : Z;
  rd_ready : bool;
  rd_reasons : list string;
  rd_source_fingerprint : string }.

Record WalkForwardWindow := {
  ww_index : Z;
  ww_started_at : option datetime;
  ww_ended_at : option datetime;
  ww_trade_count : Z;
  ww_gross_expectancy : float;
  ww_net_expectancy : float;
  ww_profitable : bool }.

Record NseStrategyEvidence := {
  nx_evidence_id : string;
  nx_campaign_id : string;
  nx_validation : ValidationResult;
  nx_state : ResearchState;
  nx_data_fingerprint : string;
  nx_windows : list WalkForwardWindow;
  nx_cost_model : NseCostModel;
  nx_stressed_net_expectancy : float }.

Record NseValidationCampaign := {
  cp_campaign_id : string;
  cp_evaluated_at : datetime;
  cp_requested_start : datetime;
  cp_requested_end : datetime;
  cp_symbols : list string;
  cp_config : NseValidationConfig;
  cp_source_provider : Provider }.

Definition campaign_create (evaluated_at : datetime) (symbols : list string) (config : NseValidationConfig) : result NseValidationCampaign :=
  evaluated_at ← utc evaluated_at "evaluated_at";
  let normalized := py_sorted str_ltb (fromkeys (List.map (fun v => str_upper (str_strip v)) (List.filter (fun v => negb (str_blank v)) symbols))) in
  _ ← raise_if (match normalized with [] => true | _ => false end) (ValueError "validation campaign requires at least one NSE symbol");
  span ← timedelta_us (config.(nv_minimum_history_days) * day);
  requested_start ← dt_add evaluated_at (- span);
  let campaign_id := stable_id ["nse-validation"; isoformat evaluated_at; repr_tuple (List.map repr_str normalized); repr_config config;
                                Provider_value DHAN] in
  mret {| cp_campaign_id := campaign_id; cp_evaluated_at := evaluated_at; cp_requested_start := requested_start;
          cp_requested_end := evaluated_at; cp_symbols := normalized; cp_config := config; cp_source_provider := DHAN |}.

(** [_fingerprint] *)
Definition fingerprint_before (a b : SettledCandle) : bool :=
  str_ltb a.(sc_symbol) b.(sc_symbol) || (String.eqb a.(sc_symbol) b.(sc_symbol) &&
    (str_ltb a.(sc_timeframe) b.(sc_timeframe) || (String.eqb a.(sc_timeframe) b.(sc_timeframe) &&
      (instant a.(sc_open_time) <? instant b.(sc_open_time))))).
Definition fingerprint_line (c : SettledCandle) : result string :=
  t ← utc c.(sc_open_time) "open_time";
  mret (dumps (JArr [JStr c.(sc_symbol); JStr c.(sc_timeframe); JStr (isoformat t); JFloat c.(sc_open); JFloat c.(sc_high);
                     JFloat c.(sc_low); JFloat c.(sc_close); JFloat c.(sc_volume); JStr (Provider_value c.(sc_provider))])
        +:+ String (Ascii.ascii_of_nat 10) "").
Definition fingerprint (candles : list SettledCandle) : result string :=
  lines ← map_result fingerprint_line (py_sorted fingerprint_before candles);
  mret (Sha256.hexdigest (String.concat "" lines)).

(** ** Readiness *)

Fixpoint count_weekdays (n : nat) (current : Z) : Z :=
  match n with
  | O => 0
  | S n => (if (current + 3) mod 7 <? 5 then 1 else 0) + count_weekdays n (current + 1)
  end.
(** [_weekday_count] between two days *)
Definition weekday_count (start end_ : Z) : Z := count_weekdays (Z.to_nat (end_ - start + 1)) start.

(** [math.floor(x)] of a finite float *)
Definition floor_float (x : float) : Z := fval x / 2 ^ 1074.
Definition opened_before (a b : SettledCandle) : bool := instant a.(sc_open_time) <? instant b.(sc_open_time).

Definition rows_of (campaign : NseValidationCampaign) (candles : list SettledCandle) (symbol timeframe : string) : list SettledCandle :=
  py_sorted opened_before (List.filter (fun c => String.eqb c.(sc_symbol) symbol && String.eqb c.(sc_timeframe) timeframe
                                                 && bool_decide (c.(sc_symbol) ∈ campaign.(cp_symbols))
                                                 && (instant c.(sc_open_time) <=? instant campaign.(cp_requested_end))) candles).

Definition readiness_reasons (campaign : NseValidationCampaign) (rows : list SettledCandle) (minimum_count : Z) : list string :=
  let start := instant campaign.(cp_requested_start) in
  let coverage := List.filter (fun c => start <=? instant c.(sc_open_time)) rows in
  reason_if (match rows with [] => true | _ => false end) "NO_SETTLED_DHAN_CANDLES"
  ++ reason_if (existsb (fun c => negb (bool_decide (c.(sc_provider) = DHAN))) rows) "NON_DHAN_SOURCE"
  ++ reason_if (match head rows with None => true | Some c => start <? instant c.(sc_open_time) end) "LESS_THAN_TWO_YEARS_HISTORY"
  ++ reason_if (match last rows with
                | None => true
                | Some c => campaign.(cp_config).(nv_maximum_last_bar_age) <? instant campaign.(cp_requested_end) - instant c.(sc_open_time)
                end) "LATEST_CANDLE_STALE"
  ++ reason_if (Z.of_nat (length coverage) <? minimum_count) "INSUFFICIENT_SETTLED_CANDLE_COVERAGE".

Definition minimum_count (campaign : NseValidationCampaign) (timeframe : string) : result Z :=
  bars ← minimum_bars timeframe;
  let sessions := weekday_count (date_of campaign.(cp_requested_start)) (date_of campaign.(cp_requested_end)) in
  x ← float_of_int (sessions * bars);
  mret (floor_float (x * campaign.(cp_config).(nv_minimum_session_coverage))%float).

Definition readiness_of (campaign : NseValidationCampaign) (candles : list SettledCandle) (symbol timeframe : string)
    : result NseReadinessEvidence :=
  let rows := rows_of campaign candles symbol timeframe in
  minimum ← minimum_count campaign timeframe;
  let reasons := readiness_reasons campaign rows minimum in
  let coverage := List.filter (fun c => instant campaign.(cp_requested_start) <=? instant c.(sc_open_time)) rows in
  let first := sc_open_time <$> head rows in
  let final := sc_open_time <$> last rows in
  print ← fingerprint rows;
  mret {| rd_readiness_id := stable_id [campaign.(cp_campaign_id); symbol; timeframe; print]; rd_campaign_id := campaign.(cp_campaign_id);
          rd_symbol := symbol; rd_timeframe := timeframe; rd_first_open := first; rd_last_open := final;
          rd_settled_count := Z.of_nat (length coverage); rd_minimum_settled_count := minimum;
          rd_history_days := match first, final with Some a, Some b => (instant b - instant a) / day | _, _ => 0 end;
          rd_ready := match reasons with [] => true | _ => false end; rd_reasons := reasons; rd_source_fingerprint := print |}.

Definition evaluate_nse_readiness (campaign : NseValidationCampaign) (candles : list SettledCandle) : result (list NseReadinessEvidence) :=
  map_result (fun '(symbol, timeframe) => readiness_of campaign candles symbol timeframe)
    (symbol ← campaign.(cp_symbols); timeframe ← campaign.(cp_config).(nv_required_timeframes); [(symbol, timeframe)]).

(** ** Walk-forward evaluation *)

Record Trade := { td_time : datetime; td_symbol : string; td_gross : float }.

(** [repr] of a datetime with a fixed offset *)
Definition repr_tzinfo (offset : option Z) : list string :=
  match offset with
  | None => []
  | Some o => ["tzinfo=" +:+ (if o =? 0 then "datetime.timezone.utc" else "datetime.timezone(" +:+ (repr_timedelta o +:+ ")"))]
  end.
Definition repr_datetime (t : datetime) : string :=
  let '(y, m, d) := civil (date_of t) in
  let clock := time_of t in
  let h := clock / hour in let mi := (clock mod hour) / minute in let s := (clock mod minute) / second in let us := clock mod second in
  let tail := if us =? 0 then (if s =? 0 then [] else [str_Z s]) else [str_Z s; str_Z us] in
  "datetime.datetime(" +:+ (str_join ", " ([str_Z y; str_Z m; str_Z d; str_Z h; str_Z mi] ++ tail ++ repr_tzinfo t.(utcoffset)) +:+ ")").
Definition repr_optional (t : option datetime) : string := match t with Some t => repr_datetime t | None => "None" end.
Definition repr_bool (b : bool) : string := if b then "True" else "False".
Definition repr_window (w : WalkForwardWindow) : string :=
  repr_dataclass "WalkForwardWindow"
    [("index", str_Z w.(ww_index)); ("started_at", repr_optional w.(ww_started_at)); ("ended_at", repr_optional w.(ww_ended_at));
     ("trade_count", str_Z w.(ww_trade_count)); ("gross_expectancy", repr_float w.(ww_gross_expectancy));
     ("net_expectancy", repr_float w.(ww_net_expectancy)); ("profitable", repr_bool w.(ww_profitable))].
(** [str(t)] *)
Definition str_datetime (t : datetime) : string :=
  str_map (fun c => if Ascii.eqb c "T" then " "%char else c) (isoformat t).

(** [_window] *)
Definition window (index : Z) (rows : list Trade) (cost : float) : result WalkForwardWindow :=
  let count := Z.of_nat (length rows) in
  gross ← (if count =? 0 then mret 0%float else fdiv (py_sum (td_gross <$> rows)) (float_of_Z count));
  let net := if count =? 0 then 0%float else (gross - cost)%float in
  mret {| ww_index := index; ww_started_at := td_time <$> head rows; ww_ended_at := td_time <$> last rows; ww_trade_count := count;
          ww_gross_expectancy := gross; ww_net_expectancy := net; ww_profitable := (0 <? count) && fgt net 0 |}.

(** [closes] and [next_close], keyed by instant *)
Definition closes_of (rows : list SettledCandle) : dict Z float :=
  foldl (fun d c => <[instant c.(sc_open_time) := c.(sc_close)]> d) ∅ rows.
Definition next_step (rows : list SettledCandle) (d : result (dict Z float)) '((opened, following) : SettledCandle * SettledCandle) : result (dict Z float) :=
  d ← d;
  match closes_of rows !! instant following.(sc_open_time) with
  | Some v => mret (<[instant opened.(sc_open_time) := v]> d)
  | None => Err (KeyError (str_datetime following.(sc_open_time)))
  end.
Definition next_close_of (rows : list SettledCandle) : result (dict Z float) :=
  foldl (next_step rows) (mret ∅) (consecutive rows).

Definition technical_of (c : SettledCandle) : result TechnicalCandle :=
  let t := {| tc_event_time := c.(sc_open_time); tc_open := c.(sc_open); tc_high := c.(sc_high); tc_low := c.(sc_low);
              tc_close := c.(sc_close); tc_volume := c.(sc_volume); tc_settled := true |} in
  _ ← TechnicalCandle_post_init t;
  mret t.

Section EvaluateStrategy.
Context (campaign : NseValidationCampaign) (plugin : StrategyPlugin).
Let identity := plugin.(pl_definition).(sd_identity).

Definition context_of (symbol : string) (s : TechnicalFeatureSnapshot) : result StrategyContext :=
  let c := {| cx_market := identity.(si_market); cx_symbol := symbol; cx_sector := None; cx_timeframe := identity.(si_timeframe);
              cx_trade_horizon := identity.(si_trade_horizon); cx_feature_set_version := identity.(si_feature_set_version);
              cx_event_time := s.(tf_event_time);
              cx_gold_snapshot_ids := [stable_id [symbol; identity.(si_timeframe); str_datetime s.(tf_event_time)]];
              cx_features := s.(tf_values); cx_settled := true; cx_complete := true; cx_adjusted := true; cx_fresh := true;
              cx_warm := true; cx_tradeable := true; cx_tradeability_reason := "TRADEABLE"; cx_regime := default_RegimeEvidence |} in
  _ ← StrategyContext_post_init c;
  mret c.

(** The trade of a snapshot, if any. *)
Definition trade_of (symbol : string) (next_close : dict Z float) (s : TechnicalFeatureSnapshot) : result (option Trade) :=
  if negb ((instant campaign.(cp_requested_start) <=? instant s.(tf_event_time))
           && (instant s.(tf_event_time) <=? instant campaign.(cp_requested_end))) then mret None
  else
    match next_close !! instant s.(tf_event_time) with
    | None => mret None
    | Some following =>
        context ← context_of symbol s;
        compatible ← plugin.(pl_compatibility) context;
        signal ← (if (compatible : bool * string).1 then plugin.(pl_generate) context else mret None);
        match signal with
        | None => mret None
        | Some signal =>
            let direction := if bool_decide (signal.(sg_action) = BUY) then 1%float else (-1)%float in
            gross ← fdiv (direction * (following - signal.(sg_reference_price)))%float signal.(sg_reference_price);
            mret (Some {| td_time := s.(tf_event_time); td_symbol := symbol; td_gross := gross |})
        end
    end.

Definition in_series (c : SettledCandle) : bool :=
  bool_decide (c.(sc_symbol) ∈ campaign.(cp_symbols)) && String.eqb c.(sc_timeframe) identity.(si_timeframe)
  && bool_decide (c.(sc_provider) = DHAN) && (instant c.(sc_open_time) <=? instant campaign.(cp_requested_end)).
(** [sorted(series.items())] *)
Definition series (candles : list SettledCandle) : list (string * list SettledCandle) :=
  let kept := List.filter in_series candles in
  (fun symbol => (symbol, List.filter (fun c => String.eqb c.(sc_symbol) symbol) kept))
  <$> py_sorted str_ltb (fromkeys (sc_symbol <$> kept)).

(** The trades of one symbol, whose rows are in order. *)
Definition symbol_trades (symbol : string) (rows : list SettledCandle) : result (list Trade) :=
  technical ← map_result technical_of rows;
  snapshots ← materialize_technical_features 14 14 14 3 technical;
  next_close ← next_close_of rows;
  trades ← map_result (trade_of symbol next_close) snapshots;
  mret (somes trades).

Definition trade_before (a b : Trade) : bool :=
  (instant a.(td_time) <? instant b.(td_time)) || ((instant a.(td_time) =? instant b.(td_time)) && str_ltb a.(td_symbol) b.(td_symbol)).

(** The trades of the campaign in order, and the candles they come from. *)
Definition all_trades (candles : list SettledCandle) : result (list Trade * list SettledCandle) :=
  let ordered := (fun '(symbol, rows) => (symbol, py_sorted opened_before rows)) <$> series candles in
  trades ← map_result (fun '(symbol, rows) => symbol_trades symbol rows) ordered;
  mret (py_sorted trade_before (concat trades), concat ordered.*2).

(** [window_rows]: the slot of every trade *)
Definition slot_of (windows total index : Z) : Z := Z.min (windows - 1) (index * windows / Z.max 1 total).
Definition fold_rows (windows : Z) (ordered : list Trade) : list (list Trade) :=
  (fun k => snd <$> List.filter (fun '(i, _) => slot_of windows (Z.of_nat (length ordered)) (Z.of_nat i) =? Z.of_nat k) (imap pair ordered))
  <$> seq 0 (Z.to_nat windows).

Definition campaign_metrics (cost : float) (ordered : list Trade) (windows : list WalkForwardWindow) : result ValidationMetrics :=
  let gross := td_gross <$> ordered in
  let count := Z.of_nat (length gross) in
  expectancy ← (if count =? 0 then mret 0%float else fdiv (py_sum gross) (float_of_Z count));
  drawdown ← maximum_drawdown ((fun v => v - cost)%float <$> gross);
  p_value ← one_sided_sign_test (count_if (fun v => fgt v cost) gross) count;
  mret {| vm_trade_count := count; vm_walk_forward_windows := Z.of_nat (length windows);
          vm_profitable_windows := count_if ww_profitable windows; vm_gross_expectancy := expectancy;
          vm_estimated_cost_per_trade := cost; vm_maximum_drawdown := drawdown; vm_p_value := p_value;
          vm_tested_hypotheses := campaign.(cp_config).(nv_tested_hypotheses) |}.

(** The readiness evidence that the campaign expects, and what is wrong with
    the evidence it has. *)
Definition expected_readiness : list (string * string) :=
  symbol ← campaign.(cp_symbols); timeframe ← campaign.(cp_config).(nv_required_timeframes); [(symbol, timeframe)].
Definition missing_readiness (readiness : list NseReadinessEvidence) : list string :=
  let observed := (fun item => (item.(rd_symbol), item.(rd_timeframe))) <$> readiness in
  reason_if (negb (bool_decide (Forall (fun x => x ∈ expected_readiness) observed) && bool_decide (Forall (fun x => x ∈ observed) expected_readiness)))
    "MISSING_READINESS_EVIDENCE".
Definition readiness_failures (readiness : list NseReadinessEvidence) : list string :=
  let missing := missing_readiness readiness in
  py_sorted str_ltb (fromkeys ((item ← List.filter (fun item => negb item.(rd_ready)) readiness; "DATA_NOT_READY" :: missing ++ item.(rd_reasons))
                               ++ missing)).

Definition reject_validation (v : ValidationResult) (failures : list string) : ValidationResult :=
  match failures with
  | [] => v
  | _ => {| vr_validation_run_id := v.(vr_validation_run_id); vr_identity := v.(vr_identity); vr_evaluated_at := v.(vr_evaluated_at);
            vr_passed := false; vr_rejection_reasons := fromkeys (v.(vr_rejection_reasons) ++ failures);
            vr_metrics := v.(vr_metrics); vr_policy := v.(vr_policy) |}
  end.

Definition evaluate_nse_strategy (candles : list SettledCandle) (readiness : list NseReadinessEvidence) : result NseStrategyEvidence :=
  _ ← raise_if (negb (String.eqb (Market_value identity.(si_market)) "nse")) (ValueError "NSE validation accepts only NSE strategy identities");
  '(ordered, used) ← all_trades candles;
  cost ← round_trip_fraction campaign.(cp_config).(nv_cost_model);
  windows ← map_result (fun '(i, rows) => window (Z.of_nat i + 1) rows cost) (imap pair (fold_rows campaign.(cp_config).(nv_walk_forward_windows) ordered));
  metrics ← campaign_metrics cost ordered windows;
  v ← validate_strategy identity metrics campaign.(cp_config).(nv_policy) campaign.(cp_evaluated_at);
  let v := reject_validation v (readiness_failures readiness) in
  print ← fingerprint used;
  let cost_model := campaign.(cp_config).(nv_cost_model) in
  mret {| nx_evidence_id := stable_id [campaign.(cp_campaign_id); v.(vr_validation_run_id); print; repr_tuple (List.map repr_window windows);
                                       repr_cost cost_model];
          nx_campaign_id := campaign.(cp_campaign_id); nx_validation := v;
          nx_state := if v.(vr_passed) then RESEARCH else FAILED; nx_data_fingerprint := print; nx_windows := windows;
          nx_cost_model := cost_model; nx_stressed_net_expectancy := (metrics.(vm_gross_expectancy) - cost * 1.5)%float |}.
End EvaluateStrategy.

(** ** The folds *)

(** The first trade of fold [k]: the ceiling of [k * total / windows]. *)
Definition cut (windows total k : Z) : Z := (k * total + windows - 1) / windows.

Lemma cut_bounds windows total k : 0 < windows -> k * total <= windows * cut windows total k < k * total + windows.
Proof.
  intros Hw. unfold cut. pose proof (Z.div_mod (k * total + windows - 1) windows ltac:(lia)).
  pose proof (Z.mod_pos_bound (k * total + windows - 1) windows Hw). lia.
Qed.
Lemma slot_cut windows total i k : 0 < windows -> 0 <= i < total -> 0 <= k < windows ->
  (slot_of windows total i =? k) = (cut windows total k <=? i) && (i <? cut windows total (k + 1)).
Proof.
  intros Hw Hi Hk. unfold slot_of. rewrite (Z.max_r 1 total) by lia.
  pose proof (Z.div_mod (i * windows) total ltac:(lia)) as Hd. pose proof (Z.mod_pos_bound (i * windows) total ltac:(lia)) as Hm.
  pose proof (cut_bounds windows total k Hw) as H1. pose proof (cut_bounds windows total (k + 1) Hw) as H2.
  set (q := i * windows / total) in *. assert (Hq : q <= windows - 1) by nia. rewrite Z.min_r by lia.
  set (a := cut windows total k) in *. set (b := cut windows total (k + 1)) in *. clearbody a b q.
  destruct (Z.eqb_spec q k) as [->|Hne].
  - assert (a <= i) by nia. assert (i < b) by nia. lia.
  - destruct (Z.lt_ge_cases q k); [assert (i < a) by nia; lia|assert (b <= i) by nia; lia].
Qed.

Lemma filter_all {A} (f : A -> bool) l : (forall x, x ∈ l -> f x = true) -> List.filter f l = l.
Proof. induction l as [|x l IH]; intros H; [done|]. cbn. rewrite (H x) by (by left). rewrite IH; [done|]. intros y Hy. apply H. by right. Qed.
Lemma imap_index {A} (off : nat) (l : list A) i x : (i, x) ∈ imap (fun j y => ((off + j)%nat, y)) l -> (off <= i < off + length l)%nat.
Proof.
  intros [j Hj]%list_elem_of_lookup. rewrite list_lookup_imap in Hj. destruct (l !! j) as [y|] eqn:E; [|done].
  injection Hj as <- <-. apply lookup_lt_Some in E. lia.
Qed.
Lemma snd_imap {A} (off : nat) (l : list A) : snd <$> imap (fun j y => ((off + j)%nat, y)) l = l.
Proof.
  apply list_eq. intros i. rewrite list_lookup_fmap, list_lookup_imap. by destruct (l !! i).
Qed.

(** The elements whose index is in an interval are a slice. *)
Lemma slice_filter {A} (l : list A) (a b : nat) (f : nat -> bool) : (a <= b)%nat ->
  (forall i, (i < length l)%nat -> f i = (a <=? i)%nat && (i <? b)%nat) ->
  snd <$> List.filter (fun '(i, _) => f i) (imap pair l) = take (b - a) (drop a l).
Proof.
  intros Hab Hf. rewrite <-(take_drop a l) at 1. rewrite imap_app. rewrite <-(take_drop (b - a) (drop a l)) at 1. rewrite imap_app.
  rewrite !List.filter_app, !fmap_app.
  rewrite (filter_none _ (imap pair (take a l))), (filter_all _ (imap _ (take (b - a) (drop a l)))), (filter_none _ (imap _ (drop (b - a) (drop a l)))).
  - cbn [fmap app]. rewrite app_nil_r. apply (snd_imap (length (take a l))).
  - intros [i x] Hi. assert (Hi' : (i, x) ∈ imap (fun j y => ((length (take a l) + length (take (b - a) (drop a l)) + j)%nat, y)) (drop (b - a) (drop a l))).
    { erewrite imap_ext; [exact Hi|]. intros j y _. cbn. f_equal. lia. }
    apply imap_index in Hi'. rewrite !length_take, !length_drop in Hi'. rewrite Hf by lia. lia.
  - intros [i x] Hi. apply (imap_index (length (take a l))) in Hi. rewrite !length_take, !length_drop in Hi. rewrite Hf by lia. lia.
  - intros [i x] Hi. apply (imap_index 0) in Hi. rewrite length_take in Hi. rewrite Hf by lia. lia.
Qed.

Definition fold_of (windows : Z) (ordered : list Trade) (k : nat) : list Trade :=
  let total := Z.of_nat (length ordered) in
  take (Z.to_nat (cut windows total (Z.of_nat k + 1)) - Z.to_nat (cut windows total (Z.of_nat k))) (drop (Z.to_nat (cut windows total (Z.of_nat k))) ordered).

Lemma cut_mono windows total k k' : 0 < windows -> 0 <= total -> 0 <= k <= k' -> 0 <= cut windows total k <= cut windows total k'.
Proof. intros Hw Ht Hk. unfold cut. split; [apply Z.div_pos; nia|apply Z.div_le_mono; nia]. Qed.
Lemma cut_last windows total : 0 < windows -> cut windows total windows = total.
Proof. intros Hw. pose proof (cut_bounds windows total windows Hw). nia. Qed.

Lemma fold_rows_slices windows ordered : 0 < windows -> fold_rows windows ordered = fold_of windows ordered <$> seq 0 (Z.to_nat windows).
Proof.
  intros Hw. unfold fold_rows. apply list_fmap_ext. intros j k Hk. apply lookup_seq in Hk as [-> Hk]. cbn [Nat.add].
  unfold fold_of. set (total := Z.of_nat (length ordered)).
  pose proof (cut_mono windows total (Z.of_nat j) (Z.of_nat j + 1) Hw ltac:(lia) ltac:(lia)) as Hc.
  apply (slice_filter ordered _ _ (fun i => slot_of windows total (Z.of_nat i) =? Z.of_nat j)); [lia|].
  intros i Hi. rewrite slot_cut by lia. lia.
Qed.

Lemma concat_slices {A} (l : list A) (c : nat -> nat) n : (forall k, (k < n)%nat -> (c k <= c (S k))%nat) ->
  concat ((fun k => take (c (S k) - c k) (drop (c k) l)) <$> seq 0 n) = take (c n - c 0%nat) (drop (c 0%nat) l).
Proof.
  intros Hc. induction n as [|n IH]; [by rewrite Nat.sub_diag|]. rewrite seq_S, fmap_app, concat_app, IH by (intros; apply Hc; lia).
  cbn [fmap list_fmap concat app Nat.add]. rewrite app_nil_r. pose proof (Hc n ltac:(lia)) as Hn.
  assert (Hm : (c 0%nat <= c n)%nat).
  { clear IH. induction n as [|n IHn]; [lia|]. etransitivity; [apply IHn; intros; [apply Hc; lia|apply Hc; lia]|apply Hc; lia]. }
  replace (drop (c n) l) with (drop (c n - c 0%nat) (drop (c 0%nat) l)) by (rewrite drop_drop; f_equal; lia).
  set (l' := drop (c 0%nat) l). replace (c (S n) - c 0%nat)%nat with ((c n - c 0%nat) + (c (S n) - c n))%nat by lia.
  apply take_take_drop.
Qed.

(** The walk-forward folds of a campaign are chronological and disjoint:
    put together they are the trades in order, there are exactly as many
    folds as configured, and every fold has its share of the trades, up to
    one. *)
Theorem folds_partition windows ordered : 0 < windows ->
  concat (fold_rows windows ordered) = ordered /\ length (fold_rows windows ordered) = Z.to_nat windows /\
  forall fold, fold ∈ fold_rows windows ordered ->
    Z.of_nat (length ordered) / windows <= Z.of_nat (length fold) <= Z.of_nat (length ordered) / windows + 1.
Proof.
  intros Hw. rewrite fold_rows_slices by done. split; [|split].
  - set (total := Z.of_nat (length ordered)). unfold fold_of. fold total.
    set (c := fun k : nat => Z.to_nat (cut windows total (Z.of_nat k))).
    assert (Heq : (fun k => take (Z.to_nat (cut windows total (Z.of_nat k + 1)) - Z.to_nat (cut windows total (Z.of_nat k)))
        (drop (Z.to_nat (cut windows total (Z.of_nat k))) ordered)) <$> seq 0 (Z.to_nat windows) =
      (fun k => take (c (S k) - c k) (drop (c k) ordered)) <$> seq 0 (Z.to_nat windows)).
    { apply list_fmap_ext. intros i k _. unfold c. by rewrite Nat2Z.inj_succ, <-Z.add_1_r. }
    rewrite Heq, concat_slices.
    + assert (Hlast : c (Z.to_nat windows) = length ordered) by (unfold c; rewrite Z2Nat.id, cut_last by lia; unfold total; lia).
      assert (H0 : c 0%nat = 0%nat). { unfold c, cut. rewrite Z.mul_0_l, Z.div_small by lia. done. }
      rewrite Hlast, H0, Nat.sub_0_r, drop_0, firstn_all. done.
    + intros k Hk. unfold c. pose proof (cut_mono windows total (Z.of_nat k) (Z.of_nat (S k)) Hw ltac:(lia) ltac:(lia)). lia.
  - by rewrite length_fmap, length_seq.
  - intros fold (k & -> & Hk)%list_elem_of_fmap. apply elem_of_seq in Hk. unfold fold_of. set (total := Z.of_nat (length ordered)).
    rewrite length_take, length_drop.
    pose proof (cut_bounds windows total (Z.of_nat k) Hw) as H1. pose proof (cut_bounds windows total (Z.of_nat k + 1) Hw) as H2.
    pose proof (cut_mono windows total (Z.of_nat k) (Z.of_nat k + 1) Hw ltac:(lia) ltac:(lia)) as H3.
    pose proof (cut_mono windows total (Z.of_nat k + 1) windows Hw ltac:(lia) ltac:(lia)) as H4. rewrite cut_last in H4 by done.
    pose proof (Z.div_mod total windows ltac:(lia)) as Hd. pose proof (Z.mod_pos_bound total windows Hw) as Hm.
    set (a := cut windows total (Z.of_nat k)) in *. set (b := cut windows total (Z.of_nat k + 1)) in *. clearbody a b.
    assert (Hlen : Z.of_nat (Z.to_nat b - Z.to_nat a) = b - a) by lia.
    replace (Nat.min (Z.to_nat b - Z.to_nat a) (length ordered - Z.to_nat a)) with (Z.to_nat b - Z.to_nat a)%nat by lia.
    rewrite Hlen. set (q := total / windows) in *. clearbody q. nia.
Qed.

(** ** What a research verdict requires *)

Lemma readiness_failures_nil campaign readiness : readiness_failures campaign readiness = [] <->
  (forall item, item ∈ readiness -> item.(rd_ready) = true) /\ missing_readiness campaign readiness = [].
Proof.
  unfold readiness_failures. set (missing := missing_readiness campaign readiness).
  set (all := (_ ← _; _) ++ missing).
  assert (Hnil : py_sorted str_ltb (fromkeys all) = [] <-> all = []).
  { split; [|intros ->; done]. intros E. destruct all as [|x l] eqn:Ea; [done|].
    assert (Hx : x ∈ py_sorted str_ltb (fromkeys (x :: l))) by (apply py_sorted_elem, fromkeys_elem; by left).
    rewrite E in Hx. by apply elem_of_nil in Hx. }
  rewrite Hnil. unfold all. split.
  - intros [H1 H2]%app_eq_nil. split; [|done]. intros item Hin. destruct (rd_ready item) eqn:E; [done|]. exfalso.
    assert (H : "DATA_NOT_READY" ∈ (item ← List.filter (fun item => negb (rd_ready item)) readiness; "DATA_NOT_READY" :: missing ++ rd_reasons item)).
    { apply list_elem_of_bind. exists item. split; [by left|]. apply filter_elem. by rewrite E. }
    rewrite H1 in H. by apply elem_of_nil in H.
  - intros [H1 H2]. unfold missing in *. rewrite H2, app_nil_r. rewrite filter_none; [done|]. intros item Hin. by rewrite (H1 _ Hin).
Qed.

(** A strategy reaches RESEARCH only on complete and ready data: there is
    readiness evidence for exactly the campaign's symbols and required
    timeframes, every item of it ready; and the walk-forward metrics of its
    trades passed every gate of the campaign's policy. *)
Theorem research_requires_readiness campaign plugin candles readiness ev :
  evaluate_nse_strategy campaign plugin candles readiness = Ok ev -> ev.(nx_state) = RESEARCH ->
  (forall item, item ∈ readiness -> item.(rd_ready) = true) /\
  (forall symbol timeframe, (symbol ∈ campaign.(cp_symbols) /\ timeframe ∈ campaign.(cp_config).(nv_required_timeframes)) <->
     exists item, item ∈ readiness /\ item.(rd_symbol) = symbol /\ item.(rd_timeframe) = timeframe) /\
  exists ordered used cost windows metrics v, all_trades campaign plugin candles = Ok (ordered, used) /\
    round_trip_fraction campaign.(cp_config).(nv_cost_model) = Ok cost /\ campaign_metrics campaign cost ordered windows = Ok metrics /\
    validate_strategy plugin.(pl_definition).(sd_identity) metrics campaign.(cp_config).(nv_policy) campaign.(cp_evaluated_at) = Ok v /\
    v.(vr_passed) = true /\ ev.(nx_validation) = v /\ ev.(nx_windows) = windows.
Proof.
  unfold evaluate_nse_strategy. intros E Hstate. apply result_bind_ok in E as (u & _ & E).
  apply result_bind_ok in E as ([ordered used] & Etr & E). apply result_bind_ok in E as (cost & Ec & E).
  apply result_bind_ok in E as (windows & _ & E). apply result_bind_ok in E as (metrics & Em & E).
  apply result_bind_ok in E as (v & Ev & E). apply result_bind_ok in E as (print & _ & [= <-]). cbn [nx_state nx_validation nx_windows] in *.
  destruct (readiness_failures campaign readiness) as [|f l] eqn:Ef; [|done]. cbn [reject_validation] in *.
  apply readiness_failures_nil in Ef as [Hready Hmiss]. split; [done|]. split.
  - unfold missing_readiness in Hmiss. destruct (_ && _) eqn:Hb; [|done]. apply andb_prop in Hb as [H1%bool_decide_eq_true H2%bool_decide_eq_true].
    rewrite Forall_forall in H1, H2. intros symbol timeframe.
    assert (Hex : (symbol, timeframe) ∈ expected_readiness campaign <-> symbol ∈ cp_symbols campaign /\ timeframe ∈ nv_required_timeframes (cp_config campaign)).
    { unfold expected_readiness. rewrite list_elem_of_bind. split.
      - intros (s & Hs & Hin). apply list_elem_of_bind in Hs as (t & Ht & Hin'). apply list_elem_of_singleton in Ht. injection Ht as <- <-. done.
      - intros [Hs Ht]. exists symbol. split; [|done]. apply list_elem_of_bind. exists timeframe. split; [by apply list_elem_of_singleton|done]. }
    rewrite <-Hex. split.
    + intros Hin%H2. apply list_elem_of_fmap in Hin as (item & [= -> ->] & Hitem). by exists item.
    + intros (item & Hin & <- & <-). apply H1. apply list_elem_of_fmap. by exists item.
  - exists ordered, used, cost, windows, metrics, v. destruct (vr_passed v) eqn:Hp; [|done]. auto 10.
Qed.

(** From 1024 trades on no evaluation succeeds: the sign test raises. *)
Lemma many_trades_raise campaign plugin candles readiness ordered used :
  all_trades campaign plugin candles = Ok (ordered, used) -> (1024 <= length ordered)%nat ->
  forall ev, evaluate_nse_strategy campaign plugin candles readiness <> Ok ev.
Proof.
  intros Et Hl ev E. unfold evaluate_nse_strategy in E. apply result_bind_ok in E as (u & _ & E). rewrite Et in E.
  apply result_bind_ok in E as (x & [= <-] & E). apply result_bind_ok in E as (cost & _ & E). apply result_bind_ok in E as (windows & _ & E).
  apply result_bind_ok in E as (metrics & Em & _). unfold campaign_metrics in Em. apply result_bind_ok in Em as (a & _ & Em).
  apply result_bind_ok in Em as (b & _ & Em). rewrite sign_test_overflow in Em by (rewrite length_fmap; lia). done.
Qed.


(** ** No look-ahead *)

Definition earlier (a b : SettledCandle) : Prop := instant a.(sc_open_time) < instant b.(sc_open_time).
#[export] Instance earlier_dec : RelDecision earlier.
Proof. intros a b. apply Z_lt_dec. Defined.

Lemma earlier_nodup rows : StronglySorted earlier rows -> NoDup ((fun c => instant c.(sc_open_time)) <$> rows).
Proof.
  induction 1 as [|c rows Hs IH Hall]; cbn; [constructor|]. constructor; [|done].
  intros (d & Hd & Hin)%list_elem_of_fmap. rewrite Forall_forall in Hall. specialize (Hall d Hin). unfold earlier in Hall. lia.
Qed.
Lemma closes_lookup rows c : StronglySorted earlier rows -> c ∈ rows -> closes_of rows !! instant c.(sc_open_time) = Some c.(sc_close).
Proof.
  intros Hs. unfold closes_of. induction rows as [|d rows IH] using rev_ind; [by intros ?%elem_of_nil|].
  apply StronglySorted_app in Hs as (Hx & H1 & _). rewrite foldl_app. cbn [foldl]. rewrite elem_of_app, list_elem_of_singleton. intros [Hin| ->].
  - rewrite dict_lookup_insert_ne; [by apply IH|]. specialize (Hx c d Hin ltac:(by left)). unfold earlier in Hx. lia.
  - apply dict_lookup_insert_eq.
Qed.

(** [next_close] as it is when the opens are distinct *)
Definition pay (d : dict Z float) (p : SettledCandle * SettledCandle) : dict Z float := <[instant p.1.(sc_open_time) := p.2.(sc_close)]> d.

Lemma next_close_pairs rows pairs d : StronglySorted earlier rows -> (forall p, p ∈ pairs -> p.2 ∈ rows) ->
  foldl (next_step rows) (mret d) pairs = Ok (foldl pay d pairs).
Proof.
  intros Hs. revert d. induction pairs as [|[a b] pairs IH]; intros d Hin; [done|]. cbn [foldl].
  unfold next_step at 2. change (mret d ≫= ?f) with (f d). cbv beta. rewrite (closes_lookup rows b Hs) by (apply (Hin (a, b)); by left).
  apply (IH (pay d (a, b))). intros p Hp. apply Hin. by right.
Qed.
Lemma next_close_paid rows : StronglySorted earlier rows -> next_close_of rows = Ok (foldl pay ∅ (consecutive rows)).
Proof.
  intros Hs. apply next_close_pairs; [done|]. intros [a b] Hp. by apply (consecutive_elem earlier rows a b Hs) in Hp as (_ & Hb & _).
Qed.
Lemma pay_other pairs d t : (forall p, p ∈ pairs -> instant p.1.(sc_open_time) <> t) -> foldl pay d pairs !! t = d !! t.
Proof.
  revert d. induction pairs as [|p pairs IH]; intros d H; [done|]. cbn [foldl]. rewrite IH by (intros q Hq; apply H; by right).
  unfold pay. apply dict_lookup_insert_ne. apply H. by left.
Qed.
Lemma consecutive_split {A} (past : list A) c future :
  consecutive (past ++ c :: future) = consecutive (past ++ [c]) ++ consecutive (c :: future).
Proof.
  unfold consecutive. induction past as [|a past IH]; [done|]. destruct past as [|b past]; [done|].
  cbn [app tail zip zip_with] in IH |- *. f_equal. exact IH.
Qed.

Section TradesNoLookahead.
Context (campaign : NseValidationCampaign) (plugin : StrategyPlugin).
Local Abbreviation trade_of := (trade_of campaign plugin).

Lemma trade_time symbol d s t : trade_of symbol d s = Ok (Some t) -> t.(td_time) = s.(tf_event_time).
Proof.
  unfold NseValidation.trade_of. destruct (negb _); [done|]. destruct (d !! _); [|done].
  intros (cx & _ & E)%result_bind_ok. apply result_bind_ok in E as (k & _ & E). apply result_bind_ok in E as (sg & _ & E).
  destruct sg; [|done]. by apply result_bind_ok in E as (g & _ & [= <-]).
Qed.
Lemma trade_of_ext symbol d d' s : d !! instant s.(tf_event_time) = d' !! instant s.(tf_event_time) -> trade_of symbol d s = trade_of symbol d' s.
Proof. intros E. unfold NseValidation.trade_of. by rewrite E. Qed.
Lemma trade_of_none symbol d s : d !! instant s.(tf_event_time) = None -> trade_of symbol d s = Ok None.
Proof. intros E. unfold NseValidation.trade_of. rewrite E. by destruct (negb _). Qed.

Definition before (cut : Z) (t : Trade) : bool := instant t.(td_time) <? cut.

(** The trades of the snapshots before a bar, by the closes known up to it. *)
Lemma trades_cut symbol d d' cut snaps trades' :
  (forall t, t < cut -> d !! t = d' !! t) -> (forall t, cut <= t -> d !! t = None) ->
  map_result (trade_of symbol d') snaps = Ok trades' ->
  exists trades, map_result (trade_of symbol d) snaps = Ok trades /\ somes trades = List.filter (before cut) (somes trades').
Proof.
  intros Hlt Hge. revert trades'. induction snaps as [|s snaps IH]; intros trades'; [intros [= <-]; by exists []|].
  cbn [map_result]. intros (o & Ho & E)%result_bind_ok. apply result_bind_ok in E as (os & Hos & [= <-]).
  destruct (IH os Hos) as (trades & Ht & Hs). destruct (Z.lt_ge_cases (instant s.(tf_event_time)) cut) as [H|H].
  - exists (o :: trades). rewrite (trade_of_ext _ d d') by auto. rewrite Ho, Ht. split; [done|]. rewrite !somes_cons.
    destruct o as [t|]; [|done]. cbn [List.filter]. unfold before at 1. rewrite (trade_time _ _ _ _ Ho). rewrite (proj2 (Z.ltb_lt _ _) H).
    by rewrite Hs.
  - exists (None :: trades). rewrite (trade_of_none _ d) by auto. rewrite Ht. split; [done|]. rewrite !somes_cons.
    destruct o as [t|]; [|done]. cbn [List.filter]. unfold before at 1. rewrite (trade_time _ _ _ _ Ho). rewrite (proj2 (Z.ltb_ge _ _) H). done.
Qed.
Lemma trades_after symbol d cut snaps trades : (forall s, s ∈ snaps -> cut <= instant s.(tf_event_time)) ->
  map_result (trade_of symbol d) snaps = Ok trades -> List.filter (before cut) (somes trades) = [].
Proof.
  intros H E. apply filter_none. intros t Ht%somes_elem. destruct (map_result_elem _ _ _ _ E Ht) as (s & Hs & Ho).
  unfold before. rewrite (trade_time _ _ _ _ Ho). specialize (H s Hs). lia.
Qed.

Lemma technical_rows rows tech : map_result technical_of rows = Ok tech ->
  tc_event_time <$> tech = sc_open_time <$> rows /\ List.filter tc_settled tech = tech.
Proof.
  rewrite map_result_ok. induction 1 as [|c t rows tech H _ [IH1 IH2]]; [done|]. unfold technical_of in H.
  apply result_bind_ok in H as (u & _ & [= <-]). cbn. by rewrite IH1, IH2.
Qed.

(** C24. The result of a trade is known once the next bar is: whatever candles
    come after bar [c], the trades of the bars before it, their direction and
    their returns are those computed from the candles up to [c] alone, and a
    run over these raises nothing the longer one did not. *)
Theorem trades_no_lookahead symbol past c future trades :
  StronglySorted earlier (past ++ c :: future) ->
  symbol_trades campaign plugin symbol (past ++ c :: future) = Ok trades ->
  symbol_trades campaign plugin symbol (past ++ [c]) = Ok (List.filter (before (instant c.(sc_open_time))) trades).
Proof.
  intros Hs E. set (cut := instant c.(sc_open_time)). unfold symbol_trades in *.
  assert (Happ : past ++ c :: future = (past ++ [c]) ++ future) by by rewrite <-app_assoc.
  assert (Hs' : StronglySorted earlier (past ++ [c])) by (rewrite Happ in Hs; by apply StronglySorted_app_1_l in Hs).
  apply result_bind_ok in E as (tech' & Htech & E). apply result_bind_ok in E as (snaps' & Hsnaps & E).
  rewrite (next_close_paid _ Hs) in E. apply result_bind_ok in E as (d' & [= Hd] & E). apply result_bind_ok in E as (os & Hos & [= <-]).
  rewrite Happ in Htech. apply map_result_app in Htech as (tech & techf & Htech & Htechf & ->).
  destruct (technical_rows _ _ Htech) as [Ht Hset]. destruct (technical_rows _ _ Htechf) as [Htf Hsetf].
  destruct (materialize_prefix 14 14 14 3 tech techf (tech ++ techf) snaps') as (snaps & later & Hm & -> & Hlater); [done| | |done|].
  { rewrite List.filter_app, Hset, Hsetf. apply earlier_nodup in Hs. rewrite Happ in Hs.
    replace ((fun c => instant (tc_event_time c)) <$> tech ++ techf) with (instant <$> (sc_open_time <$> (past ++ [c]) ++ future));
      [by rewrite <-list_fmap_compose|]. rewrite fmap_app, <-Ht, <-Htf, <-fmap_app. by rewrite <-list_fmap_compose. }
  { intros a f Ha Hf. apply (list_elem_of_fmap_2 tc_event_time) in Ha, Hf. rewrite Ht in Ha. rewrite Htf in Hf.
    apply list_elem_of_fmap in Ha as (a' & -> & Ha), Hf as (f' & -> & Hf). rewrite Happ in Hs.
    exact (StronglySorted_app_1_elem_of _ _ _ _ _ Hs Ha Hf). }
  apply map_result_app in Hos as (os1 & os2 & H1 & H2 & ->).
  assert (Hle : forall x, x ∈ c :: future -> cut <= instant x.(sc_open_time)).
  { intros x [->|Hx]%elem_of_cons; [unfold cut; lia|]. apply StronglySorted_app_1_r in Hs. apply StronglySorted_inv in Hs as [_ Hall].
    rewrite Forall_forall in Hall. specialize (Hall x Hx). unfold earlier in Hall. unfold cut. lia. }
  assert (Hlt : forall p, p ∈ consecutive (past ++ [c]) -> instant p.1.(sc_open_time) < cut).
  { intros [a b] (_ & Hb & Hab)%(consecutive_elem earlier _ _ _ Hs'). unfold earlier in Hab. cbn. unfold cut.
    apply elem_of_app in Hb as [Hb| ->%list_elem_of_singleton]; [|done]. pose proof (StronglySorted_app_1_elem_of _ _ _ _ _ Hs' Hb ltac:(by left)) as H.
    unfold earlier in H. lia. }
  destruct (trades_cut symbol (foldl pay ∅ (consecutive (past ++ [c]))) d' cut snaps os1) as (os & Hos & Heq); [| |done|].
  - intros t Hlt'. rewrite <-Hd, (consecutive_split past c future), foldl_app. symmetry. apply pay_other. intros [a b] Hp.
    apply StronglySorted_app_1_r in Hs. apply (consecutive_elem earlier _ _ _ Hs) in Hp as (Ha & _ & _). specialize (Hle a Ha). cbn. lia.
  - intros t Hge. rewrite pay_other; [apply dict_lookup_empty|]. intros p Hp. specialize (Hlt p Hp). lia.
  - rewrite Htech. change (Ok tech ≫= ?f) with (f tech). cbv beta. rewrite Hm. change (Ok snaps ≫= ?f) with (f snaps). cbv beta.
    rewrite (next_close_paid _ Hs'). change (Ok ?x ≫= ?f) with (f x). cbv beta. rewrite Hos. change (Ok os ≫= ?f) with (f os). cbv beta.
    rewrite Heq, somes_app, List.filter_app. rewrite (trades_after symbol d' cut later os2); [by rewrite app_nil_r| |done].
    intros s (f & Hf & _ & ->)%Hlater. apply (list_elem_of_fmap_2 tc_event_time) in Hf. rewrite Htf in Hf.
    apply list_elem_of_fmap in Hf as (f' & -> & Hf). apply Hle. by right.
Qed.
End TradesNoLookahead.

Module NseValidationExample.

Definition t0 : Z := (1709200000 * second)%Z.
(** A symbol that rises by one every fifteen minutes. *)
Definition candle (k : nat) : SettledCandle :=
  let base := (100 + float_of_Z (Z.of_nat k))%float in {|
  sc_symbol := "INFY"; sc_timeframe := "15m"; sc_open_time := at_utc (t0 + Z.of_nat k * 15 * minute); sc_open := base; sc_high := (base + 2)%float;
  sc_low := (base - 1)%float; sc_close := (base + 0.5)%float; sc_volume := 1000; sc_provider := DHAN |}.
Definition candles : list SettledCandle := candle <$> seq 0 32.
Definition config : NseValidationConfig := {|
  nv_minimum_history_days := 730; nv_required_timeframes := REQUIRED_NSE_TIMEFRAMES; nv_walk_forward_windows := 2; nv_minimum_session_coverage := 0.8;
  nv_maximum_last_bar_age := 4 * day; nv_tested_hypotheses := 1;
  nv_cost_model := {| nc_brokerage_bps := 3; nc_taxes_and_fees_bps := 7; nc_slippage_bps := 5 |};
  nv_policy := {| vp_minimum_trades := 3; vp_minimum_walk_forward_windows := 2; vp_minimum_profitable_window_ratio := 0.5;
                  vp_minimum_net_expectancy := 0; vp_maximum_drawdown := 0.2; vp_family_wise_alpha := 0.2 |} |}.
Definition campaign : NseValidationCampaign := {|
  cp_campaign_id := "campaign"; cp_evaluated_at := at_utc (t0 + day); cp_requested_start := at_utc (t0 - 729 * day);
  cp_requested_end := at_utc (t0 + day); cp_symbols := ["INFY"]; cp_config := config; cp_source_provider := DHAN |}.
Definition ready (timeframe : string) : NseReadinessEvidence := {|
  rd_readiness_id := "ready-" +:+ timeframe; rd_campaign_id := "campaign"; rd_symbol := "INFY"; rd_timeframe := timeframe;
  rd_first_open := Some (at_utc (t0 - 730 * day)); rd_last_open := Some (at_utc t0); rd_settled_count := 40000; rd_minimum_settled_count := 31000;
  rd_history_days := 730; rd_ready := true; rd_reasons := []; rd_source_fingerprint := "print" |}.
Definition readiness : list NseReadinessEvidence := ready <$> REQUIRED_NSE_TIMEFRAMES.
Definition definition : StrategyDefinition := {|
  sd_identity := {| si_market := NSE; si_strategy_id := "momentum"; si_strategy_version := "1.0.0"; si_timeframe := "15m";
                    si_trade_horizon := "intraday"; si_feature_set_version := 2 |};
  sd_family := "trend"; sd_parameters := []; sd_implementation_ref := "example" |}.
Definition plugin : StrategyPlugin := {|
  pl_object := 1; pl_definition := definition; pl_compatibility := fun _ => Ok (true, "COMPATIBLE");
  pl_generate := fun c =>
    close ← (match c.(cx_features) !! "close" with Some v => Ok v | None => Err (KeyError "close") end);
    mret (Some {| sg_action := BUY; sg_confidence := 0.75; sg_reference_price := close; sg_stop_price := 1; sg_target_price := 1000;
                  sg_estimated_cost_r := 0.1; sg_historical_expectancy_r := 0.25; sg_ml_tilt_r := 0 |}) |}.

Lemma example_valid : NseValidationConfig_post_init config = Ok tt /\ Forall (fun c => SettledCandle_post_init c = Ok tt) candles.
Proof. split; [vm_compute; reflexivity|]. repeat constructor. Qed.

Definition traded (rows : list SettledCandle) : list Trade :=
  match symbol_trades campaign plugin "INFY" rows with Ok l => l | Err _ => [] end.
Definition past : list SettledCandle := candle <$> seq 0 29.
Definition future : list SettledCandle := candle <$> seq 30 2.

Lemma folds_partition_witness :
  length (traded candles) = 5%nat /\ concat (fold_rows 3 (traded candles)) = traded candles /\ length (fold_rows 3 (traded candles)) = 3%nat.
Proof.
  destruct (folds_partition 3 (traded candles) ltac:(lia)) as (H1 & H2 & _). split; [vm_compute; reflexivity|].
  split; [exact H1|exact H2].
Defined.

Lemma candles_in_order : StronglySorted earlier (past ++ candle 29 :: future).
Proof. apply (bool_decide_unpack (StronglySorted earlier _)). vm_compute. exact I. Qed.

Lemma trades_no_lookahead_witness :
  candles = past ++ candle 29 :: future /\
  symbol_trades campaign plugin "INFY" (past ++ [candle 29]) = Ok (List.filter (before (instant (candle 29).(sc_open_time))) (traded candles)).
Proof.
  split; [reflexivity|]. apply (trades_no_lookahead campaign plugin "INFY" past (candle 29) future); [exact candles_in_order|].
  vm_compute. reflexivity.
Defined.

Lemma research_requires_readiness_witness :
  exists ev, evaluate_nse_strategy campaign plugin candles readiness = Ok ev /\ ev.(nx_state) = RESEARCH /\
    forall item, item ∈ readiness -> item.(rd_ready) = true.
Proof.
  destruct (evaluate_nse_strategy campaign plugin candles readiness) as [ev|e] eqn:E.
  - assert (H : ev.(nx_state) = RESEARCH).
    { enough (Hb : match evaluate_nse_strategy campaign plugin candles readiness with Ok ev => bool_decide (ev.(nx_state) = RESEARCH) | Err _ => false end = true).
      { rewrite E in Hb. exact (bool_decide_eq_true_1 _ Hb). }
      vm_compute. reflexivity. }
    exists ev. split; [reflexivity|]. split; [exact H|].
    apply (research_requires_readiness campaign plugin candles readiness ev E H).
  - exfalso. enough (Hb : match evaluate_nse_strategy campaign plugin candles readiness with Ok _ => true | Err _ => false end = true).
    { rewrite E in Hb. discriminate Hb. }
    vm_compute. reflexivity.
Defined.
End NseValidationExample.
