(* ===== verification/RegistryStore.v ===== *)
(** * The durable strategy registry (src/nanodelta/strategies/postgres.py)

    The Postgres registry keeps the dicts of the in-memory registry of
    [Registry] as a cache of the process: a write loads what the dicts lack
    from the tables, runs the in-memory operation, writes its row and reads it
    back; the reads of the decision cycle look at the tables alone.

    A write is a transaction of the tables.  The dicts are not restored when
    it raises, and any statement may fail: [rp_faults] lists the outcomes of
    the calls to the database that are still to come.  A jsonb column of
    numbers holds them as decimals, which have no NaN, no infinity and one
    zero; text columns with the values of an enumeration hold the enumeration.

    The theorems: every write that returns does to the tables what the
    in-memory registry does, for any number of processes with any history; the
    reads are those of the in-memory registry; an approval that was revoked
    stays revoked whatever the caches of other processes say. *)

From Stdlib Require Import ZArith Lia Floats Ascii String ZifyBool.
From stdpp Require Import prelude strings pretty numbers list sorting.
From S2P Require Import Prelude PyData PyFloat FloatTheory PyText Sha256 PyTime Sql Contracts.
From S2P Require Import Registry NseValidation.

Local Open Scope Z_scope.

(** ** The tables *)

(** [research.strategy_definitions]; [df_identity] is its columns market,
    strategy_id, strategy_version, timeframe, trade_horizon and
    feature_set_version *)
Record DefinitionRow := {
  df_strategy_key : string;
  df_identity : StrategyIdentity;
  df_family : string;
  df_parameters : list (string * string);
  df_implementation_ref : string }.
(** [research.validation_runs] *)
Record ValidationRow := {
  vw_validation_run_id : string;
  vw_strategy_key : string;
  vw_evaluated_at : datetime;
  vw_passed : bool;
  vw_metrics : ValidationMetrics;
  vw_policy : ValidationPolicy;
  vw_rejection_reasons : list string }.
(** [research.strategy_approvals] *)
Record ApprovalRow := {
  aw_approval_id : string;
  aw_strategy_key : string;
  aw_validation_run_id : string;
  aw_state : ApprovalState;
  aw_approved_at : datetime;
  aw_expires_at : datetime;
  aw_approved_by : string;
  aw_reason : string }.
(** [research.nse_strategy_evidence], which the trigger of the approvals reads *)
Record EvidenceRow := {
  ew_evidence_id : string;
  ew_campaign_id : string;
  ew_validation_run_id : string;
  ew_strategy_key : string;
  ew_research_state : ResearchState;
  ew_data_fingerprint : string;
  ew_walk_forward_windows : list WalkForwardWindow;
  ew_cost_model : NseCostModel;
  ew_stressed_net_expectancy : float }.

Record RegistryTables := {
  rt_definitions : list DefinitionRow;
  rt_validations : list ValidationRow;
  rt_approvals : list ApprovalRow;
  rt_evidence : list EvidenceRow }.
Definition set_definition_rows (rows : list DefinitionRow) (t : RegistryTables) : RegistryTables :=
  {| rt_definitions := rows; rt_validations := t.(rt_validations); rt_approvals := t.(rt_approvals); rt_evidence := t.(rt_evidence) |}.
Definition set_validation_rows (rows : list ValidationRow) (t : RegistryTables) : RegistryTables :=
  {| rt_definitions := t.(rt_definitions); rt_validations := rows; rt_approvals := t.(rt_approvals); rt_evidence := t.(rt_evidence) |}.
Definition set_approval_rows (rows : list ApprovalRow) (t : RegistryTables) : RegistryTables :=
  {| rt_definitions := t.(rt_definitions); rt_validations := t.(rt_validations); rt_approvals := rows; rt_evidence := t.(rt_evidence) |}.
Definition set_evidence_rows (rows : list EvidenceRow) (t : RegistryTables) : RegistryTables :=
  {| rt_definitions := t.(rt_definitions); rt_validations := t.(rt_validations); rt_approvals := t.(rt_approvals); rt_evidence := rows |}.

(** The process: the database, its dicts, and what the database will answer. *)
Record RegistryProcess := {
  rp_tables : RegistryTables;
  rp_cache : StrategyRegistry;
  rp_faults : list (option string) }.

(** [connect()], [execute(...)] or [commit()]: it may raise. *)
Definition statement : M RegistryProcess unit := fun s =>
  match s.(rp_faults) with
  | [] => (Ok (), s)
  | f :: rest => (match f with Some msg => Err (OtherException "DatabaseError" msg) | None => Ok () end, {| rp_tables := s.(rp_tables); rp_cache := s.(rp_cache); rp_faults := rest |})
  end.
Definition reg_tables {A} (m : M RegistryTables A) : M RegistryProcess A :=
  zoom rp_tables (fun t s => {| rp_tables := t; rp_cache := s.(rp_cache); rp_faults := s.(rp_faults) |}) m.
Definition reg_cache {A} (m : M StrategyRegistry A) : M RegistryProcess A :=
  zoom rp_cache (fun c s => {| rp_tables := s.(rp_tables); rp_cache := c; rp_faults := s.(rp_faults) |}) m.

(** [connect(); try: ...; commit() except: rollback(); raise] *)
Definition registry_transaction {A} (m : M RegistryProcess A) : M RegistryProcess A := fun s =>
  match (_ ← statement; a ← m; _ ← statement; mret a) s with
  | (Ok a, s') => (Ok a, s')
  | (Err e, s') => (Err e, {| rp_tables := s.(rp_tables); rp_cache := s'.(rp_cache); rp_faults := s'.(rp_faults) |})
  end.

(** ** Rows and records *)

Definition identity_row (i : StrategyIdentity) : result StrategyIdentity :=
  _ ← raise_if (2147483647 <? i.(si_feature_set_version)) out_of_range; mret i.
Definition definition_row (d : StrategyDefinition) : result DefinitionRow :=
  identity ← identity_row d.(sd_identity);
  mret {| df_strategy_key := identity_key identity; df_identity := identity; df_family := d.(sd_family);
          df_parameters := d.(sd_parameters); df_implementation_ref := d.(sd_implementation_ref) |}.

(** [_identity_from_row]: the constructor checks the columns *)
Definition identity_from_row (d : DefinitionRow) : result StrategyIdentity :=
  _ ← StrategyIdentity_post_init d.(df_identity); mret d.(df_identity).
(** [_definition_from_row] *)
Definition definition_from_row (row : DefinitionRow) : result StrategyDefinition :=
  identity ← identity_from_row row;
  let d := {| sd_identity := identity; sd_family := row.(df_family); sd_parameters := row.(df_parameters);
              sd_implementation_ref := row.(df_implementation_ref) |} in
  _ ← StrategyDefinition_post_init d; mret d.

Definition stored_metrics (m : ValidationMetrics) : ValidationMetrics := {|
  vm_trade_count := m.(vm_trade_count); vm_walk_forward_windows := m.(vm_walk_forward_windows); vm_profitable_windows := m.(vm_profitable_windows);
  vm_gross_expectancy := jsonb_number m.(vm_gross_expectancy); vm_estimated_cost_per_trade := jsonb_number m.(vm_estimated_cost_per_trade);
  vm_maximum_drawdown := jsonb_number m.(vm_maximum_drawdown); vm_p_value := jsonb_number m.(vm_p_value); vm_tested_hypotheses := m.(vm_tested_hypotheses) |}.
Definition stored_policy (p : ValidationPolicy) : ValidationPolicy := {|
  vp_minimum_trades := p.(vp_minimum_trades); vp_minimum_walk_forward_windows := p.(vp_minimum_walk_forward_windows);
  vp_minimum_profitable_window_ratio := jsonb_number p.(vp_minimum_profitable_window_ratio);
  vp_minimum_net_expectancy := jsonb_number p.(vp_minimum_net_expectancy); vp_maximum_drawdown := jsonb_number p.(vp_maximum_drawdown);
  vp_family_wise_alpha := jsonb_number p.(vp_family_wise_alpha) |}.
Definition metrics_floats (m : ValidationMetrics) : list float :=
  [m.(vm_gross_expectancy); m.(vm_estimated_cost_per_trade); m.(vm_maximum_drawdown); m.(vm_p_value)].
Definition policy_floats (p : ValidationPolicy) : list float :=
  [p.(vp_minimum_profitable_window_ratio); p.(vp_minimum_net_expectancy); p.(vp_maximum_drawdown); p.(vp_family_wise_alpha)].
Definition validation_row (v : ValidationResult) : result ValidationRow :=
  _ ← jsonb_floats (metrics_floats v.(vr_metrics));
  _ ← jsonb_floats (policy_floats v.(vr_policy));
  mret {| vw_validation_run_id := v.(vr_validation_run_id); vw_strategy_key := identity_key v.(vr_identity);
          vw_evaluated_at := timestamptz v.(vr_evaluated_at); vw_passed := v.(vr_passed); vw_metrics := stored_metrics v.(vr_metrics);
          vw_policy := stored_policy v.(vr_policy); vw_rejection_reasons := v.(vr_rejection_reasons) |}.
(** [_validation_from_row] of a run and its definition *)
Definition validation_from_row (v : ValidationRow) (d : DefinitionRow) : result ValidationResult :=
  identity ← identity_from_row d;
  _ ← ValidationPolicy_post_init v.(vw_policy);
  mret {| vr_validation_run_id := v.(vw_validation_run_id); vr_identity := identity; vr_evaluated_at := v.(vw_evaluated_at);
          vr_passed := v.(vw_passed); vr_rejection_reasons := v.(vw_rejection_reasons); vr_metrics := v.(vw_metrics); vr_policy := v.(vw_policy) |}.

Definition approval_row (a : StrategyApproval) : ApprovalRow := {|
  aw_approval_id := a.(sa_approval_id); aw_strategy_key := identity_key a.(sa_identity); aw_validation_run_id := a.(sa_validation_run_id);
  aw_state := a.(sa_state); aw_approved_at := timestamptz a.(sa_approved_at); aw_expires_at := timestamptz a.(sa_expires_at);
  aw_approved_by := a.(sa_approved_by); aw_reason := a.(sa_reason) |}.
(** [_approval_from_row] of an approval and its definition *)
Definition approval_from_row (a : ApprovalRow) (d : DefinitionRow) : result StrategyApproval :=
  identity ← identity_from_row d;
  mret {| sa_approval_id := a.(aw_approval_id); sa_identity := identity; sa_validation_run_id := a.(aw_validation_run_id);
          sa_state := a.(aw_state); sa_approved_at := a.(aw_approved_at); sa_expires_at := a.(aw_expires_at);
          sa_approved_by := a.(aw_approved_by); sa_reason := a.(aw_reason) |}.

(** ** Hydration *)

Definition keyed_definition (key : string) (t : RegistryTables) : option DefinitionRow :=
  List.find (fun d => d.(df_strategy_key) ==p key) t.(rt_definitions).

Definition cache_definition (i : StrategyIdentity) (d : StrategyDefinition) : M StrategyRegistry unit :=
  modify (fun c => set_definitions (<[i := d]> c.(reg_definitions)) c).
Definition cache_validation (k : string) (v : ValidationResult) : M StrategyRegistry unit :=
  modify (fun c => set_validations (<[k := v]> c.(reg_validations)) c).
Definition cache_approval (k : string) (a : StrategyApproval) : M StrategyRegistry unit :=
  modify (fun c => set_approvals (<[k := a]> c.(reg_approvals)) c).

(** [_hydrate_definition] *)
Definition hydrate_definition (identity : StrategyIdentity) : M RegistryProcess unit :=
  s ← get_state;
  if dict_mem identity s.(rp_cache).(reg_definitions) then mret ()
  else
    _ ← statement;
    match keyed_definition (identity_key identity) s.(rp_tables) with
    | Some row => d ← lift (definition_from_row row); reg_cache (cache_definition identity d)
    | None => mret ()
    end.
(** [_load_definition] *)
Definition load_definition (identity : StrategyIdentity) : M RegistryProcess StrategyDefinition :=
  _ ← statement;
  s ← get_state;
  match keyed_definition (identity_key identity) s.(rp_tables) with
  | Some row => lift (definition_from_row row)
  | None => raise (RuntimeError "strategy definition insert did not persist")
  end.

(** [FROM research.validation_runs v JOIN research.strategy_definitions d ... WHERE v.validation_run_id=...] *)
Definition validation_rows (validation_run_id : string) (t : RegistryTables) : list (ValidationRow * DefinitionRow) :=
  v ← List.filter (fun v => v.(vw_validation_run_id) ==p validation_run_id) t.(rt_validations);
  d ← List.filter (fun d => d.(df_strategy_key) ==p v.(vw_strategy_key)) t.(rt_definitions);
  [(v, d)].
(** [_hydrate_validation] *)
Definition hydrate_validation (validation_run_id : string) : M RegistryProcess unit :=
  s ← get_state;
  if dict_mem validation_run_id s.(rp_cache).(reg_validations) then mret ()
  else
    _ ← statement;
    match validation_rows validation_run_id s.(rp_tables) with
    | (v, d) :: _ => r ← lift (validation_from_row v d); reg_cache (cache_validation validation_run_id r)
    | [] => mret ()
    end.

(** [FROM research.strategy_approvals a JOIN research.strategy_definitions d ...] of the approvals that satisfy a condition *)
Definition approval_rows (p : ApprovalRow -> bool) (t : RegistryTables) : list (ApprovalRow * DefinitionRow) :=
  a ← List.filter p t.(rt_approvals);
  d ← List.filter (fun d => d.(df_strategy_key) ==p a.(aw_strategy_key)) t.(rt_definitions);
  [(a, d)].
(** [_load_approval] *)
Definition load_approval (approval_id : string) : M RegistryProcess StrategyApproval :=
  _ ← statement;
  s ← get_state;
  match approval_rows (fun a => a.(aw_approval_id) ==p approval_id) s.(rp_tables) with
  | (a, d) :: _ => lift (approval_from_row a d)
  | [] => raise (LookupError "approval is not registered")
  end.
(** [try: ... except LookupError: return] *)
Definition except_lookup {A} (m : M RegistryProcess A) : M RegistryProcess (option A) := fun s =>
  match m s with
  | (Ok a, s') => (Ok (Some a), s')
  | (Err (LookupError _), s') | (Err (KeyError _), s') => (Ok None, s')
  | (Err e, s') => (Err e, s')
  end.
(** [_hydrate_approval(..., force=True)], as both callers ask for it *)
Definition hydrate_approval (approval_id : string) : M RegistryProcess unit :=
  _ ← reg_cache (modify (fun c => set_approvals (delete approval_id c.(reg_approvals)) c));
  found ← except_lookup (load_approval approval_id);
  match found with Some a => reg_cache (cache_approval approval_id a) | None => mret () end.

(** ** Writes *)

(** [INSERT INTO research.strategy_definitions ... ON CONFLICT (strategy_key) DO NOTHING] *)
Definition insert_definition (d : StrategyDefinition) : M RegistryTables unit :=
  t ← get_state;
  row ← lift (definition_row d);
  _ ← lift (check (0 <? row.(df_identity).(si_feature_set_version)));
  if has_key df_strategy_key t.(rt_definitions) row.(df_strategy_key) then mret ()
  else
    _ ← lift (raise_if (existsb (fun r => r.(df_identity) ==p row.(df_identity)) t.(rt_definitions)) unique_violation);
    modify (set_definition_rows (t.(rt_definitions) ++ [row])).
(** [register] *)
Definition durable_register (definition : StrategyDefinition) : M RegistryProcess unit :=
  registry_transaction (
    _ ← hydrate_definition definition.(sd_identity);
    _ ← reg_cache (register definition);
    _ ← statement;
    _ ← reg_tables (insert_definition definition);
    persisted ← load_definition definition.(sd_identity);
    _ ← lift (raise_if (persisted !=p definition) (ValueError "strategy identity is immutable; publish a new version"));
    reg_cache (cache_definition definition.(sd_identity) persisted)).

(** [INSERT INTO research.validation_runs ... ON CONFLICT (validation_run_id) DO NOTHING] *)
Definition insert_validation (v : ValidationResult) : M RegistryTables unit :=
  t ← get_state;
  row ← lift (validation_row v);
  if has_key vw_validation_run_id t.(rt_validations) row.(vw_validation_run_id) then mret ()
  else
    _ ← lift (references df_strategy_key t.(rt_definitions) row.(vw_strategy_key));
    modify (set_validation_rows (t.(rt_validations) ++ [row])).
(** [record_validation] *)
Definition durable_record_validation (v : ValidationResult) : M RegistryProcess unit :=
  registry_transaction (
    _ ← hydrate_definition v.(vr_identity);
    _ ← hydrate_validation v.(vr_validation_run_id);
    _ ← reg_cache (record_validation v);
    _ ← statement;
    reg_tables (insert_validation v)).

(** The trigger [research.require_nse_technical_validation_evidence] *)
Definition nse_technical (d : DefinitionRow) : bool :=
  (d.(df_identity).(si_market) ==p NSE) &&
  bool_decide (d.(df_identity).(si_strategy_id) ∈ ["vwap_pullback"; "ema_rsi_continuation"; "supertrend_adx"]).
Definition has_evidence (t : RegistryTables) (a : ApprovalRow) : bool :=
  existsb (fun e => (e.(ew_strategy_key) ==p a.(aw_strategy_key)) && (e.(ew_validation_run_id) ==p a.(aw_validation_run_id)) &&
      bool_decide (e.(ew_research_state) = RESEARCH) &&
      existsb (fun v => (v.(vw_validation_run_id) ==p e.(ew_validation_run_id)) && v.(vw_passed)) t.(rt_validations)) t.(rt_evidence).
Definition require_evidence (t : RegistryTables) (a : ApprovalRow) : result unit :=
  raise_if (bool_decide (a.(aw_state) = APPROVED) &&
            existsb (fun d => (d.(df_strategy_key) ==p a.(aw_strategy_key)) && nse_technical d) t.(rt_definitions) &&
            negb (has_evidence t a))
    (OtherException "RaiseException" "passing NSE validation evidence is required for paper approval").

(** [DO UPDATE SET state=EXCLUDED.state,reason=EXCLUDED.reason] *)
Definition updated_approval (new old : ApprovalRow) : ApprovalRow := {|
  aw_approval_id := old.(aw_approval_id); aw_strategy_key := old.(aw_strategy_key); aw_validation_run_id := old.(aw_validation_run_id);
  aw_state := new.(aw_state); aw_approved_at := old.(aw_approved_at); aw_expires_at := old.(aw_expires_at);
  aw_approved_by := old.(aw_approved_by); aw_reason := new.(aw_reason) |}.
(** [_upsert_approval]: [... WHERE research.strategy_approvals.state<>'REVOKED' OR EXCLUDED.state='REVOKED'] *)
Definition upsert_approval (approval : StrategyApproval) : M RegistryTables unit :=
  t ← get_state;
  let row := approval_row approval in
  _ ← lift (require_evidence t row);
  _ ← lift (check (instant row.(aw_approved_at) <? instant row.(aw_expires_at)));
  match List.find (fun a => a.(aw_approval_id) ==p row.(aw_approval_id)) t.(rt_approvals) with
  | Some old =>
      when (negb (bool_decide (old.(aw_state) = REVOKED)) || bool_decide (row.(aw_state) = REVOKED)) (
        let new := updated_approval row old in
        _ ← lift (require_evidence t new);
        modify (set_approval_rows (update_where (fun a => a.(aw_approval_id) ==p row.(aw_approval_id)) (fun _ => new) t.(rt_approvals))))
  | None =>
      _ ← lift (references df_strategy_key t.(rt_definitions) row.(aw_strategy_key));
      _ ← lift (references vw_validation_run_id t.(rt_validations) row.(aw_validation_run_id));
      modify (set_approval_rows (t.(rt_approvals) ++ [row]))
  end.
(** [record_approval] *)
Definition durable_record_approval (approval : StrategyApproval) : M RegistryProcess unit :=
  registry_transaction (
    _ ← hydrate_definition approval.(sa_identity);
    _ ← hydrate_validation approval.(sa_validation_run_id);
    _ ← hydrate_approval approval.(sa_approval_id);
    _ ← reg_cache (record_approval approval);
    _ ← statement;
    _ ← reg_tables (upsert_approval approval);
    persisted ← load_approval approval.(sa_approval_id);
    _ ← lift (raise_if (persisted !=p approval) (ValueError "approval artifacts are immutable"));
    reg_cache (cache_approval approval.(sa_approval_id) persisted)).

(** [revoke] *)
Definition durable_revoke (approval_id reason : string) : M RegistryProcess unit :=
  registry_transaction (
    _ ← hydrate_approval approval_id;
    _ ← reg_cache (revoke approval_id reason);
    s ← get_state;
    approval ← lift (match s.(rp_cache).(reg_approvals) !! approval_id with Some a => Ok a | None => Err (KeyError approval_id) end);
    _ ← statement;
    _ ← reg_tables (upsert_approval approval);
    persisted ← load_approval approval_id;
    reg_cache (cache_approval approval_id persisted)).

(** ** Authoritative reads *)

(** [a.state='APPROVED' AND a.approved_at<=at AND a.expires_at>at] *)
Definition in_force (at_ : datetime) (a : ApprovalRow) : bool :=
  bool_decide (a.(aw_state) = APPROVED) && (instant a.(aw_approved_at) <=? instant at_) && (instant at_ <? instant a.(aw_expires_at)).

Section Reads.
(** The order of the rows of a [SELECT] without [ORDER BY]. *)
Context (scan : list (ApprovalRow * DefinitionRow) -> list (ApprovalRow * DefinitionRow)).

(** [_load_current_approvals] *)
Definition load_current_approvals (identity : StrategyIdentity) (at_ : datetime) (t : RegistryTables) : result (list StrategyApproval) :=
  map_result (fun '(a, d) => approval_from_row a d)
    (scan (approval_rows (fun a => (a.(aw_strategy_key) ==p identity_key identity) && in_force at_ a) t)).
(** [require_approval] *)
Definition durable_require_approval (identity : StrategyIdentity) (at_ : datetime) : M RegistryProcess StrategyApproval :=
  _ ← statement;
  _ ← statement;
  s ← get_state;
  _ ← lift (raise_if (bool_decide (keyed_definition (identity_key identity) s.(rp_tables) = None)) (LookupError "strategy identity is not registered"));
  _ ← statement;
  approvals ← lift (load_current_approvals identity at_ s.(rp_tables));
  lift (match py_max_by (fun a b => instant a.(sa_approved_at) <? instant b.(sa_approved_at)) approvals with
        | Some a => Ok a
        | None => Err (PermissionError "no current approval for exact strategy identity")
        end).
End Reads.

(** [eligible]: the key is the primary key of the definitions, so [DISTINCT]
    gives each definition with an approval in force once; their order does not
    matter, they are sorted. *)
Definition eligible_row (market : Market) (timeframe trade_horizon : string) (feature_set_version : Z) (at_ : datetime) (t : RegistryTables)
    (d : DefinitionRow) : bool :=
  let i := d.(df_identity) in
  (i.(si_market) ==p market) && (i.(si_timeframe) ==p timeframe) && (i.(si_trade_horizon) ==p trade_horizon) &&
  (i.(si_feature_set_version) ==p feature_set_version) &&
  existsb (fun a => (a.(aw_strategy_key) ==p d.(df_strategy_key)) && in_force at_ a) t.(rt_approvals).
Definition durable_eligible (market : Market) (timeframe trade_horizon : string) (feature_set_version : Z) (at_ : datetime)
  : M RegistryProcess (list StrategyDefinition) :=
  _ ← statement;
  _ ← statement;
  s ← get_state;
  definitions ← lift (map_result definition_from_row
    (List.filter (eligible_row market timeframe trade_horizon feature_set_version at_ s.(rp_tables)) s.(rp_tables).(rt_definitions)));
  mret (py_sorted (fun a b => identity_lt a.(sd_identity) b.(sd_identity)) definitions).

(** ** What a call may do to the tables *)

Definition durable_run (op : RegistryOp) : M RegistryProcess unit :=
  match op with
  | OpRegister d => durable_register d
  | OpRecordValidation v => durable_record_validation v
  | OpRecordApproval a => durable_record_approval a
  | OpRevoke i reason => durable_revoke i reason
  end.

(** A relation of tables, as one of processes. *)
Definition on_tables (R : RegistryTables -> RegistryTables -> Prop) (s s' : RegistryProcess) : Prop := R s.(rp_tables) s'.(rp_tables).
#[export] Instance on_tables_preorder R `{!PreOrder R} : PreOrder (on_tables R).
Proof. split; [intros s; unfold on_tables; reflexivity|]. intros a b c H1 H2. unfold on_tables in *. by etransitivity. Qed.

Section OnTables.
Context (R : RegistryTables -> RegistryTables -> Prop) `{!PreOrder R}.

Lemma statement_tables : preserves (on_tables R) statement.
Proof. intros [t c [|f fs]]; unfold on_tables; simpl; reflexivity. Qed.
Lemma reg_cache_tables {A} (m : M StrategyRegistry A) : preserves (on_tables R) (reg_cache m).
Proof. intros s. unfold reg_cache, zoom, on_tables. destruct (m _). simpl. reflexivity. Qed.
Lemma reg_tables_preserves {A} (m : M RegistryTables A) : preserves R m -> preserves (on_tables R) (reg_tables m).
Proof. intros H s. specialize (H s.(rp_tables)). unfold reg_tables, zoom, on_tables. by destruct (m _). Qed.
Lemma except_lookup_tables {A} (m : M RegistryProcess A) : preserves (on_tables R) m -> preserves (on_tables R) (except_lookup m).
Proof. intros H s. specialize (H s). unfold except_lookup. by destruct (m s) as [[a|[]] s']. Qed.
Lemma transaction_tables {A} (m : M RegistryProcess A) : preserves (on_tables R) m -> preserves (on_tables R) (registry_transaction m).
Proof.
  intros H s. unfold registry_transaction.
  assert (Hm : preserves (on_tables R) (_ ← statement; a ← m; _ ← statement; mret a)) by (preserve; try apply statement_tables; exact H).
  specialize (Hm s). destruct ((_ ← statement; _) s) as [[a|e] s']; [exact Hm|]. unfold on_tables. simpl. reflexivity.
Qed.

(** The statement of a call that writes. *)
Definition writes (op : RegistryOp) : Prop :=
  match op with
  | OpRegister d => preserves R (insert_definition d)
  | OpRecordValidation v => preserves R (insert_validation v)
  | OpRecordApproval a => preserves R (upsert_approval a)
  | OpRevoke _ _ => forall a, preserves R (upsert_approval a)
  end.
Lemma durable_run_tables op : writes op -> preserves (on_tables R) (durable_run op).
Proof.
  intros Hw.
  assert (Hhd : forall i, preserves (on_tables R) (hydrate_definition i)).
  { intros i. unfold hydrate_definition. preserve; first [apply statement_tables|apply reg_cache_tables]. }
  assert (Hhv : forall i, preserves (on_tables R) (hydrate_validation i)).
  { intros i. unfold hydrate_validation. preserve; first [apply statement_tables|apply reg_cache_tables]. }
  assert (Hla : forall i, preserves (on_tables R) (load_approval i)).
  { intros i. unfold load_approval. preserve; apply statement_tables. }
  assert (Hha : forall i, preserves (on_tables R) (hydrate_approval i)).
  { intros i. unfold hydrate_approval. preserve; first [apply reg_cache_tables|by apply except_lookup_tables]. }
  assert (Hld : forall i, preserves (on_tables R) (load_definition i)).
  { intros i. unfold load_definition. preserve; apply statement_tables. }
  destruct op; apply transaction_tables; preserve;
    first [apply statement_tables|apply reg_cache_tables|apply reg_tables_preserves; apply Hw|auto].
Qed.
End OnTables.

(** ** Revocation *)

(** Every approval is still there; all but its state and reason are as they
    were, and one that was revoked is revoked. *)
Definition same_approval (a a' : ApprovalRow) : Prop :=
  a'.(aw_approval_id) = a.(aw_approval_id) /\ a'.(aw_strategy_key) = a.(aw_strategy_key) /\ a'.(aw_validation_run_id) = a.(aw_validation_run_id) /\
  a'.(aw_approved_at) = a.(aw_approved_at) /\ a'.(aw_expires_at) = a.(aw_expires_at) /\ a'.(aw_approved_by) = a.(aw_approved_by) /\
  (a.(aw_state) = REVOKED -> a'.(aw_state) = REVOKED).
#[export] Instance same_approval_preorder : PreOrder same_approval.
Proof. split; [by intros a|]. intros a b c (?&?&?&?&?&?&Hab) (?&?&?&?&?&?&Hbc). repeat split; [congruence..|]. intros Hr. by apply Hbc, Hab. Qed.
Definition approvals_kept (t t' : RegistryTables) : Prop :=
  NoDup (aw_approval_id <$> t.(rt_approvals)) ->
  NoDup (aw_approval_id <$> t'.(rt_approvals)) /\ Forall (fun a => exists a', a' ∈ t'.(rt_approvals) /\ same_approval a a') t.(rt_approvals).
Lemma approvals_same t t' : t'.(rt_approvals) = t.(rt_approvals) -> approvals_kept t t'.
Proof. intros H Hn. rewrite H. split; [done|]. apply Forall_forall. intros a Ha. by exists a. Qed.
#[export] Instance approvals_kept_preorder : PreOrder approvals_kept.
Proof.
  split; [intros t; by apply approvals_same|]. intros t1 t2 t3 H12 H23 Hn. destruct (H12 Hn) as [Hn2 F1]. destruct (H23 Hn2) as [Hn3 F2].
  split; [done|]. rewrite Forall_forall in *. intros a Ha. destruct (F1 a Ha) as (b & Hb & Hab). destruct (F2 b Hb) as (c & Hc & Hbc).
  exists c. split; [done|]. by transitivity b.
Qed.

(** The outcomes of the upsert. *)
Variant upserted (a : ApprovalRow) (t : RegistryTables) : RegistryTables -> Prop :=
| upserted_kept old : old ∈ t.(rt_approvals) -> old.(aw_approval_id) = a.(aw_approval_id) ->
    old.(aw_state) = REVOKED -> a.(aw_state) = APPROVED -> upserted a t t
| upserted_over old : old ∈ t.(rt_approvals) -> old.(aw_approval_id) = a.(aw_approval_id) ->
    old.(aw_state) = APPROVED \/ a.(aw_state) = REVOKED -> require_evidence t (updated_approval a old) = Ok () ->
    upserted a t (set_approval_rows (update_where (fun r => r.(aw_approval_id) ==p a.(aw_approval_id)) (fun _ => updated_approval a old) t.(rt_approvals)) t)
| upserted_new : ~ a.(aw_approval_id) ∈ (aw_approval_id <$> t.(rt_approvals)) -> require_evidence t a = Ok () ->
    a.(aw_strategy_key) ∈ df_strategy_key <$> t.(rt_definitions) -> a.(aw_validation_run_id) ∈ vw_validation_run_id <$> t.(rt_validations) ->
    upserted a t (set_approval_rows (t.(rt_approvals) ++ [a]) t).

Lemma references_ok {A} (key : A -> string) (rows : list A) k : references key rows k = Ok () <-> k ∈ key <$> rows.
Proof.
  unfold references. rewrite raise_if_ok, negb_false_iff, existsb_true_elem, list_elem_of_fmap. split; intros (r & H1 & H2); exists r.
  - apply (proj1 (py_eq_true _ _)) in H2. by subst.
  - split; [done|]. by apply py_eq_true.
Qed.

Lemma upsert_ok a t t' : upsert_approval a t = (Ok (), t') -> upserted (approval_row a) t t'.
Proof.
  unfold upsert_approval. intros H. apply M_bind_ok in H as (? & ? & [= <- <-] & H). cbv zeta in H.
  apply M_bind_ok in H as ([] & ? & [He ->]%lift_ok & H). apply M_bind_ok in H as ([] & ? & [_ ->]%lift_ok & H).
  destruct (List.find _ _) as [old|] eqn:E.
  - apply find_elem in E as [Hold Hid]. apply (proj1 (py_eq_true _ _)) in Hid. unfold when in H. destruct (_ || _) eqn:Eg.
    + apply M_bind_ok in H as ([] & ? & [Hn ->]%lift_ok & [= <-]). apply (upserted_over (approval_row a) t old); [done|done| |done].
      apply orb_prop in Eg as [Eg|Eg]; [left|right; by apply bool_decide_eq_true in Eg].
      apply negb_true_iff, bool_decide_eq_false in Eg. by destruct (aw_state old).
    + injection H as <-. apply orb_false_iff in Eg as [E1%negb_false_iff%bool_decide_eq_true E2%bool_decide_eq_false].
      apply (upserted_kept (approval_row a) t old); [done..|]. by destruct (aw_state (approval_row a)).
  - apply M_bind_ok in H as ([] & ? & [Hd ->]%lift_ok & H). apply M_bind_ok in H as ([] & ? & [Hv ->]%lift_ok & [= <-]).
    apply (upserted_new (approval_row a) t); [|done|by apply references_ok..]. intros (r & Hr & Hin)%list_elem_of_fmap. apply list_elem_of_In in Hin.
    apply (find_none _ _ E), py_eq_false in Hin. by apply Hin.
Qed.
Lemma upsert_raises a t e t' : upsert_approval a t = (Err e, t') -> t' = t.
Proof.
  unfold upsert_approval. intros H. apply M_bind_err in H as [[=]|(? & ? & [= <- <-] & H)]. cbv zeta in H.
  apply M_bind_err in H as [[_ ->]%lift_err|([] & ? & [He ->]%lift_ok & H)]; [done|].
  apply M_bind_err in H as [[_ ->]%lift_err|([] & ? & [_ ->]%lift_ok & H)]; [done|]. destruct (List.find _ _) as [old|].
  - unfold when in H. destruct (_ || _); [|done]. apply M_bind_err in H as [[_ ->]%lift_err|([] & ? & [_ ->]%lift_ok & H)]; done.
  - apply M_bind_err in H as [[_ ->]%lift_err|([] & ? & [_ ->]%lift_ok & H)]; [done|].
    apply M_bind_err in H as [[_ ->]%lift_err|([] & ? & [_ ->]%lift_ok & H)]; done.
Qed.

Lemma upsert_keeps a : preserves approvals_kept (upsert_approval a).
Proof.
  intros t. destruct (upsert_approval a t) as [[[]|e] t'] eqn:E; [|by apply upsert_raises in E as ->].
  apply upsert_ok in E. destruct E as [old Hold Hid Hs Hs'|old Hold Hid Hs He|Hnew He Hd Hv]; [done| |]; intros Hn; cbn [rt_approvals set_approval_rows snd].
  - assert (Hsame : forall r, r ∈ t.(rt_approvals) -> r.(aw_approval_id) = (approval_row a).(aw_approval_id) -> r = old)
      by (intros r Hr Hk; eapply (NoDup_key_inj aw_approval_id); [done..|congruence]).
    split.
    + rewrite update_where_same; [done|]. intros r Er. apply (proj1 (py_eq_true _ _)) in Er. rewrite Er. exact Hid.
    + apply Forall_forall. intros r Hr. destruct (r.(aw_approval_id) ==p (approval_row a).(aw_approval_id)) eqn:Er.
      * exists (updated_approval (approval_row a) old). split; [apply update_where_elem; exists r; by rewrite Er|].
        apply (proj1 (py_eq_true _ _)) in Er. rewrite (Hsame r Hr Er). repeat split. intros Ho. destruct Hs as [Hs|Hs]; [congruence|exact Hs].
      * exists r. split; [apply update_where_elem; exists r; by rewrite Er|done].
  - split; [by apply NoDup_snoc_key|]. apply Forall_forall. intros r Hr. exists r. split; [|done]. apply elem_of_app. by left.
Qed.

Lemma insert_definition_approvals d : preserves approvals_kept (insert_definition d).
Proof. unfold insert_definition. preserve; intros s; by apply approvals_same. Qed.
Lemma insert_validation_approvals v : preserves approvals_kept (insert_validation v).
Proof. unfold insert_validation. preserve; intros s; by apply approvals_same. Qed.
Lemma durable_run_approvals op : preserves (on_tables approvals_kept) (durable_run op).
Proof.
  apply durable_run_tables; [typeclasses eauto|].
  destruct op; [apply insert_definition_approvals|apply insert_validation_approvals|apply upsert_keeps|exact upsert_keeps].
Qed.

(** The tables under the calls of any number of processes, whatever their
    dicts hold and whichever statements fail; the evidence is another
    store's. *)
Inductive store_steps (t : RegistryTables) : RegistryTables -> Prop :=
| store_refl : store_steps t t
| store_call t1 op c fs : store_steps t t1 ->
    store_steps t (durable_run op {| rp_tables := t1; rp_cache := c; rp_faults := fs |}).2.(rp_tables)
| store_evidence t1 rows : store_steps t t1 -> store_steps t (set_evidence_rows rows t1).

Lemma steps_approvals t t' : store_steps t t' -> approvals_kept t t'.
Proof.
  induction 1 as [|t1 op c fs _ IH|t1 rows _ IH]; [done| |]; (etransitivity; [exact IH|]); [|by apply approvals_same].
  apply (durable_run_approvals op {| rp_tables := t1; rp_cache := c; rp_faults := fs |}).
Qed.

Lemma approval_rows_elem p t a d : (a, d) ∈ approval_rows p t <->
  (a ∈ t.(rt_approvals) /\ p a = true) /\ d ∈ t.(rt_definitions) /\ d.(df_strategy_key) = a.(aw_strategy_key).
Proof.
  unfold approval_rows. rewrite list_elem_of_bind. split.
  - intros (a' & Hd & Ha%filter_elem). apply list_elem_of_bind in Hd as (d' & Hx & Hd%filter_elem). apply list_elem_of_singleton in Hx as [= -> ->].
    destruct Hd as [Hd Hk]. apply (proj1 (py_eq_true _ _)) in Hk. done.
  - intros (Ha & Hd & Hk). exists a. split; [|by apply filter_elem]. apply list_elem_of_bind. exists d. split; [by left|].
    apply filter_elem. split; [done|]. by apply py_eq_true.
Qed.

(** C12. A revocation is final.  Once an approval is revoked in the tables, no
    sequence of calls of any process, with dicts that may still hold the
    approval as it was and with failures at any point, brings it back: the row
    stays, revoked, with its strategy, validation and dates, and no decision
    is given that approval again. *)
Theorem revocation_survives scan t t' row identity at_ c fs a s' :
  (forall l, scan l ≡ₚ l) -> NoDup (aw_approval_id <$> t.(rt_approvals)) -> row ∈ t.(rt_approvals) -> row.(aw_state) = REVOKED ->
  store_steps t t' ->
  (exists row', row' ∈ t'.(rt_approvals) /\ same_approval row row' /\ row'.(aw_state) = REVOKED) /\
  (durable_require_approval scan identity at_ {| rp_tables := t'; rp_cache := c; rp_faults := fs |} = (Ok a, s') ->
   a.(sa_approval_id) <> row.(aw_approval_id)).
Proof.
  intros Hscan Hn Hrow Hrev Hsteps. destruct (steps_approvals _ _ Hsteps Hn) as [Hn' Hkept]. rewrite Forall_forall in Hkept.
  destruct (Hkept row Hrow) as (row' & Hrow' & Hsame). pose proof Hsame as (Hid & _ & _ & _ & _ & _ & Hst). specialize (Hst Hrev).
  split; [by exists row'|]. intros H Heq. unfold durable_require_approval in H.
  apply M_bind_ok in H as ([] & s1 & H1 & H). apply M_bind_ok in H as ([] & s2 & H2 & H). apply M_bind_ok in H as (s3 & s4 & [= <- <-] & H).
  apply M_bind_ok in H as ([] & ? & [_ ->]%lift_ok & H). apply M_bind_ok in H as ([] & s5 & H3 & H).
  apply M_bind_ok in H as (approvals & ? & [Hl ->]%lift_ok & [Hmax _]%lift_ok).
  assert (Ht : s2.(rp_tables) = t').
  { eapply (preserves_run (on_tables eq)) in H1; [|apply statement_tables; typeclasses eauto].
    eapply (preserves_run (on_tables eq)) in H2; [|apply statement_tables; typeclasses eauto]. unfold on_tables in *. simpl in *. congruence. }
  rewrite Ht in Hl. destruct (py_max_by _ _) as [b|] eqn:Eb; [|done]. injection Hmax as ->. apply py_max_by_elem in Eb.
  unfold load_current_approvals in Hl. destruct (map_result_elem _ _ _ _ Hl Eb) as ([x d] & Hx & Hf).
  rewrite (Hscan _) in Hx. apply approval_rows_elem in Hx as ((Hxin & Hp) & _). apply andb_prop in Hp as [_ Hp].
  unfold in_force in Hp. apply andb_prop in Hp as [Hp _]. apply andb_prop in Hp as [Hp%bool_decide_eq_true _].
  unfold approval_from_row in Hf. apply result_bind_ok in Hf as (i & _ & [= <-]). simpl in Heq.
  assert (x = row') as -> by (eapply (NoDup_key_inj aw_approval_id); [done..|congruence]). congruence.
Qed.

(** ** The tables are an in-memory registry *)

Section Refinement.
(** The identities in use, whose keys do not collide, and the row of each
    validation, which its identifier, a hash of the content, determines. *)
Context (known : StrategyIdentity -> Prop).
Context (artifact : string -> result ValidationRow).
Context (known_keys : forall i j, known i -> known j -> identity_key i = identity_key j -> i = j).

Definition definition_of (d : DefinitionRow) : StrategyDefinition := {|
  sd_identity := d.(df_identity); sd_family := d.(df_family); sd_parameters := d.(df_parameters); sd_implementation_ref := d.(df_implementation_ref) |}.
Definition validation_of (t : RegistryTables) (v : ValidationRow) : option ValidationResult :=
  d ← keyed_definition v.(vw_strategy_key) t;
  Some {| vr_validation_run_id := v.(vw_validation_run_id); vr_identity := d.(df_identity); vr_evaluated_at := v.(vw_evaluated_at);
          vr_passed := v.(vw_passed); vr_rejection_reasons := v.(vw_rejection_reasons); vr_metrics := v.(vw_metrics); vr_policy := v.(vw_policy) |}.
Definition approval_with (a : ApprovalRow) (i : StrategyIdentity) : StrategyApproval := {|
  sa_approval_id := a.(aw_approval_id); sa_identity := i; sa_validation_run_id := a.(aw_validation_run_id);
  sa_state := a.(aw_state); sa_approved_at := a.(aw_approved_at); sa_expires_at := a.(aw_expires_at);
  sa_approved_by := a.(aw_approved_by); sa_reason := a.(aw_reason) |}.
Definition approval_of (t : RegistryTables) (a : ApprovalRow) : option StrategyApproval :=
  d ← keyed_definition a.(aw_strategy_key) t; Some (approval_with a d.(df_identity)).
(** The registry that the tables stand for. *)
Definition registry_of (t : RegistryTables) : StrategyRegistry := {|
  reg_definitions := table_dict df_identity (fun d => Some (definition_of d)) t.(rt_definitions);
  reg_validations := table_dict vw_validation_run_id (validation_of t) t.(rt_validations);
  reg_approvals := table_dict aw_approval_id (approval_of t) t.(rt_approvals) |}.

Record tables_ok (t : RegistryTables) : Prop := {
  tk_keys : NoDup (df_strategy_key <$> t.(rt_definitions));
  tk_definitions : Forall (fun d => d.(df_strategy_key) = identity_key d.(df_identity) /\ known d.(df_identity) /\
    definition_from_row d = Ok (definition_of d)) t.(rt_definitions);
  tk_runs : NoDup (vw_validation_run_id <$> t.(rt_validations));
  tk_validations : Forall (fun v => v.(vw_strategy_key) ∈ df_strategy_key <$> t.(rt_definitions) /\ artifact v.(vw_validation_run_id) = Ok v /\
    exists x, validation_row x = Ok v) t.(rt_validations);
  tk_ids : NoDup (aw_approval_id <$> t.(rt_approvals));
  tk_approvals : Forall (fun a => a.(aw_strategy_key) ∈ df_strategy_key <$> t.(rt_definitions) /\
    a.(aw_validation_run_id) ∈ vw_validation_run_id <$> t.(rt_validations) /\
    timestamptz a.(aw_approved_at) = a.(aw_approved_at) /\ timestamptz a.(aw_expires_at) = a.(aw_expires_at)) t.(rt_approvals) }.
(** The dicts of a process hold validations under their identifiers, as they were recorded. *)
Record cache_ok (c : StrategyRegistry) : Prop := {
  ck_validations : forall k v, c.(reg_validations) !! k = Some v -> v.(vr_validation_run_id) = k /\ validation_row v = artifact k;
  ck_approvals : dict_wf c.(reg_approvals) }.

(** What the columns keep of a record. *)
Definition stored_validation (v : ValidationResult) : ValidationResult := {|
  vr_validation_run_id := v.(vr_validation_run_id); vr_identity := v.(vr_identity); vr_evaluated_at := timestamptz v.(vr_evaluated_at);
  vr_passed := v.(vr_passed); vr_rejection_reasons := v.(vr_rejection_reasons); vr_metrics := stored_metrics v.(vr_metrics);
  vr_policy := stored_policy v.(vr_policy) |}.
Definition stored_approval (a : StrategyApproval) : StrategyApproval := approval_with (approval_row a) a.(sa_identity).
Definition stored_op (op : RegistryOp) : RegistryOp :=
  match op with
  | OpRecordValidation v => OpRecordValidation (stored_validation v)
  | OpRecordApproval a => OpRecordApproval (stored_approval a)
  | _ => op
  end.
Definition op_identity (op : RegistryOp) : option StrategyIdentity :=
  match op with
  | OpRegister d => Some d.(sd_identity)
  | OpRecordValidation v => Some v.(vr_identity)
  | OpRecordApproval a => Some a.(sa_identity)
  | OpRevoke _ _ => None
  end.
Definition genuine (op : RegistryOp) : Prop :=
  match op with OpRecordValidation v => validation_row v = artifact v.(vr_validation_run_id) | _ => True end.

(** *** Rows *)

Lemma stored_metrics_twice m : stored_metrics (stored_metrics m) = stored_metrics m.
Proof. unfold stored_metrics. simpl. by rewrite !jsonb_number_twice. Qed.
Lemma stored_policy_twice p : stored_policy (stored_policy p) = stored_policy p.
Proof. unfold stored_policy. simpl. by rewrite !jsonb_number_twice. Qed.

Lemma validation_row_inv v row : validation_row v = Ok row ->
  jsonb_floats (metrics_floats v.(vr_metrics)) = Ok () /\ jsonb_floats (policy_floats v.(vr_policy)) = Ok () /\
  row = {| vw_validation_run_id := v.(vr_validation_run_id); vw_strategy_key := identity_key v.(vr_identity);
           vw_evaluated_at := timestamptz v.(vr_evaluated_at); vw_passed := v.(vr_passed); vw_metrics := stored_metrics v.(vr_metrics);
           vw_policy := stored_policy v.(vr_policy); vw_rejection_reasons := v.(vr_rejection_reasons) |}.
Proof.
  unfold validation_row. intros H. apply result_bind_ok in H as ([] & Hm & H). by apply result_bind_ok in H as ([] & Hp & [= <-]).
Qed.
(** A validation read from its row is stored as that row. *)
Lemma validation_row_read v row i : validation_row v = Ok row -> row.(vw_strategy_key) = identity_key i ->
  validation_row {| vr_validation_run_id := row.(vw_validation_run_id); vr_identity := i; vr_evaluated_at := row.(vw_evaluated_at);
    vr_passed := row.(vw_passed); vr_rejection_reasons := row.(vw_rejection_reasons); vr_metrics := row.(vw_metrics); vr_policy := row.(vw_policy) |} = Ok row.
Proof.
  intros (Hm & Hp & ->)%validation_row_inv Hk. simpl in Hk. unfold validation_row. simpl.
  apply jsonb_floats_stored in Hm, Hp. simpl in Hm, Hp. unfold metrics_floats, policy_floats. simpl. rewrite Hm. simpl. rewrite Hp. simpl.
  by rewrite <- Hk, timestamptz_twice, stored_metrics_twice, stored_policy_twice.
Qed.

(** *** The dicts stay sound *)

Definition rows_ok (t : RegistryTables) : Prop :=
  Forall (fun d => d.(df_strategy_key) = identity_key d.(df_identity)) t.(rt_definitions) /\
  Forall (fun v => artifact v.(vw_validation_run_id) = Ok v /\ exists x, validation_row x = Ok v) t.(rt_validations).
Lemma tables_rows t : tables_ok t -> rows_ok t.
Proof. intros [_ Hd _ Hv _ _]. split; (eapply Forall_impl; [done|]); [by intros d (? & _)|by intros v (_ & ?)]. Qed.

Definition sound (s : RegistryProcess) : Prop := rows_ok s.(rp_tables) /\ cache_ok s.(rp_cache).
Definition keeps_sound (s s' : RegistryProcess) : Prop := sound s -> sound s'.
#[export] Instance keeps_sound_preorder : PreOrder keeps_sound.
Proof. split; [intros s Hs; exact Hs|]. intros a b c Hab Hbc Ha. by apply Hbc, Hab. Qed.

Lemma statement_sound : preserves keeps_sound statement.
Proof. intros [t c [|f fs]]; intros Hs; exact Hs. Qed.
Lemma reg_cache_sound {A} (m : M StrategyRegistry A) : (forall c, cache_ok c -> cache_ok (m c).2) -> preserves keeps_sound (reg_cache m).
Proof. intros H [t c fs] [Ht Hc]. unfold reg_cache, zoom. specialize (H c Hc). destruct (m _). by split. Qed.
Lemma reg_tables_sound {A} (m : M RegistryTables A) : (forall t, rows_ok t -> rows_ok (m t).2) -> preserves keeps_sound (reg_tables m).
Proof. intros H [t c fs] [Ht Hc]. unfold reg_tables, zoom. specialize (H t Ht). destruct (m _). by split. Qed.
Lemma except_lookup_sound {A} (m : M RegistryProcess A) : preserves keeps_sound m -> preserves keeps_sound (except_lookup m).
Proof. intros H s. specialize (H s). unfold except_lookup. by destruct (m s) as [[a|[]] s']. Qed.
Lemma transaction_sound {A} (m : M RegistryProcess A) : preserves keeps_sound m -> preserves keeps_sound (registry_transaction m).
Proof.
  intros H s Hs. unfold registry_transaction.
  assert (Hm : preserves keeps_sound (_ ← statement; a ← m; _ ← statement; mret a)) by (preserve; try apply statement_sound; exact H).
  specialize (Hm s Hs). destruct ((_ ← statement; _) s) as [[a|e] s']; [exact Hm|]. destruct Hs as [Ht _], Hm as [_ Hc]. by split.
Qed.

(** Operations that leave the validations alone. *)
Definition validations_same (c c' : StrategyRegistry) : Prop :=
  c'.(reg_validations) = c.(reg_validations) /\ (dict_wf c.(reg_approvals) -> dict_wf c'.(reg_approvals)).
#[export] Instance validations_same_preorder : PreOrder validations_same.
Proof. split; [by intros c|]. intros a b c [H1 W1] [H2 W2]. split; [congruence|auto]. Qed.
Lemma same_cache_ok {A} (m : M StrategyRegistry A) c : preserves validations_same m -> cache_ok c -> cache_ok (m c).2.
Proof. intros H [Hv Ha]. destruct (H c) as [E W]. split; [by rewrite E|by apply W]. Qed.

Lemma dict_keys_delete {V} (d : dict string V) k : dict_wf d -> dict_wf (delete k d) /\ delete k d !! k = None.
Proof.
  destruct d as [l]. unfold dict_wf, dict_keys, lookup, dict_lookup, delete, dict_delete. simpl.
  induction l as [|[k' v] l IH]; simpl; [done|]. intros [Hn Hd]%NoDup_cons. destruct (decide (k = k')) as [<-|Hk]; simpl.
  - split; [done|]. by apply (dict_lookup_None_keys (Dict l)).
  - destruct (IH Hd) as [Hw Hl]. rewrite decide_False by done. split; [|done]. apply NoDup_cons. split; [|done].
    intros Hin. apply Hn. clear -Hin. induction l as [|[k1 v1] l IH]; simpl in *; [done|].
    destruct (decide (k = k1)); simpl in *; [by right|]. apply elem_of_cons in Hin as [->|Hin]; [by left|right; by apply IH].
Qed.

Ltac same_dicts := preserve; intros ?; split; simpl; [done|intros ?; first [done|by apply dict_wf_insert|by apply dict_keys_delete]].
Lemma register_same d : preserves validations_same (register d).
Proof. intros c. by destruct (register_effect d c) as [->|[-> _]]. Qed.
Lemma record_approval_same a : preserves validations_same (record_approval a).
Proof. intros c. destruct (record_approval_effect a c) as [->|[-> _]]; [done|]. split; [done|]. apply dict_wf_insert. Qed.
Lemma revoke_same i r : preserves validations_same (revoke i r).
Proof. intros c. destruct (revoke_effect i r c) as [->|(a & a' & _ & _ & ->)]; [done|]. split; [done|]. apply dict_wf_insert. Qed.
Lemma cache_definition_same i d : preserves validations_same (cache_definition i d).
Proof. unfold cache_definition. same_dicts. Qed.
Lemma cache_approval_same k a : preserves validations_same (cache_approval k a).
Proof. unfold cache_approval. same_dicts. Qed.
Lemma pop_approval_same k : preserves validations_same (modify (fun c => set_approvals (delete k c.(reg_approvals)) c)).
Proof. same_dicts. Qed.
Lemma cache_validation_ok k v c : v.(vr_validation_run_id) = k -> validation_row v = artifact k -> cache_ok c -> cache_ok (cache_validation k v c).2.
Proof.
  intros Hk Hv [Hc Ha]. split; [|done]. simpl. intros k' w. rewrite dict_lookup_insert. case_decide as E; [|apply Hc]. intros [= <-]. by subst k'.
Qed.

Lemma validation_rows_elem k t v d : (v, d) ∈ validation_rows k t <->
  (v ∈ t.(rt_validations) /\ v.(vw_validation_run_id) = k) /\ d ∈ t.(rt_definitions) /\ d.(df_strategy_key) = v.(vw_strategy_key).
Proof.
  unfold validation_rows. rewrite list_elem_of_bind. split.
  - intros (a' & Hd & [Ha Hk]%filter_elem). apply list_elem_of_bind in Hd as (d' & Hx & [Hd Hdk]%filter_elem).
    apply list_elem_of_singleton in Hx as [= -> ->]. apply (proj1 (py_eq_true _ _)) in Hk. by apply (proj1 (py_eq_true _ _)) in Hdk.
  - intros ([Ha Hk] & Hd & Hdk). exists v. split; [|apply filter_elem; split; [done|by apply py_eq_true]]. apply list_elem_of_bind. exists d.
    split; [by left|]. apply filter_elem. split; [done|]. by apply py_eq_true.
Qed.

Lemma hydrate_definition_sound i : preserves keeps_sound (hydrate_definition i).
Proof.
  unfold hydrate_definition. preserve; try apply statement_sound. apply reg_cache_sound. intros c. apply same_cache_ok, cache_definition_same.
Qed.
Lemma hydrate_validation_sound k : preserves keeps_sound (hydrate_validation k).
Proof.
  intros s Hs. unfold hydrate_validation. unfold mbind at 1, M_bind, get_state. destruct (dict_mem _ _); [done|]. unfold mbind at 1, M_bind.
  pose proof (statement_sound s Hs) as Hs1. destruct (statement s) as [[u|e] s1]; [|done]. simpl in Hs1.
  destruct (validation_rows k s.(rp_tables)) as [|[v d] rest] eqn:E; [done|].
  assert (Hin : (v, d) ∈ validation_rows k s.(rp_tables)) by (rewrite E; by left). apply validation_rows_elem in Hin as ([Hv Hk] & Hd & Hdk).
  destruct Hs as [[Fd Fv] _]. rewrite Forall_forall in Fd. rewrite Forall_forall in Fv. specialize (Fd d Hd). destruct (Fv v Hv) as (Hart & x & Hx).
  unfold mbind, M_bind, lift. destruct (validation_from_row v d) as [r|e] eqn:Er; [|done].
  apply (reg_cache_sound (cache_validation k r)); [|done]. intros c. unfold validation_from_row in Er.
  apply result_bind_ok in Er as (i & Hi & Er). apply result_bind_ok in Er as (_ & _ & [= <-]).
  unfold identity_from_row in Hi. apply result_bind_ok in Hi as (_ & _ & [= <-]).
  apply cache_validation_ok; [done|]. rewrite <- Hk, Hart. apply (validation_row_read x); [done|congruence].
Qed.
Lemma hydrate_approval_sound k : preserves keeps_sound (hydrate_approval k).
Proof.
  unfold hydrate_approval. preserve.
  - apply reg_cache_sound. intros c. apply same_cache_ok, pop_approval_same.
  - apply except_lookup_sound. unfold load_approval. preserve. apply statement_sound.
  - apply reg_cache_sound. intros c. apply same_cache_ok, cache_approval_same.
Qed.
Lemma record_validation_ok v c : validation_row v = artifact v.(vr_validation_run_id) -> cache_ok c -> cache_ok (record_validation v c).2.
Proof.
  intros Hv Hc. destruct (record_validation_effect v c) as [->|[-> _]]; [done|]. by apply (cache_validation_ok v.(vr_validation_run_id) v c).
Qed.

Lemma insert_definition_rows d t : rows_ok t -> rows_ok (insert_definition d t).2.
Proof.
  intros [Fd Fv]. unfold insert_definition, mbind, M_bind, get_state, lift. destruct (definition_row d) as [row|e] eqn:E; [|done].
  destruct (check _); [|done]. destruct (has_key _ _ _); [done|]. destruct (raise_if _ _); [|done]. simpl. split; [|done]. simpl.
  apply Forall_app. split; [done|]. apply Forall_singleton. unfold definition_row in E. by apply result_bind_ok in E as (i & _ & [= <-]).
Qed.
Lemma insert_validation_rows v t : validation_row v = artifact v.(vr_validation_run_id) -> rows_ok t -> rows_ok (insert_validation v t).2.
Proof.
  intros Hv [Fd Fv]. unfold insert_validation, mbind, M_bind, get_state, lift. destruct (validation_row v) as [row|e] eqn:E; [|done].
  destruct (has_key _ _ _); [done|]. destruct (references _ _ _); [|done]. simpl. split; [done|]. simpl. apply Forall_app. split; [done|].
  apply Forall_singleton. pose proof E as (_ & _ & Hrow)%validation_row_inv. split; [|by exists v].
  replace row.(vw_validation_run_id) with v.(vr_validation_run_id) by (by rewrite Hrow). by rewrite <- Hv.
Qed.
Lemma upsert_rows a t : rows_ok t -> rows_ok (upsert_approval a t).2.
Proof.
  intros Ht. destruct (upsert_approval a t) as [[[]|e] t'] eqn:E; [|by apply upsert_raises in E as ->].
  apply upsert_ok in E. by destruct E.
Qed.

Lemma durable_run_sound op : genuine op -> preserves keeps_sound (durable_run op).
Proof.
  intros Hg. assert (Hl : forall k, preserves keeps_sound (load_approval k)) by (intros k; unfold load_approval; preserve; apply statement_sound).
  destruct op as [d|v|a|k r]; apply transaction_sound; preserve;
    first [apply statement_sound|apply hydrate_definition_sound|apply hydrate_validation_sound|apply hydrate_approval_sound|apply Hl
          |apply reg_tables_sound; intros ?; first [apply insert_definition_rows|by apply insert_validation_rows|apply upsert_rows]
          |apply reg_cache_sound; intros ?; first [by apply record_validation_ok|apply same_cache_ok] | idtac].
  all: first [apply register_same|apply record_approval_same|apply revoke_same|apply cache_definition_same|apply cache_approval_same|idtac].
  all: unfold load_definition; preserve; apply statement_sound.
Qed.

(** *** What a call that returns has done *)

Lemma tables_kept {A} (m : M RegistryProcess A) s r s' : preserves (on_tables eq) m -> m s = (r, s') -> s'.(rp_tables) = s.(rp_tables).
Proof. intros Hm H. eapply preserves_run in H; [|exact Hm]. by symmetry. Qed.
Lemma statement_ok s r s' : statement s = (r, s') -> s'.(rp_tables) = s.(rp_tables) /\ s'.(rp_cache) = s.(rp_cache).
Proof. destruct s as [t c [|f fs]]; intros [= _ <-]; done. Qed.
Lemma registry_transaction_ok {A} (m : M RegistryProcess A) s a s' : registry_transaction m s = (Ok a, s') ->
  exists s1 s2, m s1 = (Ok a, s2) /\ s1.(rp_tables) = s.(rp_tables) /\ s1.(rp_cache) = s.(rp_cache) /\
    s'.(rp_tables) = s2.(rp_tables) /\ s'.(rp_cache) = s2.(rp_cache).
Proof.
  unfold registry_transaction. intros H. destruct ((_ ← statement; _) s) as [[x|e] s3] eqn:E; [|done]. injection H as -> ->.
  apply M_bind_ok in E as ([] & s1 & [? ?]%statement_ok & E). apply M_bind_ok in E as (y & s2 & Hm & E).
  apply M_bind_ok in E as ([] & s4 & [? ?]%statement_ok & [= <- <-]). by exists s1, s2.
Qed.
Lemma registry_transaction_err {A} (m : M RegistryProcess A) s e s' : registry_transaction m s = (Err e, s') -> s'.(rp_tables) = s.(rp_tables).
Proof. unfold registry_transaction. destruct ((_ ← statement; _) s) as [[x|e'] s3]; [done|]. by intros [= _ <-]. Qed.

Lemma hydrate_definition_kept i s r s' : hydrate_definition i s = (r, s') ->
  s'.(rp_tables) = s.(rp_tables) /\ s'.(rp_cache).(reg_validations) = s.(rp_cache).(reg_validations).
Proof.
  unfold hydrate_definition, mbind, M_bind, get_state, lift. destruct (dict_mem _ _); [by intros [= _ <-]|].
  destruct (statement s) as [[u|e] s1] eqn:E; apply statement_ok in E as [Ht Hc]; [|intros [= _ <-]; split; congruence].
  destruct (keyed_definition _ _); [|intros [= _ <-]; split; congruence]. destruct (definition_from_row _); intros [= _ <-]; simpl; split; congruence.
Qed.
Lemma hydrate_validation_tables k s r s' : hydrate_validation k s = (r, s') -> s'.(rp_tables) = s.(rp_tables).
Proof.
  unfold hydrate_validation, mbind, M_bind, get_state, lift. destruct (dict_mem _ _); [by intros [= _ <-]|].
  destruct (statement s) as [[u|e] s1] eqn:E; apply statement_ok in E as [Ht Hc]; [|intros [= _ <-]; congruence].
  destruct (validation_rows _ _) as [|[v d] rest]; [intros [= _ <-]; congruence|]. destruct (validation_from_row _ _); intros [= _ <-]; simpl; congruence.
Qed.
(** After hydration the dict holds the approval of the table, or none. *)
Lemma hydrate_approval_ok k s s' : hydrate_approval k s = (Ok (), s') -> dict_wf s.(rp_cache).(reg_approvals) ->
  s'.(rp_tables) = s.(rp_tables) /\ s'.(rp_cache).(reg_validations) = s.(rp_cache).(reg_validations) /\
  match approval_rows (fun a => a.(aw_approval_id) ==p k) s.(rp_tables) with
  | (a, d) :: _ => exists x, approval_from_row a d = Ok x /\ s'.(rp_cache).(reg_approvals) !! k = Some x
  | [] => s'.(rp_cache).(reg_approvals) !! k = None
  end.
Proof.
  intros H Hwf. unfold hydrate_approval in H. apply M_bind_ok in H as ([] & s1 & [= <-] & H).
  apply M_bind_ok in H as (found & s2 & Hf & H). unfold except_lookup, load_approval, mbind, M_bind, get_state, lift, raise in Hf.
  match type of Hf with context [statement ?x] => set (s1 := x) in Hf end.
  destruct (statement s1) as [[u|e] s3] eqn:Es.
  2: { destruct s1 as [t1 c1 [|[msg|] fs]]; [done| |done]. injection Es as <- <-. done. }
  apply statement_ok in Es as [Ht3 Hc3]. rewrite Ht3 in Hf. change (rp_tables s1) with (rp_tables s) in Hf, Ht3.
  destruct (approval_rows _ _) as [|[a d] rest].
  - injection Hf as <- <-. injection H as <-. split; [done|]. rewrite Hc3. simpl. split; [done|]. by apply dict_keys_delete.
  - destruct (approval_from_row a d) as [x|e] eqn:Ex.
    + injection Hf as <- <-. injection H as <-. simpl. split; [done|]. split; [by rewrite Hc3|]. exists x. split; [done|]. apply dict_lookup_insert_eq.
    + unfold approval_from_row, identity_from_row in Ex. apply result_bind_err in Ex as [Ex|(? & _ & [=])].
      apply result_bind_err in Ex as [Ex|(? & _ & [=])].
      assert (exists msg, e = ValueError msg) as [msg ->]; [|done]. unfold StrategyIdentity_post_init in Ex.
      repeat (apply result_bind_err in Ex as [[_ <-]%raise_if_err|(? & _ & Ex)]; [by eexists|]). apply raise_if_err in Ex as [_ <-]. by eexists.
Qed.

Lemma in_tables_ok {A} (m : M RegistryTables A) s a s' : reg_tables m s = (Ok a, s') ->
  m s.(rp_tables) = (Ok a, s'.(rp_tables)) /\ s'.(rp_cache) = s.(rp_cache).
Proof. unfold reg_tables, zoom. destruct (m _) as [r t]. by intros [= -> <-]. Qed.
Lemma in_cache_ok {A} (m : M StrategyRegistry A) s a s' : reg_cache m s = (Ok a, s') ->
  m s.(rp_cache) = (Ok a, s'.(rp_cache)) /\ s'.(rp_tables) = s.(rp_tables).
Proof. unfold reg_cache, zoom. destruct (m _) as [r c]. by intros [= -> <-]. Qed.
Lemma load_approval_ok k s a s' : load_approval k s = (Ok a, s') -> s'.(rp_tables) = s.(rp_tables) /\
  exists x d rest, approval_rows (fun r => r.(aw_approval_id) ==p k) s.(rp_tables) = (x, d) :: rest /\ approval_from_row x d = Ok a.
Proof.
  unfold load_approval. intros H. apply M_bind_ok in H as ([] & s1 & [Ht _]%statement_ok & H). apply M_bind_ok in H as (s2 & s3 & [= <- <-] & H).
  rewrite Ht in H. destruct (approval_rows _ _) as [|[x d] rest]; [done|]. apply lift_ok in H as [H ->]. split; [done|]. by exists x, d, rest.
Qed.

Lemma durable_register_ok d s s' : durable_register d s = (Ok (), s') ->
  insert_definition d s.(rp_tables) = (Ok (), s'.(rp_tables)) /\
  exists row, keyed_definition (identity_key d.(sd_identity)) s'.(rp_tables) = Some row /\ definition_from_row row = Ok d.
Proof.
  intros (s1 & s2 & H & Ht1 & Hc1 & Ht' & _)%registry_transaction_ok. apply M_bind_ok in H as ([] & s3 & [Ht3 _]%hydrate_definition_kept & H).
  apply M_bind_ok in H as ([] & s4 & [_ Ht4]%in_cache_ok & H). apply M_bind_ok in H as ([] & s5 & [Ht5 _]%statement_ok & H).
  apply M_bind_ok in H as ([] & s6 & [Hins _]%in_tables_ok & H). apply M_bind_ok in H as (d' & s7 & Hload & H).
  apply M_bind_ok in H as ([] & s8 & [Hne%raise_if_ok ->]%lift_ok & [_ Ht8]%in_cache_ok).
  unfold load_definition in Hload. apply M_bind_ok in Hload as ([] & s9 & [Ht9 _]%statement_ok & Hload).
  apply M_bind_ok in Hload as (s10 & s11 & [= <- <-] & Hload). destruct (keyed_definition _ _) as [row|] eqn:Ek; [|done].
  apply lift_ok in Hload as [Hrow ->]. apply (proj1 (py_ne_false _ _)) in Hne as ->.
  assert (E1 : s5.(rp_tables) = s.(rp_tables)) by congruence. assert (E2 : s'.(rp_tables) = s6.(rp_tables)) by congruence.
  rewrite E2, <- E1. split; [done|]. exists row. split; [|done]. by rewrite <- Ht9.
Qed.
Lemma durable_record_validation_ok v s s' : durable_record_validation v s = (Ok (), s') ->
  insert_validation v s.(rp_tables) = (Ok (), s'.(rp_tables)).
Proof.
  intros (s1 & s2 & H & Ht1 & Hc1 & Ht' & _)%registry_transaction_ok. apply M_bind_ok in H as ([] & s3 & [Ht3 _]%hydrate_definition_kept & H).
  apply M_bind_ok in H as ([] & s4 & Ht4%hydrate_validation_tables & H). apply M_bind_ok in H as ([] & s5 & [_ Ht5]%in_cache_ok & H).
  apply M_bind_ok in H as ([] & s6 & [Ht6 _]%statement_ok & [H _]%in_tables_ok). rewrite Ht'. rewrite <- H. f_equal. congruence.
Qed.
Lemma durable_record_approval_ok a s s' : durable_record_approval a s = (Ok (), s') -> sound s ->
  (exists v, v.(vr_identity) = a.(sa_identity) /\ v.(vr_passed) = true /\ validation_row v = artifact a.(sa_validation_run_id)) /\
  (forall x d rest, approval_rows (fun r => r.(aw_approval_id) ==p a.(sa_approval_id)) s.(rp_tables) = (x, d) :: rest ->
     exists a0, approval_from_row x d = Ok a0 /\ a0 ==p a = true) /\
  upsert_approval a s.(rp_tables) = (Ok (), s'.(rp_tables)) /\
  exists x d rest a', approval_rows (fun r => r.(aw_approval_id) ==p a.(sa_approval_id)) s'.(rp_tables) = (x, d) :: rest /\
    approval_from_row x d = Ok a' /\ a' ==p a = true.
Proof.
  intros (s1 & s2 & H & Ht1 & Hc1 & Ht' & _)%registry_transaction_ok Hs. assert (Hs1 : sound s1) by (unfold sound in *; congruence).
  apply M_bind_ok in H as ([] & s3 & H3 & H). pose proof (preserves_run _ _ _ _ _ (hydrate_definition_sound _) H3 Hs1) as Hs3.
  apply hydrate_definition_kept in H3 as [Ht3 _]. apply M_bind_ok in H as ([] & s4 & H4 & H).
  pose proof (preserves_run _ _ _ _ _ (hydrate_validation_sound _) H4 Hs3) as Hs4. apply hydrate_validation_tables in H4 as Ht4.
  apply M_bind_ok in H as ([] & s5 & H5 & H). pose proof Hs4 as [_ [Hck Hwf]]. apply (hydrate_approval_ok _ _ _) in H5 as (Ht5 & Hv5 & Ha5); [|done].
  apply M_bind_ok in H as ([] & s6 & [Hrec Ht6]%in_cache_ok & H). apply M_bind_ok in H as ([] & s7 & [Ht7 _]%statement_ok & H).
  apply M_bind_ok in H as ([] & s8 & [Hup _]%in_tables_ok & H). apply M_bind_ok in H as (a' & s9 & [Ht9 (x & d & rest & Hrows & Hfrom)]%load_approval_ok & H).
  apply M_bind_ok in H as ([] & s10 & [Hne%raise_if_ok ->]%lift_ok & [_ Ht10]%in_cache_ok).
  assert (E1 : s4.(rp_tables) = s.(rp_tables)) by congruence. assert (E2 : s7.(rp_tables) = s.(rp_tables)) by congruence.
  assert (E3 : s'.(rp_tables) = s8.(rp_tables)) by congruence. rewrite E1 in Ha5. rewrite E2 in Hup. rewrite E3.
  unfold record_approval in Hrec. apply M_bind_ok in Hrec as (c & ? & [= <- <-] & Hrec). apply M_bind_ok in Hrec as ([] & ? & [_ ->]%lift_ok & Hrec).
  apply M_bind_ok in Hrec as (v & ? & [Hv ->]%lift_ok & Hrec). apply M_bind_ok in Hrec as ([] & ? & [Hp%raise_if_ok%negb_false_iff ->]%lift_ok & Hrec).
  apply M_bind_ok in Hrec as ([] & ? & [Hc%raise_if_ok ->]%lift_ok & _). split_and!.
  - destruct (s5.(rp_cache).(reg_validations) !! a.(sa_validation_run_id)) as [w|] eqn:Ew; [|done].
    destruct (w.(vr_identity) !=p a.(sa_identity)) eqn:Ei; [done|]. injection Hv as <-. apply (proj1 (py_ne_false _ _)) in Ei.
    rewrite Hv5 in Ew. apply Hck in Ew as [_ Ew]. by exists w.
  - intros x0 d0 rest0 E0. rewrite E0 in Ha5. destruct Ha5 as (a0 & Ha0 & Hl). exists a0. split; [done|]. by apply (proj1 (conflicts_false _ _) Hc).
  - done.
  - exists x, d, rest, a'. split; [done|]. split; [done|]. unfold py_ne in Hne. by apply negb_false_iff in Hne.
Qed.
Lemma durable_revoke_ok k reason s s' : durable_revoke k reason s = (Ok (), s') -> sound s ->
  exists x d rest a a', approval_rows (fun r => r.(aw_approval_id) ==p k) s.(rp_tables) = (x, d) :: rest /\ approval_from_row x d = Ok a /\
    approval_revoke a reason = Ok a' /\ upsert_approval a' s.(rp_tables) = (Ok (), s'.(rp_tables)).
Proof.
  intros (s1 & s2 & H & Ht1 & Hc1 & Ht' & _)%registry_transaction_ok Hs. assert (Hwf : dict_wf s1.(rp_cache).(reg_approvals)) by (rewrite Hc1; apply Hs).
  apply M_bind_ok in H as ([] & s3 & (Ht3 & _ & Ha3)%hydrate_approval_ok & H); [|done].
  apply M_bind_ok in H as ([] & s4 & [Hrev Ht4]%in_cache_ok & H). apply M_bind_ok in H as (? & ? & [= <- <-] & H).
  apply M_bind_ok in H as (a' & ? & [Ha' ->]%lift_ok & H). apply M_bind_ok in H as ([] & s5 & [Ht5 _]%statement_ok & H).
  apply M_bind_ok in H as ([] & s6 & [Hup _]%in_tables_ok & H). apply M_bind_ok in H as (p & s7 & [Ht7 _]%load_approval_ok & [_ Ht8]%in_cache_ok).
  unfold revoke in Hrev. apply M_bind_ok in Hrev as (c & ? & [= <- <-] & Hrev). apply M_bind_ok in Hrev as (a & ? & [Ha ->]%lift_ok & Hrev).
  apply M_bind_ok in Hrev as (a1 & ? & [Ha1 ->]%lift_ok & [= Hc]). rewrite <- Hc in Ha'. simpl in Ha'. rewrite dict_lookup_insert_eq in Ha'. injection Ha' as <-.
  rewrite Ht1 in Ha3. destruct (approval_rows _ _) as [|[x d] rest] eqn:E; [by rewrite Ha3 in Ha|].
  destruct Ha3 as (a0 & Hx & Hl). rewrite Hl in Ha. injection Ha as <-. exists x, d, rest, a0, a1. split_and!; [done..|].
  assert (E1 : s5.(rp_tables) = s.(rp_tables)) by congruence. assert (E2 : s'.(rp_tables) = s6.(rp_tables)) by congruence. congruence.
Qed.

(** *** The commuting squares *)

Lemma keyed_elem k t d : keyed_definition k t = Some d -> d ∈ t.(rt_definitions) /\ d.(df_strategy_key) = k.
Proof. intros [Hd Hk]%find_elem. split; [done|]. by apply (proj1 (py_eq_true _ _)) in Hk. Qed.
Lemma keyed_some t d : NoDup (df_strategy_key <$> t.(rt_definitions)) -> d ∈ t.(rt_definitions) -> keyed_definition d.(df_strategy_key) t = Some d.
Proof.
  intros Hn Hd. apply (find_unique df_strategy_key); [done| |done|apply py_refl_leibniz].
  intros x y Hx Hy. apply (proj1 (py_eq_true _ _)) in Hx. apply (proj1 (py_eq_true _ _)) in Hy. congruence.
Qed.
Lemma keyed_mem t k : NoDup (df_strategy_key <$> t.(rt_definitions)) -> k ∈ df_strategy_key <$> t.(rt_definitions) ->
  exists d, keyed_definition k t = Some d /\ d ∈ t.(rt_definitions).
Proof. intros Hn (d & -> & Hd)%list_elem_of_fmap. exists d. by rewrite keyed_some. Qed.
Lemma keyed_identity t i d : tables_ok t -> known i -> keyed_definition (identity_key i) t = Some d -> d.(df_identity) = i.
Proof.
  intros Ht Hi [Hd Hk]%keyed_elem. pose proof (tk_definitions _ Ht) as F. rewrite Forall_forall in F. destruct (F d Hd) as (Hdk & Hkn & _).
  apply known_keys; [done..|congruence].
Qed.
Lemma identities_nodup t : tables_ok t -> NoDup (df_identity <$> t.(rt_definitions)).
Proof.
  intros [Hn Hd _ _ _ _]. apply (NoDup_fmap_1 identity_key). rewrite <- list_fmap_compose. erewrite list_fmap_ext; [exact Hn|].
  intros i d Hi. simpl. rewrite Forall_forall in Hd. symmetry. by apply Hd, list_elem_of_lookup_2 with i.
Qed.
Lemma registered t i : tables_ok t -> (exists d, d ∈ t.(rt_definitions) /\ d.(df_identity) = i) -> dict_mem i (registry_of t).(reg_definitions) = true.
Proof.
  intros Ht (d & Hd & <-). unfold dict_mem. simpl.
  by rewrite (table_dict_lookup df_identity _ _ d (definition_of d) (identities_nodup t Ht) Hd eq_refl).
Qed.

Lemma definition_from_row_inv row d : definition_from_row row = Ok d -> definition_of row = d.
Proof.
  unfold definition_from_row. intros H. apply result_bind_ok in H as (i & Hi & H). apply result_bind_ok in H as (_ & _ & [= <-]).
  unfold identity_from_row in Hi. by apply result_bind_ok in Hi as (_ & _ & [= <-]).
Qed.
Lemma register_runs d r : conflicts (r.(reg_definitions) !! d.(sd_identity)) d = false ->
  register d r = (Ok (), set_definitions (<[d.(sd_identity) := d]> r.(reg_definitions)) r).
Proof. intros H. unfold register, mbind, M_bind, get_state, lift. by rewrite H. Qed.

(** A new definition does not touch what refers to the others. *)
Lemma keyed_more t row k : k ∈ df_strategy_key <$> t.(rt_definitions) ->
  keyed_definition k (set_definition_rows (t.(rt_definitions) ++ [row]) t) = keyed_definition k t.
Proof.
  intros (d & -> & Hd)%list_elem_of_fmap. unfold keyed_definition. simpl. rewrite find_snoc. destruct (List.find _ _) eqn:E; [done|].
  apply list_elem_of_In in Hd. apply (find_none _ _ E), py_eq_false in Hd. done.
Qed.

Lemma register_commutes d t t' : tables_ok t -> known d.(sd_identity) -> insert_definition d t = (Ok (), t') ->
  (exists row, keyed_definition (identity_key d.(sd_identity)) t' = Some row /\ definition_from_row row = Ok d) ->
  register d (registry_of t) = (Ok (), registry_of t') /\ tables_ok t'.
Proof.
  intros Ht Hknown H (row & Hrow & Hd). pose proof (definition_from_row_inv _ _ Hd) as Hof. unfold insert_definition in H.
  apply M_bind_ok in H as (? & ? & [= <- <-] & H). apply M_bind_ok in H as (row0 & ? & [Hr0 ->]%lift_ok & H).
  apply M_bind_ok in H as ([] & ? & [_ ->]%lift_ok & H). unfold definition_row in Hr0. apply result_bind_ok in Hr0 as (i & Hi & [= <-]).
  unfold identity_row in Hi. apply result_bind_ok in Hi as (_ & _ & [= <-]). simpl in H. destruct (has_key _ _ _) eqn:Ek.
  - injection H as <-. split; [|done]. apply keyed_elem in Hrow as [Hin _]. assert (Hi : row.(df_identity) = d.(sd_identity)) by (by rewrite <- Hof).
    assert (Hl : (registry_of t).(reg_definitions) !! d.(sd_identity) = Some d).
    { simpl. rewrite <- Hi. apply table_dict_lookup; [by apply identities_nodup|done|congruence]. }
    rewrite register_runs; [|rewrite Hl; apply conflicts_false; intros w [= <-]; apply py_refl_leibniz].
    rewrite (dict_insert_id _ _ _ Hl). by destruct (registry_of t).
  - apply M_bind_ok in H as ([] & ? & [Hu%raise_if_ok ->]%lift_ok & [= <-]).
    match type of Hu with existsb _ _ = false => set (new := {| df_strategy_key := identity_key d.(sd_identity); df_identity := d.(sd_identity);
      df_family := d.(sd_family); df_parameters := d.(sd_parameters); df_implementation_ref := d.(sd_implementation_ref) |}) in * end.
    apply has_key_false in Ek. assert (Hfresh : ~ new.(df_identity) ∈ (df_identity <$> t.(rt_definitions))).
    { intros (x & Hx & Hin)%list_elem_of_fmap. rewrite existsb_false_Forall, Forall_forall in Hu. apply Hu, py_eq_false in Hin. by apply Hin. }
    assert (row = new) as ->.
    { unfold keyed_definition in Hrow. simpl in Hrow. rewrite find_snoc in Hrow. destruct (List.find _ _) eqn:E.
      - apply find_elem in E as [E1 E2]. apply (proj1 (py_eq_true _ _)) in E2. exfalso. apply Ek. rewrite <- E2. by apply list_elem_of_fmap_2.
      - simpl in Hrow. rewrite py_refl_leibniz in Hrow. by injection Hrow as <-. }
    set (t' := set_definition_rows _ t).
    assert (Hv : table_dict vw_validation_run_id (validation_of t') t.(rt_validations) = (registry_of t).(reg_validations)).
    { apply table_dict_ext. intros v Hv. unfold validation_of. pose proof (tk_validations _ Ht) as F. rewrite Forall_forall in F.
      unfold t'. by rewrite keyed_more by apply (F v Hv). }
    assert (Ha : table_dict aw_approval_id (approval_of t') t.(rt_approvals) = (registry_of t).(reg_approvals)).
    { apply table_dict_ext. intros a Ha. unfold approval_of. pose proof (tk_approvals _ Ht) as F. rewrite Forall_forall in F.
      unfold t'. by rewrite keyed_more by apply (F a Ha). }
    split.
    + rewrite register_runs.
      * f_equal. unfold registry_of, set_definitions. simpl. rewrite (table_dict_snoc df_identity _ _ new d Hfresh) by congruence.
        change (df_identity new) with d.(sd_identity). f_equal; [by symmetry|by symmetry].
      * simpl. rewrite (table_dict_absent _ _ _ _ Hfresh). done.
    + destruct Ht as [Hk Hdf Hru Hva Hid Hap]. split; simpl; [by apply NoDup_snoc_key| |done| |done|].
      * apply Forall_app. split; [done|]. apply Forall_singleton. split; [done|]. split; [done|]. by rewrite Hof.
      * eapply Forall_impl; [done|]. intros v (Hv1 & Hv2). split; [|done]. rewrite fmap_app. apply elem_of_app. by left.
      * eapply Forall_impl; [done|]. intros a (Ha1 & Ha2). split; [|done]. rewrite fmap_app. apply elem_of_app. by left.
Qed.

Lemma float_refl x : fnan x || is_infinity x = false -> (x ==p x) = true.
Proof. intros [H _]%orb_false_iff. unfold fnan, is_nan in H. by apply negb_false_iff in H. Qed.
Lemma datetime_refl (d : datetime) : (d ==p d) = true.
Proof. unfold py_eq, py_eq_datetime. by rewrite Bool.eqb_reflx, Z.eqb_refl. Qed.
Lemma stored_validation_refl v row : validation_row v = Ok row -> (stored_validation v ==p stored_validation v) = true.
Proof.
  intros (Hm & Hp & _)%validation_row_inv. apply jsonb_floats_stored in Hm, Hp. unfold jsonb_floats in Hm, Hp.
  rewrite raise_if_ok, existsb_false_Forall in Hm, Hp. unfold metrics_floats in Hm. unfold policy_floats in Hp. simpl in Hm, Hp.
  rewrite !Forall_cons in Hm, Hp. destruct Hm as (M1 & M2 & M3 & M4 & _), Hp as (P1 & P2 & P3 & P4 & _).
  unfold py_eq at 1, py_eq_ValidationResult. simpl. rewrite datetime_refl, !py_refl_leibniz. simpl. apply andb_true_iff.
  split; unfold py_eq at 1; [unfold py_eq_ValidationMetrics|unfold py_eq_ValidationPolicy]; simpl.
  - by rewrite !py_refl_leibniz, (float_refl _ M1), (float_refl _ M2), (float_refl _ M3), (float_refl _ M4).
  - by rewrite !py_refl_leibniz, (float_refl _ P1), (float_refl _ P2), (float_refl _ P3), (float_refl _ P4).
Qed.
Lemma record_validation_runs v r : dict_mem v.(vr_identity) r.(reg_definitions) = true ->
  conflicts (r.(reg_validations) !! v.(vr_validation_run_id)) v = false ->
  record_validation v r = (Ok (), set_validations (<[v.(vr_validation_run_id) := v]> r.(reg_validations)) r).
Proof. intros Hm H. unfold record_validation, mbind, M_bind, get_state, lift. rewrite Hm. simpl. by rewrite H. Qed.

(** The stored form of a validation is what its row stands for. *)
Lemma validation_of_row t v row d : tables_ok t -> known v.(vr_identity) -> validation_row v = Ok row -> keyed_definition row.(vw_strategy_key) t = Some d ->
  validation_of t row = Some (stored_validation v) /\ d.(df_identity) = v.(vr_identity).
Proof.
  intros Ht Hk (_ & _ & ->)%validation_row_inv Hd. simpl in Hd. pose proof (keyed_identity _ _ _ Ht Hk Hd) as Hi. split; [|done].
  unfold validation_of. simpl. rewrite Hd. simpl. by rewrite Hi.
Qed.

Lemma validation_commutes v t t' : tables_ok t -> known v.(vr_identity) -> validation_row v = artifact v.(vr_validation_run_id) ->
  insert_validation v t = (Ok (), t') -> record_validation (stored_validation v) (registry_of t) = (Ok (), registry_of t') /\ tables_ok t'.
Proof.
  intros Ht Hknown Hart H. pose proof (tk_validations _ Ht) as F. rewrite Forall_forall in F. unfold insert_validation in H.
  apply M_bind_ok in H as (? & ? & [= <- <-] & H). apply M_bind_ok in H as (row & ? & [Hrow ->]%lift_ok & H).
  pose proof Hrow as (_ & _ & Hre)%validation_row_inv. assert (Hid : row.(vw_validation_run_id) = v.(vr_validation_run_id)) by (by rewrite Hre).
  destruct (has_key _ _ _) eqn:Ek.
  - injection H as <-. split; [|done]. unfold has_key in Ek. apply existsb_true_elem in Ek as (w & Hw & Hk).
    apply (proj1 (py_eq_true _ _)) in Hk. destruct (F w Hw) as (Href & Hwa & _). rewrite Hk, Hid, <- Hart, Hrow in Hwa. injection Hwa as <-.
    destruct (keyed_mem _ _ (tk_keys _ Ht) Href) as (d & Hd & Hdin). destruct (validation_of_row _ _ _ _ Ht Hknown Hrow Hd) as [Hof Hdi].
    assert (Hl : (registry_of t).(reg_validations) !! v.(vr_validation_run_id) = Some (stored_validation v))
      by (simpl; rewrite <- Hid; apply table_dict_lookup; [apply Ht|done|done]).
    rewrite record_validation_runs.
    + simpl vr_validation_run_id. rewrite (dict_insert_id _ _ _ Hl). by destruct (registry_of t).
    + apply registered; [done|]. by exists d.
    + simpl vr_validation_run_id. rewrite Hl. apply conflicts_false. intros w [= <-]. by eapply stored_validation_refl.
  - apply has_key_false in Ek. apply M_bind_ok in H as ([] & ? & [Hr%references_ok ->]%lift_ok & [= <-]).
    destruct (keyed_mem _ _ (tk_keys _ Ht) Hr) as (d & Hd & Hdin). destruct (validation_of_row _ _ _ _ Ht Hknown Hrow Hd) as [Hof Hdi]. split.
    + rewrite record_validation_runs.
      * f_equal. unfold registry_of, set_validations. simpl. f_equal. rewrite <- Hid. symmetry. by apply table_dict_snoc.
      * apply registered; [done|]. by exists d.
      * simpl. rewrite <- Hid. by rewrite (table_dict_absent _ _ _ _ Ek).
    + destruct Ht as [Hk Hdf Hru Hva Hids Hap]. split; simpl; [done|done|by apply NoDup_snoc_key| |done|].
      * apply Forall_app. split; [done|]. apply Forall_singleton. split; [done|]. split; [by rewrite Hid, <- Hart|by exists v].
      * eapply Forall_impl; [done|]. intros a (Ha1 & Ha2 & Ha3). split; [done|]. split; [|done]. rewrite fmap_app. apply elem_of_app. by left.
Qed.

Lemma approval_from_row_inv a d x : approval_from_row a d = Ok x -> x = approval_with a d.(df_identity).
Proof.
  unfold approval_from_row. intros H. apply result_bind_ok in H as (i & Hi & [= <-]). unfold identity_from_row in Hi.
  by apply result_bind_ok in Hi as (_ & _ & [= <-]).
Qed.
Lemma approval_rows_head t k x d rest : tables_ok t -> approval_rows (fun r => r.(aw_approval_id) ==p k) t = (x, d) :: rest ->
  x ∈ t.(rt_approvals) /\ x.(aw_approval_id) = k /\ d ∈ t.(rt_definitions) /\ keyed_definition x.(aw_strategy_key) t = Some d.
Proof.
  intros Ht H. assert (Hin : (x, d) ∈ approval_rows (fun r => r.(aw_approval_id) ==p k) t) by (rewrite H; by left).
  apply approval_rows_elem in Hin as ([Hx Hk] & Hd & Hdk). apply (proj1 (py_eq_true _ _)) in Hk. split_and!; [done..|].
  rewrite <- Hdk. by apply keyed_some; [apply Ht|].
Qed.
Lemma approval_rows_some t x : tables_ok t -> x ∈ t.(rt_approvals) ->
  exists d rest, approval_rows (fun r => r.(aw_approval_id) ==p x.(aw_approval_id)) t = (x, d) :: rest.
Proof.
  intros Ht Hx. pose proof (tk_approvals _ Ht) as F. rewrite Forall_forall in F. destruct (F x Hx) as (Hk & _).
  apply list_elem_of_fmap in Hk as (d & Hdk & Hd).
  assert (Hin : (x, d) ∈ approval_rows (fun r => r.(aw_approval_id) ==p x.(aw_approval_id)) t)
    by (apply approval_rows_elem; split; [split; [done|apply py_refl_leibniz]|done]).
  destruct (approval_rows _ t) as [|[y e] rest] eqn:E; [by apply elem_of_nil in Hin|]. exists e, rest.
  destruct (approval_rows_head _ _ _ _ _ Ht E) as (Hy & Hyk & _). do 2 f_equal. eapply (NoDup_key_inj aw_approval_id); [apply Ht|done..].
Qed.

(** [==] of approvals whose times are in UTC *)
Lemma approval_eq_stored a0 a : (a0 ==p a) = true -> timestamptz a0.(sa_approved_at) = a0.(sa_approved_at) ->
  timestamptz a0.(sa_expires_at) = a0.(sa_expires_at) -> a0 = stored_approval a.
Proof.
  unfold py_eq at 1, py_eq_StrategyApproval. rewrite !andb_true_iff, !py_eq_true, bool_decide_eq_true. intros (((((((E1 & E2) & E3) & E4) & E5) & E6) & E7) & E8) T1 T2.
  assert (Hd : forall x y : datetime, (x ==p y) = true -> timestamptz x = x -> timestamptz y = x).
  { intros x y [_ H%Z.eqb_eq]%andb_prop Hx. unfold timestamptz in *. by rewrite <- H. }
  apply Hd in E5, E6; [|done..]. unfold stored_approval, approval_with. simpl. destruct a0. simpl in *. congruence.
Qed.
Lemma stored_approval_refl a : (stored_approval a ==p stored_approval a) = true.
Proof. unfold py_eq at 1, py_eq_StrategyApproval. by rewrite !datetime_refl, !py_refl_leibniz, bool_decide_eq_true_2. Qed.
Lemma record_approval_runs a r v : dict_mem a.(sa_identity) r.(reg_definitions) = true -> r.(reg_validations) !! a.(sa_validation_run_id) = Some v ->
  v.(vr_identity) = a.(sa_identity) -> v.(vr_passed) = true -> conflicts (r.(reg_approvals) !! a.(sa_approval_id)) a = false ->
  record_approval a r = (Ok (), set_approvals (<[a.(sa_approval_id) := a]> r.(reg_approvals)) r).
Proof.
  intros Hm Hv Hi Hp Hc. unfold record_approval, mbind, M_bind, get_state, lift. rewrite Hm, Hv. simpl.
  rewrite (proj2 (py_ne_false _ _) Hi). simpl. rewrite Hp. simpl. by rewrite Hc.
Qed.

(** The validation of an approval is in the registry of the tables. *)
Lemma approved_validation t i run v : tables_ok t -> known i -> run ∈ vw_validation_run_id <$> t.(rt_validations) ->
  v.(vr_identity) = i -> v.(vr_passed) = true -> validation_row v = artifact run ->
  dict_mem i (registry_of t).(reg_definitions) = true /\
  exists w, (registry_of t).(reg_validations) !! run = Some w /\ w.(vr_identity) = i /\ w.(vr_passed) = true.
Proof.
  intros Ht Hk (row & -> & Hrow)%list_elem_of_fmap Hi Hp Hart. pose proof (tk_validations _ Ht) as F. rewrite Forall_forall in F.
  destruct (F row Hrow) as (Href & Hra & _). rewrite Hra in Hart. destruct (keyed_mem _ _ (tk_keys _ Ht) Href) as (d & Hd & Hdin).
  subst i. destruct (validation_of_row _ _ _ _ Ht Hk Hart Hd) as [Hof Hdi]. split; [apply registered; [done|]; by exists d|].
  exists (stored_validation v). split; [|done]. simpl. by apply table_dict_lookup; [apply Ht|..].
Qed.

Lemma approval_commutes a t t' v : tables_ok t -> known a.(sa_identity) ->
  v.(vr_identity) = a.(sa_identity) -> v.(vr_passed) = true -> validation_row v = artifact a.(sa_validation_run_id) ->
  (forall x d rest, approval_rows (fun r => r.(aw_approval_id) ==p a.(sa_approval_id)) t = (x, d) :: rest ->
     exists a0, approval_from_row x d = Ok a0 /\ a0 ==p a = true) ->
  upsert_approval a t = (Ok (), t') ->
  (exists x d rest a', approval_rows (fun r => r.(aw_approval_id) ==p a.(sa_approval_id)) t' = (x, d) :: rest /\
    approval_from_row x d = Ok a' /\ a' ==p a = true) ->
  record_approval (stored_approval a) (registry_of t) = (Ok (), registry_of t') /\ tables_ok t'.
Proof.
  intros Ht Hknown Hvi Hvp Hva Hbefore Hup Hafter. pose proof (tk_approvals _ Ht) as F. rewrite Forall_forall in F. apply upsert_ok in Hup.
  assert (Hold : forall old, old ∈ t.(rt_approvals) -> old.(aw_approval_id) = a.(sa_approval_id) ->
    approval_of t old = Some (stored_approval a) /\ old.(aw_validation_run_id) = a.(sa_validation_run_id) /\
    updated_approval (approval_row a) old = old).
  { intros old Ho Hi. destruct (approval_rows_some t old Ht Ho) as (d & rest & E). rewrite Hi in E.
    destruct (Hbefore _ _ _ E) as (a0 & Ha0%approval_from_row_inv & Heq). destruct (approval_rows_head _ _ _ _ _ Ht E) as (_ & _ & _ & Hd).
    destruct (F old Ho) as (_ & _ & T1 & T2). assert (Hst : a0 = stored_approval a) by (apply approval_eq_stored; [done|subst a0; done..]).
    rewrite Ha0 in Hst. unfold approval_of. rewrite Hd. simpl. split; [by rewrite Hst|]. injection Hst. intros. split; [done|].
    unfold updated_approval. destruct old. simpl in *. congruence. }
  destruct Hup as [old Ho Hi Hr Ha|old Ho Hi Hs He|Hnew He Hd Hv].
  - exfalso. destruct (Hold old Ho Hi) as (_ & _ & E). apply (f_equal aw_state) in E. simpl in E, Ha. congruence.
  - destruct (Hold old Ho Hi) as (Hof & Hrun & Hupd). destruct (F old Ho) as (_ & Hvin & _). rewrite Hrun in Hvin.
    destruct (approved_validation t _ _ v Ht Hknown Hvin Hvi Hvp Hva) as [Hmem (w & Hw & Hwi & Hwp)].
    assert (Hl : (registry_of t).(reg_approvals) !! a.(sa_approval_id) = Some (stored_approval a))
      by (simpl; change a.(sa_approval_id) with (approval_row a).(aw_approval_id); rewrite <- Hi; apply table_dict_lookup; [apply Ht|done..]).
    assert (set_approval_rows (update_where (fun r => r.(aw_approval_id) ==p (approval_row a).(aw_approval_id))
              (fun _ => updated_approval (approval_row a) old) t.(rt_approvals)) t = t) as ->.
    { rewrite Hupd. unfold update_where. erewrite (list_fmap_ext _ (fun r => r)); [by rewrite list_fmap_id; destruct t|].
      intros i r Hir%list_elem_of_lookup_2. simpl. destruct (_ ==p _) eqn:E; [|done]. apply (proj1 (py_eq_true _ _)) in E.
      eapply (NoDup_key_inj aw_approval_id); [apply Ht|done..|]. by rewrite E. }
    split; [|done]. erewrite record_approval_runs; [|exact Hmem|exact Hw|exact Hwi|exact Hwp|].
    + change (sa_approval_id (stored_approval a)) with a.(sa_approval_id). rewrite (dict_insert_id _ _ _ Hl). by destruct (registry_of t).
    + change (sa_approval_id (stored_approval a)) with a.(sa_approval_id). rewrite Hl. apply conflicts_false. intros x [= <-]. apply stored_approval_refl.
  - destruct (approved_validation t _ _ v Ht Hknown Hv Hvi Hvp Hva) as [Hmem (w & Hw & Hwi & Hwp)].
    destruct (keyed_mem _ _ (tk_keys _ Ht) Hd) as (d & Hkd & Hdin). pose proof (keyed_identity t _ _ Ht Hknown Hkd) as Hdi.
    assert (Hof : approval_of t (approval_row a) = Some (stored_approval a)) by (unfold approval_of; rewrite Hkd; simpl; by rewrite Hdi).
    split.
    + erewrite record_approval_runs; [|exact Hmem|exact Hw|exact Hwi|exact Hwp|].
      * f_equal. unfold registry_of, set_approvals. simpl. f_equal. symmetry. by apply (table_dict_snoc aw_approval_id _ _ (approval_row a)).
      * change (sa_approval_id (stored_approval a)) with (approval_row a).(aw_approval_id). simpl reg_approvals. by rewrite (table_dict_absent _ _ _ _ Hnew).
    + destruct Ht as [Hk Hdf Hru Hvs Hids Hap]. split; simpl; [done..|by apply NoDup_snoc_key|]. apply Forall_app. split; [done|].
      apply Forall_singleton. simpl. rewrite !timestamptz_twice. done.
Qed.

Lemma revoke_commutes k reason t t' x d rest a a' : tables_ok t -> approval_rows (fun r => r.(aw_approval_id) ==p k) t = (x, d) :: rest ->
  approval_from_row x d = Ok a -> approval_revoke a reason = Ok a' -> upsert_approval a' t = (Ok (), t') ->
  revoke k reason (registry_of t) = (Ok (), registry_of t') /\ tables_ok t'.
Proof.
  intros Ht E Ha%approval_from_row_inv Hrev Hup. destruct (approval_rows_head _ _ _ _ _ Ht E) as (Hx & Hxk & Hd & Hkd).
  assert (Hl : (registry_of t).(reg_approvals) !! k = Some a).
  { simpl. rewrite <- Hxk. apply table_dict_lookup; [apply Ht|done|]. unfold approval_of. rewrite Hkd. simpl. by rewrite Ha. }
  assert (Hrun : revoke k reason (registry_of t) = (Ok (), set_approvals (<[k := a']> (registry_of t).(reg_approvals)) (registry_of t))).
  { unfold revoke, mbind, M_bind, get_state, lift. rewrite Hl. simpl. rewrite Hrev. done. }
  unfold approval_revoke in Hrev. apply result_bind_ok in Hrev as (_ & _ & [= <-]). apply upsert_ok in Hup. rewrite Hrun. subst a.
  destruct Hup as [old Ho Hi Hr Hs|old Ho Hi Hs He|Hnew He Hdn Hv]; [done| |].
  2: { exfalso. apply Hnew. simpl. by apply list_elem_of_fmap_2. }
  simpl in Hi. assert (old = x) as -> by (eapply (NoDup_key_inj aw_approval_id); [apply Ht|done..]).
  assert (Hp : forall r : ApprovalRow, (r.(aw_approval_id) ==p x.(aw_approval_id)) = true <-> r.(aw_approval_id) = x.(aw_approval_id))
    by (intros r; apply py_eq_true).
  match goal with |- context [updated_approval ?n x] => set (new := updated_approval n x) end. split.
  - f_equal. unfold registry_of, set_approvals. simpl. f_equal. symmetry. subst k.
    apply (table_dict_update aw_approval_id _ _ _ x new (approval_with x d.(df_identity))); [apply Ht|done|done|done| |].
    + transitivity (approval_of t x); [done|]. unfold approval_of. by rewrite Hkd.
    + transitivity (approval_of t new); [done|]. unfold approval_of. simpl. by rewrite Hkd.
  - pose proof (tk_approvals _ Ht) as F. rewrite Forall_forall in F. destruct Ht as [Hk Hdf Hru Hvs Hids Hap]. split; simpl; [done..| |].
    + rewrite update_where_same; [done|]. intros r Er. by apply Hp in Er.
    + apply Forall_forall. intros r (y & Hy & ->)%update_where_elem. destruct (_ ==p _); [|by apply F]. exact (F x Hx).
Qed.

(** The tables are one in-memory registry, shared by all processes.  A call
    that returns does to it what the in-memory operation does, whatever the
    process has in its dicts and whichever statements failed in earlier calls;
    a call that raises leaves the tables as they were; either way the dicts
    of the process stay sound. *)
Lemma registry_refined op s :
  tables_ok s.(rp_tables) -> cache_ok s.(rp_cache) -> (forall i, op_identity op = Some i -> known i) -> genuine op ->
  match durable_run op s with
  | (Ok _, s') => registry_run (stored_op op) (registry_of s.(rp_tables)) = (Ok (), registry_of s'.(rp_tables)) /\
      tables_ok s'.(rp_tables) /\ cache_ok s'.(rp_cache)
  | (Err _, s') => s'.(rp_tables) = s.(rp_tables) /\ cache_ok s'.(rp_cache)
  end.
Proof.
  intros Ht Hc Hknown Hg. assert (Hs : sound s) by (split; [by apply tables_rows|done]).
  pose proof (durable_run_sound op Hg s Hs) as [_ Hc']. destruct (durable_run op s) as [[[]|e] s'] eqn:E; simpl in Hc'.
  - cut (registry_run (stored_op op) (registry_of s.(rp_tables)) = (Ok (), registry_of s'.(rp_tables)) /\ tables_ok s'.(rp_tables)); [tauto|].
    destruct op as [d|v|a|k reason]; simpl in *.
    + apply durable_register_ok in E as [Hi Hr]. apply (register_commutes d); auto.
    + apply durable_record_validation_ok in E. apply (validation_commutes v); auto.
    + apply durable_record_approval_ok in E as ((v & Hvi & Hvp & Hva) & Hb & Hu & Ha); [|done]. apply (approval_commutes a _ _ v); auto.
    + apply durable_revoke_ok in E as (x & d & rest & a & a' & Hx & Hf & Hr & Hu); [|done]. by eapply revoke_commutes.
  - split; [|done]. destruct op; by eapply registry_transaction_err.
Qed.

(** *** The reads *)

Definition current (at_ : datetime) (a : StrategyApproval) : bool :=
  bool_decide (a.(sa_state) = APPROVED) && (instant a.(sa_approved_at) <=? instant at_) && (instant at_ <? instant a.(sa_expires_at)).
Lemma is_current_aware a at_ : aware at_ = true -> aware a.(sa_approved_at) = true -> aware a.(sa_expires_at) = true -> is_current a at_ = Ok (current at_ a).
Proof.
  intros Hw H1 H2. unfold is_current, current. destruct (sa_state a); [|done]. rewrite (proj2 (utc_ok at_ "at" _) (conj Hw eq_refl)). simpl.
  unfold dt_le, dt_lt. rewrite H1, H2, instant_at_utc. simpl. by destruct (_ <=? _).
Qed.
Lemma current_approvals_filter i at_ l : aware at_ = true -> Forall (fun a => aware a.(sa_approved_at) = true /\ aware a.(sa_expires_at) = true) l ->
  current_approvals i at_ l = Ok (List.filter (fun a => (a.(sa_identity) ==p i) && current at_ a) l).
Proof.
  intros Hw. induction l as [|a l IH]; [done|]. intros [[H1 H2] Hl]%Forall_cons. simpl. rewrite (IH Hl).
  destruct (a.(sa_identity) ==p i); simpl; [rewrite is_current_aware by done|]; simpl; [|done]. by destruct (current at_ a).
Qed.

Lemma approval_values t x : x ∈ dict_values (registry_of t).(reg_approvals) <-> exists a, a ∈ t.(rt_approvals) /\ approval_of t a = Some x.
Proof.
  unfold dict_values. rewrite list_elem_of_fmap. simpl. split.
  - intros ([k y] & -> & (a & Ha & _ & Hx)%table_dict_elem). by exists a.
  - intros (a & Ha & Hx). exists (a.(aw_approval_id), x). split; [done|]. apply table_dict_elem. by exists a.
Qed.
Lemma stored_aware d : timestamptz d = d -> aware d = true.
Proof. by intros <-. Qed.
Lemma values_aware t : tables_ok t ->
  Forall (fun a => aware a.(sa_approved_at) = true /\ aware a.(sa_expires_at) = true) (dict_values (registry_of t).(reg_approvals)).
Proof.
  intros Ht. apply Forall_forall. intros x (a & Ha & Hx)%approval_values. unfold approval_of in Hx. destruct (keyed_definition _ _) as [d|]; [|done].
  injection Hx as <-. pose proof (tk_approvals _ Ht) as F. rewrite Forall_forall in F. destruct (F a Ha) as (_ & _ & T1 & T2). simpl.
  by split; apply stored_aware.
Qed.
(** The approvals in force of a strategy. *)
Definition granted (t : RegistryTables) (i : StrategyIdentity) (at_ : datetime) : list StrategyApproval :=
  List.filter (fun a => (a.(sa_identity) ==p i) && current at_ a) (dict_values (registry_of t).(reg_approvals)).
Lemma granted_elem t i at_ x : tables_ok t -> known i -> x ∈ granted t i at_ <->
  exists a, a ∈ t.(rt_approvals) /\ a.(aw_strategy_key) = identity_key i /\ in_force at_ a = true /\ x = approval_with a i.
Proof.
  intros Ht Hk. unfold granted. rewrite filter_elem, approval_values. pose proof (tk_definitions _ Ht) as FD. rewrite Forall_forall in FD.
  pose proof (tk_approvals _ Ht) as FA. rewrite Forall_forall in FA. split.
  - intros [(a & Ha & Hx) [Hi Hc]%andb_prop]. unfold approval_of in Hx. destruct (keyed_definition _ _) as [d|] eqn:Ed; [|done]. injection Hx as <-.
    apply (proj1 (py_eq_true _ _)) in Hi. simpl in Hi. apply keyed_elem in Ed as [Hd Hdk]. destruct (FD d Hd) as (Hkey & _).
    exists a. split_and!; [done|congruence|exact Hc|by rewrite Hi].
  - intros (a & Ha & Hkey & Hf & ->). destruct (FA a Ha) as (Href & _). destruct (keyed_mem _ _ (tk_keys _ Ht) Href) as (d & Hd & _).
    split; [|simpl; rewrite py_refl_leibniz; exact Hf]. exists a. split; [done|]. unfold approval_of. rewrite Hd. simpl. rewrite Hkey in Hd.
    by rewrite (keyed_identity _ _ _ Ht Hk Hd).
Qed.
Lemma from_row_ok t a d : tables_ok t -> d ∈ t.(rt_definitions) -> approval_from_row a d = Ok (approval_with a d.(df_identity)).
Proof.
  intros Ht Hd. pose proof (tk_definitions _ Ht) as FD. rewrite Forall_forall in FD. destruct (FD d Hd) as (_ & _ & H).
  unfold definition_from_row in H. apply result_bind_ok in H as (i & Hi & _). unfold approval_from_row. rewrite Hi. simpl.
  unfold identity_from_row in Hi. by apply result_bind_ok in Hi as (_ & _ & [= <-]).
Qed.

Lemma loaded_granted scan t i at_ : (forall l, scan l ≡ₚ l) -> tables_ok t -> known i ->
  exists l, load_current_approvals scan i at_ t = Ok l /\ forall x, x ∈ l <-> x ∈ granted t i at_.
Proof.
  intros Hscan Ht Hk. unfold load_current_approvals. set (rows := approval_rows _ t).
  assert (Hrows : forall a d, (a, d) ∈ scan rows -> a ∈ t.(rt_approvals) /\ a.(aw_strategy_key) = identity_key i /\ in_force at_ a = true /\
      approval_from_row a d = Ok (approval_with a i)).
  { intros a d Hin. rewrite (Hscan rows) in Hin. apply approval_rows_elem in Hin as ([Ha [Hkey Hf]%andb_prop] & Hd & Hdk).
    apply (proj1 (py_eq_true _ _)) in Hkey. split_and!; [done..|]. rewrite (from_row_ok t) by done. do 2 f_equal.
    apply (keyed_identity t); [done..|]. rewrite <- Hkey, <- Hdk. apply keyed_some; [apply Ht|done]. }
  destruct (map_result_total (fun '(a, d) => approval_from_row a d) (scan rows)) as [l Hl].
  { intros [a d] Hin. apply Hrows in Hin as (_ & _ & _ & ->). by eexists. }
  exists l. split; [done|]. intros x. rewrite granted_elem by done. split.
  - intros Hx. destruct (map_result_elem _ _ _ _ Hl Hx) as ([a d] & Hin & Hf). apply Hrows in Hin as (Ha & Hkey & Hfo & E).
    rewrite E in Hf. injection Hf as <-. by exists a.
  - intros (a & Ha & Hkey & Hfo & ->). pose proof (tk_approvals _ Ht) as FA. rewrite Forall_forall in FA. destruct (FA a Ha) as (Href & _).
    apply list_elem_of_fmap in Href as (d & Hdk & Hd).
    assert (Hin : (a, d) ∈ scan rows).
    { rewrite (Hscan rows). apply approval_rows_elem. split; [split; [done|]|done]. rewrite Hfo, Hkey, py_refl_leibniz. done. }
    apply map_result_ok in Hl. apply list_elem_of_lookup in Hin as [n Hn]. destruct (Forall2_lookup_l _ _ _ _ _ Hl Hn) as (y & Hy & Hf).
    apply list_elem_of_lookup_2 in Hn. apply Hrows in Hn as (_ & _ & _ & E). simpl in Hf. rewrite E in Hf. injection Hf as <-.
    by apply list_elem_of_lookup_2 in Hy.
Qed.

Lemma require_approval_granted t i at_ : tables_ok t -> aware at_ = true ->
  require_approval (registry_of t) i at_ =
    if dict_mem i (registry_of t).(reg_definitions) then
      match py_max_by (fun a b => instant a.(sa_approved_at) <? instant b.(sa_approved_at)) (granted t i at_) with
      | Some a => Ok a
      | None => Err (PermissionError "no current approval for exact strategy identity")
      end
    else Err (LookupError "strategy identity is not registered").
Proof.
  intros Ht Hw. unfold require_approval. destruct (dict_mem _ _); [|done]. simpl.
  rewrite current_approvals_filter by (try done; by apply values_aware). done.
Qed.
Lemma py_max_by_none {A} lt (l : list A) : py_max_by lt l = None -> l = [].
Proof. by destruct l. Qed.
Lemma registered_iff t i : tables_ok t -> known i -> dict_mem i (registry_of t).(reg_definitions) = true <-> keyed_definition (identity_key i) t <> None.
Proof.
  intros Ht Hk. split.
  - intros H. unfold dict_mem in H. destruct (_ !! i) as [d|] eqn:E in H; [|done]. apply table_dict_lookup_inv in E as (row & Hrow & Hi & _).
    pose proof (tk_definitions _ Ht) as FD. rewrite Forall_forall in FD. destruct (FD row Hrow) as (Hkey & _).
    rewrite <- Hi, <- Hkey. rewrite keyed_some; [done|apply Ht|done].
  - intros H. destruct (keyed_definition _ _) as [d|] eqn:E; [|done]. apply registered; [done|]. exists d. split; [by apply keyed_elem in E as [? _]|].
    by apply (keyed_identity t).
Qed.

(** The durable read answers as the in-memory registry: the same refusals,
    and otherwise an approval of the identity that is in force and none of
    those in force is later. *)
Lemma require_agrees scan t c i at_ : (forall l, scan l ≡ₚ l) -> tables_ok t -> known i -> aware at_ = true ->
  match (durable_require_approval scan i at_ {| rp_tables := t; rp_cache := c; rp_faults := [] |}).1, require_approval (registry_of t) i at_ with
  | Ok a, Ok b => a ∈ granted t i at_ /\ instant a.(sa_approved_at) = instant b.(sa_approved_at)
  | Err e, Err e' => e = e'
  | _, _ => False
  end.
Proof.
  intros Hscan Ht Hk Hw. rewrite require_approval_granted by done. unfold durable_require_approval. simpl.
  pose proof (registered_iff t i Ht Hk) as Hreg. destruct (loaded_granted scan t i at_ Hscan Ht Hk) as (l & Hl & Hin).
  unfold mbind, M_bind, lift, get_state, statement. simpl. destruct (dict_mem _ _).
  - rewrite bool_decide_eq_false_2 by (by apply Hreg). simpl. rewrite Hl.
    destruct (py_max_by _ l) as [a|] eqn:Ea; simpl; (destruct (py_max_by _ (granted t i at_)) as [b|] eqn:Eb); simpl; [| | |done].
    + pose proof (py_max_by_elem _ _ _ Ea) as Ha. pose proof (py_max_by_elem _ _ _ Eb) as Hb. apply Hin in Ha as Hag. split; [done|].
      apply (py_max_by_Z (fun x => instant x.(sa_approved_at))) in Ea, Eb. rewrite Forall_forall in Ea, Eb.
      specialize (Eb a Hag). apply Hin in Hb. specialize (Ea b Hb). lia.
    + apply py_max_by_elem, Hin in Ea. apply py_max_by_none in Eb. rewrite Eb in Ea. by apply elem_of_nil in Ea.
    + apply py_max_by_elem, Hin in Eb. apply py_max_by_none in Ea. rewrite Ea in Eb. by apply elem_of_nil in Eb.
  - rewrite bool_decide_eq_true_2; [done|]. destruct (keyed_definition _ _); [|done]. by assert (false = true) by (by apply Hreg).
Qed.

Lemma eligible_agrees t c m tf th fv at_ : tables_ok t -> aware at_ = true ->
  (durable_eligible m tf th fv at_ {| rp_tables := t; rp_cache := c; rp_faults := [] |}).1 = eligible (registry_of t) m tf th fv at_.
Proof.
  intros Ht Hw. unfold durable_eligible, eligible. unfold mbind, M_bind, lift, get_state, statement. simpl.
  pose proof (tk_definitions _ Ht) as FD. rewrite Forall_forall in FD.
  assert (H : forall rows, rows ⊆ t.(rt_definitions) ->
    eligible_loop (registry_of t) m tf th fv at_ ((fun d => (d.(df_identity), definition_of d)) <$> rows) =
    map_result definition_from_row (List.filter (eligible_row m tf th fv at_ t) rows)).
  { induction rows as [|d rows IH]; intros Hsub; [done|]. assert (Hd : d ∈ t.(rt_definitions)) by (apply Hsub; by left).
    destruct (FD d Hd) as (Hkey & Hk & Hfrom). rewrite fmap_cons. cbn [eligible_loop List.filter]. unfold eligible_row at 1.
    destruct ((_ ==p m) && _ && _ && _) eqn:Ec; [|apply IH; intros x Hx; apply Hsub; by right].
    rewrite require_approval_granted by done. rewrite (registered t) by (try done; by exists d). simpl.
    destruct (existsb _ t.(rt_approvals)) eqn:Ee.
    - apply existsb_true_elem in Ee as (a & Ha & [Hak Hf]%andb_prop). apply (proj1 (py_eq_true _ _)) in Hak.
      destruct (py_max_by _ _) as [b|] eqn:Eb.
      + simpl. rewrite Hfrom, IH by (intros x Hx; apply Hsub; by right). simpl. by destruct (map_result _ _).
      + apply py_max_by_none in Eb. assert (Hin : approval_with a d.(df_identity) ∈ granted t d.(df_identity) at_)
          by (apply granted_elem; [done..|]; exists a; split_and!; [done|congruence|done|done]). rewrite Eb in Hin. by apply elem_of_nil in Hin.
    - destruct (py_max_by _ _) as [b|] eqn:Eb; [|apply IH; intros x Hx; apply Hsub; by right]. exfalso.
      apply py_max_by_elem, granted_elem in Eb as (a & Ha & Hak & Hf & _); [|done..]. rewrite existsb_false_Forall, Forall_forall in Ee.
      specialize (Ee a Ha). by rewrite Hak, <- Hkey, py_refl_leibniz, Hf in Ee. }
  assert (He : entries (table_dict df_identity (fun d => Some (definition_of d)) t.(rt_definitions)) =
      (fun d => (d.(df_identity), definition_of d)) <$> t.(rt_definitions)).
  { generalize t.(rt_definitions). induction l as [|d l IH]; [done|]. rewrite fmap_cons, <- IH. done. }
  simpl in He. rewrite He, H by done. by destruct (map_result _ _).
Qed.

(** *** Replicas *)

Record Replicas := { rs_tables : RegistryTables; rs_caches : list StrategyRegistry }.
(** Processes start with empty dicts and call at any time, with any outcome. *)
Inductive replicas : Replicas -> Prop :=
| replicas_start rows : replicas {| rs_tables := {| rt_definitions := []; rt_validations := []; rt_approvals := []; rt_evidence := rows |}; rs_caches := [] |}
| replicas_process st : replicas st -> replicas {| rs_tables := st.(rs_tables); rs_caches := st.(rs_caches) ++ [empty_registry] |}
| replicas_evidence st rows : replicas st -> replicas {| rs_tables := set_evidence_rows rows st.(rs_tables); rs_caches := st.(rs_caches) |}
| replicas_call st i c op fs r s' : replicas st -> st.(rs_caches) !! i = Some c -> (forall x, op_identity op = Some x -> known x) -> genuine op ->
    durable_run op {| rp_tables := st.(rs_tables); rp_cache := c; rp_faults := fs |} = (r, s') ->
    replicas {| rs_tables := s'.(rp_tables); rs_caches := <[i := s'.(rp_cache)]> st.(rs_caches) |}.

Lemma tables_ok_start rows : tables_ok {| rt_definitions := []; rt_validations := []; rt_approvals := []; rt_evidence := rows |}.
Proof. split; simpl; constructor. Qed.
Lemma tables_ok_evidence t rows : tables_ok t -> tables_ok (set_evidence_rows rows t).
Proof. intros [? ? ? ? ? ?]. by split. Qed.

Lemma replicas_sound st : replicas st ->
  tables_ok st.(rs_tables) /\ Forall cache_ok st.(rs_caches) /\ registry_steps empty_registry (registry_of st.(rs_tables)).
Proof.
  induction 1 as [rows|st Hst (Ht & Hc & Hr)|st rows Hst (Ht & Hc & Hr)|st i c op fs r s' Hst (Ht & Hc & Hr) Hi Hk Hg E]; simpl.
  - split; [apply tables_ok_start|]. split; [constructor|apply registry_refl].
  - split; [done|]. split; [|done]. apply Forall_app. split; [done|]. apply Forall_singleton. split; [by intros k v|apply dict_wf_empty].
  - split; [by apply tables_ok_evidence|]. done.
  - pose proof (Forall_lookup_1 _ _ _ _ Hc Hi) as Hci.
    pose proof (registry_refined op {| rp_tables := st.(rs_tables); rp_cache := c; rp_faults := fs |} Ht Hci Hk Hg) as H. rewrite E in H.
    destruct r as [[]|e]; simpl in H.
    + destruct H as (Hrun & Ht' & Hc'). split; [done|]. split; [by apply Forall_insert|].
      replace (registry_of s'.(rp_tables)) with (registry_run (stored_op op) (registry_of st.(rs_tables))).2 by (by rewrite Hrun). by apply registry_step.
    + destruct H as [-> Hc']. split; [done|]. split; [by apply Forall_insert|done].
Qed.

End Refinement.

(** ** Concrete runs *)

Module RegistryStoreExample.
Import RegistryExample.

Definition evidence : EvidenceRow := {|
  ew_evidence_id := "evidence-1"; ew_campaign_id := "campaign-1"; ew_validation_run_id := "run-1"; ew_strategy_key := identity_key identity;
  ew_research_state := RESEARCH; ew_data_fingerprint := "data"; ew_walk_forward_windows := [];
  ew_cost_model := default_config.(nv_cost_model); ew_stressed_net_expectancy := 0.004 |}.
Definition fresh_tables : RegistryTables := {| rt_definitions := []; rt_validations := []; rt_approvals := []; rt_evidence := [evidence] |}.
Definition call (op : RegistryOp) (s : RegistryProcess) : RegistryProcess := (durable_run op s).2.
Definition only (i : StrategyIdentity) : Prop := i = identity.
Definition recorded_run (k : string) : result ValidationRow := if (k ==p "run-1") then validation_row validation else Err (KeyError k).

(** The first process registers, validates and approves. *)
Definition started : RegistryProcess := {| rp_tables := fresh_tables; rp_cache := empty_registry; rp_faults := [] |}.
Definition has_registered : RegistryProcess := Eval vm_compute in call (OpRegister definition) started.
Definition has_validated : RegistryProcess := Eval vm_compute in call (OpRecordValidation validation) has_registered.
Definition first : RegistryProcess := Eval vm_compute in call (OpRecordApproval approval) has_validated.
(** A second process, which has seen none of it, revokes. *)
Definition second_process : RegistryProcess := Eval vm_compute in
  call (OpRevoke "approval-1" "drift") {| rp_tables := first.(rp_tables); rp_cache := empty_registry; rp_faults := [] |}.

Example first_approved : (durable_require_approval id identity now first).1 = Ok approval.
Proof. vm_compute. reflexivity. Qed.
(** The first process still holds the approval, and cannot restore it. *)
Example restored_refused :
  (durable_run (OpRecordApproval approval) {| rp_tables := second_process.(rp_tables); rp_cache := first.(rp_cache); rp_faults := [] |}).1 =
  Err (ValueError "approval artifacts are immutable").
Proof. vm_compute. reflexivity. Qed.
(** A failed commit leaves the dicts ahead of the tables; the foreign key refuses what rests on them. *)
Definition uncommitted : RegistryProcess := Eval vm_compute in
  call (OpRegister definition) {| rp_tables := fresh_tables; rp_cache := empty_registry; rp_faults := [None; None; None; None; Some "connection lost"] |}.
Example uncommitted_refused :
  dict_mem identity uncommitted.(rp_cache).(reg_definitions) = true /\ uncommitted.(rp_tables).(rt_definitions) = [] /\
  (durable_run (OpRecordValidation validation) uncommitted).1 = Err foreign_key_violation.
Proof. vm_compute. done. Qed.

Lemma first_replica : replicas only recorded_run {| rs_tables := first.(rp_tables); rs_caches := [first.(rp_cache)] |}.
Proof.
  assert (H0 : replicas only recorded_run {| rs_tables := fresh_tables; rs_caches := [] ++ [empty_registry] |})
    by exact (replicas_process _ _ _ (replicas_start _ _ [evidence])).
  assert (H1 : replicas only recorded_run {| rs_tables := has_registered.(rp_tables); rs_caches := [has_registered.(rp_cache)] |}).
  { apply (replicas_call _ _ _ 0 empty_registry (OpRegister definition) [] (Ok ()) has_registered H0); [done|by intros x [= <-]|done|].
    vm_compute. reflexivity. }
  assert (H2 : replicas only recorded_run {| rs_tables := has_validated.(rp_tables); rs_caches := [has_validated.(rp_cache)] |}).
  { apply (replicas_call _ _ _ 0 has_registered.(rp_cache) (OpRecordValidation validation) [] (Ok ()) has_validated H1);
      [done|by intros x [= <-]|done|]. vm_compute. reflexivity. }
  apply (replicas_call _ _ _ 0 has_validated.(rp_cache) (OpRecordApproval approval) [] (Ok ()) first H2); [done|by intros x [= <-]|done|].
  vm_compute. reflexivity.
Qed.


(** The revocation, tried against by the first process. *)
Definition revoked_row : ApprovalRow := Eval vm_compute in updated_approval (approval_row (stored_approval
  {| sa_approval_id := "approval-1"; sa_identity := identity; sa_validation_run_id := "run-1"; sa_state := REVOKED; sa_approved_at := at_utc t0;
     sa_expires_at := at_utc (t0 + 30 * day); sa_approved_by := "risk"; sa_reason := "drift" |})) (approval_row approval).
Lemma revocation_survives_witness :
  exists row', row' ∈ (durable_run (OpRecordApproval approval)
      {| rp_tables := second_process.(rp_tables); rp_cache := first.(rp_cache); rp_faults := [] |}).2.(rp_tables).(rt_approvals) /\
    same_approval revoked_row row' /\ row'.(aw_state) = REVOKED.
Proof.
  apply (revocation_survives id second_process.(rp_tables) _ revoked_row identity now first.(rp_cache) [] approval first (fun l => Permutation_refl l)).
  - vm_compute. apply NoDup_singleton.
  - vm_compute. by left.
  - reflexivity.
  - apply store_call, store_refl.
Defined.

End RegistryStoreExample.
