(* ===== verification/Strategies.v ===== *)
(** * Built-in strategies (src/nanodelta/strategies/technical.py, builtin.py)

    The nine technical plugins over Gold v2 features and the momentum plugin
    over Gold v1, each a record of its parameters with its [compatibility]
    and [generate], and the catalogue of definitions the runtime registers.
    The theorems: whatever the context, a plugin of the catalogue answers
    with no signal or with one its constructor accepts, and the routing by
    regime label is exclusive. *)

From Stdlib Require Import ZArith Floats ZifyBool.
From stdpp Require Import prelude strings numbers list.
From S2P Require Import Prelude PyData PyFloat FloatTheory FloatRound PyText Sha256 PyTime Contracts Registry Risk StrategyRuntime.

Definition TECHNICAL_FEATURE_VERSION : Z := 2.

(** [features[name]] *)
Definition feature (features : dict string float) (name : string) : result float :=
  match features !! name with Some v => Ok v | None => Err (KeyError name) end.

(** ** Helpers *)

Definition compatibility_ (definition : StrategyDefinition) (required : list string) (context : StrategyContext)
    (required_regime_labels : option (list string)) : bool * string :=
  let identity := definition.(sd_identity) in
  if context.(cx_market) !=p identity.(si_market) then (false, "MARKET_MISMATCH")
  else if context.(cx_timeframe) !=p identity.(si_timeframe) then (false, "TIMEFRAME_MISMATCH")
  else if context.(cx_trade_horizon) !=p identity.(si_trade_horizon) then (false, "TRADE_HORIZON_MISMATCH")
  else if context.(cx_feature_set_version) !=p identity.(si_feature_set_version)
  then (false, "FEATURE_VERSION_MISMATCH")
  else if negb (forallb (fun name => dict_mem name context.(cx_features)) required)
  then (false, "REQUIRED_FEATURES_MISSING")
  else if match required_regime_labels with
          | Some labels => negb (bool_decide (context.(cx_regime).(re_symbol_regime_label) ∈ labels))
          | None => false
          end
  then (false, "REGIME_MISMATCH")
  else (true, "COMPATIBLE").

(** A signal as its constructor leaves it: the defaults, then the checks. *)
Definition StrategySignal_new (action : AdvisoryAction) (confidence reference stop target cost : float) :
    result StrategySignal :=
  let s := {| sg_action := action; sg_confidence := confidence; sg_reference_price := reference;
              sg_stop_price := stop; sg_target_price := target; sg_estimated_cost_r := cost;
              sg_historical_expectancy_r := 0; sg_ml_tilt_r := 0 |} in
  _ ← StrategySignal_post_init s; mret s.

Definition signal_ (action : AdvisoryAction) (close atr stop_atr reward_risk confidence : float) :
    result StrategySignal :=
  let distance := fmax (atr * stop_atr) (close * 0.0005) in
  let stop := if action ==p BUY then (close - distance)%float else (close + distance)%float in
  let target := if action ==p BUY then (close + distance * reward_risk)%float
                else (close - distance * reward_risk)%float in
  StrategySignal_new action (fmax 0 (fmin confidence 0.95)) close stop target 0.05.

(** ** The plugins *)

Record VwapPullbackStrategy := {
  vw_definition : StrategyDefinition;
  vw_pullback_tolerance : float;
  vw_minimum_volume_ratio : float;
  vw_stop_atr : float;
  vw_reward_risk : float }.
Definition vw_required_features : list string :=
  ["close"; "high"; "low"; "vwap"; "ema_21"; "atr_14"; "volume_ratio_20"].
Definition vw_required_regime_labels : list string := ["TRENDING"].
Definition vw_compatibility (self : VwapPullbackStrategy) (context : StrategyContext) : bool * string :=
  compatibility_ self.(vw_definition) vw_required_features context (Some vw_required_regime_labels).
Definition vw_generate (self : VwapPullbackStrategy) (context : StrategyContext) : result (option StrategySignal) :=
  if negb (vw_compatibility self context).1 then mret None else
  let f := context.(cx_features) in
  close ← feature f "close"; vwap ← feature f "vwap"; ema ← feature f "ema_21";
  volume_ratio ← feature f "volume_ratio_20";
  if (volume_ratio <? self.(vw_minimum_volume_ratio))%float then mret None else
  low ← feature f "low";
  let touched_from_above := (low <=? vwap * (1 + self.(vw_pullback_tolerance)))%float in
  high ← feature f "high";
  let touched_from_below := fge high (vwap * (1 - self.(vw_pullback_tolerance))) in
  match (if fgt close vwap && fgt close ema && touched_from_above then Some BUY
         else if (close <? vwap)%float && (close <? ema)%float && touched_from_below then Some SELL
         else None) with
  | None => mret None
  | Some action =>
      displacement ← fdiv (abs (close - vwap)) close;
      atr ← feature f "atr_14";
      s ← signal_ action close atr self.(vw_stop_atr) self.(vw_reward_risk) (0.55 + fmin (displacement * 20) 0.2);
      mret (Some s)
  end.

Record EmaRsiContinuationStrategy := {
  em_definition : StrategyDefinition;
  em_buy_rsi_minimum : float;
  em_buy_rsi_maximum : float;
  em_sell_rsi_minimum : float;
  em_sell_rsi_maximum : float;
  em_stop_atr : float;
  em_reward_risk : float }.
Definition em_required_features : list string := ["close"; "ema_9"; "ema_21"; "rsi_14"; "atr_14"; "body_pct"].
Definition em_required_regime_labels : list string := ["TRENDING"].
Definition em_compatibility (self : EmaRsiContinuationStrategy) (context : StrategyContext) : bool * string :=
  compatibility_ self.(em_definition) em_required_features context (Some em_required_regime_labels).
Definition em_generate (self : EmaRsiContinuationStrategy) (context : StrategyContext) :
    result (option StrategySignal) :=
  if negb (em_compatibility self context).1 then mret None else
  let f := context.(cx_features) in
  rsi ← feature f "rsi_14";
  ema_9 ← feature f "ema_9"; ema_21 ← feature f "ema_21"; body ← feature f "body_pct";
  match (if fgt ema_9 ema_21 && ((self.(em_buy_rsi_minimum) <=? rsi)%float && (rsi <=? self.(em_buy_rsi_maximum))%float)
              && fgt body 0 then Some BUY
         else if (ema_9 <? ema_21)%float
              && ((self.(em_sell_rsi_minimum) <=? rsi)%float && (rsi <=? self.(em_sell_rsi_maximum))%float)
              && (body <? 0)%float then Some SELL
         else None) with
  | None => mret None
  | Some action =>
      close ← feature f "close";
      separation ← fdiv (abs (ema_9 - ema_21)) close;
      atr ← feature f "atr_14";
      s ← signal_ action close atr self.(em_stop_atr) self.(em_reward_risk) (0.55 + fmin (separation * 30) 0.2);
      mret (Some s)
  end.

Record SuperTrendAdxStrategy := {
  su_definition : StrategyDefinition;
  su_minimum_adx : float;
  su_stop_atr : float;
  su_reward_risk : float }.
Definition su_required_features : list string := ["close"; "supertrend"; "supertrend_direction"; "adx_14"; "atr_14"].
Definition su_required_regime_labels : list string := ["TRENDING"].
Definition su_compatibility (self : SuperTrendAdxStrategy) (context : StrategyContext) : bool * string :=
  compatibility_ self.(su_definition) su_required_features context (Some su_required_regime_labels).
Definition su_generate (self : SuperTrendAdxStrategy) (context : StrategyContext) : result (option StrategySignal) :=
  if negb (su_compatibility self context).1 then mret None else
  let f := context.(cx_features) in
  adx ← feature f "adx_14";
  if (adx <? self.(su_minimum_adx))%float then mret None else
  direction ← feature f "supertrend_direction"; close ← feature f "close"; supertrend ← feature f "supertrend";
  match (if fgt direction 0 && fgt close supertrend then Some BUY
         else if (direction <? 0)%float && (close <? supertrend)%float then Some SELL
         else None) with
  | None => mret None
  | Some action =>
      atr ← feature f "atr_14";
      excess ← fdiv (adx - self.(su_minimum_adx)) 100;
      s ← signal_ action close atr self.(su_stop_atr) self.(su_reward_risk) (0.55 + fmin excess 0.25);
      mret (Some s)
  end.

Record MeanReversionStrategy := {
  me_definition : StrategyDefinition;
  me_oversold_rsi : float;
  me_overbought_rsi : float;
  me_minimum_stretch_atr : float;
  me_stop_atr : float;
  me_base_confidence : float }.
Definition me_required_features : list string := ["close"; "rsi_14"; "atr_14"; "ema_21"].
Definition me_required_regime_labels : list string := ["RANGING"].
Definition me_compatibility (self : MeanReversionStrategy) (context : StrategyContext) : bool * string :=
  compatibility_ self.(me_definition) me_required_features context (Some me_required_regime_labels).
Definition me_generate (self : MeanReversionStrategy) (context : StrategyContext) : result (option StrategySignal) :=
  if negb (me_compatibility self context).1 then mret None else
  let f := context.(cx_features) in
  close ← feature f "close"; rsi ← feature f "rsi_14"; atr ← feature f "atr_14"; mean ← feature f "ema_21";
  if (atr <=? 0)%float then mret None else
  stretch_atr ← fdiv (close - mean) atr;
  match (if (rsi <=? self.(me_oversold_rsi))%float && (stretch_atr <=? - self.(me_minimum_stretch_atr))%float
         then Some BUY
         else if fge rsi self.(me_overbought_rsi) && fge stretch_atr self.(me_minimum_stretch_atr) then Some SELL
         else None) with
  | None => mret None
  | Some action =>
      let stop_distance := fmax (self.(me_stop_atr) * atr) (close * 0.0005) in
      let stop := if action ==p BUY then (close - stop_distance)%float else (close + stop_distance)%float in
      let target := mean in
      if (action ==p BUY) && negb ((stop <? close)%float && (close <? target)%float) then mret None
      else if (action ==p SELL) && negb ((target <? close)%float && (close <? stop)%float) then mret None
      else
        let confidence := (self.(me_base_confidence) + fmin (abs stretch_atr * 0.05) 0.2)%float in
        s ← StrategySignal_new action (fmax 0 (fmin confidence 0.95)) close stop target 0.05;
        mret (Some s)
  end.

Record RangeReversalStrategy := {
  rg_definition : StrategyDefinition;
  rg_touch_tolerance_pct : float;
  rg_stop_atr : float;
  rg_reward_risk : float;
  rg_confidence : float }.
Definition rg_required_features : list string :=
  ["close"; "high"; "low"; "range_high_20"; "range_low_20"; "atr_14"].
Definition rg_required_regime_labels : list string := ["RANGING"].
Definition rg_compatibility (self : RangeReversalStrategy) (context : StrategyContext) : bool * string :=
  compatibility_ self.(rg_definition) rg_required_features context (Some rg_required_regime_labels).
Definition rg_generate (self : RangeReversalStrategy) (context : StrategyContext) : result (option StrategySignal) :=
  if negb (rg_compatibility self context).1 then mret None else
  let f := context.(cx_features) in
  close ← feature f "close"; high ← feature f "high"; low ← feature f "low";
  range_high ← feature f "range_high_20"; range_low ← feature f "range_low_20";
  let touched_low := (low <=? range_low * (1 + self.(rg_touch_tolerance_pct)))%float in
  let touched_high := fge high (range_high * (1 - self.(rg_touch_tolerance_pct))) in
  match (if touched_low && fgt close range_low then Some BUY
         else if touched_high && (close <? range_high)%float then Some SELL
         else None) with
  | None => mret None
  | Some action =>
      atr ← feature f "atr_14";
      s ← signal_ action close atr self.(rg_stop_atr) self.(rg_reward_risk) self.(rg_confidence);
      mret (Some s)
  end.

Record SupportReversalStrategy := {
  sp_definition : StrategyDefinition;
  sp_touch_tolerance_pct : float;
  sp_minimum_volume_ratio : float;
  sp_stop_atr : float;
  sp_reward_risk : float;
  sp_confidence : float }.
Definition sp_required_features : list string :=
  ["close"; "high"; "low"; "range_high_10"; "range_low_10"; "atr_14"; "volume_ratio_20"].
Definition sp_required_regime_labels : list string := ["RANGING"].
Definition sp_compatibility (self : SupportReversalStrategy) (context : StrategyContext) : bool * string :=
  compatibility_ self.(sp_definition) sp_required_features context (Some sp_required_regime_labels).
Definition sp_generate (self : SupportReversalStrategy) (context : StrategyContext) : result (option StrategySignal) :=
  if negb (sp_compatibility self context).1 then mret None else
  let f := context.(cx_features) in
  volume_ratio ← feature f "volume_ratio_20";
  if (volume_ratio <? self.(sp_minimum_volume_ratio))%float then mret None else
  close ← feature f "close"; high ← feature f "high"; low ← feature f "low";
  range_high ← feature f "range_high_10"; range_low ← feature f "range_low_10";
  let touched_low := (low <=? range_low * (1 + self.(sp_touch_tolerance_pct)))%float in
  let touched_high := fge high (range_high * (1 - self.(sp_touch_tolerance_pct))) in
  match (if touched_low && fgt close range_low then Some BUY
         else if touched_high && (close <? range_high)%float then Some SELL
         else None) with
  | None => mret None
  | Some action =>
      atr ← feature f "atr_14";
      s ← signal_ action close atr self.(sp_stop_atr) self.(sp_reward_risk) self.(sp_confidence);
      mret (Some s)
  end.

Record BreakoutStrategy := {
  bk_definition : StrategyDefinition;
  bk_minimum_volume_ratio : float;
  bk_stop_atr : float;
  bk_reward_risk : float;
  bk_confidence : float }.
Definition bk_required_features : list string := ["close"; "range_high_20"; "range_low_20"; "atr_14"; "volume_ratio_20"].
Definition bk_required_regime_labels : list string := ["COMPRESSION"].
Definition bk_compatibility (self : BreakoutStrategy) (context : StrategyContext) : bool * string :=
  compatibility_ self.(bk_definition) bk_required_features context (Some bk_required_regime_labels).
Definition bk_generate (self : BreakoutStrategy) (context : StrategyContext) : result (option StrategySignal) :=
  if negb (bk_compatibility self context).1 then mret None else
  let f := context.(cx_features) in
  volume_ratio ← feature f "volume_ratio_20";
  if (volume_ratio <? self.(bk_minimum_volume_ratio))%float then mret None else
  close ← feature f "close"; range_high ← feature f "range_high_20"; range_low ← feature f "range_low_20";
  match (if fgt close range_high then Some BUY else if (close <? range_low)%float then Some SELL else None) with
  | None => mret None
  | Some action =>
      atr ← feature f "atr_14";
      s ← signal_ action close atr self.(bk_stop_atr) self.(bk_reward_risk) self.(bk_confidence);
      mret (Some s)
  end.

Record OpeningRangeBreakoutStrategy := {
  ob_definition : StrategyDefinition;
  ob_stop_atr : float;
  ob_reward_risk : float;
  ob_confidence : float }.
Definition ob_required_features : list string := ["close"; "opening_range_high"; "opening_range_low"; "atr_14"].
Definition ob_required_regime_labels : list string := ["COMPRESSION"].
Definition ob_compatibility (self : OpeningRangeBreakoutStrategy) (context : StrategyContext) : bool * string :=
  compatibility_ self.(ob_definition) ob_required_features context (Some ob_required_regime_labels).
Definition ob_generate (self : OpeningRangeBreakoutStrategy) (context : StrategyContext) :
    result (option StrategySignal) :=
  if negb (ob_compatibility self context).1 then mret None else
  let f := context.(cx_features) in
  close ← feature f "close"; range_high ← feature f "opening_range_high"; range_low ← feature f "opening_range_low";
  match (if fgt close range_high then Some BUY else if (close <? range_low)%float then Some SELL else None) with
  | None => mret None
  | Some action =>
      atr ← feature f "atr_14";
      s ← signal_ action close atr self.(ob_stop_atr) self.(ob_reward_risk) self.(ob_confidence);
      mret (Some s)
  end.

Record VolumeBreakoutStrategy := {
  vb_definition : StrategyDefinition;
  vb_minimum_volume_ratio : float;
  vb_stop_atr : float;
  vb_reward_risk : float;
  vb_confidence : float }.
Definition vb_required_features : list string := ["close"; "range_high_5"; "range_low_5"; "atr_14"; "volume_ratio_20"].
Definition vb_required_regime_labels : list string := ["COMPRESSION"].
Definition vb_compatibility (self : VolumeBreakoutStrategy) (context : StrategyContext) : bool * string :=
  compatibility_ self.(vb_definition) vb_required_features context (Some vb_required_regime_labels).
Definition vb_generate (self : VolumeBreakoutStrategy) (context : StrategyContext) : result (option StrategySignal) :=
  if negb (vb_compatibility self context).1 then mret None else
  let f := context.(cx_features) in
  volume_ratio ← feature f "volume_ratio_20";
  if (volume_ratio <? self.(vb_minimum_volume_ratio))%float then mret None else
  close ← feature f "close"; range_high ← feature f "range_high_5"; range_low ← feature f "range_low_5";
  match (if fgt close range_high then Some BUY else if (close <? range_low)%float then Some SELL else None) with
  | None => mret None
  | Some action =>
      atr ← feature f "atr_14";
      s ← signal_ action close atr self.(vb_stop_atr) self.(vb_reward_risk) self.(vb_confidence);
      mret (Some s)
  end.

(** The union type [TechnicalStrategy], with its methods by dispatch. *)
Inductive TechnicalStrategy :=
| VwapPullback (s : VwapPullbackStrategy)
| EmaRsiContinuation (s : EmaRsiContinuationStrategy)
| SuperTrendAdx (s : SuperTrendAdxStrategy)
| MeanReversion (s : MeanReversionStrategy)
| RangeReversal (s : RangeReversalStrategy)
| SupportReversal (s : SupportReversalStrategy)
| Breakout (s : BreakoutStrategy)
| OpeningRangeBreakout (s : OpeningRangeBreakoutStrategy)
| VolumeBreakout (s : VolumeBreakoutStrategy).

Definition ts_definition (t : TechnicalStrategy) : StrategyDefinition :=
  match t with
  | VwapPullback s => s.(vw_definition)
  | EmaRsiContinuation s => s.(em_definition)
  | SuperTrendAdx s => s.(su_definition)
  | MeanReversion s => s.(me_definition)
  | RangeReversal s => s.(rg_definition)
  | SupportReversal s => s.(sp_definition)
  | Breakout s => s.(bk_definition)
  | OpeningRangeBreakout s => s.(ob_definition)
  | VolumeBreakout s => s.(vb_definition)
  end.
Definition ts_required_features (t : TechnicalStrategy) : list string :=
  match t with
  | VwapPullback _ => vw_required_features
  | EmaRsiContinuation _ => em_required_features
  | SuperTrendAdx _ => su_required_features
  | MeanReversion _ => me_required_features
  | RangeReversal _ => rg_required_features
  | SupportReversal _ => sp_required_features
  | Breakout _ => bk_required_features
  | OpeningRangeBreakout _ => ob_required_features
  | VolumeBreakout _ => vb_required_features
  end.
Definition ts_required_regime_labels (t : TechnicalStrategy) : list string :=
  match t with
  | VwapPullback _ => vw_required_regime_labels
  | EmaRsiContinuation _ => em_required_regime_labels
  | SuperTrendAdx _ => su_required_regime_labels
  | MeanReversion _ => me_required_regime_labels
  | RangeReversal _ => rg_required_regime_labels
  | SupportReversal _ => sp_required_regime_labels
  | Breakout _ => bk_required_regime_labels
  | OpeningRangeBreakout _ => ob_required_regime_labels
  | VolumeBreakout _ => vb_required_regime_labels
  end.
Definition ts_compatibility (t : TechnicalStrategy) (context : StrategyContext) : bool * string :=
  match t with
  | VwapPullback s => vw_compatibility s context
  | EmaRsiContinuation s => em_compatibility s context
  | SuperTrendAdx s => su_compatibility s context
  | MeanReversion s => me_compatibility s context
  | RangeReversal s => rg_compatibility s context
  | SupportReversal s => sp_compatibility s context
  | Breakout s => bk_compatibility s context
  | OpeningRangeBreakout s => ob_compatibility s context
  | VolumeBreakout s => vb_compatibility s context
  end.
Definition ts_generate (t : TechnicalStrategy) (context : StrategyContext) : result (option StrategySignal) :=
  match t with
  | VwapPullback s => vw_generate s context
  | EmaRsiContinuation s => em_generate s context
  | SuperTrendAdx s => su_generate s context
  | MeanReversion s => me_generate s context
  | RangeReversal s => rg_generate s context
  | SupportReversal s => sp_generate s context
  | Breakout s => bk_generate s context
  | OpeningRangeBreakout s => ob_generate s context
  | VolumeBreakout s => vb_generate s context
  end.

(** As the object [o] of the plugin protocol. *)
Definition technical_plugin (o : Z) (t : TechnicalStrategy) : StrategyPlugin := {|
  pl_object := o; pl_definition := ts_definition t;
  pl_compatibility := fun context => Ok (ts_compatibility t context);
  pl_generate := ts_generate t |}.

(** ** The definitions *)

Definition StrategyDefinition_new (identity : StrategyIdentity) (family : string)
    (parameters : list (string * string)) (implementation : string) : result StrategyDefinition :=
  _ ← StrategyIdentity_post_init identity;
  let d := {| sd_identity := identity; sd_family := family; sd_parameters := parameters;
              sd_implementation_ref := implementation |} in
  _ ← StrategyDefinition_post_init d; mret d.

Definition definition_ (market : Market) (strategy_id timeframe family : string)
    (parameters : list (string * string)) (implementation : string) : result StrategyDefinition :=
  StrategyDefinition_new
    {| si_market := market; si_strategy_id := strategy_id; si_strategy_version := "1.0.0";
       si_timeframe := timeframe; si_trade_horizon := "intraday";
       si_feature_set_version := TECHNICAL_FEATURE_VERSION |}
    family parameters implementation.

(** The dataclass defaults *)
Definition VwapPullbackStrategy_new (d : StrategyDefinition) : TechnicalStrategy := VwapPullback {|
  vw_definition := d; vw_pullback_tolerance := 0.0015; vw_minimum_volume_ratio := 0.8; vw_stop_atr := 1.2;
  vw_reward_risk := 1.5 |}.
Definition EmaRsiContinuationStrategy_new (d : StrategyDefinition) : TechnicalStrategy := EmaRsiContinuation {|
  em_definition := d; em_buy_rsi_minimum := 52; em_buy_rsi_maximum := 70; em_sell_rsi_minimum := 30;
  em_sell_rsi_maximum := 48; em_stop_atr := 1.3; em_reward_risk := 1.8 |}.
Definition SuperTrendAdxStrategy_new (d : StrategyDefinition) : TechnicalStrategy := SuperTrendAdx {|
  su_definition := d; su_minimum_adx := 25; su_stop_atr := 1.5; su_reward_risk := 2 |}.
Definition MeanReversionStrategy_new (d : StrategyDefinition) : TechnicalStrategy := MeanReversion {|
  me_definition := d; me_oversold_rsi := 30; me_overbought_rsi := 70; me_minimum_stretch_atr := 1.5;
  me_stop_atr := 1; me_base_confidence := 0.55 |}.
Definition RangeReversalStrategy_new (d : StrategyDefinition) : TechnicalStrategy := RangeReversal {|
  rg_definition := d; rg_touch_tolerance_pct := 0.002; rg_stop_atr := 1; rg_reward_risk := 1.5;
  rg_confidence := 0.55 |}.
Definition SupportReversalStrategy_new (d : StrategyDefinition) : TechnicalStrategy := SupportReversal {|
  sp_definition := d; sp_touch_tolerance_pct := 0.0015; sp_minimum_volume_ratio := 1.2; sp_stop_atr := 0.8;
  sp_reward_risk := 1.3; sp_confidence := 0.55 |}.
Definition BreakoutStrategy_new (d : StrategyDefinition) : TechnicalStrategy := Breakout {|
  bk_definition := d; bk_minimum_volume_ratio := 1.3; bk_stop_atr := 1.2; bk_reward_risk := 2;
  bk_confidence := 0.55 |}.
Definition OpeningRangeBreakoutStrategy_new (d : StrategyDefinition) : TechnicalStrategy := OpeningRangeBreakout {|
  ob_definition := d; ob_stop_atr := 1; ob_reward_risk := 1.8; ob_confidence := 0.6 |}.
Definition VolumeBreakoutStrategy_new (d : StrategyDefinition) : TechnicalStrategy := VolumeBreakout {|
  vb_definition := d; vb_minimum_volume_ratio := 2; vb_stop_atr := 1; vb_reward_risk := 1.8;
  vb_confidence := 0.55 |}.

Definition technical_strategies : result (list TechnicalStrategy) :=
  vwap ← map_result (fun market =>
    d ← definition_ market "vwap_pullback" "5m" "mean_reversion"
          [("pullback_tolerance", "0.0015"); ("minimum_volume_ratio", "0.8")]
          "nanodelta.strategies.technical:VwapPullbackStrategy";
    mret (VwapPullbackStrategy_new d)) [NSE; CRYPTO];
  ema ← map_result (fun market =>
    d ← definition_ market "ema_rsi_continuation" "15m" "momentum"
          [("ema_fast", "9"); ("ema_slow", "21"); ("rsi_period", "14")]
          "nanodelta.strategies.technical:EmaRsiContinuationStrategy";
    mret (EmaRsiContinuationStrategy_new d)) [NSE; FOREX; CRYPTO];
  trend ← map_result (fun '(market, timeframe) =>
    d ← definition_ market "supertrend_adx" timeframe "trend"
          [("atr_period", "14"); ("atr_multiplier", "3"); ("adx_period", "14")]
          "nanodelta.strategies.technical:SuperTrendAdxStrategy";
    mret (SuperTrendAdxStrategy_new d)) [(NSE, "15m"); (FOREX, "1h"); (CRYPTO, "15m")];
  mean ← definition_ NSE "mean_reversion_rsi" "15m" "mean_reversion_rsi"
    [("oversold_rsi", "30"); ("overbought_rsi", "70")] "nanodelta.strategies.technical:MeanReversionStrategy";
  range ← definition_ NSE "range_reversal" "15m" "range_reversal"
    [("range_period", "20"); ("touch_tolerance_pct", "0.002")]
    "nanodelta.strategies.technical:RangeReversalStrategy";
  support ← definition_ NSE "support_reversal" "15m" "support_reversal"
    [("range_period", "10"); ("minimum_volume_ratio", "1.2")]
    "nanodelta.strategies.technical:SupportReversalStrategy";
  breakout ← definition_ NSE "breakout" "15m" "breakout"
    [("range_period", "20"); ("minimum_volume_ratio", "1.3")] "nanodelta.strategies.technical:BreakoutStrategy";
  opening ← definition_ NSE "opening_range_breakout" "15m" "orb"
    [("opening_range_minutes", "15")] "nanodelta.strategies.technical:OpeningRangeBreakoutStrategy";
  volume ← definition_ NSE "volume_breakout" "15m" "volume_breakout"
    [("range_period", "5"); ("minimum_volume_ratio", "2.0")]
    "nanodelta.strategies.technical:VolumeBreakoutStrategy";
  mret (vwap ++ ema ++ trend ++
    [MeanReversionStrategy_new mean; RangeReversalStrategy_new range; SupportReversalStrategy_new support;
     BreakoutStrategy_new breakout; OpeningRangeBreakoutStrategy_new opening; VolumeBreakoutStrategy_new volume]).

(** ** builtin.py *)

Record MomentumContinuationStrategy := {
  mo_definition : StrategyDefinition;
  mo_minimum_return : float;
  mo_minimum_body : float;
  mo_stop_range_multiple : float;
  mo_reward_risk : float }.
Definition mo_compatibility (self : MomentumContinuationStrategy) (context : StrategyContext) : bool * string :=
  if negb (forallb (fun name => dict_mem name context.(cx_features)) ["close"; "return_1"; "range_pct"; "body_pct"])
  then (false, "REQUIRED_FEATURES_MISSING") else (true, "COMPATIBLE").
Definition mo_generate (self : MomentumContinuationStrategy) (context : StrategyContext) :
    result (option StrategySignal) :=
  let f := context.(cx_features) in
  close ← feature f "close"; change ← feature f "return_1"; body ← feature f "body_pct";
  if (abs change <? self.(mo_minimum_return))%float || (abs body <? self.(mo_minimum_body))%float then mret None
  else if (change * body <=? 0)%float then mret None
  else
    let action := if fgt change 0 then BUY else SELL in
    range_pct ← feature f "range_pct";
    let distance := (close * fmax range_pct 0.0005 * self.(mo_stop_range_multiple))%float in
    let stop := if action ==p BUY then (close - distance)%float else (close + distance)%float in
    let target := if action ==p BUY then (close + distance * self.(mo_reward_risk))%float
                  else (close - distance * self.(mo_reward_risk))%float in
    let confidence := fmin 0.95 (0.5 + abs change * 20 + abs body * 10) in
    s ← StrategySignal_new action confidence close stop target 0.05;
    mret (Some s).
Definition MomentumContinuationStrategy_new (d : StrategyDefinition) : MomentumContinuationStrategy := {|
  mo_definition := d; mo_minimum_return := 0.001; mo_minimum_body := 0.0005; mo_stop_range_multiple := 1;
  mo_reward_risk := 1.5 |}.
Definition momentum_plugin (o : Z) (s : MomentumContinuationStrategy) : StrategyPlugin := {|
  pl_object := o; pl_definition := s.(mo_definition);
  pl_compatibility := fun context => Ok (mo_compatibility s context);
  pl_generate := mo_generate s |}.
Definition builtin_strategies : result (list MomentumContinuationStrategy) :=
  map_result (fun market =>
    d ← StrategyDefinition_new
          {| si_market := market; si_strategy_id := "momentum_continuation"; si_strategy_version := "1.0.0";
             si_timeframe := "1m"; si_trade_horizon := "intraday"; si_feature_set_version := 1 |}
          "momentum"
          [("minimum_return", "0.001"); ("minimum_body", "0.0005"); ("stop_range_multiple", "1.0");
           ("reward_risk", "1.5")]
          "nanodelta.strategies.builtin:MomentumContinuationStrategy";
    mret (MomentumContinuationStrategy_new d)) [NSE; FOREX; CRYPTO].

(** ** Signals the constructor accepts *)

Local Open Scope Z_scope.

(** The range of prices the arithmetic of stops and targets is exact enough
    for: far wider than any market's. *)
Definition price_low : float := 0x1p-1000.
Definition price_high : float := 0x1p1000.
Definition priced (x : float) : bool := (price_low <=? x)%float && (x <=? price_high)%float.
Definition bounded_by (b x : float) : bool := isfinite x && (abs x <=? b)%float.

Lemma priced_val x : priced x = true ->
  isfinite x = true /\ 2 ^ 74 <= fval x <= fval price_high.
Proof.
  unfold priced. intros [(_ & Hn & Hl)%fleb_iff (_ & _ & Hh)%fleb_iff]%andb_prop.
  assert (Hlow : fval price_low = 2 ^ 74) by (vm_compute; reflexivity). rewrite Hlow in Hl.
  pose proof (pow2_pos 74). split; [|lia]. apply (finite_of price_high); [done|done|lia].
Qed.

Lemma bounded_by_val b x : bounded_by b x = true -> isfinite x = true /\ Z.abs (fval x) <= fval b.
Proof.
  unfold bounded_by. intros [Hf (_ & _ & H)%fleb_iff]%andb_prop. rewrite fval_abs in H. done.
Qed.

Lemma signal_new_ok action confidence reference stop target :
  action <> ABSTAIN -> isfinite stop = true -> isfinite target = true ->
  isfinite reference = true -> 0 < fval reference ->
  (0 <=? confidence)%float = true -> (confidence <=? 0.95)%float = true ->
  (action = BUY -> fval stop < fval reference < fval target) ->
  (action = SELL -> fval target < fval reference < fval stop) ->
  exists s, StrategySignal_new action confidence reference stop target 0.05 = Ok s /\
    StrategySignal_post_init s = Ok tt /\ s.(sg_action) = action /\ s.(sg_reference_price) = reference /\
    s.(sg_confidence) = confidence.
Proof.
  intros Ha Hs Ht Hr Hp Hc0 Hc1 Hb Hsell. unfold StrategySignal_new. set (s := {| sg_action := _ |}).
  assert (Hfc : isfinite confidence = true).
  { apply fleb_iff in Hc0 as (_ & Hn & H0). apply fleb_iff in Hc1 as (_ & _ & H1). rewrite fval_0 in H0.
    apply (finite_of 0.95%float); [done|done|lia]. }
  assert (Hc1' : (confidence <=? 1)%float = true).
  { apply fleb_iff in Hc1 as (Hn & _ & H1). apply fleb_iff. split; [done|]. split; [done|].
    assert ((0.95 <=? 1)%float = true) as (_ & _ & ?)%fleb_iff by done. lia. }
  assert (Hp' : (reference <=? 0)%float = false)
    by (apply fleb_false; [by apply isfinite_nan|done|by rewrite fval_0]).
  assert (Hlt : forall a b, isfinite a = true -> isfinite b = true -> fval a < fval b -> (a <? b)%float = true)
    by (intros a b Fa Fb Hab; apply fltb_iff; auto using isfinite_nan).
  assert (H : StrategySignal_post_init s = Ok tt).
  { unfold StrategySignal_post_init, s. cbn -[fval]. rewrite Hfc, Hr, Hs, Ht, Hc0, Hc1', Hp'.
    destruct action; [| |done]; cbn -[fval].
    - destruct (Hb eq_refl). by rewrite (Hlt stop reference), (Hlt reference target) by done.
    - destruct (Hsell eq_refl). by rewrite (Hlt target reference), (Hlt reference stop) by done. }
  exists s. rewrite H. done.
Qed.

(** A distance of at least [close * 0.0005] is visible. *)
Lemma floor_distance close : priced close = true ->
  isfinite (close * 0.0005)%float = true /\ 1 <= fval (close * 0.0005)%float <= fval price_high /\
  fval close <= fval (close * 0.0005)%float * 2 ^ 12.
Proof.
  intros (Hf & Hl & Hh)%priced_val. set (c := 0.0005%float).
  assert (Fc : isfinite c = true) by done.
  assert (Hc : 2 ^ 1063 <= fval c <= 2 ^ 1074) by (vm_compute; split; discriminate).
  destruct (fmul_bounded close c price_high Hf Fc eq_refl) as [Fd Hd].
  { rewrite Z.abs_eq by (apply Z.mul_nonneg_nonneg; [pose proof (pow2_pos 74)|pose proof (pow2_pos 1063)]; lia).
    apply Z.mul_le_mono_nonneg; [pose proof (pow2_pos 74); lia|lia|pose proof (pow2_pos 1063); lia|lia]. }
  split; [done|]. revert Hd. rewrite fval_mul by done. unfold rndF.
  pose proof (pow2_pos 74 ltac:(lia)). pose proof (pow2_pos 1063 ltac:(lia)).
  assert (Hpos : 0 < fval close * fval c) by (apply Z.mul_pos_pos; lia).
  rewrite Z.sgn_pos, Z.mul_1_l, (Z.abs_eq (fval close * fval c)) by lia. intros Hd.
  assert (Hbig : 2 ^ 1074 * 2 ^ 63 <= fval close * fval c).
  { replace (2 ^ 1074 * 2 ^ 63) with (2 ^ 74 * 2 ^ 1063) by reflexivity. apply Z.mul_le_mono_nonneg; lia. }
  pose proof (pow2_pos 1074 ltac:(lia)). pose proof (pow2_pos 63 ltac:(lia)).
  pose proof (rndQ_half (fval close * fval c) (2 ^ 1074) ltac:(lia) ltac:(nia)) as Hh2.
  assert (Hlow : fval close * 2 ^ 1063 <= fval close * fval c) by (apply Z.mul_le_mono_nonneg_l; lia).
  set (r := rndQ _ _) in *. assert (Hr : fval close <= r * 2 ^ 12).
  { replace (2 * 2 ^ 1074) with (2 ^ 12 * 2 ^ 1063) in Hh2 by reflexivity. nia. }
  assert (Hho : isfinite price_high = true) by done. apply isfinite_val in Hho as [_ Hho].
  pose proof (rndQ_nonneg (fval close * fval c) (2 ^ 1074) ltac:(lia) ltac:(lia)). fold r in H3. lia.
Qed.

(** A visible distance and a multiple of it put the stop and the target
    strictly on their sides of the price. *)
Definition sides (close distance : float) : Prop :=
  isfinite (close - distance)%float = true /\ isfinite (close + distance)%float = true /\
  fval (close - distance)%float < fval close < fval (close + distance)%float.

Lemma sides_step close distance : priced close = true -> isfinite distance = true ->
  1 <= fval distance <= fval 0x1p1020 -> fval close <= fval distance * 2 ^ 12 -> sides close distance.
Proof.
  intros Hc Fd [Ld Ud] Hv. destruct (priced_val close Hc) as (Fc & Lc & Uc).
  assert (E20 : fval 0x1p1020 = 1048576 * fval price_high) by (vm_compute; reflexivity).
  assert (E21 : fval 0x1p1021 = 2097152 * fval price_high) by (vm_compute; reflexivity).
  set (H := fval price_high) in *. clearbody H. pose proof (pow2_pos 74 ltac:(lia)).
  assert (Ho : 0 < fval close < over) by (apply isfinite_val in Fc as [_ ?]; lia).
  pose proof (visible_step close (fval distance) Ho ltac:(lia) ltac:(lia)) as Hs.
  destruct (fsub_bounded close distance 0x1p1021 Fc Fd eq_refl ltac:(lia)) as [F1 _].
  destruct (fadd_bounded close distance 0x1p1021 Fc Fd eq_refl ltac:(lia)) as [F2 _].
  rewrite <-fval_sub, <-fval_add in Hs by done. exact (conj F1 (conj F2 Hs)).
Qed.

Lemma sides_multiple close distance k : priced close = true -> isfinite distance = true ->
  1 <= fval distance <= fval 0x1p1010 -> fval close <= fval distance * 2 ^ 12 ->
  (1 <=? k)%float = true -> bounded_by 8 k = true -> sides close distance /\ sides close (distance * k).
Proof.
  intros Hc Fd [Ld Ud] Hv (_ & _ & Hk)%fleb_iff (Fk & Bk)%bounded_by_val. rewrite fval_1 in Hk.
  assert (E8 : fval 8 = 8 * 2 ^ 1074) by (vm_compute; reflexivity). rewrite E8 in Bk.
  assert (E13 : fval 0x1p1020 = 1024 * fval 0x1p1010) by (vm_compute; reflexivity).
  destruct (fmul_bounded distance k 0x1p1020 Fd Fk eq_refl) as [Fx Bx].
  { rewrite Z.abs_mul, E13. set (U := 2 ^ 1074) in *. clearbody U. nia. }
  pose proof (fmul_grow distance k Fd Fk ltac:(lia) ltac:(rewrite fval_1; lia)) as Gx.
  split; apply sides_step; try done; lia.
Qed.

(** What the plugins compute from a distance. *)
Lemma sides_signal action confidence close d1 d2 :
  action <> ABSTAIN -> priced close = true -> sides close d1 -> sides close d2 ->
  (0 <=? confidence)%float = true -> (confidence <=? 0.95)%float = true ->
  exists s, StrategySignal_new action confidence close
      (if action ==p BUY then close - d1 else close + d1)%float
      (if action ==p BUY then close + d2 else close - d2)%float 0.05 = Ok s /\
    StrategySignal_post_init s = Ok tt /\ s.(sg_action) = action /\ s.(sg_reference_price) = close /\
    s.(sg_confidence) = confidence.
Proof.
  intros Ha (Fc & Lc & _)%priced_val (F1 & F2 & D1 & D2) (F3 & F4 & X1 & X2) C0 C1.
  apply signal_new_ok; [exact Ha | destruct action; assumption | destruct action; assumption | exact Fc
    | pose proof (pow2_pos 74); lia | exact C0 | exact C1 | intros ->; exact (conj D1 X2) | intros ->; exact (conj X1 D2)].
Qed.

(** The larger of a bounded distance and the floor. *)
Lemma fmax_floor close d b : priced close = true -> isfinite d = true -> fval d <= fval b ->
  fval price_high <= fval b ->
  isfinite (fmax d (close * 0.0005)) = true /\ 1 <= fval (fmax d (close * 0.0005)) <= fval b /\
  fval close <= fval (fmax d (close * 0.0005)) * 2 ^ 12.
Proof.
  intros Hc Fd Hd Hb. destruct (floor_distance close Hc) as (Ff & [Lf Uf] & Vf). unfold fmax.
  destruct (_ <? _)%float eqn:E; [split; [exact Ff|lia]|]. split; [exact Fd|].
  apply fltb_false in E; [|by apply isfinite_nan..]. lia.
Qed.

Lemma atr_distance close atr k : priced close = true -> bounded_by price_high atr = true -> bounded_by 8 k = true ->
  isfinite (atr * k)%float = true /\ fval (atr * k)%float <= fval 0x1p1010.
Proof.
  intros Hc (Fa & Ba)%bounded_by_val (Fk & Bk)%bounded_by_val.
  assert (E8 : fval 8 = 8 * 2 ^ 1074) by (vm_compute; reflexivity). rewrite E8 in Bk.
  assert (E13 : fval 0x1p1010 = 1024 * fval price_high) by (vm_compute; reflexivity).
  destruct (fmul_bounded atr k 0x1p1010 Fa Fk eq_refl) as [Fd Bd].
  { rewrite Z.abs_mul, E13. set (U := 2 ^ 1074) in *. clearbody U. nia. }
  split; [done|lia].
Qed.

Lemma high_1010 : fval price_high <= fval 0x1p1010.
Proof. by vm_compute. Qed.

(** The stop and the target of [_signal] lie strictly on their sides. *)
Lemma signal_ok action close atr stop_atr reward_risk confidence :
  action <> ABSTAIN -> priced close = true -> bounded_by price_high atr = true ->
  bounded_by 8 stop_atr = true -> (1 <=? reward_risk)%float = true -> bounded_by 8 reward_risk = true ->
  exists s, signal_ action close atr stop_atr reward_risk confidence = Ok s /\
    StrategySignal_post_init s = Ok tt /\ s.(sg_action) = action /\ s.(sg_reference_price) = close /\
    (s.(sg_confidence) <=? 0.95)%float = true.
Proof.
  intros Ha Hc Hatr Hs H1 H8. destruct (atr_distance close atr stop_atr Hc Hatr Hs) as [Fd Bd].
  destruct (fmax_floor close _ _ Hc Fd Bd high_1010) as (Fm & Bm & Vm). unfold signal_.
  set (distance := fmax (atr * stop_atr) (close * 0.0005)) in *. clearbody distance.
  destruct (sides_multiple close distance reward_risk Hc Fm Bm Vm H1 H8) as [S1 S2].
  destruct (clamp_range confidence 0.95 eq_refl ltac:(by vm_compute)) as [C0 C1].
  destruct (sides_signal action _ close distance (distance * reward_risk) Ha Hc S1 S2 C0 C1) as (s & E & Hv & Hac & Hr & Hcf).
  exists s. rewrite Hcf. exact (conj E (conj Hv (conj Hac (conj Hr C1)))).
Qed.

(** ** Answers of the plugins *)

(** A context its constructor accepts, with prices in range. *)
Record sane_context (c : StrategyContext) : Prop := {
  sc_valid : StrategyContext_post_init c = Ok tt;
  sc_close v : c.(cx_features) !! "close" = Some v -> priced v = true;
  sc_atr v : c.(cx_features) !! "atr_14" = Some v -> bounded_by price_high v = true;
  sc_range v : c.(cx_features) !! "range_pct" = Some v -> bounded_by 8 v = true }.

(** A plugin answers: no signal, or a signal its constructor accepts, at the
    context's price, of confidence at most 0.95. *)
Definition answers (c : StrategyContext) (r : result (option StrategySignal)) : Prop :=
  exists o, r = Ok o /\ forall s, o = Some s ->
    StrategySignal_post_init s = Ok tt /\ c.(cx_features) !! "close" = Some s.(sg_reference_price) /\
    (s.(sg_confidence) <=? 0.95)%float = true.

Lemma answers_none c : answers c (mret None).
Proof. by exists None. Qed.

Lemma answers_some c r : (exists s, r = Ok s /\ StrategySignal_post_init s = Ok tt /\
    c.(cx_features) !! "close" = Some s.(sg_reference_price) /\ (s.(sg_confidence) <=? 0.95)%float = true) ->
  answers c (s ← r; mret (Some s)).
Proof. intros (s & -> & Hs). exists (Some s). split; [done|]. by intros ? [= <-]. Qed.

Lemma feature_ok f name v : feature f name = Ok v <-> f !! name = Some v.
Proof. unfold feature. destruct (f !! name); split; congruence. Qed.

Lemma context_finite c name v : StrategyContext_post_init c = Ok tt -> c.(cx_features) !! name = Some v ->
  isfinite v = true.
Proof.
  unfold StrategyContext_post_init. intros H Hl. inv_ok H.
  match goal with E : existsb _ (dict_values _) = false |- _ => apply existsb_false_Forall in E as Hf end.
  rewrite Forall_forall in Hf. apply negb_false_iff, (Hf v). unfold dict_values. apply list_elem_of_fmap.
  exists (name, v). split; [done|]. by apply dict_lookup_elem.
Qed.

Section Compatible.
Context (d : StrategyDefinition) (required : list string) (c : StrategyContext) (labels : list string).
Context (Hc : (compatibility_ d required c (Some labels)).1 = true).

Lemma compatible_checks :
  c.(cx_market) = d.(sd_identity).(si_market) /\ c.(cx_timeframe) = d.(sd_identity).(si_timeframe) /\
  c.(cx_trade_horizon) = d.(sd_identity).(si_trade_horizon) /\
  c.(cx_feature_set_version) = d.(sd_identity).(si_feature_set_version) /\
  forallb (fun name => dict_mem name c.(cx_features)) required = true /\
  c.(cx_regime).(re_symbol_regime_label) ∈ labels.
Proof.
  revert Hc. unfold compatibility_. cbv zeta.
  do 6 (match goal with |- context [if ?b then _ else _] => destruct b eqn:?; [done|] end). intros _.
  repeat match goal with
  | H : _ !=p _ = false |- _ => rewrite py_ne_false in H
  | H : negb _ = false |- _ => apply negb_false_iff in H
  | H : bool_decide _ = true |- _ => apply bool_decide_eq_true in H
  end. done.
Qed.

Lemma compatible_feature name : name ∈ required -> exists v, c.(cx_features) !! name = Some v.
Proof.
  destruct compatible_checks as (_ & _ & _ & _ & E & _). rewrite forallb_Forall, Forall_forall in E. intros Hn.
  specialize (E name Hn). unfold dict_mem in E. destruct (_ !! name) as [v|]; [by exists v|done].
Qed.
End Compatible.

(** The methods of the class are instances of the shared helper. *)
Lemma ts_compatibility_eq t c :
  ts_compatibility t c = compatibility_ (ts_definition t) (ts_required_features t) c (Some (ts_required_regime_labels t)).
Proof. by destruct t. Qed.

(** The parameters the arithmetic needs: stops of at most 8 ATR and targets
    between 1 and 8 times the risk. *)
Definition sane_multiples (stop_atr reward_risk : float) : bool :=
  bounded_by 8 stop_atr && ((1 <=? reward_risk)%float && bounded_by 8 reward_risk).
Definition sane_parameters (t : TechnicalStrategy) : bool :=
  match t with
  | VwapPullback s => sane_multiples s.(vw_stop_atr) s.(vw_reward_risk)
  | EmaRsiContinuation s => sane_multiples s.(em_stop_atr) s.(em_reward_risk)
  | SuperTrendAdx s => sane_multiples s.(su_stop_atr) s.(su_reward_risk)
  | MeanReversion s => bounded_by 8 s.(me_stop_atr)
  | RangeReversal s => sane_multiples s.(rg_stop_atr) s.(rg_reward_risk)
  | SupportReversal s => sane_multiples s.(sp_stop_atr) s.(sp_reward_risk)
  | Breakout s => sane_multiples s.(bk_stop_atr) s.(bk_reward_risk)
  | OpeningRangeBreakout s => sane_multiples s.(ob_stop_atr) s.(ob_reward_risk)
  | VolumeBreakout s => sane_multiples s.(vb_stop_atr) s.(vb_reward_risk)
  end.

Section Answers.
Context (c : StrategyContext) (Hc : sane_context c).

Lemma answers_signal action close atr stop_atr reward_risk confidence :
  action <> ABSTAIN -> c.(cx_features) !! "close" = Some close -> c.(cx_features) !! "atr_14" = Some atr ->
  sane_multiples stop_atr reward_risk = true ->
  answers c (s ← signal_ action close atr stop_atr reward_risk confidence; mret (Some s)).
Proof.
  intros Ha Hcl Hat [Hs [H1 H8]%andb_prop]%andb_prop. apply answers_some.
  destruct (signal_ok action close atr stop_atr reward_risk confidence Ha (sc_close c Hc _ Hcl) (sc_atr c Hc _ Hat)
    Hs H1 H8) as (s & E & Hv & _ & Hr & Hconf).
  exists s. by rewrite Hr.
Qed.

Lemma close_div x close : c.(cx_features) !! "close" = Some close -> fdiv x close = Ok (x / close)%float.
Proof.
  intros (Hf & Hl & _)%(sc_close c Hc)%priced_val. apply fdiv_ok, feqb_false; [by apply isfinite_nan|done|].
  rewrite fval_0. pose proof (pow2_pos 74). lia.
Qed.
End Answers.

(** [gets Hf name v]: the feature [name], which compatibility guarantees. *)
Ltac take_feature Hf :=
  match goal with
  | |- context [feature ?f ?name] =>
      let v := fresh "v" in let E := fresh "E" in
      destruct (Hf name) as [v E]; [by repeat constructor | rewrite (proj2 (feature_ok f name v) E); cbn [mbind result_bind]]
  end.
(** The guards of a plugin, one after the other. *)
Ltac guards :=
  repeat match goal with
  | |- answers _ (if ?b then mret None else _) => destruct b eqn:?; [apply answers_none|]
  | |- answers _ (match (if ?a then Some _ else if ?b then Some _ else None) with _ => _ end) =>
      destruct a; [|destruct b; [|apply answers_none]]
  end.

Lemma me_generate_answers s c :
  bounded_by 8 s.(me_stop_atr) = true -> sane_context c -> answers c (me_generate s c).
Proof.
  intros Hs Hc. unfold me_generate.
  destruct (me_compatibility s c).1 eqn:Hcompat; [|apply answers_none]. cbn [negb]. cbv zeta.
  assert (Hf := compatible_feature _ _ _ _ Hcompat).
  destruct (Hf "close") as [close E]; [by repeat constructor|]. destruct (Hf "rsi_14") as [rsi E0]; [by repeat constructor|].
  destruct (Hf "atr_14") as [atr E1]; [by repeat constructor|]. destruct (Hf "ema_21") as [mean E2]; [by repeat constructor|].
  rewrite (proj2 (feature_ok _ _ _) E), (proj2 (feature_ok _ _ _) E0), (proj2 (feature_ok _ _ _) E1),
    (proj2 (feature_ok _ _ _) E2). cbn [mbind result_bind].
  destruct (atr <=? 0)%float eqn:Hatr; [apply answers_none|].
  pose proof (context_finite _ _ _ (sc_valid c Hc) E1) as Fa. pose proof (positive_spec atr Fa Hatr) as Pa.
  rewrite fdiv_ok by (apply feqb_false; [by apply isfinite_nan|done|rewrite fval_0; lia]). cbn [mbind result_bind].
  pose proof (sc_close c Hc _ E) as Hcl. destruct (priced_val close Hcl) as (Fc & Lc & _).
  assert (Pc : 0 < fval close) by (pose proof (pow2_pos 74); lia).
  destruct (atr_distance close atr _ Hcl (sc_atr c Hc _ E1) Hs) as [Fd Bd]. rewrite fmul_comm in Fd, Bd.
  destruct (fmax_floor close _ _ Hcl Fd Bd high_1010) as (Fm & Bm & Vm).
  set (distance := fmax (me_stop_atr s * atr) (close * 0.0005)) in *. clearbody distance.
  destruct (sides_step close distance Hcl Fm) as (F1 & F2 & _); [|done|].
  { assert ((0x1p1010 <=? 0x1p1020)%float = true) as (_ & _ & ?)%fleb_iff by done. lia. }
  pose proof (context_finite _ _ _ (sc_valid c Hc) E2) as Fme.
  set (conf := (_ + fmin _ 0.2)%float). destruct (clamp_range conf 0.95 eq_refl ltac:(by vm_compute)) as [C0 C1].
  assert (Hnew : forall action stop, action <> ABSTAIN -> isfinite stop = true ->
    (action = BUY -> fval stop < fval close < fval mean) -> (action = SELL -> fval mean < fval close < fval stop) ->
    answers c (s ← StrategySignal_new action (fmax 0 (fmin conf 0.95)) close stop mean 0.05; mret (Some s))).
  { intros action stop Ha Fst Hb Hsl. apply answers_some.
    destruct (signal_new_ok action (fmax 0 (fmin conf 0.95)) close stop mean Ha Fst Fme Fc Pc C0 C1 Hb Hsl)
      as (sig & Hsig & Hv & _ & Hr & Hcf). exists sig. rewrite Hr, Hcf. exact (conj Hsig (conj Hv (conj E C1))). }
  clearbody conf. clear -Hnew F1 F2. guards.
  - match goal with H : _ && negb _ = false |- _ => cbn in H; apply negb_false_iff, andb_prop in H as
      [(_ & _ & ?)%fltb_iff (_ & _ & ?)%fltb_iff] end. by apply Hnew.
  - match goal with H : (SELL ==p SELL) && negb _ = false |- _ => cbn in H; apply negb_false_iff, andb_prop in H as
      [(_ & _ & ?)%fltb_iff (_ & _ & ?)%fltb_iff] end. by apply Hnew.
Qed.

Lemma ts_generate_incompatible t c : (ts_compatibility t c).1 = false -> ts_generate t c = mret None.
Proof.
  intros Hcompat. destruct t; cbn [ts_generate ts_compatibility] in *;
    [unfold vw_generate | unfold em_generate | unfold su_generate | unfold me_generate
    | unfold rg_generate | unfold sp_generate | unfold bk_generate | unfold ob_generate | unfold vb_generate];
    by rewrite Hcompat.
Qed.

Lemma ts_generate_answers t c :
  sane_parameters t = true -> sane_context c -> answers c (ts_generate t c).
Proof.
  intros Hp Hc. destruct (ts_compatibility t c).1 eqn:Hcompat;
    [|rewrite ts_generate_incompatible by done; apply answers_none].
  assert (Hf := compatible_feature _ _ _ _ (eq_trans (eq_sym (f_equal fst (ts_compatibility_eq t c))) Hcompat)).
  destruct t as [s|s|s|s|s|s|s|s|s]; cbn [ts_generate ts_required_features ts_compatibility sane_parameters] in *;
    [unfold vw_generate | unfold em_generate | unfold su_generate | by apply me_generate_answers
    | unfold rg_generate | unfold sp_generate | unfold bk_generate | unfold ob_generate | unfold vb_generate];
    rewrite Hcompat; cbn [negb]; cbv zeta; repeat take_feature Hf; guards;
    rewrite ?(close_div c Hc), ?fdiv_ok by done; cbn [mbind result_bind]; by apply answers_signal.
Qed.

(** *** Momentum *)

Lemma momentum_confidence change body : isfinite change = true -> isfinite body = true ->
  let c := fmin 0.95 (0.5 + abs change * 20 + abs body * 10) in
  (0 <=? c)%float = true /\ (c <=? 0.95)%float = true.
Proof.
  intros Fc Fb c.
  assert (Hmul : forall x k : float, isfinite x = true -> isfinite k = true -> 0 < fval k ->
    fnan (abs x * k)%float = false /\ 0 <= fval (abs x * k)%float).
  { intros x k Fx Fk Hk. apply fmul_nonneg; [by rewrite fnan_abs; apply isfinite_nan|rewrite fval_abs; lia|done..]. }
  destruct (Hmul change 20%float Fc eq_refl) as [N1 P1]; [by vm_compute|].
  destruct (Hmul body 10%float Fb eq_refl) as [N2 P2]; [by vm_compute|].
  unfold c, fmin. destruct (_ <? 0.95)%float eqn:E; [|done].
  apply fltb_iff in E as (Nx & _ & Hx). split; apply fleb_iff; rewrite ?fval_0; (split; [done|]); (split; [done|]); [|lia].
  set (x1 := (0.5 + abs change * 20)%float) in *.
  assert (Hx1 : fnan x1 = false /\ 0 <= fval x1).
  { split; [by apply fnan_add_nonneg|]. by apply fadd_nonneg; [..|by vm_compute|]. }
  destruct Hx1 as [Nx1 Px1]. clearbody x1. destruct (isfinite x1) eqn:F1.
  - by apply fadd_nonneg.
  - rewrite fadd_infinite_nonneg by done. pose proof over_pos. lia.
Qed.

Lemma momentum_distance close range k : priced close = true -> bounded_by 8 range = true ->
  (1 <=? k)%float = true -> bounded_by 8 k = true ->
  isfinite (close * fmax range 0.0005 * k)%float = true /\
  1 <= fval (close * fmax range 0.0005 * k)%float <= fval 0x1p1010 /\
  fval close <= fval (close * fmax range 0.0005 * k)%float * 2 ^ 12.
Proof.
  intros Hc (Fr & Br)%bounded_by_val (_ & _ & H1)%fleb_iff (Fk & Bk)%bounded_by_val.
  destruct (floor_distance close Hc) as (Ff & [Lf Uf] & Vf). destruct (priced_val close Hc) as (Fc & Lc & Uc).
  set (r := fmax range 0.0005).
  assert (Hr : isfinite r = true /\ fval 0.0005 <= fval r <= fval 8).
  { assert ((0.0005 <=? 8)%float = true) as (_ & _ & ?)%fleb_iff by done. unfold r, fmax.
    destruct (_ <? _)%float eqn:E; [split; [done|lia]|]. split; [done|].
    apply fltb_false in E; [|by apply isfinite_nan|done]. lia. }
  destruct Hr as [Fr' [Lr Ur]]. clearbody r.
  assert (E8 : fval 8 = 8 * 2 ^ 1074) by (vm_compute; reflexivity). rewrite E8 in *. rewrite fval_1 in H1.
  assert (E3 : fval 0x1p1003 = 8 * fval price_high) by (vm_compute; reflexivity).
  assert (E10 : fval 0x1p1010 = 128 * fval 0x1p1003) by (vm_compute; reflexivity).
  assert (L5 : 0 <= fval 0.0005) by (by vm_compute). pose proof (pow2_pos 74 ltac:(lia)).
  destruct (fmul_bounded close r 0x1p1003 Fc Fr' eq_refl) as [Fm Bm].
  { rewrite Z.abs_mul, E3. set (U := 2 ^ 1074) in *. clearbody U. nia. }
  assert (Lm : fval (close * 0.0005)%float <= fval (close * r)%float).
  { rewrite !(fmul_comm close). apply fmul_mono; [done..|lia|lia]. }
  destruct (fmul_bounded (close * r) k 0x1p1010 Fm Fk eq_refl) as [Fx Bx].
  { rewrite Z.abs_mul, E10. set (U := 2 ^ 1074) in *. clearbody U. nia. }
  pose proof (fmul_grow (close * r) k Fm Fk ltac:(lia) ltac:(rewrite fval_1; lia)) as Gx.
  split; [exact Fx|]. lia.
Qed.

Lemma mo_generate_answers s c :
  bounded_by 8 s.(mo_stop_range_multiple) = true -> (1 <=? s.(mo_stop_range_multiple))%float = true ->
  bounded_by 8 s.(mo_reward_risk) = true -> (1 <=? s.(mo_reward_risk))%float = true ->
  sane_context c -> (mo_compatibility s c).1 = true -> answers c (mo_generate s c).
Proof.
  intros Hm Hm1 Hr Hr1 Hc Hcompat. unfold mo_generate.
  assert (Hf : forall name, name ∈ ["close"; "return_1"; "range_pct"; "body_pct"] ->
    exists v, c.(cx_features) !! name = Some v).
  { revert Hcompat. unfold mo_compatibility. destruct (forallb _ _) eqn:E; [|done]. intros _ name Hn.
    rewrite forallb_Forall, Forall_forall in E. specialize (E name Hn). unfold dict_mem in E.
    destruct (_ !! name) as [v|]; [by exists v|done]. }
  destruct (Hf "close") as [close E]; [by repeat constructor|]. destruct (Hf "return_1") as [change E0]; [by repeat constructor|].
  destruct (Hf "body_pct") as [body E1]; [by repeat constructor|]. destruct (Hf "range_pct") as [range E2]; [by repeat constructor|].
  rewrite (proj2 (feature_ok _ _ _) E), (proj2 (feature_ok _ _ _) E0), (proj2 (feature_ok _ _ _) E1),
    (proj2 (feature_ok _ _ _) E2). cbn [mbind result_bind]. guards. cbv zeta.
  pose proof (sc_close c Hc _ E) as Hcl.
  destruct (momentum_confidence change body) as [C0 C1]; [by eapply context_finite; [apply Hc|]..|].
  destruct (momentum_distance close range (mo_stop_range_multiple s) Hcl (sc_range c Hc _ E2) Hm1 Hm) as (Fd & Bd & Vd).
  set (distance := (close * _ * _)%float) in *. clearbody distance.
  destruct (sides_multiple close distance _ Hcl Fd Bd Vd Hr1 Hr) as [S1 S2].
  apply answers_some.
  destruct (sides_signal (if fgt change 0 then BUY else SELL)
    (fmin 0.95 (0.5 + abs change * 20 + abs body * 10)) close distance (distance * mo_reward_risk s))
    as (sig & Es & Hv & _ & Href & Hcf); [by destruct (fgt change 0)|exact Hcl|exact S1|exact S2|exact C0|exact C1|].
  exists sig. rewrite Href, Hcf. exact (conj Es (conj Hv (conj E C1))).
Qed.

(** ** The catalogue *)

(** The plugin objects the runtime registers, [builtin_strategies()] and
    then [technical_strategies()], each a distinct object. *)
Definition strategy_plugins : result (list StrategyPlugin) :=
  builtin ← builtin_strategies;
  technical ← technical_strategies;
  mret (imap (fun i s => momentum_plugin (Z.of_nat i) s) builtin ++
        imap (fun i t => technical_plugin (Z.of_nat (length builtin + i)) t) technical).

Lemma technical_sane ts t : technical_strategies = Ok ts -> t ∈ ts -> sane_parameters t = true.
Proof.
  intros E. assert (H : match technical_strategies with Ok ts => forallb sane_parameters ts | _ => false end = true)
    by (vm_compute; reflexivity).
  rewrite E in H. rewrite forallb_Forall, Forall_forall in H. apply H.
Qed.

Lemma builtin_default ss s : builtin_strategies = Ok ss -> s ∈ ss ->
  exists d, s = MomentumContinuationStrategy_new d.
Proof.
  intros E Hs. destruct (map_result_elem _ _ _ _ E Hs) as (m & _ & H). inv_ok H. by eexists.
Qed.

(** C40. The plugins never let the decision cycle down: on every context
    its constructor accepts with prices in range (2 ** -1000 to 2 ** 1000),
    each of the registered plugins decides compatibility, and a compatible
    one answers without an exception, with no signal or with a signal the
    signal's constructor accepts (finite, confidence at most 0.95, stop and
    target strictly on their sides) whose entry is the context's close. *)
Theorem plugins_answer plugins p c :
  strategy_plugins = Ok plugins -> p ∈ plugins -> sane_context c ->
  exists ok reason, p.(pl_compatibility) c = Ok (ok, reason) /\
    (ok = true -> exists o, p.(pl_generate) c = Ok o /\
      forall s, o = Some s ->
        StrategySignal_post_init s = Ok tt /\ c.(cx_features) !! "close" = Some s.(sg_reference_price) /\
        (s.(sg_confidence) <=? 0.95)%float = true).
Proof.
  unfold strategy_plugins. intros H Hp Hc. inv_ok H. subst plugins.
  apply elem_of_app in Hp as [Hp|Hp]; apply list_elem_of_lookup_1 in Hp as [i Hi];
    rewrite list_lookup_imap in Hi; apply fmap_Some in Hi as (x & Hx & ->); apply list_elem_of_lookup_2 in Hx.
  - destruct (builtin_default _ _ Hok Hx) as [d ->].
    eexists _, _. split; [cbn; by rewrite <-surjective_pairing|]. intros Hcompat.
    by apply mo_generate_answers.
  - exists (ts_compatibility x c).1, (ts_compatibility x c).2. rewrite <-surjective_pairing. split; [done|]. intros _.
    apply ts_generate_answers; [by eapply technical_sane|done].
Qed.

(** Routing by regime is exclusive: the technical plugins compatible
    with one context all want the same regime, the context's label, and
    share its market, timeframe, horizon and feature version; an
    incompatible plugin produces no signal. *)
Theorem regime_routing ts t1 t2 c :
  technical_strategies = Ok ts -> t1 ∈ ts -> t2 ∈ ts ->
  (ts_compatibility t1 c).1 = true ->
  ts_required_regime_labels t1 = [c.(cx_regime).(re_symbol_regime_label)] /\
  c.(cx_market) = (ts_definition t1).(sd_identity).(si_market) /\
  c.(cx_timeframe) = (ts_definition t1).(sd_identity).(si_timeframe) /\
  c.(cx_trade_horizon) = (ts_definition t1).(sd_identity).(si_trade_horizon) /\
  c.(cx_feature_set_version) = TECHNICAL_FEATURE_VERSION /\
  (ts_required_regime_labels t2 <> ts_required_regime_labels t1 -> ts_generate t2 c = Ok None).
Proof.
  intros E H1 H2 Hc.
  assert (Hl : forall t, exists l, ts_required_regime_labels t = [l]) by (intros []; by eexists).
  assert (Hch : forall t, (ts_compatibility t c).1 = true ->
    ts_required_regime_labels t = [c.(cx_regime).(re_symbol_regime_label)]).
  { intros t Ht. rewrite ts_compatibility_eq in Ht. destruct (compatible_checks _ _ _ _ Ht) as (_ & _ & _ & _ & _ & Hlab).
    destruct (Hl t) as [l El]. rewrite El in *. by apply list_elem_of_singleton in Hlab as ->. }
  split; [by apply Hch|]. rewrite ts_compatibility_eq in Hc.
  destruct (compatible_checks _ _ _ _ Hc) as (Hm & Ht & Hh & Hv & _ & _). split_and!; try done.
  - assert (H : match technical_strategies with Ok ts => forallb (fun t =>
        (ts_definition t).(sd_identity).(si_feature_set_version) =? 2) ts | _ => false end = true) by (vm_compute; reflexivity).
    rewrite E, forallb_Forall, Forall_forall in H. specialize (H _ H1). apply Z.eqb_eq in H. by rewrite Hv, H.
  - intros Hne. apply ts_generate_incompatible. destruct (ts_compatibility t2 c).1 eqn:E2; [|done].
    exfalso. apply Hne. rewrite (Hch t2 E2), (Hch t1); [done|]. by rewrite ts_compatibility_eq.
Qed.

(** *** Registration *)

Lemma register_new p (cat : dict StrategyIdentity StrategyPlugin) : cat !! p.(pl_definition).(sd_identity) = None ->
  catalog_register p cat = (Ok tt, <[p.(pl_definition).(sd_identity) := p]> cat).
Proof.
  intros H. unfold catalog_register, mbind, M_bind, get_state, lift, modify, raise_if.
  change (@lookup _ _ StrategyRuntimeCatalog _) with (@lookup _ _ (dict StrategyIdentity StrategyPlugin) _).
  by rewrite H.
Qed.

Lemma register_all (plugins : list StrategyPlugin) (cat : dict StrategyIdentity StrategyPlugin) :
  NoDup ((fun p => p.(pl_definition).(sd_identity)) <$> plugins) ->
  Forall (fun p => cat !! p.(pl_definition).(sd_identity) = None) plugins ->
  exists cat', for_each plugins catalog_register cat = (Ok tt, cat') /\
    (forall p, p ∈ plugins -> cat' !! p.(pl_definition).(sd_identity) = Some p) /\ dict_extends cat cat'.
Proof.
  revert cat. induction plugins as [|p rest IH]; intros cat Hnd Hfree.
  - exists cat. split; [done|]. split; [by intros p ?%elem_of_nil|done].
  - rewrite fmap_cons in Hnd. apply NoDup_cons in Hnd as [Hn Hnd]. apply Forall_cons in Hfree as [Hp Hrest].
    destruct (IH (<[p.(pl_definition).(sd_identity) := p]> cat) Hnd) as (cat' & Hrun & Hall & Hext).
    { rewrite Forall_forall in Hrest |- *. intros q Hq. rewrite dict_lookup_insert_ne; [by apply Hrest|].
      intros E. apply Hn. rewrite E. by apply (list_elem_of_fmap_2 (fun p => p.(pl_definition).(sd_identity))). }
    exists cat'. split; [simpl; unfold mbind, M_bind; by rewrite register_new|]. split.
    + intros q [->|Hq]%elem_of_cons; [|by apply Hall]. apply Hext, dict_lookup_insert_eq.
    + intros k v Hk. apply Hext. rewrite dict_lookup_insert_ne; [done|]. intros E. by rewrite <-E, Hp in Hk.
Qed.

(** All the plugins can be registered together: their identities are
    distinct and valid, so registering them in order raises nothing, and the
    catalog then gives each identity its own plugin back. *)
Theorem catalogue_registers :
  exists plugins cat, strategy_plugins = Ok plugins /\ length plugins = 17%nat /\
    for_each plugins catalog_register ∅ = (Ok tt, cat) /\
    forall p, p ∈ plugins -> catalog_require cat p.(pl_definition).(sd_identity) = Ok p.
Proof.
  assert (H : match strategy_plugins with
    | Ok l => bool_decide (NoDup ((fun p => p.(pl_definition).(sd_identity)) <$> l)) && (length l =? 17)%nat
    | Err _ => false end = true) by (vm_compute; reflexivity).
  destruct strategy_plugins as [plugins|]; [|done]. apply andb_prop in H as [H1%bool_decide_eq_true H2%Nat.eqb_eq].
  destruct (register_all plugins ∅ H1) as (cat & Hrun & Hall & _); [by apply Forall_true|].
  exists plugins, cat. split_and!; [done..|]. intros p Hp. unfold catalog_require. by rewrite Hall.
Qed.

Module StrategiesExample.
Definition context (label : string) : StrategyContext := {|
  cx_market := NSE; cx_symbol := "RELIANCE"; cx_sector := None; cx_timeframe := "15m";
  cx_trade_horizon := "intraday"; cx_feature_set_version := 2; cx_event_time := at_utc (20000 * day);
  cx_gold_snapshot_ids := ["gold"];
  cx_features := Dict [("close", 101%float); ("ema_9", 100.5%float); ("ema_21", 100%float); ("rsi_14", 60%float);
                       ("atr_14", 1.25%float); ("body_pct", 0.004%float)];
  cx_settled := true; cx_complete := true; cx_adjusted := true; cx_fresh := true; cx_warm := true;
  cx_tradeable := true; cx_tradeability_reason := "TRADEABLE";
  cx_regime := {| re_market_fit := 1; re_sector_fit := 1; re_symbol_fit := 1; re_mtf_alignment := 1;
                  re_symbol_regime_label := label |} |}.
Definition all_plugins : list StrategyPlugin := match strategy_plugins with Ok l => l | Err _ => [] end.
Definition technical : list TechnicalStrategy := match technical_strategies with Ok l => l | Err _ => [] end.
Definition ema_rsi : TechnicalStrategy :=
  default (VolumeBreakoutStrategy_new (ts_definition (nth 0 technical (VolumeBreakoutStrategy_new RegistryExample.definition))))
    (technical !! 2%nat).

Lemma context_sane label : sane_context (context label).
Proof.
  split; [vm_compute; reflexivity| | |]; intros v H; vm_compute in H; try discriminate H; injection H as <-;
    vm_compute; reflexivity.
Qed.

(** The EMA/RSI plugin buys in the trending context. *)
Lemma ema_rsi_buys : exists s, ts_generate ema_rsi (context "TRENDING") = Ok (Some s) /\ s.(sg_action) = BUY /\
  (s.(sg_stop_price) <? 101)%float = true.
Proof. eexists. vm_compute. repeat split. Qed.

Lemma plugins_answer_witness :
  exists p ok reason, p ∈ all_plugins /\ p.(pl_compatibility) (context "TRENDING") = Ok (ok, reason) /\
    (ok = true -> exists o, p.(pl_generate) (context "TRENDING") = Ok o).
Proof.
  assert (Hp : technical_plugin 5 ema_rsi ∈ all_plugins).
  { apply (list_elem_of_lookup_2 _ 5). reflexivity. }
  destruct (plugins_answer all_plugins (technical_plugin 5 ema_rsi) (context "TRENDING")) as (ok & reason & H1 & H2);
    [reflexivity | exact Hp | apply context_sane|].
  exists (technical_plugin 5 ema_rsi), ok, reason. split; [exact Hp|]. split; [exact H1|].
  intros Hok. destruct (H2 Hok) as (o & Ho & _). by exists o.
Defined.

Lemma regime_routing_witness :
  ts_required_regime_labels ema_rsi = ["TRENDING"] /\
  ts_generate (nth 8 technical ema_rsi) (context "TRENDING") = Ok None.
Proof.
  destruct (regime_routing technical ema_rsi (nth 8 technical ema_rsi) (context "TRENDING")) as (H & _ & _ & _ & _ & Hn).
  - reflexivity.
  - apply (list_elem_of_lookup_2 _ 2). reflexivity.
  - apply (list_elem_of_lookup_2 _ 8). reflexivity.
  - reflexivity.
  - split; [exact H|]. apply Hn. discriminate.
Defined.
End StrategiesExample.
