(* ===== verification/NseStore.v ===== *)
(** * Validation campaigns and promotion (src/nanodelta/validation/postgres.py, validation/service.py)

    The store keeps campaigns, the readiness of their data, the evidence of
    each strategy and the promotions of evidence to approvals; the service
    runs a campaign over the strategies, and promotes evidence that passed.
    Its registry is the durable one of [RegistryStore], whose tables and
    statements it shares; every method of the store is a transaction of its
    own.

    The theorems: a campaign never grants an approval; an approval that a
    promotion returns rests on passing evidence; whatever is called, in
    whatever processes, an approval in force of one of the three technical
    strategies has passing evidence in the tables.  A promotion that raises
    can leave its approval in force. *)

From Stdlib Require Import ZArith Lia Floats Ascii String ZifyBool.
From stdpp Require Import prelude strings pretty numbers list sorting.
From S2P Require Import Prelude PyData PyFloat FloatTheory PyText PyJson Sha256 PyTime Sql Contracts Timeframes.
From S2P Require Import StrategyRuntime Strategies Registry NseValidation RegistryStore.

Local Open Scope Z_scope.

(** ** The tables *)

(** [research.nse_validation_campaigns] *)
Record CampaignRow := {
  cw_campaign_id : string;
  cw_evaluated_at : datetime;
  cw_requested_start : datetime;
  cw_requested_end : datetime;
  cw_minimum_history_days : Z;
  cw_source_provider : Provider;
  cw_symbols : list string;
  cw_required_timeframes : list string;
  cw_validation_config : NseValidationConfig }.
(** [research.nse_strategy_promotions] *)
Record PromotionRow := {
  pw_promotion_id : string;
  pw_evidence_id : string;
  pw_approval_id : string;
  pw_reviewed_by : string;
  pw_review_reason : string;
  pw_promoted_at : datetime }.
(** [nse_silver.candles] *)
Record CandleRow := {
  cr_symbol : string;
  cr_timeframe : string;
  cr_open_time : datetime;
  cr_open : float;
  cr_high : float;
  cr_low : float;
  cr_close : float;
  cr_volume : float;
  cr_provider : Provider;
  cr_is_settled : bool }.
(** The process: its registry, which holds the shared tables and the
    statements to come, and the tables of the store.  The readiness rows have
    the fields of the evidence. *)
Record NseProcess := {
  np_registry : RegistryProcess;
  np_campaigns : list CampaignRow;
  np_readiness : list NseReadinessEvidence;
  np_promotions : list PromotionRow;
  np_candles : list CandleRow }.

Definition in_registry {A} (m : M RegistryProcess A) : M NseProcess A :=
  zoom np_registry (fun r s => {| np_registry := r; np_campaigns := s.(np_campaigns); np_readiness := s.(np_readiness);
    np_promotions := s.(np_promotions); np_candles := s.(np_candles) |}) m.
Definition set_campaigns (rows : list CampaignRow) (s : NseProcess) : NseProcess := {|
  np_registry := s.(np_registry); np_campaigns := rows; np_readiness := s.(np_readiness); np_promotions := s.(np_promotions); np_candles := s.(np_candles) |}.
Definition set_readiness (rows : list NseReadinessEvidence) (s : NseProcess) : NseProcess := {|
  np_registry := s.(np_registry); np_campaigns := s.(np_campaigns); np_readiness := rows; np_promotions := s.(np_promotions); np_candles := s.(np_candles) |}.
Definition set_promotions (rows : list PromotionRow) (s : NseProcess) : NseProcess := {|
  np_registry := s.(np_registry); np_campaigns := s.(np_campaigns); np_readiness := s.(np_readiness); np_promotions := rows; np_candles := s.(np_candles) |}.
Definition shared (s : NseProcess) : RegistryTables := s.(np_registry).(rp_tables).

(** The tables of [s], with the dicts and the statements to come of [s']. *)
Definition rolled_back (s s' : NseProcess) : NseProcess := {|
  np_registry := {| rp_tables := shared s; rp_cache := s'.(np_registry).(rp_cache); rp_faults := s'.(np_registry).(rp_faults) |};
  np_campaigns := s.(np_campaigns); np_readiness := s.(np_readiness); np_promotions := s.(np_promotions); np_candles := s.(np_candles) |}.
Definition nse_transaction {A} (m : M NseProcess A) : M NseProcess A := fun s =>
  match (_ ← in_registry statement; a ← m; _ ← in_registry statement; mret a) s with
  | (Ok a, s') => (Ok a, s')
  | (Err e, s') => (Err e, rolled_back s s')
  end.

(** ** PostgresNseValidationStore *)

(** [_candle] *)
Definition settled_candle (r : CandleRow) : result SettledCandle :=
  let c := {| sc_symbol := r.(cr_symbol); sc_timeframe := r.(cr_timeframe); sc_open_time := r.(cr_open_time); sc_open := r.(cr_open);
              sc_high := r.(cr_high); sc_low := r.(cr_low); sc_close := r.(cr_close); sc_volume := r.(cr_volume); sc_provider := r.(cr_provider) |} in
  _ ← SettledCandle_post_init c; mret c.
(** [ORDER BY symbol,timeframe,open_time] *)
Definition candle_row_before (a b : CandleRow) : bool :=
  str_then a.(cr_symbol) b.(cr_symbol) (str_then a.(cr_timeframe) b.(cr_timeframe) (instant a.(cr_open_time) <? instant b.(cr_open_time))).
(** [load_candles] *)
Definition load_candles (symbols timeframes : list string) (start end_ : datetime) : M NseProcess (list SettledCandle) :=
  _ ← in_registry statement;
  _ ← in_registry statement;
  s ← get_state;
  lift (map_result settled_candle (py_sorted candle_row_before
    (List.filter (fun r => bool_decide (r.(cr_symbol) ∈ symbols) && bool_decide (r.(cr_timeframe) ∈ timeframes) &&
        (instant start <=? instant r.(cr_open_time)) && (instant r.(cr_open_time) <=? instant end_) && r.(cr_is_settled) &&
        bool_decide (r.(cr_provider) = DHAN)) s.(np_candles)))).

Definition int4 (x : Z) : result unit := raise_if ((x <? -2147483648) || (2147483647 <? x)) out_of_range.
(** [_campaign_config]: its floats *)
Definition cost_floats (c : NseCostModel) : list float := [c.(nc_brokerage_bps); c.(nc_taxes_and_fees_bps); c.(nc_slippage_bps)].
Definition config_floats (c : NseValidationConfig) : list float :=
  c.(nv_minimum_session_coverage) :: cost_floats c.(nv_cost_model) ++ policy_floats c.(nv_policy).
Definition campaign_row (c : NseValidationCampaign) : result CampaignRow :=
  _ ← int4 c.(cp_config).(nv_minimum_history_days);
  _ ← jsonb_floats (config_floats c.(cp_config));
  mret {| cw_campaign_id := c.(cp_campaign_id); cw_evaluated_at := timestamptz c.(cp_evaluated_at);
          cw_requested_start := timestamptz c.(cp_requested_start); cw_requested_end := timestamptz c.(cp_requested_end);
          cw_minimum_history_days := c.(cp_config).(nv_minimum_history_days); cw_source_provider := c.(cp_source_provider);
          cw_symbols := c.(cp_symbols); cw_required_timeframes := c.(cp_config).(nv_required_timeframes); cw_validation_config := c.(cp_config) |}.
(** [row != expected], [None] included *)
Definition campaign_differs (row : option CampaignRow) (c : NseValidationCampaign) : bool :=
  match row with
  | None => true
  | Some r => (r.(cw_evaluated_at) !=p c.(cp_evaluated_at)) || (r.(cw_requested_start) !=p c.(cp_requested_start)) ||
      (r.(cw_requested_end) !=p c.(cp_requested_end)) || (r.(cw_minimum_history_days) !=p c.(cp_config).(nv_minimum_history_days)) ||
      negb (bool_decide (r.(cw_source_provider) = c.(cp_source_provider)))
  end.
(** [record_campaign] *)
Definition record_campaign (c : NseValidationCampaign) : M NseProcess unit :=
  nse_transaction (
    _ ← in_registry statement;
    s ← get_state;
    row ← lift (campaign_row c);
    _ ← lift (check ((730 <=? row.(cw_minimum_history_days)) && bool_decide (row.(cw_source_provider) = DHAN) &&
                     (instant row.(cw_requested_start) <? instant row.(cw_requested_end))));
    _ ← (if has_key cw_campaign_id s.(np_campaigns) row.(cw_campaign_id) then mret () else modify (set_campaigns (s.(np_campaigns) ++ [row])));
    _ ← in_registry statement;
    s ← get_state;
    lift (raise_if (campaign_differs (List.find (fun r => r.(cw_campaign_id) ==p c.(cp_campaign_id)) s.(np_campaigns)) c)
           (ValueError "NSE validation campaigns are immutable"))).

Definition readiness_row (r : NseReadinessEvidence) : result NseReadinessEvidence :=
  _ ← int4 r.(rd_history_days);
  mret {| rd_readiness_id := r.(rd_readiness_id); rd_campaign_id := r.(rd_campaign_id); rd_symbol := r.(rd_symbol); rd_timeframe := r.(rd_timeframe);
          rd_first_open := timestamptz <$> r.(rd_first_open); rd_last_open := timestamptz <$> r.(rd_last_open);
          rd_settled_count := r.(rd_settled_count); rd_minimum_settled_count := r.(rd_minimum_settled_count); rd_history_days := r.(rd_history_days);
          rd_ready := r.(rd_ready); rd_reasons := r.(rd_reasons); rd_source_fingerprint := r.(rd_source_fingerprint) |}.
Definition same_series (a b : NseReadinessEvidence) : bool :=
  (a.(rd_campaign_id) ==p b.(rd_campaign_id)) && (a.(rd_symbol) ==p b.(rd_symbol)) && (a.(rd_timeframe) ==p b.(rd_timeframe)).
Definition insert_readiness (item : NseReadinessEvidence) : M NseProcess unit :=
  _ ← in_registry statement;
  s ← get_state;
  row ← lift (readiness_row item);
  _ ← lift (check (bool_decide (row.(rd_timeframe) ∈ REQUIRED_NSE_TIMEFRAMES) && (0 <=? row.(rd_settled_count)) &&
                   (0 <=? row.(rd_minimum_settled_count)) && (0 <=? row.(rd_history_days))));
  if has_key rd_readiness_id s.(np_readiness) row.(rd_readiness_id) then mret ()
  else
    _ ← lift (raise_if (existsb (same_series row) s.(np_readiness)) unique_violation);
    _ ← lift (references cw_campaign_id s.(np_campaigns) row.(rd_campaign_id));
    modify (set_readiness (s.(np_readiness) ++ [row])).
(** [record_readiness] *)
Definition record_readiness (evidence : list NseReadinessEvidence) : M NseProcess unit := nse_transaction (for_each evidence insert_readiness).

Definition evidence_row (e : NseStrategyEvidence) : result EvidenceRow :=
  _ ← jsonb_floats (w ← e.(nx_windows); [w.(ww_gross_expectancy); w.(ww_net_expectancy)]);
  _ ← jsonb_floats (cost_floats e.(nx_cost_model));
  mret {| ew_evidence_id := e.(nx_evidence_id); ew_campaign_id := e.(nx_campaign_id);
          ew_validation_run_id := e.(nx_validation).(vr_validation_run_id); ew_strategy_key := identity_key e.(nx_validation).(vr_identity);
          ew_research_state := e.(nx_state); ew_data_fingerprint := e.(nx_data_fingerprint); ew_walk_forward_windows := e.(nx_windows);
          ew_cost_model := e.(nx_cost_model); ew_stressed_net_expectancy := e.(nx_stressed_net_expectancy) |}.
Definition evidence_differs (row : option EvidenceRow) (e : EvidenceRow) : bool :=
  match row with
  | None => true
  | Some r => (r.(ew_campaign_id) !=p e.(ew_campaign_id)) || (r.(ew_validation_run_id) !=p e.(ew_validation_run_id)) ||
      (r.(ew_strategy_key) !=p e.(ew_strategy_key)) || negb (bool_decide (r.(ew_research_state) = e.(ew_research_state))) ||
      (r.(ew_data_fingerprint) !=p e.(ew_data_fingerprint))
  end.
(** [record_strategy_evidence] *)
Definition record_strategy_evidence (evidence : NseStrategyEvidence) : M NseProcess unit :=
  nse_transaction (
    _ ← in_registry statement;
    s ← get_state;
    row ← lift (evidence_row evidence);
    let t := shared s in
    _ ← (if has_key ew_evidence_id t.(rt_evidence) row.(ew_evidence_id) then mret ()
         else
           _ ← lift (raise_if (existsb (fun r => (r.(ew_campaign_id) ==p row.(ew_campaign_id)) && (r.(ew_strategy_key) ==p row.(ew_strategy_key)))
                       t.(rt_evidence)) unique_violation);
           _ ← lift (references cw_campaign_id s.(np_campaigns) row.(ew_campaign_id));
           _ ← lift (references vw_validation_run_id t.(rt_validations) row.(ew_validation_run_id));
           _ ← lift (references df_strategy_key t.(rt_definitions) row.(ew_strategy_key));
           in_registry (reg_tables (modify (fun t => set_evidence_rows (t.(rt_evidence) ++ [row]) t))));
    _ ← in_registry statement;
    s ← get_state;
    lift (raise_if (evidence_differs (List.find (fun r => r.(ew_evidence_id) ==p row.(ew_evidence_id)) (shared s).(rt_evidence)) row)
           (ValueError "NSE strategy evidence is immutable"))).

(** [PromotionTarget] *)
Record PromotionTarget := {
  tg_evidence_id : string;
  tg_validation_run_id : string;
  tg_identity : StrategyIdentity;
  tg_state : ResearchState;
  tg_passed : bool }.
Definition target_rows (evidence_id : string) (t : RegistryTables) : list (EvidenceRow * ValidationRow * DefinitionRow) :=
  e ← List.filter (fun e => e.(ew_evidence_id) ==p evidence_id) t.(rt_evidence);
  v ← List.filter (fun v => v.(vw_validation_run_id) ==p e.(ew_validation_run_id)) t.(rt_validations);
  d ← List.filter (fun d => d.(df_strategy_key) ==p e.(ew_strategy_key)) t.(rt_definitions);
  [(e, v, d)].
(** [promotion_target] *)
Definition promotion_target (evidence_id : string) : M NseProcess PromotionTarget :=
  _ ← in_registry statement;
  _ ← in_registry statement;
  s ← get_state;
  match target_rows evidence_id (shared s) with
  | [] => raise (LookupError "NSE strategy evidence does not exist")
  | (e, v, d) :: _ =>
      identity ← lift (identity_from_row d);
      mret {| tg_evidence_id := e.(ew_evidence_id); tg_validation_run_id := e.(ew_validation_run_id); tg_identity := identity;
              tg_state := e.(ew_research_state); tg_passed := v.(vw_passed) |}
  end.

(** [FROM research.nse_strategy_evidence e JOIN research.validation_runs v ... JOIN research.strategy_approvals a ... WHERE ...] *)
Definition linked (evidence_id approval_id : string) (t : RegistryTables) : list (EvidenceRow * ValidationRow * ApprovalRow) :=
  e ← List.filter (fun e => (e.(ew_evidence_id) ==p evidence_id) && bool_decide (e.(ew_research_state) = RESEARCH)) t.(rt_evidence);
  v ← List.filter (fun v => (v.(vw_validation_run_id) ==p e.(ew_validation_run_id)) && v.(vw_passed)) t.(rt_validations);
  a ← List.filter (fun a => (a.(aw_approval_id) ==p approval_id) && (a.(aw_validation_run_id) ==p e.(ew_validation_run_id)) &&
        (a.(aw_strategy_key) ==p e.(ew_strategy_key)) && bool_decide (a.(aw_state) = APPROVED)) t.(rt_approvals);
  [(e, v, a)].
Definition insert_promotion (row : PromotionRow) : M NseProcess unit :=
  s ← get_state;
  if has_key pw_promotion_id s.(np_promotions) row.(pw_promotion_id) then mret ()
  else
    _ ← lift (unique pw_evidence_id s.(np_promotions) row.(pw_evidence_id));
    _ ← lift (unique pw_approval_id s.(np_promotions) row.(pw_approval_id));
    modify (set_promotions (s.(np_promotions) ++ [row])).
Definition promotion_differs (row : option PromotionRow) (p : PromotionRow) (promoted_at : datetime) : bool :=
  match row with
  | None => true
  | Some r => (r.(pw_evidence_id) !=p p.(pw_evidence_id)) || (r.(pw_approval_id) !=p p.(pw_approval_id)) || (r.(pw_reviewed_by) !=p p.(pw_reviewed_by)) ||
      (r.(pw_review_reason) !=p p.(pw_review_reason)) || (r.(pw_promoted_at) !=p promoted_at)
  end.
(** [record_promotion] *)
Definition record_promotion (evidence_id approval_id reviewed_by reason : string) (promoted_at : datetime) : M NseProcess string :=
  let promotion_id := stable_id [evidence_id; approval_id; reviewed_by; isoformat promoted_at] in
  let row := {| pw_promotion_id := promotion_id; pw_evidence_id := evidence_id; pw_approval_id := approval_id; pw_reviewed_by := reviewed_by;
                pw_review_reason := reason; pw_promoted_at := timestamptz promoted_at |} in
  nse_transaction (
    _ ← in_registry statement;
    s ← get_state;
    _ ← for_each (linked evidence_id approval_id (shared s)) (fun _ => insert_promotion row);
    _ ← in_registry statement;
    s ← get_state;
    _ ← lift (raise_if (promotion_differs (List.find (fun r => r.(pw_promotion_id) ==p promotion_id) s.(np_promotions)) row promoted_at)
               (PermissionError "promotion linkage is missing or immutable"));
    mret promotion_id).

(** ** Reads *)

(** The columns of [research.nse_strategy_validation_read]; those of a
    definition are the definition, those of the evidence, the run and the
    approval are null together. *)
Record StrategyRead := {
  sv_definition : DefinitionRow;
  sv_evidence : option EvidenceRow;
  sv_validation : option ValidationRow;
  sv_approval : option ApprovalRow;
  sv_lifecycle_state : string }.
(** [ORDER BY created_at DESC LIMIT 1]: the rows are in the order of their creation *)
Definition latest_evidence (t : RegistryTables) (key : string) : option EvidenceRow :=
  last (List.filter (fun e => e.(ew_strategy_key) ==p key) t.(rt_evidence)).
(** [ORDER BY (in force) DESC, approved_at DESC LIMIT 1] of the promoted approvals *)
Definition approval_first (now : datetime) (a b : ApprovalRow) : bool :=
  if Bool.eqb (in_force now a) (in_force now b) then instant b.(aw_approved_at) <? instant a.(aw_approved_at) else in_force now a.
Definition shown_approval (now : datetime) (s : NseProcess) (key : string) : option ApprovalRow :=
  head (py_sorted (approval_first now)
    (a ← List.filter (fun a => a.(aw_strategy_key) ==p key) (shared s).(rt_approvals);
     p ← List.filter (fun p => p.(pw_approval_id) ==p a.(aw_approval_id)) s.(np_promotions);
     [a])).
Definition strategy_read (now : datetime) (s : NseProcess) (d : DefinitionRow) : StrategyRead :=
  let e := latest_evidence (shared s) d.(df_strategy_key) in
  let a := shown_approval now s d.(df_strategy_key) in {|
  sv_definition := d;
  sv_evidence := e;
  sv_validation := e ← e; List.find (fun v => v.(vw_validation_run_id) ==p e.(ew_validation_run_id)) (shared s).(rt_validations);
  sv_approval := a;
  sv_lifecycle_state :=
    if match a with Some a => in_force now a | None => false end then "PAPER_APPROVED"
    else match e with Some e => if bool_decide (e.(ew_research_state) = FAILED) then "FAILED" else "RESEARCH" | None => "RESEARCH" end |}.

(** [column=%s], when a value is given *)
Definition given (filter : option string) (value : string) : bool := match filter with Some x => value ==p x | None => true end.
(** [ORDER BY evaluated_at DESC NULLS LAST,strategy_id,timeframe] *)
Definition read_before (a b : StrategyRead) : bool :=
  let rest := str_then a.(sv_definition).(df_identity).(si_strategy_id) b.(sv_definition).(df_identity).(si_strategy_id)
                (str_ltb a.(sv_definition).(df_identity).(si_timeframe) b.(sv_definition).(df_identity).(si_timeframe)) in
  match a.(sv_validation), b.(sv_validation) with
  | Some v, Some w => (instant w.(vw_evaluated_at) <? instant v.(vw_evaluated_at)) || ((instant w.(vw_evaluated_at) =? instant v.(vw_evaluated_at)) && rest)
  | Some _, None => true
  | None, Some _ => false
  | None, None => rest
  end.
(** [LIMIT %s OFFSET %s] *)
Definition page_of {A} (limit offset : Z) (rows : list A) : list A := take (Z.to_nat limit) (drop (Z.to_nat offset) rows).
(** [_page] *)
Definition page_check (limit offset : Z) : result unit :=
  raise_if (negb ((1 <=? limit) && (limit <=? 500)) || (offset <? 0)) (ValueError "limit must be 1..500 and offset must be non-negative").
(** [strategies] of the service and of the store *)
Definition strategies (now : datetime) (strategy_id timeframe lifecycle_state : option string) (limit offset : Z) : M NseProcess (list StrategyRead) :=
  _ ← lift (page_check limit offset);
  _ ← in_registry statement;
  _ ← in_registry statement;
  s ← get_state;
  mret (page_of limit offset (py_sorted read_before (List.filter (fun r =>
      given strategy_id r.(sv_definition).(df_identity).(si_strategy_id) && given timeframe r.(sv_definition).(df_identity).(si_timeframe) &&
      given lifecycle_state r.(sv_lifecycle_state))
    (strategy_read now s <$> List.filter (fun d => d.(df_identity).(si_market) ==p NSE) (shared s).(rt_definitions))))).

(** [research.nse_backtest_read]: evidence with its campaign, run and definition *)
Definition BacktestRead : Type := EvidenceRow * CampaignRow * ValidationRow * DefinitionRow.
Definition backtest_rows (s : NseProcess) : list BacktestRead :=
  e ← (shared s).(rt_evidence);
  c ← List.filter (fun c => c.(cw_campaign_id) ==p e.(ew_campaign_id)) s.(np_campaigns);
  v ← List.filter (fun v => v.(vw_validation_run_id) ==p e.(ew_validation_run_id)) (shared s).(rt_validations);
  d ← List.filter (fun d => d.(df_strategy_key) ==p e.(ew_strategy_key)) (shared s).(rt_definitions);
  [(e, c, v, d)].
Definition research_value (r : ResearchState) : string := match r with RESEARCH => "RESEARCH" | FAILED => "FAILED" end.
(** [ORDER BY evaluated_at DESC,strategy_id,timeframe] *)
Definition backtest_before (a b : BacktestRead) : bool :=
  let '(_, c1, _, d1) := a in let '(_, c2, _, d2) := b in
  (instant c2.(cw_evaluated_at) <? instant c1.(cw_evaluated_at)) ||
  ((instant c2.(cw_evaluated_at) =? instant c1.(cw_evaluated_at)) &&
   str_then d1.(df_identity).(si_strategy_id) d2.(df_identity).(si_strategy_id) (str_ltb d1.(df_identity).(si_timeframe) d2.(df_identity).(si_timeframe))).
(** [backtests] of the service and of the store *)
Definition backtests (strategy_id timeframe research_state : option string) (limit offset : Z) : M NseProcess (list BacktestRead) :=
  _ ← lift (page_check limit offset);
  _ ← in_registry statement;
  _ ← in_registry statement;
  s ← get_state;
  mret (page_of limit offset (py_sorted backtest_before (List.filter (fun '(e, _, _, d) =>
      given strategy_id d.(df_identity).(si_strategy_id) && given timeframe d.(df_identity).(si_timeframe) &&
      given research_state (research_value e.(ew_research_state))) (backtest_rows s)))).

(** ** NseValidationService *)

(** [validate]: the body of its loop *)
Definition validate_plugin (campaign : NseValidationCampaign) (candles : list SettledCandle) (readiness : list NseReadinessEvidence)
    (plugin : StrategyPlugin) : M NseProcess NseStrategyEvidence :=
  _ ← in_registry (durable_register plugin.(pl_definition));
  item ← lift (evaluate_nse_strategy campaign plugin candles readiness);
  _ ← in_registry (durable_record_validation item.(nx_validation));
  _ ← record_strategy_evidence item;
  mret item.
Definition validate (campaign : NseValidationCampaign) (plugins : list StrategyPlugin) : M NseProcess (list NseStrategyEvidence) :=
  start ← lift (dt_add campaign.(cp_requested_start) (- (30 * day)));
  candles ← load_candles campaign.(cp_symbols) campaign.(cp_config).(nv_required_timeframes) start campaign.(cp_requested_end);
  _ ← record_campaign campaign;
  readiness ← lift (evaluate_nse_readiness campaign candles);
  _ ← record_readiness readiness;
  map_each plugins (validate_plugin campaign candles readiness).

(** [promote] *)
Definition promote (evidence_id reviewed_by reason : string) (approved_at expires_at : datetime) : M NseProcess StrategyApproval :=
  _ ← lift (raise_if (str_blank reviewed_by || str_blank reason) (ValueError "reviewed_by and reason are required"));
  target ← promotion_target evidence_id;
  _ ← lift (raise_if (negb (bool_decide (target.(tg_state) = RESEARCH)) || negb target.(tg_passed))
             (PermissionError "only passing RESEARCH evidence can be paper-approved"));
  approval ← lift (StrategyApproval_create target.(tg_identity) target.(tg_validation_run_id) approved_at expires_at reviewed_by reason);
  _ ← in_registry (durable_record_approval approval);
  _ ← record_promotion evidence_id approval.(sa_approval_id) reviewed_by reason approved_at;
  mret approval.

(** [_nse_plugins] of validation/runner.py *)
Definition nse_plugins : result (list StrategyPlugin) :=
  technical ← technical_strategies;
  let nse := List.filter (fun p => p.(pl_definition).(sd_identity).(si_market) ==p NSE)
               (imap (fun i t => technical_plugin (Z.of_nat i) t) technical) in
  _ ← raise_if (negb (same_set ((fun p => p.(pl_definition).(sd_identity).(si_strategy_id)) <$> nse)
                               ["vwap_pullback"; "ema_rsi_continuation"; "supertrend_adx"]))
        (RuntimeError "the exact three NSE technical strategies were not found");
  mret nse.

(** ** What a call may do to the tables *)

Section Preserved.
(** Relations of the shared tables and of the promotions. *)
Context (R : RegistryTables -> RegistryTables -> Prop) `{!PreOrder R}.
Context (P : list PromotionRow -> list PromotionRow -> Prop) `{!PreOrder P}.
Definition on_shared (s s' : NseProcess) : Prop := R (shared s) (shared s') /\ P s.(np_promotions) s'.(np_promotions).
#[local] Instance on_shared_preorder : PreOrder on_shared.
Proof. split; [intros s; split; reflexivity|]. intros a b c [H1 P1] [H2 P2]. split; by etransitivity. Qed.

Lemma in_registry_shared {A} (m : M RegistryProcess A) : preserves (on_tables R) m -> preserves on_shared (in_registry m).
Proof.
  intros H s. specialize (H s.(np_registry)). unfold in_registry, zoom, on_shared, shared. destruct (m _). split; [exact H|simpl; reflexivity].
Qed.
Lemma nse_statement_shared : preserves on_shared (in_registry statement).
Proof. apply in_registry_shared, statement_tables; typeclasses eauto. Qed.
Lemma nse_transaction_shared {A} (m : M NseProcess A) : preserves on_shared m -> preserves on_shared (nse_transaction m).
Proof.
  intros H s. unfold nse_transaction.
  assert (Hm : preserves on_shared (_ ← in_registry statement; a ← m; _ ← in_registry statement; mret a))
    by (preserve; first [apply nse_statement_shared|exact H]).
  specialize (Hm s). destruct ((_ ← in_registry statement; _) s) as [[a|e] s']; [exact Hm|]. split; unfold shared; simpl; reflexivity.
Qed.
Lemma set_rows_shared f : (forall s, shared (f s) = shared s /\ (f s).(np_promotions) = s.(np_promotions)) -> preserves on_shared (modify f).
Proof. intros H s. simpl. destruct (H s) as [E E']. split; [rewrite E|rewrite E']; reflexivity. Qed.

Lemma record_campaign_shared c : preserves on_shared (record_campaign c).
Proof.
  apply nse_transaction_shared. preserve; first [apply nse_statement_shared|apply set_rows_shared; done].
Qed.
Lemma record_readiness_shared l : preserves on_shared (record_readiness l).
Proof.
  apply nse_transaction_shared. preserve. unfold insert_readiness. preserve; first [apply nse_statement_shared|apply set_rows_shared; done].
Qed.
Lemma load_candles_shared a b c d : preserves on_shared (load_candles a b c d).
Proof. unfold load_candles. preserve; apply nse_statement_shared. Qed.
Lemma promotion_target_shared e : preserves on_shared (promotion_target e).
Proof. unfold promotion_target. preserve; apply nse_statement_shared. Qed.
Lemma record_evidence_shared e : (forall row, preserves R (modify (fun t => set_evidence_rows (t.(rt_evidence) ++ [row]) t))) ->
  preserves on_shared (record_strategy_evidence e).
Proof.
  intros He. apply nse_transaction_shared. preserve; cbv zeta; preserve; first [apply nse_statement_shared|apply in_registry_shared, reg_tables_preserves, He].
Qed.

Lemma validate_shared campaign plugins :
  (forall d, preserves R (insert_definition d)) -> (forall v, preserves R (insert_validation v)) ->
  (forall row, preserves R (modify (fun t => set_evidence_rows (t.(rt_evidence) ++ [row]) t))) ->
  preserves on_shared (validate campaign plugins).
Proof.
  intros Hd Hv He. unfold validate. preserve; [apply load_candles_shared|apply record_campaign_shared|apply record_readiness_shared|].
  unfold validate_plugin. preserve; [|apply in_registry_shared|by apply record_evidence_shared].
  - apply in_registry_shared, (durable_run_tables R (OpRegister _)), Hd.
  - apply (durable_run_tables R (OpRecordValidation _)), Hv.
Qed.

Lemma insert_promotion_shared row : (forall rows, P rows (rows ++ [row])) -> preserves on_shared (insert_promotion row).
Proof.
  intros H s. unfold insert_promotion, mbind, M_bind, get_state, lift. destruct (has_key _ _ _); [reflexivity|].
  destruct (unique pw_evidence_id _ _); [|reflexivity]. destruct (unique pw_approval_id _ _); [|reflexivity]. split; [unfold shared; simpl; reflexivity|apply H].
Qed.
Lemma promote_shared e by_ reason at_ exp : (forall rows row, P rows (rows ++ [row])) -> (forall a, preserves R (upsert_approval a)) ->
  preserves on_shared (promote e by_ reason at_ exp).
Proof.
  intros HP Ha. unfold promote. preserve; [apply promotion_target_shared| |].
  - apply in_registry_shared, (durable_run_tables R (OpRecordApproval _)), Ha.
  - apply nse_transaction_shared. preserve; first [apply nse_statement_shared|by apply insert_promotion_shared].
Qed.
End Preserved.

(** A campaign grants nothing: whatever it does and however it ends, the
    approvals and the promotions are as they were. *)
Theorem validation_grants_nothing campaign plugins s :
  let s' := (validate campaign plugins s).2 in
  (shared s').(rt_approvals) = (shared s).(rt_approvals) /\ s'.(np_promotions) = s.(np_promotions).
Proof.
  set (R := fun t t' : RegistryTables => t'.(rt_approvals) = t.(rt_approvals)).
  assert (PreOrder R) by (split; [by intros t|]; intros a b c H1 H2; unfold R in *; congruence).
  set (P := fun p p' : list PromotionRow => p' = p).
  assert (PreOrder P) by (split; [by intros t|]; intros a b c H1 H2; unfold P in *; congruence).
  apply (validate_shared R P campaign plugins).
  - intros d. unfold insert_definition. preserve; by intros t.
  - intros v. unfold insert_validation. preserve; by intros t.
  - intros row t. done.
Qed.

(** ** Approvals of the technical strategies *)

(** The approvals refer to definitions, and those in force of the three
    technical strategies have passing evidence. *)
Definition evidenced (t : RegistryTables) : Prop :=
  Forall (fun a => a.(aw_strategy_key) ∈ df_strategy_key <$> t.(rt_definitions) /\
    (a.(aw_state) = APPROVED -> existsb (fun d => (d.(df_strategy_key) ==p a.(aw_strategy_key)) && nse_technical d) t.(rt_definitions) = true ->
     has_evidence t a = true)) t.(rt_approvals).
Definition keeps_evidenced (t t' : RegistryTables) : Prop := evidenced t -> evidenced t'.
#[export] Instance keeps_evidenced_preorder : PreOrder keeps_evidenced.
Proof. split; [intros t Ht; exact Ht|]. intros a b c Hab Hbc Ha. by apply Hbc, Hab. Qed.

Lemma require_evidence_ok t a : require_evidence t a = Ok () -> a.(aw_state) = APPROVED ->
  existsb (fun d => (d.(df_strategy_key) ==p a.(aw_strategy_key)) && nse_technical d) t.(rt_definitions) = true -> has_evidence t a = true.
Proof.
  unfold require_evidence. rewrite raise_if_ok. intros H Ha Hd. rewrite Ha, Hd in H. simpl in H. by apply negb_false_iff in H.
Qed.
Lemma has_evidence_more t t' a : t.(rt_validations) ⊆ t'.(rt_validations) -> t.(rt_evidence) ⊆ t'.(rt_evidence) ->
  has_evidence t a = true -> has_evidence t' a = true.
Proof.
  intros Hv He H. unfold has_evidence in *. apply existsb_true_elem in H as (e & Hin & H). apply existsb_true_elem. exists e. split; [by apply He|].
  apply andb_prop in H as [H Hx]. rewrite H. simpl. apply existsb_true_elem in Hx as (v & Hvin & Hv'). apply existsb_true_elem. exists v.
  split; [by apply Hv|done].
Qed.
Lemma evidenced_more t t' : evidenced t -> t'.(rt_approvals) = t.(rt_approvals) -> t'.(rt_definitions) = t.(rt_definitions) ->
  t.(rt_validations) ⊆ t'.(rt_validations) -> t.(rt_evidence) ⊆ t'.(rt_evidence) -> evidenced t'.
Proof.
  intros H Ea Ed Hv He. unfold evidenced. rewrite Ea, Ed. eapply Forall_impl; [exact H|]. intros a [Hk Hev]. split; [done|].
  intros H1 H2. eapply has_evidence_more; [done..|]. by apply Hev.
Qed.

Lemma insert_definition_evidenced d : preserves keeps_evidenced (insert_definition d).
Proof.
  intros t Ht. unfold insert_definition, mbind, M_bind, get_state, lift. destruct (definition_row d) as [row|e]; [|done].
  destruct (check _); [|done]. destruct (has_key _ _ _) eqn:Ek; [done|]. destruct (raise_if _ _); [|done]. simpl. apply has_key_false in Ek.
  eapply Forall_impl; [exact Ht|]. intros r [Hk Hev]. simpl. split; [rewrite fmap_app; apply elem_of_app; by left|]. intros Ha Hd.
  apply (has_evidence_more t); [done|done|]. apply Hev; [done|]. rewrite existsb_app in Hd. apply orb_prop in Hd as [Hd|Hd]; [done|].
  simpl in Hd. rewrite orb_false_r in Hd. apply andb_prop in Hd as [Hd _]. apply (proj1 (py_eq_true _ _)) in Hd. exfalso. apply Ek. by rewrite Hd.
Qed.
Lemma insert_validation_evidenced v : preserves keeps_evidenced (insert_validation v).
Proof.
  intros t Ht. unfold insert_validation, mbind, M_bind, get_state, lift. destruct (validation_row v) as [row|e]; [|done].
  destruct (has_key _ _ _); [done|]. destruct (references _ _ _); [|done]. simpl. apply (evidenced_more t); [done|done|done| |done].
  simpl. intros x Hx. apply elem_of_app. by left.
Qed.
Lemma insert_evidence_evidenced row : preserves keeps_evidenced (modify (fun t => set_evidence_rows (t.(rt_evidence) ++ [row]) t)).
Proof. intros t Ht. apply (evidenced_more t); [done|done|done|done|]. simpl. intros x Hx. apply elem_of_app. by left. Qed.
Lemma upsert_evidenced a : preserves keeps_evidenced (upsert_approval a).
Proof.
  intros t Ht. destruct (upsert_approval a t) as [[[]|e] t'] eqn:E; [|by apply upsert_raises in E as ->]. apply upsert_ok in E.
  pose proof Ht as F. unfold evidenced in F. rewrite Forall_forall in F.
  destruct E as [old Ho Hi Hr Ha|old Ho Hi Hs He|Hnew He Hd Hv]; [done| |]; unfold evidenced; cbn [rt_approvals rt_definitions set_approval_rows snd].
  - apply Forall_forall. intros r (x & Hx & ->)%update_where_elem. destruct (_ ==p _) eqn:Ex; [|exact (F x Hx)].
    split; [exact (proj1 (F old Ho))|]. intros Hst Hd. by apply (require_evidence_ok t).
  - apply Forall_app. split; [exact Ht|]. apply Forall_singleton. split; [done|]. intros Hst Hde. by apply (require_evidence_ok t).
Qed.
Lemma durable_run_evidenced op : preserves (on_tables keeps_evidenced) (durable_run op).
Proof.
  apply durable_run_tables; [typeclasses eauto|].
  destruct op; [apply insert_definition_evidenced|apply insert_validation_evidenced|apply upsert_evidenced|exact upsert_evidenced].
Qed.

(** *** Any calls of any processes *)

Inductive NseOp :=
| NseRegistry (op : RegistryOp)
| NseValidate (campaign : NseValidationCampaign) (plugins : list StrategyPlugin)
| NsePromote (evidence_id reviewed_by reason : string) (approved_at expires_at : datetime).
Definition nse_run (op : NseOp) (s : NseProcess) : NseProcess :=
  match op with
  | NseRegistry op => (in_registry (durable_run op) s).2
  | NseValidate campaign plugins => (validate campaign plugins s).2
  | NsePromote e by_ reason at_ exp => (promote e by_ reason at_ exp s).2
  end.
(** The tables, seen by a process with its own dicts and failures to come. *)
Definition seen_by (c : StrategyRegistry) (fs : list (option string)) (s : NseProcess) : NseProcess := {|
  np_registry := {| rp_tables := shared s; rp_cache := c; rp_faults := fs |}; np_campaigns := s.(np_campaigns); np_readiness := s.(np_readiness);
  np_promotions := s.(np_promotions); np_candles := s.(np_candles) |}.
Inductive nse_reachable : NseProcess -> Prop :=
| nse_start s : (shared s).(rt_approvals) = [] -> nse_reachable s
| nse_call s op c fs : nse_reachable s -> nse_reachable (nse_run op (seen_by c fs s)).

Lemma nse_reachable_evidenced s : nse_reachable s -> evidenced (shared s).
Proof.
  induction 1 as [s Hs|s op c fs _ IH]; [unfold evidenced; rewrite Hs; constructor|].
  set (P := fun _ _ : list PromotionRow => True). assert (PreOrder P) by by split. set (s1 := seen_by c fs s). change (shared s) with (shared s1) in IH.
  destruct op as [op|campaign plugins|e by_ reason at_ exp]; simpl.
  - pose proof (in_registry_shared keeps_evidenced P (durable_run op) (durable_run_evidenced op) s1) as [H1 _]. by apply H1.
  - pose proof (validate_shared keeps_evidenced P campaign plugins insert_definition_evidenced insert_validation_evidenced insert_evidence_evidenced s1)
      as [H1 _]. by apply H1.
  - pose proof (promote_shared keeps_evidenced P e by_ reason at_ exp (fun _ _ => I) upsert_evidenced s1) as [H1 _]. by apply H1.
Qed.

(** C25. No paper approval without research: from tables without approvals,
    whatever is called, by whatever processes and with whatever failures, an approval in force of one of the
    three NSE technical strategies has, in the tables, evidence of a campaign
    for that very strategy and validation run, which the campaign did not fail
    and whose validation passed. *)
Theorem technical_approvals_evidenced s a d : nse_reachable s ->
  a ∈ (shared s).(rt_approvals) -> a.(aw_state) = APPROVED ->
  d ∈ (shared s).(rt_definitions) -> d.(df_strategy_key) = a.(aw_strategy_key) -> nse_technical d = true ->
  exists e v, e ∈ (shared s).(rt_evidence) /\ e.(ew_strategy_key) = a.(aw_strategy_key) /\ e.(ew_validation_run_id) = a.(aw_validation_run_id) /\
    e.(ew_research_state) = RESEARCH /\ v ∈ (shared s).(rt_validations) /\ v.(vw_validation_run_id) = a.(aw_validation_run_id) /\ v.(vw_passed) = true.
Proof.
  intros Hs%nse_reachable_evidenced Ha Hst Hd Hk Ht. unfold evidenced in Hs. rewrite Forall_forall in Hs. destruct (Hs a Ha) as [_ H].
  specialize (H Hst). unfold has_evidence in H. rewrite !existsb_true_elem in H.
  destruct H as (e & He & Hx); [exists d; split; [done|]; by rewrite Ht, Hk, py_refl_leibniz|].
  apply andb_prop in Hx as [Hx Hv]. apply andb_prop in Hx as [Hx Hr%bool_decide_eq_true]. apply andb_prop in Hx as [Hek Her].
  apply (proj1 (py_eq_true _ _)) in Hek. apply (proj1 (py_eq_true _ _)) in Her.
  apply existsb_true_elem in Hv as (v & Hv & [Hvk Hvp]%andb_prop). apply (proj1 (py_eq_true _ _)) in Hvk. exists e, v. split_and!; congruence || done.
Qed.

(** ** Promotion *)

(** A recorded approval is in the table, equal to what was recorded. *)
Lemma durable_record_approval_persisted a s s' : durable_record_approval a s = (Ok (), s') ->
  exists x d a', x ∈ s'.(rp_tables).(rt_approvals) /\ d ∈ s'.(rp_tables).(rt_definitions) /\ d.(df_strategy_key) = x.(aw_strategy_key) /\
    approval_from_row x d = Ok a' /\ a' ==p a = true.
Proof.
  intros (s1 & s2 & H & _ & _ & Ht' & _)%registry_transaction_ok. do 6 apply M_bind_ok in H as (? & ? & _ & H).
  apply M_bind_ok in H as (a' & s9 & [Ht9 (row & def & rest & Hrows & Hfrom)]%load_approval_ok & H).
  apply M_bind_ok in H as ([] & s10 & [Hne%raise_if_ok ->]%lift_ok & [_ Ht10]%in_cache_ok).
  assert (Hin : (row, def) ∈ (row, def) :: rest) by (by left). rewrite <- Hrows in Hin. apply approval_rows_elem in Hin as ((Hx & _) & Hd & Hk).
  rewrite Ht', Ht10, Ht9. exists row, def, a'. split_and!; [done..|]. unfold py_ne in Hne. by apply negb_false_iff in Hne.
Qed.

Definition only_approvals (t t' : RegistryTables) : Prop :=
  t'.(rt_definitions) = t.(rt_definitions) /\ t'.(rt_validations) = t.(rt_validations) /\ t'.(rt_evidence) = t.(rt_evidence).
#[export] Instance only_approvals_preorder : PreOrder only_approvals.
Proof. split; [by intros t|]. intros a b c (?&?&?) (?&?&?). split_and!; congruence. Qed.
Lemma upsert_only_approvals a : preserves only_approvals (upsert_approval a).
Proof.
  intros t. destruct (upsert_approval a t) as [[[]|e] t'] eqn:E; [|by apply upsert_raises in E as ->]. apply upsert_ok in E. by destruct E.
Qed.

Lemma in_registry_ok {A} (m : M RegistryProcess A) s a s' : in_registry m s = (Ok a, s') ->
  m s.(np_registry) = (Ok a, s'.(np_registry)) /\ s'.(np_promotions) = s.(np_promotions).
Proof. unfold in_registry, zoom. destruct (m _). by intros [= -> <-]. Qed.
Lemma nse_statement_ok s u s' : in_registry statement s = (Ok u, s') -> shared s' = shared s /\ s'.(np_promotions) = s.(np_promotions).
Proof. intros [[H _]%statement_ok Hp]%in_registry_ok. done. Qed.
Lemma nse_transaction_ok {A} (m : M NseProcess A) s a s' : nse_transaction m s = (Ok a, s') ->
  exists s1 s2, m s1 = (Ok a, s2) /\ shared s1 = shared s /\ s1.(np_promotions) = s.(np_promotions) /\ shared s' = shared s2 /\ s'.(np_promotions) = s2.(np_promotions).
Proof.
  unfold nse_transaction. intros H. destruct ((_ ← in_registry statement; _) s) as [[x|e] s3] eqn:E; [|done]. injection H as -> ->.
  apply M_bind_ok in E as ([] & s1 & [? ?]%nse_statement_ok & E). apply M_bind_ok in E as (y & s2 & Hm & E).
  apply M_bind_ok in E as ([] & s4 & [? ?]%nse_statement_ok & [= <- <-]). by exists s1, s2.
Qed.
Lemma record_promotion_ok e a by_ reason at_ s id s' : record_promotion e a by_ reason at_ s = (Ok id, s') ->
  shared s' = shared s /\ exists p, p ∈ s'.(np_promotions) /\ p.(pw_evidence_id) = e /\ p.(pw_approval_id) = a /\ p.(pw_reviewed_by) = by_ /\
    p.(pw_review_reason) = reason.
Proof.
  intros (s1 & s2 & H & Hs1 & _ & Hs' & Hp')%nse_transaction_ok. apply M_bind_ok in H as ([] & s3 & [Hs3 _]%nse_statement_ok & H).
  apply M_bind_ok in H as (? & ? & [= <- <-] & H). apply M_bind_ok in H as ([] & s4 & Hf & H).
  assert (Hs4 : shared s4 = shared s3).
  { set (P := fun _ _ : list PromotionRow => True). assert (PreOrder P) by by split.
    set (R := fun t t' : RegistryTables => t' = t). assert (PreOrder R) by (split; [by intros t|]; intros x y z H1 H2; unfold R in *; congruence).
    pose proof (on_shared_preorder R P) as Hpre.
    assert (Hpres : preserves (on_shared R P) (for_each (linked e a (shared s3)) (fun _ => insert_promotion
      {| pw_promotion_id := stable_id [e; a; by_; isoformat at_]; pw_evidence_id := e; pw_approval_id := a; pw_reviewed_by := by_;
         pw_review_reason := reason; pw_promoted_at := timestamptz at_ |}))).
    { preserve. by apply insert_promotion_shared. }
    by destruct (preserves_run _ _ _ _ _ Hpres Hf) as [? _]. }
  apply M_bind_ok in H as ([] & s5 & [Hs5 Hp5]%nse_statement_ok & H). apply M_bind_ok in H as (? & ? & [= <- <-] & H).
  apply M_bind_ok in H as ([] & ? & [Hd%raise_if_ok ->]%lift_ok & [= <- <-]). split; [congruence|].
  destruct (List.find _ _) as [p|] eqn:Ep; [|done]. apply find_elem in Ep as [Hp _]. simpl in Hd. rewrite !orb_false_iff in Hd.
  destruct Hd as ((((D1 & D2) & D3) & D4) & _). exists p. rewrite Hp'. split; [done|].
  split_and!; [by apply (proj1 (py_ne_false _ _)) in D1|by apply (proj1 (py_ne_false _ _)) in D2|by apply (proj1 (py_ne_false _ _)) in D3
              |by apply (proj1 (py_ne_false _ _)) in D4].
Qed.
Lemma nse_transaction_err {A} (m : M NseProcess A) s e s' : nse_transaction m s = (Err e, s') -> s'.(np_promotions) = s.(np_promotions).
Proof. unfold nse_transaction. destruct ((_ ← in_registry statement; _) s) as [[x|e'] s3]; [done|]. by intros [= _ <-]. Qed.

Lemma promotion_target_ok e s g s' : promotion_target e s = (Ok g, s') -> shared s' = shared s /\ s'.(np_promotions) = s.(np_promotions) /\
  exists ev v d, ev ∈ (shared s).(rt_evidence) /\ ev.(ew_evidence_id) = e /\ v ∈ (shared s).(rt_validations) /\
    v.(vw_validation_run_id) = ev.(ew_validation_run_id) /\ d ∈ (shared s).(rt_definitions) /\ d.(df_strategy_key) = ev.(ew_strategy_key) /\
    g.(tg_identity) = d.(df_identity) /\ g.(tg_validation_run_id) = ev.(ew_validation_run_id) /\ g.(tg_state) = ev.(ew_research_state) /\
    g.(tg_passed) = v.(vw_passed).
Proof.
  unfold promotion_target. intros H. apply M_bind_ok in H as ([] & s1 & [H1 P1]%nse_statement_ok & H).
  apply M_bind_ok in H as ([] & s2 & [H2 P2]%nse_statement_ok & H). apply M_bind_ok in H as (? & ? & [= <- <-] & H).
  destruct (target_rows e (shared s2)) as [|[[ev v] d] rest] eqn:E; [done|]. apply M_bind_ok in H as (i & ? & [Hi ->]%lift_ok & [= <- <-]).
  split; [congruence|]. split; [congruence|]. assert (Hin : (ev, v, d) ∈ target_rows e (shared s2)) by (rewrite E; by left).
  unfold target_rows in Hin. apply list_elem_of_bind in Hin as (ev' & Hin & [He Hek]%filter_elem).
  apply list_elem_of_bind in Hin as (v' & Hin & [Hv Hvk]%filter_elem). apply list_elem_of_bind in Hin as (d' & Hin & [Hd Hdk]%filter_elem).
  apply list_elem_of_singleton in Hin as [= -> -> ->]. apply (proj1 (py_eq_true _ _)) in Hek. apply (proj1 (py_eq_true _ _)) in Hvk.
  apply (proj1 (py_eq_true _ _)) in Hdk. rewrite <- H1, <- H2. exists ev', v', d'. unfold identity_from_row in Hi.
  apply result_bind_ok in Hi as (_ & _ & [= <-]). split_and!; done.
Qed.

(** A promotion that returns an approval was of evidence that is not failed
    and whose validation passed; the approval is in the table, in force, for
    the strategy and the validation of that evidence, and linked to it.  A
    promotion that raises records no promotion. *)
Theorem promotion_grounded evidence_id reviewed_by reason approved_at expires_at s :
  Forall (fun d => d.(df_strategy_key) = identity_key d.(df_identity)) (shared s).(rt_definitions) ->
  match promote evidence_id reviewed_by reason approved_at expires_at s with
  | (Ok a, s') => exists e v row p,
      e ∈ (shared s').(rt_evidence) /\ e.(ew_evidence_id) = evidence_id /\ e.(ew_research_state) = RESEARCH /\
      v ∈ (shared s').(rt_validations) /\ v.(vw_validation_run_id) = e.(ew_validation_run_id) /\ v.(vw_passed) = true /\
      row ∈ (shared s').(rt_approvals) /\ row.(aw_approval_id) = a.(sa_approval_id) /\ row.(aw_state) = APPROVED /\
      row.(aw_strategy_key) = e.(ew_strategy_key) /\ row.(aw_validation_run_id) = e.(ew_validation_run_id) /\
      p ∈ s'.(np_promotions) /\ p.(pw_evidence_id) = evidence_id /\ p.(pw_approval_id) = a.(sa_approval_id) /\
      p.(pw_reviewed_by) = reviewed_by /\ p.(pw_review_reason) = reason
  | (Err _, s') => s'.(np_promotions) = s.(np_promotions)
  end.
Proof.
  intros Hkeys. destruct (promote _ _ _ _ _ s) as [[a|e] s'] eqn:H; unfold promote in H.
  - apply M_bind_ok in H as ([] & ? & [_ ->]%lift_ok & H). apply M_bind_ok in H as (g & s1 & (Hs1 & _ & ev & v & d & He & Hei & Hv & Hvk & Hd & Hdk & G1 & G2 & G3 & G4)%promotion_target_ok & H).
    apply M_bind_ok in H as ([] & ? & [Hg%raise_if_ok ->]%lift_ok & H). apply orb_false_iff in Hg as [Hst%negb_false_iff%bool_decide_eq_true Hp%negb_false_iff].
    apply M_bind_ok in H as (a0 & ? & [Hc ->]%lift_ok & H). apply M_bind_ok in H as ([] & s2 & [Hr _]%in_registry_ok & H).
    apply M_bind_ok in H as (id & s3 & [Hs3 (p & Hpin & Hp1 & Hp2 & Hp3 & Hp4)]%record_promotion_ok & [= <- <-]).
    pose proof (preserves_run _ _ _ _ _ (durable_run_tables only_approvals (OpRecordApproval a0) (upsert_only_approvals a0)) Hr) as (D1 & D2 & D3).
    fold (shared s1) (shared s2) in D1, D2, D3. rewrite Hs1 in D1, D2, D3.
    destruct (durable_record_approval_persisted _ _ _ Hr) as (x & d' & a' & Hx & Hd' & Hxk & Ha'%approval_from_row_inv & Heq). fold (shared s2) in Hx, Hd'.
    unfold StrategyApproval_create in Hc. do 5 apply result_bind_ok in Hc as (? & _ & Hc). injection Hc as <-. subst a'. unfold py_eq at 1, py_eq_StrategyApproval in Heq.
    rewrite !andb_true_iff, !py_eq_true, bool_decide_eq_true in Heq. simpl in Heq.
    destruct Heq as (((((((E1 & E2) & E3) & E4) & _) & _) & _) & _).
    rewrite Forall_forall in Hkeys. rewrite D1 in Hd'. pose proof (Hkeys d' Hd') as K1. pose proof (Hkeys d Hd) as K2.
    exists ev, v, x, p. rewrite Hs3. split_and!; try done; try congruence.
  - apply M_bind_err in H as [[_ ->]%lift_err|([] & ? & [_ ->]%lift_ok & H)]; [done|].
    set (P := fun p p' : list PromotionRow => p' = p).
    assert (PreOrder P) by (split; [by intros t|]; intros x y z H1 H2; unfold P in *; congruence).
    assert (PreOrder (fun _ _ : RegistryTables => True)) by by split.
    apply M_bind_err in H as [H|(g & s1 & (_ & Hs1 & _)%promotion_target_ok & H)].
    { by destruct (preserves_run _ _ _ _ _ (promotion_target_shared (fun _ _ => True) P evidence_id) H) as [_ Hp]. }
    apply M_bind_err in H as [[_ ->]%lift_err|([] & ? & [_ ->]%lift_ok & H)]; [done|].
    apply M_bind_err in H as [[_ ->]%lift_err|(a0 & ? & [_ ->]%lift_ok & H)]; [done|].
    apply M_bind_err in H as [H|([] & s2 & [_ Hs2]%in_registry_ok & H)].
    { unfold in_registry, zoom in H. destruct (durable_record_approval _ _). by injection H as _ <-. }
    apply M_bind_err in H as [H%nse_transaction_err|(id & s3 & _ & [=])]. congruence.
Qed.

(** ** What the reads show *)

Lemma read_statement s u s' : in_registry statement s = (Ok u, s') ->
  shared s' = shared s /\ s'.(np_promotions) = s.(np_promotions) /\ s'.(np_campaigns) = s.(np_campaigns).
Proof.
  intros H. pose proof H as [H1 H2]%nse_statement_ok. split_and!; [done..|]. unfold in_registry, zoom in H. destruct (statement _). by injection H as _ <-.
Qed.
(** A page holds at most its limit, and every strategy on it is an NSE
    strategy that satisfies the filters; one shown as approved for paper has
    an approval in force that a promotion recorded. *)
Theorem strategies_read_sound now strategy_id timeframe lifecycle_state limit offset s rows s' :
  strategies now strategy_id timeframe lifecycle_state limit offset s = (Ok rows, s') ->
  Z.of_nat (length rows) <= limit <= 500 /\
  Forall (fun r => r.(sv_definition) ∈ (shared s).(rt_definitions) /\ r.(sv_definition).(df_identity).(si_market) = NSE /\
    given strategy_id r.(sv_definition).(df_identity).(si_strategy_id) = true /\ given timeframe r.(sv_definition).(df_identity).(si_timeframe) = true /\
    given lifecycle_state r.(sv_lifecycle_state) = true /\
    (r.(sv_lifecycle_state) = "PAPER_APPROVED" -> exists a p, a ∈ (shared s).(rt_approvals) /\ a.(aw_strategy_key) = r.(sv_definition).(df_strategy_key) /\
       in_force now a = true /\ p ∈ s.(np_promotions) /\ p.(pw_approval_id) = a.(aw_approval_id))) rows.
Proof.
  unfold strategies. intros H. apply M_bind_ok in H as ([] & ? & [Hp%raise_if_ok ->]%lift_ok & H).
  apply M_bind_ok in H as ([] & s1 & (Hs1 & Hp1 & _)%read_statement & H). apply M_bind_ok in H as ([] & s2 & (Hs2 & Hp2 & _)%read_statement & H).
  apply M_bind_ok in H as (? & ? & [= <- <-] & [= <- <-]). split; [unfold page_of; rewrite length_take; lia|].
  apply Forall_forall. intros r Hr. unfold page_of in Hr. apply elem_of_take in Hr as (n & Hr & _). rewrite lookup_drop in Hr.
  apply list_elem_of_lookup_2, py_sorted_elem, filter_elem in Hr as [Hr Hf]. apply list_elem_of_fmap in Hr as (d & -> & [Hd Hm]%filter_elem).
  apply andb_prop in Hf as [Hf Hl]. apply andb_prop in Hf as [Hid Htf]. apply (proj1 (py_eq_true _ _)) in Hm.
  rewrite <- Hs1, <- Hs2, <- Hp1, <- Hp2. split_and!; [done..|]. simpl. intros Ha. destruct (shown_approval now s2 d.(df_strategy_key)) as [a|] eqn:Es.
  - destruct (in_force now a) eqn:Ef; [|destruct (latest_evidence _ _) as [e|]; [by destruct (bool_decide _)|done]].
    unfold shown_approval in Es. apply head_Some_elem_of, py_sorted_elem, list_elem_of_bind in Es as (a' & Hb & [Ha' Hk]%filter_elem).
    apply list_elem_of_bind in Hb as (p & Hb & [Hpin Hpk]%filter_elem). apply list_elem_of_singleton in Hb as ->.
    apply (proj1 (py_eq_true _ _)) in Hk. apply (proj1 (py_eq_true _ _)) in Hpk. by exists a', p.
  - destruct (latest_evidence _ _) as [e|]; [by destruct (bool_decide _)|done].
Qed.

(** ** Concrete runs *)

Module NseStoreExample.
Import RegistryExample RegistryStoreExample.

(** The tables of [RegistryStoreExample] before the approval. *)
Definition researched : NseProcess := {| np_registry := {| rp_tables := has_validated.(rp_tables); rp_cache := empty_registry; rp_faults := [] |};
  np_campaigns := []; np_readiness := []; np_promotions := []; np_candles := [] |}.
Definition later : datetime := at_utc (t0 + 40 * day).
Definition promoted : result StrategyApproval * NseProcess := Eval vm_compute in promote "evidence-1" "ops" "reviewed" now (at_utc (t0 + 30 * day)) researched.
(** The approval has expired; a second promotion of the evidence is to renew it. *)
Definition renewed : result StrategyApproval * NseProcess := Eval vm_compute in promote "evidence-1" "ops" "renewed" later (at_utc (t0 + 70 * day)) promoted.2.

(** The call raises, as the evidence is promoted already, but the approval
    was committed before: the strategy is approved again, and no promotion
    says so. *)
Example failed_promotion_approves :
  (exists a, promoted.1 = Ok a) /\
  (durable_require_approval id identity later promoted.2.(np_registry)).1 = Err (PermissionError "no current approval for exact strategy identity") /\
  renewed.1 = Err unique_violation /\ renewed.2.(np_promotions) = promoted.2.(np_promotions) /\
  exists a, (durable_require_approval id identity later renewed.2.(np_registry)).1 = Ok a /\
    ~ a.(sa_approval_id) ∈ (pw_approval_id <$> renewed.2.(np_promotions)) /\
    match (strategies later None None None 100 0 renewed.2).1 with Ok [r] => r.(sv_lifecycle_state) = "RESEARCH" | _ => False end.
Proof.
  split; [vm_compute; by eexists|]. split; [vm_compute; reflexivity|]. split; [vm_compute; reflexivity|]. split; [vm_compute; reflexivity|].
  eexists. split; [vm_compute; reflexivity|]. split; [|vm_compute; reflexivity]. vm_compute. intros H. apply list_elem_of_singleton in H. discriminate H.
Qed.

Lemma promotion_grounded_witness : exists a row, promoted.1 = Ok a /\ row ∈ (shared promoted.2).(rt_approvals) /\ row.(aw_state) = APPROVED.
Proof.
  assert (H : promote "evidence-1" "ops" "reviewed" now (at_utc (t0 + 30 * day)) researched = promoted) by (vm_compute; reflexivity).
  pose proof (promotion_grounded "evidence-1" "ops" "reviewed" now (at_utc (t0 + 30 * day)) researched) as G. rewrite H in G.
  destruct promoted as [[a|e] s'] eqn:E; [|discriminate E].
  destruct G as (ev & v & row & p & _ & _ & _ & _ & _ & _ & Hrow & _ & Hst & _).
  - apply Forall_cons. split; [vm_compute; reflexivity|constructor].
  - exists a, row. exact (conj eq_refl (conj Hrow Hst)).
Defined.

Definition promoted_row : ApprovalRow := Eval vm_compute in
  match (shared promoted.2).(rt_approvals) with r :: _ => r | [] => approval_row approval end.
Definition promoted_definition : DefinitionRow := Eval vm_compute in
  match (shared promoted.2).(rt_definitions) with d :: _ => d | [] => {| df_strategy_key := ""; df_identity := identity; df_family := ""; df_parameters := []; df_implementation_ref := "" |} end.
Lemma technical_approvals_evidenced_witness :
  promoted_row.(aw_state) = APPROVED /\ exists e v, e ∈ (shared promoted.2).(rt_evidence) /\ e.(ew_research_state) = RESEARCH /\
    v ∈ (shared promoted.2).(rt_validations) /\ v.(vw_passed) = true.
Proof.
  split; [reflexivity|].
  assert (H : nse_reachable promoted.2).
  { replace promoted.2 with (nse_run (NsePromote "evidence-1" "ops" "reviewed" now (at_utc (t0 + 30 * day))) (seen_by empty_registry [] researched))
      by (vm_compute; reflexivity). apply nse_call, nse_start. reflexivity. }
  destruct (technical_approvals_evidenced promoted.2 promoted_row promoted_definition H) as (e & v & He & _ & _ & Hr & Hv & _ & Hp).
  - vm_compute. by left.
  - reflexivity.
  - vm_compute. by left.
  - reflexivity.
  - vm_compute. reflexivity.
  - exists e, v. exact (conj He (conj Hr (conj Hv Hp))).
Defined.
End NseStoreExample.
