(* ===== verification/Regime.v ===== *)
(** * Regime scoring (src/nanodelta/strategies/symbol_regime.py, runtime/regime.py)

    The trend-fit score and the routing label of one symbol, the regime of an
    index, the risk-off bands and the breadth of the universe.  The score is
    shown monotone in trend strength and accepted by the evidence it goes
    into, and the breadth majorities to be exact although they are compared
    in binary64. *)

From Stdlib Require Import ZArith Floats ZifyBool.
From stdpp Require Import prelude strings numbers list.
From S2P Require Import Prelude PyData PyFloat FloatTheory FloatRound PyText Sha256 PyTime Contracts Registry Risk StrategyRuntime Strategies.

(** ** symbol_regime.py *)

Record SymbolRegimeLimits := {
  srl_adx_no_trend : float;
  srl_adx_strong_trend : float;
  srl_minimum_fit : float;
  srl_maximum_fit : float;
  srl_misaligned_penalty : float;
  srl_minimum_volume_ratio : float;
  srl_low_volume_penalty : float;
  srl_compression_range_pct : float }.
Definition SymbolRegimeLimits_post_init (l : SymbolRegimeLimits) : result unit :=
  _ ← raise_if ((l.(srl_adx_no_trend) <=? 0) || (l.(srl_adx_strong_trend) <=? l.(srl_adx_no_trend)))%float
        (ValueError "adx_strong_trend must be above adx_no_trend, which must be positive");
  _ ← raise_if ((l.(srl_minimum_fit) <=? 0) || (l.(srl_maximum_fit) <=? l.(srl_minimum_fit)))%float
        (ValueError "maximum_fit must be above minimum_fit, which must be positive");
  _ ← raise_if (negb ((0 <? l.(srl_misaligned_penalty)) && (l.(srl_misaligned_penalty) <=? 1)))%float
        (ValueError "misaligned_penalty must be in (0, 1]");
  _ ← raise_if (l.(srl_minimum_volume_ratio) <=? 0)%float (ValueError "minimum_volume_ratio must be positive");
  _ ← raise_if (negb ((0 <? l.(srl_low_volume_penalty)) && (l.(srl_low_volume_penalty) <=? 1)))%float
        (ValueError "low_volume_penalty must be in (0, 1]");
  raise_if (l.(srl_compression_range_pct) <=? 0)%float (ValueError "compression_range_pct must be positive").

(** The trend component and its label. *)
Definition symbol_trend (limits : SymbolRegimeLimits) (adx : float) : result (float * string) :=
  if (adx <=? limits.(srl_adx_no_trend))%float then mret (0%float, "NO_TREND")
  else if fge adx limits.(srl_adx_strong_trend) then mret (1%float, "STRONG_TREND")
  else
    let span := (limits.(srl_adx_strong_trend) - limits.(srl_adx_no_trend))%float in
    t ← fdiv (adx - limits.(srl_adx_no_trend)) span;
    mret (t, "DEVELOPING_TREND").

Definition evaluate_symbol_regime (features : dict string float) (limits : SymbolRegimeLimits) :
    result (float * string) :=
  adx ← feature features "adx_14";
  '(trend_component, label) ← symbol_trend limits adx;
  ema_9 ← feature features "ema_9"; ema_21 ← feature features "ema_21";
  let ema_bullish := fgt ema_9 ema_21 in
  direction ← feature features "supertrend_direction";
  let supertrend_bullish := fgt direction 0 in
  let aligned := Bool.eqb ema_bullish supertrend_bullish in
  let fit := (limits.(srl_minimum_fit) + (limits.(srl_maximum_fit) - limits.(srl_minimum_fit)) * trend_component)%float in
  let '(fit, label) := if negb aligned then ((fit * limits.(srl_misaligned_penalty))%float, label +:+ "_MISALIGNED")
                       else (fit, label) in
  volume_ratio ← feature features "volume_ratio_20";
  mret (if (volume_ratio <? limits.(srl_minimum_volume_ratio))%float
        then ((fit * limits.(srl_low_volume_penalty))%float, label +:+ "_LOW_VOLUME")
        else (fit, label)).

Definition classify_regime_label (features : dict string float) (limits : SymbolRegimeLimits) : result string :=
  let routed := adx ← feature features "adx_14";
    mret (if (adx <? limits.(srl_adx_no_trend))%float then "RANGING" else "TRENDING") in
  match features !! "range_high_20", features !! "range_low_20", features !! "close" with
  | Some range_high, Some range_low, Some close =>
      if negb (close =? 0)%float then
        range_width_pct ← fdiv (range_high - range_low) close;
        if (range_width_pct <? limits.(srl_compression_range_pct))%float then mret "COMPRESSION" else routed
      else routed
  | _, _, _ => routed
  end.

Definition evaluate_mtf_alignment (aligned : option bool) (aligned_fit misaligned_fit unknown_fit : float) : float :=
  match aligned with
  | None => unknown_fit
  | Some true => aligned_fit
  | Some false => misaligned_fit
  end.

(** ** runtime/regime.py *)

Record RegimeBreadth := { rb_label : string; rb_fit : float }.

Definition classify_index_regime (values : dict string float)
    (trending_adx volatile_atr_pct ranging_fit trending_fit volatile_fit : float) : result RegimeBreadth :=
  close ← feature values "close";
  atr_pct ← (if fgt close 0 then atr ← feature values "atr_14"; fdiv atr close else mret 0%float);
  if fgt atr_pct volatile_atr_pct then mret {| rb_label := "VOLATILE"; rb_fit := volatile_fit |} else
  adx ← feature values "adx_14";
  if (adx <? trending_adx)%float then mret {| rb_label := "RANGING"; rb_fit := ranging_fit |} else
  ema_9 ← feature values "ema_9"; ema_21 ← feature values "ema_21";
  mret {| rb_label := if fgt ema_9 ema_21 then "TRENDING_UP" else "TRENDING_DOWN"; rb_fit := trending_fit |}.

Definition classify_risk_off (vix_close elevated_vix risk_off_vix normal_fit elevated_fit risk_off_fit : float) :
    RegimeBreadth :=
  if fge vix_close risk_off_vix then {| rb_label := "RISK_OFF"; rb_fit := risk_off_fit |}
  else if fge vix_close elevated_vix then {| rb_label := "ELEVATED_VOLATILITY"; rb_fit := elevated_fit |}
  else {| rb_label := "NORMAL"; rb_fit := normal_fit |}.

(** The default thresholds of [classify_breadth]. *)
Record BreadthPolicy := {
  bp_minimum_symbols : Z;
  bp_trending_adx : float;
  bp_bullish_majority : float;
  bp_bearish_majority : float;
  bp_ranging_fit : float;
  bp_trending_fit : float;
  bp_volatile_fit : float }.
Definition default_breadth : BreadthPolicy := {|
  bp_minimum_symbols := 5; bp_trending_adx := 22; bp_bullish_majority := 0.6; bp_bearish_majority := 0.4;
  bp_ranging_fit := 0.7; bp_trending_fit := 1.15; bp_volatile_fit := 0.6 |}.

(** The symbols both mappings have.  A set iterates in no particular order:
    the order is the argument [symbols], which the theorems constrain to the
    elements of this list. *)
Definition breadth_symbols (adx_by_symbol : dict string float) (bullish_by_symbol : dict string bool) : list string :=
  List.filter (fun s => dict_mem s bullish_by_symbol) (dict_keys adx_by_symbol).

Definition classify_breadth (p : BreadthPolicy) (symbols : list string) (adx_by_symbol : dict string float)
    (bullish_by_symbol : dict string bool) : result RegimeBreadth :=
  let n := Z.of_nat (length symbols) in
  if (n <? p.(bp_minimum_symbols))%Z then mret {| rb_label := "INSUFFICIENT_BREADTH"; rb_fit := 1 |} else
  adxs ← map_result (feature adx_by_symbol) symbols;
  average_adx ← (if (n =? 0)%Z then Err ZeroDivisionError else mret (py_sum adxs / float_of_Z n)%float);
  flags ← map_result (fun s => match bullish_by_symbol !! s with Some b => Ok b | None => Err (KeyError s) end) symbols;
  bullish_fraction ← int_truediv (Z.of_nat (length (List.filter id flags))) n;
  mret (if (average_adx <? p.(bp_trending_adx))%float then {| rb_label := "RANGING"; rb_fit := p.(bp_ranging_fit) |}
        else if fge bullish_fraction p.(bp_bullish_majority)
        then {| rb_label := "TRENDING_UP"; rb_fit := p.(bp_trending_fit) |}
        else if (bullish_fraction <=? p.(bp_bearish_majority))%float
        then {| rb_label := "TRENDING_DOWN"; rb_fit := p.(bp_trending_fit) |}
        else {| rb_label := "VOLATILE"; rb_fit := p.(bp_volatile_fit) |}).

(** ** The trend component *)

Local Open Scope Z_scope.

(** Limits a runtime uses: accepted by their constructor and finite. *)
Record sane_limits (l : SymbolRegimeLimits) : Prop := {
  sl_valid : SymbolRegimeLimits_post_init l = Ok tt;
  sl_no : isfinite l.(srl_adx_no_trend) = true;
  sl_strong : isfinite l.(srl_adx_strong_trend) = true;
  sl_max : bounded_by price_high l.(srl_maximum_fit) = true;
  sl_min : isfinite l.(srl_minimum_fit) = true }.

Lemma limits_order l : sane_limits l ->
  0 < fval l.(srl_adx_no_trend) < fval l.(srl_adx_strong_trend) /\
  0 < fval l.(srl_minimum_fit) < fval l.(srl_maximum_fit) /\ fval l.(srl_maximum_fit) <= fval price_high /\
  isfinite l.(srl_maximum_fit) = true /\
  isfinite l.(srl_misaligned_penalty) = true /\ 0 < fval l.(srl_misaligned_penalty) <= fval 1 /\
  isfinite l.(srl_low_volume_penalty) = true /\ 0 < fval l.(srl_low_volume_penalty) <= fval 1.
Proof.
  intros [Hv Hn Hs Hx Hm]. destruct (bounded_by_val _ _ Hx) as [Fx Bx].
  unfold SymbolRegimeLimits_post_init in Hv. inv_ok Hv.
  repeat match goal with
  | H : _ || _ = false |- _ => apply orb_false_iff in H as [? ?]
  | H : negb _ = false |- _ => apply negb_false_iff in H; apply andb_prop in H as [? ?]
  end.
  repeat match goal with
  | H : (_ <=? _)%float = false |- _ => apply fleb_false in H; [|by apply isfinite_nan..]; rewrite ?fval_0 in H
  | H : (_ <? _)%float = true |- _ => apply fltb_iff in H as (_ & ? & H); rewrite ?fval_0 in H
  | H : (_ <=? _)%float = true |- _ => apply fleb_iff in H as (_ & _ & H)
  end.
  assert (F1 : isfinite 1 = true) by done.
  repeat (split; [done || lia || (apply (finite_of 1 F1); [done|lia])|]). lia.
Qed.

Section Fit.
Context (l : SymbolRegimeLimits) (Hl : sane_limits l).

(** The part of [evaluate_symbol_regime] between the thresholds. *)
Definition trend_of (adx : float) : float :=
  if (adx <=? l.(srl_adx_no_trend))%float then 0%float
  else if fge adx l.(srl_adx_strong_trend) then 1%float
  else ((adx - l.(srl_adx_no_trend)) / (l.(srl_adx_strong_trend) - l.(srl_adx_no_trend)))%float.

Lemma span_pos : isfinite (l.(srl_adx_strong_trend) - l.(srl_adx_no_trend))%float = true /\
  0 < fval (l.(srl_adx_strong_trend) - l.(srl_adx_no_trend))%float.
Proof.
  destruct (limits_order l Hl) as ([H0 H1] & _). pose proof (sl_no l Hl). pose proof (sl_strong l Hl).
  destruct (fsub_bounded l.(srl_adx_strong_trend) l.(srl_adx_no_trend) l.(srl_adx_strong_trend)) as [F _]; [done..|lia|].
  split; [done|]. rewrite fval_sub by done. apply rndZ_pos. lia.
Qed.

(** Between the thresholds: a fraction of the span. *)
Lemma trend_between adx : isfinite adx = true ->
  fval l.(srl_adx_no_trend) <= fval adx <= fval l.(srl_adx_strong_trend) ->
  isfinite (adx - l.(srl_adx_no_trend))%float = true /\
  0 <= fval (adx - l.(srl_adx_no_trend))%float <= fval (l.(srl_adx_strong_trend) - l.(srl_adx_no_trend))%float.
Proof.
  intros Fa Ha. destruct (limits_order l Hl) as ([H0 H1] & _). pose proof (sl_no l Hl). pose proof (sl_strong l Hl).
  destruct (fsub_bounded adx l.(srl_adx_no_trend) l.(srl_adx_strong_trend)) as [F _]; [done..|lia|].
  split; [done|]. rewrite !fval_sub by done. rewrite <-rndZ_0. split; apply rndZ_mono; lia.
Qed.

Lemma trend_unit adx : isfinite adx = true ->
  isfinite (trend_of adx) = true /\ 0 <= fval (trend_of adx) <= fval 1.
Proof.
  intros Fa. pose proof (pow2_pos 1074). unfold trend_of.
  destruct (adx <=? _)%float eqn:E1; [split; [done|]; rewrite fval_0, fval_1; lia|].
  destruct (fge adx _) eqn:E2; [split; [done|]; rewrite fval_1; lia|].
  apply fleb_false in E1; [|by apply isfinite_nan|apply isfinite_nan, Hl].
  apply fleb_false in E2; [|apply isfinite_nan, Hl|by apply isfinite_nan].
  destruct (trend_between adx Fa ltac:(lia)) as [Fx Bx]. destruct span_pos as [Fs Ps].
  destruct (fdiv_unit _ Fs Ps _ Fx Bx) as [Nd Bd]. split; [|done].
  apply (finite_of 1); [done|done|lia].
Qed.

Lemma trend_mono a b : isfinite a = true -> isfinite b = true -> fval a <= fval b ->
  fval (trend_of a) <= fval (trend_of b).
Proof.
  intros Fa Fb Hab. destruct (trend_unit a Fa) as [_ Ua]. destruct (trend_unit b Fb) as [_ Ub].
  revert Ua Ub. unfold trend_of. pose proof (sl_no l Hl) as Fn. pose proof (sl_strong l Hl) as Fst.
  destruct (a <=? _)%float eqn:A1; [by rewrite fval_0; lia|].
  apply fleb_false in A1; [|by apply isfinite_nan..].
  destruct (b <=? _)%float eqn:B1; [apply fleb_iff in B1; lia|].
  destruct (fge b _) eqn:B2; [lia|]. apply fleb_false in B2; [|by apply isfinite_nan..].
  destruct (fge a _) eqn:A2; [apply fleb_iff in A2; lia|].
  intros _ _. destruct span_pos as [Fs Ps].
  destruct (trend_between a Fa ltac:(lia)) as [Fxa _]. destruct (trend_between b Fb) as [Fxb _].
  { apply fleb_false in B1; [|by apply isfinite_nan..]. lia. }
  apply fdiv_mono; try done. rewrite !fval_sub by done. apply rndZ_mono. lia.
Qed.
End Fit.

(** ** The score *)

Section Score.
Context (l : SymbolRegimeLimits) (Hl : sane_limits l).

Definition base_fit (t : float) : float :=
  (l.(srl_minimum_fit) + (l.(srl_maximum_fit) - l.(srl_minimum_fit)) * t)%float.
Definition penalised (aligned low_volume : bool) (fit : float) : float :=
  let fit := if negb aligned then (fit * l.(srl_misaligned_penalty))%float else fit in
  if low_volume then (fit * l.(srl_low_volume_penalty))%float else fit.

Lemma range_pos : isfinite (l.(srl_maximum_fit) - l.(srl_minimum_fit))%float = true /\
  0 < fval (l.(srl_maximum_fit) - l.(srl_minimum_fit))%float <= fval l.(srl_maximum_fit).
Proof.
  destruct (limits_order l Hl) as (_ & [H0 H1] & _ & Fx & _). pose proof (sl_min l Hl).
  destruct (fsub_bounded l.(srl_maximum_fit) l.(srl_minimum_fit) l.(srl_maximum_fit)) as [F B]; [done..|lia|].
  split; [done|]. assert (0 < fval (l.(srl_maximum_fit) - l.(srl_minimum_fit))%float); [|lia].
  rewrite fval_sub by done. apply rndZ_pos. lia.
Qed.

Lemma base_fit_bounds t : isfinite t = true -> 0 <= fval t <= fval 1 ->
  isfinite (base_fit t) = true /\ fval l.(srl_minimum_fit) <= fval (base_fit t) <= fval (base_fit 1).
Proof.
  intros Ft Bt. destruct range_pos as [Fr [R0 R1]].
  destruct (limits_order l Hl) as (_ & [H0 H1] & Hh & Fx & _). pose proof (sl_min l Hl) as Fm.
  set (range := (l.(srl_maximum_fit) - l.(srl_minimum_fit))%float) in *.
  destruct (fmul_shrink range t Fr Ft ltac:(lia) Bt) as [P0 P1].
  assert (Fp : isfinite (range * t)%float = true).
  { apply (finite_of range); [done| |lia]. by apply fmul_sign. }
  assert (E : fval (range * 1)%float = fval range).
  { pose proof (fmul_shrink range 1 Fr eq_refl ltac:(lia) ltac:(rewrite fval_1; pose proof (pow2_pos 1074); lia)).
    pose proof (fmul_grow range 1 Fr eq_refl ltac:(lia) ltac:(lia)). lia. }
  assert (Fp1 : isfinite (range * 1)%float = true).
  { apply (finite_of range); [done| |lia]. by apply fmul_sign. }
  assert (E1 : fval 0x1p1001 = 2 * fval price_high) by (vm_compute; reflexivity).
  unfold base_fit. fold range.
  destruct (fadd_bounded l.(srl_minimum_fit) (range * t) 0x1p1001 Fm Fp eq_refl ltac:(lia)) as [Fs _].
  split; [done|]. rewrite !fval_add by done. split.
  - rewrite <-(rndZ_fval l.(srl_minimum_fit)) at 1. apply rndZ_mono. lia.
  - apply rndZ_mono. lia.
Qed.

Lemma base_fit_mono t u : isfinite t = true -> isfinite u = true -> 0 <= fval t -> fval t <= fval u -> fval u <= fval 1 ->
  fval (base_fit t) <= fval (base_fit u).
Proof.
  intros Ft Fu H0 Htu H1. destruct range_pos as [Fr [R0 R1]]. pose proof (sl_min l Hl) as Fm. unfold base_fit.
  set (range := (l.(srl_maximum_fit) - l.(srl_minimum_fit))%float) in *.
  assert (Fp : forall x, isfinite x = true -> 0 <= fval x <= fval 1 -> isfinite (range * x)%float = true).
  { intros x Fx Bx. pose proof (fmul_shrink range x Fr Fx ltac:(lia) Bx).
    apply (finite_of range); [done| |lia]. by apply fmul_sign. }
  rewrite !fval_add by (done || (apply Fp; [done|lia])). apply rndZ_mono.
  pose proof (fmul_mono t u Ft Fu range Fr ltac:(lia) Htu) as Hm. rewrite !(fmul_comm _ range) in Hm. lia.
Qed.

Lemma penalised_bounds a v fit : isfinite fit = true -> 0 <= fval fit ->
  isfinite (penalised a v fit) = true /\ 0 <= fval (penalised a v fit) <= fval fit.
Proof.
  intros Ff Hf. destruct (limits_order l Hl) as (_ & _ & _ & _ & Fm & Bm & Fv & Bv).
  assert (Hs : forall x p : float, isfinite x = true -> 0 <= fval x -> isfinite p = true -> 0 < fval p <= fval 1 ->
    isfinite (x * p)%float = true /\ 0 <= fval (x * p)%float <= fval x).
  { intros x p Fx Hx Fp Bp. pose proof (fmul_shrink x p Fx Fp Hx ltac:(lia)) as B. split; [|done].
    apply (finite_of x); [done| |lia]. by apply fmul_sign. }
  unfold penalised. destruct (Hs fit _ Ff Hf Fm Bm) as [F1 B1]. destruct (Hs fit _ Ff Hf Fv Bv) as [F2 B2].
  destruct (Hs (fit * l.(srl_misaligned_penalty))%float _ F1 ltac:(lia) Fv Bv) as [F3 B3].
  destruct a, v; cbn [negb]; (split; [done|lia]).
Qed.

Lemma penalised_mono a v x y : isfinite x = true -> isfinite y = true -> 0 <= fval x -> fval x <= fval y ->
  fval (penalised a v x) <= fval (penalised a v y).
Proof.
  intros Fx Fy H0 Hxy. destruct (limits_order l Hl) as (_ & _ & _ & _ & Fm & Bm & Fv & Bv).
  pose proof (penalised_bounds false false x Fx H0) as [F1 _]. pose proof (penalised_bounds false false y Fy ltac:(lia)) as [F2 _].
  pose proof (fmul_mono x y Fx Fy _ Fm ltac:(lia) Hxy) as M1.
  unfold penalised in *. cbn [negb] in *. destruct a, v; cbn [negb]; first [exact Hxy | exact M1 | apply fmul_mono; done || lia].
Qed.
End Score.

(** The evaluation in closed form. *)
Lemma evaluate_closed l features adx ema_9 ema_21 direction volume : sane_limits l ->
  features !! "adx_14" = Some adx -> features !! "ema_9" = Some ema_9 -> features !! "ema_21" = Some ema_21 ->
  features !! "supertrend_direction" = Some direction -> features !! "volume_ratio_20" = Some volume ->
  exists label, evaluate_symbol_regime features l =
    Ok (penalised l (Bool.eqb (fgt ema_9 ema_21) (fgt direction 0)) (volume <? l.(srl_minimum_volume_ratio))%float
          (base_fit l (trend_of l adx)), label).
Proof.
  intros Hl Ha H9 H21 Hd Hv. unfold evaluate_symbol_regime.
  rewrite (proj2 (feature_ok _ _ _) Ha), (proj2 (feature_ok _ _ _) H9), (proj2 (feature_ok _ _ _) H21),
    (proj2 (feature_ok _ _ _) Hd), (proj2 (feature_ok _ _ _) Hv). cbn [mbind result_bind].
  assert (Ht : exists lab, symbol_trend l adx = Ok (trend_of l adx, lab)).
  { unfold symbol_trend, trend_of. destruct (_ <=? _)%float; [by eexists|]. destruct (fge _ _); [by eexists|]. cbv zeta.
    destruct (span_pos l Hl) as [Fs Ps]. rewrite fdiv_ok; [by eexists|].
    apply feqb_false; [by apply isfinite_nan|done|]. rewrite fval_0. lia. }
  destruct Ht as [lab ->]. cbn [mbind result_bind]. unfold penalised, base_fit.
  destruct (negb _), (_ <? _)%float; by eexists.
Qed.

(** The regime score: with finite indicators it is computed without an
    exception, is finite, not negative and not above the score of a full
    trend, is at least [minimum_fit] when neither penalty applies, and the
    [RegimeEvidence] it is put into accepts it. *)
Theorem symbol_fit_accepted l features adx ema_9 ema_21 direction volume : sane_limits l ->
  features !! "adx_14" = Some adx -> features !! "ema_9" = Some ema_9 -> features !! "ema_21" = Some ema_21 ->
  features !! "supertrend_direction" = Some direction -> features !! "volume_ratio_20" = Some volume ->
  isfinite adx = true ->
  exists fit label, evaluate_symbol_regime features l = Ok (fit, label) /\ isfinite fit = true /\
    (0 <=? fit)%float = true /\ (fit <=? base_fit l 1)%float = true /\
    (fgt ema_9 ema_21 = fgt direction 0 -> (volume <? l.(srl_minimum_volume_ratio))%float = false ->
      (l.(srl_minimum_fit) <=? fit)%float = true) /\
    RegimeEvidence_post_init {| re_market_fit := 1; re_sector_fit := 1; re_symbol_fit := fit; re_mtf_alignment := 1;
                                re_symbol_regime_label := label |} = Ok tt.
Proof.
  intros Hl Ha H9 H21 Hd Hv Fa. destruct (evaluate_closed l features _ _ _ _ _ Hl Ha H9 H21 Hd Hv) as [label ->].
  destruct (trend_unit l Hl adx Fa) as [Ft Bt]. destruct (base_fit_bounds l Hl _ Ft Bt) as [Fb [B0 B1]].
  destruct (base_fit_bounds l Hl 1 eq_refl) as [F1 _]; [rewrite fval_1; pose proof (pow2_pos 1074); lia|].
  destruct (limits_order l Hl) as (_ & [H0 _] & _). set (a := Bool.eqb _ _). set (v := (volume <? _)%float).
  destruct (penalised_bounds l Hl a v _ Fb ltac:(lia)) as [Fp Bp]. set (fit := penalised l a v _) in *.
  assert (Hn : forall x, isfinite x = true -> fnan x = false) by apply isfinite_nan.
  eexists fit, label. split; [done|]. split; [done|].
  split; [apply fleb_iff; rewrite fval_0; repeat split; auto; lia|].
  split; [apply fleb_iff; repeat split; auto; lia|]. split.
  - intros Eq Ev. apply fleb_iff. repeat split; [apply Hn, Hl|auto|].
    assert (Ef : fit = base_fit l (trend_of l adx)).
    { subst fit a v. unfold penalised. by rewrite Eq, Ev, Bool.eqb_reflx. }
    rewrite Ef. lia.
  - unfold RegimeEvidence_post_init. cbn -[fval]. rewrite Fp. cbn.
    assert ((fit <? 0)%float = false) as ->; [|done]. apply fltb_false; [auto|done|]. rewrite fval_0. lia.
Qed.

(** The score is monotone in trend strength: for two snapshots that
    differ in ADX only, the one with the stronger trend never scores lower,
    rounding and penalties included. *)
Theorem symbol_fit_monotone l f1 f2 adx1 adx2 ema_9 ema_21 direction volume : sane_limits l ->
  f1 !! "adx_14" = Some adx1 -> f2 !! "adx_14" = Some adx2 ->
  Forall (fun f => f !! "ema_9" = Some ema_9 /\ f !! "ema_21" = Some ema_21 /\
                   f !! "supertrend_direction" = Some direction /\ f !! "volume_ratio_20" = Some volume) [f1; f2] ->
  isfinite adx1 = true -> isfinite adx2 = true -> (adx1 <=? adx2)%float = true ->
  exists fit1 label1 fit2 label2, evaluate_symbol_regime f1 l = Ok (fit1, label1) /\
    evaluate_symbol_regime f2 l = Ok (fit2, label2) /\ (fit1 <=? fit2)%float = true.
Proof.
  intros Hl H1 H2 Hf Fa1 Fa2 (_ & _ & Hle)%fleb_iff.
  apply Forall_cons in Hf as [(A1 & A2 & A3 & A4) [(B1 & B2 & B3 & B4) _]%Forall_cons].
  destruct (evaluate_closed l f1 _ _ _ _ _ Hl H1 A1 A2 A3 A4) as [lab1 ->].
  destruct (evaluate_closed l f2 _ _ _ _ _ Hl H2 B1 B2 B3 B4) as [lab2 ->].
  destruct (trend_unit l Hl adx1 Fa1) as [Ft1 Bt1]. destruct (trend_unit l Hl adx2 Fa2) as [Ft2 Bt2].
  destruct (base_fit_bounds l Hl _ Ft1 Bt1) as [Fb1 Bb1]. destruct (base_fit_bounds l Hl _ Ft2 Bt2) as [Fb2 Bb2].
  destruct (limits_order l Hl) as (_ & [H0 _] & _).
  pose proof (trend_mono l Hl adx1 adx2 Fa1 Fa2 Hle) as Hm.
  pose proof (base_fit_mono l Hl _ _ Ft1 Ft2 ltac:(lia) Hm ltac:(lia)) as Hb.
  repeat eexists. apply fleb_iff.
  set (a := Bool.eqb _ _). set (v := (volume <? _)%float).
  destruct (penalised_bounds l Hl a v _ Fb1 ltac:(lia)) as [P1 _].
  destruct (penalised_bounds l Hl a v _ Fb2 ltac:(lia)) as [P2 _].
  repeat split; [by apply isfinite_nan..|]. apply penalised_mono; try done; lia.
Qed.

(** ** Breadth *)

(** A fraction of counts against a float: the neighbours of the float decide. *)
Lemma fraction_ge b n (x : float) : 0 <= b -> 0 < n < 2 ^ 53 -> b < 2 ^ 53 ->
  fval x * n <= b * 2 ^ 1074 -> fval x <= fval (float_of_Z b / float_of_Z n)%float.
Proof.
  intros Hb Hn Hb2 H. destruct (float_of_Z_exact b) as [Fb Vb]; [lia|]. destruct (float_of_Z_exact n) as [Fn Vn]; [lia|].
  pose proof (pow2_pos 1074 ltac:(lia)). rewrite fval_div by (done || rewrite Vn; nia). rewrite Vb, Vn.
  apply rndF_ge; [nia|]. set (U := 2 ^ 1074) in *. clearbody U. nia.
Qed.
Lemma fraction_le b n (x : float) : 0 <= b -> 0 < n < 2 ^ 53 -> b < 2 ^ 53 ->
  b * 2 ^ 1074 <= fval x * n -> fval (float_of_Z b / float_of_Z n)%float <= fval x.
Proof.
  intros Hb Hn Hb2 H. destruct (float_of_Z_exact b) as [Fb Vb]; [lia|]. destruct (float_of_Z_exact n) as [Fn Vn]; [lia|].
  pose proof (pow2_pos 1074 ltac:(lia)). rewrite fval_div by (done || rewrite Vn; nia). rewrite Vb, Vn.
  apply rndF_le; [nia|]. set (U := 2 ^ 1074) in *. clearbody U. nia.
Qed.

Lemma fraction_nan b n : 0 <= b -> 0 < n < 2 ^ 53 -> b < 2 ^ 53 -> fnan (float_of_Z b / float_of_Z n)%float = false.
Proof.
  intros Hb Hn Hb2. destruct (float_of_Z_exact b) as [Fb Vb]; [lia|]. destruct (float_of_Z_exact n) as [Fn Vn]; [lia|].
  pose proof (pow2_pos 1074 ltac:(lia)). apply fdiv_sign; [done..|]. rewrite Vn. nia.
Qed.

(** The majorities of the default policy are exact. *)
Lemma bullish_exact b n : 0 <= b <= n -> 0 < n <= 2 ^ 50 ->
  fge (float_of_Z b / float_of_Z n) 0.6 = (3 * n <=? 5 * b).
Proof.
  intros Hb Hn. pose proof (fraction_nan b n ltac:(lia) ltac:(lia) ltac:(lia)) as Hnan. unfold fge.
  assert (C1 : 5 * fval 0.6 <= 3 * 2 ^ 1074) by (vm_compute; discriminate).
  assert (C2 : (3 * 2 ^ 1074 - 5 * fval (next_down 0.6)) * 2 ^ 50 <= 2 ^ 1074) by (vm_compute; discriminate).
  assert (C3 : (next_down 0.6 <? 0.6)%float = true) by reflexivity. apply fltb_iff in C3 as (_ & _ & C3).
  set (U := 2 ^ 1074) in *. set (x := fval 0.6) in *. set (y := fval (next_down 0.6)) in *.
  destruct (Z.leb_spec (3 * n) (5 * b)) as [H|H].
  - apply fleb_iff. split; [done|]. split; [done|]. apply fraction_ge; [lia..|]. fold U x. clearbody U x. nia.
  - apply fleb_false; [done..|]. fold x.
    pose proof (fraction_le b n (next_down 0.6) ltac:(lia) ltac:(lia) ltac:(lia)) as Hle. fold U y in Hle.
    enough (b * U <= y * n) by (specialize (Hle ltac:(done)); lia). 
    assert (0 <= 3 * U - 5 * y) by (clearbody U x y; lia).
    assert ((3 * U - 5 * y) * n <= U) by (clearbody U x y; nia). clearbody U x y. nia.
Qed.

Lemma bearish_exact b n : 0 <= b <= n -> 0 < n <= 2 ^ 50 ->
  (float_of_Z b / float_of_Z n <=? 0.4)%float = (5 * b <=? 2 * n).
Proof.
  intros Hb Hn. pose proof (fraction_nan b n ltac:(lia) ltac:(lia) ltac:(lia)) as Hnan.
  assert (C1 : 2 * 2 ^ 1074 <= 5 * fval 0.4) by (vm_compute; discriminate).
  assert (C2 : (5 * fval (next_up 0.4) - 2 * 2 ^ 1074) * 2 ^ 50 <= 2 ^ 1074) by (vm_compute; discriminate).
  assert (C3 : (0.4 <? next_up 0.4)%float = true) by reflexivity. apply fltb_iff in C3 as (_ & _ & C3).
  set (U := 2 ^ 1074) in *. set (x := fval 0.4) in *. set (y := fval (next_up 0.4)) in *.
  destruct (Z.leb_spec (5 * b) (2 * n)) as [H|H].
  - apply fleb_iff. split; [done|]. split; [done|]. apply fraction_le; [lia..|]. fold U x. clearbody U x. nia.
  - apply fleb_false; [done..|]. fold x.
    pose proof (fraction_ge b n (next_up 0.4) ltac:(lia) ltac:(lia) ltac:(lia)) as Hle. fold U y in Hle.
    enough (y * n <= b * U) by (specialize (Hle ltac:(done)); lia).
    assert (0 <= 5 * y - 2 * U) by (clearbody U x y; lia).
    assert ((5 * y - 2 * U) * n <= U) by (clearbody U x y; nia). clearbody U x y. nia.
Qed.

Definition bullish_count (bullish_by_symbol : dict string bool) (symbols : list string) : Z :=
  Z.of_nat (length (List.filter (fun s => default false (bullish_by_symbol !! s)) symbols)).

Lemma breadth_flags adx bullish symbols : Forall (fun s => s ∈ breadth_symbols adx bullish) symbols ->
  (exists adxs, map_result (feature adx) symbols = Ok adxs) /\
  exists flags, map_result (fun s => match bullish !! s with Some b => Ok b | None => Err (KeyError s) end) symbols
    = Ok flags /\ length (List.filter id flags) = Z.to_nat (bullish_count bullish symbols).
Proof.
  unfold bullish_count. rewrite Nat2Z.id.
  induction 1 as [|s symbols Hs Hall [(adxs & IH1) (flags & IH2 & IH3)]]; simpl; [by split; [eexists|exists []]|].
  apply filter_elem in Hs as [Hk Hb]. unfold dict_mem in Hb. destruct (bullish !! s) as [b|]; [|done].
  assert (exists v, adx !! s = Some v) as [v Hv].
  { destruct (adx !! s) as [v|] eqn:E; [by eexists|]. by apply dict_lookup_None_keys in E. }
  rewrite (proj2 (feature_ok _ _ _) Hv), IH1, IH2. split; [by eexists|]. eexists. split; [done|].
  destruct b; simpl; by rewrite IH3.
Qed.

Lemma filter_length_perm {A} (f : A -> bool) (l k : list A) : l ≡ₚ k ->
  length (List.filter f l) = length (List.filter f k).
Proof. induction 1; simpl; repeat case_match; simpl; congruence. Qed.

(** The breadth regime is the exact majority rule: whatever order the
    set of symbols is visited in, with at least five symbols and a strong
    average trend the label is TRENDING_UP exactly when three fifths of the
    symbols are bullish, TRENDING_DOWN exactly when at most two fifths are,
    VOLATILE in between; the binary64 comparison with 0.6 and 0.4 decides as
    the fractions do. *)
Theorem breadth_majority_exact adx bullish symbols :
  symbols ≡ₚ breadth_symbols adx bullish -> Z.of_nat (length symbols) <= 2 ^ 50 ->
  let n := Z.of_nat (length (breadth_symbols adx bullish)) in
  let b := bullish_count bullish (breadth_symbols adx bullish) in
  exists average r, classify_breadth default_breadth symbols adx bullish = Ok r /\
    r.(rb_label) = (if n <? 5 then "INSUFFICIENT_BREADTH"
                    else if (average <? 22)%float then "RANGING"
                    else if 3 * n <=? 5 * b then "TRENDING_UP"
                    else if 5 * b <=? 2 * n then "TRENDING_DOWN"
                    else "VOLATILE").
Proof.
  intros Hp Hn n b. assert (En : Z.of_nat (length symbols) = n) by (unfold n; by rewrite Hp). rewrite En in Hn.
  unfold classify_breadth. rewrite En. cbn [default_breadth bp_minimum_symbols].
  destruct (Z.ltb_spec n 5) as [H5|H5]; [exists 0%float; by eexists|].
  destruct (breadth_flags adx bullish symbols) as [[adxs Ha] (flags & Hf & Hc)].
  { rewrite Forall_forall. intros s Hs. by rewrite <-Hp. }
  rewrite Ha, Hf. cbn [mbind result_bind]. rewrite (proj2 (Z.eqb_neq n 0)) by lia. cbn [mret result_ret].
  assert (Eb : Z.of_nat (length (List.filter id flags)) = b).
  { rewrite Hc. unfold b, bullish_count. rewrite Nat2Z.id. f_equal. by apply filter_length_perm. }
  rewrite Eb. assert (Hb : 0 <= b <= n).
  { unfold b, n, bullish_count. split; [lia|]. apply Nat2Z.inj_le. apply List.filter_length_le. }
  unfold int_truediv. rewrite (proj2 (Z.eqb_neq n 0)) by lia.
  rewrite (proj2 (andb_true_iff _ _)) by (rewrite !Z.leb_le; lia). cbn [mbind result_bind].
  eexists (py_sum adxs / float_of_Z n)%float, _. split; [reflexivity|]. cbn [bp_trending_adx bp_bullish_majority
    bp_bearish_majority]. rewrite bullish_exact, bearish_exact by lia.
  change (bp_trending_adx default_breadth) with 22%float. destruct (_ <? 22)%float; [done|]. destruct (3 * n <=? 5 * b); [done|]. by destruct (5 * b <=? 2 * n).
Qed.

(** ** The routing label *)

Lemma classify_label_total features l adx : features !! "adx_14" = Some adx ->
  exists label, classify_regime_label features l = Ok label /\ label ∈ ["COMPRESSION"; "RANGING"; "TRENDING"].
Proof.
  intros Ha. unfold classify_regime_label. rewrite (proj2 (feature_ok _ _ _) Ha).
  assert (Hr : exists label, (adx0 ← Ok adx; mret (if (adx0 <? l.(srl_adx_no_trend))%float then "RANGING" else "TRENDING"))
    = Ok label /\ label ∈ ["COMPRESSION"; "RANGING"; "TRENDING"]).
  { eexists. split; [done|]. destruct (_ <? _)%float; [right; left|right; right; left]. }
  destruct (features !! "range_high_20"), (features !! "range_low_20"), (features !! "close") as [close|]; try done.
  destruct (close =? 0)%float eqn:E; [done|]. cbn [negb]. rewrite fdiv_ok by done. cbn [mbind result_bind].
  destruct (_ <? _)%float; [|done]. eexists. split; [done|]. left.
Qed.

Module RegimeExample.
Definition limits : SymbolRegimeLimits := {|
  srl_adx_no_trend := 20; srl_adx_strong_trend := 35; srl_minimum_fit := 0.4; srl_maximum_fit := 1.2;
  srl_misaligned_penalty := 0.7; srl_minimum_volume_ratio := 0.8; srl_low_volume_penalty := 0.8;
  srl_compression_range_pct := 0.03 |}.
Definition features (adx : float) : dict string float :=
  Dict [("adx_14", adx); ("ema_9", 101%float); ("ema_21", 100%float); ("supertrend_direction", 1%float);
        ("volume_ratio_20", 1.1%float)].
Lemma limits_sane : sane_limits limits.
Proof. split; vm_compute; reflexivity. Qed.

Lemma symbol_fit_accepted_witness :
  exists fit label, evaluate_symbol_regime (features 30) limits = Ok (fit, label) /\
    (0.4 <=? fit)%float = true /\ (fit <=? 1.2)%float = true.
Proof.
  destruct (symbol_fit_accepted limits (features 30) 30 101 100 1 1.1) as (fit & label & E & _ & _ & H1 & H2 & _);
    [apply limits_sane | reflexivity..|].
  exists fit, label. split; [exact E|]. split; [apply H2; reflexivity|exact H1].
Defined.

Lemma symbol_fit_monotone_witness :
  exists fit1 label1 fit2 label2, evaluate_symbol_regime (features 25) limits = Ok (fit1, label1) /\
    evaluate_symbol_regime (features 30) limits = Ok (fit2, label2) /\ (fit1 <=? fit2)%float = true.
Proof.
  apply (symbol_fit_monotone limits (features 25) (features 30) 25 30 101 100 1 1.1);
    [apply limits_sane | reflexivity | reflexivity | repeat constructor | reflexivity..].
Defined.

Definition adx_by_symbol : dict string float :=
  Dict [("A", 30%float); ("B", 25%float); ("C", 28%float); ("D", 40%float); ("E", 22%float)].
Definition bullish_by_symbol : dict string bool :=
  Dict [("A", true); ("B", false); ("C", true); ("D", false); ("E", true)].
Lemma breadth_majority_exact_witness :
  exists average r, classify_breadth default_breadth ["E"; "D"; "C"; "B"; "A"] adx_by_symbol bullish_by_symbol = Ok r /\
    r.(rb_label) = (if (average <? 22)%float then "RANGING" else "TRENDING_UP").
Proof.
  apply (breadth_majority_exact adx_by_symbol bullish_by_symbol ["E"; "D"; "C"; "B"; "A"]); [|vm_compute; discriminate].
  change (breadth_symbols _ _) with (rev ["E"; "D"; "C"; "B"; "A"]). apply Permutation_rev.
Defined.

(** The documented range [minimum_fit, maximum_fit] is not kept: rounding
    takes a full trend above the maximum. *)
Definition wide : SymbolRegimeLimits := {|
  srl_adx_no_trend := 20; srl_adx_strong_trend := 35; srl_minimum_fit := 0.12; srl_maximum_fit := 1.68;
  srl_misaligned_penalty := 0.7; srl_minimum_volume_ratio := 0.8; srl_low_volume_penalty := 0.8;
  srl_compression_range_pct := 0.03 |}.
Lemma fit_above_maximum :
  exists fit label, evaluate_symbol_regime (features 40) wide = Ok (fit, label) /\ (srl_maximum_fit wide <? fit)%float = true.
Proof. eexists _, _. vm_compute. split; reflexivity. Qed.
End RegimeExample.
