(* ===== verification/Correlation.v ===== *)
(** * Return correlations (src/nanodelta/runtime/correlation.py)

    The pairwise correlations the allocation stage looks up.  [math.sqrt] is
    the correctly rounded square root; [** 2] is C's [pow], which is not
    required to round correctly, so it is the parameter [square]. *)

From Stdlib Require Import ZArith Floats.
From stdpp Require Import prelude strings numbers list sorting.
From S2P Require Import Prelude PyData PyFloat FloatTheory PyText Sha256 PyTime Contracts Registry Risk StrategyRuntime Strategies.

Definition LOOKBACK_BARS : nat := 90.
Definition MINIMUM_OVERLAP : Z := 20.

(** [math.sqrt] *)
Definition py_sqrt (x : float) : result float :=
  if (x <? 0)%float then Err (ValueError "expected a nonnegative input") else Ok (sqrt x).

(** [l[-k:]]; [-0] is [0], so no element is dropped then. *)
Definition last_items {A} (k : nat) (l : list A) : list A :=
  if (k =? 0)%nat then l else drop (length l - k) l.

(** The rows [(symbol, close)], newest first per symbol, as the query gives
    them: at most [LOOKBACK_BARS] of each, oldest first in the end. *)
Definition closes_of (rows : list (string * float)) : dict string (list float) :=
  let closes := foldl (fun d '(symbol, close) =>
    let d := dict_setdefault symbol [] d in
    let bucket := default [] (d !! symbol) in
    if (length bucket <? LOOKBACK_BARS)%nat then <[symbol := bucket ++ [close]]> d else d) ∅ rows in
  Dict ((fun '(s, values) => (s, rev values)) <$> entries closes).

Section Correlation.
Context (square : float -> result float).

Definition pearson (x y : list float) : result (option float) :=
  let n := Z.of_nat (length x) in
  mean_x ← fdiv (py_sum x) (float_of_Z n);
  mean_y ← fdiv (py_sum y) (float_of_Z n);
  _ ← raise_if (negb (length x =? length y)%nat) (ValueError "zip() arguments have different lengths");
  let covariance := py_sum (zip_with (fun xi yi => (xi - mean_x) * (yi - mean_y))%float x y) in
  squares_x ← map_result (fun xi => square (xi - mean_x)%float) x;
  squares_y ← map_result (fun yi => square (yi - mean_y)%float) y;
  denominator ← py_sqrt (py_sum squares_x * py_sum squares_y);
  if (denominator =? 0)%float then mret None else
  v ← fdiv covariance denominator; mret (Some v).

(** Simple returns of consecutive closes with a positive base. *)
Fixpoint simple_returns (closes : list float) : list float :=
  match closes with
  | previous :: ((close :: _) as rest) =>
      (if fgt previous 0 then [((close - previous) / previous)%float] else []) ++ simple_returns rest
  | _ => []
  end.

Definition pair_correlation (minimum_overlap : Z) (a b : list float) : result (option float) :=
  let overlap := Nat.min (length a) (length b) in
  if (Z.of_nat overlap <? minimum_overlap)%Z then mret None else pearson (last_items overlap a) (last_items overlap b).

(** The inner loop: [first] against every later symbol. *)
Fixpoint correlate_with (minimum_overlap : Z) (returns : string -> list float) (first : string)
    (later : list string) (acc : dict (string * string) float) : result (dict (string * string) float) :=
  match later with
  | [] => mret acc
  | second :: later' =>
      c ← pair_correlation minimum_overlap (returns first) (returns second);
      correlate_with minimum_overlap returns first later'
        (match c with Some v => <[(first, second) := v]> acc | None => acc end)
  end.
Fixpoint correlate_all (minimum_overlap : Z) (returns : string -> list float) (symbols : list string)
    (acc : dict (string * string) float) : result (dict (string * string) float) :=
  match symbols with
  | [] => mret acc
  | first :: later =>
      acc' ← correlate_with minimum_overlap returns first later acc;
      correlate_all minimum_overlap returns later acc'
  end.

Definition returns_of (closes_by_symbol : dict string (list float)) (symbol : string) : list float :=
  simple_returns (default [] (closes_by_symbol !! symbol)).
Definition compute_return_correlations (closes_by_symbol : dict string (list float)) (minimum_overlap : Z) :
    result (dict (string * string) float) :=
  correlate_all minimum_overlap (returns_of closes_by_symbol)
    (py_sorted str_ltb (dict_keys closes_by_symbol)) ∅.

(** ** What is computed *)

Section Loops.
Context (minimum_overlap : Z) (returns : string -> list float).

(** The value a pair should have. *)
Definition pair_entry (first second : string) (o : option float) : Prop :=
  pair_correlation minimum_overlap (returns first) (returns second) = Ok o.

Lemma correlate_with_spec first later acc d :
  NoDup later -> (forall s, s ∈ later -> acc !! (first, s) = None) ->
  correlate_with minimum_overlap returns first later acc = Ok d ->
  (forall s, s ∈ later -> pair_entry first s (d !! (first, s))) /\
  (forall k, (forall s, s ∈ later -> k <> (first, s)) -> d !! k = acc !! k).
Proof.
  revert acc. induction later as [|second later IH]; intros acc Hnd Hfree H; simpl in H.
  - inv_ok H. subst d. split; [by intros s ?%elem_of_nil|done].
  - inv_ok H. rename a into c, Hok into Hc, Hok0 into Hrest.
    apply NoDup_cons in Hnd as [Hn Hnd].
    set (acc' := match c with Some v => <[(first, second):=v]> acc | None => acc end) in *.
    assert (Hacc : forall k, k <> (first, second) -> acc' !! k = acc !! k).
    { intros k Hk. unfold acc'. destruct c; [|done]. rewrite dict_lookup_insert_ne; congruence. }
    destruct (IH acc') as [IH1 IH2]; [done| |done|].
    { intros s Hs. rewrite Hacc; [apply Hfree; by right|]. intros [= ->]. done. }
    split.
    + intros s [->|Hs]%elem_of_cons; [|by apply IH1].
      assert (d !! (first, second) = c) as ->; [|exact Hc].
      rewrite IH2; [|intros s Hs [= ->]; done]. unfold acc'. destruct c; [apply dict_lookup_insert_eq|].
      apply Hfree. by left.
    + intros k Hk. rewrite IH2; [apply Hacc, Hk; by left|]. intros s Hs. apply Hk. by right.
Qed.

Lemma correlate_all_spec symbols acc d :
  NoDup symbols -> (forall a b, a ∈ symbols -> b ∈ symbols -> acc !! (a, b) = None) ->
  correlate_all minimum_overlap returns symbols acc = Ok d ->
  (forall i j a b, symbols !! i = Some a -> symbols !! j = Some b -> (i < j)%nat -> pair_entry a b (d !! (a, b))) /\
  (forall k, (forall i j a b, symbols !! i = Some a -> symbols !! j = Some b -> (i < j)%nat -> k <> (a, b)) ->
     d !! k = acc !! k).
Proof.
  revert acc. induction symbols as [|first later IH]; intros acc Hnd Hfree H; simpl in H.
  - inv_ok H. subst d. split; [by intros [|i] j a b ?|done].
  - inv_ok H. rename a into acc', Hok into Hw, Hok0 into Hrest. apply NoDup_cons in Hnd as [Hn Hnd].
    destruct (correlate_with_spec first later acc acc' Hnd) as [W1 W2]; [|done|].
    { intros s Hs. apply Hfree; [by left|by right]. }
    destruct (IH acc') as [IH1 IH2]; [done| |done|].
    { intros a b Ha Hb. rewrite W2; [apply Hfree; by right|]. intros s Hs [= -> ->]. done. }
    split.
    + intros [|i] [|j] a b Ha Hb Hij; [lia| |lia|by apply (IH1 i j); [..|lia]].
      injection Ha as <-. rewrite IH2.
      * apply W1. by eapply list_elem_of_lookup_2.
      * intros i' j' a' b' Ha' _ _ [= -> ->]. apply Hn. by eapply list_elem_of_lookup_2.
    + intros k Hk. rewrite IH2, W2; [done| |].
      * intros s [j Hj]%list_elem_of_lookup_1. apply (Hk 0%nat (S j)); [done|done|lia].
      * intros i j a b Ha Hb Hij. apply (Hk (S i) (S j)); [done|done|lia].
Qed.
End Loops.

Lemma weak_order_str_ltb : weak_order str_ltb.
Proof.
  split.
  - intros x y H. destruct (str_cases x y) as [(? & ? & _)|[(? & ? & _)| ->]]; [done|congruence|]. by rewrite str_ltb_irrefl in H.
  - intros x y z H1 H2. destruct (str_ltb z x) eqn:E; [|done].
    destruct (str_cases y x) as [(? & _)|[(_ & Hxy & _)| ->]]; [congruence| |]; [|by rewrite H2 in E].
    by rewrite (str_ltb_trans _ _ _ E Hxy) in H2.
Qed.

Lemma sorted_lookup {A} (R : A -> A -> Prop) l i j x y : StronglySorted R l ->
  l !! i = Some x -> l !! j = Some y -> (i < j)%nat -> R x y.
Proof.
  intros Hs. revert i j. induction Hs as [|z l Hs IH Hall]; intros i j Hi Hj Hij; [done|].
  destruct i as [|i], j as [|j]; [lia| |lia|by apply (IH i j); [..|lia]].
  injection Hi as <-. rewrite Forall_forall in Hall. apply Hall. by eapply list_elem_of_lookup_2.
Qed.

(** The correlations the allocation stage reads: each pair of symbols
    has at most one entry, under its names in alphabetical order; there it
    holds the Pearson correlation of the latest common returns when there
    are enough of them and neither series is constant, and nothing otherwise
    (read as 0.0); the reverse order never has an entry. *)
Theorem correlations_exact closes minimum_overlap d a b :
  dict_wf closes -> compute_return_correlations closes minimum_overlap = Ok d ->
  a ∈ dict_keys closes -> b ∈ dict_keys closes -> str_ltb a b = true ->
  pair_correlation minimum_overlap (returns_of closes a) (returns_of closes b) = Ok (d !! (a, b)) /\
  d !! (b, a) = None.
Proof.
  intros Hwf Hd Ha Hb Hlt. unfold compute_return_correlations in Hd.
  set (symbols := py_sorted str_ltb (dict_keys closes)) in *.
  assert (Hnd : NoDup symbols) by (unfold symbols; by rewrite py_sorted_perm).
  assert (Hs : StronglySorted (not_after str_ltb) symbols) by (apply weak_order_sorted, weak_order_str_ltb).
  assert (Hord : forall i j x y, symbols !! i = Some x -> symbols !! j = Some y -> (i < j)%nat -> str_ltb y x = false)
    by (intros i j x y Hx Hy Hij; exact (sorted_lookup _ _ _ _ _ _ Hs Hx Hy Hij)).
  destruct (correlate_all_spec minimum_overlap (returns_of closes) symbols ∅ d Hnd ltac:(done) Hd) as [H1 H2].
  assert (Hin : forall x, x ∈ dict_keys closes -> exists i, symbols !! i = Some x).
  { intros x Hx. apply list_elem_of_lookup_1. unfold symbols. by rewrite py_sorted_elem. }
  destruct (Hin a Ha) as [i Hi], (Hin b Hb) as [j Hj]. split.
  - apply (H1 i j); [done..|]. destruct (Nat.lt_trichotomy i j) as [?|[->|Hji]]; [done| |].
    + rewrite Hi in Hj. injection Hj as ->. by rewrite str_ltb_irrefl in Hlt.
    + rewrite (Hord j i b a) in Hlt by done. done.
  - rewrite H2; [done|]. intros i' j' a' b' Hi' Hj' Hij [= -> ->]. rewrite (Hord i' j' a' b') in Hlt by done. done.
Qed.
End Correlation.

Module CorrelationExample.
Definition closes : dict string (list float) :=
  Dict [("TCS", [100; 102; 101; 105]%float); ("INFY", [50; 51; 50.5; 52.5]%float); ("SBIN", [10; 11]%float)].
Definition squared (x : float) : result float := Ok (x * x)%float.
Abbreviation computed := (compute_return_correlations squared closes 3).

(** INFY and TCS moved alike; SBIN has too little history. *)
Lemma correlations_exact_witness : exists d, computed = Ok d /\
  pair_correlation squared 3 (returns_of closes "INFY") (returns_of closes "TCS") = Ok (d !! ("INFY", "TCS")) /\
  d !! ("TCS", "INFY") = None /\ is_Some (d !! ("INFY", "TCS")) /\ d !! ("INFY", "SBIN") = None.
Proof.
  destruct computed as [d|] eqn:E; [|vm_compute in E; discriminate].
  destruct (correlations_exact squared closes 3 d "INFY" "TCS") as [H1 H2].
  - unfold dict_wf. apply (bool_decide_unpack _). vm_compute. exact I.
  - exact E.
  - right. left.
  - left.
  - reflexivity.
  - exists d. split; [done|]. split; [exact H1|]. split; [exact H2|].
    vm_compute in E. injection E as <-. split; [by eexists|reflexivity].
Defined.
End CorrelationExample.
