(* ===== verification/PaperPolicy.v ===== *)
(** * Paper trading policy from the environment (src/nanodelta/runtime/paper_policy.py)

    The allocation policy, the risk limits, the tradeability and the regime
    limits a runtime starts with, read from environment variables with their
    defaults. *)

From Stdlib Require Import ZArith Lia Floats Ascii String ZifyBool.
From stdpp Require Import prelude strings pretty numbers list.
From S2P Require Import Prelude PyData PyFloat FloatTheory FloatRound PyText PyDigits PyParse PyTime PyDate Contracts Registry Risk Decisions StrategyRuntime Pipeline.
From S2P Require Import Technical Screening Strategies Regime.

Local Open Scope Z_scope.

(** [os.environ] *)
Abbreviation environment := (dict string string).

Section Policy.
Context (environ : environment).

(** [os.environ.get(name, "").strip()] *)
Definition setting (name : string) : string := str_strip (default "" (environ !! name)).

(** [_required] and [_optional] *)
Definition required (name : string) : result float :=
  let value := setting name in
  _ ← raise_if (str_empty value) (RuntimeError (name +:+ " is required for paper trading policy"));
  match py_float_str value with
  | Ok x => Ok x
  | Err _ => Err (RuntimeError (name +:+ " must be numeric"))
  end.
Definition optional (name : string) (default_ : float) : result float :=
  let value := setting name in
  if str_empty value then Ok default_ else py_float_str value.
(** [int(...)] of either *)
Definition required_int (name : string) : result Z := x ← required name; int_of_float x.
Definition optional_int (name : string) (default_ : float) : result Z := x ← optional name default_; int_of_float x.

Definition build_allocation_policy : result AllocationPolicy :=
  equity ← required "NANODELTA_PAPER_EQUITY_INR";
  risk_per_trade ← required "NANODELTA_PAPER_RISK_PER_TRADE_INR";
  max_positions ← required_int "NANODELTA_PAPER_MAX_POSITIONS";
  max_sector_positions ← required_int "NANODELTA_PAPER_MAX_SECTOR_POSITIONS";
  risk_fraction ← fdiv risk_per_trade equity;
  max_order_notional ← optional "NANODELTA_PAPER_MAX_ORDER_NOTIONAL_INR" equity;
  max_total_new_notional ← optional "NANODELTA_PAPER_MAX_TOTAL_NEW_NOTIONAL_INR" equity;
  let policy := {| ap_equity := equity; ap_risk_fraction_per_trade := risk_fraction; ap_max_order_notional := max_order_notional;
                   ap_max_total_new_notional := max_total_new_notional; ap_max_positions := max_positions;
                   ap_max_sector_positions := max_sector_positions; ap_max_pairwise_correlation := 0.7; ap_minimum_expected_r := 0;
                   ap_maximum_entry_drift_fraction := 0.003; ap_minimum_reward_risk := 1 |} in
  _ ← AllocationPolicy_post_init policy;
  mret policy.

Definition build_tradeability_limits : result TradeabilityLimits :=
  minimum_price ← optional "NANODELTA_TRADEABILITY_MIN_PRICE" 20;
  minimum_average_volume ← optional "NANODELTA_TRADEABILITY_MIN_AVG_VOLUME" 10000;
  minimum_average_traded_value ← optional "NANODELTA_TRADEABILITY_MIN_AVG_TRADED_VALUE" 1000000;
  minimum_atr_pct ← optional "NANODELTA_TRADEABILITY_MIN_ATR_PCT" 0.001;
  maximum_atr_pct ← optional "NANODELTA_TRADEABILITY_MAX_ATR_PCT" 0.08;
  maximum_gap_pct ← optional "NANODELTA_TRADEABILITY_MAX_GAP_PCT" 0.05;
  average_window ← optional_int "NANODELTA_TRADEABILITY_AVERAGE_WINDOW" 20;
  maximum_bar_gap_multiple ← optional "NANODELTA_TRADEABILITY_MAX_BAR_GAP_MULTIPLE" 1.5;
  maximum_reprice_pct ← optional "NANODELTA_TRADEABILITY_MAX_REPRICE_PCT" 0.30;
  maximum_spread_pct ← optional "NANODELTA_TRADEABILITY_MAX_SPREAD_PCT" 0.01;
  circuit_proximity_pct ← optional "NANODELTA_TRADEABILITY_CIRCUIT_PROXIMITY_PCT" 0.02;
  let limits := {| tl_minimum_price := minimum_price; tl_minimum_average_volume := minimum_average_volume;
                   tl_minimum_average_traded_value := minimum_average_traded_value; tl_minimum_atr_pct := minimum_atr_pct;
                   tl_maximum_atr_pct := maximum_atr_pct; tl_maximum_gap_pct := maximum_gap_pct; tl_average_window := average_window;
                   tl_maximum_bar_gap_multiple := maximum_bar_gap_multiple; tl_maximum_reprice_pct := maximum_reprice_pct;
                   tl_maximum_spread_pct := maximum_spread_pct; tl_circuit_proximity_pct := circuit_proximity_pct |} in
  _ ← TradeabilityLimits_post_init limits;
  mret limits.

Definition build_symbol_regime_limits : result SymbolRegimeLimits :=
  adx_no_trend ← optional "NANODELTA_SYMBOL_REGIME_ADX_NO_TREND" 20;
  adx_strong_trend ← optional "NANODELTA_SYMBOL_REGIME_ADX_STRONG_TREND" 35;
  minimum_fit ← optional "NANODELTA_SYMBOL_REGIME_MIN_FIT" 0.4;
  maximum_fit ← optional "NANODELTA_SYMBOL_REGIME_MAX_FIT" 1.2;
  misaligned_penalty ← optional "NANODELTA_SYMBOL_REGIME_MISALIGNED_PENALTY" 0.7;
  minimum_volume_ratio ← optional "NANODELTA_SYMBOL_REGIME_MIN_VOLUME_RATIO" 0.8;
  low_volume_penalty ← optional "NANODELTA_SYMBOL_REGIME_LOW_VOLUME_PENALTY" 0.8;
  compression_range_pct ← optional "NANODELTA_SYMBOL_REGIME_COMPRESSION_RANGE_PCT" 0.03;
  let limits := {| srl_adx_no_trend := adx_no_trend; srl_adx_strong_trend := adx_strong_trend; srl_minimum_fit := minimum_fit;
                   srl_maximum_fit := maximum_fit; srl_misaligned_penalty := misaligned_penalty;
                   srl_minimum_volume_ratio := minimum_volume_ratio; srl_low_volume_penalty := low_volume_penalty;
                   srl_compression_range_pct := compression_range_pct |} in
  _ ← SymbolRegimeLimits_post_init limits;
  mret limits.

Definition build_risk_limits : result RiskLimits :=
  equity ← required "NANODELTA_PAPER_EQUITY_INR";
  max_positions ← required_int "NANODELTA_PAPER_MAX_POSITIONS";
  max_order_notional ← optional "NANODELTA_PAPER_MAX_ORDER_NOTIONAL_INR" equity;
  max_position_notional ← optional "NANODELTA_PAPER_MAX_POSITION_NOTIONAL_INR" equity;
  max_market_gross_exposure ← optional "NANODELTA_PAPER_MAX_MARKET_GROSS_EXPOSURE_INR" equity;
  max_total_gross_exposure ← optional "NANODELTA_PAPER_MAX_TOTAL_GROSS_EXPOSURE_INR" equity;
  max_daily_loss ← optional "NANODELTA_PAPER_MAX_DAILY_LOSS_INR" (equity * 0.05)%float;
  positions ← float_of_int max_positions;
  max_open_positions ← optional_int "NANODELTA_PAPER_MAX_OPEN_POSITIONS" positions;
  max_snapshot_age_seconds ← optional_int "NANODELTA_PAPER_MAX_SNAPSHOT_AGE_SECONDS" 30;
  let limits := {| rl_max_order_notional := max_order_notional; rl_max_position_notional := max_position_notional;
                   rl_max_market_gross_exposure := max_market_gross_exposure; rl_max_total_gross_exposure := max_total_gross_exposure;
                   rl_max_daily_loss := max_daily_loss; rl_max_open_positions := max_open_positions;
                   rl_max_snapshot_age_seconds := max_snapshot_age_seconds |} in
  _ ← RiskLimits_post_init limits;
  mret limits.
End Policy.

(** ** The policies agree *)

Definition unset (environ : environment) (name : string) : Prop := str_empty (setting environ name) = true.

Lemma optional_unset environ name x y : unset environ name -> optional environ name x = Ok y -> y = x.
Proof. unfold unset, optional. intros ->. by intros [= ->]. Qed.
Lemma int_of_whole n : 0 <= n < 2 ^ 53 -> int_of_float (float_of_Z n) = Ok n.
Proof.
  intros Hn. destruct (float_of_Z_exact n Hn) as [Hf Hv]. unfold int_of_float. rewrite (isfinite_nan _ Hf), Hf, Hv. cbn.
  f_equal. apply Z.quot_mul. lia.
Qed.

(** Allocation and risk are built from one environment and agree: an order
    the allocation may size is within the order limit of the risk engine,
    which is the same number; without overrides the gross exposure limits are
    the equity, the daily loss limit a twentieth of it, and the risk engine
    admits exactly as many open positions as the allocation. *)
Theorem policies_agree environ p l : build_allocation_policy environ = Ok p -> build_risk_limits environ = Ok l ->
  p.(ap_max_order_notional) = l.(rl_max_order_notional) /\
  (unset environ "NANODELTA_PAPER_MAX_MARKET_GROSS_EXPOSURE_INR" -> l.(rl_max_market_gross_exposure) = p.(ap_equity)) /\
  (unset environ "NANODELTA_PAPER_MAX_TOTAL_GROSS_EXPOSURE_INR" -> l.(rl_max_total_gross_exposure) = p.(ap_equity)) /\
  (unset environ "NANODELTA_PAPER_MAX_DAILY_LOSS_INR" -> l.(rl_max_daily_loss) = (p.(ap_equity) * 0.05)%float) /\
  (unset environ "NANODELTA_PAPER_MAX_OPEN_POSITIONS" -> p.(ap_max_positions) < 2 ^ 53 -> l.(rl_max_open_positions) = p.(ap_max_positions)).
Proof.
  unfold build_allocation_policy, build_risk_limits. intros Hp Hl. cbv zeta in Hp, Hl.
  apply result_bind_ok in Hp as (equity & Eeq & Hp). rewrite Eeq in Hl. apply result_bind_ok in Hl as (eq' & [= <-] & Hl).
  apply result_bind_ok in Hp as (risk & _ & Hp). apply result_bind_ok in Hp as (maxp & Emp & Hp). rewrite Emp in Hl.
  apply result_bind_ok in Hl as (maxp' & [= <-] & Hl).
  apply result_bind_ok in Hp as (sec & _ & Hp). apply result_bind_ok in Hp as (frac & _ & Hp).
  apply result_bind_ok in Hp as (mon & Emon & Hp). rewrite Emon in Hl. apply result_bind_ok in Hl as (mon' & [= <-] & Hl).
  apply result_bind_ok in Hp as (tot & _ & Hp). apply result_bind_ok in Hp as (u & Hchk & [= <-]).
  apply result_bind_ok in Hl as (pos & _ & Hl). apply result_bind_ok in Hl as (mge & Emge & Hl). apply result_bind_ok in Hl as (tge & Etge & Hl).
  apply result_bind_ok in Hl as (mdl & Emdl & Hl). apply result_bind_ok in Hl as (fp & Efp & Hl). apply result_bind_ok in Hl as (mop & Emop & Hl).
  apply result_bind_ok in Hl as (age & _ & Hl). apply result_bind_ok in Hl as (u' & _ & [= <-]). cbn.
  split; [done|]. split; [intros Hu; exact (optional_unset _ _ _ _ Hu Emge)|]. split; [intros Hu; exact (optional_unset _ _ _ _ Hu Etge)|].
  split; [intros Hu; exact (optional_unset _ _ _ _ Hu Emdl)|]. intros Hu Hle.
  unfold optional_int in Emop. apply result_bind_ok in Emop as (x & Ex & Ei). rewrite (optional_unset _ _ _ _ Hu Ex) in Ei.
  unfold AllocationPolicy_post_init in Hchk. apply result_bind_ok in Hchk as (u0 & Hg & _). apply raise_if_ok, orb_false_iff in Hg as [_ Hg]. cbn in Hg.
  assert (Hpos : 0 < maxp) by lia. unfold float_of_int in Efp. destruct (Z.abs maxp <? 2 ^ 1024 - 2 ^ 970) eqn:Eb; [|done]. injection Efp as <-.
  rewrite int_of_whole in Ei by lia. by injection Ei as <-.
Qed.

Module PaperPolicyExample.
Definition environ : environment :=
  Dict [("NANODELTA_PAPER_EQUITY_INR", "1000000"); ("NANODELTA_PAPER_RISK_PER_TRADE_INR", " 5e3 "); ("NANODELTA_PAPER_MAX_POSITIONS", "5");
        ("NANODELTA_PAPER_MAX_SECTOR_POSITIONS", "2.9"); ("NANODELTA_TRADEABILITY_MIN_PRICE", "50")].

Definition built : result AllocationPolicy := Eval vm_compute in build_allocation_policy environ.
Definition built_limits : result RiskLimits := Eval vm_compute in build_risk_limits environ.

Lemma policies_agree_witness :
  exists p l, build_allocation_policy environ = Ok p /\ build_risk_limits environ = Ok l /\
    l.(rl_max_daily_loss) = 50000%float /\ l.(rl_max_open_positions) = p.(ap_max_positions).
Proof.
  assert (Hp : build_allocation_policy environ = built) by (vm_compute; reflexivity).
  assert (Hl : build_risk_limits environ = built_limits) by (vm_compute; reflexivity).
  destruct built as [p|e] eqn:Ep; [|discriminate Ep]. destruct built_limits as [l|e] eqn:El; [|discriminate El].
  exists p, l. destruct (policies_agree environ p l Hp Hl) as (_ & _ & _ & Hd & Ho). split; [exact Hp|]. split; [exact Hl|].
  injection Ep as Ep. injection El as El. split; [rewrite (Hd ltac:(vm_compute; reflexivity)), <-Ep; vm_compute; reflexivity|].
  apply Ho; [vm_compute; reflexivity|rewrite <-Ep; vm_compute; reflexivity].
Defined.

(** A fraction of a position is cut off, and a variable that is not a number
    is reported by name only when it is required. *)
Lemma settings_examples :
  (ap_max_sector_positions <$> match build_allocation_policy environ with Ok p => Some p | Err _ => None end) = Some 2 /\
  build_allocation_policy (<["NANODELTA_PAPER_EQUITY_INR" := "ten"]> environ) = Err (RuntimeError "NANODELTA_PAPER_EQUITY_INR must be numeric") /\
  build_tradeability_limits (<["NANODELTA_TRADEABILITY_MIN_PRICE" := "ten"]> environ) = Err (ValueError "could not convert string to float: 'ten'") /\
  is_ok (build_symbol_regime_limits environ) = true /\
  build_allocation_policy (<["NANODELTA_PAPER_EQUITY_INR" := "0"]> environ) = Err ZeroDivisionError.
Proof. vm_compute. repeat split. Qed.
End PaperPolicyExample.
