(* ===== verification/PaperDecision.v ===== *)
(** * The paper decision service (src/nanodelta/runtime/paper_decision.py,
    portfolio_snapshot.py, technical_context.py, and the reads of regime.py
    and correlation.py)

    One cycle over newly materialised Gold rows composes the modelled parts:
    marks and portfolio are read, triggered plans exit, contexts are built
    from indicators, regimes and quotes, the staged pipeline runs, the batch
    is executed and protective plans are registered.

    A database query is an operation of the outside world [E] that may look at
    the durable paper state; it returns rows or raises.  A connection is
    opened and closed within it. *)

From Stdlib Require Import ZArith Lia Floats Ascii String ZifyBool.
From stdpp Require Import prelude strings pretty numbers list sorting.
From S2P Require Import Prelude PyData PyFloat FloatTheory PyText PyDigits PyParse Sha256 PyTime PyDate Contracts Timeframes NseSession Registry Risk Execution Outcomes Decisions.
From S2P Require Import StrategyRuntime Pipeline PipelineTheory PaperBatch Lifecycle Technical Screening Strategies Sectors Regime Correlation.

Local Open Scope Z_scope.

(** ** Rows and the outside world *)

(** [providers/dhan.py]: the circuit limits and best prices of a quote *)
Record QuoteSnapshot := {
  qs_upper_circuit_limit : float;
  qs_lower_circuit_limit : float;
  qs_best_bid : option float;
  qs_best_ask : option float }.

Record PaperEnv (L E : Type) := {
  (** the latest settled close of every symbol of a market *)
  pv_marks : LifeWorld L -> Market -> M E (list (string * float));
  (** symbol and signed quantity of the open positions of an account *)
  pv_positions : LifeWorld L -> Market -> string -> M E (list (string * float));
  (** the sum of the net results realised in a half-open interval *)
  pv_realized_pnl : LifeWorld L -> Market -> string -> datetime -> datetime -> M E (option float);
  (** settled candles of a series, newest first: open time and values *)
  pv_candles : Market -> string -> string -> M E (list (datetime * float * float * float * float * float));
  (** symbols with settled candles in a timeframe *)
  pv_symbols : Market -> string -> M E (list string);
  (** symbol and close of the settled daily candles, newest first *)
  pv_daily : Market -> list string -> M E (list (string * float));
  pv_fetch_quotes : option (list string -> M E (dict string QuoteSnapshot));
  pv_clock : M E datetime;
  pv_entry_session_open : Market -> datetime -> M E bool;
  (** the order in which a set of symbols iterates, and the power of two *)
  pv_set_order : list string -> list string;
  pv_square : float -> result float }.
Arguments pv_marks {L E} _.
Arguments pv_positions {L E} _.
Arguments pv_realized_pnl {L E} _.
Arguments pv_candles {L E} _.
Arguments pv_symbols {L E} _.
Arguments pv_daily {L E} _.
Arguments pv_fetch_quotes {L E} _.
Arguments pv_clock {L E} _.
Arguments pv_entry_session_open {L E} _.
Arguments pv_set_order {L E} _.
Arguments pv_square {L E} _.

Record PaperDecisionResult := {
  pd_market : Market;
  pd_cycle_id : string;
  pd_mode : CycleMode;
  pd_candidate_count : Z;
  pd_allocation_count : Z;
  pd_risk_decision_count : Z;
  pd_order_count : Z;
  pd_exit_count : Z }.

(** The service's fixed collaborators; the lifecycle, if any, has its own
    risk limits and execution policy and shares engine and ledger. *)
Record PaperDecisionService (L : Type) := {
  ds_pipeline : StagedDecisionPipeline L;
  ds_batch : PaperBatchExecutor;
  ds_account_id : string;
  ds_equity : float;
  ds_tradeability : TradeabilityLimits;
  ds_symbol_regime : SymbolRegimeLimits;
  ds_max_age : float;
  ds_lifecycle : option (RiskLimits * ExecutionPolicy) }.
Arguments ds_pipeline {L} _.
Arguments ds_batch {L} _.
Arguments ds_account_id {L} _.
Arguments ds_equity {L} _.
Arguments ds_tradeability {L} _.
Arguments ds_symbol_regime {L} _.
Arguments ds_max_age {L} _.
Arguments ds_lifecycle {L} _.

Definition PaperDecisionService_init {L} (self : PaperDecisionService L) : result (PaperDecisionService L) :=
  _ ← raise_if (str_blank self.(ds_account_id) || (self.(ds_equity) <=? 0)%float || (self.(ds_max_age) <=? 0)%float)
        (ValueError "paper account, equity and feature age must be positive");
  _ ← StagedDecisionPipeline_init self.(ds_pipeline);
  mret self.

(** What changes: the durable paper state, the caches and the world. *)
Record PaperWorld (L E : Type) := MkPaperWorld {
  pw_life : LifeWorld L;
  pw_env : E;
  pw_quote_cache : dict string QuoteSnapshot;
  pw_quote_cache_at : dict string datetime;
  pw_market_regime_cache : option RegimeBreadth;
  pw_market_regime_cache_at : option datetime;
  pw_sector_regime_cache : dict string RegimeBreadth;
  pw_sector_regime_cache_at : dict string datetime }.
Arguments MkPaperWorld {L E} _ _ _ _ _ _ _ _.
Arguments pw_life {L E} _.
Arguments pw_env {L E} _.
Arguments pw_quote_cache {L E} _.
Arguments pw_quote_cache_at {L E} _.
Arguments pw_market_regime_cache {L E} _.
Arguments pw_market_regime_cache_at {L E} _.
Arguments pw_sector_regime_cache {L E} _.
Arguments pw_sector_regime_cache_at {L E} _.

Definition set_life {L E} (x : LifeWorld L) (w : PaperWorld L E) : PaperWorld L E :=
  MkPaperWorld x w.(pw_env) w.(pw_quote_cache) w.(pw_quote_cache_at) w.(pw_market_regime_cache) w.(pw_market_regime_cache_at)
    w.(pw_sector_regime_cache) w.(pw_sector_regime_cache_at).
Definition set_env {L E} (x : E) (w : PaperWorld L E) : PaperWorld L E :=
  MkPaperWorld w.(pw_life) x w.(pw_quote_cache) w.(pw_quote_cache_at) w.(pw_market_regime_cache) w.(pw_market_regime_cache_at)
    w.(pw_sector_regime_cache) w.(pw_sector_regime_cache_at).
Definition set_quotes {L E} (cache : dict string QuoteSnapshot) (at_ : dict string datetime) (w : PaperWorld L E) : PaperWorld L E :=
  MkPaperWorld w.(pw_life) w.(pw_env) cache at_ w.(pw_market_regime_cache) w.(pw_market_regime_cache_at)
    w.(pw_sector_regime_cache) w.(pw_sector_regime_cache_at).
Definition set_market_regime {L E} (r : RegimeBreadth) (at_ : datetime) (w : PaperWorld L E) : PaperWorld L E :=
  MkPaperWorld w.(pw_life) w.(pw_env) w.(pw_quote_cache) w.(pw_quote_cache_at) (Some r) (Some at_)
    w.(pw_sector_regime_cache) w.(pw_sector_regime_cache_at).
Definition set_sector_regime {L E} (sector : string) (r : RegimeBreadth) (at_ : datetime) (w : PaperWorld L E) : PaperWorld L E :=
  MkPaperWorld w.(pw_life) w.(pw_env) w.(pw_quote_cache) w.(pw_quote_cache_at) w.(pw_market_regime_cache) w.(pw_market_regime_cache_at)
    (<[sector := r]> w.(pw_sector_regime_cache)) (<[sector := at_]> w.(pw_sector_regime_cache_at)).

(** The methods of the parts, in the service's world. *)
Definition in_env {L E A} (m : M E A) : M (PaperWorld L E) A := zoom pw_env set_env m.
Definition in_life {L E A} (m : M (LifeWorld L) A) : M (PaperWorld L E) A := zoom pw_life set_life m.
Definition in_cycle_ledger {L E A} (m : M L A) : M (PaperWorld L E) A := in_life (in_log m).
Definition in_batch {L E A} (m : M (BatchWorld L) A) : M (PaperWorld L E) A :=
  in_life (zoom (fun w => MkBatchWorld w.(lw_engine) w.(lw_ledger))
                (fun b w => MkLifeWorld w.(lw_store) b.(bw_engine) w.(lw_outcomes) b.(bw_ledger)) m).
(** A query that looks at the durable state. *)
Definition query {L E A} (q : LifeWorld L -> M E A) : M (PaperWorld L E) A := w ← get_state; in_env (q w.(pw_life)).

(** ** technical_context.py *)

Definition CANDLE_WINDOW : nat := 100.

Definition candle_of_row (row : datetime * float * float * float * float * float) : result TechnicalCandle :=
  let '(t, o, h, l, c, v) := row in
  let candle := {| tc_event_time := t; tc_open := o; tc_high := h; tc_low := l; tc_close := c; tc_volume := v; tc_settled := true |} in
  _ ← TechnicalCandle_post_init candle;
  mret candle.

(** The last snapshot of a window, if every indicator is warm. *)
Definition warm_values (candles : list TechnicalCandle) : result (option (dict string float)) :=
  match candles with
  | [] => mret None
  | _ =>
      snapshots ← materialize_technical_features 14 14 14 3 candles;
      mret (tf_values <$> last snapshots)
  end.

Section Service.
Context {L E : Type} `{DecisionLedger L}.
Context (env : PaperEnv L E) (self : PaperDecisionService L).
Local Abbreviation PW := (PaperWorld L E).

Definition fetch_settled_candles (market : Market) (symbol timeframe : string) : M PW (list TechnicalCandle) :=
  rows ← in_env (env.(pv_candles) market symbol timeframe);
  lift (map_result candle_of_row (take CANDLE_WINDOW rows)).

Definition latest_technical_features (market : Market) (symbol timeframe : string) : M PW (option (dict string float)) :=
  candles ← fetch_settled_candles market symbol timeframe;
  lift (warm_values candles).

Definition latest_technical_snapshot (market : Market) (symbol timeframe : string)
    : M PW (option (dict string float * list TechnicalCandle)) :=
  candles ← fetch_settled_candles market symbol timeframe;
  values ← lift (warm_values candles);
  mret ((fun v => (v, candles)) <$> values).

(** ** regime.py: what its reads give *)

Definition fetch_breadth_inputs (market : Market) (symbols : list string) (timeframe : string)
    : M PW (dict string float * dict string bool) :=
  fold_each symbols (∅, ∅) (fun '(adx_by_symbol, bullish_by_symbol) symbol =>
    values ← latest_technical_features market symbol timeframe;
    match values with
    | None => mret (adx_by_symbol, bullish_by_symbol)
    | Some values =>
        adx ← lift (feature values "adx_14");
        ema_9 ← lift (feature values "ema_9");
        ema_21 ← lift (feature values "ema_21");
        mret (<[symbol := adx]> adx_by_symbol, <[symbol := fgt ema_9 ema_21]> bullish_by_symbol)
    end).

Definition fetch_index_snapshot (index_symbol timeframe : string) : M PW (option (dict string float)) :=
  latest_technical_features NSE index_symbol timeframe.

(** [classify_breadth] with its defaults and a minimum of symbols *)
Definition breadth_of (minimum_symbols : Z) (inputs : dict string float * dict string bool) : result RegimeBreadth :=
  let '(adx, bullish) := inputs in
  classify_breadth {| bp_minimum_symbols := minimum_symbols; bp_trending_adx := default_breadth.(bp_trending_adx);
                      bp_bullish_majority := default_breadth.(bp_bullish_majority); bp_bearish_majority := default_breadth.(bp_bearish_majority);
                      bp_ranging_fit := default_breadth.(bp_ranging_fit); bp_trending_fit := default_breadth.(bp_trending_fit);
                      bp_volatile_fit := default_breadth.(bp_volatile_fit) |}
    (env.(pv_set_order) (breadth_symbols adx bullish)) adx bullish.
Definition index_regime_of (values : dict string float) : result RegimeBreadth := classify_index_regime values 22 0.012 0.7 1.15 0.6.
Definition risk_off_of (vix_close : float) : RegimeBreadth := classify_risk_off vix_close 20 25 1 0.75 0.5.

(** ** portfolio_snapshot.py *)

Definition day_bounds (now : datetime) : result (datetime * datetime) :=
  local ← astimezone now 0;
  let start := at_utc (date_of local * day) in
  end_ ← dt_add start day;
  mret (start, end_).

Definition open_position (market : Market) (account_id : string) (mark_prices : dict string float) (row : string * float)
    : result PortfolioPosition :=
  let '(symbol, signed_quantity) := row in
  match mark_prices !! symbol with
  | None => Err (RuntimeError ("no mark price supplied for open position " +:+ (Market_value market +:+ (":" +:+ (symbol +:+
                   "; refusing to build a risk snapshot that silently omits its exposure")))))
  | Some mark_price =>
      _ ← raise_if (negb (isfinite mark_price) || (mark_price <=? 0)%float)
            (ValueError ("mark price for open position " +:+ (Market_value market +:+ (":" +:+ (symbol +:+ " must be finite and positive")))));
      mret {| pp_market := market; pp_account_id := account_id; pp_symbol := symbol; pp_signed_quantity := signed_quantity;
              pp_mark_price := mark_price |}
  end.

(** Python's order of the tuples (market, account, symbol, quantity, mark). *)
Definition normalized_before (a b : PortfolioPosition) : bool :=
  if negb (String.eqb (Market_value a.(pp_market)) (Market_value b.(pp_market)))
  then str_ltb (Market_value a.(pp_market)) (Market_value b.(pp_market))
  else if negb (String.eqb a.(pp_account_id) b.(pp_account_id)) then str_ltb a.(pp_account_id) b.(pp_account_id)
  else if negb (String.eqb a.(pp_symbol) b.(pp_symbol)) then str_ltb a.(pp_symbol) b.(pp_symbol)
  else if negb (a.(pp_signed_quantity) =? b.(pp_signed_quantity))%float then (a.(pp_signed_quantity) <? b.(pp_signed_quantity))%float
  else (a.(pp_mark_price) <? b.(pp_mark_price))%float.
Definition repr_position (p : PortfolioPosition) : string :=
  repr_tuple [repr_str (Market_value p.(pp_market)); repr_str p.(pp_account_id); repr_str p.(pp_symbol);
              repr_float p.(pp_signed_quantity); repr_float p.(pp_mark_price)].

Definition load_open_positions (market : Market) (account_id : string) (mark_prices : dict string float) : M PW (list PortfolioPosition) :=
  rows ← query (fun life => env.(pv_positions) life market account_id);
  lift (map_result (open_position market account_id mark_prices) rows).

Definition load_realized_pnl_today (market : Market) (account_id : string) (now : datetime) : M PW float :=
  '(start, end_) ← lift (day_bounds now);
  row ← query (fun life => env.(pv_realized_pnl) life market account_id start end_);
  mret (default 0%float row).

Definition build_portfolio_snapshot (market : Market) (account_id : string) (equity : float) (mark_prices : dict string float)
    (now : datetime) : M PW PortfolioSnapshot :=
  positions ← load_open_positions market account_id mark_prices;
  realized_pnl_today ← load_realized_pnl_today market account_id now;
  let snapshot := {|
    ps_snapshot_id := stable_id ["portfolio-snapshot"; Market_value market; account_id; repr_float equity; repr_float realized_pnl_today;
                                 repr_tuple (repr_position <$> py_sorted normalized_before positions); isoformat now];
    ps_account_id := account_id; ps_equity := equity; ps_realized_pnl_today := realized_pnl_today; ps_positions := positions;
    ps_captured_at := now |} in
  _ ← lift (PortfolioSnapshot_post_init snapshot);
  mret snapshot.

(** ** Regimes *)

Definition REGIME_TIMEFRAME : string := "15m".
Definition REGIME_CACHE_TTL_SECONDS : float := 60.
Definition QUOTE_CACHE_TTL_SECONDS : float := 30.
Definition HIGHER_TIMEFRAME : dict string string :=
  Dict [("1m", "5m"); ("5m", "15m"); ("15m", "1h"); ("30m", "1h"); ("1h", "1d")].

(** [(now - at).total_seconds()] *)
Definition seconds_since (at_ now : datetime) : float := total_seconds (instant now - instant at_).

Definition regime_universe_symbols (market : Market) : M PW (list string) := in_env (env.(pv_symbols) market REGIME_TIMEFRAME).

Definition compute_market_regime (market : Market) : M PW RegimeBreadth :=
  index_values ← (if bool_decide (market = NSE) then fetch_index_snapshot MARKET_INDEX_SYMBOL REGIME_TIMEFRAME else mret None);
  match index_values with
  | Some index_values =>
      breadth ← lift (index_regime_of index_values);
      vix_values ← fetch_index_snapshot VIX_SYMBOL REGIME_TIMEFRAME;
      match vix_values with
      | None => mret breadth
      | Some vix_values =>
          vix_close ← lift (feature vix_values "close");
          let risk_off := risk_off_of vix_close in
          mret {| rb_label := breadth.(rb_label) +:+ ("_" +:+ risk_off.(rb_label)); rb_fit := (breadth.(rb_fit) * risk_off.(rb_fit))%float |}
      end
  | None =>
      symbols ← regime_universe_symbols market;
      inputs ← fetch_breadth_inputs market symbols REGIME_TIMEFRAME;
      lift (breadth_of 5 inputs)
  end.

Definition market_regime (market : Market) (now : datetime) : M PW RegimeBreadth :=
  w ← get_state;
  match w.(pw_market_regime_cache), w.(pw_market_regime_cache_at) with
  | Some cached, Some cached_at =>
      if (seconds_since cached_at now <? REGIME_CACHE_TTL_SECONDS)%float then mret cached
      else
        breadth ← compute_market_regime market;
        _ ← modify (set_market_regime breadth now);
        mret breadth
  | _, _ =>
      breadth ← compute_market_regime market;
      _ ← modify (set_market_regime breadth now);
      mret breadth
  end.

Definition compute_sector_regime (market : Market) (sector : string) : M PW RegimeBreadth :=
  index_values ← (match (if bool_decide (market = NSE) then SECTOR_INDEX_SYMBOL !! sector else None) with
                  | Some sector_index => fetch_index_snapshot sector_index REGIME_TIMEFRAME
                  | None => mret None
                  end);
  match index_values with
  | Some index_values => lift (index_regime_of index_values)
  | None =>
      universe ← regime_universe_symbols market;
      let symbols := List.filter (fun symbol => bool_decide (sector_for symbol = Some sector)) universe in
      inputs ← fetch_breadth_inputs market symbols REGIME_TIMEFRAME;
      lift (breadth_of 3 inputs)
  end.

Definition sector_regime (market : Market) (sector : string) (now : datetime) : M PW RegimeBreadth :=
  w ← get_state;
  let fresh := match w.(pw_sector_regime_cache) !! sector, w.(pw_sector_regime_cache_at) !! sector with
               | Some cached, Some cached_at =>
                   if (seconds_since cached_at now <? REGIME_CACHE_TTL_SECONDS)%float then Some cached else None
               | _, _ => None
               end in
  match fresh with
  | Some cached => mret cached
  | None =>
      breadth ← compute_sector_regime market sector;
      _ ← modify (set_sector_regime sector breadth now);
      mret breadth
  end.

Definition market_sector_fit (market : Market) (sector : option string) (now : datetime) : M PW (float * float) :=
  market_breadth ← market_regime market now;
  sector_fit ← (match sector with
                | Some sector => if str_empty sector then mret 1%float
                                 else breadth ← sector_regime market sector now; mret breadth.(rb_fit)
                | None => mret 1%float
                end);
  mret (market_breadth.(rb_fit), sector_fit).

(** ** Contexts *)

(** [(now - event_time.astimezone(UTC)).total_seconds()], and the test *)
Definition is_fresh (event_time now : datetime) : result bool :=
  at_ ← astimezone event_time 0;
  let age := seconds_since at_ now in
  mret ((0 <=? age)%float && (age <=? self.(ds_max_age))%float).

Definition context_new (c : StrategyContext) : result StrategyContext :=
  _ ← RegimeEvidence_post_init c.(cx_regime);
  _ ← StrategyContext_post_init c;
  mret c.

Definition basic_values (f : FeatureRecord) : dict string float :=
  let values := Dict [("close", f.(fr_close)); ("return_1", f.(fr_return_1)); ("range_pct", f.(fr_range_pct)); ("body_pct", f.(fr_body_pct))] in
  match f.(fr_volume_change) with Some v => <["volume_change" := v]> values | None => values end.

(** [_basic_context] *)
Definition basic_context (now : datetime) (f : FeatureRecord) : M PW StrategyContext :=
  fresh ← lift (is_fresh f.(fr_event_time) now);
  let sector := sector_for f.(fr_symbol) in
  '(market_fit, sector_fit) ← market_sector_fit f.(fr_market) sector now;
  lift (context_new {|
    cx_market := f.(fr_market); cx_symbol := f.(fr_symbol); cx_sector := sector; cx_timeframe := f.(fr_timeframe);
    cx_trade_horizon := "intraday"; cx_feature_set_version := f.(fr_feature_version); cx_event_time := f.(fr_event_time);
    cx_gold_snapshot_ids := [f.(fr_record_id)]; cx_features := basic_values f; cx_settled := true; cx_complete := true; cx_adjusted := true;
    cx_fresh := fresh; cx_warm := true; cx_tradeable := true; cx_tradeability_reason := "TRADEABLE";
    cx_regime := {| re_market_fit := market_fit; re_sector_fit := sector_fit; re_symbol_fit := 1; re_mtf_alignment := 1;
                    re_symbol_regime_label := "UNKNOWN" |} |}).

(** [_mtf_alignment] *)
Definition mtf_alignment (f : FeatureRecord) (values : dict string float) : M PW float :=
  match HIGHER_TIMEFRAME !! f.(fr_timeframe) with
  | None => mret (evaluate_mtf_alignment None 1.15 0.75 1)
  | Some higher =>
      higher_values ← latest_technical_features f.(fr_market) f.(fr_symbol) higher;
      match higher_values with
      | None => mret (evaluate_mtf_alignment None 1.15 0.75 1)
      | Some higher_values =>
          c9 ← lift (feature values "ema_9"); c21 ← lift (feature values "ema_21");
          h9 ← lift (feature higher_values "ema_9"); h21 ← lift (feature higher_values "ema_21");
          mret (evaluate_mtf_alignment (Some (Bool.eqb (fgt c9 c21) (fgt h9 h21))) 1.15 0.75 1)
      end
  end.

(** [_technical_context] *)
Definition technical_context (now : datetime) (f : FeatureRecord) : M PW (option StrategyContext) :=
  snapshot ← latest_technical_snapshot f.(fr_market) f.(fr_symbol) f.(fr_timeframe);
  match snapshot with
  | None => mret None
  | Some (values, candles) =>
      w ← get_state;
      let quote := w.(pw_quote_cache) !! f.(fr_symbol) in
      atr ← lift (feature values "atr_14");
      '(tradeable, tradeability_reason) ← lift (evaluate_tradeability self.(ds_tradeability) candles atr (Some f.(fr_timeframe))
        ((fun q => (q.(qs_lower_circuit_limit), q.(qs_upper_circuit_limit))) <$> quote)
        (q ← quote; q.(qs_best_bid)) (q ← quote; q.(qs_best_ask)));
      '(symbol_fit, _) ← lift (evaluate_symbol_regime values self.(ds_symbol_regime));
      regime_label ← lift (classify_regime_label values self.(ds_symbol_regime));
      let sector := sector_for f.(fr_symbol) in
      '(market_fit, sector_fit) ← market_sector_fit f.(fr_market) sector now;
      alignment ← mtf_alignment f values;
      fresh ← lift (is_fresh f.(fr_event_time) now);
      context ← lift (context_new {|
        cx_market := f.(fr_market); cx_symbol := f.(fr_symbol); cx_sector := sector; cx_timeframe := f.(fr_timeframe);
        cx_trade_horizon := "intraday"; cx_feature_set_version := TECHNICAL_FEATURE_VERSION; cx_event_time := f.(fr_event_time);
        cx_gold_snapshot_ids := [f.(fr_record_id)]; cx_features := values; cx_settled := true; cx_complete := true; cx_adjusted := true;
        cx_fresh := fresh; cx_warm := true; cx_tradeable := tradeable; cx_tradeability_reason := tradeability_reason;
        cx_regime := {| re_market_fit := market_fit; re_sector_fit := sector_fit; re_symbol_fit := symbol_fit; re_mtf_alignment := alignment;
                        re_symbol_regime_label := regime_label |} |});
      mret (Some context)
  end.

(** [_refresh_quotes]: [except Exception] logs and goes on. *)
Definition stale_quotes (symbols : list string) (now : datetime) (w : PW) : list string :=
  List.filter (fun symbol => match w.(pw_quote_cache_at) !! symbol with
                             | None => true
                             | Some at_ => fge (seconds_since at_ now) QUOTE_CACHE_TTL_SECONDS
                             end) symbols.
Definition store_quotes (fetched : dict string QuoteSnapshot) (stale : list string) (now : datetime) (w : PW) : PW :=
  set_quotes (foldl (fun cache symbol => match fetched !! symbol with Some q => <[symbol := q]> cache | None => cache end) w.(pw_quote_cache) stale)
             (foldl (fun at_ symbol => <[symbol := now]> at_) w.(pw_quote_cache_at) stale) w.
Definition is_base_exception (e : exn) : bool :=
  match e with OtherException cls _ => bool_decide (cls ∈ ["CancelledError"; "KeyboardInterrupt"; "SystemExit"]) | _ => false end.
Definition refresh_quotes (symbols : list string) (now : datetime) : M PW unit :=
  match env.(pv_fetch_quotes), symbols with
  | None, _ | _, [] => mret tt
  | Some fetch_quotes, _ =>
      w ← get_state;
      match stale_quotes symbols now w with
      | [] => mret tt
      | stale => fun w =>
          match in_env (fetch_quotes (py_sorted str_ltb stale)) w with
          | (Ok fetched, w) => (Ok tt, store_quotes fetched stale now w)
          | (Err e, w) => (if is_base_exception e then Err e else Ok tt, w)
          end
      end
  end.

(** ** The cycle *)

Definition latest_marks (market : Market) : M PW (dict string float) :=
  rows ← query (fun life => env.(pv_marks) life market);
  mret (foldl (fun d '(symbol, close) => <[symbol := close]> d) ∅ rows).

Definition portfolio_now (market : Market) (marks : dict string float) (now : datetime) : M PW PortfolioSnapshot :=
  build_portfolio_snapshot market self.(ds_account_id) self.(ds_equity) marks now.

(** [_correlations] *)
Definition cycle_correlations (market : Market) (symbols : list string) : M PW (dict (string * string) float) :=
  if (length symbols <? 2)%nat then mret ∅
  else
    rows ← in_env (env.(pv_daily) market (py_sorted str_ltb symbols));
    lift (compute_return_correlations env.(pv_square) (closes_of rows) MINIMUM_OVERLAP).

(** The exits of the cycle: the symbols exited and the portfolio after. *)
Definition manage_exits (market : Market) (marks : dict string float) (portfolio : PortfolioSnapshot) (features : list FeatureRecord)
    (now : datetime) : M PW (list string * PortfolioSnapshot) :=
  match self.(ds_lifecycle) with
  | None => mret ([], portfolio)
  | Some (limits, policy) =>
      outcomes ← in_life (manage limits policy market self.(ds_account_id) marks portfolio
        (foldl (fun d f => <[f.(fr_symbol) := f.(fr_record_id)]> d) ∅ features) now);
      portfolio ← (match outcomes with [] => mret portfolio | _ => portfolio_now market marks now end);
      mret (fromkeys (oc_symbol <$> outcomes), portfolio)
  end.

Definition register_plans (allocations : list PortfolioAllocation) (receipts : list ExecutionReceipt) : M PW unit :=
  match self.(ds_lifecycle), receipts with
  | Some _, _ :: _ => in_life (lifecycle_register allocations receipts)
  | _, _ => mret tt
  end.

(** From the contexts on: pipeline, batch and registration. *)
Definition decide_entries (market : Market) (features eligible : list FeatureRecord) (contexts : list StrategyContext)
    (portfolio : PortfolioSnapshot) (exit_count : Z) (now : datetime) : M PW PaperDecisionResult :=
  session_open ← in_env (env.(pv_entry_session_open) market now);
  correlations ← cycle_correlations market (fromkeys (fr_symbol <$> eligible));
  res ← in_cycle_ledger (run self.(ds_pipeline) contexts
          {| cp_entry_kill_switch_clear := true; cp_daily_loss_capacity := true; cp_entry_session_open := session_open; cp_capital_available := true |} now
          (foldl (fun d f => <[(f.(fr_market), f.(fr_symbol)) := f.(fr_close)]> d) ∅ features)
          (fromkeys ((fun p => (p.(pp_market), p.(pp_symbol))) <$> portfolio.(ps_positions))) (Some correlations));
  batch ← in_batch (batch_execute self.(ds_batch) res self.(ds_account_id) portfolio now);
  _ ← register_plans res.(pr_allocations) batch.(pb_receipts);
  mret {| pd_market := market; pd_cycle_id := res.(pr_cycle_id); pd_mode := res.(pr_mode);
          pd_candidate_count := Z.of_nat (length res.(pr_candidates)); pd_allocation_count := Z.of_nat (length res.(pr_allocations));
          pd_risk_decision_count := Z.of_nat (length batch.(pb_risk_decisions)); pd_order_count := Z.of_nat (length batch.(pb_receipts));
          pd_exit_count := exit_count |}.

Definition process (features : list FeatureRecord) (evaluated_at : option datetime) : M PW (option PaperDecisionResult) :=
  match features with
  | [] => mret None
  | first :: _ =>
      now ← (match evaluated_at with Some t => mret t | None => in_env env.(pv_clock) end);
      now ← lift (utc now "evaluated_at");
      _ ← lift (raise_if (existsb (fun f => negb (bool_decide (f.(fr_market) = first.(fr_market)))) features)
                 (ValueError "one paper decision cycle cannot mix markets"));
      let market := first.(fr_market) in
      marks ← latest_marks market;
      let marks := foldl (fun d f => <[f.(fr_symbol) := f.(fr_close)]> d) marks features in
      portfolio ← portfolio_now market marks now;
      '(exited, portfolio) ← manage_exits market marks portfolio features now;
      let eligible := List.filter (fun f => negb (bool_decide (f.(fr_symbol) ∈ exited))) features in
      _ ← refresh_quotes (fromkeys (fr_symbol <$> eligible)) now;
      basic ← map_each eligible (basic_context now);
      technical ← map_each eligible (technical_context now);
      match basic ++ somes technical with
      | [] =>
          mret (Some {| pd_market := market;
            pd_cycle_id := stable_id ["paper-exit-only-cycle"; Market_value market; self.(ds_account_id);
                                      repr_tuple (List.map repr_str (py_sorted str_ltb (fr_record_id <$> features)))];
            pd_mode := EXITS_ONLY; pd_candidate_count := 0; pd_allocation_count := 0; pd_risk_decision_count := 0; pd_order_count := 0;
            pd_exit_count := Z.of_nat (length exited) |})
      | contexts =>
          result ← decide_entries market features eligible contexts portfolio (Z.of_nat (length exited)) now;
          mret (Some result)
      end
  end.
End Service.

(** ** What a cycle does *)

Section ServiceTheory.
Context {L E : Type} `{DecisionLedger L}.
Context (env : PaperEnv L E) (self : PaperDecisionService L).
Local Abbreviation PW := (PaperWorld L E).

(** Reads leave the durable paper state alone. *)
Definition same_life (w w' : PW) : Prop := w'.(pw_life) = w.(pw_life).
#[export] Instance same_life_preorder : PreOrder same_life.
Proof. split; [done|]. intros w1 w2 w3 H1 H2. unfold same_life in *. congruence. Qed.

Lemma in_env_reads {A} (m : M E A) : preserves same_life (in_env (L := L) m).
Proof. intros w. unfold in_env, zoom, same_life. by destruct (m _). Qed.
Lemma modify_reads (f : PW -> PW) : (forall w, (f w).(pw_life) = w.(pw_life)) -> preserves same_life (modify f).
Proof. intros Hf w. apply Hf. Qed.
Hint Resolve in_env_reads : preserves.
Lemma query_reads {A} (q : LifeWorld L -> M E A) : preserves same_life (query q).
Proof. unfold query. preserve. Qed.
Hint Resolve query_reads : preserves.
Ltac reads := preserve; try (apply modify_reads; done).

Lemma latest_reads market symbol timeframe : preserves same_life (latest_technical_features env market symbol timeframe).
Proof. unfold latest_technical_features, fetch_settled_candles. reads. Qed.
Hint Resolve latest_reads : preserves.
Lemma breadth_reads market symbols timeframe : preserves same_life (fetch_breadth_inputs env market symbols timeframe).
Proof. unfold fetch_breadth_inputs. preserve. match goal with b : _ * _ |- _ => destruct b end. reads. Qed.
Hint Resolve breadth_reads : preserves.
Lemma market_regime_reads market now : preserves same_life (market_regime env market now).
Proof. unfold market_regime, compute_market_regime, fetch_index_snapshot, regime_universe_symbols. reads. Qed.
Lemma sector_regime_reads market sector now : preserves same_life (sector_regime env market sector now).
Proof.
  unfold sector_regime, compute_sector_regime, fetch_index_snapshot, regime_universe_symbols. cbv zeta. reads.
Qed.
Hint Resolve market_regime_reads sector_regime_reads : preserves.
Lemma basic_context_reads now f : preserves same_life (basic_context env self now f).
Proof. unfold basic_context, market_sector_fit. reads. Qed.
Lemma technical_context_reads now f : preserves same_life (technical_context env self now f).
Proof.
  unfold technical_context, latest_technical_snapshot, fetch_settled_candles, market_sector_fit, mtf_alignment. cbv zeta. reads.
Qed.
Lemma refresh_quotes_reads symbols now : preserves same_life (refresh_quotes env symbols now).
Proof.
  unfold refresh_quotes. destruct (pv_fetch_quotes env) as [fetch|]; [|reads]. destruct symbols as [|s l]; [reads|]. preserve.
  intros w. match goal with |- context [in_env ?m w] => pose proof (in_env_reads m w) as Hr; unfold same_life in *; destruct (in_env m w) as [[fetched|e] w1] end;
    [exact Hr|]. by destruct (is_base_exception e).
Qed.
Lemma snapshot_reads market acct equity marks now : preserves same_life (build_portfolio_snapshot env market acct equity marks now).
Proof. unfold build_portfolio_snapshot, load_open_positions, load_realized_pnl_today. cbv zeta. reads. Qed.
Lemma marks_reads market : preserves same_life (latest_marks env market).
Proof. unfold latest_marks. reads. Qed.
Hint Resolve basic_context_reads technical_context_reads refresh_quotes_reads snapshot_reads marks_reads : preserves.

(** The feature a context was built from. *)
Definition describes (now : datetime) (f : FeatureRecord) (c : StrategyContext) : Prop :=
  c.(cx_market) = f.(fr_market) /\ c.(cx_symbol) = f.(fr_symbol) /\ c.(cx_timeframe) = f.(fr_timeframe) /\
  c.(cx_gold_snapshot_ids) = [f.(fr_record_id)] /\ c.(cx_event_time) = f.(fr_event_time) /\ is_fresh self f.(fr_event_time) now = Ok c.(cx_fresh).

Lemma context_new_ok c c' : context_new c = Ok c' -> c' = c.
Proof. unfold context_new. intros E0. inv_ok E0. by subst. Qed.
Lemma basic_context_ok now f w c w' : basic_context env self now f w = (Ok c, w') -> describes now f c.
Proof.
  unfold basic_context. cbv zeta. intros (fresh & w1 & Hf & E0)%M_bind_ok. apply lift_ok in Hf as [Hf ->].
  apply M_bind_ok in E0 as ([mf sf] & w2 & _ & E0). apply lift_ok in E0 as [E0 ->]. apply context_new_ok in E0 as ->. by repeat split.
Qed.
Lemma technical_context_ok now f w c w' : technical_context env self now f w = (Ok (Some c), w') -> describes now f c.
Proof.
  unfold technical_context. cbv zeta. intros (snap & w1 & _ & E0)%M_bind_ok. destruct snap as [[values candles]|]; [|done].
  apply M_bind_ok in E0 as (w2 & w3 & _ & E0). apply M_bind_ok in E0 as (atr & w4 & _ & E0).
  apply M_bind_ok in E0 as ([tr trr] & w5 & _ & E0). apply M_bind_ok in E0 as ([fit lab] & w6 & _ & E0).
  apply M_bind_ok in E0 as (label & w7 & _ & E0). apply M_bind_ok in E0 as ([mf sf] & w8 & _ & E0).
  apply M_bind_ok in E0 as (al & w9 & _ & E0). apply M_bind_ok in E0 as (fresh & w10 & Hf & E0). apply lift_ok in Hf as [Hf ->].
  apply M_bind_ok in E0 as (c0 & w11 & Hc & [= -> _]). apply lift_ok in Hc as [Hc ->]. apply context_new_ok in Hc as ->. by repeat split.
Qed.
Lemma map_each_elem {S A B} (body : A -> M S B) l s ys s' y : map_each l body s = (Ok ys, s') -> y ∈ ys ->
  exists x s1 s2, x ∈ l /\ body x s1 = (Ok y, s2).
Proof.
  revert s ys. induction l as [|x l IH]; intros s ys; cbn [map_each]; [intros [= <- _] ?%elem_of_nil; done|].
  intros (y0 & s1 & Hy & E0)%M_bind_ok. apply M_bind_ok in E0 as (ys0 & s2 & Hys & [= <- <-]). intros [->|Hin]%elem_of_cons.
  - exists x, s, s1. split; [by left|done].
  - destruct (IH _ _ Hys Hin) as (x' & s3 & s4 & Hx & Hb). exists x', s3, s4. split; [by right|done].
Qed.

(** The exits of a cycle. *)
Definition managed (market : Market) (now : datetime) (marks : dict string float) (pf : PortfolioSnapshot) (features : list FeatureRecord)
    (outcomes : list Outcome) (life life' : LifeWorld L) : Prop :=
  match self.(ds_lifecycle) with
  | None => outcomes = [] /\ life' = life
  | Some (limits, policy) =>
      manage limits policy market self.(ds_account_id) marks pf (foldl (fun d f => <[f.(fr_symbol) := f.(fr_record_id)]> d) ∅ features) now life
        = (Ok outcomes, life')
  end.
Lemma manage_exits_ok market marks pf features now w exited pf' w' :
  manage_exits env self market marks pf features now w = (Ok (exited, pf'), w') ->
  exists outcomes, managed market now marks pf features outcomes w.(pw_life) w'.(pw_life) /\ exited = fromkeys (oc_symbol <$> outcomes).
Proof.
  unfold manage_exits, managed. destruct (ds_lifecycle self) as [[limits policy]|]; [|intros [= <- _ <-]; by exists []].
  intros (outs & w1 & Hm & E0)%M_bind_ok. apply M_bind_ok in E0 as (pf1 & w2 & Hp & [= <- _ <-]). exists outs. split; [|done].
  unfold in_life, zoom in Hm. destruct (manage _ _ _ _ _ _ _ _ _) as [r0 life] eqn:Em. injection Hm as -> <-.
  assert (Hs : same_life (set_life life w) w2).
  { eapply preserves_run; [|exact Hp]. destruct outs; [apply preserves_ret; typeclasses eauto|]. apply snapshot_reads. }
  unfold same_life in Hs. by rewrite Hs.
Qed.

(** The steps of a cycle that returned. *)
Lemma process_steps features t w r w' : process env self features t w = (Ok (Some r), w') ->
  exists now marks pf outcomes pf' eligible contexts w1,
    managed r.(pd_market) now marks pf features outcomes w.(pw_life) w1.(pw_life) /\
    Forall (fun f => f.(fr_market) = r.(pd_market)) features /\
    Forall (fun c => exists f, f ∈ features /\ ~ f.(fr_symbol) ∈ (oc_symbol <$> outcomes) /\ describes now f c) contexts /\
    r.(pd_exit_count) = Z.of_nat (length (fromkeys (oc_symbol <$> outcomes))) /\
    ((contexts = [] /\ r.(pd_mode) = EXITS_ONLY /\ r.(pd_allocation_count) = 0 /\ r.(pd_order_count) = 0 /\ w'.(pw_life) = w1.(pw_life)) \/
     decide_entries env self r.(pd_market) features eligible contexts pf' (Z.of_nat (length (fromkeys (oc_symbol <$> outcomes)))) now w1 = (Ok r, w')).
Proof.
  unfold process. destruct features as [|first rest] eqn:Ef; [done|]. rewrite <-Ef. intros (now0 & w1 & Hn & E0)%M_bind_ok.
  assert (H1 : same_life w w1) by (eapply preserves_run; [|exact Hn]; destruct t; [apply preserves_ret; typeclasses eauto|apply in_env_reads]).
  apply M_bind_ok in E0 as (now & w2 & Hnow & E0). apply lift_ok in Hnow as [_ ->].
  apply M_bind_ok in E0 as (u & w2' & Hmix & E0). apply lift_ok in Hmix as [Hmix ->]. apply raise_if_ok in Hmix.
  apply M_bind_ok in E0 as (marks & w3 & Hmk & E0). assert (H3 : same_life w1 w3) by (eapply preserves_run; [apply marks_reads|exact Hmk]).
  apply M_bind_ok in E0 as (pf & w4 & Hpf & E0). assert (H4 : same_life w3 w4) by (eapply preserves_run; [apply snapshot_reads|exact Hpf]).
  apply M_bind_ok in E0 as ([exited pf'] & w5 & Hex & E0). destruct (manage_exits_ok _ _ _ _ _ _ _ _ _ Hex) as (outs & Hman & ->).
  set (eligible := List.filter _ features) in *. set (marks' := foldl _ marks features) in *.
  apply M_bind_ok in E0 as (u2 & w6 & Hq & E0). assert (H6 : same_life w5 w6) by (eapply preserves_run; [apply refresh_quotes_reads|exact Hq]).
  apply M_bind_ok in E0 as (basic & w7 & Hb & E0).
  assert (H7 : same_life w6 w7) by (eapply preserves_run; [|exact Hb]; preserve; apply basic_context_reads).
  apply M_bind_ok in E0 as (tech & w8 & Ht & E0).
  assert (H8 : same_life w7 w8) by (eapply preserves_run; [|exact Ht]; preserve; apply technical_context_reads).
  unfold same_life in *.
  assert (Hel : forall f, f ∈ eligible -> f ∈ features /\ ~ f.(fr_symbol) ∈ (oc_symbol <$> outs)).
  { intros f [Hf Hn']%filter_elem. split; [done|]. apply negb_true_iff, bool_decide_eq_false in Hn'. by rewrite fromkeys_elem in Hn'. }
  assert (Hctx : Forall (fun c => exists f, f ∈ features /\ ~ f.(fr_symbol) ∈ (oc_symbol <$> outs) /\ describes now f c) (basic ++ somes tech)).
  { apply Forall_app. split; apply Forall_forall; intros c Hc.
    - destruct (map_each_elem _ _ _ _ _ _ Hb Hc) as (f & s1 & s2 & Hf & Hd). destruct (Hel f Hf). exists f. eauto using basic_context_ok.
    - apply somes_elem in Hc. destruct (map_each_elem _ _ _ _ _ _ Ht Hc) as (f & s1 & s2 & Hf & Hd). destruct (Hel f Hf).
      exists f. eauto using technical_context_ok. }
  assert (Hmk' : Forall (fun f => f.(fr_market) = first.(fr_market)) features).
  { apply existsb_false_Forall in Hmix. eapply Forall_impl; [exact Hmix|]. cbn. intros f Hf. apply negb_false_iff in Hf.
    by apply bool_decide_eq_true in Hf. }
  rewrite H4, H3, H1 in Hman. rewrite <-H6, <-H7, <-H8 in Hman.
  destruct (basic ++ somes tech) as [|c contexts] eqn:Ec.
  - injection E0 as <- <-. exists now, marks', pf, outs, pf', eligible, [], w8. cbn [pd_market pd_exit_count pd_mode pd_allocation_count pd_order_count].
    split; [exact Hman|]. split; [done|]. split; [constructor|]. split; [done|]. left. done.
  - apply M_bind_ok in E0 as (r1 & w9 & Hd & [= <- <-]).
    assert (Hm : r1.(pd_market) = first.(fr_market) /\ r1.(pd_exit_count) = Z.of_nat (length (fromkeys (oc_symbol <$> outs)))).
    { unfold decide_entries in Hd. inv_ok Hd. by subst r1. }
    destruct Hm as [Hm Hm']. exists now, marks', pf, outs, pf', eligible, (c :: contexts), w8. rewrite Hm.
    split; [exact Hman|]. split; [done|]. split; [done|]. split; [done|]. right. exact Hd.
Qed.

Lemma correlations_reads market symbols : preserves same_life (cycle_correlations env market symbols).
Proof. unfold cycle_correlations. reads. Qed.

(** A batch without receipts left the engine alone. *)
Lemma batch_idle (executor : PaperBatchExecutor) res acct pf t (b : BatchWorld L) r b' :
  batch_execute executor res acct pf t b = (Ok r, b') -> r.(pb_receipts) = [] -> b'.(bw_engine) = b.(bw_engine).
Proof.
  intros E0 Hr. destruct (batch_execute_cases executor res acct pf t b)
    as [(e & b1 & E1 & _)|(ds & b1 & _ & _ & Hs & [[_ E1]|(rs & e2 & b2 & _ & He & Hb & [E1|(err & E1)])])]; rewrite E1 in E0;
    try done; injection E0 as <- <-; [done|]. cbn in Hr. subst rs. rewrite Hb.
  destruct (execute_batch_cases (pe_policy executor) ds (pr_cycle_id res) (at_utc (instant t)) (bw_engine b))
    as [(e & Hc)|(rs' & s' & Hc & _ & _ & _ & Hm)]; rewrite Hc in He; [done|]. injection He as -> <-.
  pose proof (map_each_receipts _ _ _ _ _ _ _ Hm) as Hall. apply Forall2_nil_inv_r in Hall as ->. by injection Hm as <-.
Qed.

Definition preconditions (session_open : bool) : CyclePreconditions :=
  {| cp_entry_kill_switch_clear := true; cp_daily_loss_capacity := true; cp_entry_session_open := session_open; cp_capital_available := true |}.

Lemma decide_steps market features eligible contexts pf ec now w r w' :
  decide_entries env self market features eligible contexts pf ec now w = (Ok r, w') ->
  exists session_open quotes existing correlations ledger res batch b,
    (exists e e', env.(pv_entry_session_open) market now e = (Ok session_open, e')) /\
    run self.(ds_pipeline) contexts (preconditions session_open) now quotes existing (Some correlations) w.(pw_life).(lw_ledger) = (Ok res, ledger) /\
    batch_execute self.(ds_batch) res self.(ds_account_id) pf now (MkBatchWorld w.(pw_life).(lw_engine) ledger) = (Ok batch, b) /\
    r.(pd_mode) = res.(pr_mode) /\ r.(pd_allocation_count) = Z.of_nat (length res.(pr_allocations)) /\
    r.(pd_order_count) = Z.of_nat (length batch.(pb_receipts)) /\ w'.(pw_life).(lw_engine) = b.(bw_engine) /\
    (self.(ds_lifecycle) <> None -> batch.(pb_receipts) <> [] ->
       Forall2 (fun a rc => holds_plan w'.(pw_life).(lw_store) (plan_of a rc)) res.(pr_allocations) batch.(pb_receipts)).
Proof.
  unfold decide_entries. intros (open & w1 & Ho & E0)%M_bind_ok.
  assert (H1 : same_life w w1) by (eapply preserves_run; [apply in_env_reads|exact Ho]).
  apply M_bind_ok in E0 as (corr & w2 & Hc & E0). assert (H2 : same_life w1 w2) by (eapply preserves_run; [apply correlations_reads|exact Hc]).
  apply M_bind_ok in E0 as (res & w3 & Hr & E0). apply M_bind_ok in E0 as (batch & w4 & Hb & E0).
  apply M_bind_ok in E0 as (u & w5 & Hg & [= <- <-]). cbn [pd_mode pd_allocation_count pd_order_count].
  unfold in_cycle_ledger, in_life, in_log, zoom in Hr. cbn in Hr. destruct (run _ _ _ _ _ _ _ _) as [r0 ledger] eqn:Er. injection Hr as -> <-.
  unfold in_batch, in_life, zoom in Hb. cbn in Hb. destruct (batch_execute _ _ _ _ _ _) as [r1 b] eqn:Eb. injection Hb as -> <-.
  unfold same_life in *. rewrite H2, H1 in Er, Eb. unfold in_env, zoom in Ho. destruct (pv_entry_session_open env market now (pw_env w)) as [ro e'] eqn:Eo.
  injection Ho as -> _. eexists open, _, _, corr, ledger, res, batch, b. split; [by exists (pw_env w), e'|]. split; [exact Er|]. split; [exact Eb|].
  do 3 (split; [done|]). unfold register_plans in Hg. destruct (ds_lifecycle self) as [lp|].
  - destruct (pb_receipts batch) as [|rc rcs] eqn:Hrc; [injection Hg as _ <-; done|]. unfold in_life, zoom in Hg.
    destruct (lifecycle_register _ _ _) as [r2 life] eqn:El. injection Hg as -> <-. cbn. apply register_holds in El as (Hall & He & _). done.
  - injection Hg as _ <-. done.
Qed.


Lemma batch_of_nothing (executor : PaperBatchExecutor) res acct pf t (b : BatchWorld L) r b' :
  batch_execute executor res acct pf t b = (Ok r, b') -> res.(pr_allocations) = [] -> r.(pb_receipts) = [].
Proof.
  intros E0 Ha. destruct (batch_execute_cases executor res acct pf t b)
    as [(e & b1 & E1 & _)|(ds & b1 & _ & Hall & Hs & [[_ E1]|(rs & e2 & b2 & _ & He & Hb & [E1|(err & E1)])])]; rewrite E1 in E0;
    try done; injection E0 as <- <-; [done|]. cbn. rewrite Ha in Hall. apply Forall2_nil_inv_l in Hall as ->.
  destruct (execute_batch_cases (pe_policy executor) [] (pr_cycle_id res) (at_utc (instant t)) (bw_engine b))
    as [(e & Hc)|(rs' & s' & Hc & _ & _ & _ & Hm)]; rewrite Hc in He; [done|]. injection He as -> <-. by injection Hm as <- _.
Qed.

(** While the entry session is closed a cycle only exits: it allocates and
    orders nothing, whatever the features, and the engine is exactly as the
    exits left it. *)
Theorem closed_session_only_exits features t w r w' :
  (forall market at_ e, (env.(pv_entry_session_open) market at_ e).1 = Ok false) ->
  process env self features t w = (Ok (Some r), w') ->
  r.(pd_mode) = EXITS_ONLY /\ r.(pd_allocation_count) = 0 /\ r.(pd_order_count) = 0 /\
  exists now marks pf outcomes life, managed r.(pd_market) now marks pf features outcomes w.(pw_life) life /\
    w'.(pw_life).(lw_engine) = life.(lw_engine).
Proof.
  intros Hclosed (now & marks & pf & outs & pf' & el & contexts & w1 & Hman & _ & _ & _ & [(_ & Hm & Ha & Ho & Hl)|Hd])%process_steps.
  { do 3 (split; [done|]). exists now, marks, pf, outs, w1.(pw_life). by rewrite Hl. }
  destruct (decide_steps _ _ _ _ _ _ _ _ _ _ Hd)
    as (open & q & ex & corr & ledger & res & batch & b & (e & e' & Hopen) & Hr & Hb & Hm & Ha & Ho & He & _).
  specialize (Hclosed (pd_market r) now e). rewrite Hopen in Hclosed. injection Hclosed as ->.
  apply run_ok in Hr as (_ & cid & c' & _ & _ & Hr). apply run_cycle_ok in Hr as (_ & Hmode & _ & Hx).
  cbn in Hmode. cbn in Hx. destruct Hx as (_ & _ & Hal & _). pose proof (batch_of_nothing _ _ _ _ _ _ _ _ Hb Hal) as Hrc.
  rewrite Hm, Ha, Ho, Hal, Hrc, Hmode. do 3 (split; [done|]). exists now, marks, pf, outs, w1.(pw_life). split; [done|].
  rewrite He. exact (batch_idle _ _ _ _ _ _ _ _ Hb Hrc).
Qed.

(** The risk snapshot omits nothing: one position per open row, in order,
    with its quantity and the mark supplied for its symbol, which is finite
    and positive; the durable state is only read. *)
Theorem snapshot_exact market acct equity marks now w pf w' :
  build_portfolio_snapshot env market acct equity marks now w = (Ok pf, w') ->
  w'.(pw_life) = w.(pw_life) /\ pf.(ps_captured_at) = now /\ pf.(ps_account_id) = acct /\
  exists rows e', env.(pv_positions) w.(pw_life) market acct w.(pw_env) = (Ok rows, e') /\
    Forall2 (fun row p => p.(pp_symbol) = row.1 /\ p.(pp_signed_quantity) = row.2 /\ p.(pp_market) = market /\ p.(pp_account_id) = acct /\
      marks !! row.1 = Some p.(pp_mark_price) /\ isfinite p.(pp_mark_price) = true /\ (0 <? p.(pp_mark_price))%float = true) rows pf.(ps_positions).
Proof.
  intros E0. split; [by eapply (preserves_run same_life); [apply snapshot_reads|exact E0]|].
  unfold build_portfolio_snapshot, load_open_positions in E0. cbv zeta in E0. apply M_bind_ok in E0 as (ps & w1 & Hp & E0).
  apply M_bind_ok in E0 as (pnl & w2 & _ & E0). apply M_bind_ok in E0 as (u & w3 & _ & [= <- _]). cbn. split; [done|]. split; [done|].
  apply M_bind_ok in Hp as (rows & w4 & Hq & Hm). apply lift_ok in Hm as [Hm ->]. unfold query in Hq.
  apply M_bind_ok in Hq as (w5 & w6 & [= <- <-] & Hq). unfold in_env, zoom in Hq.
  destruct (pv_positions env _ _ _ _) as [r0 e'] eqn:Er. injection Hq as -> _. exists rows, e'. split; [done|].
  apply map_result_ok in Hm. eapply Forall2_impl; [exact Hm|]. intros [symbol qty] p Hx. unfold open_position in Hx.
  destruct (marks !! symbol) as [mark|] eqn:Emk; [|done]. apply result_bind_ok in Hx as (u' & Hg & [= <-]). cbn.
  apply raise_if_ok, orb_false_iff in Hg as [Hfin Hpos]. apply negb_false_iff in Hfin. split_and!; try done.
  apply fltb_iff. split; [done|]. split; [by apply isfinite_nan|]. apply fleb_false in Hpos; [done|by apply isfinite_nan|done].
Qed.

(** The market regime is cached without its market: within a minute every
    market gets the regime that was computed last, for whichever market. *)
Lemma regime_cache_ignores_market (w : PW) market now cached at_ :
  w.(pw_market_regime_cache) = Some cached -> w.(pw_market_regime_cache_at) = Some at_ ->
  (seconds_since at_ now <? REGIME_CACHE_TTL_SECONDS)%float = true -> market_regime env market now w = (Ok cached, w).
Proof. intros Hc Ha Ht. unfold market_regime, mbind, M_bind, get_state. by rewrite Hc, Ha, Ht. Qed.
End ServiceTheory.

Module PaperDecisionExample.
Import RegistryExample.

(** One feature of an approved strategy's series, no history yet. *)
Definition feature_row : FeatureRecord := {|
  fr_record_id := "gold-1"; fr_candle_record_id := "silver-1"; fr_market := NSE; fr_symbol := "RELIANCE"; fr_timeframe := "5m";
  fr_event_time := now; fr_close := 2500; fr_return_1 := 0.01; fr_range_pct := 0.02; fr_body_pct := 0.01; fr_volume_change := None;
  fr_feature_version := 2 |}.
(** A world without rows, whose clock and tables do not change. *)
Definition env (session_open : bool) : PaperEnv InMemoryDecisionLedger unit := {|
  pv_marks := fun _ _ => mret []; pv_positions := fun _ _ _ => mret []; pv_realized_pnl := fun _ _ _ _ _ => mret (Some (-150.5)%float);
  pv_candles := fun _ _ _ => mret []; pv_symbols := fun _ _ => mret []; pv_daily := fun _ _ => mret []; pv_fetch_quotes := None;
  pv_clock := mret now; pv_entry_session_open := fun _ _ => mret session_open; pv_set_order := id; pv_square := fun x => Ok (x * x)%float |}.
Definition service : PaperDecisionService InMemoryDecisionLedger := {|
  ds_pipeline := {| sp_registry := registry; sp_strategies := <[identity := PipelineExample.plugin]> ∅; sp_policy := PipelineExample.policy;
                    sp_llm_mode := OFF; sp_reviewer := None; sp_position_manager := None |};
  ds_batch := PaperBatchExample.executor 5; ds_account_id := "paper"; ds_equity := 1000000; ds_tradeability := ScreeningExample.limits;
  ds_symbol_regime := RegimeExample.limits; ds_max_age := 180; ds_lifecycle := Some (RiskExample.limits, ExecutionExample.policy) |}.
Definition world : PaperWorld InMemoryDecisionLedger unit :=
  MkPaperWorld (MkLifeWorld empty_store empty_engine ∅ empty_ledger) tt ∅ ∅ None None ∅ ∅.
Local Abbreviation ran session_open := (process (env session_open) service [feature_row] None world) (only parsing).

Lemma service_valid : PaperDecisionService_init service = Ok service.
Proof. reflexivity. Qed.


Lemma closed_session_only_exits_witness :
  exists r w', ran false = (Ok (Some r), w') /\ r.(pd_mode) = EXITS_ONLY /\ r.(pd_order_count) = 0.
Proof.
  assert (H : exists r w', ran false = (Ok (Some r), w')) by (vm_compute; do 2 eexists; reflexivity).
  destruct H as (r & w' & Hr). exists r, w'. split; [exact Hr|].
  destruct (closed_session_only_exits (env false) service [feature_row] None world r w') as (Hm & _ & Ho & _);
    [reflexivity|exact Hr|]. split; [exact Hm|exact Ho].
Defined.
End PaperDecisionExample.
