(* ===== verification/PaperSession.v ===== *)
(** * The continuous NSE paper session (src/nanodelta/runtime/paper_session.py)

    Every settled Gold input is processed once: a session cycle, identified by
    the account and the records, is claimed under a lease before the decision
    service runs, completed with its result, or marked as failed and retried.

    The Postgres store is the tables it reads and writes; a transaction is one
    step that commits, or raises and leaves the tables alone.  Whether the
    database fails in a transaction is given by an oracle. *)

From Stdlib Require Import ZArith Lia Floats Ascii String ZifyBool.
From stdpp Require Import prelude strings pretty numbers list sorting.
From S2P Require Import Prelude PyData PyFloat FloatTheory PyText PyDigits PyParse PyJson Sha256 PyTime PyDate Contracts Timeframes Adapters Etl.
From S2P Require Import Registry Risk Execution Outcomes Decisions StrategyRuntime Pipeline PaperBatch Lifecycle PaperDecision.

Local Open Scope Z_scope.

Inductive PaperSessionClaimState := CLAIMED | COMPLETED | BUSY.
#[export] Instance PaperSessionClaimState_eq_dec : EqDecision PaperSessionClaimState.
Proof. solve_decision. Defined.

Record PaperSessionClaim := {
  sc_state : PaperSessionClaimState;
  sc_session_cycle_id : string;
  sc_evaluated_at : datetime;
  sc_claim_token : option string;
  sc_prior_result : option PaperDecisionResult }.

Record PaperSessionRun := {
  sr_session_cycle_id : string;
  sr_state : PaperSessionClaimState;
  sr_decision : option PaperDecisionResult }.

Record PaperSessionHealth := {
  sh_processed : Z;
  sh_replayed : Z;
  sh_busy : Z;
  sh_failed : Z;
  sh_recovered_exit_plans : Z;
  sh_last_session_cycle_id : option string;
  sh_last_completed_at : option datetime;
  sh_last_error_type : option string }.
Definition initial_health : PaperSessionHealth := {|
  sh_processed := 0; sh_replayed := 0; sh_busy := 0; sh_failed := 0; sh_recovered_exit_plans := 0; sh_last_session_cycle_id := None;
  sh_last_completed_at := None; sh_last_error_type := None |}.

(** The protocol of a session store over its state. *)
Class PaperSessionStore (S : Type) := {
  store_claim : string -> list string -> datetime -> datetime -> M S PaperSessionClaim;
  store_reconcile_exit_plans : string -> M S Z;
  store_retryable_features : datetime -> M S (list (list FeatureRecord));
  store_complete : PaperSessionClaim -> PaperDecisionResult -> datetime -> M S unit;
  store_fail : PaperSessionClaim -> datetime -> string -> M S unit }.

Inductive cycle_state := PENDING | RUNNING | DONE | FAILED.
#[export] Instance cycle_state_eq_dec : EqDecision cycle_state.
Proof. solve_decision. Defined.

(** ** MemoryPaperSessionStore *)

Record MemoryCycle := {
  mc_evaluated_at : datetime;
  mc_state : cycle_state;
  mc_claim_token : option string;
  mc_locked_until : option datetime;
  mc_result : option PaperDecisionResult }.
Record MemoryPaperSessionStore := { mp_cycles : dict string MemoryCycle; mp_tokens : nat }.

Definition claim_of (state : PaperSessionClaimState) (id : string) (evaluated_at : datetime) (token : option string)
    (prior : option PaperDecisionResult) : PaperSessionClaim := {|
  sc_state := state; sc_session_cycle_id := id; sc_evaluated_at := evaluated_at; sc_claim_token := token; sc_prior_result := prior |}.

(** [cycle.state == "RUNNING" and locked_until is not None and locked_until > claimed_at] *)
Definition held (state : cycle_state) (locked_until : option datetime) (claimed_at : datetime) : bool :=
  bool_decide (state = RUNNING) && match locked_until with Some u => instant claimed_at <? instant u | None => false end.

Section Stores.
(** [uuid4().hex], by the number of tokens drawn before, and the lease. *)
Context (uuid : nat -> string) (lease : Z).

Definition memory_claim (id : string) (claimed_at : datetime) : M MemoryPaperSessionStore PaperSessionClaim :=
  s ← get_state;
  let cycle := default {| mc_evaluated_at := claimed_at; mc_state := PENDING; mc_claim_token := None; mc_locked_until := None; mc_result := None |}
                 (s.(mp_cycles) !! id) in
  _ ← modify (fun s => {| mp_cycles := dict_setdefault id cycle s.(mp_cycles); mp_tokens := s.(mp_tokens) |});
  if bool_decide (cycle.(mc_state) = DONE) then mret (claim_of COMPLETED id cycle.(mc_evaluated_at) None cycle.(mc_result))
  else if held cycle.(mc_state) cycle.(mc_locked_until) claimed_at then mret (claim_of BUSY id cycle.(mc_evaluated_at) None None)
  else
    let token := uuid s.(mp_tokens) in
    let running until := {| mc_evaluated_at := cycle.(mc_evaluated_at); mc_state := RUNNING; mc_claim_token := Some token;
                            mc_locked_until := until; mc_result := cycle.(mc_result) |} in
    _ ← modify (fun s => {| mp_cycles := <[id := running cycle.(mc_locked_until)]> s.(mp_cycles); mp_tokens := S s.(mp_tokens) |});
    until ← lift (dt_add claimed_at lease);
    _ ← modify (fun s => {| mp_cycles := <[id := running (Some until)]> s.(mp_cycles); mp_tokens := s.(mp_tokens) |});
    mret (claim_of CLAIMED id cycle.(mc_evaluated_at) (Some token) None).

Definition memory_settled (cycle : MemoryCycle) (state : cycle_state) (result : option PaperDecisionResult) : MemoryCycle :=
  {| mc_evaluated_at := cycle.(mc_evaluated_at); mc_state := state; mc_claim_token := cycle.(mc_claim_token); mc_locked_until := None;
     mc_result := result |}.
Definition memory_cycle (id : string) (s : MemoryPaperSessionStore) : result MemoryCycle :=
  match s.(mp_cycles) !! id with Some c => Ok c | None => Err (KeyError id) end.
Definition memory_complete (claim : PaperSessionClaim) (result : PaperDecisionResult) : M MemoryPaperSessionStore unit :=
  s ← get_state;
  cycle ← lift (memory_cycle claim.(sc_session_cycle_id) s);
  _ ← lift (raise_if (negb (bool_decide (cycle.(mc_claim_token) = claim.(sc_claim_token))))
             (RuntimeError "paper session claim was lost before completion"));
  modify (fun s => {| mp_cycles := <[claim.(sc_session_cycle_id) := memory_settled cycle DONE (Some result)]> s.(mp_cycles);
                      mp_tokens := s.(mp_tokens) |}).
Definition memory_fail (claim : PaperSessionClaim) : M MemoryPaperSessionStore unit :=
  s ← get_state;
  cycle ← lift (memory_cycle claim.(sc_session_cycle_id) s);
  when (bool_decide (cycle.(mc_claim_token) = claim.(sc_claim_token)))
    (modify (fun s => {| mp_cycles := <[claim.(sc_session_cycle_id) := memory_settled cycle FAILED cycle.(mc_result)]> s.(mp_cycles);
                         mp_tokens := s.(mp_tokens) |})).

Definition MemoryStore : PaperSessionStore MemoryPaperSessionStore := {|
  store_claim id _ _ claimed_at := memory_claim id claimed_at;
  store_reconcile_exit_plans _ := mret 0;
  store_retryable_features _ := mret [];
  store_complete claim result _ := memory_complete claim result;
  store_fail claim _ _ := memory_fail claim |}.

(** ** PostgresPaperSessionStore *)

(** [control.paper_session_cycles] *)
Record CycleRow := {
  cr_feature_record_ids : list string;
  cr_event_time : datetime;
  cr_evaluated_at : datetime;
  cr_state : cycle_state;
  cr_claim_token : option string;
  cr_locked_until : option datetime;
  cr_attempt_count : Z;
  cr_decision : option (string * CycleMode);
  cr_counts : Z * Z * Z * Z * Z;
  cr_last_error_type : option string;
  cr_finished_at : option datetime }.
(** [nse_gold.feature_snapshots] *)
Record GoldRow := {
  gr_record_id : string;
  gr_candle_record_id : string;
  gr_symbol : string;
  gr_timeframe : string;
  gr_event_time : datetime;
  gr_feature_version : Z;
  gr_features : payload }.
(** [paper.positions], [paper.decisions], [control.signal_candidates] and
    [paper.exit_plans], the columns the reconciliation uses *)
Record PositionRow := {
  rp_position_id : string;
  rp_market : Market;
  rp_account_id : string;
  rp_symbol : string;
  rp_signed_quantity : float;
  rp_average_entry_price : float;
  rp_total_fees : float;
  rp_opened_at : datetime;
  rp_open : bool;
  rp_decision_ids : list string;
  rp_gold_snapshot_ids : list string }.
Record DecisionRow := { rx_decision_id : string; rx_candidate_id : string; rx_evaluated_at : datetime }.
Record CandidateRow := {
  rc_candidate_id : string;
  rc_approval_id : string;
  rc_strategy_key : string;
  rc_stop_price : float;
  rc_target_price : float }.
Record PlanRow := {
  rl_position_id : string;
  rl_market : Market;
  rl_account_id : string;
  rl_symbol : string;
  rl_entry_action : AdvisoryAction;
  rl_quantity : float;
  rl_stop_price : float;
  rl_target_price : float;
  rl_allocated_capital : float;
  rl_candidate_id : string;
  rl_approval_id : string;
  rl_strategy_key : string;
  rl_gold_snapshot_ids : list string;
  rl_active : bool;
  rl_created_at : datetime }.

Record Tables := {
  tb_cycles : dict string CycleRow;
  tb_gold : list GoldRow;
  tb_positions : list PositionRow;
  tb_decisions : list DecisionRow;
  tb_candidates : list CandidateRow;
  tb_plans : list PlanRow;
  tb_tokens : nat }.
Record Postgres := { pg_tables : Tables; pg_transactions : nat }.

Definition set_cycles (cycles : dict string CycleRow) (tokens : nat) (t : Tables) : Tables :=
  {| tb_cycles := cycles; tb_gold := t.(tb_gold); tb_positions := t.(tb_positions); tb_decisions := t.(tb_decisions);
     tb_candidates := t.(tb_candidates); tb_plans := t.(tb_plans); tb_tokens := tokens |}.
Definition set_plans (plans : list PlanRow) (t : Tables) : Tables :=
  {| tb_cycles := t.(tb_cycles); tb_gold := t.(tb_gold); tb_positions := t.(tb_positions); tb_decisions := t.(tb_decisions);
     tb_candidates := t.(tb_candidates); tb_plans := plans; tb_tokens := t.(tb_tokens) |}.

(** The failure, if any, of the n-th transaction. *)
Context (fault : nat -> option exn).
(** [try: ...; connection.commit()  except Exception: connection.rollback(); raise] *)
Definition transaction {A} (m : M Tables A) : M Postgres A := fun s =>
  let rolled_back := {| pg_tables := s.(pg_tables); pg_transactions := S s.(pg_transactions) |} in
  match fault s.(pg_transactions) with
  | Some e => (Err e, rolled_back)
  | None =>
      match m s.(pg_tables) with
      | (Ok a, t) => (Ok a, {| pg_tables := t; pg_transactions := S s.(pg_transactions) |})
      | (Err e, _) => (Err e, rolled_back)
      end
  end.

Definition pending_row (ids : list string) (event_time claimed_at : datetime) : CycleRow := {|
  cr_feature_record_ids := ids; cr_event_time := event_time; cr_evaluated_at := claimed_at; cr_state := PENDING; cr_claim_token := None;
  cr_locked_until := None; cr_attempt_count := 0; cr_decision := None; cr_counts := (0, 0, 0, 0, 0); cr_last_error_type := None;
  cr_finished_at := None |}.

(** [_result_from_row] *)
Definition result_from_row (r : CycleRow) : option PaperDecisionResult :=
  match r.(cr_decision) with
  | None => None
  | Some (cycle_id, mode) =>
      let '(candidates, allocations, risks, orders, exits) := r.(cr_counts) in
      Some {| pd_market := NSE; pd_cycle_id := cycle_id; pd_mode := mode; pd_candidate_count := candidates; pd_allocation_count := allocations;
              pd_risk_decision_count := risks; pd_order_count := orders; pd_exit_count := exits |}
  end.

(** [UPDATE ... SET state='RUNNING', ...] *)
Definition running_row (r : CycleRow) (token : string) (until : datetime) : CycleRow := {|
  cr_feature_record_ids := r.(cr_feature_record_ids); cr_event_time := r.(cr_event_time); cr_evaluated_at := r.(cr_evaluated_at);
  cr_state := RUNNING; cr_claim_token := Some token; cr_locked_until := Some until; cr_attempt_count := r.(cr_attempt_count) + 1;
  cr_decision := r.(cr_decision); cr_counts := r.(cr_counts); cr_last_error_type := None; cr_finished_at := r.(cr_finished_at) |}.

Definition tables_claim (id : string) (ids : list string) (event_time claimed_at : datetime) : M Tables PaperSessionClaim :=
  t ← get_state;
  let row := default (pending_row ids event_time claimed_at) (t.(tb_cycles) !! id) in
  _ ← modify (fun t => set_cycles (<[id := row]> t.(tb_cycles)) t.(tb_tokens) t);
  evaluated_at ← lift (utc row.(cr_evaluated_at) "evaluated_at");
  if bool_decide (row.(cr_state) = DONE) then mret (claim_of COMPLETED id evaluated_at None (result_from_row row))
  else if held row.(cr_state) row.(cr_locked_until) claimed_at then mret (claim_of BUSY id evaluated_at None None)
  else
    let token := uuid t.(tb_tokens) in
    until ← lift (dt_add claimed_at lease);
    _ ← modify (fun t => set_cycles (<[id := running_row row token until]> t.(tb_cycles)) (S t.(tb_tokens)) t);
    mret (claim_of CLAIMED id evaluated_at (Some token) None).

(** [WHERE session_cycle_id=%s AND state='RUNNING' AND claim_token=%s]: a
    missing token equals nothing. *)
Definition owns (claim : PaperSessionClaim) (r : CycleRow) : bool :=
  bool_decide (r.(cr_state) = RUNNING) &&
  match claim.(sc_claim_token) with Some k => bool_decide (r.(cr_claim_token) = Some k) | None => false end.

Definition completed_row (r : CycleRow) (result : PaperDecisionResult) (completed_at : datetime) : CycleRow := {|
  cr_feature_record_ids := r.(cr_feature_record_ids); cr_event_time := r.(cr_event_time); cr_evaluated_at := r.(cr_evaluated_at);
  cr_state := DONE; cr_claim_token := r.(cr_claim_token); cr_locked_until := None; cr_attempt_count := r.(cr_attempt_count);
  cr_decision := Some (result.(pd_cycle_id), result.(pd_mode));
  cr_counts := (result.(pd_candidate_count), result.(pd_allocation_count), result.(pd_risk_decision_count), result.(pd_order_count),
                result.(pd_exit_count));
  cr_last_error_type := r.(cr_last_error_type); cr_finished_at := Some completed_at |}.
Definition tables_complete (claim : PaperSessionClaim) (result : PaperDecisionResult) (completed_at : datetime) : M Tables unit :=
  t ← get_state;
  match t.(tb_cycles) !! claim.(sc_session_cycle_id) with
  | Some r =>
      if owns claim r then
        modify (fun t => set_cycles (<[claim.(sc_session_cycle_id) := completed_row r result completed_at]> t.(tb_cycles)) t.(tb_tokens) t)
      else raise (RuntimeError "paper session claim was lost before completion")
  | None => raise (RuntimeError "paper session claim was lost before completion")
  end.

Definition failed_row (r : CycleRow) (error_type : string) : CycleRow := {|
  cr_feature_record_ids := r.(cr_feature_record_ids); cr_event_time := r.(cr_event_time); cr_evaluated_at := r.(cr_evaluated_at);
  cr_state := FAILED; cr_claim_token := r.(cr_claim_token); cr_locked_until := None; cr_attempt_count := r.(cr_attempt_count);
  cr_decision := r.(cr_decision); cr_counts := r.(cr_counts); cr_last_error_type := Some (String.substring 0 200 error_type);
  cr_finished_at := r.(cr_finished_at) |}.
Definition tables_fail (claim : PaperSessionClaim) (error_type : string) : M Tables unit :=
  t ← get_state;
  match t.(tb_cycles) !! claim.(sc_session_cycle_id) with
  | Some r =>
      when (owns claim r)
        (modify (fun t => set_cycles (<[claim.(sc_session_cycle_id) := failed_row r error_type]> t.(tb_cycles)) t.(tb_tokens) t))
  | None => mret tt
  end.

(** *** [reconcile_exit_plans] *)

(** [ORDER BY d.evaluated_at, d.decision_id] *)
Definition decision_before (a b : DecisionRow * CandidateRow) : bool :=
  (instant a.1.(rx_evaluated_at) <? instant b.1.(rx_evaluated_at))
  || ((instant a.1.(rx_evaluated_at) =? instant b.1.(rx_evaluated_at)) && str_ltb a.1.(rx_decision_id) b.1.(rx_decision_id)).
(** The lateral join: the first decision of the position with a candidate. *)
Definition source (t : Tables) (p : PositionRow) : option CandidateRow :=
  snd <$> head (py_sorted decision_before
    (id ← p.(rp_decision_ids);
     d ← List.filter (fun d => String.eqb d.(rx_decision_id) id) t.(tb_decisions);
     c ← List.filter (fun c => String.eqb c.(rc_candidate_id) d.(rx_candidate_id)) t.(tb_candidates);
     [(d, c)])).
Definition plan_row (p : PositionRow) (c : CandidateRow) : PlanRow := {|
  rl_position_id := p.(rp_position_id); rl_market := p.(rp_market); rl_account_id := p.(rp_account_id); rl_symbol := p.(rp_symbol);
  rl_entry_action := if fgt p.(rp_signed_quantity) 0 then BUY else SELL; rl_quantity := abs p.(rp_signed_quantity);
  rl_stop_price := c.(rc_stop_price); rl_target_price := c.(rc_target_price);
  rl_allocated_capital := (abs p.(rp_signed_quantity) * p.(rp_average_entry_price) + p.(rp_total_fees))%float;
  rl_candidate_id := c.(rc_candidate_id); rl_approval_id := c.(rc_approval_id); rl_strategy_key := c.(rc_strategy_key);
  rl_gold_snapshot_ids := p.(rp_gold_snapshot_ids); rl_active := true; rl_created_at := p.(rp_opened_at) |}.
Definition unprotected (account_id : string) (t : Tables) (p : PositionRow) : bool :=
  bool_decide (p.(rp_market) = NSE) && String.eqb p.(rp_account_id) account_id && p.(rp_open)
  && negb (existsb (fun x => String.eqb x.(rl_position_id) p.(rp_position_id)) t.(tb_plans)).
Definition recovered_plans (account_id : string) (t : Tables) : list PlanRow :=
  somes ((fun p => plan_row p <$> source t p) <$> List.filter (unprotected account_id t) t.(tb_positions)).
(** The table's checks on a row; a NaN is greater than any number there. *)
Definition plan_checks (p : PlanRow) : bool :=
  forallb (fun v => fnan v || fgt v 0) [p.(rl_quantity); p.(rl_stop_price); p.(rl_target_price); p.(rl_allocated_capital)].
Definition tables_reconcile (account_id : string) : M Tables Z :=
  t ← get_state;
  let rows := recovered_plans account_id t in
  _ ← lift (raise_if (negb (forallb plan_checks rows)) (OtherException "CheckViolation" "exit_plans"));
  _ ← modify (set_plans (t.(tb_plans) ++ rows));
  mret (Z.of_nat (length rows)).

(** *** [retryable_features] *)

Definition retryable (as_of : datetime) (r : CycleRow) : bool :=
  bool_decide (r.(cr_state) = FAILED)
  || (bool_decide (r.(cr_state) = RUNNING) && match r.(cr_locked_until) with Some u => instant u <=? instant as_of | None => false end).
Definition cycle_before (a b : string * CycleRow) : bool :=
  (instant a.2.(cr_event_time) <? instant b.2.(cr_event_time))
  || ((instant a.2.(cr_event_time) =? instant b.2.(cr_event_time)) && str_ltb a.1 b.1).
Definition gold_feature (g : GoldRow) : result FeatureRecord :=
  let number name := v ← jitem g.(gr_features) name; float_json v in
  close ← number "close"; return_1 ← number "return_1"; range_pct ← number "range_pct"; body_pct ← number "body_pct";
  volume_change ← (match jget_default g.(gr_features) "volume_change" JNull with
                   | JNull => mret None
                   | _ => v ← number "volume_change"; mret (Some v)
                   end);
  mret {| fr_record_id := g.(gr_record_id); fr_candle_record_id := g.(gr_candle_record_id); fr_market := NSE; fr_symbol := g.(gr_symbol);
          fr_timeframe := g.(gr_timeframe); fr_event_time := g.(gr_event_time); fr_close := close; fr_return_1 := return_1;
          fr_range_pct := range_pct; fr_body_pct := body_pct; fr_volume_change := volume_change; fr_feature_version := g.(gr_feature_version) |}.
Definition gold_rows (t : Tables) (r : CycleRow) : list GoldRow :=
  py_sorted (fun a b => str_ltb a.(gr_record_id) b.(gr_record_id))
    (id ← r.(cr_feature_record_ids); List.filter (fun g => String.eqb g.(gr_record_id) id) t.(tb_gold)).
Definition tables_retryable (as_of : datetime) (limit : nat) : M Tables (list (list FeatureRecord)) :=
  t ← get_state;
  let cycles := take limit (py_sorted cycle_before (List.filter (fun r => retryable as_of r.2) (entries t.(tb_cycles)))) in
  groups ← lift (map_result (fun r => map_result gold_feature (gold_rows t r.2)) cycles);
  mret (List.filter (fun g => negb (is_nil g)) groups).

Definition PostgresStore : PaperSessionStore Postgres := {|
  store_claim id ids event_time claimed_at := transaction (tables_claim id ids event_time claimed_at);
  store_reconcile_exit_plans account_id := transaction (tables_reconcile account_id);
  store_retryable_features as_of := transaction (tables_retryable as_of 10);
  store_complete claim result completed_at := transaction (tables_complete claim result completed_at);
  store_fail claim _ error_type := transaction (tables_fail claim error_type) |}.
End Stores.

(** ** ContinuousNsePaperSession *)

Record SessionWorld (S P C : Type) := MkSessionWorld {
  sw_store : S;
  sw_processor : P;
  sw_clock : C;
  sw_health : PaperSessionHealth }.
Arguments MkSessionWorld {S P C} _ _ _ _.
Arguments sw_store {S P C} _.
Arguments sw_processor {S P C} _.
Arguments sw_clock {S P C} _.
Arguments sw_health {S P C} _.

Section Session.
Context {S P C : Type} `{PaperSessionStore S}.
(** The decision service over its world, the clock and the account. *)
Context (processor : list FeatureRecord -> option datetime -> M P (option PaperDecisionResult)) (clock : M C datetime) (account_id : string).
Local Abbreviation SW := (SessionWorld S P C).

Definition in_sessions {A} (m : M S A) : M SW A := zoom sw_store (fun x w => MkSessionWorld x w.(sw_processor) w.(sw_clock) w.(sw_health)) m.
Definition in_processor {A} (m : M P A) : M SW A := zoom sw_processor (fun x w => MkSessionWorld w.(sw_store) x w.(sw_clock) w.(sw_health)) m.
Definition set_health (f : PaperSessionHealth -> PaperSessionHealth) : M SW unit :=
  modify (fun w => MkSessionWorld w.(sw_store) w.(sw_processor) w.(sw_clock) (f w.(sw_health))).
(** [utc(self._clock(), "clock")] *)
Definition now_utc : M SW datetime :=
  t ← zoom sw_clock (fun x w => MkSessionWorld w.(sw_store) w.(sw_processor) x w.(sw_health)) clock;
  lift (utc t "clock").

Definition replayed_health (id : string) (h : PaperSessionHealth) : PaperSessionHealth := {|
  sh_processed := h.(sh_processed); sh_replayed := h.(sh_replayed) + 1; sh_busy := h.(sh_busy); sh_failed := h.(sh_failed);
  sh_recovered_exit_plans := h.(sh_recovered_exit_plans); sh_last_session_cycle_id := Some id; sh_last_completed_at := h.(sh_last_completed_at);
  sh_last_error_type := h.(sh_last_error_type) |}.
Definition busy_health (id : string) (h : PaperSessionHealth) : PaperSessionHealth := {|
  sh_processed := h.(sh_processed); sh_replayed := h.(sh_replayed); sh_busy := h.(sh_busy) + 1; sh_failed := h.(sh_failed);
  sh_recovered_exit_plans := h.(sh_recovered_exit_plans); sh_last_session_cycle_id := Some id; sh_last_completed_at := h.(sh_last_completed_at);
  sh_last_error_type := h.(sh_last_error_type) |}.
Definition processed_health (id : string) (recovered : Z) (completed_at : datetime) (h : PaperSessionHealth) : PaperSessionHealth := {|
  sh_processed := h.(sh_processed) + 1; sh_replayed := h.(sh_replayed); sh_busy := h.(sh_busy); sh_failed := h.(sh_failed);
  sh_recovered_exit_plans := h.(sh_recovered_exit_plans) + recovered; sh_last_session_cycle_id := Some id;
  sh_last_completed_at := Some completed_at; sh_last_error_type := None |}.
Definition failed_health (id error_type : string) (h : PaperSessionHealth) : PaperSessionHealth := {|
  sh_processed := h.(sh_processed); sh_replayed := h.(sh_replayed); sh_busy := h.(sh_busy); sh_failed := h.(sh_failed) + 1;
  sh_recovered_exit_plans := h.(sh_recovered_exit_plans); sh_last_session_cycle_id := Some id; sh_last_completed_at := h.(sh_last_completed_at);
  sh_last_error_type := Some error_type |}.

(** [max(...)] of UTC datetimes: the first of the latest *)
Definition latest_of (times : list datetime) : result datetime :=
  match times with
  | [] => Err (ValueError "max() iterable argument is empty")
  | t :: ts => Ok (foldl (fun m t => if instant m <? instant t then t else m) t ts)
  end.
Definition record_ids_of (features : list FeatureRecord) : list string := py_sorted str_ltb (fr_record_id <$> features).
Definition session_cycle_id_of (features : list FeatureRecord) : string :=
  stable_id ["continuous-nse-paper-session"; account_id; repr_tuple (repr_str <$> record_ids_of features)].

(** The [try] body of a claimed cycle. *)
Definition run_claimed (claim : PaperSessionClaim) (features : list FeatureRecord) : M SW PaperSessionRun :=
  recovered ← in_sessions (store_reconcile_exit_plans account_id);
  decision ← in_processor (processor features (Some claim.(sc_evaluated_at)));
  match decision with
  | None => raise (RuntimeError "non-empty NSE features produced no paper decision result")
  | Some decision =>
      completed_at ← now_utc;
      _ ← in_sessions (store_complete claim decision completed_at);
      _ ← set_health (processed_health claim.(sc_session_cycle_id) recovered completed_at);
      mret {| sr_session_cycle_id := claim.(sc_session_cycle_id); sr_state := claim.(sc_state); sr_decision := Some decision |}
  end.
(** [except Exception as exc: ...; raise] *)
Definition record_failure (claim : PaperSessionClaim) (e : exn) : M SW PaperSessionRun :=
  failed_at ← now_utc;
  _ ← in_sessions (store_fail claim failed_at (class_name e));
  _ ← set_health (failed_health claim.(sc_session_cycle_id) (class_name e));
  raise e.
Definition catching {A} (m : M SW A) (handler : exn -> M SW A) : M SW A := fun w =>
  match m w with
  | (Ok a, w') => (Ok a, w')
  | (Err e, w') => if is_base_exception e then (Err e, w') else handler e w'
  end.

Definition process_one (features : list FeatureRecord) : M SW PaperSessionRun :=
  times ← lift (map_result (fun f => utc f.(fr_event_time) "feature.event_time") features);
  event_time ← lift (latest_of times);
  let id := session_cycle_id_of features in
  now ← now_utc;
  claim ← in_sessions (store_claim id (record_ids_of features) event_time now);
  match claim.(sc_state) with
  | COMPLETED =>
      _ ← set_health (replayed_health id);
      mret {| sr_session_cycle_id := id; sr_state := COMPLETED; sr_decision := claim.(sc_prior_result) |}
  | BUSY =>
      _ ← set_health (busy_health id);
      mret {| sr_session_cycle_id := id; sr_state := BUSY; sr_decision := None |}
  | CLAIMED => catching (run_claimed claim features) (record_failure claim)
  end.

(** [frozenset(a) == frozenset(b)] *)
Definition same_ids (a b : list string) : bool := bool_decide (Forall (fun x => x ∈ b) a) && bool_decide (Forall (fun x => x ∈ a) b).

Definition process (features : list FeatureRecord) : M SW (option PaperSessionRun) :=
  match features with
  | [] => mret None
  | _ =>
      _ ← lift (raise_if (existsb (fun f => negb (bool_decide (f.(fr_market) = NSE))) features)
                 (ValueError "continuous NSE paper session only accepts NSE Gold features"));
      run ← process_one features;
      as_of ← now_utc;
      retries ← in_sessions (store_retryable_features as_of);
      _ ← for_each retries (fun retry =>
            when (negb (same_ids (fr_record_id <$> retry) (fr_record_id <$> features)))
              (catching (_ ← process_one retry; mret tt) (fun _ => mret tt)));
      mret (Some run)
  end.
End Session.

(** ** The lease protocol of the tables *)

Section Protocol.
Context (uuid : nat -> string) (lease : Z) (fault : nat -> option exn).
Local Abbreviation tables_claim := (tables_claim uuid lease).
Local Abbreviation transaction := (transaction fault).

(** The transactions of any number of sessions, one after another. *)
Inductive store_op :=
| OpClaim (id : string) (ids : list string) (event_time claimed_at : datetime)
| OpComplete (claim : PaperSessionClaim) (result : PaperDecisionResult) (completed_at : datetime)
| OpFail (claim : PaperSessionClaim) (error_type : string)
| OpReconcile (account_id : string)
| OpRetryable (as_of : datetime).
Definition op_run (op : store_op) : M Tables unit :=
  match op with
  | OpClaim id ids event_time claimed_at => _ ← tables_claim id ids event_time claimed_at; mret tt
  | OpComplete claim result completed_at => tables_complete claim result completed_at
  | OpFail claim error_type => tables_fail claim error_type
  | OpReconcile account_id => _ ← tables_reconcile account_id; mret tt
  | OpRetryable as_of => _ ← tables_retryable as_of 10; mret tt
  end.
Inductive pg_steps (s : Postgres) : Postgres -> Prop :=
| pg_refl : pg_steps s s
| pg_step s1 op : pg_steps s s1 -> pg_steps s (transaction (op_run op) s1).2.

(** How one transaction changes a row. *)
Inductive row_change (n : nat) : option CycleRow -> option CycleRow -> Prop :=
| rc_same o : row_change n o o
| rc_new ids event_time claimed_at until : row_change n None (Some (running_row (pending_row ids event_time claimed_at) (uuid n) until))
| rc_claimed r until : r.(cr_state) <> DONE -> row_change n (Some r) (Some (running_row r (uuid n) until))
| rc_completed r result completed_at : r.(cr_state) = RUNNING -> row_change n (Some r) (Some (completed_row r result completed_at))
| rc_failed r error_type : r.(cr_state) = RUNNING -> row_change n (Some r) (Some (failed_row r error_type)).

Lemma claim_ok id ids event_time claimed_at t c t' : tables_claim id ids event_time claimed_at t = (Ok c, t') ->
  let row := default (pending_row ids event_time claimed_at) (t.(tb_cycles) !! id) in
  c.(sc_session_cycle_id) = id /\ utc row.(cr_evaluated_at) "evaluated_at" = Ok c.(sc_evaluated_at) /\
  match c.(sc_state) with
  | COMPLETED => row.(cr_state) = DONE /\ c.(sc_prior_result) = result_from_row row /\ is_Some (t.(tb_cycles) !! id) /\ t' = t
  | BUSY => held row.(cr_state) row.(cr_locked_until) claimed_at = true /\ is_Some (t.(tb_cycles) !! id) /\ t' = t
  | CLAIMED => row.(cr_state) <> DONE /\ held row.(cr_state) row.(cr_locked_until) claimed_at = false /\
      c.(sc_claim_token) = Some (uuid t.(tb_tokens)) /\
      exists until, dt_add claimed_at lease = Ok until /\
        t' = set_cycles (<[id := running_row row (uuid t.(tb_tokens)) until]> t.(tb_cycles)) (S t.(tb_tokens)) t
  end.
Proof.
  unfold PaperSession.tables_claim. intros (t0 & t1 & [= <- <-] & E0)%M_bind_ok. cbv zeta.
  set (row := default _ _) in *. apply M_bind_ok in E0 as (u & t1 & [= _ <-] & E0).
  apply M_bind_ok in E0 as (ev & t2 & He & E0). apply lift_ok in He as [He ->].
  assert (Hsame : is_Some (t.(tb_cycles) !! id) -> set_cycles (<[id := row]> t.(tb_cycles)) t.(tb_tokens) t = t).
  { intros [r Hr]. unfold row. rewrite Hr. cbn. rewrite (dict_insert_id _ _ _ Hr). by destruct t. }
  assert (Hnew : row.(cr_state) <> PENDING -> is_Some (t.(tb_cycles) !! id)).
  { unfold row. destruct (t.(tb_cycles) !! id); [done|]. cbn. done. }
  case_bool_decide as Hd.
  { injection E0 as <- <-. cbn. assert (is_Some (t.(tb_cycles) !! id)) by (apply Hnew; by rewrite Hd). auto 10. }
  destruct (held _ _ _) eqn:Hh.
  { injection E0 as <- <-. cbn. assert (is_Some (t.(tb_cycles) !! id)).
    { apply Hnew. unfold held in Hh. apply andb_prop in Hh as [Hh%bool_decide_eq_true _]. by rewrite Hh. }
    auto 10. }
  apply M_bind_ok in E0 as (until & t3 & Hu & E0). apply lift_ok in Hu as [Hu ->]. apply M_bind_ok in E0 as (u' & t4 & [= _ <-] & [= <- <-]). cbn.
  split_and!; try done. exists until. split; [done|]. unfold set_cycles. cbn. by rewrite dict_insert_insert.
Qed.

Lemma op_row op t id u t' : op_run op t = (Ok u, t') ->
  row_change t.(tb_tokens) (t.(tb_cycles) !! id) (t'.(tb_cycles) !! id) /\
  (t.(tb_tokens) <= t'.(tb_tokens))%nat.
Proof.
  destruct op as [id' ids et at_|claim result at_|claim err|acct|as_of]; cbn [op_run].
  - intros (c & t1 & Hc & [= _ <-])%M_bind_ok. apply claim_ok in Hc. cbv zeta in Hc. destruct Hc as (_ & _ & Hc).
    destruct (sc_state c).
    + destruct Hc as (Hd & _ & _ & until & _ & ->). cbn. split; [|lia]. rewrite dict_lookup_insert. case_decide as Hid; [|constructor]. subst id'.
      destruct (tb_cycles t !! id) as [r|]; cbn in *; by constructor.
    + destruct Hc as (_ & _ & _ & ->). split; [constructor|lia].
    + destruct Hc as (_ & _ & ->). split; [constructor|lia].
  - unfold tables_complete. intros (t0 & t1 & [= <- <-] & E0)%M_bind_ok. destruct (tb_cycles t !! _) as [r|] eqn:Er; [|done].
    destruct (owns claim r) eqn:Ho; [|done]. injection E0 as _ <-. cbn. split; [|lia]. rewrite dict_lookup_insert.
    case_decide as Hid; [|constructor]. subst id. rewrite Er. constructor. unfold owns in Ho. by apply andb_prop in Ho as [Ho%bool_decide_eq_true _].
  - unfold tables_fail. intros (t0 & t1 & [= <- <-] & E0)%M_bind_ok. destruct (tb_cycles t !! _) as [r|] eqn:Er; [|injection E0 as _ <-; split; [constructor|lia]].
    destruct (owns claim r) eqn:Ho; cbn in E0; injection E0 as _ <-; [|split; [constructor|lia]]. cbn. split; [|lia]. rewrite dict_lookup_insert.
    case_decide as Hid; [|constructor]. subst id. rewrite Er. constructor. unfold owns in Ho. by apply andb_prop in Ho as [Ho%bool_decide_eq_true _].
  - intros (n & t1 & E0 & [= _ <-])%M_bind_ok. unfold tables_reconcile in E0. apply M_bind_ok in E0 as (t0 & t2 & [= <- <-] & E0).
    apply M_bind_ok in E0 as (u' & t3 & Hl & E0). apply lift_ok in Hl as [_ ->]. apply M_bind_ok in E0 as (u'' & t4 & [= _ <-] & [= _ <-]).
    split; [constructor|cbn; lia].
  - intros (n & t1 & E0 & [= _ <-])%M_bind_ok. unfold tables_retryable in E0. apply M_bind_ok in E0 as (t0 & t2 & [= <- <-] & E0).
    apply M_bind_ok in E0 as (g & t3 & Hl & [= _ <-]). apply lift_ok in Hl as [_ ->]. split; [constructor|lia].
Qed.

Lemma transaction_cases {A} (m : M Tables A) s :
  (exists e, (transaction m s).1 = Err e /\ (transaction m s).2.(pg_tables) = s.(pg_tables)) \/
  (exists a t, m s.(pg_tables) = (Ok a, t) /\ (transaction m s).1 = Ok a /\ (transaction m s).2.(pg_tables) = t).
Proof.
  unfold PaperSession.transaction. destruct (fault _) as [e|]; [left; by exists e|]. destruct (m _) as [[a|e] t]; [right; by exists a, t|left; by exists e].
Qed.
Lemma step_row op s id :
  row_change s.(pg_tables).(tb_tokens) (s.(pg_tables).(tb_cycles) !! id) ((transaction (op_run op) s).2.(pg_tables).(tb_cycles) !! id) /\
  (s.(pg_tables).(tb_tokens) <= (transaction (op_run op) s).2.(pg_tables).(tb_tokens))%nat.
Proof.
  destruct (transaction_cases (op_run op) s) as [(e & _ & ->)|(a & t & Hm & _ & ->)]; [split; [constructor|lia]|].
  by eapply op_row.
Qed.

(** A completed cycle never changes again. *)
Lemma completed_row_kept s s' id r : pg_steps s s' -> s.(pg_tables).(tb_cycles) !! id = Some r -> r.(cr_state) = DONE ->
  s'.(pg_tables).(tb_cycles) !! id = Some r.
Proof.
  induction 1 as [|s1 op Hs IH]; [done|]. intros Hr Hd. specialize (IH Hr Hd). destruct (step_row op s1 id) as [Hc _]. rewrite IH in Hc.
  inversion Hc; subst; try done; congruence.
Qed.
(** The time of evaluation and the records of a cycle are those of its first
    claim. *)
Lemma evaluated_at_kept s s' id r : pg_steps s s' -> s.(pg_tables).(tb_cycles) !! id = Some r ->
  exists r', s'.(pg_tables).(tb_cycles) !! id = Some r' /\ r'.(cr_evaluated_at) = r.(cr_evaluated_at) /\
    r'.(cr_feature_record_ids) = r.(cr_feature_record_ids) /\ r'.(cr_event_time) = r.(cr_event_time).
Proof.
  induction 1 as [|s1 op Hs IH]; intros Hr; [by exists r|]. destruct (IH Hr) as (r1 & H1 & He & Hf & Ht). destruct (step_row op s1 id) as [Hc _].
  rewrite H1 in Hc. inversion Hc; subst; eexists; (split; [done|]); cbn; auto.
Qed.

Definition claims (id : string) (ids : list string) (event_time claimed_at : datetime) : M Postgres PaperSessionClaim :=
  transaction (tables_claim id ids event_time claimed_at).

(** What others may do while a claim is held: anything but finishing that
    claim or claiming the cycle after its lease has ended. *)
Definition within_lease (c : PaperSessionClaim) (until : datetime) (op : store_op) : Prop :=
  match op with
  | OpClaim id _ _ claimed_at => id = c.(sc_session_cycle_id) -> instant claimed_at < instant until
  | OpComplete c' _ _ | OpFail c' _ => c'.(sc_claim_token) <> c.(sc_claim_token)
  | _ => True
  end.
Inductive pg_steps_within (c : PaperSessionClaim) (until : datetime) (s : Postgres) : Postgres -> Prop :=
| pw_refl : pg_steps_within c until s s
| pw_step s1 op : pg_steps_within c until s s1 -> within_lease c until op -> pg_steps_within c until s (transaction (op_run op) s1).2.

Lemma claims_granted id ids event_time claimed_at s c s' : claims id ids event_time claimed_at s = (Ok c, s') -> c.(sc_state) = CLAIMED ->
  exists r until, dt_add claimed_at lease = Ok until /\ s'.(pg_tables).(tb_cycles) !! id = Some (running_row r (uuid s.(pg_tables).(tb_tokens)) until) /\
    c.(sc_claim_token) = Some (uuid s.(pg_tables).(tb_tokens)) /\ s'.(pg_tables).(tb_tokens) = S s.(pg_tables).(tb_tokens) /\
    c.(sc_session_cycle_id) = id.
Proof.
  intros E0 Hc. unfold claims in E0. destruct (transaction_cases (tables_claim id ids event_time claimed_at) s) as [(e & He & _)|(a & t & Hm & Ha & Ht)].
  { by rewrite E0 in He. }
  rewrite E0 in Ha, Ht. injection Ha as <-. cbn in Ht. subst t. apply claim_ok in Hm. cbv zeta in Hm. destruct Hm as (Hid & _ & Hm).
  rewrite Hc in Hm. destruct Hm as (_ & _ & Htok & until & Hu & ->). eexists _, until. split; [done|]. cbn.
  rewrite dict_lookup_insert_eq. auto.
Qed.

Lemma owns_token claim r : owns claim r = true -> r.(cr_state) = RUNNING /\ claim.(sc_claim_token) <> None /\ r.(cr_claim_token) = claim.(sc_claim_token).
Proof.
  unfold owns. intros [H1%bool_decide_eq_true H2]%andb_prop. destruct (sc_claim_token claim); [|done]. by apply bool_decide_eq_true in H2.
Qed.

Lemma within_keeps c until r op t u t' : t.(tb_cycles) !! c.(sc_session_cycle_id) = Some r -> r.(cr_state) = RUNNING ->
  r.(cr_claim_token) = c.(sc_claim_token) -> r.(cr_locked_until) = Some until -> within_lease c until op ->
  op_run op t = (Ok u, t') -> t'.(tb_cycles) !! c.(sc_session_cycle_id) = Some r.
Proof.
  intros Hr Hst Htok Hu Hw. destruct op as [id ids et at_|c' result at_|c' err|acct|as_of]; cbn [op_run] in *.
  - intros (c' & t1 & Hc & [= _ <-])%M_bind_ok. apply claim_ok in Hc. cbv zeta in Hc. destruct Hc as (_ & _ & Hc).
    destruct (sc_state c'); [|by destruct Hc as (_ & _ & _ & ->)|by destruct Hc as (_ & _ & ->)].
    destruct Hc as (_ & Hh & _ & until' & _ & ->). cbn. rewrite dict_lookup_insert. case_decide as Hid; [|done]. subst id.
    rewrite Hr in Hh. cbn in Hh. unfold held in Hh. rewrite Hst, Hu in Hh. rewrite bool_decide_true in Hh by done. specialize (Hw eq_refl). lia.
  - unfold tables_complete. intros (t0 & t1 & [= <- <-] & E0)%M_bind_ok. destruct (tb_cycles t !! sc_session_cycle_id c') as [r'|] eqn:Er; [|done].
    destruct (owns c' r') eqn:Ho; [|done]. injection E0 as _ <-. cbn. rewrite dict_lookup_insert. case_decide as Hid; [|done].
    rewrite <-Hid, Er in Hr. injection Hr as ->. apply owns_token in Ho as (_ & _ & Ho). congruence.
  - unfold tables_fail. intros (t0 & t1 & [= <- <-] & E0)%M_bind_ok. destruct (tb_cycles t !! sc_session_cycle_id c') as [r'|] eqn:Er; [|by injection E0 as _ <-].
    destruct (owns c' r') eqn:Ho; cbn in E0; injection E0 as _ <-; [|done]. cbn. rewrite dict_lookup_insert. case_decide as Hid; [|done].
    rewrite <-Hid, Er in Hr. injection Hr as ->. apply owns_token in Ho as (_ & _ & Ho). congruence.
  - intros (n & t1 & E0 & [= _ <-])%M_bind_ok. unfold tables_reconcile in E0. apply M_bind_ok in E0 as (t0 & t2 & [= <- <-] & E0).
    apply M_bind_ok in E0 as (u' & t3 & Hl & E0). apply lift_ok in Hl as [_ ->]. by apply M_bind_ok in E0 as (u'' & t4 & [= _ <-] & [= _ <-]).
  - intros (n & t1 & E0 & [= _ <-])%M_bind_ok. unfold tables_retryable in E0. apply M_bind_ok in E0 as (t0 & t2 & [= <- <-] & E0).
    apply M_bind_ok in E0 as (g & t3 & Hl & [= _ <-]). by apply lift_ok in Hl as [_ ->].
Qed.
Lemma within_steps c until r s s' : pg_steps_within c until s s' -> r.(cr_state) = RUNNING ->
  r.(cr_claim_token) = c.(sc_claim_token) -> r.(cr_locked_until) = Some until ->
  s.(pg_tables).(tb_cycles) !! c.(sc_session_cycle_id) = Some r -> s'.(pg_tables).(tb_cycles) !! c.(sc_session_cycle_id) = Some r.
Proof.
  intros Hs Hst Htok Hu Hr. induction Hs as [|s1 op Hs IH Hw]; [done|].
  destruct (transaction_cases (op_run op) s1) as [(e & _ & ->)|(a & t & Hm & _ & ->)]; [done|]. by eapply within_keeps.
Qed.

(** C17. A lease excludes.  From a granted claim on, whatever other sessions do
    within its lease: nobody else is granted the cycle (a claim of it that
    returns says BUSY and changes nothing), and the holder can complete it
    unless the database fails. *)
Theorem lease_excludes id ids event_time claimed_at s c s1 s2 until :
  claims id ids event_time claimed_at s = (Ok c, s1) -> c.(sc_state) = CLAIMED -> dt_add claimed_at lease = Ok until ->
  pg_steps_within c until s1 s2 ->
  (forall ids' event_time' at_ c' s3, instant at_ < instant until -> claims id ids' event_time' at_ s2 = (Ok c', s3) ->
     c'.(sc_state) = BUSY /\ s3.(pg_tables) = s2.(pg_tables)) /\
  (forall result completed_at, fault s2.(pg_transactions) = None ->
     exists s3, transaction (tables_complete c result completed_at) s2 = (Ok tt, s3) /\
       exists r, s3.(pg_tables).(tb_cycles) !! id = Some (completed_row r result completed_at)).
Proof.
  intros Hg Hc Hu Hs. destruct (claims_granted _ _ _ _ _ _ _ Hg Hc) as (r & until' & Hu' & Hrow & Htok & _ & Hid).
  rewrite Hu in Hu'. injection Hu' as <-. set (row := running_row r _ until) in *. rewrite <-Hid in Hrow.
  assert (Hk : s2.(pg_tables).(tb_cycles) !! c.(sc_session_cycle_id) = Some row) by (eapply (within_steps c until row); [exact Hs|done|by rewrite Htok|done|exact Hrow]). rewrite Hid in Hk. split.
  - intros ids' et' at_ c' s3 Hat E0. unfold claims in E0.
    destruct (transaction_cases (tables_claim id ids' et' at_) s2) as [(e & He & _)|(a & t & Hm & Ha & Ht)]; [by rewrite E0 in He|].
    rewrite E0 in Ha, Ht. injection Ha as <-. cbn in Ht. subst t. apply claim_ok in Hm. cbv zeta in Hm. rewrite Hk in Hm. cbn in Hm.
    destruct Hm as (_ & _ & Hm). destruct (sc_state c').
    + destruct Hm as (_ & Hh & _). unfold held in Hh. rewrite bool_decide_true in Hh by done. lia.
    + by destruct Hm as (? & _).
    + by destruct Hm as (_ & _ & ->).
  - intros result at_ Hf. unfold PaperSession.transaction. rewrite Hf. unfold tables_complete, mbind, M_bind, get_state. rewrite Hid, Hk.
    assert (Ho : owns c row = true). { unfold owns. rewrite Htok. cbn. by rewrite !bool_decide_true. }
    rewrite Ho. eexists. split; [done|]. cbn. exists row. apply dict_lookup_insert_eq.
Qed.

(** A token is never drawn again. *)
Definition token_after (m : nat) (o : option CycleRow) : Prop :=
  exists r m', o = Some r /\ (m < m')%nat /\ r.(cr_claim_token) = Some (uuid m').
Lemma token_after_step m op s id : (m < s.(pg_tables).(tb_tokens))%nat -> token_after m (s.(pg_tables).(tb_cycles) !! id) ->
  token_after m ((transaction (op_run op) s).2.(pg_tables).(tb_cycles) !! id).
Proof.
  intros Hm (r & m' & Hr & Hlt & Ht). destruct (step_row op s id) as [Hc _]. rewrite Hr in Hc.
  inversion Hc; subst; eexists; [exists m'|exists (s.(pg_tables).(tb_tokens))|exists m'|exists m']; (split; [done|]); cbn; auto.
Qed.

(** A lost claim stays lost: once the cycle was granted again, the earlier
    claim can neither complete nor fail it, then or at any later time; an
    attempt to complete raises and leaves the tables as they were. *)
Theorem lost_claim_stays_lost id ids event_time at_ s c s1 s2 ids' event_time' at_' c' s3 s4 result completed_at :
  (forall m n, uuid m = uuid n -> m = n) ->
  claims id ids event_time at_ s = (Ok c, s1) -> c.(sc_state) = CLAIMED -> pg_steps s1 s2 ->
  claims id ids' event_time' at_' s2 = (Ok c', s3) -> c'.(sc_state) = CLAIMED -> pg_steps s3 s4 ->
  (exists e, (transaction (tables_complete c result completed_at) s4).1 = Err e) /\
  (transaction (tables_complete c result completed_at) s4).2.(pg_tables) = s4.(pg_tables) /\
  (forall error_type, (transaction (tables_fail c error_type) s4).2.(pg_tables) = s4.(pg_tables)).
Proof.
  intros Hinj Hg Hc H12 Hg' Hc' H34. destruct (claims_granted _ _ _ _ _ _ _ Hg Hc) as (r & until & _ & _ & Htok & Hn & Hid).
  set (m := s.(pg_tables).(tb_tokens)) in *.
  assert (Hmono : forall a b, pg_steps a b -> (a.(pg_tables).(tb_tokens) <= b.(pg_tables).(tb_tokens))%nat).
  { clear. induction 1 as [|b op _ IH]; [lia|]. pose proof (proj2 (step_row op b "")). lia. }
  pose proof (Hmono _ _ H12) as Hm12. destruct (claims_granted _ _ _ _ _ _ _ Hg' Hc') as (r' & until' & _ & Hrow' & _ & Hn' & _).
  assert (Hafter : token_after m (s4.(pg_tables).(tb_cycles) !! id)).
  { assert (H3 : token_after m (s3.(pg_tables).(tb_cycles) !! id)).
    { rewrite Hrow'. eexists _, _. split; [done|]. split; [|done]. lia. }
    clear -H3 H34 Hmono Hn Hm12 Hn'. induction H34 as [|b op Hb IH]; [done|]. apply token_after_step; [|exact IH]. pose proof (Hmono _ _ Hb). lia. }
  destruct Hafter as (r4 & m' & Hr4 & Hlt & Ht4).
  assert (Hno : owns c r4 = false).
  { destruct (owns c r4) eqn:Ho; [|done]. apply owns_token in Ho as (_ & _ & Ho). rewrite Ht4, Htok in Ho. injection Ho as Ho%Hinj. lia. }
  assert (Hcomp : exists e, tables_complete c result completed_at s4.(pg_tables) = (Err e, s4.(pg_tables))).
  { unfold tables_complete, mbind, M_bind, get_state. rewrite Hid, Hr4, Hno. by eexists. }
  destruct Hcomp as (e & He). split; [|split].
  - unfold PaperSession.transaction. destruct (fault _) as [f|]; [by exists f|]. rewrite He. by exists e.
  - unfold PaperSession.transaction. destruct (fault _) as [f|]; [done|]. by rewrite He.
  - intros err. unfold PaperSession.transaction. destruct (fault _) as [f|]; [done|].
    unfold tables_fail, mbind, M_bind, get_state. rewrite Hid, Hr4, Hno. done.
Qed.
End Protocol.

(** ** Sessions over the tables *)

Section SessionTheory.
Context {P C : Type} (uuid : nat -> string) (lease : Z) (fault : nat -> option exn).
Context (processor : list FeatureRecord -> option datetime -> M P (option PaperDecisionResult)) (clock : M C datetime) (account_id : string).
#[local] Instance tables_store : PaperSessionStore Postgres := PostgresStore uuid lease fault.
Local Abbreviation SW := (SessionWorld Postgres P C).
Local Abbreviation process_one := (process_one processor clock account_id).
Local Abbreviation id_of := (session_cycle_id_of account_id).

(** Reading the clock leaves store, processor and health alone. *)
Definition clock_moved (w w' : SW) : Prop := w'.(sw_store) = w.(sw_store) /\ w'.(sw_processor) = w.(sw_processor) /\ w'.(sw_health) = w.(sw_health).
Lemma now_utc_moves (w : SW) r w' : now_utc clock w = (r, w') -> clock_moved w w' /\ (forall t, r = Ok t -> aware t = true).
Proof.
  unfold now_utc, zoom, mbind, M_bind, lift. destruct (clock _) as [[t|e] c]; intros [= <- <-]; (split; [done|]); [|done].
  intros t' Ht. by apply utc_ok in Ht as [_ ->].
Qed.

(** A run that returned. *)
Lemma process_one_ok features (w : SW) run w' : process_one features w = (Ok run, w') ->
  exists event_time now claim s1, claims uuid lease fault (id_of features) (record_ids_of features) event_time now w.(sw_store) = (Ok claim, s1) /\
    run.(sr_state) = claim.(sc_state) /\
    (claim.(sc_state) = CLAIMED -> exists d n s2 at_,
       run.(sr_decision) = Some d /\ processor features (Some claim.(sc_evaluated_at)) w.(sw_processor) = (Ok (Some d), w'.(sw_processor)) /\
       transaction fault (tables_reconcile account_id) s1 = (Ok n, s2) /\
       transaction fault (tables_complete claim d at_) s2 = (Ok tt, w'.(sw_store))).
Proof.
  unfold PaperSession.process_one. intros (times & w1 & Ht & E0)%M_bind_ok. apply lift_ok in Ht as [_ ->].
  apply M_bind_ok in E0 as (et & w1 & Het & E0). apply lift_ok in Het as [_ ->]. cbv zeta in E0.
  apply M_bind_ok in E0 as (now & w1 & Hn & E0). destruct (now_utc_moves _ _ _ Hn) as [(Hs1 & Hp1 & _) _].
  apply M_bind_ok in E0 as (claim & w2 & Hc & E0). unfold in_sessions, zoom in Hc. cbn [store_claim tables_store PostgresStore] in Hc.
  destruct (transaction fault _ _) as [rc s1] eqn:Ec. injection Hc as -> <-. rewrite Hs1 in Ec.
  exists et, now, claim, s1. split; [exact Ec|]. destruct (sc_state claim) eqn:Hst.
  2: { apply M_bind_ok in E0 as (u & w3 & _ & [= <- _]). split; [done|]. done. }
  2: { apply M_bind_ok in E0 as (u & w3 & _ & [= <- _]). split; [done|]. done. }
  unfold catching in E0. destruct (run_claimed _ _ _ _ _ _) as [[r0|e] w3] eqn:Er.
  2: { destruct (is_base_exception e); [done|]. unfold record_failure in E0. apply M_bind_ok in E0 as (u1 & w4 & _ & E0).
       apply M_bind_ok in E0 as (u2 & w5 & _ & E0). by apply M_bind_ok in E0 as (u3 & w6 & _ & E0). }
  injection E0 as -> <-. unfold run_claimed in Er. apply M_bind_ok in Er as (n & w4 & Hrec & Er). apply M_bind_ok in Er as (d & w5 & Hp & Er).
  unfold in_sessions, zoom in Hrec. cbn in Hrec. destruct (transaction fault (tables_reconcile account_id) s1) as [rn s2] eqn:Erec.
  injection Hrec as -> <-. unfold in_processor, zoom in Hp. cbn in Hp. rewrite Hp1 in Hp.
  destruct (processor features _ _) as [rp p'] eqn:Ep. injection Hp as -> <-. destruct d as [d|]; [|done].
  apply M_bind_ok in Er as (at_ & w6 & Hat & Er). destruct (now_utc_moves _ _ _ Hat) as [(Hs6 & Hp6 & _) _]. cbn in Hs6, Hp6.
  apply M_bind_ok in Er as ([] & w7 & Hcm & Er). unfold in_sessions, zoom in Hcm. cbn in Hcm. rewrite Hs6 in Hcm.
  destruct (transaction fault (tables_complete claim d at_) s2) as [rm s3] eqn:Em. injection Hcm as -> <-.
  apply M_bind_ok in Er as (u & w8 & [= _ <-] & [= <- <-]). cbn. split; [done|]. intros _. exists d, n, s2, at_. rewrite Hp6. auto.
Qed.

Lemma complete_done claim d at_ s s' : transaction fault (tables_complete claim d at_) s = (Ok tt, s') ->
  exists r, s'.(pg_tables).(tb_cycles) !! claim.(sc_session_cycle_id) = Some (completed_row r d at_).
Proof.
  intros E0. destruct (transaction_cases fault (tables_complete claim d at_) s) as [(e & He & _)|(a & t & Hm & _ & Ht)]; [by rewrite E0 in He|].
  rewrite E0 in Ht. cbn in Ht. subst t. unfold tables_complete in Hm. apply M_bind_ok in Hm as (t0 & t1 & [= <- <-] & Hm).
  destruct (tb_cycles _ !! _) as [r|]; [|done]. destruct (owns claim r); [|done]. injection Hm as _ Hm. exists r. rewrite <-Hm. apply dict_lookup_insert_eq.
Qed.

(** A completed cycle is answered from its row, without the processor. *)
Lemma completed_replays features (w : SW) r res w' :
  w.(sw_store).(pg_tables).(tb_cycles) !! id_of features = Some r -> r.(cr_state) = DONE -> process_one features w = (res, w') ->
  w'.(sw_processor) = w.(sw_processor) /\ w'.(sw_store).(pg_tables) = w.(sw_store).(pg_tables) /\
  forall run, res = Ok run -> run.(sr_state) = COMPLETED /\ run.(sr_decision) = result_from_row r.
Proof.
  intros Hr Hd. unfold PaperSession.process_one, mbind at 1, M_bind at 1, lift at 1. destruct (map_result _ features) as [times|e]; [|by intros [= <- <-]].
  unfold mbind at 1, M_bind at 1, lift at 1. destruct (latest_of times) as [et|e]; [|by intros [= <- <-]]. cbv zeta.
  unfold mbind at 1, M_bind at 1. destruct (now_utc clock w) as [rn w1] eqn:Hn. destruct (now_utc_moves _ _ _ Hn) as [(Hs1 & Hp1 & _) _].
  destruct rn as [now|e]; [|intros [= <- <-]; by rewrite Hs1, Hp1].
  unfold mbind at 1, M_bind at 1, in_sessions, zoom. cbn [store_claim tables_store PostgresStore]. rewrite Hs1.
  destruct (transaction_cases fault (tables_claim uuid lease (id_of features) (record_ids_of features) et now) w.(sw_store))
    as [(e & He & Ht)|(claim & t & Hm & He & Ht)]; destruct (transaction fault _ _) as [rc s1]; cbn in He, Ht; subst rc.
  { intros [= <- <-]. cbn. by rewrite Hp1. }
  apply claim_ok in Hm. cbv zeta in Hm. rewrite Hr in Hm. cbn in Hm. destruct Hm as (_ & _ & Hm). destruct (sc_state claim) eqn:Hst.
  - by destruct Hm as (Hnd & _).
  - destruct Hm as (_ & Hprior & _ & Heq). unfold set_health, mbind, M_bind, modify. intros [= <- <-]. cbn. rewrite Hp1, Ht, Heq.
    split; [done|]. split; [done|]. intros run [= <-]. by rewrite <-Hprior.
  - destruct Hm as (Hh & _). unfold held in Hh. rewrite Hd in Hh. by rewrite bool_decide_false in Hh.
Qed.

(** C16. Exactly once: after a run processed its features, every later run over
    the same records, by any session and after whatever the others did in
    between, leaves the decision service untouched, and when it returns it
    returns the same decision as a replay. *)
Theorem processed_once features (w w1 w2 w3 : SW) run d res :
  process_one features w = (Ok run, w1) -> run.(sr_state) = CLAIMED -> run.(sr_decision) = Some d -> d.(pd_market) = NSE ->
  pg_steps uuid lease fault w1.(sw_store) w2.(sw_store) -> process_one features w2 = (res, w3) ->
  w3.(sw_processor) = w2.(sw_processor) /\ w3.(sw_store).(pg_tables) = w2.(sw_store).(pg_tables) /\
  forall run', res = Ok run' -> run'.(sr_state) = COMPLETED /\ run'.(sr_decision) = Some d.
Proof.
  intros H1 Hst Hd Hm Hs H2. destruct (process_one_ok _ _ _ _ H1) as (et & now & claim & s1 & Hc & Hst' & Hrun). rewrite Hst in Hst'.
  destruct (Hrun (eq_sym Hst')) as (d' & n & s2 & at_ & Hd' & _ & _ & Hcm). rewrite Hd in Hd'. injection Hd' as <-.
  destruct (claims_granted _ _ _ _ _ _ _ _ _ _ Hc (eq_sym Hst')) as (_ & _ & _ & _ & _ & _ & Hid).
  destruct (complete_done _ _ _ _ _ Hcm) as (r & Hr). rewrite Hid in Hr. apply (completed_row_kept _ _ _ _ _ _ _ Hs) in Hr; [|done].
  destruct (completed_replays _ _ _ _ _ Hr eq_refl H2) as (Hp & Ht & Hres). split; [done|]. split; [done|]. intros run' Hr'.
  destruct (Hres run' Hr') as [-> ->]. split; [done|]. cbn. rewrite <-Hm. by destruct d.
Qed.

(** A failure is durable.  When the decision service raises on a claimed
    cycle and neither database nor clock fails, the exception reaches the
    caller, the row is FAILED with the exception's class, the health counts
    it, and the row is among those to be retried from then on. *)
Theorem failure_recorded features (w : SW) times event_time now claim s1 n s2 e p' :
  (forall k, fault k = None) -> (forall c, exists t c', clock c = (Ok t, c') /\ aware t = true) ->
  map_result (fun f => utc f.(fr_event_time) "feature.event_time") features = Ok times -> latest_of times = Ok event_time ->
  (now_utc clock w).1 = Ok now ->
  claims uuid lease fault (id_of features) (record_ids_of features) event_time now w.(sw_store) = (Ok claim, s1) -> claim.(sc_state) = CLAIMED ->
  transaction fault (tables_reconcile account_id) s1 = (Ok n, s2) ->
  processor features (Some claim.(sc_evaluated_at)) w.(sw_processor) = (Err e, p') -> is_base_exception e = false ->
  exists w' r, process_one features w = (Err e, w') /\ w'.(sw_processor) = p' /\
    w'.(sw_store).(pg_tables).(tb_cycles) !! id_of features = Some (failed_row r (class_name e)) /\
    (forall as_of, retryable as_of (failed_row r (class_name e)) = true) /\
    w'.(sw_health) = failed_health (id_of features) (class_name e) w.(sw_health).
Proof.
  intros Hf Hclk Htimes Het Hnow Hc Hst Hrec Hp Hbase.
  destruct (claims_granted _ _ _ _ _ _ _ _ _ _ Hc Hst) as (r & until & _ & Hrow & Htok & _ & Hid).
  assert (Hrow2 : s2.(pg_tables).(tb_cycles) !! id_of features = s1.(pg_tables).(tb_cycles) !! id_of features).
  { destruct (transaction_cases fault (tables_reconcile account_id) s1) as [(e' & He & _)|(a & t & Hm & _ & Ht)]; [by rewrite Hrec in He|].
    rewrite Hrec in Ht. cbn in Ht. rewrite Ht. unfold tables_reconcile in Hm. apply M_bind_ok in Hm as (t0 & t1 & [= <- <-] & Hm).
    apply M_bind_ok in Hm as (u & t2 & Hl & Hm). apply lift_ok in Hl as [_ ->]. by apply M_bind_ok in Hm as (u' & t3 & [= _ <-] & [= _ <-]). }
  rewrite Hrow in Hrow2. set (row := running_row r _ until) in *.
  unfold PaperSession.process_one, mbind at 1, M_bind at 1, lift at 1. rewrite Htimes. unfold mbind at 1, M_bind at 1, lift at 1. rewrite Het. cbv zeta.
  unfold mbind at 1, M_bind at 1. destruct (now_utc clock w) as [rn w1] eqn:Hn. cbn in Hnow. subst rn.
  destruct (now_utc_moves _ _ _ Hn) as [(Hs1 & Hp1 & Hh1) _]. unfold mbind at 1, M_bind at 1, in_sessions at 1, zoom at 1.
  cbn [store_claim tables_store PostgresStore]. rewrite Hs1. unfold claims in Hc. rewrite Hc. rewrite Hst. unfold catching, run_claimed.
  unfold mbind at 1, M_bind at 1, in_sessions at 1, zoom at 1. cbn [store_reconcile_exit_plans tables_store PostgresStore sw_store]. rewrite Hrec.
  unfold mbind at 1, M_bind at 1, in_processor at 1, zoom at 1. cbn [sw_processor]. rewrite Hp1, Hp, Hbase. cbn [sw_store sw_clock sw_health].
  set (w2 := MkSessionWorld s2 p' _ _). unfold record_failure, mbind at 1, M_bind at 1.
  assert (Hn2 : exists t w3, now_utc clock w2 = (Ok t, w3)).
  { unfold now_utc, zoom, mbind, M_bind, lift. destruct (Hclk (sw_clock w2)) as (t & c' & -> & Ha). destruct (utc t "clock") eqn:Eu; [by eexists _, _|].
    unfold utc in Eu. unfold aware in Ha. by destruct (utcoffset t). }
  destruct Hn2 as (t & w3 & Hn2). rewrite Hn2. destruct (now_utc_moves _ _ _ Hn2) as [(Hs3 & Hp3 & Hh3) _].
  unfold mbind at 1, M_bind at 1, in_sessions at 1, zoom at 1. cbn [store_fail tables_store PostgresStore]. rewrite Hs3. unfold w2. cbn [sw_store].
  unfold PaperSession.transaction at 1. rewrite Hf. unfold tables_fail, mbind, M_bind, get_state, when. rewrite Hid, Hrow2.
  assert (Ho : owns claim row = true). { unfold owns. rewrite Htok. cbn. by rewrite !bool_decide_true. }
  rewrite Ho. unfold modify, set_health, raise, modify. eexists _, row. split; [done|]. cbn. rewrite Hp3, Hh3. unfold w2. cbn. rewrite Hh1.
  split; [done|]. split; [apply dict_lookup_insert_eq|]. split; [|done]. intros as_of. unfold retryable. cbn. by rewrite bool_decide_true.
Qed.

(** The retries of a call cannot make it fail: once its own features were
    processed and the retries listed, only an exception that is not an
    [Exception] can escape. *)
Theorem retries_contained features (w : SW) run w1 as_of w2 retries s e w' :
  process_one features w = (Ok run, w1) -> now_utc clock w1 = (Ok as_of, w2) ->
  store_retryable_features as_of w2.(sw_store) = (Ok retries, s) ->
  process processor clock account_id features w = (Err e, w') -> existsb (fun f => negb (bool_decide (f.(fr_market) = NSE))) features = false ->
  is_base_exception e = true.
Proof.
  intros H1 Hn Hr E0 Hmk. unfold process in E0. destruct features as [|f fs]; [done|]. unfold mbind at 1, M_bind at 1, lift at 1 in E0.
  rewrite Hmk in E0. cbn [raise_if] in E0. unfold mbind at 1, M_bind at 1 in E0. rewrite H1 in E0. unfold mbind at 1, M_bind at 1 in E0. rewrite Hn in E0.
  unfold mbind at 1, M_bind at 1, in_sessions at 1, zoom at 1 in E0. rewrite Hr in E0. apply M_bind_err in E0 as [E0|(u & w3 & _ & [=])].
  revert E0. generalize (MkSessionWorld s (sw_processor w2) (sw_clock w2) (sw_health w2)). clear. induction retries as [|retry retries IH]; intros w; [done|].
  cbn [for_each]. intros [E0|(u & w1 & _ & E0)]%M_bind_err; [|by eapply IH]. unfold when in E0. destruct (negb _); [|done]. unfold catching in E0.
  destruct ((_ ← process_one retry; mret tt) w) as [[a|e'] w1]; [done|]. destruct (is_base_exception e') eqn:Hb; [|done]. by injection E0 as <- _.
Qed.

(** Recovery of exit plans: afterwards every open NSE position of the account
    whose decisions lead to a candidate has a plan; a recovered plan is the
    one of the position's quantity, side and first candidate's stop and
    target; and no plan that was there is changed or lost. *)
Theorem reconcile_protects t n t' : tables_reconcile account_id t = (Ok n, t') ->
  (exists rows, t'.(tb_plans) = t.(tb_plans) ++ rows /\ n = Z.of_nat (length rows) /\
     Forall (fun x => exists p c, p ∈ t.(tb_positions) /\ source t p = Some c /\ unprotected account_id t p = true /\ x = plan_row p c) rows) /\
  forall p, p ∈ t.(tb_positions) -> p.(rp_market) = NSE -> p.(rp_account_id) = account_id -> p.(rp_open) = true -> is_Some (source t p) ->
    exists x, x ∈ t'.(tb_plans) /\ x.(rl_position_id) = p.(rp_position_id).
Proof.
  unfold tables_reconcile. intros (t0 & t1 & [= <- <-] & E0)%M_bind_ok. apply M_bind_ok in E0 as (u & t1 & Hl & E0). apply lift_ok in Hl as [_ ->].
  apply M_bind_ok in E0 as (u' & t2 & [= _ <-] & [= <- <-]). cbn [tb_plans set_plans].
  assert (Hrows : forall x, x ∈ recovered_plans account_id t <->
    exists p c, p ∈ t.(tb_positions) /\ source t p = Some c /\ unprotected account_id t p = true /\ x = plan_row p c).
  { intros x. unfold recovered_plans. rewrite somes_elem, list_elem_of_fmap. split.
    - intros (p & Hx & [Hp Hu]%filter_elem). destruct (source t p) as [c|] eqn:Es; [|done]. injection Hx as ->. by exists p, c.
    - intros (p & c & Hp & Hs & Hu & ->). exists p. rewrite Hs. split; [done|]. by apply filter_elem. }
  split.
  - exists (recovered_plans account_id t). split; [done|]. split; [done|]. apply Forall_forall. intros x. apply Hrows.
  - intros p Hp Hm Ha Ho [c Hc]. destruct (unprotected account_id t p) eqn:Hu.
    + exists (plan_row p c). split; [|done]. apply elem_of_app. right. apply Hrows. by exists p, c.
    + unfold unprotected in Hu. rewrite Hm, Ha, Ho, String.eqb_refl in Hu. rewrite bool_decide_true in Hu by done. cbn in Hu.
      apply negb_false_iff, existsb_true_elem in Hu as (x & Hx & Heq%String.eqb_eq). exists x. split; [|done]. apply elem_of_app. by left.
Qed.
End SessionTheory.

Module PaperSessionExample.

Definition uuid (n : nat) : string := pretty n.
Definition lease : Z := 300 * second.
Definition fault (_ : nat) : option exn := None.
Definition t0 : Z := (1709200000 * second)%Z.
Definition feature_row : FeatureRecord := {|
  fr_record_id := "gold-1"; fr_candle_record_id := "silver-1"; fr_market := NSE; fr_symbol := "RELIANCE"; fr_timeframe := "5m";
  fr_event_time := at_utc t0; fr_close := 2500; fr_return_1 := 0.01; fr_range_pct := 0.02; fr_body_pct := 0.01; fr_volume_change := None;
  fr_feature_version := 2 |}.
Definition decision : PaperDecisionResult := {|
  pd_market := NSE; pd_cycle_id := "cycle-1"; pd_mode := NORMAL; pd_candidate_count := 1; pd_allocation_count := 1; pd_risk_decision_count := 1;
  pd_order_count := 1; pd_exit_count := 0 |}.
(** Decision services that count their calls; the clock ticks by a second. *)
Definition deciding (_ : list FeatureRecord) (_ : option datetime) : M nat (option PaperDecisionResult) := fun n => (Ok (Some decision), S n).
Definition raising (_ : list FeatureRecord) (_ : option datetime) : M nat (option PaperDecisionResult) := fun n => (Err (RuntimeError "no marks"), S n).
Definition clock : M nat datetime := fun n => (Ok (at_utc (t0 + Z.of_nat n * second)), S n).
Definition no_tables : Tables := {|
  tb_cycles := ∅; tb_gold := []; tb_positions := []; tb_decisions := []; tb_candidates := []; tb_plans := []; tb_tokens := 0 |}.
Definition world : SessionWorld Postgres nat nat := MkSessionWorld {| pg_tables := no_tables; pg_transactions := 0 |} 0%nat 0%nat initial_health.
#[local] Instance store : PaperSessionStore Postgres := PostgresStore uuid lease fault.
Local Abbreviation run_with f w := (process_one f clock "paper" [feature_row] w) (only parsing).
Definition first_world : SessionWorld Postgres nat nat := (run_with deciding world).2.

Lemma processed_once_witness :
  exists run res w3, run_with deciding world = (Ok run, first_world) /\ run_with deciding first_world = (res, w3) /\
    first_world.(sw_processor) = 1%nat /\ w3.(sw_processor) = 1%nat /\ forall run', res = Ok run' -> run'.(sr_decision) = Some decision.
Proof.
  assert (H : exists run, run_with deciding world = (Ok run, first_world) /\ run.(sr_state) = CLAIMED /\ run.(sr_decision) = Some decision)
    by (vm_compute; eexists; split; [reflexivity|split; reflexivity]).
  destruct H as (run & H1 & Hst & Hd). destruct (run_with deciding first_world) as [res w3] eqn:H2. exists run, res, w3.
  destruct (processed_once uuid lease fault deciding clock "paper" [feature_row] world first_world first_world w3 run decision res
    H1 Hst Hd eq_refl (pg_refl uuid lease fault _) H2) as (Hp & _ & Hr).
  assert (Hone : first_world.(sw_processor) = 1%nat) by (vm_compute; reflexivity).
  split; [exact H1|]. split; [reflexivity|]. split; [exact Hone|]. split; [rewrite Hp; exact Hone|]. intros run' Hrun. apply (Hr run' Hrun).
Defined.

(** A claim, a second one within its lease, a third after it. *)
Definition claim_at (k : Z) (s : Postgres) : result PaperSessionClaim * Postgres :=
  claims uuid lease fault "cycle" ["gold-1"] (at_utc t0) (at_utc (t0 + k * second)) s.
Definition s0 : Postgres := {| pg_tables := no_tables; pg_transactions := 0 |}.
Definition s1 : Postgres := (claim_at 0 s0).2.
Definition granted (n : nat) : PaperSessionClaim := claim_of CLAIMED "cycle" (at_utc t0) (Some (uuid n)) None.

Lemma lease_excludes_witness : exists c' s3, claim_at 299 s1 = (Ok c', s3) /\ c'.(sc_state) = BUSY.
Proof.
  assert (H : exists c' s3, claim_at 299 s1 = (Ok c', s3)) by (vm_compute; do 2 eexists; reflexivity).
  destruct H as (c' & s3 & H). exists c', s3. split; [exact H|].
  destruct (lease_excludes uuid lease fault "cycle" ["gold-1"] (at_utc t0) (at_utc (t0 + 0 * second)) s0 (granted 0) s1 s1 (at_utc (t0 + lease)))
    as [Hb _]; [vm_compute; reflexivity|reflexivity|vm_compute; reflexivity|apply pw_refl|].
  apply (Hb ["gold-1"] (at_utc t0) (at_utc (t0 + 299 * second)) c' s3); [vm_compute; reflexivity|exact H].
Defined.

Definition s2 : Postgres := (claim_at 300 s1).2.
Lemma uuid_unique m n : uuid m = uuid n -> m = n.
Proof. unfold uuid. intros H. by apply (inj pretty) in H. Qed.
Lemma lost_claim_stays_lost_witness :
  exists e, (transaction fault (tables_complete (granted 0) decision (at_utc t0)) s2).1 = Err e.
Proof.
  apply (lost_claim_stays_lost uuid lease fault "cycle" ["gold-1"] (at_utc t0) (at_utc (t0 + 0 * second)) s0 (granted 0) s1 s1
    ["gold-1"] (at_utc t0) (at_utc (t0 + 300 * second)) (granted 1) s2 s2 decision (at_utc t0) uuid_unique);
    [vm_compute; reflexivity|reflexivity|apply pg_refl|vm_compute; reflexivity|reflexivity|apply pg_refl].
Defined.

Lemma failure_recorded_witness :
  exists w', run_with raising world = (Err (RuntimeError "no marks"), w') /\ w'.(sw_health).(sh_failed) = 1.
Proof.
  destruct (failure_recorded uuid lease fault raising clock "paper" [feature_row] world [at_utc t0] (at_utc t0) (at_utc t0)
    (claim_of CLAIMED (session_cycle_id_of "paper" [feature_row]) (at_utc t0) (Some (uuid 0)) None)
    (claims uuid lease fault (session_cycle_id_of "paper" [feature_row]) ["gold-1"] (at_utc t0) (at_utc t0) world.(sw_store)).2 0
    (transaction fault (tables_reconcile "paper")
       (claims uuid lease fault (session_cycle_id_of "paper" [feature_row]) ["gold-1"] (at_utc t0) (at_utc t0) world.(sw_store)).2).2
    (RuntimeError "no marks") 1%nat) as (w' & r & Hw & _ & _ & _ & Hh);
    [reflexivity|intros c; do 2 eexists; split; reflexivity|reflexivity|reflexivity|reflexivity|reflexivity|reflexivity|reflexivity|reflexivity|reflexivity|].
  exists w'. split; [exact Hw|]. rewrite Hh. reflexivity.
Defined.

(** A filled position whose plan was lost. *)
Definition crashed : Tables := {|
  tb_cycles := ∅; tb_gold := [];
  tb_positions := [{| rp_position_id := "position-1"; rp_market := NSE; rp_account_id := "paper"; rp_symbol := "RELIANCE"; rp_signed_quantity := 10.5;
                      rp_average_entry_price := 2500; rp_total_fees := 8; rp_opened_at := at_utc t0; rp_open := true;
                      rp_decision_ids := ["decision-1"]; rp_gold_snapshot_ids := ["gold-1"] |}];
  tb_decisions := [{| rx_decision_id := "decision-1"; rx_candidate_id := "candidate-1"; rx_evaluated_at := at_utc t0 |}];
  tb_candidates := [{| rc_candidate_id := "candidate-1"; rc_approval_id := "approval-1"; rc_strategy_key := "nse:vwap"; rc_stop_price := 2475.5;
                       rc_target_price := 2560 |}];
  tb_plans := []; tb_tokens := 0 |}.
Lemma reconcile_protects_witness :
  exists t', tables_reconcile "paper" crashed = (Ok 1, t') /\ exists x, x ∈ t'.(tb_plans) /\ x.(rl_position_id) = "position-1".
Proof.
  assert (H : exists t', tables_reconcile "paper" crashed = (Ok 1, t')) by (vm_compute; eexists; reflexivity).
  destruct H as (t' & H). exists t'. split; [exact H|]. destruct (reconcile_protects "paper" crashed 1 t' H) as [_ Hp].
  destruct crashed.(tb_positions) as [|p l] eqn:Ep; [discriminate Ep|]. injection Ep as Ep _.
  destruct (Hp p ltac:(left)) as (x & Hx & Hid); [rewrite <-Ep; reflexivity..|rewrite <-Ep; vm_compute; eexists; reflexivity|].
  exists x. split; [exact Hx|]. rewrite Hid, <-Ep. reflexivity.
Defined.

(** The in-memory store does not mirror the tables here: the claim that
    completed a cycle can fail it afterwards, and the cycle runs again. *)
Lemma memory_uncompletes :
  let m0 := {| mp_cycles := ∅; mp_tokens := 0 |} in
  let m1 := (memory_claim uuid lease "cycle" (at_utc t0) m0).2 in
  let m2 := (memory_complete (granted 0) decision m1).2 in
  let m3 := (memory_fail (granted 0) m2).2 in
  let p2 := (transaction fault (tables_complete (granted 0) decision (at_utc t0)) s1).2 in
  (mc_state <$> (m2.(mp_cycles) !! "cycle")) = Some DONE /\ (mc_state <$> (m3.(mp_cycles) !! "cycle")) = Some FAILED /\
  (cr_state <$> ((transaction fault (tables_fail (granted 0) "RuntimeError") p2).2.(pg_tables).(tb_cycles) !! "cycle")) = Some DONE.
Proof. vm_compute. repeat split. Qed.
End PaperSessionExample.
