(* ===== verification/Providers.v ===== *)
(** * Provider clients (src/nanodelta/providers: transports, okx, oanda, poloniex, truedata)

    What a client asks of its provider and what it makes of the answers.  The
    network is given from outside: a request is answered by an operation of the
    world, a stream by the connections it gets, each with the messages it
    delivers (decoded, or the exception of decoding them) and how it ends.
    Which exceptions are the HTTP library's is a parameter.

    The theorems: a request is tried a bounded number of times and returns the
    first answer; a stream yields what its connections delivered, over a
    bounded number of them; the paginated clients ask at most as often as rows
    were requested and return the pages in order, cut at the limit. *)

From Stdlib Require Import ZArith Lia Floats Ascii String ZifyBool.
From stdpp Require Import prelude strings numbers list.
From S2P Require Import Prelude PyData PyFloat PyText PyDigits PyParse PyJson PyTime PyDate Contracts Adapters Etl Realtime History.

Local Open Scope Z_scope.

Definition provider_error (msg : string) : exn := OtherException "ProviderClientError" msg.

Record HttpRequest := {
  hr_method : string;
  hr_url : string;
  hr_headers : dict string string;
  hr_params : payload;
  hr_json_body : option payload }.
Record RealtimeSubscription := {
  sb_url : string;
  sb_subscribe : option payload;
  sb_headers : dict string string }.

(** ** Transports (transports.py) *)

Section Transports.
Context {W : Type} (http_error : exn -> bool).

Definition is_value_error (e : exn) : bool := match e with ValueError _ => true | _ => false end.
(** [except (httpx.HTTPError, ValueError)] *)
Definition retried (e : exn) : bool := http_error e || is_value_error e.

(** [HttpxJsonTransport.request] with [retries] left *)
Fixpoint request_with (send : HttpRequest -> M W json) (retries : nat) (request : HttpRequest) : M W json := fun w =>
  match send request w with
  | (Ok v, w') => (Ok v, w')
  | (Err e, w') =>
      if retried e then
        match retries with
        | O => (Err (provider_error ("HTTP provider request failed: " +:+ str_exn e)), w')
        | S retries => request_with send retries request w'
        end
      else (Err e, w')
  end.
Definition http_request (send : HttpRequest -> M W json) (request : HttpRequest) : M W json := request_with send 2 request.
End Transports.

(** A connection: its messages, and the exception that ended it. *)
Record connection (A : Type) := MkConnection { cn_messages : list (result A); cn_end : option exn }.
Arguments MkConnection {A} cn_messages cn_end.
Arguments cn_messages {A}.
Arguments cn_end {A}.

Section Streams.
Context {A : Type} (caught : exn -> bool) (parser : A -> result (list payload)) (failed : string).

Fixpoint consume_messages (messages : list (result A)) (ended : option exn) : list payload * option exn :=
  match messages with
  | [] => ([], ended)
  | m :: messages =>
      match m ≫= parser with
      | Ok payloads => let '(rest, e) := consume_messages messages ended in (payloads ++ rest, e)
      | Err e => ([], Some e)
      end
  end.

(** What the stream yields and how it ends, with [reconnects] left. *)
Fixpoint stream_with (reconnects : nat) (connect : nat -> connection A) (attempt : nat) : list payload * result unit :=
  let '(out, failure) := consume_messages (connect attempt).(cn_messages) (connect attempt).(cn_end) in
  match failure with
  | None => (out, Ok ())
  | Some e =>
      if caught e then
        match reconnects with
        | O => (out, Err (provider_error (failed +:+ str_exn e)))
        | S reconnects => let '(rest, r) := stream_with reconnects connect (S attempt) in (out ++ rest, r)
        end
      else (out, Err e)
  end.
End Streams.

(** [stream_json] and [stream_http_json_lines] *)
Definition any_exception (e : exn) : bool := negb (is_cancelled e).
Definition stream_json (parser : json -> list payload) (connect : nat -> connection json) : list payload * result unit :=
  stream_with any_exception (fun m => Ok (parser m)) "WebSocket provider stream failed: " 5 connect 0.
(** Blank lines are skipped. *)
Definition stream_http_json_lines (http_error : exn -> bool) (loads : string -> result json) (parser : json -> list payload) (connect : nat -> connection string)
  : list payload * result unit :=
  stream_with (retried http_error) (fun line => if str_blank line then Ok [] else v ← loads line; Ok (parser v)) "HTTP provider stream failed: " 5 connect 0.

(** [await asyncio.sleep(min(30.0, 0.5 * (2**attempt)))] in milliseconds *)
Definition backoff (attempt : Z) : Z := Z.min 30000 (500 * 2 ^ attempt).

(** ** Pages

    [while len(rows) < limit: ask for a page from the cursor; break when there
    is none or it was the last], and [rows[:limit]].  The fuel is the number of
    requests. *)
Section Pages.
Context {W C : Type} (limit : Z) (ask : C -> M W (option (list payload * C))) (last_page : C -> list payload -> C -> bool).

Fixpoint pages_from (fuel : nat) (cursor : C) (rows : list payload) : P W (list payload) :=
  if limit <=? Z.of_nat (length rows) then mret rows
  else
    match fuel with
    | O => fun _ => None
    | S fuel =>
        p ← ending (ask cursor);
        match p with
        | None => mret rows
        | Some (page, next) =>
            if last_page cursor page next then mret (rows ++ page) else pages_from fuel next (rows ++ page)
        end
    end.
Definition paginate (cursor : C) : P W (list payload) :=
  rows ← pages_from (Z.to_nat limit) cursor [];
  mret (take (Z.to_nat limit) rows).
End Pages.

(** ** OKX (okx.py) *)

Definition OKX_BAR : dict string string :=
  Dict [("1m", "1m"); ("5m", "5m"); ("15m", "15m"); ("30m", "30m"); ("1h", "1H"); ("4h", "4H"); ("1d", "1Dutc")].

(** [str(int(t.timestamp() * 1000))] *)
Definition millis (t : datetime) : result Z := int_of_float (timestamp_of t * 1000)%float.

Definition okx_history_request (request : HistoricalRequest) (after : option string) : result HttpRequest :=
  match OKX_BAR !! request.(hq_timeframe) with
  | None => Err (ValueError ("unsupported OKX timeframe: " +:+ request.(hq_timeframe)))
  | Some bar =>
      start ← millis request.(hq_start);
      after ← match after with Some a => mret a | None => e ← millis request.(hq_end); mret (str_Z e) end;
      mret {| hr_method := "GET"; hr_url := "https://www.okx.com/api/v5/market/history-candles"; hr_headers := ∅;
              hr_params := [("instId", JStr (str_replace "_" "-" request.(hq_symbol))); ("bar", JStr bar); ("limit", JInt (Z.min request.(hq_limit) 300));
                            ("before", JStr (str_Z start)); ("after", JStr after)];
              hr_json_body := None |}
  end.

(** [_row] *)
Definition okx_row (timeframe : string) (v : json) : result payload :=
  match v with
  | JArr (ts :: o :: h :: l :: c :: volume :: volume_ccy :: volume_quote :: confirm :: _) =>
      mret [("ts", ts); ("o", o); ("h", h); ("l", l); ("c", c); ("vol", volume); ("volCcy", volume_ccy); ("volCcyQuote", volume_quote);
            ("confirm", confirm); ("bar", JStr timeframe)]
  | _ => Err (provider_error "OKX candle row is malformed")
  end.

(** The page of an answer, and [str(data[-1][0])]; [None] ends the pages. *)
Definition okx_page (timeframe : string) (answer : json) : result (option (list payload * option string)) :=
  match answer with
  | JObj fields =>
      _ ← raise_if (negb (String.eqb (str_json (jget_default fields "code" JNull)) "0")) (provider_error "OKX returned an unsuccessful candle response");
      match jget_default fields "data" (JArr []) with
      | JArr data =>
          match data with
          | [] => mret None
          | _ =>
              rows ← map_result (okx_row timeframe) data;
              match List.last data JNull with
              | JArr (ts :: _) => mret (Some (rows, Some (str_json ts)))
              | _ => Err (provider_error "OKX candle row is malformed")
              end
          end
      | _ => mret None
      end
  | _ => Err (provider_error "OKX returned an unsuccessful candle response")
  end.

(** [fetch_candles] *)
Definition okx_fetch_candles {W} (transport : HttpRequest -> M W json) (request : HistoricalRequest) : P W (list payload) :=
  paginate request.(hq_limit)
    (fun after => q ← lift (okx_history_request request after); answer ← transport q; lift (okx_page request.(hq_timeframe) answer))
    (fun after page next => bool_decide (next = after) || (Z.of_nat (length page) <? Z.min request.(hq_limit) 300))
    None.

Definition okx_subscription (symbols : list string) (channel : string) : result RealtimeSubscription :=
  _ ← raise_if (negb (bool_decide (channel ∈ (["tickers"; "books5"] ++ ((fun bar => "candle" +:+ bar) <$> dict_values OKX_BAR)))))
        (ValueError ("unsupported OKX realtime channel: " +:+ channel));
  mret {| sb_url := "wss://ws.okx.com:8443/ws/v5/public";
          sb_subscribe := Some [("op", JStr "subscribe");
            ("args", JArr ((fun s => JObj [("channel", JStr channel); ("instId", JStr (str_replace "_" "-" s))]) <$> symbols))];
          sb_headers := ∅ |}.

(** [_parse_stream] *)
Definition okx_parse_stream (message : json) : list payload :=
  match message with
  | JObj fields =>
      match jget "data" fields with
      | Some (JArr items) => (fun item => [("arg", jget_default fields "arg" (JObj [])); ("data", item)]) <$> items
      | _ => []
      end
  | _ => []
  end.

(** ** OANDA (oanda.py) *)

Definition GRANULARITY : dict string string :=
  Dict [("1m", "M1"); ("5m", "M5"); ("15m", "M15"); ("30m", "M30"); ("1h", "H1"); ("4h", "H4"); ("1d", "D")].

Record OandaClient := { oa_account_id : string; oa_access_token : string; oa_base_url : string; oa_stream_url : string }.
Definition oanda_client (account_id access_token : string) (practice : bool) : OandaClient := {|
  oa_account_id := account_id; oa_access_token := access_token;
  oa_base_url := "https://" +:+ (if practice then "api-fxpractice.oanda.com" else "api-fxtrade.oanda.com");
  oa_stream_url := "https://" +:+ (if practice then "stream-fxpractice.oanda.com" else "stream-fxtrade.oanda.com") |}.
Definition oanda_headers (self : OandaClient) : dict string string := Dict [("Authorization", "Bearer " +:+ self.(oa_access_token))].

Definition oanda_history_request (self : OandaClient) (request : HistoricalRequest) : result HttpRequest :=
  match GRANULARITY !! request.(hq_timeframe) with
  | None => Err (ValueError ("unsupported OANDA timeframe: " +:+ request.(hq_timeframe)))
  | Some granularity =>
      mret {| hr_method := "GET"; hr_url := self.(oa_base_url) +:+ "/v3/instruments/" +:+ request.(hq_symbol) +:+ "/candles";
              hr_headers := oanda_headers self;
              hr_params := [("from", JStr (isoformat request.(hq_start))); ("to", JStr (isoformat request.(hq_end)));
                            ("granularity", JStr granularity); ("price", JStr "M")];
              hr_json_body := None |}
  end.

(** [d[key] = value] in the dict of a JSON object *)
Fixpoint jset (key : string) (value : json) (d : payload) : payload :=
  match d with
  | [] => [(key, value)]
  | (k, v) :: d => if String.eqb key k then (k, value) :: d else (k, v) :: jset key value d
  end.
(** [for x in v], where [v] may not be iterable *)
Definition iterate (v : json) : result (list json) :=
  match v with
  | JArr l => Ok l
  | JObj d => Ok ((fun kv => JStr kv.1) <$> d)
  | JStr s => Ok ((fun c => JStr (String c "")) <$> list_ascii_of_string s)
  | _ => Err (TypeError "object is not iterable")
  end.

Definition oanda_rows (request : HistoricalRequest) (answer : json) : result (list payload) :=
  candles ← iterate (match answer with JObj d => jget_default d "candles" (JArr []) | _ => JArr [] end);
  mret (take (Z.to_nat request.(hq_limit))
    (omap (fun c => match c with
      | JObj candle => Some (jset "timeframe" (JStr request.(hq_timeframe))
          (jset "granularity" (JStr (default "" (GRANULARITY !! request.(hq_timeframe)))) candle))
      | _ => None
      end) candles)).
Definition oanda_fetch_candles {W} (self : OandaClient) (transport : HttpRequest -> M W json) (request : HistoricalRequest) : M W (list payload) :=
  q ← lift (oanda_history_request self request);
  answer ← transport q;
  lift (oanda_rows request answer).

Definition oanda_subscription (self : OandaClient) (symbols : list string) (channel : string) : result RealtimeSubscription :=
  _ ← raise_if (negb (String.eqb channel "pricing")) (ValueError ("unsupported OANDA realtime channel: " +:+ channel));
  mret {| sb_url := self.(oa_stream_url) +:+ "/v3/accounts/" +:+ self.(oa_account_id) +:+ "/pricing/stream?instruments=" +:+ str_join "," symbols;
          sb_subscribe := None; sb_headers := oanda_headers self |}.
Definition oanda_parse_stream (message : json) : list payload :=
  match message with
  | JObj d => match jget "type" d with Some (JStr t) => if String.eqb t "PRICE" then [d] else [] | _ => [] end
  | _ => []
  end.

(** ** Poloniex (poloniex.py) *)

Definition POLONIEX_INTERVAL : dict string string :=
  Dict [("1m", "MINUTE_1"); ("5m", "MINUTE_5"); ("15m", "MINUTE_15"); ("30m", "MINUTE_30"); ("1h", "HOUR_1"); ("4h", "HOUR_4"); ("1d", "DAY_1")].

Definition poloniex_history_request (request : HistoricalRequest) (start_ms : option Z) : result HttpRequest :=
  match POLONIEX_INTERVAL !! request.(hq_timeframe) with
  | None => Err (ValueError ("unsupported Poloniex timeframe: " +:+ request.(hq_timeframe)))
  | Some interval =>
      start ← match start_ms with
              | Some n => if n =? 0 then millis request.(hq_start) else mret n
              | None => millis request.(hq_start)
              end;
      stop ← millis request.(hq_end);
      mret {| hr_method := "GET"; hr_url := "https://api.poloniex.com/markets/" +:+ str_replace "-" "_" request.(hq_symbol) +:+ "/candles"; hr_headers := ∅;
              hr_params := [("interval", JStr interval); ("limit", JInt (Z.min request.(hq_limit) 500)); ("startTime", JInt start); ("endTime", JInt stop)];
              hr_json_body := None |}
  end.

(** [_row] *)
Definition poloniex_row (timeframe : string) (v : json) : result payload :=
  match v with
  | JObj d => mret (jset "settled" (JBool true) (jset "interval" (JStr timeframe) d))
  | JArr (low :: high :: open_ :: close :: amount :: quantity :: buy_amount :: buy_quantity :: count :: ts :: average :: _ :: start :: stop :: _) =>
      mret [("low", low); ("high", high); ("open", open_); ("close", close); ("amount", amount); ("quantity", quantity);
            ("buyTakerAmount", buy_amount); ("buyTakerQuantity", buy_quantity); ("tradeCount", count); ("ts", ts); ("weightedAverage", average);
            ("interval", JStr timeframe); ("startTime", start); ("closeTime", stop); ("settled", JBool true)]
  | _ => Err (provider_error "Poloniex candle row is malformed")
  end.

(** [max(int(row["startTime"]) for row in page) + 1] *)
Definition next_cursor (page : list payload) : result Z :=
  times ← map_result (fun r => v ← jitem r "startTime"; int_json v) page;
  match times with [] => Err (ValueError "max() iterable argument is empty") | t :: ts => mret (foldl Z.max t ts + 1) end.
Definition poloniex_page (timeframe : string) (answer : json) : result (option (list payload * Z)) :=
  match answer with
  | JArr [] => mret None
  | JArr items => page ← map_result (poloniex_row timeframe) items; next ← next_cursor page; mret (Some (page, next))
  | _ => mret None
  end.
(** [fetch_candles] *)
Definition poloniex_fetch_candles {W} (transport : HttpRequest -> M W json) (request : HistoricalRequest) : P W (list payload) :=
  cursor ← ending (lift (millis request.(hq_start)));
  paginate request.(hq_limit)
    (fun cursor => q ← lift (poloniex_history_request request (Some cursor)); answer ← transport q; lift (poloniex_page request.(hq_timeframe) answer))
    (fun cursor page next => (next <=? cursor) || (Z.of_nat (length page) <? Z.min request.(hq_limit) 500))
    cursor.

Definition poloniex_subscription (symbols : list string) (channel : string) : result RealtimeSubscription :=
  _ ← raise_if (negb (bool_decide (channel ∈ (["ticker"; "trades"] ++ ((fun v => "candles_" +:+ str_lower v) <$> dict_values POLONIEX_INTERVAL)))))
        (ValueError ("unsupported Poloniex realtime channel: " +:+ channel));
  mret {| sb_url := "wss://ws.poloniex.com/ws/public";
          sb_subscribe := Some [("event", JStr "subscribe"); ("channel", JArr [JStr channel]); ("symbols", JArr (JStr <$> symbols))]; sb_headers := ∅ |}.
Definition poloniex_parse_stream (message : json) : list payload :=
  match message with
  | JObj fields => match jget "data" fields with Some (JArr items) => omap (fun v => match v with JObj d => Some d | _ => None end) items | _ => [] end
  | _ => []
  end.

(** ** TrueData (truedata.py) *)

(** [row.get(a, row.get(b, ...))] *)
Fixpoint first_of (row : payload) (keys : list string) (fallback : json) : json :=
  match keys with [] => fallback | k :: keys => match jget k row with Some v => v | None => first_of row keys fallback end end.
Definition is_none (v : json) : bool := match v with JNull => true | _ => false end.
(** [_normalize_row] *)
Definition truedata_row (timeframe : string) (v : json) : result payload :=
  match v with
  | JObj row =>
      let time := first_of row ["time"; "timestamp"; "datetime"] JNull in
      let o := first_of row ["o"; "open"] JNull in
      let h := first_of row ["h"; "high"] JNull in
      let l := first_of row ["l"; "low"] JNull in
      let c := first_of row ["c"; "close"] JNull in
      _ ← raise_if (existsb is_none [time; o; h; l; c]) (provider_error "TrueData historical row is missing OHLC/time fields");
      mret [("time", time); ("o", o); ("h", h); ("l", l); ("c", c); ("v", first_of row ["v"; "volume"] (JInt 0)); ("interval", JStr timeframe); ("complete", JBool true)]
  | _ => Err (provider_error "TrueData historical row must be an object")
  end.
(** [fetch_candles], with the records the SDK returned *)
Definition truedata_fetch_candles {W} (get_historic_data : string -> string -> string -> string -> M W json) (request : HistoricalRequest) : M W (list payload) :=
  records ← get_historic_data request.(hq_symbol) (isoformat (at_utc (instant request.(hq_start)))) (isoformat (at_utc (instant request.(hq_end)))) request.(hq_timeframe);
  match records with
  | JArr rows => lift (map_result (truedata_row request.(hq_timeframe)) rows)
  | _ => raise (provider_error "TrueData historical response must be tabular")
  end.

Definition truedata_subscription (symbols : list string) (channel : string) : result RealtimeSubscription :=
  _ ← raise_if (negb (bool_decide (channel ∈ ["ticks"; "bars_1m"; "bars_5m"]))) (ValueError ("unsupported TrueData realtime channel: " +:+ channel));
  mret {| sb_url := "sdk://truedata"; sb_subscribe := Some [("channel", JStr channel); ("symbols", JArr (JStr <$> symbols))]; sb_headers := ∅ |}.

(** [_tick]: the attributes the tick has and that are not [None] *)
Definition truedata_tick (symbol_id : string) (tick : payload) : payload :=
  ("symbol_id", JStr symbol_id) ::
  omap (fun f => match jget f tick with Some JNull | None => None | Some v => Some (f, v) end) ["symbol"; "ltp"; "ltt"; "ltq"; "volume"; "bid"; "ask"].

(** ** Requests are tried a bounded number of times *)

Section Retries.
Context {W : Type} (http_error : exn -> bool) (send : HttpRequest -> M W json) (request : HttpRequest).

(** [k] attempts that failed with an exception that is tried again. *)
Inductive failures : nat -> W -> W -> Prop :=
| no_failure w : failures 0 w w
| one_more k w w1 w2 e : send request w = (Err e, w1) -> retried http_error e = true -> failures k w1 w2 -> failures (S k) w w2.

(** The transport returns the first answer, or raises what it does not retry,
    after at most as many failures as it has retries; when the last attempt
    fails too, it raises the client's error with that failure's text. *)
Theorem request_retried retries w r w' : request_with http_error send retries request w = (r, w') ->
  exists k wk, (k <= retries)%nat /\ failures k w wk /\
    match r with
    | Ok v => send request wk = (Ok v, w')
    | Err e => exists e', send request wk = (Err e', w') /\
        ((retried http_error e' = false /\ e = e') \/
         (retried http_error e' = true /\ k = retries /\ e = provider_error ("HTTP provider request failed: " +:+ str_exn e')))
    end.
Proof.
  revert w. induction retries as [|n IH]; intros w; cbn; destruct (send request w) as [[v|e] w1] eqn:E.
  - intros [= <- <-]. exists 0%nat, w. split; [done|]. split; [constructor|done].
  - intros H. exists 0%nat, w. split; [done|]. split; [constructor|]. destruct (retried http_error e) eqn:R; injection H as <- <-; exists e; auto.
  - intros [= <- <-]. exists 0%nat, w. split; [lia|]. split; [constructor|done].
  - destruct (retried http_error e) eqn:R.
    + intros (k & wk & Hk & Hf & Hr)%IH. exists (S k), wk. split; [lia|]. split; [by econstructor|]. destruct r as [v|e0]; [done|].
      destruct Hr as (e' & Hs & [?|(? & -> & ?)]); exists e'; auto.
    + intros [= <- <-]. exists 0%nat, w. split; [lia|]. split; [constructor|]. exists e. auto.
Qed.
End Retries.

(** ** Streams end *)

(** A stream ends after at most its reconnects: what it yields is what the
    connections it used delivered, in order, and every connection but the last
    ended with an exception that is retried. *)
Theorem stream_connections {A} caught (parser : A -> result (list payload)) failed reconnects connect attempt out r :
  stream_with caught parser failed reconnects connect attempt = (out, r) ->
  exists k, (k <= reconnects)%nat /\
    let used := (fun i => consume_messages parser (connect i).(cn_messages) (connect i).(cn_end)) <$> seq attempt (S k) in
    out = mjoin used.*1 /\
    (forall i e, (i < k)%nat -> used.*2 !! i = Some e -> exists x, e = Some x /\ caught x = true) /\
    (r = Ok () <-> last used.*2 = Some None).
Proof.
  revert attempt out. induction reconnects as [|n IH]; intros attempt out; cbn [stream_with];
    destruct (consume_messages parser _ _) as [o failure] eqn:E.
  - intros H. exists 0%nat. split; [done|]. cbn. rewrite E. cbn. rewrite app_nil_r.
    destruct failure as [e|]; [destruct (caught e)|]; injection H as <- <-; (split; [done|]); (split; [intros; lia|]); split; done.
  - destruct failure as [e|].
    + destruct (caught e) eqn:Ec.
      * destruct (stream_with caught parser failed n connect (S attempt)) as [rest r'] eqn:Es. intros [= <- <-].
        destruct (IH _ _ Es) as (k & Hk & Ho & He & Hr). exists (S k). split; [lia|]. cbn [seq fmap list_fmap]. rewrite E. cbn [fst snd mjoin list_join].
        split; [by rewrite Ho|]. split.
        -- intros [|i] x Hi; cbn; [intros [= <-]; by eexists|]. intros Hx. apply (He i); [lia|exact Hx].
        -- rewrite Hr. cbn [seq fmap list_fmap]. rewrite last_cons_cons. done.
      * intros [= <- <-]. exists 0%nat. split; [lia|]. cbn. rewrite E. cbn. rewrite app_nil_r. split; [done|]. split; [intros; lia|]. split; done.
    + intros [= <- <-]. exists 0%nat. split; [lia|]. cbn. rewrite E. cbn. rewrite app_nil_r. split; [done|]. split; [intros; lia|]. split; done.
Qed.

(** ** Pages *)

Section PagesTheory.
Context {W C : Type} (limit : Z) (ask : C -> M W (option (list payload * C))) (last_page : C -> list payload -> C -> bool).

(** Pages have rows, rows satisfy [Q], and asking costs one request. *)
Record asks_well (Q : payload -> Prop) (count : W -> Z) : Prop := {
  aw_nonempty c w p c' w' : ask c w = (Ok (Some (p, c')), w') -> p <> [];
  aw_rows c w p c' w' : ask c w = (Ok (Some (p, c')), w') -> Forall Q p;
  aw_count c w r w' : ask c w = (r, w') -> count w' <= count w + 1 }.

Lemma pages_from_spec Q count : asks_well Q count -> forall fuel cursor rows w, limit - Z.of_nat (length rows) <= Z.of_nat fuel -> Forall Q rows ->
  exists r w', pages_from limit ask last_page fuel cursor rows w = Some (r, w') /\ count w' <= count w + Z.of_nat fuel /\
    forall out, r = Ok out -> rows `prefix_of` out /\ Forall Q out.
Proof.
  intros [Hne Hq Hc]. induction fuel as [|fuel IH]; intros cursor rows w Hf Hr; cbn [pages_from]; destruct (limit <=? Z.of_nat (length rows)) eqn:El.
  - exists (Ok rows), w. split; [done|]. split; [lia|]. by intros ? [= <-].
  - lia.
  - exists (Ok rows), w. split; [done|]. split; [lia|]. by intros ? [= <-].
  - unfold mbind, P_bind, ending. destruct (ask cursor w) as [[p|e] w1] eqn:Ea; pose proof (Hc _ _ _ _ Ea) as H1.
    2: { exists (Err e), w1. split; [done|]. split; [lia|done]. }
    destruct p as [[page next]|]; [|exists (Ok rows), w1; split; [done|]; split; [lia|]; by intros ? [= <-]].
    pose proof (Hne _ _ _ _ _ Ea) as Hp. assert (Hall : Forall Q (rows ++ page)) by (apply Forall_app; eauto).
    destruct (last_page cursor page next).
    + exists (Ok (rows ++ page)), w1. split; [done|]. split; [lia|]. intros ? [= <-]. split; [by apply prefix_app_r|done].
    + destruct (IH next (rows ++ page) w1) as (r & w' & -> & Hcount & Hout); [rewrite length_app; destruct page; [done|cbn; lia]|done|].
      exists r, w'. split; [done|]. split; [lia|]. intros out Ho. destruct (Hout out Ho) as [Hpre Hq']. split; [|done].
      etransitivity; [|exact Hpre]. by apply prefix_app_r.
Qed.

Lemma paginate_spec Q count cursor w : asks_well Q count -> 0 <= limit ->
  exists r w', paginate limit ask last_page cursor w = Some (r, w') /\ count w' <= count w + limit /\
    forall out, r = Ok out -> Z.of_nat (length out) <= limit /\ Forall Q out.
Proof.
  intros Ha Hl. destruct (pages_from_spec Q count Ha (Z.to_nat limit) cursor [] w) as (r & w' & E & Hc & Ho); [cbn; lia|constructor|].
  unfold paginate, mbind, P_bind. rewrite E. destruct r as [rows|e].
  - eexists _, w'. split; [done|]. split; [lia|]. intros ? [= <-]. rewrite length_take. split; [lia|]. apply Forall_take. by apply (Ho rows).
  - exists (Err e), w'. split; [done|]. split; [lia|]. done.
Qed.
End PagesTheory.

Lemma map_result_length {A B} (f : A -> result B) l l' : map_result f l = Ok l' -> length l' = length l.
Proof. intros H%map_result_ok. symmetry. by eapply Forall2_length. Qed.
Lemma map_result_all {A B} (f : A -> result B) (Q : B -> Prop) l l' : (forall a b, f a = Ok b -> Q b) -> map_result f l = Ok l' -> Forall Q l'.
Proof. intros Hf H%map_result_ok. induction H; constructor; eauto. Qed.

(** Requests that the transport counts. *)
Definition counts {W} (transport : HttpRequest -> M W json) (count : W -> Z) : Prop := forall q w, count (transport q w).2 <= count w + 1.
Lemma ask_count {W A} (transport : HttpRequest -> M W json) count (q : result HttpRequest) (f : json -> result A) w r w' : counts transport count ->
  (q ← lift q; answer ← transport q; lift (f answer)) w = (r, w') -> count w' <= count w + 1.
Proof.
  intros Hc. unfold mbind, M_bind, lift. destruct q as [q|e]; [|intros [= _ <-]; lia]. pose proof (Hc q w) as H.
  destruct (transport q w) as [[v|e] w1]; intros [= _ <-]; exact H.
Qed.
Lemma ask_page {W A} (transport : HttpRequest -> M W json) (q : result HttpRequest) (f : json -> result A) w a w' :
  (q ← lift q; answer ← transport q; lift (f answer)) w = (Ok a, w') -> exists answer, f answer = Ok a.
Proof.
  unfold mbind, M_bind, lift. destruct q as [q|e]; [|done]. destruct (transport q w) as [[v|e] w1]; [|done]. intros [= H _]. by exists v.
Qed.

Lemma okx_page_rows timeframe answer p c : okx_page timeframe answer = Ok (Some (p, c)) -> p <> [] /\ Forall (fun r => jget "bar" r = Some (JStr timeframe)) p.
Proof.
  unfold okx_page. destruct answer as [| | | | | |fields]; try done. destruct (raise_if _ _); [|done]. cbn [mbind result_bind].
  destruct (jget_default fields "data" (JArr [])) as [| | | | |data|]; try done. destruct data as [|d data]; [done|]. intros H.
  apply result_bind_ok in H as (rows & Hm & H). destruct (List.last _ _) as [| | | | |[|ts ?]|]; try done. injection H as <- _.
  split; [intros ->; by apply map_result_length in Hm|]. revert Hm. apply map_result_all. intros v r.
  unfold okx_row. repeat case_match; try done. by intros [= <-].
Qed.
Lemma jget_jset_eq k v d : jget k (jset k v d) = Some v.
Proof. induction d as [|[k' v'] d IH]; cbn; [by rewrite String.eqb_refl|]. destruct (String.eqb k k') eqn:E; cbn; rewrite E; done. Qed.
Lemma jget_jset_ne k k' v d : String.eqb k k' = false -> jget k (jset k' v d) = jget k d.
Proof.
  intros Hk. induction d as [|[a b] d IH]; cbn; [by rewrite Hk|]. destruct (String.eqb k' a) eqn:E; cbn; [|by rewrite IH].
  apply String.eqb_eq in E as <-. by rewrite Hk.
Qed.
Lemma poloniex_page_rows timeframe answer p c : poloniex_page timeframe answer = Ok (Some (p, c)) -> p <> [] /\ Forall (fun r => jget "interval" r = Some (JStr timeframe)) p.
Proof.
  unfold poloniex_page. destruct answer as [| | | | |items|]; try done. destruct items as [|d items]; [done|]. intros H.
  apply result_bind_ok in H as (rows & Hm & H). apply result_bind_ok in H as (next & _ & [= <- _]).
  split; [intros ->; by apply map_result_length in Hm|]. revert Hm. apply map_result_all. intros v r. unfold poloniex_row.
  repeat case_match; try done; intros [= <-]; [done|]. rewrite jget_jset_ne by done. apply jget_jset_eq.
Qed.

(** C30. The paginated crypto clients end: whatever the exchange answers, a
    fetch returns or raises after at most as many requests as rows were asked
    for, and what it returns is at most that many rows, each a candle of the
    requested timeframe. *)
Theorem crypto_fetch_ends {W} (transport : HttpRequest -> M W json) (count : W -> Z) request w :
  counts transport count -> HistoricalRequest_post_init request = Ok () ->
  (exists r w', okx_fetch_candles transport request w = Some (r, w') /\ count w' <= count w + request.(hq_limit) /\
     forall rows, r = Ok rows -> Z.of_nat (length rows) <= request.(hq_limit) /\ Forall (fun r => jget "bar" r = Some (JStr request.(hq_timeframe))) rows) /\
  (exists r w', poloniex_fetch_candles transport request w = Some (r, w') /\ count w' <= count w + request.(hq_limit) /\
     forall rows, r = Ok rows -> Z.of_nat (length rows) <= request.(hq_limit) /\ Forall (fun r => jget "interval" r = Some (JStr request.(hq_timeframe))) rows).
Proof.
  intros Hc Hp. assert (Hl : 1 <= request.(hq_limit)).
  { unfold HistoricalRequest_post_init in Hp. repeat (apply result_bind_ok in Hp as (? & _ & Hp)). apply raise_if_ok in Hp. lia. }
  split.
  - apply paginate_spec; [|lia]. split.
    + intros c x p c' x' (answer & H)%ask_page. by apply okx_page_rows in H as [? ?].
    + intros c x p c' x' (answer & H)%ask_page. by apply okx_page_rows in H as [? ?].
    + intros c x r x'. by apply ask_count.
  - unfold poloniex_fetch_candles, mbind at 1, P_bind, ending, lift. destruct (millis (hq_start request)) as [cursor|e].
    2: { exists (Err e), w. split; [done|]. split; [lia|done]. }
    apply paginate_spec; [|lia]. split.
    + intros c x p c' x' (answer & H)%ask_page. by apply poloniex_page_rows in H as [? ?].
    + intros c x p c' x' (answer & H)%ask_page. by apply poloniex_page_rows in H as [? ?].
    + intros c x r x'. by apply ask_count.
Qed.

(** ** Examples *)

Module ProvidersExample.

Definition at_ms (ms : Z) : datetime := at_utc (ms * 1000).
Definition request : HistoricalRequest := {|
  hq_symbol := "BTC_USDT"; hq_timeframe := "1h"; hq_start := at_ms 1709208000000; hq_end := at_ms 1709294400000; hq_limit := 3 |}.
Definition candle (ts : string) : json := JArr [JStr ts; JStr "1"; JStr "3"; JStr "1"; JStr "2"; JStr "9"; JStr "9"; JStr "18"; JStr "1"].
(** An exchange that answers every request with three candles or, the first
    time, fails; the world counts the requests. *)
Definition exchange : HttpRequest -> M Z json := fun _ n =>
  (Ok (JObj [("code", JStr "0"); ("data", JArr [candle "3"; candle "2"; candle "1"])]), n + 1).
Definition failing : HttpRequest -> M Z json := fun q n => if n =? 0 then (Err (ValueError "truncated"), 1) else exchange q n.

Lemma crypto_fetch_ends_witness :
  exists rows n, okx_fetch_candles exchange request 0 = Some (Ok rows, n) /\ n <= 3 /\ length rows = 3%nat /\ Forall (fun r => jget "bar" r = Some (JStr "1h")) rows.
Proof.
  destruct (crypto_fetch_ends exchange (fun n => n) request 0) as [(r & n & E & Hn & Hr) _]; [by intros q w|vm_compute; reflexivity|].
  assert (Hv : exists rows, okx_fetch_candles exchange request 0 = Some (Ok rows, 1) /\ length rows = 3%nat) by (eexists; split; vm_compute; reflexivity).
  destruct Hv as (rows & Hrows & Hlen). rewrite Hrows in E. injection E as <- <-. exists rows, 1. split; [exact Hrows|]. split; [lia|]. split; [exact Hlen|].
  apply (Hr rows eq_refl).
Defined.

Lemma request_retried_witness :
  exists k wk, (k <= 2)%nat /\ failures (fun _ => false) failing {| hr_method := "GET"; hr_url := ""; hr_headers := ∅; hr_params := []; hr_json_body := None |} k 0 wk /\ wk = 1.
Proof.
  set (q := {| hr_method := "GET"; hr_url := ""; hr_headers := ∅; hr_params := []; hr_json_body := None |}).
  destruct (request_retried (fun _ => false) failing q 2 0 (exchange q 1).1 2 eq_refl) as (k & wk & Hk & Hf & Hs). exists k, wk.
  split; [exact Hk|]. split; [exact Hf|]. unfold failing, exchange in Hs. cbn in Hs. destruct (wk =? 0); [discriminate Hs|]. injection Hs as Hs. lia.
Defined.

Lemma stream_connections_witness :
  exists k, (k <= 5)%nat /\ (stream_json okx_parse_stream (fun i => if Nat.eqb i 0 then MkConnection [Ok (JObj [("data", JArr [JInt 1])])] (Some (OtherException "ConnectionClosed" ""))
    else MkConnection [Ok JNull; Ok (JObj [("data", JArr [JInt 2])])] None)).1 = [[("arg", JObj []); ("data", JInt 1)]; [("arg", JObj []); ("data", JInt 2)]].
Proof.
  set (conn := fun i => if Nat.eqb i 0 then MkConnection [Ok (JObj [("data", JArr [JInt 1])])] (Some (OtherException "ConnectionClosed" ""))
    else MkConnection [Ok JNull; Ok (JObj [("data", JArr [JInt 2])])] None).
  destruct (stream_connections any_exception (fun m => Ok (okx_parse_stream m)) "WebSocket provider stream failed: " 5 conn 0
    (stream_json okx_parse_stream conn).1 (stream_json okx_parse_stream conn).2 ltac:(vm_compute; reflexivity)) as (k & Hk & _).
  exists k. split; [exact Hk|]. vm_compute. reflexivity.
Defined.

End ProvidersExample.
