(* ===== verification/Dhan.v ===== *)
(** * The Dhan client (src/nanodelta/providers/dhan.py)

    Requests for candles and quotes, the candles of an answer, the half-hour
    candles made of pairs of quarter-hour ones, the subscription messages and
    the binary packets of the realtime feed.

    The theorems: every packet of a known kind is read back field by field,
    and no packet raises anything but the client's error; a half-hour candle
    is made of exactly two rows of its half hour, and there is one for every
    half hour that has two; a stream's subscriptions cover its symbols in
    messages of at most a hundred. *)

From Stdlib Require Import ZArith Lia Floats Ascii String ZifyBool.
From stdpp Require Import prelude strings numbers list sorting.
From S2P Require Import Prelude PyData PyFloat FloatTheory PyText PyDigits PyParse PyJson PyTime PyDate Contracts Adapters Etl Realtime History PaperDecision Providers.

Local Open Scope Z_scope.

(** [DhanClient._INTERVALS]; 30m is made of pairs of 15m *)
Definition INTERVALS : dict string string := Dict [("1m", "1"); ("5m", "5"); ("15m", "15"); ("30m", "15"); ("1h", "60"); ("60m", "60")].
Definition SUPPORTED_HISTORY_TIMEFRAMES : list string := dict_keys INTERVALS ++ ["1d"].

Record DhanClient := {
  dh_client_id : string;
  dh_access_token : string;
  dh_security_id : option string;
  dh_security_ids : dict string string;
  dh_exchange_segment : string;
  dh_instrument : string }.

Definition normalized_ids (ids : dict string string) : dict string string :=
  foldl (fun d '(symbol, value) => <[str_upper (str_strip symbol) := str_strip value]> d) ∅ (entries ids).
(** [DhanClient.__init__] *)
Definition dhan_client (client_id access_token : string) (security_id : option string) (security_ids : dict string string)
    (exchange_segment instrument : string) : result DhanClient :=
  _ ← raise_if (match security_id, entries security_ids with None, [] => true | _, _ => false end)
        (ValueError "security_id or security_ids mapping is required");
  let ids := normalized_ids security_ids in
  _ ← raise_if (existsb (fun '(symbol, value) => str_empty symbol || str_empty value) (entries ids)) (ValueError "Dhan security ID mappings cannot be empty");
  mret {| dh_client_id := client_id; dh_access_token := access_token; dh_security_id := security_id; dh_security_ids := ids;
          dh_exchange_segment := exchange_segment; dh_instrument := instrument |}.

(** A row with the seconds of its timestamp. *)
Abbreviation Timed := (Z * payload)%type.

Section Client.
Context (self : DhanClient).

(** [_security_id] *)
Definition security_id_of (symbol : string) : result string :=
  match self.(dh_security_ids) !! str_upper (str_strip symbol) with
  | Some mapped => Ok mapped
  | None => match self.(dh_security_id) with Some id => Ok id | None => Err (LookupError ("no Dhan security ID mapping for " +:+ symbol)) end
  end.

Definition dhan_headers : dict string string :=
  Dict [("access-token", self.(dh_access_token)); ("client-id", self.(dh_client_id)); ("Content-Type", "application/json")].

Definition dhan_history_request (request : HistoricalRequest) : result HttpRequest :=
  let daily := String.eqb request.(hq_timeframe) "1d" in
  let interval := INTERVALS !! request.(hq_timeframe) in
  _ ← raise_if (negb daily && match interval with None => true | Some _ => false end) (ValueError ("Dhan does not directly support " +:+ request.(hq_timeframe)));
  id ← security_id_of request.(hq_symbol);
  mret {| hr_method := "POST"; hr_url := "https://api.dhan.co/v2/charts/" +:+ (if daily then "historical" else "intraday"); hr_headers := dhan_headers; hr_params := [];
          hr_json_body := Some ([("securityId", JStr id); ("exchangeSegment", JStr self.(dh_exchange_segment)); ("instrument", JStr self.(dh_instrument));
            ("fromDate", JStr (date_iso (date_of request.(hq_start)))); ("toDate", JStr (date_iso (date_of request.(hq_end))))] ++
            (if daily then [] else [("interval", JStr (default "" interval))])) |}.

(** ** Candles *)

Definition candle_fields : list string := ["timestamp"; "open"; "high"; "low"; "close"; "volume"].
(** [zip] of the columns, as rows *)
Fixpoint transpose (n : nat) (columns : list (list json)) : list (list json) :=
  match n with O => [] | S n => (List.hd JNull <$> columns) :: transpose n (@List.tl json <$> columns) end.
Definition array_of (v : option json) : option (list json) := match v with Some (JArr l) => Some l | _ => None end.
Definition dhan_rows (timeframe : string) (answer : json) : result (list payload) :=
  match answer with
  | JObj fields =>
      match mapM (fun f => array_of (jget f fields)) candle_fields with
      | None => Err (provider_error "Dhan candle response has missing arrays")
      | Some columns =>
          let n := length (List.hd [] columns) in
          _ ← raise_if (negb (forallb (fun c => Nat.eqb (length c) n) columns)) (provider_error "Dhan candle arrays have inconsistent lengths");
          mret ((fun values => zip candle_fields values ++ [("timeframe", JStr timeframe); ("settled", JBool true)]) <$> transpose n columns)
      end
  | _ => Err (provider_error "Dhan candle response must be an object")
  end.

(** *** Half hours of quarter hours *)

Definition anchor_seconds : Z := 3 * 3600 + 45 * 60.
(** The seconds of a row's timestamp *)
Definition row_seconds (row : payload) : result Z :=
  raw ← jitem row "timestamp";
  if match raw with JBool _ | JInt _ | JFloat _ => true | _ => str_isdigit (str_json raw) end : bool then
    x ← float_json raw; t ← int_of_float x; mret (if 10000000000 <? t then t / 1000 else t)
  else
    parsed ← fromisoformat (str_replace "Z" "+00:00" (str_json raw));
    _ ← raise_if (negb (aware parsed)) (provider_error "Dhan timestamp must include timezone");
    int_of_float (timestamp_of (at_utc (instant parsed))).
Definition bucket_of (t : Z) : Z := anchor_seconds + ((t - anchor_seconds) / 1800) * 1800.

Definition add_bucket (d : dict Z (list Timed)) (x : Timed) : dict Z (list Timed) :=
  <[bucket_of x.1 := default [] (d !! bucket_of x.1) ++ [x]]> d.
Definition buckets_of (rows : list Timed) : dict Z (list Timed) := foldl add_bucket ∅ rows.

(** [max(float(..) for ..)], [min], [sum] of a pair *)
Definition half_hour (opened : Z) (a b : payload) : result payload :=
  first_open ← jitem a "open";
  high_a ← (v ← jitem a "high"; float_json v); high_b ← (v ← jitem b "high"; float_json v);
  low_a ← (v ← jitem a "low"; float_json v); low_b ← (v ← jitem b "low"; float_json v);
  last_close ← jitem b "close";
  volume_a ← (v ← jitem a "volume"; float_json v); volume_b ← (v ← jitem b "volume"; float_json v);
  mret [("timestamp", JInt opened); ("open", first_open); ("high", JFloat (fmax high_a high_b)); ("low", JFloat (fmin low_a low_b));
        ("close", last_close); ("volume", JFloat (py_sum [volume_a; volume_b])); ("timeframe", JStr "30m"); ("settled", JBool true)].
Definition by_time (a b : Timed) : bool := a.1 <? b.1.
Definition bucket_candle (bucket : Z * list Timed) : result (option payload) :=
  match py_sorted by_time bucket.2 with
  | [a; b] => c ← half_hour bucket.1 a.2 b.2; mret (Some c)
  | _ => mret None
  end.
Definition bucket_before (a b : Z * list Timed) : bool := a.1 <? b.1.
Definition timed_row (r : payload) : result Timed := t ← row_seconds r; mret (t, r).
(** [_resample_30m] *)
Definition resample_30m (rows : list payload) : result (list payload) :=
  timed ← map_result timed_row rows;
  candles ← map_result bucket_candle (py_sorted bucket_before (entries (buckets_of timed)));
  Ok (omap (M := list) (fun c : option payload => c) candles).

Definition dhan_fetch_candles {W} (transport : HttpRequest -> M W json) (request : HistoricalRequest) : M W (list payload) :=
  q ← lift (dhan_history_request request);
  answer ← transport q;
  rows ← lift (dhan_rows request.(hq_timeframe) answer);
  if String.eqb request.(hq_timeframe) "30m" then lift (resample_30m rows) else mret rows.

(** ** Quotes *)

Definition quote_request (symbols : list string) : result HttpRequest :=
  _ ← raise_if (1000 <? Z.of_nat (length symbols)) (ValueError "Dhan quote endpoint accepts at most 1000 instruments per request");
  ids ← map_result (fun s => id ← security_id_of s; py_int_str id) symbols;
  mret {| hr_method := "POST"; hr_url := "https://api.dhan.co/v2/marketfeed/quote"; hr_headers := dhan_headers; hr_params := [];
          hr_json_body := Some [(self.(dh_exchange_segment), JArr (JInt <$> ids))] |}.

(** [float(levels[0]["price"]) if isinstance(levels, list) and levels else None] *)
Definition best_price (levels : option json) : result (option float) :=
  match levels with
  | Some (JArr (JObj level :: _)) => v ← jitem level "price"; x ← float_json v; mret (Some x)
  | Some (JArr (JArr _ :: _)) => Err (TypeError "list indices must be integers or slices, not str")
  | Some (JArr (JStr _ :: _)) => Err (TypeError "string indices must be integers, not 'str'")
  | Some (JArr (_ :: _)) => Err (TypeError "object is not subscriptable")
  | _ => mret None
  end.
Definition member_of (v : option json) (key : string) : option json := match v with Some (JObj d) => jget key d | _ => None end.
(** The quote of one row; [None] leaves the symbol out. *)
Definition quote_of (row : payload) : result (option QuoteSnapshot) :=
  let depth := jget "depth" row in
  best_bid ← best_price (member_of depth "buy");
  best_ask ← best_price (member_of depth "sell");
  match jget_default row "upper_circuit_limit" JNull, jget_default row "lower_circuit_limit" JNull with
  | JNull, _ | _, JNull => mret None
  | upper, lower =>
      u ← float_json upper; l ← float_json lower;
      mret (Some {| qs_upper_circuit_limit := u; qs_lower_circuit_limit := l; qs_best_bid := best_bid; qs_best_ask := best_ask |})
  end.
Fixpoint quotes_of (segment : payload) (symbols : list string) (acc : dict string QuoteSnapshot) : result (dict string QuoteSnapshot) :=
  match symbols with
  | [] => mret acc
  | symbol :: symbols =>
      id ← security_id_of symbol;
      match jget id segment with
      | Some (JObj row) =>
          q ← quote_of row;
          quotes_of segment symbols (match q with Some q => <[symbol := q]> acc | None => acc end)
      | _ => quotes_of segment symbols acc
      end
  end.
Definition fetch_quotes {W} (transport : HttpRequest -> M W json) (symbols : list string) : M W (dict string QuoteSnapshot) :=
  match symbols with
  | [] => mret ∅
  | _ =>
      q ← lift (quote_request symbols);
      answer ← transport q;
      match answer with
      | JObj fields =>
          match member_of (jget "data" fields) self.(dh_exchange_segment) with
          | Some (JObj segment) => lift (quotes_of segment symbols ∅)
          | _ => raise (provider_error "Dhan quote response is missing segment data")
          end
      | _ => raise (provider_error "Dhan quote response must be an object")
      end
  end.

(** ** Subscriptions *)

Definition request_codes : dict string Z := Dict [("ticker", 15); ("quote", 17); ("full", 21)].
Definition dhan_subscription (symbols : list string) (channel : string) : result RealtimeSubscription :=
  _ ← raise_if (100 <? Z.of_nat (length symbols)) (ValueError "Dhan accepts at most 100 instruments per subscription message");
  match request_codes !! channel with
  | None => Err (ValueError ("unsupported Dhan realtime channel: " +:+ channel))
  | Some code =>
      mret {| sb_url := "wss://api-feed.dhan.co?version=2&token=" +:+ self.(dh_access_token) +:+ "&clientId=" +:+ self.(dh_client_id) +:+ "&authType=2";
              sb_subscribe := Some [("RequestCode", JInt code); ("InstrumentCount", JInt (Z.of_nat (length symbols)));
                ("InstrumentList", JArr ((fun s => JObj [("ExchangeSegment", JStr self.(dh_exchange_segment)); ("SecurityId", JStr s)]) <$> symbols))];
              sb_headers := ∅ |}
  end.
(** [symbols[i : i + 100] for i in range(0, len(symbols), 100)] *)
Fixpoint hundreds (fuel : nat) (symbols : list string) : list (list string) :=
  match fuel, symbols with
  | O, _ | _, [] => []
  | S fuel, _ => take 100 symbols :: hundreds fuel (drop 100 symbols)
  end.
Definition subscription_batches (symbols : list string) (channel : string) : result (list RealtimeSubscription) :=
  map_result (fun batch => dhan_subscription batch channel) (match hundreds (length symbols) symbols with [] => [symbols] | b => b end).
End Client.

(** ** Packets *)

(** [struct.unpack_from("<H" or "<I", packet, offset)[0]]: little endian *)
Fixpoint le_value (bytes : list Z) : Z := match bytes with [] => 0 | b :: rest => b + 256 * le_value rest end.
Definition unpack_int (size offset : nat) (packet : list Z) : result Z :=
  if Nat.leb (offset + size) (length packet) then Ok (le_value (take size (drop offset packet)))
  else Err (OtherException "error" "unpack_from requires a larger buffer").
(** [struct.unpack_from("<f", packet, offset)[0]]: a binary32 as a binary64 *)
Definition f32 (bits : Z) : float :=
  let sign := Z.testbit bits 31 in
  let e := (bits / 2 ^ 23) mod 2 ^ 8 in
  let m := bits mod 2 ^ 23 in
  if e =? 255 then if m =? 0 then (if sign then neg_infinity else infinity) else nan
  else
    let '(mantissa, exponent) := if e =? 0 then (m, -149) else (m + 2 ^ 23, e - 150) in
    SF2Prim (binary_normalize prec emax (if sign then - mantissa else mantissa) exponent sign).
(** [packet[i]] *)
Definition byte_at (packet : list Z) (i : nat) : result Z :=
  match packet !! i with Some b => Ok b | None => Err (OtherException "IndexError" "index out of range") end.

(** The fields of each response code: name, offset and type; the least length
    that has them. *)
Inductive wire := U16 | U32 | F32.
Definition wire_size (t : wire) : nat := match t with U16 => 2 | U32 | F32 => 4 end.
Definition read_field (packet : list Z) (f : string * nat * wire) : result (string * json) :=
  let '(name, offset, t) := f in
  bits ← unpack_int (wire_size t) offset packet;
  mret (name, match t with F32 => JFloat (f32 bits) | _ => JInt bits end).
Definition packet_layout (code : Z) (size : nat) : list (string * nat * wire) :=
  if (code =? 2) && Nat.leb 16 size then [("ltp", 8%nat, F32); ("last_trade_time", 12%nat, U32)]
  else if (code =? 4) && Nat.leb 50 size then
    [("ltp", 8%nat, F32); ("last_trade_quantity", 12%nat, U16); ("last_trade_time", 14%nat, U32); ("average_trade_price", 18%nat, F32);
     ("volume", 22%nat, U32); ("total_sell_quantity", 26%nat, U32); ("total_buy_quantity", 30%nat, U32); ("day_open", 34%nat, F32);
     ("day_close", 38%nat, F32); ("day_high", 42%nat, F32); ("day_low", 46%nat, F32)]
  else if (code =? 5) && Nat.leb 12 size then [("open_interest", 8%nat, U32)]
  else if (code =? 6) && Nat.leb 16 size then [("previous_close", 8%nat, F32); ("previous_open_interest", 12%nat, U32)]
  else if (code =? 50) && Nat.leb 10 size then [("disconnect_code", 8%nat, U16)]
  else [].
(** [decode_packet] *)
Definition decode_packet (packet : list Z) : result payload :=
  _ ← raise_if (Nat.ltb (length packet) 8) (provider_error "Dhan packet is shorter than its 8-byte header");
  response_code ← byte_at packet 0;
  message_length ← unpack_int 2 1 packet;
  exchange_segment ← byte_at packet 3;
  security_id ← unpack_int 4 4 packet;
  _ ← raise_if (Z.of_nat (length packet) <? message_length) (provider_error "Dhan packet length header exceeds received bytes");
  fields ← map_result (read_field packet) (packet_layout response_code (length packet));
  mret ([("response_code", JInt response_code); ("message_length", JInt message_length); ("exchange_segment", JInt exchange_segment);
         ("security_id", JStr (str_Z security_id))] ++ fields).

(** [stream]: text messages are skipped *)
Definition dhan_stream (self : DhanClient) (symbols : list string) (channel : string) (connect : nat -> connection (option (list Z)))
  : result (list payload * result unit) :=
  _ ← subscription_batches self symbols channel;
  mret (stream_with any_exception (fun m => match m with Some packet => p ← decode_packet packet; Ok [p] | None => Ok [] end)
          "Dhan WebSocket stream failed: " 5 connect 0).

(** ** Packets are read back *)

(** [struct.pack("<H" or "<I", n)] *)
Fixpoint le_bytes (size : nat) (n : Z) : list Z := match size with O => [] | S k => n mod 256 :: le_bytes k (n / 256) end.
Lemma le_bytes_length size n : length (le_bytes size n) = size.
Proof. revert n. induction size; intros n; cbn; [done|]. by rewrite IHsize. Qed.
Lemma le_bytes_value size n : 0 <= n < 256 ^ Z.of_nat size -> le_value (le_bytes size n) = n.
Proof.
  revert n. induction size as [|k IH]; intros n Hn; cbn [le_bytes le_value]; [cbn in Hn; lia|].
  rewrite IH; [pose proof (Z.div_mod n 256); lia|]. rewrite Nat2Z.inj_succ, Z.pow_succ_r in Hn by lia.
  split; [apply Z.div_pos; lia|apply Z.div_lt_upper_bound; lia].
Qed.
Lemma unpack_at size n before after : 0 <= n < 256 ^ Z.of_nat size -> unpack_int size (length before) (before ++ le_bytes size n ++ after) = Ok n.
Proof.
  intros Hn. unfold unpack_int. rewrite !length_app, le_bytes_length. rewrite (proj2 (Nat.leb_le _ _)) by lia.
  rewrite drop_app_length. rewrite take_app_le by (rewrite le_bytes_length; lia). rewrite take_ge by (rewrite le_bytes_length; lia).
  by rewrite le_bytes_value.
Qed.

(** The layouts without their names: the widths of the values in a packet's
    body, by response code. *)
Definition body_types (code : Z) : list wire :=
  if code =? 2 then [F32; U32] else if code =? 4 then [F32; U16; U32; F32; U32; U32; U32; F32; F32; F32; F32]
  else if code =? 5 then [U32] else if code =? 6 then [F32; U32] else if code =? 50 then [U16] else [].
Definition body_names (code : Z) : list string :=
  if code =? 2 then ["ltp"; "last_trade_time"]
  else if code =? 4 then ["ltp"; "last_trade_quantity"; "last_trade_time"; "average_trade_price"; "volume"; "total_sell_quantity";
                          "total_buy_quantity"; "day_open"; "day_close"; "day_high"; "day_low"]
  else if code =? 5 then ["open_interest"] else if code =? 6 then ["previous_close"; "previous_open_interest"]
  else if code =? 50 then ["disconnect_code"] else [].
Fixpoint encode_body (types : list wire) (values : list Z) : list Z :=
  match types, values with t :: types, v :: values => le_bytes (wire_size t) v ++ encode_body types values | _, _ => [] end.
Definition fits (t : wire) (v : Z) : Prop := 0 <= v < 256 ^ Z.of_nat (wire_size t).
Definition wire_json (t : wire) (v : Z) : json := match t with F32 => JFloat (f32 v) | _ => JInt v end.

(** Reading one value after the other. *)
Fixpoint offsets (offset : nat) (types : list wire) : list nat :=
  match types with [] => [] | t :: types => offset :: offsets (offset + wire_size t) types end.
Lemma read_body names types values before after : length names = length types -> Forall2 fits types values ->
  map_result (read_field (before ++ encode_body types values ++ after)) (zip (zip names (offsets (length before) types)) types) =
    Ok (zip names (zip_with wire_json types values)).
Proof.
  intros Hlen Hf. revert names before Hlen. induction Hf as [|t v types values Hv _ IH]; intros names before Hlen; destruct names as [|name names]; try done.
  cbn [offsets zip zip_with encode_body map_result]. rewrite <- app_assoc.
  assert (Hfirst : read_field (before ++ le_bytes (wire_size t) v ++ encode_body types values ++ after) (name, length before, t) = Ok (name, wire_json t v))
    by (unfold read_field; rewrite unpack_at by exact Hv; by destruct t).
  rewrite Hfirst. cbn [mbind result_bind].
  specialize (IH names (before ++ le_bytes (wire_size t) v) ltac:(cbn in Hlen; lia)). rewrite length_app, le_bytes_length, <- app_assoc in IH. by rewrite IH.
Qed.

(** A packet with its header. *)
Definition encode_packet (code segment security_id : Z) (values : list Z) (trailing : list Z) : list Z :=
  let body := encode_body (body_types code) values ++ trailing in
  [code] ++ le_bytes 2 (8 + Z.of_nat (length body)) ++ [segment] ++ le_bytes 4 security_id ++ body.
Definition known_code (code : Z) : Prop := code ∈ [2; 4; 5; 6; 50].

Lemma encode_body_length types values : Forall2 fits types values -> length (encode_body types values) = foldr (fun t n => (wire_size t + n)%nat) 0%nat types.
Proof. induction 1 as [|t v types values _ _ IH]; [done|]. cbn. by rewrite length_app, le_bytes_length, IH. Qed.

Lemma layout_known code size : known_code code -> (8 + foldr (fun t n => (wire_size t + n)%nat) 0%nat (body_types code) <= size)%nat ->
  packet_layout code size = zip (zip (body_names code) (offsets 8 (body_types code))) (body_types code) /\ length (body_names code) = length (body_types code).
Proof.
  intros Hk Hs. unfold known_code in Hk. rewrite !elem_of_cons in Hk. destruct Hk as [->|[->|[->|[->|[->|Hk%elem_of_nil]]]]]; [..|done];
    cbn in Hs; unfold packet_layout; cbn -[Nat.leb]; rewrite (proj2 (Nat.leb_le _ _)) by lia; done.
Qed.

(** C29. Every realtime packet of a known kind is read back: for any values of
    its fields in their width, whatever bytes follow, decoding gives the
    response code, the length, the segment and the security id of the header
    and each field under its name, prices as the binary32 numbers they are. *)
Theorem packet_roundtrip code segment security_id values trailing :
  known_code code -> 0 <= security_id < 2 ^ 32 -> Forall2 fits (body_types code) values -> Z.of_nat (length trailing) < 1000 ->
  let packet := encode_packet code segment security_id values trailing in
  decode_packet packet = Ok ([("response_code", JInt code); ("message_length", JInt (Z.of_nat (length packet))); ("exchange_segment", JInt segment);
    ("security_id", JStr (str_Z security_id))] ++ zip (body_names code) (zip_with wire_json (body_types code) values)).
Proof.
  intros Hk Hid Hf Ht packet. pose proof (encode_body_length _ _ Hf) as Hbody.
  set (total := foldr (fun t n => (wire_size t + n)%nat) 0%nat (body_types code)) in Hbody.
  assert (Htotal : (total <= 42)%nat).
  { unfold total. unfold known_code in Hk. rewrite !elem_of_cons in Hk. destruct Hk as [->|[->|[->|[->|[->|Hk%elem_of_nil]]]]]; [..|done]; cbn; lia. }
  set (body := encode_body (body_types code) values ++ trailing).
  assert (Hlb : length body = (total + length trailing)%nat) by (unfold body; by rewrite length_app, Hbody).
  assert (Hp : packet = [code] ++ le_bytes 2 (8 + Z.of_nat (length body)) ++ [segment] ++ le_bytes 4 security_id ++ body) by done.
  assert (Hlen : length packet = (8 + length body)%nat) by (rewrite Hp, !length_app, !le_bytes_length; cbn; lia).
  assert (Hml : unpack_int 2 1 packet = Ok (8 + Z.of_nat (length body))).
  { rewrite Hp. apply (unpack_at 2 _ [code]). cbn. lia. }
  assert (Hsid : unpack_int 4 4 packet = Ok security_id).
  { rewrite Hp. rewrite !app_assoc. rewrite <- (app_assoc _ (le_bytes 4 security_id)).
    apply (unpack_at 4 security_id (([code] ++ le_bytes 2 (8 + Z.of_nat (length body))) ++ [segment])). change (256 ^ Z.of_nat 4) with (2 ^ 32). lia. }
  assert (H0 : byte_at packet 0 = Ok code) by done. assert (H3 : byte_at packet 3 = Ok segment) by done.
  unfold decode_packet. rewrite (proj2 (Nat.ltb_ge _ _)) by lia. cbn [raise_if mbind result_bind]. rewrite H0. cbn [mbind result_bind]. rewrite Hml.
  cbn [mbind result_bind]. rewrite H3. cbn [mbind result_bind]. rewrite Hsid. cbn [mbind result_bind].
  rewrite (proj2 (Z.ltb_ge _ _)) by lia. cbn [raise_if mbind result_bind].
  destruct (layout_known code (length packet) Hk ltac:(fold total; lia)) as [-> Hn].
  assert (Hread : map_result (read_field packet) (zip (zip (body_names code) (offsets 8 (body_types code))) (body_types code)) =
    Ok (zip (body_names code) (zip_with wire_json (body_types code) values))).
  { rewrite Hp. unfold body. rewrite !app_assoc. rewrite <- (app_assoc _ (encode_body _ _) trailing).
    pose proof (read_body (body_names code) (body_types code) values ((([code] ++ le_bytes 2 (8 + Z.of_nat (length (encode_body (body_types code) values ++ trailing)))) ++ [segment]) ++ le_bytes 4 security_id) trailing Hn Hf) as H.
    exact H. }
  rewrite Hread. cbn [mbind result_bind]. rewrite Hlen. cbn. repeat f_equal. lia.
Qed.

(** No packet of bytes raises anything but the client's own error: every field
    is read within the packet. *)
Theorem packet_errors packet e : decode_packet packet = Err e ->
  e = provider_error "Dhan packet is shorter than its 8-byte header" \/ e = provider_error "Dhan packet length header exceeds received bytes".
Proof.
  unfold decode_packet. destruct (Nat.ltb (length packet) 8) eqn:E; [intros [= <-]; by left|]. apply Nat.ltb_ge in E. cbn [raise_if mbind result_bind].
  assert (Hu : forall size offset, (offset + size <= 8)%nat -> exists n, unpack_int size offset packet = Ok n).
  { intros size offset H. unfold unpack_int. rewrite (proj2 (Nat.leb_le _ _)) by lia. by eexists. }
  assert (Hb : forall i, (i < 8)%nat -> exists n, byte_at packet i = Ok n).
  { intros i Hi. unfold byte_at. destruct (lookup_lt_is_Some_2 packet i) as [x ->]; [lia|]. by eexists. }
  destruct (Hb 0%nat ltac:(lia)) as [code ->]. cbn [mbind result_bind]. destruct (Hu 2%nat 1%nat ltac:(lia)) as [ml ->]. cbn [mbind result_bind].
  destruct (Hb 3%nat ltac:(lia)) as [seg ->]. cbn [mbind result_bind]. destruct (Hu 4%nat 4%nat ltac:(lia)) as [sid ->]. cbn [mbind result_bind].
  destruct (Z.of_nat (length packet) <? ml); [intros [= <-]; by right|]. cbn [raise_if mbind result_bind].
  assert (Hf : exists fields, map_result (read_field packet) (packet_layout code (length packet)) = Ok fields).
  { apply map_result_total. intros [[name offset] t] Hin. unfold read_field, unpack_int.
    assert (Hle : (offset + wire_size t <= length packet)%nat).
    { revert Hin. unfold packet_layout. repeat (destruct (_ && Nat.leb _ _) eqn:El; [apply andb_true_iff in El as [_ El%Nat.leb_le]; rewrite !elem_of_cons, elem_of_nil;
        intros Hin; repeat destruct Hin as [[= -> -> ->]|Hin]; [cbn [wire_size]; lia..|done]|clear El]). by intros ?%elem_of_nil. }
    rewrite (proj2 (Nat.leb_le _ _)) by lia. by eexists. }
  destruct Hf as [fields ->]. done.
Qed.

(** ** Half hours *)

Definition in_bucket (k : Z) (x : Timed) : bool := bucket_of x.1 =? k.

Lemma buckets_snoc rows x : buckets_of (rows ++ [x]) = add_bucket (buckets_of rows) x.
Proof. unfold buckets_of. by rewrite foldl_app. Qed.
Lemma buckets_wf rows : dict_wf (buckets_of rows).
Proof.
  induction rows as [|x rows IH] using rev_ind; [constructor|]. rewrite buckets_snoc. by apply dict_wf_insert.
Qed.
(** A bucket holds its rows, in their order. *)
Lemma buckets_lookup rows k : default [] (buckets_of rows !! k) = List.filter (in_bucket k) rows.
Proof.
  induction rows as [|x rows IH] using rev_ind; [done|]. rewrite buckets_snoc, List.filter_app. unfold add_bucket. rewrite dict_lookup_insert. cbn.
  unfold in_bucket at 2. destruct (Z.eqb_spec (bucket_of x.1) k) as [<-|Hne].
  - rewrite decide_True by done. cbn. by rewrite IH.
  - rewrite decide_False by done. by rewrite IH, app_nil_r.
Qed.
Lemma buckets_entry rows k l : (k, l) ∈ entries (buckets_of rows) -> l = List.filter (in_bucket k) rows.
Proof. intros H. apply dict_elem_lookup in H; [|apply buckets_wf]. rewrite <- buckets_lookup, H. done. Qed.
Lemma buckets_nonempty rows k : List.filter (in_bucket k) rows <> [] -> (k, List.filter (in_bucket k) rows) ∈ entries (buckets_of rows).
Proof.
  rewrite <- buckets_lookup. destruct (buckets_of rows !! k) as [l|] eqn:E; [|done]. intros _. by apply dict_lookup_elem.
Qed.

Lemma omap_some_elem {A} (l : list (option A)) x : x ∈ omap (M := list) (fun c => c) l <-> Some x ∈ l.
Proof. rewrite list_elem_of_omap. split; [intros (y & Hy & Hx); by subst y|]. intros H. by exists (Some x). Qed.

(** The half hours are in order. *)
Definition opened_at (c : payload) : json := jget_default c "timestamp" JNull.
Lemma half_hour_opened k a b c : half_hour k a b = Ok c -> opened_at c = JInt k.
Proof. unfold half_hour. intros H. repeat (apply result_bind_ok in H as (? & _ & H)). by injection H as <-. Qed.
Lemma bucket_candle_opened e c : bucket_candle e = Ok (Some c) -> opened_at c = JInt e.1.
Proof.
  unfold bucket_candle. destruct (py_sorted by_time e.2) as [|a [|b [|]]]; try done. intros H. apply result_bind_ok in H as (x & Hx & [= <-]).
  by apply half_hour_opened in Hx.
Qed.
Definition opens_before (a b : payload) : Prop := exists x y, opened_at a = JInt x /\ opened_at b = JInt y /\ x < y.
Lemma candles_ordered groups candles : StronglySorted (fun a b : Z * list Timed => a.1 < b.1) groups -> map_result bucket_candle groups = Ok candles ->
  StronglySorted opens_before (omap (M := list) (fun c => c) candles).
Proof.
  intros Hs H%map_result_ok. revert Hs. induction H as [|g c groups candles Hc Hrest IH]; [constructor|]. intros [Hs Hall]%StronglySorted_inv.
  destruct c as [c|]; cbn; [|by apply IH]. constructor; [by apply IH|]. apply Forall_forall. intros d Hd%omap_some_elem.
  apply list_elem_of_lookup in Hd as [i Hi]. destruct (Forall2_lookup_r _ _ _ _ _ Hrest Hi) as (g' & Hg' & Hd).
  apply list_elem_of_lookup_2 in Hg'. rewrite Forall_forall in Hall. specialize (Hall _ Hg').
  exists g.1, g'.1. split; [by apply bucket_candle_opened|]. split; [by apply bucket_candle_opened|done].
Qed.
Lemma groups_sorted rows : StronglySorted (fun a b : Z * list Timed => a.1 < b.1) (py_sorted bucket_before (entries (buckets_of rows))).
Proof.
  assert (Hnd : NoDup ((py_sorted bucket_before (entries (buckets_of rows))).*1)).
  { rewrite py_sorted_perm. apply buckets_wf. }
  assert (Hs : StronglySorted (not_after bucket_before) (py_sorted bucket_before (entries (buckets_of rows)))).
  { apply (py_sorted_sorted bucket_before (fun _ => True)); [..|by apply Forall_true]; unfold not_after, bucket_before; intros; lia. }
  revert Hnd. induction Hs as [|g l Hl IH Hall]; [constructor|]. rewrite fmap_cons. intros [Hn Hd]%NoDup_cons. constructor; [by apply IH|].
  rewrite Forall_forall in Hall |- *. intros h Hh. specialize (Hall h Hh). unfold not_after, bucket_before in Hall.
  assert (g.1 <> h.1); [|lia]. intros E. apply Hn. rewrite E. by apply list_elem_of_fmap_2.
Qed.

(** Half-hour candles are made of complete pairs.  When resampling
    returns, a candle is in the result exactly when some half hour, counted
    from the session's 09:15, has exactly two rows: it then opens with the
    earlier, closes with the later and spans both; the candles are in strict
    order of their opening. *)
Theorem resample_pairs rows out timed :
  resample_30m rows = Ok out -> map_result timed_row rows = Ok timed ->
  (forall c, c ∈ out <-> exists k a b, py_sorted by_time (List.filter (in_bucket k) timed) = [a; b] /\ half_hour k a.2 b.2 = Ok c) /\
  StronglySorted opens_before out.
Proof.
  unfold resample_30m. intros H Ht. rewrite Ht in H. cbn [mbind result_bind] in H. apply result_bind_ok in H as (candles & Hc & [= <-]). split.
  - intros c. rewrite omap_some_elem. pose proof (proj1 (map_result_ok _ _ _) Hc) as Hf. split.
    + intros [i Hi]%list_elem_of_lookup. destruct (Forall2_lookup_r _ _ _ _ _ Hf Hi) as ([k l] & Hg & Hb).
      apply list_elem_of_lookup_2, py_sorted_elem, buckets_entry in Hg as ->. unfold bucket_candle in Hb. cbn [fst snd] in Hb. exists k.
      destruct (py_sorted by_time _) as [|a [|b [|]]]; try done. exists a, b. split; [done|]. by apply result_bind_ok in Hb as (x & Hx & [= <-]).
    + intros (k & a & b & Hs & Hh). assert (Hne : List.filter (in_bucket k) timed <> []).
      { intros E. by rewrite E in Hs. }
      apply buckets_nonempty, (proj2 (py_sorted_elem bucket_before _ _)), list_elem_of_lookup in Hne as [i Hi].
      destruct (Forall2_lookup_l _ _ _ _ _ Hf Hi) as (x & Hx & Hb). apply list_elem_of_lookup_2 in Hx. unfold bucket_candle in Hb. cbn [fst snd] in Hb.
      rewrite Hs in Hb. cbn in Hb. rewrite Hh in Hb. by injection Hb as <-.
  - eapply candles_ordered; [apply groups_sorted|exact Hc].
Qed.

(** ** Subscriptions cover the symbols *)

Lemma hundreds_cover fuel symbols : (length symbols <= fuel)%nat ->
  mjoin (hundreds fuel symbols) = symbols /\ Forall (fun b => (1 <= length b <= 100)%nat) (hundreds fuel symbols).
Proof.
  revert symbols. induction fuel as [|fuel IH]; intros symbols H; [destruct symbols; [by split|cbn in H; lia]|].
  destruct symbols as [|s symbols]; [by split|]. change (hundreds (S fuel) (s :: symbols)) with (take 100 (s :: symbols) :: hundreds fuel (drop 100 (s :: symbols))).
  destruct (IH (drop 100 (s :: symbols))) as [Hj Hf]; [rewrite length_drop; cbn in *; lia|]. split.
  - transitivity (take 100 (s :: symbols) ++ mjoin (hundreds fuel (drop 100 (s :: symbols)))); [done|]. rewrite Hj. apply take_drop.
  - constructor; [|done]. rewrite length_take. cbn [length]. lia.
Qed.

(** A stream over any symbols subscribes to all of them, in order, in messages
    the provider accepts: with a known channel none is refused. *)
Theorem subscriptions_cover self symbols channel code : request_codes !! channel = Some code -> symbols <> [] ->
  exists batches, mjoin batches = symbols /\ Forall (fun b => (1 <= length b <= 100)%nat) batches /\
    exists messages, subscription_batches self symbols channel = Ok messages /\
      (fun m => default [] m.(sb_subscribe)) <$> messages = (fun b => [("RequestCode", JInt code); ("InstrumentCount", JInt (Z.of_nat (length b)));
        ("InstrumentList", JArr ((fun s => JObj [("ExchangeSegment", JStr self.(dh_exchange_segment)); ("SecurityId", JStr s)]) <$> b))]) <$> batches.
Proof.
  intros Hc Hne. destruct (hundreds_cover (length symbols) symbols ltac:(done)) as [Hj Hf]. exists (hundreds (length symbols) symbols).
  split; [done|]. split; [done|]. unfold subscription_batches. destruct (hundreds (length symbols) symbols) as [|b0 bs] eqn:E; [by rewrite <- Hj in Hne|].
  clear E Hj. revert Hf. generalize (b0 :: bs) as batches. induction batches as [|b batches IH]; intros Hf; [by exists []|].
  apply Forall_cons in Hf as [Hb Hf]. destruct (IH Hf) as (ms & Hm & Hs).
  assert (Hone : exists m, dhan_subscription self b channel = Ok m /\ default [] m.(sb_subscribe) = [("RequestCode", JInt code); ("InstrumentCount", JInt (Z.of_nat (length b)));
        ("InstrumentList", JArr ((fun s => JObj [("ExchangeSegment", JStr self.(dh_exchange_segment)); ("SecurityId", JStr s)]) <$> b))]).
  { unfold dhan_subscription. rewrite (proj2 (Z.ltb_ge _ _)) by lia. cbn [raise_if mbind result_bind]. rewrite Hc. by eexists. }
  destruct Hone as (m & Hm1 & Hm2). cbn [map_result]. rewrite Hm1. cbn [mbind result_bind]. rewrite Hm. eexists. split; [done|].
  rewrite !fmap_cons. by f_equal.
Qed.

(** ** Examples *)

Module DhanExample.

(** A quote packet of the feed. *)
Definition quote_values : list Z := [1167880192; 5; 1709208000; 1167880192; 1000; 10; 20; 1167880192; 1167880192; 1167884288; 1167876096].
Definition quote_packet : list Z := encode_packet 4 1 2885 quote_values [].
Lemma packet_roundtrip_witness :
  length quote_packet = 50%nat /\ exists p, decode_packet quote_packet = Ok p /\ jget "security_id" p = Some (JStr "2885") /\ jget "volume" p = Some (JInt 1000).
Proof.
  split; [reflexivity|].
  assert (Hf : Forall2 fits (body_types 4) quote_values) by (repeat constructor; unfold fits; cbn; lia).
  pose proof (packet_roundtrip 4 1 2885 quote_values [] ltac:(unfold known_code; set_solver) ltac:(lia) Hf ltac:(cbn; lia)) as H.
  eexists. split; [exact H|]. split; [vm_compute; reflexivity|reflexivity].
Defined.
Example price_of_bits : f32 1167880192 = 5006%float.
Proof. vm_compute. reflexivity. Qed.

Definition quarter (t : Z) (o h l c v : float) : payload :=
  [("timestamp", JInt t); ("open", JFloat o); ("high", JFloat h); ("low", JFloat l); ("close", JFloat c); ("volume", JFloat v);
   ("timeframe", JStr "30m"); ("settled", JBool true)].
(** 09:15, 09:30 and 09:45 in Mumbai. *)
Definition opening : Z := 1709178300.
Definition morning : list payload := [quarter (opening + 900) 101 105 100 104 7; quarter opening 100 103 99 101 5; quarter (opening + 1800) 104 106 103 105 6].
Definition half : payload :=
  [("timestamp", JInt opening); ("open", JFloat 100); ("high", JFloat 105); ("low", JFloat 99); ("close", JFloat 104); ("volume", JFloat 12);
   ("timeframe", JStr "30m"); ("settled", JBool true)].
Lemma resample_pairs_witness :
  resample_30m morning = Ok [half] /\ StronglySorted opens_before [half].
Proof.
  assert (H : resample_30m morning = Ok [half]) by (vm_compute; reflexivity). split; [exact H|].
  exact (proj2 (resample_pairs morning [half] [(opening + 900, quarter (opening + 900) 101 105 100 104 7); (opening, quarter opening 100 103 99 101 5);
    (opening + 1800, quarter (opening + 1800) 104 106 103 105 6)] H ltac:(vm_compute; reflexivity))).
Defined.

(** A quarter hour the provider sends twice passes for a complete pair: the
    half hour is emitted without its second quarter. *)
Example repeated_quarter_is_a_pair :
  exists c, resample_30m [quarter opening 100 103 99 101 5; quarter opening 100 103 99 101 5] = Ok [c] /\
    jget "volume" c = Some (JFloat 10) /\ jget "settled" c = Some (JBool true).
Proof. eexists. split; [vm_compute; reflexivity|]. by split. Qed.

Definition client : DhanClient := {|
  dh_client_id := "c"; dh_access_token := "t"; dh_security_id := Some "1"; dh_security_ids := ∅; dh_exchange_segment := "NSE_EQ"; dh_instrument := "EQUITY" |}.
Lemma subscriptions_cover_witness :
  exists messages, subscription_batches client (repeat "2885" 120) "quote" = Ok messages /\ length messages = 2%nat.
Proof.
  destruct (subscriptions_cover client (repeat "2885" 120) "quote" 17 eq_refl ltac:(discriminate)) as (_ & _ & _ & messages & H & _).
  exists messages. split; [exact H|]. vm_compute in H. injection H as <-. reflexivity.
Defined.

End DhanExample.
