(* ===== verification/DhanAuth.v ===== *)
(** * Dhan access tokens (src/nanodelta/providers/dhan_auth.py)

    A token is generated from a PIN and a time-based one-time password
    (RFC 6238 over SHA-1) and cached until shortly before it expires: by the
    provider object in its process, and for all processes in a table under an
    advisory lock.  The provider's endpoint is an operation of the world; the
    lock makes the section it guards one step.

    The theorems: a one-time password has its digits and changes only with the
    period; within the validity of a token no process asks for another one,
    whichever processes call and in whatever order. *)

From Stdlib Require Import ZArith Lia Floats Ascii String ZifyBool.
From stdpp Require Import prelude strings numbers list.
From S2P Require Import Prelude PyData PyFloat PyText PyDigits PyParse PyJson Sha256 PyTime PyDate Sql Db Contracts Adapters Etl Realtime Providers.

Local Open Scope Z_scope.

(** ** SHA-1 and HMAC (hashlib, hmac) *)

Module Sha1.

Definition rotl (n x : Z) : Z := Z.lor (Sha256.word (Z.shiftl x n)) (Z.shiftr x (32 - n)).
Definition initial : list Z := [1732584193; 4023233417; 2562383102; 271733878; 3285377520].

(** The 80 words of a block, latest first. *)
Fixpoint schedule (n : nat) (rev_w : list Z) : list Z :=
  match n with
  | O => rev_w
  | S n' =>
      let at_ i := nth i rev_w 0 in
      schedule n' (rotl 1 (Z.lxor (Z.lxor (at_ 2%nat) (at_ 7%nat)) (Z.lxor (at_ 13%nat) (at_ 15%nat))) :: rev_w)
  end.

Record regs := Regs { ra : Z; rb : Z; rc : Z; rd : Z; re : Z }.
(** The function and constant of round [t]. *)
Definition f (t : Z) (b c d : Z) : Z :=
  if t <? 20 then Z.lor (Z.land b c) (Z.land (Z.lxor b 4294967295) d)
  else if t <? 40 then Z.lxor (Z.lxor b c) d
  else if t <? 60 then Z.lor (Z.lor (Z.land b c) (Z.land b d)) (Z.land c d)
  else Z.lxor (Z.lxor b c) d.
Definition k (t : Z) : Z := if t <? 20 then 1518500249 else if t <? 40 then 1859775393 else if t <? 60 then 2400959708 else 3395469782.
Definition round (t : Z) (r : regs) (w : Z) : regs :=
  let temp := Sha256.word (rotl 5 (ra r) + f t (rb r) (rc r) (rd r) + re r + k t + w) in
  Regs temp (ra r) (rotl 30 (rb r)) (rc r) (rd r).
Fixpoint rounds (t : Z) (r : regs) (ws : list Z) : regs :=
  match ws with [] => r | w :: ws => rounds (t + 1) (round t r w) ws end.
Definition compress (h : list Z) (block : list Z) : list Z :=
  let at_ i := nth i h 0 in
  let r := rounds 0 (Regs (at_ 0%nat) (at_ 1%nat) (at_ 2%nat) (at_ 3%nat) (at_ 4%nat)) (rev (schedule 64 (rev block))) in
  zip_with Sha256.add32 h [ra r; rb r; rc r; rd r; re r].

Definition padded (bytes : list Z) : list Z :=
  let n := Z.of_nat (length bytes) in
  bytes ++ 128 :: repeat 0 (Z.to_nat ((55 - n) mod 64)) ++ Sha256.big_endian 8 (8 * n).
Fixpoint blocks (fuel : nat) (h : list Z) (words : list Z) : list Z :=
  match fuel with
  | O => h
  | S fuel => match words with [] => h | _ => blocks fuel (compress h (take 16 words)) (drop 16 words) end
  end.
(** [hashlib.sha1(bytes).digest()] *)
Definition digest (bytes : list Z) : list Z :=
  let words := Sha256.to_words (padded bytes) in
  mjoin (Sha256.big_endian 4 <$> blocks (length words) initial words).

(** [hmac.new(key, message, hashlib.sha1).digest()] *)
Definition hmac (key message : list Z) : list Z :=
  let key := if Nat.ltb 64 (length key) then digest key else key in
  let key := key ++ repeat 0 (64 - length key) in
  digest ((Z.lxor 92 <$> key) ++ digest ((Z.lxor 54 <$> key) ++ message)).
End Sha1.

(** ** One-time passwords *)

Definition str_bytes (s : string) : list Z := code <$> list_ascii_of_string s.
(** [base64.b32decode(s, casefold=True)] of a text whose length is a multiple
    of eight *)
Definition b32_digit (c : ascii) : option Z :=
  let n := code c in
  if (65 <=? n) && (n <=? 90) then Some (n - 65) else if (97 <=? n) && (n <=? 122) then Some (n - 97)
  else if (50 <=? n) && (n <=? 55) then Some (n - 24) else None.
Definition quantum (digits : list Z) : Z := foldl (fun acc d => acc * 32 + d) 0 digits.
Fixpoint b32_quanta (fuel : nat) (digits : list Z) : list Z :=
  match fuel with
  | O => []
  | S fuel =>
      match digits with
      | [] => []
      | _ =>
          let d := take 8 digits in
          let missing := Z.of_nat (8 - length d) in
          take (Z.to_nat ((40 - 5 * missing) / 8)) (Sha256.big_endian 5 (quantum d * 32 ^ missing)) ++ b32_quanta fuel (drop 8 digits)
      end
  end.
Fixpoint strip_right (c : ascii) (s : string) : string :=
  match s with
  | EmptyString => ""
  | String x s' => let t := strip_right c s' in if Ascii.eqb x c && str_empty t then "" else String x t
  end.
Definition b32decode (padded : string) : option (list Z) :=
  let s := strip_right "=" padded in
  let padchars := str_len padded - str_len s in
  digits ← mapM b32_digit (list_ascii_of_string s);
  if (str_len padded mod 8 =? 0) && bool_decide (padchars ∈ [0; 1; 3; 4; 6]) then Some (b32_quanta (length digits) digits) else None.

(** ["".join(secret.split())] *)
Fixpoint without_spaces (s : string) : string :=
  match s with EmptyString => "" | String c s => if is_space c then without_spaces s else String c (without_spaces s) end.
(** [s.zfill(n)] of digits *)
Definition zfill (n : nat) (s : string) : string := zeros (n - String.length s) +:+ s.

(** [generate_totp] *)
Definition generate_totp (secret : string) (at_ : datetime) (digits period_seconds : Z) : result string :=
  _ ← raise_if ((digits <? 6) || (period_seconds <? 1)) (ValueError "invalid TOTP settings");
  let normalized := strip_right "=" (str_upper (without_spaces secret)) in
  _ ← raise_if (str_empty normalized) (ValueError "TOTP secret is empty");
  let padding := String.concat "" (repeat "=" (Z.to_nat ((8 - str_len normalized mod 8) mod 8))) in
  match b32decode (normalized +:+ padding) with
  | None => Err (ValueError "TOTP secret must be Base32")
  | Some key =>
      t ← utc at_ "at";
      seconds ← int_of_float (timestamp_of t);
      let counter := seconds / period_seconds in
      _ ← raise_if (negb ((0 <=? counter) && (counter <? 2 ^ 64))) (OtherException "error" "int too large to convert");
      let digest := Sha1.hmac key (Sha256.big_endian 8 counter) in
      let offset := Z.to_nat (Z.land (List.last digest 0) 15) in
      let value := Z.land (foldl (fun acc b => acc * 256 + b) 0 (take 4 (drop offset digest))) 2147483647 in
      mret (zfill (Z.to_nat digits) (str_Z (value mod 10 ^ digits)))
  end.

(** ** Secrets and tokens *)

(** [DhanSecretFiles.read]; a file is its text, [None] when there is none *)
Definition read_secret (label path : string) (file : option string) : result string :=
  match file with
  | None => Err (OtherException "FileNotFoundError" (label +:+ " file does not exist: " +:+ path))
  | Some text => _ ← raise_if (str_blank text) (ValueError (label +:+ " file is empty")); mret (str_strip text)
  end.
Record DhanSecretFiles := { df_pin_path : string; df_totp_secret_path : string }.
Definition read_secrets (files : string -> option string) (s : DhanSecretFiles) : result (string * string) :=
  pin ← read_secret "Dhan PIN" s.(df_pin_path) (files s.(df_pin_path));
  secret ← read_secret "Dhan TOTP secret" s.(df_totp_secret_path) (files s.(df_totp_secret_path));
  _ ← raise_if (negb (str_isdigit pin && (str_len pin =? 6))) (ValueError "Dhan PIN file must contain exactly six digits");
  mret (pin, secret).

Record DhanAccessToken := { dt_value : string; dt_expires_at : datetime }.

(** [_parse] *)
Definition except_value_error {A} (r : result A) (e : exn) : result A := match r with Err (ValueError _) => Err e | _ => r end.
Definition parse_token (answer : json) : result DhanAccessToken :=
  match answer with
  | JObj fields =>
      match jget "accessToken" fields, jget "expiryTime" fields with
      | Some (JStr token), expiry =>
          _ ← raise_if (str_blank token) (provider_error "Dhan token response has no accessToken");
          match expiry with
          | Some (JStr expiry) =>
              parsed ← except_value_error (fromisoformat (str_replace "Z" "+00:00" expiry)) (provider_error "Dhan token expiry is invalid");
              let aware_expiry := match parsed.(utcoffset) with None => Datetime parsed.(wall) (Some (5 * hour + 30 * minute)) | Some _ => parsed end in
              mret {| dt_value := token; dt_expires_at := at_utc (instant aware_expiry) |}
          | _ => Err (provider_error "Dhan token response has no expiryTime")
          end
      | _, _ => Err (provider_error "Dhan token response has no accessToken")
      end
  | _ => Err (provider_error "Dhan token response must be an object")
  end.

(** [DhanTokenProvider]: its settings, and its cache with the world *)
Record DhanTokenProvider := { tp_client_id : string; tp_secrets : DhanSecretFiles; tp_refresh_margin : Z }.
Definition token_provider (client_id : string) (secrets : DhanSecretFiles) (refresh_margin : Z) : result DhanTokenProvider :=
  _ ← raise_if (str_blank client_id || (refresh_margin <? 0)) (ValueError "Dhan client ID or token refresh margin is invalid");
  mret {| tp_client_id := str_strip client_id; tp_secrets := secrets; tp_refresh_margin := refresh_margin |}.
Record TokenWorld (W : Type) := MkTokenWorld { tw_cached : option DhanAccessToken; tw_world : W }.
Arguments MkTokenWorld {W}.
Arguments tw_cached {W}.
Arguments tw_world {W}.

(** [now < cached.expires_at - margin] *)
Definition still_valid (now : datetime) (margin : Z) (expires_at : datetime) : bool := instant now <? instant expires_at - margin.

Section Provider.
Context {W : Type} (transport : HttpRequest -> M W json) (files : string -> option string).

Definition token_request (self : DhanTokenProvider) (pin totp : string) : HttpRequest := {|
  hr_method := "POST"; hr_url := "https://auth.dhan.co/app/generateAccessToken"; hr_headers := ∅;
  hr_params := [("dhanClientId", JStr self.(tp_client_id)); ("pin", JStr pin); ("totp", JStr totp)]; hr_json_body := None |}.
Definition fetch_token (self : DhanTokenProvider) (now : datetime) : M (TokenWorld W) DhanAccessToken :=
  secrets ← lift (read_secrets files self.(tp_secrets));
  totp ← lift (generate_totp secrets.2 now 6 30);
  answer ← zoom tw_world (fun w s => MkTokenWorld s.(tw_cached) w) (transport (token_request self secrets.1 totp));
  token ← lift (parse_token answer);
  _ ← modify (fun s => MkTokenWorld (Some token) s.(tw_world));
  mret token.
(** [token], under its lock *)
Definition provider_token (self : DhanTokenProvider) (now : datetime) : M (TokenWorld W) DhanAccessToken :=
  now ← lift (utc now "now");
  s ← get_state;
  match s.(tw_cached) with
  | Some cached => if still_valid now self.(tp_refresh_margin) cached.(dt_expires_at) then mret cached else fetch_token self now
  | None => fetch_token self now
  end.
End Provider.

(** [StaticDhanTokenProvider] *)
Record StaticDhanTokenProvider := { st_client_id : string; st_access_token : string }.
Definition static_provider (client_id access_token : string) : result StaticDhanTokenProvider :=
  _ ← raise_if (str_blank client_id || str_blank access_token) (ValueError "Dhan client ID and access token are required");
  mret {| st_client_id := str_strip client_id; st_access_token := str_strip access_token |}.
Definition static_token (self : StaticDhanTokenProvider) (now : datetime) : result DhanAccessToken :=
  now ← utc now "now"; mret {| dt_value := self.(st_access_token); dt_expires_at := at_utc (instant now + 30 * minute) |}.

(** ** The cache of all processes *)

Record TokenRow := { tk_client_id : string; tk_access_token : string; tk_expires_at : datetime; tk_fetched_at : datetime }.

Section Shared.
Context {W : Type} (transport : HttpRequest -> M W json) (files : string -> option string).
Context (client_id : string) (provider : DhanTokenProvider).
Abbreviation Process := (Db (list TokenRow) W).

Definition of_client (r : TokenRow) : bool := r.(tk_client_id) ==p client_id.
(** [_read_cached_token] and [_fresh] *)
Definition read_cached_token (rows : list TokenRow) : option (string * datetime) :=
  (fun r => (r.(tk_access_token), r.(tk_expires_at))) <$> List.find of_client rows.
Definition fresh_token (cached : option (string * datetime)) (now : datetime) : bool :=
  match cached with Some (_, expires_at) => still_valid now (5 * minute) expires_at | None => false end.

(** The provider of one call is new: nothing is cached in it. *)
Definition new_token (now : datetime) : M W DhanAccessToken := fun w =>
  let '(r, s) := provider_token transport files provider now (MkTokenWorld None w) in (r, s.(tw_world)).
Definition token_row (token : DhanAccessToken) (now : datetime) : TokenRow := {|
  tk_client_id := client_id; tk_access_token := token.(dt_value); tk_expires_at := timestamptz token.(dt_expires_at); tk_fetched_at := timestamptz now |}.

(** The probe before the lock. *)
Definition probe (now : datetime) : M Process (option string) :=
  cached ← reading (query (fun rows => Ok (read_cached_token rows)));
  mret (if fresh_token cached now then fst <$> cached else None).

(** The section under the advisory lock, and its release. *)
Definition replace (now : datetime) : M Process string :=
  token ← in_memory (new_token now);
  let row := token_row token now in
  _ ← execute_sql (modify (upsert of_client row (fun _ => row)));
  _ ← db_call;
  mret token.(dt_value).
Definition renew (now : datetime) : M Process string :=
  _ ← db_call;
  cached ← execute_sql (query (fun rows => Ok (read_cached_token rows)));
  match cached with
  | Some (token, expires_at) => if fresh_token cached now then mret token else replace now
  | None => replace now
  end.
Definition locked_section (now : datetime) : M Process string := fun s =>
  match db_call s with
  | (Err e, s0) => (Err e, s0)
  | (Ok _, s0) =>
      let '(r, s1) := renew now s0 in
      let s2 := match r with Ok _ => s1 | Err _ => MkDb s0.(db_tables) s1.(db_local) s1.(db_faults) end in
      match db_call s2 with (Err e, s3) => (Err e, s3) | (Ok _, s3) => (r, s3) end
  end.
(** [_cached_dhan_access_token] *)
Definition cached_dhan_access_token (now now' : datetime) : M Process string :=
  found ← probe now;
  match found with Some token => mret token | None => locked_section now' end.
End Shared.

(** [resolve_dhan_access_token]: where the token comes from *)
Inductive token_source := StaticFile (path : string) | PinAndTotp (secrets : DhanSecretFiles).
Definition dhan_token_source (environ : dict string string) : result token_source :=
  let setting name := str_strip (default "" (environ !! name)) in
  if negb (str_empty (setting "DHAN_ACCESS_TOKEN_PATH")) then mret (StaticFile (setting "DHAN_ACCESS_TOKEN_PATH"))
  else
    _ ← raise_if (str_empty (setting "DHAN_PIN_PATH") || str_empty (setting "DHAN_TOTP_SECRET_PATH"))
          (RuntimeError "Dhan credentials are required: set DHAN_ACCESS_TOKEN_PATH, or both DHAN_PIN_PATH and DHAN_TOTP_SECRET_PATH");
    mret (PinAndTotp {| df_pin_path := setting "DHAN_PIN_PATH"; df_totp_secret_path := setting "DHAN_TOTP_SECRET_PATH" |}).
Definition resolve_dhan_access_token {W} (transport : HttpRequest -> M W json) (files : string -> option string) (environ : dict string string)
    (client_id : string) (connect : bool) (now now' : datetime) : M (Db (list TokenRow) W) string :=
  source ← lift (dhan_token_source environ);
  match source with
  | StaticFile path =>
      match files path with
      | None => raise (OtherException "FileNotFoundError" path)
      | Some text => _ ← lift (raise_if (str_blank text) (RuntimeError "DHAN_ACCESS_TOKEN_PATH points to an empty secret")); mret (str_strip text)
      end
  | PinAndTotp secrets =>
      provider ← lift (token_provider client_id secrets (5 * minute));
      if connect then cached_dhan_access_token transport files client_id provider now now'
      else token ← in_memory (new_token transport files provider now); mret token.(dt_value)
  end.


(** ** One-time passwords are their digits *)

Lemma zfill_digits n v : 0 <= v < 10 ^ Z.of_nat n -> 0 < Z.of_nat n ->
  all_chars is_digit (zfill n (str_Z v)) = true /\ str_len (zfill n (str_Z v)) = Z.of_nat n /\ digits_value (zfill n (str_Z v)) = v.
Proof.
  intros Hv Hn. unfold zfill. destruct (str_Z_nonneg v ltac:(lia)) as (Hd & Hval & Hl).
  destruct (zeros_digits (n - String.length (str_Z v))) as (Zd & Zv & Zl).
  assert (Hle : str_len (str_Z v) <= Z.of_nat n).
  { destruct (Z.eq_dec v 0) as [->|]; [change (str_len (str_Z 0)) with 1; lia|]. destruct (str_Z_pos v ltac:(lia)) as (_ & _ & Hb & _).
    assert (Hp : 10 ^ (str_len (str_Z v) - 1) < 10 ^ Z.of_nat n) by lia. apply Z.pow_lt_mono_r_iff in Hp; lia. }
  split; [by rewrite all_chars_app, Zd, Hd|]. split.
  - rewrite str_len_app, Zl. unfold str_len in *. lia.
  - by rewrite digits_value_app, Zv, Hval.
Qed.

(** A one-time password is its number of decimal digits. *)
Lemma totp_digits secret at_ digits period password : generate_totp secret at_ digits period = Ok password ->
  all_chars is_digit password = true /\ str_len password = digits.
Proof.
  unfold generate_totp, raise_if. destruct ((digits <? 6) || (period <? 1)) eqn:Eg; [done|]. cbn [mbind result_bind].
  destruct (str_empty _); [done|]. cbn [mbind result_bind]. destruct (b32decode _) as [key|]; [|done].
  destruct (utc at_ "at") as [t|e]; [|done]. cbn [mbind result_bind]. destruct (int_of_float _) as [seconds|e]; [|done]. cbn [mbind result_bind].
  destruct (negb _); [done|]. cbn [mbind result_bind mret result_ret]. intros [= <-].
  set (value := Z.land _ _). destruct (zfill_digits (Z.to_nat digits) (value mod 10 ^ digits)) as (H1 & H2 & _); [|lia|split; [done|]; lia].
  rewrite Z2Nat.id by lia. apply Z.mod_pos_bound, Z.pow_pos_nonneg; lia.
Qed.

(** ** One token for all processes *)

Lemma still_valid_earlier now now' margin expires : instant now <= instant now' -> still_valid now' margin expires = true ->
  still_valid now margin expires = true.
Proof. unfold still_valid. lia. Qed.

Section SharedTheory.
Context {W : Type} (client_id : string).
Implicit Types (s : Db (list TokenRow) W) (transport : HttpRequest -> M W json) (files : string -> option string) (provider : DhanTokenProvider).

Lemma probe_effect now s r s' : probe client_id now s = (r, s') ->
  s'.(db_tables) = s.(db_tables) /\ s'.(db_local) = s.(db_local) /\
  forall found, r = Ok found -> found = if fresh_token (read_cached_token client_id s.(db_tables)) now then fst <$> read_cached_token client_id s.(db_tables) else None.
Proof.
  unfold probe, mbind, M_bind. destruct (reading _ s) as [[c|e] s1] eqn:E; apply reading_query in E as (Ht & Hl & Hr).
  - specialize (Hr c eq_refl). injection Hr as <-. intros [= <- <-]. do 2 (split; [done|]). by intros ? [= <-].
  - by intros [= <- <-].
Qed.

(** The token a client's row holds is written by a replacement. *)
Lemma replace_stores transport files provider now s token s' : replace transport files client_id provider now s = (Ok token, s') ->
  exists expires, read_cached_token client_id s'.(db_tables) = Some (token, expires).
Proof.
  unfold replace, mbind, M_bind. destruct (in_memory _ s) as [[t|e] s1]; [|done].
  destruct (execute_sql _ s1) as [[[]|e] s2] eqn:E2; [|done]. apply execute_sql_effect in E2 as [_ E2]. injection E2 as E2.
  destruct (db_call_effect s2) as (r & fs & ->). destruct r as [[]|e]; [|done]. intros [= <- <-]. cbn [db_tables]. rewrite <- E2.
  exists (timestamptz t.(dt_expires_at)). unfold read_cached_token. rewrite find_upsert; [by destruct (List.find _ _)| |];
    intros; unfold of_client; by apply (proj2 (py_eq_true _ _)).
Qed.

Lemma renew_stores transport files provider now s token s' : renew transport files client_id provider now s = (Ok token, s') ->
  exists expires, read_cached_token client_id s'.(db_tables) = Some (token, expires).
Proof.
  unfold renew, mbind, M_bind. destruct (db_call_effect s) as (r & fs & ->). destruct r as [[]|e]; [|done].
  destruct (execute_sql _ _) as [[c|e] s2] eqn:E2; [|done]. apply execute_sql_effect in E2 as [_ E2]. injection E2 as E2 E3. cbn [db_tables] in *.
  destruct c as [[t expires]|]; [|apply replace_stores]. destruct (fresh_token _ _); [|apply replace_stores].
  intros [= <- <-]. exists expires. by rewrite <- E3.
Qed.

Lemma locked_section_stores transport files provider now s token s' : locked_section transport files client_id provider now s = (Ok token, s') ->
  exists expires, read_cached_token client_id s'.(db_tables) = Some (token, expires).
Proof.
  unfold locked_section. destruct (db_call_effect s) as (r & fs & ->). destruct r as [[]|e]; [|done].
  destruct (renew _ _ _ _ _ _) as [[t|e] s1] eqn:E.
  - destruct (db_call_effect s1) as (r & fs1 & ->). destruct r as [[]|e]; [|done]. intros [= <- <-]. by eapply (renew_stores _ _ _ _ _ _ s1).
  - destruct (db_call _) as [[[]|e'] s3]; done.
Qed.

(** A returned token is the stored one. *)
Lemma cached_token_stored transport files provider now now' s token s' :
  cached_dhan_access_token transport files client_id provider now now' s = (Ok token, s') ->
  exists expires, read_cached_token client_id s'.(db_tables) = Some (token, expires).
Proof.
  unfold cached_dhan_access_token, mbind, M_bind. destruct (probe client_id now s) as [[found|e] s1] eqn:E; [|done].
  apply probe_effect in E as (Ht & _ & Hf). specialize (Hf found eq_refl). destruct found as [t|]; [|apply locked_section_stores].
  intros [= <- <-]. rewrite Ht. destruct (fresh_token _ _); [|done]. destruct (read_cached_token client_id (db_tables s)) as [[t' expires]|]; [|done].
  injection Hf as <-. by exists expires.
Qed.

(** While it is valid a call reads it and does nothing else. *)
Lemma cached_token_read transport files provider now now' s token expires r s' :
  read_cached_token client_id s.(db_tables) = Some (token, expires) -> still_valid now (5 * minute) expires = true ->
  cached_dhan_access_token transport files client_id provider now now' s = (r, s') ->
  s'.(db_tables) = s.(db_tables) /\ s'.(db_local) = s.(db_local) /\ (r = Ok token \/ is_ok r = false) /\
  (s.(db_faults) = [] -> r = Ok token /\ s'.(db_faults) = []).
Proof.
  intros Hc Hv. unfold cached_dhan_access_token, mbind, M_bind. destruct (probe client_id now s) as [p s1] eqn:E.
  assert (Hfine : s.(db_faults) = [] -> is_ok p = true /\ s1.(db_faults) = []).
  { intros Hf. revert E. unfold probe, mbind, M_bind. rewrite reading_fine by done. by intros [= <- <-]. }
  apply probe_effect in E as (Ht & Hl & Hf). rewrite Hc in Hf. cbn [fresh_token] in Hf. rewrite Hv in Hf.
  destruct p as [found|e]; [rewrite (Hf _ eq_refl); cbn|]; intros [= <- <-]; (do 2 (split; [done|])); split; auto; intros H; apply Hfine in H as [? ?]; done.
Qed.

(** Calls of any processes, each with its own provider object. *)
Record TokenCall := {
  tc_transport : HttpRequest -> M W json; tc_files : string -> option string; tc_provider : DhanTokenProvider;
  tc_probed_at : datetime; tc_locked_at : datetime }.
Definition token_call (c : TokenCall) : M (Db (list TokenRow) W) string :=
  cached_dhan_access_token c.(tc_transport) c.(tc_files) client_id c.(tc_provider) c.(tc_probed_at) c.(tc_locked_at).
Fixpoint token_calls (calls : list TokenCall) (s : Db (list TokenRow) W) : list (result string) * Db (list TokenRow) W :=
  match calls with
  | [] => ([], s)
  | c :: calls => let '(r, s) := token_call c s in let '(rs, s) := token_calls calls s in (r :: rs, s)
  end.

Lemma token_calls_read calls token expires : Forall (fun c => still_valid c.(tc_probed_at) (5 * minute) expires = true) calls -> forall s answers s',
  read_cached_token client_id s.(db_tables) = Some (token, expires) -> token_calls calls s = (answers, s') ->
  s'.(db_tables) = s.(db_tables) /\ s'.(db_local) = s.(db_local) /\ Forall (fun r => r = Ok token \/ is_ok r = false) answers /\
  (s.(db_faults) = [] -> Forall (fun r => r = Ok token) answers).
Proof.
  induction 1 as [|c calls Hv _ IH]; intros s answers s' Hc; simpl; [intros [= <- <-]; auto|].
  destruct (token_call c s) as [r s1] eqn:E1. destruct (token_calls calls s1) as [rs s2] eqn:E2. intros [= <- <-].
  eapply cached_token_read in E1 as (Ht & Hl & Hr & Hfine); [|done..].
  eapply IH in E2 as (Ht2 & Hl2 & Hr2 & Hfine2); [|by rewrite Ht].
  rewrite Ht2, Hl2. do 2 (split; [done|]). split; [by constructor|]. intros [-> Hf]%Hfine. constructor; auto.
Qed.

(** C31. One token serves every process: once a call has returned a token, the
    calls of any processes, with their own provider objects, in any order and
    as long as the stored expiry is more than five minutes away, make no
    request to the provider, leave the table as it is, and answer with that
    token or with the database's error; with no database error, with that
    token. *)
Theorem token_shared transport files provider now now' s token s1 :
  cached_dhan_access_token transport files client_id provider now now' s = (Ok token, s1) ->
  exists expires, read_cached_token client_id s1.(db_tables) = Some (token, expires) /\
    forall calls answers s', Forall (fun c => still_valid c.(tc_probed_at) (5 * minute) expires = true) calls ->
      token_calls calls s1 = (answers, s') ->
      s'.(db_tables) = s1.(db_tables) /\ s'.(db_local) = s1.(db_local) /\ Forall (fun r => r = Ok token \/ is_ok r = false) answers /\
      (s1.(db_faults) = [] -> Forall (fun r => r = Ok token) answers).
Proof. intros (expires & H)%cached_token_stored. exists expires. split; [done|]. intros. by eapply token_calls_read. Qed.

(** The object of one process keeps its token too. *)
Theorem provider_token_cached transport files provider now now' (s : TokenWorld W) token (s1 : TokenWorld W) :
  provider_token transport files provider now s = (Ok token, s1) -> is_ok (utc now' "now") = true ->
  still_valid now' provider.(tp_refresh_margin) token.(dt_expires_at) = true -> provider_token transport files provider now' s1 = (Ok token, s1).
Proof.
  intros H Hu Hv. assert (Hc : s1.(tw_cached) = Some token).
  { unfold provider_token in H. apply M_bind_ok in H as (n & s2 & [_ ->]%lift_ok & H). apply M_bind_ok in H as (s3 & s4 & [= <- <-] & H).
    assert (Hfetch : fetch_token transport files provider n s = (Ok token, s1) -> s1.(tw_cached) = Some token).
    { intros H'. unfold fetch_token in H'. do 4 apply M_bind_ok in H' as (? & ? & _ & H'). apply M_bind_ok in H' as ([] & s5 & [= <-] & [= <- <-]). done. }
    destruct (tw_cached s) as [c|] eqn:Ec; [|auto]. destruct (still_valid n _ _); [|auto]. injection H as <- <-. done. }
  unfold provider_token, mbind, M_bind, lift. destruct (utc now' "now") as [n|e] eqn:E; [|done]. cbn [get_state]. simpl. rewrite Hc.
  assert (Hn : instant n = instant now') by (apply utc_ok in E as [_ ->]; unfold instant; simpl; lia).
  unfold still_valid in *. by rewrite Hn, Hv.
Qed.
End SharedTheory.
Arguments TokenCall W : clear implicits.

Module DhanAuthExample.
Import Sha1.

(** The test vectors of RFC 6238, SHA-1. *)
Definition rfc_secret : string := "GEZDGNBVGY3TQOJQGEZDGNBVGY3TQOJQ".
Example rfc_6238_vectors :
  (fun t => generate_totp rfc_secret (at_utc (t * second)) 8 30) <$> [59; 1111111109] = [Ok "94287082"; Ok "07081804"].
Proof. vm_compute. reflexivity. Qed.

Definition secrets : string -> option string := fun path => if path ==p "pin" then Some "123456" else if path ==p "totp" then Some rfc_secret else None.
Definition provider : DhanTokenProvider := {|
  tp_client_id := "1000"; tp_secrets := {| df_pin_path := "pin"; df_totp_secret_path := "totp" |}; tp_refresh_margin := 5 * minute |}.
(** The endpoint counts its requests and gives each a token of its own, valid to 05:30 IST, midnight UTC, the next day. *)
Definition endpoint : HttpRequest -> M Z json := fun _ n =>
  (Ok (JObj [("accessToken", JStr ("token-" +:+ str_Z n)); ("expiryTime", JStr "1970-01-02T05:30:00")]), n + 1).
Definition started : Db (list TokenRow) Z := MkDb [] 0 [].
Definition first_start := Eval vm_compute in
  cached_dhan_access_token endpoint secrets "1000" provider (at_utc (59 * second)) (at_utc (60 * second)) started.
Definition later (t : Z) : TokenCall Z := {|
  tc_transport := endpoint; tc_files := secrets; tc_provider := provider; tc_probed_at := at_utc t; tc_locked_at := at_utc (t + second) |}.
Lemma first_start_eq :
  cached_dhan_access_token endpoint secrets "1000" provider (at_utc (59 * second)) (at_utc (60 * second)) started = (Ok "token-0", first_start.2).
Proof. vm_compute. reflexivity. Qed.

Lemma token_shared_witness : first_start.2.(db_local) = 1 /\
  exists expires, expires = at_utc (24 * hour) /\ let '(answers, s') := token_calls "1000" [later (61 * second); later (60 * second); later (23 * hour)] first_start.2 in
    s'.(db_local) = 1 /\ Forall (fun r => r = Ok "token-0") answers.
Proof.
  split; [reflexivity|]. exists (at_utc (24 * hour)). split; [reflexivity|]. destruct (token_calls _ _ _) as [answers s'] eqn:E.
  destruct (token_shared "1000" endpoint secrets provider _ _ started _ _ first_start_eq) as (expires & He & H).
  assert (expires = at_utc (24 * hour)) as -> by (vm_compute in He; injection He as <-; reflexivity).
  edestruct H as (_ & Hl & _ & Hr); [|exact E|]; [repeat constructor|]. split; [exact Hl|]. apply Hr. reflexivity.
Defined.
End DhanAuthExample.
