(* ===== verification/Universe.v ===== *)
(** * The NSE universe (src/nanodelta/universe/nse.py, runtime/universe.py)

    The symbols of the configured CSV file, their security ids in the
    provider's instrument master, the history jobs they give, and the
    publication of the configured instruments in the database.

    The theorems: the loaded symbols are exactly those of the enabled rows,
    unique and with supported timeframes; a resolved symbol has one security
    id among the equity rows that name it, and every requested symbol is
    resolved; publishing replaces one market's enabled instruments and touches
    no other market. *)

From Stdlib Require Import ZArith Lia Ascii String ZifyBool.
From stdpp Require Import prelude strings numbers list sorting.
From S2P Require Import Prelude PyData PyText PyDigits PyParse PyJson PyTime PyCsv Sql Db Contracts Adapters Etl Timeframes History Providers Dhan DhanAuth.

Local Open Scope Z_scope.

(** ** Symbols *)

Record NseSymbolSpec := {
  ns_symbol : string;
  ns_security_id : option string;
  ns_exchange_segment : string;
  ns_instrument : string;
  ns_timeframes : list string;
  ns_trade_horizon : string }.
Record DhanInstrument := {
  di_symbol : string;
  di_security_id : string;
  di_exchange_segment : string;
  di_instrument : string }.
#[export] Instance DhanInstrument_eq_dec : EqDecision DhanInstrument.
Proof. solve_decision. Defined.

(** [s.removesuffix(suffix)] *)
Definition str_removesuffix (suffix s : string) : string :=
  let n := (String.length s - String.length suffix)%nat in
  if Nat.leb (String.length suffix) (String.length s) && String.eqb (String.substring n (String.length suffix) s) suffix
  then String.substring 0 n s else s.
(** [DhanInstrumentMaster._symbol] *)
Definition master_symbol (value : string) : string := str_removesuffix "-EQ" (str_upper (str_strip value)).

(** ** [load_nse_symbols] *)

(** [{str(name).strip().lower(): (value or "").strip() for name, value in raw.items()}] *)
Definition cell_text (c : csv_cell) : result string :=
  match c with
  | Text s => Ok (str_strip s)
  | Missing => Ok ""
  | Rest _ => Err (OtherException "AttributeError" "'list' object has no attribute 'strip'")
  end.
Fixpoint clean_entries (d : dict string string) (l : list (option string * csv_cell)) : result (dict string string) :=
  match l with
  | [] => mret d
  | (name, value) :: l =>
      v ← cell_text value;
      clean_entries (<[str_lower (str_strip (str_opt name)) := v]> d) l
  end.
Definition clean_row (raw : csv_row) : result (dict string string) := clean_entries ∅ (entries raw).

Definition or_default (value : option string) (d : string) : string :=
  match value with Some s => if str_empty s then d else s | None => d end.

Definition row_timeframes (row : dict string string) : list string :=
  (fun v => str_lower (str_strip v)) <$>
    List.filter (fun v => negb (str_empty (str_strip v)))
      (split_on "|" (str_replace ";" "|" (default "5m|15m|1h|1d" (row !! "timeframes")))).
Definition row_enabled (row : dict string string) : string := str_lower (default "true" (row !! "enabled")).
Definition row_symbol (row : dict string string) : string := str_removesuffix "-EQ" (str_upper (default "" (row !! "symbol"))).
Definition row_spec (row : dict string string) : NseSymbolSpec := {|
  ns_symbol := row_symbol row;
  ns_security_id := match row !! "security_id" with Some s => if str_empty s then None else Some s | None => None end;
  ns_exchange_segment := or_default (row !! "exchange_segment") "NSE_EQ";
  ns_instrument := or_default (row !! "instrument") "EQUITY";
  ns_timeframes := row_timeframes row;
  ns_trade_horizon := or_default (row !! "trade_horizon") "intraday" |}.

(** [repr(sorted(set))] *)
Definition repr_sorted (l : list string) : string := "[" +:+ str_join ", " (repr_str <$> py_sorted str_ltb (remove_dups l)) +:+ "]".
Definition unsupported (timeframes : list string) : list string :=
  List.filter (fun t => negb (bool_decide (t ∈ SUPPORTED_HISTORY_TIMEFRAMES))) timeframes.

(** The checks of one enabled row. *)
Definition check_row (line : Z) (seen : list string) (row : dict string string) : result NseSymbolSpec :=
  let symbol := row_symbol row in
  _ ← raise_if (str_empty symbol) (ValueError ("empty symbol on symbols.csv line " +:+ str_Z line));
  _ ← raise_if (bool_decide (symbol ∈ seen)) (ValueError ("duplicate NSE symbol in symbols.csv: " +:+ symbol));
  let timeframes := row_timeframes row in
  _ ← raise_if (match timeframes with [] => true | _ => false end) (ValueError ("no timeframes configured for " +:+ symbol));
  _ ← raise_if (match unsupported timeframes with [] => false | _ => true end)
        (ValueError ("Dhan direct history does not support " +:+ repr_sorted (unsupported timeframes) +:+ " for " +:+ symbol));
  mret (row_spec row).

Definition disabled_words : list string := ["false"; "0"; "no"; "n"].
Definition enabled_words : list string := ["true"; "1"; "yes"; "y"; ""].
Fixpoint load_rows (line : Z) (seen : list string) (rows : list csv_row) : result (list NseSymbolSpec) :=
  match rows with
  | [] => mret []
  | raw :: rows =>
      row ← clean_row raw;
      let enabled := row_enabled row in
      if bool_decide (enabled ∈ disabled_words) then load_rows (line + 1) seen rows
      else
        _ ← raise_if (negb (bool_decide (enabled ∈ enabled_words))) (ValueError ("invalid enabled value on symbols.csv line " +:+ str_Z line));
        spec ← check_row line seen row;
        rest ← load_rows (line + 1) (row_symbol row :: seen) rows;
        mret (spec :: rest)
  end.

(** The text of the file, [None] when it does not exist. *)
Definition load_nse_symbols (path : string) (text : option string) : result (list NseSymbolSpec) :=
  match text with
  | None => Err (OtherException "FileNotFoundError" ("NSE symbols CSV does not exist: " +:+ path))
  | Some text =>
      header ← dict_header (universal_lines text "");
      match header with
      | None => Err (ValueError "symbols.csv requires a symbol column")
      | Some (names, lines) =>
          _ ← raise_if (negb (bool_decide ("symbol" ∈ ((fun n => str_lower (str_strip n)) <$> names)))) (ValueError "symbols.csv requires a symbol column");
          rows ← dict_rows names lines;
          specs ← load_rows 2 [] rows;
          _ ← raise_if (match specs with [] => true | _ => false end) (ValueError "symbols.csv contains no enabled NSE symbols");
          mret specs
      end
  end.

(** ** DhanInstrumentMaster *)

(** [_value] *)
Fixpoint first_value (row : csv_row) (names : list string) : string :=
  match names with
  | [] => ""
  | name :: names =>
      match row !! Some name with
      | Some (Text s) => if str_empty (str_strip s) then first_value row names else str_strip s
      | _ => first_value row names
      end
  end.

Fixpoint contains (needle s : string) : bool :=
  String.prefix needle s || match s with EmptyString => false | String _ s => contains needle s end.
(** [_is_nse_equity] *)
Definition is_nse_equity (row : csv_row) : bool :=
  let exchange := str_upper (first_value row ["EXCH_ID"; "SEM_EXM_EXCH_ID"]) in
  let segment := str_upper (first_value row ["SEGMENT"; "SEM_SEGMENT"]) in
  let instrument := str_upper (first_value row ["INSTRUMENT"; "SEM_INSTRUMENT_NAME"; "INSTRUMENT_TYPE"; "SEM_EXCH_INSTRUMENT_TYPE"]) in
  (exchange ==p "NSE") && bool_decide (segment ∈ ["E"; "EQ"; "NSE_EQ"]) && (str_empty instrument || contains "EQUITY" instrument).

Definition row_security_id (row : csv_row) : string := first_value row ["SECURITY_ID"; "SEM_SMST_SECURITY_ID"].
Definition row_aliases (row : csv_row) : list string :=
  master_symbol <$> List.filter (fun v => negb (str_empty v))
    [first_value row ["SYMBOL_NAME"; "SM_SYMBOL_NAME"]; first_value row ["TRADING_SYMBOL"; "SEM_TRADING_SYMBOL"];
     first_value row ["DISPLAY_NAME"; "SEM_CUSTOM_SYMBOL"]; first_value row ["UNDERLYING_SYMBOL"]].

(** A row that can answer, and the requested aliases it answers. *)
Definition answers (row : csv_row) : bool := is_nse_equity row && negb (str_empty (row_security_id row)).
Definition add_match (requested : dict string string) (row : csv_row) (matches : dict string (list DhanInstrument)) (alias : string)
  : dict string (list DhanInstrument) :=
  match requested !! alias with
  | None => matches
  | Some original =>
      let item := {| di_symbol := master_symbol original; di_security_id := row_security_id row; di_exchange_segment := "NSE_EQ"; di_instrument := "EQUITY" |} in
      <[alias := default [] (matches !! alias) ++ [item]]> matches
  end.
Definition match_row (requested : dict string string) (matches : dict string (list DhanInstrument)) (row : csv_row) : dict string (list DhanInstrument) :=
  if answers row then foldl (add_match requested row) matches (List.filter (fun k => bool_decide (k ∈ row_aliases row)) (dict_keys requested))
  else matches.

(** [unique = {item.security_id: item for item in matches[normalized]}] *)
Definition by_security_id (items : list DhanInstrument) : dict string DhanInstrument :=
  foldl (fun d item => <[item.(di_security_id) := item]> d) ∅ items.
Definition resolve_one (matches : dict string (list DhanInstrument)) (resolved : dict string DhanInstrument) (p : string * string)
  : result (dict string DhanInstrument) :=
  let '(normalized, original) := p in
  match dict_values (by_security_id (default [] (matches !! normalized))) with
  | [] => Err (LookupError ("NSE symbol not found in Dhan instrument master: " +:+ original))
  | [item] => Ok (<[master_symbol original := item]> resolved)
  | _ => Err (ValueError ("NSE symbol is ambiguous in Dhan instrument master: " +:+ original))
  end.
Fixpoint resolve_all (matches : dict string (list DhanInstrument)) (resolved : dict string DhanInstrument) (l : list (string * string))
  : result (dict string DhanInstrument) :=
  match l with [] => mret resolved | p :: l => resolved ← resolve_one matches resolved p; resolve_all matches resolved l end.

Definition requested_of (symbols : list string) : dict string string := foldl (fun d s => <[master_symbol s := s]> d) ∅ symbols.
(** [resolve] of the downloaded text *)
Definition master_rows (text : string) : result (list csv_row) :=
  header ← dict_header (stringio_lines text "");
  match header with
  | None => Err (ValueError "Dhan instrument master has no header")
  | Some (names, lines) => dict_rows names lines
  end.
Definition resolve (symbols : list string) (text : string) : result (dict string DhanInstrument) :=
  let requested := requested_of symbols in
  rows ← master_rows text;
  let matches := foldl (match_row requested) (Dict ((fun k => (k, [])) <$> dict_keys requested)) rows in
  resolve_all matches ∅ (entries requested).

(** ** DhanNseUniverseBuilder *)

(** [DhanTokenSource]: what the builder asks of a provider of tokens. *)
Record DhanTokenSource (W : Type) := { ts_client_id : string; ts_token : datetime -> M W DhanAccessToken }.
Arguments ts_client_id {W}.
Arguments ts_token {W}.
Definition generated_tokens {W} (transport : HttpRequest -> M W json) (files : string -> option string) (p : DhanTokenProvider) : DhanTokenSource (TokenWorld W) :=
  {| ts_client_id := p.(tp_client_id); ts_token := provider_token transport files p |}.
Definition static_tokens {W} (p : StaticDhanTokenProvider) : DhanTokenSource W :=
  {| ts_client_id := p.(st_client_id); ts_token := fun now => lift (static_token p now) |}.

(** [from_environment]: the configured source and the path of the file *)
Definition from_environment (values : dict string string) : result ((StaticDhanTokenProvider + DhanTokenProvider) * string) :=
  let setting name := str_strip (default "" (values !! name)) in
  _ ← raise_if (str_empty (setting "DHAN_CLIENT_ID") || str_empty (setting "NSE_SYMBOLS_CSV")) (ValueError "DHAN_CLIENT_ID and NSE_SYMBOLS_CSV are required");
  tokens ←
    (if negb (str_empty (setting "DHAN_ACCESS_TOKEN")) then
       p ← static_provider (setting "DHAN_CLIENT_ID") (setting "DHAN_ACCESS_TOKEN"); mret (inl p)
     else
       _ ← raise_if (str_empty (setting "DHAN_PIN_PATH") || str_empty (setting "DHAN_TOTP_SECRET_PATH"))
             (ValueError "set DHAN_ACCESS_TOKEN or both DHAN_PIN_PATH and DHAN_TOTP_SECRET_PATH");
       p ← token_provider (setting "DHAN_CLIENT_ID") {| df_pin_path := setting "DHAN_PIN_PATH"; df_totp_secret_path := setting "DHAN_TOTP_SECRET_PATH" |} (5 * minute);
       mret (inr p));
  mret (tokens, setting "NSE_SYMBOLS_CSV").

Record DhanUniverse := { du_instruments : list DhanInstrument; du_jobs : list HistoryJob; du_client : DhanClient }.

Definition unresolved_symbols (specs : list NseSymbolSpec) : list string :=
  omap (M := list) (fun spec => match spec.(ns_security_id) with None => Some spec.(ns_symbol) | Some _ => None end) specs.
Definition instrument_of (resolved : dict string DhanInstrument) (spec : NseSymbolSpec) : result DhanInstrument :=
  id ← match spec.(ns_security_id) with
       | Some id => Ok id
       | None => match resolved !! spec.(ns_symbol) with Some item => Ok item.(di_security_id) | None => Err (KeyError spec.(ns_symbol)) end
       end;
  Ok {| di_symbol := spec.(ns_symbol); di_security_id := id; di_exchange_segment := spec.(ns_exchange_segment); di_instrument := spec.(ns_instrument) |}.
Definition ids_of (instruments : list DhanInstrument) : dict string string :=
  foldl (fun d item => <[item.(di_symbol) := item.(di_security_id)]> d) ∅ instruments.
Definition history_job (p : string * string) : HistoryJob := {|
  hj_market := NSE; hj_symbol := p.1; hj_timeframe := p.2; hj_provider_symbols := Dict [(DHAN, p.1)];
  hj_target_days := 730; hj_overlap_bars := 3; hj_request_limit := 1000; hj_window_start := None; hj_window_end := None |}.
Definition new_job (p : string * string) : result HistoryJob := _ ← HistoryJob_post_init (history_job p); Ok (history_job p).
Definition job_keys (specs : list NseSymbolSpec) : list (string * string) :=
  mjoin ((fun spec => (fun t => (spec.(ns_symbol), t)) <$> spec.(ns_timeframes)) <$> specs).

(** [build]; the file is its text, the download an operation of the world *)
Definition build {W} (tokens : DhanTokenSource W) (get_text : M W string) (path : string) (text : option string) (now : datetime) : M W DhanUniverse :=
  now ← lift (utc now "now");
  specs ← lift (load_nse_symbols path text);
  resolved ← match unresolved_symbols specs with
             | [] => mret ∅
             | unresolved => text ← get_text; lift (resolve unresolved text)
             end;
  instruments ← lift (map_result (instrument_of resolved) specs);
  token ← tokens.(ts_token) now;
  client ← lift (dhan_client tokens.(ts_client_id) token.(dt_value) None (ids_of instruments) "NSE_EQ" "EQUITY");
  jobs ← lift (map_result new_job (job_keys specs));
  mret {| du_instruments := instruments; du_jobs := jobs; du_client := client |}.

(** ** Publication of the configured instruments *)

Record ConfiguredInstrument := {
  ci_market : Market; ci_symbol : string; ci_provider : Provider; ci_provider_symbol : string;
  ci_timeframes : list string; ci_trade_horizon : string }.
Definition ConfiguredInstrument_post_init (i : ConfiguredInstrument) : result unit :=
  raise_if (str_empty i.(ci_symbol) || str_empty i.(ci_provider_symbol) || match i.(ci_timeframes) with [] => true | _ => false end || str_empty i.(ci_trade_horizon))
    (ValueError "configured instrument fields cannot be empty").

(** A row of control.market_universe, keyed by market and symbol. *)
Record UniverseRow := {
  mu_market : string; mu_symbol : string; mu_provider : string; mu_provider_symbol : string;
  mu_timeframes : list string; mu_trade_horizon : string; mu_enabled : bool; mu_configured_at : datetime }.
Definition disabled_at (at_ : datetime) (r : UniverseRow) : UniverseRow := {|
  mu_market := r.(mu_market); mu_symbol := r.(mu_symbol); mu_provider := r.(mu_provider); mu_provider_symbol := r.(mu_provider_symbol);
  mu_timeframes := r.(mu_timeframes); mu_trade_horizon := r.(mu_trade_horizon); mu_enabled := false; mu_configured_at := timestamptz at_ |}.
Definition enabled_row (at_ : datetime) (i : ConfiguredInstrument) : UniverseRow := {|
  mu_market := Market_value i.(ci_market); mu_symbol := i.(ci_symbol); mu_provider := Provider_value i.(ci_provider); mu_provider_symbol := i.(ci_provider_symbol);
  mu_timeframes := i.(ci_timeframes); mu_trade_horizon := i.(ci_trade_horizon); mu_enabled := true; mu_configured_at := timestamptz at_ |}.
Definition row_key (r : UniverseRow) : string * string := (r.(mu_market), r.(mu_symbol)).
Definition same_key (new r : UniverseRow) : bool := row_key r ==p row_key new.
Definition in_market (market : Market) (r : UniverseRow) : bool := r.(mu_market) ==p Market_value market.

Section Publication.
Context {L : Type}.
Abbreviation Tables := (Db (list UniverseRow) L).

Fixpoint publish_each (at_ : datetime) (instruments : list ConfiguredInstrument) : M Tables unit :=
  match instruments with
  | [] => mret ()
  | i :: instruments =>
      let row := enabled_row at_ i in
      _ ← execute_sql (modify (upsert (same_key row) row (fun _ => row)));
      publish_each at_ instruments
  end.
Definition publish_configured_universe (market : Market) (instruments : list ConfiguredInstrument) (configured_at : datetime) : M Tables unit :=
  configured_at ← lift (utc configured_at "configured_at");
  _ ← lift (raise_if (existsb (fun i => negb (bool_decide (i.(ci_market) = market))) instruments) (ValueError "configured universe cannot mix markets"));
  _ ← lift (raise_if (negb (bool_decide (NoDup (ci_symbol <$> instruments)))) (ValueError "configured universe symbols must be unique"));
  committed (_ ← execute_sql (modify (update_where (in_market market) (disabled_at configured_at))); publish_each configured_at instruments).
End Publication.

(** ** The loaded symbols *)

Definition spec_valid (spec : NseSymbolSpec) : Prop :=
  spec.(ns_symbol) <> "" /\ spec.(ns_timeframes) <> [] /\ Forall (fun t => t ∈ SUPPORTED_HISTORY_TIMEFRAMES) spec.(ns_timeframes).
Definition not_disabled (row : dict string string) : bool := negb (bool_decide (row_enabled row ∈ disabled_words)).

Lemma filter_nil {A} (f : A -> bool) l : List.filter f l = [] -> Forall (fun x => f x = false) l.
Proof. induction l as [|x l IH]; simpl; [constructor|]. destruct (f x) eqn:E; [done|]. constructor; auto. Qed.
Lemma check_row_ok line seen row spec : check_row line seen row = Ok spec ->
  spec = row_spec row /\ spec_valid spec /\ ~ spec.(ns_symbol) ∈ seen.
Proof.
  unfold check_row. intros ([] & He%raise_if_ok & ([] & Hs%raise_if_ok & ([] & Ht%raise_if_ok & ([] & Hu%raise_if_ok & [= <-])%result_bind_ok)%result_bind_ok)%result_bind_ok)%result_bind_ok.
  split; [done|]. apply bool_decide_eq_false in Hs. split; [|done]. unfold spec_valid. cbn. split; [by intros E; rewrite E in He|].
  split; [by intros E; rewrite E in Ht|]. destruct (unsupported (row_timeframes row)) eqn:E; [|done]. apply filter_nil in E.
  eapply Forall_impl; [exact E|]. intros t H. apply negb_false_iff, bool_decide_eq_true in H. done.
Qed.

Lemma load_rows_ok rows : forall line seen specs, load_rows line seen rows = Ok specs ->
  exists cleaned, map_result clean_row rows = Ok cleaned /\ specs = row_spec <$> List.filter not_disabled cleaned /\
    Forall spec_valid specs /\ NoDup (ns_symbol <$> specs) /\ Forall (fun spec => ~ spec.(ns_symbol) ∈ seen) specs.
Proof.
  induction rows as [|raw rows IH]; intros line seen specs; cbn [load_rows map_result].
  { intros [= <-]. exists []. repeat split; constructor. }
  intros (row & Hrow & H)%result_bind_ok. rewrite Hrow. destruct (bool_decide (row_enabled row ∈ disabled_words)) eqn:Ed.
  { apply IH in H as (cleaned & -> & -> & H). exists (row :: cleaned). simpl. assert (not_disabled row = false) as -> by (unfold not_disabled; by rewrite Ed). auto. }
  apply result_bind_ok in H as ([] & _ & H). apply result_bind_ok in H as (spec & [-> [Hv Hn]]%check_row_ok & H).
  apply result_bind_ok in H as (rest & H & [= <-]). apply IH in H as (cleaned & -> & -> & Hvs & Hnd & Hs). exists (row :: cleaned).
  simpl. assert (not_disabled row = true) as -> by (unfold not_disabled; by rewrite Ed). simpl. split; [done|]. split; [done|]. split; [by constructor|]. split.
  - constructor; [|done]. intros (spec & E & Hin)%list_elem_of_fmap. rewrite Forall_forall in Hs. apply (Hs _ Hin). rewrite <- E. left.
  - constructor; [done|]. eapply Forall_impl; [exact Hs|]. intros spec H Hin. apply H. by right.
Qed.

(** The specifications are those of the rows that are not disabled, in the
    order of the file, with unique symbols and supported timeframes. *)
Theorem loaded_symbols path text specs : load_nse_symbols path (Some text) = Ok specs ->
  specs <> [] /\ Forall spec_valid specs /\ NoDup (ns_symbol <$> specs) /\
  exists names lines rows cleaned, dict_header (universal_lines text "") = Ok (Some (names, lines)) /\ dict_rows names lines = Ok rows /\
    map_result clean_row rows = Ok cleaned /\ specs = row_spec <$> List.filter not_disabled cleaned.
Proof.
  unfold load_nse_symbols. intros ([[names lines]|] & Hh & H)%result_bind_ok; [|done].
  apply result_bind_ok in H as ([] & _ & H). apply result_bind_ok in H as (rows & Hr & H). apply result_bind_ok in H as (specs' & Hs & H).
  apply result_bind_ok in H as ([] & Hn%raise_if_ok & [= ->]). apply load_rows_ok in Hs as (cleaned & Hc & Hs & Hv & Hd & _).
  split; [by intros ->|]. split; [done|]. split; [done|]. by exists names, lines, rows, cleaned.
Qed.

(** ** Resolution *)

(** The item a row contributes under a requested alias, and the rows that do. *)
Definition item_of (requested : dict string string) (alias : string) (row : csv_row) : DhanInstrument := {|
  di_symbol := master_symbol (default "" (requested !! alias)); di_security_id := row_security_id row; di_exchange_segment := "NSE_EQ"; di_instrument := "EQUITY" |}.
Definition names_alias (alias : string) (row : csv_row) : bool := answers row && bool_decide (alias ∈ row_aliases row).

Lemma add_matches requested row ks : NoDup ks -> (forall k, k ∈ ks -> is_Some (requested !! k)) -> forall matches k,
  foldl (add_match requested row) matches ks !! k =
  if bool_decide (k ∈ ks) then Some (default [] (matches !! k) ++ [item_of requested k row]) else matches !! k.
Proof.
  induction 1 as [|a ks Ha _ IH]; intros Hreq matches k; simpl; [done|]. rewrite IH by (intros; apply Hreq; by right).
  destruct (Hreq a ltac:(by left)) as [original Ho].
  assert (Hadd : add_match requested row matches a = <[a := default [] (matches !! a) ++ [item_of requested a row]]> matches)
    by (unfold add_match, item_of; by rewrite Ho).
  rewrite Hadd, dict_lookup_insert. destruct (decide (a = k)) as [->|Hne].
  - rewrite (bool_decide_eq_true_2 (k ∈ k :: ks)) by left. by rewrite bool_decide_eq_false_2.
  - assert (Hiff : k ∈ a :: ks <-> k ∈ ks) by (rewrite elem_of_cons; naive_solver). by rewrite (bool_decide_ext _ _ Hiff).
Qed.

Lemma match_row_lookup requested matches row k : dict_wf requested -> is_Some (requested !! k) ->
  match_row requested matches row !! k = if names_alias k row then Some (default [] (matches !! k) ++ [item_of requested k row]) else matches !! k.
Proof.
  intros Hwf Hk. unfold match_row, names_alias. destruct (answers row); [|done]. simpl.
  assert (Hkeys : forall x, is_Some (requested !! x) <-> x ∈ dict_keys requested).
  { intros x. split; intros H.
    - destruct (decide (x ∈ dict_keys requested)) as [|E]; [done|]. apply dict_lookup_None_keys in E. rewrite E in H. by destruct H.
    - destruct (requested !! x) eqn:E; [done|]. by apply dict_lookup_None_keys in E. }
  assert (Hin : forall x, x ∈ List.filter (fun k => bool_decide (k ∈ row_aliases row)) (dict_keys requested) <-> x ∈ row_aliases row /\ x ∈ dict_keys requested).
  { intros x. rewrite !list_elem_of_In, filter_In, bool_decide_eq_true, list_elem_of_In. tauto. }
  rewrite add_matches.
  - rewrite (bool_decide_ext (k ∈ List.filter _ _) (k ∈ row_aliases row)); [done|]. rewrite Hin, <- Hkeys. tauto.
  - apply NoDup_ListNoDup, List.NoDup_filter, NoDup_ListNoDup, Hwf.
  - intros x [_ Hx]%Hin. by apply Hkeys.
Qed.

Lemma match_rows_lookup requested rows k : dict_wf requested -> is_Some (requested !! k) -> forall matches,
  default [] (foldl (match_row requested) matches rows !! k) = default [] (matches !! k) ++ (item_of requested k <$> List.filter (names_alias k) rows).
Proof.
  intros Hwf Hk. induction rows as [|row rows IH]; intros matches; simpl; [by rewrite app_nil_r|].
  rewrite IH, match_row_lookup by done. destruct (names_alias k row); simpl; [by rewrite <- app_assoc|done].
Qed.

Lemma by_security_id_one items item : dict_values (by_security_id items) = [item] ->
  item ∈ items /\ Forall (fun i => i.(di_security_id) = item.(di_security_id)) items.
Proof.
  unfold by_security_id. intros H.
  assert (Hinv : forall l d, (forall k v, (k, v) ∈ entries (foldl (fun d item => <[item.(di_security_id) := item]> d) d l) ->
      (k, v) ∈ entries d \/ (v ∈ l /\ k = v.(di_security_id)))
    /\ (forall i, i ∈ l -> is_Some (foldl (fun d item => <[item.(di_security_id) := item]> d) d l !! i.(di_security_id)))
    /\ (forall k, is_Some (d !! k) -> is_Some (foldl (fun d item => <[item.(di_security_id) := item]> d) d l !! k))).
  { induction l as [|i l IH]; intros d; simpl; [split; [auto|split; [by intros ? ?%elem_of_nil|done]]|].
    destruct (IH (<[di_security_id i := i]> d)) as (IH1 & IH2 & IH3). split; [|split].
    - intros k v [Hin|[Hin ->]]%IH1; [|right; split; [by right|done]]. apply dict_insert_entries_inv in Hin. destruct Hin as [Hin|[-> ->]]; [by left|right; split; [left|done]].
    - intros j [->|Hj]%elem_of_cons; [|by apply IH2]. apply IH3. rewrite dict_lookup_insert_eq. done.
    - intros k Hk. apply IH3. rewrite dict_lookup_insert. by destruct (decide _). }
  destruct (Hinv items ∅) as (H1 & H2 & _). unfold dict_values in H. destruct (entries _) as [|[k v] [|]] eqn:E; try done. injection H as ->.
  destruct (H1 k item) as [Hin|[Hin Hk]]; [left|by apply elem_of_nil in Hin|]. split; [done|]. apply Forall_forall. intros i [v Hv]%H2.
  apply dict_lookup_elem in Hv. rewrite E in Hv. apply list_elem_of_singleton in Hv. congruence.
Qed.

Lemma requested_of_spec symbols : dict_wf (requested_of symbols) /\
  (forall k v, (k, v) ∈ entries (requested_of symbols) -> k = master_symbol v) /\ (forall s, s ∈ symbols -> is_Some (requested_of symbols !! master_symbol s)).
Proof.
  unfold requested_of. induction symbols as [|s symbols (Hwf & Hk & Hs)] using rev_ind; simpl.
  { split; [apply dict_wf_empty|]. split; [by intros k v ?%elem_of_nil|by intros s ?%elem_of_nil]. }
  rewrite foldl_app. simpl. split; [by apply dict_wf_insert|]. split.
  - intros k v [Hin|[-> ->]]%dict_insert_entries_inv; auto.
  - intros x. rewrite elem_of_app, list_elem_of_singleton, dict_lookup_insert. intros [Hx%Hs| ->]; by destruct (decide _).
Qed.

Lemma resolve_all_ok matches l : NoDup (fst <$> l) -> (forall k v, (k, v) ∈ l -> k = master_symbol v) -> forall resolved0 resolved,
  resolve_all matches resolved0 l = Ok resolved ->
  (forall k, ~ k ∈ (fst <$> l) -> resolved !! k = resolved0 !! k) /\
  forall k v, (k, v) ∈ l -> exists item, resolved !! k = Some item /\ dict_values (by_security_id (default [] (matches !! k))) = [item].
Proof.
  induction l as [|[k v] l IH]; intros Hnd Hk resolved0 resolved; simpl; [intros [= <-]; split; [done|by intros ? ? ?%elem_of_nil]|].
  apply NoDup_cons in Hnd as [Hnin Hnd]. intros (resolved1 & H1 & H)%result_bind_ok. apply IH in H as [Hother Hl]; [|done|intros; apply Hk; by right].
  unfold resolve_one in H1. destruct (dict_values _) as [|item [|]] eqn:E; try done. injection H1 as <-. rewrite <- (Hk k v ltac:(left)) in Hother. split.
  - intros x [Hne Hx]%not_elem_of_cons. rewrite Hother by done. by rewrite dict_lookup_insert_ne.
  - intros x y [[= -> ->]|Hin]%elem_of_cons; [|by eapply Hl]. exists item. rewrite Hother by done. by rewrite dict_lookup_insert_eq.
Qed.

Lemma entries_lookup {V} (d : dict string V) k : is_Some (d !! k) -> exists v, d !! k = Some v /\ (k, v) ∈ entries d.
Proof. intros [v Hv]. exists v. split; [done|]. by apply dict_lookup_elem. Qed.
Lemma empty_matches {A} (keys : list string) k : default [] ((Dict ((fun k => (k, [])) <$> keys) : dict string (list A)) !! k) = [].
Proof. unfold lookup, dict_lookup. simpl. induction keys as [|a keys IH]; simpl; [done|]. by destruct (decide _). Qed.

(** Every requested symbol is resolved to an instrument under its
    normalised name, whose security id is the one of every equity row of the
    instrument master that names the symbol, and there is such a row: a
    symbol that no row names, or that rows with two ids name, is an error. *)
Theorem resolve_exact symbols text resolved : resolve symbols text = Ok resolved ->
  exists rows, master_rows text = Ok rows /\ forall s, s ∈ symbols ->
    exists item, resolved !! master_symbol s = Some item /\ item.(di_symbol) = master_symbol s /\
      (exists row, row ∈ rows /\ names_alias (master_symbol s) row = true) /\
      (forall row, row ∈ rows -> names_alias (master_symbol s) row = true -> row_security_id row = item.(di_security_id)).
Proof.
  unfold resolve. intros (rows & Hrows & H)%result_bind_ok. exists rows. split; [done|]. intros s Hs.
  destruct (requested_of_spec symbols) as (Hwf & Hk & Hreq). specialize (Hreq s Hs). apply resolve_all_ok in H as [_ H]; [|exact Hwf|exact Hk].
  destruct (entries_lookup _ _ Hreq) as (v & Hv & Hin). destruct (H _ _ Hin) as (item & Hitem & Hone). exists item. split; [done|].
  rewrite match_rows_lookup, empty_matches in Hone by done. simpl in Hone. apply by_security_id_one in Hone as [Hmem Hall].
  apply list_elem_of_fmap in Hmem as (row & -> & Hrow). rewrite list_elem_of_In, filter_In, <- list_elem_of_In in Hrow. split; [|split].
  - unfold item_of. simpl. rewrite Hv. simpl. symmetry. by apply Hk.
  - by exists row.
  - intros row' Hr' Hn'. rewrite Forall_forall in Hall. apply (Hall (item_of (requested_of symbols) (master_symbol s) row')), list_elem_of_fmap_2.
    rewrite list_elem_of_In, filter_In, <- list_elem_of_In. done.
Qed.

(** ** The built universe *)

Lemma ids_of_entries instruments k id : (k, id) ∈ entries (ids_of instruments) -> exists i, i ∈ instruments /\ i.(di_symbol) = k /\ i.(di_security_id) = id.
Proof.
  unfold ids_of. induction instruments as [|i l IH] using rev_ind; [by intros ?%elem_of_nil|]. rewrite foldl_app. simpl.
  intros [(j & Hj & H)%IH|[-> ->]]%dict_insert_entries_inv; [exists j|exists i]; rewrite elem_of_app, list_elem_of_singleton; auto.
Qed.
Lemma ids_of_keys instruments i : i ∈ instruments -> is_Some (ids_of instruments !! i.(di_symbol)).
Proof.
  unfold ids_of. induction instruments as [|j l IH] using rev_ind; [by intros ?%elem_of_nil|]. rewrite foldl_app, elem_of_app, list_elem_of_singleton. simpl.
  rewrite dict_lookup_insert. intros [H%IH| ->]; by destruct (decide _).
Qed.
Lemma normalized_ids_entries ids k id : (k, id) ∈ entries (normalized_ids ids) -> exists s v, (s, v) ∈ entries ids /\ k = str_upper (str_strip s) /\ id = str_strip v.
Proof.
  unfold normalized_ids. induction (entries ids) as [|[s v] l IH] using rev_ind; [by intros ?%elem_of_nil|]. rewrite foldl_app. simpl.
  intros [(s' & v' & H & E)%IH|[-> ->]]%dict_insert_entries_inv; [exists s', v'|exists s, v]; rewrite elem_of_app, list_elem_of_singleton; auto.
Qed.
Lemma normalized_ids_keys ids s v : (s, v) ∈ entries ids -> is_Some (normalized_ids ids !! str_upper (str_strip s)).
Proof.
  unfold normalized_ids. induction (entries ids) as [|[s' v'] l IH] using rev_ind; [by intros ?%elem_of_nil|]. rewrite foldl_app, elem_of_app, list_elem_of_singleton. simpl.
  rewrite dict_lookup_insert. intros [H%IH|[= -> ->]]; by destruct (decide _).
Qed.
Lemma instrument_of_ok resolved spec i : instrument_of resolved spec = Ok i -> i.(di_symbol) = spec.(ns_symbol).
Proof. unfold instrument_of. by intros (id & _ & [= <-])%result_bind_ok. Qed.
Lemma new_job_ok p job : new_job p = Ok job -> job = history_job p.
Proof. unfold new_job. by intros ([] & _ & [= <-])%result_bind_ok. Qed.
Lemma job_keys_elem specs s t : (s, t) ∈ job_keys specs <-> exists spec, spec ∈ specs /\ s = spec.(ns_symbol) /\ t ∈ spec.(ns_timeframes).
Proof.
  unfold job_keys. rewrite list_elem_of_join. split.
  - intros (l & Hin & (spec & -> & Hs)%list_elem_of_fmap). apply list_elem_of_fmap in Hin as (t' & [= -> ->] & Ht). eauto.
  - intros (spec & Hs & -> & Ht). exists ((fun t => (spec.(ns_symbol), t)) <$> spec.(ns_timeframes)). split; [by apply list_elem_of_fmap_2|].
    by apply (list_elem_of_fmap_2 (fun spec => (fun t => (spec.(ns_symbol), t)) <$> spec.(ns_timeframes))).
Qed.

(** A built universe has one instrument per loaded symbol, one job per symbol
    and timeframe, and a client that knows a security id for every job, the
    one of an instrument of that (normalised) symbol. *)
Theorem built_universe {W} (tokens : DhanTokenSource W) get_text path text now w u w' :
  build tokens get_text path text now w = (Ok u, w') ->
  exists specs, load_nse_symbols path text = Ok specs /\ di_symbol <$> u.(du_instruments) = ns_symbol <$> specs /\
    u.(du_jobs) = history_job <$> job_keys specs /\
    forall job, job ∈ u.(du_jobs) -> exists i, i ∈ u.(du_instruments) /\
      str_upper (str_strip i.(di_symbol)) = str_upper (str_strip job.(hj_symbol)) /\
      security_id_of u.(du_client) job.(hj_symbol) = Ok (str_strip i.(di_security_id)).
Proof.
  unfold build. intros H. apply M_bind_ok in H as (n & w1 & [_ ->]%lift_ok & H). apply M_bind_ok in H as (specs & w2 & [Hspecs ->]%lift_ok & H).
  apply M_bind_ok in H as (resolved & w3 & _ & H). apply M_bind_ok in H as (instruments & w4 & [Hi ->]%lift_ok & H).
  apply M_bind_ok in H as (token & w5 & _ & H). apply M_bind_ok in H as (client & w6 & [Hc ->]%lift_ok & H).
  apply M_bind_ok in H as (jobs & w7 & [Hj ->]%lift_ok & [= <- <-]). exists specs. cbn [du_instruments du_jobs du_client].
  assert (Hsym : di_symbol <$> instruments = ns_symbol <$> specs).
  { apply map_result_ok in Hi. clear -Hi. induction Hi as [|spec i l l' H _ IH]; [done|]. rewrite !fmap_cons, IH. by rewrite (instrument_of_ok _ _ _ H). }
  assert (Hjobs : jobs = history_job <$> job_keys specs).
  { apply map_result_ok in Hj. clear -Hj. induction Hj as [|p job l l' H _ IH]; [done|]. by rewrite fmap_cons, <- IH, (new_job_ok _ _ H). }
  do 3 (split; [done|]). intros job Hjob. rewrite Hjobs in Hjob. apply list_elem_of_fmap in Hjob as ([s t] & -> & (spec & Hspec & -> & _)%job_keys_elem).
  cbn [hj_symbol history_job fst]. assert (Hin : spec.(ns_symbol) ∈ (di_symbol <$> instruments)) by (rewrite Hsym; by apply list_elem_of_fmap_2).
  apply list_elem_of_fmap in Hin as (i & -> & Hin). apply ids_of_keys in Hin as (v & _ & Hv)%entries_lookup. apply normalized_ids_keys in Hv as (id & Hid & He)%entries_lookup.
  apply normalized_ids_entries in He as (s' & v' & (j & Hj' & <- & <-)%ids_of_entries & Hs & ->). exists j. split; [done|]. split; [by symmetry|].
  unfold dhan_client in Hc. apply result_bind_ok in Hc as ([] & _ & Hc). apply result_bind_ok in Hc as ([] & _ & [= <-]). unfold security_id_of. simpl. by rewrite Hid.
Qed.

(** ** What a publication leaves *)

Lemma filter_update_where {A} (q p : A -> bool) f rows : (forall r, p r = true -> q r = false /\ q (f r) = false) ->
  List.filter q (update_where p f rows) = List.filter q rows.
Proof.
  intros H. induction rows as [|r l IH]; [done|]. change (update_where p f (r :: l)) with ((if p r then f r else r) :: update_where p f l).
  cbn [List.filter]. rewrite IH. destruct (p r) eqn:E; [|done]. by destruct (H r E) as [-> ->].
Qed.

Section Upsert.
Context {A : Type} (same : A -> bool) (new : A) (rows : list A).

Lemma upsert_elem r : r ∈ upsert same new (fun _ => new) rows <-> r = new \/ (r ∈ rows /\ same r = false).
Proof.
  unfold upsert, update_where. destruct (existsb same rows) eqn:E.
  - rewrite list_elem_of_fmap. split.
    + intros (x & -> & Hx). destruct (same x) eqn:Es; auto.
    + intros [->|[Hr Hs]]; [|exists r; by rewrite Hs]. apply existsb_exists in E as (x & Hx%list_elem_of_In & Hs). exists x. by rewrite Hs.
  - rewrite elem_of_app, list_elem_of_singleton. split; [intros [Hr|]; [|auto]|tauto]. right. split; [done|].
    destruct (same r) eqn:Es; [|done]. assert (existsb same rows = true) as Hx; [|by rewrite Hx in E]. apply existsb_exists. exists r. by rewrite <- list_elem_of_In.
Qed.
Lemma upsert_filter_other (q : A -> bool) : q new = false -> (forall r, same r = true -> q r = false) ->
  List.filter q (upsert same new (fun _ => new) rows) = List.filter q rows.
Proof.
  intros Hn Hs. unfold upsert. destruct (existsb same rows); [|rewrite List.filter_app; simpl; by rewrite Hn, app_nil_r].
  apply filter_update_where. auto.
Qed.
Lemma upsert_keys {K} (key : A -> K) : (forall r, same r = true <-> key r = key new) -> NoDup (key <$> rows) ->
  NoDup (key <$> upsert same new (fun _ => new) rows).
Proof.
  intros Hk Hnd. unfold upsert. destruct (existsb same rows) eqn:E.
  - replace (key <$> update_where same (fun _ => new) rows) with (key <$> rows); [done|]. unfold update_where. rewrite <- list_fmap_compose.
    apply list_fmap_ext. intros i r _. simpl. destruct (same r) eqn:Es; [by apply Hk|done].
  - rewrite fmap_app. apply NoDup_app. split; [done|]. split; [|apply NoDup_singleton]. intros k (r & -> & Hr)%list_elem_of_fmap. simpl.
    rewrite list_elem_of_singleton. intros Es%Hk. assert (existsb same rows = true) as Hx; [|by rewrite Hx in E]. apply existsb_exists. exists r. by rewrite <- list_elem_of_In.
Qed.
End Upsert.

(** The rows of the table after a publication. *)
Definition published (market : Market) (instruments : list ConfiguredInstrument) (at_ : datetime) (rows : list UniverseRow) : list UniverseRow :=
  foldl (fun rows i => upsert (same_key (enabled_row at_ i)) (enabled_row at_ i) (fun _ => enabled_row at_ i) rows)
    (update_where (in_market market) (disabled_at at_) rows) instruments.

Lemma same_key_iff new r : same_key new r = true <-> row_key r = row_key new.
Proof. unfold same_key. by rewrite py_eq_true. Qed.
Lemma in_market_iff market r : in_market market r = true <-> r.(mu_market) = Market_value market.
Proof. unfold in_market. by rewrite py_eq_true. Qed.

Lemma publish_each_ok {L} at_ instruments : forall (s : Db (list UniverseRow) L) s', publish_each at_ instruments s = (Ok (), s') ->
  s'.(db_tables) = foldl (fun rows i => upsert (same_key (enabled_row at_ i)) (enabled_row at_ i) (fun _ => enabled_row at_ i) rows) s.(db_tables) instruments.
Proof.
  induction instruments as [|i l IH]; intros s s'; simpl; [by intros [= <-]|].
  intros ([] & s1 & [_ [= E]]%execute_sql_effect & H)%M_bind_ok. rewrite (IH _ _ H), <- E. done.
Qed.
Lemma publish_each_keeps {L} at_ instruments : keeps_local (L := L) (publish_each at_ instruments).
Proof. induction instruments as [|i l IH]; simpl; [by intros s r s' [= _ <-]|]. eauto with store. Qed.
#[local] Hint Resolve publish_each_keeps : store.

(** A publication writes all of it or nothing. *)
Lemma publication_effect {L} market instruments at_ (s : Db (list UniverseRow) L) r s' : publish_configured_universe market instruments at_ s = (r, s') ->
  match r with
  | Ok _ => s'.(db_tables) = published market instruments (at_utc (instant at_)) s.(db_tables) /\
      Forall (fun i => i.(ci_market) = market) instruments /\ NoDup (ci_symbol <$> instruments)
  | Err _ => s'.(db_tables) = s.(db_tables)
  end.
Proof.
  unfold publish_configured_universe. intros H. destruct r as [[]|e].
  - apply M_bind_ok in H as (t & s1 & [[_ ->]%utc_ok ->]%lift_ok & H). apply M_bind_ok in H as ([] & s2 & [Hm%raise_if_ok ->]%lift_ok & H).
    apply M_bind_ok in H as ([] & s3 & [Hn%raise_if_ok ->]%lift_ok & H). apply negb_false_iff, bool_decide_eq_true in Hn.
    apply transaction_ok in H as (s4 & s5 & Ht & _ & H & -> & _). apply M_bind_ok in H as ([] & s6 & [_ [= E]]%execute_sql_effect & H).
    rewrite (publish_each_ok _ _ _ _ H), <- E, Ht. split; [done|]. split; [|done]. apply Forall_forall. intros i Hi.
    destruct (decide (ci_market i = market)) as [|Hne]; [done|]. rewrite <- not_true_iff_false, existsb_exists in Hm. exfalso. apply Hm. exists i.
    rewrite <- list_elem_of_In, bool_decide_eq_false_2 by done. done.
  - apply M_bind_err in H as [[_ ->]%lift_err|(t & s1 & [_ ->]%lift_ok & H)]; [done|].
    apply M_bind_err in H as [[_ ->]%lift_err|(? & s2 & [_ ->]%lift_ok & H)]; [done|].
    apply M_bind_err in H as [[_ ->]%lift_err|(? & s3 & [_ ->]%lift_ok & H)]; [done|].
    apply transaction_err in H as [H _]; [done|eauto with store|done].
Qed.

Section Published.
Context (market : Market) (at_ : datetime) (rows : list UniverseRow).
Abbreviation result_rows instruments := (published market instruments at_ rows).
Implicit Types (instruments : list ConfiguredInstrument).

Lemma published_snoc instruments i : result_rows (instruments ++ [i]) =
  upsert (same_key (enabled_row at_ i)) (enabled_row at_ i) (fun _ => enabled_row at_ i) (result_rows instruments).
Proof. unfold published. by rewrite foldl_app. Qed.

Lemma published_enabled instruments r : r ∈ result_rows instruments -> in_market market r = true -> r.(mu_enabled) = true ->
  exists i, i ∈ instruments /\ r = enabled_row at_ i.
Proof.
  induction instruments as [|i l IH] using rev_ind.
  - intros (x & -> & _)%list_elem_of_fmap. destruct (in_market market x) eqn:E; [done|]. by rewrite E.
  - rewrite published_snoc. intros [->|[H _]]%upsert_elem; [exists i; rewrite elem_of_app, list_elem_of_singleton; by auto|].
    intros Hm He. destruct (IH H Hm He) as (j & Hj & ->). exists j. rewrite elem_of_app. auto.
Qed.

Lemma published_all instruments : NoDup (ci_symbol <$> instruments) -> forall i, i ∈ instruments -> enabled_row at_ i ∈ result_rows instruments.
Proof.
  induction instruments as [|j l IH] using rev_ind; [by intros _ i ?%elem_of_nil|]. rewrite fmap_app. intros (Hl & Hd & _)%NoDup_app i.
  rewrite elem_of_app, list_elem_of_singleton, published_snoc, upsert_elem. intros [Hi| ->]; [right|by left]. split; [auto|].
  apply not_true_iff_false. intros [= _ Hs]%same_key_iff. apply (Hd (ci_symbol i)); [by apply list_elem_of_fmap_2|]. rewrite Hs. left.
Qed.

Lemma published_other instruments : Forall (fun i => i.(ci_market) = market) instruments ->
  List.filter (fun r => negb (in_market market r)) (result_rows instruments) = List.filter (fun r => negb (in_market market r)) rows.
Proof.
  induction instruments as [|i l IH] using rev_ind.
  - intros _. apply filter_update_where. intros r H. rewrite H. split; [done|]. by apply negb_false_iff.
  - intros [Hl [Hi _]%Forall_cons]%Forall_app. rewrite published_snoc, upsert_filter_other; [by apply IH|..].
    + apply negb_false_iff, in_market_iff. simpl. by rewrite Hi.
    + intros r [= Hm _]%same_key_iff. apply negb_false_iff, in_market_iff. by rewrite Hm, Hi.
Qed.

Lemma published_keys instruments : NoDup (row_key <$> rows) -> NoDup (row_key <$> result_rows instruments) /\ forall k, k ∈ (row_key <$> rows) -> k ∈ (row_key <$> result_rows instruments).
Proof.
  intros Hnd. induction instruments as [|i l [IH1 IH2]] using rev_ind.
  - assert (E : row_key <$> result_rows [] = row_key <$> rows); [|by rewrite E]. unfold published, update_where. simpl. rewrite <- list_fmap_compose.
    apply list_fmap_ext. intros j r _. simpl. by destruct (in_market market r).
  - rewrite published_snoc. split; [apply upsert_keys; [apply same_key_iff|done]|]. intros k (r & -> & Hr)%IH2%list_elem_of_fmap.
    destruct (same_key (enabled_row at_ i) r) eqn:E.
    + apply same_key_iff in E as ->. apply list_elem_of_fmap_2, upsert_elem. by left.
    + apply list_elem_of_fmap_2, upsert_elem. by right.
Qed.
End Published.

(** A publication replaces the enabled set of one market: when it
    returns, the enabled rows of the market are exactly the given
    instruments, the rows of the other markets are as they were, every key
    the table had it still has, and keys stay unique; when it raises, the
    table is as it was. *)
Theorem publication_replaces {L} market instruments at_ (s : Db (list UniverseRow) L) r s' :
  NoDup (row_key <$> s.(db_tables)) -> publish_configured_universe market instruments at_ s = (r, s') ->
  match r with
  | Ok _ =>
      (forall row, row ∈ s'.(db_tables) /\ in_market market row = true /\ row.(mu_enabled) = true <-> exists i, i ∈ instruments /\ row = enabled_row (at_utc (instant at_)) i) /\
      List.filter (fun row => negb (in_market market row)) s'.(db_tables) = List.filter (fun row => negb (in_market market row)) s.(db_tables) /\
      (forall k, k ∈ (row_key <$> s.(db_tables)) -> k ∈ (row_key <$> s'.(db_tables))) /\ NoDup (row_key <$> s'.(db_tables))
  | Err _ => s'.(db_tables) = s.(db_tables)
  end.
Proof.
  intros Hnd H%publication_effect. destruct r as [[]|e]; [|done]. destruct H as (-> & Hm & Hs). destruct (published_keys market (at_utc (instant at_)) _ instruments Hnd) as [Hk1 Hk2].
  split; [|split; [by apply published_other|done]]. intros row. split; [intros (H1 & H2 & H3); by eapply published_enabled|].
  intros (i & Hi & ->). split; [by apply published_all|]. split; [|done]. apply in_market_iff. rewrite Forall_forall in Hm. simpl. by rewrite (Hm i Hi).
Qed.

Module UniverseExample.
Definition nl : string := String "010" "".
Definition csv (lines : list string) : string := String.concat "" ((fun l => l +:+ nl) <$> lines).
Definition symbols_csv : string := csv ["symbol,security_id,enabled,timeframes"; "RELIANCE,2885,true,5m|1d"; "TCS-EQ,,,15m"; "INFY,1594,no,5m"].
Definition loaded : list NseSymbolSpec := [
  {| ns_symbol := "RELIANCE"; ns_security_id := Some "2885"; ns_exchange_segment := "NSE_EQ"; ns_instrument := "EQUITY"; ns_timeframes := ["5m"; "1d"]; ns_trade_horizon := "intraday" |};
  {| ns_symbol := "TCS"; ns_security_id := None; ns_exchange_segment := "NSE_EQ"; ns_instrument := "EQUITY"; ns_timeframes := ["15m"]; ns_trade_horizon := "intraday" |}].
Lemma loaded_symbols_witness : NoDup (ns_symbol <$> loaded) /\ Forall spec_valid loaded.
Proof.
  destruct (loaded_symbols "symbols.csv" symbols_csv loaded ltac:(vm_compute; reflexivity)) as (_ & Hv & Hd & _). exact (conj Hd Hv).
Defined.
Example load_errors :
  (fun lines => load_nse_symbols "p" (Some (csv lines))) <$> [["symbol"]; ["symbol"; "A"; "a-eq"]; ["symbol,timeframes"; "A,2m"]; ["symbol,enabled"; "A,maybe"]; ["name"; "A"]] =
  [Err (ValueError "symbols.csv contains no enabled NSE symbols"); Err (ValueError "duplicate NSE symbol in symbols.csv: A");
   Err (ValueError "Dhan direct history does not support ['2m'] for A"); Err (ValueError "invalid enabled value on symbols.csv line 2");
   Err (ValueError "symbols.csv requires a symbol column")].
Proof. vm_compute. reflexivity. Qed.

Definition master_csv : string := csv ["EXCH_ID,SEGMENT,SECURITY_ID,INSTRUMENT,SYMBOL_NAME,DISPLAY_NAME"; "NSE,E,11536,EQUITY,TCS,Tata Consultancy"; "BSE,E,532540,EQUITY,TCS,TCS"; "NSE,E,1594,EQUITY,INFY,Infosys"].
Definition tcs : DhanInstrument := {| di_symbol := "TCS"; di_security_id := "11536"; di_exchange_segment := "NSE_EQ"; di_instrument := "EQUITY" |}.
Lemma resolve_exact_witness : exists item, (Dict [("TCS", tcs)] : dict string DhanInstrument) !! "TCS" = Some item /\ item.(di_symbol) = "TCS".
Proof.
  destruct (resolve_exact ["TCS"] master_csv (Dict [("TCS", tcs)]) ltac:(vm_compute; reflexivity)) as (rows & _ & H).
  destruct (H "TCS" ltac:(left)) as (item & Hi & Hs & _). exists item. exact (conj Hi Hs).
Defined.
Example resolve_errors : (resolve ["SBIN"] master_csv, resolve ["tcs "] (master_csv +:+ csv ["NSE,E,99,EQUITY,TCS-EQ,"])) =
  (Err (LookupError "NSE symbol not found in Dhan instrument master: SBIN"), Err (ValueError "NSE symbol is ambiguous in Dhan instrument master: tcs ")).
Proof. vm_compute. reflexivity. Qed.

Definition tokens : DhanTokenSource unit := static_tokens {| st_client_id := "1000"; st_access_token := "token" |}.
Definition build_with (lines : list string) : result DhanUniverse := (build tokens (fun w => (Ok master_csv, w)) "symbols.csv" (Some (csv lines)) (at_utc 0) ()).1.
Definition universe : DhanUniverse := {|
  du_instruments := [{| di_symbol := "RELIANCE"; di_security_id := "2885"; di_exchange_segment := "NSE_EQ"; di_instrument := "EQUITY" |}; tcs];
  du_jobs := history_job <$> [("RELIANCE", "5m"); ("RELIANCE", "1d"); ("TCS", "15m")];
  du_client := {| dh_client_id := "1000"; dh_access_token := "token"; dh_security_id := None; dh_security_ids := Dict [("RELIANCE", "2885"); ("TCS", "11536")];
                  dh_exchange_segment := "NSE_EQ"; dh_instrument := "EQUITY" |} |}.
Lemma built_universe_witness : exists specs, di_symbol <$> universe.(du_instruments) = ns_symbol <$> specs /\ universe.(du_jobs) = history_job <$> job_keys specs.
Proof.
  destruct (built_universe tokens (fun w => (Ok master_csv, w)) "symbols.csv" (Some symbols_csv) (at_utc 0) () universe () ltac:(vm_compute; reflexivity))
    as (specs & _ & Hi & Hj & _). exists specs. exact (conj Hi Hj).
Defined.

(** A symbol that still ends in -EQ once the suffix was taken off is looked
    up under the name it was loaded with and resolved under another one. *)
Example doubled_suffix_unresolved : build_with ["symbol"; "TCS-EQ-EQ"] = Err (KeyError "TCS-EQ").
Proof. vm_compute. reflexivity. Qed.
(** Two symbols that differ in a space before the suffix pass the duplicate
    check, and the client asks for the history of both under one id. *)
Example spaced_symbol_shares_id : exists u, build_with ["symbol,security_id"; "TCS,11536"; "TCS -EQ,1594"] = Ok u /\
  di_security_id <$> u.(du_instruments) = ["11536"; "1594"] /\
  security_id_of u.(du_client) "TCS" = Ok "1594" /\ security_id_of u.(du_client) "TCS " = Ok "1594".
Proof. eexists. split; [vm_compute; reflexivity|]. vm_compute. auto. Qed.

Definition configured (symbol : string) : ConfiguredInstrument := {|
  ci_market := CRYPTO; ci_symbol := symbol; ci_provider := OKX; ci_provider_symbol := symbol; ci_timeframes := ["5m"]; ci_trade_horizon := "intraday" |}.
Definition stored (market symbol : string) : UniverseRow := {|
  mu_market := market; mu_symbol := symbol; mu_provider := "okx"; mu_provider_symbol := symbol; mu_timeframes := ["1h"]; mu_trade_horizon := "swing";
  mu_enabled := true; mu_configured_at := at_utc 0 |}.
Definition before : Db (list UniverseRow) unit := MkDb [stored "crypto" "BTC"; stored "nse" "TCS"; stored "crypto" "ETH"] () [].
Definition after_publication := Eval vm_compute in publish_configured_universe CRYPTO [configured "ETH"; configured "SOL"] (at_utc second) before.
Lemma publication_replaces_witness :
  (forall row, row ∈ after_publication.2.(db_tables) /\ in_market CRYPTO row = true /\ row.(mu_enabled) = true <->
     exists i, i ∈ [configured "ETH"; configured "SOL"] /\ row = enabled_row (at_utc second) i) /\
  (row_key <$> after_publication.2.(db_tables)) = [("crypto", "BTC"); ("nse", "TCS"); ("crypto", "ETH"); ("crypto", "SOL")].
Proof.
  split; [|vm_compute; reflexivity].
  apply (publication_replaces CRYPTO [configured "ETH"; configured "SOL"] (at_utc second) before (Ok ()) after_publication.2);
    [apply (bool_decide_eq_true_1 (NoDup (row_key <$> before.(db_tables)))); vm_compute; reflexivity|vm_compute; reflexivity].
Defined.
End UniverseExample.
