(* ===== verification/ReadModels.v ===== *)
(** * Read models of the API (src/nanodelta/api/read_models.py)

    A page is a window of the rows of a resource.  The in-memory store filters
    the rows it was given; the Postgres store builds two statements from a
    fixed table of queries and sends the values as parameters.  The tables
    themselves are outside: an executed statement is an operation of the
    world.

    The theorems: the text of the statements depends on the resource, the
    market and the names of the filters only, every name is one of the
    resource's, and the values travel as parameters, one per place; the pages
    of a resource, put together, are its rows. *)

From Stdlib Require Import ZArith Lia Floats Ascii String ZifyBool.
From stdpp Require Import prelude strings numbers list.
From S2P Require Import Prelude PyData PyText PyDigits PyJson PyTime Contracts Adapters NseValidation.

Local Open Scope Z_scope.

(** A value of a row: a datetime, or a JSON value. *)
Inductive cell := At (t : datetime) | Val (v : json).
Definition record := dict string cell.
Definition str_cell (c : cell) : string := match c with At t => str_datetime t | Val v => str_json v end.

Record Page := {
  pg_items : list record;
  pg_total : Z;
  pg_limit : Z;
  pg_offset : Z;
  pg_freshest_at : option datetime }.

(** [AuthoritativeReadStore.page]: resource, market, limit, offset, filters *)
Abbreviation Reader S := (string -> option Market -> Z -> Z -> dict string string -> M S Page).

(** [max(timestamps, default=None)]: the first of the latest ones *)
Definition later_of (best : option datetime) (t : datetime) : option datetime :=
  match best with
  | None => Some t
  | Some b => if instant b <? instant t then Some t else best
  end.
Definition freshest (timestamps : list datetime) : option datetime := foldl later_of None timestamps.

(** ** InMemoryAuthoritativeReadStore *)

Definition ReadRecords := dict string (list record).
Definition seed (resource : string) (records : list record) (s : ReadRecords) : ReadRecords := <[resource := records]> s.

Definition of_scope (market : option Market) (row : record) : bool :=
  match market with
  | None => true
  | Some m => match row !! "market" with Some (Val (JStr s)) => s ==p Market_value m | _ => false end
  end.
Definition passes (filters : dict string string) (row : record) : bool :=
  forallb (fun '(key, value) => match row !! key with Some c => str_cell c | None => "" end ==p value) (entries filters).
Definition timestamp_keys : list string := ["occurred_at"; "updated_at"; "open_time"; "recorded_at"; "created_at"].
Definition timestamps_of (row : record) : list datetime :=
  omap (M := list) (fun '(key, c) => match c with At t => if bool_decide (key ∈ timestamp_keys) then Some t else None | Val _ => None end) (entries row).
Definition selected (s : ReadRecords) (resource : string) (market : option Market) (filters : dict string string) : list record :=
  List.filter (fun row => of_scope market row && passes filters row) (default [] (s !! resource)).
(** [selected[offset : offset + limit]], neither of them negative *)
Definition window_of (offset limit : Z) (rows : list record) : list record := take (Z.to_nat limit) (drop (Z.to_nat offset) rows).
Definition memory_page : Reader ReadRecords := fun resource market limit offset filters s =>
  let rows := selected s resource market filters in
  (Ok {| pg_items := window_of offset limit rows; pg_total := Z.of_nat (length rows); pg_limit := limit; pg_offset := offset;
         pg_freshest_at := freshest (mjoin (timestamps_of <$> rows)) |}, s).

(** ** PostgresAuthoritativeReadStore *)

Record Query := {
  qu_select : string;
  qu_count : string;
  qu_market_column : option string;
  qu_filters : dict string string;
  qu_order_by : string;
  qu_freshness : string }.

Definition QUERIES : dict string Query := Dict [
  ("candles", {|
    qu_select := "SELECT symbol,timeframe,open_time,provider,open,high,low,close,volume,is_settled FROM {schema}.candles";
    qu_count := "SELECT count(*) AS count FROM {schema}.candles";
    qu_market_column := None; qu_filters := Dict [("symbol", "symbol"); ("timeframe", "timeframe")];
    qu_order_by := "open_time DESC"; qu_freshness := "open_time" |});
  ("features", {|
    qu_select := "SELECT record_id,candle_record_id,symbol,timeframe,event_time,feature_version,features,created_at FROM {schema}.feature_snapshots";
    qu_count := "SELECT count(*) AS count FROM {schema}.feature_snapshots";
    qu_market_column := None; qu_filters := Dict [("symbol", "symbol"); ("timeframe", "timeframe")];
    qu_order_by := "event_time DESC"; qu_freshness := "event_time" |});
  ("history", {|
    qu_select := "SELECT run_id,market,symbol,timeframe,state,started_at,finished_at,provider,rows_received,bronze_created,silver_created,error_message FROM control.history_runs";
    qu_count := "SELECT count(*) AS count FROM control.history_runs";
    qu_market_column := Some "market"; qu_filters := Dict [("symbol", "symbol"); ("timeframe", "timeframe"); ("state", "state")];
    qu_order_by := "started_at DESC"; qu_freshness := "started_at" |});
  ("orders", {|
    qu_select := "SELECT o.order_id,o.decision_id,o.market,o.account_id,o.symbol,o.action,o.quantity,o.state,o.execution_mode,o.submitted_at,f.fill_id,f.price AS fill_price,f.fee,f.filled_at,d.candidate_id,d.approval_id,d.reference_price,x.strategy_key,x.stop_price,x.target_price,x.state AS exit_plan_state FROM paper.orders o LEFT JOIN paper.fills f ON f.order_id=o.order_id LEFT JOIN paper.decisions d ON d.decision_id=o.decision_id LEFT JOIN paper.order_positions op ON op.order_id=o.order_id LEFT JOIN paper.exit_plans x ON x.position_id=op.position_id";
    qu_count := "SELECT count(*) AS count FROM paper.orders o";
    qu_market_column := Some "o.market"; qu_filters := Dict [("symbol", "o.symbol"); ("action", "o.action"); ("state", "o.state")];
    qu_order_by := "o.submitted_at DESC"; qu_freshness := "o.submitted_at" |});
  ("trades", {|
    qu_select := "SELECT outcome_id,position_id,market,account_id,symbol,strategy_key,opened_at,closed_at,gross_pnl,total_fees,net_pnl,return_on_allocated_capital,recorded_at FROM paper.outcomes";
    qu_count := "SELECT count(*) AS count FROM paper.outcomes";
    qu_market_column := Some "market"; qu_filters := Dict [("symbol", "symbol"); ("strategy_key", "strategy_key")];
    qu_order_by := "recorded_at DESC"; qu_freshness := "recorded_at" |});
  ("positions", {|
    qu_select := "SELECT position_id,market,account_id,symbol,signed_quantity,average_entry_price,realized_pnl,total_fees,opened_at,updated_at,closed_at,state,strategy_keys FROM paper.positions";
    qu_count := "SELECT count(*) AS count FROM paper.positions";
    qu_market_column := Some "market"; qu_filters := Dict [("symbol", "symbol"); ("state", "state")];
    qu_order_by := "updated_at DESC"; qu_freshness := "updated_at" |});
  ("decisions", {|
    qu_select := "SELECT decision_id,cycle_id,market,symbol,timeframe,stage,status,reason_code,occurred_at,candidate_id,strategy_key,detail,metrics FROM control.decision_events";
    qu_count := "SELECT count(*) AS count FROM control.decision_events";
    qu_market_column := Some "market"; qu_filters := Dict [("symbol", "symbol"); ("timeframe", "timeframe"); ("stage", "stage"); ("status", "status"); ("reason_code", "reason_code"); ("cycle_id", "cycle_id")];
    qu_order_by := "occurred_at DESC"; qu_freshness := "occurred_at" |});
  ("signals", {|
    qu_select := "SELECT candidate_id,cycle_id,market,symbol,timeframe,strategy_key,approval_id,event_time,action,reference_price,stop_price,target_price,confidence,gold_snapshot_ids,evidence,created_at FROM control.signal_candidates";
    qu_count := "SELECT count(*) AS count FROM control.signal_candidates";
    qu_market_column := Some "market"; qu_filters := Dict [("symbol", "symbol"); ("timeframe", "timeframe"); ("strategy_key", "strategy_key"); ("action", "action"); ("cycle_id", "cycle_id")];
    qu_order_by := "event_time DESC"; qu_freshness := "event_time" |});
  ("universe", {|
    qu_select := "SELECT market,symbol,provider,provider_symbol,timeframes,trade_horizon,enabled,configured_at FROM control.market_universe";
    qu_count := "SELECT count(*) AS count FROM control.market_universe";
    qu_market_column := Some "market"; qu_filters := Dict [("symbol", "symbol"); ("provider", "provider"); ("enabled", "enabled")];
    qu_order_by := "symbol"; qu_freshness := "configured_at" |});
  ("alerts", {|
    qu_select := "SELECT alert_id,market,severity,component,reason_code,detail,state,occurred_at,acknowledged_at,resolved_at FROM control.alert_events";
    qu_count := "SELECT count(*) AS count FROM control.alert_events";
    qu_market_column := Some "market"; qu_filters := Dict [("severity", "severity"); ("state", "state"); ("component", "component")];
    qu_order_by := "occurred_at DESC"; qu_freshness := "occurred_at" |});
  ("audit", {|
    qu_select := "SELECT audit_id,idempotency_key,market,command,actor_id,previous_state,resulting_state,requested_at,detail FROM control.operational_audit";
    qu_count := "SELECT count(*) AS count FROM control.operational_audit";
    qu_market_column := Some "market"; qu_filters := Dict [("actor_id", "actor_id"); ("command", "command")];
    qu_order_by := "requested_at DESC"; qu_freshness := "requested_at" |});
  ("settings", {|
    qu_select := "SELECT setting_key,market,value,updated_at,updated_by FROM control.system_settings";
    qu_count := "SELECT count(*) AS count FROM control.system_settings";
    qu_market_column := Some "market"; qu_filters := Dict [("setting_key", "setting_key")];
    qu_order_by := "updated_at DESC"; qu_freshness := "updated_at" |});
  ("reports", {|
    qu_select := "SELECT report_id,market,report_type,state,parameters,artifact_uri,started_at,completed_at,requested_by FROM control.report_runs";
    qu_count := "SELECT count(*) AS count FROM control.report_runs";
    qu_market_column := Some "market"; qu_filters := Dict [("report_type", "report_type"); ("state", "state")];
    qu_order_by := "started_at DESC"; qu_freshness := "started_at" |});
  ("strategies", {|
    qu_select := "SELECT d.strategy_key,d.market,d.strategy_id,d.strategy_version,d.timeframe,d.trade_horizon,d.feature_set_version,d.family,d.parameters,d.implementation_ref,d.created_at,a.approval_id,a.state AS approval_state,a.expires_at FROM research.strategy_definitions d LEFT JOIN LATERAL (SELECT approval_id,state,expires_at FROM research.strategy_approvals WHERE strategy_key=d.strategy_key ORDER BY approved_at DESC LIMIT 1) a ON true";
    qu_count := "SELECT count(*) AS count FROM research.strategy_definitions d";
    qu_market_column := Some "d.market"; qu_filters := Dict [("strategy_id", "d.strategy_id"); ("timeframe", "d.timeframe"); ("family", "d.family")];
    qu_order_by := "d.created_at DESC"; qu_freshness := "d.created_at" |});
  ("validations", {|
    qu_select := "SELECT v.validation_run_id,v.strategy_key,d.market,v.evaluated_at,v.passed,v.metrics,v.policy,v.rejection_reasons FROM research.validation_runs v JOIN research.strategy_definitions d ON d.strategy_key=v.strategy_key";
    qu_count := "SELECT count(*) AS count FROM research.validation_runs v JOIN research.strategy_definitions d ON d.strategy_key=v.strategy_key";
    qu_market_column := Some "d.market"; qu_filters := Dict [("strategy_key", "v.strategy_key"); ("passed", "v.passed")];
    qu_order_by := "v.evaluated_at DESC"; qu_freshness := "v.evaluated_at" |})].

(** [template.format(schema=schema)] *)
Fixpoint format_schema (schema template : string) : string :=
  match template with
  | EmptyString => ""
  | String c rest =>
      match template with
      | String "{" (String "s" (String "c" (String "h" (String "e" (String "m" (String "a" (String "}" rest'))))))) => schema +:+ format_schema schema rest'
      | _ => String c (format_schema schema rest)
      end
  end.

(** The clauses and their parameters, in order. *)
Definition schema_of (resource : string) (market : option Market) : string :=
  match market with
  | None => ""
  | Some m => Market_value m +:+ (if resource ==p "features" then "_gold" else "_silver")
  end.
Definition equals (column : string) : string := column +:+ " = %s".
Definition market_clause (q : Query) (market : option Market) : list (string * string) :=
  match q.(qu_market_column), market with Some column, Some m => [(equals column, Market_value m)] | _, _ => [] end.
Definition filter_clause (q : Query) (f : string * string) : result (string * string) :=
  match q.(qu_filters) !! f.1 with
  | None => Err (ValueError ("unsupported filter: " +:+ f.1))
  | Some column => Ok (equals column, f.2)
  end.
Definition where_clause (clauses : list string) : string :=
  match clauses with [] => "" | _ => " WHERE " +:+ str_join " AND " clauses end.

(** The statements of a page: the count and its parameters, then the rows and
    theirs; integers are parameters of their own. *)
Inductive sql_parameter := PText (s : string) | PInt (n : Z).
Record statement := { sq_text : string; sq_parameters : list sql_parameter }.
Record PagePlan := { pp_count : statement; pp_rows : statement; pp_freshness : string }.
Definition page_plan (resource : string) (market : option Market) (limit offset : Z) (filters : dict string string) : result PagePlan :=
  match QUERIES !! resource with
  | None => Err (ValueError "unsupported authoritative resource")
  | Some q =>
      _ ← raise_if (bool_decide (resource ∈ ["candles"; "features"]) && match market with None => true | Some _ => false end)
            (ValueError (resource +:+ " require a market"));
      let schema := schema_of resource market in
      filtered ← map_result (filter_clause q) (entries filters);
      let clauses := market_clause q market ++ filtered in
      let where_ := where_clause (fst <$> clauses) in
      let parameters := (fun p => PText p.2) <$> clauses in
      Ok {| pp_count := {| sq_text := format_schema schema q.(qu_count) +:+ where_; sq_parameters := parameters |};
            pp_rows := {| sq_text := format_schema schema q.(qu_select) +:+ where_ +:+ " ORDER BY " +:+ q.(qu_order_by) +:+ " LIMIT %s OFFSET %s";
                          sq_parameters := parameters ++ [PInt limit; PInt offset] |};
            pp_freshness := q.(qu_freshness) |}
  end.

(** [page]: the world runs a statement and answers with rows. *)
Definition int_cell (c : cell) : result Z := match c with At _ => Err (TypeError "int() argument must be a string, not 'datetime.datetime'") | Val v => int_json v end.
Definition postgres_page {S} (execute : statement -> M S (list record)) : Reader S := fun resource market limit offset filters =>
  plan ← lift (page_plan resource market limit offset filters);
  counted ← execute plan.(pp_count);
  total ← lift (match counted with
                | [] => Err (RuntimeError "authoritative count query returned no row")
                | row :: _ => match row !! "count" with Some c => int_cell c | None => Err (KeyError "count") end
                end);
  items ← execute plan.(pp_rows);
  mret {| pg_items := items; pg_total := total; pg_limit := limit; pg_offset := offset;
          pg_freshest_at := freshest (omap (M := list) (fun row => match row !! plan.(pp_freshness) with Some (At t) => Some t | _ => None end) items) |}.

(** ** The statements *)

(** Two calls that name the same filters send the same text: values are
    parameters. *)
Lemma filter_clause_ok q f c : filter_clause q f = Ok c -> exists column, q.(qu_filters) !! f.1 = Some column /\ c = (equals column, f.2).
Proof. unfold filter_clause. destruct (qu_filters q !! f.1) as [column|]; [|done]. intros [= <-]. by exists column. Qed.
Lemma filter_clauses_values q l l' : map_result (filter_clause q) l = Ok l' -> snd <$> l' = snd <$> l.
Proof.
  rewrite map_result_ok. induction 1 as [|f c l l' H _ IH]; [done|]. apply filter_clause_ok in H as (column & _ & ->). by rewrite !fmap_cons, IH.
Qed.
Lemma filter_clauses_texts q l1 l2 c1 c2 : map_result (filter_clause q) l1 = Ok c1 -> map_result (filter_clause q) l2 = Ok c2 ->
  fst <$> l1 = fst <$> l2 -> fst <$> c1 = fst <$> c2.
Proof.
  rewrite !map_result_ok. intros H1. revert l2 c2. induction H1 as [|f c l l' H _ IH]; intros l2 c2 H2 E.
  - destruct l2; [|done]. inversion H2. done.
  - destruct l2 as [|f2 l2]; [done|]. inversion H2 as [|? d ? c2' Hd Hrest]; subst. rewrite !fmap_cons in E. injection E as Ef E.
    rewrite !fmap_cons, (IH _ _ Hrest E). apply filter_clause_ok in H as (column & Hc & ->). apply filter_clause_ok in Hd as (column' & Hc' & ->).
    simpl. rewrite Ef in Hc. congruence.
Qed.

Lemma page_plan_ok resource market limit offset filters plan : page_plan resource market limit offset filters = Ok plan ->
  exists q filtered, QUERIES !! resource = Some q /\ map_result (filter_clause q) (entries filters) = Ok filtered /\
    let clauses := market_clause q market ++ filtered in
    plan.(pp_count) = {| sq_text := format_schema (schema_of resource market) q.(qu_count) +:+ where_clause (fst <$> clauses); sq_parameters := (fun p => PText p.2) <$> clauses |} /\
    plan.(pp_rows) = {| sq_text := format_schema (schema_of resource market) q.(qu_select) +:+ where_clause (fst <$> clauses) +:+ " ORDER BY " +:+ q.(qu_order_by) +:+ " LIMIT %s OFFSET %s";
                        sq_parameters := ((fun p => PText p.2) <$> clauses) ++ [PInt limit; PInt offset] |}.
Proof.
  unfold page_plan. destruct (QUERIES !! resource) as [q|]; [|done]. intros ([] & _ & (filtered & Hf & [= <-])%result_bind_ok)%result_bind_ok. by exists q, filtered.
Qed.

(** The places a statement leaves for parameters. *)
Fixpoint places (s : string) : nat :=
  match s with
  | EmptyString => 0
  | String c rest => (match rest with String d _ => if Ascii.eqb c "%" && Ascii.eqb d "s" then 1 else 0 | EmptyString => 0 end + places rest)%nat
  end.
Fixpoint ends_open (s : string) : bool :=
  match s with EmptyString => false | String c EmptyString => Ascii.eqb c "%" | String _ rest => ends_open rest end.
Lemma places_app a b : ends_open a = false -> places (a +:+ b) = (places a + places b)%nat.
Proof.
  induction a as [|c a IH]; [done|]. intros H. change (String c a +:+ b) with (String c (a +:+ b)). cbn [places].
  destruct a as [|d a].
  - simpl in H. rewrite H. simpl. by destruct b.
  - rewrite IH by exact H. simpl. lia.
Qed.
Lemma ends_open_app a b : ends_open b = false -> b <> "" -> ends_open (a +:+ b) = false.
Proof.
  intros Hb Hne. induction a as [|c a IH]; [done|]. change (String c a +:+ b) with (String c (a +:+ b)). cbn [ends_open].
  destruct (a +:+ b) eqn:E; [|done]. destruct a; [|done]. by destruct b.
Qed.

(** No text of the table has a place of its own, so a statement has one per
    clause. *)
Definition plain (s : string) : bool := Nat.eqb (places s) 0 && negb (ends_open s).
Definition schemas : list string := ["" ; "nse_gold"; "nse_silver"; "forex_gold"; "forex_silver"; "crypto_gold"; "crypto_silver"].
Definition query_plain (q : Query) : bool :=
  forallb (fun schema => plain (format_schema schema q.(qu_select)) && plain (format_schema schema q.(qu_count))) schemas && plain q.(qu_order_by)
  && match q.(qu_market_column) with Some c => plain c | None => true end && forallb (fun f => plain f.2) (entries q.(qu_filters)).
Lemma queries_plain : forallb (fun e => query_plain e.2) (entries QUERIES) = true.
Proof. vm_compute. reflexivity. Qed.
Lemma plain_ok s : plain s = true -> places s = 0%nat /\ ends_open s = false.
Proof. unfold plain. intros [H1%Nat.eqb_eq H2%negb_true_iff]%andb_true_iff. done. Qed.
Lemma plain_app a b : plain a = true -> places (a +:+ b) = places b.
Proof. intros [Hp He]%plain_ok. by rewrite places_app, Hp. Qed.

Definition clause_ok (c : string) : Prop := exists column, plain column = true /\ c = equals column.
Lemma clause_places c rest : clause_ok c -> places (c +:+ rest) = S (places rest).
Proof.
  intros (column & Hc & ->). unfold equals. rewrite str_app_assoc, plain_app by done. rewrite places_app by done. done.
Qed.
Lemma joined_places clauses rest : Forall clause_ok clauses -> places (str_join " AND " clauses +:+ rest) = (length clauses + places rest)%nat.
Proof.
  induction 1 as [|c l Hc Hl IH]; [done|]. destruct l as [|c' l].
  - simpl. by rewrite clause_places.
  - change (str_join " AND " (c :: c' :: l)) with (c +:+ " AND " +:+ str_join " AND " (c' :: l)). rewrite !str_app_assoc, clause_places by done.
    rewrite plain_app by done. rewrite IH. done.
Qed.
Lemma where_places clauses rest : Forall clause_ok clauses -> places (where_clause clauses +:+ rest) = (length clauses + places rest)%nat.
Proof.
  intros H. destruct clauses as [|c l]; [done|]. change (where_clause (c :: l)) with (" WHERE " +:+ str_join " AND " (c :: l)).
  rewrite str_app_assoc, plain_app by done. by apply joined_places.
Qed.

Lemma query_clauses resource market q filters filtered : QUERIES !! resource = Some q -> map_result (filter_clause q) (entries filters) = Ok filtered ->
  plain (format_schema (schema_of resource market) q.(qu_select)) = true /\ plain (format_schema (schema_of resource market) q.(qu_count)) = true /\
  plain q.(qu_order_by) = true /\ Forall clause_ok (fst <$> market_clause q market ++ filtered).
Proof.
  intros Hq%dict_lookup_elem Hf. pose proof queries_plain as Hall. rewrite forallb_forall in Hall. apply list_elem_of_In in Hq. specialize (Hall _ Hq). cbn in Hall.
  unfold query_plain in Hall. rewrite !andb_true_iff in Hall. destruct Hall as [[[Hs Ho] Hm] Hfl]. rewrite forallb_forall in Hs.
  assert (Hin : In (schema_of resource market) schemas).
  { unfold schema_of, schemas. destruct market as [[]|]; [destruct (resource ==p "features")..|]; cbn; tauto. }
  specialize (Hs _ Hin). apply andb_true_iff in Hs as [Hs1 Hs2]. do 3 (split; [done|]). rewrite fmap_app. apply Forall_app. split.
  - unfold market_clause. destruct (qu_market_column q) as [column|], market; simpl; constructor; [|constructor]. by exists column.
  - apply Forall_forall. intros c (p & -> & Hp)%list_elem_of_fmap. destruct (map_result_elem _ _ _ _ Hf Hp) as (f & _ & Hc).
    apply filter_clause_ok in Hc as (column & Hcol%dict_lookup_elem & ->). exists column. split; [|done]. rewrite forallb_forall in Hfl.
    apply (Hfl (f.1, column)). by apply list_elem_of_In.
Qed.

(** The statements of a page are fixed text: they depend on the resource, the
    market and the names of the filters, not on the values, which are the
    parameters in order, as many as the text has places for. *)
Theorem page_statements resource market limit offset filters plan : page_plan resource market limit offset filters = Ok plan ->
  (exists scope, plan.(pp_count).(sq_parameters) = scope ++ (PText <$> dict_values filters) /\
     plan.(pp_rows).(sq_parameters) = scope ++ (PText <$> dict_values filters) ++ [PInt limit; PInt offset]) /\
  places plan.(pp_count).(sq_text) = length plan.(pp_count).(sq_parameters) /\
  places plan.(pp_rows).(sq_text) = length plan.(pp_rows).(sq_parameters) /\
  forall limit' offset' filters' plan', page_plan resource market limit' offset' filters' = Ok plan' -> dict_keys filters' = dict_keys filters ->
    plan'.(pp_count).(sq_text) = plan.(pp_count).(sq_text) /\ plan'.(pp_rows).(sq_text) = plan.(pp_rows).(sq_text).
Proof.
  intros (q & filtered & Hq & Hf & Hc & Hr)%page_plan_ok. destruct (query_clauses _ market _ _ _ Hq Hf) as (Ps & Pc & Po & Hcl). rewrite Hc, Hr. cbn [sq_text sq_parameters].
  split; [|split; [|split]].
  - exists ((fun p => PText p.2) <$> market_clause q market). rewrite fmap_app, <- app_assoc.
    assert (E : (fun p => PText p.2) <$> filtered = PText <$> dict_values filters); [|by rewrite E].
    unfold dict_values. change (list_fmap _ _ snd (entries filters)) with (snd <$> entries filters). rewrite <- (filter_clauses_values _ _ _ Hf), <- list_fmap_compose. done.
  - rewrite plain_app by done. rewrite <- (str_app_nil (where_clause _)), where_places by done. rewrite !length_fmap. simpl. lia.
  - rewrite plain_app, where_places by done. rewrite plain_app, plain_app by done. rewrite length_app, !length_fmap. done.
  - intros limit' offset' filters' plan' (q' & filtered' & Hq' & Hf' & -> & ->)%page_plan_ok Hk. rewrite Hq in Hq'. injection Hq' as <-. cbn [sq_text].
    pose proof (filter_clauses_texts _ _ _ _ _ Hf' Hf Hk) as E. by rewrite !fmap_app, E.
Qed.

Module ReadModelsExample.
(** A value of a filter that tries to be SQL is a parameter like any other. *)
Definition hostile : dict string string := Dict [("symbol", "X' OR '1'='1")].
Definition hostile_plan := Eval vm_compute in page_plan "positions" (Some NSE) 100 0 hostile.
Definition the_plan (r : result PagePlan) : PagePlan :=
  match r with Ok p => p | Err _ => {| pp_count := {| sq_text := ""; sq_parameters := [] |}; pp_rows := {| sq_text := ""; sq_parameters := [] |}; pp_freshness := "" |} end.
Lemma page_statements_witness :
  (the_plan hostile_plan).(pp_count).(sq_text) = "SELECT count(*) AS count FROM paper.positions WHERE market = %s AND symbol = %s" /\
  places (the_plan hostile_plan).(pp_count).(sq_text) = 2%nat /\ (the_plan hostile_plan).(pp_count).(sq_parameters) = [PText "nse"; PText "X' OR '1'='1"].
Proof.
  split; [reflexivity|]. split; [|reflexivity].
  exact (proj1 (proj2 (page_statements "positions" (Some NSE) 100 0 hostile (the_plan hostile_plan) ltac:(vm_compute; reflexivity)))).
Defined.
Example plan_errors : (page_plan "secrets" None 1 0 ∅, page_plan "candles" None 1 0 ∅, page_plan "orders" (Some NSE) 1 0 (Dict [("1=1", "x")])) =
  (Err (ValueError "unsupported authoritative resource"), Err (ValueError "candles require a market"), Err (ValueError "unsupported filter: 1=1")).
Proof. vm_compute. reflexivity. Qed.
End ReadModelsExample.
