(* ===== verification/Api.v ===== *)
(** * The HTTP API (src/nanodelta/api/app.py)

    Every route of create_app: who may call it, how its parameters are
    checked, what it does to the services, and the status it answers with
    when they raise.  A route is a computation over the services' states; an
    HTTP error is raised as an exception that carries its status.  The checks
    of a route's parameters happen after its dependencies were resolved, and
    so after the caller was authenticated.  Bodies are the values the handlers
    return; their rendering as JSON is the framework's.

    The theorems: the commands, the budget switch and the history change only
    for callers with the role they need, whatever the request; a repair is
    audited before it runs; the pages of an aggregate cover all its rows. *)

From Stdlib Require Import ZArith Lia Floats Ascii String ZifyBool.
From stdpp Require Import prelude strings numbers list.
From S2P Require Import Prelude PyData PyFloat PyText PyDigits PyJson PyTime PyDate Sql Db Contracts Adapters NseSession Timeframes History Decisions Controller Commands OpsStore Security PyDecimal FinOps Qwen ReadModels.

Local Open Scope Z_scope.

(** ** The services *)

(** What each of them keeps: the operational store, the identity store, the
    budget's ledger, the history engines and whatever the read models read. *)
Record ApiWorld (H R : Type) := MkApi {
  aw_ops : Ops; aw_auth : AuthTables; aw_finops : Ledger; aw_history : H; aw_reads : R }.
Arguments MkApi {H R}.
Arguments aw_ops {H R}.
Arguments aw_auth {H R}.
Arguments aw_finops {H R}.
Arguments aw_history {H R}.
Arguments aw_reads {H R}.

Record Engine (H : Type) := {
  en_status : HistoryJob -> datetime -> H -> result HistoryStatus;
  en_repair : HistoryJob -> list datetime -> datetime -> M H (list HistoryRun) }.
Arguments en_status {H}.
Arguments en_repair {H}.
Record Gateway := { gw_guard : FinOpsGuard; gw_scope : string; gw_transport : payload -> M Ledger (result payload) }.
Record ApiServices (H R : Type) := {
  sv_positions : Market -> list payload;
  sv_outcomes : Market -> list payload;
  sv_history_engines : Market -> option (Engine H);
  sv_history_jobs : Market * string * string -> option HistoryJob;
  sv_api_keys : dict string Actor;
  sv_finops : option FinOpsGuard;
  sv_qwen_gateway : option Gateway;
  sv_decision_ledger : option (string -> M R (list Decision));
  sv_read_store : option (Reader R);
  sv_history_unavailable_reason : option string;
  sv_security : option Security }.
Arguments sv_positions {H R}.
Arguments sv_outcomes {H R}.
Arguments sv_history_engines {H R}.
Arguments sv_history_jobs {H R}.
Arguments sv_api_keys {H R}.
Arguments sv_finops {H R}.
Arguments sv_qwen_gateway {H R}.
Arguments sv_decision_ledger {H R}.
Arguments sv_read_store {H R}.
Arguments sv_history_unavailable_reason {H R}.
Arguments sv_security {H R}.

(** The headers of a request and what happens outside while it is served: the
    clock, and the clock, identifiers, secrets and faults of the successive
    calls of the identity store. *)
Record HttpCall := {
  ca_key : option string;
  ca_authorization : option string;
  ca_host : option string;
  ca_now : datetime;
  ca_outside : nat -> Outside }.

(** [HTTPException(status_code, detail)] *)
Definition http_exception (status : Z) (detail : json) : exn := OtherException ("HTTPException " +:+ str_Z status) (str_json detail).
Definition http_error (status : Z) (detail : string) : exn := http_exception status (JStr detail).
(** [except ... as exc: raise ... from exc] *)
Definition translating {S A} (f : exn -> exn) (m : M S A) : M S A := fun s => match m s with (Err e, s') => (Err (f e), s') | r => r end.
(** A parameter outside its declared bounds. *)
Definition declared (ok : bool) : result unit := raise_if (negb ok) (http_error 422 "validation error").
Definition length_within (lo hi : Z) (s : string) : bool := (lo <=? str_len s) && (str_len s <=? hi).

Section Routes.
Context {H R : Type} (scrypt : string -> string -> Z -> Z -> Z -> result string) (kolkata : Z -> Z) (environ : dict string string).
Context (services : ApiServices H R) (call : HttpCall).
Abbreviation World := (ApiWorld H R).

Definition in_ops {A} (m : M Ops A) : M World A := zoom aw_ops (fun x w => MkApi x w.(aw_auth) w.(aw_finops) w.(aw_history) w.(aw_reads)) m.
Definition in_auth {A} (m : M AuthTables A) : M World A := zoom aw_auth (fun x w => MkApi w.(aw_ops) x w.(aw_finops) w.(aw_history) w.(aw_reads)) m.
Definition in_finops {A} (m : M Ledger A) : M World A := zoom aw_finops (fun x w => MkApi w.(aw_ops) w.(aw_auth) x w.(aw_history) w.(aw_reads)) m.
Definition in_history {A} (m : M H A) : M World A := zoom aw_history (fun x w => MkApi w.(aw_ops) w.(aw_auth) w.(aw_finops) x w.(aw_reads)) m.
Definition in_reads {A} (m : M R A) : M World A := zoom aw_reads (fun x w => MkApi w.(aw_ops) w.(aw_auth) w.(aw_finops) w.(aw_history) x) m.

(** ** Who calls *)

Definition authenticate : M World Actor :=
  match call.(ca_key) with
  | None => raise (http_error 401 "API key required")
  | Some key =>
      match List.find (fun p => key ==p p.1) (entries services.(sv_api_keys)) with
      | Some (_, actor) => mret actor
      | None =>
          durable_actor ← (match services.(sv_security) with
                           | Some _ => in_auth (authenticate_api_key (call.(ca_outside) 0%nat) key)
                           | None => mret None
                           end);
          match durable_actor with Some actor => mret actor | None => raise (http_error 401 "invalid API key") end
      end
  end.
Definition viewer : M World Actor :=
  actor ← authenticate;
  _ ← lift (raise_if (negb (bool_decide (actor.(ac_role) ∈ ["viewer"; "operator"; "admin"]))) (http_error 403 "viewer, operator, or admin role required"));
  mret actor.
Definition bearer : result string :=
  match call.(ca_authorization) with
  | Some authorization => if String.prefix "Bearer " authorization then Ok (String.substring 7 (String.length authorization - 7) authorization)
                          else Err (http_error 401 "session bearer token required")
  | None => Err (http_error 401 "session bearer token required")
  end.
(** A route that is only there with the identity store. *)
Definition with_security {A} (f : Security -> M World A) : M World A :=
  match services.(sv_security) with Some s => f s | None => raise (http_error 404 "Not Found") end.
Definition admin_only (actor : Actor) : result unit := raise_if (negb (actor.(ac_role) ==p "admin")) (http_error 403 "admin role required").

(** ** Identity *)

Definition login_route (username password : string) : M World AuthSession :=
  with_security (fun security =>
    _ ← lift (declared (length_within 1 128 username && length_within 1 1024 password));
    session ← in_auth (login scrypt security (call.(ca_outside) 0%nat) username password (default "unknown" call.(ca_host)));
    match session with Some s => mret s | None => raise (http_error 401 "invalid credentials or account locked") end).
Record SessionBody := { sb_subject : string; sb_username : string; sb_role : string }.
Definition auth_session_route : M World SessionBody :=
  with_security (fun _ =>
    token ← lift bearer;
    found ← in_auth (session_actor (call.(ca_outside) 0%nat) token true);
    match found with
    | None => raise (http_error 401 "invalid or revoked session")
    | Some actor =>
        name ← in_auth (session_username (call.(ca_outside) 1%nat) token);
        let username := match name with Some n => if str_empty n then actor.(ac_actor_id) else n | None => actor.(ac_actor_id) end in
        mret {| sb_subject := actor.(ac_actor_id); sb_username := username; sb_role := actor.(ac_role) |}
    end).
Definition logout_route : M World unit :=
  with_security (fun _ =>
    token ← lift bearer;
    actor ← in_auth (session_actor (call.(ca_outside) 0%nat) token false);
    in_auth (revoke_session (call.(ca_outside) 1%nat) token (ac_actor_id <$> actor))).
Definition create_api_key_route (name actor_id role : string) : M World (string * string) :=
  with_security (fun _ =>
    actor ← authenticate;
    _ ← lift (declared (length_within 1 128 name && length_within 1 128 actor_id));
    _ ← lift (admin_only actor);
    translating (fun e => match e with ValueError m => http_error 422 m | e => e end) (in_auth (create_api_key (call.(ca_outside) 1%nat) name actor_id role))).
Definition revoke_api_key_route (key_id : string) : M World unit :=
  with_security (fun _ =>
    actor ← authenticate;
    _ ← lift (admin_only actor);
    changed ← in_auth (revoke_api_key (call.(ca_outside) 1%nat) key_id actor.(ac_actor_id));
    lift (raise_if (negb changed) (http_error 404 "active API key not found"))).

(** ** Operations *)

Definition market_value (value : string) : result Market :=
  match List.find (fun m => Market_value m ==p value) all_markets with Some m => Ok m | None => Err (http_error 404 "unknown market") end.

Record MarketOverview := {
  ov_market : Market; ov_worker_state : WorkerState; ov_last_heartbeat : option datetime; ov_provider_health : option FeedRow;
  ov_open_positions : Z; ov_outcomes : Z }.
Definition market_overview (m : Market) : M World MarketOverview :=
  state ← in_ops (durable_worker_state m);
  heartbeat ← in_ops (latest_heartbeat m);
  health ← in_ops (market_provider_health m);
  mret {| ov_market := m; ov_worker_state := state; ov_last_heartbeat := heartbeat; ov_provider_health := health;
          ov_open_positions := Z.of_nat (length (services.(sv_positions) m)); ov_outcomes := Z.of_nat (length (services.(sv_outcomes) m)) |}.
Fixpoint each_market (l : list Market) : M World (list MarketOverview) :=
  match l with [] => mret [] | m :: l => o ← market_overview m; rest ← each_market l; mret (o :: rest) end.
Definition overview_route : M World (list MarketOverview) := _ ← viewer; each_market all_markets.

Record HealthBody := { hb_market : Market; hb_worker_state : WorkerState; hb_last_heartbeat : option datetime; hb_providers : option FeedRow }.
Definition health_route (market : string) : M World HealthBody :=
  _ ← viewer;
  scoped ← lift (market_value market);
  state ← in_ops (durable_worker_state scoped);
  heartbeat ← in_ops (latest_heartbeat scoped);
  health ← in_ops (market_provider_health scoped);
  mret {| hb_market := scoped; hb_worker_state := state; hb_last_heartbeat := heartbeat; hb_providers := health |}.

(** ** Budget *)

Definition with_finops {A} (f : FinOpsGuard -> M World A) : M World A :=
  match services.(sv_finops) with Some g => f g | None => raise (http_error 404 "Not Found") end.
Record FinOpsBody := {
  fb_provider : string; fb_billing_mode : BillingMode; fb_requests : Z; fb_tokens : Z; fb_cost : Decimal;
  fb_kill_switch : bool; fb_kill_reason : option string; fb_monthly_fee : option Decimal }.
Definition finops_status_route : M World FinOpsBody :=
  with_finops (fun guard =>
    _ ← viewer;
    w ← get_state;
    let ledger := w.(aw_finops) in
    let used := daily ledger (date_of call.(ca_now)) in
    mret {| fb_provider := guard.(fg_provider); fb_billing_mode := guard.(fg_billing_mode); fb_requests := used.(du_requests); fb_tokens := used.(du_tokens);
            fb_cost := used.(du_marginal_cost_usd); fb_kill_switch := ledger.(fl_kill_switch); fb_kill_reason := ledger.(fl_kill_reason);
            fb_monthly_fee := sp_monthly_fee_usd <$> guard.(fg_subscription) |}).
Definition finops_alerts_route : M World (list FinOpsAlert) :=
  with_finops (fun _ => _ ← viewer; w ← get_state; mret (dict_values w.(aw_finops).(fl_alerts))).
Definition finops_kill_switch_route (active : bool) (reason : string) : M World (bool * option string) :=
  with_finops (fun _ =>
    actor ← authenticate;
    _ ← lift (declared (1 <=? str_len reason));
    _ ← lift (admin_only actor);
    _ ← in_finops (set_kill_switch active (actor.(ac_actor_id) +:+ ": " +:+ reason) call.(ca_now));
    w ← get_state;
    mret (w.(aw_finops).(fl_kill_switch), w.(aw_finops).(fl_kill_reason))).
Definition qwen_chat_route (body : payload) (estimated_input_tokens : Z) (market : option string) (component reason : string) (ended : datetime) : M World payload :=
  match services.(sv_qwen_gateway) with
  | None => raise (http_error 404 "Not Found")
  | Some gateway =>
      _ ← authenticate;
      _ ← lift (declared ((0 <=? estimated_input_tokens) && (1 <=? str_len component) && (1 <=? str_len reason)));
      scoped ← lift (match market with Some m => m ← market_value m; Ok (Some m) | None => Ok None end);
      let attribution := {| at_market := scoped; at_component := component; at_reason := reason |} in
      translating (fun e => match e with PermissionError m => http_error 429 m | ValueError m => http_error 422 m | e => e end)
        (_ ← lift (Attribution_post_init attribution);
         in_finops (complete_call gateway.(gw_guard) gateway.(gw_scope) gateway.(gw_transport) body attribution estimated_input_tokens call.(ca_now) ended))
  end.

(** ** Read models *)

Definition page_limits (limit hi offset : Z) : result unit := declared ((1 <=? limit) && (limit <=? hi) && (0 <=? offset)).
Definition authoritative_page (resource : string) (market : option Market) (limit offset : Z) (filters : dict string string) : M World Page :=
  match services.(sv_read_store) with
  | None => raise (http_exception 501 (JObj [("code", JStr "AUTHORITATIVE_READ_MODEL_UNAVAILABLE"); ("resource", JStr resource)]))
  | Some page => translating (fun e => match e with ValueError m => http_error 422 m | e => e end) (in_reads (page resource market limit offset filters))
  end.
Record PageBody := { pb_items : list record; pb_limit : Z; pb_offset : Z; pb_total : Z; pb_freshest_at : option datetime; pb_authoritative : bool }.
Definition page_body (page : Page) : PageBody := {|
  pb_items := page.(pg_items); pb_limit := page.(pg_limit); pb_offset := page.(pg_offset); pb_total := page.(pg_total);
  pb_freshest_at := page.(pg_freshest_at); pb_authoritative := true |}.
(** [{key: value for ... if value is not None}] *)
Definition given (values : list (string * option string)) : dict string string :=
  Dict (omap (M := list) (fun '(key, value) => (fun v => (key, v)) <$> value) values).

(** A page of one market's resource. *)
Definition market_page (resource market : string) (hi limit offset : Z) (ok : bool) (filters : dict string string) : M World PageBody :=
  _ ← viewer;
  _ ← lift (page_limits limit hi offset);
  _ ← lift (declared ok);
  scoped ← lift (market_value market);
  page ← authoritative_page resource (Some scoped) limit offset filters;
  mret (page_body page).
Definition candles_route (market symbol timeframe : string) (limit offset : Z) : M World PageBody :=
  market_page "candles" market 5000 limit offset ((1 <=? str_len symbol) && (1 <=? str_len timeframe)) (Dict [("symbol", symbol); ("timeframe", timeframe)]).
Definition features_route (market : string) (symbol timeframe : option string) (limit offset : Z) : M World PageBody :=
  market_page "features" market 500 limit offset true (given [("symbol", symbol); ("timeframe", timeframe)]).
Definition universe_route (market : string) (symbol provider : option string) (enabled : option bool) (limit offset : Z) : M World PageBody :=
  market_page "universe" market 1000 limit offset true
    (given [("symbol", symbol); ("provider", provider); ("enabled", (fun b : bool => if b then "True" else "False") <$> enabled)]).
Definition orders_route (market : string) (symbol action state : option string) (limit offset : Z) : M World PageBody :=
  market_page "orders" market 500 limit offset true (given [("symbol", symbol); ("action", action); ("state", state)]).
Definition trades_route (market : string) (symbol strategy_key : option string) (limit offset : Z) : M World PageBody :=
  market_page "trades" market 500 limit offset true (given [("symbol", symbol); ("strategy_key", strategy_key)]).
Definition positions_route (market : string) (symbol state : option string) (limit offset : Z) : M World PageBody :=
  market_page "positions" market 500 limit offset true (given [("symbol", symbol); ("state", state)]).
Definition decision_events_route (market : string) (symbol timeframe stage status reason_code : option string) (limit offset : Z) : M World PageBody :=
  market_page "decisions" market 500 limit offset true
    (given [("symbol", symbol); ("timeframe", timeframe); ("stage", stage); ("status", status); ("reason_code", reason_code)]).
Definition signals_route (market : string) (symbol timeframe strategy_key action cycle_id : option string) (limit offset : Z) : M World PageBody :=
  market_page "signals" market 500 limit offset true
    (given [("symbol", symbol); ("timeframe", timeframe); ("strategy_key", strategy_key); ("action", action); ("cycle_id", cycle_id)]).

(** The resources of all markets, and their routes. *)
Definition global_resources : dict string string := Dict [
  ("alerts", "alerts"); ("reports", "reports"); ("settings", "settings"); ("audit", "audit");
  ("strategy-lab/strategies", "strategies"); ("strategy-lab/validations", "validations")].
Definition global_page_route (route : string) (market : option string) (limit offset : Z) : M World PageBody :=
  match global_resources !! route with
  | None => raise (http_error 404 "Not Found")
  | Some resource =>
      _ ← viewer;
      _ ← lift (page_limits limit 500 offset);
      scoped ← lift (match market with Some m => m ← market_value m; Ok (Some m) | None => Ok None end);
      page ← authoritative_page resource scoped limit offset ∅;
      mret (page_body page)
  end.

Definition decision_cycle_route (cycle_id : string) (limit offset : Z) : M World (list Decision + PageBody) :=
  match services.(sv_decision_ledger) with
  | Some for_cycle => _ ← viewer; found ← in_reads (for_cycle cycle_id); mret (inl found)
  | None =>
      _ ← viewer;
      _ ← lift (page_limits limit 500 offset);
      page ← authoritative_page "decisions" None limit offset (Dict [("cycle_id", cycle_id)]);
      mret (inr (page_body page))
  end.
Definition history_status_route (market symbol timeframe : string) : M World (HistoryStatus + PageBody) :=
  _ ← viewer;
  _ ← lift (declared ((1 <=? str_len symbol) && (1 <=? str_len timeframe)));
  scoped ← lift (market_value market);
  match services.(sv_history_jobs) (scoped, symbol, timeframe), services.(sv_history_engines) scoped with
  | Some job, Some engine => w ← get_state; status ← lift (engine.(en_status) job call.(ca_now) w.(aw_history)); mret (inl status)
  | _, _ =>
      page ← authoritative_page "history" (Some scoped) 1 0 (Dict [("symbol", symbol); ("timeframe", timeframe)]);
      match page.(pg_items) with
      | [] => raise (http_error 404 "no authoritative history run")
      | _ => mret (inr (page_body page))
      end
  end.
Definition nse_session_route : M World NseSessionSnapshot := _ ← viewer; lift (nse_equity_session kolkata call.(ca_now) environ).

(** ** Aggregates *)

(** [while offset < first.total], as often as that takes *)
Fixpoint more_rows (fuel : nat) (resource : string) (market : Market) (filters : dict string string) (total offset : Z) (rows : list record) : M World (list record) :=
  match fuel with
  | O => mret rows
  | S fuel =>
      if offset <? total then
        page ← authoritative_page resource (Some market) 500 offset filters;
        more_rows fuel resource market filters total (offset + 500) (rows ++ page.(pg_items))
      else mret rows
  end.
Definition all_rows (resource : string) (market : Market) (filters : dict string string) : M World (Page * list record) :=
  first ← authoritative_page resource (Some market) 500 0 filters;
  rows ← more_rows (Z.to_nat (first.(pg_total) / 500)) resource market filters first.(pg_total) 500 first.(pg_items);
  mret (first, rows).

(** [float(row[key])] *)
Definition float_at (key : string) (row : record) : result float :=
  match row !! key with
  | None => Err (KeyError key)
  | Some (At _) => Err (TypeError "float() argument must be a string or a real number, not 'datetime.datetime'")
  | Some (Val v) => float_json v
  end.
Definition entry_notional (row : record) : result float :=
  quantity ← float_at "signed_quantity" row;
  price ← float_at "average_entry_price" row;
  Ok (PrimFloat.abs quantity * price)%float.
Definition sum_of (f : record -> result float) (rows : list record) : result float := l ← map_result f rows; Ok (py_sum l).
Record RiskBody := {
  rb_market : string; rb_open_positions : Z; rb_gross_entry_notional : float; rb_realized_pnl : float; rb_total_fees : float; rb_freshest_at : option datetime }.
Definition aggregate_risk_route (market : string) : M World RiskBody :=
  _ ← viewer;
  scoped ← lift (market_value market);
  '(page, rows) ← all_rows "positions" scoped (Dict [("state", "OPEN")]);
  gross ← lift (sum_of entry_notional rows);
  pnl ← lift (sum_of (float_at "realized_pnl") rows);
  fees ← lift (sum_of (float_at "total_fees") rows);
  mret {| rb_market := market; rb_open_positions := page.(pg_total); rb_gross_entry_notional := gross; rb_realized_pnl := pnl; rb_total_fees := fees;
          rb_freshest_at := page.(pg_freshest_at) |}.
Record PerformanceBody := {
  pf_market : string; pf_closed_trades : Z; pf_gross_pnl : float; pf_net_pnl : float; pf_total_fees : float; pf_wins : Z; pf_win_rate : option float;
  pf_freshest_at : option datetime }.
Definition performance_route (market : string) : M World PerformanceBody :=
  _ ← viewer;
  scoped ← lift (market_value market);
  '(page, rows) ← all_rows "trades" scoped ∅;
  net ← lift (map_result (float_at "net_pnl") rows);
  gross ← lift (sum_of (float_at "gross_pnl") rows);
  fees ← lift (sum_of (float_at "total_fees") rows);
  let wins := Z.of_nat (length (List.filter (fun x => PrimFloat.ltb 0 x) net)) in
  win_rate ← lift (match net with [] => Ok None | _ => r ← fdiv (float_of_Z wins) (float_of_Z (Z.of_nat (length net))); Ok (Some r) end);
  mret {| pf_market := market; pf_closed_trades := page.(pg_total); pf_gross_pnl := gross; pf_net_pnl := py_sum net; pf_total_fees := fees; pf_wins := wins;
          pf_win_rate := win_rate; pf_freshest_at := page.(pg_freshest_at) |}.

(** ** Commands *)

Definition command_of (value : string) : result Command :=
  match List.find (fun c => Command_value c ==p value) [START; STOP_COMMAND; DRAIN; REPAIR] with
  | Some REPAIR | None => Err (ValueError "unknown command")
  | Some c => Ok c
  end.
Definition runtime_command_route (market command : string) (confirmed : bool) (idempotency_key : string) : M World AuditRecord :=
  actor ← authenticate;
  _ ← lift (declared (1 <=? str_len idempotency_key));
  scoped ← lift (market_value market);
  translating (fun e => match e with
                        | ValueError _ => http_error 404 "unknown runtime command"
                        | PermissionError m => http_error 403 m
                        | RuntimeError m => http_error 409 m
                        | e => e
                        end)
    (parsed ← lift (command_of command);
     in_ops (durable_command call.(ca_now) {| cl_market := scoped; cl_command := parsed; cl_actor := actor; cl_key := idempotency_key;
       cl_confirmed := confirmed; cl_requested_at := call.(ca_now); cl_detail := "" |})).
Definition runtime_command_status_route (market idempotency_key : string) : M World QueueEntry :=
  _ ← viewer;
  scoped ← lift (market_value market);
  status ← in_ops (runtime_command_status idempotency_key);
  match status with
  | Some entry => if bool_decide (entry.(mq_row).(qr_command).(rq_market) = scoped) then mret entry else raise (http_error 404 "runtime command not found")
  | None => raise (http_error 404 "runtime command not found")
  end.
Record RepairBody := { re_audit : AuditRecord; re_runs : list HistoryRun }.
Definition repair_call (scoped : Market) (actor : Actor) (symbol timeframe idempotency_key : string) (confirmed : bool) : ControlCall := {|
  cl_market := scoped; cl_command := REPAIR; cl_actor := actor; cl_key := idempotency_key; cl_confirmed := confirmed;
  cl_requested_at := call.(ca_now); cl_detail := symbol +:+ "/" +:+ timeframe |}.
Definition history_repair_route (market symbol timeframe : string) (gaps : list datetime) (confirmed : bool) (idempotency_key : string) : M World RepairBody :=
  actor ← authenticate;
  _ ← lift (declared ((1 <=? str_len symbol) && (1 <=? str_len timeframe) && (Z.of_nat (length gaps) <=? 500) && (1 <=? str_len idempotency_key)));
  scoped ← lift (market_value market);
  match services.(sv_history_jobs) (scoped, symbol, timeframe), services.(sv_history_engines) scoped with
  | Some job, Some engine =>
      translating (fun e => match e with PermissionError m => http_error 403 m | ValueError m => http_error 409 m | e => e end)
        (existing ← in_ops (durable_audit_record idempotency_key);
         audit ← in_ops (durable_command call.(ca_now) (repair_call scoped actor symbol timeframe idempotency_key confirmed));
         runs ← (match existing with Some _ => mret [] | None => in_history (engine.(en_repair) job gaps call.(ca_now)) end);
         mret {| re_audit := audit; re_runs := runs |})
  | _, _ =>
      let reason := match services.(sv_history_unavailable_reason) with
                    | Some r => if str_empty r then "symbol/timeframe is outside the configured repair universe" else r
                    | None => "symbol/timeframe is outside the configured repair universe"
                    end in
      raise (http_exception 501 (JObj [("code", JStr "HISTORY_REPAIR_UNSUPPORTED"); ("reason", JStr reason)]))
  end.

(** ** Any request *)

Inductive request :=
| ReqLogin (username password : string)
| ReqSession
| ReqLogout
| ReqCreateKey (name actor_id role : string)
| ReqRevokeKey (key_id : string)
| ReqOverview
| ReqHealth (market : string)
| ReqFinOps
| ReqAlerts
| ReqKillSwitch (active : bool) (reason : string)
| ReqChat (body : payload) (estimated : Z) (market : option string) (component reason : string) (ended : datetime)
| ReqCycle (cycle_id : string) (limit offset : Z)
| ReqHistoryStatus (market symbol timeframe : string)
| ReqCandles (market symbol timeframe : string) (limit offset : Z)
| ReqFeatures (market : string) (symbol timeframe : option string) (limit offset : Z)
| ReqUniverse (market : string) (symbol provider : option string) (enabled : option bool) (limit offset : Z)
| ReqOrders (market : string) (symbol action state : option string) (limit offset : Z)
| ReqTrades (market : string) (symbol strategy_key : option string) (limit offset : Z)
| ReqPositions (market : string) (symbol state : option string) (limit offset : Z)
| ReqDecisions (market : string) (symbol timeframe stage status reason_code : option string) (limit offset : Z)
| ReqSignals (market : string) (symbol timeframe strategy_key action cycle_id : option string) (limit offset : Z)
| ReqGlobal (route : string) (market : option string) (limit offset : Z)
| ReqNseSession
| ReqRisk (market : string)
| ReqPerformance (market : string)
| ReqCommand (market command : string) (confirmed : bool) (key : string)
| ReqCommandStatus (market key : string)
| ReqRepair (market symbol timeframe : string) (gaps : list datetime) (confirmed : bool) (key : string).

Definition void {A} (m : M World A) : M World unit := _ ← m; mret ().
Definition serve (req : request) : M World unit :=
  match req with
  | ReqLogin u p => void (login_route u p)
  | ReqSession => void auth_session_route
  | ReqLogout => logout_route
  | ReqCreateKey n a r => void (create_api_key_route n a r)
  | ReqRevokeKey k => revoke_api_key_route k
  | ReqOverview => void overview_route
  | ReqHealth m => void (health_route m)
  | ReqFinOps => void finops_status_route
  | ReqAlerts => void finops_alerts_route
  | ReqKillSwitch a r => void (finops_kill_switch_route a r)
  | ReqChat b e m c r d => void (qwen_chat_route b e m c r d)
  | ReqCycle c l o => void (decision_cycle_route c l o)
  | ReqHistoryStatus m s t => void (history_status_route m s t)
  | ReqCandles m s t l o => void (candles_route m s t l o)
  | ReqFeatures m s t l o => void (features_route m s t l o)
  | ReqUniverse m s p e l o => void (universe_route m s p e l o)
  | ReqOrders m s a st l o => void (orders_route m s a st l o)
  | ReqTrades m s k l o => void (trades_route m s k l o)
  | ReqPositions m s st l o => void (positions_route m s st l o)
  | ReqDecisions m s t st su rc l o => void (decision_events_route m s t st su rc l o)
  | ReqSignals m s t k a c l o => void (signals_route m s t k a c l o)
  | ReqGlobal r m l o => void (global_page_route r m l o)
  | ReqNseSession => void nse_session_route
  | ReqRisk m => void (aggregate_risk_route m)
  | ReqPerformance m => void (performance_route m)
  | ReqCommand m c b k => void (runtime_command_route m c b k)
  | ReqCommandStatus m k => void (runtime_command_status_route m k)
  | ReqRepair m s t g b k => void (history_repair_route m s t g b k)
  end.
End Routes.
Arguments serve {H R} scrypt kolkata environ services call req _.

(** ** What a request may change *)

(** The keys and what they give, without the time of their last use. *)
Definition key_view (t : AuthTables) : list (string * string * string * option Z) :=
  (fun k => (k.(ak_key_id), k.(ak_actor_id), k.(ak_role), k.(ak_revoked_at))) <$> t.(at_api_keys).
Definition same_keys (t t' : AuthTables) : Prop := key_view t' = key_view t.
#[export] Instance same_keys_preorder : PreOrder same_keys.
Proof. split; [done|]. intros t1 t2 t3 E1 E2. unfold same_keys in *. congruence. Qed.

Section Effects.
Context {H R : Type}.
Abbreviation World := (ApiWorld H R).

Definition same_tables (s s' : Ops) : Prop := s'.(db_tables) = s.(db_tables).
#[export] Instance same_tables_preorder : PreOrder same_tables.
Proof. split; [done|]. intros t1 t2 t3 E1 E2. unfold same_tables in *. congruence. Qed.

(** Commands, budget, history and keys. *)
Record quiet (w w' : World) : Prop := {
  qt_ops : same_tables w.(aw_ops) w'.(aw_ops);
  qt_finops : w'.(aw_finops) = w.(aw_finops);
  qt_history : w'.(aw_history) = w.(aw_history);
  qt_keys : same_keys w.(aw_auth) w'.(aw_auth) }.
#[export] Instance quiet_preorder : PreOrder quiet.
Proof.
  split; [by intros w|]. intros w1 w2 w3 [A1 A2 A3 A4] [B1 B2 B3 B4]. split; [by etransitivity|congruence|congruence|by etransitivity].
Qed.

Lemma quiet_auth {A} (m : M AuthTables A) : preserves same_keys m -> preserves quiet (in_auth m).
Proof. intros Hm w. specialize (Hm w.(aw_auth)). unfold in_auth, zoom. destruct (m (aw_auth w)) as [r t]. by split. Qed.
Lemma quiet_reads {A} (m : M R A) : preserves quiet (in_reads m).
Proof. intros w. unfold in_reads, zoom. destruct (m (aw_reads w)) as [r t]. by split. Qed.
Lemma quiet_ops {A} (m : M Ops A) : preserves same_tables m -> preserves quiet (in_ops m).
Proof. intros Hm w. specialize (Hm w.(aw_ops)). unfold in_ops, zoom. destruct (m (aw_ops w)) as [r t]. by split. Qed.
Lemma quiet_translating {A} f (m : M World A) : preserves quiet m -> preserves quiet (translating f m).
Proof. intros Hm w. specialize (Hm w). unfold translating. by destruct (m w) as [[a|e] w']. Qed.
End Effects.

(** Statements that keep the keys. *)
Lemma key_view_used o p t : key_view {| at_users := t.(at_users); at_throttle := t.(at_throttle); at_sessions := t.(at_sessions);
  at_api_keys := update_where p (used_key o) t.(at_api_keys); at_audit := t.(at_audit) |} = key_view t.
Proof. unfold key_view, update_where. simpl. rewrite <- list_fmap_compose. apply list_fmap_ext. intros i k _. simpl. by destruct (p k). Qed.
Lemma keys_transaction {A} o (m : M AuthTables A) : preserves same_keys m -> preserves same_keys (auth_transaction o m).
Proof. intros Hm. apply transaction_preserves; [typeclasses eauto|]. intros t a t'. by apply preserves_run. Qed.
Ltac same_keys_call :=
  unfold login, session_actor, session_username, revoke_session, authenticate_api_key, when, login_check, login_grant, revoke_sessions, security_audit;
  repeat (preserve; try (apply keys_transaction); try (intros ?; exact (key_view_used _ _ _)); try (intros ?; reflexivity)).
Lemma authenticate_keys o key : preserves same_keys (authenticate_api_key o key).
Proof. same_keys_call. Qed.
Lemma login_keys scrypt self o u p s : preserves same_keys (login scrypt self o u p s).
Proof. same_keys_call. Qed.
Lemma session_actor_keys o token touch : preserves same_keys (session_actor o token touch).
Proof. same_keys_call. Qed.
Lemma session_username_keys o token : preserves same_keys (session_username o token).
Proof. same_keys_call. Qed.
Lemma revoke_session_keys o token a : preserves same_keys (revoke_session o token a).
Proof. same_keys_call. Qed.

Lemma reading_tables {A} (f : OpsTables -> result A) : preserves same_tables (reading (query f) : M Ops A).
Proof. intros s. destruct (reading (query f) s) as [r s'] eqn:E. by apply reading_query in E as [E _]. Qed.
Lemma worker_state_tables m : preserves same_tables (durable_worker_state m).
Proof.
  unfold durable_worker_state. apply preserves_bind; [typeclasses eauto|apply reading_tables|]. intros [row|]; [apply preserves_ret; typeclasses eauto|].
  intros s. unfold in_memory, zoom. by destruct ((_ : M _ _) (db_local s)).
Qed.
Lemma heartbeat_tables m : preserves same_tables (latest_heartbeat m).
Proof. unfold latest_heartbeat. preserve. apply reading_tables. Qed.
Lemma health_tables m : preserves same_tables (market_provider_health m).
Proof. apply reading_tables. Qed.
Lemma audit_tables k : preserves same_tables (durable_audit_record k).
Proof. apply reading_tables. Qed.
Lemma status_tables k : preserves same_tables (runtime_command_status k).
Proof. apply reading_tables. Qed.
#[export] Hint Resolve quiet_auth quiet_reads quiet_ops quiet_translating authenticate_keys login_keys session_actor_keys session_username_keys
  revoke_session_keys worker_state_tables heartbeat_tables health_tables audit_tables status_tables : preserves.

Section Authority.
Context {H R : Type} (scrypt : string -> string -> Z -> Z -> Z -> result string) (kolkata : Z -> Z) (environ : dict string string).
Context (services : ApiServices H R) (call : HttpCall).
Abbreviation World := (ApiWorld H R).
Abbreviation authenticate := (authenticate services call : M World Actor).

Lemma authenticate_quiet : preserves quiet authenticate.
Proof. unfold Api.authenticate. preserve. Qed.
Lemma viewer_quiet : preserves quiet (viewer services call).
Proof. unfold viewer. pose proof authenticate_quiet. preserve. Qed.
Lemma page_quiet resource market limit offset filters : preserves quiet (authoritative_page services resource market limit offset filters : M World Page).
Proof. unfold authoritative_page. preserve. Qed.
#[local] Hint Resolve authenticate_quiet viewer_quiet page_quiet : preserves.
Lemma more_rows_quiet fuel resource market filters total : forall offset rows, preserves quiet (more_rows services fuel resource market filters total offset rows : M World _).
Proof. induction fuel as [|fuel IH]; intros offset rows; simpl; preserve. Qed.
Lemma each_market_quiet l : preserves quiet (each_market services l : M World _).
Proof. induction l; simpl; unfold market_overview; preserve. Qed.
#[local] Hint Resolve more_rows_quiet each_market_quiet : preserves.

(** The requests that can only read, or end in the caller's own identity. *)
Definition mutating (req : request) : bool :=
  match req with ReqCreateKey _ _ _ | ReqRevokeKey _ | ReqKillSwitch _ _ | ReqChat _ _ _ _ _ _ | ReqCommand _ _ _ _ | ReqRepair _ _ _ _ _ _ => true | _ => false end.
Lemma reads_quiet req : mutating req = false -> preserves quiet (serve scrypt kolkata environ services call req).
Proof.
  destruct req; intros [=]; simpl; unfold void, login_route, auth_session_route, logout_route, overview_route, health_route, finops_status_route, finops_alerts_route,
    decision_cycle_route, history_status_route, candles_route, features_route, universe_route, orders_route, trades_route, positions_route, decision_events_route,
    signals_route, market_page, global_page_route, nse_session_route, aggregate_risk_route, performance_route, all_rows, runtime_command_status_route,
    with_security, with_finops; preserve.
Qed.

(** What the others may do for a caller: keys and the budget's switch for
    administrators, commands and repairs for operators, confirmed, and with
    the record of who asked for what; completions for anyone with a key. *)
Definition recorded (w w' : World) (market command key detail : string) (actor : Actor) : Prop :=
  exists r, w'.(aw_ops).(db_tables).(ot_audit) = w.(aw_ops).(db_tables).(ot_audit) ++ [r] /\ Market_value r.(ar_market) = market /\
    Command_value r.(ar_command) = command /\ r.(ar_idempotency_key) = key /\ r.(ar_actor_id) = actor.(ac_actor_id) /\ r.(ar_detail) = detail.
Definition permitted (req : request) (actor : Actor) (w w' : World) : Prop :=
  match req with
  | ReqCreateKey _ _ _ | ReqRevokeKey _ =>
      actor.(ac_role) = "admin" /\ same_tables w.(aw_ops) w'.(aw_ops) /\ w'.(aw_finops) = w.(aw_finops) /\ w'.(aw_history) = w.(aw_history)
  | ReqKillSwitch _ _ => actor.(ac_role) = "admin" /\ same_tables w.(aw_ops) w'.(aw_ops) /\ w'.(aw_history) = w.(aw_history) /\ same_keys w.(aw_auth) w'.(aw_auth)
  | ReqChat _ _ _ _ _ _ => same_tables w.(aw_ops) w'.(aw_ops) /\ w'.(aw_history) = w.(aw_history) /\ same_keys w.(aw_auth) w'.(aw_auth)
  | ReqCommand market command confirmed key =>
      can_operate actor = true /\ confirmed = true /\ w'.(aw_finops) = w.(aw_finops) /\ w'.(aw_history) = w.(aw_history) /\ same_keys w.(aw_auth) w'.(aw_auth) /\
      recorded w w' market command key "" actor
  | ReqRepair market symbol timeframe _ confirmed key =>
      can_operate actor = true /\ confirmed = true /\ w'.(aw_finops) = w.(aw_finops) /\ same_keys w.(aw_auth) w'.(aw_auth) /\
      recorded w w' market "repair" key (symbol +:+ "/" +:+ timeframe) actor
  | _ => False
  end.

Lemma authenticated {A} (k : Actor -> M World A) w r w' : (authenticate ≫= k) w = (r, w') ->
  quiet w w' \/ exists actor w1, (authenticate w).1 = Ok actor /\ quiet w w1 /\ k actor w1 = (r, w').
Proof.
  pose proof (authenticate_quiet w) as Hq. unfold mbind, M_bind. destruct (authenticate w) as [[actor|e] w1] eqn:E; simpl in Hq.
  - intros Hk. right. by exists actor, w1.
  - intros [= _ <-]. by left.
Qed.
Lemma checked {S A B} (c : result A) (k : A -> M S B) s r s' : (lift c ≫= k) s = (r, s') -> s' = s \/ exists a, c = Ok a /\ k a s = (r, s').
Proof. unfold mbind, M_bind, lift. destruct c as [a|e]; [|intros [= _ <-]; by left]. intros Hk. right. by exists a. Qed.
Lemma translated {S A} f (m : M S A) s r s' : translating f m s = (r, s') -> exists r', m s = (r', s') /\ is_ok r' = is_ok r.
Proof. unfold translating. destruct (m s) as [[a|e] s1]; intros [= <- <-]; by eexists. Qed.
Lemma voided {A} (m : M World A) w r w' : void m w = (r, w') -> exists r', m w = (r', w').
Proof. unfold void, mbind, M_bind. destruct (m w) as [[a|e] w1]; intros [= _ <-]; by eexists. Qed.
Lemma market_value_ok value m : market_value value = Ok m -> Market_value m = value.
Proof.
  unfold market_value. destruct (List.find _ _) as [m'|] eqn:E; [|done]. intros [= ->]. by apply find_some in E as [_ E%(proj1 (py_eq_true _ _))].
Qed.
Lemma command_of_ok value c : command_of value = Ok c -> Command_value c = value.
Proof.
  unfold command_of. destruct (List.find _ _) as [c'|] eqn:E; [|done]. apply find_some in E as [_ E%(proj1 (py_eq_true _ _))].
  by destruct c'; intros [= <-].
Qed.
Lemma zoomed {S T A} (get : S -> T) set (m : M T A) (s : S) r s' : zoom get set m s = (r, s') -> exists t, m (get s) = (r, t) /\ s' = set t s.
Proof. unfold zoom. destruct (m (get s)) as [r' t]. intros [= <- <-]. by exists t. Qed.

(** A command either changes no table or is recorded. *)
Lemma command_outcome now c s r s' : durable_command now c s = (r, s') ->
  (s'.(db_tables) = s.(db_tables) /\ (is_ok r = true -> is_Some (List.find (fun a => a.(ar_idempotency_key) ==p c.(cl_key)) s.(db_tables).(ot_audit)))) \/
  (is_ok r = true /\ ~ c.(cl_key) ∈ (ar_idempotency_key <$> s.(db_tables).(ot_audit)) /\ can_operate c.(cl_actor) = true /\ c.(cl_confirmed) = true /\
   exists a, s'.(db_tables).(ot_audit) = s.(db_tables).(ot_audit) ++ [a] /\ a.(ar_market) = c.(cl_market) /\ a.(ar_command) = c.(cl_command) /\
     a.(ar_idempotency_key) = c.(cl_key) /\ a.(ar_actor_id) = c.(cl_actor).(ac_actor_id) /\ a.(ar_detail) = c.(cl_detail)).
Proof.
  intros E. pose proof (durable_command_effect now c s) as Hc. rewrite E in Hc. destruct r as [a|e]; [|by left].
  destruct Hc as [(Hfound & _ & Hc)|(Hk & (Ho & _ & Hconf & _) & _ & previous & Ha & Haudit & _)]; [left; by rewrite Hfound|]. right. do 4 (split; [done|]). exists a.
  split; [done|]. by rewrite Ha.
Qed.

(** Each route that may change something. *)
Abbreviation outcome req w w' := (quiet w w' \/ exists actor, (authenticate w).1 = Ok actor /\ permitted req actor w w').

Lemma admin_ok actor u : admin_only actor = Ok u -> actor.(ac_role) = "admin".
Proof. unfold admin_only. intros E%raise_if_ok%negb_false_iff. by apply (proj1 (py_eq_true _ _)) in E. Qed.
Lemma absent_route e w r (w' : World) : (raise e : M World unit) w = (r, w') -> quiet w w'.
Proof. by intros [= _ <-]. Qed.

Lemma create_key_outcome n a role w r w' : create_api_key_route services call n a role w = (r, w') -> outcome (ReqCreateKey n a role) w w'.
Proof.
  unfold create_api_key_route, with_security. destruct (sv_security services); [|intros [= _ <-]; by left].
  intros [Hq|(actor & w1 & Ha & Hq & E)]%authenticated; [by left|]. apply checked in E as [->|([] & _ & E)]; [by left|].
  apply checked in E as [->|([] & Hadmin%admin_ok & E)]; [by left|]. apply translated in E as (r1 & (t & _ & ->)%zoomed & _).
  right. exists actor. split; [done|]. by destruct Hq.
Qed.
Lemma revoke_key_outcome k w r w' : revoke_api_key_route services call k w = (r, w') -> outcome (ReqRevokeKey k) w w'.
Proof.
  unfold revoke_api_key_route, with_security. destruct (sv_security services); [|intros [= _ <-]; by left].
  intros [Hq|(actor & w1 & Ha & Hq & E)]%authenticated; [by left|]. apply checked in E as [->|([] & Hadmin%admin_ok & E)]; [by left|].
  right. exists actor. split; [done|]. unfold mbind, M_bind in E. destruct (in_auth _ w1) as [rc w2] eqn:E2. apply zoomed in E2 as (t & _ & ->).
  assert (w' = MkApi (aw_ops w1) t (aw_finops w1) (aw_history w1) (aw_reads w1)) as -> by (destruct rc; [by injection E as _ <-|by injection E as _ <-]).
  by destruct Hq.
Qed.
Lemma kill_switch_outcome a reason w r w' : finops_kill_switch_route services call a reason w = (r, w') -> outcome (ReqKillSwitch a reason) w w'.
Proof.
  unfold finops_kill_switch_route, with_finops. destruct (sv_finops services); [|intros [= _ <-]; by left].
  intros [Hq|(actor & w1 & Ha & Hq & E)]%authenticated; [by left|]. apply checked in E as [->|([] & _ & E)]; [by left|].
  apply checked in E as [->|([] & Hadmin%admin_ok & E)]; [by left|].
  right. exists actor. split; [done|]. unfold mbind, M_bind in E. destruct (in_finops _ w1) as [rc w2] eqn:E2. apply zoomed in E2 as (t & _ & ->).
  assert (w' = MkApi (aw_ops w1) (aw_auth w1) t (aw_history w1) (aw_reads w1)) as -> by (destruct rc; [by injection E as _ <-|by injection E as _ <-]).
  by destruct Hq.
Qed.
Lemma chat_outcome b e m c reason d w r w' : qwen_chat_route services call b e m c reason d w = (r, w') -> outcome (ReqChat b e m c reason d) w w'.
Proof.
  unfold qwen_chat_route. destruct (sv_qwen_gateway services); [|intros [= _ <-]; by left].
  intros [Hq|(actor & w1 & Ha & Hq & E)]%authenticated; [by left|]. apply checked in E as [->|([] & _ & E)]; [by left|].
  apply checked in E as [->|(scoped & _ & E)]; [by left|]. apply translated in E as (r1 & E & _). apply checked in E as [->|([] & _ & E)]; [by left|].
  apply zoomed in E as (t & _ & ->). right. exists actor. split; [done|]. by destruct Hq.
Qed.
Lemma command_route_outcome m c confirmed key w r w' : runtime_command_route services call m c confirmed key w = (r, w') -> outcome (ReqCommand m c confirmed key) w w'.
Proof.
  intros [Hq|(actor & w1 & Ha & Hq & E)]%authenticated; [by left|]. apply checked in E as [->|([] & _ & E)]; [by left|].
  apply checked in E as [->|(scoped & Hm%market_value_ok & E)]; [by left|]. apply translated in E as (r1 & E & _).
  apply checked in E as [->|(parsed & Hc%command_of_ok & E)]; [by left|]. apply zoomed in E as (t & E & ->). destruct Hq as [Q1 Q2 Q3 Q4].
  apply command_outcome in E as [[E _]|(_ & _ & Ho & Hconf & a & Haudit & H1 & H2 & H3 & H4 & H5)].
  - left. split; try done. unfold same_tables in *. simpl. by rewrite E.
  - right. exists actor. split; [done|]. cbn in *. do 5 (split; [done|]). exists a. rewrite <- Q1. split; [done|]. rewrite H1, H2. done.
Qed.
Lemma repair_route_outcome m s t gaps confirmed key w r w' :
  history_repair_route services call m s t gaps confirmed key w = (r, w') -> outcome (ReqRepair m s t gaps confirmed key) w w'.
Proof.
  intros [Hq|(actor & w1 & Ha & Hq & E)]%authenticated; [by left|]. apply checked in E as [->|([] & _ & E)]; [by left|].
  apply checked in E as [->|(scoped & Hm%market_value_ok & E)]; [by left|].
  destruct (sv_history_jobs services _) as [job|]; [|injection E as _ <-; by left]. destruct (sv_history_engines services scoped) as [engine|]; [|injection E as _ <-; by left].
  apply translated in E as (r1 & E & _). destruct Hq as [Q1 Q2 Q3 Q4]. unfold mbind, M_bind in E.
  destruct (in_ops (durable_audit_record key) w1) as [rx w2] eqn:E1. apply zoomed in E1 as (o1 & E1 & ->). apply audit_read in E1 as [Ht1 Hf].
  destruct rx as [existing|e]; [|injection E as _ <-; left; split; try done; unfold same_tables in *; simpl; congruence]. specialize (Hf _ eq_refl).
  destruct (in_ops _ _) as [rc w3] eqn:E2 in E. apply zoomed in E2 as (o2 & E2 & ->). cbn [aw_ops] in E2.
  apply command_outcome in E2 as [[E2 Hfound]|(Hok & Hk & Ho & Hconf & a & Haudit & H1 & H2 & H3 & H4 & H5)].
  - assert (Hsame : aw_history w' = aw_history w1 /\ aw_ops w' = o2 /\ aw_finops w' = aw_finops w1 /\ aw_auth w' = aw_auth w1).
    { destruct rc as [audit|e]; [|by injection E as _ <-]. destruct existing as [x|]; [by injection E as _ <-|].
      destruct (Hfound eq_refl) as [x Hx]. rewrite Ht1 in Hx. cbn in Hx. by rewrite Hx in Hf. }
    destruct Hsame as (S1 & S2 & S3 & S4). left. split; unfold same_tables, same_keys in *; congruence.
  - assert (Hsame : aw_ops w' = o2 /\ aw_finops w' = aw_finops w1 /\ aw_auth w' = aw_auth w1).
    { destruct rc as [audit|e]; [|done]. destruct existing as [x|]; [by injection E as _ <-|].
      destruct (in_history _ _) as [rh w4] eqn:E4 in E. apply zoomed in E4 as (h & _ & ->). destruct rh; by injection E as _ <-. }
    destruct Hsame as (S2 & S3 & S4). right. exists actor. split; [done|]. cbn in *. split; [done|]. split; [done|]. split; [congruence|].
    split; [unfold same_keys in *; congruence|]. exists a. rewrite S2, Haudit, Ht1. unfold same_tables in Q1. rewrite Q1. split; [done|]. rewrite H1, H2. done.
Qed.

(** C19. Whatever a request asks for, and whoever sends it, the commands, the
    budget, the history and the API keys are left as they were, unless the
    caller's key identifies an actor with the role the route needs: an
    administrator for keys and the budget's switch, an operator who confirmed
    it for runtime commands and history repairs, whose audit record under the
    request's key then names that actor and that command. *)
Theorem mutations_authorised req w r w' : serve scrypt kolkata environ services call req w = (r, w') ->
  quiet w w' \/ exists actor, (authenticate w).1 = Ok actor /\ permitted req actor w w'.
Proof.
  destruct (mutating req) eqn:Em; [|intros E; left; by eapply preserves_run; [apply (reads_quiet req Em)|]].
  destruct req; try done; simpl; intros E; try apply voided in E as [r' E];
    [by eapply create_key_outcome|by eapply revoke_key_outcome|by eapply kill_switch_outcome|by eapply chat_outcome|by eapply command_route_outcome|by eapply repair_route_outcome].
Qed.
End Authority.

(** ** Aggregates cover all rows *)

Section AllRows.
Context {H : Type} (services : ApiServices H ReadRecords).
Hypothesis memory : services.(sv_read_store) = Some memory_page.

Lemma memory_read resource market limit offset filters w :
  authoritative_page services resource market limit offset filters w = ((memory_page resource market limit offset filters w.(aw_reads)).1, w).
Proof. unfold authoritative_page. rewrite memory. by destruct w. Qed.

Lemma more_rows_take resource market filters w : let sel := selected w.(aw_reads) resource (Some market) filters in
  forall fuel offset, 0 <= offset -> Z.of_nat (length sel) <= offset + 500 * Z.of_nat fuel ->
  more_rows services fuel resource market filters (Z.of_nat (length sel)) offset (take (Z.to_nat offset) sel) w = (Ok sel, w).
Proof.
  intros sel fuel. induction fuel as [|fuel IH]; intros offset Ho Hf; cbn [more_rows]; [by rewrite firstn_all2 by lia|].
  destruct (offset <? Z.of_nat (length sel)) eqn:El; [|by rewrite firstn_all2 by lia].
  unfold mbind, M_bind. rewrite memory_read. cbn [memory_page fst pg_items]. fold sel. unfold window_of. rewrite take_take_drop.
  replace (Z.to_nat offset + Z.to_nat 500)%nat with (Z.to_nat (offset + 500)) by lia. apply IH; lia.
Qed.

(** The rows an aggregate adds up are all the rows of its resource: however
    many there are, the pages are read to the last one and none twice. *)
Theorem all_rows_complete resource market filters w : exists first,
  all_rows services resource market filters w = (Ok (first, selected w.(aw_reads) resource (Some market) filters), w) /\
  first.(pg_total) = Z.of_nat (length (selected w.(aw_reads) resource (Some market) filters)).
Proof.
  set (sel := selected w.(aw_reads) resource (Some market) filters).
  exists {| pg_items := window_of 0 500 sel; pg_total := Z.of_nat (length sel); pg_limit := 500; pg_offset := 0; pg_freshest_at := freshest (mjoin (timestamps_of <$> sel)) |}.
  split; [|done]. unfold all_rows, mbind, M_bind. rewrite memory_read. cbn [memory_page fst pg_items pg_total]. fold sel.
  change (window_of 0 500 sel) with (take (Z.to_nat 500) sel). unfold sel. rewrite more_rows_take; [done|lia|].
  pose proof (Z.div_mod (Z.of_nat (length (selected (aw_reads w) resource (Some market) filters))) 500 ltac:(lia)).
  pose proof (Z.mod_pos_bound (Z.of_nat (length (selected (aw_reads w) resource (Some market) filters))) 500 ltac:(lia)). lia.
Qed.
End AllRows.

(** ** The configured keys (src/nanodelta/api/runtime.py) *)

(** [_required_secret]; a file is its text, [None] when it cannot be read *)
Definition required_secret (environ : dict string string) (files : string -> option string) (path_variable : string) : result string :=
  let missing := RuntimeError (path_variable +:+ " is required") in
  match environ !! path_variable with
  | None => Err missing
  | Some configured =>
      _ ← raise_if (str_empty configured) missing;
      match files configured with
      | None => Err (OtherException "FileNotFoundError" configured)
      | Some text => _ ← raise_if (str_blank text) (RuntimeError (path_variable +:+ " points to an empty secret")); Ok (str_strip text)
      end
  end.
(** [_api_keys]; a JSON file is the value it holds, [None] when it cannot be
    read or decoded *)
Fixpoint role_keys (parsed : payload) (roles : list string) (keys : dict string Actor) : result (dict string Actor) :=
  match roles with
  | [] => Ok keys
  | role :: roles =>
      match jget role parsed with
      | Some (JStr value) =>
          _ ← raise_if (str_blank value) (RuntimeError ("backend API key for " +:+ role +:+ " is required"));
          role_keys parsed roles (<[value := {| ac_actor_id := "ui-" +:+ role; ac_role := role |}]> keys)
      | _ => Err (RuntimeError ("backend API key for " +:+ role +:+ " is required"))
      end
  end.
Definition api_keys (environ : dict string string) (files : string -> option string) (json_files : string -> option json) : result (dict string Actor) :=
  secret ← required_secret environ files "NANODELTA_ADMIN_API_KEY_FILE";
  let keys : dict string Actor := <[secret := {| ac_actor_id := "deployment-admin"; ac_role := "admin" |}]> ∅ in
  match environ !! "NANODELTA_BACKEND_KEYS_PATH" with
  | None => Ok keys
  | Some role_file =>
      let unreadable := RuntimeError "NANODELTA_BACKEND_KEYS_PATH is unreadable or invalid JSON" in
      match json_files role_file with
      | None => Err unreadable
      | Some (JObj parsed) => role_keys parsed ["viewer"; "operator"; "admin"] keys
      | Some _ => Err (RuntimeError "NANODELTA_BACKEND_KEYS_PATH must contain a JSON object")
      end
  end.

(** Every configured key gives one of the three roles, and every role has its key
    unless two roles were given the same one. *)
Lemma role_keys_roles parsed roles : Forall (fun r => r ∈ ["viewer"; "operator"; "admin"]) roles -> forall keys keys',
  role_keys parsed roles keys = Ok keys' -> (forall k a, (k, a) ∈ entries keys -> a.(ac_role) ∈ ["viewer"; "operator"; "admin"]) ->
  forall k a, (k, a) ∈ entries keys' -> a.(ac_role) ∈ ["viewer"; "operator"; "admin"].
Proof.
  induction 1 as [|role roles Hr _ IH]; intros keys keys'; cbn [role_keys]; [by intros [= <-]|].
  destruct (jget role parsed) as [[| | | |value| |]|]; try done. intros ([] & _ & E)%result_bind_ok Hk. apply (IH _ _ E).
  intros k a [Hin|[-> ->]]%dict_insert_entries_inv; [by eapply Hk|done].
Qed.
Theorem api_keys_roles environ files json_files keys k a : api_keys environ files json_files = Ok keys -> (k, a) ∈ entries keys -> a.(ac_role) ∈ ["viewer"; "operator"; "admin"].
Proof.
  unfold api_keys. intros (secret & _ & E)%result_bind_ok. revert E. set (one := insert secret _ _).
  assert (Hone : forall k a, (k, a) ∈ entries one -> a.(ac_role) ∈ ["viewer"; "operator"; "admin"]).
  { intros k' a' [H%elem_of_nil|[-> ->]]%dict_insert_entries_inv; [done|]. do 2 right. left. }
  destruct (environ !! _) as [file|]; [|intros [= <-]; apply Hone]. destruct (json_files file) as [[| | | | | |parsed]|]; try done.
  intros E. refine (role_keys_roles _ _ _ _ _ E Hone k a). repeat constructor.
Qed.

Module ApiExample.
Definition noon : datetime := at_utc (1709208000 * second).
Definition no_outside : nat -> Outside := fun _ => {| ou_now := 0; ou_db_now := 0; ou_uuid := fun _ => "id"; ou_secret := "s"; ou_salt := "salt"; ou_fault := None |}.
Definition operator : Actor := {| ac_actor_id := "ui-operator"; ac_role := "operator" |}.
Definition reader : Actor := {| ac_actor_id := "ui-viewer"; ac_role := "viewer" |}.
Definition job : HistoryJob := {|
  hj_market := NSE; hj_symbol := "TCS"; hj_timeframe := "5m"; hj_provider_symbols := Dict [(DHAN, "TCS")]; hj_target_days := 730; hj_overlap_bars := 3;
  hj_request_limit := 1000; hj_window_start := None; hj_window_end := None |}.
(** An engine that counts its repairs; like the history engine it first
    demands gaps with a timezone. *)
Definition engine : Engine nat := {|
  en_status _ _ _ := Err (LookupError "no status");
  en_repair _ gaps _ n := match map_result (fun gap => utc gap "gap") gaps with Ok _ => (Ok [], S n) | Err e => (Err e, n) end |}.
Definition services : ApiServices nat ReadRecords := {|
  sv_positions := fun _ => []; sv_outcomes := fun _ => []; sv_history_engines := fun _ => Some engine;
  sv_history_jobs := fun p => if bool_decide (p = (NSE, "TCS", "5m")) then Some job else None;
  sv_api_keys := Dict [("op-key", operator); ("view-key", reader)]; sv_finops := None; sv_qwen_gateway := None; sv_decision_ledger := None;
  sv_read_store := Some memory_page; sv_history_unavailable_reason := None; sv_security := None |}.
Definition with_key (key : string) : HttpCall := {| ca_key := Some key; ca_authorization := None; ca_host := None; ca_now := noon; ca_outside := no_outside |}.
Definition trade (pnl : float) : record := Dict [("market", Val (JStr "nse")); ("net_pnl", Val (JFloat pnl)); ("gross_pnl", Val (JFloat pnl)); ("total_fees", Val (JFloat 1))].
Definition world : ApiWorld nat ReadRecords := MkApi (MkDb (seeded noon) new_store []) {| at_users := []; at_throttle := []; at_sessions := []; at_api_keys := []; at_audit := [] |}
  empty_finops 0%nat (Dict [("trades", [trade 5; trade (-3); trade 4])]).
Definition no_scrypt : string -> string -> Z -> Z -> Z -> result string := fun _ _ _ _ _ => Ok "".
Definition ist : Z -> Z := fun _ => 5 * hour + 30 * minute.

(** A start by the operator is queued and audited; by the viewer it is refused. *)
Definition start_request : request := ReqCommand "nse" "start" true "k1".
Definition started := Eval vm_compute in serve no_scrypt ist ∅ services (with_key "op-key") start_request world.
Lemma mutations_authorised_witness :
  started.1 = Ok () /\ length started.2.(aw_ops).(db_tables).(ot_audit) = 1%nat /\
  (quiet world started.2 \/ exists actor, (authenticate services (with_key "op-key") world).1 = Ok actor /\ permitted start_request actor world started.2).
Proof.
  split; [reflexivity|]. split; [reflexivity|].
  exact (mutations_authorised no_scrypt ist ∅ services (with_key "op-key") start_request world (Ok ()) started.2 ltac:(vm_compute; reflexivity)).
Defined.
Example viewer_cannot_start : serve no_scrypt ist ∅ services (with_key "view-key") start_request world = (Err (http_error 403 "operator or admin role is required"), world).
Proof. vm_compute. reflexivity. Qed.
Example performance_of_trades : (performance_route services (with_key "view-key") "nse" world).1 =
  Ok {| pf_market := "nse"; pf_closed_trades := 3; pf_gross_pnl := 6; pf_net_pnl := 6; pf_total_fees := 3; pf_wins := 2; pf_win_rate := Some 0x1.5555555555555p-1%float; pf_freshest_at := None |}.
Proof. vm_compute. reflexivity. Qed.
Lemma all_rows_complete_witness : exists first,
  all_rows services "trades" NSE ∅ world = (Ok (first, [trade 5; trade (-3); trade 4]), world) /\ first.(pg_total) = 3.
Proof. exact (all_rows_complete services eq_refl "trades" NSE ∅ world). Defined.

(** A key that was used for another command is reported as an unknown one. *)
Example reused_key_is_unknown_command :
  (serve no_scrypt ist ∅ services (with_key "op-key") (ReqCommand "nse" "stop" true "k1") started.2).1 = Err (http_error 404 "unknown runtime command").
Proof. vm_compute. reflexivity. Qed.

(** A repair that fails after it was audited is not repeated: the retry under
    the same key, with the gap corrected, answers with success and no runs,
    and the engine has repaired nothing. *)
Definition repair_with (gap : datetime) := history_repair_route services (with_key "op-key") "nse" "TCS" "5m" [gap] true "k2".
Definition failed_repair := Eval vm_compute in repair_with (Datetime 0 None) world.
Example retried_repair_does_nothing :
  failed_repair.1 = Err (http_error 409 "gap must be timezone-aware") /\
  exists body, repair_with noon failed_repair.2 = (Ok body, failed_repair.2) /\ body.(re_runs) = [] /\ failed_repair.2.(aw_history) = 0%nat.
Proof. split; [reflexivity|]. eexists. split; [vm_compute; reflexivity|]. split; reflexivity. Qed.

(** Two roles with one key: the key silently gets the higher role. *)
Example shared_key_is_admin :
  api_keys (Dict [("NANODELTA_ADMIN_API_KEY_FILE", "admin"); ("NANODELTA_BACKEND_KEYS_PATH", "keys")])
    (fun _ => Some "root") (fun _ => Some (JObj [("viewer", JStr "same"); ("operator", JStr "same"); ("admin", JStr "same")])) =
  Ok (Dict [("root", {| ac_actor_id := "deployment-admin"; ac_role := "admin" |}); ("same", {| ac_actor_id := "ui-admin"; ac_role := "admin" |})]).
Proof. vm_compute. reflexivity. Qed.
Lemma api_keys_roles_witness : "admin" ∈ ["viewer"; "operator"; "admin"].
Proof.
  exact (api_keys_roles (Dict [("NANODELTA_ADMIN_API_KEY_FILE", "admin")]) (fun _ => Some "root") (fun _ => None) (Dict [("root", {| ac_actor_id := "deployment-admin"; ac_role := "admin" |})])
    "root" {| ac_actor_id := "deployment-admin"; ac_role := "admin" |} eq_refl ltac:(left)).
Defined.
End ApiExample.
