(* ===== verification/StateStores.v ===== *)
(** * The tables of the backfill and of the realtime feeds
    (src/nanodelta/history/postgres.py, runtime/feed_state.py)

    The durable counterparts of the history state and of the feed state that
    [History] and [Realtime] use: every write is one committed statement, every
    read a query of its own.

    The theorems: whatever writes fail, the history tables answer as the
    in-memory state does after the writes that returned; a feed's state is
    loaded as it was last saved, and its sequence numbers are the highest that
    were saved. *)

From Stdlib Require Import ZArith Lia Ascii String ZifyBool.
From stdpp Require Import prelude strings numbers list.
From S2P Require Import Prelude PyData PyText PyTime Sql Db Contracts Timeframes Realtime History.

Local Open Scope Z_scope.

(** ** PostgresHistoryState *)

(** A row of {market}_silver.candles, as far as the history reads it. *)
Record CoveredRow := { cv_market : Market; cv_symbol : string; cv_timeframe : string; cv_open_time : datetime; cv_is_settled : bool }.
Record HistoryTables := {
  hx_candles : list CoveredRow;
  hx_watermarks : list Watermark;
  hx_runs : list HistoryRun }.
Definition set_watermarks (f : list Watermark -> list Watermark) (t : HistoryTables) : HistoryTables := {|
  hx_candles := t.(hx_candles); hx_watermarks := f t.(hx_watermarks); hx_runs := t.(hx_runs) |}.
Definition set_runs (f : list HistoryRun -> list HistoryRun) (t : HistoryTables) : HistoryTables := {|
  hx_candles := t.(hx_candles); hx_watermarks := t.(hx_watermarks); hx_runs := f t.(hx_runs) |}.

Section HistoryStore.
Context {L : Type}.
Abbreviation Durable := (Db HistoryTables L).

Definition settled_in (k : series) (r : CoveredRow) : bool :=
  bool_decide ((r.(cv_market), r.(cv_symbol), r.(cv_timeframe)) = k) && r.(cv_is_settled).
Definition durable_covered (k : series) : M Durable (list datetime) :=
  reading (query (fun t => Ok (remove_dups (cv_open_time <$> List.filter (settled_in k) t.(hx_candles))))).
(** The candle was stored by the pipeline. *)
Definition durable_record_open (k : series) (value : datetime) : M Durable unit := mret ().

Definition marks (k : Market * Provider * string * string) (w : Watermark) : bool := bool_decide (watermark_key w = k).
Definition durable_watermark (m : Market) (p : Provider) (symbol timeframe : string) : M Durable (option Watermark) :=
  reading (query (fun t => Ok (List.find (marks (m, p, symbol, timeframe)) t.(hx_watermarks)))).
Definition with_times (w : Watermark) (event_time updated_at : datetime) : Watermark := {|
  wm_market := w.(wm_market); wm_provider := w.(wm_provider); wm_symbol := w.(wm_symbol); wm_timeframe := w.(wm_timeframe);
  wm_event_time := event_time; wm_updated_at := updated_at |}.
Definition watermark_row (w : Watermark) : Watermark := with_times w (timestamptz w.(wm_event_time)) (timestamptz w.(wm_updated_at)).
(** [GREATEST] of two timestamps *)
Definition greatest (a b : datetime) : datetime := if instant a <? instant b then b else a.
Definition put_watermark (value : Watermark) (rows : list Watermark) : list Watermark :=
  let row := watermark_row value in
  upsert (marks (watermark_key value)) row (fun old => with_times old (greatest old.(wm_event_time) row.(wm_event_time)) row.(wm_updated_at)) rows.
Definition durable_commit_watermark (value : Watermark) : M Durable unit :=
  committed (execute_sql (modify (set_watermarks (put_watermark value)))).

Definition run_row (r : HistoryRun) : HistoryRun := {|
  hr_run_id := r.(hr_run_id); hr_market := r.(hr_market); hr_symbol := r.(hr_symbol); hr_timeframe := r.(hr_timeframe); hr_state := r.(hr_state);
  hr_started_at := timestamptz r.(hr_started_at); hr_finished_at := timestamptz <$> r.(hr_finished_at); hr_provider := r.(hr_provider);
  hr_rows_received := r.(hr_rows_received); hr_bronze_created := r.(hr_bronze_created); hr_silver_created := r.(hr_silver_created); hr_error := r.(hr_error) |}.
(** [DO UPDATE SET state, finished_at, provider, ...]: the rest of the row stays. *)
Definition rerun (new old : HistoryRun) : HistoryRun := {|
  hr_run_id := old.(hr_run_id); hr_market := old.(hr_market); hr_symbol := old.(hr_symbol); hr_timeframe := old.(hr_timeframe); hr_state := new.(hr_state);
  hr_started_at := old.(hr_started_at); hr_finished_at := new.(hr_finished_at); hr_provider := new.(hr_provider);
  hr_rows_received := new.(hr_rows_received); hr_bronze_created := new.(hr_bronze_created); hr_silver_created := new.(hr_silver_created); hr_error := new.(hr_error) |}.
Definition is_run (id : string) (r : HistoryRun) : bool := r.(hr_run_id) ==p id.
Definition put_run (run : HistoryRun) (rows : list HistoryRun) : list HistoryRun := upsert (is_run run.(hr_run_id)) (run_row run) (rerun (run_row run)) rows.
Definition durable_save_run (run : HistoryRun) : M Durable unit := committed (execute_sql (modify (set_runs (put_run run)))).

Definition run_in (m : Market) (symbol timeframe : string) (state : HistoryRunState) (run : HistoryRun) : bool :=
  bool_decide (run.(hr_market) = m) && String.eqb run.(hr_symbol) symbol && String.eqb run.(hr_timeframe) timeframe && bool_decide (run.(hr_state) = state).
Definition durable_has_run_state (m : Market) (symbol timeframe : string) (state : HistoryRunState) : M Durable bool :=
  reading (query (fun t => Ok (existsb (run_in m symbol timeframe state) t.(hx_runs)))).

(** ** The writes of the history *)

Inductive history_write := WriteWatermark (value : Watermark) | WriteRun (run : HistoryRun).
Definition durable_write (op : history_write) : M Durable unit :=
  match op with WriteWatermark v => durable_commit_watermark v | WriteRun r => durable_save_run r end.
Definition memory_write (op : history_write) : M HistoryState unit :=
  match op with WriteWatermark v => commit_watermark v | WriteRun r => save_run r end.
(** The tables after some writes, and the memory after those of them that
    returned. *)
Fixpoint both_write (ops : list history_write) (d : Durable) (s : HistoryState) : Durable * HistoryState :=
  match ops with
  | [] => (d, s)
  | op :: ops =>
      match durable_write op d with
      | (Ok _, d') => both_write ops d' (memory_write op s).2
      | (Err _, d') => both_write ops d' s
      end
  end.

(** Times are aware, and the identity of a run gives its series and start. *)
Context (identity : string -> Market * string * string * Z).
Definition run_known (r : HistoryRun) : Prop := identity r.(hr_run_id) = (r.(hr_market), r.(hr_symbol), r.(hr_timeframe), instant r.(hr_started_at)).
Definition write_ok (op : history_write) : Prop :=
  match op with WriteWatermark v => aware v.(wm_event_time) = true | WriteRun r => run_known r end.

Record related (t : HistoryTables) (s : HistoryState) : Prop := {
  rl_watermarks : forall k, (fun w => instant w.(wm_event_time)) <$> List.find (marks k) t.(hx_watermarks) = (fun w => instant w.(wm_event_time)) <$> s.(hs_watermarks) !! k;
  rl_aware : forall k w, s.(hs_watermarks) !! k = Some w -> aware w.(wm_event_time) = true;
  rl_runs : forall id, List.find (is_run id) t.(hx_runs) = run_row <$> s.(hs_runs) !! id;
  rl_known : forall id r, s.(hs_runs) !! id = Some r -> run_known r /\ r.(hr_run_id) = id;
  rl_wf : dict_wf s.(hs_runs);
  rl_unique : NoDup (hr_run_id <$> t.(hx_runs)) }.

Lemma instant_timestamptz d : instant (timestamptz d) = instant d.
Proof. unfold timestamptz, instant at 1. simpl. lia. Qed.
Lemma marks_iff k w : marks k w = true <-> watermark_key w = k.
Proof. apply bool_decide_eq_true. Qed.
Lemma is_run_iff id r : is_run id r = true <-> r.(hr_run_id) = id.
Proof. unfold is_run. by rewrite py_eq_true. Qed.

Lemma related_watermark t s v : aware v.(wm_event_time) = true -> related t s ->
  exists s', commit_watermark v s = (Ok (), s') /\ related (set_watermarks (put_watermark v) t) s'.
Proof.
  intros Ha [Hw Haw Hr Hk Hwf Hu]. pose proof (Hw (watermark_key v)) as Hwk.
  set (s1 := {| hs_watermarks := <[watermark_key v := v]> s.(hs_watermarks); hs_coverage := s.(hs_coverage); hs_runs := s.(hs_runs) |}).
  set (newer := match s.(hs_watermarks) !! watermark_key v with None => true | Some c => instant c.(wm_event_time) <=? instant v.(wm_event_time) end).
  assert (Hmem : commit_watermark v s = (Ok (), if newer then s1 else s)).
  { unfold commit_watermark, newer, mbind, M_bind, get_state, lift. destruct (hs_watermarks s !! watermark_key v) as [c|] eqn:E.
    - unfold dt_le. rewrite (Haw _ _ E), Ha. simpl. by destruct (instant (wm_event_time c) <=? instant (wm_event_time v)).
    - done. }
  exists (if newer then s1 else s). split; [done|].
  assert (Hfind : forall k, (fun w => instant w.(wm_event_time)) <$> List.find (marks k) (put_watermark v t.(hx_watermarks)) =
    if decide (watermark_key v = k) then Some (match s.(hs_watermarks) !! k with Some c => Z.max (instant c.(wm_event_time)) (instant v.(wm_event_time)) | None => instant v.(wm_event_time) end)
    else (fun w => instant w.(wm_event_time)) <$> s.(hs_watermarks) !! k).
  { intros k. unfold put_watermark. destruct (decide _) as [<-|Hne].
    - rewrite find_upsert; [|by apply marks_iff|]; [|intros r Hm%marks_iff; by apply marks_iff].
      rewrite fmap_Some. eexists. split; [reflexivity|]. destruct (List.find _ _) as [old|]; destruct (hs_watermarks s !! watermark_key v) as [c|]; try done; simpl in *.
      + injection Hwk as Hwk. unfold greatest. rewrite !instant_timestamptz. destruct (instant (wm_event_time old) <? instant (wm_event_time v)) eqn:E; [rewrite instant_timestamptz|]; lia.
      + by rewrite instant_timestamptz.
    - rewrite find_upsert_other; [apply Hw| |].
      + apply not_true_iff_false. by intros Hm%marks_iff.
      + intros r Hm%marks_iff. split; apply not_true_iff_false; intros Hm'%marks_iff; apply Hne; by rewrite <- Hm, <- Hm'. }
  split; try done.
  - intros k. cbn [hx_watermarks set_watermarks]. rewrite Hfind. unfold newer. destruct (decide _) as [<-|Hne].
    + destruct (hs_watermarks s !! watermark_key v) as [c|] eqn:E; [destruct (instant (wm_event_time c) <=? instant (wm_event_time v)) eqn:El|]; cbn [hs_watermarks s1].
      * rewrite dict_lookup_insert_eq. simpl. f_equal. lia.
      * rewrite E. simpl. f_equal. lia.
      * by rewrite dict_lookup_insert_eq.
    + destruct (hs_watermarks s !! watermark_key v) as [c|]; [destruct (_ <=? _)|]; cbn [hs_watermarks s1]; by rewrite ?dict_lookup_insert_ne.
  - intros k w. unfold newer, s1. destruct (hs_watermarks s !! watermark_key v) as [c|]; [destruct (_ <=? _)|]; cbn [hs_watermarks];
      try apply Haw; rewrite dict_lookup_insert; (destruct (decide _); [by intros [= <-]|apply Haw]).
  - intros id. destruct newer; apply Hr.
  - intros id r. destruct newer; apply Hk.
  - by destruct newer.
Qed.

Lemma rerun_row new old : run_known new -> run_known old -> new.(hr_run_id) = old.(hr_run_id) -> rerun (run_row new) (run_row old) = run_row new.
Proof.
  unfold run_known. intros Hn Ho E. rewrite E, Ho in Hn. injection Hn as H1 H2 H3 H4. unfold rerun, run_row. simpl. unfold timestamptz. by rewrite E, H1, H2, H3, H4.
Qed.
Lemma put_run_ids run rows : NoDup (hr_run_id <$> rows) -> NoDup (hr_run_id <$> put_run run rows).
Proof.
  intros Hnd. unfold put_run, upsert. destruct (existsb (is_run (hr_run_id run)) rows) eqn:E.
  - replace (hr_run_id <$> update_where (is_run (hr_run_id run)) (rerun (run_row run)) rows) with (hr_run_id <$> rows); [done|].
    unfold update_where. rewrite <- list_fmap_compose. apply list_fmap_ext. intros i r _. simpl. by destruct (is_run _ r).
  - rewrite fmap_app. apply NoDup_app. split; [done|]. split; [|apply NoDup_singleton]. intros id (r & -> & Hr)%list_elem_of_fmap. simpl.
    rewrite list_elem_of_singleton. intros Eid. assert (existsb (is_run (hr_run_id run)) rows = true) as Hx; [|by rewrite Hx in E].
    apply existsb_exists. exists r. rewrite <- list_elem_of_In. split; [done|]. by apply is_run_iff.
Qed.
Lemma related_run t s run : run_known run -> related t s ->
  exists s', save_run run s = (Ok (), s') /\ related (set_runs (put_run run) t) s'.
Proof.
  intros Hrun [Hw Haw Hr Hk Hwf Hu]. eexists. split; [reflexivity|]. split; try done; cbn [hx_runs set_runs hs_runs].
  - intros id. rewrite dict_lookup_insert. unfold put_run. destruct (decide _) as [<-|Hne].
    + rewrite find_upsert; [|by apply is_run_iff|intros r E%is_run_iff; by apply is_run_iff]. rewrite Hr. destruct (hs_runs s !! hr_run_id run) as [old|] eqn:E; [|done].
      simpl. f_equal. destruct (Hk _ _ E) as [Ho Hid]. by apply rerun_row.
    + rewrite find_upsert_other; [apply Hr|apply not_true_iff_false; by intros E%is_run_iff|].
      intros r E%is_run_iff. split; apply not_true_iff_false; intros E'%is_run_iff; apply Hne; by rewrite <- E, <- E'.
  - intros id r. rewrite dict_lookup_insert. destruct (decide _) as [<-|]; [by intros [= <-]|apply Hk].
  - by apply dict_wf_insert.
  - by apply put_run_ids.
Qed.

Lemma related_write op (d : Durable) s r d' : write_ok op -> related d.(db_tables) s -> durable_write op d = (r, d') ->
  related d'.(db_tables) (match r with Ok _ => (memory_write op s).2 | Err _ => s end).
Proof.
  intros Ho Hrel E. destruct op as [v|run]; cbn [durable_write memory_write write_ok] in *.
  - pose proof (committed_effect (modify (set_watermarks (put_watermark v))) d) as Hc. unfold durable_commit_watermark in E. rewrite E in Hc.
    destruct r as [[]|e]; [|by rewrite Hc]. injection Hc as <-. destruct (related_watermark _ _ v Ho Hrel) as (s' & -> & H). done.
  - pose proof (committed_effect (modify (set_runs (put_run run))) d) as Hc. unfold durable_save_run in E. rewrite E in Hc.
    destruct r as [[]|e]; [|by rewrite Hc]. injection Hc as <-. destruct (related_run _ _ run Ho Hrel) as (s' & -> & H). done.
Qed.
Lemma related_writes ops : Forall write_ok ops -> forall (d : Durable) s, related d.(db_tables) s ->
  related (both_write ops d s).1.(db_tables) (both_write ops d s).2.
Proof.
  induction 1 as [|op ops Ho _ IH]; intros d s Hrel; cbn [both_write]; [done|].
  destruct (durable_write op d) as [[u|e] d'] eqn:E; apply IH; apply (related_write op _ _ _ _ Ho Hrel E).
Qed.

Lemma related_has_run t s m symbol timeframe state : related t s -> existsb (run_in m symbol timeframe state) t.(hx_runs) = has_run_state s m symbol timeframe state.
Proof.
  intros [_ _ Hr Hk Hwf Hu]. apply eq_true_iff_eq. unfold has_run_state. rewrite !existsb_exists. split.
  - intros (row & Hin & Hp). assert (Hf : List.find (is_run row.(hr_run_id)) t.(hx_runs) = Some row).
    { clear -Hin Hu. induction (hx_runs t) as [|x l IH]; [done|]. simpl in Hin. rewrite fmap_cons in Hu. apply NoDup_cons in Hu as [Hx Hu]. simpl.
      destruct Hin as [->|Hin]; [by rewrite (proj2 (is_run_iff _ _) eq_refl)|]. destruct (is_run _ x) eqn:E; [|by apply IH].
      apply is_run_iff in E. exfalso. apply Hx. rewrite E. apply list_elem_of_fmap_2. by apply list_elem_of_In. }
    rewrite Hr in Hf. destruct (hs_runs s !! hr_run_id row) as [run|] eqn:E; [|done]. injection Hf as <-. exists run. split; [|done].
    apply list_elem_of_In. apply dict_lookup_elem in E. unfold dict_values. by apply (list_elem_of_fmap_2 snd) in E.
  - intros (run & Hin & Hp). apply list_elem_of_In, list_elem_of_fmap in Hin as ([id run'] & -> & Hin). cbn in Hp.
    assert (E : hs_runs s !! id = Some run') by (by apply dict_elem_lookup). pose proof (Hr id) as Hf. rewrite E in Hf. simpl in Hf. apply find_some in Hf as [Hf _].
    exists (run_row run'). done.
Qed.

(** The history tables answer as the in-memory state.  Whatever writes fail,
    the watermark of a provider's series has the event time that the memory
    has after the writes that returned, and a run is in a state exactly when
    it is in memory. *)
Theorem history_tables_refine ops t l faults : Forall write_ok ops -> related t {| hs_watermarks := ∅; hs_coverage := ∅; hs_runs := ∅ |} ->
  let '(d, s) := both_write ops (MkDb t l faults) {| hs_watermarks := ∅; hs_coverage := ∅; hs_runs := ∅ |} in
  (forall m p symbol timeframe r d', durable_watermark m p symbol timeframe d = (Ok r, d') ->
     (fun w => instant w.(wm_event_time)) <$> r = (fun w => instant w.(wm_event_time)) <$> watermark s m p symbol timeframe /\ d'.(db_tables) = d.(db_tables)) /\
  (forall m symbol timeframe state b d', durable_has_run_state m symbol timeframe state d = (Ok b, d') ->
     b = has_run_state s m symbol timeframe state /\ d'.(db_tables) = d.(db_tables)).
Proof.
  intros Ho H0. pose proof (related_writes ops Ho (MkDb t l faults) _ H0) as Hrel. destruct (both_write _ _ _) as [d s]. simpl in Hrel. split.
  - intros m p symbol timeframe r d' (Ht & _ & E)%reading_query. specialize (E _ eq_refl). injection E as <-. split; [|done]. apply Hrel.
  - intros m symbol timeframe state b d' (Ht & _ & E)%reading_query. specialize (E _ eq_refl). injection E as <-. split; [|done]. by apply related_has_run.
Qed.
End HistoryStore.

(** ** PostgresFeedStateStore *)

Record SequenceRow := { sq_market : Market; sq_provider : Provider; sq_symbol : string; sq_last_sequence : Z; sq_gap_count : Z }.
Record FeedTables := { fx_state : list FeedStateRecord; fx_sequences : list SequenceRow }.

Section FeedStore.
Context {L : Type}.
Abbreviation Feeds := (Db FeedTables L).

Definition of_feed (m : Market) (r : FeedStateRecord) : bool := bool_decide (r.(fr_feed_market) = m).
Definition add_sequence (d : sequences) (r : SequenceRow) : sequences := <[(r.(sq_provider), r.(sq_symbol)) := r.(sq_last_sequence)]> d.
Definition feed_load (m : Market) : M Feeds (option FeedStateRecord * sequences) :=
  _ ← db_call;
  record ← execute_sql (query (fun t => Ok (List.find (of_feed m) t.(fx_state))));
  rows ← execute_sql (query (fun t => Ok (List.filter (fun r => bool_decide (r.(sq_market) = m)) t.(fx_sequences))));
  mret (record, foldl add_sequence ∅ rows).

Definition feed_row (r : FeedStateRecord) : FeedStateRecord := {|
  fr_feed_market := r.(fr_feed_market); fr_active_provider := r.(fr_active_provider); fr_state := r.(fr_state); fr_connected_at := timestamptz r.(fr_connected_at);
  fr_last_event_at := timestamptz <$> r.(fr_last_event_at); fr_gap_count := r.(fr_gap_count); fr_failover_count := r.(fr_failover_count);
  fr_last_error := r.(fr_last_error); fr_failed_over_at := timestamptz <$> r.(fr_failed_over_at); fr_fallback_available := r.(fr_fallback_available);
  fr_status_detail := r.(fr_status_detail) |}.
(** The constraints of the table (migrations/0014_realtime_feed_state.sql). *)
Definition feed_checks (r : FeedStateRecord) : bool :=
  bool_decide (r.(fr_state) ∈ ["HEALTHY"; "DEGRADED"; "FAILED_OVER"]) && (0 <=? r.(fr_gap_count)) && (0 <=? r.(fr_failover_count)).
Definition put_feed (r : FeedStateRecord) (t : FeedTables) : FeedTables := {|
  fx_state := upsert (of_feed r.(fr_feed_market)) (feed_row r) (fun _ => feed_row r) t.(fx_state); fx_sequences := t.(fx_sequences) |}.
Definition feed_save (r : FeedStateRecord) : M Feeds unit := committed (execute_sql (_ ← lift (check (feed_checks r)); modify (put_feed r))).

Definition sequence_key (r : SequenceRow) : Market * Provider * string := (r.(sq_market), r.(sq_provider), r.(sq_symbol)).
Definition sequenced (k : Market * Provider * string) (r : SequenceRow) : bool := bool_decide (sequence_key r = k).
Definition raised (sequence gap_delta : Z) (r : SequenceRow) : SequenceRow := {|
  sq_market := r.(sq_market); sq_provider := r.(sq_provider); sq_symbol := r.(sq_symbol);
  sq_last_sequence := Z.max r.(sq_last_sequence) sequence; sq_gap_count := r.(sq_gap_count) + gap_delta |}.
Definition put_sequence (m : Market) (p : Provider) (symbol : string) (sequence gap_delta : Z) (t : FeedTables) : FeedTables := {|
  fx_state := t.(fx_state);
  fx_sequences := upsert (sequenced (m, p, symbol))
    {| sq_market := m; sq_provider := p; sq_symbol := symbol; sq_last_sequence := sequence; sq_gap_count := gap_delta |} (raised sequence gap_delta) t.(fx_sequences) |}.
Definition feed_save_sequence (m : Market) (p : Provider) (symbol : string) (sequence gap_delta : Z) : M Feeds unit :=
  committed (execute_sql (
    t ← get_state;
    let held := match List.find (sequenced (m, p, symbol)) t.(fx_sequences) with Some r => r.(sq_gap_count) | None => 0 end in
    _ ← lift (check (0 <=? gap_delta));
    _ ← lift (check (0 <=? held + gap_delta));
    modify (put_sequence m p symbol sequence gap_delta))).
Definition feed_store : FeedStateStore Feeds := {| fs_load := feed_load; fs_save := feed_save; fs_save_sequence := feed_save_sequence |}.

(** Writes, and those of them that returned. *)
Inductive feed_write := SaveFeed (r : FeedStateRecord) | SaveSequence (m : Market) (p : Provider) (symbol : string) (sequence gap_delta : Z).
Definition run_feed (op : feed_write) : M Feeds unit :=
  match op with SaveFeed r => feed_store.(fs_save) r | SaveSequence m p s n g => feed_store.(fs_save_sequence) m p s n g end.
Definition apply_feed (t : FeedTables) (op : feed_write) : FeedTables :=
  match op with SaveFeed r => put_feed r t | SaveSequence m p s n g => put_sequence m p s n g t end.
Fixpoint run_feeds (ops : list feed_write) (d : Feeds) : list feed_write * Feeds :=
  match ops with
  | [] => ([], d)
  | op :: ops =>
      match run_feed op d with
      | (Ok _, d') => let '(acks, d'') := run_feeds ops d' in (op :: acks, d'')
      | (Err _, d') => run_feeds ops d'
      end
  end.

(** What a reader should find: the last state of the market, the highest
    sequence of a symbol. *)
Definition last_saved (m : Market) (acks : list feed_write) : option FeedStateRecord :=
  foldl (fun acc op => match op with SaveFeed r => if of_feed m r then Some r else acc | _ => acc end) None acks.
Definition highest (m : Market) (p : Provider) (symbol : string) (acks : list feed_write) : option Z :=
  foldl (fun acc op => match op with
                       | SaveSequence m' p' s' n _ => if bool_decide ((m', p', s') = (m, p, symbol)) then Some (match acc with Some x => Z.max x n | None => n end) else acc
                       | _ => acc
                       end) None acks.

Lemma run_feed_effect op d r d' : run_feed op d = (r, d') -> d'.(db_tables) = match r with Ok _ => apply_feed d.(db_tables) op | Err _ => d.(db_tables) end.
Proof.
  destruct op as [rec|m p s n g]; cbn [run_feed feed_store fs_save fs_save_sequence apply_feed]; intros E.
  - pose proof (committed_effect (_ ← lift (check (feed_checks rec)); modify (put_feed rec)) d) as Hc. unfold feed_save in E. rewrite E in Hc.
    destruct r as [[]|e]; [|done]. unfold mbind, M_bind, lift in Hc. destruct (check _); [by injection Hc|done].
  - unfold feed_save_sequence in E. match type of E with committed (execute_sql ?m) _ = _ => pose proof (committed_effect m d) as Hc end. rewrite E in Hc.
    destruct r as [[]|e]; [|done]. unfold mbind, M_bind, lift, get_state in Hc. destruct (check (0 <=? g)); [|done]. destruct (check _); [by injection Hc|done].
Qed.
Lemma run_feeds_tables ops : forall d acks d', run_feeds ops d = (acks, d') -> d'.(db_tables) = foldl apply_feed d.(db_tables) acks.
Proof.
  induction ops as [|op ops IH]; intros d acks d'; cbn [run_feeds]; [by intros [= <- <-]|].
  destruct (run_feed op d) as [[u|e] d1] eqn:E; apply run_feed_effect in E.
  - destruct (run_feeds ops d1) as [acks1 d2] eqn:E2. intros [= <- <-]. rewrite (IH _ _ _ E2), E. done.
  - intros E2. by rewrite (IH _ _ _ E2), E.
Qed.

Definition no_feeds : FeedTables := {| fx_state := []; fx_sequences := [] |}.
Lemma tables_state acks m : List.find (of_feed m) (foldl apply_feed no_feeds acks).(fx_state) = feed_row <$> last_saved m acks.
Proof.
  unfold last_saved. induction acks as [|op acks IH] using rev_ind; [done|]. rewrite !foldl_app. simpl. destruct op as [r|]; [|exact IH]. cbn [apply_feed put_feed fx_state].
  unfold of_feed at 3. destruct (decide (fr_feed_market r = m)) as [<-|Hne].
  - rewrite bool_decide_eq_true_2 by done. rewrite find_upsert; [|by apply bool_decide_eq_true_2|intros; by apply bool_decide_eq_true_2]. by destruct (List.find _ _).
  - rewrite bool_decide_eq_false_2 by done. rewrite find_upsert_other; [exact IH|by apply bool_decide_eq_false_2|].
    intros x Hx%bool_decide_eq_true. split; apply bool_decide_eq_false_2; [congruence|done].
Qed.
Lemma highest_snoc m p symbol acks op : highest m p symbol (acks ++ [op]) =
  match op with
  | SaveSequence m' p' s' n _ => if bool_decide ((m', p', s') = (m, p, symbol)) then Some (match highest m p symbol acks with Some x => Z.max x n | None => n end) else highest m p symbol acks
  | _ => highest m p symbol acks
  end.
Proof. unfold highest. by rewrite foldl_app. Qed.
Lemma tables_sequences acks : NoDup (sequence_key <$> (foldl apply_feed no_feeds acks).(fx_sequences)) /\ forall m p symbol,
  sq_last_sequence <$> List.find (sequenced (m, p, symbol)) (foldl apply_feed no_feeds acks).(fx_sequences) = highest m p symbol acks.
Proof.
  induction acks as [|op acks [IHn IH]] using rev_ind; [split; [constructor|done]|]. rewrite foldl_app. cbn [foldl].
  destruct op as [r|m' p' s' n g]; [split; [exact IHn|]; intros m p symbol; rewrite highest_snoc; apply IH|].
  cbn [apply_feed put_sequence fx_sequences]. set (rows := fx_sequences _) in *. set (new := {| sq_market := m' |}). split.
  - unfold upsert. destruct (existsb _ rows) eqn:E.
    + replace (sequence_key <$> update_where _ _ rows) with (sequence_key <$> rows); [done|]. unfold update_where. rewrite <- list_fmap_compose.
      apply list_fmap_ext. intros i r _. simpl. by destruct (sequenced _ r).
    + rewrite fmap_app. apply NoDup_app. split; [done|]. split; [|apply NoDup_singleton]. intros k (r & -> & Hr)%list_elem_of_fmap. simpl.
      rewrite list_elem_of_singleton. intros Ek. apply (find_none_existsb) in E. apply list_elem_of_In in Hr. pose proof (find_none _ _ E _ Hr) as Hf. by apply bool_decide_eq_false in Hf.
  - intros m p symbol. rewrite highest_snoc. destruct (decide ((m', p', s') = (m, p, symbol))) as [Heq|Hne].
    + rewrite bool_decide_eq_true_2 by done. rewrite <- IH, Heq. rewrite find_upsert; [|apply bool_decide_eq_true_2; exact Heq|].
      * by destruct (List.find _ rows).
      * intros r Hr%bool_decide_eq_true. by apply bool_decide_eq_true_2.
    + rewrite bool_decide_eq_false_2 by done. rewrite find_upsert_other; [apply IH|by apply bool_decide_eq_false_2|].
      intros r Hr%bool_decide_eq_true. split; apply bool_decide_eq_false_2; [congruence|]. intros E. apply Hne. rewrite <- Hr. exact E.
Qed.

Lemma add_sequences_lookup rows k : NoDup ((fun r => (r.(sq_provider), r.(sq_symbol))) <$> rows) ->
  foldl add_sequence ∅ rows !! k = sq_last_sequence <$> List.find (fun r => bool_decide ((r.(sq_provider), r.(sq_symbol)) = k)) rows.
Proof.
  induction rows as [|r rows IH] using rev_ind; [done|]. rewrite fmap_app. intros (Hn & Hd & _)%NoDup_app. rewrite foldl_app, find_snoc. simpl. unfold add_sequence at 1.
  rewrite dict_lookup_insert, IH by done. destruct (decide _) as [<-|Hne].
  - destruct (List.find _ rows) as [x|] eqn:E; [|by rewrite bool_decide_eq_true_2]. apply find_some in E as [Hx%list_elem_of_In Hk%bool_decide_eq_true].
    exfalso. apply (Hd (sq_provider x, sq_symbol x)); [by apply (list_elem_of_fmap_2 (fun r => (r.(sq_provider), r.(sq_symbol))))|]. rewrite Hk. left.
  - destruct (List.find _ rows); [done|]. by rewrite bool_decide_eq_false_2.
Qed.
Lemma find_filter_key m p symbol rows :
  List.find (fun r => bool_decide ((r.(sq_provider), r.(sq_symbol)) = (p, symbol))) (List.filter (fun r => bool_decide (r.(sq_market) = m)) rows) =
  List.find (sequenced (m, p, symbol)) rows.
Proof.
  induction rows as [|r rows IH]; [done|]. simpl. unfold sequenced at 1, sequence_key. destruct (decide (sq_market r = m)) as [E|E].
  - rewrite bool_decide_eq_true_2 by done. simpl. rewrite IH. destruct (decide ((sq_provider r, sq_symbol r) = (p, symbol))) as [E2|E2].
    + rewrite !bool_decide_eq_true_2; [done|congruence|done].
    + rewrite !bool_decide_eq_false_2; [done|congruence|done].
  - rewrite bool_decide_eq_false_2, IH by done. by rewrite bool_decide_eq_false_2 by congruence.
Qed.
Lemma filter_keys_nodup m rows : NoDup (sequence_key <$> rows) ->
  NoDup ((fun r => (r.(sq_provider), r.(sq_symbol))) <$> List.filter (fun r => bool_decide (r.(sq_market) = m)) rows).
Proof.
  induction rows as [|r rows IH]; [constructor|]. rewrite fmap_cons. intros [Hr Hn]%NoDup_cons. simpl. destruct (bool_decide (sq_market r = m)) eqn:E; [|auto].
  rewrite fmap_cons. apply NoDup_cons. split; [|auto]. intros (x & Ex & Hx)%list_elem_of_fmap. apply Hr. apply list_elem_of_In, filter_In in Hx as [Hx Hm].
  apply bool_decide_eq_true in E, Hm. apply list_elem_of_fmap. exists x. split; [|by apply list_elem_of_In]. unfold sequence_key. congruence.
Qed.

(** A restarted feed goes on where it was: whatever writes of the feeds
    failed, loading a market gives the state it saved last, in UTC, and for
    every provider and symbol the highest sequence number that was saved. *)
Theorem feed_resumes ops l faults m record seqs d' : let '(acks, d) := run_feeds ops (MkDb no_feeds l faults) in
  feed_store.(fs_load) m d = (Ok (record, seqs), d') ->
  record = feed_row <$> last_saved m acks /\ (forall p symbol, seqs !! (p, symbol) = highest m p symbol acks) /\ d'.(db_tables) = d.(db_tables).
Proof.
  destruct (run_feeds ops _) as [acks d] eqn:E. apply run_feeds_tables in E. cbn [db_tables] in E. unfold feed_store, fs_load, feed_load, mbind, M_bind.
  destruct (db_call_effect d) as (r & fs & ->). destruct r as [[]|e]; [|done].
  destruct (execute_sql _ _) as [[rec|e] d1] eqn:E1; [|done]. apply execute_sql_effect in E1 as [_ E1]. injection E1 as E1 T1. cbn [db_tables] in *.
  destruct (execute_sql _ _) as [[rows|e] d2] eqn:E2; [|done]. apply execute_sql_effect in E2 as [_ E2]. injection E2 as E2 T2. intros [= <- <- <-].
  rewrite <- T1 in E2, T2. rewrite E in E1, E2. split; [|split].
  - by rewrite <- E1, tables_state.
  - intros p symbol. rewrite <- E2. rewrite add_sequences_lookup by (apply filter_keys_nodup, tables_sequences). rewrite find_filter_key. apply tables_sequences.
  - by rewrite <- T2.
Qed.
End FeedStore.

Module StateStoresExample.
Definition mark (t u : Z) : Watermark := {|
  wm_market := NSE; wm_provider := DHAN; wm_symbol := "TCS"; wm_timeframe := "5m"; wm_event_time := at_utc t; wm_updated_at := at_utc u |}.
Definition run (state : HistoryRunState) : HistoryRun := {|
  hr_run_id := "r1"; hr_market := NSE; hr_symbol := "TCS"; hr_timeframe := "5m"; hr_state := state; hr_started_at := at_utc 7; hr_finished_at := None;
  hr_provider := None; hr_rows_received := 0; hr_bronze_created := 0; hr_silver_created := 0; hr_error := None |}.
Definition identity : string -> Market * string * string * Z := fun _ => (NSE, "TCS", "5m", 7).
Definition empty_tables : HistoryTables := {| hx_candles := []; hx_watermarks := []; hx_runs := [] |}.
Definition no_history : HistoryState := {| hs_watermarks := ∅; hs_coverage := ∅; hs_runs := ∅ |}.
Definition writes : list history_write := [WriteRun (run RUNNING); WriteWatermark (mark 20 21); WriteWatermark (mark 10 31); WriteRun (run SUCCEEDED)].
(** The third write is the older one and the last one fails: the run stays RUNNING. *)
Definition faults : list (option exn) := [None; None; None; None; None; None; None; None; None; Some (OtherException "OperationalError" "gone")].
Definition after_writes := Eval vm_compute in both_write writes (MkDb empty_tables () faults) no_history.
Lemma empty_related : related identity empty_tables no_history.
Proof. split; try done; constructor. Qed.
Lemma history_tables_refine_witness :
  (durable_has_run_state NSE "TCS" "5m" RUNNING after_writes.1).1 = Ok true /\ has_run_state after_writes.2 NSE "TCS" "5m" RUNNING = true.
Proof.
  split; [vm_compute; reflexivity|].
  pose proof (history_tables_refine identity writes empty_tables () faults ltac:(repeat constructor) empty_related) as H.
  change (both_write writes (MkDb empty_tables () faults) {| hs_watermarks := ∅; hs_coverage := ∅; hs_runs := ∅ |}) with after_writes in H.
  destruct H as [_ H]. symmetry. eapply (proj1 (H NSE "TCS" "5m" RUNNING true _ ltac:(vm_compute; reflexivity))).
Defined.
(** An older watermark leaves the memory alone and moves the row's update time. *)
Example older_watermark_touches_row :
  (fun w => (instant w.(wm_event_time), instant w.(wm_updated_at))) <$> after_writes.1.(db_tables).(hx_watermarks) = [(20, 31)] /\
  (fun w => (instant w.(wm_event_time), instant w.(wm_updated_at))) <$> watermark after_writes.2 NSE DHAN "TCS" "5m" = Some (20, 21).
Proof. split; reflexivity. Qed.

Definition feed (state : string) (gaps : Z) : FeedStateRecord := {|
  fr_feed_market := NSE; fr_active_provider := DHAN; fr_state := state; fr_connected_at := at_utc 1; fr_last_event_at := None; fr_gap_count := gaps; fr_failover_count := 0;
  fr_last_error := None; fr_failed_over_at := None; fr_fallback_available := true; fr_status_detail := None |}.
Definition feed_writes : list feed_write :=
  [SaveFeed (feed "HEALTHY" 0); SaveSequence NSE DHAN "TCS" 5 0; SaveSequence NSE DHAN "TCS" 9 1; SaveFeed (feed "LOST" 1); SaveFeed (feed "DEGRADED" 1); SaveSequence NSE DHAN "TCS" 7 0].
Definition fed := Eval vm_compute in run_feeds feed_writes (MkDb no_feeds () []).
(** A state the table does not know is refused. *)
Lemma feed_resumes_witness : length fed.1 = 5%nat /\ exists record seqs,
  (feed_store.(fs_load) NSE fed.2).1 = Ok (record, seqs) /\ record = Some (feed "DEGRADED" 1) /\ seqs !! (DHAN, "TCS") = Some 9.
Proof.
  split; [reflexivity|]. exists (Some (feed "DEGRADED" 1)), (Dict [((DHAN, "TCS"), 9)]). split; [vm_compute; reflexivity|].
  pose proof (feed_resumes feed_writes () [] NSE (Some (feed "DEGRADED" 1)) (Dict [((DHAN, "TCS"), 9)]) fed.2) as H.
  change (run_feeds feed_writes (MkDb no_feeds () [])) with fed in H. destruct H as (Hr & Hs & _); [vm_compute; reflexivity|].
  split; [exact Hr|]. exact (Hs DHAN "TCS").
Defined.
End StateStoresExample.
