(* ===== verification/LakeStore.v ===== *)
(** * The record store in the database (src/nanodelta/persistence/postgres.py)

    The second implementation of the store the pipeline writes to.  A write is
    one committed insert that does nothing on a conflict; the raw events and
    the features are keyed by their record, the candles by symbol, timeframe
    and open time.  Columns hold the values of the record, times the UTC texts
    the records have.

    The theorems: a write adds one row or none, never changes one, and repeated
    adds nothing; of the candles of one bar the first one written stays,
    whichever provider the others come from. *)

From Stdlib Require Import ZArith Floats Lia Ascii String ZifyBool.
From stdpp Require Import prelude strings numbers list.
From S2P Require Import Prelude PyData PyText PyJson Sha256 PyTime Sql Db Contracts Adapters Etl.

Local Open Scope Z_scope.

(** A row with its table's market and layer, the values of its key as text, and its columns. *)
Record LakeRow := { lk_market : Market; lk_layer : string; lk_key : list string; lk_columns : payload }.

(** [record[key]] for the given keys *)
Definition column (record : payload) (key : string) : result (string * json) :=
  match jget key record with Some v => Ok (key, v) | None => Err (KeyError key) end.
Definition columns (record : payload) (keys : list string) : result payload := map_result (column record) keys.

(** [_bronze_insert] *)
Definition bronze_keys : list string := ["provider"; "event_type"; "provider_symbol"; "received_at"; "schema_version"].
Definition bronze_row (market : Market) (record_id : string) (record : payload) : result LakeRow :=
  let payload_text := dumps (jget_default record "payload" JNull) in
  row ← columns record bronze_keys;
  Ok {| lk_market := market; lk_layer := "bronze"; lk_key := [record_id];
        lk_columns := ("record_id", JStr record_id) :: row ++ [("payload_hash", JStr (Sha256.hexdigest payload_text)); ("payload", jget_default record "payload" JNull)] |}.
(** [_silver_insert] *)
Definition silver_keys : list string :=
  ["symbol"; "timeframe"; "open_time"; "provider"; "raw_record_id"; "open"; "high"; "low"; "close"; "volume"; "is_settled"; "schema_version"].
Definition silver_row (market : Market) (record : payload) : result LakeRow :=
  row ← columns record silver_keys;
  Ok {| lk_market := market; lk_layer := "silver"; lk_key := (fun kv => str_json kv.2) <$> take 3 row; lk_columns := row |}.
(** [_gold_insert] *)
Definition gold_keys : list string := ["candle_record_id"; "symbol"; "timeframe"; "event_time"; "feature_version"].
Definition gold_members : list string := "record_id" :: "market" :: gold_keys.
Definition gold_row (market : Market) (record_id : string) (record : payload) : result LakeRow :=
  let features := List.filter (fun kv => negb (bool_decide (kv.1 ∈ gold_members))) record in
  row ← columns record gold_keys;
  Ok {| lk_market := market; lk_layer := "gold"; lk_key := [record_id; str_json (jget_default record "event_time" JNull)];
        lk_columns := ("record_id", JStr record_id) :: row ++ [("features", JObj features)] |}.

Definition lake_row (market : Market) (layer record_id : string) (record : payload) : result LakeRow :=
  if String.eqb layer "bronze" then bronze_row market record_id record
  else if String.eqb layer "silver" then silver_row market record
  else if String.eqb layer "gold" then gold_row market record_id record
  else Err (ValueError ("unsupported layer: " +:+ layer)).

Section Store.
Context {L : Type}.
Abbreviation LakeDb := (Db (list LakeRow) L).

Definition row_key (r : LakeRow) : Market * string * list string := (r.(lk_market), r.(lk_layer), r.(lk_key)).
Definition conflicts (r r' : LakeRow) : bool := bool_decide (row_key r' = row_key r).
(** [INSERT ... ON CONFLICT DO NOTHING RETURNING ...] *)
Definition insert_row (r : LakeRow) : M (list LakeRow) bool := fun rows =>
  if existsb (conflicts r) rows then (Ok false, rows) else (Ok true, rows ++ [r]).
Definition postgres_write (market : Market) (layer : string) (event_time : datetime) (record_id : string) (record : payload) : M LakeDb bool :=
  row ← lift (lake_row market layer record_id record);
  committed (execute_sql (insert_row row)).
#[export] Instance postgres_store : RecordStore LakeDb := postgres_write.

Lemma write_outcome market layer event_time record_id record (d : LakeDb) r d' : store_write market layer event_time record_id record d = (r, d') ->
  match r with
  | Err _ => d'.(db_tables) = d.(db_tables)
  | Ok created => exists row, lake_row market layer record_id record = Ok row /\ created = negb (existsb (conflicts row) d.(db_tables)) /\
      d'.(db_tables) = if created then d.(db_tables) ++ [row] else d.(db_tables)
  end.
Proof.
  unfold store_write, postgres_store, postgres_write, mbind, M_bind, lift. destruct (lake_row market layer record_id record) as [row|e]; [|by intros [= <- <-]].
  intros E. pose proof (committed_effect (insert_row row) d) as Hc. rewrite E in Hc. destruct r as [created|e]; [|done].
  exists row. split; [done|]. unfold insert_row in Hc. destruct (existsb _ _); injection Hc as <- <-; done.
Qed.

(** Any writes, by any processes; those that raise leave the tables alone. *)
Record lake_write := { lw_market : Market; lw_layer : string; lw_event_time : datetime; lw_record_id : string; lw_record : payload }.
Definition run_write (w : lake_write) : M LakeDb bool := store_write w.(lw_market) w.(lw_layer) w.(lw_event_time) w.(lw_record_id) w.(lw_record).
Fixpoint run_writes (ws : list lake_write) (d : LakeDb) : LakeDb :=
  match ws with [] => d | w :: ws => run_writes ws (run_write w d).2 end.

Lemma run_writes_grow ws : forall d, d.(db_tables) `prefix_of` (run_writes ws d).(db_tables).
Proof.
  induction ws as [|w ws IH]; intros d; [done|]. cbn [run_writes]. etransitivity; [|apply IH]. destruct (run_write w d) as [r d1] eqn:E.
  apply (write_outcome _ _ w.(lw_event_time)) in E. cbn [snd]. destruct r as [created|e]; [|by rewrite E]. destruct E as (row & _ & _ & ->). destruct created; [by exists [row]|]. done.
Qed.
Lemma conflicts_prefix row rows rows' : rows `prefix_of` rows' -> existsb (conflicts row) rows = true -> existsb (conflicts row) rows' = true.
Proof. intros [k ->] H. by rewrite existsb_app, H. Qed.

(** A record that was written is not written again: after any further writes
    by any processes, whichever of them failed, every row is as it was, and
    the same write answers that nothing was created and adds nothing, or
    raises and adds nothing. *)
Theorem lake_writes_once w ws (d d1 : LakeDb) created : run_write w d = (Ok created, d1) ->
  d1.(db_tables) `prefix_of` (run_writes ws d1).(db_tables) /\
  forall r d2, run_write w (run_writes ws d1) = (r, d2) -> (r = Ok false \/ is_ok r = false) /\ d2.(db_tables) = (run_writes ws d1).(db_tables).
Proof.
  intros H. pose proof (run_writes_grow ws d1) as Hp. split; [done|]. apply (write_outcome _ _ w.(lw_event_time)) in H as (row & Hrow & Hc & Ht).
  assert (Hx : existsb (conflicts row) d1.(db_tables) = true).
  { rewrite Ht. destruct (existsb (conflicts row) (db_tables d)) eqn:E; subst created; simpl; [done|]. rewrite existsb_app. simpl.
    unfold conflicts at 2. rewrite bool_decide_eq_true_2 by done. by rewrite !orb_true_r. }
  apply (conflicts_prefix _ _ _ Hp) in Hx. intros r d2 E. apply (write_outcome _ _ w.(lw_event_time)) in E. destruct r as [again|e]; [|split; [by right|done]].
  destruct E as (row' & Hrow' & Hc' & Ht'). rewrite Hrow in Hrow'. injection Hrow' as <-. rewrite Hx in Hc'. subst again. split; [by left|done].
Qed.
End Store.

Module LakeStoreExample.
Definition candle (provider raw : string) (close : float) : payload := [
  ("symbol", JStr "BTC"); ("timeframe", JStr "5m"); ("open_time", JStr "2024-01-01T00:00:00+00:00"); ("provider", JStr provider); ("raw_record_id", JStr raw);
  ("open", JFloat 1); ("high", JFloat 3); ("low", JFloat 1); ("close", JFloat close); ("volume", JFloat 5); ("is_settled", JBool true); ("schema_version", JInt 1)].
Definition write_of (provider raw : string) (close : float) : lake_write := {|
  lw_market := CRYPTO; lw_layer := "silver"; lw_event_time := at_utc 0; lw_record_id := raw; lw_record := candle provider raw close |}.
Definition empty : Db (list LakeRow) unit := MkDb [] () [].
Definition okx_written := Eval vm_compute in run_write (write_of "okx" "a" 2) empty.
Lemma lake_writes_once_witness : okx_written.1 = Ok true /\
  forall r d2, run_write (write_of "okx" "a" 2) (run_writes [write_of "poloniex" "b" 2.5] okx_written.2) = (r, d2) -> r = Ok false \/ is_ok r = false.
Proof.
  split; [reflexivity|]. intros r d2 H.
  exact (proj1 (proj2 (lake_writes_once (write_of "okx" "a" 2) [write_of "poloniex" "b" 2.5] empty okx_written.2 true ltac:(vm_compute; reflexivity)) r d2 H)).
Defined.
(** The candle of another provider for the same bar is dropped. *)
Example first_provider_stays : (run_write (write_of "poloniex" "b" 2.5) okx_written.2) = (Ok false, okx_written.2).
Proof. vm_compute. reflexivity. Qed.
End LakeStoreExample.
